(* ===== verification/_CoqProject ===== *)
-Q . S2P
Prelude.v
SnEnv.v
SnRuntime.v
SnSpec.v
SnAmong.v
SnCode.v
SnLoops.v
SnStrings.v
SnClaims.v
Porter.v
PorterIso.v
English.v
EnglishIso.v
Norwegian.v
NorwegianIso.v
Swedish.v
SwedishIso.v
German.v
Spanish.v
SpanishIso.v
Portuguese.v
Italian.v
ItalianIso.v
Romanian.v
RomanianIso.v
Hungarian.v
HungarianIso.v
Russian.v
RussianKoi8.v
Dutch.v
DutchIso.v
French.v
FrenchIso.v
GermanIso.v
PortugueseIso.v
Turkish.v
Danish.v
DanishIso.v
Finnish.v
FinnishIso.v
Stemmer.v
StemmerAll.v
Regex.v
Utils.v
UrlEsc.v
Path.v
Url.v
UrlSplit.v
UrlWf.v
UrlRound.v
UrlClaims.v
Flex.v
Robots.v
RobotsLex.v
Classifier.v
Doc.v
Crawler.v
CrawlerInput.v
CrawlerInv.v
CrawlerClaims.v
Iostream.v
Bencode.v
Entity.v
Html.v
HtmlLex.v
HtmlScan.v
HtmlMarkup.v
HtmlClaims.v
BigHash.v
BigHashFs.v
BigHashLock.v
BigHashTable.v
BigHashClaims.v
UnicodeWrap.v
Spawn.v
LocalIndexer.v
GzStream.v
Net.v
Timer.v
EventLoop.v
