(* ===== verification/Prelude.v ===== *)
(** * Mycelium: a verification development

    Mycelium is a web crawler and indexer.  Pages are fetched by the crawler
    (src/src/crawler), which asks the URL classifier for the next address,
    obeys the rules of robots.txt and resolves the links of a page against
    the address of the page (src/src/common: Url, Path, utils).  The words of
    a page are reduced to their stems by the Snowball library
    (src/3rd_party/libstemmer_c), the C code of the repository.

    ** Data

    A [char], a [symbol] and an octet of a [std::string] are numbers in
    [0, 256); strings and buffers are [list Z].  A pointer into a buffer is an
    index, and every access is checked: reading or writing outside a buffer,
    dereferencing NULL, incrementing an end iterator and a failed assertion
    are undefined and give [None].  A C++ exception is a value of [exn].
    Code outside src/ is a parameter: the memory allocator is an oracle that
    may refuse any request.

    ** The Snowball library (C)

    - SnEnv: struct SN_env (header.h, api.h), the heap words in front of a
      buffer (size and capacity) and the allocator.
    - SnRuntime: runtime/api.c and runtime/utilities.c, one definition per
      function: create_s, increase_size, get_utf8, get_b_utf8, the grouping
      tests, the eq_s family, find_among, find_among_b, replace_s, slice_from_s,
      insert_s, assign_to and SN_create_env/SN_set_current.
    - SnSpec: what the runtime promises about a state ([holds k w z]: the buffer holds the word w) and the lemmas
      on each function of the runtime.
    - SnAmong: the binary search of find_among and find_among_b meets the
      linear search for the longest entry, for every sorted table whose
      substring links are right (checked by evaluation for every table) and
      whose entries have no condition.
    - SnCode: a small monad for generated code (states, failure of a test,
      memory errors, undefined behaviour) with one combinator per C idiom of
      the generator, and the weakest-precondition rules; SnLoops: rules for
      the scanning loops and for the sequence of [do] steps, for routines that
      lengthen the word and for the recursive routine of the Turkish stemmer,
      which keeps the text right of its cursor.
    - SnStrings: the string variables z->S[i] and the frame classes of the
      code that leaves them alone; among tables whose entries call a routine.
    - Porter, English, Norwegian, Swedish, Danish, German, Spanish, Portuguese,
      Italian, Romanian, Hungarian, Russian, Dutch, French, Finnish and
      Turkish: every table and every routine of the generated stemmers
      src_c/stem_UTF_8_<language>.c, statement for statement; PorterIso,
      EnglishIso, NorwegianIso, SwedishIso, DanishIso, GermanIso, SpanishIso,
      PortugueseIso, ItalianIso, HungarianIso, DutchIso, FrenchIso, FinnishIso
      (ISO-8859-1), RomanianIso (ISO-8859-2) and RussianKoi8 (KOI8-R): those
      of the single-byte encodings.  These are all 31 compiled stemmers.
    - Stemmer: libstemmer.c, modules.h and the class Stemmer that keeps one
      stemmer for a session, proved against the laws that the 24 stemmers
      without a string variable and without growth satisfy; StemmerAll: the
      table of modules.h with all 31 stemmers, and what each of them does.
      The laws are not said of Danish, Finnish and Turkish, nor of German and
      Portuguese in ISO-8859-1.
    - SnClaims: the statements about the runtime, and the search of a table
      whose entries have conditions (Finnish).

    Theorems: the runtime refines list operations (find_among_b gives the longest
    match whose condition holds, replace_s is list splicing, the UTF-8 readers decode); every
    generated stemmer terminates without undefined behaviour on every word in
    its buffer, whatever the allocator answers; sessions of the driver answer
    every line with what the module's stem function makes of it.  Three stemmers may lengthen the word (German and Portuguese
    on ISO-8859-1 at most double it, Turkish adds at most three symbols):
    their theorem asks for a buffer with that room, so that the buffer is not
    reallocated in between.  Danish and Finnish copy a piece of the word into
    z->S[0] and return -1 when the allocator refuses the copy; the variable
    is then NULL and the stemmer unusable.

    Loops of the generated code take fuel.  Each iteration moves the cursor or
    leaves the loop, so the length of the word plus one is enough; each level
    of the recursion in the Turkish stemmer moves the cursor to the left, and
    the same bound is enough.  Running out of fuel counts as undefined: the
    termination theorem excludes it.

    ** The crawler's utilities (C++)

    - Regex: a backtracking matcher for the boost::regex subset in use, with
      continuation passing; the order of alternatives is the order of perl.
    - Utils: src/src/common/utils.cc and utils.hh: SHA-1 in hexadecimal, text
      classification, byte order marks, HTTP headers, content types, integers
      in buffers.
    - UrlEsc: the escape functions of Url.cc; Path: class Path of Path.cc;
      Url: class Url of Url.cc (parse, print, setters, merge_ref).
    - UrlSplit: the regular expression of the URL parser splits a string as a
      left-to-right scan does; UrlWf: well-formed URLs and that each setter
      keeps them; UrlRound: parsing what was printed; UrlClaims: statements.

    Theorems: every parse ends with a well-formed URL or a UrlParseError;
    printing and parsing are inverse, with the exception of a URL with a
    scheme and no host; merge_ref resolves references component by component;
    Path::merge, normalize and updir walk segments; escape and unescape.

    ** The crawler (C++)

    - Flex: flex patterns, their derivatives and the scanner's choice of the
      longest match, then of the first rule; Robots: the rules of robots.ll,
      class Robots (yylex, add_rule, path_allowed) and Robots_entry;
      RobotsLex: what each rule matches, in words, and the statements.
    - Classifier: Url_classifier.hh/.cc with its store of host queues (a deque
      element keeps its place, so a queue is named by its index), the map of
      hosts and the priority queue of free queues.  The classes
      [PriorityQueue] and [HostIndex] say what std::priority_queue and the
      map promise; the end of the file instantiates them and holds the
      statements.
    - Doc: Doc.cc, saving and loading a document; the class [Mongo] says what
      the database promises.
    - Crawler: EasyHandle and GlobalInfo of crawler.cc: the state machine of
      one transfer (IDLE, ROBOTS, HEAD, CONTENT), the options given to
      libcurl, the callbacks for headers and bodies, reschedule, done and
      next_url.  What passes between the handles and libcurl (transfers
      started, data, reports) is recorded as a list of events that no operation
      reads.  CrawlerInput: the lines that arrive on the command socket
      and the interactive commands.  CrawlerInv: the invariant of the crawler
      and that each operation keeps it; CrawlerClaims: the step relation, the
      reachable states and the statements.
    - EventLoop: the callbacks of crawler.cc: the sockets and timers of libcurl,
      finished transfers (check_run_count), the scheduler, the console,
      client connections, SIGINT and main.  Theorems: libevent watches
      what libcurl asks for; every run of the callbacks is a run of the steps
      of the crawler, so that what is proved of its reachable states holds in
      the loop, and reported transfers are handed over in order (libcurl is
      taken to report a transfer once); the table of connections.

    Theorems: the scanner of robots.txt ends on every input, and reads a file
    written from records back into those records; path_allowed follows the
    first rule, of the first record for the agent, that equals the normalised
    path (a longer path is not refused); the classifier loses and invents no address and gives a
    host to one handle at a time; in every reachable state of the crawler a
    page is requested only after the robots.txt of its host was asked for and
    answered, and only if the answer as it arrived permits it; every busy handle
    owns the queue it works on; done accounts for each address and for each
    document it stores; next_url ends.  They are about runs that return:
    Url::normalize is undefined on some root paths, and such a run has no
    next state.

    Fuel: yylex takes the length of the input plus one, next_url the
    length of the queue plus one, classify_host the number of free queues
    plus one.  What libcurl reports, the clock, the database and the content
    types of content_type.hh (generated) are parameters.

    ** Documents and text (C++)

    - Iostream: the part of std::istream and std::ostream in use: peek, get,
      formatted integers, eofbit and failbit.
    - Bencode: src/src/common/bencode.hh and bencode.cc: the writer of
      integers, strings, lists and dictionaries and the reader for them.
      Theorems: what was written is read back, every input ends in a value
      or in one of the reader's errors, and the map operations.  The reader's fuel
      is twice the length of the input plus one: every two calls
      consume an octet.
    - Entity: src/src/html_lexer/Entity_handler.cc: the table of named character
      references, numeric references and the replacement loop over a text;
      ICU's conversion of code points is a parameter with its documented
      behaviour as a class.  Theorems: the text is scanned from
      left to right, named and decimal references are replaced, the rest is copied.
      The loop's fuel is the length of the text plus one.
    - Html: class HTML_lexer of HTML_lexer.hh and HTML_lexer.cc: the token
      stack, the operations of the tags, text, links and the analysis of meta
      and link tags; output streams are what was written to them.  HtmlLex:
      the 41 rules of html.ll with their start conditions and actions, yylex and html_lex.
      HtmlScan: every scan makes progress, and how the rule that is taken is found;
      HtmlMarkup: what the rules take on text, tags and attributes; HtmlClaims: statements.
      Theorems: the scan covers every input; a page written from events is
      read back event by event; the text and the links of a page, each link merged
      with the base.  One rule
      with trailing context may consume nothing, and then it leaves its start
      condition: twice the length of the input plus two is enough fuel.
    - BigHash: src/src/common/bighash.hh and bighash.cc: class big_hash_bucket,
      its constructors, lock, unlock, set, get, erase and key, over a file system that is
      a finite map from paths to files and directories; the errors of the
      system, the sizes of its transfers and what other processes do while
      this one sleeps are class Posix, SHA-1 and the appending of paths are
      classes with their documented behaviour.  BigHashFs: whole files are
      transferred in pieces, directories are made along a path.  BigHashLock:
      what get_lockfile does with each kind of lock file when the other processes
      act only while it sleeps, and the same loop one system call at a time for
      processes that interleave between any two calls.  BigHashTable: the layout below the root
      and what each step changes.  BigHashClaims: opening, storing, reading
      and closing buckets is a map with up to three keys per hash; a lock whose
      pid is written while nobody else has looked into the file excludes other
      processes under every interleaving, a lock that is being taken does not; an
      undisturbed round of the interleaved loop is get_lockfile.  The loops
      over a file have its length plus one as fuel; get_lockfile has as
      fuel the rounds the process is ready to wait.
    - UnicodeWrap: src/src/html_lexer/Unicode_wrap.cc (class Converter) and
      Case_folder.cc, over the stream converters of ICU, which are a class with
      their documented behaviour.  Theorems: conversions give the whole
      text whatever the sizes of the buffers; what fold_case_utf8 does when
      folding lengthens a text.  The loops need as many rounds as the text has units, plus two.

    ** Processes, sockets, streams (C++)

    - Spawn: system_exec and stdout2stream_system_exec of utils.cc over a
      process with its SIGCHLD handler, descriptors and unflushed output; the
      system calls that fail and the programs are class Kernel.  A program may
      go on for ever; a read waits while anybody, the process itself included,
      has the pipe open for writing.  Theorem: the outcome for every call that
      fails, when it waits for ever, and that nothing is left behind otherwise.
    - LocalIndexer: src/src/local_indexer/local_indexer.cc: the walk as a stack
      of calls, the children and SIGCHLD as steps of one relation, index_pdf
      and main.  Theorems: runs are finite (every step lowers a
      weight), where they stop, the number of children, what a child alone
      stores for a file, whatever fails.  What becomes of the database under
      children that share a connection is not said.
    - GzStream: class gzstreambuf with its array and pointers and the stream
      classes of gzstream.cc over zlib (class Zlib: the calls, and laws from
      its manual).  Theorems: what was
      written is read back, and the lengths for which reading is undefined.
    - Net: the TCP wrappers of utils.cc (class Sockets: what the system
      answers in each round); Theorem: what Tcp_connect_retry does.  Its fuel
      is the number of rounds the caller is ready to wait.
    - Timer: class timer of timer.hh with overflow as undefined behaviour,
      sizes as text with the doubles of SpecFloat, the allocator's count.

    ** Not modelled

    The vendored MongoDB driver (third-party C++ that the crawler only calls;
    one accessor of its elements, which cuts a text at a NUL, is in Doc)
    and the Python bindings (glue that Boost.Python generates from
    declarations).  Reallocation of the buffer while one of the three
    lengthening stemmers runs is in the definitions (increase_size) but
    outside their theorem.  libcurl, libevent, ICU, Boost, zlib, OpenSSL and
    MongoDB are parameters with their documented behaviour.  Allocation in
    C++ code (std::bad_alloc), log output and the output of debugging code are
    left out. *)

From Stdlib Require Export ZArith Lia.
From stdpp Require Export base numbers option list.
From Stdlib Require String Ascii.
Export String.StringSyntax.
#[global] Delimit Scope string_scope with string.

#[global] Open Scope Z_scope.

(** ** Bytes and byte strings

    A [char], a [symbol] and an octet of a [std::string] are numbers in
    [0, 256); a byte string is a [list Z].  [str] turns a literal into its
    octets. *)
Definition byte_ok (b : Z) : Prop := 0 <= b < 256.

Definition bytes_ok (s : list Z) : Prop := Forall byte_ok s.

Fixpoint str (s : String.string) : list Z :=
  match s with
  | String.EmptyString => []
  | String.String a r => Z.of_nat (Ascii.nat_of_ascii a) :: str r
  end.

Arguments str _%_string_scope.

(** ** C++ exceptions

    A call that returns a value or throws.  [None] around it is undefined
    behaviour or a failed [assert]. *)
Inductive exn :=
| runtime_error (what : list Z)
| logic_error (what : list Z)
| BadUrl (what : list Z)
| UrlParseError (what : list Z)
| bencode_error (what : list Z)
| length_error
| unicode_error (what : list Z).

Inductive outcome (A : Type) :=
| Value (a : A)
| Throw (e : exn).
Arguments Value {A} a.
Arguments Throw {A} e.

Definition res (A : Type) := option (outcome A).

Definition val {A} (a : A) : res A := Some (Value a).
Definition throw {A} (e : exn) : res A := Some (Throw e).
Definition abort {A} : res A := None.

Definition rbind {A B} (m : res A) (k : A -> res B) : res B :=
  match m with
  | None => None
  | Some (Throw e) => Some (Throw e)
  | Some (Value a) => k a
  end.

(** [try m catch (e) h] *)
Definition try_catch {A} (m : res A) (h : exn -> res A) : res A :=
  match m with Some (Throw e) => h e | _ => m end.

Declare Scope res_scope.
Delimit Scope res_scope with res.
Notation "x <~ m ;; k" := (rbind m (fun x => k))
  (at level 100, m at next level, right associativity) : res_scope.
Notation "m ;;; k" := (rbind m (fun _ : unit => k))
  (at level 100, right associativity) : res_scope.

#[export] Instance exn_eq_dec : EqDecision exn.
Proof. solve_decision. Defined.

(** ** Machine integers *)
Definition INT_MAX : Z := 2147483647.
Definition INT_MIN : Z := -2147483648.

(** The value of a signed 32-bit computation; [None] is signed overflow,
    which C leaves undefined. *)
Definition cint (x : Z) : option Z :=
  if (INT_MIN <=? x) && (x <=? INT_MAX) then Some x else None.

(** [static_cast<int>] keeps the low 32 bits. *)
Definition cast_int (x : Z) : Z := (x - INT_MIN) mod 2 ^ 32 + INT_MIN.

(** ** Indexing by machine integers *)
Definition znth {A} (xs : list A) (i : Z) : option A :=
  if 0 <=? i then xs !! Z.to_nat i else None.

Definition zlen {A} (xs : list A) : Z := Z.of_nat (length xs).

(** [ztake n]/[zdrop n] on a machine integer; a negative count takes
    nothing. *)
Definition ztake {A} (n : Z) (xs : list A) : list A := take (Z.to_nat n) xs.
Definition zdrop {A} (n : Z) (xs : list A) : list A := drop (Z.to_nat n) xs.

(** The half-open segment [xs[i..j)]. *)
Definition zseg {A} (i j : Z) (xs : list A) : list A := ztake (j - i) (zdrop i xs).

(** ** Tactics and hints *)
Create HintDb myc.

(** Reflect every boolean comparison of the context and of the goal. *)
Ltac bool_hyps :=
  repeat match goal with
  | H : (_ && _)%bool = true |- _ => apply andb_prop in H as [? ?]
  | H : (_ || _)%bool = false |- _ => apply orb_false_elim in H as [? ?]
  | H : negb _ = true |- _ => apply negb_true_iff in H
  | H : negb _ = false |- _ => apply negb_false_iff in H
  | H : (_ <=? _) = true |- _ => apply Z.leb_le in H
  | H : (_ <=? _) = false |- _ => apply Z.leb_gt in H
  | H : (_ <? _) = true |- _ => apply Z.ltb_lt in H
  | H : (_ <? _) = false |- _ => apply Z.ltb_ge in H
  | H : (_ >? _) = true |- _ => rewrite Z.gtb_ltb in H
  | H : (_ >? _) = false |- _ => rewrite Z.gtb_ltb in H
  | H : (_ >=? _) = true |- _ => rewrite Z.geb_leb in H
  | H : (_ >=? _) = false |- _ => rewrite Z.geb_leb in H
  | H : (_ =? _) = true |- _ => apply Z.eqb_eq in H
  | H : (_ =? _) = false |- _ => apply Z.eqb_neq in H
  end.

Ltac zcase e :=
  let E := fresh "E" in destruct e eqn:E; bool_hyps.

(** ** The order of strings

    [std::string::operator<] on octets. *)
Fixpoint str_lt (s t : list Z) : bool :=
  match s, t with
  | _, [] => false
  | [], _ :: _ => true
  | c :: s, d :: t => if c <? d then true else if d <? c then false else str_lt s t
  end.

Lemma str_lt_irrefl s : str_lt s s = false.
Proof. induction s as [|c s IH]; cbn; [done|]. by rewrite Z.ltb_irrefl. Qed.

Lemma str_lt_trans s : forall t u, str_lt s t = true -> str_lt t u = true -> str_lt s u = true.
Proof.
  induction s as [|c s IH]; intros [|d t] [|e u]; cbn; try done.
  zcase (c <? d); zcase (d <? c); try done; zcase (d <? e); zcase (e <? d); zcase (c <? e); zcase (e <? c);
    try done; try lia. apply IH.
Qed.

Lemma str_lt_total s : forall t, str_lt s t = false -> s <> t -> str_lt t s = true.
Proof.
  induction s as [|c s IH]; intros [|d t]; cbn; try done.
  zcase (c <? d); zcase (d <? c); try done. assert (c = d) as -> by lia. intros H Hne. apply IH; [done|]. congruence.
Qed.

Lemma str_lt_asym s t : str_lt s t = true -> str_lt t s = false.
Proof.
  intros H. destruct (str_lt t s) eqn:E; [|done]. pose proof (str_lt_trans _ _ _ H E) as Hs. by rewrite str_lt_irrefl in Hs.
Qed.

Lemma str_lt_antisym s t : str_lt s t = false -> str_lt t s = false -> s = t.
Proof.
  intros H1 H2. destruct (decide (s = t)) as [|Hne]; [done|]. apply (str_lt_total _ _ H1) in Hne. congruence.
Qed.

(** [not (s < t)] is transitive. *)
Lemma str_le_trans s t u : str_lt s t = false -> str_lt t u = false -> str_lt s u = false.
Proof.
  intros H1 H2. destruct (decide (s = t)) as [->|Hst]; [done|]. destruct (decide (t = u)) as [->|Htu]; [done|].
  apply str_lt_asym, (str_lt_trans _ t); by apply str_lt_total.
Qed.

(** ** Generic lemmas *)
Lemma bytes_ok_app s t : bytes_ok (s ++ t) <-> bytes_ok s /\ bytes_ok t.
Proof. apply Forall_app. Qed.

Lemma bytes_ok_take n s : bytes_ok s -> bytes_ok (take n s).
Proof. apply Forall_take. Qed.

Lemma bytes_ok_drop n s : bytes_ok s -> bytes_ok (drop n s).
Proof. apply Forall_drop. Qed.

#[export] Hint Resolve bytes_ok_take bytes_ok_drop : myc.

Lemma cint_in x : INT_MIN <= x <= INT_MAX -> cint x = Some x.
Proof. intros ?. unfold cint. rewrite (proj2 (Z.leb_le _ _)), (proj2 (Z.leb_le _ _)) by lia. done. Qed.

Lemma cast_int_in x : INT_MIN <= x <= INT_MAX -> cast_int x = x.
Proof. intros. unfold cast_int, INT_MIN, INT_MAX in *. rewrite Z.mod_small; lia. Qed.

Lemma zlen_nonneg {A} (xs : list A) : 0 <= zlen xs.
Proof. unfold zlen; lia. Qed.

Lemma zlen_app {A} (xs ys : list A) : zlen (xs ++ ys) = zlen xs + zlen ys.
Proof. unfold zlen. rewrite length_app. lia. Qed.

Lemma zlen_nil {A} : zlen (@nil A) = 0.
Proof. done. Qed.

Lemma zlen_cons {A} (x : A) xs : zlen (x :: xs) = 1 + zlen xs.
Proof. unfold zlen. simpl. lia. Qed.

Lemma zlen_pos {A} (xs : list A) : xs <> [] -> 0 < zlen xs.
Proof. destruct xs; [done|]. unfold zlen. cbn. lia. Qed.

Lemma zlen_ztake {A} n (xs : list A) : 0 <= n <= zlen xs -> zlen (ztake n xs) = n.
Proof. unfold zlen, ztake. rewrite length_take. lia. Qed.

Lemma zlen_zdrop {A} n (xs : list A) : 0 <= n <= zlen xs -> zlen (zdrop n xs) = zlen xs - n.
Proof. unfold zlen, zdrop. rewrite length_drop. lia. Qed.

Lemma zlen_zseg {A} i j (xs : list A) :
  0 <= i <= j -> j <= zlen xs -> zlen (zseg i j xs) = j - i.
Proof. intros. unfold zseg. rewrite zlen_ztake; rewrite ?zlen_zdrop; lia. Qed.

Lemma zlen_fmap {A B} (f : A -> B) xs : zlen (f <$> xs) = zlen xs.
Proof. unfold zlen. by rewrite length_fmap. Qed.

Lemma zlen_replicate {A} n (x : A) : zlen (replicate n x) = Z.of_nat n.
Proof. unfold zlen. by rewrite length_replicate. Qed.

Lemma znth_lookup {A} (xs : list A) i : 0 <= i -> znth xs i = xs !! Z.to_nat i.
Proof. intros. unfold znth. by rewrite (proj2 (Z.leb_le _ _)). Qed.

Lemma znth_Some {A} (xs : list A) i x : znth xs i = Some x -> 0 <= i < zlen xs.
Proof.
  unfold znth. zcase (0 <=? i); [|done].
  intros H%lookup_lt_Some. unfold zlen. lia.
Qed.

Lemma znth_is_Some {A} (xs : list A) i : 0 <= i < zlen xs -> exists x, znth xs i = Some x.
Proof.
  intros. rewrite znth_lookup by lia. apply lookup_lt_is_Some. unfold zlen in *. lia.
Qed.

Lemma znth_app_l {A} (xs ys : list A) i : i < zlen xs -> znth (xs ++ ys) i = znth xs i.
Proof.
  intros. unfold znth. zcase (0 <=? i); [|done].
  apply lookup_app_l. unfold zlen in *. lia.
Qed.

Lemma znth_app_r {A} (xs ys : list A) i :
  zlen xs <= i -> znth (xs ++ ys) i = znth ys (i - zlen xs).
Proof.
  intros. pose proof (zlen_nonneg xs). rewrite !znth_lookup by lia.
  rewrite lookup_app_r by (unfold zlen in *; lia). f_equal. unfold zlen in *. lia.
Qed.

Lemma znth_fmap {A B} (f : A -> B) xs i : znth (f <$> xs) i = f <$> znth xs i.
Proof. unfold znth. case_match; [|done]. apply list_lookup_fmap. Qed.

Lemma znth_byte s i b : bytes_ok s -> znth s i = Some b -> byte_ok b.
Proof.
  unfold znth. zcase (0 <=? i); [|done]. intros Hs Hb.
  exact (Forall_lookup_1 _ _ _ _ Hs Hb).
Qed.

Lemma ztake_app_zdrop {A} n (xs : list A) : ztake n xs ++ zdrop n xs = xs.
Proof. apply take_drop. Qed.

Lemma ztake_0 {A} (xs : list A) : ztake 0 xs = [].
Proof. done. Qed.

Lemma zdrop_0 {A} (xs : list A) : zdrop 0 xs = xs.
Proof. done. Qed.

Lemma ztake_all {A} n (xs : list A) : zlen xs <= n -> ztake n xs = xs.
Proof. intros. apply take_ge. unfold zlen in *. lia. Qed.

Lemma zdrop_all {A} n (xs : list A) : zlen xs <= n -> zdrop n xs = [].
Proof. intros. apply drop_ge. unfold zlen in *. lia. Qed.

Lemma ztake_app_l {A} n (xs ys : list A) : n <= zlen xs -> ztake n (xs ++ ys) = ztake n xs.
Proof. intros. unfold ztake. rewrite take_app_le; [done|]. unfold zlen in *. lia. Qed.

Lemma zdrop_app_l {A} n (xs ys : list A) :
  n <= zlen xs -> zdrop n (xs ++ ys) = zdrop n xs ++ ys.
Proof. intros. unfold zdrop. rewrite drop_app_le; [done|]. unfold zlen in *. lia. Qed.

Lemma zdrop_app_r {A} n (xs ys : list A) :
  zlen xs <= n -> zdrop n (xs ++ ys) = zdrop (n - zlen xs) ys.
Proof.
  intros. unfold zdrop. rewrite drop_app_ge by (unfold zlen in *; lia).
  f_equal. unfold zlen in *. lia.
Qed.

Lemma ztake_app_r {A} n (xs ys : list A) :
  zlen xs <= n -> ztake n (xs ++ ys) = xs ++ ztake (n - zlen xs) ys.
Proof.
  intros. unfold ztake. rewrite take_app_ge by (unfold zlen in *; lia).
  do 2 f_equal. unfold zlen in *. lia.
Qed.

Lemma zdrop_zdrop {A} n m (xs : list A) : 0 <= n -> 0 <= m -> zdrop n (zdrop m xs) = zdrop (m + n) xs.
Proof. intros. unfold zdrop. rewrite drop_drop. f_equal. lia. Qed.

Lemma zdrop_fmap {A B} (f : A -> B) n xs : zdrop n (f <$> xs) = f <$> zdrop n xs.
Proof. unfold zdrop. by rewrite fmap_drop. Qed.

Lemma ztake_fmap {A B} (f : A -> B) n xs : ztake n (f <$> xs) = f <$> ztake n xs.
Proof. unfold ztake. by rewrite fmap_take. Qed.

Lemma bytes_ok_ztake n s : bytes_ok s -> bytes_ok (ztake n s).
Proof. apply bytes_ok_take. Qed.

Lemma bytes_ok_zdrop n s : bytes_ok s -> bytes_ok (zdrop n s).
Proof. apply bytes_ok_drop. Qed.

#[export] Hint Resolve bytes_ok_ztake bytes_ok_zdrop zlen_nonneg : myc.

(** ** Exhaustive checks of a range of integers *)
Fixpoint zrange (n : nat) (from : Z) (ok : Z -> bool) : bool :=
  match n with O => true | S n => ok from && zrange n (from + 1) ok end.

Lemma zrange_spec n : forall from ok x,
  zrange n from ok = true -> from <= x < from + Z.of_nat n -> ok x = true.
Proof.
  induction n as [|n IH]; intros from ok x H Hx; [lia|]. cbn in H. apply andb_prop in H as [Hok H].
  destruct (decide (x = from)) as [->|]; [done|]. apply (IH (from + 1)); [done|lia].
Qed.

(** A check that evaluates to [true] for every number below [n]. *)
Lemma forall_range (ok : Z -> bool) n x :
  zrange (Z.to_nat n) 0 ok = true -> 0 <= x < n -> ok x = true.
Proof. intros H Hx. apply (zrange_spec _ _ _ _ H). lia. Qed.

(** Induction on the length, for loops that take several elements a round. *)
Lemma list_len_ind {A} (P : list A -> Prop) :
  (forall s, (forall r, (length r < length s)%nat -> P r) -> P s) -> forall s, P s.
Proof.
  intros H s. remember (length s) as n eqn:Hn. revert s Hn.
  induction n as [n IH] using lt_wf_ind. intros s ->. apply H. intros r Hr. by eapply IH.
Qed.
