(* ===== verification/SnEnv.v ===== *)
(** * The Snowball environment and the C it is written in

    The store of the libstemmer C code ([runtime/header.h], [runtime/api.h]):
    symbol buffers with their SIZE and CAPACITY words, the [SN_env] structure,
    and the control constructs of the generated stemmers ([goto], [return],
    [break], [while(1)]) as a small monad.  [None] is undefined behaviour: an
    out-of-bounds or uninitialised read, a wild [memmove], a NULL
    dereference, signed overflow. *)

From S2P Require Import Prelude.

(** ** Raw memory: a block of cells, [None] for an indeterminate byte *)
Definition mem := list (option Z).

Definition load (m : mem) (i : Z) : option Z := mjoin (znth m i).

Definition in_block (m : mem) (i n : Z) : bool :=
  (0 <=? i) && (0 <=? n) && (i + n <=? zlen m).

(** [memcmp]-style reading of [n] initialised cells from [i]. *)
Definition loads (m : mem) (i n : Z) : option (list Z) :=
  if in_block m i n then mapM id (zseg i (i + n) m) else None.

(** [memmove(m + dst, vs, len vs)] from another object. *)
Definition stores (m : mem) (dst : Z) (vs : list (option Z)) : option mem :=
  if in_block m dst (zlen vs)
  then Some (ztake dst m ++ vs ++ zdrop (dst + zlen vs) m) else None.

(** [memmove(m + dst, m + src, n)] inside one block; indeterminate cells may
    be copied. *)
Definition memmove (m : mem) (dst src n : Z) : option mem :=
  if in_block m src n then stores m dst (zseg src (src + n) m) else None.

(** ** Symbol buffers

    A [symbol *] points behind the two [int] words CAPACITY and SIZE; the
    block holds CAPACITY + 1 symbols. *)
Record sbuf := mk_sbuf { CAPACITY : Z; SIZE : Z; symbols : mem }.

Definition SET_SIZE (b : sbuf) (n : Z) : sbuf := mk_sbuf (CAPACITY b) n (symbols b).
Definition set_symbols (b : sbuf) (m : mem) : sbuf := mk_sbuf (CAPACITY b) (SIZE b) m.

Definition HEAD : Z := 2 * 4.
Definition CREATE_SIZE : Z := 1.

(** The allocator of the C library: whether a request of so many bytes is
    granted. *)
Class CHeap := malloc_ok : Z -> bool.

(** ** The environment of a stemmer *)
Record SN_env := mk_SN_env {
  sn_p : option sbuf;
  sn_c : Z; sn_l : Z; sn_lb : Z; sn_bra : Z; sn_ket : Z;
  sn_S : list (option sbuf);
  sn_I : list Z;
  sn_B : list Z
}.

Definition set_p v z := mk_SN_env v (sn_c z) (sn_l z) (sn_lb z) (sn_bra z) (sn_ket z) (sn_S z) (sn_I z) (sn_B z).
Definition set_c v z := mk_SN_env (sn_p z) v (sn_l z) (sn_lb z) (sn_bra z) (sn_ket z) (sn_S z) (sn_I z) (sn_B z).
Definition set_l v z := mk_SN_env (sn_p z) (sn_c z) v (sn_lb z) (sn_bra z) (sn_ket z) (sn_S z) (sn_I z) (sn_B z).
Definition set_lb v z := mk_SN_env (sn_p z) (sn_c z) (sn_l z) v (sn_bra z) (sn_ket z) (sn_S z) (sn_I z) (sn_B z).
Definition set_bra v z := mk_SN_env (sn_p z) (sn_c z) (sn_l z) (sn_lb z) v (sn_ket z) (sn_S z) (sn_I z) (sn_B z).
Definition set_ket v z := mk_SN_env (sn_p z) (sn_c z) (sn_l z) (sn_lb z) (sn_bra z) v (sn_S z) (sn_I z) (sn_B z).
Definition set_I v z := mk_SN_env (sn_p z) (sn_c z) (sn_l z) (sn_lb z) (sn_bra z) (sn_ket z) (sn_S z) v (sn_B z).
Definition set_B v z := mk_SN_env (sn_p z) (sn_c z) (sn_l z) (sn_lb z) (sn_bra z) (sn_ket z) (sn_S z) (sn_I z) v.

(** [z->p[i]] *)
Definition rd (z : SN_env) (i : Z) : option Z :=
  b ← sn_p z; load (symbols b) i.

(** A C function on the environment that returns an [int]. *)
Definition cfunc := SN_env -> option (Z * SN_env).

(** One entry of a [struct among] table; [None] is a null [function]. *)
Record among := mk_among {
  s_size : Z; s_key : list Z; substring_i : Z; result : Z; function : option cfunc
}.

(** ** Control flow of the generated code *)
Inductive flow (A : Type) :=
| Next (a : A)
| Goto (lab : nat)
| Break
| Continue
| Ret (v : Z).
Arguments Next {A} a.
Arguments Goto {A} lab.
Arguments Break {A}.
Arguments Continue {A}.
Arguments Ret {A} v.

Definition M (A : Type) := SN_env -> option (flow A * SN_env).

Definition ret {A} (a : A) : M A := fun z => Some (Next a, z).

Definition bind {A B} (m : M A) (k : A -> M B) : M B := fun z =>
  match m z with
  | None => None
  | Some (Next a, z') => k a z'
  | Some (Goto n, z') => Some (Goto n, z')
  | Some (Break, z') => Some (Break, z')
  | Some (Continue, z') => Some (Continue, z')
  | Some (Ret v, z') => Some (Ret v, z')
  end.

Declare Scope sn_scope.
Delimit Scope sn_scope with sn.
Notation "x <- m ;; k" := (bind m (fun x => k))
  (at level 100, m at next level, right associativity) : sn_scope.
Notation "m ;; k" := (bind m (fun _ : unit => k))
  (at level 100, right associativity) : sn_scope.

Definition skip : M unit := ret tt.
Definition goto (n : nat) : M unit := fun z => Some (Goto n, z).
Definition brk : M unit := fun z => Some (Break, z).
Definition cont : M unit := fun z => Some (Continue, z).
Definition creturn (v : Z) : M unit := fun z => Some (Ret v, z).
Definition when (b : bool) (m : M unit) : M unit := if b then m else skip.

(** [body; labN: ...]: a jump to [labN] resumes after the block. *)
Definition label (n : nat) (body : M unit) : M unit := fun z =>
  match body z with
  | Some (Goto m, z') => if Nat.eqb m n then Some (Next tt, z') else Some (Goto m, z')
  | r => r
  end.

(** [while(1) body]; [None] when [fuel] iterations do not leave the loop. *)
Fixpoint while1 (fuel : nat) (body : M unit) (z : SN_env) : option (flow unit * SN_env) :=
  match fuel with
  | O => None
  | S n =>
      match body z with
      | None => None
      | Some (Next _, z') | Some (Continue, z') => while1 n body z'
      | Some (Break, z') => Some (Next tt, z')
      | Some (Goto m, z') => Some (Goto m, z')
      | Some (Ret v, z') => Some (Ret v, z')
      end
  end.

(** Every loop of a generated stemmer consumes a symbol of the word or
    rewrites one, so a word of [l] symbols needs at most [l + 2] rounds. *)
Definition loop (body : M unit) : M unit := fun z =>
  while1 (S (S (Z.to_nat (sn_l z)))) body z.

(** Reading a field, and a call [f(z)]. *)
Definition get {A} (f : SN_env -> A) : M A := fun z => Some (Next (f z), z).
Definition put (f : SN_env -> SN_env) : M unit := fun z => Some (Next tt, f z).
Definition call (f : cfunc) : M Z := fun z =>
  match f z with None => None | Some (v, z') => Some (Next v, z') end.
Definition lift {A} (f : SN_env -> option A) : M A := fun z =>
  match f z with None => None | Some a => Some (Next a, z) end.

(** The body of a C function: it must leave through [return]. *)
Definition cfun (body : M unit) : cfunc := fun z =>
  match body z with Some (Ret v, z') => Some (v, z') | _ => None end.

(** [switch(v)] whose cases all end in [break] or [return]. *)
Fixpoint switch (v : Z) (cases : list (Z * M unit)) : M unit :=
  match cases with
  | [] => skip
  | (k, body) :: r => if v =? k then body else switch v r
  end.

(** [z->I[i]], [z->I[i] = v], [z->B[i]], [z->B[i] = v] *)
Definition get_I (i : Z) : M Z := lift (fun z => znth (sn_I z) i).
Definition get_B (i : Z) : M Z := lift (fun z => znth (sn_B z) i).
Definition put_I (i v : Z) : M unit := fun z =>
  match znth (sn_I z) i with
  | Some _ => Some (Next tt, set_I (<[Z.to_nat i := v]> (sn_I z)) z) | None => None end.
Definition put_B (i v : Z) : M unit := fun z =>
  match znth (sn_B z) i with
  | Some _ => Some (Next tt, set_B (<[Z.to_nat i := v]> (sn_B z)) z) | None => None end.

(** ** Weakest preconditions for the control monad *)
Definition wp {A} (m : M A) (Q : flow A -> SN_env -> Prop) (z : SN_env) : Prop :=
  match m z with Some (f, z') => Q f z' | None => False end.

(** A C function that returns from [z] without undefined behaviour, with a
    result satisfying [Q]. *)
Definition returns (f : cfunc) (z : SN_env) (Q : Z -> SN_env -> Prop) : Prop :=
  exists v z', f z = Some (v, z') /\ Q v z'.

Section WpLemmas.
Context {A B : Type}.

Lemma wp_ret (a : A) Q z : Q (Next a) z -> wp (ret a) Q z.
Proof. done. Qed.

Lemma wp_bind (m : M A) (k : A -> M B) Q z :
  wp m (fun f z' => match f with
                    | Next a => wp (k a) Q z'
                    | Goto n => Q (Goto n) z' | Break => Q Break z'
                    | Continue => Q Continue z' | Ret v => Q (Ret v) z'
                    end) z ->
  wp (bind m k) Q z.
Proof. unfold wp, bind. destruct (m z) as [[[] ?]|]; done. Qed.

Lemma wp_get (f : SN_env -> A) Q z : Q (Next (f z)) z -> wp (get f) Q z.
Proof. done. Qed.

Lemma wp_lift (f : SN_env -> option A) Q z a :
  f z = Some a -> Q (Next a) z -> wp (lift f) Q z.
Proof. unfold wp, lift. by intros ->. Qed.

Lemma wp_mono (m : M A) (P Q : flow A -> SN_env -> Prop) z :
  wp m P z -> (forall f z', P f z' -> Q f z') -> wp m Q z.
Proof. unfold wp. destruct (m z) as [[f z']|]; [eauto | done]. Qed.
End WpLemmas.

Lemma wp_put f Q z : Q (Next tt) (f z) -> wp (put f) Q z.
Proof. done. Qed.

Lemma wp_goto n Q z : Q (Goto n) z -> wp (goto n) Q z.
Proof. done. Qed.

Lemma wp_creturn v Q z : Q (Ret v) z -> wp (creturn v) Q z.
Proof. done. Qed.

Lemma wp_brk Q z : Q Break z -> wp brk Q z.
Proof. done. Qed.

Lemma wp_cont Q z : Q Continue z -> wp cont Q z.
Proof. done. Qed.

Lemma wp_skip Q z : Q (Next tt) z -> wp skip Q z.
Proof. done. Qed.

Lemma wp_label n (m : M unit) Q z :
  wp m (fun f z' => match f with
                    | Goto k => if Nat.eqb k n then Q (Next tt) z' else Q (Goto k) z'
                    | _ => Q f z'
                    end) z ->
  wp (label n m) Q z.
Proof.
  unfold wp, label. destruct (m z) as [[[] ?]|]; try done. by case_match.
Qed.

Lemma wp_call f Q z :
  returns f z (fun v z' => Q (Next v) z') -> wp (call f) Q z.
Proof. unfold wp, call. intros (v & z' & -> & H). done. Qed.

Lemma wp_cfun body Q z :
  wp body (fun f z' => match f with Ret v => Q v z' | _ => False end) z ->
  returns (cfun body) z Q.
Proof.
  unfold wp, cfun, returns. intros H.
  destruct (body z) as [[[] z']|]; try done. eauto.
Qed.

Lemma returns_mono f z (P Q : Z -> SN_env -> Prop) :
  returns f z P -> (forall v z', P v z' -> Q v z') -> returns f z Q.
Proof. intros (v & z' & ? & ?) ?. exists v, z'. eauto. Qed.

(** A [while(1)] whose body keeps an invariant of decreasing rank leaves the
    loop before the fuel is spent. *)
Lemma wp_while1 (Inv : nat -> SN_env -> Prop) body Q :
  (forall n z, Inv n z ->
     wp body (fun f z' => match f with
       | Next _ | Continue => exists m, (m < n)%nat /\ Inv m z'
       | Break => Q (Next tt) z'
       | Goto lab => Q (Goto lab) z'
       | Ret v => Q (Ret v) z' end) z) ->
  forall fuel n z, Inv n z -> (n < fuel)%nat -> wp (while1 fuel body) Q z.
Proof.
  intros Hbody fuel. induction fuel as [|fuel IH]; intros n z Hz Hm; [lia|].
  specialize (Hbody n z Hz). unfold wp in *. simpl.
  destruct (body z) as [[[] z']|]; try done;
    destruct Hbody as (m & ? & ?); apply (IH m); (done || lia).
Qed.

Lemma wp_loop (Inv : nat -> SN_env -> Prop) n body Q z :
  Inv n z -> (n < S (S (Z.to_nat (sn_l z))))%nat ->
  (forall n z, Inv n z ->
     wp body (fun f z' => match f with
       | Next _ | Continue => exists m, (m < n)%nat /\ Inv m z'
       | Break => Q (Next tt) z'
       | Goto lab => Q (Goto lab) z'
       | Ret v => Q (Ret v) z' end) z) ->
  wp (loop body) Q z.
Proof. intros ? ? Hbody. by apply (wp_while1 Inv body Q Hbody _ n). Qed.

(** ** Memory lemmas *)
Lemma load_fmap w r i : 0 <= i < zlen w -> load ((Some <$> w) ++ r) i = znth w i.
Proof.
  intros. unfold load. rewrite znth_app_l by (rewrite zlen_fmap; lia).
  rewrite znth_fmap. by destruct (znth w i).
Qed.

Lemma mapM_id_fmap (w : list Z) : mapM id (Some <$> w) = Some w.
Proof. apply mapM_fmap_Forall_Some. by apply Forall_true. Qed.

Lemma loads_fmap w r i n :
  0 <= i -> 0 <= n -> i + n <= zlen w -> loads ((Some <$> w) ++ r) i n = Some (zseg i (i + n) w).
Proof.
  intros. unfold loads, in_block.
  pose proof (zlen_nonneg r). rewrite zlen_app, zlen_fmap.
  rewrite !(proj2 (Z.leb_le _ _)) by lia. simpl. unfold zseg.
  rewrite zdrop_app_l by (rewrite zlen_fmap; lia).
  rewrite ztake_app_l by (rewrite zdrop_fmap, zlen_fmap, zlen_zdrop; lia).
  rewrite zdrop_fmap, ztake_fmap. apply mapM_id_fmap.
Qed.
