(* ===== verification/SnRuntime.v ===== *)
(** * The Snowball runtime: [runtime/utilities.c] and [runtime/api.c]

    Every function of the runtime library of libstemmer, on the environment
    and the memory of [SnEnv]: UTF-8 skipping and decoding, character
    groupings, string comparison, the [among] search, and the slice
    operations that edit the word in place. *)

From S2P Require Import Prelude SnEnv.

(** ** Buffers *)
Section Buffers.
Context {H : CHeap}.

(** [create_s]: NULL is [None]. *)
Definition create_s : option sbuf :=
  if malloc_ok (HEAD + (CREATE_SIZE + 1))
  then Some (mk_sbuf CREATE_SIZE CREATE_SIZE (replicate (Z.to_nat (CREATE_SIZE + 1)) None))
  else None.

(** [increase_size(p, n)]: the outer [None] is signed overflow of
    [n + 20], the inner one a NULL result. *)
Definition increase_size (b : sbuf) (n : Z) : option (option sbuf) :=
  new_size ← cint (n + 20);
  if malloc_ok (HEAD + (new_size + 1))
  then Some (Some (mk_sbuf new_size (SIZE b)
         (ztake (new_size + 1) (symbols b)
          ++ replicate (Z.to_nat (new_size + 1 - zlen (symbols b))) None)))
  else Some None.
End Buffers.

(** ** UTF-8 positions *)

(** [while (c < l) { b = p[c]; if (b >= 0xC0 || b < 0x80) break; c++; }] *)
Fixpoint skip_cont_fwd (fuel : nat) (z : SN_env) (c l : Z) : option Z :=
  if c <? l then
    match fuel with
    | O => None
    | S n =>
        b ← rd z c;
        if (b >=? 192) || (b <? 128) then Some c else skip_cont_fwd n z (c + 1) l
    end
  else Some c.

(** [while (c > lb) { b = p[c]; if (b >= 0xC0) break; c--; }] *)
Fixpoint skip_cont_bwd (fuel : nat) (z : SN_env) (c lb : Z) : option Z :=
  if c >? lb then
    match fuel with
    | O => None
    | S n => b ← rd z c; if b >=? 192 then Some c else skip_cont_bwd n z (c - 1) lb
    end
  else Some c.

Fixpoint skip_utf8_fwd (n : nat) (z : SN_env) (c l : Z) : option Z :=
  match n with
  | O => Some c
  | S n =>
      if c >=? l then Some (-1) else
      b ← rd z c;
      if b >=? 192
      then c' ← skip_cont_fwd (Z.to_nat (l - (c + 1))) z (c + 1) l; skip_utf8_fwd n z c' l
      else skip_utf8_fwd n z (c + 1) l
  end.

Fixpoint skip_utf8_bwd (n : nat) (z : SN_env) (c lb : Z) : option Z :=
  match n with
  | O => Some c
  | S n =>
      if c <=? lb then Some (-1) else
      b ← rd z (c - 1);
      if b >=? 128
      then c' ← skip_cont_bwd (Z.to_nat (c - 1 - lb)) z (c - 1) lb; skip_utf8_bwd n z c' lb
      else skip_utf8_bwd n z (c - 1) lb
  end.

(** [skip_utf8(z->p, c, lb, l, n)] *)
Definition skip_utf8 (z : SN_env) (c lb l n : Z) : option Z :=
  if n >=? 0 then skip_utf8_fwd (Z.to_nat n) z c l
  else skip_utf8_bwd (Z.to_nat (- n)) z c lb.

(** [get_utf8]: the width and, when it is not 0, the code point in
    [*slot]. *)
Definition get_utf8 (z : SN_env) (c l : Z) : option (Z * Z) :=
  if c >=? l then Some (0, 0) else
  b0 ← rd z c;
  let c := c + 1 in
  if (b0 <? 192) || (c =? l) then Some (1, b0) else
  b1 ← rd z c;
  let c := c + 1 in
  if (b0 <? 224) || (c =? l)
  then Some (2, Z.lor (Z.shiftl (Z.land b0 31) 6) (Z.land b1 63)) else
  b2 ← rd z c;
  Some (3, Z.lor (Z.lor (Z.shiftl (Z.land b0 15) 12) (Z.shiftl (Z.land b1 63) 6))
                 (Z.land b2 63)).

Definition get_b_utf8 (z : SN_env) (c lb : Z) : option (Z * Z) :=
  if c <=? lb then Some (0, 0) else
  let c := c - 1 in
  b0 ← rd z c;
  if (b0 <? 128) || (c =? lb) then Some (1, b0) else
  let c := c - 1 in
  b1 ← rd z c;
  if (b1 >=? 192) || (c =? lb)
  then Some (2, Z.lor (Z.shiftl (Z.land b1 31) 6) (Z.land b0 63)) else
  b2 ← rd z c;
  Some (3, Z.lor (Z.lor (Z.shiftl (Z.land b2 15) 12) (Z.shiftl (Z.land b1 63) 6))
                 (Z.land b0 63)).

(** ** Character groupings *)

(** [ch > max || (ch -= min) < 0 || (s[ch >> 3] & (0X1 << (ch & 0X7))) == 0] *)
Definition not_in_group (s : list Z) (min max ch : Z) : option bool :=
  if ch >? max then Some true else
  let ch := ch - min in
  if ch <? 0 then Some true else
  g ← znth s (Z.shiftr ch 3);
  Some (Z.land g (Z.shiftl 1 (Z.land ch 7)) =? 0).

(** The [do ... while (repeat)] of the eight grouping functions: [next] reads
    the character at the cursor with its width (0 at the limit), [stop] says
    whether "not in the group" ends the loop ([in_]) or continues it
    ([out_]), [dir] is +1 or -1. *)
Fixpoint grouping_loop (fuel : nat) (next : SN_env -> option (Z * Z)) (dir : Z) (stop : bool)
    (s : list Z) (min max rep : Z) (z : SN_env) : option (Z * SN_env) :=
  match fuel with
  | O => None
  | S n =>
      '(w, ch) ← next z;
      if w =? 0 then Some (-1, z) else
      t ← not_in_group s min max ch;
      if Bool.eqb t stop then Some (w, z) else
      let z := set_c (sn_c z + dir * w) z in
      if rep =? 0 then Some (0, z) else grouping_loop n next dir stop s min max rep z
  end.

Definition next_U (z : SN_env) := get_utf8 z (sn_c z) (sn_l z).
Definition next_b_U (z : SN_env) := get_b_utf8 z (sn_c z) (sn_lb z).

Definition next_1 (z : SN_env) : option (Z * Z) :=
  if sn_c z >=? sn_l z then Some (0, 0) else ch ← rd z (sn_c z); Some (1, ch).
Definition next_b_1 (z : SN_env) : option (Z * Z) :=
  if sn_c z <=? sn_lb z then Some (0, 0) else ch ← rd z (sn_c z - 1); Some (1, ch).

Definition fwd_fuel (z : SN_env) : nat := S (Z.to_nat (sn_l z - sn_c z)).
Definition bwd_fuel (z : SN_env) : nat := S (Z.to_nat (sn_c z - sn_lb z)).

Definition in_grouping_U (s : list Z) (min max rep : Z) : cfunc := fun z =>
  grouping_loop (fwd_fuel z) next_U 1 true s min max rep z.
Definition in_grouping_b_U (s : list Z) (min max rep : Z) : cfunc := fun z =>
  grouping_loop (bwd_fuel z) next_b_U (-1) true s min max rep z.
Definition out_grouping_U (s : list Z) (min max rep : Z) : cfunc := fun z =>
  grouping_loop (fwd_fuel z) next_U 1 false s min max rep z.
Definition out_grouping_b_U (s : list Z) (min max rep : Z) : cfunc := fun z =>
  grouping_loop (bwd_fuel z) next_b_U (-1) false s min max rep z.
Definition in_grouping (s : list Z) (min max rep : Z) : cfunc := fun z =>
  grouping_loop (fwd_fuel z) next_1 1 true s min max rep z.
Definition in_grouping_b (s : list Z) (min max rep : Z) : cfunc := fun z =>
  grouping_loop (bwd_fuel z) next_b_1 (-1) true s min max rep z.
Definition out_grouping (s : list Z) (min max rep : Z) : cfunc := fun z =>
  grouping_loop (fwd_fuel z) next_1 1 false s min max rep z.
Definition out_grouping_b (s : list Z) (min max rep : Z) : cfunc := fun z =>
  grouping_loop (bwd_fuel z) next_b_1 (-1) false s min max rep z.

(** ** Comparison with a string *)

(** [memcmp(z->p + i, s, n) != 0] *)
Definition mem_differs (z : SN_env) (i n : Z) (s : mem) : option bool :=
  b ← sn_p z; u ← loads (symbols b) i n; v ← loads s 0 n;
  Some (negb (bool_decide (u = v))).

Definition eq_s (n : Z) (s : mem) : cfunc := fun z =>
  if sn_l z - sn_c z <? n then Some (0, z) else
  d ← mem_differs z (sn_c z) n s;
  if d : bool then Some (0, z) else Some (1, set_c (sn_c z + n) z).

Definition eq_s_b (n : Z) (s : mem) : cfunc := fun z =>
  if sn_c z - sn_lb z <? n then Some (0, z) else
  d ← mem_differs z (sn_c z - n) n s;
  if d : bool then Some (0, z) else Some (1, set_c (sn_c z - n) z).

Definition eq_v (p : sbuf) : cfunc := eq_s (SIZE p) (symbols p).
Definition eq_v_b (p : sbuf) : cfunc := eq_s_b (SIZE p) (symbols p).

(** ** The [among] search *)

(** The inner [for] of [find_among]: [n] is [w->s_size - i2]; returns
    [(diff, common)]. *)
Fixpoint cmp_fwd (n : nat) (z : SN_env) (c l : Z) (w : among) (i2 common diff : Z)
    : option (Z * Z) :=
  match n with
  | O => Some (diff, common)
  | S n =>
      if c + common =? l then Some (-1, common) else
      q ← rd z (c + common);
      k ← znth (s_key w) i2;
      if negb (q - k =? 0) then Some (q - k, common)
      else cmp_fwd n z c l w (i2 + 1) (common + 1) (q - k)
  end.

(** The inner [for] of [find_among_b]: [n] is [i2 + 1]. *)
Fixpoint cmp_bwd (n : nat) (z : SN_env) (c lb : Z) (w : among) (i2 common diff : Z)
    : option (Z * Z) :=
  match n with
  | O => Some (diff, common)
  | S n =>
      if c - common =? lb then Some (-1, common) else
      q ← rd z (c - 1 - common);
      k ← znth (s_key w) i2;
      if negb (q - k =? 0) then Some (q - k, common)
      else cmp_bwd n z c lb w (i2 - 1) (common + 1) (q - k)
  end.

(** The first [while(1)] of both searches, over their inner [for]; returns
    [(i, common_i)]. *)
Fixpoint among_bisect (fuel : nat) (cmp : among -> Z -> option (Z * Z)) (v : list among)
    (i j common_i common_j : Z) (first_key_inspected : bool) : option (Z * Z) :=
  match fuel with
  | O => None
  | S n =>
      let k := i + Z.shiftr (j - i) 1 in
      let common := if common_i <? common_j then common_i else common_j in
      w ← znth v k;
      '(diff, common) ← cmp w common;
      let '(i, j, common_i, common_j) :=
        if diff <? 0 then (i, k, common_i, common) else (k, j, common, common_j) in
      if j - i <=? 1 then
        if (i >? 0) || (j =? i) || first_key_inspected then Some (i, common_i)
        else among_bisect n cmp v i j common_i common_j true
      else among_bisect n cmp v i j common_i common_j first_key_inspected
  end.

(** The second [while(1)]: walk down the [substring_i] chain; [dir] is +1 or
    -1. *)
Fixpoint among_chain (fuel : nat) (v : list among) (dir c common_i i : Z) (z : SN_env)
    : option (Z * SN_env) :=
  match fuel with
  | O => None
  | S n =>
      w ← znth v i;
      let next (z : SN_env) :=
        if substring_i w <? 0 then Some (0, z)
        else among_chain n v dir c common_i (substring_i w) z in
      if common_i >=? s_size w then
        let z := set_c (c + dir * s_size w) z in
        match function w with
        | None => Some (result w, z)
        | Some f =>
            '(res, z) ← f z;
            let z := set_c (c + dir * s_size w) z in
            if negb (res =? 0) then Some (result w, z) else next z
        end
      else next z
  end.

Definition find_among (v : list among) (v_size : Z) : cfunc := fun z =>
  let c := sn_c z in let l := sn_l z in
  let cmp w common := cmp_fwd (Z.to_nat (s_size w - common)) z c l w common common 0 in
  '(i, common_i) ← among_bisect (S (S (Z.to_nat v_size))) cmp v 0 v_size 0 0 false;
  among_chain (S (Z.to_nat v_size)) v 1 c common_i i z.

Definition find_among_b (v : list among) (v_size : Z) : cfunc := fun z =>
  let c := sn_c z in let lb := sn_lb z in
  let cmp w common :=
    cmp_bwd (Z.to_nat (s_size w - common)) z c lb w (s_size w - 1 - common) common 0 in
  '(i, common_i) ← among_bisect (S (S (Z.to_nat v_size))) cmp v 0 v_size 0 0 false;
  among_chain (S (Z.to_nat v_size)) v (-1) c common_i i z.

(** ** Editing the word *)
Section Slices.
Context {H : CHeap}.

(** [replace_s]: the [int] result, [*adjptr] (set on success only) and the
    environment. *)
Definition replace_s (z : SN_env) (c_bra c_ket n : Z) (s : mem)
    : option (Z * option Z * SN_env) :=
  match (match sn_p z with Some b => Some b | None => create_s end) with
  | None => Some (-1, None, set_p None z)
  | Some b =>
      let z := set_p (Some b) z in
      adjustment ← cint (n - (c_ket - c_bra));
      let len := SIZE b in
      r ← (if negb (adjustment =? 0) then
             total ← cint (adjustment + len);
             ob ← (if total >? CAPACITY b then increase_size b total else Some (Some b));
             match ob with
             | None => Some (inl (set_p None z))
             | Some b =>
                 m ← memmove (symbols b) (c_ket + adjustment) c_ket (len - c_ket);
                 let z := set_p (Some (SET_SIZE (set_symbols b m) total)) z in
                 l ← cint (sn_l z + adjustment);
                 let z := set_l l z in
                 if sn_c z >=? c_ket then
                   c ← cint (sn_c z + adjustment); Some (inr (set_c c z))
                 else if sn_c z >? c_bra then Some (inr (set_c c_bra z))
                 else Some (inr z)
             end
           else Some (inr z));
      match r with
      | inl z => Some (-1, None, z)
      | inr z =>
          if negb (n =? 0) then
            b ← sn_p z;
            if in_block s 0 n then
              m ← stores (symbols b) c_bra (zseg 0 n s);
              Some (0, Some adjustment, set_p (Some (set_symbols b m)) z)
            else None
          else Some (0, Some adjustment, z)
      end
  end.

Definition slice_check (z : SN_env) : Z :=
  if (sn_bra z <? 0) || (sn_bra z >? sn_ket z) || (sn_ket z >? sn_l z)
     || match sn_p z with None => true | Some b => sn_l z >? SIZE b end
  then -1 else 0.

Definition slice_from_s (n : Z) (s : mem) : cfunc := fun z =>
  if negb (slice_check z =? 0) then Some (-1, z) else
  '(r, _, z) ← replace_s z (sn_bra z) (sn_ket z) n s;
  Some (r, z).

Definition slice_from_v (p : sbuf) : cfunc := slice_from_s (SIZE p) (symbols p).

Definition slice_del : cfunc := slice_from_s 0 [].

Definition insert_s (bra ket n : Z) (s : mem) : cfunc := fun z =>
  '(r, adj, z) ← replace_s z bra ket n s;
  if negb (r =? 0) then Some (-1, z) else
  adjustment ← adj;
  let z := if bra <=? sn_bra z then set_bra (sn_bra z + adjustment) z else z in
  let z := if bra <=? sn_ket z then set_ket (sn_ket z + adjustment) z else z in
  Some (0, z).

Definition insert_v (bra ket : Z) (p : sbuf) : cfunc := insert_s bra ket (SIZE p) (symbols p).

(** [slice_to(z, p)] and [assign_to(z, p)]: the inner [None] is a NULL
    result (the old buffer is freed). *)
Definition copy_into (z : SN_env) (p : sbuf) (from len : Z) : option (option sbuf) :=
  op ← (if CAPACITY p <? len then increase_size p len else Some (Some p));
  match op with
  | None => Some None
  | Some p =>
      b ← sn_p z;
      if in_block (symbols b) from len then
        m ← stores (symbols p) 0 (zseg from (from + len) (symbols b));
        Some (Some (SET_SIZE (set_symbols p m) len))
      else None
  end.

Definition slice_to (z : SN_env) (p : sbuf) : option (option sbuf) :=
  if negb (slice_check z =? 0) then Some None
  else copy_into z p (sn_bra z) (sn_ket z - sn_bra z).

Definition assign_to (z : SN_env) (p : sbuf) : option (option sbuf) :=
  copy_into z p 0 (sn_l z).
End Slices.

(** ** [api.c] *)
Section Api.
Context {H : CHeap}.

(** [for (i = 0; i < S_size; i++) { z->S[i] = create_s(); if NULL goto
    error; }] on the zeroed array; the flag is the jump to [error]. *)
Fixpoint create_S (n : nat) : list (option sbuf) * bool :=
  match n with
  | O => ([], false)
  | S n =>
      match create_s with
      | None => (replicate (S n) None, true)
      | Some b => let '(r, e) := create_S n in (Some b :: r, e)
      end
  end.

(** [SN_close_env(z, S_size)] reads every [z->S[i]]; nothing of the
    environment survives. *)
Definition SN_close_env (z : option SN_env) (S_size : Z) : option unit :=
  match z with
  | None => Some tt
  | Some z => if S_size <=? zlen (sn_S z) then Some tt else None
  end.

Definition SN_env_bytes : Z := 56.

(** [SN_create_env]: the inner [None] is NULL, the outer one undefined
    behaviour. *)
Definition SN_create_env (S_size I_size B_size : Z) : option (option SN_env) :=
  let error z := _ ← SN_close_env (Some z) S_size; Some None in
  if negb (malloc_ok SN_env_bytes) then Some None else
  let z := mk_SN_env None 0 0 0 0 0 [] [] [] in
  match create_s with
  | None => error z
  | Some b =>
      let z := set_p (Some b) z in
      let '(z, err) :=
        if negb (S_size =? 0) then
          if malloc_ok (S_size * 8) then
            let '(ss, e) := create_S (Z.to_nat S_size) in
            (mk_SN_env (sn_p z) 0 0 0 0 0 ss [] [], e)
          else (z, true)
        else (z, false) in
      if err : bool then error z else
      if negb (I_size =? 0) && negb (malloc_ok (I_size * 4)) then error z else
      let z := set_I (replicate (Z.to_nat I_size) 0) z in
      if negb (B_size =? 0) && negb (malloc_ok B_size) then error z else
      Some (Some (set_B (replicate (Z.to_nat B_size) 0) z))
  end.

Definition SN_set_current (size : Z) (s : mem) : cfunc := fun z =>
  '(err, _, z) ← replace_s z 0 (sn_l z) size s;
  Some (err, set_c 0 z).
End Api.
