(* ===== verification/SnSpec.v ===== *)
(** * What the Snowball runtime promises

    The abstraction of an environment to the word it holds, the contract of
    every runtime function against that word, and the refinement proofs:
    [replace_s] and the slice operations splice lists, the groupings and the
    UTF-8 skips stay inside the word. *)

From S2P Require Import Prelude SnEnv SnRuntime.

(** ** Abstraction: the word in the buffer *)

(** [holds k w z]: [z->p] has capacity [k] and its first [z->l] symbols are
    [w]; one more symbol (at index [l]) is always inside SIZE. *)
Definition holds (k : Z) (w : list Z) (z : SN_env) : Prop :=
  exists r, sn_p z = Some (mk_sbuf k (zlen w + 1) ((Some <$> w) ++ r))
    /\ zlen w + zlen r = k + 1
    /\ zlen w + 1 <= k <= INT_MAX - 1
    /\ sn_l z = zlen w
    /\ bytes_ok w.

(** The cursor stays between the limits. *)
Definition cursor (z : SN_env) : Prop := 0 <= sn_lb z <= sn_c z /\ sn_c z <= sn_l z.

(** Two environments that differ only in what [holds] describes, [c] and
    [l]. *)
Definition frame (z z' : SN_env) : Prop :=
  sn_lb z' = sn_lb z /\ sn_bra z' = sn_bra z /\ sn_ket z' = sn_ket z
  /\ sn_S z' = sn_S z /\ sn_I z' = sn_I z /\ sn_B z' = sn_B z.

(** The word after [replace_s(z, bra, ket, s)]. *)
Definition splice (bra ket : Z) (s w : list Z) : list Z :=
  ztake bra w ++ s ++ zdrop ket w.

(** The cursor after [replace_s]. *)
Definition splice_c (bra ket n c : Z) : Z :=
  let adj := n - (ket - bra) in
  if adj =? 0 then c else if c >=? ket then c + adj else if c >? bra then bra else c.

Lemma holds_set_c k w z v : holds k w z -> holds k w (set_c v z).
Proof. done. Qed.

Lemma holds_l k w z : holds k w z -> sn_l z = zlen w.
Proof. by intros (r & ? & ? & ? & ? & ?). Qed.

Lemma holds_bytes k w z : holds k w z -> bytes_ok w.
Proof. by intros (r & ? & ? & ? & ? & ?). Qed.

Lemma holds_cap k w z : holds k w z -> zlen w + 1 <= k <= INT_MAX - 1.
Proof. by intros (r & ? & ? & ? & ? & ?). Qed.

Lemma holds_rd k w z i : holds k w z -> 0 <= i < zlen w -> rd z i = znth w i.
Proof.
  intros (r & Hp & _) ?. unfold rd. rewrite Hp. simpl. by apply load_fmap.
Qed.

Lemma holds_rd_byte k w z i :
  holds k w z -> 0 <= i < zlen w -> exists b, rd z i = Some b /\ znth w i = Some b /\ byte_ok b.
Proof.
  intros Hw Hi. destruct (znth_is_Some w i Hi) as [b Hb].
  exists b. rewrite (holds_rd _ _ _ _ Hw Hi). split_and!; [done..|].
  eapply znth_byte; [eapply holds_bytes|]; eauto.
Qed.

#[export] Hint Resolve holds_set_c holds_bytes : myc.

Lemma splice_len bra ket s w :
  0 <= bra <= ket -> ket <= zlen w ->
  zlen (splice bra ket s w) = zlen w + (zlen s - (ket - bra)).
Proof.
  intros. unfold splice. rewrite !zlen_app, zlen_ztake, zlen_zdrop by lia. lia.
Qed.

Lemma splice_bytes bra ket s w : bytes_ok s -> bytes_ok w -> bytes_ok (splice bra ket s w).
Proof. intros. unfold splice. rewrite !bytes_ok_app. auto with myc. Qed.

(** ** Block moves as list operations *)
Lemma in_block_true (m : mem) i n :
  0 <= i -> 0 <= n -> i + n <= zlen m -> in_block m i n = true.
Proof. intros. unfold in_block. rewrite !(proj2 (Z.leb_le _ _)) by lia. done. Qed.

Lemma stores_eq m i vs :
  0 <= i -> i + zlen vs <= zlen m ->
  stores m i vs = Some (ztake i m ++ vs ++ zdrop (i + zlen vs) m).
Proof.
  intros. unfold stores. rewrite in_block_true; auto with myc lia.
Qed.

Lemma stores_len m i vs m' : stores m i vs = Some m' -> zlen m' = zlen m.
Proof.
  unfold stores, in_block. case_match eqn:E; [|done]. bool_hyps. intros [= <-].
  rewrite !zlen_app, zlen_ztake, zlen_zdrop by (pose proof (zlen_nonneg vs); lia). lia.
Qed.

Lemma memmove_eq m dst src n :
  0 <= src -> 0 <= n -> src + n <= zlen m -> 0 <= dst -> dst + n <= zlen m ->
  memmove m dst src n = Some (ztake dst m ++ zseg src (src + n) m ++ zdrop (dst + n) m).
Proof.
  intros. unfold memmove. rewrite in_block_true by lia.
  assert (zlen (zseg src (src + n) m) = n) as Hn by (rewrite zlen_zseg; lia).
  rewrite stores_eq by lia. by rewrite Hn.
Qed.

Lemma memmove_len m dst src n m' : memmove m dst src n = Some m' -> zlen m' = zlen m.
Proof. unfold memmove. case_match; [|done]. apply stores_len. Qed.

(** Moving the tail [ket..SIZE) of a block that starts with [w] opens or
    closes the gap for a replacement of [n] symbols at [bra]. *)
Lemma memmove_tail (w : list Z) r bra ket n :
  0 <= bra <= ket -> ket <= zlen w -> 0 <= n -> 1 <= zlen r ->
  n - (ket - bra) + (zlen w + 1) <= zlen w + zlen r ->
  exists g r', memmove ((Some <$> w) ++ r) (ket + (n - (ket - bra))) ket (zlen w + 1 - ket)
    = Some ((Some <$> ztake bra w) ++ g ++ (Some <$> zdrop ket w) ++ r') /\ zlen g = n.
Proof.
  intros Hb Hk Hn Hr Hc. set (D := (Some <$> w) ++ r).
  assert (zlen D = zlen w + zlen r) as HD by (unfold D; rewrite zlen_app, zlen_fmap; lia).
  rewrite memmove_eq by lia.
  exists (zseg bra (bra + n) D), (ztake 1 r ++ zdrop (bra + n + (zlen w + 1 - ket)) D).
  split; [|rewrite zlen_zseg; lia]. f_equal.
  assert (ztake (ket + (n - (ket - bra))) D = (Some <$> ztake bra w) ++ zseg bra (bra + n) D) as ->.
  { replace (ket + (n - (ket - bra))) with (bra + n) by lia.
    rewrite <- ztake_fmap. unfold zseg. replace (bra + n - bra) with n by lia.
    rewrite <- (ztake_app_l bra (Some <$> w) r) by (rewrite zlen_fmap; lia). fold D.
    rewrite <- (ztake_app_zdrop bra D) at 1.
    rewrite ztake_app_r by (rewrite zlen_ztake; lia).
    rewrite zlen_ztake by lia. do 2 f_equal. lia. }
  rewrite <- !app_assoc. f_equal. f_equal. rewrite app_assoc. f_equal.
  - unfold zseg, D. rewrite zdrop_app_l by (rewrite zlen_fmap; lia).
    rewrite zdrop_fmap, ztake_app_r by (rewrite zlen_fmap, zlen_zdrop; lia).
    rewrite zlen_fmap, zlen_zdrop by lia. do 2 f_equal. lia.
  - f_equal. lia.
Qed.

(** Filling the gap. *)
Lemma stores_gap (w s : list Z) g r bra ket :
  0 <= bra <= ket -> ket <= zlen w -> zlen g = zlen s ->
  stores ((Some <$> ztake bra w) ++ g ++ (Some <$> zdrop ket w) ++ r) bra (Some <$> s)
    = Some ((Some <$> splice bra ket s w) ++ r).
Proof.
  intros Hb Hk Hg. pose proof (zlen_nonneg s).
  assert (zlen (Some <$> ztake bra w) = bra) as Ht by (rewrite zlen_fmap, zlen_ztake; lia).
  rewrite stores_eq; rewrite ?zlen_app, ?Ht, ?(zlen_fmap _ s), ?Hg.
  2: lia. 2:{ pose proof (zlen_nonneg (Some <$> zdrop ket w)). pose proof (zlen_nonneg r). lia. }
  f_equal. unfold splice. rewrite !fmap_app, <- !app_assoc. f_equal.
  - rewrite ztake_app_l by lia. apply ztake_all. lia.
  - f_equal. rewrite zdrop_app_r by lia. rewrite zdrop_app_r by lia.
    rewrite Ht, Hg. by replace (bra + zlen s - bra - zlen s) with 0 by lia.
Qed.

(** ** [replace_s] refines [splice] *)
Section ReplaceSpec.
Context {H : CHeap}.

(** The capacity after a replacement that needs [total] symbols. *)
Definition grown (k total : Z) : Z := if k <? total then total + 20 else k.

(** Enough room, or a heap that grants more. *)
Definition room (k total : Z) : Prop :=
  total <= k \/ (malloc_ok (HEAD + (total + 20 + 1)) = true /\ total + 20 <= INT_MAX - 1).

Lemma grow_block k w r total :
  zlen w + zlen r = k + 1 -> zlen w + 1 <= k <= INT_MAX - 1 -> room k total -> k < total ->
  exists r', increase_size (mk_sbuf k (zlen w + 1) ((Some <$> w) ++ r)) total
      = Some (Some (mk_sbuf (grown k total) (zlen w + 1) ((Some <$> w) ++ r')))
    /\ zlen w + zlen r' = grown k total + 1 /\ 1 <= zlen r'.
Proof.
  intros Hr Hk [?|[Hm Ht]] Hlt; [lia|]. pose proof (zlen_nonneg w). pose proof (zlen_nonneg r).
  unfold increase_size, grown. rewrite cint_in by (unfold INT_MIN, INT_MAX in *; lia). simpl.
  rewrite Hm, zlen_app, zlen_fmap.
  rewrite (proj2 (Z.ltb_lt _ _) Hlt).
  rewrite ztake_all by (rewrite zlen_app, zlen_fmap; lia).
  rewrite <- app_assoc. eexists. split; [done|].
  rewrite zlen_app, zlen_replicate. lia.
Qed.

Lemma replace_same_block (w : list Z) (r : mem) bra ket :
  0 <= bra <= ket ->
  (Some <$> w) ++ r = (Some <$> ztake bra w) ++ (Some <$> zseg bra ket w)
                      ++ (Some <$> zdrop ket w) ++ r.
Proof.
  intros. rewrite <- (ztake_app_zdrop bra w) at 1. rewrite !fmap_app, <- !app_assoc. f_equal.
  rewrite <- (ztake_app_zdrop (ket - bra) (zdrop bra w)) at 1.
  rewrite fmap_app, zdrop_zdrop, <- app_assoc by lia.
  by replace (bra + (ket - bra)) with ket by lia.
Qed.

Lemma grown_room k total : room k total -> total <= INT_MAX - 1 \/ total <= k ->
  k <= INT_MAX - 1 -> total <= grown k total <= INT_MAX - 1.
Proof. intros [?|[? ?]] ??; unfold grown; zcase (k <? total); lia. Qed.

(** The buffer [replace_s] works in once it has the room. *)
Lemma grow_or_stay k w r total :
  zlen w + zlen r = k + 1 -> zlen w + 1 <= k <= INT_MAX - 1 -> room k total ->
  exists r', (if total >? k then increase_size (mk_sbuf k (zlen w + 1) ((Some <$> w) ++ r)) total
              else Some (Some (mk_sbuf k (zlen w + 1) ((Some <$> w) ++ r))))
      = Some (Some (mk_sbuf (grown k total) (zlen w + 1) ((Some <$> w) ++ r')))
    /\ zlen w + zlen r' = grown k total + 1 /\ 1 <= zlen r'.
Proof.
  intros Hr Hk Hroom. rewrite Z.gtb_ltb. zcase (k <? total).
  - by apply grow_block.
  - unfold grown. rewrite (proj2 (Z.ltb_ge _ _)) by lia. eauto with lia.
Qed.

(** The last step of [replace_s]: the replacement goes into the gap. *)
Definition fill (z : SN_env) (c_bra n adjustment : Z) (s : mem) : option (Z * option Z * SN_env) :=
  if negb (n =? 0) then
    b ← sn_p z;
    if in_block s 0 n then
      m ← stores (symbols b) c_bra (zseg 0 n s);
      Some (0, Some adjustment, set_p (Some (set_symbols b m)) z)
    else None
  else Some (0, Some adjustment, z).

Lemma fill_spec k w z bra ket s g r adj :
  0 <= bra <= ket -> ket <= zlen w -> bytes_ok s -> bytes_ok w -> zlen g = zlen s ->
  sn_p z = Some (mk_sbuf k (zlen (splice bra ket s w) + 1)
             ((Some <$> ztake bra w) ++ g ++ (Some <$> zdrop ket w) ++ r)) ->
  zlen (splice bra ket s w) + zlen r = k + 1 ->
  zlen (splice bra ket s w) + 1 <= k <= INT_MAX - 1 ->
  sn_l z = zlen (splice bra ket s w) ->
  exists z', fill z bra (zlen s) adj (Some <$> s) = Some (0, Some adj, z')
    /\ holds k (splice bra ket s w) z' /\ sn_c z' = sn_c z /\ frame z z'.
Proof.
  intros Hb Hk Hs Hw Hg Hp Hr Hcap Hl. pose proof (zlen_nonneg s). unfold fill.
  assert (in_block (Some <$> s) 0 (zlen s) = true) as -> by (apply in_block_true; rewrite ?zlen_fmap; lia).
  assert (zseg 0 (zlen s) (Some <$> s) = Some <$> s) as ->.
  { unfold zseg. rewrite zdrop_0. apply ztake_all. rewrite zlen_fmap. lia. }
  zcase (zlen s =? 0); simpl.
  - assert (s = []) as -> by (destruct s; [done|rewrite zlen_cons in *; pose proof (zlen_nonneg s); lia]).
    assert (g = []) as -> by (destruct g; [done|rewrite zlen_cons, zlen_nil in Hg; pose proof (zlen_nonneg g); lia]).
    eexists. split_and!; [done| |done|done..]. exists r.
    split_and!; try done; try lia; auto using splice_bytes.
    rewrite Hp. unfold splice. simpl. by rewrite fmap_app, <- app_assoc.
  - rewrite Hp. simpl. rewrite stores_gap by lia. simpl.
    eexists. split_and!; [done| |done|done..]. exists r.
    split_and!; try done; try lia; auto using splice_bytes.
Qed.

Lemma replace_s_spec k w z bra ket s :
  holds k w z -> 0 <= sn_c z <= sn_l z -> 0 <= bra <= ket -> ket <= zlen w -> bytes_ok s ->
  zlen s <= INT_MAX ->
  let total := zlen w + 1 + (zlen s - (ket - bra)) in
  room k total ->
  exists z', replace_s z bra ket (zlen s) (Some <$> s)
      = Some (0, Some (zlen s - (ket - bra)), z')
    /\ holds (grown k total) (splice bra ket s w) z'
    /\ sn_c z' = splice_c bra ket (zlen s) (sn_c z) /\ frame z z'.
Proof.
  intros (r & Hp & Hr & Hk & Hl & Hw) Hc Hb Hkt Hs Hsm total Hroom.
  pose proof (zlen_nonneg s). pose proof (zlen_nonneg w).
  pose proof (splice_len bra ket s w Hb Hkt) as Hsl.
  assert (total <= grown k total <= INT_MAX - 1) as Hk'.
  { apply grown_room; try done; [|lia]. destruct Hroom as [?|[? ?]]; lia. }
  unfold replace_s, splice_c. rewrite Hp.
  rewrite cint_in by (unfold INT_MIN, INT_MAX in *; lia). cbn [mbind option_bind SIZE CAPACITY].
  zcase (zlen s - (ket - bra) =? 0); cbn [negb mbind option_bind].
  - assert (grown k total = k) as -> by (unfold grown, total; zcase (k <? zlen w + 1 + (zlen s - (ket - bra))); lia).
    eapply (fill_spec k w (set_p _ z) bra ket s (Some <$> zseg bra ket w) r);
      rewrite ?zlen_fmap, ?zlen_zseg, ?Hsl; try done; try (simpl; lia).
    simpl. rewrite (replace_same_block w r bra ket) by done. repeat f_equal. lia.
  - assert (zlen s - (ket - bra) + (zlen w + 1) = total) as Htot by (unfold total; lia).
    rewrite Htot, cint_in by (unfold INT_MIN, INT_MAX in *; lia). cbn [mbind option_bind].
    destruct (grow_or_stay k w r total) as (r' & Hg & Hr' & Hr1); try done.
    rewrite Hg. cbn [mbind option_bind symbols].
    destruct (memmove_tail w r' bra ket (zlen s)) as (g & r2 & Hmm & Hgl); try lia.
    apply memmove_len in Hmm as Hml.
    rewrite !zlen_app, !zlen_fmap, zlen_ztake, zlen_zdrop in Hml by lia.
    rewrite Hmm. cbn [mbind option_bind sn_l set_p].
    rewrite cint_in by (unfold INT_MIN, INT_MAX in *; lia). cbn [mbind option_bind sn_c set_l set_p].
    set (z1 := set_l _ _).
    assert (exists z2, (if sn_c z >=? ket then c ← cint (sn_c z + (zlen s - (ket - bra))); Some (inr (set_c c z1))
        else if sn_c z >? bra then Some (inr (set_c bra z1)) else Some (inr z1))
        = Some (inr z2 : SN_env + SN_env) /\ sn_p z2 = sn_p z1 /\ sn_l z2 = sn_l z1 /\ frame z z2
        /\ sn_c z2 = if sn_c z >=? ket then sn_c z + (zlen s - (ket - bra)) else if sn_c z >? bra then bra else sn_c z)
      as (z2 & -> & Hp2 & Hl2 & Hf2 & <-).
    { rewrite Z.geb_leb, Z.gtb_ltb. zcase (ket <=? sn_c z); [|zcase (bra <? sn_c z)];
      rewrite ?cint_in by (unfold INT_MIN, INT_MAX in *; lia); eexists; split_and!; done. }
    cbn [mbind option_bind].
    edestruct (fill_spec (grown k total) w z2 bra ket s g r2) as (z' & Hfill & Hh & Hcc & Hff);
      rewrite ?Hp2, ?Hl2, ?Hsl; try done; try (simpl; lia).
    { unfold z1, SET_SIZE, set_symbols. cbn [sn_p set_l set_p CAPACITY SIZE symbols]. do 2 f_equal. lia. }
    exists z'. rewrite <- Hp2. split_and!; try done. destruct Hf2 as (?&?&?&?&?&?), Hff as (?&?&?&?&?&?).
    unfold frame. split_and!; congruence.
Qed.
End ReplaceSpec.

(** ** Slices and insertions *)
Section SliceSpec.
Context {H : CHeap}.

Lemma slice_check_ok k w z :
  holds k w z -> 0 <= sn_bra z <= sn_ket z -> sn_ket z <= sn_l z -> slice_check z = 0.
Proof.
  intros (r & Hp & _ & _ & Hl & _) ??. unfold slice_check. rewrite Hp, !Z.gtb_ltb. simpl.
  rewrite !(proj2 (Z.ltb_ge _ _)) by lia. done.
Qed.

Lemma slice_from_s_ok k w z n s :
  holds k w z -> 0 <= sn_c z <= sn_l z -> 0 <= sn_bra z <= sn_ket z -> sn_ket z <= sn_l z ->
  bytes_ok s -> zlen s <= INT_MAX -> n = zlen s ->
  let total := zlen w + 1 + (n - (sn_ket z - sn_bra z)) in
  room k total ->
  returns (slice_from_s n (Some <$> s)) z (fun v z' =>
    v = 0 /\ holds (grown k total) (splice (sn_bra z) (sn_ket z) s w) z'
    /\ sn_c z' = splice_c (sn_bra z) (sn_ket z) n (sn_c z) /\ frame z z').
Proof.
  intros Hw Hc Hb Hk Hs Hm -> total Hr. pose proof (holds_l _ _ _ Hw) as Hl.
  destruct (replace_s_spec k w z (sn_bra z) (sn_ket z) s) as (z' & He & ? & ? & ?); try done; try lia.
  unfold returns, slice_from_s. rewrite (slice_check_ok k w) by done. simpl.
  rewrite He. simpl. eauto 10.
Qed.

(** A faulty slice is refused and leaves the environment alone. *)
Lemma slice_from_s_faulty n s z :
  slice_check z <> 0 -> slice_from_s n s z = Some (-1, z).
Proof. intros. unfold slice_from_s. by rewrite (proj2 (Z.eqb_neq _ _)). Qed.

Lemma insert_s_ok k w z n s :
  holds k w z -> 0 <= sn_c z <= sn_l z -> bytes_ok s -> zlen s <= INT_MAX -> n = zlen s ->
  let total := zlen w + 1 + n in
  room k total ->
  returns (insert_s (sn_c z) (sn_c z) n (Some <$> s)) z (fun v z' =>
    v = 0 /\ holds (grown k total) (splice (sn_c z) (sn_c z) s w) z'
    /\ sn_lb z' = sn_lb z /\ sn_S z' = sn_S z /\ sn_I z' = sn_I z /\ sn_B z' = sn_B z).
Proof.
  intros Hw Hc Hs Hm -> total Hr. pose proof (holds_l _ _ _ Hw) as Hl.
  destruct (replace_s_spec k w z (sn_c z) (sn_c z) s) as (z' & He & Hh & ? & Hf); try done; try lia.
  { eapply eq_ind; [apply Hr|]. unfold total. lia. }
  unfold returns, insert_s. rewrite He. simpl. eexists _, _. split; [done|].
  destruct Hf as (?&?&?&?&?&?).
  replace (zlen w + 1 + (zlen s - (sn_c z - sn_c z))) with total in Hh by (unfold total; lia).
  split_and!; try done; repeat case_match; done.
Qed.
End SliceSpec.

(** ** UTF-8 skipping stays inside the word *)
Lemma skip_cont_fwd_ok k w z : holds k w z -> forall fuel c l,
  0 <= c -> l <= sn_l z -> (Z.to_nat (l - c) <= fuel)%nat ->
  exists c', skip_cont_fwd fuel z c l = Some c' /\ c <= c' <= Z.max c l.
Proof.
  intros Hw fuel. pose proof (holds_l _ _ _ Hw).
  induction fuel as [|n IH]; intros c l ???; simpl; zcase (c <? l); try lia; try (eexists; split; [done|lia]).
  destruct (holds_rd_byte k w z c) as (b & -> & _); [done|lia|]. simpl.
  case_match; [eexists; split; [done|lia]|].
  destruct (IH (c + 1) l) as (c' & -> & ?); try lia. eexists; split; [done|lia].
Qed.

Lemma skip_cont_bwd_ok k w z : holds k w z -> forall fuel c lb,
  0 <= lb <= c -> c < sn_l z -> (Z.to_nat (c - lb) <= fuel)%nat ->
  exists c', skip_cont_bwd fuel z c lb = Some c' /\ lb <= c' <= c.
Proof.
  intros Hw fuel. pose proof (holds_l _ _ _ Hw).
  induction fuel as [|n IH]; intros c lb ???; simpl; rewrite Z.gtb_ltb; zcase (lb <? c); try lia;
    try (eexists; split; [done|lia]).
  destruct (holds_rd_byte k w z c) as (b & -> & _); [done|lia|]. simpl.
  case_match; [eexists; split; [done|lia]|].
  destruct (IH (c - 1) lb) as (c' & -> & ?); try lia. eexists; split; [done|lia].
Qed.

Lemma skip_utf8_fwd_ok k w z : holds k w z -> forall n c l,
  0 <= c <= l -> l <= sn_l z ->
  exists c', skip_utf8_fwd n z c l = Some c' /\ (c' = -1 \/ c + Z.of_nat n <= c' <= l).
Proof.
  intros Hw n. pose proof (holds_l _ _ _ Hw).
  induction n as [|n IH]; intros c l ??; simpl; [eexists; split; [done|lia]|].
  rewrite Z.geb_leb. zcase (l <=? c); [eexists; split; [done|lia]|].
  destruct (holds_rd_byte k w z c) as (b & -> & _); [done|lia|]. simpl.
  case_match.
  - destruct (skip_cont_fwd_ok k w z Hw (Z.to_nat (l - (c + 1))) (c + 1) l) as (c' & -> & ?); try lia.
    simpl. destruct (IH c' l) as (c2 & -> & ?); try lia. eexists; split; [done|lia].
  - destruct (IH (c + 1) l) as (c2 & -> & ?); try lia. eexists; split; [done|lia].
Qed.

Lemma skip_utf8_bwd_ok k w z : holds k w z -> forall n c lb,
  0 <= lb <= c -> c <= sn_l z ->
  exists c', skip_utf8_bwd n z c lb = Some c' /\ (c' = -1 \/ lb <= c' <= c - Z.of_nat n).
Proof.
  intros Hw n. pose proof (holds_l _ _ _ Hw).
  induction n as [|n IH]; intros c lb ??; simpl; [eexists; split; [done|lia]|].
  zcase (c <=? lb); [eexists; split; [done|lia]|].
  destruct (holds_rd_byte k w z (c - 1)) as (b & -> & _); [done|lia|]. simpl.
  case_match.
  - destruct (skip_cont_bwd_ok k w z Hw (Z.to_nat (c - 1 - lb)) (c - 1) lb) as (c' & -> & ?); try lia.
    simpl. destruct (IH c' lb) as (c2 & -> & ?); try lia. eexists; split; [done|lia].
  - destruct (IH (c - 1) lb) as (c2 & -> & ?); try lia. eexists; split; [done|lia].
Qed.

(** ** Decoding stays inside the word *)
Lemma lor_nonneg a b : 0 <= a -> 0 <= b -> 0 <= Z.lor a b.
Proof. intros. by apply Z.lor_nonneg. Qed.

Lemma get_utf8_ok k w z c l :
  holds k w z -> 0 <= c -> l <= sn_l z ->
  exists d ch, get_utf8 z c l = Some (d, ch)
    /\ ((l <= c /\ d = 0) \/ (1 <= d <= 3 /\ c + d <= l /\ 0 <= ch)).
Proof.
  intros Hw ??. pose proof (holds_l _ _ _ Hw). unfold get_utf8. rewrite Z.geb_leb.
  zcase (l <=? c); [eexists _, _; split; [done|lia]|].
  destruct (holds_rd_byte k w z c) as (b0 & -> & _ & Hb0); [done|lia|]. simpl.
  case_match eqn:E1; [eexists _, _; split; [done|unfold byte_ok in *; lia]|]. bool_hyps.
  destruct (holds_rd_byte k w z (c + 1)) as (b1 & -> & _ & Hb1); [done|lia|]. simpl.
  case_match eqn:E2; [|bool_hyps; destruct (holds_rd_byte k w z (c + 1 + 1)) as (b2 & -> & _ & Hb2); [done|lia|]; simpl];
    eexists _, _; (split; [done|right]); split_and!; try lia;
    repeat apply lor_nonneg; rewrite ?Z.shiftl_nonneg, ?Z.land_nonneg; unfold byte_ok in *; lia.
Qed.

Lemma get_b_utf8_ok k w z c lb :
  holds k w z -> 0 <= lb -> c <= sn_l z ->
  exists d ch, get_b_utf8 z c lb = Some (d, ch)
    /\ ((c <= lb /\ d = 0) \/ (1 <= d <= 3 /\ lb <= c - d /\ 0 <= ch)).
Proof.
  intros Hw ??. pose proof (holds_l _ _ _ Hw). unfold get_b_utf8.
  zcase (c <=? lb); [eexists _, _; split; [done|lia]|].
  destruct (holds_rd_byte k w z (c - 1)) as (b0 & -> & _ & Hb0); [done|lia|]. simpl.
  case_match eqn:E1; [eexists _, _; split; [done|unfold byte_ok in *; lia]|]. bool_hyps.
  destruct (holds_rd_byte k w z (c - 1 - 1)) as (b1 & -> & _ & Hb1); [done|lia|]. simpl.
  case_match eqn:E2;
    eexists _, _; (split; [done|right]); split_and!; try lia;
    repeat apply lor_nonneg; rewrite ?Z.shiftl_nonneg, ?Z.land_nonneg; unfold byte_ok in *; lia.
Qed.

(** ** Groupings *)

(** A grouping table that covers [min..max]. *)
Definition group_ok (s : list Z) (min max : Z) : bool :=
  (0 <=? min) && (min <=? max) && (Z.shiftr (max - min) 3 <? zlen s).

(** How far the cursor may still move in direction [dir]. *)
Definition dist (dir : Z) (z : SN_env) : Z :=
  if dir =? 1 then sn_l z - sn_c z else sn_c z - sn_lb z.

(** What a grouping function promises: only the cursor moves, in direction
    [dir] and inside the limits; the result is -1 at the limit, the width of
    the offending character, or 0 for a single step that succeeded. *)
Definition group_post (dir rep : Z) (z : SN_env) (v : Z) (z' : SN_env) : Prop :=
  exists n, z' = set_c (sn_c z + dir * n) z /\ 0 <= n <= dist dir z
    /\ (v = -1 \/ (v = 0 /\ rep = 0 /\ 1 <= n) \/ (1 <= v /\ n + v <= dist dir z)).

Definition group_spec (f : list Z -> Z -> Z -> Z -> cfunc) (dir : Z) : Prop :=
  forall k w z s min max rep,
    holds k w z -> cursor z -> group_ok s min max = true ->
    returns (f s min max rep) z (group_post dir rep z).

Lemma not_in_group_ok s min max ch :
  group_ok s min max = true -> exists t, not_in_group s min max ch = Some t.
Proof.
  unfold group_ok, not_in_group. intros ?. bool_hyps. rewrite Z.gtb_ltb.
  zcase (max <? ch); [eauto|]. zcase (ch - min <? 0); [eauto|].
  destruct (znth_is_Some s (Z.shiftr (ch - min) 3)) as [g ->]; [|simpl; eauto].
  rewrite !Z.shiftr_div_pow2 in * by lia. split; [apply Z.div_pos; lia|].
  eapply Z.le_lt_trans; [|eassumption]. apply Z.div_le_mono; lia.
Qed.

(** [next] reads a character inside the limits from every position a loop in
    direction [dir] can reach. *)
Definition next_spec (next : SN_env -> option (Z * Z)) (dir : Z) (z : SN_env) : Prop :=
  forall c, let z' := set_c c z in
    cursor z' ->
    exists d ch, next z' = Some (d, ch) /\ (d = 0 \/ (1 <= d <= dist dir z' /\ 0 <= ch)).

Lemma grouping_loop_ok next dir stop s min max rep z0 :
  dir = 1 \/ dir = -1 -> next_spec next dir z0 -> group_ok s min max = true ->
  forall fuel c, cursor (set_c c z0) ->
  (Z.to_nat (dist dir (set_c c z0)) < fuel)%nat ->
  returns (grouping_loop fuel next dir stop s min max rep) (set_c c z0)
    (group_post dir rep (set_c c z0)).
Proof.
  intros Hdir Hnext Hg fuel. induction fuel as [|n IH]; intros c Hcur Hfuel; [lia|].
  unfold returns. simpl.
  destruct (Hnext c Hcur) as (d & ch & -> & Hd). simpl.
  zcase (d =? 0).
  { eexists _, _. split; [done|]. exists 0. destruct z0; simpl in *.
    split_and!; [by rewrite Z.mul_0_r, Z.add_0_r|lia| |by left].
    unfold dist, cursor in *; simpl in *. case_match; lia. }
  destruct Hd as [?|[Hd Hch]]; [lia|].
  destruct (not_in_group_ok s min max ch Hg) as [t ->]. simpl.
  destruct (Bool.eqb t stop).
  { eexists _, _. split; [done|]. exists 0.
    split_and!; [by rewrite Z.mul_0_r, Z.add_0_r|lia..|]. right; right. lia. }
  zcase (rep =? 0).
  { eexists _, _. split; [done|]. exists d. split_and!; try done; try lia. }
  assert (cursor (set_c (c + dir * d) z0) /\
          dist dir (set_c (c + dir * d) z0) = dist dir (set_c c z0) - d) as [Hc' Hd'].
  { unfold dist, cursor in *; simpl in *. destruct Hdir as [-> | ->]; simpl in *; lia. }
  destruct (IH (c + dir * d)) as (v & z' & He & m & -> & Hm & Hv); [done|lia|].
  change (grouping_loop n next dir stop s min max rep _)
    with (grouping_loop n next dir stop s min max rep (set_c (c + dir * d) z0)).
  rewrite He. eexists _, _. split; [done|]. exists (d + m). simpl in *.
  split_and!; [unfold set_c; simpl; f_equal; ring|lia|lia|]. lia.
Qed.

Lemma next_U_spec k w z : holds k w z -> next_spec next_U 1 z.
Proof.
  intros Hw c z' Hc. unfold next_U.
  destruct (get_utf8_ok k w z' (sn_c z') (sn_l z')) as (d & ch & -> & Hd);
    [by apply holds_set_c|unfold cursor in *; lia|lia|].
  eexists _, _. split; [done|]. unfold dist. simpl in *. lia.
Qed.

Lemma next_b_U_spec k w z : holds k w z -> next_spec next_b_U (-1) z.
Proof.
  intros Hw c z' Hc. unfold next_b_U.
  destruct (get_b_utf8_ok k w z' (sn_c z') (sn_lb z')) as (d & ch & -> & Hd);
    [by apply holds_set_c|unfold cursor in *; lia..|].
  eexists _, _. split; [done|]. unfold dist. simpl in *. lia.
Qed.

Lemma next_1_spec k w z : holds k w z -> next_spec next_1 1 z.
Proof.
  intros Hw c z' Hc. pose proof (holds_l _ _ _ Hw). unfold next_1. rewrite Z.geb_leb.
  zcase (sn_l z' <=? sn_c z'); [eauto 10|].
  destruct (holds_rd_byte k w z' (sn_c z')) as (b & -> & _ & Hb);
    [by apply holds_set_c|unfold cursor in *; simpl in *; lia|].
  eexists _, _. split; [done|]. unfold byte_ok, dist in *. simpl in *. lia.
Qed.

Lemma next_b_1_spec k w z : holds k w z -> next_spec next_b_1 (-1) z.
Proof.
  intros Hw c z' Hc. pose proof (holds_l _ _ _ Hw). unfold next_b_1.
  zcase (sn_c z' <=? sn_lb z'); [eauto 10|].
  destruct (holds_rd_byte k w z' (sn_c z' - 1)) as (b & -> & _ & Hb);
    [by apply holds_set_c|unfold cursor in *; simpl in *; lia|].
  eexists _, _. split; [done|]. unfold byte_ok, dist in *. simpl in *. lia.
Qed.

Lemma group_spec_of next dir stop fuel :
  dir = 1 \/ dir = -1 ->
  (forall k w z, holds k w z -> next_spec next dir z) ->
  (forall z, cursor z -> (Z.to_nat (dist dir z) < fuel z)%nat) ->
  group_spec (fun s min max rep z => grouping_loop (fuel z) next dir stop s min max rep z) dir.
Proof.
  intros Hd Hn Hf k w z s min max rep Hw Hc Hg.
  pose proof (grouping_loop_ok next dir stop s min max rep z Hd (Hn _ _ _ Hw) Hg (fuel z) (sn_c z)) as Hl.
  destruct z; simpl in *. apply Hl; [done|]. by apply Hf.
Qed.

Ltac solve_group L :=
  eapply group_spec_of; [lia|intros; eapply L; eassumption|];
  intros ? [??]; unfold dist, fwd_fuel, bwd_fuel; simpl; lia.

Lemma in_grouping_U_ok : group_spec in_grouping_U 1.
Proof. solve_group next_U_spec. Qed.
Lemma out_grouping_U_ok : group_spec out_grouping_U 1.
Proof. solve_group next_U_spec. Qed.
Lemma in_grouping_b_U_ok : group_spec in_grouping_b_U (-1).
Proof. solve_group next_b_U_spec. Qed.
Lemma out_grouping_b_U_ok : group_spec out_grouping_b_U (-1).
Proof. solve_group next_b_U_spec. Qed.
Lemma in_grouping_ok : group_spec in_grouping 1.
Proof. solve_group next_1_spec. Qed.
Lemma out_grouping_ok : group_spec out_grouping 1.
Proof. solve_group next_1_spec. Qed.
Lemma in_grouping_b_ok : group_spec in_grouping_b (-1).
Proof. solve_group next_b_1_spec. Qed.
Lemma out_grouping_b_ok : group_spec out_grouping_b (-1).
Proof. solve_group next_b_1_spec. Qed.

(** ** Comparison with a literal *)
Lemma mem_differs_ok k w z i n s :
  holds k w z -> 0 <= i -> n = zlen s -> i + n <= zlen w ->
  mem_differs z i n (Some <$> s) = Some (negb (bool_decide (zseg i (i + n) w = s))).
Proof.
  intros (r & Hp & _) ? -> ?. unfold mem_differs. rewrite Hp. simpl.
  rewrite loads_fmap by (try lia; auto with myc). simpl.
  rewrite <- (app_nil_r (Some <$> s)), loads_fmap by (try lia; auto with myc). simpl.
  assert (zseg 0 (0 + zlen s) s = s) as ->; [|done].
  unfold zseg. rewrite zdrop_0. apply ztake_all. lia.
Qed.

Lemma eq_s_ok k w z n s :
  holds k w z -> cursor z -> n = zlen s ->
  returns (eq_s n (Some <$> s)) z (fun v z' =>
    (v = 0 /\ z' = z) \/
    (v = 1 /\ z' = set_c (sn_c z + n) z /\ sn_c z + n <= sn_l z
     /\ zseg (sn_c z) (sn_c z + n) w = s)).
Proof.
  intros Hw [??] Hn. pose proof (holds_l _ _ _ Hw). unfold returns, eq_s.
  zcase (sn_l z - sn_c z <? n); [eauto 10|].
  rewrite (mem_differs_ok k w) by (done || lia). simpl.
  case_bool_decide; simpl; eexists _, _; (split; [done|]); [right|left]; split_and!; done || lia.
Qed.

Lemma eq_s_b_ok k w z n s :
  holds k w z -> cursor z -> n = zlen s ->
  returns (eq_s_b n (Some <$> s)) z (fun v z' =>
    (v = 0 /\ z' = z) \/
    (v = 1 /\ z' = set_c (sn_c z - n) z /\ sn_lb z <= sn_c z - n
     /\ zseg (sn_c z - n) (sn_c z) w = s)).
Proof.
  intros Hw [??] Hn. pose proof (holds_l _ _ _ Hw). pose proof (zlen_nonneg s). unfold returns, eq_s_b.
  zcase (sn_c z - sn_lb z <? n); [eauto 10|].
  rewrite (mem_differs_ok k w) by (done || lia). simpl. rewrite Z.sub_add.
  case_bool_decide; simpl; eexists _, _; (split; [done|]); [right|left]; split_and!; done || lia.
Qed.
