(* ===== verification/SnAmong.v ===== *)
(** * The [among] search finds the longest entry

    [find_among] and [find_among_b] of [runtime/utilities.c] bisect a sorted
    table while remembering how many symbols the text shares with both ends
    of the interval, then walk the [substring_i] chain.  On a well-formed
    table this is the linear-scan specification: the longest entry that is a
    prefix of the text after the cursor ([find_among]) or a suffix of the
    text before it ([find_among_b]). *)

From S2P Require Import Prelude SnEnv SnRuntime SnSpec.

(** ** Lexicographic order and common prefixes *)
Fixpoint lcp (t k : list Z) : nat :=
  match t, k with
  | x :: t, y :: k => if x =? y then S (lcp t k) else O
  | _, _ => O
  end.

(** [lexle k t]: [k] is at most [t]. *)
Fixpoint lexle (k t : list Z) : bool :=
  match k, t with
  | [], _ => true
  | _ :: _, [] => false
  | x :: k, y :: t => if x =? y then lexle k t else x <? y
  end.

Fixpoint prefixb (k t : list Z) : bool :=
  match k, t with
  | [], _ => true
  | _ :: _, [] => false
  | x :: k, y :: t => (x =? y) && prefixb k t
  end.

Definition pprefixb (k t : list Z) : bool := prefixb k t && (length k <? length t)%nat.

Lemma prefixb_app k t : prefixb k t = true <-> exists r, t = k ++ r.
Proof.
  revert t. induction k as [|x k IH]; intros t; simpl; [split; [eauto|done]|].
  destruct t as [|y t]; [split; [done|intros [r [=]]]|]. rewrite andb_true_iff, IH, Z.eqb_eq.
  split; [intros [-> [r ->]]; eauto | intros [r [= -> ->]]; eauto].
Qed.

Lemma prefixb_trans a b c : prefixb a b = true -> prefixb b c = true -> prefixb a c = true.
Proof.
  rewrite !prefixb_app. intros [r ->] [s ->]. exists (r ++ s). by rewrite app_assoc.
Qed.

Lemma prefixb_len a b : prefixb a b = true -> (length a <= length b)%nat.
Proof. rewrite prefixb_app. intros [r ->]. rewrite length_app. lia. Qed.

(** Two prefixes of the same list are ordered by length. *)
Lemma prefixb_of a b t :
  prefixb a t = true -> prefixb b t = true -> (length a <= length b)%nat -> prefixb a b = true.
Proof.
  revert b t. induction a as [|x a IH]; intros b t; [done|].
  destruct t as [|y t], b as [|z b]; simpl; try done; try lia.
  rewrite !andb_true_iff, !Z.eqb_eq. intros [-> Ha] [-> Hb] ?. split; [done|]. eapply IH; eauto; lia.
Qed.

Lemma lcp_prefix a t : prefixb a t = true <-> lcp t a = length a.
Proof.
  revert t. induction a as [|x a IH]; intros [|y t]; simpl; try done.
  rewrite andb_true_iff, IH, Z.eqb_eq. zcase (y =? x); split; try done; try lia; naive_solver lia.
Qed.

Lemma lcp_le t k : (lcp t k <= length k)%nat.
Proof. revert k. induction t as [|x t IH]; intros [|y k]; simpl; try lia. case_match; [specialize (IH k)|]; lia. Qed.

Lemma lcp_le_text t k : (lcp t k <= length t)%nat.
Proof. revert k. induction t as [|x t IH]; intros [|y k]; simpl; try lia. case_match; [specialize (IH k)|]; lia. Qed.

Lemma lexle_refl a : lexle a a = true.
Proof. induction a as [|x a IH]; simpl; [done|]. by rewrite Z.eqb_refl. Qed.

Lemma lexle_total a b : lexle a b = false -> lexle b a = true.
Proof.
  revert b. induction a as [|x a IH]; intros [|y b]; simpl; try done.
  rewrite (Z.eqb_sym y x). zcase (x =? y); [apply IH|]. intros. bool_hyps. apply Z.ltb_lt. lia.
Qed.

Lemma lexle_trans a b c : lexle a b = true -> lexle b c = true -> lexle a c = true.
Proof.
  revert b c. induction a as [|x a IH]; intros [|y b] [|w c]; simpl; try done.
  zcase (x =? y); zcase (y =? w); zcase (x =? w); subst; try lia; try done;
    intros; bool_hyps; try (apply Z.ltb_lt); try lia; eauto.
Qed.

Lemma lexle_antisym a b : lexle a b = true -> lexle b a = true -> a = b.
Proof.
  revert b. induction a as [|x a IH]; intros [|y b]; simpl; try done.
  rewrite (Z.eqb_sym y x). zcase (x =? y); intros; bool_hyps; [|lia]. subst. f_equal. auto.
Qed.

Lemma prefixb_lexle a t : prefixb a t = true -> lexle a t = true.
Proof.
  revert t. induction a as [|x a IH]; intros [|y t]; simpl; try done.
  intros. bool_hyps. subst. rewrite Z.eqb_refl. auto.
Qed.

(** A list between two lists with a common prefix of length [m] has it too. *)
Lemma lexle_between t lo hi k :
  lexle lo k = true -> lexle k hi = true ->
  (Nat.min (lcp t lo) (lcp t hi) <= lcp t k)%nat.
Proof.
  revert lo hi k. induction t as [|x t IH]; intros lo hi k; [simpl; lia|].
  destruct lo as [|a lo]; [simpl; lia|]. destruct hi as [|b hi]; [simpl; lia|].
  destruct k as [|y k]; [done|]. simpl.
  zcase (x =? a); zcase (x =? b); zcase (x =? y); zcase (a =? y); zcase (y =? b); subst; try lia;
    intros; bool_hyps; try lia; specialize (IH lo hi k); simpl; lia || (apply le_n_S; auto).
Qed.

Lemma lcp_drop m t k :
  (m <= lcp t k)%nat -> lcp t k = (m + lcp (drop m t) (drop m k))%nat
                       /\ lexle k t = lexle (drop m k) (drop m t).
Proof.
  revert t k. induction m as [|m IH]; intros t k; [done|].
  destruct t as [|x t], k as [|y k]; simpl; try lia.
  rewrite (Z.eqb_sym y x). zcase (x =? y); [|lia]. intros. destruct (IH t k); lia || split; [lia|done].
Qed.

(** A prefix of [b] matches the text exactly when it lies in the part [b]
    shares with the text. *)
Lemma prefixb_lcp a b t :
  prefixb a b = true -> prefixb a t = true <-> (length a <= lcp t b)%nat.
Proof.
  revert b t. induction a as [|x a IH]; intros [|y b] [|u t]; simpl; intros; bool_hyps;
    try (split; intros; first [done | lia]); try done.
  subst. rewrite (Z.eqb_sym u y). zcase (y =? u); simpl.
  - rewrite (IH b t) by done. lia.
  - split; intros; first [done | lia].
Qed.

Lemma lcp_prefix_of a b t :
  prefixb a t = true -> (length a <= lcp t b)%nat -> prefixb a b = true.
Proof.
  revert b t. induction a as [|x a IH]; intros [|y b] [|u t]; simpl; try done; try lia.
  intros. bool_hyps. subst. zcase (u =? y); [|lia]. simpl. apply (IH b t); [done|lia].
Qed.

Lemma lcp_refl t : lcp t t = length t.
Proof. induction t as [|x t IH]; simpl; [done|]. rewrite Z.eqb_refl. lia. Qed.

(** ** Well-formed tables *)
Section Table.
(** [key] is the search string in reading order: as written for
    [find_among], reversed for [find_among_b]. *)
Variable key : among -> list Z.

Fixpoint keys_sorted (v : list among) : bool :=
  match v with
  | [] => true
  | e :: r => forallb (fun e' => negb (lexle (key e') (key e))) r && keys_sorted r
  end.

Definition sub_ok (v : list among) (e : among) : bool :=
  if substring_i e <? 0
  then forallb (fun e' => negb (pprefixb (key e') (key e))) v
  else match znth v (substring_i e) with
       | None => false
       | Some s => pprefixb (key s) (key e)
           && forallb (fun e' => implb (pprefixb (key e') (key e)) (prefixb (key e') (key s))) v
       end.

(** A sorted and chained table without conditions; one with conditions, like those
    of the Finnish stemmers, is treated with its conditions taken off, see [strip] in SnStrings
    and the search with conditions in SnClaims. *)
Definition table_ok (v : list among) (n : Z) : bool :=
  (0 <? n) && (zlen v =? n) && keys_sorted v && forallb (sub_ok v) v
  && forallb (fun e => (s_size e =? zlen (s_key e)) && (s_size e =? zlen (key e))
                       && match function e with None => true | Some _ => false end) v.

Lemma keys_sorted_lt v i j a b :
  keys_sorted v = true -> (i < j)%nat -> v !! i = Some a -> v !! j = Some b ->
  lexle (key b) (key a) = false.
Proof.
  revert i j. induction v as [|e v IH]; intros i j; [done|]. simpl. intros Hs Hij Hi Hj. bool_hyps.
  destruct j as [|j]; [lia|]. destruct i as [|i]; simpl in *; [|eapply (IH i j); eauto; lia].
  simplify_eq. apply list_elem_of_lookup_2, list_elem_of_In in Hj.
  match goal with F : forallb _ _ = true |- _ => rewrite forallb_forall in F; specialize (F _ Hj) end.
  by apply negb_true_iff.
Qed.

Lemma keys_sorted_le v i j a b :
  keys_sorted v = true -> v !! i = Some a -> v !! j = Some b ->
  lexle (key a) (key b) = true -> (i <= j)%nat.
Proof.
  intros Hs Hi Hj Hle. destruct (Nat.le_gt_cases i j) as [|Hlt]; [done|].
  pose proof (keys_sorted_lt v j i b a Hs Hlt Hj Hi). congruence.
Qed.

Section Search.
Context (v : list among) (n : Z) (T : list Z).
Context (Hv : table_ok v n = true).

Lemma table_facts :
  0 < n /\ zlen v = n /\ keys_sorted v = true
  /\ (forall e, e ∈ v -> sub_ok v e = true)
  /\ (forall e, e ∈ v -> s_size e = zlen (s_key e) /\ s_size e = zlen (key e) /\ function e = None).
Proof.
  unfold table_ok in Hv. bool_hyps.
  repeat match goal with F : forallb _ _ = true |- _ => rewrite forallb_forall in F end.
  split_and!; try done.
  - intros e He%list_elem_of_In. auto.
  - intros e He%list_elem_of_In.
    match goal with F : forall x, In x v -> (_ && _ && _)%bool = true |- _ => specialize (F _ He) end.
    bool_hyps. destruct (function e); done.
Qed.

(** The comparison of one round: the common prefix, and the side. *)
Definition cmp_spec (cmp : among -> Z -> option (Z * Z)) : Prop :=
  forall e common, e ∈ v -> 0 <= common <= Z.of_nat (lcp T (key e)) ->
    exists d, cmp e common = Some (d, Z.of_nat (lcp T (key e)))
      /\ (d <? 0) = negb (lexle (key e) T).

(** The lower and the upper end of the interval. *)
Definition lo_ok (i ci : Z) : Prop :=
  (i = 0 /\ ci = 0)
  \/ exists e, znth v i = Some e /\ lexle (key e) T = true /\ ci = Z.of_nat (lcp T (key e)).
Definition hi_ok (j cj : Z) : Prop :=
  (j = n /\ cj = 0)
  \/ exists e, znth v j = Some e /\ lexle (key e) T = false /\ cj = Z.of_nat (lcp T (key e)).

(** Where the bisection ends: on the last entry that is at most the text,
    or before the whole table. *)
Definition bisect_post (i ci : Z) : Prop :=
  exists e, znth v i = Some e /\
  ((lexle (key e) T = true /\ ci = Z.of_nat (lcp T (key e))
    /\ forall j e', znth v j = Some e' -> i < j -> lexle (key e') T = false)
   \/ (i = 0 /\ ci = 0 /\ lexle (key e) T = false)).

Lemma above_hi j cj m e' :
  hi_ok j cj -> znth v m = Some e' -> j <= m -> lexle (key e') T = false.
Proof.
  destruct table_facts as (_ & Hn & Hs & _).
  intros [[-> _]|(e & He & Ht & _)] Hm ?.
  - apply znth_Some in Hm. lia.
  - destruct (lexle (key e') T) eqn:E; [|done].
    pose proof (znth_Some _ _ _ He). rewrite znth_lookup in He by lia.
    pose proof (znth_Some _ _ _ Hm). rewrite znth_lookup in Hm by lia.
    destruct (decide (m = j)) as [->|]; [congruence|].
    assert (lexle (key e') (key e) = false) as Hl%lexle_total.
    { eapply (keys_sorted_lt v (Z.to_nat j) (Z.to_nat m)); eauto; lia. }
    pose proof (lexle_trans _ _ _ Hl E). congruence.
Qed.

(** Entries inside the interval share what both ends share with the
    text. *)
Lemma common_ok i j ci cj k e :
  lo_ok i ci -> hi_ok j cj -> i <= k < j -> (i = k -> ci = 0 \/ i = 0) -> znth v k = Some e ->
  0 <= (if ci <? cj then ci else cj) <= Z.of_nat (lcp T (key e)).
Proof.
  destruct table_facts as (_ & Hn & Hs & _).
  intros Hlo Hhi Hk H0 He. assert ((if ci <? cj then ci else cj) = Z.min ci cj) as -> by (case_match; bool_hyps; lia).
  assert (0 <= ci) by (destruct Hlo as [[_ ->]|(?&?&?&->)]; lia).
  assert (0 <= cj) by (destruct Hhi as [[_ ->]|(?&?&?&->)]; lia).
  destruct Hlo as [[_ ->]|(lo & Hlo & Hl & ->)]; [lia|].
  destruct Hhi as [[_ ->]|(hi & Hhi & Hh & ->)]; [lia|].
  pose proof (znth_Some _ _ _ Hlo). pose proof (znth_Some _ _ _ Hhi). pose proof (znth_Some _ _ _ He).
  rewrite znth_lookup in Hlo, Hhi, He by lia.
  assert (lexle (key lo) (key e) = true).
  { destruct (decide (i = k)) as [->|]; [simplify_eq; apply lexle_refl|].
    apply lexle_total. eapply (keys_sorted_lt v (Z.to_nat i) (Z.to_nat k)); eauto; lia. }
  assert (lexle (key e) (key hi) = true).
  { apply lexle_total. eapply (keys_sorted_lt v (Z.to_nat k) (Z.to_nat j)); eauto; lia. }
  pose proof (lexle_between T (key lo) (key hi) (key e) ltac:(done) ltac:(done)). lia.
Qed.

Lemma among_bisect_ok cmp : cmp_spec cmp -> forall fuel i j ci cj first,
  0 <= i < j -> j <= n -> lo_ok i ci -> hi_ok j cj ->
  (j - i = 1 -> i = 0) -> (first = true -> j - i = 1) ->
  (Z.to_nat (j - i) + (if first then 0 else 1) <= fuel)%nat ->
  exists i' ci', among_bisect fuel cmp v i j ci cj first = Some (i', ci') /\ bisect_post i' ci'.
Proof.
  intros Hcmp fuel. destruct table_facts as (Hn0 & Hn & Hs & _).
  induction fuel as [|fuel IH]; intros i j ci cj first Hij Hjn Hlo Hhi H1 Hf Hfu; [lia|]. simpl.
  set (k := i + Z.shiftr (j - i) 1).
  assert (i <= k < j /\ (1 < j - i -> i < k)) as [Hk Hik].
  { unfold k. rewrite Z.shiftr_div_pow2 by lia. change (2 ^ 1) with 2.
    pose proof (Z.div_mod (j - i) 2 ltac:(lia)). pose proof (Z.mod_pos_bound (j - i) 2 ltac:(lia)). lia. }
  destruct (znth_is_Some v k ltac:(lia)) as [e He]. rewrite He. simpl.
  assert (e ∈ v) as Hev by (rewrite znth_lookup in He by lia; eapply list_elem_of_lookup_2; eauto).
  destruct (Hcmp e _ Hev (common_ok i j ci cj k e Hlo Hhi Hk ltac:(lia) He)) as (d & -> & Hd). simpl.
  rewrite Hd. destruct (lexle (key e) T) eqn:Hle; simpl.
  - (* the entry is at most the text: it becomes the lower end *)
    assert (lo_ok k (Z.of_nat (lcp T (key e)))) as Hlo' by (right; eauto).
    zcase (j - k <=? 1).
    + destruct ((k >? 0) || (j =? k) || first) eqn:Eo.
      * eexists _, _. split; [done|]. exists e. split; [done|]. left. split_and!; try done.
        intros. eapply above_hi; eauto; lia.
      * bool_hyps. subst. apply IH; try done; try lia.
    + apply IH; try done; try lia. intros ->. lia.
  - (* it is above: it becomes the upper end *)
    assert (hi_ok k (Z.of_nat (lcp T (key e)))) as Hhi' by (right; eauto).
    zcase (k - i <=? 1).
    + destruct ((i >? 0) || (k =? i) || first) eqn:Eo.
      * eexists _, _. split; [done|]. destruct (decide (k = i)) as [Eki|].
        { exists e. rewrite <- Eki. split; [done|]. right. split_and!; try done; [lia|].
          destruct Hlo as [[_ ?]|(e' & He' & Hl' & _)]; [done|]. rewrite Eki in He. congruence. }
        assert (0 < i) by (destruct first; bool_hyps; rewrite ?orb_true_iff in Eo; rewrite ?Z.gtb_lt in Eo; bool_hyps; [lia|]; destruct Eo as [[?|?]|?]; bool_hyps; done || lia).
        destruct Hlo as [[? _]|(e' & He' & Hl' & ?)]; [lia|]. exists e'. split; [done|]. left.
        split_and!; try done. intros. eapply above_hi; eauto; lia.
      * bool_hyps. subst. apply IH; try done; try lia.
    + apply IH; try done; try lia. intros ->. lia.
Qed.
End Search.
End Table.

(** ** The chain of proper prefixes *)
Section Chain.
Variable key : among -> list Z.

(** [e] is the longest entry of [v] that is a prefix of [T]. *)
Definition longest (v : list among) (T : list Z) (e : among) : Prop :=
  e ∈ v /\ prefixb (key e) T = true
  /\ forall e', e' ∈ v -> prefixb (key e') T = true -> prefixb (key e') (key e) = true.

(** The contract of both searches: nothing matches, nothing changes and the
    result is 0; or the longest match gives the result and the cursor moves
    over it. *)
Definition among_post (v : list among) (T : list Z) (dir : Z) (z : SN_env)
    (r : Z) (z' : SN_env) : Prop :=
  (r = 0 /\ z' = z /\ forall e, e ∈ v -> prefixb (key e) T = false)
  \/ exists e, longest v T e /\ r = result e /\ z' = set_c (sn_c z + dir * s_size e) z.

Context (v : list among) (n : Z) (T : list Z) (Hv : table_ok key v n = true).

Lemma elem_index e : e ∈ v -> exists i, znth v i = Some e /\ 0 <= i < n.
Proof.
  destruct (table_facts _ _ _ Hv) as (_ & Hn & _).
  intros [i Hi]%list_elem_of_lookup_1. exists (Z.of_nat i).
  pose proof (lookup_lt_Some _ _ _ Hi). rewrite znth_lookup, Nat2Z.id by lia. unfold zlen in Hn. split; [done|lia].
Qed.

Lemma proper_prefix_below i j e s :
  znth v i = Some e -> znth v j = Some s -> pprefixb (key s) (key e) = true -> j < i.
Proof.
  destruct (table_facts _ _ _ Hv) as (_ & Hn & Hs & _). unfold pprefixb. intros Hi Hj ?. bool_hyps.
  pose proof (znth_Some _ _ _ Hi). pose proof (znth_Some _ _ _ Hj).
  rewrite znth_lookup in Hi, Hj by lia.
  assert (Z.to_nat j <= Z.to_nat i)%nat by (eapply (keys_sorted_le key v); eauto using prefixb_lexle).
  destruct (decide (i = j)) as [->|]; [|lia]. simplify_eq.
  match goal with L : (_ <? _)%nat = true |- _ => apply Nat.ltb_lt in L end. lia.
Qed.

Lemma among_chain_ok e0 ci dir z :
  ci = Z.of_nat (lcp T (key e0)) ->
  forall fuel i e, znth v i = Some e -> prefixb (key e) (key e0) = true ->
  (forall e', e' ∈ v -> prefixb (key e') T = true -> prefixb (key e') (key e) = true) ->
  i < Z.of_nat fuel ->
  returns (among_chain fuel v dir (sn_c z) ci i) z (among_post v T dir z).
Proof.
  intros Hci fuel. destruct (table_facts _ _ _ Hv) as (_ & Hn & Hs & Hsub & Hsz).
  induction fuel as [|fuel IH]; intros i e He Hpre Hall Hfu; [apply znth_Some in He; lia|].
  assert (e ∈ v) as Hev by (pose proof (znth_Some _ _ _ He); rewrite znth_lookup in He by lia; eapply list_elem_of_lookup_2; eauto).
  destruct (Hsz e Hev) as (_ & Hlen & Hfun). unfold returns. simpl. rewrite He. simpl. rewrite Hfun.
  assert (prefixb (key e) T = (ci >=? s_size e)) as Hmatch.
  { rewrite Hlen, Z.geb_leb, Hci. unfold zlen. apply eq_true_iff_eq.
    rewrite Z.leb_le, (prefixb_lcp _ _ _ Hpre). lia. }
  rewrite <- Hmatch. destruct (prefixb (key e) T) eqn:Hm.
  { eexists _, _. split; [done|]. right. exists e. split_and!; done. }
  pose proof (Hsub e Hev) as Hso. unfold sub_ok in Hso.
  assert (forall e', e' ∈ v -> prefixb (key e') T = true -> pprefixb (key e') (key e) = true) as Hpp.
  { intros e' He' Hp. pose proof (Hall e' He' Hp) as Hq. unfold pprefixb. rewrite Hq. simpl.
    apply Nat.ltb_lt. pose proof (prefixb_len _ _ Hq).
    destruct (decide (length (key e') = length (key e))) as [El|]; [|lia].
    apply prefixb_app in Hq as [r Hr]. rewrite Hr, length_app in El. destruct r; simpl in *; [|lia].
    rewrite app_nil_r in Hr. congruence. }
  destruct (substring_i e <? 0).
  - eexists _, _. split; [done|]. left. split_and!; try done. intros e' He'.
    destruct (prefixb (key e') T) eqn:Hp; [|done].
    rewrite forallb_forall in Hso. specialize (Hso e' (proj1 (list_elem_of_In _ _) He')).
    rewrite (Hpp e' He' Hp) in Hso. done.
  - destruct (znth v (substring_i e)) as [s|] eqn:Hsi; [|done]. bool_hyps.
    apply (IH _ s); try done.
    + eapply prefixb_trans; [|done]. unfold pprefixb in *. bool_hyps. done.
    + intros e' He' Hp.
      match goal with F : forallb _ _ = true |- _ => rewrite forallb_forall in F; specialize (F e' (proj1 (list_elem_of_In _ _) He')); simpl in F end.
      by rewrite (Hpp e' He' Hp) in *.
    + pose proof (proper_prefix_below i _ e s He Hsi ltac:(done)). lia.
Qed.

Lemma among_search_ok cmp dir z :
  cmp_spec key v T cmp ->
  returns (fun z => '(i, ci) ← among_bisect (S (S (Z.to_nat n))) cmp v 0 n 0 0 false;
                    among_chain (S (Z.to_nat n)) v dir (sn_c z) ci i z) z
    (among_post v T dir z).
Proof.
  intros Hcmp. destruct (table_facts _ _ _ Hv) as (Hn0 & Hn & Hs & Hsub & Hsz).
  destruct (among_bisect_ok key v n T Hv cmp Hcmp (S (S (Z.to_nat n))) 0 n 0 0 false)
    as (i & ci & Hb & e & He & Hcase); try lia; [by left|by left|].
  pose proof (znth_Some _ _ _ He). unfold returns. rewrite Hb. cbn [mbind option_bind].
  assert (e ∈ v) as Hev by (rewrite znth_lookup in He by lia; eapply list_elem_of_lookup_2; eauto).
  destruct Hcase as [(Hle & Hci & Habove)|(-> & -> & Hle)].
  - apply (among_chain_ok e ci dir z Hci _ i e); try done; [by apply prefixb_app; exists []; rewrite app_nil_r| |lia].
    intros e' He' Hp. destruct (elem_index e' He') as (j & Hj & ?).
    assert (lexle (key e') (key e) = true).
    { destruct (decide (i < j)) as [Hij|]; [pose proof (Habove j e' Hj Hij); pose proof (prefixb_lexle _ _ Hp); congruence|].
      destruct (decide (i = j)) as [->|]; [simplify_eq; apply lexle_refl|].
      rewrite znth_lookup in He, Hj by lia. apply lexle_total. eapply (keys_sorted_lt key v (Z.to_nat j) (Z.to_nat i)); eauto; lia. }
    pose proof (lexle_between T (key e') T (key e) ltac:(done) ltac:(done)) as Hb2.
    rewrite (proj1 (lcp_prefix _ _) Hp) in Hb2.
    rewrite lcp_refl in Hb2. pose proof (prefixb_len _ _ Hp).
    apply (lcp_prefix_of _ _ T Hp). lia.
  - destruct (Hsz e Hev) as (_ & Hlen & Hfun). simpl. rewrite He. simpl. rewrite Hfun, Z.geb_leb.
    assert (0 < s_size e) by (destruct (key e); [done|rewrite Hlen, zlen_cons; pose proof (zlen_nonneg l); lia]).
    rewrite (proj2 (Z.leb_gt _ _)) by lia.
    assert (substring_i e < 0) as Hneg.
    { pose proof (Hsub e Hev) as Hso. unfold sub_ok in Hso. zcase (substring_i e <? 0); [done|].
      destruct (znth v (substring_i e)) as [s|] eqn:Hsi; [|done]. bool_hyps.
      pose proof (proper_prefix_below 0 _ e s He Hsi ltac:(done)). lia. }
    rewrite (proj2 (Z.ltb_lt _ _) Hneg). eexists _, _. split; [done|]. left. split_and!; try done.
    intros e' He'. destruct (prefixb (key e') T) eqn:Hp; [|done].
    destruct (elem_index e' He') as (j & Hj & ?). destruct (decide (j = 0)) as [->|].
    + simplify_eq. pose proof (prefixb_lexle _ _ Hp). congruence.
    + rewrite znth_lookup in He, Hj by lia.
      assert (lexle (key e') (key e) = false) as Hl%lexle_total by (eapply (keys_sorted_lt key v 0%nat (Z.to_nat j)); eauto; lia).
      pose proof (lexle_trans _ _ _ Hl (prefixb_lexle _ _ Hp)). congruence.
Qed.
End Chain.

(** ** The inner loops compute the common prefix *)

(** One more symbol of a comparison that agreed on the first [m]. *)
Lemma cmp_step T K m :
  (m <= lcp T K)%nat ->
  match K !! m, T !! m with
  | None, _ => lcp T K = m /\ lexle K T = true
  | Some _, None => lcp T K = m /\ lexle K T = false
  | Some x, Some q => if q =? x then (S m <= lcp T K)%nat
                      else lcp T K = m /\ lexle K T = (x <? q)
  end.
Proof.
  intros Hm. destruct (lcp_drop m T K Hm) as [-> ->].
  replace (K !! m) with (drop m K !! 0%nat) by (rewrite lookup_drop; f_equal; lia).
  replace (T !! m) with (drop m T !! 0%nat) by (rewrite lookup_drop; f_equal; lia).
  destruct (drop m K) as [|x K'], (drop m T) as [|q T']; simpl; try (split; [lia|done]).
  rewrite (Z.eqb_sym x q). zcase (q =? x); [lia|]. split; [lia|done].
Qed.

Lemma znth_zseg {A} (w : list A) i j m :
  0 <= i -> 0 <= m < j - i -> znth (zseg i j w) m = znth w (i + m).
Proof.
  intros. unfold zseg, ztake, zdrop. rewrite !znth_lookup by lia.
  rewrite lookup_take_lt by lia. rewrite lookup_drop. f_equal. lia.
Qed.

Lemma cmp_fwd_ok k w z c l e :
  holds k w z -> 0 <= c <= l -> l <= sn_l z -> s_size e = zlen (s_key e) ->
  let T := zseg c l w in
  forall n common, 0 <= common <= Z.of_nat (lcp T (s_key e)) ->
    Z.of_nat n = s_size e - common ->
    exists d, cmp_fwd n z c l e common common 0 = Some (d, Z.of_nat (lcp T (s_key e)))
      /\ (d <? 0) = negb (lexle (s_key e) T).
Proof.
  intros Hw Hc Hl Hsz T n. pose proof (holds_l _ _ _ Hw) as HL.
  assert (zlen T = l - c) as HT by (unfold T; rewrite zlen_zseg; lia).
  induction n as [|n IH]; intros common Hcm Hn;
    pose proof (cmp_step T (s_key e) (Z.to_nat common) ltac:(lia)) as Hstep; simpl.
  - rewrite lookup_ge_None_2 in Hstep by (unfold zlen in *; lia). destruct Hstep as [-> ->].
    eexists. split; [do 2 f_equal; lia|done].
  - destruct (znth_is_Some (s_key e) common ltac:(lia)) as [x Hx]. rewrite Hx.
    rewrite znth_lookup in Hx by lia. rewrite Hx in Hstep. zcase (c + common =? l).
    { rewrite lookup_ge_None_2 in Hstep by (unfold zlen in *; lia). destruct Hstep as [-> ->].
      eexists. split; [do 2 f_equal; lia|done]. }
    assert (common < l - c) by (pose proof (lcp_le_text T (s_key e)); unfold zlen in *; lia).
    rewrite (holds_rd k w) by (done || lia).
    rewrite <- (znth_zseg w c l common) by lia. fold T.
    destruct (znth_is_Some T common ltac:(lia)) as [q Hq]. rewrite Hq. simpl.
    rewrite znth_lookup in Hq by lia. rewrite Hq in Hstep.
    zcase (q =? x); subst.
    + rewrite Z.sub_diag. simpl. apply IH; lia.
    + rewrite (proj2 (Z.eqb_neq _ _)) by lia. simpl. destruct Hstep as [-> ->]. eexists.
      split; [do 2 f_equal; lia|]. apply eq_true_iff_eq. rewrite Z.ltb_lt, negb_true_iff, Z.ltb_ge. lia.
Qed.

Lemma cmp_bwd_ok k w z c lb e :
  holds k w z -> 0 <= lb <= c -> c <= sn_l z -> s_size e = zlen (s_key e) ->
  let T := reverse (zseg lb c w) in let K := reverse (s_key e) in
  forall n common, 0 <= common <= Z.of_nat (lcp T K) ->
    Z.of_nat n = s_size e - common ->
    exists d, cmp_bwd n z c lb e (s_size e - 1 - common) common 0 = Some (d, Z.of_nat (lcp T K))
      /\ (d <? 0) = negb (lexle K T).
Proof.
  intros Hw Hc Hl Hsz T K n. pose proof (holds_l _ _ _ Hw) as HL.
  assert (zlen (zseg lb c w) = c - lb) as HS by (rewrite zlen_zseg; lia).
  assert (zlen T = c - lb) as HT by (unfold T, zlen in *; rewrite length_reverse; lia).
  assert (zlen K = s_size e) as HK by (unfold K, zlen in *; rewrite length_reverse; lia).
  induction n as [|n IH]; intros common Hcm Hn;
    pose proof (cmp_step T K (Z.to_nat common) ltac:(lia)) as Hstep; simpl.
  - rewrite lookup_ge_None_2 in Hstep by (unfold zlen in *; lia). destruct Hstep as [-> ->].
    eexists. split; [do 2 f_equal; lia|done].
  - destruct (znth_is_Some K common ltac:(lia)) as [x Hx]. rewrite znth_lookup in Hx by lia.
    rewrite Hx in Hstep. unfold K in Hx. rewrite reverse_lookup in Hx by (unfold zlen in *; lia).
    assert (znth (s_key e) (s_size e - 1 - common) = Some x) as ->.
    { rewrite znth_lookup by lia. rewrite <- Hx. f_equal. unfold zlen in *. lia. }
    zcase (c - common =? lb).
    { rewrite lookup_ge_None_2 in Hstep by (unfold zlen in *; lia). destruct Hstep as [-> ->].
      eexists. split; [do 2 f_equal; lia|done]. }
    assert (common < c - lb) by (pose proof (lcp_le_text T K); unfold zlen in *; lia).
    rewrite (holds_rd k w) by (done || lia).
    assert (znth w (c - 1 - common) = T !! Z.to_nat common) as ->.
    { unfold T. rewrite reverse_lookup by (unfold zlen in *; lia).
      replace (c - 1 - common) with (lb + (c - lb - 1 - common)) by lia.
      rewrite <- (znth_zseg w lb c) by lia. rewrite znth_lookup by lia. f_equal. unfold zlen in *. lia. }
    destruct (lookup_lt_is_Some_2 T (Z.to_nat common) ltac:(unfold zlen in *; lia)) as [q Hq].
    rewrite Hq in Hstep |- *. simpl. zcase (q =? x); subst.
    + rewrite Z.sub_diag. simpl. replace (s_size e - 1 - common - 1) with (s_size e - 1 - (common + 1)) by lia.
      apply IH; lia.
    + rewrite (proj2 (Z.eqb_neq _ _)) by lia. simpl. destruct Hstep as [-> ->]. eexists.
      split; [do 2 f_equal; lia|]. apply eq_true_iff_eq. rewrite Z.ltb_lt, negb_true_iff, Z.ltb_ge. lia.
Qed.

(** ** The searches *)
Definition key_fwd (e : among) : list Z := s_key e.
Definition key_bwd (e : among) : list Z := reverse (s_key e).

(** A longest prefix is longest by size. *)
Lemma longest_size key v n T e e' :
  table_ok key v n = true -> longest key v T e -> e' ∈ v -> prefixb (key e') T = true ->
  s_size e' <= s_size e.
Proof.
  intros Hv (He & _ & Hl) He' Hp. destruct (table_facts _ _ _ Hv) as (_ & _ & _ & _ & Hsz).
  destruct (Hsz e He) as (_ & -> & _), (Hsz e' He') as (_ & -> & _).
  pose proof (prefixb_len _ _ (Hl e' He' Hp)). unfold zlen. lia.
Qed.

Lemma find_among_ok k w z v n :
  holds k w z -> cursor z -> table_ok key_fwd v n = true ->
  returns (find_among v n) z (among_post key_fwd v (zseg (sn_c z) (sn_l z) w) 1 z).
Proof.
  intros Hw [??] Hv. destruct (table_facts _ _ _ Hv) as (_ & _ & _ & _ & Hsz).
  apply (among_search_ok key_fwd v n _ Hv). intros e common He Hc.
  destruct (Hsz e He) as (Hs & _). pose proof (lcp_le (zseg (sn_c z) (sn_l z) w) (key_fwd e)).
  eapply (cmp_fwd_ok k w); try done; try lia. unfold key_fwd, zlen in *. lia.
Qed.

Lemma find_among_b_ok k w z v n :
  holds k w z -> cursor z -> table_ok key_bwd v n = true ->
  returns (find_among_b v n) z (among_post key_bwd v (reverse (zseg (sn_lb z) (sn_c z) w)) (-1) z).
Proof.
  intros Hw [??] Hv. destruct (table_facts _ _ _ Hv) as (_ & _ & _ & _ & Hsz).
  apply (among_search_ok key_bwd v n _ Hv). intros e common He Hc.
  destruct (Hsz e He) as (_ & Hs & _). destruct (Hsz e He) as (Hs' & _).
  pose proof (lcp_le (reverse (zseg (sn_lb z) (sn_c z) w)) (key_bwd e)).
  eapply (cmp_bwd_ok k w); try done; try lia. unfold zlen in *. lia.
Qed.
