(* ===== verification/SnCode.v ===== *)
(** * Idioms of the generated stemmers

    The statement forms the Snowball compiler emits ([src_c/stem_*.c]) in the
    control monad of [SnEnv], with a proof rule for each of them over one
    state predicate: the word is in the buffer, the cursor is inside the
    limits, the word has not grown past a bound the buffer has room for. *)

From S2P Require Import Prelude SnEnv SnRuntime SnSpec SnAmong.

Open Scope sn_scope.

(** ** Statements *)

(** [z->bra = z->c;] and [z->ket = z->c;] *)
Definition bra_c : M unit := put (fun z => set_bra (sn_c z) z).
Definition ket_c : M unit := put (fun z => set_ket (sn_c z) z).
(** [z->c = v;] *)
Definition c_is (v : Z) : M unit := put (set_c v).
(** [z->l - z->c], and [z->c = z->l - m;] *)
Definition get_m : M Z := get (fun z => sn_l z - sn_c z).
Definition c_from_l (m : Z) : M unit := put (fun z => set_c (sn_l z - m) z).
(** [if (f(z)) k] and [if (!(f(z))) k] *)
Definition if_call (f : cfunc) (k : M unit) : M unit :=
  r <- call f ;; when (negb (r =? 0)) k.
Definition unless_call (f : cfunc) (k : M unit) : M unit :=
  r <- call f ;; when (r =? 0) k.
(** [if (f(z) < 0) k] *)
Definition neg_call (f : cfunc) (k : M unit) : M unit :=
  r <- call f ;; when (r <? 0) k.
(** [{ int ret = f(z); if (ret < 0) return ret; }] *)
Definition checked (f : cfunc) : M unit :=
  r <- call f ;; when (r <? 0) (creturn r).
(** [{ int ret = f(z); if (ret == 0) k; if (ret < 0) return ret; }] *)
Definition routine (f : cfunc) (k : M unit) : M unit :=
  r <- call f ;; when (r =? 0) k ;; when (r <? 0) (creturn r).
(** [{ int ret = f(z); if (ret < 0) k; z->c += ret; }] and the backward
    form *)
Definition gopast (f : cfunc) (k : M unit) : M unit :=
  r <- call f ;; when (r <? 0) k ;; put (fun z => set_c (sn_c z + r) z).
Definition gopast_b (f : cfunc) (k : M unit) : M unit :=
  r <- call f ;; when (r <? 0) k ;; put (fun z => set_c (sn_c z - r) z).
(** [{ int ret = skip_utf8(z->p, z->c, 0, z->l, 1); if (ret < 0) k; z->c = ret; }]
    and [skip_utf8(z->p, z->c, z->lb, 0, -1)] *)
Definition next_utf8 (n : Z) (k : M unit) : M unit :=
  r <- lift (fun z => skip_utf8 z (sn_c z) 0 (sn_l z) n) ;;
  when (r <? 0) k ;; c_is r.
Definition prev_utf8 (n : Z) (k : M unit) : M unit :=
  r <- lift (fun z => skip_utf8 z (sn_c z) (sn_lb z) 0 (- n)) ;;
  when (r <? 0) k ;; c_is r.
(** [{ int ret = skip_utf8(z->p, z->c, z->lb, z->l, - n); if (ret < 0) k; z->c = ret; }] *)
Definition hop_b (n : Z) (k : M unit) : M unit :=
  r <- lift (fun z => skip_utf8 z (sn_c z) (sn_lb z) (sn_l z) (- n)) ;;
  when (r <? 0) k ;; c_is r.
(** [if (z->c >= z->l) k; z->c++;] and [if (z->c <= z->lb) k; z->c--;], the
    moves of the stemmers for single-byte encodings *)
Definition next_byte (k : M unit) : M unit :=
  c <- get sn_c ;; l <- get sn_l ;;
  when (c >=? l) k ;; put (fun z => set_c (sn_c z + 1) z).
Definition prev_byte (k : M unit) : M unit :=
  c <- get sn_c ;; lb <- get sn_lb ;;
  when (c <=? lb) k ;; put (fun z => set_c (sn_c z - 1) z).
(** [{ int ret = z->c + n; if (0 > ret || ret > z->l) k; z->c = ret; }] and
    [{ int ret = z->c - n; if (z->lb > ret || ret > z->l) k; z->c = ret; }] *)
Definition hop_byte (n : Z) (k : M unit) : M unit :=
  r <- lift (fun z => cint (sn_c z + n)) ;; l <- get sn_l ;;
  when ((0 >? r) || (r >? l)) k ;; c_is r.
Definition hop_byte_b (n : Z) (k : M unit) : M unit :=
  r <- lift (fun z => cint (sn_c z - n)) ;; lb <- get sn_lb ;; l <- get sn_l ;;
  when ((lb >? r) || (r >? l)) k ;; c_is r.
(** [{ int c_keep = z->c; int ret = insert_s(z, z->c, z->c, n, s);
       z->c = c_keep; if (ret < 0) return ret; }] *)
Definition insert_here `{CHeap} (n : Z) (s : list Z) : M unit :=
  c_keep <- get sn_c ;;
  r <- call (insert_s c_keep c_keep n (Some <$> s)) ;;
  c_is c_keep ;; when (r <? 0) (creturn r).
(** [z->c - off <= z->lb || test(z->p[z->c - 1])] *)
Definition pre_b (off : Z) (test : Z -> bool) : M bool := fun z =>
  if sn_c z - off <=? sn_lb z then Some (Next true, z)
  else b ← rd z (sn_c z - 1); Some (Next (test b), z).
(** [z->c + off >= z->l || test(z->p[z->c + off])] *)
Definition pre_f (off : Z) (test : Z -> bool) : M bool := fun z =>
  if sn_c z + off >=? sn_l z then Some (Next true, z)
  else b ← rd z (sn_c z + off); Some (Next (test b), z).
(** [b >> 5 != hi || !((mask >> (b & 0x1f)) & 1)] *)
Definition not_masked (hi mask b : Z) : bool :=
  negb (Z.shiftr b 5 =? hi) || (Z.land (Z.shiftr mask (Z.land b 31)) 1 =? 0).

(** A literal symbol array as memory. *)
Abbreviation sy s := (Some <$> s).

(** ** The state of a running stemmer *)
Record st (k L : Z) (ni nb : nat) (w : list Z) (z : SN_env) : Prop := mk_st {
  st_holds : holds k w z;
  st_cursor : cursor z;
  st_bound : zlen w <= L;
  st_room : L + 1 <= k;
  st_I : length (sn_I z) = ni;
  st_marks : Forall (Z.le 0) (sn_I z);
  st_B : length (sn_B z) = nb
}.

Section Rules.
Context (k L : Z) (ni nb : nat).
Abbreviation St := (st k L ni nb).

Lemma st_l w z : St w z -> sn_l z = zlen w.
Proof. intros []. eauto using holds_l. Qed.

Lemma st_range w z : St w z -> 0 <= sn_lb z <= sn_c z /\ sn_c z <= sn_l z /\ sn_l z <= L.
Proof. intros S. pose proof (st_l _ _ S). destruct S as [_ [??] ? _ _ _]. lia. Qed.

Lemma st_set_c w z v : St w z -> sn_lb z <= v <= sn_l z -> St w (set_c v z).
Proof. intros [? [??] ? ? ? ?] ?. split; try done. unfold cursor. simpl in *. lia. Qed.

Lemma st_set_bra w z v : St w z -> St w (set_bra v z).
Proof. by intros []. Qed.

Lemma st_set_ket w z v : St w z -> St w (set_ket v z).
Proof. by intros []. Qed.

Lemma st_set_lb w z v : St w z -> 0 <= v <= sn_c z -> St w (set_lb v z).
Proof. intros [? [??] ? ? ? ?] ?. split; try done. Qed.

Lemma st_put_I w z i v Q :
  St w z -> (0 <= i < Z.of_nat ni) -> 0 <= v ->
  (forall z', St w z' -> sn_c z' = sn_c z -> sn_l z' = sn_l z -> sn_lb z' = sn_lb z ->
     sn_bra z' = sn_bra z -> sn_ket z' = sn_ket z -> sn_I z' = <[Z.to_nat i := v]> (sn_I z) -> Q (Next tt) z') ->
  wp (put_I i v) Q z.
Proof.
  intros S Hi Hv HQ. pose proof (st_I _ _ _ _ _ _ S) as HI. unfold wp, put_I.
  destruct (znth_is_Some (sn_I z) i ltac:(unfold zlen; lia)) as [x ->].
  apply HQ; try done. destruct S. split; try done; simpl; [by rewrite length_insert|by apply Forall_insert].
Qed.

Lemma st_put_B w z i v Q :
  St w z -> (0 <= i < Z.of_nat nb) ->
  (forall z', St w z' -> sn_c z' = sn_c z -> sn_l z' = sn_l z -> sn_lb z' = sn_lb z ->
     sn_bra z' = sn_bra z -> sn_ket z' = sn_ket z -> Q (Next tt) z') ->
  wp (put_B i v) Q z.
Proof.
  intros S Hi HQ. pose proof (st_B _ _ _ _ _ _ S) as HB. unfold wp, put_B.
  destruct (znth_is_Some (sn_B z) i ltac:(unfold zlen; lia)) as [x ->].
  apply HQ; try done. destruct S. split; try done. simpl. by rewrite length_insert.
Qed.

Lemma st_get_I w z i Q :
  St w z -> (0 <= i < Z.of_nat ni) -> (forall x, znth (sn_I z) i = Some x -> 0 <= x -> Q (Next x) z) -> wp (get_I i) Q z.
Proof.
  intros S Hi HQ. destruct (znth_is_Some (sn_I z) i) as [x Hx].
  { pose proof (st_I _ _ _ _ _ _ S). unfold zlen. lia. }
  unfold get_I. eapply wp_lift; [done|]. apply HQ; [done|]. pose proof (st_marks _ _ _ _ _ _ S) as Hm.
  rewrite znth_lookup in Hx by lia. by eapply Forall_lookup_1 in Hm.
Qed.

Lemma st_get_B w z i Q :
  St w z -> (0 <= i < Z.of_nat nb) -> (forall x, Q (Next x) z) -> wp (get_B i) Q z.
Proof.
  intros S Hi HQ. destruct (znth_is_Some (sn_B z) i) as [x Hx].
  { pose proof (st_B _ _ _ _ _ _ S). unfold zlen. lia. }
  unfold get_B. by eapply wp_lift.
Qed.

(** Grouping calls: only the cursor moves. *)
Lemma st_group f dir s min max rep w z :
  group_spec f dir -> dir = 1 \/ dir = -1 -> group_ok s min max = true -> St w z ->
  returns (f s min max rep) z (fun v z' =>
    exists n, z' = set_c (sn_c z + dir * n) z /\ St w z' /\ 0 <= n <= dist dir z
      /\ (v = -1 \/ (v = 0 /\ rep = 0 /\ 1 <= n) \/ (1 <= v /\ n + v <= dist dir z))).
Proof.
  intros Hf Hd Hg S. eapply returns_mono; [eapply Hf; eauto; apply S|].
  intros v z' (n & -> & Hn & Hv). exists n. split_and!; try done; try lia.
  apply st_set_c; [done|]. pose proof (st_range _ _ S). unfold dist in *.
  destruct Hd as [-> | ->]; simpl in *; lia.
Qed.

Lemma st_eq_s n s w z : St w z -> n = zlen s ->
  returns (eq_s n (Some <$> s)) z (fun v z' =>
    (v = 0 /\ z' = z) \/ (v = 1 /\ z' = set_c (sn_c z + n) z /\ sn_c z + n <= sn_l z
                          /\ zseg (sn_c z) (sn_c z + n) w = s)).
Proof. intros [] ?. by eapply eq_s_ok. Qed.

Lemma st_eq_s_b n s w z : St w z -> n = zlen s ->
  returns (eq_s_b n (Some <$> s)) z (fun v z' =>
    (v = 0 /\ z' = z) \/ (v = 1 /\ z' = set_c (sn_c z - n) z /\ sn_lb z <= sn_c z - n
                          /\ zseg (sn_c z - n) (sn_c z) w = s)).
Proof. intros [] ?. by eapply eq_s_b_ok. Qed.

(** The entries of a table with result [r] are at least [f r] symbols
    long, and no result is 0, which means failure. *)
Definition sizes_ok (f : Z -> Z) (v : list among) : bool :=
  forallb (fun e => (f (result e) <=? s_size e) && negb (result e =? 0)) v.

(** The shortest entry with a given result. *)
Definition min_size (v : list among) (r : Z) : Z :=
  fold_right (fun e m => if result e =? r then Z.min (s_size e) m else m) INT_MAX v.

Lemma st_find_among_b v n f w z :
  St w z -> table_ok key_bwd v n = true -> sizes_ok f v = true ->
  returns (find_among_b v n) z (fun r z' =>
    (r = 0 /\ z' = z) \/
    (r <> 0 /\ exists d, z' = set_c (sn_c z - d) z /\ 0 <= d /\ f r <= d /\ sn_lb z <= sn_c z - d)).
Proof.
  intros S Hv Hf. pose proof (st_range _ _ S). pose proof (st_l _ _ S) as Hl.
  eapply returns_mono; [eapply find_among_b_ok; eauto; apply S|].
  intros r z' [(-> & -> & _)|(e & (He & Hp & _) & -> & ->)]; [by left|right].
  unfold sizes_ok in Hf. rewrite forallb_forall in Hf.
  specialize (Hf e (proj1 (list_elem_of_In _ _) He)). bool_hyps. split; [done|].
  destruct (table_facts _ _ _ Hv) as (_ & _ & _ & _ & Hsz). destruct (Hsz e He) as (_ & Hz & _).
  exists (s_size e). pose proof (zlen_nonneg (key_bwd e)).
  apply prefixb_len in Hp. rewrite length_reverse in Hp.
  assert (zlen (zseg (sn_lb z) (sn_c z) w) = sn_c z - sn_lb z) by (rewrite zlen_zseg; lia).
  unfold zlen in *. split_and!; first [lia | f_equal; lia | done].
Qed.

Lemma st_find_among v n f w z :
  St w z -> table_ok key_fwd v n = true -> sizes_ok f v = true ->
  returns (find_among v n) z (fun r z' =>
    (r = 0 /\ z' = z) \/
    (r <> 0 /\ exists d, z' = set_c (sn_c z + d) z /\ 0 <= d /\ f r <= d /\ sn_c z + d <= sn_l z)).
Proof.
  intros S Hv Hf. pose proof (st_range _ _ S). pose proof (st_l _ _ S) as Hl.
  eapply returns_mono; [eapply find_among_ok; eauto; apply S|].
  intros r z' [(-> & -> & _)|(e & (He & Hp & _) & -> & ->)]; [by left|right].
  unfold sizes_ok in Hf. rewrite forallb_forall in Hf.
  specialize (Hf e (proj1 (list_elem_of_In _ _) He)). bool_hyps. split; [done|].
  destruct (table_facts _ _ _ Hv) as (_ & _ & _ & _ & Hsz). destruct (Hsz e He) as (_ & Hz & _).
  exists (s_size e). pose proof (zlen_nonneg (key_fwd e)). apply prefixb_len in Hp.
  assert (zlen (zseg (sn_c z) (sn_l z) w) = sn_l z - sn_c z) by (rewrite zlen_zseg; lia).
  unfold zlen in *. split_and!; first [lia | f_equal; lia | done].
Qed.

Lemma st_next_utf8 n kk w z Q :
  St w z -> 0 <= n ->
  wp kk (fun f z' => match f with Next _ => False | _ => Q f z' end) z ->
  (forall r, sn_c z + n <= r <= sn_l z -> St w (set_c r z) -> Q (Next tt) (set_c r z)) ->
  wp (next_utf8 n kk) Q z.
Proof.
  intros S Hn Hk HQ. pose proof (st_range _ _ S). destruct S as [Hw Hc Hb Hr HI HB].
  destruct (skip_utf8_fwd_ok k w z Hw (Z.to_nat n) (sn_c z) (sn_l z)) as (r & He & Hrr); try lia.
  unfold next_utf8. apply wp_bind. eapply wp_lift.
  { unfold skip_utf8. rewrite Z.geb_leb, (proj2 (Z.leb_le _ _)) by lia. exact He. }
  apply wp_bind. zcase (r <? 0); simpl.
  - eapply wp_mono; [exact Hk|]. by intros [] z'.
  - apply HQ; [lia|]. apply st_set_c; [by split|lia].
Qed.

Lemma st_prev_utf8 n kk w z Q :
  St w z -> 0 < n ->
  wp kk (fun f z' => match f with Next _ => False | _ => Q f z' end) z ->
  (forall r, sn_lb z <= r <= sn_c z - n -> St w (set_c r z) -> Q (Next tt) (set_c r z)) ->
  wp (prev_utf8 n kk) Q z.
Proof.
  intros S Hn Hk HQ. pose proof (st_range _ _ S). destruct S as [Hw Hc Hb Hr HI HB].
  destruct (skip_utf8_bwd_ok k w z Hw (Z.to_nat n) (sn_c z) (sn_lb z)) as (r & He & Hrr); try lia.
  unfold prev_utf8. apply wp_bind. eapply wp_lift.
  { unfold skip_utf8. rewrite Z.geb_leb, (proj2 (Z.leb_gt _ _)) by lia.
    rewrite Z.opp_involutive. exact He. }
  apply wp_bind. zcase (r <? 0); simpl.
  - eapply wp_mono; [exact Hk|]. by intros [] z'.
  - apply HQ; [lia|]. apply st_set_c; [by split|lia].
Qed.

(** Moving backwards does not look at the upper limit. *)
Lemma st_hop_b n kk w z Q :
  St w z -> 0 < n ->
  wp kk (fun f z' => match f with Next _ => False | _ => Q f z' end) z ->
  (forall r, sn_lb z <= r <= sn_c z - n -> St w (set_c r z) -> Q (Next tt) (set_c r z)) ->
  wp (hop_b n kk) Q z.
Proof.
  intros S Hn Hk HQ. unfold hop_b.
  replace (lift _) with (lift (fun z => skip_utf8 z (sn_c z) (sn_lb z) 0 (- n))); [by apply (st_prev_utf8 n kk w)|].
  unfold skip_utf8. by rewrite Z.geb_leb, (proj2 (Z.leb_gt _ _)) by lia.
Qed.

(** The sum of the cursor and the distance has to be an [int]. *)
Lemma st_hop_byte n kk w z Q :
  St w z -> 0 < n -> sn_c z + n <= INT_MAX ->
  wp kk (fun f z' => match f with Next _ => False | _ => Q f z' end) z ->
  (sn_c z + n <= sn_l z -> St w (set_c (sn_c z + n) z) -> Q (Next tt) (set_c (sn_c z + n) z)) ->
  wp (hop_byte n kk) Q z.
Proof.
  intros S Hn Hm Hk HQ. pose proof (st_range _ _ S). unfold hop_byte. apply wp_bind. eapply wp_lift.
  { apply cint_in. unfold INT_MIN. lia. }
  apply wp_bind, wp_get, wp_bind. rewrite !Z.gtb_ltb, (proj2 (Z.ltb_ge _ 0)) by lia. cbn [orb].
  zcase (sn_l z <? sn_c z + n); simpl.
  - eapply wp_mono; [exact Hk|]. by intros [] z'.
  - apply HQ; [lia|]. apply st_set_c; [done|lia].
Qed.

Lemma st_hop_byte_b n kk w z Q :
  St w z -> 0 < n <= INT_MAX ->
  wp kk (fun f z' => match f with Next _ => False | _ => Q f z' end) z ->
  (sn_lb z <= sn_c z - n -> St w (set_c (sn_c z - n) z) -> Q (Next tt) (set_c (sn_c z - n) z)) ->
  wp (hop_byte_b n kk) Q z.
Proof.
  intros S Hn Hk HQ. pose proof (st_range _ _ S). pose proof (st_l _ _ S). pose proof (holds_cap _ _ _ (st_holds _ _ _ _ _ _ S)).
  unfold hop_byte_b. apply wp_bind. eapply wp_lift.
  { apply cint_in. unfold INT_MIN, INT_MAX in *. lia. }
  do 2 apply wp_bind, wp_get. apply wp_bind. rewrite !Z.gtb_ltb, (proj2 (Z.ltb_ge (sn_l z) _)) by lia. rewrite orb_false_r.
  zcase (sn_c z - n <? sn_lb z); simpl.
  - eapply wp_mono; [exact Hk|]. by intros [] z'.
  - apply HQ; [lia|]. apply st_set_c; [done|lia].
Qed.

Lemma st_pre_b off test w z Q :
  St w z -> 0 <= off ->
  (forall b, Q (Next b) z) -> wp (pre_b off test) Q z.
Proof.
  intros S Ho HQ. pose proof (st_range _ _ S). pose proof (st_l _ _ S). unfold wp, pre_b.
  zcase (sn_c z - off <=? sn_lb z); [done|].
  destruct (holds_rd_byte k w z (sn_c z - 1)) as (b & -> & _); [apply S|lia|]. apply HQ.
Qed.

Lemma st_pre_f off test w z Q :
  St w z -> 0 <= off ->
  (forall b, Q (Next b) z) -> wp (pre_f off test) Q z.
Proof.
  intros S Ho HQ. pose proof (st_range _ _ S). pose proof (st_l _ _ S). unfold wp, pre_f.
  rewrite Z.geb_leb. zcase (sn_l z <=? sn_c z + off); [done|].
  destruct (holds_rd_byte k w z (sn_c z + off)) as (b & -> & _); [apply S|lia|]. apply HQ.
Qed.

Context `{CHeap}.

(** A slice operation that does not grow the word past its bound; the
    new state is described by the lengths. *)
Lemma st_slice_from_s n s w z :
  St w z -> bytes_ok s -> n = zlen s -> n <= INT_MAX ->
  0 <= sn_bra z <= sn_ket z -> sn_ket z <= sn_l z ->
  sn_lb z <= sn_bra z -> zlen w + (n - (sn_ket z - sn_bra z)) <= L ->
  returns (slice_from_s n (Some <$> s)) z (fun v z' =>
    v = 0 /\ St (splice (sn_bra z) (sn_ket z) s w) z'
    /\ sn_l z' = sn_l z + (n - (sn_ket z - sn_bra z))
    /\ sn_c z' = splice_c (sn_bra z) (sn_ket z) n (sn_c z) /\ frame z z').
Proof.
  intros S Hs Hn Hm Hb Hk Hlb Hg. pose proof (st_range _ _ S). pose proof (st_l _ _ S) as Hl.
  destruct S as [Hw [Hc1 Hc2] Hbd Hr HI HB]. pose proof (zlen_nonneg s).
  pose proof (splice_len (sn_bra z) (sn_ket z) s w Hb ltac:(lia)) as Hsl.
  eapply returns_mono; [eapply slice_from_s_ok; eauto; try lia; left; lia|].
  intros v z' (-> & Hh & Hc & Hf). simpl in Hh.
  assert (grown k (zlen w + 1 + (n - (sn_ket z - sn_bra z))) = k) as Hgr.
  { unfold grown. by rewrite (proj2 (Z.ltb_ge _ _)) by lia. }
  rewrite Hgr in Hh. pose proof (holds_l _ _ _ Hh) as Hl'. destruct Hf as (Hf1&Hf2&Hf3&Hf4&Hf5&Hf6).
  split_and!; try done; [|lia]. split; try done; try congruence; try lia.
  unfold cursor. rewrite Hf1, Hc, Hl'. unfold splice_c. rewrite Z.geb_leb, Z.gtb_ltb.
  split;
    zcase (n - (sn_ket z - sn_bra z) =? 0); try lia; zcase (sn_ket z <=? sn_c z); try lia;
    zcase (sn_bra z <? sn_c z); lia.
Qed.

Lemma st_slice_del w z :
  St w z -> 0 <= sn_bra z <= sn_ket z -> sn_ket z <= sn_l z -> sn_lb z <= sn_bra z ->
  returns slice_del z (fun v z' =>
    v = 0 /\ St (splice (sn_bra z) (sn_ket z) [] w) z'
    /\ sn_l z' = sn_l z - (sn_ket z - sn_bra z)
    /\ sn_c z' = splice_c (sn_bra z) (sn_ket z) 0 (sn_c z) /\ frame z z').
Proof.
  intros S ???. pose proof (st_bound _ _ _ _ _ _ S).
  eapply returns_mono.
  - apply (st_slice_from_s 0 [] w z S); try done; try lia. by constructor.
  - simpl. intros v z' (?&?&?&?&?). split_and!; try done; lia.
Qed.

Lemma st_insert_here n s w z Q :
  St w z -> bytes_ok s -> n = zlen s -> n <= INT_MAX -> zlen w + n <= L ->
  (forall z', St (splice (sn_c z) (sn_c z) s w) z' -> sn_l z' = sn_l z + n ->
     sn_c z' = sn_c z -> sn_lb z' = sn_lb z -> Q (Next tt) z') ->
  wp (insert_here n s) Q z.
Proof.
  intros S Hs Hn Hm Hg HQ. pose proof (st_range _ _ S). pose proof (st_l _ _ S) as Hl.
  destruct S as [Hw [Hc1 Hc2] Hbd Hr HI HB]. pose proof (zlen_nonneg s).
  unfold insert_here. apply wp_bind, wp_get. apply wp_bind, wp_call.
  pose proof (splice_len (sn_c z) (sn_c z) s w ltac:(lia) ltac:(lia)) as Hsl.
  eapply returns_mono; [eapply insert_s_ok; eauto; try lia; left; lia|].
  intros v z' (-> & Hh & Hf1 & Hf4 & Hf5 & Hf6). simpl in Hh.
  assert (grown k (zlen w + 1 + n) = k) as Hgr by (unfold grown; rewrite (proj2 (Z.ltb_ge _ _)); lia).
  rewrite Hgr in Hh. pose proof (holds_l _ _ _ Hh) as Hl'.
  apply wp_bind, wp_put. simpl. apply HQ; try done; [|simpl; lia].
  split; try done; simpl; try lia; try congruence. unfold cursor. simpl. lia.
Qed.
End Rules.

(** ** Replacing a symbol by another one *)

(** How often a symbol occurs. *)
Definition occurs (x : Z) (w : list Z) : nat := count_occ Z.eq_dec w x.

Lemma occurs_le x w : (occurs x w <= length w)%nat.
Proof. apply count_occ_bound. Qed.

Lemma zseg_split {A} bra ket (w : list A) : 0 <= bra <= ket -> w = ztake bra w ++ zseg bra ket w ++ zdrop ket w.
Proof.
  intros Hb. unfold zseg. rewrite <- (ztake_app_zdrop bra w) at 1. f_equal.
  rewrite <- (ztake_app_zdrop (ket - bra) (zdrop bra w)) at 1. f_equal.
  rewrite zdrop_zdrop by lia. f_equal. lia.
Qed.

Lemma occurs_splice x y bra ket w :
  x <> y -> 0 <= bra <= ket -> ket <= zlen w -> zseg bra ket w = [x] ->
  (occurs x (splice bra ket [y] w) < occurs x w)%nat.
Proof.
  intros Hxy Hb Hk Hs. unfold occurs, splice.
  pose proof (zseg_split bra ket w Hb) as Hw. rewrite Hs in Hw.
  rewrite Hw at 3. rewrite !count_occ_app. simpl.
  destruct (Z.eq_dec y x); [congruence|]. destruct (Z.eq_dec x x); [lia|done].
Qed.

(** ** Symbolic execution of generated code *)

(** Facts about the limits of every state in the context. *)
Ltac st_facts :=
  repeat match goal with
  | S : st _ _ _ _ ?w ?z |- _ =>
      lazymatch goal with
      | _ : 0 <= sn_lb z <= sn_c z |- _ => fail
      | _ => let F := fresh "F" in pose proof (st_range _ _ _ _ _ _ S) as F; destruct F as (? & ? & ?);
             pose proof (st_l _ _ _ _ _ _ S)
      end
  | F : frame ?z ?z' |- _ => destruct F as (? & ? & ? & ? & ? & ?)
  end.

(** Two readings of the same variable are the same. *)
Ltac same_marks :=
  repeat match goal with
  | H1 : znth ?l ?i = Some ?x, H2 : znth ?l ?i = Some ?y |- _ => rewrite H1 in H2; injection H2 as H2
  end.

(** Evaluate the size bound of a table at a known result. *)
Ltac eval_sizes :=
  repeat match goal with
  | B : min_size ?v ?r <= _ |- _ =>
      lazymatch r with Zpos _ => idtac | Zneg _ => idtac | Z0 => idtac end;
      let x := eval vm_compute in (min_size v r) in change (min_size v r) with x in B
  end.

Ltac sn_cbn :=
  unfold dist in *;
  cbn [Z.eqb Pos.eqb sn_p sn_c sn_l sn_lb sn_bra sn_ket sn_I sn_B
       set_p set_c set_l set_lb set_bra set_ket set_I set_B] in *.

Ltac sn_lia := st_facts; eval_sizes; sn_cbn; same_marks; lia.

(** [st] of a state reached by assignments from a known one. *)
Ltac st_solve :=
  lazymatch goal with
  | |- st _ _ _ _ _ (set_c _ _) => apply st_set_c; [st_solve | try sn_lia]
  | |- st _ _ _ _ _ (set_bra _ _) => apply st_set_bra; st_solve
  | |- st _ _ _ _ _ (set_ket _ _) => apply st_set_ket; st_solve
  | |- st _ _ _ _ _ (set_lb _ _) => apply st_set_lb; [st_solve | try sn_lia]
  | |- _ => eassumption
  end.

(** The rules of a stemmer's own routines; each stemmer redefines it. *)
Ltac routine_rule := fail.

(** The proof rule of a call, by the function called. *)
Ltac call_rule :=
  lazymatch goal with
  | |- returns (in_grouping_U _ _ _ _) _ _ => eapply returns_mono; [eapply (st_group _ _ _ _ _ 1); [apply in_grouping_U_ok|lia|reflexivity|st_solve]|intros ? ? (? & -> & ? & ? & ?)]
  | |- returns (out_grouping_U _ _ _ _) _ _ => eapply returns_mono; [eapply (st_group _ _ _ _ _ 1); [apply out_grouping_U_ok|lia|reflexivity|st_solve]|intros ? ? (? & -> & ? & ? & ?)]
  | |- returns (in_grouping_b_U _ _ _ _) _ _ => eapply returns_mono; [eapply (st_group _ _ _ _ _ (-1)); [apply in_grouping_b_U_ok|lia|reflexivity|st_solve]|intros ? ? (? & -> & ? & ? & ?)]
  | |- returns (out_grouping_b_U _ _ _ _) _ _ => eapply returns_mono; [eapply (st_group _ _ _ _ _ (-1)); [apply out_grouping_b_U_ok|lia|reflexivity|st_solve]|intros ? ? (? & -> & ? & ? & ?)]
  | |- returns (in_grouping _ _ _ _) _ _ => eapply returns_mono; [eapply (st_group _ _ _ _ _ 1); [apply in_grouping_ok|lia|reflexivity|st_solve]|intros ? ? (? & -> & ? & ? & ?)]
  | |- returns (out_grouping _ _ _ _) _ _ => eapply returns_mono; [eapply (st_group _ _ _ _ _ 1); [apply out_grouping_ok|lia|reflexivity|st_solve]|intros ? ? (? & -> & ? & ? & ?)]
  | |- returns (in_grouping_b _ _ _ _) _ _ => eapply returns_mono; [eapply (st_group _ _ _ _ _ (-1)); [apply in_grouping_b_ok|lia|reflexivity|st_solve]|intros ? ? (? & -> & ? & ? & ?)]
  | |- returns (out_grouping_b _ _ _ _) _ _ => eapply returns_mono; [eapply (st_group _ _ _ _ _ (-1)); [apply out_grouping_b_ok|lia|reflexivity|st_solve]|intros ? ? (? & -> & ? & ? & ?)]
  | |- returns (eq_s _ _) _ _ => eapply returns_mono; [eapply st_eq_s; [st_solve|reflexivity]|intros ? ? [(-> & ->)|(-> & -> & ? & ?)]]
  | |- returns (eq_s_b _ _) _ _ => eapply returns_mono; [eapply st_eq_s_b; [st_solve|reflexivity]|intros ? ? [(-> & ->)|(-> & -> & ? & ?)]]
  | |- returns (find_among_b ?v _) _ _ => eapply returns_mono; [eapply (st_find_among_b _ _ _ _ _ _ (min_size v)); [st_solve|vm_compute; reflexivity|vm_compute; reflexivity]|intros ? ? [(-> & ->)|(? & ? & -> & ? & ? & ?)]]
  | |- returns (find_among ?v _) _ _ => eapply returns_mono; [eapply (st_find_among _ _ _ _ _ _ (min_size v)); [st_solve|vm_compute; reflexivity|vm_compute; reflexivity]|intros ? ? [(-> & ->)|(? & ? & -> & ? & ? & ?)]]
  | |- returns slice_del _ _ => eapply returns_mono; [eapply st_slice_del; [st_solve|try sn_lia..]|intros ? ? (-> & ? & ? & ? & ?)]
  | |- returns (slice_from_s _ _) _ _ => eapply returns_mono; [eapply st_slice_from_s; [st_solve|repeat constructor; done|reflexivity|unfold INT_MAX; lia|try sn_lia..]|intros ? ? (-> & ? & ? & ? & ?)]
  | |- _ => routine_rule
  end.

(** Case on a condition; a variable that gets a value is replaced. *)
Ltac split_if b :=
  let E := fresh "E" in
  destruct b eqn:E; bool_hyps; try discriminate; try lia;
  try match type of E with ?x = _ => is_var x; subst x end.

(** One statement. *)
Ltac wp_step1 :=
  lazymatch goal with
  | |- wp (bind _ _) _ _ => apply wp_bind
  | |- wp (ret _) _ _ => apply wp_ret
  | |- wp (get _) _ _ => apply wp_get
  | |- wp get_m _ _ => apply wp_get
  | |- wp (put _) _ _ => apply wp_put
  | |- wp bra_c _ _ => apply wp_put
  | |- wp ket_c _ _ => apply wp_put
  | |- wp (c_is _) _ _ => apply wp_put
  | |- wp (c_from_l _) _ _ => apply wp_put
  | |- wp skip _ _ => apply wp_skip
  | |- wp (goto _) _ _ => apply wp_goto
  | |- wp brk _ _ => apply wp_brk
  | |- wp cont _ _ => apply wp_cont
  | |- wp (creturn _) _ _ => apply wp_creturn
  | |- wp (label _ _) _ _ => apply wp_label
  | |- wp (if_call _ _) _ _ => unfold if_call
  | |- wp (unless_call _ _) _ _ => unfold unless_call
  | |- wp (neg_call _ _) _ _ => unfold neg_call
  | |- wp (checked _) _ _ => unfold checked
  | |- wp (routine _ _) _ _ => unfold routine
  | |- wp (gopast _ _) _ _ => unfold gopast
  | |- wp (gopast_b _ _) _ _ => unfold gopast_b
  | |- wp (get_I _) _ _ => eapply st_get_I; [st_solve|lia|intros ? ? ?]
  | |- wp (get_B _) _ _ => eapply st_get_B; [st_solve|lia|intros ?]
  | |- wp (put_I _ _) _ _ => eapply st_put_I; [st_solve|lia|try sn_lia|intros ? ? ? ? ? ? ? ?]
  | |- wp (put_B _ _) _ _ => eapply st_put_B; [st_solve|lia|intros ? ? ? ? ? ? ?]
  | |- wp (pre_b _ _) _ _ => eapply st_pre_b; [st_solve|lia|intros ?]
  | |- wp (pre_f _ _) _ _ => eapply st_pre_f; [st_solve|lia|intros ?]
  | |- wp (insert_here _ _) _ _ =>
      eapply st_insert_here; [st_solve|repeat constructor; done|reflexivity|unfold INT_MAX; lia|try sn_lia|intros ? ? ? ? ?]
  | |- wp (next_utf8 _ _) _ _ => eapply st_next_utf8; [st_solve|lia| |intros ? ? ?]
  | |- wp (prev_utf8 _ _) _ _ => eapply st_prev_utf8; [st_solve|lia| |intros ? ? ?]
  | |- wp (hop_b _ _) _ _ => eapply st_hop_b; [st_solve|lia| |intros ? ? ?]
  | |- wp (hop_byte _ _) _ _ => eapply st_hop_byte; [st_solve|lia|sn_cbn; unfold INT_MAX; sn_lia| |intros ? ?]
  | |- wp (hop_byte_b _ _) _ _ => eapply st_hop_byte_b; [st_solve|unfold INT_MAX; lia| |intros ? ?]
  | |- wp (next_byte _) _ _ => unfold next_byte
  | |- wp (prev_byte _) _ _ => unfold prev_byte
  | |- wp (call _) _ _ => apply wp_call
  | |- wp (switch _ []) _ _ => apply wp_skip
  | |- wp (switch _ _) _ _ => cbn [switch]
  | |- wp (if ?b then _ else _) _ _ => split_if b
  | |- wp (when ?b _) _ _ => unfold when; split_if b
  | |- returns (cfun _) _ _ => apply wp_cfun
  | |- returns _ _ _ => call_rule
  end; cbn beta iota.

Ltac wp_step := first [progress (cbn beta iota) | wp_step1 | (lazymatch goal with |- context [Nat.eqb _ _] => progress cbn [Nat.eqb] end)].
