(* ===== verification/SnLoops.v ===== *)
(** * Loops and calls of the generated stemmers

    The forms a stemmer's main function is made of ([do], [goto], [repeat] of
    Snowball) with their proof rules, for any number of integer and boolean
    variables. *)

From S2P Require Import Prelude SnEnv SnRuntime SnSpec SnAmong SnCode.

Open Scope sn_scope.

(** [{ int m = z->l - z->c; { int ret = r(z); if (ret == 0) goto lab;
     if (ret < 0) return ret; } lab: z->c = z->l - m; }] *)
Definition do_b (lab : nat) (r : cfunc) : M unit :=
  m <- get_m ;;
  label lab (routine r (goto lab)) ;;
  c_from_l m.

(** The same for a forward routine: [{ int c = z->c; ... lab: z->c = c; }] *)
Definition do_f (lab : nat) (r : cfunc) : M unit :=
  c <- get sn_c ;;
  label lab (routine r (goto lab)) ;;
  c_is c.

(** [{ int i = n; while(1) { if (f(z)) goto lab0; i--; continue; lab0: break; }
     if (i > 0) return 0; }]; a round consumes a symbol of the word. *)
Fixpoint count_down (fuel : nat) (f : cfunc) (i : Z) : M Z :=
  match fuel with
  | O => fun _ => None
  | S fuel =>
      r <- call f ;;
      if r =? 0 then i' <- lift (fun _ => cint (i - 1)) ;; count_down fuel f i' else ret i
  end.

Definition atleast (n : Z) (f : cfunc) : M unit := fun z =>
  (i <- count_down (S (S (Z.to_nat (sn_l z)))) f n ;; when (i >? 0) (creturn 0)) z.

Ltac step_done := split; [lia|]; eexists; split; [st_solve|sn_cbn; sn_lia || congruence].

Section Loops.
Context `{CHeap} (k L : Z) (ni nb : nat).
Abbreviation St := (st k L ni nb).

(** A counted loop over a grouping leaves the word alone and moves back. *)
Lemma count_down_ok f g min max w : group_spec f (-1) -> group_ok g min max = true -> forall fuel i z Q,
  St w z -> (Z.to_nat (sn_c z - sn_lb z) < fuel)%nat -> INT_MIN + sn_c z < i <= INT_MAX ->
  (forall i c, sn_lb z <= c <= sn_c z -> Q (Next i) (set_c c z)) -> wp (count_down fuel (f g min max 0) i) Q z.
Proof.
  intros Hf Hg. induction fuel as [|fuel IH]; intros i z Q S Hn Hi HQ; [lia|]. cbn [count_down].
  apply wp_bind, wp_call. eapply returns_mono; [eapply (st_group _ _ _ _ _ (-1)); [done|lia|done|st_solve]|].
  intros v z' (n & -> & S' & Hd & Hv). cbn beta iota. zcase (v =? 0).
  - apply wp_bind. eapply wp_lift; [unfold cint; rewrite !(proj2 (Z.leb_le _ _)) by sn_lia; reflexivity|].
    apply IH; [done|sn_lia|sn_lia|]. intros j c Hc. change (set_c c (set_c (sn_c z + -1 * n) z)) with (set_c c z).
    apply HQ. sn_lia.
  - apply wp_ret, HQ. sn_lia.
Qed.

Lemma atleast_ok m f g min max w z Q : group_spec f (-1) -> group_ok g min max = true -> 0 < m <= INT_MAX -> St w z ->
  (forall c, sn_lb z <= c <= sn_c z -> Q (Next tt) (set_c c z)) -> (forall c, sn_lb z <= c <= sn_c z -> Q (Ret 0) (set_c c z)) ->
  wp (atleast m (f g min max 0)) Q z.
Proof.
  intros Hf Hg Hm S Hn Hr. unfold atleast. apply (wp_bind _ _ _ z).
  eapply (count_down_ok f g min max w Hf Hg); [done|sn_lia| |].
  { pose proof (holds_cap _ _ _ (st_holds _ _ _ _ _ _ S)). unfold INT_MAX, INT_MIN in *. sn_lia. }
  intros i c Hc. unfold when. destruct (i >? 0); [apply wp_creturn|apply wp_skip]; auto.
Qed.

(** A routine that may edit the word: it returns, does not report an
    allocation error, and leaves a state to go on from. *)
Definition step_ok (f : cfunc) : Prop := forall w z, St w z ->
  returns f z (fun v z' => 0 <= v /\ exists w', St w' z' /\ sn_lb z' = sn_lb z).

(** The same with a given lower limit. *)
Definition step_at (lb : Z) (f : cfunc) : Prop := forall w z, St w z -> sn_lb z = lb ->
  returns f z (fun v z' => 0 <= v /\ exists w', St w' z' /\ sn_lb z' = lb).

(** The same for a routine that starts at the end of the word. *)
Definition step_from (lb : Z) (f : cfunc) : Prop := forall w z, St w z -> sn_lb z = lb -> sn_c z = sn_l z ->
  returns f z (fun v z' => 0 <= v /\ exists w', St w' z' /\ sn_lb z' = lb).

Lemma do_b_from lab f lb : step_from lb f -> forall w z Q,
  St w z -> sn_lb z = lb -> sn_c z = sn_l z ->
  (forall w' z', St w' z' -> sn_c z' = sn_l z' -> sn_lb z' = lb -> Q (Next tt) z') ->
  wp (do_b lab f) Q z.
Proof.
  intros Hf w z Q S Hl Hc HQ. unfold do_b. do 4 wp_step. unfold routine. repeat wp_step1.
  eapply returns_mono; [eapply Hf; eassumption|]. intros v z' (Hv & w' & S' & Hlb).
  repeat wp_step; try lia; rewrite ?Nat.eqb_refl; repeat wp_step;
    (apply (HQ w'); [st_solve|sn_cbn; lia|done]).
Qed.

Lemma do_b_at lab f lb : step_at lb f -> forall w z Q,
  St w z -> sn_lb z = lb -> sn_c z = sn_l z ->
  (forall w' z', St w' z' -> sn_c z' = sn_l z' -> sn_lb z' = lb -> Q (Next tt) z') ->
  wp (do_b lab f) Q z.
Proof. intros Hf. apply do_b_from. intros w z S Hl _. by apply (Hf w). Qed.

Lemma do_b_ok lab f : step_ok f -> forall w z Q,
  St w z -> sn_c z = sn_l z ->
  (forall w' z', St w' z' -> sn_c z' = sn_l z' -> sn_lb z' = sn_lb z -> Q (Next tt) z') ->
  wp (do_b lab f) Q z.
Proof.
  intros Hf w z Q S Hc HQ. apply (do_b_at lab f (sn_lb z)) with w; try done.
  intros w1 z1 S1 Hl. rewrite <- Hl. by apply (Hf w1).
Qed.

(** A forward routine leaves at least the text before its cursor. *)
Definition fwd_ok (f : cfunc) : Prop := forall w z, St w z ->
  returns f z (fun v z' => 0 <= v /\ exists w', St w' z' /\ sn_lb z' = sn_lb z /\ sn_c z <= sn_l z').

(** The same from a given position. *)
Definition fwd_at (c : Z) (f : cfunc) : Prop := forall w z, St w z -> sn_c z = c ->
  returns f z (fun v z' => 0 <= v /\ exists w', St w' z' /\ sn_lb z' = sn_lb z /\ sn_c z <= sn_l z').

Lemma do_f_at lab f c : fwd_at c f -> forall w z Q,
  St w z -> sn_c z = c ->
  (forall w' z', St w' z' -> sn_c z' = sn_c z -> sn_lb z' = sn_lb z -> Q (Next tt) z') ->
  wp (do_f lab f) Q z.
Proof.
  intros Hf w z Q S Hz HQ. unfold do_f. do 4 wp_step. unfold routine. repeat wp_step1.
  eapply returns_mono; [eapply Hf; eassumption|]. intros v z' (Hv & w' & S' & Hlb & Hc).
  repeat wp_step; try lia; rewrite ?Nat.eqb_refl; repeat wp_step;
    (apply (HQ w'); [st_solve|done|done]).
Qed.

Lemma do_f_ok lab f : fwd_ok f -> forall w z Q,
  St w z ->
  (forall w' z', St w' z' -> sn_c z' = sn_c z -> sn_lb z' = sn_lb z -> Q (Next tt) z') ->
  wp (do_f lab f) Q z.
Proof. intros Hf w z Q S. by apply (do_f_at lab f (sn_c z) (fun w z S _ => Hf w z S) w). Qed.

(** A scan leaves the word alone; when it succeeds, [bra..ket) holds the
    symbol it looked for. *)
Definition scan_post (x : Z) (lab : nat) (w : list Z) (z : SN_env) (f : flow unit) (z' : SN_env) : Prop :=
  St w z' /\ sn_lb z' = sn_lb z /\
  match f with
  | Next _ => zseg (sn_bra z') (sn_ket z') w = [x] /\ sn_lb z <= sn_bra z' /\ sn_ket z' = sn_bra z' + 1
              /\ sn_ket z' <= sn_l z'
  | Goto n => n = lab
  | _ => False
  end.

Lemma scan_loop x lab w z body :
  St w z ->
  (forall z1, St w z1 -> sn_lb z1 = sn_lb z -> wp body (fun f z' => match f with
     | Next _ | Continue => St w z' /\ sn_lb z' = sn_lb z /\ sn_c z1 < sn_c z'
     | Break => scan_post x lab w z (Next tt) z'
     | Goto n => scan_post x lab w z (Goto n) z'
     | Ret _ => False end) z1) ->
  wp (loop body) (scan_post x lab w z) z.
Proof.
  intros S Hbody.
  apply (wp_loop (fun n z1 => St w z1 /\ sn_lb z1 = sn_lb z /\ n = Z.to_nat (sn_l z1 - sn_c z1))
           (Z.to_nat (sn_l z - sn_c z))); [done|sn_lia|].
  intros n z1 (S1 & Hlb & ->). eapply wp_mono; [by apply Hbody|].
  intros [] z' Hp; try done; destruct Hp as (S2 & ? & ?); eexists; (split; [|split_and!; [done..|reflexivity]]);
    sn_lia.
Qed.

(** A successful scan followed by the replacement of the symbol found:
    the word keeps its length and has one such symbol less. *)
Lemma replace_found x y w z z' Q :
  St w z -> scan_post x 0 w z (Next tt) z' -> x <> y -> byte_ok y ->
  (forall w1 z1, St w1 z1 -> sn_l z1 = sn_l z' -> sn_lb z1 = sn_lb z -> sn_c z1 = sn_c z' ->
     (occurs x w1 < occurs x w)%nat -> Q (Next tt) z1) ->
  wp (checked (slice_from_s 1 (sy [y]))) Q z'.
Proof.
  intros S (S' & Hlb & Hs & Hb & Hk & Hl) Hxy Hy HQ.
  pose proof (st_range _ _ _ _ _ _ S). pose proof (st_l _ _ _ _ _ _ S').
  pose proof (st_bound _ _ _ _ _ _ S').
  unfold checked. wp_step. apply wp_call.
  eapply returns_mono.
  - eapply (st_slice_from_s _ _ _ _ 1 [y] w z'); try done; try (unfold INT_MAX; lia).
    by apply Forall_singleton.
  - intros v z1 (-> & S1 & Hl1 & Hc1 & Hf). destruct Hf as (Hf & _).
    repeat wp_step. eapply HQ; [exact S1|lia|congruence| |].
    + rewrite Hc1. unfold splice_c. by rewrite (proj2 (Z.eqb_eq _ _)) by lia.
    + apply occurs_splice; try done; lia.
Qed.

Lemma scan_post_lab x lab1 lab2 w z f z' : (forall n, f <> Goto n) ->
  scan_post x lab1 w z f z' -> scan_post x lab2 w z f z'.
Proof. intros Hn (? & ? & Hf). split_and!; try done. destruct f; try done. by edestruct Hn. Qed.

(** The [repeat] loops: each round rewrites one more symbol. *)
Lemma mark_loop_ok x y lab (scan last : M unit) w z Q :
  x <> y -> byte_ok y ->
  (forall w z, St w z -> wp scan (scan_post x lab w z) z) ->
  (forall w z (Q : flow unit -> SN_env -> Prop), St w z ->
     (forall f z', St w z' -> sn_c z' = sn_c z -> sn_l z' = sn_l z -> sn_lb z' = sn_lb z ->
        f = Continue -> Q f z') -> wp last Q z) ->
  St w z ->
  (forall w' z', St w' z' -> sn_l z' = sn_l z -> sn_lb z' = sn_lb z -> Q (Next tt) z') ->
  wp (loop (c3 <- get sn_c ;;
            label lab (scan ;; checked (slice_from_s 1 (sy [y])) ;; last) ;;
            c_is c3 ;; brk)) Q z.
Proof.
  intros Hxy Hy Hscan Hlast S HQ.
  apply (wp_loop (fun n z1 => exists w1, St w1 z1 /\ sn_l z1 = sn_l z /\ sn_lb z1 = sn_lb z
                    /\ n = occurs x w1) (occurs x w)).
  { eauto. }
  { pose proof (occurs_le x w). pose proof (st_l _ _ _ _ _ _ S). unfold zlen in *. lia. }
  intros n z1 (w1 & S1 & Hl & Hlb & ->). apply wp_bind, wp_get, wp_bind, wp_label, wp_bind. cbn beta iota.
  eapply wp_mono; [by apply Hscan|]. intros f z2 Hp. destruct f as [[]|m|  | |]; try by destruct Hp as (?&?&?).
  - wp_step. eapply (replace_found x y w1 z1);
      [exact S1|eapply scan_post_lab; [|exact Hp]; done|done|done|].
    intros w2 z3 S3 Hl3 Hlb3 Hc3 Ho. cbn beta iota. eapply Hlast; [exact S3|].
    intros f z4 S4 ? ? ? ->. eexists. split; [exact Ho|]. exists w2.
    destruct Hp as (S2 & _). pose proof (st_l _ _ _ _ _ _ S1). pose proof (st_l _ _ _ _ _ _ S2).
    split_and!; try done; congruence.
  - destruct Hp as (S2 & Hlb2 & ->). rewrite Nat.eqb_refl.
    pose proof (st_l _ _ _ _ _ _ S1). pose proof (st_l _ _ _ _ _ _ S2).
    repeat wp_step. eapply HQ; [st_solve|sn_cbn; congruence..].
Qed.

(** ** Code that does not change the word

    The paths through a labelled block meet behind it in a state that differs
    in the cursor and the marks only. *)
Definition same_word (w : list Z) (lb : Z) (z : SN_env) : Prop := St w z /\ sn_lb z = lb.

Lemma join_label w lb n m Q z :
  wp m (fun f z' => match f with
    | Next _ => same_word w lb z'
    | Goto j => if (j =? n)%nat then same_word w lb z' else Q (Goto j) z'
    | Break => Q Break z' | Continue => Q Continue z' | Ret v => Q (Ret v) z' end) z ->
  (forall z', St w z' -> sn_lb z' = lb -> Q (Next tt) z') -> wp (label n m) Q z.
Proof.
  intros Hm HQ. apply wp_label. eapply wp_mono; [exact Hm|]. intros [[]|j| | |] z'; try done.
  - intros []. by apply HQ.
  - destruct (j =? n)%nat; [|done]. intros []. by apply HQ.
Qed.

(** The same with the start of the slice kept. *)
Definition same_slice (w : list Z) (lb bra : Z) (z : SN_env) : Prop := St w z /\ sn_lb z = lb /\ sn_bra z = bra.

Lemma join_slice w lb bra n m Q z :
  wp m (fun f z' => match f with
    | Next _ => same_slice w lb bra z'
    | Goto j => if (j =? n)%nat then same_slice w lb bra z' else Q (Goto j) z'
    | Break => Q Break z' | Continue => Q Continue z' | Ret v => Q (Ret v) z' end) z ->
  (forall z', St w z' -> sn_lb z' = lb -> sn_bra z' = bra -> Q (Next tt) z') -> wp (label n m) Q z.
Proof.
  intros Hm HQ. apply wp_label. eapply wp_mono; [exact Hm|]. intros [[]|j| | |] z'; try done.
  - intros (? & ? & ?). by apply HQ.
  - destruct (j =? n)%nat; [|done]. intros (? & ? & ?). by apply HQ.
Qed.

(** The same for code that edits the word. *)
Definition some_word (lb : Z) (z : SN_env) : Prop := exists w, St w z /\ sn_lb z = lb.

Lemma join_edit lb n m Q z :
  wp m (fun f z' => match f with
    | Next _ => some_word lb z'
    | Goto j => if (j =? n)%nat then some_word lb z' else Q (Goto j) z'
    | Break => Q Break z' | Continue => Q Continue z' | Ret v => Q (Ret v) z' end) z ->
  (forall w z', St w z' -> sn_lb z' = lb -> Q (Next tt) z') -> wp (label n m) Q z.
Proof.
  intros Hm HQ. apply wp_label. eapply wp_mono; [exact Hm|]. intros [[]|j| | |] z'; try done.
  - intros (w & S & Hl). by apply (HQ w).
  - destruct (j =? n)%nat; [|done]. intros (w & S & Hl). by apply (HQ w).
Qed.

(** ** Loops that walk over the word and rewrite it

    Each round leaves less text behind the cursor. *)
Lemma walk_loop body w z Q :
  St w z ->
  (forall w1 z1, St w1 z1 -> sn_lb z1 = sn_lb z -> sn_c z <= sn_c z1 -> wp body (fun f z' => match f with
     | Next _ | Continue => exists w', St w' z' /\ sn_lb z' = sn_lb z /\ sn_c z1 <= sn_c z'
                              /\ sn_l z' - sn_c z' < sn_l z1 - sn_c z1
     | Break => exists w', St w' z' /\ sn_lb z' = sn_lb z /\ sn_c z <= sn_c z'
     | _ => False end) z1) ->
  (forall w' z', St w' z' -> sn_lb z' = sn_lb z -> sn_c z <= sn_c z' -> Q (Next tt) z') ->
  wp (loop body) Q z.
Proof.
  intros S Hbody HQ.
  apply (wp_loop (fun n z1 => exists w1, St w1 z1 /\ sn_lb z1 = sn_lb z /\ sn_c z <= sn_c z1
           /\ n = Z.to_nat (sn_l z1 - sn_c z1)) (Z.to_nat (sn_l z - sn_c z))); [by exists w|sn_lia|].
  intros n z1 (w1 & S1 & Hlb & Hc & ->). eapply wp_mono; [by eapply Hbody|].
  intros [] z' Hp; try done.
  1, 3: destruct Hp as (w' & S2 & ? & ? & ?); eexists; (split; [|exists w'; split_and!; [done|done|lia|reflexivity]]); sn_lia.
  destruct Hp as (w' & S2 & ? & ?). by apply (HQ w').
Qed.

(** How often one of the symbols [xs] occurs. *)
Definition occurs_in (xs w : list Z) : nat := length (filter (fun y => y ∈ xs) w).

Lemma occurs_in_splice xs x y bra ket w :
  x ∈ xs -> y ∉ xs -> 0 <= bra <= ket -> zseg bra ket w = [x] ->
  (occurs_in xs (splice bra ket [y] w) < occurs_in xs w)%nat.
Proof.
  intros Hx Hy Hb Hs. unfold occurs_in, splice. pose proof (zseg_split bra ket w Hb) as Hw. rewrite Hs in Hw.
  rewrite Hw at 3. rewrite !filter_app, !length_app, !filter_cons, !filter_nil.
  rewrite decide_False, (decide_True (P := x ∈ xs)) by done. cbn. lia.
Qed.

(** What a search for one of the symbols ends with: it rewrote one, or it
    failed and left through the label. *)
Definition mark_post (xs : list Z) (lab : nat) (w : list Z) (z : SN_env) (f : flow unit) (z' : SN_env) : Prop :=
  match f with
  | Next _ => exists w', St w' z' /\ sn_l z' = sn_l z /\ sn_lb z' = sn_lb z /\ (occurs_in xs w' < occurs_in xs w)%nat
  | Goto n => n = lab /\ St w z' /\ sn_lb z' = sn_lb z
  | _ => False
  end.

Lemma goto_loop xs lab w z body :
  St w z ->
  (forall z1, St w z1 -> sn_lb z1 = sn_lb z -> wp body (fun f z' => match f with
     | Next _ | Continue => St w z' /\ sn_lb z' = sn_lb z /\ sn_c z1 < sn_c z'
     | Break => mark_post xs lab w z (Next tt) z'
     | Goto n => mark_post xs lab w z (Goto n) z'
     | Ret _ => False end) z1) ->
  wp (loop body) (mark_post xs lab w z) z.
Proof.
  intros S Hbody.
  apply (wp_loop (fun n z1 => St w z1 /\ sn_lb z1 = sn_lb z /\ n = Z.to_nat (sn_l z1 - sn_c z1))
           (Z.to_nat (sn_l z - sn_c z))); [done|sn_lia|].
  intros n z1 (S1 & Hlb & ->). eapply wp_mono; [by apply Hbody|].
  intros [] z' Hp; try done; destruct Hp as (S2 & ? & ?); eexists; (split; [|split_and!; [done..|reflexivity]]);
    sn_lia.
Qed.

Lemma remark_loop xs lab inner w z Q :
  St w z ->
  (forall w1 z1, St w1 z1 -> wp inner (mark_post xs lab w1 z1) z1) ->
  (forall w' z', St w' z' -> sn_l z' = sn_l z -> sn_lb z' = sn_lb z -> Q (Next tt) z') ->
  wp (loop (c3 <- get sn_c ;; label lab (inner ;; cont) ;; c_is c3 ;; brk)) Q z.
Proof.
  intros S Hin HQ.
  apply (wp_loop (fun n z1 => exists w1, St w1 z1 /\ sn_l z1 = sn_l z /\ sn_lb z1 = sn_lb z
                    /\ n = occurs_in xs w1) (occurs_in xs w)).
  { eauto. }
  { unfold occurs_in. pose proof (length_filter (fun y => y ∈ xs) w). pose proof (st_l _ _ _ _ _ _ S). unfold zlen in *. lia. }
  intros n z1 (w1 & S1 & Hl & Hlb & ->). apply wp_bind, wp_get, wp_bind, wp_label, wp_bind. cbn beta iota.
  eapply wp_mono; [by apply Hin|]. intros f z2 Hp. destruct f as [[]|m|  | |]; try by destruct Hp.
  - destruct Hp as (w2 & S2 & Hl2 & Hlb2 & Ho). wp_step. eexists. split; [exact Ho|]. exists w2.
    split_and!; try done; congruence.
  - destruct Hp as (-> & S2 & Hlb2). rewrite Nat.eqb_refl.
    pose proof (st_l _ _ _ _ _ _ S1). pose proof (st_l _ _ _ _ _ _ S2).
    repeat wp_step. eapply HQ; [st_solve|sn_cbn; congruence..].
Qed.
End Loops.

Lemma set_c_id z : z = set_c (sn_c z) z.
Proof. by destruct z. Qed.

(** A routine that only looks at the text. *)
Ltac probe_done :=
  split; [lia|]; eexists; split; [first [reflexivity | apply set_c_id]|st_solve].

Ltac fwd_done := split; [lia|]; eexists; split_and!; [st_solve|sn_cbn; sn_lia || congruence|sn_lia].

Lemma znth_insert {A} (xs : list A) i j v : 0 <= i -> 0 <= j < zlen xs ->
  znth (<[Z.to_nat i := v]> xs) j = if decide (i = j) then Some v else znth xs j.
Proof.
  intros Hi Hj. unfold znth. rewrite (proj2 (Z.leb_le 0 j)) by lia. destruct (decide (i = j)) as [->|].
  - apply list_lookup_insert_eq. unfold zlen in Hj. lia.
  - apply list_lookup_insert_ne. lia.
Qed.

(** The value a mark has after the assignments to the marks. *)
Ltac mark_value :=
  sn_cbn;
  repeat match goal with E : sn_I ?z = _ |- context [sn_I ?z] => rewrite E end;
  repeat (rewrite znth_insert by (unfold zlen; rewrite ?length_insert;
    repeat match goal with S : st _ _ _ _ _ _ |- _ => pose proof (st_I _ _ _ _ _ _ S); clear S end; lia);
    cbn [decide decide_rel Z.eq_dec]; try (rewrite decide_True by done); try (rewrite decide_False by done)).

(** Execution of code that leaves the word [w] and the lower limit alone. *)
Ltac read_code S :=
  lazymatch type of S with st ?k ?L ?ni ?nb ?w ?z =>
    repeat first
      [ lazymatch goal with |- wp (label _ _) _ _ => eapply (join_label k L ni nb w (sn_lb z)); [|intros ? ? ?] end
      | wp_step ];
    try (split; [st_solve|sn_cbn; sn_lia || congruence])
  end.

(** Execution of code that edits the word; the lower limit stays [lb]. *)
Ltac edit_code lb :=
  repeat first
    [ lazymatch goal with
      | S : st ?k ?L ?ni ?nb _ _ |- wp (label _ _) _ _ => eapply (join_edit k L ni nb lb); [|intros ? ? ? ?] end
    | wp_step ];
  try (eexists; split; [st_solve|sn_cbn; sn_lia || congruence]).

(** The same, where the paths meet behind the labels [ls] only. *)
Ltac in_nats n ls := lazymatch ls with n :: _ => idtac | _ :: ?r => in_nats n r end.

Ltac edit_at lb ls :=
  repeat first
    [ lazymatch goal with
      | S : st ?k ?L ?ni ?nb _ _ |- wp (label ?n _) _ _ =>
          in_nats n ls; eapply (join_edit k L ni nb lb); [|intros ? ? ? ?] end
    | wp_step ];
  try (eexists; split; [st_solve|sn_cbn; sn_lia || congruence]).

(** The labelled blocks of a routine one after the other; the paths meet
    behind each of them. *)
Ltac cut_code lb :=
  repeat first
    [ lazymatch goal with
      | S : st ?k ?L ?ni ?nb _ _ |- wp (label _ _) _ _ =>
          eapply (join_edit k L ni nb lb);
          [repeat wp_step; try (eexists; split; [st_solve|sn_cbn; sn_lia || congruence])|intros ? ? ? ?] end
    | wp_step ].

(** A cursor at the end of the slice stays at its end. *)
Lemma splice_c_ket bra ket n : splice_c bra ket n ket = ket + (n - (ket - bra)).
Proof. unfold splice_c. rewrite Z.geb_leb, (proj2 (Z.leb_le ket ket)) by lia. zcase (n - (ket - bra) =? 0); lia. Qed.

(** A cursor at the start of a deleted slice stays there. *)
Lemma splice_c_bra bra ket : bra <= ket -> splice_c bra ket 0 bra = bra.
Proof. intros Hb. unfold splice_c. rewrite Z.geb_leb, Z.gtb_ltb, Z.ltb_irrefl. zcase (0 - (ket - bra) =? 0); [done|]. zcase (ket <=? bra); lia. Qed.

(** Only the entry with result [r0] is empty: any other result moved the
    cursor. *)
Lemma min_size_pos v r0 r :
  forallb (fun e => (1 <=? s_size e) || (result e =? r0)) v = true -> r <> r0 -> 1 <= min_size v r.
Proof.
  intros Hv Hr. unfold min_size. induction v as [|e v IH]; cbn [fold_right]; [unfold INT_MAX; lia|].
  cbn in Hv. apply andb_prop in Hv as [He Hv]. specialize (IH Hv). zcase (result e =? r); [|done].
  apply orb_prop in He as [He|He]; bool_hyps; lia.
Qed.

(** A result that no entry has does not occur: the match would be longer than
    any buffer. *)
Definition results (v : list among) : list Z := List.nodup Z.eq_dec (map result v).

Lemma min_size_none v r : ~ List.In r (results v) -> min_size v r = INT_MAX.
Proof.
  unfold results, min_size. rewrite nodup_In. induction v as [|e v IH]; cbn; [done|]. intros Hr.
  rewrite (proj2 (Z.eqb_neq _ _)) by tauto. apply IH. tauto.
Qed.

Ltac no_result :=
  exfalso;
  match goal with
  | S : st _ _ _ _ _ _, _ : min_size ?t ?v <= _ |- _ =>
      is_var v; pose proof (holds_cap _ _ _ (st_holds _ _ _ _ _ _ S));
      let B := fresh "B" in
      assert (min_size t v = INT_MAX) as B
        by (apply min_size_none; let l := eval vm_compute in (results t) in change (results t) with l; cbn [List.In]; lia);
      rewrite B in *; unfold INT_MAX in *; sn_lia
  end.

Ltac moved :=
  try match goal with
  | _ : min_size ?t ?v <= _, N : ?v <> ?r |- _ => is_var v; pose proof (min_size_pos t r v eq_refl N)
  end.

(** The end of a path, and the bounds that need the length of a match with an
    unknown result. *)
Ltac step_end := first [step_done | moved; sn_lia].

Ltac walk_end :=
  moved; eexists; split_and!; [st_solve|sn_cbn; rewrite ?splice_c_ket in *; sn_lia || congruence..].

(** A routine that is one walk over the word. *)
Ltac walk :=
  repeat wp_step; eapply walk_loop;
  [st_solve|intros ? ? ? ? ?; repeat wp_step; walk_end|intros ? ? ? ? ?; repeat wp_step; fwd_done].

Ltac bra_value := repeat match goal with E : sn_bra ?z = _ |- context [sn_bra ?z] => rewrite E end.

(** The leaves of a search that rewrites one of the symbols. *)
Ltac remark_end :=
  lazymatch goal with
  | |- mark_post _ _ _ _ _ _ _ _ (Next tt) _ =>
      eexists; split_and!;
      [st_solve|sn_cbn; sn_lia|sn_cbn; sn_lia || congruence|
       sn_cbn; eapply occurs_in_splice; [ | |sn_lia|first [eassumption | bra_value; eassumption]]; apply (bool_decide_unpack _); vm_compute; exact I]
  | |- mark_post _ _ _ _ _ _ _ _ (Goto _) _ => split_and!; [done|st_solve|sn_cbn; sn_lia || congruence]
  | |- _ => split_and!; [st_solve|sn_cbn; sn_lia || congruence|sn_lia]
  end.

(** A loop that rewrites the symbols [xs] where it finds them. *)
Ltac remark_by xs search :=
  eapply (remark_loop _ _ _ _ xs);
  [st_solve|intros ? ? ?; apply goto_loop; [done|intros ? ? ?; search; remark_end]|
   intros ? ? ? ? ?; repeat wp_step; fwd_done].

Ltac remark xs := remark_by xs ltac:(repeat wp_step).

(** One statement of a search; the alternatives that fail at a label of [ls]
    meet behind it, at one of [ks] with the start of the slice as it was. *)
Ltac search_step ls ks :=
  first
    [ lazymatch goal with
      | S : st ?k ?L ?ni ?nb ?w ?z1 |- wp (label ?n _) _ ?z =>
          first [in_nats n ls; eapply (join_label k L ni nb w (sn_lb z1)); [|intros ? ? ?]
                |in_nats n ks; eapply (join_slice k L ni nb w (sn_lb z1) (sn_bra z)); [|intros ? ? ? ?]]
      | |- same_word _ _ _ _ _ _ _ => split; [st_solve|sn_cbn; sn_lia || congruence]
      | |- same_slice _ _ _ _ _ _ _ _ => split_and!; [st_solve|sn_cbn; sn_lia || congruence|sn_cbn; congruence]
      end
    | wp_step ].

(** * Stemmers that lengthen the word

    A round of a forward loop may write more symbols than it reads; what the
    word may grow to is bounded by the text that is still ahead. *)

(** The length the word reaches when each symbol ahead becomes two. *)
Definition reach (z : SN_env) : Z := sn_l z + (sn_l z - sn_c z).

Section Grow.
Context `{CHeap} (k L : Z) (ni nb : nat).
Abbreviation St := (st k L ni nb).

(** A round leaves less text ahead, and what it adds to the word it has
    consumed of that text. *)
Lemma grow_loop body w z Q :
  St w z -> reach z <= L ->
  (forall w1 z1, St w1 z1 -> sn_lb z1 = sn_lb z -> sn_c z <= sn_c z1 -> reach z1 <= L -> wp body (fun f z' => match f with
     | Next _ | Continue => exists w', St w' z' /\ sn_lb z' = sn_lb z /\ sn_c z1 <= sn_c z'
                              /\ sn_l z' - sn_c z' < sn_l z1 - sn_c z1 /\ reach z' <= reach z1
     | Break => exists w', St w' z' /\ sn_lb z' = sn_lb z /\ sn_c z <= sn_c z'
     | _ => False end) z1) ->
  (forall w' z', St w' z' -> sn_lb z' = sn_lb z -> sn_c z <= sn_c z' -> Q (Next tt) z') ->
  wp (loop body) Q z.
Proof.
  intros S HL Hbody HQ.
  apply (wp_loop (fun n z1 => exists w1, St w1 z1 /\ sn_lb z1 = sn_lb z /\ sn_c z <= sn_c z1 /\ reach z1 <= L
           /\ n = Z.to_nat (sn_l z1 - sn_c z1)) (Z.to_nat (sn_l z - sn_c z))); [by exists w|sn_lia|].
  intros n z1 (w1 & S1 & Hlb & Hc & Hr & ->). eapply wp_mono; [by eapply Hbody|].
  intros [] z' Hp; try done.
  1, 3: destruct Hp as (w' & S2 & ? & ? & ? & ?); eexists; (split; [|exists w'; split_and!; [done|done|lia|lia|reflexivity]]); sn_lia.
  destruct Hp as (w' & S2 & ? & ?). by apply (HQ w').
Qed.

(** A forward routine that starts in a state with [P]. *)
Definition fwd_when (P : SN_env -> Prop) (f : cfunc) : Prop := forall w z, St w z -> P z ->
  returns f z (fun v z' => 0 <= v /\ exists w', St w' z' /\ sn_lb z' = sn_lb z /\ sn_c z <= sn_l z').

Lemma do_f_when lab f P : fwd_when P f -> forall w z Q,
  St w z -> P z ->
  (forall w' z', St w' z' -> sn_c z' = sn_c z -> sn_lb z' = sn_lb z -> Q (Next tt) z') ->
  wp (do_f lab f) Q z.
Proof.
  intros Hf w z Q S Hz HQ. unfold do_f. do 4 wp_step. unfold routine. repeat wp_step1.
  eapply returns_mono; [eapply Hf; eassumption|]. intros v z' (Hv & w' & S' & Hlb & Hc).
  repeat wp_step; try lia; rewrite ?Nat.eqb_refl; repeat wp_step;
    (apply (HQ w'); [st_solve|done|done]).
Qed.
End Grow.

(** The end of a round that may lengthen the word. *)
Ltac grow_end :=
  moved; eexists; split_and!; [st_solve|unfold reach in *; sn_cbn; rewrite ?splice_c_ket in *; sn_lia || congruence..].

(** A bound on the new length, from the text ahead. *)
Ltac grow_room := unfold reach in *; sn_cbn; sn_lia.

(** * Stemmers that cut suffixes in front of a kept tail

    A backward routine that may call itself works left of its cursor: what is
    right of it stays, so a cursor recorded as a distance from the end
    ([z->l - z->c]) is still inside the limits after the call. *)

(** [{ int i = n; while(1) { int c1 = z->c; { int ret = f(z); if (ret < 0)
     goto lab0; z->c += ret; } i--; continue; lab0: z->c = c1; break; }
     if (i > 0) return 0; }]; a round consumes a symbol of the word. *)
Fixpoint past_down (fuel : nat) (f : cfunc) (i : Z) : M Z :=
  match fuel with
  | O => fun _ => None
  | S fuel =>
      c1 <- get sn_c ;;
      r <- call f ;;
      if r <? 0 then c_is c1 ;; ret i
      else put (fun z => set_c (sn_c z + r) z) ;; i' <- lift (fun _ => cint (i - 1)) ;; past_down fuel f i'
  end.

Definition atleast_past (n : Z) (f : cfunc) : M unit := fun z =>
  (i <- past_down (S (S (Z.to_nat (sn_l z)))) f n ;; when (i >? 0) (creturn 0)) z.

Section Tail.
Context `{CHeap} (k L : Z) (ni nb : nat).
Abbreviation St := (st k L ni nb).

Lemma past_down_ok f g min max w : group_spec f 1 -> group_ok g min max = true -> forall fuel i z Q,
  St w z -> (Z.to_nat (sn_l z - sn_c z) < fuel)%nat -> INT_MIN + (sn_l z - sn_c z) < i <= INT_MAX ->
  (forall i c, sn_c z <= c <= sn_l z -> Q (Next i) (set_c c z)) -> wp (past_down fuel (f g min max 1) i) Q z.
Proof.
  intros Hf Hg. induction fuel as [|fuel IH]; intros i z Q S Hn Hi HQ; [lia|]. cbn [past_down].
  apply wp_bind, wp_get, wp_bind, wp_call. eapply returns_mono; [eapply (st_group _ _ _ _ _ 1); [done|lia|done|st_solve]|].
  intros v z' (n & -> & S' & Hd & Hv). cbn beta iota. zcase (v <? 0).
  - repeat wp_step. change (set_c (sn_c z) (set_c ?x z)) with (set_c (sn_c z) z). apply HQ. sn_lia.
  - repeat wp_step. eapply wp_lift; [unfold cint; rewrite !(proj2 (Z.leb_le _ _)) by sn_lia; reflexivity|].
    apply IH; [st_solve|sn_lia|sn_lia|]. intros j c Hc. change (set_c c (set_c ?y (set_c ?x z))) with (set_c c z).
    apply HQ. sn_lia.
Qed.

Lemma atleast_past_ok m f g min max w z Q : group_spec f 1 -> group_ok g min max = true -> 0 < m <= INT_MAX -> St w z ->
  (forall c, sn_c z <= c <= sn_l z -> Q (Next tt) (set_c c z)) -> (forall c, sn_c z <= c <= sn_l z -> Q (Ret 0) (set_c c z)) ->
  wp (atleast_past m (f g min max 1)) Q z.
Proof.
  intros Hf Hg Hm S Hn Hr. unfold atleast_past. apply (wp_bind _ _ _ z).
  eapply (past_down_ok f g min max w Hf Hg); [done|sn_lia| |].
  { pose proof (holds_cap _ _ _ (st_holds _ _ _ _ _ _ S)). unfold INT_MAX, INT_MIN in *. sn_lia. }
  intros i c Hc. unfold when. destruct (i >? 0); [apply wp_creturn|apply wp_skip]; auto.
Qed.

(** A search to the right leaves the word alone. *)
Lemma seek_loop body w z Q : St w z ->
  (forall z1, St w z1 -> sn_lb z1 = sn_lb z -> wp body (fun f z' => match f with
     | Next _ | Continue => St w z' /\ sn_lb z' = sn_lb z /\ sn_c z1 < sn_c z'
     | Break => Q (Next tt) z' | Goto n => Q (Goto n) z' | Ret v => Q (Ret v) z' end) z1) ->
  wp (loop body) Q z.
Proof.
  intros S Hbody.
  apply (wp_loop (fun n z1 => St w z1 /\ sn_lb z1 = sn_lb z /\ n = Z.to_nat (sn_l z1 - sn_c z1)) (Z.to_nat (sn_l z - sn_c z))); [done|sn_lia|].
  intros n z1 (S1 & Hlb & ->). eapply wp_mono; [by apply Hbody|].
  intros [] z' Hp; try done; destruct Hp as (S2 & ? & ?); eexists; (split; [|split_and!; [done..|reflexivity]]); sn_lia.
Qed.

(** A routine that reads the text left of the cursor. *)
Definition back_ok (f : cfunc) : Prop := forall w z, St w z ->
  returns f z (fun v z' => 0 <= v /\ exists c, z' = set_c c z /\ sn_lb z <= c <= sn_c z).

(** A routine that deletes left of the cursor. *)
Definition tail_post (z : SN_env) (v : Z) (z' : SN_env) : Prop :=
  0 <= v /\ exists w', St w' z' /\ sn_lb z' = sn_lb z /\ sn_l z' <= sn_l z /\ sn_l z - sn_c z <= sn_l z' - sn_lb z'.

Definition tail_ok (f : cfunc) : Prop := forall w z, St w z -> returns f z (tail_post z).

(** Deleting from the cursor up to the end of the slice. *)
Lemma st_cut w z : St w z -> sn_bra z = sn_c z -> sn_c z <= sn_ket z -> sn_ket z <= sn_l z ->
  returns slice_del z (fun v z' => v = 0 /\ St (splice (sn_bra z) (sn_ket z) [] w) z'
    /\ sn_l z' = sn_l z - (sn_ket z - sn_c z) /\ sn_c z' = sn_c z /\ frame z z').
Proof.
  intros S Hb Hk Hl. pose proof (st_range _ _ _ _ _ _ S). eapply returns_mono; [eapply st_slice_del; [done|lia..]|].
  intros v z' (-> & ? & Hl' & Hc & ?). rewrite <- Hb, splice_c_bra in Hc by lia. split_and!; (done || lia).
Qed.

(** Alternatives that only read: they meet with the cursor moved left. *)
Definition probed (w : list Z) (z z' : SN_env) : Prop :=
  St w z' /\ sn_lb z' = sn_lb z /\ sn_ket z' = sn_ket z /\ sn_l z' = sn_l z /\ sn_c z' <= sn_c z.

Lemma join_probe w n m Q z :
  wp m (fun f z' => match f with
    | Next _ => probed w z z'
    | Goto j => if (j =? n)%nat then probed w z z' else Q (Goto j) z'
    | Break => Q Break z' | Continue => Q Continue z' | Ret v => Q (Ret v) z' end) z ->
  (forall z', St w z' -> sn_lb z' = sn_lb z -> sn_ket z' = sn_ket z -> sn_l z' = sn_l z -> sn_c z' <= sn_c z -> Q (Next tt) z') ->
  wp (label n m) Q z.
Proof.
  intros Hm HQ. apply wp_label. eapply wp_mono; [exact Hm|]. intros [[]|j| | |] z'; try done.
  - intros (? & ? & ? & ? & ?). by apply HQ.
  - destruct (j =? n)%nat; [|done]. intros (? & ? & ? & ? & ?). by apply HQ.
Qed.

(** Readers that set nothing but the cursor. *)
Definition moved_left (z z' : SN_env) : Prop := exists c, z' = set_c c z /\ sn_lb z <= c <= sn_c z.

Lemma join_read n m Q z :
  wp m (fun f z' => match f with
    | Next _ => moved_left z z'
    | Goto j => if (j =? n)%nat then moved_left z z' else Q (Goto j) z'
    | Break => Q Break z' | Continue => Q Continue z' | Ret v => Q (Ret v) z' end) z ->
  (forall c, sn_lb z <= c <= sn_c z -> Q (Next tt) (set_c c z)) -> wp (label n m) Q z.
Proof.
  intros Hm HQ. apply wp_label. eapply wp_mono; [exact Hm|]. intros [[]|j| | |] z'; try done.
  - intros (c & -> & ?). by apply HQ.
  - destruct (j =? n)%nat; [|done]. intros (c & -> & ?). by apply HQ.
Qed.

(** Code that may delete: the paths meet with the tail still there. *)
Definition tailed (z z' : SN_env) : Prop :=
  exists w, St w z' /\ sn_lb z' = sn_lb z /\ sn_l z' <= sn_l z /\ sn_l z - sn_c z <= sn_l z' - sn_lb z'.

Lemma join_tail n m Q z :
  wp m (fun f z' => match f with
    | Next _ => tailed z z'
    | Goto j => if (j =? n)%nat then tailed z z' else Q (Goto j) z'
    | Break => Q Break z' | Continue => Q Continue z' | Ret v => Q (Ret v) z' end) z ->
  (forall w z', St w z' -> sn_lb z' = sn_lb z -> sn_l z' <= sn_l z -> sn_l z - sn_c z <= sn_l z' - sn_lb z' -> Q (Next tt) z') ->
  wp (label n m) Q z.
Proof.
  intros Hm HQ. apply wp_label. eapply wp_mono; [exact Hm|]. intros [[]|j| | |] z'; try done.
  - intros (w & ? & ? & ? & ?). by apply (HQ w).
  - destruct (j =? n)%nat; [|done]. intros (w & ? & ? & ? & ?). by apply (HQ w).
Qed.

(** A step from the end of the word that adds at most [d] symbols. *)
Definition grow_by (d : Z) (f : cfunc) : Prop := forall w z, St w z -> sn_c z = sn_l z -> sn_l z + d <= L ->
  returns f z (fun v z' => 0 <= v /\ exists w', St w' z' /\ sn_lb z' = sn_lb z /\ sn_l z' <= sn_l z + d).

Lemma do_b_grow lab f d : grow_by d f -> forall w z Q,
  St w z -> sn_c z = sn_l z -> sn_l z + d <= L ->
  (forall w' z', St w' z' -> sn_c z' = sn_l z' -> sn_lb z' = sn_lb z -> sn_l z' <= sn_l z + d -> Q (Next tt) z') ->
  wp (do_b lab f) Q z.
Proof.
  intros Hf w z Q S Hc Hd HQ. unfold do_b. do 4 wp_step. unfold routine. repeat wp_step1.
  eapply returns_mono; [by eapply Hf|]. intros v z' (Hv & w' & S' & Hlb & Hl).
  repeat wp_step; try lia; rewrite ?Nat.eqb_refl; repeat wp_step;
    (apply (HQ w'); [st_solve|sn_cbn; lia|done|done]).
Qed.

Lemma tail_grow f : tail_ok f -> grow_by 0 f.
Proof.
  intros Hf w z S Hc Hd. eapply returns_mono; [by eapply Hf|]. intros v z' (Hv & w' & S' & Hlb & Hl & _).
  split; [done|]. exists w'. split_and!; [done..|lia].
Qed.
End Tail.

(** The ends of the paths. *)
Ltac back_done := split; [lia|]; eexists; split; [first [reflexivity | apply set_c_id]|sn_cbn; sn_lia].

Ltac back_code :=
  repeat first
    [ lazymatch goal with
      | |- wp (label _ _) _ _ => eapply join_read; [|intros ? ?]
      | |- moved_left _ _ => eexists; split; [first [reflexivity | apply set_c_id]|sn_cbn; sn_lia]
      end
    | wp_step ].

Ltac tail_done :=
  split; [lia|]; eexists; split_and!; [st_solve|sn_cbn; sn_lia || congruence..].

Ltac grow_done := split; [lia|]; eexists; split_and!; [st_solve|sn_cbn; sn_lia || congruence..].

Ltac cut_rule :=
  lazymatch goal with
  | |- returns slice_del _ _ =>
      eapply returns_mono; [eapply st_cut; [st_solve|sn_cbn; sn_lia || congruence..]|intros ? ? (-> & ? & ? & ? & ?)]
  end.

(** One statement; the readers meet behind the labels [ps], the code that
    deletes behind [ts]. *)
Ltac tail_step ps ts :=
  first
    [ match goal with
      | S : st ?k ?L ?ni ?nb ?w _ |- wp (label ?n _) _ _ =>
          first [in_nats n ps; eapply (join_probe k L ni nb w); [|intros ? ? ? ? ? ?]
                |in_nats n ts; eapply (join_tail k L ni nb); [|intros ? ? ? ? ? ?]]
      | |- probed _ _ _ _ _ _ _ => split_and!; [st_solve|sn_cbn; sn_lia || congruence..]
      | |- tailed _ _ _ _ _ _ => eexists; split_and!; [st_solve|sn_cbn; sn_lia || congruence..]
      end
    | cut_rule; cbn beta iota
    | wp_step ].

Ltac tail_code ps ts := repeat tail_step ps ts; try tail_done.
