(* ===== verification/SnStrings.v ===== *)
(** * String variables of the generated stemmers

    [z->S[i]] holds a copy of a piece of the word.  Only [slice_to] writes it;
    that every other statement leaves it alone is a frame property of the
    code ([Keeps]), proved from its structure. *)

From S2P Require Import Prelude SnEnv SnRuntime SnSpec SnAmong SnCode SnLoops.

Open Scope sn_scope.

Definition set_S v z := mk_SN_env (sn_p z) (sn_c z) (sn_l z) (sn_lb z) (sn_bra z) (sn_ket z) v (sn_I z) (sn_B z).

Section Statements.
Context `{CHeap}.

(** [z->S[i] = slice_to(z, z->S[i]); if (z->S[i] == 0) return -1;]; a NULL
    buffer may be passed on the path that only frees it. *)
Definition slice_to_S (i : Z) : M unit := fun z =>
  o ← znth (sn_S z) i;
  r ← match o with
      | Some p => slice_to z p
      | None => if negb (slice_check z =? 0) then Some None else None
      end;
  let z := set_S (<[Z.to_nat i := r]> (sn_S z)) z in
  match r with
  | None => Some (Ret (-1), z)
  | Some _ => Some (Next tt, z)
  end.

(** [eq_v_b(z, z->S[i])] *)
Definition eq_v_b_S (i : Z) : cfunc := fun z =>
  o ← znth (sn_S z) i; p ← o; eq_v_b p z.
End Statements.

(** ** Code that leaves the string variables alone *)
Class Keeps {A} (m : M A) : Prop := keeps : forall z r z', m z = Some (r, z') -> sn_S z' = sn_S z.
Class KeepsC (f : cfunc) : Prop := keeps_c : forall z v z', f z = Some (v, z') -> sn_S z' = sn_S z.

Section Frame.
Context {A B : Type}.

#[export] Instance keeps_bind (m : M A) (f : A -> M B) : Keeps m -> (forall a, Keeps (f a)) -> Keeps (bind m f).
Proof.
  intros Hm Hf z r z'. unfold bind. destruct (m z) as [[[] z1]|] eqn:E; [|intros [= _ <-]; by eapply Hm..|done].
  intros E'. rewrite (Hf _ _ _ _ E'). by eapply Hm.
Qed.

#[export] Instance keeps_ret (a : A) : Keeps (ret a).
Proof. by intros z r z' [= _ <-]. Qed.

#[export] Instance keeps_get (f : SN_env -> A) : Keeps (get f).
Proof. by intros z r z' [= _ <-]. Qed.

#[export] Instance keeps_lift (f : SN_env -> option A) : Keeps (lift f).
Proof. intros z r z'. unfold lift. destruct (f z); [|done]. by intros [= _ <-]. Qed.

#[export] Instance keeps_if (b : bool) (m n : M A) : Keeps m -> Keeps n -> Keeps (if b then m else n).
Proof. by destruct b. Qed.
End Frame.

#[export] Instance keeps_put f : (forall z, sn_S (f z) = sn_S z) -> Keeps (put f).
Proof. intros Hf z r z' [= _ <-]. apply Hf. Qed.

#[export] Instance keeps_skip : Keeps skip.
Proof. by intros z r z' [= _ <-]. Qed.

#[export] Instance keeps_goto n : Keeps (goto n).
Proof. by intros z r z' [= _ <-]. Qed.

#[export] Instance keeps_brk : Keeps brk.
Proof. by intros z r z' [= _ <-]. Qed.

#[export] Instance keeps_cont : Keeps cont.
Proof. by intros z r z' [= _ <-]. Qed.

#[export] Instance keeps_creturn v : Keeps (creturn v).
Proof. by intros z r z' [= _ <-]. Qed.

#[export] Instance keeps_label n m : Keeps m -> Keeps (label n m).
Proof.
  intros Hm z r z'. unfold label. destruct (m z) as [[[] z1]|] eqn:E; [..|done]; try case_match; intros [= _ <-]; by eapply Hm.
Qed.

#[export] Instance keeps_loop m : Keeps m -> Keeps (loop m).
Proof.
  intros Hm z. unfold loop. generalize (S (S (Z.to_nat (sn_l z)))) as n. intros n. revert z.
  induction n as [|n IH]; intros z r z'; [done|]. cbn [while1]. destruct (m z) as [[[] z1]|] eqn:E; [| | | | |done].
  1, 4: intros E'; rewrite (IH _ _ _ E'); by eapply Hm.
  all: intros [= _ <-]; by eapply Hm.
Qed.

#[export] Instance keeps_when b m : Keeps m -> Keeps (when b m).
Proof. destruct b; [done|]. intros _. apply keeps_skip. Qed.

#[export] Instance keeps_switch_nil v : Keeps (switch v []).
Proof. apply keeps_skip. Qed.

#[export] Instance keeps_switch v k m r : Keeps m -> Keeps (switch v r) -> Keeps (switch v ((k, m) :: r)).
Proof. intros ??. cbn. by destruct (v =? k). Qed.

#[export] Instance keeps_call f : KeepsC f -> Keeps (call f).
Proof. intros Hf z r z'. unfold call. destruct (f z) as [[v z1]|] eqn:E; [|done]. intros [= _ <-]. by eapply Hf. Qed.

#[export] Instance keeps_cfun m : Keeps m -> KeepsC (cfun m).
Proof. intros Hm z v z'. unfold cfun. destruct (m z) as [[[] z1]|] eqn:E; try done. intros [= _ <-]. by eapply Hm. Qed.

#[export] Instance keeps_put_I i v : Keeps (put_I i v).
Proof. intros z r z'. unfold put_I. case_match; [|done]. by intros [= _ <-]. Qed.

#[export] Instance keeps_put_B i v : Keeps (put_B i v).
Proof. intros z r z'. unfold put_B. case_match; [|done]. by intros [= _ <-]. Qed.

#[export] Instance keeps_pre_b off t : Keeps (pre_b off t).
Proof. intros z r z'. unfold pre_b. case_match; [by intros [= _ <-]|]. destruct (rd _ _); cbn; [|done]. by intros [= _ <-]. Qed.

#[export] Instance keeps_pre_f off t : Keeps (pre_f off t).
Proof. intros z r z'. unfold pre_f. case_match; [by intros [= _ <-]|]. destruct (rd _ _); cbn; [|done]. by intros [= _ <-]. Qed.

(** *** The runtime *)
Lemma grouping_loop_keeps n next dir stop s lo hi rep z v z' :
  grouping_loop n next dir stop s lo hi rep z = Some (v, z') -> sn_S z' = sn_S z.
Proof.
  revert z. induction n as [|n IH]; intros z; [done|]. cbn [grouping_loop]. destruct (next z) as [[w ch]|]; [|done]. cbn.
  destruct (w =? 0); [by intros [= _ <-]|]. destruct (not_in_group _ _ _ _) as [t|]; [|done]. cbn.
  destruct (Bool.eqb t stop); [by intros [= _ <-]|]. destruct (rep =? 0); [by intros [= _ <-]|]. intros E. by rewrite (IH _ E).
Qed.

#[export] Instance keeps_in_U s lo hi rep : KeepsC (in_grouping_U s lo hi rep).
Proof. intros z v z'. apply grouping_loop_keeps. Qed.
#[export] Instance keeps_in_b_U s lo hi rep : KeepsC (in_grouping_b_U s lo hi rep).
Proof. intros z v z'. apply grouping_loop_keeps. Qed.
#[export] Instance keeps_out_U s lo hi rep : KeepsC (out_grouping_U s lo hi rep).
Proof. intros z v z'. apply grouping_loop_keeps. Qed.
#[export] Instance keeps_out_b_U s lo hi rep : KeepsC (out_grouping_b_U s lo hi rep).
Proof. intros z v z'. apply grouping_loop_keeps. Qed.
#[export] Instance keeps_in s lo hi rep : KeepsC (in_grouping s lo hi rep).
Proof. intros z v z'. apply grouping_loop_keeps. Qed.
#[export] Instance keeps_in_b s lo hi rep : KeepsC (in_grouping_b s lo hi rep).
Proof. intros z v z'. apply grouping_loop_keeps. Qed.
#[export] Instance keeps_out s lo hi rep : KeepsC (out_grouping s lo hi rep).
Proof. intros z v z'. apply grouping_loop_keeps. Qed.
#[export] Instance keeps_out_b s lo hi rep : KeepsC (out_grouping_b s lo hi rep).
Proof. intros z v z'. apply grouping_loop_keeps. Qed.

#[export] Instance keeps_eq_s_b n s : KeepsC (eq_s_b n s).
Proof. intros z v z'. unfold eq_s_b. case_match; [by intros [= _ <-]|]. destruct (mem_differs _ _ _ _) as [[]|]; cbn; try done; by intros [= _ <-]. Qed.

#[export] Instance keeps_eq_s n s : KeepsC (eq_s n s).
Proof. intros z v z'. unfold eq_s. case_match; [by intros [= _ <-]|]. destruct (mem_differs _ _ _ _) as [[]|]; cbn; try done; by intros [= _ <-]. Qed.

(** The functions of a table keep the variables too. *)
Lemma among_chain_keeps v : (forall e f, e ∈ v -> function e = Some f -> KeepsC f) ->
  forall n dir c ci i z r z', among_chain n v dir c ci i z = Some (r, z') -> sn_S z' = sn_S z.
Proof.
  intros Hf. induction n as [|n IH]; intros dir c ci i z r z'; [done|]. cbn [among_chain].
  destruct (znth v i) as [e|] eqn:He; [|done]. cbn.
  assert (e ∈ v) as Hin by (pose proof (znth_Some _ _ _ He); rewrite znth_lookup in He by lia; by eapply list_elem_of_lookup_2).
  assert (forall z1, sn_S z1 = sn_S z ->
    (if substring_i e <? 0 then Some (0, z1) else among_chain n v dir c ci (substring_i e) z1) = Some (r, z') -> sn_S z' = sn_S z) as Hn.
  { intros z1 E1. destruct (substring_i e <? 0); [by intros [= _ <-]|]. intros E. rewrite <- E1. by eapply IH. }
  destruct (ci >=? s_size e); [|by apply Hn]. destruct (function e) as [f|] eqn:Ef; [|by intros [= _ <-]].
  destruct (f _) as [[res z1]|] eqn:E; [|done]. cbn. apply (Hf e f Hin Ef) in E. cbn in E.
  destruct (negb (res =? 0)); [by intros [= _ <-]|]. by apply Hn.
Qed.

Definition plain_table (v : list among) : bool := forallb (fun e => match function e with None => true | _ => false end) v.

#[export] Instance keeps_find_among_b v n : (forall e f, e ∈ v -> function e = Some f -> KeepsC f) -> KeepsC (find_among_b v n).
Proof. intros Hf z r z'. unfold find_among_b. destruct (among_bisect _ _ _ _ _ _ _) as [[i ci]|]; [|done]. by apply among_chain_keeps. Qed.

#[export] Instance keeps_find_among v n : (forall e f, e ∈ v -> function e = Some f -> KeepsC f) -> KeepsC (find_among v n).
Proof. intros Hf z r z'. unfold find_among. destruct (among_bisect _ _ _ _ _ _ _) as [[i ci]|]; [|done]. by apply among_chain_keeps. Qed.

Lemma plain_none v e f : plain_table v = true -> e ∈ v -> function e = Some f -> KeepsC f.
Proof. unfold plain_table. rewrite forallb_forall. intros Hv He%list_elem_of_In Hf. specialize (Hv e He). cbn in Hv. by rewrite Hf in Hv. Qed.

Lemma keeps_table v : Forall (fun e => match function e with None => True | Some f => KeepsC f end) v ->
  forall e f, e ∈ v -> function e = Some f -> KeepsC f.
Proof. rewrite Forall_forall. intros Hv e f He Hf. specialize (Hv e He). cbn in Hv. by rewrite Hf in Hv. Qed.

Section Edits.
Context `{CHeap}.

Lemma replace_s_keeps z bra ket n s v adj z' : replace_s z bra ket n s = Some (v, adj, z') -> sn_S z' = sn_S z.
Proof.
  unfold replace_s. destruct (match sn_p z with Some b => Some b | None => create_s end) as [b|]; [|by intros [= _ _ <-]].
  destruct (cint _) as [a|]; [|done]. cbn [mbind option_bind].
  intros E.
  match type of E with (?m ≫= ?f) = _ => destruct m as [r|] eqn:Er; [|done] end.
  assert (match r with inl z1 | inr z1 => sn_S z1 = sn_S z end) as Hr.
  { clear E. destruct (negb (a =? 0)); [|by injection Er as <-].
    repeat (match type of Er with (?m ≫= _) = _ => let X := fresh in destruct m as [X|]; [|done] end; cbn [mbind option_bind] in Er).
    match type of Er with context [match ?o with Some _ => _ | None => _ end] => destruct o; [|by injection Er as <-] end.
    repeat (match type of Er with (?m ≫= _) = _ => let X := fresh in destruct m as [X|]; [|done] end; cbn [mbind option_bind] in Er).
    repeat case_match; simplify_option_eq; by try done. }
  cbn in E. destruct r as [z1|z1]; [by injection E as _ _ <-|].
  destruct (negb (n =? 0)); [|by injection E as _ _ <-]. destruct (sn_p z1); [|done]. cbn in E.
  destruct (in_block _ _ _); [|done]. destruct (stores _ _ _); [|done]. cbn in E. by injection E as _ _ <-.
Qed.

#[export] Instance keeps_slice_from_s n s : KeepsC (slice_from_s n s).
Proof.
  intros z v z'. unfold slice_from_s. case_match; [by intros [= _ <-]|].
  destruct (replace_s _ _ _ _ _) as [[[r a] z1]|] eqn:E; [|done]. cbn. intros [= _ <-]. by eapply replace_s_keeps.
Qed.

#[export] Instance keeps_slice_del : KeepsC slice_del.
Proof. apply keeps_slice_from_s. Qed.
End Edits.

(** A call of a function that keeps the variables. *)
Lemma returns_keeps f z Q : KeepsC f -> returns f z Q -> returns f z (fun v z' => Q v z' /\ sn_S z' = sn_S z).
Proof. intros Hf (v & z' & E & HQ). exists v, z'. split_and!; [done..|]. by eapply Hf. Qed.

Lemma wp_keeps {A} (m : M A) Q z : Keeps m -> wp m (fun f z' => sn_S z' = sn_S z -> Q f z') z -> wp m Q z.
Proof. intros Hm. unfold wp. destruct (m z) as [[f z']|] eqn:E; [|done]. intros HQ. apply HQ. by eapply Hm. Qed.

(** The frame of a routine, from its text. *)
Ltac keeps_code :=
  repeat lazymatch goal with
  | |- forall _, _ => intro
  | |- KeepsC (cfun _) => apply keeps_cfun
  | |- KeepsC (find_among_b _ _) =>
      apply keeps_find_among_b; first [intros ? ?; apply plain_none; reflexivity | apply keeps_table; table_keeps]
  | |- KeepsC (find_among _ _) => apply keeps_find_among; intros ? ?; apply plain_none; reflexivity
  | |- KeepsC _ => solve [typeclasses eauto]
  | |- Keeps (bind _ _) => apply keeps_bind
  | |- Keeps (label _ _) => apply keeps_label
  | |- Keeps (loop _) => apply keeps_loop
  | |- Keeps (when _ _) => apply keeps_when
  | |- Keeps (call _) => apply keeps_call
  | |- Keeps (switch _ []) => apply keeps_switch_nil
  | |- Keeps (switch _ _) => apply keeps_switch
  | |- Keeps (if _ then _ else _) => apply keeps_if
  | |- Keeps (put _) => apply keeps_put
  | |- Keeps (get _) => apply keeps_get
  | |- Keeps (lift _) => apply keeps_lift
  | |- Keeps (ret _) => apply keeps_ret
  | |- Keeps (put_I _ _) => apply keeps_put_I
  | |- Keeps (put_B _ _) => apply keeps_put_B
  | |- Keeps (pre_b _ _) => apply keeps_pre_b
  | |- Keeps (pre_f _ _) => apply keeps_pre_f
  | |- Keeps skip => apply keeps_skip
  | |- Keeps (goto _) => apply keeps_goto
  | |- Keeps brk => apply keeps_brk
  | |- Keeps cont => apply keeps_cont
  | |- Keeps (creturn _) => apply keeps_creturn
  | |- Keeps ?m => let h := head m in unfold h
  | |- _ = _ => reflexivity
  end
with table_keeps :=
  lazymatch goal with |- Forall _ ?v => unfold v end;
  repeat (apply Forall_cons; split; [cbn [function]; first [exact I | solve [typeclasses eauto]]|]); apply Forall_nil; exact I
with head t := lazymatch t with ?f _ => head f | _ => t end.

(** ** A stemmer with one string variable *)
Section OneString.
Context `{CHeap} (k L : Z) (ni nb : nat).
Abbreviation St := (st k L ni nb).

(** A buffer that is not NULL. *)
Definition alive (b : sbuf) : Prop := zlen (symbols b) = CAPACITY b + 1 /\ 0 <= CAPACITY b <= INT_MAX - 1.
Definition svar (z : SN_env) : Prop := exists b, sn_S z = [Some b] /\ alive b.

(** The variable holds a copy of the slice. *)
Definition copied (s : list Z) (b : sbuf) : Prop := SIZE b = zlen s /\ exists r, symbols b = (Some <$> s) ++ r.

Lemma st_set_S w z v : St w z -> St w (set_S v z).
Proof. by intros []. Qed.

(** The allocator refused a request for at most the word and the slack of 20
    symbols. *)
Definition refused : Prop := exists n, n <= HEAD + (L + 21) /\ malloc_ok n = false.

Lemma increase_size_ok b n : alive b -> CAPACITY b < n -> n + 20 <= INT_MAX - 1 ->
  (increase_size b n = Some None /\ malloc_ok (HEAD + (n + 20 + 1)) = false)
  \/ exists b', increase_size b n = Some (Some b') /\ alive b' /\ CAPACITY b' = n + 20.
Proof.
  intros [Hs Hc] Hn Hm. unfold increase_size. rewrite cint_in by (unfold INT_MIN; lia). cbn.
  destruct (malloc_ok _) eqn:E; [right|by left]. eexists. split; [done|]. unfold alive. cbn.
  rewrite ztake_all by lia. rewrite zlen_app, zlen_replicate by lia. split_and!; lia.
Qed.

Lemma st_slice_to_S w z Q :
  St w z -> svar z -> 0 <= sn_bra z <= sn_ket z -> sn_ket z <= sn_l z -> L + 21 <= INT_MAX ->
  (forall b z', St w z' -> sn_S z' = [Some b] -> alive b -> copied (zseg (sn_bra z) (sn_ket z) w) b ->
     sn_c z' = sn_c z -> sn_l z' = sn_l z -> sn_lb z' = sn_lb z -> sn_bra z' = sn_bra z -> sn_ket z' = sn_ket z -> Q (Next tt) z') ->
  (forall z', St w z' -> sn_S z' = [None] -> refused -> Q (Ret (-1)) z') ->
  wp (slice_to_S 0) Q z.
Proof.
  intros S (b & Hb & Hl) Hbk Hk HL HQ HR. pose proof (st_range _ _ _ _ _ _ S). pose proof (st_l _ _ _ _ _ _ S) as Hw.
  unfold wp, slice_to_S. rewrite Hb. cbn [znth Z.leb Z.to_nat lookup list_lookup mbind option_bind].
  change (znth [Some b] 0) with (Some (Some b)). cbn [mbind option_bind].
  unfold slice_to. rewrite (slice_check_ok k w) by (done || apply S). cbn [Z.eqb negb]. unfold copy_into.
  set (n := sn_ket z - sn_bra z).
  assert ((if CAPACITY b <? n then increase_size b n else Some (Some b)) = Some None /\ refused
    \/ exists b', (if CAPACITY b <? n then increase_size b n else Some (Some b)) = Some (Some b') /\ alive b' /\ n <= CAPACITY b') as [[-> R]|(b' & -> & Hl' & Hn)].
  { zcase (CAPACITY b <? n); [|right; exists b; split_and!; [done|apply Hl..|lia]].
    destruct (increase_size_ok b n Hl) as [[-> R]|(b' & -> & ? & ?)]; [done|lia| |].
    - left. split; [done|]. eexists. split; [|exact R]. lia.
    - right. exists b'. split_and!; [done..|lia]. }
  { cbn. apply HR; [by apply st_set_S|done..]. }
  destruct (st_holds _ _ _ _ _ _ S) as (r & Hp & Hr & _). cbn [mbind option_bind]. rewrite Hp. cbn [mbind option_bind symbols].
  pose proof (zlen_nonneg r). rewrite in_block_true by (rewrite ?zlen_app, ?zlen_fmap; lia).
  assert (zseg (sn_bra z) (sn_bra z + n) ((Some <$> w) ++ r) = Some <$> zseg (sn_bra z) (sn_ket z) w) as ->.
  { unfold zseg, n. rewrite zdrop_app_l by (rewrite zlen_fmap; lia). rewrite ztake_app_l by (rewrite zdrop_fmap, zlen_fmap, zlen_zdrop; lia).
    rewrite zdrop_fmap, ztake_fmap. f_equal. f_equal. lia. }
  assert (zlen (zseg (sn_bra z) (sn_ket z) w) = n) as Hsl by (rewrite zlen_zseg; lia).
  destruct Hl' as [Hs' Hc']. rewrite stores_eq by (rewrite ?zlen_fmap; lia). cbn [mbind option_bind].
  eapply HQ; [by apply st_set_S|done| | |done..].
  - split; [|exact Hc']. cbn. rewrite !zlen_app, zlen_ztake, zlen_zdrop, zlen_fmap by (rewrite ?zlen_fmap; lia). lia.
  - split; [by cbn|]. cbn. rewrite ztake_0. cbn. by eexists.
Qed.

Lemma st_eq_v_b_S w z s b : St w z -> sn_S z = [Some b] -> copied s b ->
  returns (eq_v_b_S 0) z (fun v z' =>
    (v = 0 /\ z' = z) \/ (v = 1 /\ exists d, z' = set_c (sn_c z - d) z /\ 0 <= d /\ sn_lb z <= sn_c z - d)).
Proof.
  intros S Hb [Hs [r Hr]]. pose proof (st_eq_s_b _ _ _ _ _ s w z S eq_refl) as (v & z' & E & Hv).
  exists v, z'. split; [|destruct Hv as [?|(? & ? & ? & ?)]; [by left|right; split; [done|]; exists (zlen s); auto with myc]].
  unfold eq_v_b_S. rewrite Hb. change (znth [Some b] 0) with (Some (Some b)). cbn [mbind option_bind].
  unfold eq_v_b. rewrite Hs, Hr, <- E. unfold eq_s_b. case_match; [done|]. unfold mem_differs.
  destruct (sn_p z) as [p|]; [|done]. cbn [mbind option_bind]. destruct (loads (symbols p) _ _); [|done]. cbn [mbind option_bind].
  pose proof (zlen_nonneg s). rewrite loads_fmap by lia. rewrite <- (app_nil_r (Some <$> s)), loads_fmap by lia. done.
Qed.

(** A last step that copies a slice: the variable stays live, or the
    allocator refused and the variable is NULL. *)
Definition done_ok (lb : Z) (v : Z) (z' : SN_env) : Prop :=
  (0 <= v /\ svar z' /\ exists w', St w' z' /\ sn_lb z' = lb)
  \/ (v = -1 /\ sn_S z' = [None] /\ refused /\ exists w', St w' z').

Definition string_ok (f : cfunc) : Prop := forall w z, St w z -> svar z -> sn_lb z = 0 -> sn_c z = sn_l z ->
  returns f z (done_ok 0).

Lemma do_b_string lab f : string_ok f -> forall w z Q,
  St w z -> svar z -> sn_lb z = 0 -> sn_c z = sn_l z ->
  (forall w' z', St w' z' -> svar z' -> sn_c z' = sn_l z' -> sn_lb z' = 0 -> Q (Next tt) z') ->
  (forall w' z', St w' z' -> sn_S z' = [None] -> refused -> Q (Ret (-1)) z') ->
  wp (do_b lab f) Q z.
Proof.
  intros Hf w z Q S Hs Hl Hc HQ HR. unfold do_b. do 4 wp_step. unfold routine. repeat wp_step1.
  eapply returns_mono; [by eapply Hf|]. intros v z' [(Hv & Hs' & w' & S' & Hlb)|(-> & Hs' & R & w' & S')].
  - repeat wp_step; try lia; rewrite ?Nat.eqb_refl; repeat wp_step; (apply (HQ w'); [st_solve|done|sn_cbn; lia|done]).
  - repeat wp_step. by apply (HR w').
Qed.
End OneString.

(** The end of a path of the last step. *)
Ltac svar_live :=
  st_facts; match goal with Hl : alive ?b |- svar _ => exists b; split; [cbn in *; congruence|exact Hl] end.

(** The labelled blocks one after the other, as [cut_code], below the limit
    that is set when a block starts. *)
Ltac limit z := lazymatch z with
  | set_lb (sn_c (set_c ?v _)) _ => v
  | set_lb ?v _ => v
  | set_c _ ?y => limit y | set_bra _ ?y => limit y | set_ket _ ?y => limit y | _ => constr:(sn_lb z) end.

Ltac cut_string :=
  repeat first
    [ lazymatch goal with
      | S : st ?k ?L ?ni ?nb _ _ |- wp (label _ _) _ ?z =>
          let lb := limit z in
          apply wp_keeps; [keeps_code|]; eapply (join_edit k L ni nb lb);
          [repeat wp_step; try (eexists; split; [st_solve|sn_cbn; sn_lia || congruence])|intros ? ? ? ? ?] end
    | wp_step ].

Ltac svar_same := lazymatch goal with Hs : svar ?z |- svar _ => destruct Hs as (? & ? & ?); svar_live end.

Ltac string_end :=
  first
    [ left; split; [lia|split; [svar_live|eexists; split; [st_solve|sn_cbn; sn_lia || congruence]]]
    | right; split_and!; [done..|eexists; st_solve] ].

(** * Tables whose entries call a routine

    An [among] entry may carry a function that has to succeed after the
    string matched ([function] of [runtime/header.h]).  The bisection does
    not look at it; the walk down the chain of shorter entries calls it. *)

(** The table without its functions. *)
Definition strip (e : among) : among := mk_among (s_size e) (s_key e) (substring_i e) (result e) None.

Lemma znth_strip v i e : znth v i = Some e -> znth (strip <$> v) i = Some (strip e).
Proof. intros He. by rewrite znth_fmap, He. Qed.

Lemma cmp_bwd_strip n z c lb e i2 common diff :
  cmp_bwd n z c lb (strip e) i2 common diff = cmp_bwd n z c lb e i2 common diff.
Proof.
  revert i2 common diff. induction n as [|n IH]; intros i2 common diff; [done|]. cbn [cmp_bwd].
  case_match; [done|]. destruct (rd _ _); [|done]. cbn. destruct (znth _ _); [|done]. cbn. case_match; [done|]. apply IH.
Qed.

Lemma among_bisect_strip cmp v : (forall e common, cmp (strip e) common = cmp e common) ->
  forall fuel i j ci cj first, among_bisect fuel cmp (strip <$> v) i j ci cj first = among_bisect fuel cmp v i j ci cj first.
Proof.
  intros Hc. induction fuel as [|fuel IH]; intros i j ci cj first; [done|]. cbn [among_bisect]. rewrite znth_fmap.
  destruct (znth v _) as [e|]; [|done]. cbn. rewrite Hc. destruct (cmp e _) as [[d common]|]; [|done]. cbn.
  destruct (d <? 0); repeat (case_match; try done); apply IH.
Qed.

Section Calls.
Context (k L : Z) (ni nb : nat).
Abbreviation St := (st k L ni nb).

(** A routine that moves the cursor only. *)
Definition probe_ok (f : cfunc) : Prop := forall w z, St w z ->
  returns f z (fun v z' => 0 <= v /\ exists c, z' = set_c c z /\ St w z').

Section Table.
Context (v : list among) (n : Z) (w : list Z) (z : SN_env).
Context (Hv : table_ok key_bwd (strip <$> v) n = true) (S : St w z).
Context (Hf : forall e f, e ∈ v -> function e = Some f -> probe_ok f).

Lemma strip_facts : zlen v = n /\ 0 < n /\ forall e, e ∈ v -> 0 <= s_size e.
Proof.
  destruct (table_facts _ _ _ Hv) as (? & Hn & _ & _ & Hsz). rewrite zlen_fmap in Hn. split_and!; [done..|].
  intros e He. destruct (Hsz (strip e)) as (Hs & _); [by apply list_elem_of_fmap_2|]. cbn in Hs. rewrite Hs. apply zlen_nonneg.
Qed.

(** The entry a chain goes on with is below. *)
Lemma chain_below i e : znth v i = Some e -> 0 <= substring_i e -> exists s, znth v (substring_i e) = Some s /\ substring_i e < i.
Proof.
  intros He Hs. destruct (table_facts _ _ _ Hv) as (_ & _ & _ & Hsub & _).
  pose proof (znth_Some _ _ _ He). assert (e ∈ v) as Hin by (rewrite znth_lookup in He by lia; by eapply list_elem_of_lookup_2).
  specialize (Hsub (strip e) (list_elem_of_fmap_2 _ _ _ Hin)). unfold sub_ok in Hsub. change (substring_i (strip e)) with (substring_i e) in Hsub.
  rewrite (proj2 (Z.ltb_ge _ _)) in Hsub by lia. destruct (znth (strip <$> v) (substring_i e)) as [s|] eqn:E; [|done]. bool_hyps.
  assert (substring_i e < i) by (eapply (proper_prefix_below key_bwd (strip <$> v) n Hv i (substring_i e) (strip e) s); [by apply znth_strip|done|done]).
  rewrite znth_fmap in E. destruct (znth v (substring_i e)) as [s'|]; [|done]. by exists s'.
Qed.

Lemma among_chain_calls ci : ci <= sn_c z - sn_lb z -> forall fuel i e a,
  znth v i = Some e -> i < Z.of_nat fuel -> St w (set_c a z) ->
  returns (among_chain fuel v (-1) (sn_c z) ci i) (set_c a z) (fun r z' => exists a', z' = set_c a' z /\ St w z'
    /\ (r = 0 \/ exists e, e ∈ v /\ r = result e /\ a' = sn_c z - s_size e /\ s_size e <= ci)).
Proof.
  intros Hci. destruct strip_facts as (Hn & Hn0 & Hsz). pose proof (st_range _ _ _ _ _ _ S).
  induction fuel as [|fuel IH]; intros i e a He Hi Sa; [apply znth_Some in He; lia|].
  assert (e ∈ v) as Hin by (pose proof (znth_Some _ _ _ He); rewrite znth_lookup in He by lia; by eapply list_elem_of_lookup_2).
  specialize (Hsz e Hin). unfold returns. cbn [among_chain]. rewrite He. cbn [mbind option_bind].
  assert (forall a, St w (set_c a z) -> exists r z',
    (if substring_i e <? 0 then Some (0, set_c a z) else among_chain fuel v (-1) (sn_c z) ci (substring_i e) (set_c a z)) = Some (r, z')
    /\ exists a', z' = set_c a' z /\ St w z' /\ (r = 0 \/ exists e, e ∈ v /\ r = result e /\ a' = sn_c z - s_size e /\ s_size e <= ci)) as Hnext.
  { intros a1 Sa1. zcase (substring_i e <? 0); [by eauto 10|].
    destruct (chain_below i e He) as (s & Hs & Hlt); [lia|]. apply (IH _ s); [done|lia|done]. }
  rewrite Z.geb_leb. zcase (s_size e <=? ci); [|by apply Hnext].
  assert (St w (set_c (sn_c z + -1 * s_size e) z)) as Se by (apply st_set_c; [done|lia]).
  change (set_c ?x (set_c ?y z)) with (set_c x z). destruct (function e) as [f|] eqn:Ef.
  - destruct (Hf e f Hin Ef w _ Se) as (v1 & z1 & -> & Hv1 & c1 & -> & S1). cbn [mbind option_bind].
    change (set_c ?x (set_c ?y (set_c ?t z))) with (set_c x z).
    destruct (negb (v1 =? 0)); [|by apply Hnext].
    eexists _, _. split; [done|]. eexists. split_and!; [done..|]. right. exists e. split_and!; [done..|lia|done].
  - eexists _, _. split; [done|]. eexists. split_and!; [done..|]. right. exists e. split_and!; [done..|lia|done].
Qed.

(** The result is that of an entry that ends at the cursor, or 0. *)
Lemma find_among_b_calls f : sizes_ok f v = true ->
  returns (find_among_b v n) z (fun r z' => exists d, z' = set_c (sn_c z - d) z /\ St w z'
    /\ (r = 0 \/ (r <> 0 /\ 0 <= d /\ f r <= d))).
Proof.
  intros Hr. destruct strip_facts as (Hn & Hn0 & Hsz). pose proof (st_range _ _ _ _ _ _ S). pose proof (st_l _ _ _ _ _ _ S).
  set (T := reverse (zseg (sn_lb z) (sn_c z) w)).
  assert (zlen T = sn_c z - sn_lb z) as HT by (unfold T, zlen; rewrite length_reverse; fold (zlen (zseg (sn_lb z) (sn_c z) w)); rewrite zlen_zseg; lia).
  set (cmp := fun e common => cmp_bwd (Z.to_nat (s_size e - common)) z (sn_c z) (sn_lb z) e (s_size e - 1 - common) common 0).
  assert (cmp_spec key_bwd (strip <$> v) T cmp) as Hcmp.
  { intros e common He Hc. destruct (table_facts _ _ _ Hv) as (_ & _ & _ & _ & Hs). destruct (Hs e He) as (Hs1 & Hs2 & _).
    pose proof (lcp_le T (key_bwd e)). unfold cmp. eapply (cmp_bwd_ok k w); try done; try lia; [apply S|unfold zlen in *; lia]. }
  destruct (among_bisect_ok key_bwd (strip <$> v) n T Hv cmp Hcmp (Datatypes.S (Datatypes.S (Z.to_nat n))) 0 n 0 0 false)
    as (i & ci & Hb & e' & He' & Hcase); try lia; [by left|by left|].
  rewrite among_bisect_strip in Hb by (intros; apply cmp_bwd_strip).
  rewrite znth_fmap in He'. destruct (znth v i) as [e|] eqn:He; [|done].
  assert (ci <= sn_c z - sn_lb z) as Hci.
  { destruct Hcase as [(_ & -> & _)|(_ & -> & _)]; [|lia]. pose proof (lcp_le_text T (key_bwd e')). unfold zlen in HT. lia. }
  unfold returns, find_among_b. fold cmp. rewrite Hb. cbn [mbind option_bind].
  pose proof (znth_Some _ _ _ He).
  destruct (among_chain_calls ci Hci (Datatypes.S (Z.to_nat n)) i e (sn_c z)) as (r & z' & E & a & -> & Sa & Hres); [done|lia|by apply st_set_c; [|lia]|].
  replace (set_c (sn_c z) z) with z in E by (by destruct z). rewrite E. eexists _, _. split; [done|].
  exists (sn_c z - a). rewrite Z.sub_sub_distr, Z.sub_diag, Z.add_0_l. split_and!; [done..|].
  destruct Hres as [->|(e1 & Hin & -> & -> & Hle)]; [by left|right].
  unfold sizes_ok in Hr. rewrite forallb_forall in Hr. specialize (Hr e1 (proj1 (list_elem_of_In _ _) Hin)). bool_hyps.
  specialize (Hsz e1 Hin). split_and!; [done|lia..].
Qed.
End Table.
End Calls.
