(* ===== verification/SnClaims.v ===== *)
(** * The claims of the Snowball runtime

    The contracts of [runtime/utilities.c], stated against the word the
    environment holds, and the decoding of UTF-8 in both directions. *)

From S2P Require Import Prelude SnEnv SnRuntime SnSpec SnAmong SnStrings.

(** ** Decoding *)

(** The UTF-8 form of a code point below U+10000. *)
Definition utf8_encode (cp : Z) : list Z :=
  if cp <? 128 then [cp]
  else if cp <? 2048 then [192 + Z.shiftr cp 6; 128 + Z.land cp 63]
  else [224 + Z.shiftr cp 12; 128 + Z.land (Z.shiftr cp 6) 63; 128 + Z.land cp 63].

(** [get_utf8] on the bytes it may read, away from the limit. *)
Definition decode_fwd (bs : list Z) : option (Z * Z) :=
  match bs with
  | b0 :: r =>
      if b0 <? 192 then Some (1, b0) else
      match r with
      | b1 :: r =>
          if b0 <? 224 then Some (2, Z.lor (Z.shiftl (Z.land b0 31) 6) (Z.land b1 63)) else
          match r with
          | b2 :: _ => Some (3, Z.lor (Z.lor (Z.shiftl (Z.land b0 15) 12) (Z.shiftl (Z.land b1 63) 6))
                                      (Z.land b2 63))
          | [] => None
          end
      | [] => None
      end
  | [] => None
  end.

(** Checked for every code point. *)
Lemma decode_fwd_encode cp :
  0 <= cp < 65536 -> decode_fwd (utf8_encode cp) = Some (zlen (utf8_encode cp), cp).
Proof.
  intros Hcp. set (ok := fun cp => match decode_fwd (utf8_encode cp) with
                               | Some (n, x) => (n =? zlen (utf8_encode cp)) && (x =? cp)
                               | None => false end).
  assert (ok cp = true) as Hok by (apply (forall_range ok 65536); [vm_compute; reflexivity|done]).
  unfold ok in Hok. destruct (decode_fwd _) as [[n x]|]; [|done]. bool_hyps. by subst.
Qed.




Lemma utf8_encode_len cp : 1 <= zlen (utf8_encode cp) <= 3.
Proof. unfold utf8_encode. repeat case_match; vm_compute; split; discriminate. Qed.

(** The bytes of a segment, one by one. *)
Lemma rd_seg k w z c bs i b :
  holds k w z -> 0 <= c -> c + zlen bs <= zlen w -> zseg c (c + zlen bs) w = bs ->
  bs !! i = Some b -> rd z (c + Z.of_nat i) = Some b.
Proof.
  intros Hw Hc Hl Hs Hi. pose proof (lookup_lt_Some _ _ _ Hi).
  rewrite (holds_rd k w) by (try done; unfold zlen in *; lia). rewrite <- Hs in Hi.
  rewrite <- Hi, znth_lookup by lia. unfold zseg, ztake, zdrop.
  rewrite lookup_take_lt by (unfold zlen; lia). rewrite lookup_drop. f_equal. lia.
Qed.

(** ** Claims *)

(** C25: [replace_s] refines list splicing: on an environment that holds [w]
    (and a heap with room for the result) it replaces the symbols
    [c_bra..c_ket) by [s], growing the buffer by the requested amount plus 20
    exactly when the result does not fit, moves the cursor as the C code
    says, reports the adjustment, and changes nothing else. *)
Theorem replace_s_refines `{CHeap} k w z bra ket s :
  holds k w z -> 0 <= sn_c z <= sn_l z -> 0 <= bra <= ket -> ket <= zlen w -> bytes_ok s ->
  zlen s <= INT_MAX -> room k (zlen w + 1 + (zlen s - (ket - bra))) ->
  exists z', replace_s z bra ket (zlen s) (Some <$> s) = Some (0, Some (zlen s - (ket - bra)), z')
    /\ holds (grown k (zlen w + 1 + (zlen s - (ket - bra)))) (ztake bra w ++ s ++ zdrop ket w) z'
    /\ sn_c z' = splice_c bra ket (zlen s) (sn_c z) /\ frame z z'.
Proof. intros. by apply replace_s_spec. Qed.

(** "abcd" in a full buffer of capacity 5. *)
Definition abcd_env : SN_env :=
  mk_SN_env (Some (mk_sbuf 5 5 ((Some <$> str "abcd") ++ [None; None]))) 2 4 0 0 0 [] [] [].

Lemma abcd_holds : holds 5 (str "abcd") abcd_env.
Proof. exists [None; None]. unfold INT_MAX. cbn. split_and!; try done. repeat constructor; done. Qed.

Lemma replace_s_refines_witness :
  let H : CHeap := fun _ => true in
  exists z', replace_s abcd_env 1 2 3 (Some <$> str "xyz") = Some (0, Some 2, z')
    /\ holds 27 (str "axyzcd") z' /\ sn_c z' = 4 /\ frame abcd_env z'.
Proof.
  refine (@replace_s_refines (fun _ => true) 5 (str "abcd") abcd_env 1 2 (str "xyz") abcd_holds _ _ _ _ _ _);
    try (cbn; lia); try done.
  - repeat constructor; done.
  - right. done.
Defined.

(** ** Searching a table with conditions

    An entry of a table may have a routine, which is called with the cursor in
    front of the entry and says whether it counts; otherwise the search goes on
    with the next shorter one. *)
Section Conditions.
Context (v : list among) (n : Z) (z : SN_env) (T : list Z).

(** The entry ends at the cursor. *)
Definition matching (e : among) : Prop := e ∈ v /\ prefixb (key_bwd e) T = true.

(** Its condition holds. *)
Definition accepted (e : among) : Prop :=
  match function e with
  | None => True
  | Some f => exists b z1, f (set_c (sn_c z - s_size e) z) = Some (b, z1) /\ b <> 0
  end.

Definition search_post (r : Z) (z' : SN_env) : Prop :=
  (r = 0 /\ (exists a, z' = set_c a z) /\ ((forall e, ~ matching e) -> z' = z) /\ forall e, matching e -> ~ accepted e)
  \/ exists e, matching e /\ accepted e /\ r = result e /\ z' = set_c (sn_c z - s_size e) z
       /\ forall e', matching e' -> accepted e' -> s_size e' <= s_size e.

Context (Hv : table_ok key_bwd (strip <$> v) n = true).
(** A condition only moves the cursor. *)
Context (Hf : forall e f, matching e -> function e = Some f ->
  exists b a, f (set_c (sn_c z - s_size e) z) = Some (b, set_c a z)).

Lemma strip_elem e : e ∈ v -> strip e ∈ strip <$> v.
Proof. apply list_elem_of_fmap_2. Qed.

Lemma entry_size e : e ∈ v -> s_size e = zlen (key_bwd e).
Proof. intros He. destruct (table_facts _ _ _ Hv) as (_ & _ & _ & _ & Hs). by destruct (Hs _ (strip_elem e He)) as (_ & ? & _). Qed.

(** Two entries have different keys. *)
Lemma entry_key e e' : e ∈ v -> e' ∈ v -> key_bwd e = key_bwd e' -> e = e'.
Proof.
  intros [i Hi]%list_elem_of_lookup_1 [j Hj]%list_elem_of_lookup_1 Hk. destruct (table_facts _ _ _ Hv) as (_ & _ & Hs & _).
  assert (Hlt : forall i j a b, (i < j)%nat -> v !! i = Some a -> v !! j = Some b -> key_bwd a <> key_bwd b).
  { intros i' j' a b Hij Ha Hb Eab. pose proof (keys_sorted_lt key_bwd (strip <$> v) i' j' (strip a) (strip b) Hs Hij) as H.
    rewrite !list_lookup_fmap, Ha, Hb in H. specialize (H eq_refl eq_refl). change (key_bwd (strip a)) with (key_bwd a) in H.
    change (key_bwd (strip b)) with (key_bwd b) in H. rewrite Eab, lexle_refl in H. done. }
  destruct (Nat.lt_trichotomy i j) as [H|[->|H]]; [by destruct (Hlt i j e e')| congruence |by destruct (Hlt j i e' e)].
Qed.

Lemma shorter_entry e e' : e ∈ v -> e' ∈ v -> prefixb (key_bwd e') (key_bwd e) = true -> e' <> e ->
  pprefixb (key_bwd e') (key_bwd e) = true.
Proof.
  intros He He' Hp Hne. unfold pprefixb. rewrite Hp. apply Nat.ltb_lt. pose proof (prefixb_len _ _ Hp).
  destruct (decide (length (key_bwd e') = length (key_bwd e))) as [El|]; [|lia]. exfalso. apply Hne, entry_key; try done.
  apply prefixb_app in Hp as [r Hr]. rewrite Hr, length_app in El. destruct r; cbn in El; [|lia]. by rewrite app_nil_r in Hr.
Qed.

(** What the chain goes on with: the longest entry that is a proper suffix. *)
Lemma chain_next i e : znth v i = Some e -> e ∈ v ->
  (forall e', e' ∈ v -> pprefixb (key_bwd e') (key_bwd e) = true -> 0 <= substring_i e /\ exists s,
    znth v (substring_i e) = Some s /\ prefixb (key_bwd e') (key_bwd s) = true)
  /\ (0 <= substring_i e -> exists s, znth v (substring_i e) = Some s /\ prefixb (key_bwd s) (key_bwd e) = true /\ substring_i e < i).
Proof.
  intros He Hin. destruct (table_facts _ _ _ Hv) as (_ & _ & _ & Hsub & _). specialize (Hsub _ (strip_elem e Hin)).
  unfold sub_ok in Hsub. change (substring_i (strip e)) with (substring_i e) in Hsub. change (key_bwd (strip e)) with (key_bwd e) in Hsub.
  zcase (substring_i e <? 0).
  - split; [|lia]. intros e' He' Hp. rewrite forallb_forall in Hsub.
    specialize (Hsub _ (proj1 (list_elem_of_In _ _) (strip_elem e' He'))). cbv beta in Hsub.
    change (key_bwd (strip e')) with (key_bwd e') in Hsub. by rewrite Hp in Hsub.
  - destruct (chain_below v n Hv i e He) as (s & Hs & Hlt); [lia|]. rewrite (znth_strip _ _ _ Hs) in Hsub. bool_hyps.
    change (key_bwd (strip s)) with (key_bwd s) in *. split.
    + intros e' He' Hp. split; [lia|]. exists s. split; [done|].
      match goal with F : forallb _ _ = true |- _ => rewrite forallb_forall in F;
        specialize (F _ (proj1 (list_elem_of_In _ _) (strip_elem e' He'))); cbv beta in F end.
      change (key_bwd (strip e')) with (key_bwd e') in *. by rewrite Hp in *.
    + intros _. exists s. split_and!; [done| |done]. unfold pprefixb in *. by bool_hyps.
Qed.

Lemma among_chain_conditions e0 ci : ci = Z.of_nat (lcp T (key_bwd e0)) ->
  forall fuel i e a, znth v i = Some e -> e ∈ v -> prefixb (key_bwd e) (key_bwd e0) = true ->
  (forall e', matching e' -> accepted e' -> prefixb (key_bwd e') (key_bwd e) = true) ->
  (a = sn_c z \/ exists e, matching e) -> i < Z.of_nat fuel ->
  returns (among_chain fuel v (-1) (sn_c z) ci i) (set_c a z) search_post.
Proof.
  intros Hci fuel. induction fuel as [|fuel IH]; intros i e a He Hin Hpre Hall Ha Hfu; [apply znth_Some in He; lia|].
  unfold returns. cbn [among_chain]. rewrite He. cbn [mbind option_bind].
  assert (Hmatch : (ci >=? s_size e) = prefixb (key_bwd e) T).
  { rewrite (entry_size e Hin), Z.geb_leb, Hci. unfold zlen. apply eq_true_iff_eq.
    rewrite Z.leb_le, (prefixb_lcp _ _ _ Hpre). lia. }
  assert (Hnext : forall a, (a = sn_c z \/ exists e, matching e) -> ~ (matching e /\ accepted e) -> exists r z',
    (if substring_i e <? 0 then Some (0, set_c a z) else among_chain fuel v (-1) (sn_c z) ci (substring_i e) (set_c a z)) = Some (r, z')
    /\ search_post r z').
  { intros b Hb Hrej. destruct (chain_next i e He Hin) as [Hn1 Hn2].
    assert (Hpp : forall e', matching e' -> accepted e' -> pprefixb (key_bwd e') (key_bwd e) = true).
    { intros e' Hm Hacc. apply shorter_entry; [done|apply Hm|by apply Hall|]. intros ->. by apply Hrej. }
    zcase (substring_i e <? 0).
    - eexists _, _. split; [done|]. left. split_and!; [done|by exists b| |].
      + intros Hno. destruct Hb as [-> |[x Hx]]; [by destruct z|by destruct (Hno x)].
      + intros e' Hm Hacc. destruct (Hn1 e' (proj1 Hm) (Hpp e' Hm Hacc)) as [? _]. lia.
    - destruct Hn2 as (s & Hs & Hps & Hlt); [lia|]. apply (IH _ s b); [done| |by eapply prefixb_trans| |done|lia].
      { pose proof (znth_Some _ _ _ Hs). rewrite znth_lookup in Hs by lia. by eapply list_elem_of_lookup_2. }
      intros e' Hm Hacc. destruct (Hn1 e' (proj1 Hm) (Hpp e' Hm Hacc)) as (_ & s' & Hs' & ?). congruence. }
  rewrite Hmatch. destruct (prefixb (key_bwd e) T) eqn:Hp; [|apply Hnext; [done|by intros [[_ ?] _]; congruence]].
  assert (Hm : matching e) by done. assert (Hlong : accepted e -> forall e', matching e' -> accepted e' -> s_size e' <= s_size e).
  { intros _ e' Hm' Hacc. rewrite (entry_size e Hin), (entry_size e' (proj1 Hm')). pose proof (prefixb_len _ _ (Hall e' Hm' Hacc)).
    unfold zlen. lia. }
  replace (sn_c z + -1 * s_size e) with (sn_c z - s_size e) by lia. change (set_c ?x (set_c ?y z)) with (set_c x z).
  destruct (function e) as [f|] eqn:Ef.
  - destruct (Hf e f Hm Ef) as (b & c1 & Efz). rewrite Efz. cbn [mbind option_bind].
    change (set_c ?x (set_c ?y z)) with (set_c x z). zcase (b =? 0); cbn [negb].
    + apply Hnext; [right; by exists e|]. intros [_ Hacc]. unfold accepted in Hacc. rewrite Ef in Hacc.
      destruct Hacc as (b' & z1 & Ez & ?). congruence.
    + assert (accepted e) by (unfold accepted; rewrite Ef; by exists b, (set_c c1 z)).
      eexists _, _. split; [done|]. right. exists e. split_and!; auto.
  - assert (accepted e) by (unfold accepted; by rewrite Ef). eexists _, _. split; [done|]. right. exists e. split_and!; auto.
Qed.
End Conditions.

(** C19: [find_among_b] in a table whose keys are sorted and chained to their
    longest proper suffixes, and whose conditions, if it has any, return and only
    move the cursor: the result is that of the longest among the entries that end
    at the cursor and whose condition holds there (an entry without a condition
    always counts), and the cursor moves in front of it; it is 0 when there is no
    such entry, and when no entry ends at the cursor nothing changes.  So a longer
    entry whose condition fails gives way to a shorter one. *)
Theorem find_among_b_longest k w z v n :
  holds k w z -> cursor z -> table_ok key_bwd (strip <$> v) n = true ->
  (forall e f, matching v (reverse (zseg (sn_lb z) (sn_c z) w)) e -> function e = Some f ->
     exists b a, f (set_c (sn_c z - s_size e) z) = Some (b, set_c a z)) ->
  exists r z', find_among_b v n z = Some (r, z')
    /\ search_post v z (reverse (zseg (sn_lb z) (sn_c z) w)) r z'.
Proof.
  intros Hw [Hc1 Hc2] Hv Hf. set (T := reverse (zseg (sn_lb z) (sn_c z) w)) in *.
  set (cmp := fun e common => cmp_bwd (Z.to_nat (s_size e - common)) z (sn_c z) (sn_lb z) e (s_size e - 1 - common) common 0).
  destruct (table_facts _ _ _ Hv) as (Hn0 & Hn & Hs & _ & Hsz). rewrite zlen_fmap in Hn.
  assert (Hcmp : cmp_spec key_bwd (strip <$> v) T cmp).
  { intros e common He Hc. destruct (Hsz e He) as (Hs1 & Hs2 & _). pose proof (lcp_le T (key_bwd e)).
    unfold cmp. eapply (cmp_bwd_ok k w); try done; try lia. unfold zlen in *. lia. }
  destruct (among_bisect_ok key_bwd (strip <$> v) n T Hv cmp Hcmp (S (S (Z.to_nat n))) 0 n 0 0 false)
    as (i & ci & Hb & e' & He' & Hcase); try lia; [by left|by left|].
  rewrite among_bisect_strip in Hb by (intros; apply cmp_bwd_strip).
  rewrite znth_fmap in He'. destruct (znth v i) as [e|] eqn:He; [|done]. injection He' as <-.
  change (key_bwd (strip e)) with (key_bwd e) in Hcase. pose proof (znth_Some _ _ _ He).
  assert (Hin : e ∈ v) by (rewrite znth_lookup in He by lia; by eapply list_elem_of_lookup_2).
  unfold find_among_b. fold cmp. rewrite Hb. cbn [mbind option_bind]. assert (Ez : set_c (sn_c z) z = z) by (by destruct z).
  destruct Hcase as [(Hle & Hci & Habove)|(-> & -> & Hle)].
  - pose proof (among_chain_conditions v n z T Hv Hf e ci Hci (S (Z.to_nat n)) i e (sn_c z) He Hin) as Hch. rewrite Ez in Hch.
    apply Hch; [by apply prefixb_app; exists []; rewrite app_nil_r| |by left|lia].
    intros e' [He' Hp] _. apply list_elem_of_lookup_1 in He' as [j Hj].
    assert (Hj' : znth (strip <$> v) (Z.of_nat j) = Some (strip e')).
    { apply znth_strip. pose proof (lookup_lt_Some _ _ _ Hj). rewrite znth_lookup, Nat2Z.id by lia. done. }
    apply (lcp_prefix_of _ _ T Hp). pose proof (prefixb_len _ _ Hp).
    assert (lexle (key_bwd e') (key_bwd e) = true) as Hl.
    { destruct (decide (i < Z.of_nat j)) as [Hij|].
      { pose proof (Habove _ _ Hj' Hij) as Hx. change (key_bwd (strip e')) with (key_bwd e') in Hx. pose proof (prefixb_lexle _ _ Hp). congruence. }
      rewrite znth_lookup in He by lia. destruct (decide (i = Z.of_nat j)) as [->|].
      { rewrite Nat2Z.id, Hj in He. injection He as ->. apply lexle_refl. }
      apply lexle_total. pose proof (keys_sorted_lt key_bwd (strip <$> v) j (Z.to_nat i) (strip e') (strip e) Hs ltac:(lia)) as Hx.
      rewrite !list_lookup_fmap, Hj, He in Hx. by apply Hx. }
    pose proof (lexle_between T (key_bwd e') T (key_bwd e) Hl Hle) as Hb2. rewrite (proj1 (lcp_prefix _ _) Hp), lcp_refl in Hb2. lia.
  - cbn [among_chain]. rewrite He. cbn [mbind option_bind]. rewrite Z.geb_leb.
    assert (0 < s_size e). { rewrite (entry_size v n Hv e Hin). destruct (key_bwd e); [done|rewrite zlen_cons; pose proof (zlen_nonneg l); lia]. }
    rewrite (proj2 (Z.leb_gt _ _)) by lia. destruct (chain_next v n Hv 0 e He Hin) as [_ Hn2].
    assert (substring_i e < 0) as Hneg.
    { zcase (substring_i e <? 0); [done|]. destruct Hn2 as (s & Hs' & _ & ?); [lia|]. apply znth_Some in Hs'. lia. }
    rewrite (proj2 (Z.ltb_lt _ _) Hneg). eexists _, _. split; [done|].
    assert (Hno : forall e', ~ matching v T e').
    { intros e' [He' Hp]. apply list_elem_of_lookup_1 in He' as [j Hj]. pose proof (prefixb_lexle _ _ Hp) as Hpl.
      rewrite znth_lookup in He by lia. change (Z.to_nat 0) with 0%nat in He.
      destruct j as [|j]; [rewrite Hj in He; congruence|].
      pose proof (keys_sorted_lt key_bwd (strip <$> v) 0 (S j) (strip e) (strip e') Hs ltac:(lia)) as Hx.
      rewrite !list_lookup_fmap, Hj, He in Hx. specialize (Hx eq_refl eq_refl). apply lexle_total in Hx.
      pose proof (lexle_trans _ _ _ Hx Hpl). change (key_bwd (strip e)) with (key_bwd e) in *. congruence. }
    left. split_and!; [done|by exists (sn_c z)|done|]. intros e' Hm. by destruct (Hno e').
Qed.

Definition octets_before : cfunc := fun z => Some (if sn_c z >? 1 then 1 else 0, set_c (sn_c z - 1) z).

(** The longer entry asks for two octets in front of it, the shorter one does not. *)
Definition ab_table : list among :=
  [ mk_among 1 (str "b") (-1) 1 None; mk_among 2 (str "ab") 0 2 (Some octets_before); mk_among 1 (str "d") (-1) 3 None ].

(** "ab" at the start: the condition of the longest entry fails and the result
    is that of the shorter one. *)
Lemma find_among_b_longest_witness : exists z', find_among_b ab_table 3 abcd_env = Some (1, z') /\ z' = set_c 1 abcd_env.
Proof.
  destruct (find_among_b_longest 5 (str "abcd") abcd_env ab_table 3) as (r & z' & E & H);
    [exact abcd_holds|unfold cursor; cbn; lia|vm_compute; reflexivity| |].
  - intros e f [He _] Ef. unfold ab_table in He. rewrite !elem_of_cons in He.
    destruct He as [-> |[-> |[-> |He]]]; [discriminate Ef| |discriminate Ef|by apply elem_of_nil in He].
    injection Ef as <-. eexists _, _. reflexivity.
  - vm_compute in E. injection E as <- <-. exists (set_c 1 abcd_env). split; reflexivity.
Defined.


(** The forward search [find_among] in a table without conditions finds the
    longest entry that starts at the cursor. *)
Theorem find_among_longest k w z v n :
  holds k w z -> cursor z -> table_ok key_fwd v n = true ->
  exists r z', find_among v n z = Some (r, z') /\
    ((r = 0 /\ z' = z
      /\ forall e, e ∈ v -> prefixb (s_key e) (zseg (sn_c z) (sn_l z) w) = false)
     \/ exists e, e ∈ v /\ prefixb (s_key e) (zseg (sn_c z) (sn_l z) w) = true
        /\ r = result e /\ z' = set_c (sn_c z + s_size e) z
        /\ forall e', e' ∈ v -> prefixb (s_key e') (zseg (sn_c z) (sn_l z) w) = true ->
             s_size e' <= s_size e).
Proof.
  intros Hw Hc Hv. destruct (find_among_ok k w z v n Hw Hc Hv) as (r & z' & He & Hp).
  exists r, z'. split; [done|]. destruct Hp as [?|(e & Hl & -> & ->)]; [by left|right]. exists e.
  pose proof Hl as (? & ? & _). split_and!; try done; try (f_equal; lia).
  intros e' He' Hp'. by eapply (longest_size key_fwd).
Qed.

Definition cd_table : list among :=
  [ mk_among 1 (str "c") (-1) 1 None; mk_among 2 (str "cd") 0 2 None; mk_among 2 (str "ce") 0 3 None ].

Lemma find_among_longest_witness :
  exists r z', find_among cd_table 3 abcd_env = Some (r, z') /\
    ((r = 0 /\ z' = abcd_env /\ forall e, e ∈ cd_table -> prefixb (s_key e) (str "cd") = false)
     \/ exists e, e ∈ cd_table /\ prefixb (s_key e) (str "cd") = true
        /\ r = result e /\ z' = set_c (2 + s_size e) abcd_env
        /\ forall e', e' ∈ cd_table -> prefixb (s_key e') (str "cd") = true -> s_size e' <= s_size e).
Proof.
  refine (find_among_longest 5 (str "abcd") abcd_env cd_table 3 abcd_holds _ _).
  - unfold cursor. cbn. lia.
  - vm_compute. reflexivity.
Defined.

(** [get_utf8] decodes: where the word has the UTF-8 form of a code point
    below U+10000 at [c], it returns that code point and its width. *)
Theorem get_utf8_decodes k w z c cp :
  holds k w z -> 0 <= cp < 65536 -> 0 <= c -> c + zlen (utf8_encode cp) <= zlen w ->
  zseg c (c + zlen (utf8_encode cp)) w = utf8_encode cp ->
  get_utf8 z c (sn_l z) = Some (zlen (utf8_encode cp), cp).
Proof.
  intros Hw Hcp Hc Hl Hs. pose proof (utf8_encode_len cp). pose proof (holds_l _ _ _ Hw) as Hlz.
  rewrite <- (decode_fwd_encode cp Hcp).
  assert (forall i b, utf8_encode cp !! i = Some b -> rd z (c + Z.of_nat i) = Some b) as Hrd.
  { intros i b. by apply (rd_seg k w z c (utf8_encode cp)). }
  revert H Hl Hrd. destruct (utf8_encode cp) as [|b0 [|b1 [|b2 [|]]]] eqn:E;
    unfold zlen in *; cbn [length]; intros Hn Hl Hrd; try lia;
    pose proof (Hrd 0%nat b0 eq_refl) as H0; rewrite Z.add_0_r in H0.
  all: unfold get_utf8; rewrite Z.geb_leb, (proj2 (Z.leb_gt _ _)) by lia; rewrite H0; cbn [mbind option_bind].
  all: pose proof (decode_fwd_encode cp Hcp) as Hd; rewrite E in Hd; cbn [decode_fwd] in Hd |- *.
  - destruct (b0 <? 192); [done|discriminate Hd].
  - rewrite (Hrd 1%nat b1 eq_refl : rd z (c + 1) = _). destruct (b0 <? 192); [done|].
    rewrite (proj2 (Z.eqb_neq (c + 1) _)) by lia. cbn [orb mbind option_bind].
    destruct (b0 <? 224); [done|discriminate Hd].
  - rewrite (Hrd 1%nat b1 eq_refl : rd z (c + 1) = _). destruct (b0 <? 192); [done|].
    rewrite (proj2 (Z.eqb_neq (c + 1) _)) by lia. cbn [orb mbind option_bind].
    destruct (b0 <? 224); [done|]. rewrite (proj2 (Z.eqb_neq (c + 1 + 1) _)) by lia. cbn [orb].
    replace (c + 1 + 1) with (c + Z.of_nat 2) by lia. by rewrite (Hrd 2%nat b2 eq_refl).
Qed.

Definition utf8_env : SN_env :=
  mk_SN_env (Some (mk_sbuf 9 5 ((Some <$> [97; 225; 136; 180]) ++ replicate 6 None))) 4 4 0 0 0 [] [] [].

Lemma utf8_env_holds : holds 9 [97; 225; 136; 180] utf8_env.
Proof. exists (replicate 6 None). unfold INT_MAX. cbn. split_and!; try done. repeat constructor; done. Qed.

Lemma get_utf8_decodes_witness : get_utf8 utf8_env 1 4 = Some (3, 4660).
Proof.
  refine (get_utf8_decodes 9 [97; 225; 136; 180] utf8_env 1 4660 utf8_env_holds _ _ _ _);
    (reflexivity || (cbn; lia)).
Defined.


