(* ===== verification/Porter.v ===== *)
(** * The Porter stemmer on UTF-8: [src_c/stem_UTF_8_porter.c]

    The generated C, statement for statement: its [among] tables, its
    routines [r_*] and [porter_UTF_8_stem]; and the proof that stemming is
    free of undefined behaviour, terminates and never lengthens the word. *)

From S2P Require Import Prelude SnEnv SnRuntime SnSpec SnAmong SnCode SnLoops.

Open Scope sn_scope.

(** ** Tables *)
Definition a_0 : list among :=
  [ mk_among 1 (str "s") (-1) 3 None; mk_among 3 (str "ies") 0 2 None;
    mk_among 4 (str "sses") 0 1 None; mk_among 2 (str "ss") 0 (-1) None ].

Definition a_1 : list among :=
  [ mk_among 0 [] (-1) 3 None; mk_among 2 (str "bb") 0 2 None; mk_among 2 (str "dd") 0 2 None;
    mk_among 2 (str "ff") 0 2 None; mk_among 2 (str "gg") 0 2 None;
    mk_among 2 (str "bl") 0 1 None; mk_among 2 (str "mm") 0 2 None;
    mk_among 2 (str "nn") 0 2 None; mk_among 2 (str "pp") 0 2 None;
    mk_among 2 (str "rr") 0 2 None; mk_among 2 (str "at") 0 1 None;
    mk_among 2 (str "tt") 0 2 None; mk_among 2 (str "iz") 0 1 None ].

Definition a_2 : list among :=
  [ mk_among 2 (str "ed") (-1) 2 None; mk_among 3 (str "eed") 0 1 None;
    mk_among 3 (str "ing") (-1) 2 None ].

Definition a_3 : list among :=
  [ mk_among 4 (str "anci") (-1) 3 None; mk_among 4 (str "enci") (-1) 2 None;
    mk_among 4 (str "abli") (-1) 4 None; mk_among 3 (str "eli") (-1) 6 None;
    mk_among 4 (str "alli") (-1) 9 None; mk_among 5 (str "ousli") (-1) 12 None;
    mk_among 5 (str "entli") (-1) 5 None; mk_among 5 (str "aliti") (-1) 10 None;
    mk_among 6 (str "biliti") (-1) 14 None; mk_among 5 (str "iviti") (-1) 13 None;
    mk_among 6 (str "tional") (-1) 1 None; mk_among 7 (str "ational") 10 8 None;
    mk_among 5 (str "alism") (-1) 10 None; mk_among 5 (str "ation") (-1) 8 None;
    mk_among 7 (str "ization") 13 7 None; mk_among 4 (str "izer") (-1) 7 None;
    mk_among 4 (str "ator") (-1) 8 None; mk_among 7 (str "iveness") (-1) 13 None;
    mk_among 7 (str "fulness") (-1) 11 None; mk_among 7 (str "ousness") (-1) 12 None ].

Definition a_4 : list among :=
  [ mk_among 5 (str "icate") (-1) 2 None; mk_among 5 (str "ative") (-1) 3 None;
    mk_among 5 (str "alize") (-1) 1 None; mk_among 5 (str "iciti") (-1) 2 None;
    mk_among 4 (str "ical") (-1) 2 None; mk_among 3 (str "ful") (-1) 3 None;
    mk_among 4 (str "ness") (-1) 3 None ].

Definition a_5 : list among :=
  [ mk_among 2 (str "ic") (-1) 1 None; mk_among 4 (str "ance") (-1) 1 None;
    mk_among 4 (str "ence") (-1) 1 None; mk_among 4 (str "able") (-1) 1 None;
    mk_among 4 (str "ible") (-1) 1 None; mk_among 3 (str "ate") (-1) 1 None;
    mk_among 3 (str "ive") (-1) 1 None; mk_among 3 (str "ize") (-1) 1 None;
    mk_among 3 (str "iti") (-1) 1 None; mk_among 2 (str "al") (-1) 1 None;
    mk_among 3 (str "ism") (-1) 1 None; mk_among 3 (str "ion") (-1) 2 None;
    mk_among 2 (str "er") (-1) 1 None; mk_among 3 (str "ous") (-1) 1 None;
    mk_among 3 (str "ant") (-1) 1 None; mk_among 3 (str "ent") (-1) 1 None;
    mk_among 4 (str "ment") 15 1 None; mk_among 5 (str "ement") 16 1 None;
    mk_among 2 (str "ou") (-1) 1 None ].

Definition g_v : list Z := [17; 65; 16; 1].

Definition g_v_WXY : list Z := [1; 17; 65; 208; 1].

Definition s_0 : list Z := str "ss".
Definition s_1 : list Z := str "i".
Definition s_2 : list Z := str "ee".
Definition s_3 : list Z := str "e".
Definition s_4 : list Z := str "e".
Definition s_5 : list Z := str "y".
Definition s_6 : list Z := str "Y".
Definition s_7 : list Z := str "i".
Definition s_8 : list Z := str "tion".
Definition s_9 : list Z := str "ence".
Definition s_10 : list Z := str "ance".
Definition s_11 : list Z := str "able".
Definition s_12 : list Z := str "ent".
Definition s_13 : list Z := str "e".
Definition s_14 : list Z := str "ize".
Definition s_15 : list Z := str "ate".
Definition s_16 : list Z := str "al".
Definition s_17 : list Z := str "al".
Definition s_18 : list Z := str "ful".
Definition s_19 : list Z := str "ous".
Definition s_20 : list Z := str "ive".
Definition s_21 : list Z := str "ble".
Definition s_22 : list Z := str "al".
Definition s_23 : list Z := str "ic".
Definition s_24 : list Z := str "s".
Definition s_25 : list Z := str "t".
Definition s_26 : list Z := str "e".
Definition s_27 : list Z := str "l".
Definition s_28 : list Z := str "l".
Definition s_29 : list Z := str "y".
Definition s_30 : list Z := str "Y".
Definition s_31 : list Z := str "y".
Definition s_32 : list Z := str "Y".
Definition s_33 : list Z := str "Y".
Definition s_34 : list Z := str "y".

(** ** Routines *)
Section Routines.
Context `{CHeap}.

Definition r_shortv : cfunc := cfun (
  if_call (out_grouping_b_U g_v_WXY 89 121 0) (creturn 0) ;;
  if_call (in_grouping_b_U g_v 97 121 0) (creturn 0) ;;
  if_call (out_grouping_b_U g_v 97 121 0) (creturn 0) ;;
  creturn 1).

Definition r_R1 : cfunc := cfun (
  i <- get_I 0 ;; c <- get sn_c ;;
  when (negb (i <=? c)) (creturn 0) ;;
  creturn 1).

Definition r_R2 : cfunc := cfun (
  i <- get_I 1 ;; c <- get sn_c ;;
  when (negb (i <=? c)) (creturn 0) ;;
  creturn 1).

Definition r_Step_1a : cfunc := cfun (
  ket_c ;;
  b <- pre_b 0 (fun ch => negb (ch =? 115)) ;;
  when b (creturn 0) ;;
  among_var <- call (find_among_b a_0 4) ;;
  when (among_var =? 0) (creturn 0) ;;
  bra_c ;;
  switch among_var
    [ (0, creturn 0);
      (1, checked (slice_from_s 2 (sy s_0)));
      (2, checked (slice_from_s 1 (sy s_1)));
      (3, checked slice_del) ] ;;
  creturn 1).

Definition r_Step_1b : cfunc := cfun (
  ket_c ;;
  b <- pre_b 1 (fun ch => negb (ch =? 100) && negb (ch =? 103)) ;;
  when b (creturn 0) ;;
  among_var <- call (find_among_b a_2 3) ;;
  when (among_var =? 0) (creturn 0) ;;
  bra_c ;;
  switch among_var
    [ (0, creturn 0);
      (1, routine r_R1 (creturn 0) ;;
          checked (slice_from_s 2 (sy s_2)));
      (2, m_test <- get_m ;;
          gopast_b (out_grouping_b_U g_v 97 121 1) (creturn 0) ;;
          c_from_l m_test ;;
          checked slice_del ;;
          m_test <- get_m ;;
          b <- pre_b 1 (not_masked 3 68514004) ;;
          among_var <- (if b : bool then ret 3 else call (find_among_b a_1 13)) ;;
          when (among_var =? 0) (creturn 0) ;;
          c_from_l m_test ;;
          switch among_var
            [ (0, creturn 0);
              (1, insert_here 1 s_3);
              (2, ket_c ;;
                  prev_utf8 1 (creturn 0) ;;
                  bra_c ;;
                  checked slice_del);
              (3, i <- get_I 0 ;; c <- get sn_c ;;
                  when (negb (c =? i)) (creturn 0) ;;
                  m_test <- get_m ;;
                  routine r_shortv (creturn 0) ;;
                  c_from_l m_test ;;
                  insert_here 1 s_4) ]) ] ;;
  creturn 1).

Definition r_Step_1c : cfunc := cfun (
  ket_c ;;
  label 0 (
    m1 <- get_m ;;
    label 1 (
      unless_call (eq_s_b 1 (sy s_5)) (goto 1) ;;
      goto 0) ;;
    c_from_l m1 ;;
    unless_call (eq_s_b 1 (sy s_6)) (creturn 0)) ;;
  bra_c ;;
  gopast_b (out_grouping_b_U g_v 97 121 1) (creturn 0) ;;
  checked (slice_from_s 1 (sy s_7)) ;;
  creturn 1).

Definition r_Step_2 : cfunc := cfun (
  ket_c ;;
  b <- pre_b 2 (not_masked 3 815616) ;;
  when b (creturn 0) ;;
  among_var <- call (find_among_b a_3 20) ;;
  when (among_var =? 0) (creturn 0) ;;
  bra_c ;;
  routine r_R1 (creturn 0) ;;
  switch among_var
    [ (0, creturn 0);
      (1, checked (slice_from_s 4 (sy s_8)));
      (2, checked (slice_from_s 4 (sy s_9)));
      (3, checked (slice_from_s 4 (sy s_10)));
      (4, checked (slice_from_s 4 (sy s_11)));
      (5, checked (slice_from_s 3 (sy s_12)));
      (6, checked (slice_from_s 1 (sy s_13)));
      (7, checked (slice_from_s 3 (sy s_14)));
      (8, checked (slice_from_s 3 (sy s_15)));
      (9, checked (slice_from_s 2 (sy s_16)));
      (10, checked (slice_from_s 2 (sy s_17)));
      (11, checked (slice_from_s 3 (sy s_18)));
      (12, checked (slice_from_s 3 (sy s_19)));
      (13, checked (slice_from_s 3 (sy s_20)));
      (14, checked (slice_from_s 3 (sy s_21))) ] ;;
  creturn 1).

Definition r_Step_3 : cfunc := cfun (
  ket_c ;;
  b <- pre_b 2 (not_masked 3 528928) ;;
  when b (creturn 0) ;;
  among_var <- call (find_among_b a_4 7) ;;
  when (among_var =? 0) (creturn 0) ;;
  bra_c ;;
  routine r_R1 (creturn 0) ;;
  switch among_var
    [ (0, creturn 0);
      (1, checked (slice_from_s 2 (sy s_22)));
      (2, checked (slice_from_s 2 (sy s_23)));
      (3, checked slice_del) ] ;;
  creturn 1).

Definition r_Step_4 : cfunc := cfun (
  ket_c ;;
  b <- pre_b 1 (not_masked 3 3961384) ;;
  when b (creturn 0) ;;
  among_var <- call (find_among_b a_5 19) ;;
  when (among_var =? 0) (creturn 0) ;;
  bra_c ;;
  routine r_R2 (creturn 0) ;;
  switch among_var
    [ (0, creturn 0);
      (1, checked slice_del);
      (2, label 0 (
            m1 <- get_m ;;
            label 1 (
              unless_call (eq_s_b 1 (sy s_24)) (goto 1) ;;
              goto 0) ;;
            c_from_l m1 ;;
            unless_call (eq_s_b 1 (sy s_25)) (creturn 0)) ;;
          checked slice_del) ] ;;
  creturn 1).

Definition r_Step_5a : cfunc := cfun (
  ket_c ;;
  unless_call (eq_s_b 1 (sy s_26)) (creturn 0) ;;
  bra_c ;;
  label 0 (
    m1 <- get_m ;;
    label 1 (
      routine r_R2 (goto 1) ;;
      goto 0) ;;
    c_from_l m1 ;;
    routine r_R1 (creturn 0) ;;
    m2 <- get_m ;;
    label 2 (
      routine r_shortv (goto 2) ;;
      creturn 0) ;;
    c_from_l m2) ;;
  checked slice_del ;;
  creturn 1).

Definition r_Step_5b : cfunc := cfun (
  ket_c ;;
  unless_call (eq_s_b 1 (sy s_27)) (creturn 0) ;;
  bra_c ;;
  routine r_R2 (creturn 0) ;;
  unless_call (eq_s_b 1 (sy s_28)) (creturn 0) ;;
  checked slice_del ;;
  creturn 1).

(** [while(1) { /* goto, line 117 */ ... }]: to a vowel followed by "y". *)
Definition goto_y : M unit := loop (
  c4 <- get sn_c ;;
  label 3 (
    if_call (in_grouping_U g_v 97 121 0) (goto 3) ;;
    bra_c ;;
    unless_call (eq_s 1 (sy s_31)) (goto 3) ;;
    ket_c ;;
    c_is c4 ;;
    brk) ;;
  c_is c4 ;;
  next_utf8 1 (goto 2)).

(** "y" at the start and after a vowel becomes "Y". *)
Definition mark_Y : M unit :=
  put_B 0 0 ;;
  (c1 <- get sn_c ;;
   label 0 (
     bra_c ;;
     unless_call (eq_s 1 (sy s_29)) (goto 0) ;;
     ket_c ;;
     checked (slice_from_s 1 (sy s_30)) ;;
     put_B 0 1) ;;
   c_is c1) ;;
  (c2 <- get sn_c ;;
   loop (
     c3 <- get sn_c ;;
     label 2 (
       goto_y ;;
       checked (slice_from_s 1 (sy s_32)) ;;
       put_B 0 1 ;;
       cont) ;;
     c_is c3 ;;
     brk) ;;
   c_is c2).

(** The regions R1 and R2. *)
Definition mark_regions : M unit :=
  l <- get sn_l ;; put_I 0 l ;;
  l <- get sn_l ;; put_I 1 l ;;
  (c5 <- get sn_c ;;
   label 4 (
     gopast (out_grouping_U g_v 97 121 1) (goto 4) ;;
     gopast (in_grouping_U g_v 97 121 1) (goto 4) ;;
     (c <- get sn_c ;; put_I 0 c) ;;
     gopast (out_grouping_U g_v 97 121 1) (goto 4) ;;
     gopast (in_grouping_U g_v 97 121 1) (goto 4) ;;
     (c <- get sn_c ;; put_I 1 c)) ;;
   c_is c5).

(** The suffix steps, right to left. *)
Definition suffix_steps : M unit :=
  put (fun z => set_lb (sn_c z) z) ;;
  put (fun z => set_c (sn_l z) z) ;;
  do_b 5 r_Step_1a ;;
  do_b 6 r_Step_1b ;;
  do_b 7 r_Step_1c ;;
  do_b 8 r_Step_2 ;;
  do_b 9 r_Step_3 ;;
  do_b 10 r_Step_4 ;;
  do_b 11 r_Step_5a ;;
  do_b 12 r_Step_5b ;;
  put (fun z => set_c (sn_lb z) z).

(** [while(1) { /* goto, line 137 */ ... }]: to the next "Y". *)
Definition goto_Y : M unit := loop (
  c16 <- get sn_c ;;
  label 15 (
    bra_c ;;
    unless_call (eq_s 1 (sy s_33)) (goto 15) ;;
    ket_c ;;
    c_is c16 ;;
    brk) ;;
  c_is c16 ;;
  next_utf8 1 (goto 14)).

(** "Y" becomes "y" again. *)
Definition unmark_Y : M unit :=
  c14 <- get sn_c ;;
  label 13 (
    (y <- get_B 0 ;; when (y =? 0) (goto 13)) ;;
    loop (
      c15 <- get sn_c ;;
      label 14 (
        goto_Y ;;
        checked (slice_from_s 1 (sy s_34)) ;;
        cont) ;;
      c_is c15 ;;
      brk)) ;;
  c_is c14.

Definition porter_UTF_8_stem : cfunc := cfun (
  mark_Y ;;
  mark_regions ;;
  suffix_steps ;;
  unmark_Y ;;
  creturn 1).

Definition porter_UTF_8_create_env : option (option SN_env) := SN_create_env 0 2 1.
Definition porter_UTF_8_close_env (z : option SN_env) : option unit := SN_close_env z 0.
End Routines.

(** ** Safety of every routine *)
Section Safety.
Context `{CHeap} (k L : Z).
Abbreviation St := (st k L 2 1).
Abbreviation step_ok := (step_ok k L 2 1).
Abbreviation scan_post := (scan_post k L 2 1).

Lemma r_shortv_ok w z : St w z ->
  returns r_shortv z (fun v z' => 0 <= v /\ exists c, z' = set_c c z /\ St w z').
Proof.
  intros S. unfold r_shortv. repeat wp_step; (split; [lia|]); eexists; (split; [|st_solve]); done.
Qed.

Lemma r_R1_ok w z : St w z -> returns r_R1 z (fun v z' => 0 <= v /\ z' = z).
Proof. intros S. unfold r_R1. repeat wp_step; split; (done || lia). Qed.

Lemma r_R2_ok w z : St w z -> returns r_R2 z (fun v z' => 0 <= v /\ z' = z).
Proof. intros S. unfold r_R2. repeat wp_step; split; (done || lia). Qed.

Ltac routine_rule ::=
  lazymatch goal with
  | |- returns r_R1 _ _ => eapply returns_mono; [eapply r_R1_ok; st_solve|intros ? ? (? & ->)]
  | |- returns r_R2 _ _ => eapply returns_mono; [eapply r_R2_ok; st_solve|intros ? ? (? & ->)]
  | |- returns r_shortv _ _ =>
      eapply returns_mono; [eapply r_shortv_ok; st_solve|intros ? ? (? & ? & -> & ?)]
  end.

Lemma r_Step_1a_ok : step_ok r_Step_1a.
Proof. intros w z S. unfold r_Step_1a. repeat wp_step; step_done. Qed.

Lemma r_Step_1c_ok : step_ok r_Step_1c.
Proof. intros w z S. unfold r_Step_1c. repeat wp_step; step_done. Qed.

Lemma r_Step_2_ok : step_ok r_Step_2.
Proof. intros w z S. unfold r_Step_2. repeat wp_step; step_done. Qed.

Lemma r_Step_3_ok : step_ok r_Step_3.
Proof. intros w z S. unfold r_Step_3. repeat wp_step; step_done. Qed.

Lemma r_Step_4_ok : step_ok r_Step_4.
Proof. intros w z S. unfold r_Step_4. repeat wp_step; step_done. Qed.

Lemma r_Step_5a_ok : step_ok r_Step_5a.
Proof. intros w z S. unfold r_Step_5a. repeat wp_step; step_done. Qed.

Lemma r_Step_5b_ok : step_ok r_Step_5b.
Proof. intros w z S. unfold r_Step_5b. repeat wp_step; step_done. Qed.

Lemma r_Step_1b_ok : step_ok r_Step_1b.
Proof. intros w z S. unfold r_Step_1b. repeat wp_step; step_done. Qed.

Ltac next_step H := apply wp_bind; eapply (do_b_ok k L 2 1 _ _ H);
  [st_solve|sn_cbn; congruence|intros ? ? ? ? ?].

Lemma suffix_steps_ok w z Q :
  St w z -> (forall w' z', St w' z' -> sn_lb z' = sn_c z -> sn_c z' = sn_c z -> Q (Next tt) z') ->
  wp suffix_steps Q z.
Proof.
  intros S HQ. unfold suffix_steps. do 4 wp_step.
  next_step r_Step_1a_ok. next_step r_Step_1b_ok. next_step r_Step_1c_ok. next_step r_Step_2_ok.
  next_step r_Step_3_ok. next_step r_Step_4_ok. next_step r_Step_5a_ok. next_step r_Step_5b_ok.
  apply wp_put. eapply HQ; [st_solve|sn_cbn; congruence|sn_cbn; congruence].
Qed.

Lemma goto_y_ok w z : St w z -> wp goto_y (scan_post 121 2 w z) z.
Proof.
  intros S. apply scan_loop; [done|]. intros z1 S1 Hlb. repeat wp_step; try done;
    try (split_and!; [st_solve|sn_cbn; congruence|try done; sn_lia]).
  all: split_and!; [st_solve|sn_cbn; congruence|sn_cbn; done|sn_lia..].
Qed.

Lemma goto_Y_ok w z : St w z -> wp goto_Y (scan_post 89 14 w z) z.
Proof.
  intros S. apply scan_loop; [done|]. intros z1 S1 Hlb. repeat wp_step; try done;
    try (split_and!; [st_solve|sn_cbn; congruence|try done; sn_lia]).
  all: split_and!; [st_solve|sn_cbn; congruence|sn_cbn; done|sn_lia..].
Qed.
Lemma mark_Y_ok w z Q :
  St w z ->
  (forall w' z', St w' z' -> sn_c z' = sn_c z -> sn_lb z' = sn_lb z -> Q (Next tt) z') ->
  wp mark_Y Q z.
Proof.
  intros S HQ. unfold mark_Y. apply wp_bind. wp_step. apply wp_bind. cbn beta iota.
  apply wp_mono with (fun f z' => f = Next tt /\ exists w', St w' z' /\ sn_c z' = sn_c z
                                   /\ sn_lb z' = sn_lb z).
  { repeat wp_step; (split; [done|]); eexists; (split; [st_solve|sn_lia]). }
  intros f z1 (-> & w1 & S1 & Hc & Hlb). do 3 wp_step.
  apply (mark_loop_ok k L 2 1 121 89 2 goto_y (put_B 0 1 ;; cont) w1); try done.
  - apply goto_y_ok.
  - intros w2 z2 Q2 S2 HQ2. repeat wp_step. by apply HQ2.
  - intros w2 z2 S2 Hl2 Hlb2. repeat wp_step. eapply HQ; [st_solve|sn_cbn; congruence..].
Qed.

Lemma mark_regions_ok w z Q :
  St w z ->
  (forall z', St w z' -> sn_c z' = sn_c z -> sn_lb z' = sn_lb z -> Q (Next tt) z') ->
  wp mark_regions Q z.
Proof.
  intros S HQ. unfold mark_regions.
  repeat wp_step; (apply HQ; [st_solve|sn_cbn; congruence..]).
Qed.

Lemma unmark_Y_ok w z Q :
  St w z -> (forall w' z', St w' z' -> sn_lb z' = sn_lb z -> Q (Next tt) z') -> wp unmark_Y Q z.
Proof.
  intros S HQ. unfold unmark_Y.
  apply wp_bind, wp_get, wp_bind, wp_label, wp_bind. cbn beta iota. do 2 wp_step. unfold when.
  zcase (x =? 0); repeat wp_step1.
  - repeat wp_step. eapply HQ; [st_solve|done].
  - apply (mark_loop_ok k L 2 1 89 121 14 goto_Y cont w); try done.
    + apply goto_Y_ok.
    + intros w2 z2 Q2 S2 HQ2. repeat wp_step. by apply HQ2.
    + intros w2 z2 S2 Hl2 Hlb2. repeat wp_step. eapply HQ; [st_solve|sn_cbn; congruence].
Qed.

(** The stemmer returns 1 from every state with a word in the buffer, and
    leaves the lower limit where the cursor was. *)
Lemma stem_ok w z : St w z ->
  returns porter_UTF_8_stem z (fun v z' => v = 1 /\ exists w', St w' z' /\ sn_lb z' = sn_c z).
Proof.
  intros S. unfold porter_UTF_8_stem. apply wp_cfun.
  apply wp_bind, (mark_Y_ok w); [done|]. intros w1 z1 S1 Hc1 _.
  apply wp_bind, (mark_regions_ok w1); [done|]. intros z2 S2 Hc2 _.
  apply wp_bind, (suffix_steps_ok w1); [done|]. intros w3 z3 S3 Hlb3 _.
  apply wp_bind, (unmark_Y_ok w3); [done|]. intros w4 z4 S4 Hlb4.
  repeat wp_step. split; [done|]. exists w4. split; [done|congruence].
Qed.
End Safety.
