(* ===== verification/English.v ===== *)
(** * The English stemmer on UTF-8: [src_c/stem_UTF_8_english.c]

    The generated C, statement for statement, and the proof that stemming is
    free of undefined behaviour, terminates and never lengthens the word. *)

From S2P Require Import Prelude SnEnv SnRuntime SnSpec SnAmong SnCode SnLoops.

Open Scope sn_scope.

(** ** Tables *)
Definition a_0 : list among :=
  [ mk_among 5 (str "arsen") (-1) (-1) None; mk_among 6 (str "commun") (-1) (-1) None;
    mk_among 5 (str "gener") (-1) (-1) None ].

Definition a_1 : list among :=
  [ mk_among 1 ([39]) (-1) 1 None; mk_among 3 ([39; 115; 39]) 0 1 None;
    mk_among 2 ([39; 115]) (-1) 1 None ].

Definition a_2 : list among :=
  [ mk_among 3 (str "ied") (-1) 2 None; mk_among 1 (str "s") (-1) 3 None;
    mk_among 3 (str "ies") 1 2 None; mk_among 4 (str "sses") 1 1 None;
    mk_among 2 (str "ss") 1 (-1) None; mk_among 2 (str "us") 1 (-1) None ].

Definition a_3 : list among :=
  [ mk_among 0 [] (-1) 3 None; mk_among 2 (str "bb") 0 2 None; mk_among 2 (str "dd") 0 2 None;
    mk_among 2 (str "ff") 0 2 None; mk_among 2 (str "gg") 0 2 None;
    mk_among 2 (str "bl") 0 1 None; mk_among 2 (str "mm") 0 2 None;
    mk_among 2 (str "nn") 0 2 None; mk_among 2 (str "pp") 0 2 None;
    mk_among 2 (str "rr") 0 2 None; mk_among 2 (str "at") 0 1 None;
    mk_among 2 (str "tt") 0 2 None; mk_among 2 (str "iz") 0 1 None ].

Definition a_4 : list among :=
  [ mk_among 2 (str "ed") (-1) 2 None; mk_among 3 (str "eed") 0 1 None;
    mk_among 3 (str "ing") (-1) 2 None; mk_among 4 (str "edly") (-1) 2 None;
    mk_among 5 (str "eedly") 3 1 None; mk_among 5 (str "ingly") (-1) 2 None ].

Definition a_5 : list among :=
  [ mk_among 4 (str "anci") (-1) 3 None; mk_among 4 (str "enci") (-1) 2 None;
    mk_among 3 (str "ogi") (-1) 13 None; mk_among 2 (str "li") (-1) 16 None;
    mk_among 3 (str "bli") 3 12 None; mk_among 4 (str "abli") 4 4 None;
    mk_among 4 (str "alli") 3 8 None; mk_among 5 (str "fulli") 3 14 None;
    mk_among 6 (str "lessli") 3 15 None; mk_among 5 (str "ousli") 3 10 None;
    mk_among 5 (str "entli") 3 5 None; mk_among 5 (str "aliti") (-1) 8 None;
    mk_among 6 (str "biliti") (-1) 12 None; mk_among 5 (str "iviti") (-1) 11 None;
    mk_among 6 (str "tional") (-1) 1 None; mk_among 7 (str "ational") 14 7 None;
    mk_among 5 (str "alism") (-1) 8 None; mk_among 5 (str "ation") (-1) 7 None;
    mk_among 7 (str "ization") 17 6 None; mk_among 4 (str "izer") (-1) 6 None;
    mk_among 4 (str "ator") (-1) 7 None; mk_among 7 (str "iveness") (-1) 11 None;
    mk_among 7 (str "fulness") (-1) 9 None; mk_among 7 (str "ousness") (-1) 10 None ].

Definition a_6 : list among :=
  [ mk_among 5 (str "icate") (-1) 4 None; mk_among 5 (str "ative") (-1) 6 None;
    mk_among 5 (str "alize") (-1) 3 None; mk_among 5 (str "iciti") (-1) 4 None;
    mk_among 4 (str "ical") (-1) 4 None; mk_among 6 (str "tional") (-1) 1 None;
    mk_among 7 (str "ational") 5 2 None; mk_among 3 (str "ful") (-1) 5 None;
    mk_among 4 (str "ness") (-1) 5 None ].

Definition a_7 : list among :=
  [ mk_among 2 (str "ic") (-1) 1 None; mk_among 4 (str "ance") (-1) 1 None;
    mk_among 4 (str "ence") (-1) 1 None; mk_among 4 (str "able") (-1) 1 None;
    mk_among 4 (str "ible") (-1) 1 None; mk_among 3 (str "ate") (-1) 1 None;
    mk_among 3 (str "ive") (-1) 1 None; mk_among 3 (str "ize") (-1) 1 None;
    mk_among 3 (str "iti") (-1) 1 None; mk_among 2 (str "al") (-1) 1 None;
    mk_among 3 (str "ism") (-1) 1 None; mk_among 3 (str "ion") (-1) 2 None;
    mk_among 2 (str "er") (-1) 1 None; mk_among 3 (str "ous") (-1) 1 None;
    mk_among 3 (str "ant") (-1) 1 None; mk_among 3 (str "ent") (-1) 1 None;
    mk_among 4 (str "ment") 15 1 None; mk_among 5 (str "ement") 16 1 None ].

Definition a_8 : list among :=
  [ mk_among 1 (str "e") (-1) 1 None; mk_among 1 (str "l") (-1) 2 None ].

Definition a_9 : list among :=
  [ mk_among 7 (str "succeed") (-1) (-1) None; mk_among 7 (str "proceed") (-1) (-1) None;
    mk_among 6 (str "exceed") (-1) (-1) None; mk_among 7 (str "canning") (-1) (-1) None;
    mk_among 6 (str "inning") (-1) (-1) None; mk_among 7 (str "earring") (-1) (-1) None;
    mk_among 7 (str "herring") (-1) (-1) None; mk_among 6 (str "outing") (-1) (-1) None ].

Definition a_10 : list among :=
  [ mk_among 5 (str "andes") (-1) (-1) None; mk_among 5 (str "atlas") (-1) (-1) None;
    mk_among 4 (str "bias") (-1) (-1) None; mk_among 6 (str "cosmos") (-1) (-1) None;
    mk_among 5 (str "dying") (-1) 3 None; mk_among 5 (str "early") (-1) 9 None;
    mk_among 6 (str "gently") (-1) 7 None; mk_among 4 (str "howe") (-1) (-1) None;
    mk_among 4 (str "idly") (-1) 6 None; mk_among 5 (str "lying") (-1) 4 None;
    mk_among 4 (str "news") (-1) (-1) None; mk_among 4 (str "only") (-1) 10 None;
    mk_among 6 (str "singly") (-1) 11 None; mk_among 5 (str "skies") (-1) 2 None;
    mk_among 4 (str "skis") (-1) 1 None; mk_among 3 (str "sky") (-1) (-1) None;
    mk_among 5 (str "tying") (-1) 5 None; mk_among 4 (str "ugly") (-1) 8 None ].

Definition g_v : list Z := [17; 65; 16; 1].

Definition g_v_WXY : list Z := [1; 17; 65; 208; 1].

Definition g_valid_LI : list Z := [55; 141; 2].

Definition s_0 : list Z := [39].
Definition s_1 : list Z := str "y".
Definition s_2 : list Z := str "Y".
Definition s_3 : list Z := str "y".
Definition s_4 : list Z := str "Y".
Definition s_5 : list Z := str "ss".
Definition s_6 : list Z := str "i".
Definition s_7 : list Z := str "ie".
Definition s_8 : list Z := str "ee".
Definition s_9 : list Z := str "e".
Definition s_10 : list Z := str "e".
Definition s_11 : list Z := str "y".
Definition s_12 : list Z := str "Y".
Definition s_13 : list Z := str "i".
Definition s_14 : list Z := str "tion".
Definition s_15 : list Z := str "ence".
Definition s_16 : list Z := str "ance".
Definition s_17 : list Z := str "able".
Definition s_18 : list Z := str "ent".
Definition s_19 : list Z := str "ize".
Definition s_20 : list Z := str "ate".
Definition s_21 : list Z := str "al".
Definition s_22 : list Z := str "ful".
Definition s_23 : list Z := str "ous".
Definition s_24 : list Z := str "ive".
Definition s_25 : list Z := str "ble".
Definition s_26 : list Z := str "l".
Definition s_27 : list Z := str "og".
Definition s_28 : list Z := str "ful".
Definition s_29 : list Z := str "less".
Definition s_30 : list Z := str "tion".
Definition s_31 : list Z := str "ate".
Definition s_32 : list Z := str "al".
Definition s_33 : list Z := str "ic".
Definition s_34 : list Z := str "s".
Definition s_35 : list Z := str "t".
Definition s_36 : list Z := str "l".
Definition s_37 : list Z := str "ski".
Definition s_38 : list Z := str "sky".
Definition s_39 : list Z := str "die".
Definition s_40 : list Z := str "lie".
Definition s_41 : list Z := str "tie".
Definition s_42 : list Z := str "idl".
Definition s_43 : list Z := str "gentl".
Definition s_44 : list Z := str "ugli".
Definition s_45 : list Z := str "earli".
Definition s_46 : list Z := str "onli".
Definition s_47 : list Z := str "singl".
Definition s_48 : list Z := str "Y".
Definition s_49 : list Z := str "y".

(** ** Routines *)
Section Routines.
Context `{CHeap}.

Definition r_prelude : cfunc := cfun (
  put_B 0 0 ;;
  c1 <- get sn_c ;;
  bra_c ;;
  label 0 (
    unless_call (eq_s 1 (sy s_0)) (goto 0) ;;
    ket_c ;;
    checked slice_del) ;;
  c_is c1 ;;
  c2 <- get sn_c ;;
  bra_c ;;
  label 1 (
    unless_call (eq_s 1 (sy s_1)) (goto 1) ;;
    ket_c ;;
    checked (slice_from_s 1 (sy s_2)) ;;
    put_B 0 1) ;;
  c_is c2 ;;
  c3 <- get sn_c ;;
  loop (
    c4 <- get sn_c ;;
    label 3 (
      loop (
        c5 <- get sn_c ;;
        label 4 (
          if_call (in_grouping_U g_v 97 121 0) (goto 4) ;;
          bra_c ;;
          unless_call (eq_s 1 (sy s_3)) (goto 4) ;;
          ket_c ;;
          c_is c5 ;;
          brk) ;;
        c_is c5 ;;
        next_utf8 1 (goto 3)) ;;
      checked (slice_from_s 1 (sy s_4)) ;;
      put_B 0 1 ;;
      cont) ;;
    c_is c4 ;;
    brk) ;;
  c_is c3 ;;
  creturn 1).

Definition r_mark_regions : cfunc := cfun (
  l <- get sn_l ;;
  put_I 0 l ;;
  l <- get sn_l ;;
  put_I 1 l ;;
  c1 <- get sn_c ;;
  label 0 (
    label 1 (
      c2 <- get sn_c ;;
      label 2 (
        b <- pre_f 4 (not_masked 3 2375680) ;;
        when b (goto 2) ;;
        unless_call (find_among a_0 3) (goto 2) ;;
        goto 1) ;;
      c_is c2 ;;
      gopast (out_grouping_U g_v 97 121 1) (goto 0) ;;
      gopast (in_grouping_U g_v 97 121 1) (goto 0)) ;;
    c <- get sn_c ;;
    put_I 0 c ;;
    gopast (out_grouping_U g_v 97 121 1) (goto 0) ;;
    gopast (in_grouping_U g_v 97 121 1) (goto 0) ;;
    c <- get sn_c ;;
    put_I 1 c) ;;
  c_is c1 ;;
  creturn 1).

Definition r_shortv : cfunc := cfun (
  label 0 (
    m1 <- get_m ;;
    label 1 (
      if_call (out_grouping_b_U g_v_WXY 89 121 0) (goto 1) ;;
      if_call (in_grouping_b_U g_v 97 121 0) (goto 1) ;;
      if_call (out_grouping_b_U g_v 97 121 0) (goto 1) ;;
      goto 0) ;;
    c_from_l m1 ;;
    if_call (out_grouping_b_U g_v 97 121 0) (creturn 0) ;;
    if_call (in_grouping_b_U g_v 97 121 0) (creturn 0) ;;
    c <- get sn_c ;;
    lb <- get sn_lb ;;
    when (c >? lb) (creturn 0)) ;;
  creturn 1).

Definition r_R1 : cfunc := cfun (
  i <- get_I 0 ;;
  c <- get sn_c ;;
  when (negb (i <=? c)) (creturn 0) ;;
  creturn 1).

Definition r_R2 : cfunc := cfun (
  i <- get_I 1 ;;
  c <- get sn_c ;;
  when (negb (i <=? c)) (creturn 0) ;;
  creturn 1).

Definition r_Step_1a : cfunc := cfun (
  m_keep <- get_m ;;
  ket_c ;;
  label 0 (
    b <- pre_b 0 (fun ch => negb (ch =? 39) && negb (ch =? 115)) ;;
    when b (c_from_l m_keep ;; goto 0) ;;
    among_var <- call (find_among_b a_1 3) ;;
    when (among_var =? 0) (c_from_l m_keep ;; goto 0) ;;
    bra_c ;;
    switch among_var
      [ (0, c_from_l m_keep ;;
            goto 0);
        (1, checked slice_del) ]) ;;
  ket_c ;;
  b <- pre_b 0 (fun ch => negb (ch =? 100) && negb (ch =? 115)) ;;
  when b (creturn 0) ;;
  among_var <- call (find_among_b a_2 6) ;;
  when (among_var =? 0) (creturn 0) ;;
  bra_c ;;
  switch among_var
    [ (0, creturn 0);
      (1, checked (slice_from_s 2 (sy s_5)));
      (2, label 1 (
            m1 <- get_m ;;
            label 2 (
              hop_b 2 (goto 2) ;;
              checked (slice_from_s 1 (sy s_6)) ;;
              goto 1) ;;
            c_from_l m1 ;;
            checked (slice_from_s 2 (sy s_7))));
      (3, prev_utf8 1 (creturn 0) ;;
          gopast_b (out_grouping_b_U g_v 97 121 1) (creturn 0) ;;
          checked slice_del) ] ;;
  creturn 1).

Definition r_Step_1b : cfunc := cfun (
  ket_c ;;
  b <- pre_b 1 (not_masked 3 33554576) ;;
  when b (creturn 0) ;;
  among_var <- call (find_among_b a_4 6) ;;
  when (among_var =? 0) (creturn 0) ;;
  bra_c ;;
  switch among_var
    [ (0, creturn 0);
      (1, routine r_R1 (creturn 0) ;;
          checked (slice_from_s 2 (sy s_8)));
      (2, m_test <- get_m ;;
          gopast_b (out_grouping_b_U g_v 97 121 1) (creturn 0) ;;
          c_from_l m_test ;;
          checked slice_del ;;
          m_test <- get_m ;;
          b <- pre_b 1 (not_masked 3 68514004) ;;
          among_var <- (if b : bool then ret 3 else call (find_among_b a_3 13)) ;;
          when (among_var =? 0) (creturn 0) ;;
          c_from_l m_test ;;
          switch among_var
            [ (0, creturn 0);
              (1, insert_here 1 s_9);
              (2, ket_c ;;
                  prev_utf8 1 (creturn 0) ;;
                  bra_c ;;
                  checked slice_del);
              (3, i <- get_I 0 ;;
                  c <- get sn_c ;;
                  when (negb (c =? i)) (creturn 0) ;;
                  m_test <- get_m ;;
                  routine r_shortv (creturn 0) ;;
                  c_from_l m_test ;;
                  insert_here 1 s_10) ]) ] ;;
  creturn 1).

Definition r_Step_1c : cfunc := cfun (
  ket_c ;;
  label 0 (
    m1 <- get_m ;;
    label 1 (
      unless_call (eq_s_b 1 (sy s_11)) (goto 1) ;;
      goto 0) ;;
    c_from_l m1 ;;
    unless_call (eq_s_b 1 (sy s_12)) (creturn 0)) ;;
  bra_c ;;
  if_call (out_grouping_b_U g_v 97 121 0) (creturn 0) ;;
  m2 <- get_m ;;
  label 2 (
    c <- get sn_c ;;
    lb <- get sn_lb ;;
    when (c >? lb) (goto 2) ;;
    creturn 0) ;;
  c_from_l m2 ;;
  checked (slice_from_s 1 (sy s_13)) ;;
  creturn 1).

Definition r_Step_2 : cfunc := cfun (
  ket_c ;;
  b <- pre_b 1 (not_masked 3 815616) ;;
  when b (creturn 0) ;;
  among_var <- call (find_among_b a_5 24) ;;
  when (among_var =? 0) (creturn 0) ;;
  bra_c ;;
  routine r_R1 (creturn 0) ;;
  switch among_var
    [ (0, creturn 0);
      (1, checked (slice_from_s 4 (sy s_14)));
      (2, checked (slice_from_s 4 (sy s_15)));
      (3, checked (slice_from_s 4 (sy s_16)));
      (4, checked (slice_from_s 4 (sy s_17)));
      (5, checked (slice_from_s 3 (sy s_18)));
      (6, checked (slice_from_s 3 (sy s_19)));
      (7, checked (slice_from_s 3 (sy s_20)));
      (8, checked (slice_from_s 2 (sy s_21)));
      (9, checked (slice_from_s 3 (sy s_22)));
      (10, checked (slice_from_s 3 (sy s_23)));
      (11, checked (slice_from_s 3 (sy s_24)));
      (12, checked (slice_from_s 3 (sy s_25)));
      (13, unless_call (eq_s_b 1 (sy s_26)) (creturn 0) ;;
           checked (slice_from_s 2 (sy s_27)));
      (14, checked (slice_from_s 3 (sy s_28)));
      (15, checked (slice_from_s 4 (sy s_29)));
      (16, if_call (in_grouping_b_U g_valid_LI 99 116 0) (creturn 0) ;;
           checked slice_del) ] ;;
  creturn 1).

Definition r_Step_3 : cfunc := cfun (
  ket_c ;;
  b <- pre_b 2 (not_masked 3 528928) ;;
  when b (creturn 0) ;;
  among_var <- call (find_among_b a_6 9) ;;
  when (among_var =? 0) (creturn 0) ;;
  bra_c ;;
  routine r_R1 (creturn 0) ;;
  switch among_var
    [ (0, creturn 0);
      (1, checked (slice_from_s 4 (sy s_30)));
      (2, checked (slice_from_s 3 (sy s_31)));
      (3, checked (slice_from_s 2 (sy s_32)));
      (4, checked (slice_from_s 2 (sy s_33)));
      (5, checked slice_del);
      (6, routine r_R2 (creturn 0) ;;
          checked slice_del) ] ;;
  creturn 1).

Definition r_Step_4 : cfunc := cfun (
  ket_c ;;
  b <- pre_b 1 (not_masked 3 1864232) ;;
  when b (creturn 0) ;;
  among_var <- call (find_among_b a_7 18) ;;
  when (among_var =? 0) (creturn 0) ;;
  bra_c ;;
  routine r_R2 (creturn 0) ;;
  switch among_var
    [ (0, creturn 0);
      (1, checked slice_del);
      (2, label 0 (
            m1 <- get_m ;;
            label 1 (
              unless_call (eq_s_b 1 (sy s_34)) (goto 1) ;;
              goto 0) ;;
            c_from_l m1 ;;
            unless_call (eq_s_b 1 (sy s_35)) (creturn 0)) ;;
          checked slice_del) ] ;;
  creturn 1).

Definition r_Step_5 : cfunc := cfun (
  ket_c ;;
  b <- pre_b 0 (fun ch => negb (ch =? 101) && negb (ch =? 108)) ;;
  when b (creturn 0) ;;
  among_var <- call (find_among_b a_8 2) ;;
  when (among_var =? 0) (creturn 0) ;;
  bra_c ;;
  switch among_var
    [ (0, creturn 0);
      (1, label 0 (
            m1 <- get_m ;;
            label 1 (
              routine r_R2 (goto 1) ;;
              goto 0) ;;
            c_from_l m1 ;;
            routine r_R1 (creturn 0) ;;
            m2 <- get_m ;;
            label 2 (
              routine r_shortv (goto 2) ;;
              creturn 0) ;;
            c_from_l m2) ;;
          checked slice_del);
      (2, routine r_R2 (creturn 0) ;;
          unless_call (eq_s_b 1 (sy s_36)) (creturn 0) ;;
          checked slice_del) ] ;;
  creturn 1).

Definition r_exception2 : cfunc := cfun (
  ket_c ;;
  b <- pre_b 5 (fun ch => negb (ch =? 100) && negb (ch =? 103)) ;;
  when b (creturn 0) ;;
  unless_call (find_among_b a_9 8) (creturn 0) ;;
  bra_c ;;
  c <- get sn_c ;;
  lb <- get sn_lb ;;
  when (c >? lb) (creturn 0) ;;
  creturn 1).

Definition r_exception1 : cfunc := cfun (
  bra_c ;;
  b <- pre_f 2 (not_masked 3 42750482) ;;
  when b (creturn 0) ;;
  among_var <- call (find_among a_10 18) ;;
  when (among_var =? 0) (creturn 0) ;;
  ket_c ;;
  c <- get sn_c ;;
  l <- get sn_l ;;
  when (c <? l) (creturn 0) ;;
  switch among_var
    [ (0, creturn 0);
      (1, checked (slice_from_s 3 (sy s_37)));
      (2, checked (slice_from_s 3 (sy s_38)));
      (3, checked (slice_from_s 3 (sy s_39)));
      (4, checked (slice_from_s 3 (sy s_40)));
      (5, checked (slice_from_s 3 (sy s_41)));
      (6, checked (slice_from_s 3 (sy s_42)));
      (7, checked (slice_from_s 5 (sy s_43)));
      (8, checked (slice_from_s 4 (sy s_44)));
      (9, checked (slice_from_s 5 (sy s_45)));
      (10, checked (slice_from_s 4 (sy s_46)));
      (11, checked (slice_from_s 5 (sy s_47))) ] ;;
  creturn 1).

Definition r_postlude : cfunc := cfun (
  y <- get_B 0 ;;
  when (y =? 0) (creturn 0) ;;
  loop (
    c1 <- get sn_c ;;
    label 0 (
      loop (
        c2 <- get sn_c ;;
        bra_c ;;
        label 1 (
          unless_call (eq_s 1 (sy s_48)) (goto 1) ;;
          ket_c ;;
          c_is c2 ;;
          brk) ;;
        c_is c2 ;;
        next_utf8 1 (goto 0)) ;;
      checked (slice_from_s 1 (sy s_49)) ;;
      cont) ;;
    c_is c1 ;;
    brk) ;;
  creturn 1).

Definition english_UTF_8_stem : cfunc := cfun (
  label 0 (
    c1 <- get sn_c ;;
    label 1 (
      routine r_exception1 (goto 1) ;;
      goto 0) ;;
    c_is c1 ;;
    label 2 (
      c2 <- get sn_c ;;
      label 3 (
        next_utf8 3 (goto 3) ;;
        goto 2) ;;
      c_is c2 ;;
      goto 0) ;;
    c_is c1 ;;
    do_f 4 r_prelude ;;
    do_f 5 r_mark_regions ;;
    put (fun z => set_lb (sn_c z) z) ;;
    put (fun z => set_c (sn_l z) z) ;;
    do_b 6 r_Step_1a ;;
    label 7 (
      m6 <- get_m ;;
      label 8 (
        routine r_exception2 (goto 8) ;;
        goto 7) ;;
      c_from_l m6 ;;
      do_b 9 r_Step_1b ;;
      do_b 10 r_Step_1c ;;
      do_b 11 r_Step_2 ;;
      do_b 12 r_Step_3 ;;
      do_b 13 r_Step_4 ;;
      do_b 14 r_Step_5) ;;
    put (fun z => set_c (sn_lb z) z) ;;
    do_f 15 r_postlude) ;;
  creturn 1).

Definition english_UTF_8_create_env : option (option SN_env) := SN_create_env 0 2 1.
Definition english_UTF_8_close_env (z : option SN_env) : option unit := SN_close_env z 0.
End Routines.

(** ** Safety of every routine *)
Section Safety.
Context `{CHeap} (k L : Z).
Abbreviation St := (st k L 2 1).
Abbreviation step_ok := (step_ok k L 2 1).
Abbreviation fwd_ok := (fwd_ok k L 2 1).
Abbreviation scan_post := (scan_post k L 2 1).

Lemma en_shortv_ok w z : St w z ->
  returns r_shortv z (fun v z' => 0 <= v /\ exists c, z' = set_c c z /\ St w z').
Proof.
  intros S. unfold r_shortv. repeat wp_step; (split; [lia|]); eexists; (split; [|st_solve]); done.
Qed.

Lemma en_R1_ok w z : St w z -> returns r_R1 z (fun v z' => 0 <= v /\ z' = z).
Proof. intros S. unfold r_R1. repeat wp_step; split; (done || lia). Qed.

Lemma en_R2_ok w z : St w z -> returns r_R2 z (fun v z' => 0 <= v /\ z' = z).
Proof. intros S. unfold r_R2. repeat wp_step; split; (done || lia). Qed.

Ltac routine_rule ::=
  lazymatch goal with
  | |- returns r_R1 _ _ => eapply returns_mono; [eapply en_R1_ok; st_solve|intros ? ? (? & ->)]
  | |- returns r_R2 _ _ => eapply returns_mono; [eapply en_R2_ok; st_solve|intros ? ? (? & ->)]
  | |- returns r_shortv _ _ =>
      eapply returns_mono; [eapply en_shortv_ok; st_solve|intros ? ? (? & ? & -> & ?)]
  end.

Lemma en_Step_1a_ok : step_ok r_Step_1a.
Proof. intros w z S. unfold r_Step_1a. repeat wp_step; step_done. Qed.

Lemma en_Step_1b_ok : step_ok r_Step_1b.
Proof. intros w z S. unfold r_Step_1b. repeat wp_step; step_done. Qed.

Lemma en_Step_1c_ok : step_ok r_Step_1c.
Proof. intros w z S. unfold r_Step_1c. repeat wp_step; step_done. Qed.

Lemma en_Step_2_ok : step_ok r_Step_2.
Proof. intros w z S. unfold r_Step_2. repeat wp_step; step_done. Qed.

Lemma en_Step_3_ok : step_ok r_Step_3.
Proof. intros w z S. unfold r_Step_3. repeat wp_step; step_done. Qed.

Lemma en_Step_4_ok : step_ok r_Step_4.
Proof. intros w z S. unfold r_Step_4. repeat wp_step; step_done. Qed.

Lemma en_Step_5_ok : step_ok r_Step_5.
Proof. intros w z S. unfold r_Step_5. repeat wp_step; step_done. Qed.

Lemma en_exception2_ok : step_ok r_exception2.
Proof. intros w z S. unfold r_exception2. repeat wp_step; step_done. Qed.

(** The word is left alone when it is not one of the exceptions. *)
Lemma en_exception1_ok w z : St w z ->
  returns r_exception1 z (fun v z' => 0 <= v /\ exists w', St w' z' /\ sn_lb z' = sn_lb z
    /\ (v = 0 -> sn_l z' = sn_l z)).
Proof.
  intros S. unfold r_exception1. repeat wp_step; (split; [lia|]); eexists;
    (split_and!; [st_solve|sn_cbn; sn_lia || congruence|try done; sn_lia]).
Qed.

(** The scans: to a "y" after a vowel, and to a "Y". *)
Ltac scan_done := repeat wp_step; try done;
  try (split_and!; [st_solve|sn_cbn; congruence|try done; sn_lia]);
  split_and!; [st_solve|sn_cbn; congruence|sn_cbn; done|sn_lia..].

Lemma en_prelude_ok : fwd_ok r_prelude.
Proof.
  intros w z S. unfold r_prelude. repeat wp_step.
  all: match goal with S' : st _ _ _ _ ?w1 ?z1 |- wp (loop _) _ ?z2 =>
    eapply (mark_loop_ok k L 2 1 121 89 3 _ (put_B 0 1 ;; cont) w1); try done; [| |st_solve|] end.
  all: try (intros w2 z2 S2; apply scan_loop; [done|]; intros z3 S3 Hlb; scan_done).
  all: try (intros w2 z2 Q2 S2 HQ2; repeat wp_step; by apply HQ2).
  all: intros w2 z2 S2 Hl2 Hlb2; repeat wp_step; fwd_done.
Qed.

Lemma en_mark_regions_ok : fwd_ok r_mark_regions.
Proof. intros w z S. unfold r_mark_regions. repeat wp_step; fwd_done. Qed.

Lemma en_postlude_ok : fwd_ok r_postlude.
Proof.
  intros w z S. unfold r_postlude. repeat wp_step; [fwd_done|].
  apply (mark_loop_ok k L 2 1 89 121 0 _ cont w); try done.
  - intros w2 z2 S2. apply scan_loop; [done|]. intros z3 S3 Hlb. scan_done.
  - intros w2 z2 Q2 S2 HQ2. repeat wp_step. by apply HQ2.
  - intros w2 z2 S2 Hl2 Hlb2. repeat wp_step. fwd_done.
Qed.

Ltac run_f H := eapply (do_f_ok k L 2 1 _ _ H); [st_solve|intros ? ? ? ? ?; repeat wp_step].
Ltac run_b H := eapply (do_b_ok k L 2 1 _ _ H); [st_solve|sn_cbn; sn_lia || congruence|intros ? ? ? ? ?; repeat wp_step].

Lemma en_stem_ok w z : St w z ->
  returns english_UTF_8_stem z (fun v z' => v = 1 /\ exists w', St w' z' /\ (sn_lb z' = sn_lb z \/ sn_lb z' = sn_c z)).
Proof.
  intros S. unfold english_UTF_8_stem. apply wp_cfun. apply wp_bind, wp_label, wp_bind, wp_get, wp_bind, wp_label.
  unfold routine. repeat wp_step1. eapply returns_mono; [by eapply en_exception1_ok|].
  intros v z1 (Hv & w1 & S1 & Hlb1 & Hl1). repeat wp_step.
  1, 3: split; [done|]; exists w1; (split; [st_solve|left; sn_cbn; congruence]).
  run_f en_prelude_ok. run_f en_mark_regions_ok. run_b en_Step_1a_ok.
  eapply returns_mono; [eapply en_exception2_ok; st_solve|]. intros v2 z2 (Hv2 & w2 & S2 & Hlb2). repeat wp_step.
  - run_b en_Step_1b_ok. run_b en_Step_1c_ok. run_b en_Step_2_ok. run_b en_Step_3_ok. run_b en_Step_4_ok.
    run_b en_Step_5_ok. run_f en_postlude_ok. split; [done|]. eexists. split; [st_solve|right; sn_cbn; congruence].
  - run_f en_postlude_ok. split; [done|]. eexists. split; [st_solve|right; sn_cbn; congruence].
Qed.
End Safety.
