(* ===== verification/Norwegian.v ===== *)
(** * The Norwegian stemmer on UTF-8: [src_c/stem_UTF_8_norwegian.c]

    The generated C, statement for statement, and the proof that stemming is
    free of undefined behaviour, terminates and never lengthens the word.  The
    suffix routines move the lower limit to the mark p1 while they search. *)

From S2P Require Import Prelude SnEnv SnRuntime SnSpec SnAmong SnCode SnLoops.

Open Scope sn_scope.

(** ** Tables *)
Definition a_0 : list among :=
  [ mk_among 1 (str "a") (-1) 1 None; mk_among 1 (str "e") (-1) 1 None;
    mk_among 3 (str "ede") 1 1 None; mk_among 4 (str "ande") 1 1 None;
    mk_among 4 (str "ende") 1 1 None; mk_among 3 (str "ane") 1 1 None;
    mk_among 3 (str "ene") 1 1 None; mk_among 6 (str "hetene") 6 1 None;
    mk_among 4 (str "erte") 1 3 None; mk_among 2 (str "en") (-1) 1 None;
    mk_among 5 (str "heten") 9 1 None; mk_among 2 (str "ar") (-1) 1 None;
    mk_among 2 (str "er") (-1) 1 None; mk_among 5 (str "heter") 12 1 None;
    mk_among 1 (str "s") (-1) 2 None; mk_among 2 (str "as") 14 1 None;
    mk_among 2 (str "es") 14 1 None; mk_among 4 (str "edes") 16 1 None;
    mk_among 5 (str "endes") 16 1 None; mk_among 4 (str "enes") 16 1 None;
    mk_among 7 (str "hetenes") 19 1 None; mk_among 3 (str "ens") 14 1 None;
    mk_among 6 (str "hetens") 21 1 None; mk_among 3 (str "ers") 14 1 None;
    mk_among 3 (str "ets") 14 1 None; mk_among 2 (str "et") (-1) 1 None;
    mk_among 3 (str "het") 25 1 None; mk_among 3 (str "ert") (-1) 3 None;
    mk_among 3 (str "ast") (-1) 1 None ].

Definition a_1 : list among :=
  [ mk_among 2 (str "dt") (-1) (-1) None; mk_among 2 (str "vt") (-1) (-1) None ].

Definition a_2 : list among :=
  [ mk_among 3 (str "leg") (-1) 1 None; mk_among 4 (str "eleg") 0 1 None;
    mk_among 2 (str "ig") (-1) 1 None; mk_among 3 (str "eig") 2 1 None;
    mk_among 3 (str "lig") 2 1 None; mk_among 4 (str "elig") 4 1 None;
    mk_among 3 (str "els") (-1) 1 None; mk_among 3 (str "lov") (-1) 1 None;
    mk_among 4 (str "elov") 7 1 None; mk_among 4 (str "slov") 7 1 None;
    mk_among 7 (str "hetslov") 9 1 None ].

Definition g_v : list Z := [17; 65; 16; 1; 0; 0; 0; 0; 0; 0; 0; 0; 0; 0; 0; 0; 48; 0; 128].

Definition g_s_ending : list Z := [119; 125; 149; 1].

Definition s_0 : list Z := str "k".
Definition s_1 : list Z := str "er".

(** ** Routines *)
Section Routines.
Context `{CHeap}.

Definition r_mark_regions : cfunc := cfun (
  l <- get sn_l ;;
  put_I 0 l ;;
  c_test <- get sn_c ;;
  next_utf8 3 (creturn 0) ;;
  c <- get sn_c ;;
  put_I 1 c ;;
  c_is c_test ;;
  neg_call (out_grouping_U g_v 97 248 1) (creturn 0) ;;
  gopast (in_grouping_U g_v 97 248 1) (creturn 0) ;;
  c <- get sn_c ;;
  put_I 0 c ;;
  label 0 (
    i <- get_I 0 ;;
    i' <- get_I 1 ;;
    when (negb (i <? i')) (goto 0) ;;
    i <- get_I 1 ;;
    put_I 0 i) ;;
  creturn 1).

Definition r_main_suffix : cfunc := cfun (
  m1 <- get_m ;;
  i <- get_I 0 ;;
  c <- get sn_c ;;
  when (c <? i) (creturn 0) ;;
  i <- get_I 0 ;;
  c_is i ;;
  mlimit <- get sn_lb ;;
  put (fun z => set_lb (sn_c z) z) ;;
  c_from_l m1 ;;
  ket_c ;;
  b <- pre_b 0 (not_masked 3 1851426) ;;
  when b (put (set_lb mlimit) ;; creturn 0) ;;
  among_var <- call (find_among_b a_0 29) ;;
  when (among_var =? 0) (put (set_lb mlimit) ;; creturn 0) ;;
  bra_c ;;
  put (set_lb mlimit) ;;
  switch among_var
    [ (0, creturn 0);
      (1, checked slice_del);
      (2, label 0 (
            m2 <- get_m ;;
            label 1 (
              if_call (in_grouping_b_U g_s_ending 98 122 0) (goto 1) ;;
              goto 0) ;;
            c_from_l m2 ;;
            unless_call (eq_s_b 1 (sy s_0)) (creturn 0) ;;
            if_call (out_grouping_b_U g_v 97 248 0) (creturn 0)) ;;
          checked slice_del);
      (3, checked (slice_from_s 2 (sy s_1))) ] ;;
  creturn 1).

Definition r_consonant_pair : cfunc := cfun (
  m_test <- get_m ;;
  m1 <- get_m ;;
  i <- get_I 0 ;;
  c <- get sn_c ;;
  when (c <? i) (creturn 0) ;;
  i <- get_I 0 ;;
  c_is i ;;
  mlimit <- get sn_lb ;;
  put (fun z => set_lb (sn_c z) z) ;;
  c_from_l m1 ;;
  ket_c ;;
  b <- pre_b 1 (fun ch => negb (ch =? 116)) ;;
  when b (put (set_lb mlimit) ;; creturn 0) ;;
  unless_call (find_among_b a_1 2) (put (set_lb mlimit) ;; creturn 0) ;;
  bra_c ;;
  put (set_lb mlimit) ;;
  c_from_l m_test ;;
  prev_utf8 1 (creturn 0) ;;
  bra_c ;;
  checked slice_del ;;
  creturn 1).

Definition r_other_suffix : cfunc := cfun (
  m1 <- get_m ;;
  i <- get_I 0 ;;
  c <- get sn_c ;;
  when (c <? i) (creturn 0) ;;
  i <- get_I 0 ;;
  c_is i ;;
  mlimit <- get sn_lb ;;
  put (fun z => set_lb (sn_c z) z) ;;
  c_from_l m1 ;;
  ket_c ;;
  b <- pre_b 1 (not_masked 3 4718720) ;;
  when b (put (set_lb mlimit) ;; creturn 0) ;;
  among_var <- call (find_among_b a_2 11) ;;
  when (among_var =? 0) (put (set_lb mlimit) ;; creturn 0) ;;
  bra_c ;;
  put (set_lb mlimit) ;;
  switch among_var
    [ (0, creturn 0);
      (1, checked slice_del) ] ;;
  creturn 1).

Definition norwegian_UTF_8_stem : cfunc := cfun (
  do_f 0 r_mark_regions ;;
  put (fun z => set_lb (sn_c z) z) ;;
  put (fun z => set_c (sn_l z) z) ;;
  do_b 1 r_main_suffix ;;
  do_b 2 r_consonant_pair ;;
  do_b 3 r_other_suffix ;;
  put (fun z => set_c (sn_lb z) z) ;;
  creturn 1).

Definition norwegian_UTF_8_create_env : option (option SN_env) := SN_create_env 0 2 0.
Definition norwegian_UTF_8_close_env (z : option SN_env) : option unit := SN_close_env z 0.
End Routines.

(** ** Safety of every routine *)
Section Safety.
Context `{CHeap} (k L : Z).
Abbreviation St := (st k L 2 0).

Lemma no_mark_regions_ok : fwd_ok k L 2 0 r_mark_regions.
Proof. intros w z S. unfold r_mark_regions. repeat wp_step; fwd_done. Qed.

Lemma no_main_suffix_ok : step_at k L 2 0 0 r_main_suffix.
Proof. intros w z S Hlb. unfold r_main_suffix. repeat wp_step; step_done. Qed.

Lemma no_consonant_pair_ok : step_at k L 2 0 0 r_consonant_pair.
Proof. intros w z S Hlb. unfold r_consonant_pair. repeat wp_step; step_done. Qed.

Lemma no_other_suffix_ok : step_at k L 2 0 0 r_other_suffix.
Proof. intros w z S Hlb. unfold r_other_suffix. repeat wp_step; step_done. Qed.

Ltac run_b H := eapply (do_b_at k L 2 0 _ _ 0 H); [st_solve|sn_cbn; sn_lia || congruence..|intros ? ? ? ? ?; repeat wp_step].

Lemma no_stem_ok w z : St w z -> sn_c z = 0 ->
  returns norwegian_UTF_8_stem z (fun v z' => v = 1 /\ exists w', St w' z' /\ (sn_lb z' = sn_lb z \/ sn_lb z' = sn_c z)).
Proof.
  intros S Hc. unfold norwegian_UTF_8_stem. repeat wp_step.
  eapply (do_f_ok k L 2 0 _ _ no_mark_regions_ok); [st_solve|intros ? ? ? ? ?; repeat wp_step].
  run_b no_main_suffix_ok. run_b no_consonant_pair_ok. run_b no_other_suffix_ok.
  split; [done|]. eexists. split; [st_solve|right; sn_cbn; congruence].
Qed.
End Safety.
