(* ===== verification/Swedish.v ===== *)
(** * The Swedish stemmer on UTF-8: [src_c/stem_UTF_8_swedish.c]

    The generated C, statement for statement, and the proof that stemming is
    free of undefined behaviour, terminates and never lengthens the word.  The
    suffix routines move the lower limit to the mark p1 while they search. *)

From S2P Require Import Prelude SnEnv SnRuntime SnSpec SnAmong SnCode SnLoops.

Open Scope sn_scope.

(** ** Tables *)
Definition a_0 : list among :=
  [ mk_among 1 (str "a") (-1) 1 None; mk_among 4 (str "arna") 0 1 None;
    mk_among 4 (str "erna") 0 1 None; mk_among 7 (str "heterna") 2 1 None;
    mk_among 4 (str "orna") 0 1 None; mk_among 2 (str "ad") (-1) 1 None;
    mk_among 1 (str "e") (-1) 1 None; mk_among 3 (str "ade") 6 1 None;
    mk_among 4 (str "ande") 6 1 None; mk_among 4 (str "arne") 6 1 None;
    mk_among 3 (str "are") 6 1 None; mk_among 4 (str "aste") 6 1 None;
    mk_among 2 (str "en") (-1) 1 None; mk_among 5 (str "anden") 12 1 None;
    mk_among 4 (str "aren") 12 1 None; mk_among 5 (str "heten") 12 1 None;
    mk_among 3 (str "ern") (-1) 1 None; mk_among 2 (str "ar") (-1) 1 None;
    mk_among 2 (str "er") (-1) 1 None; mk_among 5 (str "heter") 18 1 None;
    mk_among 2 (str "or") (-1) 1 None; mk_among 1 (str "s") (-1) 2 None;
    mk_among 2 (str "as") 21 1 None; mk_among 5 (str "arnas") 22 1 None;
    mk_among 5 (str "ernas") 22 1 None; mk_among 5 (str "ornas") 22 1 None;
    mk_among 2 (str "es") 21 1 None; mk_among 4 (str "ades") 26 1 None;
    mk_among 5 (str "andes") 26 1 None; mk_among 3 (str "ens") 21 1 None;
    mk_among 5 (str "arens") 29 1 None; mk_among 6 (str "hetens") 29 1 None;
    mk_among 4 (str "erns") 21 1 None; mk_among 2 (str "at") (-1) 1 None;
    mk_among 5 (str "andet") (-1) 1 None; mk_among 3 (str "het") (-1) 1 None;
    mk_among 3 (str "ast") (-1) 1 None ].

Definition a_1 : list among :=
  [ mk_among 2 (str "dd") (-1) (-1) None; mk_among 2 (str "gd") (-1) (-1) None;
    mk_among 2 (str "nn") (-1) (-1) None; mk_among 2 (str "dt") (-1) (-1) None;
    mk_among 2 (str "gt") (-1) (-1) None; mk_among 2 (str "kt") (-1) (-1) None;
    mk_among 2 (str "tt") (-1) (-1) None ].

Definition a_2 : list among :=
  [ mk_among 2 (str "ig") (-1) 1 None; mk_among 3 (str "lig") 0 1 None;
    mk_among 3 (str "els") (-1) 1 None; mk_among 5 (str "fullt") (-1) 3 None;
    mk_among 5 ([108; 195; 182; 115; 116]) (-1) 2 None ].

Definition g_v : list Z := [17; 65; 16; 1; 0; 0; 0; 0; 0; 0; 0; 0; 0; 0; 0; 0; 24; 0; 32].

Definition g_s_ending : list Z := [119; 127; 149].

Definition s_0 : list Z := [108; 195; 182; 115].
Definition s_1 : list Z := str "full".

(** ** Routines *)
Section Routines.
Context `{CHeap}.

Definition r_mark_regions : cfunc := cfun (
  l <- get sn_l ;;
  put_I 0 l ;;
  c_test <- get sn_c ;;
  next_utf8 3 (creturn 0) ;;
  c <- get sn_c ;;
  put_I 1 c ;;
  c_is c_test ;;
  neg_call (out_grouping_U g_v 97 246 1) (creturn 0) ;;
  gopast (in_grouping_U g_v 97 246 1) (creturn 0) ;;
  c <- get sn_c ;;
  put_I 0 c ;;
  label 0 (
    i <- get_I 0 ;;
    i' <- get_I 1 ;;
    when (negb (i <? i')) (goto 0) ;;
    i <- get_I 1 ;;
    put_I 0 i) ;;
  creturn 1).

Definition r_main_suffix : cfunc := cfun (
  m1 <- get_m ;;
  i <- get_I 0 ;;
  c <- get sn_c ;;
  when (c <? i) (creturn 0) ;;
  i <- get_I 0 ;;
  c_is i ;;
  mlimit <- get sn_lb ;;
  put (fun z => set_lb (sn_c z) z) ;;
  c_from_l m1 ;;
  ket_c ;;
  b <- pre_b 0 (not_masked 3 1851442) ;;
  when b (put (set_lb mlimit) ;; creturn 0) ;;
  among_var <- call (find_among_b a_0 37) ;;
  when (among_var =? 0) (put (set_lb mlimit) ;; creturn 0) ;;
  bra_c ;;
  put (set_lb mlimit) ;;
  switch among_var
    [ (0, creturn 0);
      (1, checked slice_del);
      (2, if_call (in_grouping_b_U g_s_ending 98 121 0) (creturn 0) ;;
          checked slice_del) ] ;;
  creturn 1).

Definition r_consonant_pair : cfunc := cfun (
  m1 <- get_m ;;
  i <- get_I 0 ;;
  c <- get sn_c ;;
  when (c <? i) (creturn 0) ;;
  i <- get_I 0 ;;
  c_is i ;;
  mlimit <- get sn_lb ;;
  put (fun z => set_lb (sn_c z) z) ;;
  c_from_l m1 ;;
  m2 <- get_m ;;
  b <- pre_b 1 (not_masked 3 1064976) ;;
  when b (put (set_lb mlimit) ;; creturn 0) ;;
  unless_call (find_among_b a_1 7) (put (set_lb mlimit) ;; creturn 0) ;;
  c_from_l m2 ;;
  ket_c ;;
  prev_utf8 1 (put (set_lb mlimit) ;; creturn 0) ;;
  bra_c ;;
  checked slice_del ;;
  put (set_lb mlimit) ;;
  creturn 1).

Definition r_other_suffix : cfunc := cfun (
  m1 <- get_m ;;
  i <- get_I 0 ;;
  c <- get sn_c ;;
  when (c <? i) (creturn 0) ;;
  i <- get_I 0 ;;
  c_is i ;;
  mlimit <- get sn_lb ;;
  put (fun z => set_lb (sn_c z) z) ;;
  c_from_l m1 ;;
  ket_c ;;
  b <- pre_b 1 (not_masked 3 1572992) ;;
  when b (put (set_lb mlimit) ;; creturn 0) ;;
  among_var <- call (find_among_b a_2 5) ;;
  when (among_var =? 0) (put (set_lb mlimit) ;; creturn 0) ;;
  bra_c ;;
  switch among_var
    [ (0, put (set_lb mlimit) ;;
          creturn 0);
      (1, checked slice_del);
      (2, checked (slice_from_s 4 (sy s_0)));
      (3, checked (slice_from_s 4 (sy s_1))) ] ;;
  put (set_lb mlimit) ;;
  creturn 1).

Definition swedish_UTF_8_stem : cfunc := cfun (
  do_f 0 r_mark_regions ;;
  put (fun z => set_lb (sn_c z) z) ;;
  put (fun z => set_c (sn_l z) z) ;;
  do_b 1 r_main_suffix ;;
  do_b 2 r_consonant_pair ;;
  do_b 3 r_other_suffix ;;
  put (fun z => set_c (sn_lb z) z) ;;
  creturn 1).

Definition swedish_UTF_8_create_env : option (option SN_env) := SN_create_env 0 2 0.
Definition swedish_UTF_8_close_env (z : option SN_env) : option unit := SN_close_env z 0.
End Routines.

(** ** Safety of every routine *)
Section Safety.
Context `{CHeap} (k L : Z).
Abbreviation St := (st k L 2 0).

Lemma sv_mark_regions_ok : fwd_ok k L 2 0 r_mark_regions.
Proof. intros w z S. unfold r_mark_regions. repeat wp_step; fwd_done. Qed.

Lemma sv_main_suffix_ok : step_at k L 2 0 0 r_main_suffix.
Proof. intros w z S Hlb. unfold r_main_suffix. repeat wp_step; step_done. Qed.

Lemma sv_consonant_pair_ok : step_at k L 2 0 0 r_consonant_pair.
Proof. intros w z S Hlb. unfold r_consonant_pair. repeat wp_step; step_done. Qed.

Lemma sv_other_suffix_ok : step_at k L 2 0 0 r_other_suffix.
Proof. intros w z S Hlb. unfold r_other_suffix. repeat wp_step; step_done. Qed.

Ltac run_b H := eapply (do_b_at k L 2 0 _ _ 0 H); [st_solve|sn_cbn; sn_lia || congruence..|intros ? ? ? ? ?; repeat wp_step].

Lemma sv_stem_ok w z : St w z -> sn_c z = 0 ->
  returns swedish_UTF_8_stem z (fun v z' => v = 1 /\ exists w', St w' z' /\ (sn_lb z' = sn_lb z \/ sn_lb z' = sn_c z)).
Proof.
  intros S Hc. unfold swedish_UTF_8_stem. repeat wp_step.
  eapply (do_f_ok k L 2 0 _ _ sv_mark_regions_ok); [st_solve|intros ? ? ? ? ?; repeat wp_step].
  run_b sv_main_suffix_ok. run_b sv_consonant_pair_ok. run_b sv_other_suffix_ok.
  split; [done|]. eexists. split; [st_solve|right; sn_cbn; congruence].
Qed.
End Safety.
