(* ===== verification/SpanishIso.v ===== *)
(** * The Spanish stemmer on ISO-8859-1: [src_c/stem_ISO_8859_1_spanish.c]

    The generated C, statement for statement, and the proof that stemming is
    free of undefined behaviour, terminates and never lengthens the word. *)

From S2P Require Import Prelude SnEnv SnRuntime SnSpec SnAmong SnCode SnLoops.

Open Scope sn_scope.

(** ** Tables *)
Definition a_0 : list among :=
  [ mk_among 0 [] (-1) 6 None; mk_among 1 ([225]) 0 1 None; mk_among 1 ([233]) 0 2 None;
    mk_among 1 ([237]) 0 3 None; mk_among 1 ([243]) 0 4 None; mk_among 1 ([250]) 0 5 None ].

Definition a_1 : list among :=
  [ mk_among 2 (str "la") (-1) (-1) None; mk_among 4 (str "sela") 0 (-1) None;
    mk_among 2 (str "le") (-1) (-1) None; mk_among 2 (str "me") (-1) (-1) None;
    mk_among 2 (str "se") (-1) (-1) None; mk_among 2 (str "lo") (-1) (-1) None;
    mk_among 4 (str "selo") 5 (-1) None; mk_among 3 (str "las") (-1) (-1) None;
    mk_among 5 (str "selas") 7 (-1) None; mk_among 3 (str "les") (-1) (-1) None;
    mk_among 3 (str "los") (-1) (-1) None; mk_among 5 (str "selos") 10 (-1) None;
    mk_among 3 (str "nos") (-1) (-1) None ].

Definition a_2 : list among :=
  [ mk_among 4 (str "ando") (-1) 6 None; mk_among 5 (str "iendo") (-1) 6 None;
    mk_among 5 (str "yendo") (-1) 7 None; mk_among 4 ([225; 110; 100; 111]) (-1) 2 None;
    mk_among 5 ([105; 233; 110; 100; 111]) (-1) 1 None; mk_among 2 (str "ar") (-1) 6 None;
    mk_among 2 (str "er") (-1) 6 None; mk_among 2 (str "ir") (-1) 6 None;
    mk_among 2 ([225; 114]) (-1) 3 None; mk_among 2 ([233; 114]) (-1) 4 None;
    mk_among 2 ([237; 114]) (-1) 5 None ].

Definition a_3 : list among :=
  [ mk_among 2 (str "ic") (-1) (-1) None; mk_among 2 (str "ad") (-1) (-1) None;
    mk_among 2 (str "os") (-1) (-1) None; mk_among 2 (str "iv") (-1) 1 None ].

Definition a_4 : list among :=
  [ mk_among 4 (str "able") (-1) 1 None; mk_among 4 (str "ible") (-1) 1 None;
    mk_among 4 (str "ante") (-1) 1 None ].

Definition a_5 : list among :=
  [ mk_among 2 (str "ic") (-1) 1 None; mk_among 4 (str "abil") (-1) 1 None;
    mk_among 2 (str "iv") (-1) 1 None ].

Definition a_6 : list among :=
  [ mk_among 3 (str "ica") (-1) 1 None; mk_among 5 (str "ancia") (-1) 2 None;
    mk_among 5 (str "encia") (-1) 5 None; mk_among 5 (str "adora") (-1) 2 None;
    mk_among 3 (str "osa") (-1) 1 None; mk_among 4 (str "ista") (-1) 1 None;
    mk_among 3 (str "iva") (-1) 9 None; mk_among 4 (str "anza") (-1) 1 None;
    mk_among 5 ([108; 111; 103; 237; 97]) (-1) 3 None; mk_among 4 (str "idad") (-1) 8 None;
    mk_among 4 (str "able") (-1) 1 None; mk_among 4 (str "ible") (-1) 1 None;
    mk_among 4 (str "ante") (-1) 2 None; mk_among 5 (str "mente") (-1) 7 None;
    mk_among 6 (str "amente") 13 6 None; mk_among 5 ([97; 99; 105; 243; 110]) (-1) 2 None;
    mk_among 5 ([117; 99; 105; 243; 110]) (-1) 4 None; mk_among 3 (str "ico") (-1) 1 None;
    mk_among 4 (str "ismo") (-1) 1 None; mk_among 3 (str "oso") (-1) 1 None;
    mk_among 7 (str "amiento") (-1) 1 None; mk_among 7 (str "imiento") (-1) 1 None;
    mk_among 3 (str "ivo") (-1) 9 None; mk_among 4 (str "ador") (-1) 2 None;
    mk_among 4 (str "icas") (-1) 1 None; mk_among 6 (str "ancias") (-1) 2 None;
    mk_among 6 (str "encias") (-1) 5 None; mk_among 6 (str "adoras") (-1) 2 None;
    mk_among 4 (str "osas") (-1) 1 None; mk_among 5 (str "istas") (-1) 1 None;
    mk_among 4 (str "ivas") (-1) 9 None; mk_among 5 (str "anzas") (-1) 1 None;
    mk_among 6 ([108; 111; 103; 237; 97; 115]) (-1) 3 None;
    mk_among 6 (str "idades") (-1) 8 None; mk_among 5 (str "ables") (-1) 1 None;
    mk_among 5 (str "ibles") (-1) 1 None; mk_among 7 (str "aciones") (-1) 2 None;
    mk_among 7 (str "uciones") (-1) 4 None; mk_among 6 (str "adores") (-1) 2 None;
    mk_among 5 (str "antes") (-1) 2 None; mk_among 4 (str "icos") (-1) 1 None;
    mk_among 5 (str "ismos") (-1) 1 None; mk_among 4 (str "osos") (-1) 1 None;
    mk_among 8 (str "amientos") (-1) 1 None; mk_among 8 (str "imientos") (-1) 1 None;
    mk_among 4 (str "ivos") (-1) 9 None ].

Definition a_7 : list among :=
  [ mk_among 2 (str "ya") (-1) 1 None; mk_among 2 (str "ye") (-1) 1 None;
    mk_among 3 (str "yan") (-1) 1 None; mk_among 3 (str "yen") (-1) 1 None;
    mk_among 5 (str "yeron") (-1) 1 None; mk_among 5 (str "yendo") (-1) 1 None;
    mk_among 2 (str "yo") (-1) 1 None; mk_among 3 (str "yas") (-1) 1 None;
    mk_among 3 (str "yes") (-1) 1 None; mk_among 4 (str "yais") (-1) 1 None;
    mk_among 5 (str "yamos") (-1) 1 None; mk_among 2 ([121; 243]) (-1) 1 None ].

Definition a_8 : list among :=
  [ mk_among 3 (str "aba") (-1) 2 None; mk_among 3 (str "ada") (-1) 2 None;
    mk_among 3 (str "ida") (-1) 2 None; mk_among 3 (str "ara") (-1) 2 None;
    mk_among 4 (str "iera") (-1) 2 None; mk_among 2 ([237; 97]) (-1) 2 None;
    mk_among 4 ([97; 114; 237; 97]) 5 2 None; mk_among 4 ([101; 114; 237; 97]) 5 2 None;
    mk_among 4 ([105; 114; 237; 97]) 5 2 None; mk_among 2 (str "ad") (-1) 2 None;
    mk_among 2 (str "ed") (-1) 2 None; mk_among 2 (str "id") (-1) 2 None;
    mk_among 3 (str "ase") (-1) 2 None; mk_among 4 (str "iese") (-1) 2 None;
    mk_among 4 (str "aste") (-1) 2 None; mk_among 4 (str "iste") (-1) 2 None;
    mk_among 2 (str "an") (-1) 2 None; mk_among 4 (str "aban") 16 2 None;
    mk_among 4 (str "aran") 16 2 None; mk_among 5 (str "ieran") 16 2 None;
    mk_among 3 ([237; 97; 110]) 16 2 None; mk_among 5 ([97; 114; 237; 97; 110]) 20 2 None;
    mk_among 5 ([101; 114; 237; 97; 110]) 20 2 None;
    mk_among 5 ([105; 114; 237; 97; 110]) 20 2 None; mk_among 2 (str "en") (-1) 1 None;
    mk_among 4 (str "asen") 24 2 None; mk_among 5 (str "iesen") 24 2 None;
    mk_among 4 (str "aron") (-1) 2 None; mk_among 5 (str "ieron") (-1) 2 None;
    mk_among 4 ([97; 114; 225; 110]) (-1) 2 None; mk_among 4 ([101; 114; 225; 110]) (-1) 2 None;
    mk_among 4 ([105; 114; 225; 110]) (-1) 2 None; mk_among 3 (str "ado") (-1) 2 None;
    mk_among 3 (str "ido") (-1) 2 None; mk_among 4 (str "ando") (-1) 2 None;
    mk_among 5 (str "iendo") (-1) 2 None; mk_among 2 (str "ar") (-1) 2 None;
    mk_among 2 (str "er") (-1) 2 None; mk_among 2 (str "ir") (-1) 2 None;
    mk_among 2 (str "as") (-1) 2 None; mk_among 4 (str "abas") 39 2 None;
    mk_among 4 (str "adas") 39 2 None; mk_among 4 (str "idas") 39 2 None;
    mk_among 4 (str "aras") 39 2 None; mk_among 5 (str "ieras") 39 2 None;
    mk_among 3 ([237; 97; 115]) 39 2 None; mk_among 5 ([97; 114; 237; 97; 115]) 45 2 None;
    mk_among 5 ([101; 114; 237; 97; 115]) 45 2 None;
    mk_among 5 ([105; 114; 237; 97; 115]) 45 2 None; mk_among 2 (str "es") (-1) 1 None;
    mk_among 4 (str "ases") 49 2 None; mk_among 5 (str "ieses") 49 2 None;
    mk_among 5 (str "abais") (-1) 2 None; mk_among 5 (str "arais") (-1) 2 None;
    mk_among 6 (str "ierais") (-1) 2 None; mk_among 4 ([237; 97; 105; 115]) (-1) 2 None;
    mk_among 6 ([97; 114; 237; 97; 105; 115]) 55 2 None;
    mk_among 6 ([101; 114; 237; 97; 105; 115]) 55 2 None;
    mk_among 6 ([105; 114; 237; 97; 105; 115]) 55 2 None; mk_among 5 (str "aseis") (-1) 2 None;
    mk_among 6 (str "ieseis") (-1) 2 None; mk_among 6 (str "asteis") (-1) 2 None;
    mk_among 6 (str "isteis") (-1) 2 None; mk_among 3 ([225; 105; 115]) (-1) 2 None;
    mk_among 3 ([233; 105; 115]) (-1) 1 None; mk_among 5 ([97; 114; 233; 105; 115]) 64 2 None;
    mk_among 5 ([101; 114; 233; 105; 115]) 64 2 None;
    mk_among 5 ([105; 114; 233; 105; 115]) 64 2 None; mk_among 4 (str "ados") (-1) 2 None;
    mk_among 4 (str "idos") (-1) 2 None; mk_among 4 (str "amos") (-1) 2 None;
    mk_among 6 ([225; 98; 97; 109; 111; 115]) 70 2 None;
    mk_among 6 ([225; 114; 97; 109; 111; 115]) 70 2 None;
    mk_among 7 ([105; 233; 114; 97; 109; 111; 115]) 70 2 None;
    mk_among 5 ([237; 97; 109; 111; 115]) 70 2 None;
    mk_among 7 ([97; 114; 237; 97; 109; 111; 115]) 74 2 None;
    mk_among 7 ([101; 114; 237; 97; 109; 111; 115]) 74 2 None;
    mk_among 7 ([105; 114; 237; 97; 109; 111; 115]) 74 2 None;
    mk_among 4 (str "emos") (-1) 1 None; mk_among 6 (str "aremos") 78 2 None;
    mk_among 6 (str "eremos") 78 2 None; mk_among 6 (str "iremos") 78 2 None;
    mk_among 6 ([225; 115; 101; 109; 111; 115]) 78 2 None;
    mk_among 7 ([105; 233; 115; 101; 109; 111; 115]) 78 2 None;
    mk_among 4 (str "imos") (-1) 2 None; mk_among 4 ([97; 114; 225; 115]) (-1) 2 None;
    mk_among 4 ([101; 114; 225; 115]) (-1) 2 None; mk_among 4 ([105; 114; 225; 115]) (-1) 2 None;
    mk_among 2 ([237; 115]) (-1) 2 None; mk_among 3 ([97; 114; 225]) (-1) 2 None;
    mk_among 3 ([101; 114; 225]) (-1) 2 None; mk_among 3 ([105; 114; 225]) (-1) 2 None;
    mk_among 3 ([97; 114; 233]) (-1) 2 None; mk_among 3 ([101; 114; 233]) (-1) 2 None;
    mk_among 3 ([105; 114; 233]) (-1) 2 None; mk_among 2 ([105; 243]) (-1) 2 None ].

Definition a_9 : list among :=
  [ mk_among 1 (str "a") (-1) 1 None; mk_among 1 (str "e") (-1) 2 None;
    mk_among 1 (str "o") (-1) 1 None; mk_among 2 (str "os") (-1) 1 None;
    mk_among 1 ([225]) (-1) 1 None; mk_among 1 ([233]) (-1) 2 None;
    mk_among 1 ([237]) (-1) 1 None; mk_among 1 ([243]) (-1) 1 None ].

Definition g_v : list Z := [17; 65; 16; 0; 0; 0; 0; 0; 0; 0; 0; 0; 0; 0; 0; 0; 1; 17; 4; 10].

Definition s_0 : list Z := str "a".
Definition s_1 : list Z := str "e".
Definition s_2 : list Z := str "i".
Definition s_3 : list Z := str "o".
Definition s_4 : list Z := str "u".
Definition s_5 : list Z := str "iendo".
Definition s_6 : list Z := str "ando".
Definition s_7 : list Z := str "ar".
Definition s_8 : list Z := str "er".
Definition s_9 : list Z := str "ir".
Definition s_10 : list Z := str "u".
Definition s_11 : list Z := str "ic".
Definition s_12 : list Z := str "log".
Definition s_13 : list Z := str "u".
Definition s_14 : list Z := str "ente".
Definition s_15 : list Z := str "at".
Definition s_16 : list Z := str "at".
Definition s_17 : list Z := str "u".
Definition s_18 : list Z := str "u".
Definition s_19 : list Z := str "g".
Definition s_20 : list Z := str "u".
Definition s_21 : list Z := str "g".

(** ** Routines *)
Section Routines.
Context `{CHeap}.

Definition r_mark_regions : cfunc := cfun (
  l <- get sn_l ;;
  put_I 0 l ;;
  l <- get sn_l ;;
  put_I 1 l ;;
  l <- get sn_l ;;
  put_I 2 l ;;
  c1 <- get sn_c ;;
  label 0 (
    label 1 (
      c2 <- get sn_c ;;
      label 2 (
        if_call (in_grouping g_v 97 252 0) (goto 2) ;;
        label 3 (
          c3 <- get sn_c ;;
          label 4 (
            if_call (out_grouping g_v 97 252 0) (goto 4) ;;
            gopast (out_grouping g_v 97 252 1) (goto 4) ;;
            goto 3) ;;
          c_is c3 ;;
          if_call (in_grouping g_v 97 252 0) (goto 2) ;;
          gopast (in_grouping g_v 97 252 1) (goto 2)) ;;
        goto 1) ;;
      c_is c2 ;;
      if_call (out_grouping g_v 97 252 0) (goto 0) ;;
      label 5 (
        c4 <- get sn_c ;;
        label 6 (
          if_call (out_grouping g_v 97 252 0) (goto 6) ;;
          gopast (out_grouping g_v 97 252 1) (goto 6) ;;
          goto 5) ;;
        c_is c4 ;;
        if_call (in_grouping g_v 97 252 0) (goto 0) ;;
        next_byte (goto 0))) ;;
    c <- get sn_c ;;
    put_I 0 c) ;;
  c_is c1 ;;
  c5 <- get sn_c ;;
  label 7 (
    gopast (out_grouping g_v 97 252 1) (goto 7) ;;
    gopast (in_grouping g_v 97 252 1) (goto 7) ;;
    c <- get sn_c ;;
    put_I 1 c ;;
    gopast (out_grouping g_v 97 252 1) (goto 7) ;;
    gopast (in_grouping g_v 97 252 1) (goto 7) ;;
    c <- get sn_c ;;
    put_I 2 c) ;;
  c_is c5 ;;
  creturn 1).

Definition r_postlude : cfunc := cfun (
  loop (
    c1 <- get sn_c ;;
    bra_c ;;
    b <- pre_f 0 (not_masked 7 67641858) ;;
    among_var <- (if b : bool then ret 6 else call (find_among a_0 6)) ;;
    label 0 (
      when (among_var =? 0) (goto 0) ;;
      ket_c ;;
      switch among_var
        [ (0, goto 0);
          (1, checked (slice_from_s 1 (sy s_0)));
          (2, checked (slice_from_s 1 (sy s_1)));
          (3, checked (slice_from_s 1 (sy s_2)));
          (4, checked (slice_from_s 1 (sy s_3)));
          (5, checked (slice_from_s 1 (sy s_4)));
          (6, next_byte (goto 0)) ] ;;
      cont) ;;
    c_is c1 ;;
    brk) ;;
  creturn 1).

Definition r_RV : cfunc := cfun (
  i <- get_I 0 ;;
  c <- get sn_c ;;
  when (negb (i <=? c)) (creturn 0) ;;
  creturn 1).

Definition r_R1 : cfunc := cfun (
  i <- get_I 1 ;;
  c <- get sn_c ;;
  when (negb (i <=? c)) (creturn 0) ;;
  creturn 1).

Definition r_R2 : cfunc := cfun (
  i <- get_I 2 ;;
  c <- get sn_c ;;
  when (negb (i <=? c)) (creturn 0) ;;
  creturn 1).

Definition r_attached_pronoun : cfunc := cfun (
  ket_c ;;
  b <- pre_b 1 (not_masked 3 557090) ;;
  when b (creturn 0) ;;
  unless_call (find_among_b a_1 13) (creturn 0) ;;
  bra_c ;;
  b <- pre_b 1 (fun ch => negb (ch =? 111) && negb (ch =? 114)) ;;
  when b (creturn 0) ;;
  among_var <- call (find_among_b a_2 11) ;;
  when (among_var =? 0) (creturn 0) ;;
  routine r_RV (creturn 0) ;;
  switch among_var
    [ (0, creturn 0);
      (1, bra_c ;;
          checked (slice_from_s 5 (sy s_5)));
      (2, bra_c ;;
          checked (slice_from_s 4 (sy s_6)));
      (3, bra_c ;;
          checked (slice_from_s 2 (sy s_7)));
      (4, bra_c ;;
          checked (slice_from_s 2 (sy s_8)));
      (5, bra_c ;;
          checked (slice_from_s 2 (sy s_9)));
      (6, checked slice_del);
      (7, unless_call (eq_s_b 1 (sy s_10)) (creturn 0) ;;
          checked slice_del) ] ;;
  creturn 1).

Definition r_standard_suffix : cfunc := cfun (
  ket_c ;;
  b <- pre_b 2 (not_masked 3 835634) ;;
  when b (creturn 0) ;;
  among_var <- call (find_among_b a_6 46) ;;
  when (among_var =? 0) (creturn 0) ;;
  bra_c ;;
  switch among_var
    [ (0, creturn 0);
      (1, routine r_R2 (creturn 0) ;;
          checked slice_del);
      (2, routine r_R2 (creturn 0) ;;
          checked slice_del ;;
          m_keep <- get_m ;;
          ket_c ;;
          label 0 (
            unless_call (eq_s_b 2 (sy s_11)) (c_from_l m_keep ;; goto 0) ;;
            bra_c ;;
            routine r_R2 (c_from_l m_keep ;; goto 0) ;;
            checked slice_del));
      (3, routine r_R2 (creturn 0) ;;
          checked (slice_from_s 3 (sy s_12)));
      (4, routine r_R2 (creturn 0) ;;
          checked (slice_from_s 1 (sy s_13)));
      (5, routine r_R2 (creturn 0) ;;
          checked (slice_from_s 4 (sy s_14)));
      (6, routine r_R1 (creturn 0) ;;
          checked slice_del ;;
          m_keep <- get_m ;;
          ket_c ;;
          label 1 (
            b <- pre_b 1 (not_masked 3 4718616) ;;
            when b (c_from_l m_keep ;; goto 1) ;;
            among_var <- call (find_among_b a_3 4) ;;
            when (among_var =? 0) (c_from_l m_keep ;; goto 1) ;;
            bra_c ;;
            routine r_R2 (c_from_l m_keep ;; goto 1) ;;
            checked slice_del ;;
            switch among_var
              [ (0, c_from_l m_keep ;;
                    goto 1);
                (1, ket_c ;;
                    unless_call (eq_s_b 2 (sy s_15)) (c_from_l m_keep ;; goto 1) ;;
                    bra_c ;;
                    routine r_R2 (c_from_l m_keep ;; goto 1) ;;
                    checked slice_del) ]));
      (7, routine r_R2 (creturn 0) ;;
          checked slice_del ;;
          m_keep <- get_m ;;
          ket_c ;;
          label 2 (
            b <- pre_b 3 (fun ch => negb (ch =? 101)) ;;
            when b (c_from_l m_keep ;; goto 2) ;;
            among_var <- call (find_among_b a_4 3) ;;
            when (among_var =? 0) (c_from_l m_keep ;; goto 2) ;;
            bra_c ;;
            switch among_var
              [ (0, c_from_l m_keep ;;
                    goto 2);
                (1, routine r_R2 (c_from_l m_keep ;; goto 2) ;;
                    checked slice_del) ]));
      (8, routine r_R2 (creturn 0) ;;
          checked slice_del ;;
          m_keep <- get_m ;;
          ket_c ;;
          label 3 (
            b <- pre_b 1 (not_masked 3 4198408) ;;
            when b (c_from_l m_keep ;; goto 3) ;;
            among_var <- call (find_among_b a_5 3) ;;
            when (among_var =? 0) (c_from_l m_keep ;; goto 3) ;;
            bra_c ;;
            switch among_var
              [ (0, c_from_l m_keep ;;
                    goto 3);
                (1, routine r_R2 (c_from_l m_keep ;; goto 3) ;;
                    checked slice_del) ]));
      (9, routine r_R2 (creturn 0) ;;
          checked slice_del ;;
          m_keep <- get_m ;;
          ket_c ;;
          label 4 (
            unless_call (eq_s_b 2 (sy s_16)) (c_from_l m_keep ;; goto 4) ;;
            bra_c ;;
            routine r_R2 (c_from_l m_keep ;; goto 4) ;;
            checked slice_del)) ] ;;
  creturn 1).

Definition r_y_verb_suffix : cfunc := cfun (
  m1 <- get_m ;;
  i <- get_I 0 ;;
  c <- get sn_c ;;
  when (c <? i) (creturn 0) ;;
  i <- get_I 0 ;;
  c_is i ;;
  mlimit <- get sn_lb ;;
  put (fun z => set_lb (sn_c z) z) ;;
  c_from_l m1 ;;
  ket_c ;;
  among_var <- call (find_among_b a_7 12) ;;
  when (among_var =? 0) (put (set_lb mlimit) ;; creturn 0) ;;
  bra_c ;;
  put (set_lb mlimit) ;;
  switch among_var
    [ (0, creturn 0);
      (1, unless_call (eq_s_b 1 (sy s_17)) (creturn 0) ;;
          checked slice_del) ] ;;
  creturn 1).

Definition r_verb_suffix : cfunc := cfun (
  m1 <- get_m ;;
  i <- get_I 0 ;;
  c <- get sn_c ;;
  when (c <? i) (creturn 0) ;;
  i <- get_I 0 ;;
  c_is i ;;
  mlimit <- get sn_lb ;;
  put (fun z => set_lb (sn_c z) z) ;;
  c_from_l m1 ;;
  ket_c ;;
  among_var <- call (find_among_b a_8 96) ;;
  when (among_var =? 0) (put (set_lb mlimit) ;; creturn 0) ;;
  bra_c ;;
  put (set_lb mlimit) ;;
  switch among_var
    [ (0, creturn 0);
      (1, m_keep <- get_m ;;
          label 0 (
            unless_call (eq_s_b 1 (sy s_18)) (c_from_l m_keep ;; goto 0) ;;
            m_test <- get_m ;;
            unless_call (eq_s_b 1 (sy s_19)) (c_from_l m_keep ;; goto 0) ;;
            c_from_l m_test) ;;
          bra_c ;;
          checked slice_del);
      (2, checked slice_del) ] ;;
  creturn 1).

Definition r_residual_suffix : cfunc := cfun (
  ket_c ;;
  among_var <- call (find_among_b a_9 8) ;;
  when (among_var =? 0) (creturn 0) ;;
  bra_c ;;
  switch among_var
    [ (0, creturn 0);
      (1, routine r_RV (creturn 0) ;;
          checked slice_del);
      (2, routine r_RV (creturn 0) ;;
          checked slice_del ;;
          m_keep <- get_m ;;
          ket_c ;;
          label 0 (
            unless_call (eq_s_b 1 (sy s_20)) (c_from_l m_keep ;; goto 0) ;;
            bra_c ;;
            m_test <- get_m ;;
            unless_call (eq_s_b 1 (sy s_21)) (c_from_l m_keep ;; goto 0) ;;
            c_from_l m_test ;;
            routine r_RV (c_from_l m_keep ;; goto 0) ;;
            checked slice_del)) ] ;;
  creturn 1).

Definition spanish_ISO_8859_1_stem : cfunc := cfun (
  do_f 0 r_mark_regions ;;
  put (fun z => set_lb (sn_c z) z) ;;
  put (fun z => set_c (sn_l z) z) ;;
  do_b 1 r_attached_pronoun ;;
  m3 <- get_m ;;
  label 2 (
    label 3 (
      m4 <- get_m ;;
      label 4 (
        routine r_standard_suffix (goto 4) ;;
        goto 3) ;;
      c_from_l m4 ;;
      label 5 (
        routine r_y_verb_suffix (goto 5) ;;
        goto 3) ;;
      c_from_l m4 ;;
      routine r_verb_suffix (goto 2))) ;;
  c_from_l m3 ;;
  do_b 6 r_residual_suffix ;;
  put (fun z => set_c (sn_lb z) z) ;;
  do_f 7 r_postlude ;;
  creturn 1).

Definition spanish_ISO_8859_1_create_env : option (option SN_env) := SN_create_env 0 3 0.
Definition spanish_ISO_8859_1_close_env (z : option SN_env) : option unit := SN_close_env z 0.
End Routines.

(** ** Safety of every routine *)
Section Safety.
Context `{CHeap} (k L : Z).
Abbreviation St := (st k L 3 0).
Abbreviation step_ok := (step_at k L 3 0 0).
Abbreviation fwd_ok := (fwd_ok k L 3 0).

Lemma esi_mark_regions_ok : fwd_ok r_mark_regions.
Proof. intros w z S. unfold r_mark_regions. read_code S; fwd_done. Qed.

Lemma esi_postlude_ok : fwd_ok r_postlude.
Proof. intros w z S. unfold r_postlude. walk. Qed.

Lemma esi_RV_ok w z : St w z -> returns r_RV z (fun v z' => 0 <= v /\ z' = z).
Proof. intros S. unfold r_RV. repeat wp_step; split; (done || lia). Qed.

Lemma esi_R1_ok w z : St w z -> returns r_R1 z (fun v z' => 0 <= v /\ z' = z).
Proof. intros S. unfold r_R1. repeat wp_step; split; (done || lia). Qed.

Lemma esi_R2_ok w z : St w z -> returns r_R2 z (fun v z' => 0 <= v /\ z' = z).
Proof. intros S. unfold r_R2. repeat wp_step; split; (done || lia). Qed.

Ltac routine_rule ::=
  lazymatch goal with
  | |- returns r_RV _ _ => eapply returns_mono; [eapply esi_RV_ok; st_solve|intros ? ? (? & ->)]
  | |- returns r_R1 _ _ => eapply returns_mono; [eapply esi_R1_ok; st_solve|intros ? ? (? & ->)]
  | |- returns r_R2 _ _ => eapply returns_mono; [eapply esi_R2_ok; st_solve|intros ? ? (? & ->)]
  end.

Lemma esi_attached_pronoun_ok : step_ok r_attached_pronoun.
Proof. intros w z S Hlb. unfold r_attached_pronoun. repeat wp_step; step_end. Qed.

Lemma esi_standard_suffix_ok : step_ok r_standard_suffix.
Proof. intros w z S Hlb. unfold r_standard_suffix. repeat wp_step; step_end. Qed.

Lemma esi_y_verb_suffix_ok : step_ok r_y_verb_suffix.
Proof. intros w z S Hlb. unfold r_y_verb_suffix. repeat wp_step; step_end. Qed.

Lemma esi_verb_suffix_ok : step_ok r_verb_suffix.
Proof. intros w z S Hlb. unfold r_verb_suffix. repeat wp_step; step_end. Qed.

Lemma esi_residual_suffix_ok : step_ok r_residual_suffix.
Proof. intros w z S Hlb. unfold r_residual_suffix. repeat wp_step; step_end. Qed.

Ltac routine_rule ::=
  lazymatch goal with
  | |- returns r_RV _ _ => eapply returns_mono; [eapply esi_RV_ok; st_solve|intros ? ? (? & ->)]
  | |- returns r_R1 _ _ => eapply returns_mono; [eapply esi_R1_ok; st_solve|intros ? ? (? & ->)]
  | |- returns r_R2 _ _ => eapply returns_mono; [eapply esi_R2_ok; st_solve|intros ? ? (? & ->)]
  | |- returns r_standard_suffix _ _ => eapply returns_mono; [eapply esi_standard_suffix_ok; [st_solve|sn_cbn; sn_lia || congruence..]|intros ? ? (? & ? & ? & ?)]
  | |- returns r_y_verb_suffix _ _ => eapply returns_mono; [eapply esi_y_verb_suffix_ok; [st_solve|sn_cbn; sn_lia || congruence..]|intros ? ? (? & ? & ? & ?)]
  | |- returns r_verb_suffix _ _ => eapply returns_mono; [eapply esi_verb_suffix_ok; [st_solve|sn_cbn; sn_lia || congruence..]|intros ? ? (? & ? & ? & ?)]
  end.

Ltac run_f H := eapply (do_f_ok k L 3 0 _ _ H); [st_solve|intros ? ? ? ? ?; edit_code 0].
Ltac run_b H := eapply (do_b_at k L 3 0 _ _ 0 H); [st_solve|sn_cbn; sn_lia || congruence..|intros ? ? ? ? ?; edit_code 0].

Lemma esi_stem_ok w z : St w z -> sn_c z = 0 ->
  returns spanish_ISO_8859_1_stem z (fun v z' => v = 1 /\ exists w', St w' z' /\ (sn_lb z' = sn_lb z \/ sn_lb z' = sn_c z)).
Proof.
  intros S Hc. unfold spanish_ISO_8859_1_stem. repeat wp_step.
  run_f esi_mark_regions_ok.
  run_b esi_attached_pronoun_ok.
  run_b esi_residual_suffix_ok.
  run_f esi_postlude_ok.
  split; [done|]; eexists; split; [st_solve|right; sn_cbn; congruence].
Qed.
End Safety.
