(* ===== verification/ItalianIso.v ===== *)
(** * The Italian stemmer on ISO-8859-1: [src_c/stem_ISO_8859_1_italian.c]

    The generated C, statement for statement, and the proof that stemming is
    free of undefined behaviour, terminates and never lengthens the word. *)

From S2P Require Import Prelude SnEnv SnRuntime SnSpec SnAmong SnCode SnLoops.

Open Scope sn_scope.

(** ** Tables *)
Definition a_0 : list among :=
  [ mk_among 0 [] (-1) 7 None; mk_among 2 (str "qu") 0 6 None; mk_among 1 ([225]) 0 1 None;
    mk_among 1 ([233]) 0 2 None; mk_among 1 ([237]) 0 3 None; mk_among 1 ([243]) 0 4 None;
    mk_among 1 ([250]) 0 5 None ].

Definition a_1 : list among :=
  [ mk_among 0 [] (-1) 3 None; mk_among 1 (str "I") 0 1 None; mk_among 1 (str "U") 0 2 None ].

Definition a_2 : list among :=
  [ mk_among 2 (str "la") (-1) (-1) None; mk_among 4 (str "cela") 0 (-1) None;
    mk_among 6 (str "gliela") 0 (-1) None; mk_among 4 (str "mela") 0 (-1) None;
    mk_among 4 (str "tela") 0 (-1) None; mk_among 4 (str "vela") 0 (-1) None;
    mk_among 2 (str "le") (-1) (-1) None; mk_among 4 (str "cele") 6 (-1) None;
    mk_among 6 (str "gliele") 6 (-1) None; mk_among 4 (str "mele") 6 (-1) None;
    mk_among 4 (str "tele") 6 (-1) None; mk_among 4 (str "vele") 6 (-1) None;
    mk_among 2 (str "ne") (-1) (-1) None; mk_among 4 (str "cene") 12 (-1) None;
    mk_among 6 (str "gliene") 12 (-1) None; mk_among 4 (str "mene") 12 (-1) None;
    mk_among 4 (str "sene") 12 (-1) None; mk_among 4 (str "tene") 12 (-1) None;
    mk_among 4 (str "vene") 12 (-1) None; mk_among 2 (str "ci") (-1) (-1) None;
    mk_among 2 (str "li") (-1) (-1) None; mk_among 4 (str "celi") 20 (-1) None;
    mk_among 6 (str "glieli") 20 (-1) None; mk_among 4 (str "meli") 20 (-1) None;
    mk_among 4 (str "teli") 20 (-1) None; mk_among 4 (str "veli") 20 (-1) None;
    mk_among 3 (str "gli") 20 (-1) None; mk_among 2 (str "mi") (-1) (-1) None;
    mk_among 2 (str "si") (-1) (-1) None; mk_among 2 (str "ti") (-1) (-1) None;
    mk_among 2 (str "vi") (-1) (-1) None; mk_among 2 (str "lo") (-1) (-1) None;
    mk_among 4 (str "celo") 31 (-1) None; mk_among 6 (str "glielo") 31 (-1) None;
    mk_among 4 (str "melo") 31 (-1) None; mk_among 4 (str "telo") 31 (-1) None;
    mk_among 4 (str "velo") 31 (-1) None ].

Definition a_3 : list among :=
  [ mk_among 4 (str "ando") (-1) 1 None; mk_among 4 (str "endo") (-1) 1 None;
    mk_among 2 (str "ar") (-1) 2 None; mk_among 2 (str "er") (-1) 2 None;
    mk_among 2 (str "ir") (-1) 2 None ].

Definition a_4 : list among :=
  [ mk_among 2 (str "ic") (-1) (-1) None; mk_among 4 (str "abil") (-1) (-1) None;
    mk_among 2 (str "os") (-1) (-1) None; mk_among 2 (str "iv") (-1) 1 None ].

Definition a_5 : list among :=
  [ mk_among 2 (str "ic") (-1) 1 None; mk_among 4 (str "abil") (-1) 1 None;
    mk_among 2 (str "iv") (-1) 1 None ].

Definition a_6 : list among :=
  [ mk_among 3 (str "ica") (-1) 1 None; mk_among 5 (str "logia") (-1) 3 None;
    mk_among 3 (str "osa") (-1) 1 None; mk_among 4 (str "ista") (-1) 1 None;
    mk_among 3 (str "iva") (-1) 9 None; mk_among 4 (str "anza") (-1) 1 None;
    mk_among 4 (str "enza") (-1) 5 None; mk_among 3 (str "ice") (-1) 1 None;
    mk_among 6 (str "atrice") 7 1 None; mk_among 4 (str "iche") (-1) 1 None;
    mk_among 5 (str "logie") (-1) 3 None; mk_among 5 (str "abile") (-1) 1 None;
    mk_among 5 (str "ibile") (-1) 1 None; mk_among 6 (str "usione") (-1) 4 None;
    mk_among 6 (str "azione") (-1) 2 None; mk_among 6 (str "uzione") (-1) 4 None;
    mk_among 5 (str "atore") (-1) 2 None; mk_among 3 (str "ose") (-1) 1 None;
    mk_among 4 (str "ante") (-1) 1 None; mk_among 5 (str "mente") (-1) 1 None;
    mk_among 6 (str "amente") 19 7 None; mk_among 4 (str "iste") (-1) 1 None;
    mk_among 3 (str "ive") (-1) 9 None; mk_among 4 (str "anze") (-1) 1 None;
    mk_among 4 (str "enze") (-1) 5 None; mk_among 3 (str "ici") (-1) 1 None;
    mk_among 6 (str "atrici") 25 1 None; mk_among 4 (str "ichi") (-1) 1 None;
    mk_among 5 (str "abili") (-1) 1 None; mk_among 5 (str "ibili") (-1) 1 None;
    mk_among 4 (str "ismi") (-1) 1 None; mk_among 6 (str "usioni") (-1) 4 None;
    mk_among 6 (str "azioni") (-1) 2 None; mk_among 6 (str "uzioni") (-1) 4 None;
    mk_among 5 (str "atori") (-1) 2 None; mk_among 3 (str "osi") (-1) 1 None;
    mk_among 4 (str "anti") (-1) 1 None; mk_among 6 (str "amenti") (-1) 6 None;
    mk_among 6 (str "imenti") (-1) 6 None; mk_among 4 (str "isti") (-1) 1 None;
    mk_among 3 (str "ivi") (-1) 9 None; mk_among 3 (str "ico") (-1) 1 None;
    mk_among 4 (str "ismo") (-1) 1 None; mk_among 3 (str "oso") (-1) 1 None;
    mk_among 6 (str "amento") (-1) 6 None; mk_among 6 (str "imento") (-1) 6 None;
    mk_among 3 (str "ivo") (-1) 9 None; mk_among 3 ([105; 116; 224]) (-1) 8 None;
    mk_among 4 ([105; 115; 116; 224]) (-1) 1 None; mk_among 4 ([105; 115; 116; 232]) (-1) 1 None;
    mk_among 4 ([105; 115; 116; 236]) (-1) 1 None ].

Definition a_7 : list among :=
  [ mk_among 4 (str "isca") (-1) 1 None; mk_among 4 (str "enda") (-1) 1 None;
    mk_among 3 (str "ata") (-1) 1 None; mk_among 3 (str "ita") (-1) 1 None;
    mk_among 3 (str "uta") (-1) 1 None; mk_among 3 (str "ava") (-1) 1 None;
    mk_among 3 (str "eva") (-1) 1 None; mk_among 3 (str "iva") (-1) 1 None;
    mk_among 6 (str "erebbe") (-1) 1 None; mk_among 6 (str "irebbe") (-1) 1 None;
    mk_among 4 (str "isce") (-1) 1 None; mk_among 4 (str "ende") (-1) 1 None;
    mk_among 3 (str "are") (-1) 1 None; mk_among 3 (str "ere") (-1) 1 None;
    mk_among 3 (str "ire") (-1) 1 None; mk_among 4 (str "asse") (-1) 1 None;
    mk_among 3 (str "ate") (-1) 1 None; mk_among 5 (str "avate") 16 1 None;
    mk_among 5 (str "evate") 16 1 None; mk_among 5 (str "ivate") 16 1 None;
    mk_among 3 (str "ete") (-1) 1 None; mk_among 5 (str "erete") 20 1 None;
    mk_among 5 (str "irete") 20 1 None; mk_among 3 (str "ite") (-1) 1 None;
    mk_among 6 (str "ereste") (-1) 1 None; mk_among 6 (str "ireste") (-1) 1 None;
    mk_among 3 (str "ute") (-1) 1 None; mk_among 4 (str "erai") (-1) 1 None;
    mk_among 4 (str "irai") (-1) 1 None; mk_among 4 (str "isci") (-1) 1 None;
    mk_among 4 (str "endi") (-1) 1 None; mk_among 4 (str "erei") (-1) 1 None;
    mk_among 4 (str "irei") (-1) 1 None; mk_among 4 (str "assi") (-1) 1 None;
    mk_among 3 (str "ati") (-1) 1 None; mk_among 3 (str "iti") (-1) 1 None;
    mk_among 6 (str "eresti") (-1) 1 None; mk_among 6 (str "iresti") (-1) 1 None;
    mk_among 3 (str "uti") (-1) 1 None; mk_among 3 (str "avi") (-1) 1 None;
    mk_among 3 (str "evi") (-1) 1 None; mk_among 3 (str "ivi") (-1) 1 None;
    mk_among 4 (str "isco") (-1) 1 None; mk_among 4 (str "ando") (-1) 1 None;
    mk_among 4 (str "endo") (-1) 1 None; mk_among 4 (str "Yamo") (-1) 1 None;
    mk_among 4 (str "iamo") (-1) 1 None; mk_among 5 (str "avamo") (-1) 1 None;
    mk_among 5 (str "evamo") (-1) 1 None; mk_among 5 (str "ivamo") (-1) 1 None;
    mk_among 5 (str "eremo") (-1) 1 None; mk_among 5 (str "iremo") (-1) 1 None;
    mk_among 6 (str "assimo") (-1) 1 None; mk_among 4 (str "ammo") (-1) 1 None;
    mk_among 4 (str "emmo") (-1) 1 None; mk_among 6 (str "eremmo") 54 1 None;
    mk_among 6 (str "iremmo") 54 1 None; mk_among 4 (str "immo") (-1) 1 None;
    mk_among 3 (str "ano") (-1) 1 None; mk_among 6 (str "iscano") 58 1 None;
    mk_among 5 (str "avano") 58 1 None; mk_among 5 (str "evano") 58 1 None;
    mk_among 5 (str "ivano") 58 1 None; mk_among 6 (str "eranno") (-1) 1 None;
    mk_among 6 (str "iranno") (-1) 1 None; mk_among 3 (str "ono") (-1) 1 None;
    mk_among 6 (str "iscono") 65 1 None; mk_among 5 (str "arono") 65 1 None;
    mk_among 5 (str "erono") 65 1 None; mk_among 5 (str "irono") 65 1 None;
    mk_among 8 (str "erebbero") (-1) 1 None; mk_among 8 (str "irebbero") (-1) 1 None;
    mk_among 6 (str "assero") (-1) 1 None; mk_among 6 (str "essero") (-1) 1 None;
    mk_among 6 (str "issero") (-1) 1 None; mk_among 3 (str "ato") (-1) 1 None;
    mk_among 3 (str "ito") (-1) 1 None; mk_among 3 (str "uto") (-1) 1 None;
    mk_among 3 (str "avo") (-1) 1 None; mk_among 3 (str "evo") (-1) 1 None;
    mk_among 3 (str "ivo") (-1) 1 None; mk_among 2 (str "ar") (-1) 1 None;
    mk_among 2 (str "ir") (-1) 1 None; mk_among 3 ([101; 114; 224]) (-1) 1 None;
    mk_among 3 ([105; 114; 224]) (-1) 1 None; mk_among 3 ([101; 114; 242]) (-1) 1 None;
    mk_among 3 ([105; 114; 242]) (-1) 1 None ].

Definition g_v : list Z := [17; 65; 16; 0; 0; 0; 0; 0; 0; 0; 0; 0; 0; 0; 0; 128; 128; 8; 2; 1].

Definition g_AEIO : list Z := [17; 65; 0; 0; 0; 0; 0; 0; 0; 0; 0; 0; 0; 0; 0; 128; 128; 8; 2].

Definition g_CG : list Z := [17].

Definition s_0 : list Z := [224].
Definition s_1 : list Z := [232].
Definition s_2 : list Z := [236].
Definition s_3 : list Z := [242].
Definition s_4 : list Z := [249].
Definition s_5 : list Z := str "qU".
Definition s_6 : list Z := str "u".
Definition s_7 : list Z := str "U".
Definition s_8 : list Z := str "i".
Definition s_9 : list Z := str "I".
Definition s_10 : list Z := str "i".
Definition s_11 : list Z := str "u".
Definition s_12 : list Z := str "e".
Definition s_13 : list Z := str "ic".
Definition s_14 : list Z := str "log".
Definition s_15 : list Z := str "u".
Definition s_16 : list Z := str "ente".
Definition s_17 : list Z := str "at".
Definition s_18 : list Z := str "at".
Definition s_19 : list Z := str "ic".
Definition s_20 : list Z := str "i".
Definition s_21 : list Z := str "h".

(** ** Routines *)
Section Routines.
Context `{CHeap}.

Definition r_prelude : cfunc := cfun (
  c_test <- get sn_c ;;
  loop (
    c1 <- get sn_c ;;
    bra_c ;;
    among_var <- call (find_among a_0 7) ;;
    label 0 (
      when (among_var =? 0) (goto 0) ;;
      ket_c ;;
      switch among_var
        [ (0, goto 0);
          (1, checked (slice_from_s 1 (sy s_0)));
          (2, checked (slice_from_s 1 (sy s_1)));
          (3, checked (slice_from_s 1 (sy s_2)));
          (4, checked (slice_from_s 1 (sy s_3)));
          (5, checked (slice_from_s 1 (sy s_4)));
          (6, checked (slice_from_s 2 (sy s_5)));
          (7, next_byte (goto 0)) ] ;;
      cont) ;;
    c_is c1 ;;
    brk) ;;
  c_is c_test ;;
  loop (
    c2 <- get sn_c ;;
    label 1 (
      loop (
        c3 <- get sn_c ;;
        label 2 (
          if_call (in_grouping g_v 97 249 0) (goto 2) ;;
          bra_c ;;
          label 3 (
            c4 <- get sn_c ;;
            label 4 (
              unless_call (eq_s 1 (sy s_6)) (goto 4) ;;
              ket_c ;;
              if_call (in_grouping g_v 97 249 0) (goto 4) ;;
              checked (slice_from_s 1 (sy s_7)) ;;
              goto 3) ;;
            c_is c4 ;;
            unless_call (eq_s 1 (sy s_8)) (goto 2) ;;
            ket_c ;;
            if_call (in_grouping g_v 97 249 0) (goto 2) ;;
            checked (slice_from_s 1 (sy s_9))) ;;
          c_is c3 ;;
          brk) ;;
        c_is c3 ;;
        next_byte (goto 1)) ;;
      cont) ;;
    c_is c2 ;;
    brk) ;;
  creturn 1).

Definition r_mark_regions : cfunc := cfun (
  l <- get sn_l ;;
  put_I 0 l ;;
  l <- get sn_l ;;
  put_I 1 l ;;
  l <- get sn_l ;;
  put_I 2 l ;;
  c1 <- get sn_c ;;
  label 0 (
    label 1 (
      c2 <- get sn_c ;;
      label 2 (
        if_call (in_grouping g_v 97 249 0) (goto 2) ;;
        label 3 (
          c3 <- get sn_c ;;
          label 4 (
            if_call (out_grouping g_v 97 249 0) (goto 4) ;;
            gopast (out_grouping g_v 97 249 1) (goto 4) ;;
            goto 3) ;;
          c_is c3 ;;
          if_call (in_grouping g_v 97 249 0) (goto 2) ;;
          gopast (in_grouping g_v 97 249 1) (goto 2)) ;;
        goto 1) ;;
      c_is c2 ;;
      if_call (out_grouping g_v 97 249 0) (goto 0) ;;
      label 5 (
        c4 <- get sn_c ;;
        label 6 (
          if_call (out_grouping g_v 97 249 0) (goto 6) ;;
          gopast (out_grouping g_v 97 249 1) (goto 6) ;;
          goto 5) ;;
        c_is c4 ;;
        if_call (in_grouping g_v 97 249 0) (goto 0) ;;
        next_byte (goto 0))) ;;
    c <- get sn_c ;;
    put_I 0 c) ;;
  c_is c1 ;;
  c5 <- get sn_c ;;
  label 7 (
    gopast (out_grouping g_v 97 249 1) (goto 7) ;;
    gopast (in_grouping g_v 97 249 1) (goto 7) ;;
    c <- get sn_c ;;
    put_I 1 c ;;
    gopast (out_grouping g_v 97 249 1) (goto 7) ;;
    gopast (in_grouping g_v 97 249 1) (goto 7) ;;
    c <- get sn_c ;;
    put_I 2 c) ;;
  c_is c5 ;;
  creturn 1).

Definition r_postlude : cfunc := cfun (
  loop (
    c1 <- get sn_c ;;
    bra_c ;;
    b <- pre_f 0 (fun ch => negb (ch =? 73) && negb (ch =? 85)) ;;
    among_var <- (if b : bool then ret 3 else call (find_among a_1 3)) ;;
    label 0 (
      when (among_var =? 0) (goto 0) ;;
      ket_c ;;
      switch among_var
        [ (0, goto 0);
          (1, checked (slice_from_s 1 (sy s_10)));
          (2, checked (slice_from_s 1 (sy s_11)));
          (3, next_byte (goto 0)) ] ;;
      cont) ;;
    c_is c1 ;;
    brk) ;;
  creturn 1).

Definition r_RV : cfunc := cfun (
  i <- get_I 0 ;;
  c <- get sn_c ;;
  when (negb (i <=? c)) (creturn 0) ;;
  creturn 1).

Definition r_R1 : cfunc := cfun (
  i <- get_I 1 ;;
  c <- get sn_c ;;
  when (negb (i <=? c)) (creturn 0) ;;
  creturn 1).

Definition r_R2 : cfunc := cfun (
  i <- get_I 2 ;;
  c <- get sn_c ;;
  when (negb (i <=? c)) (creturn 0) ;;
  creturn 1).

Definition r_attached_pronoun : cfunc := cfun (
  ket_c ;;
  b <- pre_b 1 (not_masked 3 33314) ;;
  when b (creturn 0) ;;
  unless_call (find_among_b a_2 37) (creturn 0) ;;
  bra_c ;;
  b <- pre_b 1 (fun ch => negb (ch =? 111) && negb (ch =? 114)) ;;
  when b (creturn 0) ;;
  among_var <- call (find_among_b a_3 5) ;;
  when (among_var =? 0) (creturn 0) ;;
  routine r_RV (creturn 0) ;;
  switch among_var
    [ (0, creturn 0);
      (1, checked slice_del);
      (2, checked (slice_from_s 1 (sy s_12))) ] ;;
  creturn 1).

Definition r_standard_suffix : cfunc := cfun (
  ket_c ;;
  among_var <- call (find_among_b a_6 51) ;;
  when (among_var =? 0) (creturn 0) ;;
  bra_c ;;
  switch among_var
    [ (0, creturn 0);
      (1, routine r_R2 (creturn 0) ;;
          checked slice_del);
      (2, routine r_R2 (creturn 0) ;;
          checked slice_del ;;
          m_keep <- get_m ;;
          ket_c ;;
          label 0 (
            unless_call (eq_s_b 2 (sy s_13)) (c_from_l m_keep ;; goto 0) ;;
            bra_c ;;
            routine r_R2 (c_from_l m_keep ;; goto 0) ;;
            checked slice_del));
      (3, routine r_R2 (creturn 0) ;;
          checked (slice_from_s 3 (sy s_14)));
      (4, routine r_R2 (creturn 0) ;;
          checked (slice_from_s 1 (sy s_15)));
      (5, routine r_R2 (creturn 0) ;;
          checked (slice_from_s 4 (sy s_16)));
      (6, routine r_RV (creturn 0) ;;
          checked slice_del);
      (7, routine r_R1 (creturn 0) ;;
          checked slice_del ;;
          m_keep <- get_m ;;
          ket_c ;;
          label 1 (
            b <- pre_b 1 (not_masked 3 4722696) ;;
            when b (c_from_l m_keep ;; goto 1) ;;
            among_var <- call (find_among_b a_4 4) ;;
            when (among_var =? 0) (c_from_l m_keep ;; goto 1) ;;
            bra_c ;;
            routine r_R2 (c_from_l m_keep ;; goto 1) ;;
            checked slice_del ;;
            switch among_var
              [ (0, c_from_l m_keep ;;
                    goto 1);
                (1, ket_c ;;
                    unless_call (eq_s_b 2 (sy s_17)) (c_from_l m_keep ;; goto 1) ;;
                    bra_c ;;
                    routine r_R2 (c_from_l m_keep ;; goto 1) ;;
                    checked slice_del) ]));
      (8, routine r_R2 (creturn 0) ;;
          checked slice_del ;;
          m_keep <- get_m ;;
          ket_c ;;
          label 2 (
            b <- pre_b 1 (not_masked 3 4198408) ;;
            when b (c_from_l m_keep ;; goto 2) ;;
            among_var <- call (find_among_b a_5 3) ;;
            when (among_var =? 0) (c_from_l m_keep ;; goto 2) ;;
            bra_c ;;
            switch among_var
              [ (0, c_from_l m_keep ;;
                    goto 2);
                (1, routine r_R2 (c_from_l m_keep ;; goto 2) ;;
                    checked slice_del) ]));
      (9, routine r_R2 (creturn 0) ;;
          checked slice_del ;;
          m_keep <- get_m ;;
          ket_c ;;
          label 3 (
            unless_call (eq_s_b 2 (sy s_18)) (c_from_l m_keep ;; goto 3) ;;
            bra_c ;;
            routine r_R2 (c_from_l m_keep ;; goto 3) ;;
            checked slice_del ;;
            ket_c ;;
            unless_call (eq_s_b 2 (sy s_19)) (c_from_l m_keep ;; goto 3) ;;
            bra_c ;;
            routine r_R2 (c_from_l m_keep ;; goto 3) ;;
            checked slice_del)) ] ;;
  creturn 1).

Definition r_verb_suffix : cfunc := cfun (
  m1 <- get_m ;;
  i <- get_I 0 ;;
  c <- get sn_c ;;
  when (c <? i) (creturn 0) ;;
  i <- get_I 0 ;;
  c_is i ;;
  mlimit <- get sn_lb ;;
  put (fun z => set_lb (sn_c z) z) ;;
  c_from_l m1 ;;
  ket_c ;;
  among_var <- call (find_among_b a_7 87) ;;
  when (among_var =? 0) (put (set_lb mlimit) ;; creturn 0) ;;
  bra_c ;;
  switch among_var
    [ (0, put (set_lb mlimit) ;;
          creturn 0);
      (1, checked slice_del) ] ;;
  put (set_lb mlimit) ;;
  creturn 1).

Definition r_vowel_suffix : cfunc := cfun (
  m_keep <- get_m ;;
  ket_c ;;
  label 0 (
    if_call (in_grouping_b g_AEIO 97 242 0) (c_from_l m_keep ;; goto 0) ;;
    bra_c ;;
    routine r_RV (c_from_l m_keep ;; goto 0) ;;
    checked slice_del ;;
    ket_c ;;
    unless_call (eq_s_b 1 (sy s_20)) (c_from_l m_keep ;; goto 0) ;;
    bra_c ;;
    routine r_RV (c_from_l m_keep ;; goto 0) ;;
    checked slice_del) ;;
  m_keep <- get_m ;;
  ket_c ;;
  label 1 (
    unless_call (eq_s_b 1 (sy s_21)) (c_from_l m_keep ;; goto 1) ;;
    bra_c ;;
    if_call (in_grouping_b g_CG 99 103 0) (c_from_l m_keep ;; goto 1) ;;
    routine r_RV (c_from_l m_keep ;; goto 1) ;;
    checked slice_del) ;;
  creturn 1).

Definition italian_ISO_8859_1_stem : cfunc := cfun (
  do_f 0 r_prelude ;;
  do_f 1 r_mark_regions ;;
  put (fun z => set_lb (sn_c z) z) ;;
  put (fun z => set_c (sn_l z) z) ;;
  do_b 2 r_attached_pronoun ;;
  m4 <- get_m ;;
  label 3 (
    label 4 (
      m5 <- get_m ;;
      label 5 (
        routine r_standard_suffix (goto 5) ;;
        goto 4) ;;
      c_from_l m5 ;;
      routine r_verb_suffix (goto 3))) ;;
  c_from_l m4 ;;
  do_b 6 r_vowel_suffix ;;
  put (fun z => set_c (sn_lb z) z) ;;
  do_f 7 r_postlude ;;
  creturn 1).

Definition italian_ISO_8859_1_create_env : option (option SN_env) := SN_create_env 0 3 0.
Definition italian_ISO_8859_1_close_env (z : option SN_env) : option unit := SN_close_env z 0.
End Routines.

(** ** Safety of every routine *)
Section Safety.
Context `{CHeap} (k L : Z).
Abbreviation St := (st k L 3 0).
Abbreviation step_ok := (step_at k L 3 0 0).
Abbreviation fwd_ok := (fwd_ok k L 3 0).

Lemma iti_prelude_ok : fwd_ok r_prelude.
Proof. intros w z S. unfold r_prelude. repeat wp_step.
  eapply walk_loop; [st_solve|intros ? ? ? ? ?; repeat wp_step; walk_end|].
  intros ? ? ? ? ?. repeat wp_step. remark [117; 105]. Qed.

Lemma iti_mark_regions_ok : fwd_ok r_mark_regions.
Proof. intros w z S. unfold r_mark_regions. read_code S; fwd_done. Qed.

Lemma iti_postlude_ok : fwd_ok r_postlude.
Proof. intros w z S. unfold r_postlude. walk. Qed.

Lemma iti_RV_ok w z : St w z -> returns r_RV z (fun v z' => 0 <= v /\ z' = z).
Proof. intros S. unfold r_RV. repeat wp_step; split; (done || lia). Qed.

Lemma iti_R1_ok w z : St w z -> returns r_R1 z (fun v z' => 0 <= v /\ z' = z).
Proof. intros S. unfold r_R1. repeat wp_step; split; (done || lia). Qed.

Lemma iti_R2_ok w z : St w z -> returns r_R2 z (fun v z' => 0 <= v /\ z' = z).
Proof. intros S. unfold r_R2. repeat wp_step; split; (done || lia). Qed.

Ltac routine_rule ::=
  lazymatch goal with
  | |- returns r_RV _ _ => eapply returns_mono; [eapply iti_RV_ok; st_solve|intros ? ? (? & ->)]
  | |- returns r_R1 _ _ => eapply returns_mono; [eapply iti_R1_ok; st_solve|intros ? ? (? & ->)]
  | |- returns r_R2 _ _ => eapply returns_mono; [eapply iti_R2_ok; st_solve|intros ? ? (? & ->)]
  end.

Lemma iti_attached_pronoun_ok : step_ok r_attached_pronoun.
Proof. intros w z S Hlb. unfold r_attached_pronoun. repeat wp_step; step_end. Qed.

Lemma iti_standard_suffix_ok : step_ok r_standard_suffix.
Proof. intros w z S Hlb. unfold r_standard_suffix. repeat wp_step; step_end. Qed.

Lemma iti_verb_suffix_ok : step_ok r_verb_suffix.
Proof. intros w z S Hlb. unfold r_verb_suffix. repeat wp_step; step_end. Qed.

Lemma iti_vowel_suffix_ok : step_ok r_vowel_suffix.
Proof. intros w z S Hlb. unfold r_vowel_suffix. repeat wp_step; step_end. Qed.

Ltac routine_rule ::=
  lazymatch goal with
  | |- returns r_RV _ _ => eapply returns_mono; [eapply iti_RV_ok; st_solve|intros ? ? (? & ->)]
  | |- returns r_R1 _ _ => eapply returns_mono; [eapply iti_R1_ok; st_solve|intros ? ? (? & ->)]
  | |- returns r_R2 _ _ => eapply returns_mono; [eapply iti_R2_ok; st_solve|intros ? ? (? & ->)]
  | |- returns r_standard_suffix _ _ => eapply returns_mono; [eapply iti_standard_suffix_ok; [st_solve|sn_cbn; sn_lia || congruence..]|intros ? ? (? & ? & ? & ?)]
  | |- returns r_verb_suffix _ _ => eapply returns_mono; [eapply iti_verb_suffix_ok; [st_solve|sn_cbn; sn_lia || congruence..]|intros ? ? (? & ? & ? & ?)]
  end.

Ltac run_f H := eapply (do_f_ok k L 3 0 _ _ H); [st_solve|intros ? ? ? ? ?; edit_code 0].
Ltac run_b H := eapply (do_b_at k L 3 0 _ _ 0 H); [st_solve|sn_cbn; sn_lia || congruence..|intros ? ? ? ? ?; edit_code 0].

Lemma iti_stem_ok w z : St w z -> sn_c z = 0 ->
  returns italian_ISO_8859_1_stem z (fun v z' => v = 1 /\ exists w', St w' z' /\ (sn_lb z' = sn_lb z \/ sn_lb z' = sn_c z)).
Proof.
  intros S Hc. unfold italian_ISO_8859_1_stem. repeat wp_step.
  run_f iti_prelude_ok.
  run_f iti_mark_regions_ok.
  run_b iti_attached_pronoun_ok.
  run_b iti_vowel_suffix_ok.
  run_f iti_postlude_ok.
  split; [done|]; eexists; split; [st_solve|right; sn_cbn; congruence].
Qed.
End Safety.
