(* ===== verification/Romanian.v ===== *)
(** * The Romanian stemmer on UTF-8: [src_c/stem_UTF_8_romanian.c]

    The generated C, statement for statement, and the proof that stemming is
    free of undefined behaviour, terminates and never lengthens the word. *)

From S2P Require Import Prelude SnEnv SnRuntime SnSpec SnAmong SnCode SnLoops.

Open Scope sn_scope.

(** ** Tables *)
Definition a_0 : list among :=
  [ mk_among 0 [] (-1) 3 None; mk_among 1 (str "I") 0 1 None; mk_among 1 (str "U") 0 2 None ].

Definition a_1 : list among :=
  [ mk_among 2 (str "ea") (-1) 3 None; mk_among 5 ([97; 197; 163; 105; 97]) (-1) 7 None;
    mk_among 3 (str "aua") (-1) 2 None; mk_among 3 (str "iua") (-1) 4 None;
    mk_among 5 ([97; 197; 163; 105; 101]) (-1) 7 None; mk_among 3 (str "ele") (-1) 3 None;
    mk_among 3 (str "ile") (-1) 5 None; mk_among 4 (str "iile") 6 4 None;
    mk_among 3 (str "iei") (-1) 4 None; mk_among 4 (str "atei") (-1) 6 None;
    mk_among 2 (str "ii") (-1) 4 None; mk_among 4 (str "ului") (-1) 1 None;
    mk_among 2 (str "ul") (-1) 1 None; mk_among 4 (str "elor") (-1) 3 None;
    mk_among 4 (str "ilor") (-1) 4 None; mk_among 5 (str "iilor") 14 4 None ].

Definition a_2 : list among :=
  [ mk_among 5 (str "icala") (-1) 4 None; mk_among 5 (str "iciva") (-1) 4 None;
    mk_among 5 (str "ativa") (-1) 5 None; mk_among 5 (str "itiva") (-1) 6 None;
    mk_among 5 (str "icale") (-1) 4 None;
    mk_among 7 ([97; 197; 163; 105; 117; 110; 101]) (-1) 5 None;
    mk_among 7 ([105; 197; 163; 105; 117; 110; 101]) (-1) 6 None;
    mk_among 6 (str "atoare") (-1) 5 None; mk_among 6 (str "itoare") (-1) 6 None;
    mk_among 7 ([196; 131; 116; 111; 97; 114; 101]) (-1) 5 None;
    mk_among 7 (str "icitate") (-1) 4 None; mk_among 9 (str "abilitate") (-1) 1 None;
    mk_among 9 (str "ibilitate") (-1) 2 None; mk_among 7 (str "ivitate") (-1) 3 None;
    mk_among 5 (str "icive") (-1) 4 None; mk_among 5 (str "ative") (-1) 5 None;
    mk_among 5 (str "itive") (-1) 6 None; mk_among 5 (str "icali") (-1) 4 None;
    mk_among 5 (str "atori") (-1) 5 None; mk_among 7 (str "icatori") 18 4 None;
    mk_among 5 (str "itori") (-1) 6 None;
    mk_among 6 ([196; 131; 116; 111; 114; 105]) (-1) 5 None;
    mk_among 7 (str "icitati") (-1) 4 None; mk_among 9 (str "abilitati") (-1) 1 None;
    mk_among 7 (str "ivitati") (-1) 3 None; mk_among 5 (str "icivi") (-1) 4 None;
    mk_among 5 (str "ativi") (-1) 5 None; mk_among 5 (str "itivi") (-1) 6 None;
    mk_among 7 ([105; 99; 105; 116; 196; 131; 105]) (-1) 4 None;
    mk_among 9 ([97; 98; 105; 108; 105; 116; 196; 131; 105]) (-1) 1 None;
    mk_among 7 ([105; 118; 105; 116; 196; 131; 105]) (-1) 3 None;
    mk_among 9 ([105; 99; 105; 116; 196; 131; 197; 163; 105]) (-1) 4 None;
    mk_among 11 ([97; 98; 105; 108; 105; 116; 196; 131; 197; 163; 105]) (-1) 1 None;
    mk_among 9 ([105; 118; 105; 116; 196; 131; 197; 163; 105]) (-1) 3 None;
    mk_among 4 (str "ical") (-1) 4 None; mk_among 4 (str "ator") (-1) 5 None;
    mk_among 6 (str "icator") 35 4 None; mk_among 4 (str "itor") (-1) 6 None;
    mk_among 5 ([196; 131; 116; 111; 114]) (-1) 5 None; mk_among 4 (str "iciv") (-1) 4 None;
    mk_among 4 (str "ativ") (-1) 5 None; mk_among 4 (str "itiv") (-1) 6 None;
    mk_among 6 ([105; 99; 97; 108; 196; 131]) (-1) 4 None;
    mk_among 6 ([105; 99; 105; 118; 196; 131]) (-1) 4 None;
    mk_among 6 ([97; 116; 105; 118; 196; 131]) (-1) 5 None;
    mk_among 6 ([105; 116; 105; 118; 196; 131]) (-1) 6 None ].

Definition a_3 : list among :=
  [ mk_among 3 (str "ica") (-1) 1 None; mk_among 5 (str "abila") (-1) 1 None;
    mk_among 5 (str "ibila") (-1) 1 None; mk_among 4 (str "oasa") (-1) 1 None;
    mk_among 3 (str "ata") (-1) 1 None; mk_among 3 (str "ita") (-1) 1 None;
    mk_among 4 (str "anta") (-1) 1 None; mk_among 4 (str "ista") (-1) 3 None;
    mk_among 3 (str "uta") (-1) 1 None; mk_among 3 (str "iva") (-1) 1 None;
    mk_among 2 (str "ic") (-1) 1 None; mk_among 3 (str "ice") (-1) 1 None;
    mk_among 5 (str "abile") (-1) 1 None; mk_among 5 (str "ibile") (-1) 1 None;
    mk_among 4 (str "isme") (-1) 3 None; mk_among 4 (str "iune") (-1) 2 None;
    mk_among 4 (str "oase") (-1) 1 None; mk_among 3 (str "ate") (-1) 1 None;
    mk_among 5 (str "itate") 17 1 None; mk_among 3 (str "ite") (-1) 1 None;
    mk_among 4 (str "ante") (-1) 1 None; mk_among 4 (str "iste") (-1) 3 None;
    mk_among 3 (str "ute") (-1) 1 None; mk_among 3 (str "ive") (-1) 1 None;
    mk_among 3 (str "ici") (-1) 1 None; mk_among 5 (str "abili") (-1) 1 None;
    mk_among 5 (str "ibili") (-1) 1 None; mk_among 4 (str "iuni") (-1) 2 None;
    mk_among 5 (str "atori") (-1) 1 None; mk_among 3 (str "osi") (-1) 1 None;
    mk_among 3 (str "ati") (-1) 1 None; mk_among 5 (str "itati") 30 1 None;
    mk_among 3 (str "iti") (-1) 1 None; mk_among 4 (str "anti") (-1) 1 None;
    mk_among 4 (str "isti") (-1) 3 None; mk_among 3 (str "uti") (-1) 1 None;
    mk_among 5 ([105; 197; 159; 116; 105]) (-1) 3 None; mk_among 3 (str "ivi") (-1) 1 None;
    mk_among 5 ([105; 116; 196; 131; 105]) (-1) 1 None;
    mk_among 4 ([111; 197; 159; 105]) (-1) 1 None;
    mk_among 7 ([105; 116; 196; 131; 197; 163; 105]) (-1) 1 None;
    mk_among 4 (str "abil") (-1) 1 None; mk_among 4 (str "ibil") (-1) 1 None;
    mk_among 3 (str "ism") (-1) 3 None; mk_among 4 (str "ator") (-1) 1 None;
    mk_among 2 (str "os") (-1) 1 None; mk_among 2 (str "at") (-1) 1 None;
    mk_among 2 (str "it") (-1) 1 None; mk_among 3 (str "ant") (-1) 1 None;
    mk_among 3 (str "ist") (-1) 3 None; mk_among 2 (str "ut") (-1) 1 None;
    mk_among 2 (str "iv") (-1) 1 None; mk_among 4 ([105; 99; 196; 131]) (-1) 1 None;
    mk_among 6 ([97; 98; 105; 108; 196; 131]) (-1) 1 None;
    mk_among 6 ([105; 98; 105; 108; 196; 131]) (-1) 1 None;
    mk_among 5 ([111; 97; 115; 196; 131]) (-1) 1 None;
    mk_among 4 ([97; 116; 196; 131]) (-1) 1 None; mk_among 4 ([105; 116; 196; 131]) (-1) 1 None;
    mk_among 5 ([97; 110; 116; 196; 131]) (-1) 1 None;
    mk_among 5 ([105; 115; 116; 196; 131]) (-1) 3 None;
    mk_among 4 ([117; 116; 196; 131]) (-1) 1 None; mk_among 4 ([105; 118; 196; 131]) (-1) 1 None ].

Definition a_4 : list among :=
  [ mk_among 2 (str "ea") (-1) 1 None; mk_among 2 (str "ia") (-1) 1 None;
    mk_among 3 (str "esc") (-1) 1 None; mk_among 4 ([196; 131; 115; 99]) (-1) 1 None;
    mk_among 3 (str "ind") (-1) 1 None; mk_among 4 ([195; 162; 110; 100]) (-1) 1 None;
    mk_among 3 (str "are") (-1) 1 None; mk_among 3 (str "ere") (-1) 1 None;
    mk_among 3 (str "ire") (-1) 1 None; mk_among 4 ([195; 162; 114; 101]) (-1) 1 None;
    mk_among 2 (str "se") (-1) 2 None; mk_among 3 (str "ase") 10 1 None;
    mk_among 4 (str "sese") 10 2 None; mk_among 3 (str "ise") 10 1 None;
    mk_among 3 (str "use") 10 1 None; mk_among 4 ([195; 162; 115; 101]) 10 1 None;
    mk_among 5 ([101; 197; 159; 116; 101]) (-1) 1 None;
    mk_among 6 ([196; 131; 197; 159; 116; 101]) (-1) 1 None; mk_among 3 (str "eze") (-1) 1 None;
    mk_among 2 (str "ai") (-1) 1 None; mk_among 3 (str "eai") 19 1 None;
    mk_among 3 (str "iai") 19 1 None; mk_among 3 (str "sei") (-1) 2 None;
    mk_among 5 ([101; 197; 159; 116; 105]) (-1) 1 None;
    mk_among 6 ([196; 131; 197; 159; 116; 105]) (-1) 1 None; mk_among 2 (str "ui") (-1) 1 None;
    mk_among 3 (str "ezi") (-1) 1 None; mk_among 4 ([97; 197; 159; 105]) (-1) 1 None;
    mk_among 5 ([115; 101; 197; 159; 105]) (-1) 2 None;
    mk_among 6 ([97; 115; 101; 197; 159; 105]) 28 1 None;
    mk_among 7 ([115; 101; 115; 101; 197; 159; 105]) 28 2 None;
    mk_among 6 ([105; 115; 101; 197; 159; 105]) 28 1 None;
    mk_among 6 ([117; 115; 101; 197; 159; 105]) 28 1 None;
    mk_among 7 ([195; 162; 115; 101; 197; 159; 105]) 28 1 None;
    mk_among 4 ([105; 197; 159; 105]) (-1) 1 None; mk_among 4 ([117; 197; 159; 105]) (-1) 1 None;
    mk_among 5 ([195; 162; 197; 159; 105]) (-1) 1 None; mk_among 3 ([195; 162; 105]) (-1) 1 None;
    mk_among 4 ([97; 197; 163; 105]) (-1) 2 None;
    mk_among 5 ([101; 97; 197; 163; 105]) 38 1 None;
    mk_among 5 ([105; 97; 197; 163; 105]) 38 1 None;
    mk_among 4 ([101; 197; 163; 105]) (-1) 2 None; mk_among 4 ([105; 197; 163; 105]) (-1) 2 None;
    mk_among 7 ([97; 114; 196; 131; 197; 163; 105]) (-1) 1 None;
    mk_among 8 ([115; 101; 114; 196; 131; 197; 163; 105]) (-1) 2 None;
    mk_among 9 ([97; 115; 101; 114; 196; 131; 197; 163; 105]) 44 1 None;
    mk_among 10 ([115; 101; 115; 101; 114; 196; 131; 197; 163; 105]) 44 2 None;
    mk_among 9 ([105; 115; 101; 114; 196; 131; 197; 163; 105]) 44 1 None;
    mk_among 9 ([117; 115; 101; 114; 196; 131; 197; 163; 105]) 44 1 None;
    mk_among 10 ([195; 162; 115; 101; 114; 196; 131; 197; 163; 105]) 44 1 None;
    mk_among 7 ([105; 114; 196; 131; 197; 163; 105]) (-1) 1 None;
    mk_among 7 ([117; 114; 196; 131; 197; 163; 105]) (-1) 1 None;
    mk_among 8 ([195; 162; 114; 196; 131; 197; 163; 105]) (-1) 1 None;
    mk_among 5 ([195; 162; 197; 163; 105]) (-1) 2 None; mk_among 2 (str "am") (-1) 1 None;
    mk_among 3 (str "eam") 54 1 None; mk_among 3 (str "iam") 54 1 None;
    mk_among 2 (str "em") (-1) 2 None; mk_among 4 (str "asem") 57 1 None;
    mk_among 5 (str "sesem") 57 2 None; mk_among 4 (str "isem") 57 1 None;
    mk_among 4 (str "usem") 57 1 None; mk_among 5 ([195; 162; 115; 101; 109]) 57 1 None;
    mk_among 2 (str "im") (-1) 2 None; mk_among 3 ([196; 131; 109]) (-1) 2 None;
    mk_among 5 ([97; 114; 196; 131; 109]) 64 1 None;
    mk_among 6 ([115; 101; 114; 196; 131; 109]) 64 2 None;
    mk_among 7 ([97; 115; 101; 114; 196; 131; 109]) 66 1 None;
    mk_among 8 ([115; 101; 115; 101; 114; 196; 131; 109]) 66 2 None;
    mk_among 7 ([105; 115; 101; 114; 196; 131; 109]) 66 1 None;
    mk_among 7 ([117; 115; 101; 114; 196; 131; 109]) 66 1 None;
    mk_among 8 ([195; 162; 115; 101; 114; 196; 131; 109]) 66 1 None;
    mk_among 5 ([105; 114; 196; 131; 109]) 64 1 None;
    mk_among 5 ([117; 114; 196; 131; 109]) 64 1 None;
    mk_among 6 ([195; 162; 114; 196; 131; 109]) 64 1 None;
    mk_among 3 ([195; 162; 109]) (-1) 2 None; mk_among 2 (str "au") (-1) 1 None;
    mk_among 3 (str "eau") 76 1 None; mk_among 3 (str "iau") 76 1 None;
    mk_among 4 (str "indu") (-1) 1 None; mk_among 5 ([195; 162; 110; 100; 117]) (-1) 1 None;
    mk_among 2 (str "ez") (-1) 1 None; mk_among 6 ([101; 97; 115; 99; 196; 131]) (-1) 1 None;
    mk_among 4 ([97; 114; 196; 131]) (-1) 1 None;
    mk_among 5 ([115; 101; 114; 196; 131]) (-1) 2 None;
    mk_among 6 ([97; 115; 101; 114; 196; 131]) 84 1 None;
    mk_among 7 ([115; 101; 115; 101; 114; 196; 131]) 84 2 None;
    mk_among 6 ([105; 115; 101; 114; 196; 131]) 84 1 None;
    mk_among 6 ([117; 115; 101; 114; 196; 131]) 84 1 None;
    mk_among 7 ([195; 162; 115; 101; 114; 196; 131]) 84 1 None;
    mk_among 4 ([105; 114; 196; 131]) (-1) 1 None; mk_among 4 ([117; 114; 196; 131]) (-1) 1 None;
    mk_among 5 ([195; 162; 114; 196; 131]) (-1) 1 None;
    mk_among 5 ([101; 97; 122; 196; 131]) (-1) 1 None ].

Definition a_5 : list among :=
  [ mk_among 1 (str "a") (-1) 1 None; mk_among 1 (str "e") (-1) 1 None;
    mk_among 2 (str "ie") 1 1 None; mk_among 1 (str "i") (-1) 1 None;
    mk_among 2 ([196; 131]) (-1) 1 None ].

Definition g_v : list Z := [17; 65; 16; 0; 0; 0; 0; 0; 0; 0; 0; 0; 0; 0; 0; 0; 2; 32; 0; 0; 4].

Definition s_0 : list Z := str "u".
Definition s_1 : list Z := str "U".
Definition s_2 : list Z := str "i".
Definition s_3 : list Z := str "I".
Definition s_4 : list Z := str "i".
Definition s_5 : list Z := str "u".
Definition s_6 : list Z := str "a".
Definition s_7 : list Z := str "e".
Definition s_8 : list Z := str "i".
Definition s_9 : list Z := str "ab".
Definition s_10 : list Z := str "i".
Definition s_11 : list Z := str "at".
Definition s_12 : list Z := [97; 197; 163; 105].
Definition s_13 : list Z := str "abil".
Definition s_14 : list Z := str "ibil".
Definition s_15 : list Z := str "iv".
Definition s_16 : list Z := str "ic".
Definition s_17 : list Z := str "at".
Definition s_18 : list Z := str "it".
Definition s_19 : list Z := [197; 163].
Definition s_20 : list Z := str "t".
Definition s_21 : list Z := str "ist".
Definition s_22 : list Z := str "u".

(** ** Routines *)
Section Routines.
Context `{CHeap}.

Definition r_prelude : cfunc := cfun (
  loop (
    c1 <- get sn_c ;;
    label 0 (
      loop (
        c2 <- get sn_c ;;
        label 1 (
          if_call (in_grouping_U g_v 97 259 0) (goto 1) ;;
          bra_c ;;
          label 2 (
            c3 <- get sn_c ;;
            label 3 (
              unless_call (eq_s 1 (sy s_0)) (goto 3) ;;
              ket_c ;;
              if_call (in_grouping_U g_v 97 259 0) (goto 3) ;;
              checked (slice_from_s 1 (sy s_1)) ;;
              goto 2) ;;
            c_is c3 ;;
            unless_call (eq_s 1 (sy s_2)) (goto 1) ;;
            ket_c ;;
            if_call (in_grouping_U g_v 97 259 0) (goto 1) ;;
            checked (slice_from_s 1 (sy s_3))) ;;
          c_is c2 ;;
          brk) ;;
        c_is c2 ;;
        next_utf8 1 (goto 0)) ;;
      cont) ;;
    c_is c1 ;;
    brk) ;;
  creturn 1).

Definition r_mark_regions : cfunc := cfun (
  l <- get sn_l ;;
  put_I 0 l ;;
  l <- get sn_l ;;
  put_I 1 l ;;
  l <- get sn_l ;;
  put_I 2 l ;;
  c1 <- get sn_c ;;
  label 0 (
    label 1 (
      c2 <- get sn_c ;;
      label 2 (
        if_call (in_grouping_U g_v 97 259 0) (goto 2) ;;
        label 3 (
          c3 <- get sn_c ;;
          label 4 (
            if_call (out_grouping_U g_v 97 259 0) (goto 4) ;;
            gopast (out_grouping_U g_v 97 259 1) (goto 4) ;;
            goto 3) ;;
          c_is c3 ;;
          if_call (in_grouping_U g_v 97 259 0) (goto 2) ;;
          gopast (in_grouping_U g_v 97 259 1) (goto 2)) ;;
        goto 1) ;;
      c_is c2 ;;
      if_call (out_grouping_U g_v 97 259 0) (goto 0) ;;
      label 5 (
        c4 <- get sn_c ;;
        label 6 (
          if_call (out_grouping_U g_v 97 259 0) (goto 6) ;;
          gopast (out_grouping_U g_v 97 259 1) (goto 6) ;;
          goto 5) ;;
        c_is c4 ;;
        if_call (in_grouping_U g_v 97 259 0) (goto 0) ;;
        next_utf8 1 (goto 0))) ;;
    c <- get sn_c ;;
    put_I 0 c) ;;
  c_is c1 ;;
  c5 <- get sn_c ;;
  label 7 (
    gopast (out_grouping_U g_v 97 259 1) (goto 7) ;;
    gopast (in_grouping_U g_v 97 259 1) (goto 7) ;;
    c <- get sn_c ;;
    put_I 1 c ;;
    gopast (out_grouping_U g_v 97 259 1) (goto 7) ;;
    gopast (in_grouping_U g_v 97 259 1) (goto 7) ;;
    c <- get sn_c ;;
    put_I 2 c) ;;
  c_is c5 ;;
  creturn 1).

Definition r_postlude : cfunc := cfun (
  loop (
    c1 <- get sn_c ;;
    bra_c ;;
    b <- pre_f 0 (fun ch => negb (ch =? 73) && negb (ch =? 85)) ;;
    among_var <- (if b : bool then ret 3 else call (find_among a_0 3)) ;;
    label 0 (
      when (among_var =? 0) (goto 0) ;;
      ket_c ;;
      switch among_var
        [ (0, goto 0);
          (1, checked (slice_from_s 1 (sy s_4)));
          (2, checked (slice_from_s 1 (sy s_5)));
          (3, next_utf8 1 (goto 0)) ] ;;
      cont) ;;
    c_is c1 ;;
    brk) ;;
  creturn 1).

Definition r_RV : cfunc := cfun (
  i <- get_I 0 ;;
  c <- get sn_c ;;
  when (negb (i <=? c)) (creturn 0) ;;
  creturn 1).

Definition r_R1 : cfunc := cfun (
  i <- get_I 1 ;;
  c <- get sn_c ;;
  when (negb (i <=? c)) (creturn 0) ;;
  creturn 1).

Definition r_R2 : cfunc := cfun (
  i <- get_I 2 ;;
  c <- get sn_c ;;
  when (negb (i <=? c)) (creturn 0) ;;
  creturn 1).

Definition r_step_0 : cfunc := cfun (
  ket_c ;;
  b <- pre_b 1 (not_masked 3 266786) ;;
  when b (creturn 0) ;;
  among_var <- call (find_among_b a_1 16) ;;
  when (among_var =? 0) (creturn 0) ;;
  bra_c ;;
  routine r_R1 (creturn 0) ;;
  switch among_var
    [ (0, creturn 0);
      (1, checked slice_del);
      (2, checked (slice_from_s 1 (sy s_6)));
      (3, checked (slice_from_s 1 (sy s_7)));
      (4, checked (slice_from_s 1 (sy s_8)));
      (5, m1 <- get_m ;;
          label 0 (
            unless_call (eq_s_b 2 (sy s_9)) (goto 0) ;;
            creturn 0) ;;
          c_from_l m1 ;;
          checked (slice_from_s 1 (sy s_10)));
      (6, checked (slice_from_s 2 (sy s_11)));
      (7, checked (slice_from_s 4 (sy s_12))) ] ;;
  creturn 1).

Definition r_combo_suffix : cfunc := cfun (
  m_test <- get_m ;;
  ket_c ;;
  among_var <- call (find_among_b a_2 46) ;;
  when (among_var =? 0) (creturn 0) ;;
  bra_c ;;
  routine r_R1 (creturn 0) ;;
  switch among_var
    [ (0, creturn 0);
      (1, checked (slice_from_s 4 (sy s_13)));
      (2, checked (slice_from_s 4 (sy s_14)));
      (3, checked (slice_from_s 2 (sy s_15)));
      (4, checked (slice_from_s 2 (sy s_16)));
      (5, checked (slice_from_s 2 (sy s_17)));
      (6, checked (slice_from_s 2 (sy s_18))) ] ;;
  put_B 0 1 ;;
  c_from_l m_test ;;
  creturn 1).

Definition r_standard_suffix : cfunc := cfun (
  put_B 0 0 ;;
  loop (
    m1 <- get_m ;;
    label 0 (
      routine r_combo_suffix (goto 0) ;;
      cont) ;;
    c_from_l m1 ;;
    brk) ;;
  ket_c ;;
  among_var <- call (find_among_b a_3 62) ;;
  when (among_var =? 0) (creturn 0) ;;
  bra_c ;;
  routine r_R2 (creturn 0) ;;
  switch among_var
    [ (0, creturn 0);
      (1, checked slice_del);
      (2, unless_call (eq_s_b 2 (sy s_19)) (creturn 0) ;;
          bra_c ;;
          checked (slice_from_s 1 (sy s_20)));
      (3, checked (slice_from_s 3 (sy s_21))) ] ;;
  put_B 0 1 ;;
  creturn 1).

Definition r_verb_suffix : cfunc := cfun (
  m1 <- get_m ;;
  i <- get_I 0 ;;
  c <- get sn_c ;;
  when (c <? i) (creturn 0) ;;
  i <- get_I 0 ;;
  c_is i ;;
  mlimit <- get sn_lb ;;
  put (fun z => set_lb (sn_c z) z) ;;
  c_from_l m1 ;;
  ket_c ;;
  among_var <- call (find_among_b a_4 94) ;;
  when (among_var =? 0) (put (set_lb mlimit) ;; creturn 0) ;;
  bra_c ;;
  switch among_var
    [ (0, put (set_lb mlimit) ;;
          creturn 0);
      (1, label 0 (
            m2 <- get_m ;;
            label 1 (
              if_call (out_grouping_b_U g_v 97 259 0) (goto 1) ;;
              goto 0) ;;
            c_from_l m2 ;;
            unless_call (eq_s_b 1 (sy s_22)) (put (set_lb mlimit) ;; creturn 0)) ;;
          checked slice_del);
      (2, checked slice_del) ] ;;
  put (set_lb mlimit) ;;
  creturn 1).

Definition r_vowel_suffix : cfunc := cfun (
  ket_c ;;
  among_var <- call (find_among_b a_5 5) ;;
  when (among_var =? 0) (creturn 0) ;;
  bra_c ;;
  routine r_RV (creturn 0) ;;
  switch among_var
    [ (0, creturn 0);
      (1, checked slice_del) ] ;;
  creturn 1).

Definition romanian_UTF_8_stem : cfunc := cfun (
  do_f 0 r_prelude ;;
  do_f 1 r_mark_regions ;;
  put (fun z => set_lb (sn_c z) z) ;;
  put (fun z => set_c (sn_l z) z) ;;
  do_b 2 r_step_0 ;;
  do_b 3 r_standard_suffix ;;
  m5 <- get_m ;;
  label 4 (
    label 5 (
      m6 <- get_m ;;
      label 6 (
        y <- get_B 0 ;;
        when (y =? 0) (goto 6) ;;
        goto 5) ;;
      c_from_l m6 ;;
      routine r_verb_suffix (goto 4))) ;;
  c_from_l m5 ;;
  do_b 7 r_vowel_suffix ;;
  put (fun z => set_c (sn_lb z) z) ;;
  do_f 8 r_postlude ;;
  creturn 1).

Definition romanian_UTF_8_create_env : option (option SN_env) := SN_create_env 0 3 1.
Definition romanian_UTF_8_close_env (z : option SN_env) : option unit := SN_close_env z 0.
End Routines.

(** ** Safety of every routine *)
Section Safety.
Context `{CHeap} (k L : Z).
Abbreviation St := (st k L 3 1).
Abbreviation step_ok := (step_at k L 3 1 0).
Abbreviation fwd_ok := (fwd_ok k L 3 1).

Lemma ro_prelude_ok : fwd_ok r_prelude.
Proof. intros w z S. unfold r_prelude. repeat wp_step. remark [117; 105]. Qed.

Lemma ro_mark_regions_ok : fwd_ok r_mark_regions.
Proof. intros w z S. unfold r_mark_regions. read_code S; fwd_done. Qed.

Lemma ro_postlude_ok : fwd_ok r_postlude.
Proof. intros w z S. unfold r_postlude. walk. Qed.

Lemma ro_RV_ok w z : St w z -> returns r_RV z (fun v z' => 0 <= v /\ z' = z).
Proof. intros S. unfold r_RV. repeat wp_step; split; (done || lia). Qed.

Lemma ro_R1_ok w z : St w z -> returns r_R1 z (fun v z' => 0 <= v /\ z' = z).
Proof. intros S. unfold r_R1. repeat wp_step; split; (done || lia). Qed.

Lemma ro_R2_ok w z : St w z -> returns r_R2 z (fun v z' => 0 <= v /\ z' = z).
Proof. intros S. unfold r_R2. repeat wp_step; split; (done || lia). Qed.

Ltac routine_rule ::=
  lazymatch goal with
  | |- returns r_RV _ _ => eapply returns_mono; [eapply ro_RV_ok; st_solve|intros ? ? (? & ->)]
  | |- returns r_R1 _ _ => eapply returns_mono; [eapply ro_R1_ok; st_solve|intros ? ? (? & ->)]
  | |- returns r_R2 _ _ => eapply returns_mono; [eapply ro_R2_ok; st_solve|intros ? ? (? & ->)]
  end.

Lemma ro_step_0_ok : step_ok r_step_0.
Proof. intros w z S Hlb. unfold r_step_0. repeat wp_step; step_end. Qed.

(** A combination that is found gets shorter; otherwise the word stays. *)
Lemma ro_combo_suffix_ok w z : St w z -> sn_lb z = 0 ->
  returns r_combo_suffix z (fun v z' => 0 <= v /\ exists w', St w' z' /\ sn_lb z' = 0
    /\ (v = 0 /\ sn_l z' = sn_l z \/ v <> 0 /\ sn_l z' < sn_l z)).
Proof.
  intros S Hlb. unfold r_combo_suffix. repeat wp_step; try no_result; (split; [lia|]); eexists;
    (split_and!; [st_solve|sn_cbn; sn_lia || congruence|]); first [left; split; [done|sn_lia] | right; split; [done|sn_lia]].
Qed.

Ltac routine_rule ::=
  lazymatch goal with
  | |- returns r_RV _ _ => eapply returns_mono; [eapply ro_RV_ok; st_solve|intros ? ? (? & ->)]
  | |- returns r_R1 _ _ => eapply returns_mono; [eapply ro_R1_ok; st_solve|intros ? ? (? & ->)]
  | |- returns r_R2 _ _ => eapply returns_mono; [eapply ro_R2_ok; st_solve|intros ? ? (? & ->)]
  | |- returns r_combo_suffix _ _ => eapply returns_mono; [eapply ro_combo_suffix_ok; [st_solve|sn_cbn; sn_lia || congruence..]|intros ? ? (? & ? & ? & ?)]
  end.

Lemma ro_standard_suffix_ok : step_ok r_standard_suffix.
Proof.
  intros w z S Hlb. unfold r_standard_suffix. repeat wp_step.
  eapply (wp_loop (fun n z1 => exists w1, St w1 z1 /\ sn_lb z1 = 0 /\ n = Z.to_nat (sn_l z1))); [eexists; split_and!; [st_solve|congruence|reflexivity]|sn_lia|].
  intros n z1 (w1 & S1 & Hlb1 & ->). repeat wp_step; destruct_and?.
  all: try (eexists; split; [|eexists; split_and!; [st_solve|done|reflexivity]]; sn_lia).
  all: step_end.
Qed.

Lemma ro_verb_suffix_ok : step_ok r_verb_suffix.
Proof. intros w z S Hlb. unfold r_verb_suffix. repeat wp_step; step_end. Qed.

Lemma ro_vowel_suffix_ok : step_ok r_vowel_suffix.
Proof. intros w z S Hlb. unfold r_vowel_suffix. repeat wp_step; step_end. Qed.

Ltac routine_rule ::=
  lazymatch goal with
  | |- returns r_RV _ _ => eapply returns_mono; [eapply ro_RV_ok; st_solve|intros ? ? (? & ->)]
  | |- returns r_R1 _ _ => eapply returns_mono; [eapply ro_R1_ok; st_solve|intros ? ? (? & ->)]
  | |- returns r_R2 _ _ => eapply returns_mono; [eapply ro_R2_ok; st_solve|intros ? ? (? & ->)]
  | |- returns r_combo_suffix _ _ => eapply returns_mono; [eapply ro_combo_suffix_ok; [st_solve|sn_cbn; sn_lia || congruence..]|intros ? ? (? & ? & ? & ?)]
  | |- returns r_verb_suffix _ _ => eapply returns_mono; [eapply ro_verb_suffix_ok; [st_solve|sn_cbn; sn_lia || congruence..]|intros ? ? (? & ? & ? & ?)]
  end.

Ltac run_f H := eapply (do_f_ok k L 3 1 _ _ H); [st_solve|intros ? ? ? ? ?; edit_code 0].
Ltac run_b H := eapply (do_b_at k L 3 1 _ _ 0 H); [st_solve|sn_cbn; sn_lia || congruence..|intros ? ? ? ? ?; edit_code 0].

Lemma ro_stem_ok w z : St w z -> sn_c z = 0 ->
  returns romanian_UTF_8_stem z (fun v z' => v = 1 /\ exists w', St w' z' /\ (sn_lb z' = sn_lb z \/ sn_lb z' = sn_c z)).
Proof.
  intros S Hc. unfold romanian_UTF_8_stem. repeat wp_step.
  run_f ro_prelude_ok.
  run_f ro_mark_regions_ok.
  run_b ro_step_0_ok.
  run_b ro_standard_suffix_ok.
  run_b ro_vowel_suffix_ok.
  run_f ro_postlude_ok.
  split; [done|]; eexists; split; [st_solve|right; sn_cbn; congruence].
Qed.
End Safety.
