(* ===== verification/HungarianIso.v ===== *)
(** * The Hungarian stemmer on ISO-8859-1: [src_c/stem_ISO_8859_1_hungarian.c]

    The generated C, statement for statement, and the proof that stemming is
    free of undefined behaviour, terminates and never lengthens the word. *)

From S2P Require Import Prelude SnEnv SnRuntime SnSpec SnAmong SnCode SnLoops.

Open Scope sn_scope.

(** ** Tables *)
Definition a_0 : list among :=
  [ mk_among 2 (str "cs") (-1) (-1) None; mk_among 3 (str "dzs") (-1) (-1) None;
    mk_among 2 (str "gy") (-1) (-1) None; mk_among 2 (str "ly") (-1) (-1) None;
    mk_among 2 (str "ny") (-1) (-1) None; mk_among 2 (str "sz") (-1) (-1) None;
    mk_among 2 (str "ty") (-1) (-1) None; mk_among 2 (str "zs") (-1) (-1) None ].

Definition a_1 : list among :=
  [ mk_among 1 ([225]) (-1) 1 None; mk_among 1 ([233]) (-1) 2 None ].

Definition a_2 : list among :=
  [ mk_among 2 (str "bb") (-1) (-1) None; mk_among 2 (str "cc") (-1) (-1) None;
    mk_among 2 (str "dd") (-1) (-1) None; mk_among 2 (str "ff") (-1) (-1) None;
    mk_among 2 (str "gg") (-1) (-1) None; mk_among 2 (str "jj") (-1) (-1) None;
    mk_among 2 (str "kk") (-1) (-1) None; mk_among 2 (str "ll") (-1) (-1) None;
    mk_among 2 (str "mm") (-1) (-1) None; mk_among 2 (str "nn") (-1) (-1) None;
    mk_among 2 (str "pp") (-1) (-1) None; mk_among 2 (str "rr") (-1) (-1) None;
    mk_among 3 (str "ccs") (-1) (-1) None; mk_among 2 (str "ss") (-1) (-1) None;
    mk_among 3 (str "zzs") (-1) (-1) None; mk_among 2 (str "tt") (-1) (-1) None;
    mk_among 2 (str "vv") (-1) (-1) None; mk_among 3 (str "ggy") (-1) (-1) None;
    mk_among 3 (str "lly") (-1) (-1) None; mk_among 3 (str "nny") (-1) (-1) None;
    mk_among 3 (str "tty") (-1) (-1) None; mk_among 3 (str "ssz") (-1) (-1) None;
    mk_among 2 (str "zz") (-1) (-1) None ].

Definition a_3 : list among :=
  [ mk_among 2 (str "al") (-1) 1 None; mk_among 2 (str "el") (-1) 2 None ].

Definition a_4 : list among :=
  [ mk_among 2 (str "ba") (-1) (-1) None; mk_among 2 (str "ra") (-1) (-1) None;
    mk_among 2 (str "be") (-1) (-1) None; mk_among 2 (str "re") (-1) (-1) None;
    mk_among 2 (str "ig") (-1) (-1) None; mk_among 3 (str "nak") (-1) (-1) None;
    mk_among 3 (str "nek") (-1) (-1) None; mk_among 3 (str "val") (-1) (-1) None;
    mk_among 3 (str "vel") (-1) (-1) None; mk_among 2 (str "ul") (-1) (-1) None;
    mk_among 3 ([110; 225; 108]) (-1) (-1) None; mk_among 3 ([110; 233; 108]) (-1) (-1) None;
    mk_among 3 ([98; 243; 108]) (-1) (-1) None; mk_among 3 ([114; 243; 108]) (-1) (-1) None;
    mk_among 3 ([116; 243; 108]) (-1) (-1) None; mk_among 3 ([98; 245; 108]) (-1) (-1) None;
    mk_among 3 ([114; 245; 108]) (-1) (-1) None; mk_among 3 ([116; 245; 108]) (-1) (-1) None;
    mk_among 2 ([252; 108]) (-1) (-1) None; mk_among 1 (str "n") (-1) (-1) None;
    mk_among 2 (str "an") 19 (-1) None; mk_among 3 (str "ban") 20 (-1) None;
    mk_among 2 (str "en") 19 (-1) None; mk_among 3 (str "ben") 22 (-1) None;
    mk_among 6 ([107; 233; 112; 112; 101; 110]) 22 (-1) None; mk_among 2 (str "on") 19 (-1) None;
    mk_among 2 ([246; 110]) 19 (-1) None; mk_among 4 ([107; 233; 112; 112]) (-1) (-1) None;
    mk_among 3 (str "kor") (-1) (-1) None; mk_among 1 (str "t") (-1) (-1) None;
    mk_among 2 (str "at") 29 (-1) None; mk_among 2 (str "et") 29 (-1) None;
    mk_among 4 ([107; 233; 110; 116]) 29 (-1) None;
    mk_among 6 ([97; 110; 107; 233; 110; 116]) 32 (-1) None;
    mk_among 6 ([101; 110; 107; 233; 110; 116]) 32 (-1) None;
    mk_among 6 ([111; 110; 107; 233; 110; 116]) 32 (-1) None; mk_among 2 (str "ot") 29 (-1) None;
    mk_among 3 ([233; 114; 116]) 29 (-1) None; mk_among 2 ([246; 116]) 29 (-1) None;
    mk_among 3 (str "hez") (-1) (-1) None; mk_among 3 (str "hoz") (-1) (-1) None;
    mk_among 3 ([104; 246; 122]) (-1) (-1) None; mk_among 2 ([118; 225]) (-1) (-1) None;
    mk_among 2 ([118; 233]) (-1) (-1) None ].

Definition a_5 : list among :=
  [ mk_among 2 ([225; 110]) (-1) 2 None; mk_among 2 ([233; 110]) (-1) 1 None;
    mk_among 6 ([225; 110; 107; 233; 110; 116]) (-1) 3 None ].

Definition a_6 : list among :=
  [ mk_among 4 (str "stul") (-1) 2 None; mk_among 5 (str "astul") 0 1 None;
    mk_among 5 ([225; 115; 116; 117; 108]) 0 3 None;
    mk_among 4 ([115; 116; 252; 108]) (-1) 2 None;
    mk_among 5 ([101; 115; 116; 252; 108]) 3 1 None;
    mk_among 5 ([233; 115; 116; 252; 108]) 3 4 None ].

Definition a_7 : list among :=
  [ mk_among 1 ([225]) (-1) 1 None; mk_among 1 ([233]) (-1) 2 None ].

Definition a_8 : list among :=
  [ mk_among 1 (str "k") (-1) 7 None; mk_among 2 (str "ak") 0 4 None;
    mk_among 2 (str "ek") 0 6 None; mk_among 2 (str "ok") 0 5 None;
    mk_among 2 ([225; 107]) 0 1 None; mk_among 2 ([233; 107]) 0 2 None;
    mk_among 2 ([246; 107]) 0 3 None ].

Definition a_9 : list among :=
  [ mk_among 2 ([233; 105]) (-1) 7 None; mk_among 3 ([225; 233; 105]) 0 6 None;
    mk_among 3 ([233; 233; 105]) 0 5 None; mk_among 1 ([233]) (-1) 9 None;
    mk_among 2 ([107; 233]) 3 4 None; mk_among 3 ([97; 107; 233]) 4 1 None;
    mk_among 3 ([101; 107; 233]) 4 1 None; mk_among 3 ([111; 107; 233]) 4 1 None;
    mk_among 3 ([225; 107; 233]) 4 3 None; mk_among 3 ([233; 107; 233]) 4 2 None;
    mk_among 3 ([246; 107; 233]) 4 1 None; mk_among 2 ([233; 233]) 3 8 None ].

Definition a_10 : list among :=
  [ mk_among 1 (str "a") (-1) 18 None; mk_among 2 (str "ja") 0 17 None;
    mk_among 1 (str "d") (-1) 16 None; mk_among 2 (str "ad") 2 13 None;
    mk_among 2 (str "ed") 2 13 None; mk_among 2 (str "od") 2 13 None;
    mk_among 2 ([225; 100]) 2 14 None; mk_among 2 ([233; 100]) 2 15 None;
    mk_among 2 ([246; 100]) 2 13 None; mk_among 1 (str "e") (-1) 18 None;
    mk_among 2 (str "je") 9 17 None; mk_among 2 (str "nk") (-1) 4 None;
    mk_among 3 (str "unk") 11 1 None; mk_among 3 ([225; 110; 107]) 11 2 None;
    mk_among 3 ([233; 110; 107]) 11 3 None; mk_among 3 ([252; 110; 107]) 11 1 None;
    mk_among 2 (str "uk") (-1) 8 None; mk_among 3 (str "juk") 16 7 None;
    mk_among 4 ([225; 106; 117; 107]) 17 5 None; mk_among 2 ([252; 107]) (-1) 8 None;
    mk_among 3 ([106; 252; 107]) 19 7 None; mk_among 4 ([233; 106; 252; 107]) 20 6 None;
    mk_among 1 (str "m") (-1) 12 None; mk_among 2 (str "am") 22 9 None;
    mk_among 2 (str "em") 22 9 None; mk_among 2 (str "om") 22 9 None;
    mk_among 2 ([225; 109]) 22 10 None; mk_among 2 ([233; 109]) 22 11 None;
    mk_among 1 (str "o") (-1) 18 None; mk_among 1 ([225]) (-1) 19 None;
    mk_among 1 ([233]) (-1) 20 None ].

Definition a_11 : list among :=
  [ mk_among 2 (str "id") (-1) 10 None; mk_among 3 (str "aid") 0 9 None;
    mk_among 4 (str "jaid") 1 6 None; mk_among 3 (str "eid") 0 9 None;
    mk_among 4 (str "jeid") 3 6 None; mk_among 3 ([225; 105; 100]) 0 7 None;
    mk_among 3 ([233; 105; 100]) 0 8 None; mk_among 1 (str "i") (-1) 15 None;
    mk_among 2 (str "ai") 7 14 None; mk_among 3 (str "jai") 8 11 None;
    mk_among 2 (str "ei") 7 14 None; mk_among 3 (str "jei") 10 11 None;
    mk_among 2 ([225; 105]) 7 12 None; mk_among 2 ([233; 105]) 7 13 None;
    mk_among 4 (str "itek") (-1) 24 None; mk_among 5 (str "eitek") 14 21 None;
    mk_among 6 (str "jeitek") 15 20 None; mk_among 5 ([233; 105; 116; 101; 107]) 14 23 None;
    mk_among 2 (str "ik") (-1) 29 None; mk_among 3 (str "aik") 18 26 None;
    mk_among 4 (str "jaik") 19 25 None; mk_among 3 (str "eik") 18 26 None;
    mk_among 4 (str "jeik") 21 25 None; mk_among 3 ([225; 105; 107]) 18 27 None;
    mk_among 3 ([233; 105; 107]) 18 28 None; mk_among 3 (str "ink") (-1) 20 None;
    mk_among 4 (str "aink") 25 17 None; mk_among 5 (str "jaink") 26 16 None;
    mk_among 4 (str "eink") 25 17 None; mk_among 5 (str "jeink") 28 16 None;
    mk_among 4 ([225; 105; 110; 107]) 25 18 None; mk_among 4 ([233; 105; 110; 107]) 25 19 None;
    mk_among 5 (str "aitok") (-1) 21 None; mk_among 6 (str "jaitok") 32 20 None;
    mk_among 5 ([225; 105; 116; 111; 107]) (-1) 22 None; mk_among 2 (str "im") (-1) 5 None;
    mk_among 3 (str "aim") 35 4 None; mk_among 4 (str "jaim") 36 1 None;
    mk_among 3 (str "eim") 35 4 None; mk_among 4 (str "jeim") 38 1 None;
    mk_among 3 ([225; 105; 109]) 35 2 None; mk_among 3 ([233; 105; 109]) 35 3 None ].

Definition g_v : list Z := [17; 65; 16; 0; 0; 0; 0; 0; 0; 0; 0; 0; 0; 0; 0; 0; 1; 17; 52; 14].

Definition s_0 : list Z := str "a".
Definition s_1 : list Z := str "e".
Definition s_2 : list Z := str "e".
Definition s_3 : list Z := str "a".
Definition s_4 : list Z := str "a".
Definition s_5 : list Z := str "a".
Definition s_6 : list Z := str "e".
Definition s_7 : list Z := str "a".
Definition s_8 : list Z := str "e".
Definition s_9 : list Z := str "e".
Definition s_10 : list Z := str "a".
Definition s_11 : list Z := str "e".
Definition s_12 : list Z := str "a".
Definition s_13 : list Z := str "e".
Definition s_14 : list Z := str "a".
Definition s_15 : list Z := str "e".
Definition s_16 : list Z := str "a".
Definition s_17 : list Z := str "e".
Definition s_18 : list Z := str "a".
Definition s_19 : list Z := str "e".
Definition s_20 : list Z := str "a".
Definition s_21 : list Z := str "e".
Definition s_22 : list Z := str "a".
Definition s_23 : list Z := str "e".
Definition s_24 : list Z := str "a".
Definition s_25 : list Z := str "e".
Definition s_26 : list Z := str "a".
Definition s_27 : list Z := str "e".
Definition s_28 : list Z := str "a".
Definition s_29 : list Z := str "e".
Definition s_30 : list Z := str "a".
Definition s_31 : list Z := str "e".
Definition s_32 : list Z := str "a".
Definition s_33 : list Z := str "e".
Definition s_34 : list Z := str "a".
Definition s_35 : list Z := str "e".

(** ** Routines *)
Section Routines.
Context `{CHeap}.

Definition r_mark_regions : cfunc := cfun (
  l <- get sn_l ;;
  put_I 0 l ;;
  label 0 (
    c1 <- get sn_c ;;
    label 1 (
      if_call (in_grouping g_v 97 252 0) (goto 1) ;;
      neg_call (in_grouping g_v 97 252 1) (goto 1) ;;
      label 2 (
        c2 <- get sn_c ;;
        label 3 (
          b <- pre_f 1 (not_masked 3 101187584) ;;
          when b (goto 3) ;;
          unless_call (find_among a_0 8) (goto 3) ;;
          goto 2) ;;
        c_is c2 ;;
        next_byte (goto 1)) ;;
      c <- get sn_c ;;
      put_I 0 c ;;
      goto 0) ;;
    c_is c1 ;;
    if_call (out_grouping g_v 97 252 0) (creturn 0) ;;
    gopast (out_grouping g_v 97 252 1) (creturn 0) ;;
    c <- get sn_c ;;
    put_I 0 c) ;;
  creturn 1).

Definition r_R1 : cfunc := cfun (
  i <- get_I 0 ;;
  c <- get sn_c ;;
  when (negb (i <=? c)) (creturn 0) ;;
  creturn 1).

Definition r_v_ending : cfunc := cfun (
  ket_c ;;
  b <- pre_b 0 (fun ch => negb (ch =? 225) && negb (ch =? 233)) ;;
  when b (creturn 0) ;;
  among_var <- call (find_among_b a_1 2) ;;
  when (among_var =? 0) (creturn 0) ;;
  bra_c ;;
  routine r_R1 (creturn 0) ;;
  switch among_var
    [ (0, creturn 0);
      (1, checked (slice_from_s 1 (sy s_0)));
      (2, checked (slice_from_s 1 (sy s_1))) ] ;;
  creturn 1).

Definition r_double : cfunc := cfun (
  m_test <- get_m ;;
  b <- pre_b 1 (not_masked 3 106790108) ;;
  when b (creturn 0) ;;
  unless_call (find_among_b a_2 23) (creturn 0) ;;
  c_from_l m_test ;;
  creturn 1).

Definition r_undouble : cfunc := cfun (
  prev_byte (creturn 0) ;;
  ket_c ;;
  hop_byte_b 1 (creturn 0) ;;
  bra_c ;;
  checked slice_del ;;
  creturn 1).

Definition r_instrum : cfunc := cfun (
  ket_c ;;
  b <- pre_b 1 (fun ch => negb (ch =? 108)) ;;
  when b (creturn 0) ;;
  among_var <- call (find_among_b a_3 2) ;;
  when (among_var =? 0) (creturn 0) ;;
  bra_c ;;
  routine r_R1 (creturn 0) ;;
  switch among_var
    [ (0, creturn 0);
      (1, routine r_double (creturn 0));
      (2, routine r_double (creturn 0)) ] ;;
  checked slice_del ;;
  routine r_undouble (creturn 0) ;;
  creturn 1).

Definition r_case : cfunc := cfun (
  ket_c ;;
  unless_call (find_among_b a_4 44) (creturn 0) ;;
  bra_c ;;
  routine r_R1 (creturn 0) ;;
  checked slice_del ;;
  routine r_v_ending (creturn 0) ;;
  creturn 1).

Definition r_case_special : cfunc := cfun (
  ket_c ;;
  b <- pre_b 1 (fun ch => negb (ch =? 110) && negb (ch =? 116)) ;;
  when b (creturn 0) ;;
  among_var <- call (find_among_b a_5 3) ;;
  when (among_var =? 0) (creturn 0) ;;
  bra_c ;;
  routine r_R1 (creturn 0) ;;
  switch among_var
    [ (0, creturn 0);
      (1, checked (slice_from_s 1 (sy s_2)));
      (2, checked (slice_from_s 1 (sy s_3)));
      (3, checked (slice_from_s 1 (sy s_4))) ] ;;
  creturn 1).

Definition r_case_other : cfunc := cfun (
  ket_c ;;
  b <- pre_b 3 (fun ch => negb (ch =? 108)) ;;
  when b (creturn 0) ;;
  among_var <- call (find_among_b a_6 6) ;;
  when (among_var =? 0) (creturn 0) ;;
  bra_c ;;
  routine r_R1 (creturn 0) ;;
  switch among_var
    [ (0, creturn 0);
      (1, checked slice_del);
      (2, checked slice_del);
      (3, checked (slice_from_s 1 (sy s_5)));
      (4, checked (slice_from_s 1 (sy s_6))) ] ;;
  creturn 1).

Definition r_factive : cfunc := cfun (
  ket_c ;;
  b <- pre_b 0 (fun ch => negb (ch =? 225) && negb (ch =? 233)) ;;
  when b (creturn 0) ;;
  among_var <- call (find_among_b a_7 2) ;;
  when (among_var =? 0) (creturn 0) ;;
  bra_c ;;
  routine r_R1 (creturn 0) ;;
  switch among_var
    [ (0, creturn 0);
      (1, routine r_double (creturn 0));
      (2, routine r_double (creturn 0)) ] ;;
  checked slice_del ;;
  routine r_undouble (creturn 0) ;;
  creturn 1).

Definition r_plural : cfunc := cfun (
  ket_c ;;
  b <- pre_b 0 (fun ch => negb (ch =? 107)) ;;
  when b (creturn 0) ;;
  among_var <- call (find_among_b a_8 7) ;;
  when (among_var =? 0) (creturn 0) ;;
  bra_c ;;
  routine r_R1 (creturn 0) ;;
  switch among_var
    [ (0, creturn 0);
      (1, checked (slice_from_s 1 (sy s_7)));
      (2, checked (slice_from_s 1 (sy s_8)));
      (3, checked slice_del);
      (4, checked slice_del);
      (5, checked slice_del);
      (6, checked slice_del);
      (7, checked slice_del) ] ;;
  creturn 1).

Definition r_owned : cfunc := cfun (
  ket_c ;;
  b <- pre_b 0 (fun ch => negb (ch =? 105) && negb (ch =? 233)) ;;
  when b (creturn 0) ;;
  among_var <- call (find_among_b a_9 12) ;;
  when (among_var =? 0) (creturn 0) ;;
  bra_c ;;
  routine r_R1 (creturn 0) ;;
  switch among_var
    [ (0, creturn 0);
      (1, checked slice_del);
      (2, checked (slice_from_s 1 (sy s_9)));
      (3, checked (slice_from_s 1 (sy s_10)));
      (4, checked slice_del);
      (5, checked (slice_from_s 1 (sy s_11)));
      (6, checked (slice_from_s 1 (sy s_12)));
      (7, checked slice_del);
      (8, checked (slice_from_s 1 (sy s_13)));
      (9, checked slice_del) ] ;;
  creturn 1).

Definition r_sing_owner : cfunc := cfun (
  ket_c ;;
  among_var <- call (find_among_b a_10 31) ;;
  when (among_var =? 0) (creturn 0) ;;
  bra_c ;;
  routine r_R1 (creturn 0) ;;
  switch among_var
    [ (0, creturn 0);
      (1, checked slice_del);
      (2, checked (slice_from_s 1 (sy s_14)));
      (3, checked (slice_from_s 1 (sy s_15)));
      (4, checked slice_del);
      (5, checked (slice_from_s 1 (sy s_16)));
      (6, checked (slice_from_s 1 (sy s_17)));
      (7, checked slice_del);
      (8, checked slice_del);
      (9, checked slice_del);
      (10, checked (slice_from_s 1 (sy s_18)));
      (11, checked (slice_from_s 1 (sy s_19)));
      (12, checked slice_del);
      (13, checked slice_del);
      (14, checked (slice_from_s 1 (sy s_20)));
      (15, checked (slice_from_s 1 (sy s_21)));
      (16, checked slice_del);
      (17, checked slice_del);
      (18, checked slice_del);
      (19, checked (slice_from_s 1 (sy s_22)));
      (20, checked (slice_from_s 1 (sy s_23))) ] ;;
  creturn 1).

Definition r_plur_owner : cfunc := cfun (
  ket_c ;;
  b <- pre_b 0 (not_masked 3 10768) ;;
  when b (creturn 0) ;;
  among_var <- call (find_among_b a_11 42) ;;
  when (among_var =? 0) (creturn 0) ;;
  bra_c ;;
  routine r_R1 (creturn 0) ;;
  switch among_var
    [ (0, creturn 0);
      (1, checked slice_del);
      (2, checked (slice_from_s 1 (sy s_24)));
      (3, checked (slice_from_s 1 (sy s_25)));
      (4, checked slice_del);
      (5, checked slice_del);
      (6, checked slice_del);
      (7, checked (slice_from_s 1 (sy s_26)));
      (8, checked (slice_from_s 1 (sy s_27)));
      (9, checked slice_del);
      (10, checked slice_del);
      (11, checked slice_del);
      (12, checked (slice_from_s 1 (sy s_28)));
      (13, checked (slice_from_s 1 (sy s_29)));
      (14, checked slice_del);
      (15, checked slice_del);
      (16, checked slice_del);
      (17, checked slice_del);
      (18, checked (slice_from_s 1 (sy s_30)));
      (19, checked (slice_from_s 1 (sy s_31)));
      (20, checked slice_del);
      (21, checked slice_del);
      (22, checked (slice_from_s 1 (sy s_32)));
      (23, checked (slice_from_s 1 (sy s_33)));
      (24, checked slice_del);
      (25, checked slice_del);
      (26, checked slice_del);
      (27, checked (slice_from_s 1 (sy s_34)));
      (28, checked (slice_from_s 1 (sy s_35)));
      (29, checked slice_del) ] ;;
  creturn 1).

Definition hungarian_ISO_8859_1_stem : cfunc := cfun (
  do_f 0 r_mark_regions ;;
  put (fun z => set_lb (sn_c z) z) ;;
  put (fun z => set_c (sn_l z) z) ;;
  do_b 1 r_instrum ;;
  do_b 2 r_case ;;
  do_b 3 r_case_special ;;
  do_b 4 r_case_other ;;
  do_b 5 r_factive ;;
  do_b 6 r_owned ;;
  do_b 7 r_sing_owner ;;
  do_b 8 r_plur_owner ;;
  do_b 9 r_plural ;;
  put (fun z => set_c (sn_lb z) z) ;;
  creturn 1).

Definition hungarian_ISO_8859_1_create_env : option (option SN_env) := SN_create_env 0 1 0.
Definition hungarian_ISO_8859_1_close_env (z : option SN_env) : option unit := SN_close_env z 0.
End Routines.

(** ** Safety of every routine *)
Section Safety.
Context `{CHeap} (k L : Z).
Abbreviation St := (st k L 1 0).
Abbreviation step_ok := (step_at k L 1 0 0).
Abbreviation fwd_ok := (fwd_ok k L 1 0).

Lemma hui_mark_regions_ok : fwd_ok r_mark_regions.
Proof. intros w z S. unfold r_mark_regions. read_code S; fwd_done. Qed.

Lemma hui_R1_ok w z : St w z -> returns r_R1 z (fun v z' => 0 <= v /\ z' = z).
Proof. intros S. unfold r_R1. repeat wp_step; split; (done || lia). Qed.

Ltac routine_rule ::=
  lazymatch goal with
  | |- returns r_R1 _ _ => eapply returns_mono; [eapply hui_R1_ok; st_solve|intros ? ? (? & ->)]
  end.

Lemma hui_v_ending_ok : step_ok r_v_ending.
Proof. intros w z S Hlb. unfold r_v_ending. repeat wp_step; step_end. Qed.

Lemma hui_double_ok w z : St w z -> returns r_double z (fun v z' => 0 <= v /\ exists c, z' = set_c c z /\ St w z').
Proof. intros S. unfold r_double. repeat wp_step; probe_done. Qed.

Lemma hui_undouble_ok : step_ok r_undouble.
Proof. intros w z S Hlb. unfold r_undouble. repeat wp_step; step_end. Qed.

Ltac routine_rule ::=
  lazymatch goal with
  | |- returns r_R1 _ _ => eapply returns_mono; [eapply hui_R1_ok; st_solve|intros ? ? (? & ->)]
  | |- returns r_v_ending _ _ => eapply returns_mono; [eapply hui_v_ending_ok; [st_solve|sn_cbn; sn_lia || congruence..]|intros ? ? (? & ? & ? & ?)]
  | |- returns r_double _ _ => eapply returns_mono; [eapply hui_double_ok; st_solve|intros ? ? (? & ? & -> & ?)]
  | |- returns r_undouble _ _ => eapply returns_mono; [eapply hui_undouble_ok; [st_solve|sn_cbn; sn_lia || congruence..]|intros ? ? (? & ? & ? & ?)]
  end.

Lemma hui_instrum_ok : step_ok r_instrum.
Proof. intros w z S Hlb. unfold r_instrum. repeat wp_step; step_end. Qed.

Lemma hui_case_ok : step_ok r_case.
Proof. intros w z S Hlb. unfold r_case. repeat wp_step; step_end. Qed.

Lemma hui_case_special_ok : step_ok r_case_special.
Proof. intros w z S Hlb. unfold r_case_special. repeat wp_step; step_end. Qed.

Lemma hui_case_other_ok : step_ok r_case_other.
Proof. intros w z S Hlb. unfold r_case_other. repeat wp_step; step_end. Qed.

Lemma hui_factive_ok : step_ok r_factive.
Proof. intros w z S Hlb. unfold r_factive. repeat wp_step; step_end. Qed.

Lemma hui_plural_ok : step_ok r_plural.
Proof. intros w z S Hlb. unfold r_plural. repeat wp_step; step_end. Qed.

Lemma hui_owned_ok : step_ok r_owned.
Proof. intros w z S Hlb. unfold r_owned. repeat wp_step; step_end. Qed.

Lemma hui_sing_owner_ok : step_ok r_sing_owner.
Proof. intros w z S Hlb. unfold r_sing_owner. repeat wp_step; step_end. Qed.

Lemma hui_plur_owner_ok : step_ok r_plur_owner.
Proof. intros w z S Hlb. unfold r_plur_owner. repeat wp_step; step_end. Qed.

Ltac run_f H := eapply (do_f_ok k L 1 0 _ _ H); [st_solve|intros ? ? ? ? ?; edit_code 0].
Ltac run_b H := eapply (do_b_at k L 1 0 _ _ 0 H); [st_solve|sn_cbn; sn_lia || congruence..|intros ? ? ? ? ?; edit_code 0].

Lemma hui_stem_ok w z : St w z -> sn_c z = 0 ->
  returns hungarian_ISO_8859_1_stem z (fun v z' => v = 1 /\ exists w', St w' z' /\ (sn_lb z' = sn_lb z \/ sn_lb z' = sn_c z)).
Proof.
  intros S Hc. unfold hungarian_ISO_8859_1_stem. repeat wp_step.
  run_f hui_mark_regions_ok.
  run_b hui_instrum_ok.
  run_b hui_case_ok.
  run_b hui_case_special_ok.
  run_b hui_case_other_ok.
  run_b hui_factive_ok.
  run_b hui_owned_ok.
  run_b hui_sing_owner_ok.
  run_b hui_plur_owner_ok.
  run_b hui_plural_ok.
  split; [done|]; eexists; split; [st_solve|right; sn_cbn; congruence].
Qed.
End Safety.
