(* ===== verification/Russian.v ===== *)
(** * The Russian stemmer on UTF-8: [src_c/stem_UTF_8_russian.c]

    The generated C, statement for statement, and the proof that stemming is
    free of undefined behaviour, terminates and never lengthens the word. *)

From S2P Require Import Prelude SnEnv SnRuntime SnSpec SnAmong SnCode SnLoops.

Open Scope sn_scope.

(** ** Tables *)
Definition a_0 : list among :=
  [ mk_among 10 ([208; 178; 209; 136; 208; 184; 209; 129; 209; 140]) (-1) 1 None;
    mk_among 12 ([209; 139; 208; 178; 209; 136; 208; 184; 209; 129; 209; 140]) 0 2 None;
    mk_among 12 ([208; 184; 208; 178; 209; 136; 208; 184; 209; 129; 209; 140]) 0 2 None;
    mk_among 2 ([208; 178]) (-1) 1 None; mk_among 4 ([209; 139; 208; 178]) 3 2 None;
    mk_among 4 ([208; 184; 208; 178]) 3 2 None;
    mk_among 6 ([208; 178; 209; 136; 208; 184]) (-1) 1 None;
    mk_among 8 ([209; 139; 208; 178; 209; 136; 208; 184]) 6 2 None;
    mk_among 8 ([208; 184; 208; 178; 209; 136; 208; 184]) 6 2 None ].

Definition a_1 : list among :=
  [ mk_among 6 ([208; 181; 208; 188; 209; 131]) (-1) 1 None;
    mk_among 6 ([208; 190; 208; 188; 209; 131]) (-1) 1 None;
    mk_among 4 ([209; 139; 209; 133]) (-1) 1 None; mk_among 4 ([208; 184; 209; 133]) (-1) 1 None;
    mk_among 4 ([209; 131; 209; 142]) (-1) 1 None; mk_among 4 ([209; 142; 209; 142]) (-1) 1 None;
    mk_among 4 ([208; 181; 209; 142]) (-1) 1 None; mk_among 4 ([208; 190; 209; 142]) (-1) 1 None;
    mk_among 4 ([209; 143; 209; 143]) (-1) 1 None; mk_among 4 ([208; 176; 209; 143]) (-1) 1 None;
    mk_among 4 ([209; 139; 208; 181]) (-1) 1 None; mk_among 4 ([208; 181; 208; 181]) (-1) 1 None;
    mk_among 4 ([208; 184; 208; 181]) (-1) 1 None; mk_among 4 ([208; 190; 208; 181]) (-1) 1 None;
    mk_among 6 ([209; 139; 208; 188; 208; 184]) (-1) 1 None;
    mk_among 6 ([208; 184; 208; 188; 208; 184]) (-1) 1 None;
    mk_among 4 ([209; 139; 208; 185]) (-1) 1 None; mk_among 4 ([208; 181; 208; 185]) (-1) 1 None;
    mk_among 4 ([208; 184; 208; 185]) (-1) 1 None; mk_among 4 ([208; 190; 208; 185]) (-1) 1 None;
    mk_among 4 ([209; 139; 208; 188]) (-1) 1 None; mk_among 4 ([208; 181; 208; 188]) (-1) 1 None;
    mk_among 4 ([208; 184; 208; 188]) (-1) 1 None; mk_among 4 ([208; 190; 208; 188]) (-1) 1 None;
    mk_among 6 ([208; 181; 208; 179; 208; 190]) (-1) 1 None;
    mk_among 6 ([208; 190; 208; 179; 208; 190]) (-1) 1 None ].

Definition a_2 : list among :=
  [ mk_among 4 ([208; 178; 209; 136]) (-1) 1 None;
    mk_among 6 ([209; 139; 208; 178; 209; 136]) 0 2 None;
    mk_among 6 ([208; 184; 208; 178; 209; 136]) 0 2 None; mk_among 2 ([209; 137]) (-1) 1 None;
    mk_among 4 ([209; 142; 209; 137]) 3 1 None;
    mk_among 6 ([209; 131; 209; 142; 209; 137]) 4 2 None;
    mk_among 4 ([208; 181; 208; 188]) (-1) 1 None; mk_among 4 ([208; 189; 208; 189]) (-1) 1 None ].

Definition a_3 : list among :=
  [ mk_among 4 ([209; 129; 209; 140]) (-1) 1 None; mk_among 4 ([209; 129; 209; 143]) (-1) 1 None ].

Definition a_4 : list among :=
  [ mk_among 4 ([209; 139; 209; 130]) (-1) 2 None; mk_among 4 ([209; 142; 209; 130]) (-1) 1 None;
    mk_among 6 ([209; 131; 209; 142; 209; 130]) 1 2 None;
    mk_among 4 ([209; 143; 209; 130]) (-1) 2 None; mk_among 4 ([208; 181; 209; 130]) (-1) 1 None;
    mk_among 6 ([209; 131; 208; 181; 209; 130]) 4 2 None;
    mk_among 4 ([208; 184; 209; 130]) (-1) 2 None; mk_among 4 ([208; 189; 209; 139]) (-1) 1 None;
    mk_among 6 ([208; 181; 208; 189; 209; 139]) 7 2 None;
    mk_among 4 ([209; 130; 209; 140]) (-1) 1 None;
    mk_among 6 ([209; 139; 209; 130; 209; 140]) 9 2 None;
    mk_among 6 ([208; 184; 209; 130; 209; 140]) 9 2 None;
    mk_among 6 ([208; 181; 209; 136; 209; 140]) (-1) 1 None;
    mk_among 6 ([208; 184; 209; 136; 209; 140]) (-1) 2 None; mk_among 2 ([209; 142]) (-1) 2 None;
    mk_among 4 ([209; 131; 209; 142]) 14 2 None; mk_among 4 ([208; 187; 208; 176]) (-1) 1 None;
    mk_among 6 ([209; 139; 208; 187; 208; 176]) 16 2 None;
    mk_among 6 ([208; 184; 208; 187; 208; 176]) 16 2 None;
    mk_among 4 ([208; 189; 208; 176]) (-1) 1 None;
    mk_among 6 ([208; 181; 208; 189; 208; 176]) 19 2 None;
    mk_among 6 ([208; 181; 209; 130; 208; 181]) (-1) 1 None;
    mk_among 6 ([208; 184; 209; 130; 208; 181]) (-1) 2 None;
    mk_among 6 ([208; 185; 209; 130; 208; 181]) (-1) 1 None;
    mk_among 8 ([209; 131; 208; 185; 209; 130; 208; 181]) 23 2 None;
    mk_among 8 ([208; 181; 208; 185; 209; 130; 208; 181]) 23 2 None;
    mk_among 4 ([208; 187; 208; 184]) (-1) 1 None;
    mk_among 6 ([209; 139; 208; 187; 208; 184]) 26 2 None;
    mk_among 6 ([208; 184; 208; 187; 208; 184]) 26 2 None; mk_among 2 ([208; 185]) (-1) 1 None;
    mk_among 4 ([209; 131; 208; 185]) 29 2 None; mk_among 4 ([208; 181; 208; 185]) 29 2 None;
    mk_among 2 ([208; 187]) (-1) 1 None; mk_among 4 ([209; 139; 208; 187]) 32 2 None;
    mk_among 4 ([208; 184; 208; 187]) 32 2 None; mk_among 4 ([209; 139; 208; 188]) (-1) 2 None;
    mk_among 4 ([208; 181; 208; 188]) (-1) 1 None; mk_among 4 ([208; 184; 208; 188]) (-1) 2 None;
    mk_among 2 ([208; 189]) (-1) 1 None; mk_among 4 ([208; 181; 208; 189]) 38 2 None;
    mk_among 4 ([208; 187; 208; 190]) (-1) 1 None;
    mk_among 6 ([209; 139; 208; 187; 208; 190]) 40 2 None;
    mk_among 6 ([208; 184; 208; 187; 208; 190]) 40 2 None;
    mk_among 4 ([208; 189; 208; 190]) (-1) 1 None;
    mk_among 6 ([208; 181; 208; 189; 208; 190]) 43 2 None;
    mk_among 6 ([208; 189; 208; 189; 208; 190]) 43 1 None ].

Definition a_5 : list among :=
  [ mk_among 2 ([209; 131]) (-1) 1 None; mk_among 4 ([209; 143; 209; 133]) (-1) 1 None;
    mk_among 6 ([208; 184; 209; 143; 209; 133]) 1 1 None;
    mk_among 4 ([208; 176; 209; 133]) (-1) 1 None; mk_among 2 ([209; 139]) (-1) 1 None;
    mk_among 2 ([209; 140]) (-1) 1 None; mk_among 2 ([209; 142]) (-1) 1 None;
    mk_among 4 ([209; 140; 209; 142]) 6 1 None; mk_among 4 ([208; 184; 209; 142]) 6 1 None;
    mk_among 2 ([209; 143]) (-1) 1 None; mk_among 4 ([209; 140; 209; 143]) 9 1 None;
    mk_among 4 ([208; 184; 209; 143]) 9 1 None; mk_among 2 ([208; 176]) (-1) 1 None;
    mk_among 4 ([208; 181; 208; 178]) (-1) 1 None; mk_among 4 ([208; 190; 208; 178]) (-1) 1 None;
    mk_among 2 ([208; 181]) (-1) 1 None; mk_among 4 ([209; 140; 208; 181]) 15 1 None;
    mk_among 4 ([208; 184; 208; 181]) 15 1 None; mk_among 2 ([208; 184]) (-1) 1 None;
    mk_among 4 ([208; 181; 208; 184]) 18 1 None; mk_among 4 ([208; 184; 208; 184]) 18 1 None;
    mk_among 6 ([209; 143; 208; 188; 208; 184]) 18 1 None;
    mk_among 8 ([208; 184; 209; 143; 208; 188; 208; 184]) 21 1 None;
    mk_among 6 ([208; 176; 208; 188; 208; 184]) 18 1 None; mk_among 2 ([208; 185]) (-1) 1 None;
    mk_among 4 ([208; 181; 208; 185]) 24 1 None;
    mk_among 6 ([208; 184; 208; 181; 208; 185]) 25 1 None;
    mk_among 4 ([208; 184; 208; 185]) 24 1 None; mk_among 4 ([208; 190; 208; 185]) 24 1 None;
    mk_among 4 ([209; 143; 208; 188]) (-1) 1 None;
    mk_among 6 ([208; 184; 209; 143; 208; 188]) 29 1 None;
    mk_among 4 ([208; 176; 208; 188]) (-1) 1 None; mk_among 4 ([208; 181; 208; 188]) (-1) 1 None;
    mk_among 6 ([208; 184; 208; 181; 208; 188]) 32 1 None;
    mk_among 4 ([208; 190; 208; 188]) (-1) 1 None; mk_among 2 ([208; 190]) (-1) 1 None ].

Definition a_6 : list among :=
  [ mk_among 6 ([208; 190; 209; 129; 209; 130]) (-1) 1 None;
    mk_among 8 ([208; 190; 209; 129; 209; 130; 209; 140]) (-1) 1 None ].

Definition a_7 : list among :=
  [ mk_among 6 ([208; 181; 208; 185; 209; 136]) (-1) 1 None; mk_among 2 ([209; 140]) (-1) 3 None;
    mk_among 8 ([208; 181; 208; 185; 209; 136; 208; 181]) (-1) 1 None;
    mk_among 2 ([208; 189]) (-1) 2 None ].

Definition g_v : list Z := [33; 65; 8; 232].

Definition s_0 : list Z := [208; 176].
Definition s_1 : list Z := [209; 143].
Definition s_2 : list Z := [208; 176].
Definition s_3 : list Z := [209; 143].
Definition s_4 : list Z := [208; 176].
Definition s_5 : list Z := [209; 143].
Definition s_6 : list Z := [208; 189].
Definition s_7 : list Z := [208; 189].
Definition s_8 : list Z := [208; 189].
Definition s_9 : list Z := [208; 184].

(** ** Routines *)
Section Routines.
Context `{CHeap}.

Definition r_mark_regions : cfunc := cfun (
  l <- get sn_l ;;
  put_I 0 l ;;
  l <- get sn_l ;;
  put_I 1 l ;;
  c1 <- get sn_c ;;
  label 0 (
    gopast (out_grouping_U g_v 1072 1103 1) (goto 0) ;;
    c <- get sn_c ;;
    put_I 0 c ;;
    gopast (in_grouping_U g_v 1072 1103 1) (goto 0) ;;
    gopast (out_grouping_U g_v 1072 1103 1) (goto 0) ;;
    gopast (in_grouping_U g_v 1072 1103 1) (goto 0) ;;
    c <- get sn_c ;;
    put_I 1 c) ;;
  c_is c1 ;;
  creturn 1).

Definition r_R2 : cfunc := cfun (
  i <- get_I 1 ;;
  c <- get sn_c ;;
  when (negb (i <=? c)) (creturn 0) ;;
  creturn 1).

Definition r_perfective_gerund : cfunc := cfun (
  ket_c ;;
  among_var <- call (find_among_b a_0 9) ;;
  when (among_var =? 0) (creturn 0) ;;
  bra_c ;;
  switch among_var
    [ (0, creturn 0);
      (1, label 0 (
            m1 <- get_m ;;
            label 1 (
              unless_call (eq_s_b 2 (sy s_0)) (goto 1) ;;
              goto 0) ;;
            c_from_l m1 ;;
            unless_call (eq_s_b 2 (sy s_1)) (creturn 0)) ;;
          checked slice_del);
      (2, checked slice_del) ] ;;
  creturn 1).

Definition r_adjective : cfunc := cfun (
  ket_c ;;
  among_var <- call (find_among_b a_1 26) ;;
  when (among_var =? 0) (creturn 0) ;;
  bra_c ;;
  switch among_var
    [ (0, creturn 0);
      (1, checked slice_del) ] ;;
  creturn 1).

Definition r_adjectival : cfunc := cfun (
  routine r_adjective (creturn 0) ;;
  m_keep <- get_m ;;
  ket_c ;;
  among_var <- call (find_among_b a_2 8) ;;
  label 0 (
    when (among_var =? 0) (c_from_l m_keep ;; goto 0) ;;
    bra_c ;;
    switch among_var
      [ (0, c_from_l m_keep ;;
            goto 0);
        (1, label 1 (
              m1 <- get_m ;;
              label 2 (
                unless_call (eq_s_b 2 (sy s_2)) (goto 2) ;;
                goto 1) ;;
              c_from_l m1 ;;
              unless_call (eq_s_b 2 (sy s_3)) (c_from_l m_keep ;; goto 0)) ;;
            checked slice_del);
        (2, checked slice_del) ]) ;;
  creturn 1).

Definition r_reflexive : cfunc := cfun (
  ket_c ;;
  b <- pre_b 3 (fun ch => negb (ch =? 140) && negb (ch =? 143)) ;;
  when b (creturn 0) ;;
  among_var <- call (find_among_b a_3 2) ;;
  when (among_var =? 0) (creturn 0) ;;
  bra_c ;;
  switch among_var
    [ (0, creturn 0);
      (1, checked slice_del) ] ;;
  creturn 1).

Definition r_verb : cfunc := cfun (
  ket_c ;;
  among_var <- call (find_among_b a_4 46) ;;
  when (among_var =? 0) (creturn 0) ;;
  bra_c ;;
  switch among_var
    [ (0, creturn 0);
      (1, label 0 (
            m1 <- get_m ;;
            label 1 (
              unless_call (eq_s_b 2 (sy s_4)) (goto 1) ;;
              goto 0) ;;
            c_from_l m1 ;;
            unless_call (eq_s_b 2 (sy s_5)) (creturn 0)) ;;
          checked slice_del);
      (2, checked slice_del) ] ;;
  creturn 1).

Definition r_noun : cfunc := cfun (
  ket_c ;;
  among_var <- call (find_among_b a_5 36) ;;
  when (among_var =? 0) (creturn 0) ;;
  bra_c ;;
  switch among_var
    [ (0, creturn 0);
      (1, checked slice_del) ] ;;
  creturn 1).

Definition r_derivational : cfunc := cfun (
  ket_c ;;
  b <- pre_b 5 (fun ch => negb (ch =? 130) && negb (ch =? 140)) ;;
  when b (creturn 0) ;;
  among_var <- call (find_among_b a_6 2) ;;
  when (among_var =? 0) (creturn 0) ;;
  bra_c ;;
  routine r_R2 (creturn 0) ;;
  switch among_var
    [ (0, creturn 0);
      (1, checked slice_del) ] ;;
  creturn 1).

Definition r_tidy_up : cfunc := cfun (
  ket_c ;;
  among_var <- call (find_among_b a_7 4) ;;
  when (among_var =? 0) (creturn 0) ;;
  bra_c ;;
  switch among_var
    [ (0, creturn 0);
      (1, checked slice_del ;;
          ket_c ;;
          unless_call (eq_s_b 2 (sy s_6)) (creturn 0) ;;
          bra_c ;;
          unless_call (eq_s_b 2 (sy s_7)) (creturn 0) ;;
          checked slice_del);
      (2, unless_call (eq_s_b 2 (sy s_8)) (creturn 0) ;;
          checked slice_del);
      (3, checked slice_del) ] ;;
  creturn 1).

Definition russian_UTF_8_stem : cfunc := cfun (
  do_f 0 r_mark_regions ;;
  put (fun z => set_lb (sn_c z) z) ;;
  put (fun z => set_c (sn_l z) z) ;;
  m2 <- get_m ;;
  i <- get_I 0 ;;
  c <- get sn_c ;;
  when (c <? i) (creturn 0) ;;
  i <- get_I 0 ;;
  c_is i ;;
  mlimit <- get sn_lb ;;
  put (fun z => set_lb (sn_c z) z) ;;
  c_from_l m2 ;;
  m3 <- get_m ;;
  label 1 (
    label 2 (
      m4 <- get_m ;;
      label 3 (
        routine r_perfective_gerund (goto 3) ;;
        goto 2) ;;
      c_from_l m4 ;;
      m_keep <- get_m ;;
      label 4 (
        routine r_reflexive (c_from_l m_keep ;; goto 4)) ;;
      label 5 (
        m5 <- get_m ;;
        label 6 (
          routine r_adjectival (goto 6) ;;
          goto 5) ;;
        c_from_l m5 ;;
        label 7 (
          routine r_verb (goto 7) ;;
          goto 5) ;;
        c_from_l m5 ;;
        routine r_noun (goto 1)))) ;;
  c_from_l m3 ;;
  m_keep <- get_m ;;
  ket_c ;;
  label 8 (
    unless_call (eq_s_b 2 (sy s_9)) (c_from_l m_keep ;; goto 8) ;;
    bra_c ;;
    checked slice_del) ;;
  do_b 9 r_derivational ;;
  do_b 10 r_tidy_up ;;
  put (set_lb mlimit) ;;
  put (fun z => set_c (sn_lb z) z) ;;
  creturn 1).

Definition russian_UTF_8_create_env : option (option SN_env) := SN_create_env 0 2 0.
Definition russian_UTF_8_close_env (z : option SN_env) : option unit := SN_close_env z 0.
End Routines.

(** ** Safety of every routine *)
Section Safety.
Context `{CHeap} (k L : Z).
Abbreviation St := (st k L 2 0).
Abbreviation step_ok := (step_ok k L 2 0).
Abbreviation fwd_ok := (fwd_ok k L 2 0).

(** The marks are inside the word. *)
Lemma ru_mark_regions_ok w z : St w z -> returns r_mark_regions z (fun v z' => 0 <= v /\ exists w', St w' z'
  /\ sn_lb z' = sn_lb z /\ sn_c z <= sn_l z' /\ exists x, znth (sn_I z') 0 = Some x /\ x <= sn_l z').
Proof.
  intros S. unfold r_mark_regions. repeat wp_step; (split; [lia|]); eexists;
    (split_and!; [st_solve|sn_cbn; sn_lia || congruence|sn_lia|]); mark_value; (eexists; split; [reflexivity|sn_lia]).
Qed.

Lemma ru_R2_ok w z : St w z -> returns r_R2 z (fun v z' => 0 <= v /\ z' = z).
Proof. intros S. unfold r_R2. repeat wp_step; split; (done || lia). Qed.

Lemma ru_perfective_gerund_ok : step_ok r_perfective_gerund.
Proof. intros w z S. unfold r_perfective_gerund. repeat wp_step; step_end. Qed.

(** A routine that fails has not changed the length of the word. *)
Definition try_ok (f : cfunc) : Prop := forall w z, St w z ->
  returns f z (fun v z' => 0 <= v /\ exists w', St w' z' /\ sn_lb z' = sn_lb z /\ (v = 0 -> sn_l z' = sn_l z)).

Ltac try_end := split; [lia|]; eexists; split_and!; [st_solve|sn_cbn; sn_lia || congruence|intros ?; sn_cbn; sn_lia].

Lemma ru_adjective_ok : try_ok r_adjective.
Proof. intros w z S. unfold r_adjective. repeat wp_step; try_end. Qed.

Ltac routine_rule ::=
  lazymatch goal with
  | |- returns r_R2 _ _ => eapply returns_mono; [eapply ru_R2_ok; st_solve|intros ? ? (? & ->)]
  | |- returns r_perfective_gerund _ _ => eapply returns_mono; [eapply ru_perfective_gerund_ok; st_solve|intros ? ? (? & ? & ? & ?)]
  | |- returns r_adjective _ _ => eapply returns_mono; [eapply ru_adjective_ok; st_solve|intros ? ? (? & ? & ? & ? & ?)]
  end.

Lemma ru_adjectival_ok : try_ok r_adjectival.
Proof. intros w z S. unfold r_adjectival. repeat wp_step; try_end. Qed.

Lemma ru_reflexive_ok : step_ok r_reflexive.
Proof. intros w z S. unfold r_reflexive. repeat wp_step; step_end. Qed.

Lemma ru_verb_ok : try_ok r_verb.
Proof. intros w z S. unfold r_verb. repeat wp_step; try_end. Qed.

Lemma ru_noun_ok : step_ok r_noun.
Proof. intros w z S. unfold r_noun. repeat wp_step; step_end. Qed.

Lemma ru_derivational_ok : step_ok r_derivational.
Proof. intros w z S. unfold r_derivational. repeat wp_step; step_end. Qed.

Lemma ru_tidy_up_ok : step_ok r_tidy_up.
Proof. intros w z S. unfold r_tidy_up. repeat wp_step; step_end. Qed.

Ltac routine_rule ::=
  lazymatch goal with
  | |- returns r_R2 _ _ => eapply returns_mono; [eapply ru_R2_ok; st_solve|intros ? ? (? & ->)]
  | |- returns r_perfective_gerund _ _ => eapply returns_mono; [eapply ru_perfective_gerund_ok; st_solve|intros ? ? (? & ? & ? & ?)]
  | |- returns r_adjective _ _ => eapply returns_mono; [eapply ru_adjective_ok; st_solve|intros ? ? (? & ? & ? & ? & ?)]
  | |- returns r_adjectival _ _ => eapply returns_mono; [eapply ru_adjectival_ok; st_solve|intros ? ? (? & ? & ? & ? & ?)]
  | |- returns r_reflexive _ _ => eapply returns_mono; [eapply ru_reflexive_ok; st_solve|intros ? ? (? & ? & ? & ?)]
  | |- returns r_verb _ _ => eapply returns_mono; [eapply ru_verb_ok; st_solve|intros ? ? (? & ? & ? & ? & ?)]
  | |- returns r_noun _ _ => eapply returns_mono; [eapply ru_noun_ok; st_solve|intros ? ? (? & ? & ? & ?)]
  end.

Ltac run_b H := eapply (do_b_ok k L 2 0 _ _ H); [st_solve|sn_cbn; rewrite ?splice_c_bra in * by lia; sn_lia|intros ? ? ? ? ?; repeat wp_step].

Lemma ru_marks w z Q : St w z ->
  (forall w' z' x, St w' z' -> sn_c z' = sn_c z -> sn_lb z' = sn_lb z -> znth (sn_I z') 0 = Some x -> x <= sn_l z' -> Q (Next tt) z') ->
  wp (do_f 0 r_mark_regions) Q z.
Proof.
  intros S HQ. unfold do_f. do 4 wp_step. unfold routine. repeat wp_step1.
  eapply returns_mono; [by eapply ru_mark_regions_ok|]. intros v z' (Hv & w' & S' & Hlb & Hc & x & Hx & Hl).
  repeat wp_step; try lia; rewrite ?Nat.eqb_refl; repeat wp_step; (apply (HQ w' _ x); [st_solve|done..]).
Qed.

(** The suffixes are searched behind the first mark, which is the lower limit
    for a while. *)
Lemma ru_stem_ok w z : St w z -> sn_c z = 0 ->
  returns russian_UTF_8_stem z (fun v z' => v = 1 /\ exists w', St w' z' /\ (sn_lb z' = sn_lb z \/ sn_lb z' = sn_c z)).
Proof.
  intros S Hc. unfold russian_UTF_8_stem. do 2 wp_step. eapply ru_marks; [done|]. intros w1 z1 x S1 Hc1 Hlb1 Hx Hxl.
  repeat lazymatch goal with |- wp (label _ _) _ _ => fail | _ => wp_step end; try (exfalso; sn_lia).
  eapply (join_edit k L 2 0 x); [repeat wp_step; try (eexists; split; [st_solve|sn_cbn; sn_lia || congruence])|intros w2 z2 S2 Hlb2].
  repeat wp_step.
  all: run_b ru_derivational_ok; run_b ru_tidy_up_ok.
  all: split; [done|]; eexists; split; [st_solve|right; sn_cbn; sn_lia].
Qed.
End Safety.
