(* ===== verification/RussianKoi8.v ===== *)
(** * The Russian stemmer on KOI8-R: [src_c/stem_KOI8_R_russian.c]

    The generated C, statement for statement, and the proof that stemming is
    free of undefined behaviour, terminates and never lengthens the word. *)

From S2P Require Import Prelude SnEnv SnRuntime SnSpec SnAmong SnCode SnLoops.

Open Scope sn_scope.

(** ** Tables *)
Definition a_0 : list among :=
  [ mk_among 3 ([215; 219; 201]) (-1) 1 None; mk_among 4 ([201; 215; 219; 201]) 0 2 None;
    mk_among 4 ([217; 215; 219; 201]) 0 2 None; mk_among 1 ([215]) (-1) 1 None;
    mk_among 2 ([201; 215]) 3 2 None; mk_among 2 ([217; 215]) 3 2 None;
    mk_among 5 ([215; 219; 201; 211; 216]) (-1) 1 None;
    mk_among 6 ([201; 215; 219; 201; 211; 216]) 6 2 None;
    mk_among 6 ([217; 215; 219; 201; 211; 216]) 6 2 None ].

Definition a_1 : list among :=
  [ mk_among 2 ([192; 192]) (-1) 1 None; mk_among 2 ([197; 192]) (-1) 1 None;
    mk_among 2 ([207; 192]) (-1) 1 None; mk_among 2 ([213; 192]) (-1) 1 None;
    mk_among 2 ([197; 197]) (-1) 1 None; mk_among 2 ([201; 197]) (-1) 1 None;
    mk_among 2 ([207; 197]) (-1) 1 None; mk_among 2 ([217; 197]) (-1) 1 None;
    mk_among 2 ([201; 200]) (-1) 1 None; mk_among 2 ([217; 200]) (-1) 1 None;
    mk_among 3 ([201; 205; 201]) (-1) 1 None; mk_among 3 ([217; 205; 201]) (-1) 1 None;
    mk_among 2 ([197; 202]) (-1) 1 None; mk_among 2 ([201; 202]) (-1) 1 None;
    mk_among 2 ([207; 202]) (-1) 1 None; mk_among 2 ([217; 202]) (-1) 1 None;
    mk_among 2 ([197; 205]) (-1) 1 None; mk_among 2 ([201; 205]) (-1) 1 None;
    mk_among 2 ([207; 205]) (-1) 1 None; mk_among 2 ([217; 205]) (-1) 1 None;
    mk_among 3 ([197; 199; 207]) (-1) 1 None; mk_among 3 ([207; 199; 207]) (-1) 1 None;
    mk_among 2 ([193; 209]) (-1) 1 None; mk_among 2 ([209; 209]) (-1) 1 None;
    mk_among 3 ([197; 205; 213]) (-1) 1 None; mk_among 3 ([207; 205; 213]) (-1) 1 None ].

Definition a_2 : list among :=
  [ mk_among 2 ([197; 205]) (-1) 1 None; mk_among 2 ([206; 206]) (-1) 1 None;
    mk_among 2 ([215; 219]) (-1) 1 None; mk_among 3 ([201; 215; 219]) 2 2 None;
    mk_among 3 ([217; 215; 219]) 2 2 None; mk_among 1 ([221]) (-1) 1 None;
    mk_among 2 ([192; 221]) 5 1 None; mk_among 3 ([213; 192; 221]) 6 2 None ].

Definition a_3 : list among :=
  [ mk_among 2 ([211; 209]) (-1) 1 None; mk_among 2 ([211; 216]) (-1) 1 None ].

Definition a_4 : list among :=
  [ mk_among 1 ([192]) (-1) 2 None; mk_among 2 ([213; 192]) 0 2 None;
    mk_among 2 ([204; 193]) (-1) 1 None; mk_among 3 ([201; 204; 193]) 2 2 None;
    mk_among 3 ([217; 204; 193]) 2 2 None; mk_among 2 ([206; 193]) (-1) 1 None;
    mk_among 3 ([197; 206; 193]) 5 2 None; mk_among 3 ([197; 212; 197]) (-1) 1 None;
    mk_among 3 ([201; 212; 197]) (-1) 2 None; mk_among 3 ([202; 212; 197]) (-1) 1 None;
    mk_among 4 ([197; 202; 212; 197]) 9 2 None; mk_among 4 ([213; 202; 212; 197]) 9 2 None;
    mk_among 2 ([204; 201]) (-1) 1 None; mk_among 3 ([201; 204; 201]) 12 2 None;
    mk_among 3 ([217; 204; 201]) 12 2 None; mk_among 1 ([202]) (-1) 1 None;
    mk_among 2 ([197; 202]) 15 2 None; mk_among 2 ([213; 202]) 15 2 None;
    mk_among 1 ([204]) (-1) 1 None; mk_among 2 ([201; 204]) 18 2 None;
    mk_among 2 ([217; 204]) 18 2 None; mk_among 2 ([197; 205]) (-1) 1 None;
    mk_among 2 ([201; 205]) (-1) 2 None; mk_among 2 ([217; 205]) (-1) 2 None;
    mk_among 1 ([206]) (-1) 1 None; mk_among 2 ([197; 206]) 24 2 None;
    mk_among 2 ([204; 207]) (-1) 1 None; mk_among 3 ([201; 204; 207]) 26 2 None;
    mk_among 3 ([217; 204; 207]) 26 2 None; mk_among 2 ([206; 207]) (-1) 1 None;
    mk_among 3 ([197; 206; 207]) 29 2 None; mk_among 3 ([206; 206; 207]) 29 1 None;
    mk_among 2 ([192; 212]) (-1) 1 None; mk_among 3 ([213; 192; 212]) 32 2 None;
    mk_among 2 ([197; 212]) (-1) 1 None; mk_among 3 ([213; 197; 212]) 34 2 None;
    mk_among 2 ([201; 212]) (-1) 2 None; mk_among 2 ([209; 212]) (-1) 2 None;
    mk_among 2 ([217; 212]) (-1) 2 None; mk_among 2 ([212; 216]) (-1) 1 None;
    mk_among 3 ([201; 212; 216]) 39 2 None; mk_among 3 ([217; 212; 216]) 39 2 None;
    mk_among 3 ([197; 219; 216]) (-1) 1 None; mk_among 3 ([201; 219; 216]) (-1) 2 None;
    mk_among 2 ([206; 217]) (-1) 1 None; mk_among 3 ([197; 206; 217]) 44 2 None ].

Definition a_5 : list among :=
  [ mk_among 1 ([192]) (-1) 1 None; mk_among 2 ([201; 192]) 0 1 None;
    mk_among 2 ([216; 192]) 0 1 None; mk_among 1 ([193]) (-1) 1 None;
    mk_among 1 ([197]) (-1) 1 None; mk_among 2 ([201; 197]) 4 1 None;
    mk_among 2 ([216; 197]) 4 1 None; mk_among 2 ([193; 200]) (-1) 1 None;
    mk_among 2 ([209; 200]) (-1) 1 None; mk_among 3 ([201; 209; 200]) 8 1 None;
    mk_among 1 ([201]) (-1) 1 None; mk_among 2 ([197; 201]) 10 1 None;
    mk_among 2 ([201; 201]) 10 1 None; mk_among 3 ([193; 205; 201]) 10 1 None;
    mk_among 3 ([209; 205; 201]) 10 1 None; mk_among 4 ([201; 209; 205; 201]) 14 1 None;
    mk_among 1 ([202]) (-1) 1 None; mk_among 2 ([197; 202]) 16 1 None;
    mk_among 3 ([201; 197; 202]) 17 1 None; mk_among 2 ([201; 202]) 16 1 None;
    mk_among 2 ([207; 202]) 16 1 None; mk_among 2 ([193; 205]) (-1) 1 None;
    mk_among 2 ([197; 205]) (-1) 1 None; mk_among 3 ([201; 197; 205]) 22 1 None;
    mk_among 2 ([207; 205]) (-1) 1 None; mk_among 2 ([209; 205]) (-1) 1 None;
    mk_among 3 ([201; 209; 205]) 25 1 None; mk_among 1 ([207]) (-1) 1 None;
    mk_among 1 ([209]) (-1) 1 None; mk_among 2 ([201; 209]) 28 1 None;
    mk_among 2 ([216; 209]) 28 1 None; mk_among 1 ([213]) (-1) 1 None;
    mk_among 2 ([197; 215]) (-1) 1 None; mk_among 2 ([207; 215]) (-1) 1 None;
    mk_among 1 ([216]) (-1) 1 None; mk_among 1 ([217]) (-1) 1 None ].

Definition a_6 : list among :=
  [ mk_among 3 ([207; 211; 212]) (-1) 1 None; mk_among 4 ([207; 211; 212; 216]) (-1) 1 None ].

Definition a_7 : list among :=
  [ mk_among 4 ([197; 202; 219; 197]) (-1) 1 None; mk_among 1 ([206]) (-1) 2 None;
    mk_among 1 ([216]) (-1) 3 None; mk_among 3 ([197; 202; 219]) (-1) 1 None ].

Definition g_v : list Z := [35; 130; 34; 18].

Definition s_0 : list Z := [193].
Definition s_1 : list Z := [209].
Definition s_2 : list Z := [193].
Definition s_3 : list Z := [209].
Definition s_4 : list Z := [193].
Definition s_5 : list Z := [209].
Definition s_6 : list Z := [206].
Definition s_7 : list Z := [206].
Definition s_8 : list Z := [206].
Definition s_9 : list Z := [201].

(** ** Routines *)
Section Routines.
Context `{CHeap}.

Definition r_mark_regions : cfunc := cfun (
  l <- get sn_l ;;
  put_I 0 l ;;
  l <- get sn_l ;;
  put_I 1 l ;;
  c1 <- get sn_c ;;
  label 0 (
    gopast (out_grouping g_v 192 220 1) (goto 0) ;;
    c <- get sn_c ;;
    put_I 0 c ;;
    gopast (in_grouping g_v 192 220 1) (goto 0) ;;
    gopast (out_grouping g_v 192 220 1) (goto 0) ;;
    gopast (in_grouping g_v 192 220 1) (goto 0) ;;
    c <- get sn_c ;;
    put_I 1 c) ;;
  c_is c1 ;;
  creturn 1).

Definition r_R2 : cfunc := cfun (
  i <- get_I 1 ;;
  c <- get sn_c ;;
  when (negb (i <=? c)) (creturn 0) ;;
  creturn 1).

Definition r_perfective_gerund : cfunc := cfun (
  ket_c ;;
  b <- pre_b 0 (not_masked 6 25166336) ;;
  when b (creturn 0) ;;
  among_var <- call (find_among_b a_0 9) ;;
  when (among_var =? 0) (creturn 0) ;;
  bra_c ;;
  switch among_var
    [ (0, creturn 0);
      (1, label 0 (
            m1 <- get_m ;;
            label 1 (
              unless_call (eq_s_b 1 (sy s_0)) (goto 1) ;;
              goto 0) ;;
            c_from_l m1 ;;
            unless_call (eq_s_b 1 (sy s_1)) (creturn 0)) ;;
          checked slice_del);
      (2, checked slice_del) ] ;;
  creturn 1).

Definition r_adjective : cfunc := cfun (
  ket_c ;;
  b <- pre_b 1 (not_masked 6 2271009) ;;
  when b (creturn 0) ;;
  among_var <- call (find_among_b a_1 26) ;;
  when (among_var =? 0) (creturn 0) ;;
  bra_c ;;
  switch among_var
    [ (0, creturn 0);
      (1, checked slice_del) ] ;;
  creturn 1).

Definition r_adjectival : cfunc := cfun (
  routine r_adjective (creturn 0) ;;
  m_keep <- get_m ;;
  ket_c ;;
  label 0 (
    b <- pre_b 0 (not_masked 6 671113216) ;;
    when b (c_from_l m_keep ;; goto 0) ;;
    among_var <- call (find_among_b a_2 8) ;;
    when (among_var =? 0) (c_from_l m_keep ;; goto 0) ;;
    bra_c ;;
    switch among_var
      [ (0, c_from_l m_keep ;;
            goto 0);
        (1, label 1 (
              m1 <- get_m ;;
              label 2 (
                unless_call (eq_s_b 1 (sy s_2)) (goto 2) ;;
                goto 1) ;;
              c_from_l m1 ;;
              unless_call (eq_s_b 1 (sy s_3)) (c_from_l m_keep ;; goto 0)) ;;
            checked slice_del);
        (2, checked slice_del) ]) ;;
  creturn 1).

Definition r_reflexive : cfunc := cfun (
  ket_c ;;
  b <- pre_b 1 (fun ch => negb (ch =? 209) && negb (ch =? 216)) ;;
  when b (creturn 0) ;;
  among_var <- call (find_among_b a_3 2) ;;
  when (among_var =? 0) (creturn 0) ;;
  bra_c ;;
  switch among_var
    [ (0, creturn 0);
      (1, checked slice_del) ] ;;
  creturn 1).

Definition r_verb : cfunc := cfun (
  ket_c ;;
  b <- pre_b 0 (not_masked 6 51443235) ;;
  when b (creturn 0) ;;
  among_var <- call (find_among_b a_4 46) ;;
  when (among_var =? 0) (creturn 0) ;;
  bra_c ;;
  switch among_var
    [ (0, creturn 0);
      (1, label 0 (
            m1 <- get_m ;;
            label 1 (
              unless_call (eq_s_b 1 (sy s_4)) (goto 1) ;;
              goto 0) ;;
            c_from_l m1 ;;
            unless_call (eq_s_b 1 (sy s_5)) (creturn 0)) ;;
          checked slice_del);
      (2, checked slice_del) ] ;;
  creturn 1).

Definition r_noun : cfunc := cfun (
  ket_c ;;
  b <- pre_b 0 (not_masked 6 60991267) ;;
  when b (creturn 0) ;;
  among_var <- call (find_among_b a_5 36) ;;
  when (among_var =? 0) (creturn 0) ;;
  bra_c ;;
  switch among_var
    [ (0, creturn 0);
      (1, checked slice_del) ] ;;
  creturn 1).

Definition r_derivational : cfunc := cfun (
  ket_c ;;
  b <- pre_b 2 (fun ch => negb (ch =? 212) && negb (ch =? 216)) ;;
  when b (creturn 0) ;;
  among_var <- call (find_among_b a_6 2) ;;
  when (among_var =? 0) (creturn 0) ;;
  bra_c ;;
  routine r_R2 (creturn 0) ;;
  switch among_var
    [ (0, creturn 0);
      (1, checked slice_del) ] ;;
  creturn 1).

Definition r_tidy_up : cfunc := cfun (
  ket_c ;;
  b <- pre_b 0 (not_masked 6 151011360) ;;
  when b (creturn 0) ;;
  among_var <- call (find_among_b a_7 4) ;;
  when (among_var =? 0) (creturn 0) ;;
  bra_c ;;
  switch among_var
    [ (0, creturn 0);
      (1, checked slice_del ;;
          ket_c ;;
          unless_call (eq_s_b 1 (sy s_6)) (creturn 0) ;;
          bra_c ;;
          unless_call (eq_s_b 1 (sy s_7)) (creturn 0) ;;
          checked slice_del);
      (2, unless_call (eq_s_b 1 (sy s_8)) (creturn 0) ;;
          checked slice_del);
      (3, checked slice_del) ] ;;
  creturn 1).

Definition russian_KOI8_R_stem : cfunc := cfun (
  do_f 0 r_mark_regions ;;
  put (fun z => set_lb (sn_c z) z) ;;
  put (fun z => set_c (sn_l z) z) ;;
  m2 <- get_m ;;
  i <- get_I 0 ;;
  c <- get sn_c ;;
  when (c <? i) (creturn 0) ;;
  i <- get_I 0 ;;
  c_is i ;;
  mlimit <- get sn_lb ;;
  put (fun z => set_lb (sn_c z) z) ;;
  c_from_l m2 ;;
  m3 <- get_m ;;
  label 1 (
    label 2 (
      m4 <- get_m ;;
      label 3 (
        routine r_perfective_gerund (goto 3) ;;
        goto 2) ;;
      c_from_l m4 ;;
      m_keep <- get_m ;;
      label 4 (
        routine r_reflexive (c_from_l m_keep ;; goto 4)) ;;
      label 5 (
        m5 <- get_m ;;
        label 6 (
          routine r_adjectival (goto 6) ;;
          goto 5) ;;
        c_from_l m5 ;;
        label 7 (
          routine r_verb (goto 7) ;;
          goto 5) ;;
        c_from_l m5 ;;
        routine r_noun (goto 1)))) ;;
  c_from_l m3 ;;
  m_keep <- get_m ;;
  ket_c ;;
  label 8 (
    unless_call (eq_s_b 1 (sy s_9)) (c_from_l m_keep ;; goto 8) ;;
    bra_c ;;
    checked slice_del) ;;
  do_b 9 r_derivational ;;
  do_b 10 r_tidy_up ;;
  put (set_lb mlimit) ;;
  put (fun z => set_c (sn_lb z) z) ;;
  creturn 1).

Definition russian_KOI8_R_create_env : option (option SN_env) := SN_create_env 0 2 0.
Definition russian_KOI8_R_close_env (z : option SN_env) : option unit := SN_close_env z 0.
End Routines.

(** ** Safety of every routine *)
Section Safety.
Context `{CHeap} (k L : Z).
Abbreviation St := (st k L 2 0).
Abbreviation step_ok := (step_ok k L 2 0).
Abbreviation fwd_ok := (fwd_ok k L 2 0).

(** The marks are inside the word. *)
Lemma ruk_mark_regions_ok w z : St w z -> returns r_mark_regions z (fun v z' => 0 <= v /\ exists w', St w' z'
  /\ sn_lb z' = sn_lb z /\ sn_c z <= sn_l z' /\ exists x, znth (sn_I z') 0 = Some x /\ x <= sn_l z').
Proof.
  intros S. unfold r_mark_regions. repeat wp_step; (split; [lia|]); eexists;
    (split_and!; [st_solve|sn_cbn; sn_lia || congruence|sn_lia|]); mark_value; (eexists; split; [reflexivity|sn_lia]).
Qed.

Lemma ruk_R2_ok w z : St w z -> returns r_R2 z (fun v z' => 0 <= v /\ z' = z).
Proof. intros S. unfold r_R2. repeat wp_step; split; (done || lia). Qed.

Lemma ruk_perfective_gerund_ok : step_ok r_perfective_gerund.
Proof. intros w z S. unfold r_perfective_gerund. repeat wp_step; step_end. Qed.

(** A routine that fails has not changed the length of the word. *)
Definition try_ok (f : cfunc) : Prop := forall w z, St w z ->
  returns f z (fun v z' => 0 <= v /\ exists w', St w' z' /\ sn_lb z' = sn_lb z /\ (v = 0 -> sn_l z' = sn_l z)).

Ltac try_end := split; [lia|]; eexists; split_and!; [st_solve|sn_cbn; sn_lia || congruence|intros ?; sn_cbn; sn_lia].

Lemma ruk_adjective_ok : try_ok r_adjective.
Proof. intros w z S. unfold r_adjective. repeat wp_step; try_end. Qed.

Ltac routine_rule ::=
  lazymatch goal with
  | |- returns r_R2 _ _ => eapply returns_mono; [eapply ruk_R2_ok; st_solve|intros ? ? (? & ->)]
  | |- returns r_perfective_gerund _ _ => eapply returns_mono; [eapply ruk_perfective_gerund_ok; st_solve|intros ? ? (? & ? & ? & ?)]
  | |- returns r_adjective _ _ => eapply returns_mono; [eapply ruk_adjective_ok; st_solve|intros ? ? (? & ? & ? & ? & ?)]
  end.

Lemma ruk_adjectival_ok : try_ok r_adjectival.
Proof. intros w z S. unfold r_adjectival. repeat wp_step; try_end. Qed.

Lemma ruk_reflexive_ok : step_ok r_reflexive.
Proof. intros w z S. unfold r_reflexive. repeat wp_step; step_end. Qed.

Lemma ruk_verb_ok : try_ok r_verb.
Proof. intros w z S. unfold r_verb. repeat wp_step; try_end. Qed.

Lemma ruk_noun_ok : step_ok r_noun.
Proof. intros w z S. unfold r_noun. repeat wp_step; step_end. Qed.

Lemma ruk_derivational_ok : step_ok r_derivational.
Proof. intros w z S. unfold r_derivational. repeat wp_step; step_end. Qed.

Lemma ruk_tidy_up_ok : step_ok r_tidy_up.
Proof. intros w z S. unfold r_tidy_up. repeat wp_step; step_end. Qed.

Ltac routine_rule ::=
  lazymatch goal with
  | |- returns r_R2 _ _ => eapply returns_mono; [eapply ruk_R2_ok; st_solve|intros ? ? (? & ->)]
  | |- returns r_perfective_gerund _ _ => eapply returns_mono; [eapply ruk_perfective_gerund_ok; st_solve|intros ? ? (? & ? & ? & ?)]
  | |- returns r_adjective _ _ => eapply returns_mono; [eapply ruk_adjective_ok; st_solve|intros ? ? (? & ? & ? & ? & ?)]
  | |- returns r_adjectival _ _ => eapply returns_mono; [eapply ruk_adjectival_ok; st_solve|intros ? ? (? & ? & ? & ? & ?)]
  | |- returns r_reflexive _ _ => eapply returns_mono; [eapply ruk_reflexive_ok; st_solve|intros ? ? (? & ? & ? & ?)]
  | |- returns r_verb _ _ => eapply returns_mono; [eapply ruk_verb_ok; st_solve|intros ? ? (? & ? & ? & ? & ?)]
  | |- returns r_noun _ _ => eapply returns_mono; [eapply ruk_noun_ok; st_solve|intros ? ? (? & ? & ? & ?)]
  end.

Ltac run_b H := eapply (do_b_ok k L 2 0 _ _ H); [st_solve|sn_cbn; rewrite ?splice_c_bra in * by lia; sn_lia|intros ? ? ? ? ?; repeat wp_step].

Lemma ruk_marks w z Q : St w z ->
  (forall w' z' x, St w' z' -> sn_c z' = sn_c z -> sn_lb z' = sn_lb z -> znth (sn_I z') 0 = Some x -> x <= sn_l z' -> Q (Next tt) z') ->
  wp (do_f 0 r_mark_regions) Q z.
Proof.
  intros S HQ. unfold do_f. do 4 wp_step. unfold routine. repeat wp_step1.
  eapply returns_mono; [by eapply ruk_mark_regions_ok|]. intros v z' (Hv & w' & S' & Hlb & Hc & x & Hx & Hl).
  repeat wp_step; try lia; rewrite ?Nat.eqb_refl; repeat wp_step; (apply (HQ w' _ x); [st_solve|done..]).
Qed.

(** The suffixes are searched behind the first mark, which is the lower limit
    for a while. *)
Lemma ruk_stem_ok w z : St w z -> sn_c z = 0 ->
  returns russian_KOI8_R_stem z (fun v z' => v = 1 /\ exists w', St w' z' /\ (sn_lb z' = sn_lb z \/ sn_lb z' = sn_c z)).
Proof.
  intros S Hc. unfold russian_KOI8_R_stem. do 2 wp_step. eapply ruk_marks; [done|]. intros w1 z1 x S1 Hc1 Hlb1 Hx Hxl.
  repeat lazymatch goal with |- wp (label _ _) _ _ => fail | _ => wp_step end; try (exfalso; sn_lia).
  eapply (join_edit k L 2 0 x); [repeat wp_step; try (eexists; split; [st_solve|sn_cbn; sn_lia || congruence])|intros w2 z2 S2 Hlb2].
  repeat wp_step.
  all: run_b ruk_derivational_ok; run_b ruk_tidy_up_ok.
  all: split; [done|]; eexists; split; [st_solve|right; sn_cbn; sn_lia].
Qed.
End Safety.
