(* ===== verification/DutchIso.v ===== *)
(** * The Dutch stemmer on ISO-8859-1: [src_c/stem_ISO_8859_1_dutch.c]

    The generated C, statement for statement, and the proof that stemming is
    free of undefined behaviour, terminates and never lengthens the word. *)

From S2P Require Import Prelude SnEnv SnRuntime SnSpec SnAmong SnCode SnLoops.

Open Scope sn_scope.

(** ** Tables *)
Definition a_0 : list among :=
  [ mk_among 0 [] (-1) 6 None; mk_among 1 ([225]) 0 1 None; mk_among 1 ([228]) 0 1 None;
    mk_among 1 ([233]) 0 2 None; mk_among 1 ([235]) 0 2 None; mk_among 1 ([237]) 0 3 None;
    mk_among 1 ([239]) 0 3 None; mk_among 1 ([243]) 0 4 None; mk_among 1 ([246]) 0 4 None;
    mk_among 1 ([250]) 0 5 None; mk_among 1 ([252]) 0 5 None ].

Definition a_1 : list among :=
  [ mk_among 0 [] (-1) 3 None; mk_among 1 (str "I") 0 2 None; mk_among 1 (str "Y") 0 1 None ].

Definition a_2 : list among :=
  [ mk_among 2 (str "dd") (-1) (-1) None; mk_among 2 (str "kk") (-1) (-1) None;
    mk_among 2 (str "tt") (-1) (-1) None ].

Definition a_3 : list among :=
  [ mk_among 3 (str "ene") (-1) 2 None; mk_among 2 (str "se") (-1) 3 None;
    mk_among 2 (str "en") (-1) 2 None; mk_among 5 (str "heden") 2 1 None;
    mk_among 1 (str "s") (-1) 3 None ].

Definition a_4 : list among :=
  [ mk_among 3 (str "end") (-1) 1 None; mk_among 2 (str "ig") (-1) 2 None;
    mk_among 3 (str "ing") (-1) 1 None; mk_among 4 (str "lijk") (-1) 3 None;
    mk_among 4 (str "baar") (-1) 4 None; mk_among 3 (str "bar") (-1) 5 None ].

Definition a_5 : list among :=
  [ mk_among 2 (str "aa") (-1) (-1) None; mk_among 2 (str "ee") (-1) (-1) None;
    mk_among 2 (str "oo") (-1) (-1) None; mk_among 2 (str "uu") (-1) (-1) None ].

Definition g_v : list Z := [17; 65; 16; 1; 0; 0; 0; 0; 0; 0; 0; 0; 0; 0; 0; 0; 128].

Definition g_v_I : list Z := [1; 0; 0; 17; 65; 16; 1; 0; 0; 0; 0; 0; 0; 0; 0; 0; 0; 0; 0; 128].

Definition g_v_j : list Z := [17; 67; 16; 1; 0; 0; 0; 0; 0; 0; 0; 0; 0; 0; 0; 0; 128].

Definition s_0 : list Z := str "a".
Definition s_1 : list Z := str "e".
Definition s_2 : list Z := str "i".
Definition s_3 : list Z := str "o".
Definition s_4 : list Z := str "u".
Definition s_5 : list Z := str "y".
Definition s_6 : list Z := str "Y".
Definition s_7 : list Z := str "i".
Definition s_8 : list Z := str "I".
Definition s_9 : list Z := str "y".
Definition s_10 : list Z := str "Y".
Definition s_11 : list Z := str "y".
Definition s_12 : list Z := str "i".
Definition s_13 : list Z := str "e".
Definition s_14 : list Z := str "gem".
Definition s_15 : list Z := str "heid".
Definition s_16 : list Z := str "heid".
Definition s_17 : list Z := str "c".
Definition s_18 : list Z := str "en".
Definition s_19 : list Z := str "ig".
Definition s_20 : list Z := str "e".
Definition s_21 : list Z := str "e".

(** ** Routines *)
Section Routines.
Context `{CHeap}.

Definition r_prelude : cfunc := cfun (
  c_test <- get sn_c ;;
  loop (
    c1 <- get sn_c ;;
    bra_c ;;
    b <- pre_f 0 (not_masked 7 340306450) ;;
    among_var <- (if b : bool then ret 6 else call (find_among a_0 11)) ;;
    label 0 (
      when (among_var =? 0) (goto 0) ;;
      ket_c ;;
      switch among_var
        [ (0, goto 0);
          (1, checked (slice_from_s 1 (sy s_0)));
          (2, checked (slice_from_s 1 (sy s_1)));
          (3, checked (slice_from_s 1 (sy s_2)));
          (4, checked (slice_from_s 1 (sy s_3)));
          (5, checked (slice_from_s 1 (sy s_4)));
          (6, next_byte (goto 0)) ] ;;
      cont) ;;
    c_is c1 ;;
    brk) ;;
  c_is c_test ;;
  c_keep <- get sn_c ;;
  bra_c ;;
  label 1 (
    unless_call (eq_s 1 (sy s_5)) (c_is c_keep ;; goto 1) ;;
    ket_c ;;
    checked (slice_from_s 1 (sy s_6))) ;;
  loop (
    c2 <- get sn_c ;;
    label 2 (
      loop (
        c3 <- get sn_c ;;
        label 3 (
          if_call (in_grouping g_v 97 232 0) (goto 3) ;;
          bra_c ;;
          label 4 (
            c4 <- get sn_c ;;
            label 5 (
              unless_call (eq_s 1 (sy s_7)) (goto 5) ;;
              ket_c ;;
              if_call (in_grouping g_v 97 232 0) (goto 5) ;;
              checked (slice_from_s 1 (sy s_8)) ;;
              goto 4) ;;
            c_is c4 ;;
            unless_call (eq_s 1 (sy s_9)) (goto 3) ;;
            ket_c ;;
            checked (slice_from_s 1 (sy s_10))) ;;
          c_is c3 ;;
          brk) ;;
        c_is c3 ;;
        next_byte (goto 2)) ;;
      cont) ;;
    c_is c2 ;;
    brk) ;;
  creturn 1).

Definition r_mark_regions : cfunc := cfun (
  l <- get sn_l ;;
  put_I 0 l ;;
  l <- get sn_l ;;
  put_I 1 l ;;
  gopast (out_grouping g_v 97 232 1) (creturn 0) ;;
  gopast (in_grouping g_v 97 232 1) (creturn 0) ;;
  c <- get sn_c ;;
  put_I 0 c ;;
  label 0 (
    i <- get_I 0 ;;
    when (negb (i <? 3)) (goto 0) ;;
    put_I 0 3) ;;
  gopast (out_grouping g_v 97 232 1) (creturn 0) ;;
  gopast (in_grouping g_v 97 232 1) (creturn 0) ;;
  c <- get sn_c ;;
  put_I 1 c ;;
  creturn 1).

Definition r_postlude : cfunc := cfun (
  loop (
    c1 <- get sn_c ;;
    bra_c ;;
    b <- pre_f 0 (fun ch => negb (ch =? 73) && negb (ch =? 89)) ;;
    among_var <- (if b : bool then ret 3 else call (find_among a_1 3)) ;;
    label 0 (
      when (among_var =? 0) (goto 0) ;;
      ket_c ;;
      switch among_var
        [ (0, goto 0);
          (1, checked (slice_from_s 1 (sy s_11)));
          (2, checked (slice_from_s 1 (sy s_12)));
          (3, next_byte (goto 0)) ] ;;
      cont) ;;
    c_is c1 ;;
    brk) ;;
  creturn 1).

Definition r_R1 : cfunc := cfun (
  i <- get_I 0 ;;
  c <- get sn_c ;;
  when (negb (i <=? c)) (creturn 0) ;;
  creturn 1).

Definition r_R2 : cfunc := cfun (
  i <- get_I 1 ;;
  c <- get sn_c ;;
  when (negb (i <=? c)) (creturn 0) ;;
  creturn 1).

Definition r_undouble : cfunc := cfun (
  m_test <- get_m ;;
  b <- pre_b 1 (not_masked 3 1050640) ;;
  when b (creturn 0) ;;
  unless_call (find_among_b a_2 3) (creturn 0) ;;
  c_from_l m_test ;;
  ket_c ;;
  prev_byte (creturn 0) ;;
  bra_c ;;
  checked slice_del ;;
  creturn 1).

Definition r_e_ending : cfunc := cfun (
  put_B 0 0 ;;
  ket_c ;;
  unless_call (eq_s_b 1 (sy s_13)) (creturn 0) ;;
  bra_c ;;
  routine r_R1 (creturn 0) ;;
  m_test <- get_m ;;
  if_call (out_grouping_b g_v 97 232 0) (creturn 0) ;;
  c_from_l m_test ;;
  checked slice_del ;;
  put_B 0 1 ;;
  routine r_undouble (creturn 0) ;;
  creturn 1).

Definition r_en_ending : cfunc := cfun (
  routine r_R1 (creturn 0) ;;
  m1 <- get_m ;;
  if_call (out_grouping_b g_v 97 232 0) (creturn 0) ;;
  c_from_l m1 ;;
  m2 <- get_m ;;
  label 0 (
    unless_call (eq_s_b 3 (sy s_14)) (goto 0) ;;
    creturn 0) ;;
  c_from_l m2 ;;
  checked slice_del ;;
  routine r_undouble (creturn 0) ;;
  creturn 1).

Definition r_standard_suffix : cfunc := cfun (
  m1 <- get_m ;;
  ket_c ;;
  label 0 (
    b <- pre_b 0 (not_masked 3 540704) ;;
    when b (goto 0) ;;
    among_var <- call (find_among_b a_3 5) ;;
    when (among_var =? 0) (goto 0) ;;
    bra_c ;;
    switch among_var
      [ (0, goto 0);
        (1, routine r_R1 (goto 0) ;;
            checked (slice_from_s 4 (sy s_15)));
        (2, routine r_en_ending (goto 0));
        (3, routine r_R1 (goto 0) ;;
            if_call (out_grouping_b g_v_j 97 232 0) (goto 0) ;;
            checked slice_del) ]) ;;
  c_from_l m1 ;;
  do_b 1 r_e_ending ;;
  m3 <- get_m ;;
  ket_c ;;
  label 2 (
    unless_call (eq_s_b 4 (sy s_16)) (goto 2) ;;
    bra_c ;;
    routine r_R2 (goto 2) ;;
    m4 <- get_m ;;
    label 3 (
      unless_call (eq_s_b 1 (sy s_17)) (goto 3) ;;
      goto 2) ;;
    c_from_l m4 ;;
    checked slice_del ;;
    ket_c ;;
    unless_call (eq_s_b 2 (sy s_18)) (goto 2) ;;
    bra_c ;;
    routine r_en_ending (goto 2)) ;;
  c_from_l m3 ;;
  m5 <- get_m ;;
  ket_c ;;
  label 4 (
    b <- pre_b 1 (not_masked 3 264336) ;;
    when b (goto 4) ;;
    among_var <- call (find_among_b a_4 6) ;;
    when (among_var =? 0) (goto 4) ;;
    bra_c ;;
    switch among_var
      [ (0, goto 4);
        (1, routine r_R2 (goto 4) ;;
            checked slice_del ;;
            label 5 (
              m6 <- get_m ;;
              ket_c ;;
              label 6 (
                unless_call (eq_s_b 2 (sy s_19)) (goto 6) ;;
                bra_c ;;
                routine r_R2 (goto 6) ;;
                m7 <- get_m ;;
                label 7 (
                  unless_call (eq_s_b 1 (sy s_20)) (goto 7) ;;
                  goto 6) ;;
                c_from_l m7 ;;
                checked slice_del ;;
                goto 5) ;;
              c_from_l m6 ;;
              routine r_undouble (goto 4)));
        (2, routine r_R2 (goto 4) ;;
            m8 <- get_m ;;
            label 8 (
              unless_call (eq_s_b 1 (sy s_21)) (goto 8) ;;
              goto 4) ;;
            c_from_l m8 ;;
            checked slice_del);
        (3, routine r_R2 (goto 4) ;;
            checked slice_del ;;
            routine r_e_ending (goto 4));
        (4, routine r_R2 (goto 4) ;;
            checked slice_del);
        (5, routine r_R2 (goto 4) ;;
            y <- get_B 0 ;;
            when (y =? 0) (goto 4) ;;
            checked slice_del) ]) ;;
  c_from_l m5 ;;
  m9 <- get_m ;;
  label 9 (
    if_call (out_grouping_b g_v_I 73 232 0) (goto 9) ;;
    m_test <- get_m ;;
    b <- pre_b 1 (not_masked 3 2129954) ;;
    when b (goto 9) ;;
    unless_call (find_among_b a_5 4) (goto 9) ;;
    if_call (out_grouping_b g_v 97 232 0) (goto 9) ;;
    c_from_l m_test ;;
    ket_c ;;
    prev_byte (goto 9) ;;
    bra_c ;;
    checked slice_del) ;;
  c_from_l m9 ;;
  creturn 1).

Definition dutch_ISO_8859_1_stem : cfunc := cfun (
  do_f 0 r_prelude ;;
  do_f 1 r_mark_regions ;;
  put (fun z => set_lb (sn_c z) z) ;;
  put (fun z => set_c (sn_l z) z) ;;
  do_b 2 r_standard_suffix ;;
  put (fun z => set_c (sn_lb z) z) ;;
  do_f 3 r_postlude ;;
  creturn 1).

Definition dutch_ISO_8859_1_create_env : option (option SN_env) := SN_create_env 0 2 1.
Definition dutch_ISO_8859_1_close_env (z : option SN_env) : option unit := SN_close_env z 0.
End Routines.

(** ** Safety of every routine *)
Section Safety.
Context `{CHeap} (k L : Z).
Abbreviation St := (st k L 2 1).
Abbreviation step_ok := (step_at k L 2 1 0).
Abbreviation fwd_ok := (fwd_ok k L 2 1).

Lemma nli_prelude_ok : fwd_ok r_prelude.
Proof. intros w z S. unfold r_prelude. repeat wp_step.
  eapply walk_loop; [st_solve|intros ? ? ? ? ?; repeat wp_step; walk_end|].
  intros ? ? ? ? ?. repeat wp_step.
  all: remark [105; 121]. Qed.

Lemma nli_mark_regions_ok : fwd_ok r_mark_regions.
Proof. intros w z S. unfold r_mark_regions. read_code S; fwd_done. Qed.

Lemma nli_postlude_ok : fwd_ok r_postlude.
Proof. intros w z S. unfold r_postlude. walk. Qed.

Lemma nli_R1_ok w z : St w z -> returns r_R1 z (fun v z' => 0 <= v /\ z' = z).
Proof. intros S. unfold r_R1. repeat wp_step; split; (done || lia). Qed.

Lemma nli_R2_ok w z : St w z -> returns r_R2 z (fun v z' => 0 <= v /\ z' = z).
Proof. intros S. unfold r_R2. repeat wp_step; split; (done || lia). Qed.

Lemma nli_undouble_ok : step_ok r_undouble.
Proof. intros w z S Hlb. unfold r_undouble. repeat wp_step; step_end. Qed.

Ltac routine_rule ::=
  lazymatch goal with
  | |- returns r_R1 _ _ => eapply returns_mono; [eapply nli_R1_ok; st_solve|intros ? ? (? & ->)]
  | |- returns r_R2 _ _ => eapply returns_mono; [eapply nli_R2_ok; st_solve|intros ? ? (? & ->)]
  | |- returns r_undouble _ _ => eapply returns_mono; [eapply nli_undouble_ok; [st_solve|sn_cbn; sn_lia || congruence..]|intros ? ? (? & ? & ? & ?)]
  end.

Lemma nli_e_ending_ok : step_ok r_e_ending.
Proof. intros w z S Hlb. unfold r_e_ending. repeat wp_step; step_end. Qed.

(** The slice to delete is set by the caller. *)
Lemma nli_en_ending_ok w z : St w z -> sn_lb z = 0 -> 0 <= sn_bra z -> sn_bra z <= sn_ket z -> sn_ket z <= sn_l z ->
  returns r_en_ending z (fun v z' => 0 <= v /\ exists w', St w' z' /\ sn_lb z' = 0).
Proof. intros S Hlb Hb Hk Hl. unfold r_en_ending. repeat wp_step; step_end. Qed.

Ltac routine_rule ::=
  lazymatch goal with
  | |- returns r_R1 _ _ => eapply returns_mono; [eapply nli_R1_ok; st_solve|intros ? ? (? & ->)]
  | |- returns r_R2 _ _ => eapply returns_mono; [eapply nli_R2_ok; st_solve|intros ? ? (? & ->)]
  | |- returns r_undouble _ _ => eapply returns_mono; [eapply nli_undouble_ok; [st_solve|sn_cbn; sn_lia || congruence..]|intros ? ? (? & ? & ? & ?)]
  | |- returns r_e_ending _ _ => eapply returns_mono; [eapply nli_e_ending_ok; [st_solve|sn_cbn; sn_lia || congruence..]|intros ? ? (? & ? & ? & ?)]
  | |- returns r_en_ending _ _ => eapply returns_mono; [eapply nli_en_ending_ok; [st_solve|sn_cbn; sn_lia || congruence..]|intros ? ? (? & ? & ? & ?)]
  end.

Lemma nli_standard_suffix_ok : step_from k L 2 1 0 r_standard_suffix.
Proof.
  intros w z S Hlb Hc. unfold r_standard_suffix. cut_code 0.
  eapply (do_b_at k L 2 1 _ _ 0 nli_e_ending_ok); [st_solve|sn_cbn; sn_lia || congruence..|intros ? ? ? ? ?; cut_code 0].
  all: step_end.
Qed.

Ltac run_f H := eapply (do_f_ok k L 2 1 _ _ H); [st_solve|intros ? ? ? ? ?; edit_code 0].
Ltac run_b H := eapply (do_b_at k L 2 1 _ _ 0 H); [st_solve|sn_cbn; sn_lia || congruence..|intros ? ? ? ? ?; edit_code 0].
Ltac run_e H := eapply (do_b_from k L 2 1 _ _ 0 H); [st_solve|sn_cbn; sn_lia || congruence..|intros ? ? ? ? ?; edit_code 0].

Lemma nli_stem_ok w z : St w z -> sn_c z = 0 ->
  returns dutch_ISO_8859_1_stem z (fun v z' => v = 1 /\ exists w', St w' z' /\ (sn_lb z' = sn_lb z \/ sn_lb z' = sn_c z)).
Proof.
  intros S Hc. unfold dutch_ISO_8859_1_stem. repeat wp_step.
  run_f nli_prelude_ok.
  run_f nli_mark_regions_ok.
  run_e nli_standard_suffix_ok.
  run_f nli_postlude_ok.
  split; [done|]; eexists; split; [st_solve|right; sn_cbn; congruence].
Qed.
End Safety.
