(* ===== verification/French.v ===== *)
(** * The French stemmer on UTF-8: [src_c/stem_UTF_8_french.c]

    The generated C, statement for statement, and the proof that stemming is
    free of undefined behaviour, terminates and never lengthens the word. *)

From S2P Require Import Prelude SnEnv SnRuntime SnSpec SnAmong SnCode SnLoops.

Open Scope sn_scope.

(** ** Tables *)
Definition a_0 : list among :=
  [ mk_among 3 (str "col") (-1) (-1) None; mk_among 3 (str "par") (-1) (-1) None;
    mk_among 3 (str "tap") (-1) (-1) None ].

Definition a_1 : list among :=
  [ mk_among 0 [] (-1) 4 None; mk_among 1 (str "I") 0 1 None; mk_among 1 (str "U") 0 2 None;
    mk_among 1 (str "Y") 0 3 None ].

Definition a_2 : list among :=
  [ mk_among 3 (str "iqU") (-1) 3 None; mk_among 3 (str "abl") (-1) 3 None;
    mk_among 4 ([73; 195; 168; 114]) (-1) 4 None; mk_among 4 ([105; 195; 168; 114]) (-1) 4 None;
    mk_among 3 (str "eus") (-1) 2 None; mk_among 2 (str "iv") (-1) 1 None ].

Definition a_3 : list among :=
  [ mk_among 2 (str "ic") (-1) 2 None; mk_among 4 (str "abil") (-1) 1 None;
    mk_among 2 (str "iv") (-1) 3 None ].

Definition a_4 : list among :=
  [ mk_among 4 (str "iqUe") (-1) 1 None; mk_among 6 (str "atrice") (-1) 2 None;
    mk_among 4 (str "ance") (-1) 1 None; mk_among 4 (str "ence") (-1) 5 None;
    mk_among 5 (str "logie") (-1) 3 None; mk_among 4 (str "able") (-1) 1 None;
    mk_among 4 (str "isme") (-1) 1 None; mk_among 4 (str "euse") (-1) 11 None;
    mk_among 4 (str "iste") (-1) 1 None; mk_among 3 (str "ive") (-1) 8 None;
    mk_among 2 (str "if") (-1) 8 None; mk_among 5 (str "usion") (-1) 4 None;
    mk_among 5 (str "ation") (-1) 2 None; mk_among 5 (str "ution") (-1) 4 None;
    mk_among 5 (str "ateur") (-1) 2 None; mk_among 5 (str "iqUes") (-1) 1 None;
    mk_among 7 (str "atrices") (-1) 2 None; mk_among 5 (str "ances") (-1) 1 None;
    mk_among 5 (str "ences") (-1) 5 None; mk_among 6 (str "logies") (-1) 3 None;
    mk_among 5 (str "ables") (-1) 1 None; mk_among 5 (str "ismes") (-1) 1 None;
    mk_among 5 (str "euses") (-1) 11 None; mk_among 5 (str "istes") (-1) 1 None;
    mk_among 4 (str "ives") (-1) 8 None; mk_among 3 (str "ifs") (-1) 8 None;
    mk_among 6 (str "usions") (-1) 4 None; mk_among 6 (str "ations") (-1) 2 None;
    mk_among 6 (str "utions") (-1) 4 None; mk_among 6 (str "ateurs") (-1) 2 None;
    mk_among 5 (str "ments") (-1) 15 None; mk_among 6 (str "ements") 30 6 None;
    mk_among 9 (str "issements") 31 12 None; mk_among 5 ([105; 116; 195; 169; 115]) (-1) 7 None;
    mk_among 4 (str "ment") (-1) 15 None; mk_among 5 (str "ement") 34 6 None;
    mk_among 8 (str "issement") 35 12 None; mk_among 6 (str "amment") 34 13 None;
    mk_among 6 (str "emment") 34 14 None; mk_among 3 (str "aux") (-1) 10 None;
    mk_among 4 (str "eaux") 39 9 None; mk_among 3 (str "eux") (-1) 1 None;
    mk_among 4 ([105; 116; 195; 169]) (-1) 7 None ].

Definition a_5 : list among :=
  [ mk_among 3 (str "ira") (-1) 1 None; mk_among 2 (str "ie") (-1) 1 None;
    mk_among 4 (str "isse") (-1) 1 None; mk_among 7 (str "issante") (-1) 1 None;
    mk_among 1 (str "i") (-1) 1 None; mk_among 4 (str "irai") 4 1 None;
    mk_among 2 (str "ir") (-1) 1 None; mk_among 4 (str "iras") (-1) 1 None;
    mk_among 3 (str "ies") (-1) 1 None; mk_among 5 ([195; 174; 109; 101; 115]) (-1) 1 None;
    mk_among 5 (str "isses") (-1) 1 None; mk_among 8 (str "issantes") (-1) 1 None;
    mk_among 5 ([195; 174; 116; 101; 115]) (-1) 1 None; mk_among 2 (str "is") (-1) 1 None;
    mk_among 5 (str "irais") 13 1 None; mk_among 6 (str "issais") 13 1 None;
    mk_among 6 (str "irions") (-1) 1 None; mk_among 7 (str "issions") (-1) 1 None;
    mk_among 5 (str "irons") (-1) 1 None; mk_among 6 (str "issons") (-1) 1 None;
    mk_among 7 (str "issants") (-1) 1 None; mk_among 2 (str "it") (-1) 1 None;
    mk_among 5 (str "irait") 21 1 None; mk_among 6 (str "issait") 21 1 None;
    mk_among 6 (str "issant") (-1) 1 None; mk_among 7 (str "iraIent") (-1) 1 None;
    mk_among 8 (str "issaIent") (-1) 1 None; mk_among 5 (str "irent") (-1) 1 None;
    mk_among 6 (str "issent") (-1) 1 None; mk_among 5 (str "iront") (-1) 1 None;
    mk_among 3 ([195; 174; 116]) (-1) 1 None; mk_among 5 (str "iriez") (-1) 1 None;
    mk_among 6 (str "issiez") (-1) 1 None; mk_among 4 (str "irez") (-1) 1 None;
    mk_among 5 (str "issez") (-1) 1 None ].

Definition a_6 : list among :=
  [ mk_among 1 (str "a") (-1) 3 None; mk_among 3 (str "era") 0 2 None;
    mk_among 4 (str "asse") (-1) 3 None; mk_among 4 (str "ante") (-1) 3 None;
    mk_among 3 ([195; 169; 101]) (-1) 2 None; mk_among 2 (str "ai") (-1) 3 None;
    mk_among 4 (str "erai") 5 2 None; mk_among 2 (str "er") (-1) 2 None;
    mk_among 2 (str "as") (-1) 3 None; mk_among 4 (str "eras") 8 2 None;
    mk_among 5 ([195; 162; 109; 101; 115]) (-1) 3 None; mk_among 5 (str "asses") (-1) 3 None;
    mk_among 5 (str "antes") (-1) 3 None; mk_among 5 ([195; 162; 116; 101; 115]) (-1) 3 None;
    mk_among 4 ([195; 169; 101; 115]) (-1) 2 None; mk_among 3 (str "ais") (-1) 3 None;
    mk_among 5 (str "erais") 15 2 None; mk_among 4 (str "ions") (-1) 1 None;
    mk_among 6 (str "erions") 17 2 None; mk_among 7 (str "assions") 17 3 None;
    mk_among 5 (str "erons") (-1) 2 None; mk_among 4 (str "ants") (-1) 3 None;
    mk_among 3 ([195; 169; 115]) (-1) 2 None; mk_among 3 (str "ait") (-1) 3 None;
    mk_among 5 (str "erait") 23 2 None; mk_among 3 (str "ant") (-1) 3 None;
    mk_among 5 (str "aIent") (-1) 3 None; mk_among 7 (str "eraIent") 26 2 None;
    mk_among 6 ([195; 168; 114; 101; 110; 116]) (-1) 2 None;
    mk_among 6 (str "assent") (-1) 3 None; mk_among 5 (str "eront") (-1) 2 None;
    mk_among 3 ([195; 162; 116]) (-1) 3 None; mk_among 2 (str "ez") (-1) 2 None;
    mk_among 3 (str "iez") 32 2 None; mk_among 5 (str "eriez") 33 2 None;
    mk_among 6 (str "assiez") 33 3 None; mk_among 4 (str "erez") 32 2 None;
    mk_among 2 ([195; 169]) (-1) 2 None ].

Definition a_7 : list among :=
  [ mk_among 1 (str "e") (-1) 3 None; mk_among 5 ([73; 195; 168; 114; 101]) 0 2 None;
    mk_among 5 ([105; 195; 168; 114; 101]) 0 2 None; mk_among 3 (str "ion") (-1) 1 None;
    mk_among 3 (str "Ier") (-1) 2 None; mk_among 3 (str "ier") (-1) 2 None;
    mk_among 2 ([195; 171]) (-1) 4 None ].

Definition a_8 : list among :=
  [ mk_among 3 (str "ell") (-1) (-1) None; mk_among 4 (str "eill") (-1) (-1) None;
    mk_among 3 (str "enn") (-1) (-1) None; mk_among 3 (str "onn") (-1) (-1) None;
    mk_among 3 (str "ett") (-1) (-1) None ].

Definition g_v : list Z := [17; 65; 16; 1; 0; 0; 0; 0; 0; 0; 0; 0; 0; 0; 0; 128; 130; 103; 8; 5].

Definition g_keep_with_s : list Z := [1; 65; 20; 0; 0; 0; 0; 0; 0; 0; 0; 0; 0; 0; 0; 0; 128].

Definition s_0 : list Z := str "u".
Definition s_1 : list Z := str "U".
Definition s_2 : list Z := str "i".
Definition s_3 : list Z := str "I".
Definition s_4 : list Z := str "y".
Definition s_5 : list Z := str "Y".
Definition s_6 : list Z := str "y".
Definition s_7 : list Z := str "Y".
Definition s_8 : list Z := str "q".
Definition s_9 : list Z := str "u".
Definition s_10 : list Z := str "U".
Definition s_11 : list Z := str "i".
Definition s_12 : list Z := str "u".
Definition s_13 : list Z := str "y".
Definition s_14 : list Z := str "ic".
Definition s_15 : list Z := str "iqU".
Definition s_16 : list Z := str "log".
Definition s_17 : list Z := str "u".
Definition s_18 : list Z := str "ent".
Definition s_19 : list Z := str "at".
Definition s_20 : list Z := str "eux".
Definition s_21 : list Z := str "i".
Definition s_22 : list Z := str "abl".
Definition s_23 : list Z := str "iqU".
Definition s_24 : list Z := str "at".
Definition s_25 : list Z := str "ic".
Definition s_26 : list Z := str "iqU".
Definition s_27 : list Z := str "eau".
Definition s_28 : list Z := str "al".
Definition s_29 : list Z := str "eux".
Definition s_30 : list Z := str "ant".
Definition s_31 : list Z := str "ent".
Definition s_32 : list Z := str "e".
Definition s_33 : list Z := str "s".
Definition s_34 : list Z := str "s".
Definition s_35 : list Z := str "t".
Definition s_36 : list Z := str "i".
Definition s_37 : list Z := str "gu".
Definition s_38 : list Z := [195; 169].
Definition s_39 : list Z := [195; 168].
Definition s_40 : list Z := str "e".
Definition s_41 : list Z := str "Y".
Definition s_42 : list Z := str "i".
Definition s_43 : list Z := [195; 167].
Definition s_44 : list Z := str "c".

(** ** Routines *)
Section Routines.
Context `{CHeap}.

Definition r_prelude : cfunc := cfun (
  loop (
    c1 <- get sn_c ;;
    label 0 (
      loop (
        c2 <- get sn_c ;;
        label 1 (
          label 2 (
            c3 <- get sn_c ;;
            label 3 (
              if_call (in_grouping_U g_v 97 251 0) (goto 3) ;;
              bra_c ;;
              label 4 (
                c4 <- get sn_c ;;
                label 5 (
                  unless_call (eq_s 1 (sy s_0)) (goto 5) ;;
                  ket_c ;;
                  if_call (in_grouping_U g_v 97 251 0) (goto 5) ;;
                  checked (slice_from_s 1 (sy s_1)) ;;
                  goto 4) ;;
                c_is c4 ;;
                label 6 (
                  unless_call (eq_s 1 (sy s_2)) (goto 6) ;;
                  ket_c ;;
                  if_call (in_grouping_U g_v 97 251 0) (goto 6) ;;
                  checked (slice_from_s 1 (sy s_3)) ;;
                  goto 4) ;;
                c_is c4 ;;
                unless_call (eq_s 1 (sy s_4)) (goto 3) ;;
                ket_c ;;
                checked (slice_from_s 1 (sy s_5))) ;;
              goto 2) ;;
            c_is c3 ;;
            bra_c ;;
            label 7 (
              unless_call (eq_s 1 (sy s_6)) (goto 7) ;;
              ket_c ;;
              if_call (in_grouping_U g_v 97 251 0) (goto 7) ;;
              checked (slice_from_s 1 (sy s_7)) ;;
              goto 2) ;;
            c_is c3 ;;
            unless_call (eq_s 1 (sy s_8)) (goto 1) ;;
            bra_c ;;
            unless_call (eq_s 1 (sy s_9)) (goto 1) ;;
            ket_c ;;
            checked (slice_from_s 1 (sy s_10))) ;;
          c_is c2 ;;
          brk) ;;
        c_is c2 ;;
        next_utf8 1 (goto 0)) ;;
      cont) ;;
    c_is c1 ;;
    brk) ;;
  creturn 1).

Definition r_mark_regions : cfunc := cfun (
  l <- get sn_l ;;
  put_I 0 l ;;
  l <- get sn_l ;;
  put_I 1 l ;;
  l <- get sn_l ;;
  put_I 2 l ;;
  c1 <- get sn_c ;;
  label 0 (
    label 1 (
      c2 <- get sn_c ;;
      label 2 (
        if_call (in_grouping_U g_v 97 251 0) (goto 2) ;;
        if_call (in_grouping_U g_v 97 251 0) (goto 2) ;;
        next_utf8 1 (goto 2) ;;
        goto 1) ;;
      c_is c2 ;;
      label 3 (
        b <- pre_f 2 (not_masked 3 331776) ;;
        when b (goto 3) ;;
        unless_call (find_among a_0 3) (goto 3) ;;
        goto 1) ;;
      c_is c2 ;;
      next_utf8 1 (goto 0) ;;
      gopast (out_grouping_U g_v 97 251 1) (goto 0)) ;;
    c <- get sn_c ;;
    put_I 0 c) ;;
  c_is c1 ;;
  c3 <- get sn_c ;;
  label 4 (
    gopast (out_grouping_U g_v 97 251 1) (goto 4) ;;
    gopast (in_grouping_U g_v 97 251 1) (goto 4) ;;
    c <- get sn_c ;;
    put_I 1 c ;;
    gopast (out_grouping_U g_v 97 251 1) (goto 4) ;;
    gopast (in_grouping_U g_v 97 251 1) (goto 4) ;;
    c <- get sn_c ;;
    put_I 2 c) ;;
  c_is c3 ;;
  creturn 1).

Definition r_postlude : cfunc := cfun (
  loop (
    c1 <- get sn_c ;;
    bra_c ;;
    b <- pre_f 0 (not_masked 2 35652096) ;;
    among_var <- (if b : bool then ret 4 else call (find_among a_1 4)) ;;
    label 0 (
      when (among_var =? 0) (goto 0) ;;
      ket_c ;;
      switch among_var
        [ (0, goto 0);
          (1, checked (slice_from_s 1 (sy s_11)));
          (2, checked (slice_from_s 1 (sy s_12)));
          (3, checked (slice_from_s 1 (sy s_13)));
          (4, next_utf8 1 (goto 0)) ] ;;
      cont) ;;
    c_is c1 ;;
    brk) ;;
  creturn 1).

Definition r_RV : cfunc := cfun (
  i <- get_I 0 ;;
  c <- get sn_c ;;
  when (negb (i <=? c)) (creturn 0) ;;
  creturn 1).

Definition r_R1 : cfunc := cfun (
  i <- get_I 1 ;;
  c <- get sn_c ;;
  when (negb (i <=? c)) (creturn 0) ;;
  creturn 1).

Definition r_R2 : cfunc := cfun (
  i <- get_I 2 ;;
  c <- get sn_c ;;
  when (negb (i <=? c)) (creturn 0) ;;
  creturn 1).

Definition r_standard_suffix : cfunc := cfun (
  ket_c ;;
  among_var <- call (find_among_b a_4 43) ;;
  when (among_var =? 0) (creturn 0) ;;
  bra_c ;;
  switch among_var
    [ (0, creturn 0);
      (1, routine r_R2 (creturn 0) ;;
          checked slice_del);
      (2, routine r_R2 (creturn 0) ;;
          checked slice_del ;;
          m_keep <- get_m ;;
          ket_c ;;
          label 0 (
            unless_call (eq_s_b 2 (sy s_14)) (c_from_l m_keep ;; goto 0) ;;
            bra_c ;;
            label 1 (
              m1 <- get_m ;;
              label 2 (
                routine r_R2 (goto 2) ;;
                checked slice_del ;;
                goto 1) ;;
              c_from_l m1 ;;
              checked (slice_from_s 3 (sy s_15)))));
      (3, routine r_R2 (creturn 0) ;;
          checked (slice_from_s 3 (sy s_16)));
      (4, routine r_R2 (creturn 0) ;;
          checked (slice_from_s 1 (sy s_17)));
      (5, routine r_R2 (creturn 0) ;;
          checked (slice_from_s 3 (sy s_18)));
      (6, routine r_RV (creturn 0) ;;
          checked slice_del ;;
          m_keep <- get_m ;;
          ket_c ;;
          among_var <- call (find_among_b a_2 6) ;;
          label 3 (
            when (among_var =? 0) (c_from_l m_keep ;; goto 3) ;;
            bra_c ;;
            switch among_var
              [ (0, c_from_l m_keep ;;
                    goto 3);
                (1, routine r_R2 (c_from_l m_keep ;; goto 3) ;;
                    checked slice_del ;;
                    ket_c ;;
                    unless_call (eq_s_b 2 (sy s_19)) (c_from_l m_keep ;; goto 3) ;;
                    bra_c ;;
                    routine r_R2 (c_from_l m_keep ;; goto 3) ;;
                    checked slice_del);
                (2, label 4 (
                      m2 <- get_m ;;
                      label 5 (
                        routine r_R2 (goto 5) ;;
                        checked slice_del ;;
                        goto 4) ;;
                      c_from_l m2 ;;
                      routine r_R1 (c_from_l m_keep ;; goto 3) ;;
                      checked (slice_from_s 3 (sy s_20))));
                (3, routine r_R2 (c_from_l m_keep ;; goto 3) ;;
                    checked slice_del);
                (4, routine r_RV (c_from_l m_keep ;; goto 3) ;;
                    checked (slice_from_s 1 (sy s_21))) ]));
      (7, routine r_R2 (creturn 0) ;;
          checked slice_del ;;
          m_keep <- get_m ;;
          ket_c ;;
          label 6 (
            b <- pre_b 1 (not_masked 3 4198408) ;;
            when b (c_from_l m_keep ;; goto 6) ;;
            among_var <- call (find_among_b a_3 3) ;;
            when (among_var =? 0) (c_from_l m_keep ;; goto 6) ;;
            bra_c ;;
            switch among_var
              [ (0, c_from_l m_keep ;;
                    goto 6);
                (1, label 7 (
                      m3 <- get_m ;;
                      label 8 (
                        routine r_R2 (goto 8) ;;
                        checked slice_del ;;
                        goto 7) ;;
                      c_from_l m3 ;;
                      checked (slice_from_s 3 (sy s_22))));
                (2, label 9 (
                      m4 <- get_m ;;
                      label 10 (
                        routine r_R2 (goto 10) ;;
                        checked slice_del ;;
                        goto 9) ;;
                      c_from_l m4 ;;
                      checked (slice_from_s 3 (sy s_23))));
                (3, routine r_R2 (c_from_l m_keep ;; goto 6) ;;
                    checked slice_del) ]));
      (8, routine r_R2 (creturn 0) ;;
          checked slice_del ;;
          m_keep <- get_m ;;
          ket_c ;;
          label 11 (
            unless_call (eq_s_b 2 (sy s_24)) (c_from_l m_keep ;; goto 11) ;;
            bra_c ;;
            routine r_R2 (c_from_l m_keep ;; goto 11) ;;
            checked slice_del ;;
            ket_c ;;
            unless_call (eq_s_b 2 (sy s_25)) (c_from_l m_keep ;; goto 11) ;;
            bra_c ;;
            label 12 (
              m5 <- get_m ;;
              label 13 (
                routine r_R2 (goto 13) ;;
                checked slice_del ;;
                goto 12) ;;
              c_from_l m5 ;;
              checked (slice_from_s 3 (sy s_26)))));
      (9, checked (slice_from_s 3 (sy s_27)));
      (10, routine r_R1 (creturn 0) ;;
           checked (slice_from_s 2 (sy s_28)));
      (11, label 14 (
             m6 <- get_m ;;
             label 15 (
               routine r_R2 (goto 15) ;;
               checked slice_del ;;
               goto 14) ;;
             c_from_l m6 ;;
             routine r_R1 (creturn 0) ;;
             checked (slice_from_s 3 (sy s_29))));
      (12, routine r_R1 (creturn 0) ;;
           if_call (out_grouping_b_U g_v 97 251 0) (creturn 0) ;;
           checked slice_del);
      (13, routine r_RV (creturn 0) ;;
           checked (slice_from_s 3 (sy s_30)) ;;
           creturn 0);
      (14, routine r_RV (creturn 0) ;;
           checked (slice_from_s 3 (sy s_31)) ;;
           creturn 0);
      (15, m_test <- get_m ;;
           if_call (in_grouping_b_U g_v 97 251 0) (creturn 0) ;;
           routine r_RV (creturn 0) ;;
           c_from_l m_test ;;
           checked slice_del ;;
           creturn 0) ] ;;
  creturn 1).

Definition r_i_verb_suffix : cfunc := cfun (
  m1 <- get_m ;;
  i <- get_I 0 ;;
  c <- get sn_c ;;
  when (c <? i) (creturn 0) ;;
  i <- get_I 0 ;;
  c_is i ;;
  mlimit <- get sn_lb ;;
  put (fun z => set_lb (sn_c z) z) ;;
  c_from_l m1 ;;
  ket_c ;;
  b <- pre_b 0 (not_masked 3 68944418) ;;
  when b (put (set_lb mlimit) ;; creturn 0) ;;
  among_var <- call (find_among_b a_5 35) ;;
  when (among_var =? 0) (put (set_lb mlimit) ;; creturn 0) ;;
  bra_c ;;
  switch among_var
    [ (0, put (set_lb mlimit) ;;
          creturn 0);
      (1, if_call (out_grouping_b_U g_v 97 251 0) (put (set_lb mlimit) ;; creturn 0) ;;
          checked slice_del) ] ;;
  put (set_lb mlimit) ;;
  creturn 1).

Definition r_verb_suffix : cfunc := cfun (
  m1 <- get_m ;;
  i <- get_I 0 ;;
  c <- get sn_c ;;
  when (c <? i) (creturn 0) ;;
  i <- get_I 0 ;;
  c_is i ;;
  mlimit <- get sn_lb ;;
  put (fun z => set_lb (sn_c z) z) ;;
  c_from_l m1 ;;
  ket_c ;;
  among_var <- call (find_among_b a_6 38) ;;
  when (among_var =? 0) (put (set_lb mlimit) ;; creturn 0) ;;
  bra_c ;;
  switch among_var
    [ (0, put (set_lb mlimit) ;;
          creturn 0);
      (1, routine r_R2 (put (set_lb mlimit) ;; creturn 0) ;;
          checked slice_del);
      (2, checked slice_del);
      (3, checked slice_del ;;
          m_keep <- get_m ;;
          ket_c ;;
          label 0 (
            unless_call (eq_s_b 1 (sy s_32)) (c_from_l m_keep ;; goto 0) ;;
            bra_c ;;
            checked slice_del)) ] ;;
  put (set_lb mlimit) ;;
  creturn 1).

Definition r_residual_suffix : cfunc := cfun (
  m_keep <- get_m ;;
  ket_c ;;
  label 0 (
    unless_call (eq_s_b 1 (sy s_33)) (c_from_l m_keep ;; goto 0) ;;
    bra_c ;;
    m_test <- get_m ;;
    if_call (out_grouping_b_U g_keep_with_s 97 232 0) (c_from_l m_keep ;; goto 0) ;;
    c_from_l m_test ;;
    checked slice_del) ;;
  m1 <- get_m ;;
  i <- get_I 0 ;;
  c <- get sn_c ;;
  when (c <? i) (creturn 0) ;;
  i <- get_I 0 ;;
  c_is i ;;
  mlimit <- get sn_lb ;;
  put (fun z => set_lb (sn_c z) z) ;;
  c_from_l m1 ;;
  ket_c ;;
  among_var <- call (find_among_b a_7 7) ;;
  when (among_var =? 0) (put (set_lb mlimit) ;; creturn 0) ;;
  bra_c ;;
  switch among_var
    [ (0, put (set_lb mlimit) ;;
          creturn 0);
      (1, routine r_R2 (put (set_lb mlimit) ;; creturn 0) ;;
          label 1 (
            m2 <- get_m ;;
            label 2 (
              unless_call (eq_s_b 1 (sy s_34)) (goto 2) ;;
              goto 1) ;;
            c_from_l m2 ;;
            unless_call (eq_s_b 1 (sy s_35)) (put (set_lb mlimit) ;; creturn 0)) ;;
          checked slice_del);
      (2, checked (slice_from_s 1 (sy s_36)));
      (3, checked slice_del);
      (4, unless_call (eq_s_b 2 (sy s_37)) (put (set_lb mlimit) ;; creturn 0) ;;
          checked slice_del) ] ;;
  put (set_lb mlimit) ;;
  creturn 1).

Definition r_un_double : cfunc := cfun (
  m_test <- get_m ;;
  b <- pre_b 2 (not_masked 3 1069056) ;;
  when b (creturn 0) ;;
  unless_call (find_among_b a_8 5) (creturn 0) ;;
  c_from_l m_test ;;
  ket_c ;;
  prev_utf8 1 (creturn 0) ;;
  bra_c ;;
  checked slice_del ;;
  creturn 1).

Definition r_un_accent : cfunc := cfun (
  atleast 1 (out_grouping_b_U g_v 97 251 0) ;;
  ket_c ;;
  label 1 (
    m1 <- get_m ;;
    label 2 (
      unless_call (eq_s_b 2 (sy s_38)) (goto 2) ;;
      goto 1) ;;
    c_from_l m1 ;;
    unless_call (eq_s_b 2 (sy s_39)) (creturn 0)) ;;
  bra_c ;;
  checked (slice_from_s 1 (sy s_40)) ;;
  creturn 1).

Definition french_UTF_8_stem : cfunc := cfun (
  do_f 0 r_prelude ;;
  do_f 1 r_mark_regions ;;
  put (fun z => set_lb (sn_c z) z) ;;
  put (fun z => set_c (sn_l z) z) ;;
  m3 <- get_m ;;
  label 2 (
    label 3 (
      m4 <- get_m ;;
      label 4 (
        m5 <- get_m ;;
        label 5 (
          m6 <- get_m ;;
          label 6 (
            routine r_standard_suffix (goto 6) ;;
            goto 5) ;;
          c_from_l m6 ;;
          label 7 (
            routine r_i_verb_suffix (goto 7) ;;
            goto 5) ;;
          c_from_l m6 ;;
          routine r_verb_suffix (goto 4)) ;;
        c_from_l m5 ;;
        m_keep <- get_m ;;
        ket_c ;;
        label 8 (
          label 9 (
            m7 <- get_m ;;
            label 10 (
              unless_call (eq_s_b 1 (sy s_41)) (goto 10) ;;
              bra_c ;;
              checked (slice_from_s 1 (sy s_42)) ;;
              goto 9) ;;
            c_from_l m7 ;;
            unless_call (eq_s_b 2 (sy s_43)) (c_from_l m_keep ;; goto 8) ;;
            bra_c ;;
            checked (slice_from_s 1 (sy s_44)))) ;;
        goto 3) ;;
      c_from_l m4 ;;
      routine r_residual_suffix (goto 2))) ;;
  c_from_l m3 ;;
  do_b 11 r_un_double ;;
  do_b 12 r_un_accent ;;
  put (fun z => set_c (sn_lb z) z) ;;
  do_f 13 r_postlude ;;
  creturn 1).

Definition french_UTF_8_create_env : option (option SN_env) := SN_create_env 0 3 0.
Definition french_UTF_8_close_env (z : option SN_env) : option unit := SN_close_env z 0.
End Routines.

(** ** Safety of every routine *)
Section Safety.
Context `{CHeap} (k L : Z).
Abbreviation St := (st k L 3 0).
Abbreviation step_ok := (step_at k L 3 0 0).
Abbreviation fwd_ok := (fwd_ok k L 3 0).

Lemma fr_prelude_ok : fwd_ok r_prelude.
Proof. intros w z S. unfold r_prelude. repeat wp_step. remark_by [117; 105; 121] ltac:(repeat search_step [3; 7]%nat [5; 6]%nat). Qed.

Lemma fr_mark_regions_ok : fwd_ok r_mark_regions.
Proof. intros w z S. unfold r_mark_regions. read_code S; fwd_done. Qed.

Lemma fr_postlude_ok : fwd_ok r_postlude.
Proof. intros w z S. unfold r_postlude. walk. Qed.

Lemma fr_RV_ok w z : St w z -> returns r_RV z (fun v z' => 0 <= v /\ z' = z).
Proof. intros S. unfold r_RV. repeat wp_step; split; (done || lia). Qed.

Lemma fr_R1_ok w z : St w z -> returns r_R1 z (fun v z' => 0 <= v /\ z' = z).
Proof. intros S. unfold r_R1. repeat wp_step; split; (done || lia). Qed.

Lemma fr_R2_ok w z : St w z -> returns r_R2 z (fun v z' => 0 <= v /\ z' = z).
Proof. intros S. unfold r_R2. repeat wp_step; split; (done || lia). Qed.

Ltac routine_rule ::=
  lazymatch goal with
  | |- returns r_RV _ _ => eapply returns_mono; [eapply fr_RV_ok; st_solve|intros ? ? (? & ->)]
  | |- returns r_R1 _ _ => eapply returns_mono; [eapply fr_R1_ok; st_solve|intros ? ? (? & ->)]
  | |- returns r_R2 _ _ => eapply returns_mono; [eapply fr_R2_ok; st_solve|intros ? ? (? & ->)]
  end.

Lemma fr_standard_suffix_ok : step_ok r_standard_suffix.
Proof. intros w z S Hlb. unfold r_standard_suffix. repeat wp_step; step_end. Qed.

Lemma fr_i_verb_suffix_ok : step_ok r_i_verb_suffix.
Proof. intros w z S Hlb. unfold r_i_verb_suffix. repeat wp_step; step_end. Qed.

Lemma fr_verb_suffix_ok : step_ok r_verb_suffix.
Proof. intros w z S Hlb. unfold r_verb_suffix. repeat wp_step; step_end. Qed.

Lemma fr_residual_suffix_ok : step_ok r_residual_suffix.
Proof. intros w z S Hlb. unfold r_residual_suffix. edit_at 0 [0]%nat; step_end. Qed.

Lemma fr_un_double_ok : step_ok r_un_double.
Proof. intros w z S Hlb. unfold r_un_double. repeat wp_step; step_end. Qed.

Lemma fr_un_accent_ok : step_ok r_un_accent.
Proof.
  intros w z S Hlb. unfold r_un_accent. do 2 wp_step.
  eapply (atleast_ok _ _ _ _ 1 out_grouping_b_U); [apply out_grouping_b_U_ok|reflexivity|unfold INT_MAX; lia|st_solve| |];
    intros ? ?; repeat wp_step; step_end.
Qed.

Ltac routine_rule ::=
  lazymatch goal with
  | |- returns r_RV _ _ => eapply returns_mono; [eapply fr_RV_ok; st_solve|intros ? ? (? & ->)]
  | |- returns r_R1 _ _ => eapply returns_mono; [eapply fr_R1_ok; st_solve|intros ? ? (? & ->)]
  | |- returns r_R2 _ _ => eapply returns_mono; [eapply fr_R2_ok; st_solve|intros ? ? (? & ->)]
  | |- returns r_standard_suffix _ _ => eapply returns_mono; [eapply fr_standard_suffix_ok; [st_solve|sn_cbn; sn_lia || congruence..]|intros ? ? (? & ? & ? & ?)]
  | |- returns r_i_verb_suffix _ _ => eapply returns_mono; [eapply fr_i_verb_suffix_ok; [st_solve|sn_cbn; sn_lia || congruence..]|intros ? ? (? & ? & ? & ?)]
  | |- returns r_verb_suffix _ _ => eapply returns_mono; [eapply fr_verb_suffix_ok; [st_solve|sn_cbn; sn_lia || congruence..]|intros ? ? (? & ? & ? & ?)]
  | |- returns r_residual_suffix _ _ => eapply returns_mono; [eapply fr_residual_suffix_ok; [st_solve|sn_cbn; sn_lia || congruence..]|intros ? ? (? & ? & ? & ?)]
  end.

Ltac run_f H := eapply (do_f_ok k L 3 0 _ _ H); [st_solve|intros ? ? ? ? ?; edit_code 0].
Ltac run_b H := eapply (do_b_at k L 3 0 _ _ 0 H); [st_solve|sn_cbn; sn_lia || congruence..|intros ? ? ? ? ?; edit_code 0].

Lemma fr_stem_ok w z : St w z -> sn_c z = 0 ->
  returns french_UTF_8_stem z (fun v z' => v = 1 /\ exists w', St w' z' /\ (sn_lb z' = sn_lb z \/ sn_lb z' = sn_c z)).
Proof.
  intros S Hc. unfold french_UTF_8_stem. repeat wp_step.
  run_f fr_prelude_ok.
  eapply (do_f_ok k L 3 0 _ _ fr_mark_regions_ok); [st_solve|intros ? ? ? ? ?; edit_at 0 [2; 3; 4; 5; 6; 7]%nat].
  run_b fr_un_double_ok.
  run_b fr_un_accent_ok.
  run_f fr_postlude_ok.
  split; [done|]; eexists; split; [st_solve|right; sn_cbn; congruence].
Qed.
End Safety.
