(* ===== verification/GermanIso.v ===== *)
(** * The German stemmer on ISO-8859-1: [src_c/stem_ISO_8859_1_german.c]

    The generated C, statement for statement, and the proof that stemming is
    free of undefined behaviour, terminates and at most doubles the length of the word; the buffer has room for that. *)

From S2P Require Import Prelude SnEnv SnRuntime SnSpec SnAmong SnCode SnLoops.

Open Scope sn_scope.

(** ** Tables *)
Definition a_0 : list among :=
  [ mk_among 0 [] (-1) 6 None; mk_among 1 (str "U") 0 2 None; mk_among 1 (str "Y") 0 1 None;
    mk_among 1 ([228]) 0 3 None; mk_among 1 ([246]) 0 4 None; mk_among 1 ([252]) 0 5 None ].

Definition a_1 : list among :=
  [ mk_among 1 (str "e") (-1) 2 None; mk_among 2 (str "em") (-1) 1 None;
    mk_among 2 (str "en") (-1) 2 None; mk_among 3 (str "ern") (-1) 1 None;
    mk_among 2 (str "er") (-1) 1 None; mk_among 1 (str "s") (-1) 3 None;
    mk_among 2 (str "es") 5 2 None ].

Definition a_2 : list among :=
  [ mk_among 2 (str "en") (-1) 1 None; mk_among 2 (str "er") (-1) 1 None;
    mk_among 2 (str "st") (-1) 2 None; mk_among 3 (str "est") 2 1 None ].

Definition a_3 : list among :=
  [ mk_among 2 (str "ig") (-1) 1 None; mk_among 4 (str "lich") (-1) 1 None ].

Definition a_4 : list among :=
  [ mk_among 3 (str "end") (-1) 1 None; mk_among 2 (str "ig") (-1) 2 None;
    mk_among 3 (str "ung") (-1) 1 None; mk_among 4 (str "lich") (-1) 3 None;
    mk_among 4 (str "isch") (-1) 2 None; mk_among 2 (str "ik") (-1) 2 None;
    mk_among 4 (str "heit") (-1) 3 None; mk_among 4 (str "keit") (-1) 4 None ].

Definition g_v : list Z := [17; 65; 16; 1; 0; 0; 0; 0; 0; 0; 0; 0; 0; 0; 0; 0; 8; 0; 32; 8].

Definition g_s_ending : list Z := [117; 30; 5].

Definition g_st_ending : list Z := [117; 30; 4].

Definition s_0 : list Z := [223].
Definition s_1 : list Z := str "ss".
Definition s_2 : list Z := str "u".
Definition s_3 : list Z := str "U".
Definition s_4 : list Z := str "y".
Definition s_5 : list Z := str "Y".
Definition s_6 : list Z := str "y".
Definition s_7 : list Z := str "u".
Definition s_8 : list Z := str "a".
Definition s_9 : list Z := str "o".
Definition s_10 : list Z := str "u".
Definition s_11 : list Z := str "s".
Definition s_12 : list Z := str "nis".
Definition s_13 : list Z := str "ig".
Definition s_14 : list Z := str "e".
Definition s_15 : list Z := str "e".
Definition s_16 : list Z := str "er".
Definition s_17 : list Z := str "en".

(** ** Routines *)
Section Routines.
Context `{CHeap}.

Definition r_prelude : cfunc := cfun (
  c_test <- get sn_c ;;
  loop (
    c1 <- get sn_c ;;
    label 0 (
      label 1 (
        c2 <- get sn_c ;;
        bra_c ;;
        label 2 (
          unless_call (eq_s 1 (sy s_0)) (goto 2) ;;
          ket_c ;;
          checked (slice_from_s 2 (sy s_1)) ;;
          goto 1) ;;
        c_is c2 ;;
        next_byte (goto 0)) ;;
      cont) ;;
    c_is c1 ;;
    brk) ;;
  c_is c_test ;;
  loop (
    c3 <- get sn_c ;;
    label 3 (
      loop (
        c4 <- get sn_c ;;
        label 4 (
          if_call (in_grouping g_v 97 252 0) (goto 4) ;;
          bra_c ;;
          label 5 (
            c5 <- get sn_c ;;
            label 6 (
              unless_call (eq_s 1 (sy s_2)) (goto 6) ;;
              ket_c ;;
              if_call (in_grouping g_v 97 252 0) (goto 6) ;;
              checked (slice_from_s 1 (sy s_3)) ;;
              goto 5) ;;
            c_is c5 ;;
            unless_call (eq_s 1 (sy s_4)) (goto 4) ;;
            ket_c ;;
            if_call (in_grouping g_v 97 252 0) (goto 4) ;;
            checked (slice_from_s 1 (sy s_5))) ;;
          c_is c4 ;;
          brk) ;;
        c_is c4 ;;
        next_byte (goto 3)) ;;
      cont) ;;
    c_is c3 ;;
    brk) ;;
  creturn 1).

Definition r_mark_regions : cfunc := cfun (
  l <- get sn_l ;;
  put_I 0 l ;;
  l <- get sn_l ;;
  put_I 1 l ;;
  c_test <- get sn_c ;;
  hop_byte 3 (creturn 0) ;;
  c <- get sn_c ;;
  put_I 2 c ;;
  c_is c_test ;;
  gopast (out_grouping g_v 97 252 1) (creturn 0) ;;
  gopast (in_grouping g_v 97 252 1) (creturn 0) ;;
  c <- get sn_c ;;
  put_I 0 c ;;
  label 0 (
    i <- get_I 0 ;;
    i' <- get_I 2 ;;
    when (negb (i <? i')) (goto 0) ;;
    i <- get_I 2 ;;
    put_I 0 i) ;;
  gopast (out_grouping g_v 97 252 1) (creturn 0) ;;
  gopast (in_grouping g_v 97 252 1) (creturn 0) ;;
  c <- get sn_c ;;
  put_I 1 c ;;
  creturn 1).

Definition r_postlude : cfunc := cfun (
  loop (
    c1 <- get sn_c ;;
    bra_c ;;
    among_var <- call (find_among a_0 6) ;;
    label 0 (
      when (among_var =? 0) (goto 0) ;;
      ket_c ;;
      switch among_var
        [ (0, goto 0);
          (1, checked (slice_from_s 1 (sy s_6)));
          (2, checked (slice_from_s 1 (sy s_7)));
          (3, checked (slice_from_s 1 (sy s_8)));
          (4, checked (slice_from_s 1 (sy s_9)));
          (5, checked (slice_from_s 1 (sy s_10)));
          (6, next_byte (goto 0)) ] ;;
      cont) ;;
    c_is c1 ;;
    brk) ;;
  creturn 1).

Definition r_R1 : cfunc := cfun (
  i <- get_I 0 ;;
  c <- get sn_c ;;
  when (negb (i <=? c)) (creturn 0) ;;
  creturn 1).

Definition r_R2 : cfunc := cfun (
  i <- get_I 1 ;;
  c <- get sn_c ;;
  when (negb (i <=? c)) (creturn 0) ;;
  creturn 1).

Definition r_standard_suffix : cfunc := cfun (
  m1 <- get_m ;;
  ket_c ;;
  label 0 (
    b <- pre_b 0 (not_masked 3 811040) ;;
    when b (goto 0) ;;
    among_var <- call (find_among_b a_1 7) ;;
    when (among_var =? 0) (goto 0) ;;
    bra_c ;;
    routine r_R1 (goto 0) ;;
    switch among_var
      [ (0, goto 0);
        (1, checked slice_del);
        (2, checked slice_del ;;
            m_keep <- get_m ;;
            ket_c ;;
            label 1 (
              unless_call (eq_s_b 1 (sy s_11)) (c_from_l m_keep ;; goto 1) ;;
              bra_c ;;
              unless_call (eq_s_b 3 (sy s_12)) (c_from_l m_keep ;; goto 1) ;;
              checked slice_del));
        (3, if_call (in_grouping_b g_s_ending 98 116 0) (goto 0) ;;
            checked slice_del) ]) ;;
  c_from_l m1 ;;
  m2 <- get_m ;;
  ket_c ;;
  label 2 (
    b <- pre_b 1 (not_masked 3 1327104) ;;
    when b (goto 2) ;;
    among_var <- call (find_among_b a_2 4) ;;
    when (among_var =? 0) (goto 2) ;;
    bra_c ;;
    routine r_R1 (goto 2) ;;
    switch among_var
      [ (0, goto 2);
        (1, checked slice_del);
        (2, if_call (in_grouping_b g_st_ending 98 116 0) (goto 2) ;;
            hop_byte_b 3 (goto 2) ;;
            checked slice_del) ]) ;;
  c_from_l m2 ;;
  m3 <- get_m ;;
  ket_c ;;
  label 3 (
    b <- pre_b 1 (not_masked 3 1051024) ;;
    when b (goto 3) ;;
    among_var <- call (find_among_b a_4 8) ;;
    when (among_var =? 0) (goto 3) ;;
    bra_c ;;
    routine r_R2 (goto 3) ;;
    switch among_var
      [ (0, goto 3);
        (1, checked slice_del ;;
            m_keep <- get_m ;;
            ket_c ;;
            label 4 (
              unless_call (eq_s_b 2 (sy s_13)) (c_from_l m_keep ;; goto 4) ;;
              bra_c ;;
              m4 <- get_m ;;
              label 5 (
                unless_call (eq_s_b 1 (sy s_14)) (goto 5) ;;
                c_from_l m_keep ;;
                goto 4) ;;
              c_from_l m4 ;;
              routine r_R2 (c_from_l m_keep ;; goto 4) ;;
              checked slice_del));
        (2, m5 <- get_m ;;
            label 6 (
              unless_call (eq_s_b 1 (sy s_15)) (goto 6) ;;
              goto 3) ;;
            c_from_l m5 ;;
            checked slice_del);
        (3, checked slice_del ;;
            m_keep <- get_m ;;
            ket_c ;;
            label 7 (
              label 8 (
                m6 <- get_m ;;
                label 9 (
                  unless_call (eq_s_b 2 (sy s_16)) (goto 9) ;;
                  goto 8) ;;
                c_from_l m6 ;;
                unless_call (eq_s_b 2 (sy s_17)) (c_from_l m_keep ;; goto 7)) ;;
              bra_c ;;
              routine r_R1 (c_from_l m_keep ;; goto 7) ;;
              checked slice_del));
        (4, checked slice_del ;;
            m_keep <- get_m ;;
            ket_c ;;
            label 10 (
              b <- pre_b 1 (fun ch => negb (ch =? 103) && negb (ch =? 104)) ;;
              when b (c_from_l m_keep ;; goto 10) ;;
              among_var <- call (find_among_b a_3 2) ;;
              when (among_var =? 0) (c_from_l m_keep ;; goto 10) ;;
              bra_c ;;
              routine r_R2 (c_from_l m_keep ;; goto 10) ;;
              switch among_var
                [ (0, c_from_l m_keep ;;
                      goto 10);
                  (1, checked slice_del) ])) ]) ;;
  c_from_l m3 ;;
  creturn 1).

Definition german_ISO_8859_1_stem : cfunc := cfun (
  do_f 0 r_prelude ;;
  do_f 1 r_mark_regions ;;
  put (fun z => set_lb (sn_c z) z) ;;
  put (fun z => set_c (sn_l z) z) ;;
  do_b 2 r_standard_suffix ;;
  put (fun z => set_c (sn_lb z) z) ;;
  do_f 3 r_postlude ;;
  creturn 1).

Definition german_ISO_8859_1_create_env : option (option SN_env) := SN_create_env 0 3 0.
Definition german_ISO_8859_1_close_env (z : option SN_env) : option unit := SN_close_env z 0.
End Routines.

(** ** Safety of every routine *)
Section Safety.
Context `{CHeap} (k L : Z).
Abbreviation St := (st k L 3 0).
Abbreviation step_ok := (step_at k L 3 0 0).
Abbreviation fwd_ok := (fwd_ok k L 3 0).

Lemma dei_prelude_ok : fwd_when k L 3 0 (fun z => reach z <= L) r_prelude.
Proof. intros w z S HL. unfold r_prelude. repeat wp_step.
  eapply grow_loop; [st_solve|done|intros ? ? ? ? ? ?; repeat wp_step; first [grow_end|grow_room]|].
  intros ? ? ? ? ?. repeat wp_step. remark [117; 121]. Qed.

Lemma dei_mark_regions_ok : fwd_at k L 3 0 0 r_mark_regions.
Proof. intros w z S Hc. unfold r_mark_regions. repeat wp_step; fwd_done. Qed.

Lemma dei_postlude_ok : fwd_ok r_postlude.
Proof. intros w z S. unfold r_postlude. walk. Qed.

Lemma dei_R1_ok w z : St w z -> returns r_R1 z (fun v z' => 0 <= v /\ z' = z).
Proof. intros S. unfold r_R1. repeat wp_step; split; (done || lia). Qed.

Lemma dei_R2_ok w z : St w z -> returns r_R2 z (fun v z' => 0 <= v /\ z' = z).
Proof. intros S. unfold r_R2. repeat wp_step; split; (done || lia). Qed.

Ltac routine_rule ::=
  lazymatch goal with
  | |- returns r_R1 _ _ => eapply returns_mono; [eapply dei_R1_ok; st_solve|intros ? ? (? & ->)]
  | |- returns r_R2 _ _ => eapply returns_mono; [eapply dei_R2_ok; st_solve|intros ? ? (? & ->)]
  end.

Lemma dei_standard_suffix_ok : step_from k L 3 0 0 r_standard_suffix.
Proof. intros w z S Hlb Hc. unfold r_standard_suffix. cut_code 0; step_end. Qed.

Ltac run_g H := eapply (do_f_when k L 3 0 _ _ _ H); [st_solve|cbv beta; grow_room|intros ? ? ? ? ?; edit_code 0].
Ltac run_a H := eapply (do_f_at k L 3 0 _ _ 0 H); [st_solve|sn_cbn; congruence|intros ? ? ? ? ?; edit_code 0].
Ltac run_f H := eapply (do_f_ok k L 3 0 _ _ H); [st_solve|intros ? ? ? ? ?; edit_code 0].
Ltac run_b H := eapply (do_b_at k L 3 0 _ _ 0 H); [st_solve|sn_cbn; sn_lia || congruence..|intros ? ? ? ? ?; edit_code 0].
Ltac run_e H := eapply (do_b_from k L 3 0 _ _ 0 H); [st_solve|sn_cbn; sn_lia || congruence..|intros ? ? ? ? ?; edit_code 0].

Lemma dei_stem_ok w z : St w z -> sn_c z = 0 -> 2 * zlen w <= L ->
  returns german_ISO_8859_1_stem z (fun v z' => v = 1 /\ exists w', St w' z' /\ (sn_lb z' = sn_lb z \/ sn_lb z' = sn_c z)).
Proof.
  intros S Hc HL. unfold german_ISO_8859_1_stem. repeat wp_step.
  run_g dei_prelude_ok.
  run_a dei_mark_regions_ok.
  run_e dei_standard_suffix_ok.
  run_f dei_postlude_ok.
  split; [done|]; eexists; split; [st_solve|right; sn_cbn; congruence].
Qed.
End Safety.
