(* ===== verification/PortugueseIso.v ===== *)
(** * The Portuguese stemmer on ISO-8859-1: [src_c/stem_ISO_8859_1_portuguese.c]

    The generated C, statement for statement, and the proof that stemming is
    free of undefined behaviour, terminates and at most doubles the length of the word; the buffer has room for that. *)

From S2P Require Import Prelude SnEnv SnRuntime SnSpec SnAmong SnCode SnLoops.

Open Scope sn_scope.

(** ** Tables *)
Definition a_0 : list among :=
  [ mk_among 0 [] (-1) 3 None; mk_among 1 ([227]) 0 1 None; mk_among 1 ([245]) 0 2 None ].

Definition a_1 : list among :=
  [ mk_among 0 [] (-1) 3 None; mk_among 2 (str "a~") 0 1 None; mk_among 2 (str "o~") 0 2 None ].

Definition a_2 : list among :=
  [ mk_among 2 (str "ic") (-1) (-1) None; mk_among 2 (str "ad") (-1) (-1) None;
    mk_among 2 (str "os") (-1) (-1) None; mk_among 2 (str "iv") (-1) 1 None ].

Definition a_3 : list among :=
  [ mk_among 4 (str "ante") (-1) 1 None; mk_among 4 (str "avel") (-1) 1 None;
    mk_among 4 ([237; 118; 101; 108]) (-1) 1 None ].

Definition a_4 : list among :=
  [ mk_among 2 (str "ic") (-1) 1 None; mk_among 4 (str "abil") (-1) 1 None;
    mk_among 2 (str "iv") (-1) 1 None ].

Definition a_5 : list among :=
  [ mk_among 3 (str "ica") (-1) 1 None; mk_among 5 ([226; 110; 99; 105; 97]) (-1) 1 None;
    mk_among 5 ([234; 110; 99; 105; 97]) (-1) 4 None; mk_among 3 (str "ira") (-1) 9 None;
    mk_among 5 (str "adora") (-1) 1 None; mk_among 3 (str "osa") (-1) 1 None;
    mk_among 4 (str "ista") (-1) 1 None; mk_among 3 (str "iva") (-1) 8 None;
    mk_among 3 (str "eza") (-1) 1 None; mk_among 5 ([108; 111; 103; 237; 97]) (-1) 2 None;
    mk_among 5 (str "idade") (-1) 7 None; mk_among 4 (str "ante") (-1) 1 None;
    mk_among 5 (str "mente") (-1) 6 None; mk_among 6 (str "amente") 12 5 None;
    mk_among 4 ([225; 118; 101; 108]) (-1) 1 None; mk_among 4 ([237; 118; 101; 108]) (-1) 1 None;
    mk_among 5 ([117; 99; 105; 243; 110]) (-1) 3 None; mk_among 3 (str "ico") (-1) 1 None;
    mk_among 4 (str "ismo") (-1) 1 None; mk_among 3 (str "oso") (-1) 1 None;
    mk_among 6 (str "amento") (-1) 1 None; mk_among 6 (str "imento") (-1) 1 None;
    mk_among 3 (str "ivo") (-1) 8 None; mk_among 5 ([97; 231; 97; 126; 111]) (-1) 1 None;
    mk_among 4 (str "ador") (-1) 1 None; mk_among 4 (str "icas") (-1) 1 None;
    mk_among 6 ([234; 110; 99; 105; 97; 115]) (-1) 4 None; mk_among 4 (str "iras") (-1) 9 None;
    mk_among 6 (str "adoras") (-1) 1 None; mk_among 4 (str "osas") (-1) 1 None;
    mk_among 5 (str "istas") (-1) 1 None; mk_among 4 (str "ivas") (-1) 8 None;
    mk_among 4 (str "ezas") (-1) 1 None; mk_among 6 ([108; 111; 103; 237; 97; 115]) (-1) 2 None;
    mk_among 6 (str "idades") (-1) 7 None; mk_among 7 (str "uciones") (-1) 3 None;
    mk_among 6 (str "adores") (-1) 1 None; mk_among 5 (str "antes") (-1) 1 None;
    mk_among 6 ([97; 231; 111; 126; 101; 115]) (-1) 1 None; mk_among 4 (str "icos") (-1) 1 None;
    mk_among 5 (str "ismos") (-1) 1 None; mk_among 4 (str "osos") (-1) 1 None;
    mk_among 7 (str "amentos") (-1) 1 None; mk_among 7 (str "imentos") (-1) 1 None;
    mk_among 4 (str "ivos") (-1) 8 None ].

Definition a_6 : list among :=
  [ mk_among 3 (str "ada") (-1) 1 None; mk_among 3 (str "ida") (-1) 1 None;
    mk_among 2 (str "ia") (-1) 1 None; mk_among 4 (str "aria") 2 1 None;
    mk_among 4 (str "eria") 2 1 None; mk_among 4 (str "iria") 2 1 None;
    mk_among 3 (str "ara") (-1) 1 None; mk_among 3 (str "era") (-1) 1 None;
    mk_among 3 (str "ira") (-1) 1 None; mk_among 3 (str "ava") (-1) 1 None;
    mk_among 4 (str "asse") (-1) 1 None; mk_among 4 (str "esse") (-1) 1 None;
    mk_among 4 (str "isse") (-1) 1 None; mk_among 4 (str "aste") (-1) 1 None;
    mk_among 4 (str "este") (-1) 1 None; mk_among 4 (str "iste") (-1) 1 None;
    mk_among 2 (str "ei") (-1) 1 None; mk_among 4 (str "arei") 16 1 None;
    mk_among 4 (str "erei") 16 1 None; mk_among 4 (str "irei") 16 1 None;
    mk_among 2 (str "am") (-1) 1 None; mk_among 3 (str "iam") 20 1 None;
    mk_among 5 (str "ariam") 21 1 None; mk_among 5 (str "eriam") 21 1 None;
    mk_among 5 (str "iriam") 21 1 None; mk_among 4 (str "aram") 20 1 None;
    mk_among 4 (str "eram") 20 1 None; mk_among 4 (str "iram") 20 1 None;
    mk_among 4 (str "avam") 20 1 None; mk_among 2 (str "em") (-1) 1 None;
    mk_among 4 (str "arem") 29 1 None; mk_among 4 (str "erem") 29 1 None;
    mk_among 4 (str "irem") 29 1 None; mk_among 5 (str "assem") 29 1 None;
    mk_among 5 (str "essem") 29 1 None; mk_among 5 (str "issem") 29 1 None;
    mk_among 3 (str "ado") (-1) 1 None; mk_among 3 (str "ido") (-1) 1 None;
    mk_among 4 (str "ando") (-1) 1 None; mk_among 4 (str "endo") (-1) 1 None;
    mk_among 4 (str "indo") (-1) 1 None; mk_among 5 (str "ara~o") (-1) 1 None;
    mk_among 5 (str "era~o") (-1) 1 None; mk_among 5 (str "ira~o") (-1) 1 None;
    mk_among 2 (str "ar") (-1) 1 None; mk_among 2 (str "er") (-1) 1 None;
    mk_among 2 (str "ir") (-1) 1 None; mk_among 2 (str "as") (-1) 1 None;
    mk_among 4 (str "adas") 47 1 None; mk_among 4 (str "idas") 47 1 None;
    mk_among 3 (str "ias") 47 1 None; mk_among 5 (str "arias") 50 1 None;
    mk_among 5 (str "erias") 50 1 None; mk_among 5 (str "irias") 50 1 None;
    mk_among 4 (str "aras") 47 1 None; mk_among 4 (str "eras") 47 1 None;
    mk_among 4 (str "iras") 47 1 None; mk_among 4 (str "avas") 47 1 None;
    mk_among 2 (str "es") (-1) 1 None; mk_among 5 (str "ardes") 58 1 None;
    mk_among 5 (str "erdes") 58 1 None; mk_among 5 (str "irdes") 58 1 None;
    mk_among 4 (str "ares") 58 1 None; mk_among 4 (str "eres") 58 1 None;
    mk_among 4 (str "ires") 58 1 None; mk_among 5 (str "asses") 58 1 None;
    mk_among 5 (str "esses") 58 1 None; mk_among 5 (str "isses") 58 1 None;
    mk_among 5 (str "astes") 58 1 None; mk_among 5 (str "estes") 58 1 None;
    mk_among 5 (str "istes") 58 1 None; mk_among 2 (str "is") (-1) 1 None;
    mk_among 3 (str "ais") 71 1 None; mk_among 3 (str "eis") 71 1 None;
    mk_among 5 (str "areis") 73 1 None; mk_among 5 (str "ereis") 73 1 None;
    mk_among 5 (str "ireis") 73 1 None; mk_among 5 ([225; 114; 101; 105; 115]) 73 1 None;
    mk_among 5 ([233; 114; 101; 105; 115]) 73 1 None;
    mk_among 5 ([237; 114; 101; 105; 115]) 73 1 None;
    mk_among 6 ([225; 115; 115; 101; 105; 115]) 73 1 None;
    mk_among 6 ([233; 115; 115; 101; 105; 115]) 73 1 None;
    mk_among 6 ([237; 115; 115; 101; 105; 115]) 73 1 None;
    mk_among 5 ([225; 118; 101; 105; 115]) 73 1 None;
    mk_among 4 ([237; 101; 105; 115]) 73 1 None;
    mk_among 6 ([97; 114; 237; 101; 105; 115]) 84 1 None;
    mk_among 6 ([101; 114; 237; 101; 105; 115]) 84 1 None;
    mk_among 6 ([105; 114; 237; 101; 105; 115]) 84 1 None; mk_among 4 (str "ados") (-1) 1 None;
    mk_among 4 (str "idos") (-1) 1 None; mk_among 4 (str "amos") (-1) 1 None;
    mk_among 6 ([225; 114; 97; 109; 111; 115]) 90 1 None;
    mk_among 6 ([233; 114; 97; 109; 111; 115]) 90 1 None;
    mk_among 6 ([237; 114; 97; 109; 111; 115]) 90 1 None;
    mk_among 6 ([225; 118; 97; 109; 111; 115]) 90 1 None;
    mk_among 5 ([237; 97; 109; 111; 115]) 90 1 None;
    mk_among 7 ([97; 114; 237; 97; 109; 111; 115]) 95 1 None;
    mk_among 7 ([101; 114; 237; 97; 109; 111; 115]) 95 1 None;
    mk_among 7 ([105; 114; 237; 97; 109; 111; 115]) 95 1 None;
    mk_among 4 (str "emos") (-1) 1 None; mk_among 6 (str "aremos") 99 1 None;
    mk_among 6 (str "eremos") 99 1 None; mk_among 6 (str "iremos") 99 1 None;
    mk_among 7 ([225; 115; 115; 101; 109; 111; 115]) 99 1 None;
    mk_among 7 ([234; 115; 115; 101; 109; 111; 115]) 99 1 None;
    mk_among 7 ([237; 115; 115; 101; 109; 111; 115]) 99 1 None;
    mk_among 4 (str "imos") (-1) 1 None; mk_among 5 (str "armos") (-1) 1 None;
    mk_among 5 (str "ermos") (-1) 1 None; mk_among 5 (str "irmos") (-1) 1 None;
    mk_among 4 ([225; 109; 111; 115]) (-1) 1 None; mk_among 4 ([97; 114; 225; 115]) (-1) 1 None;
    mk_among 4 ([101; 114; 225; 115]) (-1) 1 None; mk_among 4 ([105; 114; 225; 115]) (-1) 1 None;
    mk_among 2 (str "eu") (-1) 1 None; mk_among 2 (str "iu") (-1) 1 None;
    mk_among 2 (str "ou") (-1) 1 None; mk_among 3 ([97; 114; 225]) (-1) 1 None;
    mk_among 3 ([101; 114; 225]) (-1) 1 None; mk_among 3 ([105; 114; 225]) (-1) 1 None ].

Definition a_7 : list among :=
  [ mk_among 1 (str "a") (-1) 1 None; mk_among 1 (str "i") (-1) 1 None;
    mk_among 1 (str "o") (-1) 1 None; mk_among 2 (str "os") (-1) 1 None;
    mk_among 1 ([225]) (-1) 1 None; mk_among 1 ([237]) (-1) 1 None;
    mk_among 1 ([243]) (-1) 1 None ].

Definition a_8 : list among :=
  [ mk_among 1 (str "e") (-1) 1 None; mk_among 1 ([231]) (-1) 2 None;
    mk_among 1 ([233]) (-1) 1 None; mk_among 1 ([234]) (-1) 1 None ].

Definition g_v : list Z := [17; 65; 16; 0; 0; 0; 0; 0; 0; 0; 0; 0; 0; 0; 0; 0; 3; 19; 12; 2].

Definition s_0 : list Z := str "a~".
Definition s_1 : list Z := str "o~".
Definition s_2 : list Z := [227].
Definition s_3 : list Z := [245].
Definition s_4 : list Z := str "log".
Definition s_5 : list Z := str "u".
Definition s_6 : list Z := str "ente".
Definition s_7 : list Z := str "at".
Definition s_8 : list Z := str "at".
Definition s_9 : list Z := str "e".
Definition s_10 : list Z := str "ir".
Definition s_11 : list Z := str "u".
Definition s_12 : list Z := str "g".
Definition s_13 : list Z := str "i".
Definition s_14 : list Z := str "c".
Definition s_15 : list Z := str "c".
Definition s_16 : list Z := str "i".
Definition s_17 : list Z := str "c".

(** ** Routines *)
Section Routines.
Context `{CHeap}.

Definition r_prelude : cfunc := cfun (
  loop (
    c1 <- get sn_c ;;
    bra_c ;;
    b <- pre_f 0 (fun ch => negb (ch =? 227) && negb (ch =? 245)) ;;
    among_var <- (if b : bool then ret 3 else call (find_among a_0 3)) ;;
    label 0 (
      when (among_var =? 0) (goto 0) ;;
      ket_c ;;
      switch among_var
        [ (0, goto 0);
          (1, checked (slice_from_s 2 (sy s_0)));
          (2, checked (slice_from_s 2 (sy s_1)));
          (3, next_byte (goto 0)) ] ;;
      cont) ;;
    c_is c1 ;;
    brk) ;;
  creturn 1).

Definition r_mark_regions : cfunc := cfun (
  l <- get sn_l ;;
  put_I 0 l ;;
  l <- get sn_l ;;
  put_I 1 l ;;
  l <- get sn_l ;;
  put_I 2 l ;;
  c1 <- get sn_c ;;
  label 0 (
    label 1 (
      c2 <- get sn_c ;;
      label 2 (
        if_call (in_grouping g_v 97 250 0) (goto 2) ;;
        label 3 (
          c3 <- get sn_c ;;
          label 4 (
            if_call (out_grouping g_v 97 250 0) (goto 4) ;;
            gopast (out_grouping g_v 97 250 1) (goto 4) ;;
            goto 3) ;;
          c_is c3 ;;
          if_call (in_grouping g_v 97 250 0) (goto 2) ;;
          gopast (in_grouping g_v 97 250 1) (goto 2)) ;;
        goto 1) ;;
      c_is c2 ;;
      if_call (out_grouping g_v 97 250 0) (goto 0) ;;
      label 5 (
        c4 <- get sn_c ;;
        label 6 (
          if_call (out_grouping g_v 97 250 0) (goto 6) ;;
          gopast (out_grouping g_v 97 250 1) (goto 6) ;;
          goto 5) ;;
        c_is c4 ;;
        if_call (in_grouping g_v 97 250 0) (goto 0) ;;
        next_byte (goto 0))) ;;
    c <- get sn_c ;;
    put_I 0 c) ;;
  c_is c1 ;;
  c5 <- get sn_c ;;
  label 7 (
    gopast (out_grouping g_v 97 250 1) (goto 7) ;;
    gopast (in_grouping g_v 97 250 1) (goto 7) ;;
    c <- get sn_c ;;
    put_I 1 c ;;
    gopast (out_grouping g_v 97 250 1) (goto 7) ;;
    gopast (in_grouping g_v 97 250 1) (goto 7) ;;
    c <- get sn_c ;;
    put_I 2 c) ;;
  c_is c5 ;;
  creturn 1).

Definition r_postlude : cfunc := cfun (
  loop (
    c1 <- get sn_c ;;
    bra_c ;;
    b <- pre_f 1 (fun ch => negb (ch =? 126)) ;;
    among_var <- (if b : bool then ret 3 else call (find_among a_1 3)) ;;
    label 0 (
      when (among_var =? 0) (goto 0) ;;
      ket_c ;;
      switch among_var
        [ (0, goto 0);
          (1, checked (slice_from_s 1 (sy s_2)));
          (2, checked (slice_from_s 1 (sy s_3)));
          (3, next_byte (goto 0)) ] ;;
      cont) ;;
    c_is c1 ;;
    brk) ;;
  creturn 1).

Definition r_RV : cfunc := cfun (
  i <- get_I 0 ;;
  c <- get sn_c ;;
  when (negb (i <=? c)) (creturn 0) ;;
  creturn 1).

Definition r_R1 : cfunc := cfun (
  i <- get_I 1 ;;
  c <- get sn_c ;;
  when (negb (i <=? c)) (creturn 0) ;;
  creturn 1).

Definition r_R2 : cfunc := cfun (
  i <- get_I 2 ;;
  c <- get sn_c ;;
  when (negb (i <=? c)) (creturn 0) ;;
  creturn 1).

Definition r_standard_suffix : cfunc := cfun (
  ket_c ;;
  b <- pre_b 2 (not_masked 3 839714) ;;
  when b (creturn 0) ;;
  among_var <- call (find_among_b a_5 45) ;;
  when (among_var =? 0) (creturn 0) ;;
  bra_c ;;
  switch among_var
    [ (0, creturn 0);
      (1, routine r_R2 (creturn 0) ;;
          checked slice_del);
      (2, routine r_R2 (creturn 0) ;;
          checked (slice_from_s 3 (sy s_4)));
      (3, routine r_R2 (creturn 0) ;;
          checked (slice_from_s 1 (sy s_5)));
      (4, routine r_R2 (creturn 0) ;;
          checked (slice_from_s 4 (sy s_6)));
      (5, routine r_R1 (creturn 0) ;;
          checked slice_del ;;
          m_keep <- get_m ;;
          ket_c ;;
          label 0 (
            b <- pre_b 1 (not_masked 3 4718616) ;;
            when b (c_from_l m_keep ;; goto 0) ;;
            among_var <- call (find_among_b a_2 4) ;;
            when (among_var =? 0) (c_from_l m_keep ;; goto 0) ;;
            bra_c ;;
            routine r_R2 (c_from_l m_keep ;; goto 0) ;;
            checked slice_del ;;
            switch among_var
              [ (0, c_from_l m_keep ;;
                    goto 0);
                (1, ket_c ;;
                    unless_call (eq_s_b 2 (sy s_7)) (c_from_l m_keep ;; goto 0) ;;
                    bra_c ;;
                    routine r_R2 (c_from_l m_keep ;; goto 0) ;;
                    checked slice_del) ]));
      (6, routine r_R2 (creturn 0) ;;
          checked slice_del ;;
          m_keep <- get_m ;;
          ket_c ;;
          label 1 (
            b <- pre_b 3 (fun ch => negb (ch =? 101) && negb (ch =? 108)) ;;
            when b (c_from_l m_keep ;; goto 1) ;;
            among_var <- call (find_among_b a_3 3) ;;
            when (among_var =? 0) (c_from_l m_keep ;; goto 1) ;;
            bra_c ;;
            switch among_var
              [ (0, c_from_l m_keep ;;
                    goto 1);
                (1, routine r_R2 (c_from_l m_keep ;; goto 1) ;;
                    checked slice_del) ]));
      (7, routine r_R2 (creturn 0) ;;
          checked slice_del ;;
          m_keep <- get_m ;;
          ket_c ;;
          label 2 (
            b <- pre_b 1 (not_masked 3 4198408) ;;
            when b (c_from_l m_keep ;; goto 2) ;;
            among_var <- call (find_among_b a_4 3) ;;
            when (among_var =? 0) (c_from_l m_keep ;; goto 2) ;;
            bra_c ;;
            switch among_var
              [ (0, c_from_l m_keep ;;
                    goto 2);
                (1, routine r_R2 (c_from_l m_keep ;; goto 2) ;;
                    checked slice_del) ]));
      (8, routine r_R2 (creturn 0) ;;
          checked slice_del ;;
          m_keep <- get_m ;;
          ket_c ;;
          label 3 (
            unless_call (eq_s_b 2 (sy s_8)) (c_from_l m_keep ;; goto 3) ;;
            bra_c ;;
            routine r_R2 (c_from_l m_keep ;; goto 3) ;;
            checked slice_del));
      (9, routine r_RV (creturn 0) ;;
          unless_call (eq_s_b 1 (sy s_9)) (creturn 0) ;;
          checked (slice_from_s 2 (sy s_10))) ] ;;
  creturn 1).

Definition r_verb_suffix : cfunc := cfun (
  m1 <- get_m ;;
  i <- get_I 0 ;;
  c <- get sn_c ;;
  when (c <? i) (creturn 0) ;;
  i <- get_I 0 ;;
  c_is i ;;
  mlimit <- get sn_lb ;;
  put (fun z => set_lb (sn_c z) z) ;;
  c_from_l m1 ;;
  ket_c ;;
  among_var <- call (find_among_b a_6 120) ;;
  when (among_var =? 0) (put (set_lb mlimit) ;; creturn 0) ;;
  bra_c ;;
  switch among_var
    [ (0, put (set_lb mlimit) ;;
          creturn 0);
      (1, checked slice_del) ] ;;
  put (set_lb mlimit) ;;
  creturn 1).

Definition r_residual_suffix : cfunc := cfun (
  ket_c ;;
  among_var <- call (find_among_b a_7 7) ;;
  when (among_var =? 0) (creturn 0) ;;
  bra_c ;;
  switch among_var
    [ (0, creturn 0);
      (1, routine r_RV (creturn 0) ;;
          checked slice_del) ] ;;
  creturn 1).

Definition r_residual_form : cfunc := cfun (
  ket_c ;;
  among_var <- call (find_among_b a_8 4) ;;
  when (among_var =? 0) (creturn 0) ;;
  bra_c ;;
  switch among_var
    [ (0, creturn 0);
      (1, routine r_RV (creturn 0) ;;
          checked slice_del ;;
          ket_c ;;
          label 0 (
            m1 <- get_m ;;
            label 1 (
              unless_call (eq_s_b 1 (sy s_11)) (goto 1) ;;
              bra_c ;;
              m_test <- get_m ;;
              unless_call (eq_s_b 1 (sy s_12)) (goto 1) ;;
              c_from_l m_test ;;
              goto 0) ;;
            c_from_l m1 ;;
            unless_call (eq_s_b 1 (sy s_13)) (creturn 0) ;;
            bra_c ;;
            m_test <- get_m ;;
            unless_call (eq_s_b 1 (sy s_14)) (creturn 0) ;;
            c_from_l m_test) ;;
          routine r_RV (creturn 0) ;;
          checked slice_del);
      (2, checked (slice_from_s 1 (sy s_15))) ] ;;
  creturn 1).

Definition portuguese_ISO_8859_1_stem : cfunc := cfun (
  do_f 0 r_prelude ;;
  do_f 1 r_mark_regions ;;
  put (fun z => set_lb (sn_c z) z) ;;
  put (fun z => set_c (sn_l z) z) ;;
  m3 <- get_m ;;
  label 2 (
    label 3 (
      m4 <- get_m ;;
      label 4 (
        m5 <- get_m ;;
        label 5 (
          m6 <- get_m ;;
          label 6 (
            routine r_standard_suffix (goto 6) ;;
            goto 5) ;;
          c_from_l m6 ;;
          routine r_verb_suffix (goto 4)) ;;
        c_from_l m5 ;;
        m7 <- get_m ;;
        ket_c ;;
        label 7 (
          unless_call (eq_s_b 1 (sy s_16)) (goto 7) ;;
          bra_c ;;
          m_test <- get_m ;;
          unless_call (eq_s_b 1 (sy s_17)) (goto 7) ;;
          c_from_l m_test ;;
          routine r_RV (goto 7) ;;
          checked slice_del) ;;
        c_from_l m7 ;;
        goto 3) ;;
      c_from_l m4 ;;
      routine r_residual_suffix (goto 2))) ;;
  c_from_l m3 ;;
  do_b 8 r_residual_form ;;
  put (fun z => set_c (sn_lb z) z) ;;
  do_f 9 r_postlude ;;
  creturn 1).

Definition portuguese_ISO_8859_1_create_env : option (option SN_env) := SN_create_env 0 3 0.
Definition portuguese_ISO_8859_1_close_env (z : option SN_env) : option unit := SN_close_env z 0.
End Routines.

(** ** Safety of every routine *)
Section Safety.
Context `{CHeap} (k L : Z).
Abbreviation St := (st k L 3 0).
Abbreviation step_ok := (step_at k L 3 0 0).
Abbreviation fwd_ok := (fwd_ok k L 3 0).

Lemma pti_prelude_ok : fwd_when k L 3 0 (fun z => reach z <= L) r_prelude.
Proof. intros w z S HL. unfold r_prelude. repeat wp_step.
  eapply grow_loop; [st_solve|done|intros ? ? ? ? ? ?; repeat wp_step; first [grow_end|grow_room]|].
  intros ? ? ? ? ?. repeat wp_step. fwd_done. Qed.

Lemma pti_mark_regions_ok : fwd_ok r_mark_regions.
Proof. intros w z S. unfold r_mark_regions. read_code S; fwd_done. Qed.

Lemma pti_postlude_ok : fwd_ok r_postlude.
Proof. intros w z S. unfold r_postlude. walk. Qed.

Lemma pti_RV_ok w z : St w z -> returns r_RV z (fun v z' => 0 <= v /\ z' = z).
Proof. intros S. unfold r_RV. repeat wp_step; split; (done || lia). Qed.

Lemma pti_R1_ok w z : St w z -> returns r_R1 z (fun v z' => 0 <= v /\ z' = z).
Proof. intros S. unfold r_R1. repeat wp_step; split; (done || lia). Qed.

Lemma pti_R2_ok w z : St w z -> returns r_R2 z (fun v z' => 0 <= v /\ z' = z).
Proof. intros S. unfold r_R2. repeat wp_step; split; (done || lia). Qed.

Ltac routine_rule ::=
  lazymatch goal with
  | |- returns r_RV _ _ => eapply returns_mono; [eapply pti_RV_ok; st_solve|intros ? ? (? & ->)]
  | |- returns r_R1 _ _ => eapply returns_mono; [eapply pti_R1_ok; st_solve|intros ? ? (? & ->)]
  | |- returns r_R2 _ _ => eapply returns_mono; [eapply pti_R2_ok; st_solve|intros ? ? (? & ->)]
  end.

Lemma pti_standard_suffix_ok : step_ok r_standard_suffix.
Proof. intros w z S Hlb. unfold r_standard_suffix. repeat wp_step; step_end. Qed.

Lemma pti_verb_suffix_ok : step_ok r_verb_suffix.
Proof. intros w z S Hlb. unfold r_verb_suffix. repeat wp_step; step_end. Qed.

Lemma pti_residual_suffix_ok : step_ok r_residual_suffix.
Proof. intros w z S Hlb. unfold r_residual_suffix. repeat wp_step; step_end. Qed.

Lemma pti_residual_form_ok : step_ok r_residual_form.
Proof. intros w z S Hlb. unfold r_residual_form. repeat wp_step; step_end. Qed.

Ltac routine_rule ::=
  lazymatch goal with
  | |- returns r_RV _ _ => eapply returns_mono; [eapply pti_RV_ok; st_solve|intros ? ? (? & ->)]
  | |- returns r_R1 _ _ => eapply returns_mono; [eapply pti_R1_ok; st_solve|intros ? ? (? & ->)]
  | |- returns r_R2 _ _ => eapply returns_mono; [eapply pti_R2_ok; st_solve|intros ? ? (? & ->)]
  | |- returns r_standard_suffix _ _ => eapply returns_mono; [eapply pti_standard_suffix_ok; [st_solve|sn_cbn; sn_lia || congruence..]|intros ? ? (? & ? & ? & ?)]
  | |- returns r_verb_suffix _ _ => eapply returns_mono; [eapply pti_verb_suffix_ok; [st_solve|sn_cbn; sn_lia || congruence..]|intros ? ? (? & ? & ? & ?)]
  | |- returns r_residual_suffix _ _ => eapply returns_mono; [eapply pti_residual_suffix_ok; [st_solve|sn_cbn; sn_lia || congruence..]|intros ? ? (? & ? & ? & ?)]
  end.

Ltac run_g H := eapply (do_f_when k L 3 0 _ _ _ H); [st_solve|cbv beta; grow_room|intros ? ? ? ? ?; edit_code 0].
Ltac run_f H := eapply (do_f_ok k L 3 0 _ _ H); [st_solve|intros ? ? ? ? ?; edit_code 0].
Ltac run_b H := eapply (do_b_at k L 3 0 _ _ 0 H); [st_solve|sn_cbn; sn_lia || congruence..|intros ? ? ? ? ?; edit_code 0].

Lemma pti_stem_ok w z : St w z -> sn_c z = 0 -> 2 * zlen w <= L ->
  returns portuguese_ISO_8859_1_stem z (fun v z' => v = 1 /\ exists w', St w' z' /\ (sn_lb z' = sn_lb z \/ sn_lb z' = sn_c z)).
Proof.
  intros S Hc HL. unfold portuguese_ISO_8859_1_stem. repeat wp_step.
  run_g pti_prelude_ok.
  run_f pti_mark_regions_ok.
  run_b pti_residual_form_ok.
  run_f pti_postlude_ok.
  split; [done|]; eexists; split; [st_solve|right; sn_cbn; congruence].
Qed.
End Safety.
