(* ===== verification/Turkish.v ===== *)
(** * The Turkish stemmer on UTF-8: [src_c/stem_UTF_8_turkish.c]

    The generated C, statement for statement, and the proof that stemming is
    free of undefined behaviour, terminates (one routine calls itself) and
    adds at most three symbols to the word; the buffer has room for them. *)

From S2P Require Import Prelude SnEnv SnRuntime SnSpec SnAmong SnCode SnLoops.

Open Scope sn_scope.

(** ** Tables *)
Definition a_0 : list among :=
  [ mk_among 1 (str "m") (-1) (-1) None; mk_among 1 (str "n") (-1) (-1) None;
    mk_among 3 (str "miz") (-1) (-1) None; mk_among 3 (str "niz") (-1) (-1) None;
    mk_among 3 (str "muz") (-1) (-1) None; mk_among 3 (str "nuz") (-1) (-1) None;
    mk_among 4 ([109; 196; 177; 122]) (-1) (-1) None;
    mk_among 4 ([110; 196; 177; 122]) (-1) (-1) None;
    mk_among 4 ([109; 195; 188; 122]) (-1) (-1) None;
    mk_among 4 ([110; 195; 188; 122]) (-1) (-1) None ].

Definition a_1 : list among :=
  [ mk_among 4 (str "leri") (-1) (-1) None; mk_among 5 ([108; 97; 114; 196; 177]) (-1) (-1) None ].

Definition a_2 : list among :=
  [ mk_among 2 (str "ni") (-1) (-1) None; mk_among 2 (str "nu") (-1) (-1) None;
    mk_among 3 ([110; 196; 177]) (-1) (-1) None; mk_among 3 ([110; 195; 188]) (-1) (-1) None ].

Definition a_3 : list among :=
  [ mk_among 2 (str "in") (-1) (-1) None; mk_among 2 (str "un") (-1) (-1) None;
    mk_among 3 ([196; 177; 110]) (-1) (-1) None; mk_among 3 ([195; 188; 110]) (-1) (-1) None ].

Definition a_4 : list among :=
  [ mk_among 1 (str "a") (-1) (-1) None; mk_among 1 (str "e") (-1) (-1) None ].

Definition a_5 : list among :=
  [ mk_among 2 (str "na") (-1) (-1) None; mk_among 2 (str "ne") (-1) (-1) None ].

Definition a_6 : list among :=
  [ mk_among 2 (str "da") (-1) (-1) None; mk_among 2 (str "ta") (-1) (-1) None;
    mk_among 2 (str "de") (-1) (-1) None; mk_among 2 (str "te") (-1) (-1) None ].

Definition a_7 : list among :=
  [ mk_among 3 (str "nda") (-1) (-1) None; mk_among 3 (str "nde") (-1) (-1) None ].

Definition a_8 : list among :=
  [ mk_among 3 (str "dan") (-1) (-1) None; mk_among 3 (str "tan") (-1) (-1) None;
    mk_among 3 (str "den") (-1) (-1) None; mk_among 3 (str "ten") (-1) (-1) None ].

Definition a_9 : list among :=
  [ mk_among 4 (str "ndan") (-1) (-1) None; mk_among 4 (str "nden") (-1) (-1) None ].

Definition a_10 : list among :=
  [ mk_among 2 (str "la") (-1) (-1) None; mk_among 2 (str "le") (-1) (-1) None ].

Definition a_11 : list among :=
  [ mk_among 2 (str "ca") (-1) (-1) None; mk_among 2 (str "ce") (-1) (-1) None ].

Definition a_12 : list among :=
  [ mk_among 2 (str "im") (-1) (-1) None; mk_among 2 (str "um") (-1) (-1) None;
    mk_among 3 ([196; 177; 109]) (-1) (-1) None; mk_among 3 ([195; 188; 109]) (-1) (-1) None ].

Definition a_13 : list among :=
  [ mk_among 3 (str "sin") (-1) (-1) None; mk_among 3 (str "sun") (-1) (-1) None;
    mk_among 4 ([115; 196; 177; 110]) (-1) (-1) None;
    mk_among 4 ([115; 195; 188; 110]) (-1) (-1) None ].

Definition a_14 : list among :=
  [ mk_among 2 (str "iz") (-1) (-1) None; mk_among 2 (str "uz") (-1) (-1) None;
    mk_among 3 ([196; 177; 122]) (-1) (-1) None; mk_among 3 ([195; 188; 122]) (-1) (-1) None ].

Definition a_15 : list among :=
  [ mk_among 5 (str "siniz") (-1) (-1) None; mk_among 5 (str "sunuz") (-1) (-1) None;
    mk_among 7 ([115; 196; 177; 110; 196; 177; 122]) (-1) (-1) None;
    mk_among 7 ([115; 195; 188; 110; 195; 188; 122]) (-1) (-1) None ].

Definition a_16 : list among :=
  [ mk_among 3 (str "lar") (-1) (-1) None; mk_among 3 (str "ler") (-1) (-1) None ].

Definition a_17 : list among :=
  [ mk_among 3 (str "niz") (-1) (-1) None; mk_among 3 (str "nuz") (-1) (-1) None;
    mk_among 4 ([110; 196; 177; 122]) (-1) (-1) None;
    mk_among 4 ([110; 195; 188; 122]) (-1) (-1) None ].

Definition a_18 : list among :=
  [ mk_among 3 (str "dir") (-1) (-1) None; mk_among 3 (str "tir") (-1) (-1) None;
    mk_among 3 (str "dur") (-1) (-1) None; mk_among 3 (str "tur") (-1) (-1) None;
    mk_among 4 ([100; 196; 177; 114]) (-1) (-1) None;
    mk_among 4 ([116; 196; 177; 114]) (-1) (-1) None;
    mk_among 4 ([100; 195; 188; 114]) (-1) (-1) None;
    mk_among 4 ([116; 195; 188; 114]) (-1) (-1) None ].

Definition a_19 : list among :=
  [ mk_among 7 ([99; 97; 115; 196; 177; 110; 97]) (-1) (-1) None;
    mk_among 6 (str "cesine") (-1) (-1) None ].

Definition a_20 : list among :=
  [ mk_among 2 (str "di") (-1) (-1) None; mk_among 2 (str "ti") (-1) (-1) None;
    mk_among 3 (str "dik") (-1) (-1) None; mk_among 3 (str "tik") (-1) (-1) None;
    mk_among 3 (str "duk") (-1) (-1) None; mk_among 3 (str "tuk") (-1) (-1) None;
    mk_among 4 ([100; 196; 177; 107]) (-1) (-1) None;
    mk_among 4 ([116; 196; 177; 107]) (-1) (-1) None;
    mk_among 4 ([100; 195; 188; 107]) (-1) (-1) None;
    mk_among 4 ([116; 195; 188; 107]) (-1) (-1) None; mk_among 3 (str "dim") (-1) (-1) None;
    mk_among 3 (str "tim") (-1) (-1) None; mk_among 3 (str "dum") (-1) (-1) None;
    mk_among 3 (str "tum") (-1) (-1) None; mk_among 4 ([100; 196; 177; 109]) (-1) (-1) None;
    mk_among 4 ([116; 196; 177; 109]) (-1) (-1) None;
    mk_among 4 ([100; 195; 188; 109]) (-1) (-1) None;
    mk_among 4 ([116; 195; 188; 109]) (-1) (-1) None; mk_among 3 (str "din") (-1) (-1) None;
    mk_among 3 (str "tin") (-1) (-1) None; mk_among 3 (str "dun") (-1) (-1) None;
    mk_among 3 (str "tun") (-1) (-1) None; mk_among 4 ([100; 196; 177; 110]) (-1) (-1) None;
    mk_among 4 ([116; 196; 177; 110]) (-1) (-1) None;
    mk_among 4 ([100; 195; 188; 110]) (-1) (-1) None;
    mk_among 4 ([116; 195; 188; 110]) (-1) (-1) None; mk_among 2 (str "du") (-1) (-1) None;
    mk_among 2 (str "tu") (-1) (-1) None; mk_among 3 ([100; 196; 177]) (-1) (-1) None;
    mk_among 3 ([116; 196; 177]) (-1) (-1) None; mk_among 3 ([100; 195; 188]) (-1) (-1) None;
    mk_among 3 ([116; 195; 188]) (-1) (-1) None ].

Definition a_21 : list among :=
  [ mk_among 2 (str "sa") (-1) (-1) None; mk_among 2 (str "se") (-1) (-1) None;
    mk_among 3 (str "sak") (-1) (-1) None; mk_among 3 (str "sek") (-1) (-1) None;
    mk_among 3 (str "sam") (-1) (-1) None; mk_among 3 (str "sem") (-1) (-1) None;
    mk_among 3 (str "san") (-1) (-1) None; mk_among 3 (str "sen") (-1) (-1) None ].

Definition a_22 : list among :=
  [ mk_among 4 ([109; 105; 197; 159]) (-1) (-1) None;
    mk_among 4 ([109; 117; 197; 159]) (-1) (-1) None;
    mk_among 5 ([109; 196; 177; 197; 159]) (-1) (-1) None;
    mk_among 5 ([109; 195; 188; 197; 159]) (-1) (-1) None ].

Definition a_23 : list among :=
  [ mk_among 1 (str "b") (-1) 1 None; mk_among 1 (str "c") (-1) 2 None;
    mk_among 1 (str "d") (-1) 3 None; mk_among 2 ([196; 159]) (-1) 4 None ].

Definition g_vowel : list Z := [17; 65; 16; 0; 0; 0; 0; 0; 0; 0; 0; 0; 0; 0; 0; 0; 0; 0; 32; 8; 0; 0; 0; 0; 0; 0; 1].

Definition g_U : list Z := [1; 16; 0; 0; 0; 0; 0; 0; 0; 0; 0; 0; 0; 0; 0; 0; 0; 0; 8; 0; 0; 0; 0; 0; 0; 1].

Definition g_vowel1 : list Z := [1; 64; 16; 0; 0; 0; 0; 0; 0; 0; 0; 0; 0; 0; 0; 0; 0; 0; 0; 0; 0; 0; 0; 0; 0; 0; 1].

Definition g_vowel2 : list Z := [17; 0; 0; 0; 0; 0; 0; 0; 0; 0; 0; 0; 0; 0; 0; 0; 0; 0; 130].

Definition g_vowel3 : list Z := [1; 0; 0; 0; 0; 0; 0; 0; 0; 0; 0; 0; 0; 0; 0; 0; 0; 0; 0; 0; 0; 0; 0; 0; 0; 0; 1].

Definition g_vowel4 : list Z := [17].

Definition g_vowel5 : list Z := [65].

Definition g_vowel6 : list Z := [65].

Definition s_0 : list Z := str "a".
Definition s_1 : list Z := str "e".
Definition s_2 : list Z := [196; 177].
Definition s_3 : list Z := str "i".
Definition s_4 : list Z := str "o".
Definition s_5 : list Z := [195; 182].
Definition s_6 : list Z := str "u".
Definition s_7 : list Z := [195; 188].
Definition s_8 : list Z := str "n".
Definition s_9 : list Z := str "n".
Definition s_10 : list Z := str "s".
Definition s_11 : list Z := str "s".
Definition s_12 : list Z := str "y".
Definition s_13 : list Z := str "y".
Definition s_14 : list Z := str "ki".
Definition s_15 : list Z := str "ken".
Definition s_16 : list Z := str "p".
Definition s_17 : list Z := [195; 167].
Definition s_18 : list Z := str "t".
Definition s_19 : list Z := str "k".
Definition s_20 : list Z := str "d".
Definition s_21 : list Z := str "g".
Definition s_22 : list Z := str "a".
Definition s_23 : list Z := [196; 177].
Definition s_24 : list Z := [196; 177].
Definition s_25 : list Z := str "e".
Definition s_26 : list Z := str "i".
Definition s_27 : list Z := str "i".
Definition s_28 : list Z := str "o".
Definition s_29 : list Z := str "u".
Definition s_30 : list Z := str "u".
Definition s_31 : list Z := [195; 182].
Definition s_32 : list Z := [195; 188].
Definition s_33 : list Z := [195; 188].
Definition s_34 : list Z := str "ad".
Definition s_35 : list Z := str "soyad".

(** ** Routines *)
Section Routines.
Context `{CHeap}.

Definition r_check_vowel_harmony : cfunc := cfun (
  m_test <- get_m ;;
  neg_call (out_grouping_b_U g_vowel 97 305 1) (creturn 0) ;;
  label 0 (
    m1 <- get_m ;;
    label 1 (
      unless_call (eq_s_b 1 (sy s_0)) (goto 1) ;;
      neg_call (out_grouping_b_U g_vowel1 97 305 1) (goto 1) ;;
      goto 0) ;;
    c_from_l m1 ;;
    label 2 (
      unless_call (eq_s_b 1 (sy s_1)) (goto 2) ;;
      neg_call (out_grouping_b_U g_vowel2 101 252 1) (goto 2) ;;
      goto 0) ;;
    c_from_l m1 ;;
    label 3 (
      unless_call (eq_s_b 2 (sy s_2)) (goto 3) ;;
      neg_call (out_grouping_b_U g_vowel3 97 305 1) (goto 3) ;;
      goto 0) ;;
    c_from_l m1 ;;
    label 4 (
      unless_call (eq_s_b 1 (sy s_3)) (goto 4) ;;
      neg_call (out_grouping_b_U g_vowel4 101 105 1) (goto 4) ;;
      goto 0) ;;
    c_from_l m1 ;;
    label 5 (
      unless_call (eq_s_b 1 (sy s_4)) (goto 5) ;;
      neg_call (out_grouping_b_U g_vowel5 111 117 1) (goto 5) ;;
      goto 0) ;;
    c_from_l m1 ;;
    label 6 (
      unless_call (eq_s_b 2 (sy s_5)) (goto 6) ;;
      neg_call (out_grouping_b_U g_vowel6 246 252 1) (goto 6) ;;
      goto 0) ;;
    c_from_l m1 ;;
    label 7 (
      unless_call (eq_s_b 1 (sy s_6)) (goto 7) ;;
      neg_call (out_grouping_b_U g_vowel5 111 117 1) (goto 7) ;;
      goto 0) ;;
    c_from_l m1 ;;
    unless_call (eq_s_b 2 (sy s_7)) (creturn 0) ;;
    neg_call (out_grouping_b_U g_vowel6 246 252 1) (creturn 0)) ;;
  c_from_l m_test ;;
  creturn 1).

Definition r_mark_suffix_with_optional_n_consonant : cfunc := cfun (
  label 0 (
    m1 <- get_m ;;
    label 1 (
      m_test <- get_m ;;
      unless_call (eq_s_b 1 (sy s_8)) (goto 1) ;;
      c_from_l m_test ;;
      prev_utf8 1 (goto 1) ;;
      m_test <- get_m ;;
      if_call (in_grouping_b_U g_vowel 97 305 0) (goto 1) ;;
      c_from_l m_test ;;
      goto 0) ;;
    c_from_l m1 ;;
    m2 <- get_m ;;
    label 2 (
      m_test <- get_m ;;
      unless_call (eq_s_b 1 (sy s_9)) (goto 2) ;;
      c_from_l m_test ;;
      creturn 0) ;;
    c_from_l m2 ;;
    m_test <- get_m ;;
    prev_utf8 1 (creturn 0) ;;
    m_test_ <- get_m ;;
    if_call (in_grouping_b_U g_vowel 97 305 0) (creturn 0) ;;
    c_from_l m_test_ ;;
    c_from_l m_test) ;;
  creturn 1).

Definition r_mark_suffix_with_optional_s_consonant : cfunc := cfun (
  label 0 (
    m1 <- get_m ;;
    label 1 (
      m_test <- get_m ;;
      unless_call (eq_s_b 1 (sy s_10)) (goto 1) ;;
      c_from_l m_test ;;
      prev_utf8 1 (goto 1) ;;
      m_test <- get_m ;;
      if_call (in_grouping_b_U g_vowel 97 305 0) (goto 1) ;;
      c_from_l m_test ;;
      goto 0) ;;
    c_from_l m1 ;;
    m2 <- get_m ;;
    label 2 (
      m_test <- get_m ;;
      unless_call (eq_s_b 1 (sy s_11)) (goto 2) ;;
      c_from_l m_test ;;
      creturn 0) ;;
    c_from_l m2 ;;
    m_test <- get_m ;;
    prev_utf8 1 (creturn 0) ;;
    m_test_ <- get_m ;;
    if_call (in_grouping_b_U g_vowel 97 305 0) (creturn 0) ;;
    c_from_l m_test_ ;;
    c_from_l m_test) ;;
  creturn 1).

Definition r_mark_suffix_with_optional_y_consonant : cfunc := cfun (
  label 0 (
    m1 <- get_m ;;
    label 1 (
      m_test <- get_m ;;
      unless_call (eq_s_b 1 (sy s_12)) (goto 1) ;;
      c_from_l m_test ;;
      prev_utf8 1 (goto 1) ;;
      m_test <- get_m ;;
      if_call (in_grouping_b_U g_vowel 97 305 0) (goto 1) ;;
      c_from_l m_test ;;
      goto 0) ;;
    c_from_l m1 ;;
    m2 <- get_m ;;
    label 2 (
      m_test <- get_m ;;
      unless_call (eq_s_b 1 (sy s_13)) (goto 2) ;;
      c_from_l m_test ;;
      creturn 0) ;;
    c_from_l m2 ;;
    m_test <- get_m ;;
    prev_utf8 1 (creturn 0) ;;
    m_test_ <- get_m ;;
    if_call (in_grouping_b_U g_vowel 97 305 0) (creturn 0) ;;
    c_from_l m_test_ ;;
    c_from_l m_test) ;;
  creturn 1).

Definition r_mark_suffix_with_optional_U_vowel : cfunc := cfun (
  label 0 (
    m1 <- get_m ;;
    label 1 (
      m_test <- get_m ;;
      if_call (in_grouping_b_U g_U 105 305 0) (goto 1) ;;
      c_from_l m_test ;;
      prev_utf8 1 (goto 1) ;;
      m_test <- get_m ;;
      if_call (out_grouping_b_U g_vowel 97 305 0) (goto 1) ;;
      c_from_l m_test ;;
      goto 0) ;;
    c_from_l m1 ;;
    m2 <- get_m ;;
    label 2 (
      m_test <- get_m ;;
      if_call (in_grouping_b_U g_U 105 305 0) (goto 2) ;;
      c_from_l m_test ;;
      creturn 0) ;;
    c_from_l m2 ;;
    m_test <- get_m ;;
    prev_utf8 1 (creturn 0) ;;
    m_test_ <- get_m ;;
    if_call (out_grouping_b_U g_vowel 97 305 0) (creturn 0) ;;
    c_from_l m_test_ ;;
    c_from_l m_test) ;;
  creturn 1).

Definition r_mark_possessives : cfunc := cfun (
  b <- pre_b 0 (not_masked 3 67133440) ;;
  when b (creturn 0) ;;
  unless_call (find_among_b a_0 10) (creturn 0) ;;
  routine r_mark_suffix_with_optional_U_vowel (creturn 0) ;;
  creturn 1).

Definition r_mark_sU : cfunc := cfun (
  routine r_check_vowel_harmony (creturn 0) ;;
  if_call (in_grouping_b_U g_U 105 305 0) (creturn 0) ;;
  routine r_mark_suffix_with_optional_s_consonant (creturn 0) ;;
  creturn 1).

Definition r_mark_lArI : cfunc := cfun (
  b <- pre_b 3 (fun ch => negb (ch =? 105) && negb (ch =? 177)) ;;
  when b (creturn 0) ;;
  unless_call (find_among_b a_1 2) (creturn 0) ;;
  creturn 1).

Definition r_mark_yU : cfunc := cfun (
  routine r_check_vowel_harmony (creturn 0) ;;
  if_call (in_grouping_b_U g_U 105 305 0) (creturn 0) ;;
  routine r_mark_suffix_with_optional_y_consonant (creturn 0) ;;
  creturn 1).

Definition r_mark_nU : cfunc := cfun (
  routine r_check_vowel_harmony (creturn 0) ;;
  unless_call (find_among_b a_2 4) (creturn 0) ;;
  creturn 1).

Definition r_mark_nUn : cfunc := cfun (
  routine r_check_vowel_harmony (creturn 0) ;;
  b <- pre_b 1 (fun ch => negb (ch =? 110)) ;;
  when b (creturn 0) ;;
  unless_call (find_among_b a_3 4) (creturn 0) ;;
  routine r_mark_suffix_with_optional_n_consonant (creturn 0) ;;
  creturn 1).

Definition r_mark_yA : cfunc := cfun (
  routine r_check_vowel_harmony (creturn 0) ;;
  b <- pre_b 0 (fun ch => negb (ch =? 97) && negb (ch =? 101)) ;;
  when b (creturn 0) ;;
  unless_call (find_among_b a_4 2) (creturn 0) ;;
  routine r_mark_suffix_with_optional_y_consonant (creturn 0) ;;
  creturn 1).

Definition r_mark_nA : cfunc := cfun (
  routine r_check_vowel_harmony (creturn 0) ;;
  b <- pre_b 1 (fun ch => negb (ch =? 97) && negb (ch =? 101)) ;;
  when b (creturn 0) ;;
  unless_call (find_among_b a_5 2) (creturn 0) ;;
  creturn 1).

Definition r_mark_DA : cfunc := cfun (
  routine r_check_vowel_harmony (creturn 0) ;;
  b <- pre_b 1 (fun ch => negb (ch =? 97) && negb (ch =? 101)) ;;
  when b (creturn 0) ;;
  unless_call (find_among_b a_6 4) (creturn 0) ;;
  creturn 1).

Definition r_mark_ndA : cfunc := cfun (
  routine r_check_vowel_harmony (creturn 0) ;;
  b <- pre_b 2 (fun ch => negb (ch =? 97) && negb (ch =? 101)) ;;
  when b (creturn 0) ;;
  unless_call (find_among_b a_7 2) (creturn 0) ;;
  creturn 1).

Definition r_mark_DAn : cfunc := cfun (
  routine r_check_vowel_harmony (creturn 0) ;;
  b <- pre_b 2 (fun ch => negb (ch =? 110)) ;;
  when b (creturn 0) ;;
  unless_call (find_among_b a_8 4) (creturn 0) ;;
  creturn 1).

Definition r_mark_ndAn : cfunc := cfun (
  routine r_check_vowel_harmony (creturn 0) ;;
  b <- pre_b 3 (fun ch => negb (ch =? 110)) ;;
  when b (creturn 0) ;;
  unless_call (find_among_b a_9 2) (creturn 0) ;;
  creturn 1).

Definition r_mark_ylA : cfunc := cfun (
  routine r_check_vowel_harmony (creturn 0) ;;
  b <- pre_b 1 (fun ch => negb (ch =? 97) && negb (ch =? 101)) ;;
  when b (creturn 0) ;;
  unless_call (find_among_b a_10 2) (creturn 0) ;;
  routine r_mark_suffix_with_optional_y_consonant (creturn 0) ;;
  creturn 1).

Definition r_mark_ki : cfunc := cfun (
  unless_call (eq_s_b 2 (sy s_14)) (creturn 0) ;;
  creturn 1).

Definition r_mark_ncA : cfunc := cfun (
  routine r_check_vowel_harmony (creturn 0) ;;
  b <- pre_b 1 (fun ch => negb (ch =? 97) && negb (ch =? 101)) ;;
  when b (creturn 0) ;;
  unless_call (find_among_b a_11 2) (creturn 0) ;;
  routine r_mark_suffix_with_optional_n_consonant (creturn 0) ;;
  creturn 1).

Definition r_mark_yUm : cfunc := cfun (
  routine r_check_vowel_harmony (creturn 0) ;;
  b <- pre_b 1 (fun ch => negb (ch =? 109)) ;;
  when b (creturn 0) ;;
  unless_call (find_among_b a_12 4) (creturn 0) ;;
  routine r_mark_suffix_with_optional_y_consonant (creturn 0) ;;
  creturn 1).

Definition r_mark_sUn : cfunc := cfun (
  routine r_check_vowel_harmony (creturn 0) ;;
  b <- pre_b 2 (fun ch => negb (ch =? 110)) ;;
  when b (creturn 0) ;;
  unless_call (find_among_b a_13 4) (creturn 0) ;;
  creturn 1).

Definition r_mark_yUz : cfunc := cfun (
  routine r_check_vowel_harmony (creturn 0) ;;
  b <- pre_b 1 (fun ch => negb (ch =? 122)) ;;
  when b (creturn 0) ;;
  unless_call (find_among_b a_14 4) (creturn 0) ;;
  routine r_mark_suffix_with_optional_y_consonant (creturn 0) ;;
  creturn 1).

Definition r_mark_sUnUz : cfunc := cfun (
  b <- pre_b 4 (fun ch => negb (ch =? 122)) ;;
  when b (creturn 0) ;;
  unless_call (find_among_b a_15 4) (creturn 0) ;;
  creturn 1).

Definition r_mark_lAr : cfunc := cfun (
  routine r_check_vowel_harmony (creturn 0) ;;
  b <- pre_b 2 (fun ch => negb (ch =? 114)) ;;
  when b (creturn 0) ;;
  unless_call (find_among_b a_16 2) (creturn 0) ;;
  creturn 1).

Definition r_mark_nUz : cfunc := cfun (
  routine r_check_vowel_harmony (creturn 0) ;;
  b <- pre_b 2 (fun ch => negb (ch =? 122)) ;;
  when b (creturn 0) ;;
  unless_call (find_among_b a_17 4) (creturn 0) ;;
  creturn 1).

Definition r_mark_DUr : cfunc := cfun (
  routine r_check_vowel_harmony (creturn 0) ;;
  b <- pre_b 2 (fun ch => negb (ch =? 114)) ;;
  when b (creturn 0) ;;
  unless_call (find_among_b a_18 8) (creturn 0) ;;
  creturn 1).

Definition r_mark_cAsInA : cfunc := cfun (
  b <- pre_b 5 (fun ch => negb (ch =? 97) && negb (ch =? 101)) ;;
  when b (creturn 0) ;;
  unless_call (find_among_b a_19 2) (creturn 0) ;;
  creturn 1).

Definition r_mark_yDU : cfunc := cfun (
  routine r_check_vowel_harmony (creturn 0) ;;
  unless_call (find_among_b a_20 32) (creturn 0) ;;
  routine r_mark_suffix_with_optional_y_consonant (creturn 0) ;;
  creturn 1).

Definition r_mark_ysA : cfunc := cfun (
  b <- pre_b 1 (not_masked 3 26658) ;;
  when b (creturn 0) ;;
  unless_call (find_among_b a_21 8) (creturn 0) ;;
  routine r_mark_suffix_with_optional_y_consonant (creturn 0) ;;
  creturn 1).

Definition r_mark_ymUs_ : cfunc := cfun (
  routine r_check_vowel_harmony (creturn 0) ;;
  b <- pre_b 3 (fun ch => negb (ch =? 159)) ;;
  when b (creturn 0) ;;
  unless_call (find_among_b a_22 4) (creturn 0) ;;
  routine r_mark_suffix_with_optional_y_consonant (creturn 0) ;;
  creturn 1).

Definition r_mark_yken : cfunc := cfun (
  unless_call (eq_s_b 3 (sy s_15)) (creturn 0) ;;
  routine r_mark_suffix_with_optional_y_consonant (creturn 0) ;;
  creturn 1).

Definition r_stem_nominal_verb_suffixes : cfunc := cfun (
  ket_c ;;
  put_B 0 1 ;;
  label 0 (
    m1 <- get_m ;;
    label 1 (
      label 2 (
        m2 <- get_m ;;
        label 3 (
          routine r_mark_ymUs_ (goto 3) ;;
          goto 2) ;;
        c_from_l m2 ;;
        label 4 (
          routine r_mark_yDU (goto 4) ;;
          goto 2) ;;
        c_from_l m2 ;;
        label 5 (
          routine r_mark_ysA (goto 5) ;;
          goto 2) ;;
        c_from_l m2 ;;
        routine r_mark_yken (goto 1)) ;;
      goto 0) ;;
    c_from_l m1 ;;
    label 6 (
      routine r_mark_cAsInA (goto 6) ;;
      label 7 (
        m3 <- get_m ;;
        label 8 (
          routine r_mark_sUnUz (goto 8) ;;
          goto 7) ;;
        c_from_l m3 ;;
        label 9 (
          routine r_mark_lAr (goto 9) ;;
          goto 7) ;;
        c_from_l m3 ;;
        label 10 (
          routine r_mark_yUm (goto 10) ;;
          goto 7) ;;
        c_from_l m3 ;;
        label 11 (
          routine r_mark_sUn (goto 11) ;;
          goto 7) ;;
        c_from_l m3 ;;
        label 12 (
          routine r_mark_yUz (goto 12) ;;
          goto 7) ;;
        c_from_l m3) ;;
      routine r_mark_ymUs_ (goto 6) ;;
      goto 0) ;;
    c_from_l m1 ;;
    label 13 (
      routine r_mark_lAr (goto 13) ;;
      bra_c ;;
      checked slice_del ;;
      m_keep <- get_m ;;
      ket_c ;;
      label 14 (
        label 15 (
          m4 <- get_m ;;
          label 16 (
            routine r_mark_DUr (goto 16) ;;
            goto 15) ;;
          c_from_l m4 ;;
          label 17 (
            routine r_mark_yDU (goto 17) ;;
            goto 15) ;;
          c_from_l m4 ;;
          label 18 (
            routine r_mark_ysA (goto 18) ;;
            goto 15) ;;
          c_from_l m4 ;;
          routine r_mark_ymUs_ (c_from_l m_keep ;; goto 14))) ;;
      put_B 0 0 ;;
      goto 0) ;;
    c_from_l m1 ;;
    label 19 (
      routine r_mark_nUz (goto 19) ;;
      label 20 (
        m5 <- get_m ;;
        label 21 (
          routine r_mark_yDU (goto 21) ;;
          goto 20) ;;
        c_from_l m5 ;;
        routine r_mark_ysA (goto 19)) ;;
      goto 0) ;;
    c_from_l m1 ;;
    label 22 (
      label 23 (
        m6 <- get_m ;;
        label 24 (
          routine r_mark_sUnUz (goto 24) ;;
          goto 23) ;;
        c_from_l m6 ;;
        label 25 (
          routine r_mark_yUz (goto 25) ;;
          goto 23) ;;
        c_from_l m6 ;;
        label 26 (
          routine r_mark_sUn (goto 26) ;;
          goto 23) ;;
        c_from_l m6 ;;
        routine r_mark_yUm (goto 22)) ;;
      bra_c ;;
      checked slice_del ;;
      m_keep <- get_m ;;
      ket_c ;;
      label 27 (
        routine r_mark_ymUs_ (c_from_l m_keep ;; goto 27)) ;;
      goto 0) ;;
    c_from_l m1 ;;
    routine r_mark_DUr (creturn 0) ;;
    bra_c ;;
    checked slice_del ;;
    m_keep <- get_m ;;
    ket_c ;;
    label 29 (
      m7 <- get_m ;;
      label 30 (
        routine r_mark_sUnUz (goto 30) ;;
        goto 29) ;;
      c_from_l m7 ;;
      label 31 (
        routine r_mark_lAr (goto 31) ;;
        goto 29) ;;
      c_from_l m7 ;;
      label 32 (
        routine r_mark_yUm (goto 32) ;;
        goto 29) ;;
      c_from_l m7 ;;
      label 33 (
        routine r_mark_sUn (goto 33) ;;
        goto 29) ;;
      c_from_l m7 ;;
      label 34 (
        routine r_mark_yUz (goto 34) ;;
        goto 29) ;;
      c_from_l m7) ;;
    label 28 (
      routine r_mark_ymUs_ (c_from_l m_keep ;; goto 28))) ;;
  bra_c ;;
  checked slice_del ;;
  creturn 1).

(** [r_stem_suffix_chain_before_ki] calls itself; [fuel] bounds the depth. *)
Fixpoint stem_suffix_chain_before_ki_n (fuel : nat) : cfunc :=
  match fuel with
  | O => fun _ => None
  | S fuel => cfun (
      ket_c ;;
      routine r_mark_ki (creturn 0) ;;
      label 0 (
        m1 <- get_m ;;
        label 1 (
          routine r_mark_DA (goto 1) ;;
          bra_c ;;
          checked slice_del ;;
          m_keep <- get_m ;;
          ket_c ;;
          label 2 (
            label 3 (
              m2 <- get_m ;;
              label 4 (
                routine r_mark_lAr (goto 4) ;;
                bra_c ;;
                checked slice_del ;;
                m_keep_ <- get_m ;;
                label 5 (
                  routine (stem_suffix_chain_before_ki_n fuel) (c_from_l m_keep_ ;; goto 5)) ;;
                goto 3) ;;
              c_from_l m2 ;;
              routine r_mark_possessives (c_from_l m_keep ;; goto 2) ;;
              bra_c ;;
              checked slice_del ;;
              m_keep_ <- get_m ;;
              ket_c ;;
              label 6 (
                routine r_mark_lAr (c_from_l m_keep_ ;; goto 6) ;;
                bra_c ;;
                checked slice_del ;;
                routine (stem_suffix_chain_before_ki_n fuel) (c_from_l m_keep_ ;; goto 6)))) ;;
          goto 0) ;;
        c_from_l m1 ;;
        label 7 (
          routine r_mark_nUn (goto 7) ;;
          bra_c ;;
          checked slice_del ;;
          m_keep <- get_m ;;
          ket_c ;;
          label 8 (
            label 9 (
              m3 <- get_m ;;
              label 10 (
                routine r_mark_lArI (goto 10) ;;
                bra_c ;;
                checked slice_del ;;
                goto 9) ;;
              c_from_l m3 ;;
              ket_c ;;
              label 11 (
                label 12 (
                  m4 <- get_m ;;
                  label 13 (
                    routine r_mark_possessives (goto 13) ;;
                    goto 12) ;;
                  c_from_l m4 ;;
                  routine r_mark_sU (goto 11)) ;;
                bra_c ;;
                checked slice_del ;;
                m_keep_ <- get_m ;;
                ket_c ;;
                label 14 (
                  routine r_mark_lAr (c_from_l m_keep_ ;; goto 14) ;;
                  bra_c ;;
                  checked slice_del ;;
                  routine (stem_suffix_chain_before_ki_n fuel) (c_from_l m_keep_ ;; goto 14)) ;;
                goto 9) ;;
              c_from_l m3 ;;
              routine (stem_suffix_chain_before_ki_n fuel) (c_from_l m_keep ;; goto 8))) ;;
          goto 0) ;;
        c_from_l m1 ;;
        routine r_mark_ndA (creturn 0) ;;
        label 15 (
          m5 <- get_m ;;
          label 16 (
            routine r_mark_lArI (goto 16) ;;
            bra_c ;;
            checked slice_del ;;
            goto 15) ;;
          c_from_l m5 ;;
          label 17 (
            routine r_mark_sU (goto 17) ;;
            bra_c ;;
            checked slice_del ;;
            m_keep <- get_m ;;
            ket_c ;;
            label 18 (
              routine r_mark_lAr (c_from_l m_keep ;; goto 18) ;;
              bra_c ;;
              checked slice_del ;;
              routine (stem_suffix_chain_before_ki_n fuel) (c_from_l m_keep ;; goto 18)) ;;
            goto 15) ;;
          c_from_l m5 ;;
          routine (stem_suffix_chain_before_ki_n fuel) (creturn 0))) ;;
      creturn 1)
  end.

(** Each level is at least two symbols to the left. *)
Definition r_stem_suffix_chain_before_ki : cfunc := fun z => stem_suffix_chain_before_ki_n (S (Z.to_nat (sn_l z))) z.

Definition r_stem_noun_suffixes : cfunc := cfun (
  label 0 (
    m1 <- get_m ;;
    ket_c ;;
    label 1 (
      routine r_mark_lAr (goto 1) ;;
      bra_c ;;
      checked slice_del ;;
      m_keep <- get_m ;;
      label 2 (
        routine r_stem_suffix_chain_before_ki (c_from_l m_keep ;; goto 2)) ;;
      goto 0) ;;
    c_from_l m1 ;;
    ket_c ;;
    label 3 (
      routine r_mark_ncA (goto 3) ;;
      bra_c ;;
      checked slice_del ;;
      m_keep <- get_m ;;
      label 4 (
        label 5 (
          m2 <- get_m ;;
          ket_c ;;
          label 6 (
            routine r_mark_lArI (goto 6) ;;
            bra_c ;;
            checked slice_del ;;
            goto 5) ;;
          c_from_l m2 ;;
          ket_c ;;
          label 7 (
            label 8 (
              m3 <- get_m ;;
              label 9 (
                routine r_mark_possessives (goto 9) ;;
                goto 8) ;;
              c_from_l m3 ;;
              routine r_mark_sU (goto 7)) ;;
            bra_c ;;
            checked slice_del ;;
            m_keep_ <- get_m ;;
            ket_c ;;
            label 10 (
              routine r_mark_lAr (c_from_l m_keep_ ;; goto 10) ;;
              bra_c ;;
              checked slice_del ;;
              routine r_stem_suffix_chain_before_ki (c_from_l m_keep_ ;; goto 10)) ;;
            goto 5) ;;
          c_from_l m2 ;;
          ket_c ;;
          routine r_mark_lAr (c_from_l m_keep ;; goto 4) ;;
          bra_c ;;
          checked slice_del ;;
          routine r_stem_suffix_chain_before_ki (c_from_l m_keep ;; goto 4))) ;;
      goto 0) ;;
    c_from_l m1 ;;
    ket_c ;;
    label 11 (
      label 12 (
        m4 <- get_m ;;
        label 13 (
          routine r_mark_ndA (goto 13) ;;
          goto 12) ;;
        c_from_l m4 ;;
        routine r_mark_nA (goto 11)) ;;
      label 14 (
        m5 <- get_m ;;
        label 15 (
          routine r_mark_lArI (goto 15) ;;
          bra_c ;;
          checked slice_del ;;
          goto 14) ;;
        c_from_l m5 ;;
        label 16 (
          routine r_mark_sU (goto 16) ;;
          bra_c ;;
          checked slice_del ;;
          m_keep <- get_m ;;
          ket_c ;;
          label 17 (
            routine r_mark_lAr (c_from_l m_keep ;; goto 17) ;;
            bra_c ;;
            checked slice_del ;;
            routine r_stem_suffix_chain_before_ki (c_from_l m_keep ;; goto 17)) ;;
          goto 14) ;;
        c_from_l m5 ;;
        routine r_stem_suffix_chain_before_ki (goto 11)) ;;
      goto 0) ;;
    c_from_l m1 ;;
    ket_c ;;
    label 18 (
      label 19 (
        m6 <- get_m ;;
        label 20 (
          routine r_mark_ndAn (goto 20) ;;
          goto 19) ;;
        c_from_l m6 ;;
        routine r_mark_nU (goto 18)) ;;
      label 21 (
        m7 <- get_m ;;
        label 22 (
          routine r_mark_sU (goto 22) ;;
          bra_c ;;
          checked slice_del ;;
          m_keep <- get_m ;;
          ket_c ;;
          label 23 (
            routine r_mark_lAr (c_from_l m_keep ;; goto 23) ;;
            bra_c ;;
            checked slice_del ;;
            routine r_stem_suffix_chain_before_ki (c_from_l m_keep ;; goto 23)) ;;
          goto 21) ;;
        c_from_l m7 ;;
        routine r_mark_lArI (goto 18)) ;;
      goto 0) ;;
    c_from_l m1 ;;
    ket_c ;;
    label 24 (
      routine r_mark_DAn (goto 24) ;;
      bra_c ;;
      checked slice_del ;;
      m_keep <- get_m ;;
      ket_c ;;
      label 25 (
        label 26 (
          m8 <- get_m ;;
          label 27 (
            routine r_mark_possessives (goto 27) ;;
            bra_c ;;
            checked slice_del ;;
            m_keep_ <- get_m ;;
            ket_c ;;
            label 28 (
              routine r_mark_lAr (c_from_l m_keep_ ;; goto 28) ;;
              bra_c ;;
              checked slice_del ;;
              routine r_stem_suffix_chain_before_ki (c_from_l m_keep_ ;; goto 28)) ;;
            goto 26) ;;
          c_from_l m8 ;;
          label 29 (
            routine r_mark_lAr (goto 29) ;;
            bra_c ;;
            checked slice_del ;;
            m_keep_ <- get_m ;;
            label 30 (
              routine r_stem_suffix_chain_before_ki (c_from_l m_keep_ ;; goto 30)) ;;
            goto 26) ;;
          c_from_l m8 ;;
          routine r_stem_suffix_chain_before_ki (c_from_l m_keep ;; goto 25))) ;;
      goto 0) ;;
    c_from_l m1 ;;
    ket_c ;;
    label 31 (
      label 32 (
        m9 <- get_m ;;
        label 33 (
          routine r_mark_nUn (goto 33) ;;
          goto 32) ;;
        c_from_l m9 ;;
        routine r_mark_ylA (goto 31)) ;;
      bra_c ;;
      checked slice_del ;;
      m_keep <- get_m ;;
      label 34 (
        label 35 (
          m10 <- get_m ;;
          ket_c ;;
          label 36 (
            routine r_mark_lAr (goto 36) ;;
            bra_c ;;
            checked slice_del ;;
            routine r_stem_suffix_chain_before_ki (goto 36) ;;
            goto 35) ;;
          c_from_l m10 ;;
          ket_c ;;
          label 37 (
            label 38 (
              m11 <- get_m ;;
              label 39 (
                routine r_mark_possessives (goto 39) ;;
                goto 38) ;;
              c_from_l m11 ;;
              routine r_mark_sU (goto 37)) ;;
            bra_c ;;
            checked slice_del ;;
            m_keep_ <- get_m ;;
            ket_c ;;
            label 40 (
              routine r_mark_lAr (c_from_l m_keep_ ;; goto 40) ;;
              bra_c ;;
              checked slice_del ;;
              routine r_stem_suffix_chain_before_ki (c_from_l m_keep_ ;; goto 40)) ;;
            goto 35) ;;
          c_from_l m10 ;;
          routine r_stem_suffix_chain_before_ki (c_from_l m_keep ;; goto 34))) ;;
      goto 0) ;;
    c_from_l m1 ;;
    ket_c ;;
    label 41 (
      routine r_mark_lArI (goto 41) ;;
      bra_c ;;
      checked slice_del ;;
      goto 0) ;;
    c_from_l m1 ;;
    label 42 (
      routine r_stem_suffix_chain_before_ki (goto 42) ;;
      goto 0) ;;
    c_from_l m1 ;;
    ket_c ;;
    label 43 (
      label 44 (
        m12 <- get_m ;;
        label 45 (
          routine r_mark_DA (goto 45) ;;
          goto 44) ;;
        c_from_l m12 ;;
        label 46 (
          routine r_mark_yU (goto 46) ;;
          goto 44) ;;
        c_from_l m12 ;;
        routine r_mark_yA (goto 43)) ;;
      bra_c ;;
      checked slice_del ;;
      m_keep <- get_m ;;
      ket_c ;;
      label 47 (
        label 48 (
          m13 <- get_m ;;
          label 49 (
            routine r_mark_possessives (goto 49) ;;
            bra_c ;;
            checked slice_del ;;
            m_keep_ <- get_m ;;
            ket_c ;;
            label 50 (
              routine r_mark_lAr (c_from_l m_keep_ ;; goto 50)) ;;
            goto 48) ;;
          c_from_l m13 ;;
          routine r_mark_lAr (c_from_l m_keep ;; goto 47)) ;;
        bra_c ;;
        checked slice_del ;;
        ket_c ;;
        routine r_stem_suffix_chain_before_ki (c_from_l m_keep ;; goto 47)) ;;
      goto 0) ;;
    c_from_l m1 ;;
    ket_c ;;
    label 51 (
      m14 <- get_m ;;
      label 52 (
        routine r_mark_possessives (goto 52) ;;
        goto 51) ;;
      c_from_l m14 ;;
      routine r_mark_sU (creturn 0)) ;;
    bra_c ;;
    checked slice_del ;;
    m_keep <- get_m ;;
    ket_c ;;
    label 53 (
      routine r_mark_lAr (c_from_l m_keep ;; goto 53) ;;
      bra_c ;;
      checked slice_del ;;
      routine r_stem_suffix_chain_before_ki (c_from_l m_keep ;; goto 53))) ;;
  creturn 1).

Definition r_post_process_last_consonants : cfunc := cfun (
  ket_c ;;
  among_var <- call (find_among_b a_23 4) ;;
  when (among_var =? 0) (creturn 0) ;;
  bra_c ;;
  switch among_var
    [ (0, creturn 0);
      (1, checked (slice_from_s 1 (sy s_16)));
      (2, checked (slice_from_s 2 (sy s_17)));
      (3, checked (slice_from_s 1 (sy s_18)));
      (4, checked (slice_from_s 1 (sy s_19))) ] ;;
  creturn 1).

Definition r_append_U_to_stems_ending_with_d_or_g : cfunc := cfun (
  m_test <- get_m ;;
  label 0 (
    m1 <- get_m ;;
    label 1 (
      unless_call (eq_s_b 1 (sy s_20)) (goto 1) ;;
      goto 0) ;;
    c_from_l m1 ;;
    unless_call (eq_s_b 1 (sy s_21)) (creturn 0)) ;;
  c_from_l m_test ;;
  label 2 (
    m2 <- get_m ;;
    label 3 (
      m_test <- get_m ;;
      neg_call (out_grouping_b_U g_vowel 97 305 1) (goto 3) ;;
      label 4 (
        m3 <- get_m ;;
        label 5 (
          unless_call (eq_s_b 1 (sy s_22)) (goto 5) ;;
          goto 4) ;;
        c_from_l m3 ;;
        unless_call (eq_s_b 2 (sy s_23)) (goto 3)) ;;
      c_from_l m_test ;;
      insert_here 2 s_24 ;;
      goto 2) ;;
    c_from_l m2 ;;
    label 6 (
      m_test <- get_m ;;
      neg_call (out_grouping_b_U g_vowel 97 305 1) (goto 6) ;;
      label 7 (
        m4 <- get_m ;;
        label 8 (
          unless_call (eq_s_b 1 (sy s_25)) (goto 8) ;;
          goto 7) ;;
        c_from_l m4 ;;
        unless_call (eq_s_b 1 (sy s_26)) (goto 6)) ;;
      c_from_l m_test ;;
      insert_here 1 s_27 ;;
      goto 2) ;;
    c_from_l m2 ;;
    label 9 (
      m_test <- get_m ;;
      neg_call (out_grouping_b_U g_vowel 97 305 1) (goto 9) ;;
      label 10 (
        m5 <- get_m ;;
        label 11 (
          unless_call (eq_s_b 1 (sy s_28)) (goto 11) ;;
          goto 10) ;;
        c_from_l m5 ;;
        unless_call (eq_s_b 1 (sy s_29)) (goto 9)) ;;
      c_from_l m_test ;;
      insert_here 1 s_30 ;;
      goto 2) ;;
    c_from_l m2 ;;
    m_test <- get_m ;;
    neg_call (out_grouping_b_U g_vowel 97 305 1) (creturn 0) ;;
    label 12 (
      m6 <- get_m ;;
      label 13 (
        unless_call (eq_s_b 2 (sy s_31)) (goto 13) ;;
        goto 12) ;;
      c_from_l m6 ;;
      unless_call (eq_s_b 2 (sy s_32)) (creturn 0)) ;;
    c_from_l m_test ;;
    insert_here 2 s_33) ;;
  creturn 1).

Definition r_more_than_one_syllable_word : cfunc := cfun (
  c_test <- get sn_c ;;
  atleast_past 2 (out_grouping_U g_vowel 97 305 1) ;;
  c_is c_test ;;
  creturn 1).

Definition r_is_reserved_word : cfunc := cfun (
  label 0 (
    c1 <- get sn_c ;;
    label 1 (
      c_test <- get sn_c ;;
      loop (
        label 2 (
          unless_call (eq_s 2 (sy s_34)) (goto 2) ;;
          brk) ;;
        next_utf8 1 (goto 1)) ;;
      put_I 0 2 ;;
      i <- get_I 0 ;;
      l <- get sn_l ;;
      when (negb (i =? l)) (goto 1) ;;
      c_is c_test ;;
      goto 0) ;;
    c_is c1 ;;
    c_test <- get sn_c ;;
    loop (
      label 3 (
        unless_call (eq_s 5 (sy s_35)) (goto 3) ;;
        brk) ;;
      next_utf8 1 (creturn 0)) ;;
    put_I 0 5 ;;
    i <- get_I 0 ;;
    l <- get sn_l ;;
    when (negb (i =? l)) (creturn 0) ;;
    c_is c_test) ;;
  creturn 1).

Definition r_postlude : cfunc := cfun (
  c1 <- get sn_c ;;
  label 0 (
    routine r_is_reserved_word (goto 0) ;;
    creturn 0) ;;
  c_is c1 ;;
  put (fun z => set_lb (sn_c z) z) ;;
  put (fun z => set_c (sn_l z) z) ;;
  do_b 1 r_append_U_to_stems_ending_with_d_or_g ;;
  do_b 2 r_post_process_last_consonants ;;
  put (fun z => set_c (sn_lb z) z) ;;
  creturn 1).

Definition turkish_UTF_8_stem : cfunc := cfun (
  routine r_more_than_one_syllable_word (creturn 0) ;;
  put (fun z => set_lb (sn_c z) z) ;;
  put (fun z => set_c (sn_l z) z) ;;
  do_b 0 r_stem_nominal_verb_suffixes ;;
  y <- get_B 0 ;;
  when (y =? 0) (creturn 0) ;;
  do_b 1 r_stem_noun_suffixes ;;
  put (fun z => set_c (sn_lb z) z) ;;
  routine r_postlude (creturn 0) ;;
  creturn 1).

Definition turkish_UTF_8_create_env : option (option SN_env) := SN_create_env 0 1 1.
Definition turkish_UTF_8_close_env (z : option SN_env) : option unit := SN_close_env z 0.
End Routines.

(** ** Safety of every routine *)
Section Safety.
Context `{CHeap} (k L : Z).
Abbreviation St := (st k L 1 1).
Abbreviation back_ok := (back_ok k L 1 1).

Lemma tr_check_vowel_harmony_ok : back_ok r_check_vowel_harmony.
Proof. intros w z S. unfold r_check_vowel_harmony. back_code; back_done. Qed.

Lemma tr_mark_suffix_with_optional_n_consonant_ok : back_ok r_mark_suffix_with_optional_n_consonant.
Proof. intros w z S. unfold r_mark_suffix_with_optional_n_consonant. repeat wp_step; back_done. Qed.

Lemma tr_mark_suffix_with_optional_s_consonant_ok : back_ok r_mark_suffix_with_optional_s_consonant.
Proof. intros w z S. unfold r_mark_suffix_with_optional_s_consonant. repeat wp_step; back_done. Qed.

Lemma tr_mark_suffix_with_optional_y_consonant_ok : back_ok r_mark_suffix_with_optional_y_consonant.
Proof. intros w z S. unfold r_mark_suffix_with_optional_y_consonant. repeat wp_step; back_done. Qed.

Lemma tr_mark_suffix_with_optional_U_vowel_ok : back_ok r_mark_suffix_with_optional_U_vowel.
Proof. intros w z S. unfold r_mark_suffix_with_optional_U_vowel. repeat wp_step; back_done. Qed.

Ltac routine_rule ::=
  lazymatch goal with
  | |- returns r_check_vowel_harmony _ _ => eapply returns_mono; [eapply tr_check_vowel_harmony_ok; st_solve|intros ? ? (? & ? & -> & ?)]
  | |- returns r_mark_suffix_with_optional_n_consonant _ _ => eapply returns_mono; [eapply tr_mark_suffix_with_optional_n_consonant_ok; st_solve|intros ? ? (? & ? & -> & ?)]
  | |- returns r_mark_suffix_with_optional_s_consonant _ _ => eapply returns_mono; [eapply tr_mark_suffix_with_optional_s_consonant_ok; st_solve|intros ? ? (? & ? & -> & ?)]
  | |- returns r_mark_suffix_with_optional_y_consonant _ _ => eapply returns_mono; [eapply tr_mark_suffix_with_optional_y_consonant_ok; st_solve|intros ? ? (? & ? & -> & ?)]
  | |- returns r_mark_suffix_with_optional_U_vowel _ _ => eapply returns_mono; [eapply tr_mark_suffix_with_optional_U_vowel_ok; st_solve|intros ? ? (? & ? & -> & ?)]
  end.

Lemma tr_mark_possessives_ok : back_ok r_mark_possessives.
Proof. intros w z S. unfold r_mark_possessives. repeat wp_step; back_done. Qed.

Lemma tr_mark_sU_ok : back_ok r_mark_sU.
Proof. intros w z S. unfold r_mark_sU. repeat wp_step; back_done. Qed.

Lemma tr_mark_lArI_ok : back_ok r_mark_lArI.
Proof. intros w z S. unfold r_mark_lArI. repeat wp_step; back_done. Qed.

Lemma tr_mark_yU_ok : back_ok r_mark_yU.
Proof. intros w z S. unfold r_mark_yU. repeat wp_step; back_done. Qed.

Lemma tr_mark_nU_ok : back_ok r_mark_nU.
Proof. intros w z S. unfold r_mark_nU. repeat wp_step; back_done. Qed.

Lemma tr_mark_nUn_ok : back_ok r_mark_nUn.
Proof. intros w z S. unfold r_mark_nUn. repeat wp_step; back_done. Qed.

Lemma tr_mark_yA_ok : back_ok r_mark_yA.
Proof. intros w z S. unfold r_mark_yA. repeat wp_step; back_done. Qed.

Lemma tr_mark_nA_ok : back_ok r_mark_nA.
Proof. intros w z S. unfold r_mark_nA. repeat wp_step; back_done. Qed.

Lemma tr_mark_DA_ok : back_ok r_mark_DA.
Proof. intros w z S. unfold r_mark_DA. repeat wp_step; back_done. Qed.

Lemma tr_mark_ndA_ok : back_ok r_mark_ndA.
Proof. intros w z S. unfold r_mark_ndA. repeat wp_step; back_done. Qed.

Lemma tr_mark_DAn_ok : back_ok r_mark_DAn.
Proof. intros w z S. unfold r_mark_DAn. repeat wp_step; back_done. Qed.

Lemma tr_mark_ndAn_ok : back_ok r_mark_ndAn.
Proof. intros w z S. unfold r_mark_ndAn. repeat wp_step; back_done. Qed.

Lemma tr_mark_ylA_ok : back_ok r_mark_ylA.
Proof. intros w z S. unfold r_mark_ylA. repeat wp_step; back_done. Qed.

Lemma tr_mark_ki_ok : back_ok r_mark_ki.
Proof. intros w z S. unfold r_mark_ki. repeat wp_step; back_done. Qed.

Lemma tr_mark_ncA_ok : back_ok r_mark_ncA.
Proof. intros w z S. unfold r_mark_ncA. repeat wp_step; back_done. Qed.

Lemma tr_mark_yUm_ok : back_ok r_mark_yUm.
Proof. intros w z S. unfold r_mark_yUm. repeat wp_step; back_done. Qed.

Lemma tr_mark_sUn_ok : back_ok r_mark_sUn.
Proof. intros w z S. unfold r_mark_sUn. repeat wp_step; back_done. Qed.

Lemma tr_mark_yUz_ok : back_ok r_mark_yUz.
Proof. intros w z S. unfold r_mark_yUz. repeat wp_step; back_done. Qed.

Lemma tr_mark_sUnUz_ok : back_ok r_mark_sUnUz.
Proof. intros w z S. unfold r_mark_sUnUz. repeat wp_step; back_done. Qed.

Lemma tr_mark_lAr_ok : back_ok r_mark_lAr.
Proof. intros w z S. unfold r_mark_lAr. repeat wp_step; back_done. Qed.

Lemma tr_mark_nUz_ok : back_ok r_mark_nUz.
Proof. intros w z S. unfold r_mark_nUz. repeat wp_step; back_done. Qed.

Lemma tr_mark_DUr_ok : back_ok r_mark_DUr.
Proof. intros w z S. unfold r_mark_DUr. repeat wp_step; back_done. Qed.

Lemma tr_mark_cAsInA_ok : back_ok r_mark_cAsInA.
Proof. intros w z S. unfold r_mark_cAsInA. repeat wp_step; back_done. Qed.

Lemma tr_mark_yDU_ok : back_ok r_mark_yDU.
Proof. intros w z S. unfold r_mark_yDU. repeat wp_step; back_done. Qed.

Lemma tr_mark_ysA_ok : back_ok r_mark_ysA.
Proof. intros w z S. unfold r_mark_ysA. repeat wp_step; back_done. Qed.

Lemma tr_mark_ymUs__ok : back_ok r_mark_ymUs_.
Proof. intros w z S. unfold r_mark_ymUs_. repeat wp_step; back_done. Qed.

Lemma tr_mark_yken_ok : back_ok r_mark_yken.
Proof. intros w z S. unfold r_mark_yken. repeat wp_step; back_done. Qed.

Ltac routine_rule ::=
  lazymatch goal with
  | |- returns r_check_vowel_harmony _ _ => eapply returns_mono; [eapply tr_check_vowel_harmony_ok; st_solve|intros ? ? (? & ? & -> & ?)]
  | |- returns r_mark_suffix_with_optional_n_consonant _ _ => eapply returns_mono; [eapply tr_mark_suffix_with_optional_n_consonant_ok; st_solve|intros ? ? (? & ? & -> & ?)]
  | |- returns r_mark_suffix_with_optional_s_consonant _ _ => eapply returns_mono; [eapply tr_mark_suffix_with_optional_s_consonant_ok; st_solve|intros ? ? (? & ? & -> & ?)]
  | |- returns r_mark_suffix_with_optional_y_consonant _ _ => eapply returns_mono; [eapply tr_mark_suffix_with_optional_y_consonant_ok; st_solve|intros ? ? (? & ? & -> & ?)]
  | |- returns r_mark_suffix_with_optional_U_vowel _ _ => eapply returns_mono; [eapply tr_mark_suffix_with_optional_U_vowel_ok; st_solve|intros ? ? (? & ? & -> & ?)]
  | |- returns r_mark_possessives _ _ => eapply returns_mono; [eapply tr_mark_possessives_ok; st_solve|intros ? ? (? & ? & -> & ?)]
  | |- returns r_mark_sU _ _ => eapply returns_mono; [eapply tr_mark_sU_ok; st_solve|intros ? ? (? & ? & -> & ?)]
  | |- returns r_mark_lArI _ _ => eapply returns_mono; [eapply tr_mark_lArI_ok; st_solve|intros ? ? (? & ? & -> & ?)]
  | |- returns r_mark_yU _ _ => eapply returns_mono; [eapply tr_mark_yU_ok; st_solve|intros ? ? (? & ? & -> & ?)]
  | |- returns r_mark_nU _ _ => eapply returns_mono; [eapply tr_mark_nU_ok; st_solve|intros ? ? (? & ? & -> & ?)]
  | |- returns r_mark_nUn _ _ => eapply returns_mono; [eapply tr_mark_nUn_ok; st_solve|intros ? ? (? & ? & -> & ?)]
  | |- returns r_mark_yA _ _ => eapply returns_mono; [eapply tr_mark_yA_ok; st_solve|intros ? ? (? & ? & -> & ?)]
  | |- returns r_mark_nA _ _ => eapply returns_mono; [eapply tr_mark_nA_ok; st_solve|intros ? ? (? & ? & -> & ?)]
  | |- returns r_mark_DA _ _ => eapply returns_mono; [eapply tr_mark_DA_ok; st_solve|intros ? ? (? & ? & -> & ?)]
  | |- returns r_mark_ndA _ _ => eapply returns_mono; [eapply tr_mark_ndA_ok; st_solve|intros ? ? (? & ? & -> & ?)]
  | |- returns r_mark_DAn _ _ => eapply returns_mono; [eapply tr_mark_DAn_ok; st_solve|intros ? ? (? & ? & -> & ?)]
  | |- returns r_mark_ndAn _ _ => eapply returns_mono; [eapply tr_mark_ndAn_ok; st_solve|intros ? ? (? & ? & -> & ?)]
  | |- returns r_mark_ylA _ _ => eapply returns_mono; [eapply tr_mark_ylA_ok; st_solve|intros ? ? (? & ? & -> & ?)]
  | |- returns r_mark_ki _ _ => eapply returns_mono; [eapply tr_mark_ki_ok; st_solve|intros ? ? (? & ? & -> & ?)]
  | |- returns r_mark_ncA _ _ => eapply returns_mono; [eapply tr_mark_ncA_ok; st_solve|intros ? ? (? & ? & -> & ?)]
  | |- returns r_mark_yUm _ _ => eapply returns_mono; [eapply tr_mark_yUm_ok; st_solve|intros ? ? (? & ? & -> & ?)]
  | |- returns r_mark_sUn _ _ => eapply returns_mono; [eapply tr_mark_sUn_ok; st_solve|intros ? ? (? & ? & -> & ?)]
  | |- returns r_mark_yUz _ _ => eapply returns_mono; [eapply tr_mark_yUz_ok; st_solve|intros ? ? (? & ? & -> & ?)]
  | |- returns r_mark_sUnUz _ _ => eapply returns_mono; [eapply tr_mark_sUnUz_ok; st_solve|intros ? ? (? & ? & -> & ?)]
  | |- returns r_mark_lAr _ _ => eapply returns_mono; [eapply tr_mark_lAr_ok; st_solve|intros ? ? (? & ? & -> & ?)]
  | |- returns r_mark_nUz _ _ => eapply returns_mono; [eapply tr_mark_nUz_ok; st_solve|intros ? ? (? & ? & -> & ?)]
  | |- returns r_mark_DUr _ _ => eapply returns_mono; [eapply tr_mark_DUr_ok; st_solve|intros ? ? (? & ? & -> & ?)]
  | |- returns r_mark_cAsInA _ _ => eapply returns_mono; [eapply tr_mark_cAsInA_ok; st_solve|intros ? ? (? & ? & -> & ?)]
  | |- returns r_mark_yDU _ _ => eapply returns_mono; [eapply tr_mark_yDU_ok; st_solve|intros ? ? (? & ? & -> & ?)]
  | |- returns r_mark_ysA _ _ => eapply returns_mono; [eapply tr_mark_ysA_ok; st_solve|intros ? ? (? & ? & -> & ?)]
  | |- returns r_mark_ymUs_ _ _ => eapply returns_mono; [eapply tr_mark_ymUs__ok; st_solve|intros ? ? (? & ? & -> & ?)]
  | |- returns r_mark_yken _ _ => eapply returns_mono; [eapply tr_mark_yken_ok; st_solve|intros ? ? (? & ? & -> & ?)]
  end.

Ltac tail_labels ps ts :=
  let ps := eval compute in (ps : list nat) in let ts := eval compute in (ts : list nat) in tail_code ps ts.

Lemma tr_stem_nominal_verb_suffixes_ok : tail_ok k L 1 1 r_stem_nominal_verb_suffixes.
Proof. intros w z S. unfold r_stem_nominal_verb_suffixes. tail_labels (seq 1 27 ++ seq 29 6)%list ([] : list nat). Qed.

Lemma tr_ki_ok w z : St w z ->
  returns r_mark_ki z (fun v z' => (v = 0 /\ z' = z) \/ (v = 1 /\ z' = set_c (sn_c z - 2) z /\ sn_lb z <= sn_c z - 2)).
Proof. intros S. unfold r_mark_ki. repeat wp_step; auto. Qed.

Ltac routine_rule ::=
  lazymatch goal with
  | |- returns r_check_vowel_harmony _ _ => eapply returns_mono; [eapply tr_check_vowel_harmony_ok; st_solve|intros ? ? (? & ? & -> & ?)]
  | |- returns r_mark_suffix_with_optional_n_consonant _ _ => eapply returns_mono; [eapply tr_mark_suffix_with_optional_n_consonant_ok; st_solve|intros ? ? (? & ? & -> & ?)]
  | |- returns r_mark_suffix_with_optional_s_consonant _ _ => eapply returns_mono; [eapply tr_mark_suffix_with_optional_s_consonant_ok; st_solve|intros ? ? (? & ? & -> & ?)]
  | |- returns r_mark_suffix_with_optional_y_consonant _ _ => eapply returns_mono; [eapply tr_mark_suffix_with_optional_y_consonant_ok; st_solve|intros ? ? (? & ? & -> & ?)]
  | |- returns r_mark_suffix_with_optional_U_vowel _ _ => eapply returns_mono; [eapply tr_mark_suffix_with_optional_U_vowel_ok; st_solve|intros ? ? (? & ? & -> & ?)]
  | |- returns r_mark_possessives _ _ => eapply returns_mono; [eapply tr_mark_possessives_ok; st_solve|intros ? ? (? & ? & -> & ?)]
  | |- returns r_mark_sU _ _ => eapply returns_mono; [eapply tr_mark_sU_ok; st_solve|intros ? ? (? & ? & -> & ?)]
  | |- returns r_mark_lArI _ _ => eapply returns_mono; [eapply tr_mark_lArI_ok; st_solve|intros ? ? (? & ? & -> & ?)]
  | |- returns r_mark_yU _ _ => eapply returns_mono; [eapply tr_mark_yU_ok; st_solve|intros ? ? (? & ? & -> & ?)]
  | |- returns r_mark_nU _ _ => eapply returns_mono; [eapply tr_mark_nU_ok; st_solve|intros ? ? (? & ? & -> & ?)]
  | |- returns r_mark_nUn _ _ => eapply returns_mono; [eapply tr_mark_nUn_ok; st_solve|intros ? ? (? & ? & -> & ?)]
  | |- returns r_mark_yA _ _ => eapply returns_mono; [eapply tr_mark_yA_ok; st_solve|intros ? ? (? & ? & -> & ?)]
  | |- returns r_mark_nA _ _ => eapply returns_mono; [eapply tr_mark_nA_ok; st_solve|intros ? ? (? & ? & -> & ?)]
  | |- returns r_mark_DA _ _ => eapply returns_mono; [eapply tr_mark_DA_ok; st_solve|intros ? ? (? & ? & -> & ?)]
  | |- returns r_mark_ndA _ _ => eapply returns_mono; [eapply tr_mark_ndA_ok; st_solve|intros ? ? (? & ? & -> & ?)]
  | |- returns r_mark_DAn _ _ => eapply returns_mono; [eapply tr_mark_DAn_ok; st_solve|intros ? ? (? & ? & -> & ?)]
  | |- returns r_mark_ndAn _ _ => eapply returns_mono; [eapply tr_mark_ndAn_ok; st_solve|intros ? ? (? & ? & -> & ?)]
  | |- returns r_mark_ylA _ _ => eapply returns_mono; [eapply tr_mark_ylA_ok; st_solve|intros ? ? (? & ? & -> & ?)]
  | |- returns r_mark_ki _ _ => eapply returns_mono; [eapply tr_mark_ki_ok; st_solve|intros ? ? (? & ? & -> & ?)]
  | |- returns r_mark_ncA _ _ => eapply returns_mono; [eapply tr_mark_ncA_ok; st_solve|intros ? ? (? & ? & -> & ?)]
  | |- returns r_mark_yUm _ _ => eapply returns_mono; [eapply tr_mark_yUm_ok; st_solve|intros ? ? (? & ? & -> & ?)]
  | |- returns r_mark_sUn _ _ => eapply returns_mono; [eapply tr_mark_sUn_ok; st_solve|intros ? ? (? & ? & -> & ?)]
  | |- returns r_mark_yUz _ _ => eapply returns_mono; [eapply tr_mark_yUz_ok; st_solve|intros ? ? (? & ? & -> & ?)]
  | |- returns r_mark_sUnUz _ _ => eapply returns_mono; [eapply tr_mark_sUnUz_ok; st_solve|intros ? ? (? & ? & -> & ?)]
  | |- returns r_mark_lAr _ _ => eapply returns_mono; [eapply tr_mark_lAr_ok; st_solve|intros ? ? (? & ? & -> & ?)]
  | |- returns r_mark_nUz _ _ => eapply returns_mono; [eapply tr_mark_nUz_ok; st_solve|intros ? ? (? & ? & -> & ?)]
  | |- returns r_mark_DUr _ _ => eapply returns_mono; [eapply tr_mark_DUr_ok; st_solve|intros ? ? (? & ? & -> & ?)]
  | |- returns r_mark_cAsInA _ _ => eapply returns_mono; [eapply tr_mark_cAsInA_ok; st_solve|intros ? ? (? & ? & -> & ?)]
  | |- returns r_mark_yDU _ _ => eapply returns_mono; [eapply tr_mark_yDU_ok; st_solve|intros ? ? (? & ? & -> & ?)]
  | |- returns r_mark_ysA _ _ => eapply returns_mono; [eapply tr_mark_ysA_ok; st_solve|intros ? ? (? & ? & -> & ?)]
  | |- returns r_mark_ymUs_ _ _ => eapply returns_mono; [eapply tr_mark_ymUs__ok; st_solve|intros ? ? (? & ? & -> & ?)]
  | |- returns r_mark_yken _ _ => eapply returns_mono; [eapply tr_mark_yken_ok; st_solve|intros ? ? (? & ? & -> & ?)]
  | IH : forall w z, _ -> _ -> returns (?f ?n) z _ |- returns (?f ?n) _ _ => eapply returns_mono; [eapply IH; [st_solve|sn_cbn; sn_lia]|intros ? ? (? & ? & ? & ? & ? & ?)]
  end.

(** The cursor is at least two symbols further left in each recursive
    call. *)
Lemma tr_chain_ok fuel : forall w z, St w z -> (Z.to_nat (sn_c z - sn_lb z) < fuel)%nat ->
  returns (stem_suffix_chain_before_ki_n fuel) z (tail_post k L 1 1 z).
Proof.
  induction fuel as [|fuel IH]; intros w z S Hf; [lia|]. cbn [stem_suffix_chain_before_ki_n].
  do 4 wp_step. unfold routine. do 2 wp_step.
  eapply returns_mono; [eapply tr_ki_ok; st_solve|intros ? ? [(-> & ->)|(-> & -> & ?)]]; [by repeat wp_step; tail_done|].
  tail_labels [1; 4; 7; 10; 11; 12; 13; 16; 17]%nat ([] : list nat).
Qed.

Lemma tr_stem_suffix_chain_before_ki_ok : tail_ok k L 1 1 r_stem_suffix_chain_before_ki.
Proof. intros w z S. apply (tr_chain_ok _ w); [done|sn_lia]. Qed.

Ltac routine_rule ::=
  lazymatch goal with
  | |- returns r_check_vowel_harmony _ _ => eapply returns_mono; [eapply tr_check_vowel_harmony_ok; st_solve|intros ? ? (? & ? & -> & ?)]
  | |- returns r_mark_suffix_with_optional_n_consonant _ _ => eapply returns_mono; [eapply tr_mark_suffix_with_optional_n_consonant_ok; st_solve|intros ? ? (? & ? & -> & ?)]
  | |- returns r_mark_suffix_with_optional_s_consonant _ _ => eapply returns_mono; [eapply tr_mark_suffix_with_optional_s_consonant_ok; st_solve|intros ? ? (? & ? & -> & ?)]
  | |- returns r_mark_suffix_with_optional_y_consonant _ _ => eapply returns_mono; [eapply tr_mark_suffix_with_optional_y_consonant_ok; st_solve|intros ? ? (? & ? & -> & ?)]
  | |- returns r_mark_suffix_with_optional_U_vowel _ _ => eapply returns_mono; [eapply tr_mark_suffix_with_optional_U_vowel_ok; st_solve|intros ? ? (? & ? & -> & ?)]
  | |- returns r_mark_possessives _ _ => eapply returns_mono; [eapply tr_mark_possessives_ok; st_solve|intros ? ? (? & ? & -> & ?)]
  | |- returns r_mark_sU _ _ => eapply returns_mono; [eapply tr_mark_sU_ok; st_solve|intros ? ? (? & ? & -> & ?)]
  | |- returns r_mark_lArI _ _ => eapply returns_mono; [eapply tr_mark_lArI_ok; st_solve|intros ? ? (? & ? & -> & ?)]
  | |- returns r_mark_yU _ _ => eapply returns_mono; [eapply tr_mark_yU_ok; st_solve|intros ? ? (? & ? & -> & ?)]
  | |- returns r_mark_nU _ _ => eapply returns_mono; [eapply tr_mark_nU_ok; st_solve|intros ? ? (? & ? & -> & ?)]
  | |- returns r_mark_nUn _ _ => eapply returns_mono; [eapply tr_mark_nUn_ok; st_solve|intros ? ? (? & ? & -> & ?)]
  | |- returns r_mark_yA _ _ => eapply returns_mono; [eapply tr_mark_yA_ok; st_solve|intros ? ? (? & ? & -> & ?)]
  | |- returns r_mark_nA _ _ => eapply returns_mono; [eapply tr_mark_nA_ok; st_solve|intros ? ? (? & ? & -> & ?)]
  | |- returns r_mark_DA _ _ => eapply returns_mono; [eapply tr_mark_DA_ok; st_solve|intros ? ? (? & ? & -> & ?)]
  | |- returns r_mark_ndA _ _ => eapply returns_mono; [eapply tr_mark_ndA_ok; st_solve|intros ? ? (? & ? & -> & ?)]
  | |- returns r_mark_DAn _ _ => eapply returns_mono; [eapply tr_mark_DAn_ok; st_solve|intros ? ? (? & ? & -> & ?)]
  | |- returns r_mark_ndAn _ _ => eapply returns_mono; [eapply tr_mark_ndAn_ok; st_solve|intros ? ? (? & ? & -> & ?)]
  | |- returns r_mark_ylA _ _ => eapply returns_mono; [eapply tr_mark_ylA_ok; st_solve|intros ? ? (? & ? & -> & ?)]
  | |- returns r_mark_ki _ _ => eapply returns_mono; [eapply tr_mark_ki_ok; st_solve|intros ? ? (? & ? & -> & ?)]
  | |- returns r_mark_ncA _ _ => eapply returns_mono; [eapply tr_mark_ncA_ok; st_solve|intros ? ? (? & ? & -> & ?)]
  | |- returns r_mark_yUm _ _ => eapply returns_mono; [eapply tr_mark_yUm_ok; st_solve|intros ? ? (? & ? & -> & ?)]
  | |- returns r_mark_sUn _ _ => eapply returns_mono; [eapply tr_mark_sUn_ok; st_solve|intros ? ? (? & ? & -> & ?)]
  | |- returns r_mark_yUz _ _ => eapply returns_mono; [eapply tr_mark_yUz_ok; st_solve|intros ? ? (? & ? & -> & ?)]
  | |- returns r_mark_sUnUz _ _ => eapply returns_mono; [eapply tr_mark_sUnUz_ok; st_solve|intros ? ? (? & ? & -> & ?)]
  | |- returns r_mark_lAr _ _ => eapply returns_mono; [eapply tr_mark_lAr_ok; st_solve|intros ? ? (? & ? & -> & ?)]
  | |- returns r_mark_nUz _ _ => eapply returns_mono; [eapply tr_mark_nUz_ok; st_solve|intros ? ? (? & ? & -> & ?)]
  | |- returns r_mark_DUr _ _ => eapply returns_mono; [eapply tr_mark_DUr_ok; st_solve|intros ? ? (? & ? & -> & ?)]
  | |- returns r_mark_cAsInA _ _ => eapply returns_mono; [eapply tr_mark_cAsInA_ok; st_solve|intros ? ? (? & ? & -> & ?)]
  | |- returns r_mark_yDU _ _ => eapply returns_mono; [eapply tr_mark_yDU_ok; st_solve|intros ? ? (? & ? & -> & ?)]
  | |- returns r_mark_ysA _ _ => eapply returns_mono; [eapply tr_mark_ysA_ok; st_solve|intros ? ? (? & ? & -> & ?)]
  | |- returns r_mark_ymUs_ _ _ => eapply returns_mono; [eapply tr_mark_ymUs__ok; st_solve|intros ? ? (? & ? & -> & ?)]
  | |- returns r_mark_yken _ _ => eapply returns_mono; [eapply tr_mark_yken_ok; st_solve|intros ? ? (? & ? & -> & ?)]
  | |- returns r_stem_suffix_chain_before_ki _ _ => eapply returns_mono; [eapply tr_stem_suffix_chain_before_ki_ok; st_solve|intros ? ? (? & ? & ? & ? & ? & ?)]
  end.

Lemma tr_stem_noun_suffixes_ok : tail_ok k L 1 1 r_stem_noun_suffixes.
Proof.
  intros w z S. unfold r_stem_noun_suffixes.
  tail_labels [1; 3; 6; 7; 8; 9; 12; 13; 15; 16; 19; 20; 22; 24; 27; 29; 31; 32; 33; 37; 38; 39; 41; 43; 44; 45; 46; 49; 51; 52]%nat [11; 18; 36; 42]%nat.
Qed.

Lemma tr_post_process_last_consonants_ok : grow_by k L 1 1 1 r_post_process_last_consonants.
Proof. intros w z S Hc HL. unfold r_post_process_last_consonants. repeat wp_step; grow_done. Qed.

Lemma tr_append_U_ok : grow_by k L 1 1 2 r_append_U_to_stems_ending_with_d_or_g.
Proof.
  intros w z S Hc HL. unfold r_append_U_to_stems_ending_with_d_or_g.
  repeat search_step [0; 1; 3; 4; 5; 6; 7; 8; 9; 10; 11; 12; 13]%nat ([] : list nat); grow_done.
Qed.

Lemma tr_more_than_one_syllable_word_ok w z : St w z -> returns r_more_than_one_syllable_word z (fun v z' => 0 <= v /\ exists c, z' = set_c c z /\ sn_c z <= c <= sn_l z /\ (v <> 0 -> c = sn_c z)).
Proof.
  intros S. unfold r_more_than_one_syllable_word. repeat wp_step.
  eapply (atleast_past_ok _ _ _ _ 2 out_grouping_U); [apply out_grouping_U_ok|reflexivity|unfold INT_MAX; lia|st_solve| |];
    intros ? ?; repeat wp_step; (split; [lia|]); eexists; (split; [reflexivity|split; [sn_cbn; sn_lia|done || lia]]).
Qed.

Lemma tr_is_reserved_word_ok w z : St w z ->
  returns r_is_reserved_word z (fun v z' => 0 <= v /\ St w z' /\ sn_lb z' = sn_lb z /\ sn_l z' = sn_l z).
Proof.
  intros S. unfold r_is_reserved_word. repeat search_step [1]%nat ([] : list nat).
  all: eapply (seek_loop k L 1 1); [st_solve|intros ? ? ?; repeat wp_step].
  all: unfold same_word; split_and!; first [lia | st_solve | sn_cbn; sn_lia || congruence].
Qed.

Ltac post_done :=
  split; [lia|]; eexists; split_and!;
  [st_solve|first [left; sn_cbn; sn_lia || congruence | right; sn_cbn; sn_lia || congruence]|sn_cbn; sn_lia].

Lemma tr_postlude_ok w z : St w z -> sn_l z + 3 <= L ->
  returns r_postlude z (fun v z' => 0 <= v /\ exists w', St w' z' /\ (sn_lb z' = sn_lb z \/ sn_lb z' = sn_c z) /\ sn_l z' <= sn_l z + 3).
Proof.
  intros S HL. unfold r_postlude. repeat wp_step.
  eapply returns_mono; [eapply tr_is_reserved_word_ok; st_solve|intros v z1 (? & S1 & ? & ?)]. repeat wp_step; [|post_done..].
  eapply (do_b_grow k L 1 1 _ _ _ tr_append_U_ok); [st_solve|sn_cbn; sn_lia..|intros w2 z2 S2 ? ? ?; repeat wp_step].
  eapply (do_b_grow k L 1 1 _ _ _ tr_post_process_last_consonants_ok); [st_solve|sn_cbn; sn_lia..|intros w3 z3 S3 ? ? ?; repeat wp_step].
  post_done.
Qed.

Lemma tr_stem_ok w z : St w z -> sn_c z = 0 -> zlen w + 3 <= L ->
  returns turkish_UTF_8_stem z (fun v z' => 0 <= v <= 1 /\ exists w', St w' z' /\ (sn_lb z' = sn_lb z \/ sn_lb z' = 0) /\ zlen w' <= zlen w + 3).
Proof.
  intros S Hc HL. unfold turkish_UTF_8_stem. repeat wp_step.
  eapply returns_mono; [eapply tr_more_than_one_syllable_word_ok; st_solve|intros v z1 (? & c & -> & ? & Hv)]. repeat wp_step; [post_done|].
  rewrite (Hv ltac:(done)) in *.
  eapply (do_b_grow k L 1 1 _ _ _ (tail_grow _ _ _ _ _ tr_stem_nominal_verb_suffixes_ok)); [st_solve|sn_cbn; sn_lia..|intros w2 z2 S2 ? ? ?; repeat wp_step]; [post_done|].
  eapply (do_b_grow k L 1 1 _ _ _ (tail_grow _ _ _ _ _ tr_stem_noun_suffixes_ok)); [st_solve|sn_cbn; sn_lia..|intros w3 z3 S3 ? ? ?; repeat wp_step].
  eapply returns_mono; [eapply tr_postlude_ok; [st_solve|sn_cbn; sn_lia]|intros v4 z4 (? & w4 & S4 & ? & ?)]. repeat wp_step; post_done.
Qed.
End Safety.
