(* ===== verification/Danish.v ===== *)
(** * The Danish stemmer on UTF-8: [src_c/stem_UTF_8_danish.c]

    The generated C, statement for statement, and the proof that stemming is
    free of undefined behaviour, terminates and never lengthens the word. *)

From S2P Require Import Prelude SnEnv SnRuntime SnSpec SnAmong SnCode SnLoops SnStrings.

Open Scope sn_scope.

(** ** Tables *)
Definition a_0 : list among :=
  [ mk_among 3 (str "hed") (-1) 1 None; mk_among 5 (str "ethed") 0 1 None;
    mk_among 4 (str "ered") (-1) 1 None; mk_among 1 (str "e") (-1) 1 None;
    mk_among 5 (str "erede") 3 1 None; mk_among 4 (str "ende") 3 1 None;
    mk_among 6 (str "erende") 5 1 None; mk_among 3 (str "ene") 3 1 None;
    mk_among 4 (str "erne") 3 1 None; mk_among 3 (str "ere") 3 1 None;
    mk_among 2 (str "en") (-1) 1 None; mk_among 5 (str "heden") 10 1 None;
    mk_among 4 (str "eren") 10 1 None; mk_among 2 (str "er") (-1) 1 None;
    mk_among 5 (str "heder") 13 1 None; mk_among 4 (str "erer") 13 1 None;
    mk_among 1 (str "s") (-1) 2 None; mk_among 4 (str "heds") 16 1 None;
    mk_among 2 (str "es") 16 1 None; mk_among 5 (str "endes") 18 1 None;
    mk_among 7 (str "erendes") 19 1 None; mk_among 4 (str "enes") 18 1 None;
    mk_among 5 (str "ernes") 18 1 None; mk_among 4 (str "eres") 18 1 None;
    mk_among 3 (str "ens") 16 1 None; mk_among 6 (str "hedens") 24 1 None;
    mk_among 5 (str "erens") 24 1 None; mk_among 3 (str "ers") 16 1 None;
    mk_among 3 (str "ets") 16 1 None; mk_among 5 (str "erets") 28 1 None;
    mk_among 2 (str "et") (-1) 1 None; mk_among 4 (str "eret") 30 1 None ].

Definition a_1 : list among :=
  [ mk_among 2 (str "gd") (-1) (-1) None; mk_among 2 (str "dt") (-1) (-1) None;
    mk_among 2 (str "gt") (-1) (-1) None; mk_among 2 (str "kt") (-1) (-1) None ].

Definition a_2 : list among :=
  [ mk_among 2 (str "ig") (-1) 1 None; mk_among 3 (str "lig") 0 1 None;
    mk_among 4 (str "elig") 1 1 None; mk_among 3 (str "els") (-1) 1 None;
    mk_among 5 ([108; 195; 184; 115; 116]) (-1) 2 None ].

Definition g_v : list Z := [17; 65; 16; 1; 0; 0; 0; 0; 0; 0; 0; 0; 0; 0; 0; 0; 48; 0; 128].

Definition g_s_ending : list Z := [239; 254; 42; 3; 0; 0; 0; 0; 0; 0; 0; 0; 0; 0; 0; 0; 16].

Definition s_0 : list Z := str "st".
Definition s_1 : list Z := str "ig".
Definition s_2 : list Z := [108; 195; 184; 115].

(** ** Routines *)
Section Routines.
Context `{CHeap}.

Definition r_mark_regions : cfunc := cfun (
  l <- get sn_l ;;
  put_I 0 l ;;
  c_test <- get sn_c ;;
  next_utf8 3 (creturn 0) ;;
  c <- get sn_c ;;
  put_I 1 c ;;
  c_is c_test ;;
  neg_call (out_grouping_U g_v 97 248 1) (creturn 0) ;;
  gopast (in_grouping_U g_v 97 248 1) (creturn 0) ;;
  c <- get sn_c ;;
  put_I 0 c ;;
  label 0 (
    i <- get_I 0 ;;
    i' <- get_I 1 ;;
    when (negb (i <? i')) (goto 0) ;;
    i <- get_I 1 ;;
    put_I 0 i) ;;
  creturn 1).

Definition r_main_suffix : cfunc := cfun (
  m1 <- get_m ;;
  i <- get_I 0 ;;
  c <- get sn_c ;;
  when (c <? i) (creturn 0) ;;
  i <- get_I 0 ;;
  c_is i ;;
  mlimit <- get sn_lb ;;
  put (fun z => set_lb (sn_c z) z) ;;
  c_from_l m1 ;;
  ket_c ;;
  b <- pre_b 0 (not_masked 3 1851440) ;;
  when b (put (set_lb mlimit) ;; creturn 0) ;;
  among_var <- call (find_among_b a_0 32) ;;
  when (among_var =? 0) (put (set_lb mlimit) ;; creturn 0) ;;
  bra_c ;;
  put (set_lb mlimit) ;;
  switch among_var
    [ (0, creturn 0);
      (1, checked slice_del);
      (2, if_call (in_grouping_b_U g_s_ending 97 229 0) (creturn 0) ;;
          checked slice_del) ] ;;
  creturn 1).

Definition r_consonant_pair : cfunc := cfun (
  m_test <- get_m ;;
  m1 <- get_m ;;
  i <- get_I 0 ;;
  c <- get sn_c ;;
  when (c <? i) (creturn 0) ;;
  i <- get_I 0 ;;
  c_is i ;;
  mlimit <- get sn_lb ;;
  put (fun z => set_lb (sn_c z) z) ;;
  c_from_l m1 ;;
  ket_c ;;
  b <- pre_b 1 (fun ch => negb (ch =? 100) && negb (ch =? 116)) ;;
  when b (put (set_lb mlimit) ;; creturn 0) ;;
  unless_call (find_among_b a_1 4) (put (set_lb mlimit) ;; creturn 0) ;;
  bra_c ;;
  put (set_lb mlimit) ;;
  c_from_l m_test ;;
  prev_utf8 1 (creturn 0) ;;
  bra_c ;;
  checked slice_del ;;
  creturn 1).

Definition r_other_suffix : cfunc := cfun (
  m1 <- get_m ;;
  ket_c ;;
  label 0 (
    unless_call (eq_s_b 2 (sy s_0)) (goto 0) ;;
    bra_c ;;
    unless_call (eq_s_b 2 (sy s_1)) (goto 0) ;;
    checked slice_del) ;;
  c_from_l m1 ;;
  m2 <- get_m ;;
  i <- get_I 0 ;;
  c <- get sn_c ;;
  when (c <? i) (creturn 0) ;;
  i <- get_I 0 ;;
  c_is i ;;
  mlimit <- get sn_lb ;;
  put (fun z => set_lb (sn_c z) z) ;;
  c_from_l m2 ;;
  ket_c ;;
  b <- pre_b 1 (not_masked 3 1572992) ;;
  when b (put (set_lb mlimit) ;; creturn 0) ;;
  among_var <- call (find_among_b a_2 5) ;;
  when (among_var =? 0) (put (set_lb mlimit) ;; creturn 0) ;;
  bra_c ;;
  put (set_lb mlimit) ;;
  switch among_var
    [ (0, creturn 0);
      (1, checked slice_del ;;
          do_b 1 r_consonant_pair);
      (2, checked (slice_from_s 4 (sy s_2))) ] ;;
  creturn 1).

Definition r_undouble : cfunc := cfun (
  m1 <- get_m ;;
  i <- get_I 0 ;;
  c <- get sn_c ;;
  when (c <? i) (creturn 0) ;;
  i <- get_I 0 ;;
  c_is i ;;
  mlimit <- get sn_lb ;;
  put (fun z => set_lb (sn_c z) z) ;;
  c_from_l m1 ;;
  ket_c ;;
  if_call (out_grouping_b_U g_v 97 248 0) (put (set_lb mlimit) ;; creturn 0) ;;
  bra_c ;;
  slice_to_S 0 ;;
  put (set_lb mlimit) ;;
  unless_call (eq_v_b_S 0) (creturn 0) ;;
  checked slice_del ;;
  creturn 1).

Definition danish_UTF_8_stem : cfunc := cfun (
  do_f 0 r_mark_regions ;;
  put (fun z => set_lb (sn_c z) z) ;;
  put (fun z => set_c (sn_l z) z) ;;
  do_b 1 r_main_suffix ;;
  do_b 2 r_consonant_pair ;;
  do_b 3 r_other_suffix ;;
  do_b 4 r_undouble ;;
  put (fun z => set_c (sn_lb z) z) ;;
  creturn 1).

Definition danish_UTF_8_create_env : option (option SN_env) := SN_create_env 1 2 0.
Definition danish_UTF_8_close_env (z : option SN_env) : option unit := SN_close_env z 1.
End Routines.

(** ** Safety of every routine *)
Section Safety.
Context `{CHeap} (k L : Z).
Abbreviation St := (st k L 2 0).
Abbreviation step_ok := (step_at k L 2 0 0).
Abbreviation fwd_ok := (fwd_ok k L 2 0).

Lemma da_mark_regions_ok : fwd_ok r_mark_regions.
Proof. intros w z S. unfold r_mark_regions. read_code S; fwd_done. Qed.

Lemma da_main_suffix_ok : step_ok r_main_suffix.
Proof. intros w z S Hlb. unfold r_main_suffix. repeat wp_step; step_end. Qed.

Lemma da_consonant_pair_ok : step_ok r_consonant_pair.
Proof. intros w z S Hlb. unfold r_consonant_pair. repeat wp_step; step_end. Qed.

Lemma da_other_suffix_ok : step_from k L 2 0 0 r_other_suffix.
Proof.
  intros w z S Hlb Hc. unfold r_other_suffix. cut_code 0; try step_end.
  all: eapply (do_b_at k L 2 0 _ _ 0 da_consonant_pair_ok);
    [st_solve|sn_cbn; rewrite ?splice_c_bra in * by lia; sn_lia || congruence..|intros ? ? ? ? ?; repeat wp_step; step_end].
Qed.

Lemma da_undouble_ok : L + 21 <= INT_MAX -> string_ok k L 2 0 r_undouble.
Proof.
  intros HL w z S (b & Hb & Hl) Hlb Hc. unfold r_undouble. repeat wp_step; try string_end.
  eapply st_slice_to_S; [st_solve|svar_live|sn_cbn; sn_lia..|intros ? ? ? ? ? ? ? ? ? ? ?|intros ? ? ? ?]; repeat wp_step; try string_end.
  eapply returns_mono; [eapply st_eq_v_b_S; [st_solve|cbn; eassumption|eassumption]|intros ? ? [(-> & ->)|(-> & ? & -> & ? & ?)]];
    repeat wp_step; string_end.
Qed.

#[local] Instance da_mark_regions_keeps : KeepsC r_mark_regions.
Proof. unfold r_mark_regions. keeps_code. Qed.
#[local] Instance da_main_suffix_keeps : KeepsC r_main_suffix.
Proof. unfold r_main_suffix. keeps_code. Qed.
#[local] Instance da_consonant_pair_keeps : KeepsC r_consonant_pair.
Proof. unfold r_consonant_pair. keeps_code. Qed.
#[local] Instance da_other_suffix_keeps : KeepsC r_other_suffix.
Proof. unfold r_other_suffix. keeps_code. Qed.

Ltac run_f H := apply wp_keeps; [keeps_code|]; eapply (do_f_ok k L 2 0 _ _ H); [st_solve|intros ? ? ? ? ? ?; edit_code 0].
Ltac run_b H := apply wp_keeps; [keeps_code|]; eapply (do_b_at k L 2 0 _ _ 0 H); [st_solve|sn_cbn; sn_lia || congruence..|intros ? ? ? ? ? ?; edit_code 0].
Ltac run_e H := apply wp_keeps; [keeps_code|]; eapply (do_b_from k L 2 0 _ _ 0 H); [st_solve|sn_cbn; sn_lia || congruence..|intros ? ? ? ? ? ?; edit_code 0].

Lemma da_stem_ok w z : St w z -> svar z -> sn_c z = 0 -> L + 21 <= INT_MAX ->
  returns danish_UTF_8_stem z (fun v z' =>
    (v = 1 /\ svar z' /\ exists w', St w' z' /\ (sn_lb z' = sn_lb z \/ sn_lb z' = sn_c z))
    \/ (v = -1 /\ sn_S z' = [None] /\ refused L /\ exists w', St w' z')).
Proof.
  intros S (b & Hb & Hl) Hc HL. unfold danish_UTF_8_stem. repeat wp_step.
  run_f da_mark_regions_ok.
  run_b da_main_suffix_ok.
  run_b da_consonant_pair_ok.
  run_e da_other_suffix_ok.
  eapply (do_b_string k L 2 0 _ _ (da_undouble_ok HL)); [st_solve|svar_live|sn_cbn; sn_lia || congruence..|intros ? ? ? ? ? ?; repeat wp_step|].
  - left. split_and!; [done|svar_same|]. eexists. split; [st_solve|right; sn_cbn; congruence].
  - intros ? ? ? ? ?. right. eauto.
Qed.
End Safety.
