(* ===== verification/FinnishIso.v ===== *)
(** * The Finnish stemmer on ISO-8859-1: [src_c/stem_ISO_8859_1_finnish.c]

    The generated C, statement for statement, and the proof that stemming is
    free of undefined behaviour, terminates and never lengthens the word. *)

From S2P Require Import Prelude SnEnv SnRuntime SnSpec SnAmong SnCode SnLoops SnStrings.

Open Scope sn_scope.

(** ** Tables *)
Definition a_0 : list among :=
  [ mk_among 2 (str "pa") (-1) 1 None; mk_among 3 (str "sti") (-1) 2 None;
    mk_among 4 (str "kaan") (-1) 1 None; mk_among 3 (str "han") (-1) 1 None;
    mk_among 3 (str "kin") (-1) 1 None; mk_among 3 ([104; 228; 110]) (-1) 1 None;
    mk_among 4 ([107; 228; 228; 110]) (-1) 1 None; mk_among 2 (str "ko") (-1) 1 None;
    mk_among 2 ([112; 228]) (-1) 1 None; mk_among 2 ([107; 246]) (-1) 1 None ].

Definition a_1 : list among :=
  [ mk_among 3 (str "lla") (-1) (-1) None; mk_among 2 (str "na") (-1) (-1) None;
    mk_among 3 (str "ssa") (-1) (-1) None; mk_among 2 (str "ta") (-1) (-1) None;
    mk_among 3 (str "lta") 3 (-1) None; mk_among 3 (str "sta") 3 (-1) None ].

Definition a_2 : list among :=
  [ mk_among 3 ([108; 108; 228]) (-1) (-1) None; mk_among 2 ([110; 228]) (-1) (-1) None;
    mk_among 3 ([115; 115; 228]) (-1) (-1) None; mk_among 2 ([116; 228]) (-1) (-1) None;
    mk_among 3 ([108; 116; 228]) 3 (-1) None; mk_among 3 ([115; 116; 228]) 3 (-1) None ].

Definition a_3 : list among :=
  [ mk_among 3 (str "lle") (-1) (-1) None; mk_among 3 (str "ine") (-1) (-1) None ].

Definition a_4 : list among :=
  [ mk_among 3 (str "nsa") (-1) 3 None; mk_among 3 (str "mme") (-1) 3 None;
    mk_among 3 (str "nne") (-1) 3 None; mk_among 2 (str "ni") (-1) 2 None;
    mk_among 2 (str "si") (-1) 1 None; mk_among 2 (str "an") (-1) 4 None;
    mk_among 2 (str "en") (-1) 6 None; mk_among 2 ([228; 110]) (-1) 5 None;
    mk_among 3 ([110; 115; 228]) (-1) 3 None ].

Definition a_5 : list among :=
  [ mk_among 2 (str "aa") (-1) (-1) None; mk_among 2 (str "ee") (-1) (-1) None;
    mk_among 2 (str "ii") (-1) (-1) None; mk_among 2 (str "oo") (-1) (-1) None;
    mk_among 2 (str "uu") (-1) (-1) None; mk_among 2 ([228; 228]) (-1) (-1) None;
    mk_among 2 ([246; 246]) (-1) (-1) None ].

Definition a_7 : list among :=
  [ mk_among 3 (str "eja") (-1) (-1) None; mk_among 3 (str "mma") (-1) 1 None;
    mk_among 4 (str "imma") 1 (-1) None; mk_among 3 (str "mpa") (-1) 1 None;
    mk_among 4 (str "impa") 3 (-1) None; mk_among 3 (str "mmi") (-1) 1 None;
    mk_among 4 (str "immi") 5 (-1) None; mk_among 3 (str "mpi") (-1) 1 None;
    mk_among 4 (str "impi") 7 (-1) None; mk_among 3 ([101; 106; 228]) (-1) (-1) None;
    mk_among 3 ([109; 109; 228]) (-1) 1 None; mk_among 4 ([105; 109; 109; 228]) 10 (-1) None;
    mk_among 3 ([109; 112; 228]) (-1) 1 None; mk_among 4 ([105; 109; 112; 228]) 12 (-1) None ].

Definition a_8 : list among :=
  [ mk_among 1 (str "i") (-1) (-1) None; mk_among 1 (str "j") (-1) (-1) None ].

Definition a_9 : list among :=
  [ mk_among 3 (str "mma") (-1) 1 None; mk_among 4 (str "imma") 0 (-1) None ].

Definition g_AEI : list Z := [17; 1; 0; 0; 0; 0; 0; 0; 0; 0; 0; 0; 0; 0; 0; 0; 8].

Definition g_V1 : list Z := [17; 65; 16; 1; 0; 0; 0; 0; 0; 0; 0; 0; 0; 0; 0; 0; 8; 0; 32].

Definition g_V2 : list Z := [17; 65; 16; 0; 0; 0; 0; 0; 0; 0; 0; 0; 0; 0; 0; 0; 8; 0; 32].

Definition g_particle_end : list Z := [17; 97; 24; 1; 0; 0; 0; 0; 0; 0; 0; 0; 0; 0; 0; 0; 8; 0; 32].

Definition s_0 : list Z := str "k".
Definition s_1 : list Z := str "kse".
Definition s_2 : list Z := str "ksi".
Definition s_3 : list Z := str "i".
Definition s_4 : list Z := str "a".
Definition s_5 : list Z := str "e".
Definition s_6 : list Z := str "i".
Definition s_7 : list Z := str "o".
Definition s_8 : list Z := [228].
Definition s_9 : list Z := [246].
Definition s_10 : list Z := str "ie".
Definition s_11 : list Z := str "e".
Definition s_12 : list Z := str "po".
Definition s_13 : list Z := str "t".
Definition s_14 : list Z := str "po".
Definition s_15 : list Z := str "j".
Definition s_16 : list Z := str "o".
Definition s_17 : list Z := str "u".
Definition s_18 : list Z := str "o".
Definition s_19 : list Z := str "j".

(** ** Routines *)
Section Routines.
Context `{CHeap}.

Definition r_mark_regions : cfunc := cfun (
  l <- get sn_l ;;
  put_I 0 l ;;
  l <- get sn_l ;;
  put_I 1 l ;;
  neg_call (out_grouping g_V1 97 246 1) (creturn 0) ;;
  gopast (in_grouping g_V1 97 246 1) (creturn 0) ;;
  c <- get sn_c ;;
  put_I 0 c ;;
  neg_call (out_grouping g_V1 97 246 1) (creturn 0) ;;
  gopast (in_grouping g_V1 97 246 1) (creturn 0) ;;
  c <- get sn_c ;;
  put_I 1 c ;;
  creturn 1).

Definition r_R2 : cfunc := cfun (
  i <- get_I 1 ;;
  c <- get sn_c ;;
  when (negb (i <=? c)) (creturn 0) ;;
  creturn 1).

Definition r_particle_etc : cfunc := cfun (
  m1 <- get_m ;;
  i <- get_I 0 ;;
  c <- get sn_c ;;
  when (c <? i) (creturn 0) ;;
  i <- get_I 0 ;;
  c_is i ;;
  mlimit <- get sn_lb ;;
  put (fun z => set_lb (sn_c z) z) ;;
  c_from_l m1 ;;
  ket_c ;;
  among_var <- call (find_among_b a_0 10) ;;
  when (among_var =? 0) (put (set_lb mlimit) ;; creturn 0) ;;
  bra_c ;;
  put (set_lb mlimit) ;;
  switch among_var
    [ (0, creturn 0);
      (1, if_call (in_grouping_b g_particle_end 97 246 0) (creturn 0));
      (2, routine r_R2 (creturn 0)) ] ;;
  checked slice_del ;;
  creturn 1).

Definition r_possessive : cfunc := cfun (
  m1 <- get_m ;;
  i <- get_I 0 ;;
  c <- get sn_c ;;
  when (c <? i) (creturn 0) ;;
  i <- get_I 0 ;;
  c_is i ;;
  mlimit <- get sn_lb ;;
  put (fun z => set_lb (sn_c z) z) ;;
  c_from_l m1 ;;
  ket_c ;;
  among_var <- call (find_among_b a_4 9) ;;
  when (among_var =? 0) (put (set_lb mlimit) ;; creturn 0) ;;
  bra_c ;;
  put (set_lb mlimit) ;;
  switch among_var
    [ (0, creturn 0);
      (1, m2 <- get_m ;;
          label 0 (
            unless_call (eq_s_b 1 (sy s_0)) (goto 0) ;;
            creturn 0) ;;
          c_from_l m2 ;;
          checked slice_del);
      (2, checked slice_del ;;
          ket_c ;;
          unless_call (eq_s_b 3 (sy s_1)) (creturn 0) ;;
          bra_c ;;
          checked (slice_from_s 3 (sy s_2)));
      (3, checked slice_del);
      (4, b <- pre_b 1 (fun ch => negb (ch =? 97)) ;;
          when b (creturn 0) ;;
          unless_call (find_among_b a_1 6) (creturn 0) ;;
          checked slice_del);
      (5, b <- pre_b 1 (fun ch => negb (ch =? 228)) ;;
          when b (creturn 0) ;;
          unless_call (find_among_b a_2 6) (creturn 0) ;;
          checked slice_del);
      (6, b <- pre_b 2 (fun ch => negb (ch =? 101)) ;;
          when b (creturn 0) ;;
          unless_call (find_among_b a_3 2) (creturn 0) ;;
          checked slice_del) ] ;;
  creturn 1).

Definition r_LONG : cfunc := cfun (
  unless_call (find_among_b a_5 7) (creturn 0) ;;
  creturn 1).

Definition r_VI : cfunc := cfun (
  unless_call (eq_s_b 1 (sy s_3)) (creturn 0) ;;
  if_call (in_grouping_b g_V2 97 246 0) (creturn 0) ;;
  creturn 1).

Definition a_6 : list among :=
  [ mk_among 1 (str "a") (-1) 8 None; mk_among 3 (str "lla") 0 (-1) None;
    mk_among 2 (str "na") 0 (-1) None; mk_among 3 (str "ssa") 0 (-1) None;
    mk_among 2 (str "ta") 0 (-1) None; mk_among 3 (str "lta") 4 (-1) None;
    mk_among 3 (str "sta") 4 (-1) None; mk_among 3 (str "tta") 4 9 None;
    mk_among 3 (str "lle") (-1) (-1) None; mk_among 3 (str "ine") (-1) (-1) None;
    mk_among 3 (str "ksi") (-1) (-1) None; mk_among 1 (str "n") (-1) 7 None;
    mk_among 3 (str "han") 11 1 None; mk_among 3 (str "den") 11 (-1) (Some r_VI);
    mk_among 4 (str "seen") 11 (-1) (Some r_LONG); mk_among 3 (str "hen") 11 2 None;
    mk_among 4 (str "tten") 11 (-1) (Some r_VI); mk_among 3 (str "hin") 11 3 None;
    mk_among 4 (str "siin") 11 (-1) (Some r_VI); mk_among 3 (str "hon") 11 4 None;
    mk_among 3 ([104; 228; 110]) 11 5 None; mk_among 3 ([104; 246; 110]) 11 6 None;
    mk_among 1 ([228]) (-1) 8 None; mk_among 3 ([108; 108; 228]) 22 (-1) None;
    mk_among 2 ([110; 228]) 22 (-1) None; mk_among 3 ([115; 115; 228]) 22 (-1) None;
    mk_among 2 ([116; 228]) 22 (-1) None; mk_among 3 ([108; 116; 228]) 26 (-1) None;
    mk_among 3 ([115; 116; 228]) 26 (-1) None; mk_among 3 ([116; 116; 228]) 26 9 None ].

Definition r_case_ending : cfunc := cfun (
  m1 <- get_m ;;
  i <- get_I 0 ;;
  c <- get sn_c ;;
  when (c <? i) (creturn 0) ;;
  i <- get_I 0 ;;
  c_is i ;;
  mlimit <- get sn_lb ;;
  put (fun z => set_lb (sn_c z) z) ;;
  c_from_l m1 ;;
  ket_c ;;
  among_var <- call (find_among_b a_6 30) ;;
  when (among_var =? 0) (put (set_lb mlimit) ;; creturn 0) ;;
  bra_c ;;
  put (set_lb mlimit) ;;
  switch among_var
    [ (0, creturn 0);
      (1, unless_call (eq_s_b 1 (sy s_4)) (creturn 0));
      (2, unless_call (eq_s_b 1 (sy s_5)) (creturn 0));
      (3, unless_call (eq_s_b 1 (sy s_6)) (creturn 0));
      (4, unless_call (eq_s_b 1 (sy s_7)) (creturn 0));
      (5, unless_call (eq_s_b 1 (sy s_8)) (creturn 0));
      (6, unless_call (eq_s_b 1 (sy s_9)) (creturn 0));
      (7, m_keep <- get_m ;;
          label 0 (
            m2 <- get_m ;;
            label 1 (
              m3 <- get_m ;;
              label 2 (
                routine r_LONG (goto 2) ;;
                goto 1) ;;
              c_from_l m3 ;;
              unless_call (eq_s_b 2 (sy s_10)) (c_from_l m_keep ;; goto 0)) ;;
            c_from_l m2 ;;
            prev_byte (c_from_l m_keep ;; goto 0) ;;
            bra_c));
      (8, if_call (in_grouping_b g_V1 97 246 0) (creturn 0) ;;
          if_call (out_grouping_b g_V1 97 246 0) (creturn 0));
      (9, unless_call (eq_s_b 1 (sy s_11)) (creturn 0)) ] ;;
  checked slice_del ;;
  put_B 0 1 ;;
  creturn 1).

Definition r_other_endings : cfunc := cfun (
  m1 <- get_m ;;
  i <- get_I 1 ;;
  c <- get sn_c ;;
  when (c <? i) (creturn 0) ;;
  i <- get_I 1 ;;
  c_is i ;;
  mlimit <- get sn_lb ;;
  put (fun z => set_lb (sn_c z) z) ;;
  c_from_l m1 ;;
  ket_c ;;
  among_var <- call (find_among_b a_7 14) ;;
  when (among_var =? 0) (put (set_lb mlimit) ;; creturn 0) ;;
  bra_c ;;
  put (set_lb mlimit) ;;
  switch among_var
    [ (0, creturn 0);
      (1, m2 <- get_m ;;
          label 0 (
            unless_call (eq_s_b 2 (sy s_12)) (goto 0) ;;
            creturn 0) ;;
          c_from_l m2) ] ;;
  checked slice_del ;;
  creturn 1).

Definition r_i_plural : cfunc := cfun (
  m1 <- get_m ;;
  i <- get_I 0 ;;
  c <- get sn_c ;;
  when (c <? i) (creturn 0) ;;
  i <- get_I 0 ;;
  c_is i ;;
  mlimit <- get sn_lb ;;
  put (fun z => set_lb (sn_c z) z) ;;
  c_from_l m1 ;;
  ket_c ;;
  b <- pre_b 0 (fun ch => negb (ch =? 105) && negb (ch =? 106)) ;;
  when b (put (set_lb mlimit) ;; creturn 0) ;;
  unless_call (find_among_b a_8 2) (put (set_lb mlimit) ;; creturn 0) ;;
  bra_c ;;
  put (set_lb mlimit) ;;
  checked slice_del ;;
  creturn 1).

Definition r_t_plural : cfunc := cfun (
  m1 <- get_m ;;
  i <- get_I 0 ;;
  c <- get sn_c ;;
  when (c <? i) (creturn 0) ;;
  i <- get_I 0 ;;
  c_is i ;;
  mlimit <- get sn_lb ;;
  put (fun z => set_lb (sn_c z) z) ;;
  c_from_l m1 ;;
  ket_c ;;
  unless_call (eq_s_b 1 (sy s_13)) (put (set_lb mlimit) ;; creturn 0) ;;
  bra_c ;;
  m_test <- get_m ;;
  if_call (in_grouping_b g_V1 97 246 0) (put (set_lb mlimit) ;; creturn 0) ;;
  c_from_l m_test ;;
  checked slice_del ;;
  put (set_lb mlimit) ;;
  m2 <- get_m ;;
  i <- get_I 1 ;;
  c <- get sn_c ;;
  when (c <? i) (creturn 0) ;;
  i <- get_I 1 ;;
  c_is i ;;
  mlimit <- get sn_lb ;;
  put (fun z => set_lb (sn_c z) z) ;;
  c_from_l m2 ;;
  ket_c ;;
  b <- pre_b 2 (fun ch => negb (ch =? 97)) ;;
  when b (put (set_lb mlimit) ;; creturn 0) ;;
  among_var <- call (find_among_b a_9 2) ;;
  when (among_var =? 0) (put (set_lb mlimit) ;; creturn 0) ;;
  bra_c ;;
  put (set_lb mlimit) ;;
  switch among_var
    [ (0, creturn 0);
      (1, m3 <- get_m ;;
          label 0 (
            unless_call (eq_s_b 2 (sy s_14)) (goto 0) ;;
            creturn 0) ;;
          c_from_l m3) ] ;;
  checked slice_del ;;
  creturn 1).

Definition r_tidy : cfunc := cfun (
  m1 <- get_m ;;
  i <- get_I 0 ;;
  c <- get sn_c ;;
  when (c <? i) (creturn 0) ;;
  i <- get_I 0 ;;
  c_is i ;;
  mlimit <- get sn_lb ;;
  put (fun z => set_lb (sn_c z) z) ;;
  c_from_l m1 ;;
  m2 <- get_m ;;
  label 0 (
    m3 <- get_m ;;
    routine r_LONG (goto 0) ;;
    c_from_l m3 ;;
    ket_c ;;
    prev_byte (goto 0) ;;
    bra_c ;;
    checked slice_del) ;;
  c_from_l m2 ;;
  m4 <- get_m ;;
  ket_c ;;
  label 1 (
    if_call (in_grouping_b g_AEI 97 228 0) (goto 1) ;;
    bra_c ;;
    if_call (out_grouping_b g_V1 97 246 0) (goto 1) ;;
    checked slice_del) ;;
  c_from_l m4 ;;
  m5 <- get_m ;;
  ket_c ;;
  label 2 (
    unless_call (eq_s_b 1 (sy s_15)) (goto 2) ;;
    bra_c ;;
    label 3 (
      m6 <- get_m ;;
      label 4 (
        unless_call (eq_s_b 1 (sy s_16)) (goto 4) ;;
        goto 3) ;;
      c_from_l m6 ;;
      unless_call (eq_s_b 1 (sy s_17)) (goto 2)) ;;
    checked slice_del) ;;
  c_from_l m5 ;;
  m7 <- get_m ;;
  ket_c ;;
  label 5 (
    unless_call (eq_s_b 1 (sy s_18)) (goto 5) ;;
    bra_c ;;
    unless_call (eq_s_b 1 (sy s_19)) (goto 5) ;;
    checked slice_del) ;;
  c_from_l m7 ;;
  put (set_lb mlimit) ;;
  neg_call (in_grouping_b g_V1 97 246 1) (creturn 0) ;;
  ket_c ;;
  prev_byte (creturn 0) ;;
  bra_c ;;
  slice_to_S 0 ;;
  unless_call (eq_v_b_S 0) (creturn 0) ;;
  checked slice_del ;;
  creturn 1).

Definition finnish_ISO_8859_1_stem : cfunc := cfun (
  do_f 0 r_mark_regions ;;
  put_B 0 0 ;;
  put (fun z => set_lb (sn_c z) z) ;;
  put (fun z => set_c (sn_l z) z) ;;
  do_b 1 r_particle_etc ;;
  do_b 2 r_possessive ;;
  do_b 3 r_case_ending ;;
  do_b 4 r_other_endings ;;
  label 5 (
    m6 <- get_m ;;
    label 6 (
      y <- get_B 0 ;;
      when (y =? 0) (goto 6) ;;
      do_b 7 r_i_plural ;;
      goto 5) ;;
    c_from_l m6 ;;
    do_b 8 r_t_plural) ;;
  do_b 9 r_tidy ;;
  put (fun z => set_c (sn_lb z) z) ;;
  creturn 1).

Definition finnish_ISO_8859_1_create_env : option (option SN_env) := SN_create_env 1 2 1.
Definition finnish_ISO_8859_1_close_env (z : option SN_env) : option unit := SN_close_env z 1.
End Routines.

(** ** Safety of every routine *)
Section Safety.
Context `{CHeap} (k L : Z).
Abbreviation St := (st k L 2 1).
Abbreviation step_ok := (step_at k L 2 1 0).
Abbreviation fwd_ok := (fwd_ok k L 2 1).

(** The routines that leave the string variable alone. *)
#[local] Instance fii_mark_regions_keeps : KeepsC r_mark_regions.
Proof. unfold r_mark_regions. keeps_code. Qed.
#[local] Instance fii_R2_keeps : KeepsC r_R2.
Proof. unfold r_R2. keeps_code. Qed.
#[local] Instance fii_particle_etc_keeps : KeepsC r_particle_etc.
Proof. unfold r_particle_etc. keeps_code. Qed.
#[local] Instance fii_possessive_keeps : KeepsC r_possessive.
Proof. unfold r_possessive. keeps_code. Qed.
#[local] Instance fii_LONG_keeps : KeepsC r_LONG.
Proof. unfold r_LONG. keeps_code. Qed.
#[local] Instance fii_VI_keeps : KeepsC r_VI.
Proof. unfold r_VI. keeps_code. Qed.
#[local] Instance fii_case_ending_keeps : KeepsC r_case_ending.
Proof. unfold r_case_ending. keeps_code. Qed.
#[local] Instance fii_other_endings_keeps : KeepsC r_other_endings.
Proof. unfold r_other_endings. keeps_code. Qed.
#[local] Instance fii_i_plural_keeps : KeepsC r_i_plural.
Proof. unfold r_i_plural. keeps_code. Qed.
#[local] Instance fii_t_plural_keeps : KeepsC r_t_plural.
Proof. unfold r_t_plural. keeps_code. Qed.

Lemma fii_mark_regions_ok : fwd_ok r_mark_regions.
Proof. intros w z S. unfold r_mark_regions. read_code S; fwd_done. Qed.

Lemma fii_R2_ok w z : St w z -> returns r_R2 z (fun v z' => 0 <= v /\ z' = z).
Proof. intros S. unfold r_R2. repeat wp_step; split; (done || lia). Qed.

Ltac routine_rule ::=
  lazymatch goal with
  | |- returns r_R2 _ _ => eapply returns_mono; [eapply fii_R2_ok; st_solve|intros ? ? (? & ->)]
  end.

Lemma fii_particle_etc_ok : step_ok r_particle_etc.
Proof. intros w z S Hlb. unfold r_particle_etc. repeat wp_step; step_end. Qed.

Lemma fii_possessive_ok : step_ok r_possessive.
Proof. intros w z S Hlb. unfold r_possessive. repeat wp_step; step_end. Qed.

Lemma fii_LONG_ok : probe_ok k L 2 1 r_LONG.
Proof. intros w z S. unfold r_LONG. repeat wp_step; probe_done. Qed.

Lemma fii_VI_ok : probe_ok k L 2 1 r_VI.
Proof. intros w z S. unfold r_VI. repeat wp_step; probe_done. Qed.

Ltac routine_rule ::=
  lazymatch goal with
  | |- returns r_R2 _ _ => eapply returns_mono; [eapply fii_R2_ok; st_solve|intros ? ? (? & ->)]
  | |- returns r_LONG _ _ => eapply returns_mono; [eapply fii_LONG_ok; st_solve|intros ? ? (? & ? & -> & ?)]
  | |- returns r_VI _ _ => eapply returns_mono; [eapply fii_VI_ok; st_solve|intros ? ? (? & ? & -> & ?)]
  end.

Lemma fii_functions_ok e f : e ∈ a_6 -> function e = Some f -> probe_ok k L 2 1 f.
Proof.
  intros He Hf. unfold a_6 in He. repeat (apply elem_of_cons in He as [->|He]; [cbn in Hf; first [discriminate | injection Hf as <-]; first [apply fii_VI_ok | apply fii_LONG_ok]|]).
  by apply not_elem_of_nil in He.
Qed.

Lemma fii_case_ending_ok : step_ok r_case_ending.
Proof.
  intros w z S Hlb. unfold r_case_ending. repeat wp_step; try step_end.
  eapply returns_mono; [eapply (find_among_b_calls k L 2 1 a_6 30 _ _) with (f := min_size a_6); [vm_compute; reflexivity|st_solve|apply fii_functions_ok|vm_compute; reflexivity]|].
  intros ? ? (? & -> & ? & [->|(? & ? & ?)]).
  all: repeat wp_step; step_end.
Qed.

Lemma fii_other_endings_ok : step_ok r_other_endings.
Proof. intros w z S Hlb. unfold r_other_endings. repeat wp_step; step_end. Qed.

Lemma fii_i_plural_ok : step_ok r_i_plural.
Proof. intros w z S Hlb. unfold r_i_plural. repeat wp_step; step_end. Qed.

Lemma fii_t_plural_ok : step_ok r_t_plural.
Proof. intros w z S Hlb. unfold r_t_plural. repeat wp_step; step_end. Qed.

Lemma fii_tidy_ok : L + 21 <= INT_MAX -> string_ok k L 2 1 r_tidy.
Proof.
  intros HL w z S (b & Hb & Hl) Hlb Hc. unfold r_tidy.
  cut_string; try string_end.
  eapply st_slice_to_S; [st_solve|svar_live|sn_cbn; sn_lia..|intros ? ? ? ? ? ? ? ? ? ? ?|intros ? ? ? ?]; repeat wp_step; try string_end.
  eapply returns_mono; [eapply st_eq_v_b_S; [st_solve|cbn; eassumption|eassumption]|intros ? ? [(-> & ->)|(-> & ? & -> & ? & ?)]];
    repeat wp_step; string_end.
Qed.

Ltac run_f H := apply wp_keeps; [keeps_code|]; eapply (do_f_ok k L 2 1 _ _ H); [st_solve|intros ? ? ? ? ? ?; edit_code 0].
Ltac run_b H := apply wp_keeps; [keeps_code|]; eapply (do_b_at k L 2 1 _ _ 0 H); [st_solve|sn_cbn; sn_lia || congruence..|intros ? ? ? ? ? ?; edit_code 0].

Lemma fii_stem_ok w z : St w z -> svar z -> sn_c z = 0 -> L + 21 <= INT_MAX ->
  returns finnish_ISO_8859_1_stem z (fun v z' =>
    (v = 1 /\ svar z' /\ exists w', St w' z' /\ (sn_lb z' = sn_lb z \/ sn_lb z' = sn_c z))
    \/ (v = -1 /\ sn_S z' = [None] /\ refused L /\ exists w', St w' z')).
Proof.
  intros S (b & Hb & Hl) Hc HL. unfold finnish_ISO_8859_1_stem. repeat wp_step.
  apply wp_keeps; [keeps_code|]; eapply (do_f_ok k L 2 1 _ _ fii_mark_regions_ok); [st_solve|intros ? ? ? ? ? ?].
  repeat lazymatch goal with |- wp (put_B _ _) _ _ => fail | _ => wp_step end. apply wp_keeps; [keeps_code|]. eapply st_put_B; [st_solve|lia|intros ? ? ? ? ? ? ? ?]. repeat wp_step.
  run_b fii_particle_etc_ok. run_b fii_possessive_ok. run_b fii_case_ending_ok.
  apply wp_keeps; [keeps_code|]; eapply (do_b_at k L 2 1 _ _ 0 fii_other_endings_ok); [st_solve|sn_cbn; sn_lia || congruence..|intros ? ? ? ? ? ?; repeat wp_step].
  1: run_b fii_t_plural_ok. 2: run_b fii_i_plural_ok.
  all: eapply (do_b_string k L 2 1 _ _ (fii_tidy_ok HL)); [st_solve|svar_live|sn_cbn; sn_lia || congruence..|intros ? ? ? ? ? ?; repeat wp_step|intros ? ? ? ? ?; right; eauto].
  all: left; split_and!; [done|svar_same|]; eexists; split; [st_solve|right; sn_cbn; congruence].
Qed.
End Safety.
