(* ===== verification/Stemmer.v ===== *)
(** * libstemmer: choosing and driving a stemmer

    [libstemmer/libstemmer.c] with the tables of [libstemmer/modules.h], and
    the C++ class [Stemmer] of [stem.cc] on top of it.  A stemmer is reached
    through three function pointers; [stemmer_laws] is what the driver relies
    on, and every module of [modelled] satisfies it. *)

From S2P Require Import Prelude SnEnv SnRuntime SnSpec SnAmong SnCode SnLoops.
From S2P Require Porter PorterIso English EnglishIso Norwegian.
From S2P Require NorwegianIso Swedish SwedishIso German Spanish.
From S2P Require SpanishIso Portuguese Italian ItalianIso Romanian.
From S2P Require RomanianIso Hungarian HungarianIso Russian RussianKoi8.
From S2P Require Dutch DutchIso French FrenchIso.

(** ** [modules.h] *)
Inductive stemmer_encoding_t :=
| ENC_UNKNOWN | ENC_ISO_8859_1 | ENC_ISO_8859_2 | ENC_KOI8_R | ENC_UTF_8.

#[export] Instance stemmer_encoding_eq_dec : EqDecision stemmer_encoding_t.
Proof. solve_decision. Defined.

(** The array ends at its null name. *)
Definition encodings : list (list Z * stemmer_encoding_t) :=
  [ (str "ISO_8859_1", ENC_ISO_8859_1); (str "ISO_8859_2", ENC_ISO_8859_2);
    (str "KOI8_R", ENC_KOI8_R); (str "UTF_8", ENC_UTF_8) ].

(** The compiled stemmers, each a [create_env], [close_env] and [stem]
    function. *)
Inductive module_id :=
| danish_ISO_8859_1 | danish_UTF_8 | german_ISO_8859_1
| german_UTF_8 | dutch_ISO_8859_1 | dutch_UTF_8
| english_ISO_8859_1 | english_UTF_8 | spanish_ISO_8859_1
| spanish_UTF_8 | finnish_ISO_8859_1 | finnish_UTF_8
| french_ISO_8859_1 | french_UTF_8 | hungarian_ISO_8859_1
| hungarian_UTF_8 | italian_ISO_8859_1 | italian_UTF_8
| norwegian_ISO_8859_1 | norwegian_UTF_8 | portuguese_ISO_8859_1
| portuguese_UTF_8 | porter_ISO_8859_1 | porter_UTF_8
| romanian_ISO_8859_2 | romanian_UTF_8 | russian_KOI8_R
| russian_UTF_8 | swedish_ISO_8859_1 | swedish_UTF_8
| turkish_UTF_8.

Definition modules : list (list Z * stemmer_encoding_t * module_id) :=
  [ (str "da", ENC_ISO_8859_1, danish_ISO_8859_1);
    (str "da", ENC_UTF_8, danish_UTF_8);
    (str "dan", ENC_ISO_8859_1, danish_ISO_8859_1);
    (str "dan", ENC_UTF_8, danish_UTF_8);
    (str "danish", ENC_ISO_8859_1, danish_ISO_8859_1);
    (str "danish", ENC_UTF_8, danish_UTF_8);
    (str "de", ENC_ISO_8859_1, german_ISO_8859_1);
    (str "de", ENC_UTF_8, german_UTF_8);
    (str "deu", ENC_ISO_8859_1, german_ISO_8859_1);
    (str "deu", ENC_UTF_8, german_UTF_8);
    (str "dut", ENC_ISO_8859_1, dutch_ISO_8859_1);
    (str "dut", ENC_UTF_8, dutch_UTF_8);
    (str "dutch", ENC_ISO_8859_1, dutch_ISO_8859_1);
    (str "dutch", ENC_UTF_8, dutch_UTF_8);
    (str "en", ENC_ISO_8859_1, english_ISO_8859_1);
    (str "en", ENC_UTF_8, english_UTF_8);
    (str "eng", ENC_ISO_8859_1, english_ISO_8859_1);
    (str "eng", ENC_UTF_8, english_UTF_8);
    (str "english", ENC_ISO_8859_1, english_ISO_8859_1);
    (str "english", ENC_UTF_8, english_UTF_8);
    (str "es", ENC_ISO_8859_1, spanish_ISO_8859_1);
    (str "es", ENC_UTF_8, spanish_UTF_8);
    (str "esl", ENC_ISO_8859_1, spanish_ISO_8859_1);
    (str "esl", ENC_UTF_8, spanish_UTF_8);
    (str "fi", ENC_ISO_8859_1, finnish_ISO_8859_1);
    (str "fi", ENC_UTF_8, finnish_UTF_8);
    (str "fin", ENC_ISO_8859_1, finnish_ISO_8859_1);
    (str "fin", ENC_UTF_8, finnish_UTF_8);
    (str "finnish", ENC_ISO_8859_1, finnish_ISO_8859_1);
    (str "finnish", ENC_UTF_8, finnish_UTF_8);
    (str "fr", ENC_ISO_8859_1, french_ISO_8859_1);
    (str "fr", ENC_UTF_8, french_UTF_8);
    (str "fra", ENC_ISO_8859_1, french_ISO_8859_1);
    (str "fra", ENC_UTF_8, french_UTF_8);
    (str "fre", ENC_ISO_8859_1, french_ISO_8859_1);
    (str "fre", ENC_UTF_8, french_UTF_8);
    (str "french", ENC_ISO_8859_1, french_ISO_8859_1);
    (str "french", ENC_UTF_8, french_UTF_8);
    (str "ger", ENC_ISO_8859_1, german_ISO_8859_1);
    (str "ger", ENC_UTF_8, german_UTF_8);
    (str "german", ENC_ISO_8859_1, german_ISO_8859_1);
    (str "german", ENC_UTF_8, german_UTF_8);
    (str "hu", ENC_ISO_8859_1, hungarian_ISO_8859_1);
    (str "hu", ENC_UTF_8, hungarian_UTF_8);
    (str "hun", ENC_ISO_8859_1, hungarian_ISO_8859_1);
    (str "hun", ENC_UTF_8, hungarian_UTF_8);
    (str "hungarian", ENC_ISO_8859_1, hungarian_ISO_8859_1);
    (str "hungarian", ENC_UTF_8, hungarian_UTF_8);
    (str "it", ENC_ISO_8859_1, italian_ISO_8859_1);
    (str "it", ENC_UTF_8, italian_UTF_8);
    (str "ita", ENC_ISO_8859_1, italian_ISO_8859_1);
    (str "ita", ENC_UTF_8, italian_UTF_8);
    (str "italian", ENC_ISO_8859_1, italian_ISO_8859_1);
    (str "italian", ENC_UTF_8, italian_UTF_8);
    (str "nl", ENC_ISO_8859_1, dutch_ISO_8859_1);
    (str "nl", ENC_UTF_8, dutch_UTF_8);
    (str "nld", ENC_ISO_8859_1, dutch_ISO_8859_1);
    (str "nld", ENC_UTF_8, dutch_UTF_8);
    (str "no", ENC_ISO_8859_1, norwegian_ISO_8859_1);
    (str "no", ENC_UTF_8, norwegian_UTF_8);
    (str "nor", ENC_ISO_8859_1, norwegian_ISO_8859_1);
    (str "nor", ENC_UTF_8, norwegian_UTF_8);
    (str "norwegian", ENC_ISO_8859_1, norwegian_ISO_8859_1);
    (str "norwegian", ENC_UTF_8, norwegian_UTF_8);
    (str "por", ENC_ISO_8859_1, portuguese_ISO_8859_1);
    (str "por", ENC_UTF_8, portuguese_UTF_8);
    (str "porter", ENC_ISO_8859_1, porter_ISO_8859_1);
    (str "porter", ENC_UTF_8, porter_UTF_8);
    (str "portuguese", ENC_ISO_8859_1, portuguese_ISO_8859_1);
    (str "portuguese", ENC_UTF_8, portuguese_UTF_8);
    (str "pt", ENC_ISO_8859_1, portuguese_ISO_8859_1);
    (str "pt", ENC_UTF_8, portuguese_UTF_8);
    (str "ro", ENC_ISO_8859_2, romanian_ISO_8859_2);
    (str "ro", ENC_UTF_8, romanian_UTF_8);
    (str "romanian", ENC_ISO_8859_2, romanian_ISO_8859_2);
    (str "romanian", ENC_UTF_8, romanian_UTF_8);
    (str "ron", ENC_ISO_8859_2, romanian_ISO_8859_2);
    (str "ron", ENC_UTF_8, romanian_UTF_8);
    (str "ru", ENC_KOI8_R, russian_KOI8_R);
    (str "ru", ENC_UTF_8, russian_UTF_8);
    (str "rum", ENC_ISO_8859_2, romanian_ISO_8859_2);
    (str "rum", ENC_UTF_8, romanian_UTF_8);
    (str "rus", ENC_KOI8_R, russian_KOI8_R);
    (str "rus", ENC_UTF_8, russian_UTF_8);
    (str "russian", ENC_KOI8_R, russian_KOI8_R);
    (str "russian", ENC_UTF_8, russian_UTF_8);
    (str "spa", ENC_ISO_8859_1, spanish_ISO_8859_1);
    (str "spa", ENC_UTF_8, spanish_UTF_8);
    (str "spanish", ENC_ISO_8859_1, spanish_ISO_8859_1);
    (str "spanish", ENC_UTF_8, spanish_UTF_8);
    (str "sv", ENC_ISO_8859_1, swedish_ISO_8859_1);
    (str "sv", ENC_UTF_8, swedish_UTF_8);
    (str "swe", ENC_ISO_8859_1, swedish_ISO_8859_1);
    (str "swe", ENC_UTF_8, swedish_UTF_8);
    (str "swedish", ENC_ISO_8859_1, swedish_ISO_8859_1);
    (str "swedish", ENC_UTF_8, swedish_UTF_8);
    (str "tr", ENC_UTF_8, turkish_UTF_8);
    (str "tur", ENC_UTF_8, turkish_UTF_8);
    (str "turkish", ENC_UTF_8, turkish_UTF_8) ].

Definition algorithm_names : list (list Z) :=
  [ str "danish"; str "dutch"; str "english"; str "finnish"; str "french"; str "german";
    str "hungarian"; str "italian"; str "norwegian"; str "porter"; str "portuguese";
    str "romanian"; str "russian"; str "spanish"; str "swedish"; str "turkish" ].

(** [create], [close], [stem]: the columns of [struct stemmer_modules]. *)
Record stemmer_ops := mk_ops {
  create : option (option SN_env);
  close : option SN_env -> option unit;
  stem : cfunc
}.

(** [struct sb_stemmer]; a null [close] marks a deleted stemmer. *)
Record sb_stemmer := mk_sb_stemmer {
  ss_create : option (option SN_env);
  ss_close : option (option SN_env -> option unit);
  ss_stem : cfunc;
  env : option SN_env
}.

Definition set_env (e : option SN_env) (s : sb_stemmer) : sb_stemmer :=
  mk_sb_stemmer (ss_create s) (ss_close s) (ss_stem s) e.

(** ** [libstemmer.c] *)
Definition sb_stemmer_list : list (list Z) := algorithm_names.

Definition sb_getenc (charenc : option (list Z)) : stemmer_encoding_t :=
  match charenc with
  | None => ENC_UTF_8
  | Some charenc =>
      match find (fun e => bool_decide (e.1 = charenc)) encodings with
      | None => ENC_UNKNOWN
      | Some e => e.2
      end
  end.

(** [sb_stemmer_delete]: nothing of the stemmer survives; [None] would be
    undefined behaviour of [close]. *)
Definition sb_stemmer_delete (s : option sb_stemmer) : option unit :=
  match s with
  | None => Some tt
  | Some s =>
      match ss_close s with
      | None => Some tt
      | Some close => close (env s)
      end
  end.

(** The keys of the table are distinct and none is for an unknown
    encoding. *)
Lemma modules_known alg enc m : (alg, enc, m) ∈ modules -> enc <> ENC_UNKNOWN.
Proof.
  assert (Forall (fun r => r.1.2 <> ENC_UNKNOWN) modules) as Hf
    by (apply (bool_decide_unpack _); vm_compute; exact I).
  rewrite Forall_forall in Hf. intros Hin. exact (Hf _ Hin).
Qed.

Lemma modules_functional alg enc m m' :
  (alg, enc, m) ∈ modules -> (alg, enc, m') ∈ modules -> m = m'.
Proof.
  assert (NoDup (fst <$> modules)) as Hf by (apply (bool_decide_unpack _); vm_compute; exact I).
  intros [i Hi]%list_elem_of_lookup [j Hj]%list_elem_of_lookup.
  assert (i = j) as <-.
  { eapply (NoDup_lookup _ i j (alg, enc) Hf); rewrite list_lookup_fmap; [by rewrite Hi|by rewrite Hj]. }
  congruence.
Qed.

Section Driver.
Context `{CHeap} (ops : module_id -> stemmer_ops).

Definition sb_stemmer_bytes : Z := 32.

(** The inner [None] is NULL. *)
Definition sb_stemmer_new (algorithm : list Z) (charenc : option (list Z))
    : option (option sb_stemmer) :=
  let enc := sb_getenc charenc in
  if bool_decide (enc = ENC_UNKNOWN) then Some None else
  match find (fun m => bool_decide (m.1.1 = algorithm) && bool_decide (m.1.2 = enc)) modules with
  | None => Some None
  | Some m =>
      if negb (malloc_ok sb_stemmer_bytes) then Some None else
      let o := ops m.2 in
      e ← create o;
      let s := mk_sb_stemmer (create o) (Some (close o)) (stem o) e in
      match e with
      | None => _ ← sb_stemmer_delete (Some s); Some None
      | Some _ => Some (Some s)
      end
  end.

(** The returned pointer is the block it points to, or NULL. *)
Definition sb_stemmer_stem (s : sb_stemmer) (word : mem) (size : Z)
    : option (option mem * sb_stemmer) :=
  z ← env s;
  '(err, z) ← SN_set_current size word z;
  if negb (err =? 0) then Some (None, set_env (Some (set_l 0 z)) s) else
  '(ret, z) ← ss_stem s z;
  if ret <? 0 then Some (None, set_env (Some z) s) else
  b ← sn_p z;
  m ← stores (symbols b) (sn_l z) [Some 0];
  let z := set_p (Some (set_symbols b m)) z in
  Some (Some m, set_env (Some z) s).

Definition sb_stemmer_length (s : sb_stemmer) : option Z := sn_l <$> env s.
End Driver.

(** ** [stem.cc] *)

Section Pimpl.
Context `{CHeap} (ops : module_id -> stemmer_ops).

Definition Pimpl_new (language : list Z) : option (outcome sb_stemmer) :=
  r ← sb_stemmer_new ops language (Some (str "UTF_8"));
  Some match r with
       | None => Throw (runtime_error (str "sb_stemmer_new for: " ++ language ++ str " not found"))
       | Some s => Value s
       end.

Definition Pimpl_delete (s : sb_stemmer) : option unit := sb_stemmer_delete (Some s).

(** [word.c_str()] is terminated by a zero. *)
Definition Pimpl_stem (s : sb_stemmer) (word : list Z) : option (outcome (list Z) * sb_stemmer) :=
  '(stemmed, s) ← sb_stemmer_stem s ((Some <$> word) ++ [Some 0]) (cast_int (zlen word));
  match stemmed with
  | None => Some (Throw (runtime_error (str "sb_stemmer_stem returns NULL")), s)
  | Some m =>
      len ← sb_stemmer_length s;
      if len <? 0 then Some (Throw (runtime_error (str "sb_stemmer_stem negative length")), s)
      else r ← loads m 0 len; Some (Value r, s)
  end.

(** The loop of [main]: [while(getline(cin, instr)) cout <<
    stemmer.stem(instr)]; an exception ends it. *)
Fixpoint stem_lines (s : sb_stemmer) (lines : list (list Z))
    : option (outcome (list (list Z)) * sb_stemmer) :=
  match lines with
  | [] => Some (Value [], s)
  | instr :: rest =>
      '(o, s) ← Pimpl_stem s instr;
      match o with
      | Throw e => Some (Throw e, s)
      | Value w =>
          '(o, s) ← stem_lines s rest;
          Some (match o with Value ws => Value (w :: ws) | Throw e => Throw e end, s)
      end
  end.
End Pimpl.

(** The modules modelled here, with the other modules as they are. *)
Section Modules.
Context `{CHeap}.

Definition porter_ops : stemmer_ops :=
  mk_ops Porter.porter_UTF_8_create_env Porter.porter_UTF_8_close_env Porter.porter_UTF_8_stem.
Definition porter_iso_ops : stemmer_ops :=
  mk_ops PorterIso.porter_ISO_8859_1_create_env PorterIso.porter_ISO_8859_1_close_env PorterIso.porter_ISO_8859_1_stem.
Definition english_ops : stemmer_ops :=
  mk_ops English.english_UTF_8_create_env English.english_UTF_8_close_env English.english_UTF_8_stem.
Definition english_iso_ops : stemmer_ops :=
  mk_ops EnglishIso.english_ISO_8859_1_create_env EnglishIso.english_ISO_8859_1_close_env EnglishIso.english_ISO_8859_1_stem.
Definition norwegian_ops : stemmer_ops :=
  mk_ops Norwegian.norwegian_UTF_8_create_env Norwegian.norwegian_UTF_8_close_env Norwegian.norwegian_UTF_8_stem.
Definition norwegian_iso_ops : stemmer_ops :=
  mk_ops NorwegianIso.norwegian_ISO_8859_1_create_env NorwegianIso.norwegian_ISO_8859_1_close_env NorwegianIso.norwegian_ISO_8859_1_stem.
Definition swedish_ops : stemmer_ops :=
  mk_ops Swedish.swedish_UTF_8_create_env Swedish.swedish_UTF_8_close_env Swedish.swedish_UTF_8_stem.
Definition swedish_iso_ops : stemmer_ops :=
  mk_ops SwedishIso.swedish_ISO_8859_1_create_env SwedishIso.swedish_ISO_8859_1_close_env SwedishIso.swedish_ISO_8859_1_stem.
Definition german_ops : stemmer_ops :=
  mk_ops German.german_UTF_8_create_env German.german_UTF_8_close_env German.german_UTF_8_stem.
Definition spanish_ops : stemmer_ops :=
  mk_ops Spanish.spanish_UTF_8_create_env Spanish.spanish_UTF_8_close_env Spanish.spanish_UTF_8_stem.
Definition spanish_iso_ops : stemmer_ops :=
  mk_ops SpanishIso.spanish_ISO_8859_1_create_env SpanishIso.spanish_ISO_8859_1_close_env SpanishIso.spanish_ISO_8859_1_stem.
Definition portuguese_ops : stemmer_ops :=
  mk_ops Portuguese.portuguese_UTF_8_create_env Portuguese.portuguese_UTF_8_close_env Portuguese.portuguese_UTF_8_stem.
Definition italian_ops : stemmer_ops :=
  mk_ops Italian.italian_UTF_8_create_env Italian.italian_UTF_8_close_env Italian.italian_UTF_8_stem.
Definition italian_iso_ops : stemmer_ops :=
  mk_ops ItalianIso.italian_ISO_8859_1_create_env ItalianIso.italian_ISO_8859_1_close_env ItalianIso.italian_ISO_8859_1_stem.
Definition romanian_ops : stemmer_ops :=
  mk_ops Romanian.romanian_UTF_8_create_env Romanian.romanian_UTF_8_close_env Romanian.romanian_UTF_8_stem.
Definition romanian_iso_ops : stemmer_ops :=
  mk_ops RomanianIso.romanian_ISO_8859_2_create_env RomanianIso.romanian_ISO_8859_2_close_env RomanianIso.romanian_ISO_8859_2_stem.
Definition hungarian_ops : stemmer_ops :=
  mk_ops Hungarian.hungarian_UTF_8_create_env Hungarian.hungarian_UTF_8_close_env Hungarian.hungarian_UTF_8_stem.
Definition hungarian_iso_ops : stemmer_ops :=
  mk_ops HungarianIso.hungarian_ISO_8859_1_create_env HungarianIso.hungarian_ISO_8859_1_close_env HungarianIso.hungarian_ISO_8859_1_stem.
Definition russian_ops : stemmer_ops :=
  mk_ops Russian.russian_UTF_8_create_env Russian.russian_UTF_8_close_env Russian.russian_UTF_8_stem.
Definition russian_koi8_ops : stemmer_ops :=
  mk_ops RussianKoi8.russian_KOI8_R_create_env RussianKoi8.russian_KOI8_R_close_env RussianKoi8.russian_KOI8_R_stem.
Definition dutch_ops : stemmer_ops :=
  mk_ops Dutch.dutch_UTF_8_create_env Dutch.dutch_UTF_8_close_env Dutch.dutch_UTF_8_stem.
Definition dutch_iso_ops : stemmer_ops :=
  mk_ops DutchIso.dutch_ISO_8859_1_create_env DutchIso.dutch_ISO_8859_1_close_env DutchIso.dutch_ISO_8859_1_stem.
Definition french_ops : stemmer_ops :=
  mk_ops French.french_UTF_8_create_env French.french_UTF_8_close_env French.french_UTF_8_stem.
Definition french_iso_ops : stemmer_ops :=
  mk_ops FrenchIso.french_ISO_8859_1_create_env FrenchIso.french_ISO_8859_1_close_env FrenchIso.french_ISO_8859_1_stem.

(** With their numbers of integer and boolean variables. *)
Definition modelled : list (stemmer_ops * nat * nat) :=
  [ (porter_ops, 2%nat, 1%nat); (porter_iso_ops, 2%nat, 1%nat);
    (english_ops, 2%nat, 1%nat); (english_iso_ops, 2%nat, 1%nat);
    (norwegian_ops, 2%nat, 0%nat); (norwegian_iso_ops, 2%nat, 0%nat);
    (swedish_ops, 2%nat, 0%nat); (swedish_iso_ops, 2%nat, 0%nat);
    (german_ops, 3%nat, 0%nat); (spanish_ops, 3%nat, 0%nat);
    (spanish_iso_ops, 3%nat, 0%nat); (portuguese_ops, 3%nat, 0%nat);
    (italian_ops, 3%nat, 0%nat); (italian_iso_ops, 3%nat, 0%nat);
    (romanian_ops, 3%nat, 1%nat); (romanian_iso_ops, 3%nat, 1%nat);
    (hungarian_ops, 1%nat, 0%nat); (hungarian_iso_ops, 1%nat, 0%nat);
    (russian_ops, 2%nat, 0%nat); (russian_koi8_ops, 2%nat, 0%nat);
    (dutch_ops, 2%nat, 1%nat); (dutch_iso_ops, 2%nat, 1%nat);
    (french_ops, 3%nat, 0%nat); (french_iso_ops, 3%nat, 0%nat) ].

Definition with_modelled (others : module_id -> stemmer_ops) (m : module_id) : stemmer_ops :=
  match m with
  | porter_UTF_8 => porter_ops
  | porter_ISO_8859_1 => porter_iso_ops
  | english_UTF_8 => english_ops
  | english_ISO_8859_1 => english_iso_ops
  | norwegian_UTF_8 => norwegian_ops
  | norwegian_ISO_8859_1 => norwegian_iso_ops
  | swedish_UTF_8 => swedish_ops
  | swedish_ISO_8859_1 => swedish_iso_ops
  | german_UTF_8 => german_ops
  | spanish_UTF_8 => spanish_ops
  | spanish_ISO_8859_1 => spanish_iso_ops
  | portuguese_UTF_8 => portuguese_ops
  | italian_UTF_8 => italian_ops
  | italian_ISO_8859_1 => italian_iso_ops
  | romanian_UTF_8 => romanian_ops
  | romanian_ISO_8859_2 => romanian_iso_ops
  | hungarian_UTF_8 => hungarian_ops
  | hungarian_ISO_8859_1 => hungarian_iso_ops
  | russian_UTF_8 => russian_ops
  | russian_KOI8_R => russian_koi8_ops
  | dutch_UTF_8 => dutch_ops
  | dutch_ISO_8859_1 => dutch_iso_ops
  | french_UTF_8 => french_ops
  | french_ISO_8859_1 => french_iso_ops
  | _ => others m
  end.
End Modules.

(** ** What the driver relies on *)

(** A state between two calls: no buffer after an allocation failure, or one
    that holds the last result. *)
Definition ready (ni nb : nat) (z : SN_env) : Prop :=
  sn_lb z = 0 /\ 0 <= sn_c z <= sn_l z /\ (length (sn_I z) = ni /\ Forall (Z.le 0) (sn_I z)) /\ length (sn_B z) = nb
  /\ ((sn_p z = None /\ sn_l z = 0) \/ exists k w, holds k w z).

(** What the driver relies on: a stemmer whose results are never longer than the
    word and that keeps no string variable.  The modules of [modelled] satisfy it.
    Seven compiled modules do not, and nothing is said of them through it: those
    with a string variable (Danish and Finnish) and Turkish, and German and
    Portuguese in ISO 8859-1, whose words may grow. *)
Class stemmer_laws `{CHeap} (o : stemmer_ops) (ni nb : nat) : Prop := {
  law_create : create o = Some None \/ exists z, create o = Some (Some z) /\ ready ni nb z;
  law_create_ok : (forall n, n <= 100 -> malloc_ok n = true) -> create o <> Some None;
  law_close : forall z, close o z = Some tt;
  law_stem : forall k w z, holds k w z -> ready ni nb z -> sn_c z = 0 ->
    returns (stem o) z (fun v z' => 0 <= v /\ ready ni nb z' /\
      exists w', holds k w' z' /\ zlen w' <= zlen w)
}.

Section Laws.
Context `{CHeap}.

Lemma create_s_holds z b : create_s = Some b -> sn_l z = 0 -> holds 1 [] (set_p (Some b) z).
Proof.
  unfold create_s, holds, CREATE_SIZE, INT_MAX. case_match; [|done]. intros [= <-] Hl.
  exists [None; None]. cbn. split_and!; (done || lia || constructor).
Qed.

Lemma create_env_ok ni nb :
  0 <= ni -> 0 <= nb ->
  SN_create_env 0 ni nb = Some None \/
  exists z, SN_create_env 0 ni nb = Some (Some z) /\ ready (Z.to_nat ni) (Z.to_nat nb) z.
Proof.
  intros Hi Hb. unfold SN_create_env, SN_close_env. cbn.
  destruct (malloc_ok SN_env_bytes); [|by left]. cbn.
  destruct create_s as [b|] eqn:Eb; cbn; [|by left].
  destruct (negb (ni =? 0) && negb (malloc_ok (ni * 4))); cbn; [by left|].
  destruct (negb (nb =? 0) && negb (malloc_ok nb)); cbn; [by left|]. right. eexists. split; [done|].
  unfold ready. cbn. rewrite !length_replicate. split_and!; try done; [by apply Forall_replicate|]. right. exists 1, [].
  by apply (create_s_holds (mk_SN_env None 0 0 0 0 0 [] (replicate (Z.to_nat ni) 0) (replicate (Z.to_nat nb) 0))) in Eb.
Qed.

Lemma create_env_granted ni nb :
  (forall n, n <= 100 -> malloc_ok n = true) -> ni * 4 <= 100 -> nb <= 100 ->
  SN_create_env 0 ni nb <> Some None.
Proof.
  intros Hm Hi Hb. unfold SN_create_env, create_s. cbn.
  rewrite (Hm SN_env_bytes), (Hm (HEAD + _)), (Hm (ni * 4)), (Hm nb) by (done || lia).
  by destruct (ni =? 0), (nb =? 0).
Qed.

(** What has to be shown of a stemmer for the laws. *)
Definition stem_fun_ok (f : cfunc) (ni nb : nat) : Prop := forall k w z,
  st k (zlen w) ni nb w z -> sn_c z = 0 ->
  returns f z (fun v z' => v = 1 /\ exists w', st k (zlen w) ni nb w' z' /\ (sn_lb z' = sn_lb z \/ sn_lb z' = sn_c z)).

Lemma stem_fun_ready f ni nb k w z : stem_fun_ok f ni nb -> holds k w z -> ready ni nb z -> sn_c z = 0 ->
  returns f z (fun v z' => v = 1 /\ ready ni nb z' /\ exists w', holds k w' z' /\ zlen w' <= zlen w).
Proof.
  intros Hst Hw (Hlb & Hc & [HI HM] & HB & _) Hc0. eapply returns_mono; [apply (Hst k w z); [|done]|].
  { pose proof (holds_cap _ _ _ Hw). split; try done; [|lia]. unfold cursor. lia. }
  intros v z' (-> & w' & S' & Hlb'). split; [done|]. pose proof (st_range _ _ _ _ _ _ S').
  destruct S' as [Hw' [??] Hb'' ? ? ? ?]. split; [|eauto].
  unfold ready. split_and!; try done; try lia. eauto.
Qed.

Lemma make_laws (o : stemmer_ops) (ni nb : nat) :
  (ni <= 25)%nat -> (nb <= 100)%nat ->
  create o = SN_create_env 0 (Z.of_nat ni) (Z.of_nat nb) -> close o = (fun z => SN_close_env z 0) ->
  stem_fun_ok (stem o) ni nb -> stemmer_laws o ni nb.
Proof.
  intros Hi Hb Hcr Hcl Hst. split.
  - rewrite Hcr. destruct (create_env_ok (Z.of_nat ni) (Z.of_nat nb)) as [?|Hz]; [lia..|by left|]. rewrite !Nat2Z.id in Hz. by right.
  - intros Hm. rewrite Hcr. apply create_env_granted; (done || lia).
  - rewrite Hcl. intros [z|]; [|done]. cbn. unfold SN_close_env. by rewrite (proj2 (Z.leb_le _ _) (zlen_nonneg _)).
  - intros k w z Hw Hr Hc. eapply returns_mono; [by eapply stem_fun_ready|].
    intros v z' (-> & ? & ?). split; [lia|done].
Qed.

Lemma porter_fun_ok : stem_fun_ok Porter.porter_UTF_8_stem 2 1.
Proof.
  intros k w z S _. eapply returns_mono; [exact (Porter.stem_ok k (zlen w) w z S)|].
  intros v z' (-> & w' & ? & ?). eauto.
Qed.

Lemma porter_iso_fun_ok : stem_fun_ok PorterIso.porter_ISO_8859_1_stem 2 1.
Proof.
  intros k w z S _. eapply returns_mono; [exact (PorterIso.iso_stem_ok k (zlen w) w z S)|].
  intros v z' (-> & w' & ? & ?). eauto.
Qed.

Lemma english_fun_ok : stem_fun_ok English.english_UTF_8_stem 2 1.
Proof. intros k w z S _. exact (English.en_stem_ok k (zlen w) w z S). Qed.

Lemma english_iso_fun_ok : stem_fun_ok EnglishIso.english_ISO_8859_1_stem 2 1.
Proof. intros k w z. exact (EnglishIso.eni_stem_ok k (zlen w) w z). Qed.

Lemma norwegian_fun_ok : stem_fun_ok Norwegian.norwegian_UTF_8_stem 2 0.
Proof. intros k w z. exact (Norwegian.no_stem_ok k (zlen w) w z). Qed.

Lemma norwegian_iso_fun_ok : stem_fun_ok NorwegianIso.norwegian_ISO_8859_1_stem 2 0.
Proof. intros k w z. exact (NorwegianIso.noi_stem_ok k (zlen w) w z). Qed.

Lemma swedish_fun_ok : stem_fun_ok Swedish.swedish_UTF_8_stem 2 0.
Proof. intros k w z. exact (Swedish.sv_stem_ok k (zlen w) w z). Qed.

Lemma swedish_iso_fun_ok : stem_fun_ok SwedishIso.swedish_ISO_8859_1_stem 2 0.
Proof. intros k w z. exact (SwedishIso.svi_stem_ok k (zlen w) w z). Qed.

Lemma german_fun_ok : stem_fun_ok German.german_UTF_8_stem 3 0.
Proof. intros k w z. exact (German.de_stem_ok k (zlen w) w z). Qed.

Lemma spanish_fun_ok : stem_fun_ok Spanish.spanish_UTF_8_stem 3 0.
Proof. intros k w z. exact (Spanish.es_stem_ok k (zlen w) w z). Qed.

Lemma spanish_iso_fun_ok : stem_fun_ok SpanishIso.spanish_ISO_8859_1_stem 3 0.
Proof. intros k w z. exact (SpanishIso.esi_stem_ok k (zlen w) w z). Qed.

Lemma portuguese_fun_ok : stem_fun_ok Portuguese.portuguese_UTF_8_stem 3 0.
Proof. intros k w z. exact (Portuguese.pt_stem_ok k (zlen w) w z). Qed.

Lemma italian_fun_ok : stem_fun_ok Italian.italian_UTF_8_stem 3 0.
Proof. intros k w z. exact (Italian.it_stem_ok k (zlen w) w z). Qed.

Lemma italian_iso_fun_ok : stem_fun_ok ItalianIso.italian_ISO_8859_1_stem 3 0.
Proof. intros k w z. exact (ItalianIso.iti_stem_ok k (zlen w) w z). Qed.

Lemma romanian_fun_ok : stem_fun_ok Romanian.romanian_UTF_8_stem 3 1.
Proof. intros k w z. exact (Romanian.ro_stem_ok k (zlen w) w z). Qed.

Lemma romanian_iso_fun_ok : stem_fun_ok RomanianIso.romanian_ISO_8859_2_stem 3 1.
Proof. intros k w z. exact (RomanianIso.roi_stem_ok k (zlen w) w z). Qed.

Lemma hungarian_fun_ok : stem_fun_ok Hungarian.hungarian_UTF_8_stem 1 0.
Proof. intros k w z. exact (Hungarian.hu_stem_ok k (zlen w) w z). Qed.

Lemma hungarian_iso_fun_ok : stem_fun_ok HungarianIso.hungarian_ISO_8859_1_stem 1 0.
Proof. intros k w z. exact (HungarianIso.hui_stem_ok k (zlen w) w z). Qed.

Lemma russian_fun_ok : stem_fun_ok Russian.russian_UTF_8_stem 2 0.
Proof. intros k w z. exact (Russian.ru_stem_ok k (zlen w) w z). Qed.

Lemma russian_koi8_fun_ok : stem_fun_ok RussianKoi8.russian_KOI8_R_stem 2 0.
Proof. intros k w z. exact (RussianKoi8.ruk_stem_ok k (zlen w) w z). Qed.

Lemma dutch_fun_ok : stem_fun_ok Dutch.dutch_UTF_8_stem 2 1.
Proof. intros k w z. exact (Dutch.nl_stem_ok k (zlen w) w z). Qed.

Lemma dutch_iso_fun_ok : stem_fun_ok DutchIso.dutch_ISO_8859_1_stem 2 1.
Proof. intros k w z. exact (DutchIso.nli_stem_ok k (zlen w) w z). Qed.

Lemma french_fun_ok : stem_fun_ok French.french_UTF_8_stem 3 0.
Proof. intros k w z. exact (French.fr_stem_ok k (zlen w) w z). Qed.

Lemma french_iso_fun_ok : stem_fun_ok FrenchIso.french_ISO_8859_1_stem 3 0.
Proof. intros k w z. exact (FrenchIso.fri_stem_ok k (zlen w) w z). Qed.

Ltac row H := apply Forall_cons_2; [split; [apply make_laws; [cbn; lia..|reflexivity|reflexivity|exact H]|exact H]|].

(** Every row of [modelled] has its numbers from its [create] and its stem
    function from the lemmas above. *)
Lemma modelled_ok o ni nb : (o, ni, nb) ∈ modelled -> stemmer_laws o ni nb /\ stem_fun_ok (stem o) ni nb.
Proof.
  assert (Forall (fun r => stemmer_laws r.1.1 r.1.2 r.2 /\ stem_fun_ok (stem r.1.1) r.1.2 r.2) modelled) as Hall.
  { row porter_fun_ok. row porter_iso_fun_ok. row english_fun_ok. row english_iso_fun_ok. row
    norwegian_fun_ok. row norwegian_iso_fun_ok. row swedish_fun_ok. row swedish_iso_fun_ok. row
    german_fun_ok. row spanish_fun_ok. row spanish_iso_fun_ok. row portuguese_fun_ok. row
    italian_fun_ok. row italian_iso_fun_ok. row romanian_fun_ok. row romanian_iso_fun_ok. row
    hungarian_fun_ok. row hungarian_iso_fun_ok. row russian_fun_ok. row russian_koi8_fun_ok. row
    dutch_fun_ok. row dutch_iso_fun_ok. row french_fun_ok. row french_iso_fun_ok.
    apply Forall_nil_2. }
  rewrite Forall_forall in Hall. apply (Hall (o, ni, nb)).
Qed.

#[export] Instance porter_laws : stemmer_laws porter_ops 2 1.
Proof. apply make_laws; [lia..|done|done|]. apply porter_fun_ok. Qed.
End Laws.

(** ** [SN_set_current] *)
Section SetCurrent.
Context `{CHeap}.

(** Only the first [n] symbols of the source are read. *)
Lemma replace_s_src z bra ket n x y :
  zlen x = n -> replace_s z bra ket n (x ++ y) = replace_s z bra ket n x.
Proof.
  intros Hn. pose proof (zlen_nonneg x). pose proof (zlen_nonneg y). unfold replace_s.
  rewrite !in_block_true by (rewrite ?zlen_app; lia).
  replace (zseg 0 n (x ++ y)) with (zseg 0 n x); [done|].
  unfold zseg. rewrite !zdrop_0, ztake_app_l by lia. done.
Qed.

(** A NULL buffer is created first. *)
Lemma replace_s_null z bra ket n s b :
  sn_p z = None -> create_s = Some b ->
  replace_s z bra ket n s = replace_s (set_p (Some b) z) bra ket n s.
Proof. intros Hp Hb. unfold replace_s. by rewrite Hp, Hb. Qed.

(** Out of memory: the old buffer is gone. *)
Lemma replace_s_nomem k w z bra ket s :
  holds k w z -> 0 <= bra <= ket -> ket <= zlen w -> zlen s <= INT_MAX - 22 ->
  let total := zlen w + 1 + (zlen s - (ket - bra)) in
  k < total -> total + 20 <= INT_MAX -> malloc_ok (HEAD + (total + 20 + 1)) = false ->
  replace_s z bra ket (zlen s) (Some <$> s) = Some (-1, None, set_p None z).
Proof.
  intros (r & Hp & Hr & Hk & Hl & Hw) Hb Hkt Hs total Hlt Hmax Hm.
  pose proof (zlen_nonneg s). pose proof (zlen_nonneg w).
  unfold replace_s, increase_size. rewrite Hp. cbn [CAPACITY SIZE].
  rewrite cint_in by (unfold INT_MIN, INT_MAX in *; lia). cbn [mbind option_bind].
  rewrite (proj2 (Z.eqb_neq (zlen s - (ket - bra)) 0)) by lia. cbn [negb].
  replace (zlen s - (ket - bra) + (zlen w + 1)) with total by (unfold total; lia).
  rewrite cint_in by (unfold INT_MIN, INT_MAX in *; lia). cbn [mbind option_bind].
  rewrite Z.gtb_ltb, (proj2 (Z.ltb_lt _ _)) by done.
  rewrite cint_in by (unfold INT_MIN, INT_MAX in *; lia). cbn [mbind option_bind].
  by rewrite Hm.
Qed.

(** The heap grants what a word of [n] symbols needs. *)
Definition grants (n : Z) : Prop := forall m, m <= HEAD + (n + 22) -> malloc_ok m = true.

Definition current_post (ni nb : nat) (w : list Z) (v : Z) (z' : SN_env) : Prop :=
  sn_c z' = 0 /\ sn_lb z' = 0 /\ (length (sn_I z') = ni /\ Forall (Z.le 0) (sn_I z')) /\ length (sn_B z') = nb /\
  ((v = 0 /\ exists k, holds k w z') \/ (v = -1 /\ sn_p z' = None /\ ~ grants (zlen w))).

Lemma set_current_held ni nb k w z s rest :
  holds k w z -> ready ni nb z -> bytes_ok s -> zlen s <= INT_MAX - 22 ->
  returns (SN_set_current (zlen s) ((Some <$> s) ++ rest)) z (current_post ni nb s).
Proof.
  intros Hw (Hlb & Hc & [HI HM] & HB & _) Hs Hm. pose proof (holds_l _ _ _ Hw) as Hl.
  pose proof (holds_cap _ _ _ Hw). pose proof (zlen_nonneg s). pose proof (zlen_nonneg w).
  unfold SN_set_current, returns. rewrite replace_s_src by (by rewrite zlen_fmap).
  destruct (decide (zlen s + 1 <= k \/ malloc_ok (HEAD + (zlen s + 1 + 20 + 1)) = true)) as [Hr|Hr].
  - destruct (replace_s_spec k w z 0 (sn_l z) s) as (z' & He & Hh & Hc' & Hf);
      [exact Hw|lia|lia|lia|exact Hs|lia| |].
    { unfold room. destruct Hr as [?|Hr]; [left; lia|right]. split; [|lia].
      rewrite <- Hr. f_equal. lia. }
    rewrite He. eexists _, _. split; [done|]. destruct Hf as (?&?&?&?&?&?).
    unfold current_post. cbn. split_and!; try done; try congruence.
    left. split; [done|].
    assert (splice 0 (sn_l z) s w = s) as Hsp
      by (unfold splice; rewrite ztake_0, zdrop_all by lia; apply app_nil_r).
    rewrite Hsp in Hh. eexists. exact Hh.
  - apply Decidable.not_or in Hr as [Hr1 Hr2].
    rewrite (replace_s_nomem k w); [|exact Hw|lia..|rewrite <- (not_true_is_false _ Hr2); f_equal; lia].
    eexists _, _. split; [done|]. unfold current_post. cbn. split_and!; try done. right.
    split_and!; try done. intros Hg. apply Hr2, Hg. lia.
Qed.

Lemma set_current_ok ni nb z s rest :
  ready ni nb z -> bytes_ok s -> zlen s <= INT_MAX - 22 ->
  returns (SN_set_current (zlen s) ((Some <$> s) ++ rest)) z (current_post ni nb s).
Proof.
  intros Hz Hs Hm. destruct Hz as (Hlb & Hc & [HI HM] & HB & [(Hp & Hl)|(k & w & Hw)]) eqn:E; clear E;
    [|by eapply set_current_held].
  destruct create_s as [b|] eqn:Eb.
  - pose proof (create_s_holds z b Eb Hl) as Hw.
    destruct (set_current_held ni nb 1 [] (set_p (Some b) z) s rest) as (v & z' & He & Hq); try done.
    { unfold ready. split_and!; try done; cbn; try lia. eauto. }
    exists v, z'. split; [|done]. rewrite <- He. unfold SN_set_current. cbn [sn_l set_p].
    by rewrite (replace_s_null z _ _ _ _ b).
  - unfold returns, SN_set_current, replace_s. rewrite Hp, Eb. eexists _, _. split; [done|].
    unfold current_post. cbn. split_and!; try done. right. split_and!; try done.
    intros Hg. unfold create_s in Eb. rewrite Hg in Eb; [done|].
    pose proof (zlen_nonneg s). unfold CREATE_SIZE. lia.
Qed.
End SetCurrent.

(** ** The driver *)

(** [p[l] = 0] terminates the word and leaves it in place. *)
Lemma holds_terminate k w z b :
  holds k w z -> sn_p z = Some b ->
  exists m, stores (symbols b) (sn_l z) [Some 0] = Some m
    /\ holds k w (set_p (Some (set_symbols b m)) z)
    /\ loads m 0 (zlen w) = Some w /\ load m (zlen w) = Some 0.
Proof.
  intros (r & Hp & Hr & Hk & Hl & Hw) Hb. rewrite Hp in Hb. injection Hb as <-. cbn [symbols].
  pose proof (zlen_nonneg w). destruct r as [|x r]; [rewrite zlen_nil in Hr; lia|].
  rewrite zlen_cons in Hr. pose proof (zlen_nonneg r). rewrite Hl.
  rewrite stores_eq by (rewrite ?zlen_app, ?zlen_fmap, ?zlen_cons, ?zlen_nil; lia).
  rewrite ztake_app_l, ztake_all, zdrop_app_r by (rewrite ?zlen_fmap, ?zlen_cons, ?zlen_nil; lia).
  replace (zlen w + zlen [Some 0] - zlen (Some <$> w)) with 1 by (rewrite zlen_fmap, zlen_cons, zlen_nil; lia).
  exists ((Some <$> w) ++ Some 0 :: r). split_and!; [done| | |].
  - exists (Some 0 :: r). split; [done|]. rewrite zlen_cons. split_and!; try done; lia.
  - rewrite loads_fmap by lia. unfold zseg. by rewrite zdrop_0, ztake_all by lia.
  - unfold load. rewrite znth_app_r by (rewrite zlen_fmap; lia). rewrite zlen_fmap, Z.sub_diag. done.
Qed.

Section DriverSpec.
Context `{CHeap} (ni nb : nat).

(** A live stemmer of the module [o]. *)
Definition live (o : stemmer_ops) (s : sb_stemmer) : Prop :=
  ss_stem s = stem o /\ ss_close s = Some (close o)
  /\ exists z, env s = Some z /\ ready ni nb z.

(** The [stem] function of the module, run on the word [w] in the buffer as
    [SN_set_current] leaves it, leaves [w'] there. *)
Definition stems_to (o : stemmer_ops) (w w' : list Z) : Prop :=
  exists k z v z', holds k w z /\ ready ni nb z /\ sn_c z = 0 /\ stem o z = Some (v, z') /\ 0 <= v /\ holds k w' z'.

(** What a call to [sb_stemmer_stem] leaves behind. *)
Definition stem_post (o : stemmer_ops) (w : list Z) (r : option mem) (s' : sb_stemmer) : Prop :=
  live o s' /\
  match r with
  | None => ~ grants (zlen w)
  | Some m => exists w', stems_to o w w' /\ zlen w' <= zlen w /\ bytes_ok w' /\ sb_stemmer_length s' = Some (zlen w')
      /\ loads m 0 (zlen w') = Some w' /\ load m (zlen w') = Some 0
  end.

Lemma sb_stemmer_stem_ok o `{!stemmer_laws o ni nb} s w rest :
  live o s -> bytes_ok w -> zlen w <= INT_MAX - 22 ->
  exists r s', sb_stemmer_stem s ((Some <$> w) ++ rest) (zlen w) = Some (r, s')
    /\ stem_post o w r s'.
Proof.
  intros (Hst & Hcl & z & Hz & Hr) Hw Hm. unfold sb_stemmer_stem. rewrite Hz. cbn [mbind option_bind].
  destruct (set_current_ok ni nb z w rest Hr Hw Hm) as (v & z1 & He & Hc1 & Hlb1 & [HI1 HM1] & HB1 & Hv).
  rewrite He. cbn [mbind option_bind].
  destruct Hv as [(-> & k & Hh)|(-> & Hp & Hg)]; cbn.
  - pose proof (holds_l _ _ _ Hh) as Hl1. pose proof (zlen_nonneg w).
    assert (ready ni nb z1) as Hr1 by (unfold ready; split_and!; eauto; lia).
    destruct (law_stem k w z1 Hh Hr1 Hc1) as (v2 & z2 & He2 & Hv2 & Hr2 & w' & Hh2 & Hlen).
    rewrite Hst, He2. cbn [mbind option_bind]. rewrite (proj2 (Z.ltb_ge _ _)) by lia.
    destruct (sn_p z2) as [b|] eqn:Eb; [|by destruct Hh2 as (? & ? & _); congruence].
    destruct (holds_terminate k w' z2 b Hh2 Eb) as (m & Hsm & Hh3 & Hld & Ht).
    cbn [mbind option_bind]. rewrite Hsm. cbn. eexists _, _. split; [done|]. split.
    + split_and!; try done. eexists. split; [done|].
      destruct Hr2 as (?&?&[??]&?&_). unfold ready. cbn. split_and!; eauto; lia.
    + exists w'. pose proof (holds_l _ _ _ Hh2). pose proof (holds_bytes _ _ _ Hh2).
      split_and!; try done; [by exists k, z1, v2, z2|]. unfold sb_stemmer_length. cbn. by f_equal.
  - eexists _, _. split; [done|]. split; [|done]. split_and!; try done. eexists. split; [done|].
    unfold ready. cbn. split_and!; try done; try lia. by left.
Qed.

Lemma sb_stemmer_new_ok (ops : module_id -> stemmer_ops) alg charenc m :
  sb_getenc charenc <> ENC_UNKNOWN ->
  find (fun m => bool_decide (m.1.1 = alg) && bool_decide (m.1.2 = sb_getenc charenc)) modules
    = Some m ->
  forall `{!stemmer_laws (ops m.2) ni nb},
  (sb_stemmer_new ops alg charenc = Some None /\ ~ grants 100) \/
  exists s, sb_stemmer_new ops alg charenc = Some (Some s) /\ live (ops m.2) s.
Proof.
  intros Henc Hm Hlaws. unfold sb_stemmer_new. rewrite bool_decide_eq_false_2 by done. rewrite Hm.
  destruct (malloc_ok sb_stemmer_bytes) eqn:Em; cbn [negb].
  - destruct (law_create (o := ops m.2)) as [Hn|(z & Hz & Hr)].
    + left. rewrite Hn. cbn. unfold sb_stemmer_delete. cbn. rewrite law_close. split; [done|].
      intros Hg. revert Hn. apply law_create_ok. intros n Hn'. apply Hg. unfold HEAD. lia.
    + right. rewrite Hz. cbn. eexists. split; [done|]. split_and!; try done. eauto.
  - left. split; [done|]. intros Hg. rewrite Hg in Em; [done|]. unfold sb_stemmer_bytes, HEAD. lia.
Qed.
End DriverSpec.

(** ** The class [Stemmer] *)
Section PimplSpec.
Context `{CHeap} (ni nb : nat) (o : stemmer_ops) `{!stemmer_laws o ni nb}.

Lemma Pimpl_stem_ok s w :
  live ni nb o s -> bytes_ok w -> zlen w <= INT_MAX - 22 ->
  exists r s', Pimpl_stem s w = Some (r, s') /\ live ni nb o s' /\
    match r with
    | Value w' => stems_to ni nb o w w' /\ zlen w' <= zlen w /\ bytes_ok w'
    | Throw e => e = runtime_error (str "sb_stemmer_stem returns NULL") /\ ~ grants (zlen w)
    end.
Proof.
  intros Hs Hw Hm. pose proof (zlen_nonneg w). unfold Pimpl_stem.
  rewrite cast_int_in by (unfold INT_MIN; lia).
  destruct (sb_stemmer_stem_ok ni nb o s w [Some 0]) as (r & s' & -> & Hl & Hr); try done.
  cbn [mbind option_bind]. destruct r as [m|]; [|eauto 10].
  destruct Hr as (w' & Hst & Hlen & Hb & -> & Hld & _). cbn. pose proof (zlen_nonneg w').
  rewrite (proj2 (Z.ltb_ge _ _)) by lia. rewrite Hld. cbn. eauto 10.
Qed.

Lemma stem_lines_ok words : forall s,
  live ni nb o s ->
  Forall (fun w => bytes_ok w /\ zlen w <= INT_MAX - 22 /\ grants (zlen w)) words ->
  exists ws s', stem_lines s words = Some (Value ws, s') /\ live ni nb o s'
    /\ Forall2 (fun w w' => stems_to ni nb o w w' /\ zlen w' <= zlen w /\ bytes_ok w') words ws.
Proof.
  induction words as [|w words IH]; intros s Hs Hw; [by eexists [], s|].
  apply Forall_cons_1 in Hw as ((Hb & Hm & Hg) & Hw). cbn [stem_lines].
  destruct (Pimpl_stem_ok s w) as (r & s1 & -> & Hs1 & Hr); try done. cbn [mbind option_bind].
  destruct r as [w'|e]; [|by destruct Hr].
  destruct (IH s1) as (ws & s2 & -> & Hs2 & Hf); try done. cbn. eexists (w' :: ws), s2. eauto.
Qed.
End PimplSpec.

(** ** Claims *)

(** The row of a module in [modelled]. *)
Ltac find_row :=
  unfold modelled;
  repeat lazymatch goal with
  | |- (?o, _, _) ∈ (?o, _, _) :: _ => apply list_elem_of_here
  | |- _ => apply list_elem_of_further
  end.

(** Each of the 24 stemmers of [modelled] (Porter, English, Norwegian,
    Swedish, German, Spanish, Portuguese, Italian, Romanian, Hungarian,
    Russian, Dutch and French, the single-byte encodings too but for German and Portuguese), run on any word in the buffer (cursor and
    lower limit at 0, as [SN_set_current] leaves them), terminate within the
    fuel of their loops, have no undefined behaviour, return 1, keep the
    buffer and leave in it a word that is no longer than the original. *)
Theorem stem_total `{CHeap} o ni nb k w z :
  (o, ni, nb) ∈ modelled -> holds k w z -> ready ni nb z -> sn_c z = 0 ->
  exists z' w', stem o z = Some (1, z') /\ holds k w' z' /\ zlen w' <= zlen w /\ ready ni nb z'.
Proof.
  intros Ho Hw Hr Hc. apply modelled_ok in Ho as [_ Ho].
  destruct (stem_fun_ready _ _ _ k w z Ho Hw Hr Hc) as (v & z' & He & -> & Hr' & w' & Hw' & Hl). eauto 10.
Qed.

(** A heap that grants everything, and an environment holding "hopping". *)
Definition big_heap : CHeap := fun _ => true.

Definition hopping_env : SN_env :=
  mk_SN_env (Some (mk_sbuf 30 8 ((Some <$> str "hopping") ++ replicate 24 None)))
    0 7 0 0 0 [] [0; 0] [0].

Lemma hopping_holds : holds 30 (str "hopping") hopping_env.
Proof. exists (replicate 24 None). unfold INT_MAX. cbn. split_and!; try done. repeat constructor; done. Qed.

Lemma hopping_ready : ready 2 1 hopping_env.
Proof. unfold ready. cbn. split_and!; try done; [repeat constructor; done|]. right. eexists _, _. apply hopping_holds. Qed.

(** The claim at "hopping", which becomes "hop". *)
Lemma stem_total_witness :
  let H : CHeap := big_heap in
  exists z' w', stem english_ops hopping_env = Some (1, z') /\ holds 30 w' z'
    /\ zlen w' <= zlen (str "hopping") /\ ready 2 1 z'.
Proof.
  refine (stem_total (H := big_heap) english_ops 2 1 30 (str "hopping") hopping_env _ hopping_holds hopping_ready eq_refl).
  find_row.
Defined.

(** C37: A word of at most INT_MAX - 22 octets given to a live stemmer of one of
    the 24 modules of [modelled] (all but Danish, Finnish, Turkish and the
    ISO 8859-1 versions of German and Portuguese) is answered: the call returns,
    the block returned starts with exactly what the module's [stem] function makes
    of the word (no longer than the word, its length reported by
    [sb_stemmer_length]) and a terminating zero; NULL is returned only when the
    heap refuses memory.  In both cases the stemmer is live again. *)
Theorem sb_stemmer_stem_answers `{CHeap} o ni nb s w rest :
  (o, ni, nb) ∈ modelled -> live ni nb o s -> bytes_ok w -> zlen w <= INT_MAX - 22 ->
  exists r s', sb_stemmer_stem s ((Some <$> w) ++ rest) (zlen w) = Some (r, s')
    /\ stem_post ni nb o w r s'.
Proof. intros [Hlaws _]%modelled_ok. by apply sb_stemmer_stem_ok. Qed.

Definition hopping_stemmer : sb_stemmer :=
  mk_sb_stemmer (create (porter_ops (H := big_heap))) (Some (close (porter_ops (H := big_heap))))
    (stem (porter_ops (H := big_heap))) (Some hopping_env).

Lemma hopping_live : live 2 1 (porter_ops (H := big_heap)) hopping_stemmer.
Proof. split_and!; [done..|]. eexists. split; [done|]. apply hopping_ready. Qed.

Lemma sb_stemmer_stem_answers_witness :
  let H : CHeap := big_heap in
  exists m s', sb_stemmer_stem hopping_stemmer ((Some <$> str "toys") ++ [Some 0]) 4 = Some (Some m, s')
    /\ loads m 0 3 = Some (str "toi") /\ stems_to 2 1 porter_ops (str "toys") (str "toi").
Proof.
  cbv zeta. destruct (sb_stemmer_stem_answers (H := big_heap) (porter_ops (H := big_heap)) 2 1 hopping_stemmer (str "toys") [Some 0])
    as (r & s' & E & _ & Hr); [find_row|exact hopping_live|repeat constructor; done|done|].
  assert (V : (fst <$> sb_stemmer_stem (H := big_heap) hopping_stemmer ((Some <$> str "toys") ++ [Some 0]) 4) ≫= (fun r => r ≫= (fun m => loads m 0 3))
    = Some (str "toi")) by (vm_compute; reflexivity).
  assert (L : (snd <$> sb_stemmer_stem (H := big_heap) hopping_stemmer ((Some <$> str "toys") ++ [Some 0]) 4) ≫= sb_stemmer_length = Some 3)
    by (vm_compute; reflexivity).
  change (zlen (str "toys")) with 4 in E. rewrite E in V, L. cbn in V, L. destruct r as [m|]; [|discriminate V].
  destruct Hr as (w' & Hs & _ & _ & Hl & Hld & _). rewrite Hl in L. injection L as L. rewrite L in Hld. cbn in V. rewrite V in Hld.
  injection Hld as <-. exists m, s'. split; [exact E|]. split; [exact V|exact Hs].
Defined.

(** The languages that select a modelled module for UTF-8. *)
Definition languages : list (list Z * module_id) :=
  [ (str "porter", porter_UTF_8);
    (str "english", english_UTF_8); (str "eng", english_UTF_8); (str "en", english_UTF_8);
    (str "norwegian", norwegian_UTF_8); (str "nor", norwegian_UTF_8); (str "no", norwegian_UTF_8);
    (str "swedish", swedish_UTF_8); (str "swe", swedish_UTF_8); (str "sv", swedish_UTF_8);
    (str "german", german_UTF_8); (str "deu", german_UTF_8); (str "ger", german_UTF_8); (str "de", german_UTF_8);
    (str "spanish", spanish_UTF_8); (str "esl", spanish_UTF_8); (str "spa", spanish_UTF_8); (str "es", spanish_UTF_8);
    (str "portuguese", portuguese_UTF_8); (str "por", portuguese_UTF_8); (str "pt", portuguese_UTF_8);
    (str "italian", italian_UTF_8); (str "ita", italian_UTF_8); (str "it", italian_UTF_8);
    (str "romanian", romanian_UTF_8); (str "ron", romanian_UTF_8); (str "rum", romanian_UTF_8); (str "ro", romanian_UTF_8);
    (str "hungarian", hungarian_UTF_8); (str "hun", hungarian_UTF_8); (str "hu", hungarian_UTF_8);
    (str "russian", russian_UTF_8); (str "rus", russian_UTF_8); (str "ru", russian_UTF_8);
    (str "dutch", dutch_UTF_8); (str "nld", dutch_UTF_8); (str "dut", dutch_UTF_8); (str "nl", dutch_UTF_8);
    (str "french", french_UTF_8); (str "fra", french_UTF_8); (str "fre", french_UTF_8); (str "fr", french_UTF_8) ].

Lemma languages_ok `{CHeap} others lang m : (lang, m) ∈ languages ->
  find (fun m => bool_decide (m.1.1 = lang) && bool_decide (m.1.2 = ENC_UTF_8)) modules = Some (lang, ENC_UTF_8, m)
  /\ exists ni nb, (with_modelled others m, ni, nb) ∈ modelled.
Proof.
  intros Hl. assert (forall P : list Z * module_id -> Prop, Forall P languages -> P (lang, m)) as Hall.
  { intros P HP. rewrite Forall_forall in HP. by apply HP. }
  revert Hall. clear Hl. intros Hall.
  apply (Hall (fun '(lang, m) =>
    find (fun m => bool_decide (m.1.1 = lang) && bool_decide (m.1.2 = ENC_UTF_8)) modules = Some (lang, ENC_UTF_8, m)
    /\ exists ni nb, (with_modelled others m, ni, nb) ∈ modelled)).
  unfold languages.
  repeat (apply Forall_cons_2; [split; [reflexivity|]; eexists _, _; cbn [with_modelled]; find_row|]).
  apply Forall_nil_2.
Qed.

(** C5: A session of the class [Stemmer], which always asks for UTF-8, for
    "porter" or for English, Norwegian, Swedish, German, Spanish, Portuguese,
    Italian, Romanian, Hungarian, Russian, Dutch or French under any of the names
    [modules.h] has for it (not Danish, Finnish and Turkish).  When the heap grants
    all memory and no line is longer than INT_MAX - 22 octets, the constructor
    succeeds, the reply to every line is exactly what the [stem] function of the
    module that the name selects leaves in its buffer for that line, no longer than
    the line, nothing is thrown, and the destructor runs, whatever the other
    compiled modules are. *)
Theorem stemmer_session `{CHeap} others lang m lines :
  (lang, m) ∈ languages -> (forall n, malloc_ok n = true) ->
  Forall (fun w => bytes_ok w /\ zlen w <= INT_MAX - 22) lines ->
  exists s ws s' ni nb, Pimpl_new (with_modelled others) lang = Some (Value s)
    /\ stem_lines s lines = Some (Value ws, s')
    /\ Forall2 (fun w w' => stems_to ni nb (with_modelled others m) w w' /\ zlen w' <= zlen w /\ bytes_ok w') lines ws
    /\ Pimpl_delete s' = Some tt.
Proof.
  intros Hlang Hm Hl. assert (forall n, grants n) as Hg by (intros n m' _; apply Hm).
  destruct (languages_ok others lang m Hlang) as (Hfind & ni & nb & Hmod).
  destruct (modelled_ok _ _ _ Hmod) as [Hlaws _]. unfold Pimpl_new.
  destruct (sb_stemmer_new_ok ni nb (with_modelled others) lang (Some (str "UTF_8")) (lang, ENC_UTF_8, m))
    as [(_ & []) | (s & -> & Hs)]; try done.
  destruct (stem_lines_ok ni nb (with_modelled others m) lines s) as (ws & s' & He & Hs' & Hf).
  { done. }
  { eapply Forall_impl; [exact Hl|]. intros w [? ?]. eauto. }
  eexists s, ws, s', ni, nb. split_and!; try done.
  destruct Hs' as (_ & Hc & z & Hz & _). unfold Pimpl_delete, sb_stemmer_delete. rewrite Hc.
  by rewrite (law_close (o := with_modelled others m)).
Qed.

(** The stems of the words, in both languages. *)
Example session_values :
  let H : CHeap := big_heap in
  let run lang := match Pimpl_new (with_modelled (fun _ => porter_ops)) lang with
    | Some (Value s) => fst <$> stem_lines s [str "relational"; str "dying"; str "toying"; str "hopefully"]
    | _ => None
    end in
  run (str "porter") = Some (Value [str "relat"; str "dy"; str "toi"; str "hopefulli"])
  /\ run (str "english") = Some (Value [str "relat"; str "die"; str "toy"; str "hope"]).
Proof. vm_compute. split; reflexivity. Qed.

Lemma stemmer_session_witness :
  let H : CHeap := big_heap in
  exists s s' ni nb, Pimpl_new (with_modelled (fun _ => porter_ops)) (str "english") = Some (Value s)
    /\ stem_lines s [str "relational"; str "dying"] = Some (Value [str "relat"; str "die"], s')
    /\ stems_to ni nb english_ops (str "dying") (str "die") /\ Pimpl_delete s' = Some tt.
Proof.
  cbv zeta. destruct (stemmer_session (H := big_heap) (fun _ => porter_ops (H := big_heap)) (str "english") english_UTF_8
    [str "relational"; str "dying"]) as (s & ws & s' & ni & nb & E1 & E2 & Hf & Hd).
  - apply elem_of_cons. right. apply elem_of_cons. by left.
  - exact (fun _ => eq_refl).
  - repeat constructor; done.
  - assert (V : match Pimpl_new (H := big_heap) (with_modelled (H := big_heap) (fun _ => porter_ops (H := big_heap))) (str "english") with
      | Some (Value s) => fst <$> stem_lines (H := big_heap) s [str "relational"; str "dying"]
      | _ => None
      end = Some (Value [str "relat"; str "die"])) by (vm_compute; reflexivity).
    rewrite E1, E2 in V. cbn in V. injection V as ->. exists s, s', ni, nb. split; [exact E1|]. split; [exact E2|]. split; [|exact Hd].
    apply Forall2_cons in Hf as [_ Hf]. apply Forall2_cons in Hf as [(Hf & _) _]. exact Hf.
Defined.


(** the table of [modules.h] decides: a language listed for the encoding
    [sb_getenc] finds gives the stemmer of exactly that row (its keys are
    distinct), with the environment its [create] returns; a language that is
    not listed for it, or an unknown encoding, gives NULL. *)
Theorem sb_stemmer_new_lookup `{CHeap} ops alg charenc :
  (forall m z, (alg, sb_getenc charenc, m) ∈ modules -> malloc_ok sb_stemmer_bytes = true ->
     create (ops m) = Some (Some z) ->
     sb_stemmer_new ops alg charenc
     = Some (Some (mk_sb_stemmer (create (ops m)) (Some (close (ops m))) (stem (ops m)) (Some z))))
  /\ ((forall m, (alg, sb_getenc charenc, m) ∉ modules) -> sb_stemmer_new ops alg charenc = Some None).
Proof.
  unfold sb_stemmer_new. split.
  - intros m z Hin Hm Hz. rewrite bool_decide_eq_false_2 by (by eapply modules_known).
    destruct (find _ modules) as [[[a e] m']|] eqn:E.
    + apply find_some in E as [Hin' Hb]. cbn in Hb. apply andb_prop in Hb as [Ha He].
      apply bool_decide_eq_true in Ha, He. subst. apply list_elem_of_In in Hin'.
      rewrite (modules_functional _ _ _ _ Hin' Hin), Hm. cbn. by rewrite Hz.
    + apply list_elem_of_In in Hin. apply (find_none _ _ E) in Hin. cbn in Hin.
      by rewrite !bool_decide_eq_true_2 in Hin.
  - intros Hn. case_bool_decide; [done|].
    destruct (find _ modules) as [[[a e] m]|] eqn:E; [|done]. exfalso.
    apply find_some in E as [Hin Hb]. cbn in Hb. apply andb_prop in Hb as [Ha He].
    apply bool_decide_eq_true in Ha, He. subst. eapply Hn. by apply list_elem_of_In.
Qed.
