(* ===== verification/StemmerAll.v ===== *)
(** * Every compiled stemmer

    The table of [libstemmer/modules.h] with the functions of all 31 modules.
    Most stemmers never lengthen a word ([Stemmer]); three of them do, and
    four copy a part of the word into a string variable. *)

From S2P Require Import Prelude SnEnv SnRuntime SnSpec SnAmong SnCode SnLoops SnStrings Stemmer.
From S2P Require GermanIso PortugueseIso Turkish Danish DanishIso Finnish FinnishIso.

Section Table.
Context `{CHeap}.

Definition german_iso_ops : stemmer_ops :=
  mk_ops GermanIso.german_ISO_8859_1_create_env GermanIso.german_ISO_8859_1_close_env GermanIso.german_ISO_8859_1_stem.
Definition portuguese_iso_ops : stemmer_ops :=
  mk_ops PortugueseIso.portuguese_ISO_8859_1_create_env PortugueseIso.portuguese_ISO_8859_1_close_env PortugueseIso.portuguese_ISO_8859_1_stem.
Definition turkish_ops : stemmer_ops :=
  mk_ops Turkish.turkish_UTF_8_create_env Turkish.turkish_UTF_8_close_env Turkish.turkish_UTF_8_stem.
Definition danish_ops : stemmer_ops :=
  mk_ops Danish.danish_UTF_8_create_env Danish.danish_UTF_8_close_env Danish.danish_UTF_8_stem.
Definition danish_iso_ops : stemmer_ops :=
  mk_ops DanishIso.danish_ISO_8859_1_create_env DanishIso.danish_ISO_8859_1_close_env DanishIso.danish_ISO_8859_1_stem.
Definition finnish_ops : stemmer_ops :=
  mk_ops Finnish.finnish_UTF_8_create_env Finnish.finnish_UTF_8_close_env Finnish.finnish_UTF_8_stem.
Definition finnish_iso_ops : stemmer_ops :=
  mk_ops FinnishIso.finnish_ISO_8859_1_create_env FinnishIso.finnish_ISO_8859_1_close_env FinnishIso.finnish_ISO_8859_1_stem.

Definition module_ops : module_id -> stemmer_ops := with_modelled (fun m =>
  match m with
  | german_ISO_8859_1 => german_iso_ops
  | portuguese_ISO_8859_1 => portuguese_iso_ops
  | turkish_UTF_8 => turkish_ops
  | danish_ISO_8859_1 => danish_iso_ops
  | finnish_UTF_8 => finnish_ops
  | finnish_ISO_8859_1 => finnish_iso_ops
  | _ => danish_ops
  end).
End Table.

(** The integer and boolean variables of a module, and whether it has a
    string variable: the arguments of its [SN_create_env]. *)
Definition variables (m : module_id) : nat * nat :=
  match m with
  | porter_UTF_8 | porter_ISO_8859_1 | english_UTF_8 | english_ISO_8859_1 | dutch_UTF_8 | dutch_ISO_8859_1
  | finnish_UTF_8 | finnish_ISO_8859_1 => (2, 1)
  | romanian_UTF_8 | romanian_ISO_8859_2 => (3, 1)
  | hungarian_UTF_8 | hungarian_ISO_8859_1 => (1, 0)
  | turkish_UTF_8 => (1, 1)
  | norwegian_UTF_8 | norwegian_ISO_8859_1 | swedish_UTF_8 | swedish_ISO_8859_1 | russian_UTF_8 | russian_KOI8_R
  | danish_UTF_8 | danish_ISO_8859_1 => (2, 0)
  | _ => (3, 0)
  end%nat.

Definition has_string (m : module_id) : bool :=
  match m with danish_UTF_8 | danish_ISO_8859_1 | finnish_UTF_8 | finnish_ISO_8859_1 => true | _ => false end.

(** What a stem may be as long as. *)
Definition stem_limit (m : module_id) (n : Z) : Z :=
  match m with
  | german_ISO_8859_1 | portuguese_ISO_8859_1 => 2 * n
  | turkish_UTF_8 => n + 3
  | _ => n
  end.

(** A string variable that [slice_to] may copy into. *)
Definition string_ready (m : module_id) (z : SN_env) : Prop := if has_string m then svar z else True.

Section All.
Context `{CHeap}.

(** The outcome of a stem function on the word [w] in a buffer of capacity
    [k]: a stem in the same buffer, or -1 because the allocator refused the
    copy. *)
Definition stemmed (m : module_id) (k : Z) (w : list Z) (v : Z) (z' : SN_env) : Prop :=
  (0 <= v <= 1 /\ ready (variables m).1 (variables m).2 z' /\ string_ready m z'
   /\ exists w', holds k w' z' /\ zlen w' <= stem_limit m (zlen w))
  \/ (v = -1 /\ has_string m = true /\ sn_S z' = [None] /\ refused (zlen w)).

Definition total_at (m : module_id) : Prop := forall k w z,
  holds k w z -> ready (variables m).1 (variables m).2 z -> string_ready m z -> sn_c z = 0 ->
  stem_limit m (zlen w) + 1 <= k -> zlen w + 21 <= INT_MAX ->
  returns (stem (module_ops m)) z (stemmed m k w).

(** The state a stem function starts in, for a bound on the length. *)
Lemma ready_st ni nb k w z L : holds k w z -> ready ni nb z -> zlen w <= L -> L + 1 <= k -> st k L ni nb w z.
Proof. intros Hw (Hlb & Hc & [HI HM] & HB & _) Hl Hk. split; try done. unfold cursor. lia. Qed.

Lemma st_ready ni nb k w z L : st k L ni nb w z -> sn_lb z = 0 -> ready ni nb z /\ holds k w z /\ zlen w <= L.
Proof.
  intros S Hlb. pose proof (st_range _ _ _ _ _ _ S). destruct S as [Hw [??] ? ? ? ? ?].
  split_and!; [|done..]. unfold ready. split_and!; try done; try lia. eauto.
Qed.

Lemma short_total m : (forall n, stem_limit m n = n) -> has_string m = false ->
  stem_fun_ok (stem (module_ops m)) (variables m).1 (variables m).2 -> total_at m.
Proof.
  intros Hg Hs Hf k w z Hw Hr _ Hc _ _. eapply returns_mono; [by eapply stem_fun_ready|].
  intros v z' (-> & Hr' & w' & Hw' & Hl). left. unfold string_ready. rewrite Hs, Hg. eauto 10 with lia.
Qed.

(** Stemmers that lengthen the word. *)
Lemma long_total m : has_string m = false ->
  (forall n, 0 <= n -> n <= stem_limit m n) ->
  (forall k w z, st k (stem_limit m (zlen w)) (variables m).1 (variables m).2 w z -> sn_c z = 0 -> sn_lb z = 0 ->
     returns (stem (module_ops m)) z (fun v z' => 0 <= v <= 1 /\ exists w',
       st k (stem_limit m (zlen w)) (variables m).1 (variables m).2 w' z' /\ sn_lb z' = 0)) -> total_at m.
Proof.
  intros Hs Hn Hf k w z Hw Hr _ Hc Hk _. pose proof (zlen_nonneg w).
  eapply returns_mono; [apply (Hf k w z); [by apply ready_st; auto with lia|done|apply Hr]|].
  intros v z' (Hv & w' & S' & Hlb). destruct (st_ready _ _ _ _ _ _ S' Hlb) as (? & ? & ?).
  left. unfold string_ready. rewrite Hs. eauto 10.
Qed.

(** Stemmers with a string variable. *)
Lemma string_total m : has_string m = true -> (forall n, stem_limit m n = n) ->
  (forall k w z, st k (zlen w) (variables m).1 (variables m).2 w z -> svar z -> sn_c z = 0 -> zlen w + 21 <= INT_MAX ->
     returns (stem (module_ops m)) z (fun v z' =>
       (v = 1 /\ svar z' /\ exists w', st k (zlen w) (variables m).1 (variables m).2 w' z' /\ (sn_lb z' = sn_lb z \/ sn_lb z' = sn_c z))
       \/ (v = -1 /\ sn_S z' = [None] /\ refused (zlen w) /\ exists w', st k (zlen w) (variables m).1 (variables m).2 w' z'))) -> total_at m.
Proof.
  intros Hs Hg Hf k w z Hw Hr. unfold string_ready. rewrite Hs, Hg. intros Hv Hc Hk HL.
  eapply returns_mono; [apply (Hf k w z); [by apply ready_st; auto with lia|done..]|]. destruct Hr as (Hlb & _).
  intros v z' [(-> & Hv' & w' & S' & Hlb')|(-> & HS & R & _)]; [left|by right].
  destruct (st_ready _ _ _ _ _ _ S') as (? & ? & ?); [lia|]. unfold string_ready. rewrite Hs, Hg. eauto 10 with lia.
Qed.

Lemma german_iso_total : total_at german_ISO_8859_1.
Proof.
  apply long_total; [done|cbn; lia|]. cbn [module_ops with_modelled german_iso_ops stem]. intros k w z S Hc Hlb.
  eapply returns_mono; [apply (GermanIso.dei_stem_ok k _ w z S Hc); cbn; lia|].
  intros v z' (-> & w' & ? & ?). split; [lia|]. exists w'. split; [done|lia].
Qed.

Lemma portuguese_iso_total : total_at portuguese_ISO_8859_1.
Proof.
  apply long_total; [done|cbn; lia|]. cbn [module_ops with_modelled portuguese_iso_ops stem]. intros k w z S Hc Hlb.
  eapply returns_mono; [apply (PortugueseIso.pti_stem_ok k _ w z S Hc); cbn; lia|].
  intros v z' (-> & w' & ? & ?). split; [lia|]. exists w'. split; [done|lia].
Qed.

Lemma turkish_total : total_at turkish_UTF_8.
Proof.
  apply long_total; [done|cbn; lia|]. cbn [module_ops with_modelled turkish_ops stem]. intros k w z S Hc Hlb.
  eapply returns_mono; [apply (Turkish.tr_stem_ok k _ w z S Hc); cbn; lia|].
  intros v z' (? & w' & ? & ? & ?). split; [lia|]. exists w'. split; [done|lia].
Qed.

Lemma every_total m : total_at m.
Proof.
  destruct m.
  - apply string_total; [done..|]. cbn [module_ops with_modelled danish_iso_ops stem]. exact (fun k w => DanishIso.dai_stem_ok k (zlen w) w).
  - apply string_total; [done..|]. cbn [module_ops with_modelled danish_ops stem]. exact (fun k w => Danish.da_stem_ok k (zlen w) w).
  - exact german_iso_total.
  - by apply short_total; [| |cbn [module_ops with_modelled german_ops stem]; exact german_fun_ok].
  - by apply short_total; [| |cbn [module_ops with_modelled dutch_iso_ops stem]; exact dutch_iso_fun_ok].
  - by apply short_total; [| |cbn [module_ops with_modelled dutch_ops stem]; exact dutch_fun_ok].
  - by apply short_total; [| |cbn [module_ops with_modelled english_iso_ops stem]; exact english_iso_fun_ok].
  - by apply short_total; [| |cbn [module_ops with_modelled english_ops stem]; exact english_fun_ok].
  - by apply short_total; [| |cbn [module_ops with_modelled spanish_iso_ops stem]; exact spanish_iso_fun_ok].
  - by apply short_total; [| |cbn [module_ops with_modelled spanish_ops stem]; exact spanish_fun_ok].
  - apply string_total; [done..|]. cbn [module_ops with_modelled finnish_iso_ops stem]. exact (fun k w => FinnishIso.fii_stem_ok k (zlen w) w).
  - apply string_total; [done..|]. cbn [module_ops with_modelled finnish_ops stem]. exact (fun k w => Finnish.fi_stem_ok k (zlen w) w).
  - by apply short_total; [| |cbn [module_ops with_modelled french_iso_ops stem]; exact french_iso_fun_ok].
  - by apply short_total; [| |cbn [module_ops with_modelled french_ops stem]; exact french_fun_ok].
  - by apply short_total; [| |cbn [module_ops with_modelled hungarian_iso_ops stem]; exact hungarian_iso_fun_ok].
  - by apply short_total; [| |cbn [module_ops with_modelled hungarian_ops stem]; exact hungarian_fun_ok].
  - by apply short_total; [| |cbn [module_ops with_modelled italian_iso_ops stem]; exact italian_iso_fun_ok].
  - by apply short_total; [| |cbn [module_ops with_modelled italian_ops stem]; exact italian_fun_ok].
  - by apply short_total; [| |cbn [module_ops with_modelled norwegian_iso_ops stem]; exact norwegian_iso_fun_ok].
  - by apply short_total; [| |cbn [module_ops with_modelled norwegian_ops stem]; exact norwegian_fun_ok].
  - exact portuguese_iso_total.
  - by apply short_total; [| |cbn [module_ops with_modelled portuguese_ops stem]; exact portuguese_fun_ok].
  - by apply short_total; [| |cbn [module_ops with_modelled porter_iso_ops stem]; exact porter_iso_fun_ok].
  - by apply short_total; [| |cbn [module_ops with_modelled porter_ops stem]; exact porter_fun_ok].
  - by apply short_total; [| |cbn [module_ops with_modelled romanian_iso_ops stem]; exact romanian_iso_fun_ok].
  - by apply short_total; [| |cbn [module_ops with_modelled romanian_ops stem]; exact romanian_fun_ok].
  - by apply short_total; [| |cbn [module_ops with_modelled russian_koi8_ops stem]; exact russian_koi8_fun_ok].
  - by apply short_total; [| |cbn [module_ops with_modelled russian_ops stem]; exact russian_fun_ok].
  - by apply short_total; [| |cbn [module_ops with_modelled swedish_iso_ops stem]; exact swedish_iso_fun_ok].
  - by apply short_total; [| |cbn [module_ops with_modelled swedish_ops stem]; exact swedish_fun_ok].
  - exact turkish_total.
Qed.
End All.

(** ** Claims *)

(** C10: every stemmer compiled into the library, run on any word in the
    buffer, ends within the fuel of its loops and of its recursion and has no
    undefined behaviour.  The stem is in the same buffer and no longer than
    the word; German and Portuguese in ISO-8859-1 at most double it and
    Turkish adds at most three symbols, where the buffer has that room.  The
    Danish and Finnish stemmers copy a piece of the word: they return -1, with
    the string variable NULL, only when the allocator refuses the copy. *)
Theorem every_stemmer_total `{CHeap} m k w z :
  holds k w z -> ready (variables m).1 (variables m).2 z -> string_ready m z -> sn_c z = 0 ->
  stem_limit m (zlen w) + 1 <= k -> zlen w + 21 <= INT_MAX ->
  exists v z', stem (module_ops m) z = Some (v, z') /\ stemmed m k w v z'.
Proof. intros. by apply every_total. Qed.

(** "xß" in ISO-8859-1, with room for two more symbols. *)
Definition eszett_env : SN_env :=
  mk_SN_env (Some (mk_sbuf 5 3 ((Some <$> [120; 223]) ++ replicate 4 None))) 0 2 0 0 0 [] [0; 0; 0] [].

Lemma eszett_holds : holds 5 [120; 223] eszett_env.
Proof. exists (replicate 4 None). unfold INT_MAX. cbn. split_and!; try done. repeat constructor; done. Qed.

Lemma every_stemmer_total_witness :
  let H : CHeap := big_heap in
  exists v z', stem (module_ops german_ISO_8859_1) eszett_env = Some (v, z') /\ stemmed german_ISO_8859_1 5 [120; 223] v z'.
Proof.
  refine (every_stemmer_total (H := big_heap) german_ISO_8859_1 5 [120; 223] eszett_env eszett_holds _ I eq_refl _ _).
  - unfold ready. cbn. split_and!; try done; [repeat constructor; done|]. right. eexists _, _. apply eszett_holds.
  - by apply Z.leb_le.
  - by apply Z.leb_le.
Defined.

(** The word in the buffer of an environment. *)
Definition word_in (z : SN_env) : option (list Z) := b ← sn_p z; loads (symbols b) 0 (sn_l z).

(** The bounds are reached: "ß" becomes "ss". *)
Lemma eszett_doubles : let H : CHeap := big_heap in
  (r ← stem (module_ops german_ISO_8859_1) (set_p (Some (mk_sbuf 5 2 ((Some <$> [223]) ++ replicate 5 None))) (set_l 1 eszett_env)); word_in r.2)
  = Some (str "ss").
Proof. vm_compute. reflexivity. Qed.

(** The replies to a sequence of words: NULL or the length of the stem; the
    list ends with [None] at undefined behaviour. *)
Fixpoint replies `{CHeap} (s : sb_stemmer) (words : list (list Z)) : list (option (option Z)) :=
  match words with
  | [] => []
  | w :: words =>
      match sb_stemmer_stem s ((Some <$> w) ++ [Some 0]) (zlen w) with
      | None => [None]
      | Some (r, s) => Some (r ≫= fun _ => sb_stemmer_length s) :: replies s words
      end
  end.

(** An allocator that refuses one size only. *)
Definition fussy_heap : CHeap := fun n => negb (n =? 31).

(** A Danish stemmer that was refused memory once answers NULL, and the next
    word makes it read through the null pointer it left in [z->S[0]]: the
    word "bebß", then "bebb". *)
Lemma string_variable_lost : let H : CHeap := fussy_heap in
  (s ← sb_stemmer_new module_ops (str "danish") (Some (str "UTF_8"));
   s ← s; Some (replies s [str "bebb"; [98; 101; 98; 195; 159]; str "bebb"]))
  = Some [Some (Some 3); Some None; None].
Proof. vm_compute. reflexivity. Qed.
