(* ===== verification/Regex.v ===== *)
(** * Regular expressions

    The sources use Boost.Regex with Perl syntax.  The library is not part of
    the repository: [BoostRegex] is the interface the models are written
    against.  Its law is the documented meaning of a Perl regular expression:
    the match reported is the first one a backtracking search meets, where
    alternatives are tried left to right and repetitions greedily.  [matches]
    writes that search out as the list of all matches in the order they are
    met; [perl_regex] shows that the law can be satisfied. *)

From S2P Require Import Prelude.

(** ** Syntax: character sets, anchors, repetition, numbered groups *)
Inductive re :=
| Eps
| Set_ (p : Z -> bool)
| Bol
| Eol
| Seq (a b : re)
| Alt (a b : re)
| Rep (a : re) (min : nat) (max : option nat)
| Grp (n : nat) (a : re).

Definition Star (a : re) := Rep a 0 None.
Definition Plus (a : re) := Rep a 1 None.
Definition Opt (a : re) := Rep a 0 (Some 1%nat).
Definition Chr (c : Z) := Set_ (Z.eqb c).
Definition Any := Set_ (fun _ => true).

Fixpoint Lit (s : list Z) : re :=
  match s with [] => Eps | [c] => Chr c | c :: r => Seq (Chr c) (Lit r) end.

(** Character classes of the C locale. *)
Definition in_range (lo hi c : Z) : bool := (lo <=? c) && (c <=? hi).
Definition is_digit (c : Z) : bool := in_range 48 57 c.
Definition is_upper (c : Z) : bool := in_range 65 90 c.
Definition is_lower (c : Z) : bool := in_range 97 122 c.
Definition is_alpha (c : Z) : bool := is_upper c || is_lower c.
Definition is_alnum (c : Z) : bool := is_alpha c || is_digit c.
Definition is_xdigit (c : Z) : bool := is_digit c || in_range 65 70 c || in_range 97 102 c.
Definition is_cntrl (c : Z) : bool := in_range 0 31 c || (c =? 127).
Definition one_of (s : list Z) (c : Z) : bool := existsb (Z.eqb c) s.
Definition none_of (s : list Z) (c : Z) : bool := negb (one_of s c).

(** ** The backtracking search *)

(** What is left of the input, whether the position is its start, and the
    groups that matched, innermost assignment last. *)
Record mstate := mk_ms { rest : list Z; at_start : bool; caps : list (nat * list Z) }.

Definition consumed (before after : mstate) : list Z :=
  ztake (zlen (rest before) - zlen (rest after)) (rest before).

(** Up to [n] further repetitions, greedy; a repetition that consumes nothing
    ends the loop. *)
Fixpoint more (f : mstate -> list mstate) (n : nat) (st : mstate) : list mstate :=
  match n with
  | O => [st]
  | S n =>
      flat_map (fun st' => if zlen (rest st') <? zlen (rest st) then more f n st' else []) (f st)
      ++ [st]
  end.

(** Exactly [n] repetitions, then [k]. *)
Fixpoint exactly (f : mstate -> list mstate) (n : nat) (k : mstate -> list mstate) (st : mstate)
    : list mstate :=
  match n with O => k st | S n => flat_map (exactly f n k) (f st) end.

Fixpoint matches (r : re) (st : mstate) : list mstate :=
  match r with
  | Eps => [st]
  | Set_ p =>
      match rest st with
      | c :: s => if p c then [mk_ms s false (caps st)] else []
      | [] => []
      end
  | Bol => if at_start st then [st] else []
  | Eol => match rest st with [] => [st] | c :: _ => if c =? 10 then [st] else [] end
  | Seq a b => flat_map (matches b) (matches a st)
  | Alt a b => matches a st ++ matches b st
  | Rep a min max =>
      exactly (matches a) min
        (fun st' => more (matches a)
           (match max with None => S (length (rest st')) | Some m => m - min end)%nat st') st
  | Grp n a => map (fun st' => mk_ms (rest st') (at_start st') ((n, consumed st st') :: caps st')) (matches a st)
  end.

Definition start (s : list Z) : mstate := mk_ms s true [].

(** The groups of a match; a group that did not take part is absent. *)
Definition groups := list (nat * list Z).

Definition group (n : nat) (g : groups) : option (list Z) :=
  snd <$> find (fun x => (x.1 =? n)%nat) g.

(** [regex_match]: the first match of the whole input. *)
Definition perl_match (r : re) (s : list Z) : option groups :=
  caps <$> find (fun st => bool_decide (rest st = [])) (matches r (start s)).

(** [regex_search]: the first match at the leftmost position that has one. *)
Fixpoint search_from (r : re) (s : list Z) (st : bool) : option groups :=
  match matches r (mk_ms s st []) with
  | m :: _ => Some (caps m)
  | [] => match s with [] => None | _ :: s' => search_from r s' false end
  end.

Definition perl_search (r : re) (s : list Z) : option groups := search_from r s true.

(** [regex_search] with the place of the match: what precedes it, its groups and
    what follows it. *)
Fixpoint search_pos (r : re) (s : list Z) (st : bool) (before : list Z) : option (list Z * groups * list Z) :=
  match matches r (mk_ms s st []) with
  | m :: _ => Some (before, caps m, rest m)
  | [] => match s with [] => None | c :: s' => search_pos r s' false (before ++ [c]) end
  end.

Definition perl_find (r : re) (s : list Z) : option (list Z * groups * list Z) := search_pos r s true [].

(** ** The library *)
Class BoostRegex := {
  regex_match : re -> list Z -> option groups;
  regex_search : re -> list Z -> option groups;
  regex_find : re -> list Z -> option (list Z * groups * list Z);
  regex_match_law : forall r s, regex_match r s = perl_match r s;
  regex_search_law : forall r s, regex_search r s = perl_search r s;
  regex_find_law : forall r s, regex_find r s = perl_find r s
}.

Definition perl_regex : BoostRegex :=
  {| regex_match := perl_match; regex_search := perl_search; regex_find := perl_find;
     regex_match_law := fun _ _ => eq_refl; regex_search_law := fun _ _ => eq_refl;
     regex_find_law := fun _ _ => eq_refl |}.

(** ** Repetition of a character set *)

(** The longest prefix in the set, and what follows it. *)
Fixpoint span (p : Z -> bool) (s : list Z) : list Z * list Z :=
  match s with
  | c :: r => if p c then let '(a, b) := span p r in (c :: a, b) else ([], s)
  | [] => ([], [])
  end.

Lemma is_digit_spec c : is_digit c = true <-> 48 <= c <= 57.
Proof. unfold is_digit, in_range. rewrite andb_true_iff, !Z.leb_le. done. Qed.

Lemma span_app p s : fst (span p s) ++ snd (span p s) = s.
Proof. induction s as [|c r IH]; [done|]. cbn. destruct (p c); [|done]. destruct (span p r). cbn in *. by f_equal. Qed.

Lemma span_all p s : Forall (fun c => p c = true) (fst (span p s)).
Proof.
  induction s as [|c r IH]; [constructor|]. cbn. destruct (p c) eqn:E; [|constructor].
  destruct (span p r). cbn in *. by constructor.
Qed.

Lemma span_stop p s c r : snd (span p s) = c :: r -> p c = false.
Proof.
  induction s as [|x s IH]; [done|]. cbn. destruct (p x) eqn:E; [|by intros [= -> ->]].
  destruct (span p s). cbn in *. auto.
Qed.

Lemma span_exact p a b : Forall (fun c => p c = true) a -> match b with c :: _ => p c = false | [] => True end ->
  span p (a ++ b) = (a, b).
Proof.
  intros Ha Hb. induction Ha as [|c a Hc _ IH]; cbn.
  - destruct b as [|c b]; [done|]. cbn. by rewrite Hb.
  - by rewrite Hc, IH.
Qed.

(** The states met after taking prefixes of [a] from [a ++ b], longest
    first. *)
Fixpoint shorter (a b : list Z) (st : mstate) : list mstate :=
  match a with
  | [] => [st]
  | c :: a' => shorter a' b (mk_ms (a' ++ b) false (caps st)) ++ [st]
  end.

Lemma more_set p n : forall st, (length (fst (span p (rest st))) < n)%nat ->
  more (matches (Set_ p)) n st = shorter (fst (span p (rest st))) (snd (span p (rest st))) st.
Proof.
  induction n as [|n IH]; intros st Hn; [lia|]. cbn [more matches].
  destruct (rest st) as [|c s] eqn:Es; [done|]. cbn [span] in *. destruct (p c) eqn:Ep; [|done].
  cbn [flat_map]. rewrite app_nil_r. cbn [rest]. rewrite (proj2 (Z.ltb_lt _ _)) by (rewrite zlen_cons; lia).
  rewrite IH; cbn [rest caps]; destruct (span p s) as [a b] eqn:E; cbn in *; [|lia].
  pose proof (span_app p s) as Ha. rewrite E in Ha. cbn in Ha. by rewrite Ha.
Qed.

Lemma span_len p s : (length (fst (span p s)) <= length s)%nat.
Proof. rewrite <- (span_app p s) at 2. rewrite length_app. lia. Qed.

Lemma star_set p st :
  matches (Star (Set_ p)) st = shorter (fst (span p (rest st))) (snd (span p (rest st))) st.
Proof.
  pose proof (span_len p (rest st)).
  exact (more_set p (S (length (rest st))) st ltac:(lia)).
Qed.

(** The state after all of [a]. *)
Definition after (a b : list Z) (st : mstate) : mstate :=
  match a with [] => st | _ => mk_ms b false (caps st) end.

(** When what follows rejects every character of the set, only the longest
    prefix counts. *)
Lemma flat_map_shorter {B} p (K : mstate -> list B) a b : forall st,
  (forall st c r, rest st = c :: r -> p c = true -> K st = []) ->
  Forall (fun c => p c = true) a -> rest st = a ++ b ->
  flat_map K (shorter a b st) = K (after a b st).
Proof.
  induction a as [|c a IH]; intros st HK Ha Hr; cbn [shorter flat_map]; [by rewrite app_nil_r|].
  apply Forall_cons_1 in Ha as [Hc Ha]. rewrite flat_map_app. cbn [flat_map].
  rewrite (HK st c (a ++ b)) by done. rewrite !app_nil_r, IH by done.
  destruct a; done.
Qed.

(** Greedy repetition up to the end of the input succeeds at once. *)
Lemma shorter_head a b st : exists l, shorter a b st = after a b st :: l.
Proof.
  revert st. induction a as [|c a IH]; intros st; cbn [shorter]; [by exists []|].
  destruct (IH (mk_ms (a ++ b) false (caps st))) as [l Hl]. rewrite Hl.
  exists (l ++ [st]). destruct a; done.
Qed.

Lemma plus_set p st :
  matches (Plus (Set_ p)) st =
    match fst (span p (rest st)) with
    | [] => []
    | c :: a => shorter a (snd (span p (rest st))) (mk_ms (a ++ snd (span p (rest st))) false (caps st))
    end.
Proof.
  change (matches (Plus (Set_ p)) st)
    with (flat_map (fun st' => more (matches (Set_ p)) (S (length (rest st'))) st') (matches (Set_ p) st)).
  assert (matches (Set_ p) st = match rest st with
            | c :: s => if p c then [mk_ms s false (caps st)] else [] | [] => [] end) as -> by done.
  destruct (rest st) as [|c s] eqn:Es; [done|].
  cbn [span]. destruct (p c) eqn:Ep; [|done]. cbn [flat_map]. rewrite app_nil_r.
  pose proof (span_len p s). rewrite more_set by (cbn [rest]; lia).
  cbn [rest caps]. pose proof (span_app p s) as Ha. destruct (span p s) as [a b]. cbn in *. by rewrite Ha.
Qed.

Lemma consumed_app st st' a : rest st = a ++ rest st' -> consumed st st' = a.
Proof.
  intros Hr. unfold consumed. rewrite Hr, zlen_app. replace (_ - _) with (zlen a) by lia.
  rewrite ztake_app_l by lia. by apply ztake_all.
Qed.

(** ** The first match of a pattern *)

Definition first_is (l : list mstate) (x : mstate) : Prop := exists l', l = x :: l'.

Lemma seq_first a b st st1 st2 :
  first_is (matches a st) st1 -> first_is (matches b st1) st2 -> first_is (matches (Seq a b) st) st2.
Proof. intros [l1 H1] [l2 H2]. cbn. rewrite H1. cbn. rewrite H2. eexists. cbn. reflexivity. Qed.

Lemma grp_first n a st st1 :
  first_is (matches a st) st1 ->
  first_is (matches (Grp n a) st) (mk_ms (rest st1) (at_start st1) ((n, consumed st st1) :: caps st1)).
Proof. intros [l H]. cbn. rewrite H. eexists. cbn. reflexivity. Qed.

Lemma alt_first a b st st1 : first_is (matches a st) st1 -> first_is (matches (Alt a b) st) st1.
Proof. intros [l H]. cbn. rewrite H. eexists. cbn. reflexivity. Qed.

Lemma opt_first a st st1 :
  first_is (matches a st) st1 -> zlen (rest st1) < zlen (rest st) -> first_is (matches (Opt a) st) st1.
Proof.
  intros [l H] Hl. change (matches (Opt a) st) with
    (flat_map (fun st' => if zlen (rest st') <? zlen (rest st) then [st'] else []) (matches a st) ++ [st]).
  rewrite H. cbn [flat_map]. rewrite (proj2 (Z.ltb_lt _ _) Hl). eexists. reflexivity.
Qed.

Lemma opt_none a st : matches a st = [] -> first_is (matches (Opt a) st) st.
Proof.
  intros H. change (matches (Opt a) st) with
    (flat_map (fun st' => if zlen (rest st') <? zlen (rest st) then [st'] else []) (matches a st) ++ [st]).
  rewrite H. by eexists.
Qed.

Lemma star_first p st :
  first_is (matches (Star (Set_ p)) st)
           (after (fst (span p (rest st))) (snd (span p (rest st))) st).
Proof. rewrite star_set. apply shorter_head. Qed.

Lemma chr_first c st r : rest st = c :: r -> first_is (matches (Chr c) st) (mk_ms r false (caps st)).
Proof. intros H. unfold Chr. cbn. rewrite H, Z.eqb_refl. by eexists. Qed.

Lemma perl_first r s st : first_is (matches r (start s)) st -> rest st = [] -> perl_match r s = Some (caps st).
Proof. intros [l H] Hr. unfold perl_match. rewrite H. cbn. by rewrite bool_decide_eq_true_2. Qed.

Lemma after_rest a b st : rest st = a ++ b -> rest (after a b st) = b.
Proof. intros H. by destruct a. Qed.

Lemma after_caps a b st : caps (after a b st) = caps st.
Proof. by destruct a. Qed.

(** ** The characters a pattern consumes *)

(** Every set of the pattern is inside [p]; checked on octets. *)
Fixpoint sets_within (p : Z -> bool) (r : re) : bool :=
  match r with
  | Eps | Bol | Eol => true
  | Set_ q => zrange 256 0 (fun c => implb (q c) (p c))
  | Seq a b | Alt a b => sets_within p a && sets_within p b
  | Rep a _ _ | Grp _ a => sets_within p a
  end.

(** [st'] is reached from [st] over characters in [p]. *)
Definition reaches (p : Z -> bool) (st st' : mstate) : Prop :=
  exists a, rest st = a ++ rest st' /\ Forall (fun c => p c = true) a.

Lemma reaches_refl p st : reaches p st st.
Proof. by exists []. Qed.

Lemma reaches_trans p a b c : reaches p a b -> reaches p b c -> reaches p a c.
Proof.
  intros (x & Hx & Fx) (y & Hy & Fy). exists (x ++ y). rewrite Hx, Hy, app_assoc. split; [done|].
  by apply Forall_app.
Qed.

Lemma reaches_bytes p a b : reaches p a b -> bytes_ok (rest a) -> bytes_ok (rest b).
Proof. intros (x & -> & _) H. by apply bytes_ok_app in H as [_ ?]. Qed.

Definition within (p : Z -> bool) (f : mstate -> list mstate) : Prop :=
  forall st st', bytes_ok (rest st) -> st' ∈ f st -> reaches p st st'.

Lemma more_within p f n : within p f -> within p (more f n).
Proof.
  intros Hf. induction n as [|n IH]; intros st st' Hb Hin; cbn [more] in Hin.
  - apply list_elem_of_singleton in Hin as ->. apply reaches_refl.
  - apply elem_of_app in Hin as [Hin|Hin].
    + apply list_elem_of_In, in_flat_map in Hin as (st1 & H1 & H2). apply list_elem_of_In in H1.
      pose proof (Hf _ _ Hb H1) as Hr. destruct (zlen (rest st1) <? zlen (rest st)); [|done].
      apply list_elem_of_In in H2. eapply reaches_trans; [exact Hr|]. eapply IH; [|exact H2].
      by eapply reaches_bytes.
    + apply list_elem_of_singleton in Hin as ->. apply reaches_refl.
Qed.

Lemma exactly_within p f n k : within p f -> within p k -> within p (exactly f n k).
Proof.
  intros Hf Hk. induction n as [|n IH]; intros st st' Hb Hin; cbn [exactly] in Hin; [by eapply Hk|].
  apply list_elem_of_In, in_flat_map in Hin as (st1 & H1 & H2). apply list_elem_of_In in H1, H2.
  pose proof (Hf _ _ Hb H1) as Hr. eapply reaches_trans; [exact Hr|]. eapply IH; [|exact H2].
  by eapply reaches_bytes.
Qed.

Lemma matches_within p r : sets_within p r = true -> within p (matches r).
Proof.
  induction r as [|q| | |a IHa b IHb|a IHa b IHb|a IHa min max|n a IHa]; cbn [sets_within]; intros Hs st st' Hb Hin;
    cbn [matches] in Hin.
  - apply list_elem_of_singleton in Hin as ->. apply reaches_refl.
  - destruct (rest st) as [|c s] eqn:Er; [by apply elem_of_nil in Hin|].
    destruct (q c) eqn:Eq; [|by apply elem_of_nil in Hin]. apply list_elem_of_singleton in Hin as ->.
    exists [c]. split; [by rewrite Er|]. constructor; [|constructor]. apply Forall_cons_1 in Hb as [Hc _].
    pose proof (zrange_spec 256 0 _ c Hs ltac:(unfold byte_ok in Hc; lia)) as H. cbn beta in H. rewrite Eq in H. done.
  - destruct (at_start st); [|by apply elem_of_nil in Hin]. apply list_elem_of_singleton in Hin as ->. apply reaches_refl.
  - assert (st' = st) as ->; [|apply reaches_refl].
    destruct (rest st) as [|c s]; [by apply list_elem_of_singleton in Hin|].
    destruct (c =? 10); [by apply list_elem_of_singleton in Hin|by apply elem_of_nil in Hin].
  - apply andb_prop in Hs as [Ha Hb']. apply list_elem_of_In, in_flat_map in Hin as (st1 & H1 & H2).
    apply list_elem_of_In in H1, H2. pose proof (IHa Ha _ _ Hb H1) as Hr.
    eapply reaches_trans; [exact Hr|]. eapply IHb; [done| |exact H2]. by eapply reaches_bytes.
  - apply andb_prop in Hs as [Ha Hb']. apply elem_of_app in Hin as [Hin|Hin]; [by eapply IHa|by eapply IHb].
  - eapply exactly_within; [by apply IHa| |done|exact Hin].
    intros st1 st2 Hb1 Hin1. eapply more_within; [by apply IHa|done|exact Hin1].
  - apply list_elem_of_In, in_map_iff in Hin as (st1 & <- & H1). apply list_elem_of_In in H1.
    destruct (IHa Hs _ _ Hb H1) as (x & Hx & Fx). by exists x.
Qed.

(** A string matched as a whole consists of such characters. *)
Lemma perl_match_within p r s : sets_within p r = true -> bytes_ok s ->
  perl_match r s <> None -> Forall (fun c => p c = true) s.
Proof.
  intros Hs Hb Hm. unfold perl_match in Hm.
  destruct (find _ (matches r (start s))) as [st|] eqn:E; [|done]. apply find_some in E as [Hin Hr].
  apply bool_decide_eq_true in Hr. apply list_elem_of_In in Hin.
  destruct (matches_within p r Hs (start s) st Hb Hin) as (a & Ha & Fa). rewrite Hr, app_nil_r in Ha. cbn in Ha. by subst a.
Qed.
