(* ===== verification/Utils.v ===== *)
(** * Namespace utils ([src/common/utils.hh], [utils.cc])

    Hexadecimal digests, content sniffing, network-order integers, flag words
    and the HTTP header parser.  A [char] or an octet is a number in
    [0, 256); a C string is the block it points to with its terminator. *)

From stdpp Require Import gmap.
From S2P Require Import Prelude Regex.

(** Arithmetic of [size_t] and [uint64_t]. *)
Definition wrap64 (x : Z) : Z := x mod 2 ^ 64.

Lemma wrap64_add a b : wrap64 (wrap64 a + b) = wrap64 (a + b).
Proof. unfold wrap64. by rewrite Zplus_mod_idemp_l. Qed.

(** ** Hexadecimal *)

(** [unsigned hexval(char c)]: [~0] for anything but a digit. *)
Definition hexval (c : Z) : Z :=
  if (48 <=? c) && (c <=? 57) then c - 48
  else if (97 <=? c) && (c <=? 102) then c - 97 + 10
  else if (65 <=? c) && (c <=? 70) then c - 65 + 10
  else 2 ^ 32 - 1.

(** One round of the loop: two characters are read, whatever the first one
    is. *)
Definition hex_pair (a b : Z) : option Z :=
  let val := Z.lor (Z.shiftl (hexval a) 4 mod 2 ^ 32) (hexval b) in
  if negb (Z.land val (2 ^ 32 - 256) =? 0) then None else Some (val mod 256).

(** [get_sha1_from_hex(hex, sha1)]: the status and what was written to
    [sha1]; [None] is a read outside the block. *)
Fixpoint sha1_loop (n : nat) (hex : list Z) (sha1 : list Z) : option (Z * list Z) :=
  match n with
  | O => Some (0, sha1)
  | S n =>
      match hex with
      | a :: b :: hex =>
          match hex_pair a b with
          | None => Some (-1, sha1)
          | Some v => sha1_loop n hex (sha1 ++ [v])
          end
      | _ => None
      end
  end.

Definition get_sha1_from_hex (hex : list Z) : option (Z * list Z) := sha1_loop 20 hex [].

Definition hex_digits : list Z := str "0123456789abcdef".

Definition hex_byte (val : Z) : option (list Z) :=
  a ← znth hex_digits (Z.shiftr val 4);
  b ← znth hex_digits (Z.land val 15);
  Some [a; b].

(** [sha1_to_hex(sha1)]: the static buffer up to its terminator. *)
Definition sha1_to_hex (sha1 : list Z) : option (list Z) :=
  if 20 <=? zlen sha1
  then h ← mapM hex_byte (ztake 20 sha1); Some (mjoin h ++ [0])
  else None.

(** ["%02x "] for every character. *)
Definition makeHexDump (s : list Z) : option (list Z) :=
  h ← mapM hex_byte s; Some (h ≫= fun x => x ++ str " ").

(** [isxdigit], [toupper] in the C locale. *)
Definition isxdigit := is_xdigit.
Definition toupper (c : Z) : Z := if is_lower c then c - 32 else c.
Definition tolower (c : Z) : Z := if is_upper c then c + 32 else c.

Definition xdigit_to_num (c : Z) : outcome Z :=
  if negb (isxdigit c) then Throw (logic_error (str "not an hex digit"))
  else Value (if c <? 65 then c - 48 else toupper c - 65 + 10).

(** The result is a [char]: its low eight bits. *)
Definition x2digits_to_num (c1 c2 : Z) : outcome Z :=
  match xdigit_to_num c1, xdigit_to_num c2 with
  | Value a, Value b => Value ((Z.shiftl a 4 + b) mod 256)
  | _, _ => Throw (logic_error (str "not an hex digit"))
  end.

Definition XDIGITS : list Z := str "0123456789ABCDEF".

(** [c] is a signed [char]. *)
Definition digit_to_xnum (c : Z) : outcome Z :=
  match (if (0 <=? c) && (c <=? 15) then znth XDIGITS c else None) with
  | Some x => Value x
  | None => Throw (logic_error (str "digit outside [0,15] range"))
  end.

(** ** Network-order integers of [n] octets *)
Definition signed (n : nat) (x : Z) : Z :=
  let m := 2 ^ (8 * Z.of_nat n) in
  let r := x mod m in if r <? m / 2 then r else r - m.

(** [int_read<T>] for a signed [T] of [n] octets. *)
Fixpoint be_read (p : list Z) (bits : Z) (acc : Z) : Z :=
  match p with
  | [] => acc
  | b :: r => be_read r (bits - 8) (Z.lor acc (Z.shiftl b (bits - 8)))
  end.

Definition int_read (n : nat) (p : list Z) : option Z :=
  if Z.of_nat n <=? zlen p then Some (signed n (be_read (take n p) (8 * Z.of_nat n) 0)) else None.

(** [int_put<T>]: for [t >= 0] the variable [tmp] is read uninitialised; the
    negation of the smallest [T] overflows. *)
Definition int_put (n : nat) (t : Z) : option (list Z) :=
  if t <? 0 then
    if t =? - 2 ^ (8 * Z.of_nat n - 1) then None else
    let tmp := (0 - (0 - t)) mod 2 ^ 64 in
    Some ((fun i => Z.land (Z.shiftr tmp (8 * (Z.of_nat n - 1 - Z.of_nat i))) 255) <$> seq 0 n)
  else None.

(** ** Flags ([int32_t] words as their bit patterns) *)
Definition set_flag (flags flag : Z) : Z := Z.lor flags flag.
Definition clear_flag (flags flag : Z) : Z := Z.land flags (Z.lnot flag).
Definition isset_flag (flags flag : Z) : bool := Z.land flags flag =? flag.

(** ** Content sniffing *)
Inductive text_class := cF | cT | cI | cX.

Definition text_chars_table : list text_class :=
  [ cF; cF; cF; cF; cF; cF; cF; cT; cT; cT; cT; cF; cT; cT; cF; cF;
    cF; cF; cF; cF; cF; cF; cF; cF; cF; cF; cF; cT; cF; cF; cF; cF;
    cT; cT; cT; cT; cT; cT; cT; cT; cT; cT; cT; cT; cT; cT; cT; cT;
    cT; cT; cT; cT; cT; cT; cT; cT; cT; cT; cT; cT; cT; cT; cT; cT;
    cT; cT; cT; cT; cT; cT; cT; cT; cT; cT; cT; cT; cT; cT; cT; cT;
    cT; cT; cT; cT; cT; cT; cT; cT; cT; cT; cT; cT; cT; cT; cT; cT;
    cT; cT; cT; cT; cT; cT; cT; cT; cT; cT; cT; cT; cT; cT; cT; cT;
    cT; cT; cT; cT; cT; cT; cT; cT; cT; cT; cT; cT; cT; cT; cT; cF;
    cX; cX; cX; cX; cX; cT; cX; cX; cX; cX; cX; cX; cX; cX; cX; cX;
    cX; cX; cX; cX; cX; cX; cX; cX; cX; cX; cX; cX; cX; cX; cX; cX;
    cI; cI; cI; cI; cI; cI; cI; cI; cI; cI; cI; cI; cI; cI; cI; cI;
    cI; cI; cI; cI; cI; cI; cI; cI; cI; cI; cI; cI; cI; cI; cI; cI;
    cI; cI; cI; cI; cI; cI; cI; cI; cI; cI; cI; cI; cI; cI; cI; cI;
    cI; cI; cI; cI; cI; cI; cI; cI; cI; cI; cI; cI; cI; cI; cI; cI;
    cI; cI; cI; cI; cI; cI; cI; cI; cI; cI; cI; cI; cI; cI; cI; cI;
    cI; cI; cI; cI; cI; cI; cI; cI; cI; cI; cI; cI; cI; cI; cI; cI ].

Definition text_chars (b : Z) : text_class := default cF (znth text_chars_table b).

#[export] Instance text_class_eq_dec : EqDecision text_class.
Proof. solve_decision. Defined.

Definition looks_ascii (buf : list Z) : bool :=
  forallb (fun b => bool_decide (text_chars b = cT)) buf.

Definition looks_latin1 (buf : list Z) : bool :=
  forallb (fun b => bool_decide (text_chars b = cT) || bool_decide (text_chars b = cI)) buf.

Definition looks_extended (buf : list Z) : bool :=
  forallb (fun b => bool_decide (text_chars b = cT) || bool_decide (text_chars b = cI)
                    || bool_decide (text_chars b = cX)) buf.

(** How many octets follow a lead octet. *)
Definition following (b : Z) : option nat :=
  if Z.land b 32 =? 0 then Some 1%nat else if Z.land b 16 =? 0 then Some 2%nat
  else if Z.land b 8 =? 0 then Some 3%nat else if Z.land b 4 =? 0 then Some 4%nat
  else if Z.land b 2 =? 0 then Some 5%nat else None.

(** The [for] over the following octets: [inl] is a [return false] or, at the
    end of the buffer, the jump to [done]. *)
Inductive follow_result := Bad | Done | Rest (r : list Z).

Fixpoint follow (n : nat) (buf : list Z) : follow_result :=
  match n with
  | O => Rest buf
  | S n =>
      match buf with
      | [] => Done
      | b :: r => if (Z.land b 128 =? 0) || negb (Z.land b 64 =? 0) then Bad else follow n r
      end
  end.

Fixpoint utf8_loop (fuel : nat) (buf : list Z) (gotone : bool) : option bool :=
  match fuel with
  | O => None
  | S n =>
      match buf with
      | [] => Some gotone
      | b :: r =>
          if Z.land b 128 =? 0 then
            if negb (bool_decide (text_chars b = cT)) then Some false else utf8_loop n r gotone
          else if Z.land b 64 =? 0 then Some false
          else match following b with
               | None => Some false
               | Some k =>
                   match follow k r with
                   | Bad => Some false
                   | Done => Some gotone
                   | Rest r => utf8_loop n r true
                   end
               end
      end
  end.

Definition looks_utf8 (buf : list Z) : option bool := utf8_loop (S (length buf)) buf false.

(** [*(uint16_t* )buf] and [*(uint32_t* )buf] on a little-endian machine. *)
Definition le16 (a b : Z) : Z := a + 256 * b.
Definition le32 (a b c d : Z) : Z := a + 256 * b + 65536 * c + 16777216 * d.

Definition unicode_BOM (buf : list Z) : option (list Z) :=
  match buf with
  | a :: b :: r =>
      if le16 a b =? 65279 then Some (str "UTF-16BE")
      else if le16 a b =? 65534 then Some (str "UTF-16LE")
      else match r with
           | c :: r =>
               if (a =? 239) && (b =? 187) && (c =? 191) then Some (str "UTF-8")
               else match r with
                    | d :: _ =>
                        if le32 a b c d =? 65279 then Some (str "UTF-32BE")
                        else if le32 a b c d =? 4278124544 then Some (str "UTF-32LE")
                        else None
                    | [] => None
                    end
           | [] => None
           end
  | _ => None
  end.

(** [pdf_ver(buf, nbytes, &maj, &min)] *)
Definition pdf_ver (buf : list Z) : option (Z * Z) :=
  if zlen buf <? 8 then None
  else if bool_decide (ztake 5 buf = str "%PDF-")
  then maj ← znth buf 5; min ← znth buf 7; Some (maj, min) else None.

(** ** HTTP headers *)

(** The enumeration of [content_type.hh], a file the build supplies. *)
Record content_types := mk_content_types {
  content_type_t : Type;
  TEXT_HTML : content_type_t; TEXT_PLAIN : content_type_t; XHTML : content_type_t;
  APPLICATION_PDF : content_type_t; RSS_XML : content_type_t; ATOM_XML : content_type_t;
  UNRECOGNIZED : content_type_t
}.

(** [string::find(pat)] *)
Fixpoint prefix_of (pat s : list Z) : bool :=
  match pat, s with
  | [], _ => true
  | a :: p, b :: r => (a =? b) && prefix_of p r
  | _, [] => false
  end.

Fixpoint find_from (pat s : list Z) (pos : Z) : option Z :=
  if prefix_of pat s then Some pos
  else match s with [] => None | _ :: r => find_from pat r (pos + 1) end.

Definition find_str (pat s : list Z) : option Z := find_from pat s 0.

Definition contains (pat s : list Z) : bool := bool_decide (find_str pat s <> None).

(** The characters of [separator]; [token] also excludes control
    characters. *)
Definition separator : list Z := str "()<>@,;\:/[]?={}" ++ [34; 9].

Definition HEADER_RE : re :=
  Seq (Grp 1 (Plus (Set_ (none_of separator)))) (Seq (Chr 58) (Grp 2 (Plus Any))).

Definition CHARSET_RE : re :=
  Seq (Lit (str "charset="))
      (Grp 1 (Plus (Set_ (fun c => negb (is_cntrl c) && none_of separator c)))).

(** A literal matched with [regex::icase]. *)
Fixpoint icase (s : list Z) : re :=
  match s with [] => Eps | c :: r => Seq (Set_ (fun x => tolower x =? tolower c)) (icase r) end.

Definition content_type_re : re := Seq Bol (Seq (icase (str "Content-Type")) Eol).

Section Headers.
Context {BR : BoostRegex} (C : content_types).

Record http_headers := mk_headers {
  content_type : content_type_t C;
  charset_http_head : list Z;
  headermap : gmap (list Z) (list Z)
}.

(** The cascade of [value.find(...)]; the second last test lacks
    [!= string::npos], so it fails only for a match at position 0. *)
Definition classify (value : list Z) : content_type_t C :=
  if contains (str "text/html") value then TEXT_HTML C
  else if contains (str "text/plain") value then TEXT_PLAIN C
  else if negb (bool_decide (find_str (str "application/xhtml+xml") value = Some 0)) then XHTML C
  else if contains (str "application/pdf") value then APPLICATION_PDF C
  else if contains (str "application/rss+xml") value then RSS_XML C
  else if contains (str "application/atom+xml") value then ATOM_XML C
  else UNRECOGNIZED C.

Definition parse_header (header : list Z) (h : http_headers) : http_headers :=
  match regex_match HEADER_RE header with
  | Some g =>
      match group 1 g, group 2 g with
      | Some name, Some value =>
          let h :=
            if bool_decide (regex_match content_type_re name <> None) then
              let cs := match regex_search CHARSET_RE value with
                        | Some g => default [] (group 1 g)
                        | None => charset_http_head h
                        end in
              mk_headers (classify value) cs (headermap h)
            else h in
          mk_headers (content_type h) (charset_http_head h) (<[name := value]> (headermap h))
      | _, _ => h
      end
  | None => h
  end.

(** The tortoise and the hare: [cur] are the characters from [tortoise] on;
    text after the last line end is dropped. *)
Fixpoint header_loop (cur s : list Z) (h : http_headers) : http_headers :=
  match s with
  | [] => h
  | c :: r =>
      if (c =? 10) || (c =? 13)
      then header_loop [] r (if 1 <? zlen cur then parse_header cur h else h)
      else header_loop (cur ++ [c]) r h
  end.

Definition parse_http_headers (headers : list Z) (h : http_headers) : http_headers :=
  header_loop [] headers h.
End Headers.

(** ** Lemmas: hexadecimal *)

Lemma hex_byte_ok b : byte_ok b ->
  exists x y, hex_byte b = Some [x; y] /\ hex_pair x y = Some b.
Proof.
  intros Hb. set (ok := fun b => match hex_byte b with
    | Some [x; y] => bool_decide (hex_pair x y = Some b) | _ => false end).
  assert (ok b = true) as Hok by (apply (forall_range ok 256); [vm_compute; reflexivity|exact Hb]).
  unfold ok in Hok. destruct (hex_byte b) as [[|x [|y []]]|]; try done.
  apply bool_decide_eq_true in Hok. eauto.
Qed.

Lemma hex_bytes_ok bs : bytes_ok bs -> forall acc n, n = length bs -> forall tl,
  exists h, mapM hex_byte bs = Some h /\ sha1_loop n (mjoin h ++ tl) acc = Some (0, acc ++ bs)
    /\ zlen (mjoin h) = 2 * zlen bs.
Proof.
  induction 1 as [|b bs Hb _ IH]; intros acc n -> tl.
  - exists []. cbn. by rewrite app_nil_r.
  - destruct (hex_byte_ok b Hb) as (x & y & Hx & Hp).
    destruct (IH (acc ++ [b]) _ eq_refl tl) as (h & Hm & Hl & Hz).
    exists ([x; y] :: h). cbn [mapM mbind option_bind]. rewrite Hx. cbn [mbind option_bind]. rewrite Hm.
    split_and!; [done| |].
    + change (mjoin ([x; y] :: h) ++ tl) with (x :: y :: (mjoin h ++ tl)). cbn [sha1_loop length].
      rewrite Hp, Hl. by rewrite <- app_assoc.
    + change (mjoin ([x; y] :: h)) with (x :: y :: mjoin h). rewrite !zlen_cons. lia.
Qed.

Lemma hexval_cases c :
  (is_xdigit c = true /\ 0 <= hexval c <= 15) \/ (is_xdigit c = false /\ hexval c = 2 ^ 32 - 1).
Proof.
  unfold hexval, is_xdigit, is_digit, in_range.
  zcase ((48 <=? c) && (c <=? 57)); [left; split; [done|lia]|]. cbn [orb].
  rewrite (orb_comm ((65 <=? c) && _)).
  zcase ((97 <=? c) && (c <=? 102)); [left; split; [done|lia]|]. cbn [orb].
  zcase ((65 <=? c) && (c <=? 70)); [left; split; [done|lia]|by right].
Qed.

(** The 17 values of [hexval] cover every pair. *)
Lemma hex_pair_iff a b :
  match hex_pair a b with
  | Some v => is_xdigit a = true /\ is_xdigit b = true /\ v = 16 * hexval a + hexval b
  | None => is_xdigit a = false \/ is_xdigit b = false
  end.
Proof.
  set (dec := fun i => if i =? 16 then 2 ^ 32 - 1 else i).
  set (pair := fun x y => let val := Z.lor (Z.shiftl x 4 mod 2 ^ 32) y in
    if negb (Z.land val (2 ^ 32 - 256) =? 0) then None else Some (val mod 256)).
  set (ok := fun x => match pair (dec (x / 17)) (dec (x mod 17)) with
    | Some v => (x / 17 <? 16) && (x mod 17 <? 16) && (v =? 16 * (x / 17) + x mod 17)
    | None => (x / 17 =? 16) || (x mod 17 =? 16) end).
  assert (forall i j, 0 <= i <= 16 -> 0 <= j <= 16 -> ok (17 * i + j) = true) as Hok.
  { intros i j Hi Hj. apply (forall_range ok 289); [vm_compute; reflexivity|lia]. }
  assert (forall c, exists i, 0 <= i <= 16 /\ hexval c = dec i /\ is_xdigit c = negb (i =? 16)) as Hdec.
  { intros c. destruct (hexval_cases c) as [(Hx & Hv)|(Hx & Hv)].
    - exists (hexval c). unfold dec. rewrite (proj2 (Z.eqb_neq _ _)) by lia. split_and!; (done || lia).
    - exists 16. split_and!; (done || lia). }
  destruct (Hdec a) as (i & Hi & Ha & Hxa), (Hdec b) as (j & Hj & Hb & Hxb).
  specialize (Hok i j Hi Hj). unfold ok in Hok.
  replace ((17 * i + j) / 17) with i in Hok by (apply (Z.div_unique _ 17 i j); lia).
  replace ((17 * i + j) mod 17) with j in Hok by (apply (Z.mod_unique _ 17 i j); lia).
  change (hex_pair a b) with (pair (hexval a) (hexval b)). rewrite Ha, Hb, Hxa, Hxb.
  destruct (pair (dec i) (dec j)) as [v|].
  - bool_hyps. unfold dec. rewrite !(proj2 (Z.eqb_neq _ _)) by lia. done.
  - apply orb_prop in Hok as [Hok|Hok]; rewrite Hok; auto.
Qed.

Lemma hex_pair_some a b : is_xdigit a = true -> is_xdigit b = true ->
  hex_pair a b = Some (16 * hexval a + hexval b).
Proof.
  intros Ha Hb. pose proof (hex_pair_iff a b) as H. destruct (hex_pair a b).
  - by destruct H as (_ & _ & ->).
  - destruct H; congruence.
Qed.

Lemma sha1_loop_spec n : forall hex acc,
  match sha1_loop n hex acc with
  | Some (0, sha) => exists d, (length d = 2 * n)%nat /\ prefix d hex /\ Forall (fun c => is_xdigit c = true) d
                               /\ length sha = (length acc + n)%nat
  | _ => True
  end.
Proof.
  induction n as [|n IH]; intros hex acc; cbn [sha1_loop].
  - exists []. split_and!; [done|apply prefix_nil|constructor|lia].
  - destruct hex as [|a [|b hex]]; try done. pose proof (hex_pair_iff a b) as Hp.
    destruct (hex_pair a b) as [v|]; [|done]. destruct Hp as (Ha & Hb & _).
    specialize (IH hex (acc ++ [v])). destruct (sha1_loop n hex (acc ++ [v])) as [[[] sha]|]; try done.
    destruct IH as (d & Hl & Hpre & Hd & Hs). exists (a :: b :: d). cbn. split_and!; [lia| | |].
    + by apply prefix_cons, prefix_cons.
    + by repeat constructor.
    + rewrite length_app in Hs. cbn in Hs. lia.
Qed.

Lemma sha1_loop_short n : forall d acc tl, Forall (fun c => is_xdigit c = true) d ->
  Nat.Even (length d) -> (length d < 2 * n)%nat -> (length tl <= 1)%nat -> sha1_loop n (d ++ tl) acc = None.
Proof.
  induction n as [|n IH]; intros d acc tl Hd He Hl Ht; [lia|]. cbn [sha1_loop].
  destruct d as [|a [|b d]].
  - cbn. by destruct tl as [|x [|]]; [| |cbn in Ht; lia].
  - by destruct He as [k Hk]; cbn in Hk; lia.
  - apply Forall_cons_1 in Hd as [Ha Hd]. apply Forall_cons_1 in Hd as [Hb Hd]. cbn [app].
    rewrite hex_pair_some by done. apply IH; try done; [|cbn in Hl; lia].
    destruct He as [k Hk]. exists (k - 1)%nat. cbn in Hk. lia.
Qed.

(** ** Claims: hexadecimal digests *)

(** [sha1_to_hex] writes the 20 octets as 40 hexadecimal digits and a
    terminator, and [get_sha1_from_hex] reads exactly those octets back. *)
Theorem sha1_hex_roundtrip sha1 : length sha1 = 20%nat -> bytes_ok sha1 ->
  exists h, sha1_to_hex sha1 = Some (h ++ [0]) /\ zlen h = 40
    /\ get_sha1_from_hex (h ++ [0]) = Some (0, sha1).
Proof.
  intros Hl Hb. destruct (hex_bytes_ok sha1 Hb [] 20%nat (eq_sym Hl) [0]) as (h & Hm & Hr & Hz).
  exists (mjoin h). unfold sha1_to_hex, zlen in *. rewrite Hl in *. cbn [Z.of_nat Z.leb] in *.
  rewrite ztake_all by (unfold zlen; lia). rewrite Hm. cbn. split_and!; try done; lia.
Qed.

Lemma sha1_hex_roundtrip_witness :
  exists h, sha1_to_hex (replicate 20 171) = Some (h ++ [0]) /\ zlen h = 40
    /\ get_sha1_from_hex (h ++ [0]) = Some (0, replicate 20 171).
Proof. refine (sha1_hex_roundtrip (replicate 20 171) eq_refl _). repeat constructor; done. Defined.

(** [get_sha1_from_hex] succeeds only on a block that starts with 40
    hexadecimal digits, and then writes 20 octets; on a terminated string of
    an even number of digits below 40 it reads past the terminator. *)
Theorem get_sha1_from_hex_input :
  (forall hex sha, get_sha1_from_hex hex = Some (0, sha) ->
     length sha = 20%nat /\ exists d, length d = 40%nat /\ prefix d hex /\ Forall (fun c => is_xdigit c = true) d)
  /\ (forall d, Forall (fun c => is_xdigit c = true) d -> Nat.Even (length d) -> (length d < 40)%nat ->
     get_sha1_from_hex (d ++ [0]) = None).
Proof.
  split.
  - intros hex sha He. pose proof (sha1_loop_spec 20 hex []) as H. unfold get_sha1_from_hex in He.
    rewrite He in H. destruct H as (d & Hl & Hp & Hd & Hs). eauto.
  - intros d Hd He Hl. by apply sha1_loop_short.
Qed.

(** ** Claims: sniffing *)

(** A character of a text: an ASCII text octet, or a lead octet followed by
    as many octets of the form 10xxxxxx as it announces. *)
Definition continuation (b : Z) : Prop := Z.land b 128 <> 0 /\ Z.land b 64 = 0.

Definition multibyte (c : list Z) : Prop :=
  exists b bs, c = b :: bs /\ Z.land b 128 <> 0 /\ Z.land b 64 <> 0
    /\ following b = Some (length bs) /\ Forall continuation bs.

Definition ascii_text (c : list Z) : Prop :=
  exists b, c = [b] /\ Z.land b 128 = 0 /\ text_chars b = cT.

(** A character cut off by the end of the buffer, or nothing. *)
Definition cut_off (c : list Z) : Prop :=
  c = [] \/ exists b bs k, c = b :: bs /\ Z.land b 128 <> 0 /\ Z.land b 64 <> 0
    /\ following b = Some k /\ (length bs < k)%nat /\ Forall continuation bs.

Lemma follow_spec k : forall buf,
  match follow k buf with
  | Bad => True
  | Done => (length buf < k)%nat /\ Forall continuation buf
  | Rest r => exists bs, buf = bs ++ r /\ length bs = k /\ Forall continuation bs
  end.
Proof.
  induction k as [|k IH]; intros buf; cbn [follow]; [by exists []|].
  destruct buf as [|b r]; [split; [cbn; lia|constructor]|].
  destruct ((Z.land b 128 =? 0) || negb (Z.land b 64 =? 0)) eqn:E; [done|]. bool_hyps.
  specialize (IH r). destruct (follow k r) as [| |r'].
  - done.
  - destruct IH as [Hl Hf]. split; [cbn; lia|]. by constructor.
  - destruct IH as (bs & -> & Hl & Hf). exists (b :: bs). split_and!; [done|cbn; lia|by constructor].
Qed.

Lemma utf8_loop_sound fuel : forall buf g, (length buf < fuel)%nat -> utf8_loop fuel buf g = Some true ->
  exists cs last, buf = mjoin cs ++ last /\ Forall (fun c => ascii_text c \/ multibyte c) cs
    /\ cut_off last /\ (g = true \/ Exists multibyte cs).
Proof.
  induction fuel as [|fuel IH]; intros buf g Hf He; [lia|]. cbn [utf8_loop] in He.
  destruct buf as [|b r].
  { injection He as ->. exists [], []. split_and!; [done|constructor|by left|by left]. }
  cbn [length] in Hf. destruct (Z.land b 128 =? 0) eqn:E1; bool_hyps.
  - destruct (bool_decide (text_chars b = cT)) eqn:E2; [|done]. apply bool_decide_eq_true in E2. cbn in He.
    apply IH in He as (cs & last & -> & Hcs & Hl & Hg); [|lia].
    exists ([b] :: cs), last. split_and!; try done.
    + constructor; [|done]. left. by exists b.
    + destruct Hg as [?|?]; [by left|right; by constructor 2].
  - destruct (Z.land b 64 =? 0) eqn:E2; [done|]. bool_hyps.
    destruct (following b) as [k|] eqn:Ek; [|done]. pose proof (follow_spec k r) as Hs.
    destruct (follow k r) as [| |r']; [done| |].
    + injection He as ->. destruct Hs as [Hk Hc]. exists [], (b :: r).
      split_and!; [done|constructor| |by left]. right. exists b, r, k. done.
    + destruct Hs as (bs & -> & Hk & Hc). rewrite length_app in Hf.
      apply IH in He as (cs & last & -> & Hcs & Hl & _); [|lia].
      assert (multibyte (b :: bs)) as Hm by (exists b, bs; subst k; done).
      exists ((b :: bs) :: cs), last. split_and!; try done.
      * cbn. by rewrite <- app_assoc.
      * constructor; [by right|done].
      * right. by constructor 1.
Qed.

Lemma utf8_loop_total fuel : forall buf g, (length buf < fuel)%nat -> exists r, utf8_loop fuel buf g = Some r.
Proof.
  induction fuel as [|fuel IH]; intros buf g Hf; [lia|]. cbn [utf8_loop].
  destruct buf as [|b r]; [eauto|]. cbn [length] in Hf.
  destruct (Z.land b 128 =? 0); [case_match; [eauto|apply IH; lia]|].
  destruct (Z.land b 64 =? 0); [eauto|]. destruct (following b) as [k|]; [|eauto].
  pose proof (follow_spec k r) as Hs. destruct (follow k r) as [| |r']; [eauto..|].
  destruct Hs as (bs & -> & _). rewrite length_app in Hf. apply IH. lia.
Qed.

Lemma continuation_false b : continuation b -> (Z.land b 128 =? 0) || negb (Z.land b 64 =? 0) = false.
Proof. intros [H1 H2]. by rewrite (proj2 (Z.eqb_neq _ _) H1), H2. Qed.

Lemma follow_rest bs r : Forall continuation bs -> follow (length bs) (bs ++ r) = Rest r.
Proof.
  induction 1 as [|b bs Hb _ IH]; [done|]. cbn [length app follow]. by rewrite continuation_false.
Qed.

Lemma follow_done k bs : Forall continuation bs -> (length bs < k)%nat -> follow k bs = Done.
Proof.
  intros Hc. revert k. induction Hc as [|b bs Hb _ IH]; intros k Hk; destruct k as [|k]; try (cbn in Hk; lia); [done|].
  cbn [follow]. rewrite continuation_false by done. apply IH. cbn in Hk. lia.
Qed.

Lemma utf8_loop_complete cs : Forall (fun c => ascii_text c \/ multibyte c) cs ->
  forall fuel last g, cut_off last -> (length (mjoin cs ++ last) < fuel)%nat ->
  (g = true \/ Exists multibyte cs) -> utf8_loop fuel (mjoin cs ++ last) g = Some true.
Proof.
  induction 1 as [|c cs Hc _ IH]; intros [|fuel] last g Hl Hf Hg; try lia.
  - destruct Hg as [->|Hg]; [|by apply Exists_nil in Hg]. cbn [mjoin list_join app].
    destruct Hl as [->|(b & bs & k & -> & H1 & H2 & Hk & Hlen & Hc)]; [done|]. cbn [utf8_loop].
    rewrite (proj2 (Z.eqb_neq _ _) H1), (proj2 (Z.eqb_neq _ _) H2), Hk. by rewrite follow_done.
  - change (mjoin (c :: cs)) with (c ++ mjoin cs) in *. rewrite <- app_assoc in *.
    destruct Hc as [(b & -> & H1 & Ht)|(b & bs & -> & H1 & H2 & Hk & Hc)]; cbn [app utf8_loop].
    + rewrite H1, Z.eqb_refl, bool_decide_eq_true_2 by done. cbn [negb].
      apply IH; [done|cbn in Hf; lia|]. destruct Hg as [?|Hg]; [by left|right].
      apply Exists_cons in Hg as [(b' & bs & [= <- <-] & H & _)|Hg]; [done|done].
    + rewrite (proj2 (Z.eqb_neq _ _) H1), (proj2 (Z.eqb_neq _ _) H2), Hk, follow_rest by done.
      apply IH; [done| |by left]. cbn in Hf. rewrite length_app in Hf. lia.
Qed.

(** [looks_utf8] answers yes exactly for the buffers that are a sequence
    of ASCII text characters and well-formed multibyte sequences, at least
    one of these, where the last character may be cut off by the end of the
    buffer; it answers for every buffer. *)
Theorem looks_utf8_iff buf :
  exists r, looks_utf8 buf = Some r /\
  (r = true <-> exists cs last, buf = mjoin cs ++ last /\ Forall (fun c => ascii_text c \/ multibyte c) cs
     /\ cut_off last /\ Exists multibyte cs).
Proof.
  destruct (utf8_loop_total (S (length buf)) buf false ltac:(lia)) as [r Hr]. exists r. split; [done|]. split.
  - intros ->. apply utf8_loop_sound in Hr as (cs & last & ? & ? & ? & [?|?]); [done| |lia]. eauto 10.
  - intros (cs & last & -> & Hcs & Hl & He).
    rewrite utf8_loop_complete in Hr by (try done; try lia; by right). by injection Hr as <-.
Qed.

(** What [unicode_BOM] answers on a little-endian machine is not the
    encoding whose byte order mark starts the buffer: FF FE (UTF-16LE, and
    UTF-32LE) is called UTF-16BE, FE FF (UTF-16BE) is called UTF-16LE, and
    00 00 FE FF (UTF-32BE) is not recognised; only the UTF-8 mark is right. *)
Theorem unicode_BOM_swapped r :
  unicode_BOM (255 :: 254 :: r) = Some (str "UTF-16BE")
  /\ unicode_BOM (254 :: 255 :: r) = Some (str "UTF-16LE")
  /\ unicode_BOM (0 :: 0 :: 254 :: 255 :: r) = None
  /\ unicode_BOM (239 :: 187 :: 191 :: r) = Some (str "UTF-8").
Proof. split_and!; reflexivity. Qed.

(** The three 8-bit sniffers are nested: ASCII text is Latin-1 text, and
    Latin-1 text is extended ASCII text. *)
Theorem looks_nested buf :
  (looks_ascii buf = true -> looks_latin1 buf = true)
  /\ (looks_latin1 buf = true -> looks_extended buf = true).
Proof.
  unfold looks_ascii, looks_latin1, looks_extended. rewrite !forallb_forall.
  split; intros H b Hb; specialize (H b Hb); apply orb_true_iff; [by left|].
  left. by apply orb_true_iff, orb_true_iff in H.
Qed.

(** ** Claims: network-order integers *)

Fixpoint be_val (p : list Z) : Z :=
  match p with [] => 0 | b :: r => b * 2 ^ (8 * zlen r) + be_val r end.

Lemma lor_disjoint k b m : 0 <= b < 256 -> 0 <= m ->
  Z.lor (k * 2 ^ (m + 8)) (Z.shiftl b m) = k * 2 ^ (m + 8) + b * 2 ^ m.
Proof.
  intros Hb Hm. rewrite Z.shiftl_mul_pow2 by done.
  assert (Z.land (k * 2 ^ (m + 8)) (b * 2 ^ m) = 0) as Hl.
  { apply Z.bits_inj'. intros i Hi. rewrite Z.land_spec, Z.bits_0.
    destruct (decide (i < m + 8)).
    - rewrite Z.mul_pow2_bits_low by lia. done.
    - rewrite (Z.mul_pow2_bits b m i) by lia. rewrite andb_comm.
      rewrite (Z.bits_above_log2 b) ; [done|lia|].
      destruct (decide (b = 0)) as [->|]; [cbn; lia|].
      assert (Z.log2 b < 8) by (apply Z.log2_lt_pow2; lia). lia. }
  by rewrite <- Z.lxor_lor, <- Z.add_nocarry_lxor.
Qed.

Lemma be_read_val p : bytes_ok p -> forall k,
  be_read p (8 * zlen p) (k * 2 ^ (8 * zlen p)) = k * 2 ^ (8 * zlen p) + be_val p.
Proof.
  induction 1 as [|b p Hb _ IH]; intros k; cbn [be_read be_val]; [lia|].
  rewrite zlen_cons. pose proof (zlen_nonneg p).
  replace (8 * (1 + zlen p) - 8) with (8 * zlen p) by lia.
  replace (8 * (1 + zlen p)) with (8 * zlen p + 8) by lia.
  rewrite lor_disjoint by (try done; lia).
  replace (k * 2 ^ (8 * zlen p + 8) + b * 2 ^ (8 * zlen p)) with ((k * 2 ^ 8 + b) * 2 ^ (8 * zlen p))
    by (rewrite (Z.pow_add_r 2 (8 * zlen p) 8) by lia; ring).
  rewrite IH, (Z.pow_add_r 2 (8 * zlen p) 8) by lia. ring.
Qed.

Lemma be_val_put tmp m : forall s n, n = (s + m)%nat ->
  be_val ((fun i => Z.land (Z.shiftr tmp (8 * (Z.of_nat n - 1 - Z.of_nat i))) 255) <$> seq s m)
  = tmp mod 2 ^ (8 * Z.of_nat m).
Proof.
  induction m as [|m IH]; intros s n Hn; [by rewrite Z.mod_1_r|].
  cbn [seq fmap list_fmap be_val]. rewrite (IH (S s) n) by lia.
  rewrite zlen_fmap. unfold zlen. rewrite length_seq.
  change 255 with (Z.ones 8). rewrite Z.land_ones, Z.shiftr_div_pow2 by lia.
  replace (8 * (Z.of_nat n - 1 - Z.of_nat s)) with (8 * Z.of_nat m) by lia.
  replace (8 * Z.of_nat (S m)) with (8 * Z.of_nat m + 8) by lia.
  rewrite Z.pow_add_r, Z.rem_mul_r by lia. ring.
Qed.

(** for an [n]-octet signed integer below 0 and above the smallest one,
    [int_read] reads back what [int_put] wrote; for 0 and positive numbers
    [int_put] uses an uninitialised variable, so nothing is known about what
    it writes. *)
Theorem int_put_read n t : (1 <= n <= 8)%nat ->
  (- 2 ^ (8 * Z.of_nat n - 1) < t < 0 -> exists p, int_put n t = Some p /\ int_read n p = Some t)
  /\ (0 <= t -> int_put n t = None).
Proof.
  intros Hn. split.
  - intros Ht. unfold int_put. rewrite (proj2 (Z.ltb_lt _ _)), (proj2 (Z.eqb_neq _ _)) by lia.
    eexists. split; [done|]. unfold int_read.
    set (p := _ <$> seq 0 n).
    assert (zlen p = Z.of_nat n) as Hp by (unfold p; rewrite zlen_fmap; unfold zlen; by rewrite length_seq).
    rewrite Hp, Z.leb_refl. f_equal.
    rewrite take_ge by (unfold zlen in Hp; lia). rewrite <- Hp, <- (Z.mul_0_l (2 ^ (8 * zlen p))).
    rewrite be_read_val.
    2:{ unfold p. apply Forall_fmap, Forall_true. intros i. unfold byte_ok, compose.
        change 255 with (Z.ones 8). rewrite Z.land_ones by lia. apply Z.mod_pos_bound. lia. }
    rewrite Z.mul_0_l, Z.add_0_l. unfold p. rewrite be_val_put by lia.
    replace (0 - (0 - t)) with t by lia.
    assert ((t mod 2 ^ 64) mod 2 ^ (8 * Z.of_nat n) = t + 2 ^ (8 * Z.of_nat n)) as Hmod.
    { rewrite Z.mod_mod_divide.
      - symmetry. apply (Z.mod_unique _ _ (-1)); [|lia]. left.
        replace (8 * Z.of_nat n) with (1 + (8 * Z.of_nat n - 1)) by lia. rewrite Z.pow_add_r by lia.
        pose proof (Z.pow_pos_nonneg 2 (8 * Z.of_nat n - 1)). lia.
      - exists (2 ^ (64 - 8 * Z.of_nat n)). rewrite <- Z.pow_add_r by lia. f_equal. lia. }
    rewrite Hmod. unfold signed.
    assert (2 ^ (8 * Z.of_nat n) = 2 * 2 ^ (8 * Z.of_nat n - 1)) as Hpow.
    { rewrite <- Z.pow_succ_r by lia. f_equal. lia. }
    pose proof (Z.pow_pos_nonneg 2 (8 * Z.of_nat n - 1)).
    rewrite Z.mod_small by lia. rewrite Hpow, (Z.mul_comm 2), Z.div_mul by lia.
    rewrite (proj2 (Z.ltb_ge _ _)) by lia. lia.
  - intros Ht. unfold int_put. by rewrite (proj2 (Z.ltb_ge _ _)).
Qed.

Lemma int_put_read_witness :
  (- 2 ^ (8 * Z.of_nat 4 - 1) < -1000 < 0 -> exists p, int_put 4 (-1000) = Some p /\ int_read 4 p = Some (-1000))
  /\ (0 <= -1000 -> int_put 4 (-1000) = None).
Proof. refine (int_put_read 4 (-1000) _). lia. Defined.

(** ** Claims: HTTP headers *)

Lemma any_all s : span (fun _ => true) s = (s, []).
Proof. induction s as [|c s IH]; [done|]. cbn. by rewrite IH. Qed.

(** What [HEADER_RE] matches: a name without separators, a colon, a value. *)
Lemma header_match s :
  perl_match HEADER_RE s =
    match span (none_of separator) s with
    | (c :: a, 58 :: x :: v) => Some [(2%nat, x :: v); (1%nat, c :: a)]
    | _ => None
    end.
Proof.
  unfold perl_match, HEADER_RE.
  assert (forall st c r, rest st = c :: r -> none_of separator c = true ->
            matches (Seq (Chr 58) (Grp 2 (Plus Any))) st = []) as HK.
  { intros st c r Hr Hc. cbn [matches Chr]. rewrite Hr. zcase (58 =? c); [subst c; done|done]. }
  cbn [matches]. rewrite (plus_set _ (start s)). cbn [rest start caps].
  pose proof (span_app (none_of separator) s) as Hs. pose proof (span_all (none_of separator) s) as Hall.
  destruct (span (none_of separator) s) as [a b]. cbn [fst snd] in *.
  destruct a as [|c a]; [done|]. apply Forall_cons_1 in Hall as [Hc Hall].
  rewrite flat_map_concat_map, map_map, <- flat_map_concat_map.
  match goal with |- context [flat_map ?f (shorter a b ?st)] =>
    rewrite (flat_map_shorter (none_of separator) f a b st) end; [|intros st' c' r' Hr Hc'; by eapply HK|done|done].
  set (st1 := after a b _).
  assert (rest st1 = b) as Hb by (unfold st1; destruct a; done).
  assert (caps st1 = []) as Hcp by (unfold st1; destruct a; done).
  rewrite (consumed_app (start s) st1 (c :: a)) by (cbn [start rest]; by rewrite Hb).
  cbn [flat_map matches Chr rest]. rewrite Hb, Hcp.
  destruct b as [|d v]; [done|]. zcase (58 =? d); [subst d|].
  - cbn [flat_map]. rewrite app_nil_r. unfold Any. rewrite (plus_set _ (mk_ms v false _)). cbn [rest].
    rewrite any_all. cbn [fst snd].
    destruct v as [|x v]; [done|]. rewrite !app_nil_r.
    match goal with |- context [shorter v [] ?st] => destruct (shorter_head v [] st) as [l ->] end.
    cbn [map find rest]. rewrite bool_decide_eq_true_2 by (by destruct v).
    cbn. rewrite (consumed_app _ _ (x :: v)) by (cbn; destruct v; cbn; by rewrite ?app_nil_r).
    by destruct v.
  - destruct d as [|d|d]; try done. do 7 (destruct d as [d|d|]; try done).
Qed.

Lemma icase_match s : forall st,
  matches (icase s) st <> [] <->
  exists a b, rest st = a ++ b /\ tolower <$> a = tolower <$> s.
Proof.
  induction s as [|c s IH]; intros st.
  - split; [|done]. intros _. by exists [], (rest st).
  - cbn [icase]. change (matches (Seq ?a ?b) st) with (flat_map (matches b) (matches a st)).
    change (matches (Set_ ?p) st) with
      (match rest st with x :: r => if p x then [mk_ms r false (caps st)] else [] | [] => [] end).
    destruct (rest st) as [|x r] eqn:Er.
    + cbn. split; [done|]. intros (a & b & Hab & Hm). symmetry in Hab. apply app_nil in Hab as [-> ->]. done.
    + zcase (tolower x =? tolower c).
      * cbn [flat_map]. rewrite app_nil_r, IH. cbn [rest]. split.
        -- intros (a & b & -> & Hm). exists (x :: a), b. cbn. by rewrite E, Hm.
        -- intros (a & b & Hab & Hm). destruct a as [|y a]; [done|]. injection Hab as -> ->. injection Hm as _ Hm. eauto.
      * cbn. split; [done|]. intros (a & b & Hab & Hm). destruct a as [|y a]; [done|].
        injection Hab as -> ->. by injection Hm.
Qed.

Lemma icase_rest s : forall st st', st' ∈ matches (icase s) st ->
  exists a, rest st = a ++ rest st' /\ length a = length s.
Proof.
  induction s as [|c s IH]; intros st st' Hin.
  - apply list_elem_of_singleton in Hin as ->. by exists [].
  - cbn [icase] in Hin. change (matches (Seq ?a ?b) st) with (flat_map (matches b) (matches a st)) in Hin.
    apply list_elem_of_In, in_flat_map in Hin as (st1 & H1 & H2).
    change (matches (Set_ ?p) st) with
      (match rest st with x :: r => if p x then [mk_ms r false (caps st)] else [] | [] => [] end) in H1.
    destruct (rest st) as [|x r]; [done|]. destruct (tolower x =? tolower c); [|done].
    destruct H1 as [<-|[]]. apply list_elem_of_In, IH in H2 as (a & Ha & Hl). cbn in Ha.
    exists (x :: a). cbn. by rewrite Ha, Hl.
Qed.

(** The name test is a case-insensitive comparison. *)
Lemma content_type_match name :
  perl_match content_type_re name <> None <-> tolower <$> name = tolower <$> str "Content-Type".
Proof.
  unfold perl_match, content_type_re.
  change (matches (Seq Bol (Seq ?b Eol)) (start name)) with (flat_map (matches Eol) (matches b (start name)) ++ []).
  rewrite app_nil_r. split.
  - intros Hn. destruct (find _ _) as [st|] eqn:Ef; [|done]. apply find_some in Ef as [Hin Hr].
    apply bool_decide_eq_true in Hr. apply in_flat_map in Hin as (st1 & H1 & H2).
    assert (st = st1) as ->.
    { cbn in H2. destruct (rest st1) as [|c r]; [by destruct H2|]. destruct (c =? 10); [|done]. by destruct H2. }
    assert (matches (icase (str "Content-Type")) (start name) <> []) as Hne by (by intros He; rewrite He in H1).
    apply list_elem_of_In, icase_rest in H1 as (a & Ha & Hl). rewrite Hr, app_nil_r in Ha. cbn in Ha. subst a.
    apply icase_match in Hne as (a & b & Hab & Hm). cbn [start rest] in Hab.
    apply (f_equal length) in Hm as Hml. rewrite !length_fmap in Hml. subst name.
    rewrite length_app in Hl. assert (b = []) as -> by (apply nil_length_inv; lia). by rewrite app_nil_r.
  - intros Hm. assert (matches (icase (str "Content-Type")) (start name) <> []) as Hne.
    { apply icase_match. exists name, []. by rewrite app_nil_r. }
    destruct (matches _ (start name)) as [|st1 l] eqn:E; [done|].
    assert (st1 ∈ matches (icase (str "Content-Type")) (start name)) as H1 by (rewrite E; left).
    apply icase_rest in H1 as (a & Ha & Hl). cbn [start rest] in Ha.
    apply (f_equal length) in Hm as Hml. rewrite !length_fmap in Hml. rewrite Ha, length_app in Hml.
    assert (rest st1 = []) as Hr by (apply nil_length_inv; lia).
    cbn [flat_map matches]. rewrite Hr. cbn [app find]. by rewrite bool_decide_eq_true_2.
Qed.

Definition is_separator (c : Z) : bool := one_of separator c.

Lemma span_name name v :
  Forall (fun c => is_separator c = false) name ->
  span (none_of separator) (name ++ 58 :: v) = (name, 58 :: v).
Proof.
  induction 1 as [|c name Hc _ IH]; [done|]. cbn [app span]. rewrite IH.
  assert (none_of separator c = true) as -> by (unfold none_of, is_separator in *; by rewrite Hc). done.
Qed.

(** a header line "name:value" (a name without separators, both parts not
    empty) is recorded under its name with its value as it stands; when the
    name is "Content-Type" in any case, the content type is the class of the
    value, and the charset is what follows "charset=" in it if that occurs. *)
Theorem parse_header_spec {BR : BoostRegex} C name value h :
  name <> [] -> value <> [] -> Forall (fun c => is_separator c = false) name ->
  let ct := bool_decide (tolower <$> name = tolower <$> str "Content-Type") in
  parse_header C (name ++ 58 :: value) h =
    mk_headers C (if ct then classify C value else content_type C h)
      (if ct then match perl_search CHARSET_RE value with
                  | Some g => default [] (group 1 g) | None => charset_http_head C h end
       else charset_http_head C h)
      (<[name := value]> (headermap C h)).
Proof.
  intros Hn Hv Hs ct. unfold parse_header. rewrite !regex_match_law, header_match, span_name by done.
  destruct name as [|c a]; [done|]. destruct value as [|x v]; [done|].
  assert (forall g, group 1 [(2%nat, g); (1%nat, c :: a)] = Some (c :: a)) as Hg1 by done.
  assert (group 2 [(2%nat, x :: v); (1%nat, c :: a)] = Some (x :: v)) as Hg2 by done.
  rewrite Hg1, Hg2, regex_match_law, regex_search_law.
  replace (bool_decide (perl_match content_type_re (c :: a) <> None)) with ct.
  - unfold ct. by case_bool_decide.
  - unfold ct. apply bool_decide_ext. symmetry. apply content_type_match.
Qed.

(** Because the test for XHTML lacks its comparison with [npos], every
    content type that is neither text/html nor text/plain is classified as
    XHTML, unless the value starts with "application/xhtml+xml" itself: PDF,
    RSS and Atom documents are XHTML, and a proper XHTML value at position 0
    is not. *)
Theorem classify_xhtml C value :
  contains (str "text/html") value = false -> contains (str "text/plain") value = false ->
  (classify C value = XHTML C \/ prefix_of (str "application/xhtml+xml") value = true)
  /\ (prefix_of (str "application/xhtml+xml") value = false -> classify C value = XHTML C)
  /\ (value = str "application/xhtml+xml" -> classify C value = UNRECOGNIZED C).
Proof.
  intros Hh Hp. unfold classify. rewrite Hh, Hp.
  assert (find_str (str "application/xhtml+xml") value = Some 0 <->
          prefix_of (str "application/xhtml+xml") value = true) as Hf.
  { unfold find_str. destruct value as [|c v]; [done|]. cbn [find_from]. set (pat := str _).
    destruct (prefix_of pat (c :: v)); [done|]. split; [|done]. intros Hx. exfalso.
    assert (forall s n k, find_from pat s n = Some k -> n <= k) as Hle.
    { clear. induction s as [|d s IH]; intros n k; cbn [find_from]; destruct (prefix_of _ _); try done;
        try (intros [= <-]; lia). intros H%IH. lia. }
    apply Hle in Hx. lia. }
  destruct (prefix_of _ value) eqn:E.
  - rewrite bool_decide_eq_true_2 by (by apply Hf). cbn [negb]. split_and!; [by right|done|].
    intros ->. reflexivity.
  - rewrite bool_decide_eq_false_2 by (rewrite Hf; done). cbn [negb]. split_and!; [by left|done|].
    intros ->. done.
Qed.

Definition some_content_types : content_types := mk_content_types Z 0 1 2 3 4 5 6.

Lemma classify_xhtml_witness :
  let v := str " application/pdf" in
  (classify some_content_types v = XHTML some_content_types \/ prefix_of (str "application/xhtml+xml") v = true)
  /\ (prefix_of (str "application/xhtml+xml") v = false -> classify some_content_types v = XHTML some_content_types)
  /\ (v = str "application/xhtml+xml" -> classify some_content_types v = UNRECOGNIZED some_content_types).
Proof. apply classify_xhtml; vm_compute; reflexivity. Defined.

Lemma parse_header_spec_witness :
  let BR := perl_regex in
  parse_header some_content_types (str "Content-type: text/html; charset=utf-8") (mk_headers some_content_types 6 [] ∅)
  = mk_headers some_content_types 0 (str "utf-8") {[ str "Content-type" := str " text/html; charset=utf-8" ]}.
Proof.
  exact (parse_header_spec (BR := perl_regex) some_content_types (str "Content-type") (str " text/html; charset=utf-8")
    (mk_headers some_content_types 6 [] ∅) ltac:(done) ltac:(done)
    ltac:(repeat constructor)).
Defined.
