(* ===== verification/UrlEsc.v ===== *)
(** * Percent-encoding ([src/common/Url.hh], [Url.cc])

    The character table of [namespace Url_util] and the static members of
    [Url] that escape and unescape strings. *)

From S2P Require Import Prelude Regex Utils.

Definition URL_CHAR_RESERVED : Z := 1.
Definition URL_CHAR_UNSAFE : Z := 2.
Definition URL_CHAR_ESC : Z := 4.
Definition URL_CHAR_AUTH : Z := 8.
Definition URL_CHAR_PATH : Z := 16.
Definition URL_CHAR_QUERY : Z := 32.
Definition URL_CHAR_FRAGMENT : Z := 64.

(** [X] is [U|E|A|P|Q|F] (126), [RU] is [R|U] (3). *)
Definition url_char_table : list Z :=
  [ 126; 126; 126; 126; 126; 126; 126; 126; 126; 126; 126; 126; 126; 126; 126; 126;
    126; 126; 126; 126; 126; 126; 126; 126; 126; 126; 126; 126; 126; 126; 126; 126;
    126; 0; 126; 59; 1; 126; 1; 0; 0; 0; 0; 1; 1; 0; 0; 9;
    0; 0; 0; 0; 0; 0; 0; 0; 0; 0; 3; 1; 126; 1; 126; 25;
    3; 0; 0; 0; 0; 0; 0; 0; 0; 0; 0; 0; 0; 0; 0; 0;
    0; 0; 0; 0; 0; 0; 0; 0; 0; 0; 0; 3; 126; 3; 126; 0;
    126; 0; 0; 0; 0; 0; 0; 0; 0; 0; 0; 0; 0; 0; 0; 0;
    0; 0; 0; 0; 0; 0; 0; 0; 0; 0; 0; 126; 126; 126; 0; 126;
    126; 126; 126; 126; 126; 126; 126; 126; 126; 126; 126; 126; 126; 126; 126; 126;
    126; 126; 126; 126; 126; 126; 126; 126; 126; 126; 126; 126; 126; 126; 126; 126;
    126; 126; 126; 126; 126; 126; 126; 126; 126; 126; 126; 126; 126; 126; 126; 126;
    126; 126; 126; 126; 126; 126; 126; 126; 126; 126; 126; 126; 126; 126; 126; 126;
    126; 126; 126; 126; 126; 126; 126; 126; 126; 126; 126; 126; 126; 126; 126; 126;
    126; 126; 126; 126; 126; 126; 126; 126; 126; 126; 126; 126; 126; 126; 126; 126;
    126; 126; 126; 126; 126; 126; 126; 126; 126; 126; 126; 126; 126; 126; 126; 126;
    126; 126; 126; 126; 126; 126; 126; 126; 126; 126; 126; 126; 126; 126; 126; 126 ].

Definition char_class (c : Z) : Z := default 0 (znth url_char_table c).

Definition url_char_test (c mask : Z) : bool := negb (Z.land (char_class c) mask =? 0).

Definition pct : Z := 37.

(** ["%"] and the two hexadecimal digits of a character. *)
Definition escape_char (c : Z) : outcome (list Z) :=
  match digit_to_xnum (Z.shiftr c 4), digit_to_xnum (Z.land c 15) with
  | Value c1, Value c2 => Value [pct; c1; c2]
  | Throw e, _ | _, Throw e => Throw e
  end.

Definition prepend (a : list Z) (o : outcome (list Z)) : outcome (list Z) :=
  match o with Value r => Value (a ++ r) | Throw e => Throw e end.

(** [Url::escape(s, mask)]; the first loop of the source only computes a
    capacity. *)
Fixpoint escape (s : list Z) (mask : Z) : outcome (list Z) :=
  match s with
  | [] => Value []
  | c :: r =>
      if url_char_test c mask then
        let esc := match escape_char c with
                   | Value e => prepend e (escape r mask)
                   | Throw e => Throw e
                   end in
        if c =? pct then
          match r with
          | a :: b :: r' =>
              if isxdigit a && isxdigit b then prepend [c; a; b] (escape r' mask) else esc
          | _ => esc
          end
        else esc
      else prepend [c] (escape r mask)
  end.

Definition escape_reserved_unsafe (s : list Z) : outcome (list Z) :=
  escape s (Z.lor URL_CHAR_RESERVED URL_CHAR_UNSAFE).

(** The loop of the [unescape] functions; [sel] says whether the decoded
    character replaces its escape. *)
Fixpoint unescape_loop (sel : Z -> bool) (s : list Z) : outcome (list Z) :=
  match s with
  | [] => Value []
  | c :: r =>
      match r with
      | a :: b :: r' =>
          if (c =? pct) && isxdigit a && isxdigit b && (negb (a =? 0) || negb (b =? 0)) then
            match x2digits_to_num a b with
            | Value d => if sel d then prepend [d] (unescape_loop sel r')
                         else prepend [c] (unescape_loop sel r)
            | Throw e => Throw e
            end
          else prepend [c] (unescape_loop sel r)
      | _ => prepend [c] (unescape_loop sel r)
      end
  end.

Definition nothing_to_unescape (s : list Z) : bool := negb (existsb (Z.eqb pct) s).

Definition unescape (s : list Z) : outcome (list Z) :=
  if nothing_to_unescape s then Value s else unescape_loop (fun _ => true) s.

Definition unescape_mask (s : list Z) (mask : Z) : outcome (list Z) :=
  if nothing_to_unescape s then Value s else unescape_loop (fun c => url_char_test c mask) s.

Definition unescape_not (s : list Z) (mask : Z) : outcome (list Z) :=
  if nothing_to_unescape s then Value s
  else unescape_loop (fun c => Z.land (char_class c) mask =? 0) s.

Definition unescape_safe (s : list Z) : outcome (list Z) :=
  if nothing_to_unescape s then Value s
  else unescape_loop (fun c => Z.land (char_class c) (Z.lor URL_CHAR_RESERVED URL_CHAR_UNSAFE) =? 0) s.

(** [static Url::normalize_escapes(s)]: the loop over the unescaped string
    makes the digits of every escape upper case. *)
Fixpoint upper_escapes (s : list Z) : list Z :=
  match s with
  | [] => []
  | c :: r =>
      match r with
      | a :: b :: r' =>
          if (c =? pct) && isxdigit a && isxdigit b
          then c :: toupper a :: toupper b :: upper_escapes r' else c :: upper_escapes r
      | _ => c :: upper_escapes r
      end
  end.

Definition normalize_escapes_str (s : list Z) : outcome (list Z) :=
  match unescape_safe s with Value r => Value (upper_escapes r) | Throw e => Throw e end.

(** ** Escapes as pairs of digits *)

(** The two digits after a "%", if they are digits. *)
Definition pair_at (s : list Z) : option (Z * Z * list Z) :=
  match s with
  | a :: b :: r => if isxdigit a && isxdigit b then Some (a, b, r) else None
  | _ => None
  end.

Definition hex2 (a b : Z) : Z := 16 * hexval a + hexval b.

Lemma pair_at_some s a b r :
  pair_at s = Some (a, b, r) -> s = a :: b :: r /\ isxdigit a = true /\ isxdigit b = true.
Proof.
  destruct s as [|x [|y s]]; cbn; try done. destruct (isxdigit x) eqn:Ex, (isxdigit y) eqn:Ey; try done.
  by intros [= <- <- <-].
Qed.

Lemma xdigit_to_num_hex a : isxdigit a = true -> xdigit_to_num a = Value (hexval a).
Proof.
  intros Ha. unfold xdigit_to_num. rewrite Ha. cbn [negb]. f_equal.
  unfold isxdigit, is_xdigit, is_digit, in_range in Ha. unfold toupper, is_lower, in_range, hexval.
  apply orb_prop in Ha as [Ha|Ha]; [apply orb_prop in Ha as [Ha|Ha]|]; bool_hyps;
    repeat match goal with |- context [?x <=? ?y] => destruct (Z.leb_spec x y); try lia
                         | |- context [?x <? ?y] => destruct (Z.ltb_spec x y); try lia end; cbn; lia.
Qed.

Lemma hexval_range a : isxdigit a = true -> 0 <= hexval a <= 15.
Proof. intros Ha. destruct (hexval_cases a) as [[_ ?]|[Hx _]]; [done|]. unfold isxdigit in Ha. congruence. Qed.

Lemma x2digits_hex a b : isxdigit a = true -> isxdigit b = true -> x2digits_to_num a b = Value (hex2 a b).
Proof.
  intros Ha Hb. unfold x2digits_to_num, hex2. rewrite !xdigit_to_num_hex by done.
  pose proof (hexval_range a Ha). pose proof (hexval_range b Hb).
  rewrite Z.shiftl_mul_pow2 by lia. change (2 ^ 4) with 16. f_equal. rewrite Z.mod_small by lia. lia.
Qed.

Lemma xdigit_nonzero a : isxdigit a = true -> (a =? 0) = false.
Proof. intros Ha. zcase (a =? 0); [|done]. subst a. done. Qed.

Lemma unescape_cons sel c r :
  unescape_loop sel (c :: r) =
    match (if c =? pct then pair_at r else None) with
    | Some (a, b, r') => if sel (hex2 a b) then prepend [hex2 a b] (unescape_loop sel r')
                         else prepend [c] (unescape_loop sel r)
    | None => prepend [c] (unescape_loop sel r)
    end.
Proof.
  destruct r as [|a [|b r']]; cbn [unescape_loop pair_at]; try (by destruct (c =? pct)).
  destruct (c =? pct); cbn [andb]; [|done].
  destruct (isxdigit a) eqn:Ea; [|done]. destruct (isxdigit b) eqn:Eb; [|done]. cbn [andb].
  rewrite (xdigit_nonzero a Ea). cbn [negb orb]. by rewrite x2digits_hex.
Qed.

Lemma xdigit_not_pct a : isxdigit a = true -> a <> pct.
Proof. by intros Ha ->. Qed.

Lemma unescape_char sel c r : c <> pct -> unescape_loop sel (c :: r) = prepend [c] (unescape_loop sel r).
Proof. intros Hc. by rewrite unescape_cons, (proj2 (Z.eqb_neq _ _) Hc). Qed.

Lemma unescape_esc sel a b r : isxdigit a = true -> isxdigit b = true ->
  unescape_loop sel (pct :: a :: b :: r) =
    prepend (if sel (hex2 a b) then [hex2 a b] else [pct; a; b]) (unescape_loop sel r).
Proof.
  intros Ha Hb. rewrite unescape_cons, Z.eqb_refl. cbn [pair_at]. rewrite Ha, Hb. cbn [andb].
  destruct (sel (hex2 a b)); [done|]. rewrite !unescape_char by (by apply xdigit_not_pct).
  by destruct (unescape_loop sel r).
Qed.

Lemma escape_cons c r m :
  escape (c :: r) m =
    if url_char_test c m then
      match (if c =? pct then pair_at r else None) with
      | Some (a, b, r') => prepend [c; a; b] (escape r' m)
      | None => match escape_char c with Value e => prepend e (escape r m) | Throw e => Throw e end
      end
    else prepend [c] (escape r m).
Proof.
  cbn [escape]. destruct (url_char_test c m); [|done]. destruct (c =? pct); [|done].
  destruct r as [|a [|b r']]; try done. cbn [pair_at]. by destruct (isxdigit a && isxdigit b).
Qed.

(** The escape of an octet: two upper-case digits that decode to it. *)
Lemma escape_char_ok c : byte_ok c ->
  exists a b, escape_char c = Value [pct; a; b] /\ isxdigit a = true /\ isxdigit b = true /\ hex2 a b = c
    /\ toupper a = a /\ toupper b = b.
Proof.
  intros Hc. set (ok := fun c => match escape_char c with
    | Value [p; a; b] => (p =? pct) && isxdigit a && isxdigit b && (hex2 a b =? c) && (toupper a =? a) && (toupper b =? b)
    | _ => false end).
  assert (ok c = true) as Hok by (apply (forall_range ok 256); [vm_compute; reflexivity|exact Hc]).
  unfold ok in Hok. destruct (escape_char c) as [[|p [|a [|b []]]]|]; try done.
  bool_hyps. subst p. eauto 10.
Qed.

(** Digits, and the classes they are not in. *)
Lemma xdigit_class a : isxdigit a = true -> char_class a = 0.
Proof.
  intros Ha. assert (0 <= a < 256) as Hr.
  { unfold isxdigit, is_xdigit, is_digit, in_range in Ha.
    apply orb_prop in Ha as [Ha|Ha]; [apply orb_prop in Ha as [Ha|Ha]|]; bool_hyps; lia. }
  assert ((if isxdigit a then char_class a =? 0 else true) = true) as Hok
    by (apply (forall_range (fun a => if isxdigit a then char_class a =? 0 else true) 256);
        [vm_compute; reflexivity|done]).
  rewrite Ha in Hok. by apply Z.eqb_eq in Hok.
Qed.

Lemma xdigit_test a m : isxdigit a = true -> url_char_test a m = false.
Proof. intros Ha. unfold url_char_test. rewrite (xdigit_class a Ha). done. Qed.

Lemma xdigit_byte a : isxdigit a = true -> byte_ok a.
Proof.
  intros Ha. unfold isxdigit, is_xdigit, is_digit, in_range in Ha. unfold byte_ok.
  apply orb_prop in Ha as [Ha|Ha]; [apply orb_prop in Ha as [Ha|Ha]|]; bool_hyps; lia.
Qed.

Lemma esc_bytes a b t : isxdigit a = true -> isxdigit b = true -> bytes_ok t -> bytes_ok (pct :: a :: b :: t).
Proof.
  intros Ha Hb Ht. apply Forall_cons_2; [done|].
  apply Forall_cons_2; [by apply xdigit_byte|]. apply Forall_cons_2; [by apply xdigit_byte|done].
Qed.

(** A string [escape] has nothing to do for: masked characters occur only
    as the "%" of an escape. *)
Inductive clean (m : Z) : list Z -> Prop :=
| clean_nil : clean m []
| clean_char c r : url_char_test c m = false -> clean m r -> clean m (c :: r)
| clean_pct a b r : url_char_test pct m = true -> isxdigit a = true -> isxdigit b = true ->
    clean m r -> clean m (pct :: a :: b :: r).

Lemma escape_clean m s : clean m s -> escape s m = Value s.
Proof.
  induction 1 as [|c r Hc _ IH|a b r Hp Ha Hb _ IH]; [done| |]; rewrite escape_cons.
  - rewrite Hc, IH. done.
  - rewrite Hp. cbn [pair_at]. rewrite Ha, Hb. cbn. by rewrite IH.
Qed.

Lemma clean_escape m a b r : isxdigit a = true -> isxdigit b = true -> clean m r -> clean m (pct :: a :: b :: r).
Proof.
  intros Ha Hb Hr. destruct (url_char_test pct m) eqn:E; [by constructor|].
  repeat constructor; try done; by apply xdigit_test.
Qed.

(** [escape] leaves the digits that follow in place. *)
Lemma pair_at_escape m r t : escape r m = Value t ->
  match pair_at r with
  | Some (a, b, r') => exists t', escape r' m = Value t' /\ pair_at t = Some (a, b, t')
  | None => bytes_ok r -> pair_at t = None
  end.
Proof.
  intros He. destruct (pair_at r) as [[[a b] r']|] eqn:Ep.
  - apply pair_at_some in Ep as (-> & Ha & Hb). rewrite !escape_cons, !xdigit_test in He by done.
    destruct (escape r' m) as [t'|]; [|done]. injection He as <-. exists t'. cbn. by rewrite Ha, Hb.
  - intros Hb.
    assert (forall c r t, byte_ok c -> escape (c :: r) m = Value t ->
              exists x t', t = x :: t' /\ (x = pct \/ (x = c /\ escape r m = Value t'))) as Hhd.
    { clear. intros c r t Hc He. rewrite escape_cons in He. destruct (url_char_test c m).
      - destruct (if c =? pct then pair_at r else None) as [[[a b] r']|] eqn:E.
        + destruct (c =? pct) eqn:Ec; [|done]. apply Z.eqb_eq in Ec. subst c.
          destruct (escape r' m); [|done]. injection He as <-. eexists _, _. split; [reflexivity|by left].
        + destruct (escape_char_ok c Hc) as (a & b & Hec & _). rewrite Hec in He.
          destruct (escape r m); [|done]. injection He as <-. eexists _, _. split; [reflexivity|by left].
      - destruct (escape r m) as [t'|]; [|done]. injection He as <-. eexists _, _. split; [reflexivity|by right]. }
    destruct r as [|a r]; [by injection He as <-|]. apply Forall_cons_1 in Hb as [Ha Hb].
    destruct (Hhd _ _ _ Ha He) as (x & t' & -> & [->|[-> He']]); [by destruct t'|].
    destruct r as [|b r]; [by injection He' as <-|]. apply Forall_cons_1 in Hb as [Hbb Hb].
    destruct (Hhd _ _ _ Hbb He') as (y & t'' & -> & [->|[-> _]]).
    + cbn. by rewrite andb_false_r.
    + cbn in Ep |- *. by destruct (isxdigit a && isxdigit b).
Qed.

Lemma escape_ok m : forall s, bytes_ok s ->
  exists t, escape s m = Value t /\ clean m t /\ bytes_ok t
    /\ zlen s <= zlen t <= 3 * zlen s
    /\ unescape_loop (fun _ => true) t = unescape_loop (fun _ => true) s.
Proof.
  induction s as [s IH] using list_len_ind. intros Hs.
  destruct s as [|c r]; [exists []; split_and!; try done; constructor|].
  apply Forall_cons_1 in Hs as [Hc Hr].
  destruct (IH r) as (t & He & Ht & Hb & Hl & Hu); [cbn; lia|done|].
  rewrite escape_cons, He, !zlen_cons. destruct (url_char_test c m) eqn:Et.
  - destruct (if c =? pct then pair_at r else None) as [[[a b] r']|] eqn:Ep.
    + destruct (c =? pct) eqn:Ec; [|done]. apply Z.eqb_eq in Ec. subst c.
      apply pair_at_some in Ep as (-> & Hxa & Hxb). repeat apply Forall_cons_1 in Hr as [_ Hr].
      destruct (IH r') as (t' & He' & Ht' & Hb' & Hl' & Hu'); [cbn; lia|done|].
      rewrite He'. eexists. split; [done|]. cbn [app]. rewrite !zlen_cons. split_and!; try lia.
      * by constructor.
      * by apply esc_bytes.
      * by rewrite !unescape_esc, Hu'.
    + destruct (escape_char_ok c Hc) as (a & b & -> & Ha & Hbx & Hh & _).
      eexists. split; [done|]. cbn [app]. rewrite !zlen_cons. split_and!; try lia.
      * by apply clean_escape.
      * by apply esc_bytes.
      * by rewrite unescape_esc, (unescape_cons _ c), Ep, Hh, Hu.
  - eexists. split; [done|]. cbn [app]. rewrite !zlen_cons. split_and!; try lia.
    + by constructor.
    + by constructor.
    + rewrite !unescape_cons. pose proof (pair_at_escape m r t He) as Hp.
      destruct (c =? pct); [|by rewrite Hu]. destruct (pair_at r) as [[[a b] r']|] eqn:Ep.
      * destruct Hp as (t' & He' & ->). apply pair_at_some in Ep as (-> & Hxa & Hxb).
        repeat apply Forall_cons_1 in Hr as [_ Hr].
        destruct (IH r') as (t2 & He2 & _ & _ & _ & Hu2); [cbn; lia|done|].
        assert (t2 = t') as -> by congruence. by rewrite Hu2.
      * rewrite Hp by done. by rewrite Hu.
Qed.

Lemma unescape_all s : unescape s = unescape_loop (fun _ => true) s.
Proof.
  unfold unescape, nothing_to_unescape. destruct (existsb (Z.eqb pct) s) eqn:E; [done|].
  cbn [negb]. induction s as [|c r IH]; [done|]. cbn [existsb] in E. apply orb_false_elim in E as [Ec E].
  rewrite unescape_cons, Z.eqb_sym, Ec, <- IH by done. done.
Qed.

(** [escape] never throws on a string of octets; in its result every
    character of the mask is the "%" of a valid escape, so that escaping again
    with the same mask changes nothing; it grows the string at most threefold;
    and it changes no meaning: the escaped string unescapes to what the
    original does. *)
Theorem escape_spec s m : bytes_ok s ->
  exists t, escape s m = Value t /\ clean m t /\ escape t m = Value t
    /\ zlen s <= zlen t <= 3 * zlen s /\ unescape t = unescape s.
Proof.
  intros Hs. destruct (escape_ok m s Hs) as (t & He & Ht & Hb & Hl & Hu). exists t.
  split_and!; try done; try lia; [by apply escape_clean|]. by rewrite !unescape_all.
Qed.

Lemma escape_spec_witness :
  exists t, escape (str "a b%41%") URL_CHAR_PATH = Value t /\ clean URL_CHAR_PATH t
    /\ escape t URL_CHAR_PATH = Value t /\ 7 <= zlen t <= 21 /\ unescape t = unescape (str "a b%41%").
Proof. refine (escape_spec (str "a b%41%") URL_CHAR_PATH _). repeat constructor; done. Defined.

(** ** Normal forms of escapes *)

(** Every "%" starts an escape. *)
Inductive pct_ok : list Z -> Prop :=
| pct_nil : pct_ok []
| pct_char c r : c <> pct -> pct_ok r -> pct_ok (c :: r)
| pct_esc a b r : isxdigit a = true -> isxdigit b = true -> pct_ok r -> pct_ok (pct :: a :: b :: r).

(** A normal string: the escapes left are of reserved or unsafe characters
    and have upper-case digits. *)
Definition safe (c : Z) : bool := Z.land (char_class c) (Z.lor URL_CHAR_RESERVED URL_CHAR_UNSAFE) =? 0.

Inductive esc_normal : list Z -> Prop :=
| en_nil : esc_normal []
| en_char c r : c <> pct -> esc_normal r -> esc_normal (c :: r)
| en_esc a b r : isxdigit a = true -> isxdigit b = true -> toupper a = a -> toupper b = b ->
    safe (hex2 a b) = false -> esc_normal r -> esc_normal (pct :: a :: b :: r).

Lemma pct_unsafe : safe pct = false.
Proof. reflexivity. Qed.

Lemma toupper_hex a : isxdigit a = true ->
  isxdigit (toupper a) = true /\ toupper (toupper a) = toupper a /\ hexval (toupper a) = hexval a.
Proof.
  intros Ha. set (ok := fun a => if isxdigit a then
    isxdigit (toupper a) && (toupper (toupper a) =? toupper a) && (hexval (toupper a) =? hexval a) else true).
  assert (ok a = true) as Hok.
  { apply (forall_range ok 256); [vm_compute; reflexivity|]. by apply xdigit_byte. }
  unfold ok in Hok. rewrite Ha in Hok. bool_hyps. done.
Qed.

Lemma upper_char c r : c <> pct -> upper_escapes (c :: r) = c :: upper_escapes r.
Proof. intros Hc. destruct r as [|x [|y r]]; cbn; try done. by rewrite (proj2 (Z.eqb_neq _ _) Hc). Qed.

Lemma upper_esc a b r : isxdigit a = true -> isxdigit b = true ->
  upper_escapes (pct :: a :: b :: r) = pct :: toupper a :: toupper b :: upper_escapes r.
Proof. intros Ha Hb. cbn [upper_escapes]. by rewrite Z.eqb_refl, Ha, Hb. Qed.

Lemma unescape_safe_ok s : pct_ok s ->
  exists t, unescape_loop safe s = Value t /\ pct_ok t /\ esc_normal (upper_escapes t).
Proof.
  induction 1 as [|c r Hc _ (t & He & Ht & Hn)|a b r Ha Hb _ (t & He & Ht & Hn)].
  - exists []. split_and!; [done|constructor|constructor].
  - exists (c :: t). rewrite unescape_char, He, upper_char by done. split_and!; [done|by constructor..].
  - rewrite unescape_esc, He by done. destruct (safe (hex2 a b)) eqn:Es.
    + assert (hex2 a b <> pct) as Hp by (intros Hp; rewrite Hp in Es; done).
      exists (hex2 a b :: t). rewrite upper_char by done. split_and!; [done|by constructor..].
    + exists (pct :: a :: b :: t). rewrite upper_esc by done. split_and!; [done|by constructor|].
      destruct (toupper_hex a Ha) as (? & ? & Hva), (toupper_hex b Hb) as (? & ? & Hvb).
      apply en_esc; try done. unfold hex2. by rewrite Hva, Hvb.
Qed.

Lemma esc_normal_fixed s : esc_normal s -> unescape_loop safe s = Value s /\ upper_escapes s = s.
Proof.
  induction 1 as [|c r Hc _ [IH1 IH2]|a b r Ha Hb Hua Hub Hs _ [IH1 IH2]]; [done| |].
  - by rewrite unescape_char, upper_char, IH1, IH2.
  - by rewrite unescape_esc, upper_esc, Hs, IH1, IH2, Hua, Hub.
Qed.

Lemma unescape_safe_loop s : unescape_safe s = unescape_loop safe s.
Proof.
  unfold unescape_safe, nothing_to_unescape. destruct (existsb (Z.eqb pct) s) eqn:E; [done|].
  cbn [negb]. induction s as [|c r IH]; [done|]. cbn [existsb] in E. apply orb_false_elim in E as [Ec E].
  rewrite unescape_cons, Z.eqb_sym, Ec, <- IH by done. done.
Qed.

(** On a string in which every "%" starts an escape, [normalize_escapes]
    gives the normal form: only reserved and unsafe characters stay escaped,
    with upper-case digits, and normalising again changes nothing.  With a
    stray "%" the result need not be normal: "%%34%31" becomes "%41", which
    becomes "A". *)
Theorem normalize_escapes_normal :
  (forall s, pct_ok s -> exists t, normalize_escapes_str s = Value t /\ esc_normal t
     /\ normalize_escapes_str t = Value t)
  /\ normalize_escapes_str (str "%%34%31") = Value (str "%41")
  /\ normalize_escapes_str (str "%41") = Value (str "A").
Proof.
  split; [|split; reflexivity]. intros s Hs. unfold normalize_escapes_str. rewrite unescape_safe_loop.
  destruct (unescape_safe_ok s Hs) as (t & -> & _ & Hn). eexists. split_and!; [done|done|].
  rewrite unescape_safe_loop. by destruct (esc_normal_fixed _ Hn) as [-> ->].
Qed.

(** The guard of [unescape] against NUL compares the digits with 0, not
    their value, so the escape of NUL is decoded: "%00" becomes the octet 0. *)
Theorem unescape_decodes_nul s t : unescape s = Value t ->
  unescape (str "%00" ++ s) = Value (0 :: t).
Proof.
  rewrite !unescape_all. intros Hs. change (str "%00" ++ s) with (pct :: 48 :: 48 :: s).
  by rewrite unescape_esc, Hs.
Qed.

Lemma unescape_decodes_nul_witness : unescape (str "%00" ++ str "a%62") = Value (0 :: str "ab").
Proof. apply unescape_decodes_nul. reflexivity. Defined.
