(* ===== verification/Path.v ===== *)
(** * Class Path ([src/common/Path.hh], [Path.cc])

    A path is a list of segments with two flags, a leading and a trailing
    slash.  [None] is undefined behaviour of [std::list]: [pop_back] on an
    empty list, an iterator moved past the end. *)

From stdpp Require Import sets.
From S2P Require Import Prelude.

Record Path := mk_Path {
  segmt : list (list Z);
  SLASH_BEGIN : bool;
  SLASH_END : bool
}.

Definition set_segmt s p := mk_Path s (SLASH_BEGIN p) (SLASH_END p).
Definition set_SLASH_BEGIN b p := mk_Path (segmt p) b (SLASH_END p).
Definition set_SLASH_END b p := mk_Path (segmt p) (SLASH_BEGIN p) b.

#[export] Instance Path_eq_dec : EqDecision Path.
Proof. solve_decision. Defined.

Definition slash : Z := 47.
Definition dot : list Z := str ".".
Definition dotdot : list Z := str "..".

Definition Path_new : Path := mk_Path [] false false.

Definition Path_absolute (p : Path) : bool := SLASH_BEGIN p.
Definition Path_set_absolute (a : bool) (p : Path) : Path := set_SLASH_BEGIN a p.
Definition Path_set_dir (p : Path) : Path := set_SLASH_END true p.
Definition Path_depth (p : Path) : Z := zlen (segmt p).
Definition Path_clear (p : Path) : Path := mk_Path [] false false.

Definition Path_empty (p : Path) : bool :=
  negb (SLASH_END p) && bool_decide (segmt p = []) && negb (SLASH_BEGIN p).

(** [pop_back] *)
Definition pop_back {A} (l : list A) : option (list A) :=
  match l with [] => None | _ => Some (removelast l) end.

(** [Path::merge]: the loop over the segments of [p]. *)
Fixpoint merge_segmts (ps : list (list Z)) (this : Path) : option Path :=
  match ps with
  | [] => Some this
  | i :: r =>
      if bool_decide (i = dot) then merge_segmts r (set_SLASH_END true this)
      else if bool_decide (i = dotdot) then
        match segmt this with
        | [] => merge_segmts r this
        | _ => s ← pop_back (segmt this); merge_segmts r (set_SLASH_END true (set_segmt s this))
        end
      else merge_segmts r (set_SLASH_END false (set_segmt (segmt this ++ [i]) this))
  end.

Definition Path_merge (this p : Path) : option Path :=
  if SLASH_BEGIN p then Some p else
  this ← (if negb (SLASH_END this) && negb (bool_decide (segmt this = [])) && negb (Path_empty p)
          then s ← pop_back (segmt this); Some (set_segmt s this) else Some this);
  this ← merge_segmts (segmt p) this;
  Some (if SLASH_END p then set_SLASH_END true this else this).

(** [Path::normalize]: [pre] are the segments before the iterator [i],
    nearest first, so [j] is its head; [suf] starts at [i]. *)
Fixpoint normalize_loop (pre suf : list (list Z)) (slash_end : bool) : list (list Z) * bool :=
  match suf with
  | [] => (reverse pre, slash_end)
  | i :: r =>
      let at_end := slash_end || bool_decide (r = []) in
      match pre with
      | j :: pre' =>
          if bool_decide (i = dotdot) && negb (bool_decide (j = dotdot)) && negb (bool_decide (j = dot))
          then normalize_loop pre' r at_end
          else if bool_decide (i = dot) then normalize_loop pre r at_end
          else normalize_loop (i :: pre) r slash_end
      | [] =>
          if bool_decide (i = dot) then normalize_loop pre r at_end
          else normalize_loop (i :: pre) r slash_end
      end
  end.

Definition Path_normalize (p : Path) : option Path :=
  match segmt p with
  | [] => None
  | x :: r =>
      let '(s, e) := normalize_loop [x] r (SLASH_END p) in
      Some (mk_Path s (SLASH_BEGIN p) e)
  end.

(** [Path::size]; lengths are far below the width of [size_t]. *)
Definition Path_size (p : Path) : Z :=
  if Path_empty p then 0
  else if bool_decide (0 < zlen (segmt p)) then
    (if SLASH_BEGIN p then 1 else 0)
    + foldr (fun s n => zlen s + n) 0 (segmt p)
    + (if SLASH_END p then 1 else 0)
    + (zlen (segmt p) - 1)
  else if SLASH_BEGIN p || SLASH_END p then 1 else 0.

Definition Path_get (p : Path) : list Z :=
  if Path_empty p then [] else
  if bool_decide (0 < zlen (segmt p)) then
    let result := if SLASH_BEGIN p then [slash] else [] in
    let result := foldl (fun r j => r ++ j ++ [slash]) result (segmt p) in
    let result := if negb (bool_decide (result = [])) then ztake (zlen result - 1) result else result in
    let result := if SLASH_END p then result ++ [slash] else result in
    if bool_decide (result = str "//") then str "/" else result
  else if SLASH_BEGIN p || SLASH_END p then str "/" else [].

(** [Path::assign]: [cur] are the characters of [begin, end), [rest] those
    from [end] on.  The [while(1)] ends when [end] does; a slash that ends a
    segment is looked at twice.  [max_size] is [segmt.max_size()]. *)
Section Assign.
Context (max_size : Z).

Fixpoint assign_loop (fuel : nat) (depth : Z) (segs : list (list Z)) (cur rest : list Z)
    : option (list (list Z) * bool) :=
  match fuel with
  | O => None
  | S n =>
      match rest with
      | [] => Some (if bool_decide (cur = []) then segs else segs ++ [cur], true)
      | c :: rest' =>
          let '(depth, segs, cur, rest) :=
            if c =? slash then
              if negb (bool_decide (cur = [])) then (depth + 1, segs ++ [cur], [], rest)
              else (depth, segs, [], rest')
            else (depth, segs, cur ++ [c], rest') in
          if depth >=? max_size then Some (segs, false)
          else assign_loop n depth segs cur rest
      end
  end.

Definition Path_assign (s : list Z) : option Path :=
  match s with
  | [] => Some Path_new
  | c :: r =>
      let rest := if c =? slash then r else s in
      '(segs, finished) ← assign_loop (S (2 * length rest)) 0 [] [] rest;
      if finished : bool then
        last ← znth s (zlen s - 1);
        Some (mk_Path segs (c =? slash) (last =? slash))
      else Some (mk_Path segs (c =? slash) false)
  end.
End Assign.

Definition Path_updir (p : Path) : option (bool * Path) :=
  match segmt p with
  | [] => Some (false, p)
  | _ =>
      s ← (if negb (SLASH_END p) then pop_back (segmt p) else Some (segmt p));
      s ← pop_back s;
      Some (true, mk_Path s (SLASH_BEGIN p) true)
  end.

(** ** Abstract view *)

(** The segments of a string: its maximal runs without a slash. *)
Fixpoint tokens (cur rest : list Z) : list (list Z) :=
  match rest with
  | [] => if bool_decide (cur = []) then [] else [cur]
  | c :: r =>
      if c =? slash then (if bool_decide (cur = []) then tokens [] r else cur :: tokens [] r)
      else tokens (cur ++ [c]) r
  end.

(** A string with every run of slashes made one; [prev] says whether the
    last character was a slash. *)
Fixpoint squeeze (prev : bool) (s : list Z) : list Z :=
  match s with
  | [] => []
  | c :: r =>
      if c =? slash then (if prev then squeeze true r else c :: squeeze true r)
      else c :: squeeze false r
  end.

(** Segments joined by slashes. *)
Fixpoint join (segs : list (list Z)) : list Z :=
  match segs with
  | [] => []
  | [x] => x
  | x :: r => x ++ slash :: join r
  end.

Definition seg_ok (s : list Z) : Prop := s <> [] /\ slash ∉ s.

(** What [assign] produces: proper segments, and a path without segments is
    empty or "/". *)
Definition path_wf (p : Path) : Prop :=
  Forall seg_ok (segmt p) /\ (segmt p = [] -> SLASH_BEGIN p = SLASH_END p).

(** ** Lemmas *)
Lemma tokens_wf rest : forall cur, slash ∉ cur -> Forall seg_ok (tokens cur rest).
Proof.
  induction rest as [|c r IH]; intros cur Hc; cbn.
  - case_bool_decide; constructor; [by split|constructor].
  - zcase (c =? slash).
    + case_bool_decide; [apply IH, not_elem_of_nil|]. constructor; [by split|]. apply IH, not_elem_of_nil.
    + apply IH. rewrite not_elem_of_app, list_elem_of_singleton. auto.
Qed.

Lemma tokens_len rest : forall cur, zlen (tokens cur rest) <= zlen rest + (if bool_decide (cur = []) then 0 else 1).
Proof.
  induction rest as [|c r IH]; intros cur; cbn; rewrite ?zlen_cons.
  - case_bool_decide; unfold zlen; cbn; lia.
  - zcase (c =? slash).
    + specialize (IH []). rewrite bool_decide_eq_true_2 in IH by done.
      case_bool_decide; rewrite ?zlen_cons; lia.
    + specialize (IH (cur ++ [c])). rewrite bool_decide_eq_false_2 in IH by (by destruct cur).
      case_bool_decide; lia.
Qed.

Lemma assign_loop_ok max_size fuel : forall depth segs cur rest,
  (2 * length rest + (if bool_decide (cur = []) then 0 else 1) < fuel)%nat ->
  depth + zlen (tokens cur rest) < max_size ->
  assign_loop max_size fuel depth segs cur rest = Some (segs ++ tokens cur rest, true).
Proof.
  induction fuel as [|fuel IH]; intros depth segs cur rest Hf Hd; [lia|].
  destruct rest as [|c r]; cbn [assign_loop tokens].
  - case_bool_decide; [by rewrite app_nil_r|done].
  - cbn [tokens length] in *. pose proof (zlen_nonneg (tokens [] r)).
    zcase (c =? slash); case_bool_decide; subst; cbn [negb] in *.
    + rewrite Z.geb_leb, (proj2 (Z.leb_gt _ _)) by lia. apply IH; [cbn; lia|lia].
    + rewrite zlen_cons in Hd. rewrite Z.geb_leb, (proj2 (Z.leb_gt _ _)) by lia.
      rewrite IH; [|cbn; lia|cbn; lia].
      cbn. by rewrite <- app_assoc.
    + pose proof (zlen_nonneg (tokens ([] ++ [c]) r)). rewrite Z.geb_leb, (proj2 (Z.leb_gt _ _)) by lia.
      apply IH; [cbn; lia|done].
    + pose proof (zlen_nonneg (tokens (cur ++ [c]) r)). rewrite Z.geb_leb, (proj2 (Z.leb_gt _ _)) by lia.
      apply IH; [|done]. rewrite bool_decide_eq_false_2 by (by destruct cur). lia.
Qed.

Lemma tokens_cons_nil cur r : cur <> [] -> tokens cur r <> [].
Proof.
  revert cur. induction r as [|c r IH]; intros cur Hc; cbn; [by rewrite bool_decide_eq_false_2|].
  zcase (c =? slash); [by rewrite bool_decide_eq_false_2|]. apply IH. by destruct cur.
Qed.

Lemma tokens_nil r : tokens [] r = [] <-> squeeze true r = [].
Proof.
  induction r as [|c r IH]; cbn; [done|]. zcase (c =? slash); [done|]. split; [|done].
  intros Ht. by apply tokens_cons_nil in Ht.
Qed.

(** A trailing slash. *)
Definition trail (s : list Z) : list Z := if bool_decide (last s = Some slash) then [slash] else [].

Lemma trail_cons c r : r <> [] -> trail (c :: r) = trail r.
Proof. destruct r; [done|]. unfold trail. by rewrite last_cons_cons. Qed.

Lemma all_slashes r : squeeze true r = [] -> r <> [] -> trail r = [slash].
Proof.
  induction r as [|c r IH]; intros Hs Hn; [done|]. cbn in Hs. zcase (c =? slash); [|done].
  destruct (decide (r = [])) as [->|Hr].
  - subst c. done.
  - rewrite trail_cons by done. by apply IH.
Qed.

Lemma join_cons x segs : segs <> [] -> join (x :: segs) = x ++ slash :: join segs.
Proof. by destruct segs. Qed.

Lemma join_tokens rest : forall cur, tokens cur rest <> [] ->
  join (tokens cur rest) ++ trail rest = cur ++ squeeze (bool_decide (cur = [])) rest.
Proof.
  induction rest as [|c r IH]; intros cur Hn; cbn [tokens squeeze] in *.
  - unfold trail. cbn. revert Hn. case_bool_decide; [done|]. intros _. cbn. by rewrite !app_nil_r.
  - zcase (c =? slash).
    + subst c. destruct (bool_decide (cur = [])) eqn:Ec.
      * apply bool_decide_eq_true in Ec as ->. rewrite trail_cons by (by intros ->). by apply IH.
      * destruct (decide (tokens [] r = [])) as [Ht|Ht].
        -- rewrite Ht. apply tokens_nil in Ht as Hs. cbn [join]. rewrite Hs.
           destruct (decide (r = [])) as [->|Hr]; [done|].
           rewrite trail_cons by done. by rewrite (all_slashes r).
        -- rewrite join_cons by done. rewrite trail_cons by (by intros ->).
           rewrite <- app_assoc. cbn [app]. by rewrite (IH [] Ht).
    + destruct (decide (r = [])) as [->|Hr].
      * cbn. unfold trail. cbn.
        rewrite !bool_decide_eq_false_2 by (try done; try (by destruct cur); congruence). by rewrite app_nil_r.
      * rewrite trail_cons by done. rewrite (IH (cur ++ [c])) by done.
        rewrite bool_decide_eq_false_2 by (by destruct cur). by rewrite <- app_assoc.
Qed.

Lemma foldl_join segs : forall r, segs <> [] ->
  foldl (fun r j => r ++ j ++ [slash]) r segs = r ++ join segs ++ [slash].
Proof.
  induction segs as [|x segs IH]; intros r Hn; [done|]. cbn [foldl].
  destruct (decide (segs = [])) as [->|Hs]; [done|].
  rewrite IH, join_cons by done. by rewrite <- !app_assoc.
Qed.

Lemma ztake_drop_last {A} (l : list A) x : ztake (zlen (l ++ [x]) - 1) (l ++ [x]) = l.
Proof.
  rewrite zlen_app. change (zlen [x]) with 1. replace (zlen l + 1 - 1) with (zlen l) by lia.
  rewrite ztake_app_l by lia. by apply ztake_all.
Qed.

(** The string of a well-formed path. *)
Lemma join_not_slashes segs : segs <> [] -> Forall seg_ok segs ->
  exists c, c ∈ join segs /\ c <> slash.
Proof.
  intros Hn Hw. destruct segs as [|x segs]; [done|]. apply Forall_cons_1 in Hw as [[Hx Hs] _].
  destruct x as [|c x]; [done|]. exists c. split; [|set_solver]. destruct segs; cbn; set_solver.
Qed.

Lemma join_nonnil segs : join segs = [] -> segs <> [] -> ~ Forall seg_ok segs.
Proof.
  intros Hj Hn Hw. destruct (join_not_slashes segs Hn Hw) as (c & Hc & _). rewrite Hj in Hc.
  by apply elem_of_nil in Hc.
Qed.

Lemma Path_get_wf p : Forall seg_ok (segmt p) -> segmt p <> [] ->
  Path_get p = (if SLASH_BEGIN p then [slash] else []) ++ join (segmt p)
               ++ (if SLASH_END p then [slash] else []).
Proof.
  intros Hw Hn. unfold Path_get, Path_empty.
  rewrite (bool_decide_eq_false_2 (segmt p = [])) by done. rewrite andb_false_r. cbn [andb].
  rewrite bool_decide_eq_true_2 by (by apply zlen_pos).
  rewrite foldl_join by done. rewrite app_assoc.
  rewrite (bool_decide_eq_false_2 (_ ++ [slash] = [])) by (by intros [_ ?]%app_nil).
  cbn [negb]. rewrite ztake_drop_last.
  destruct (join_not_slashes _ Hn Hw) as (c & Hc & Hcs).
  rewrite bool_decide_eq_false_2.
  - destruct (SLASH_END p); [by rewrite <- app_assoc|by rewrite app_nil_r].
  - intros Heq. assert (c ∈ str "//") as Hin.
    { rewrite <- Heq. destruct (SLASH_END p); set_solver. }
    apply Hcs. apply list_elem_of_In in Hin. vm_compute in Hin. unfold slash. lia.
Qed.

Lemma znth_last (s : list Z) : znth s (zlen s - 1) = last s.
Proof.
  destruct s as [|c s]; [done|]. rewrite last_lookup, znth_lookup by (rewrite zlen_cons; pose proof (zlen_nonneg s); lia).
  f_equal. unfold zlen. cbn. lia.
Qed.

Lemma Path_assign_ok max_size s : zlen s < max_size ->
  Path_assign max_size s
  = Some (mk_Path (tokens [] s) (bool_decide (head s = Some slash)) (bool_decide (last s = Some slash))).
Proof.
  intros Hs. destruct s as [|c r]; [done|]. unfold Path_assign.
  set (rest := if c =? slash then r else c :: r).
  assert (tokens [] rest = tokens [] (c :: r)) as Ht.
  { unfold rest. cbn. destruct (c =? slash) eqn:E; [done|]. cbn. by rewrite E. }
  rewrite assign_loop_ok; [|cbn; lia|].
  - cbn [mbind option_bind]. rewrite znth_last, Ht. destruct (last (c :: r)) as [x|] eqn:El.
    + cbn. do 2 f_equal; apply eq_true_iff_eq; rewrite Z.eqb_eq, bool_decide_eq_true; split; congruence.
    + by apply last_None in El.
  - rewrite Ht. pose proof (tokens_len (c :: r) []). rewrite bool_decide_eq_true_2 in H by done. lia.
Qed.

Lemma tokens_join segs : Forall seg_ok segs ->
  forall tail, (tail = [] \/ exists t, tail = slash :: t) ->
  tokens [] (join segs ++ tail) = segs ++ tokens [] tail.
Proof.
  assert (forall x cur t, slash ∉ x -> tokens cur (x ++ slash :: t)
            = (if bool_decide (cur ++ x = []) then [] else [cur ++ x]) ++ tokens [] t) as Hx.
  { induction x as [|c x IH]; intros cur t Hs; cbn; rewrite ?app_nil_r.
    - by case_bool_decide.
    - zcase (c =? slash); [set_solver|]. rewrite IH by set_solver. by rewrite <- app_assoc. }
  assert (forall x cur, slash ∉ x -> tokens cur x = if bool_decide (cur ++ x = []) then [] else [cur ++ x]) as Hy.
  { induction x as [|c x IH]; intros cur Hs; cbn; rewrite ?app_nil_r; [done|].
    zcase (c =? slash); [set_solver|]. rewrite IH by set_solver. by rewrite <- app_assoc. }
  induction segs as [|x segs IH]; intros Hw tail Ht; [done|]. apply Forall_cons_1 in Hw as [[Hn Hs] Hw].
  destruct (decide (segs = [])) as [->|Hne].
  - cbn [join]. destruct Ht as [->|(t & ->)].
    + rewrite app_nil_r, Hy by done. by rewrite bool_decide_eq_false_2.
    + rewrite Hx by done. by rewrite bool_decide_eq_false_2.
  - rewrite join_cons, <- app_assoc by done. cbn [app]. rewrite Hx by done.
    rewrite bool_decide_eq_false_2 by done. cbn [app]. by rewrite IH.
Qed.

Lemma head_join segs : Forall seg_ok segs -> segs <> [] -> forall t, head (join segs ++ t) <> Some slash.
Proof.
  intros Hw Hn t. destruct segs as [|x segs]; [done|]. apply Forall_cons_1 in Hw as [[Hx Hs] _].
  destruct x as [|c x]; [done|]. destruct segs; cbn; intros [= ->]; set_solver.
Qed.

Lemma last_join segs : Forall seg_ok segs -> segs <> [] -> last (join segs) <> Some slash.
Proof.
  induction segs as [|x segs IH]; intros Hw Hn; [done|]. apply Forall_cons_1 in Hw as [[Hx Hs] Hw].
  destruct (decide (segs = [])) as [->|Hne].
  - cbn. intros Hl%last_Some_elem_of. done.
  - rewrite join_cons by done. rewrite last_app, last_cons.
    specialize (IH Hw Hne). destruct (last (join segs)) eqn:E; [done|].
    by apply last_None, join_nonnil in E.
Qed.

Definition path_of (s : list Z) : Path :=
  mk_Path (tokens [] s) (bool_decide (head s = Some slash)) (bool_decide (last s = Some slash)).

Lemma path_of_get s : Path_get (path_of s) = squeeze false s /\ path_wf (path_of s).
Proof.
  unfold path_of.
  assert (Forall seg_ok (tokens [] s)) as Hw by (apply tokens_wf, not_elem_of_nil).
  destruct (decide (tokens [] s = [])) as [Ht|Ht].
  - split; [|split; [done|]]; cbn; rewrite ?Ht; apply tokens_nil in Ht as Hq.
    + unfold Path_get, Path_empty. cbn. destruct s as [|c r]; [done|].
      cbn in Hq |- *. revert Hq. zcase (c =? slash); [|done]. subst c. intros ->. cbn.
      rewrite andb_false_r. reflexivity.
    + intros _. destruct s as [|c r]; [done|]. cbn in Hq |- *. revert Hq.
      zcase (c =? slash); [|done]. subst c. intros Hq. rewrite bool_decide_eq_true_2 by done. symmetry. apply bool_decide_eq_true.
      destruct (decide (r = [])) as [->|Hr]; [done|]. pose proof (all_slashes r Hq Hr) as Htr.
      unfold trail in Htr. rewrite last_cons. case_bool_decide as Hl; [by rewrite Hl|done].
  - split; [|by split]. rewrite Path_get_wf by done. cbn. destruct s as [|c r]; [done|].
    pose proof (join_tokens (c :: r) [] Ht) as Hj. unfold trail in Hj. rewrite Hj. cbn.
    zcase (c =? slash); [subst c|]; [by rewrite bool_decide_eq_true_2|].
    by rewrite bool_decide_eq_false_2 by congruence.
Qed.

(** ** Claims: strings and paths *)

(** Reading a string into a [Path] and printing it gives the string back
    with every run of slashes made one, and the path read is well formed. *)
Theorem Path_get_assign max_size s : zlen s < max_size ->
  exists p, Path_assign max_size s = Some p /\ Path_get p = squeeze false s /\ path_wf p.
Proof.
  intros Hs. exists (path_of s). split; [by apply Path_assign_ok|apply path_of_get].
Qed.

Lemma Path_get_assign_witness :
  exists p, Path_assign 1000 (str "//a//b/") = Some p /\ Path_get p = str "/a/b/" /\ path_wf p.
Proof. refine (Path_get_assign 1000 (str "//a//b/") _). reflexivity. Defined.

(** Printing a well-formed path and reading it again gives the same
    path. *)
Theorem Path_assign_get max_size p : path_wf p -> zlen (Path_get p) < max_size ->
  Path_assign max_size (Path_get p) = Some p.
Proof.
  intros [Hw Hf] Hm. rewrite Path_assign_ok by done. clear Hm. f_equal.
  destruct p as [segs b e]. cbn [segmt SLASH_BEGIN SLASH_END] in *.
  destruct (decide (segs = [])) as [->|Hn].
  - specialize (Hf eq_refl). subst e. destruct b; vm_compute; reflexivity.
  - rewrite Path_get_wf by done. cbn [segmt SLASH_BEGIN SLASH_END]. f_equal.
    + rewrite app_assoc. assert (tokens [] (join segs ++ (if e then [slash] else [])) = segs) as Ht.
      { rewrite tokens_join by (try done; destruct e; eauto). destruct e; cbn; by rewrite app_nil_r. }
      destruct b; [|done]. rewrite <- app_assoc. done.
    + destruct b; [done|]. apply bool_decide_eq_false, (head_join segs Hw Hn).
    + rewrite app_assoc, last_app. destruct e; [done|]. cbn. apply bool_decide_eq_false.
      rewrite last_app. pose proof (last_join segs Hw Hn). destruct (last (join segs)) eqn:E; [done|].
      by apply last_None, join_nonnil in E.
Qed.

Lemma Path_assign_get_witness :
  Path_assign 1000 (Path_get (mk_Path [str "a"; str "b"] true true)) = Some (mk_Path [str "a"; str "b"] true true).
Proof.
  refine (Path_assign_get 1000 (mk_Path [str "a"; str "b"] true true) _ _); [|reflexivity].
  split; [|done]. repeat constructor; try done; apply (bool_decide_unpack _); vm_compute; exact I.
Defined.

(** [size] is the length of what [get] returns. *)
Theorem Path_size_get p : path_wf p -> Path_size p = zlen (Path_get p).
Proof.
  intros [Hw Hf]. destruct (decide (segmt p = [])) as [Hn|Hn].
  - unfold Path_size, Path_get, Path_empty. rewrite Hn. cbn. by destruct (SLASH_BEGIN p), (SLASH_END p).
  - rewrite Path_get_wf by done. unfold Path_size, Path_empty.
    rewrite (bool_decide_eq_false_2 (segmt p = [])) by done. rewrite andb_false_r. cbn [andb].
    rewrite bool_decide_eq_true_2 by (by apply zlen_pos).
    assert (forall segs, segs <> [] -> foldr (fun s n => zlen s + n) 0 segs + (zlen segs - 1) = zlen (join segs)) as Hj.
    { clear. induction segs as [|x segs IH]; intros Hn; [done|]. destruct (decide (segs = [])) as [->|Hne].
      - cbn. change (zlen [x]) with 1. lia.
      - rewrite join_cons, zlen_app, !zlen_cons, <- IH by done. cbn. lia. }
    specialize (Hj _ Hn). rewrite !zlen_app. destruct (SLASH_BEGIN p), (SLASH_END p); unfold zlen in *; cbn [length]; lia.
Qed.

Lemma Path_size_get_witness : Path_size (mk_Path [str "ab"; str "c"] true false) = 5.
Proof.
  refine (Path_size_get (mk_Path [str "ab"; str "c"] true false) _).
  split; [|done]. repeat constructor; try done; apply (bool_decide_unpack _); vm_compute; exact I.
Defined.

(** ** Claims: dot segments *)

(** Walking a path from a directory, given by the names below the root,
    nearest first; the root is its own parent. *)
Fixpoint walk (st segs : list (list Z)) : list (list Z) :=
  match segs with
  | [] => st
  | s :: r =>
      walk (if bool_decide (s = dot) then st else if bool_decide (s = dotdot) then tail st else s :: st) r
  end.

Definition plain (s : list Z) : Prop := s <> dot /\ s <> dotdot.

(** Parent segments first, possibly after one ".", then only names. *)
Definition normal_form (segs : list (list Z)) : Prop :=
  exists d n ns, segs = d ++ replicate n dotdot ++ ns /\ (d = [] \/ d = [dot]) /\ Forall plain ns.

Lemma walk_app st a b : walk st (a ++ b) = walk (walk st a) b.
Proof. revert st. induction a as [|x a IH]; intros st; [done|]. cbn. apply IH. Qed.

Lemma dot_neq : dot <> dotdot.
Proof. discriminate. Qed.

Lemma walk_plain st s : plain s -> walk st [s] = s :: st.
Proof. intros [? ?]. cbn. by rewrite !bool_decide_eq_false_2. Qed.

Lemma normalize_loop_walk suf : forall pre e st,
  walk st (fst (normalize_loop pre suf e)) = walk st (reverse pre ++ suf).
Proof.
  induction suf as [|i r IH]; intros pre e st; cbn [normalize_loop]; [by rewrite app_nil_r|].
  assert (forall pre e, i = dot -> walk st (fst (normalize_loop pre r e)) = walk st (reverse pre ++ i :: r)) as Hdot.
  { intros pre' e' ->. rewrite IH, !walk_app. done. }
  assert (forall pre e, walk st (fst (normalize_loop (i :: pre) r e)) = walk st (reverse pre ++ i :: r)) as Hpush.
  { intros pre' e'. rewrite IH, reverse_cons, <- app_assoc. done. }
  assert (forall pre e e', walk st (fst (if bool_decide (i = dot) then normalize_loop pre r e
            else normalize_loop (i :: pre) r e')) = walk st (reverse pre ++ i :: r)) as Helse.
  { intros pre' e1 e2. destruct (bool_decide (i = dot)) eqn:E; [|done].
    apply bool_decide_eq_true in E. auto. }
  destruct pre as [|j pre']; [apply Helse|].
  destruct (bool_decide (i = dotdot) && _ && _) eqn:E; [|apply Helse].
  apply andb_prop in E as [E Hj2]. apply andb_prop in E as [Hi Hj1].
  apply bool_decide_eq_true in Hi. apply negb_true_iff, bool_decide_eq_false in Hj1, Hj2. subst i.
  rewrite IH, reverse_cons, <- app_assoc, !walk_app.
  by rewrite (walk_plain _ j).
Qed.

Lemma normal_form_snoc segs i :
  normal_form segs -> i <> dot -> (i = dotdot -> segs = [] \/ last segs = Some dot \/ last segs = Some dotdot) ->
  normal_form (segs ++ [i]).
Proof.
  intros (d & n & ns & -> & Hd & Hp) Hi Hdd. destruct (decide (i = dotdot)) as [->|Hn].
  - assert (ns = []) as ->.
    { destruct ns as [|x ns _] using rev_ind; [done|]. apply Forall_app in Hp as [_ Hp].
      apply Forall_cons_1 in Hp as [[? ?] _]. rewrite !app_assoc, last_snoc in Hdd.
      destruct (Hdd eq_refl) as [He|[He|He]]; [|congruence..]. by apply app_nil in He as [_ ?]. }
    exists d, (S n), []. split; [|done]. rewrite !app_nil_r, replicate_S_end, app_assoc. done.
  - exists d, n, (ns ++ [i]). rewrite !app_assoc. split_and!; try done.
    apply Forall_app. split; [done|]. by repeat constructor.
Qed.

Lemma normal_form_init segs i : normal_form (segs ++ [i]) -> plain i -> normal_form segs.
Proof.
  intros (d & n & ns & He & Hd & Hp) [Hi1 Hi2]. destruct ns as [|x ns _] using rev_ind.
  - rewrite app_nil_r in He. exfalso. destruct n as [|n].
    + cbn in He. rewrite app_nil_r in He. destruct Hd as [->| ->].
      * by apply app_nil in He as [_ ?].
      * apply (f_equal last) in He. rewrite last_snoc in He. injection He as ->. done.
    + rewrite replicate_S_end, app_assoc in He. apply (f_equal last) in He.
      rewrite !last_snoc in He. congruence.
  - rewrite !app_assoc in He. apply app_inj_tail in He as [-> _]. apply Forall_app in Hp as [Hp _].
    exists d, n, ns. by rewrite app_assoc.
Qed.

Lemma normalize_loop_normal suf : forall pre e,
  normal_form (reverse pre) -> normal_form (fst (normalize_loop pre suf e)).
Proof.
  induction suf as [|i r IH]; intros pre e Hn; cbn [normalize_loop]; [done|].
  destruct pre as [|j pre'].
  - destruct (bool_decide (i = dot)) eqn:Hi; apply IH; [done|]. apply bool_decide_eq_false in Hi.
    apply (normal_form_snoc []); [done|done|by left].
  - destruct (bool_decide (i = dotdot)) eqn:Hi; [apply bool_decide_eq_true in Hi|apply bool_decide_eq_false in Hi]; cbn [andb].
    + subst i. destruct (bool_decide (j = dotdot)) eqn:Hj1; [|destruct (bool_decide (j = dot)) eqn:Hj2]; cbn [negb andb].
      * apply bool_decide_eq_true in Hj1. rewrite bool_decide_eq_false_2 by done. apply IH. rewrite reverse_cons.
        apply normal_form_snoc; [done|done|]. intros _. rewrite reverse_cons, last_snoc. right; right. congruence.
      * apply bool_decide_eq_true in Hj2. rewrite bool_decide_eq_false_2 by done. apply IH. rewrite reverse_cons.
        apply normal_form_snoc; [done|done|]. intros _. rewrite reverse_cons, last_snoc. right; left. congruence.
      * apply bool_decide_eq_false in Hj1, Hj2. apply IH. rewrite reverse_cons in Hn.
        by apply normal_form_init in Hn.
    + destruct (bool_decide (i = dot)) eqn:Hd; apply IH; [done|]. apply bool_decide_eq_false in Hd.
      rewrite reverse_cons. by apply normal_form_snoc.
Qed.

Lemma normal_form_step segs i rest :
  normal_form (segs ++ i :: rest) -> segs <> [] ->
  i <> dot /\ (i = dotdot -> last segs = Some dot \/ last segs = Some dotdot).
Proof.
  intros (d & n & ns & He & Hd & Hp) Hs.
  assert (forall k x, segs !! k = Some x -> (d ++ replicate n dotdot ++ ns) !! k = Some x) as Hl.
  { intros k x Hk. rewrite <- He. rewrite lookup_app_l; [done|]. by eapply lookup_lt_Some. }
  assert ((d ++ replicate n dotdot ++ ns) !! length segs = Some i) as Hi.
  { rewrite <- He. rewrite lookup_app_r, Nat.sub_diag by lia. done. }
  assert (0 < length segs)%nat as Hlen by (destruct segs; [done|cbn; lia]).
  assert (length d <= 1)%nat as Hd1 by (destruct Hd as [->| ->]; cbn; lia).
  rewrite lookup_app_r in Hi by lia. rewrite lookup_app in Hi.
  assert (last segs = (d ++ replicate n dotdot ++ ns) !! pred (length segs)) as Hlast.
  { rewrite last_lookup. destruct (segs !! pred (length segs)) as [x|] eqn:Ex; [by rewrite (Hl _ _ Ex)|].
    apply lookup_ge_None in Ex. lia. }
  destruct (replicate n dotdot !! (length segs - length d)%nat) as [y|] eqn:Ey.
  - injection Hi as ->. apply lookup_replicate in Ey as [-> Hlt]. split; [done|]. intros _.
    rewrite Hlast. destruct (decide (length segs = length d)) as [Heq|Hne].
    + left. rewrite Heq. destruct Hd as [->| ->]; [cbn in *; lia|done].
    + right. rewrite lookup_app_r by lia. rewrite lookup_app_l by (rewrite length_replicate; lia).
      apply lookup_replicate_2. lia.
  - assert (plain i) as [? ?] by (eapply (Forall_lookup_1 _ ns); eassumption). done.
Qed.

Lemma normalize_loop_id suf : forall pre e,
  normal_form (reverse pre ++ suf) -> pre <> [] -> normalize_loop pre suf e = (reverse pre ++ suf, e).
Proof.
  induction suf as [|i r IH]; intros pre e Hn Hp; cbn [normalize_loop]; [by rewrite app_nil_r|].
  destruct pre as [|j pre']; [done|].
  destruct (normal_form_step _ _ _ Hn) as [Hi Hdd].
  { rewrite reverse_cons. by intros [_ ?]%app_nil. }
  rewrite reverse_cons, last_snoc in Hdd. rewrite (bool_decide_eq_false_2 (i = dot)) by done.
  assert (bool_decide (i = dotdot) && negb (bool_decide (j = dotdot)) && negb (bool_decide (j = dot)) = false) as ->.
  { destruct (decide (i = dotdot)) as [->|]; [|by rewrite bool_decide_eq_false_2].
    destruct (Hdd eq_refl) as [[= ->]|[= ->]]; done. }
  rewrite IH; [|by rewrite reverse_cons, <- app_assoc|done]. by rewrite (reverse_cons (j :: pre')), <- app_assoc.
Qed.

(** [normalize] on a path with segments removes "." and resolves "..": the
    result leads to the same place from every directory, is in normal form
    (a possible leading ".", then "..", then only names), keeps the leading
    slash and any trailing one, and is a fixed point; on a path without
    segments (such as "/") it increments the end iterator, which is
    undefined. *)
Theorem Path_normalize_spec p :
  match Path_normalize p with
  | None => segmt p = []
  | Some p' =>
      segmt p <> [] /\ (forall st, walk st (segmt p') = walk st (segmt p))
      /\ normal_form (segmt p') /\ SLASH_BEGIN p' = SLASH_BEGIN p
      /\ (segmt p' <> [] -> Path_normalize p' = Some p')
  end.
Proof.
  unfold Path_normalize. destruct (segmt p) as [|x r] eqn:Es; [done|].
  pose proof (normalize_loop_walk r [x] (SLASH_END p)) as Hw.
  pose proof (normalize_loop_normal r [x] (SLASH_END p)) as Hn.
  destruct (normalize_loop [x] r (SLASH_END p)) as [s e]. cbn in Hw, Hn |- *.
  assert (normal_form s) as Hs.
  { apply Hn. destruct (decide (x = dot)) as [->|Hx]; [by exists [dot], 0%nat, []; auto|].
    apply (normal_form_snoc []); [by exists [], 0%nat, []; auto|done|by left]. }
  split_and!; try done. intros Hne. destruct s as [|y s]; [done|].
  by rewrite (normalize_loop_id s [y] e).
Qed.

(** The walk of the merge loop. *)
Lemma merge_segmts_ok ps : forall this, exists e,
  merge_segmts ps this = Some (mk_Path (reverse (walk (reverse (segmt this)) ps)) (SLASH_BEGIN this) e).
Proof.
  induction ps as [|i r IH]; intros this; cbn [merge_segmts walk].
  - exists (SLASH_END this). rewrite reverse_involutive. by destruct this.
  - case_bool_decide as Hi; [destruct (IH (set_SLASH_END true this)); eauto|].
    case_bool_decide as Hj.
    + destruct (segmt this) as [|y s _] eqn:Es using rev_ind.
      * destruct (IH this) as [e He]. rewrite Es in He. eauto.
      * replace (match s ++ [y] with [] => _ | _ :: _ => _ end)
          with (merge_segmts r (set_SLASH_END true (set_segmt s this))).
        2:{ unfold pop_back. rewrite removelast_last. by destruct s. }
        destruct (IH (set_SLASH_END true (set_segmt s this))) as [e He]. cbn [segmt SLASH_BEGIN set_segmt set_SLASH_END] in He.
        rewrite reverse_snoc. eauto.
    + destruct (IH (set_SLASH_END false (set_segmt (segmt this ++ [i]) this))) as [e He]. cbn [segmt SLASH_BEGIN set_segmt set_SLASH_END] in He.
      rewrite reverse_snoc in He. eauto.
Qed.

(** The directory a path is relative to. *)
Definition dir_of (this p : Path) : list (list Z) :=
  if negb (SLASH_END this) && negb (Path_empty p) then removelast (segmt this) else segmt this.

Lemma Path_merge_ok this p :
  exists r, Path_merge this p = Some r /\
    if SLASH_BEGIN p then r = p
    else segmt r = reverse (walk (reverse (dir_of this p)) (segmt p))
         /\ SLASH_BEGIN r = SLASH_BEGIN this /\ (SLASH_END p = true -> SLASH_END r = true).
Proof.
  unfold Path_merge, dir_of. destruct (SLASH_BEGIN p); [eauto|].
  assert ((if negb (SLASH_END this) && negb (bool_decide (segmt this = [])) && negb (Path_empty p)
           then s ← pop_back (segmt this); Some (set_segmt s this) else Some this)
          = Some (set_segmt (dir_of this p) this)) as ->.
  { unfold dir_of. destruct (SLASH_END this) eqn:Ee, (Path_empty p), (segmt this) eqn:Es;
      cbn [negb andb]; rewrite ?andb_false_r; unfold set_segmt; rewrite ?Ee; destruct this; cbn in *; subst; done. }
  cbn [mbind option_bind]. destruct (merge_segmts_ok (segmt p) (set_segmt (dir_of this p) this)) as [e ->].
  cbn. eexists. split; [done|]. unfold dir_of. by destruct (SLASH_END p).
Qed.

Lemma Path_merge_total this p : exists r, Path_merge this p = Some r.
Proof. destruct (Path_merge_ok this p) as (r & Hr & _). eauto. Qed.

(** C28: [merge] never meets undefined behaviour.  An absolute path replaces
    the base; the segments of a relative one are walked from the directory of
    the base ("." stays, ".." goes up and stops at the root), the base keeps
    its leading slash, and a trailing slash of the reference is kept. *)
Theorem Path_merge_spec this p :
  exists r, Path_merge this p = Some r /\
    if SLASH_BEGIN p then r = p
    else segmt r = reverse (walk (reverse (dir_of this p)) (segmt p))
         /\ SLASH_BEGIN r = SLASH_BEGIN this /\ (SLASH_END p = true -> SLASH_END r = true).
Proof. apply Path_merge_ok. Qed.

(** [updir] goes one directory up: it drops the last segment, and the file
    name before it when there is no trailing slash, leaves a trailing slash
    and reports [true]; without segments it does nothing.  For a single file
    name it calls [pop_back] on an empty list, which is undefined. *)
Theorem Path_updir_spec p :
  Path_updir p =
    match segmt p, SLASH_END p with
    | [], _ => Some (false, p)
    | [_], false => None
    | s, true => Some (true, mk_Path (removelast s) (SLASH_BEGIN p) true)
    | s, false => Some (true, mk_Path (removelast (removelast s)) (SLASH_BEGIN p) true)
    end.
Proof. unfold Path_updir. by destruct (segmt p) as [|x [|y s]], (SLASH_END p). Qed.
