(* ===== verification/Url.v ===== *)
(** * Class Url ([src/common/Url.hh], [Url.cc])

    Parsing, printing, resolving and normalising URLs.  An operation that
    throws is modelled by its exception; the partly assigned object it leaves
    is not.  [NDEBUG] says whether assertions are compiled out. *)

From S2P Require Import Prelude Regex Utils UrlEsc Path.

Open Scope res_scope.

(** ** The regular expressions of [Url_util] *)
Definition RE_URL : re :=
  Seq Bol
  (Seq (Opt (Grp 1 (Seq (Grp 2 (Plus (Set_ (none_of (str ":/?#"))))) (Chr 58))))
  (Seq (Opt (Grp 3 (Alt (Seq (Lit (str "//")) (Grp 4 (Star (Set_ (none_of (str "/?#"))))))
                        (Lit (str "///")))))
  (Seq (Grp 5 (Star (Set_ (none_of (str "?#")))))
  (Seq (Opt (Grp 6 (Seq (Chr 63) (Star (Set_ (none_of (str "#")))))))
       (Opt (Grp 7 (Seq (Chr 35) (Star Any)))))))).

Definition RE_SCHEME : re :=
  Seq Bol (Seq (Set_ is_alpha)
  (Seq (Star (Set_ (fun c => is_alnum c || one_of (str "+.-") c))) Eol)).

Definition RE_HOST : re :=
  Seq Bol (Seq (Set_ is_alnum)
  (Seq (Opt (Grp 1 (Seq (Star (Set_ (fun c => is_alnum c || one_of (str ".-") c)))
                        (Set_ (fun c => is_alnum c || (c =? 46))))))
       Eol)).

Definition RE_PORT : re := Seq Bol (Seq (Rep (Set_ is_digit) 1 (Some 5%nat)) Eol).

Definition RE_IPVFUT : re :=
  Seq Bol (Seq (Chr 118) (Seq (Set_ is_xdigit) (Seq (Chr 46) (Seq (Chr 49)
  (Seq (Star (Set_ (fun c => is_alnum c || one_of (str "._~!$&'()*+,;=:-") c))) Eol))))).

(** [decoct]; its second alternative has the set [[0-0]]. *)
Definition decoct : re :=
  Alt (Seq (Opt (Set_ (one_of (str "01")))) (Seq (Opt (Set_ is_digit)) (Set_ is_digit)))
  (Alt (Seq (Chr 50) (Seq (Set_ (in_range 48 52)) (Set_ (in_range 48 48))))
       (Seq (Chr 50) (Seq (Chr 53) (Set_ (in_range 48 53))))).

Definition RE_IPV4 : re :=
  Seq decoct (Seq (Chr 46) (Seq decoct (Seq (Chr 46) (Seq decoct (Seq (Chr 46) decoct))))).

Definition h16 : re := Rep (Set_ is_xdigit) 1 (Some 4%nat).
Definition ls32 : re := Alt (Seq h16 (Seq (Chr 58) h16)) RE_IPV4.
Definition h16_colon (min max : nat) : re := Rep (Seq h16 (Chr 58)) min (Some max).
Definition dcolon : re := Lit (str "::").

(** The nine alternatives of [ipv6]; their groups are not used. *)
Definition RE_IPV6 : re :=
  Alt (Seq (h16_colon 6 6) ls32)
  (Alt (Seq dcolon (Seq (h16_colon 5 5) ls32))
  (Alt (Seq (Opt h16) (Seq dcolon (Seq (h16_colon 4 4) ls32)))
  (Alt (Seq (Opt (Seq (h16_colon 0 1) h16)) (Seq dcolon (Seq (h16_colon 3 3) ls32)))
  (Alt (Seq (Opt (Seq (h16_colon 0 2) h16)) (Seq dcolon (Seq (h16_colon 2 2) ls32)))
  (Alt (Seq (Opt (Seq (h16_colon 0 3) h16)) (Seq dcolon (Seq (h16_colon 1 1) ls32)))
  (Alt (Seq (Opt (Seq (h16_colon 0 4) h16)) (Seq dcolon ls32))
  (Alt (Seq (Opt (Seq (h16_colon 0 5) h16)) (Seq dcolon h16))
       (Seq (Opt (Seq (h16_colon 0 6) h16)) dcolon)))))))).

(** ** The object *)
Record Url := mk_Url {
  _path : Path;
  m_suspicious : bool;
  m_scheme : list Z;
  m_has_authority : bool;
  m_host_ip_literal : bool;
  m_userinfo : list Z;
  m_host : list Z;
  m_port : list Z;
  m_query : list Z;
  m_fragment : list Z
}.

Definition set_path v u := mk_Url v (m_suspicious u) (m_scheme u) (m_has_authority u) (m_host_ip_literal u) (m_userinfo u) (m_host u) (m_port u) (m_query u) (m_fragment u).
Definition set_scheme v u := mk_Url (_path u) (m_suspicious u) v (m_has_authority u) (m_host_ip_literal u) (m_userinfo u) (m_host u) (m_port u) (m_query u) (m_fragment u).
Definition set_has_authority v u := mk_Url (_path u) (m_suspicious u) (m_scheme u) v (m_host_ip_literal u) (m_userinfo u) (m_host u) (m_port u) (m_query u) (m_fragment u).
Definition set_ip_literal v u := mk_Url (_path u) (m_suspicious u) (m_scheme u) (m_has_authority u) v (m_userinfo u) (m_host u) (m_port u) (m_query u) (m_fragment u).
Definition set_userinfo v u := mk_Url (_path u) (m_suspicious u) (m_scheme u) (m_has_authority u) (m_host_ip_literal u) v (m_host u) (m_port u) (m_query u) (m_fragment u).
Definition set_host v u := mk_Url (_path u) (m_suspicious u) (m_scheme u) (m_has_authority u) (m_host_ip_literal u) (m_userinfo u) v (m_port u) (m_query u) (m_fragment u).
Definition set_port v u := mk_Url (_path u) (m_suspicious u) (m_scheme u) (m_has_authority u) (m_host_ip_literal u) (m_userinfo u) (m_host u) v (m_query u) (m_fragment u).
Definition set_query v u := mk_Url (_path u) (m_suspicious u) (m_scheme u) (m_has_authority u) (m_host_ip_literal u) (m_userinfo u) (m_host u) (m_port u) v (m_fragment u).
Definition set_fragment v u := mk_Url (_path u) (m_suspicious u) (m_scheme u) (m_has_authority u) (m_host_ip_literal u) (m_userinfo u) (m_host u) (m_port u) (m_query u) v.

Definition Url_new : Url := mk_Url Path_new false [] false false [] [] [] [] [].

Definition Url_clear (u : Url) : Url := mk_Url (Path_clear (_path u)) false [] false false [] [] [] [] [].

Definition has_query (u : Url) : bool := negb (bool_decide (m_query u = [])).
Definition has_fragment (u : Url) : bool := negb (bool_decide (m_fragment u = [])).
Definition has_scheme (u : Url) : bool := negb (bool_decide (m_scheme u = [])).
Definition Url_absolute (u : Url) : bool := negb (bool_decide (m_scheme u = [])).
Definition clear_query (u : Url) : Url := set_query [] u.
Definition clear_fragment (u : Url) : Url := set_fragment [] u.

Definition Url_empty (u : Url) : bool :=
  if negb (bool_decide (m_scheme u = [])) || m_has_authority u || negb (Path_empty (_path u))
     || has_query u || has_fragment u
  then false else true.

Definition get_authority (u : Url) : list Z :=
  if bool_decide (m_host u = []) then [] else
  (if bool_decide (m_userinfo u = []) then [] else m_userinfo u ++ str "@")
  ++ (if m_host_ip_literal u then str "[" ++ m_host u ++ str "]" else m_host u)
  ++ (if bool_decide (m_port u = []) then [] else str ":" ++ m_port u).

Definition Url_get (u : Url) : list Z :=
  (if bool_decide (m_scheme u = []) then [] else m_scheme u ++ str ":")
  ++ (if m_has_authority u then str "//" ++ get_authority u else [])
  ++ Path_get (_path u) ++ m_query u ++ m_fragment u.

Definition Url_size (u : Url) : Z :=
  (if bool_decide (m_scheme u = []) then 0 else zlen (m_scheme u) + 1)
  + (if m_has_authority u then 2 + zlen (get_authority u) else 0)
  + zlen (Path_get (_path u)) + zlen (m_query u) + zlen (m_fragment u).

(** ** Helpers of the standard library *)

(** [s.find(c, from)] *)
Definition find_char (c : Z) (s : list Z) (from : Z) : option Z :=
  (fun '(i, _) => from + Z.of_nat i) <$> list_find (fun x => x = c) (zdrop from s).

(** [s.find_first_of(set) != npos] *)
Definition has_one_of (set s : list Z) : bool := existsb (one_of set) s.

Definition to_lower (s : list Z) : list Z := tolower <$> s.

(** [istringstream(s) >> port]: white space, a sign, digits; [None] is
    [fail()]. *)
Definition is_space (c : Z) : bool := (c =? 32) || in_range 9 13 c.

Definition digits_val (ds : list Z) : Z := foldl (fun v d => 10 * v + (d - 48)) 0 ds.

Definition read_int (s : list Z) : option Z :=
  let s := snd (span is_space s) in
  let '(neg, s) := match s with
                   | c :: r => if c =? 45 then (true, r) else if c =? 43 then (false, r) else (false, s)
                   | [] => (false, [])
                   end in
  match fst (span is_digit s) with
  | [] => None
  | ds => let v := if neg : bool then - digits_val ds else digits_val ds in cint v
  end.

Definition lift_outcome {A} (o : outcome A) : res A := Some o.

Definition assert_ (NDEBUG cond : bool) : res unit := if NDEBUG || cond then val tt else abort.

Section Methods.
Context {BR : BoostRegex} (NDEBUG : bool) (max_size : Z).

Definition rx (r : re) (s : list Z) : bool := bool_decide (regex_match r s <> None).

(** [static valid_host(h)], and the member function on [m_host]. *)
Definition valid_host (h : list Z) : res bool :=
  if bool_decide (h = []) then val true else
  host <~ lift_outcome (unescape_safe h) ;;
  val (rx RE_HOST host || rx RE_IPVFUT host || rx RE_IPV6 host || rx RE_IPV4 host).

Definition syntax_ok (u : Url) : res bool :=
  if m_has_authority u && negb (Path_empty (_path u) || Path_absolute (_path u)) then val false
  else if has_one_of (str ":/?#") (m_scheme u) then val false
  else if has_one_of (str "/?#") (m_host u) then val false
  else
    v <~ valid_host (m_host u) ;;
    if negb v then val false
    else if has_one_of (str "?#") (Path_get (_path u)) then val false
    else if has_one_of (str "#") (m_query u) then val false
    else val true.

(** [catch(...)] of the accessors: an exception that is not a
    [UrlParseError] becomes one. *)
Definition catch_all (who s : list Z) (m : res Url) : res Url :=
  try_catch m (fun e => match e with
    | UrlParseError _ => throw e
    | _ => throw (UrlParseError (str "Url::" ++ who ++ str "(" ++ s ++ str "): throwed an unknown exception"))
    end).

Definition put_scheme (s : list Z) (u : Url) : res Url :=
  if rx RE_SCHEME s then val (set_has_authority true (set_scheme (to_lower s) u))
  else throw (UrlParseError (str "scheme: " ++ s ++ str " doesn't match scheme validation regex")).

Definition put_userinfo (s : list Z) (u : Url) : res Url :=
  e <~ lift_outcome (escape s URL_CHAR_AUTH) ;; val (set_userinfo e u).

Definition put_host (s : list Z) (u : Url) : res Url :=
  catch_all (str "host") s (
    norm <~ lift_outcome (escape s URL_CHAR_AUTH) ;;
    v <~ valid_host norm ;;
    if v : bool then val (set_has_authority true (set_host norm u))
    else throw (UrlParseError (str "Url::host(" ++ s ++ str "): Invalid host"))).

Definition put_port (s : list Z) (u : Url) : res Url :=
  if bool_decide (s = []) then val (set_port [] u) else
  if negb (rx RE_PORT s)
  then throw (UrlParseError (str "Url::port(" ++ s ++ str "): Invalid port: regex didn't match")) else
  match read_int s with
  | None => throw (UrlParseError (str "Url::port(" ++ s ++ str "): not an integer"))
  | Some port =>
      if negb ((port <? 2 ^ 16) && (port >? 0))
      then throw (UrlParseError (str "Url::port(" ++ s ++ str "): out of range (0,2^16)"))
      else val (set_port s u)
  end.

Definition port_int (u : Url) : res Z :=
  if bool_decide (m_port u = []) then throw (BadUrl (str "port is empty")) else
  match read_int (m_port u) with
  | None => throw (BadUrl (str "port is not an integer"))
  | Some port =>
      if negb ((port <? 2 ^ 16) && (port >=? 0)) then throw (BadUrl (str "port is out of range [0,2^16)"))
      else val port
  end.

Definition put_path (s : list Z) (u : Url) : res Url :=
  e <~ lift_outcome (escape s URL_CHAR_PATH) ;;
  match Path_assign max_size e with
  | None => abort
  | Some p => val (set_path (if m_has_authority u then Path_set_absolute true p else p) u)
  end.

Definition put_query (s : list Z) (u : Url) : res Url :=
  e <~ lift_outcome (escape s URL_CHAR_QUERY) ;; val (set_query e u).

Definition put_fragment (s : list Z) (u : Url) : res Url :=
  e <~ lift_outcome (escape s URL_CHAR_FRAGMENT) ;; val (set_fragment e u).

(** [authority = [ userinfo "@" ] host [ ":" port ]]; first the user, with
    the position where the host begins. *)
Definition put_user_part (s : list Z) (u : Url) : res (Url * Z) :=
  match find_char 64 s 0 with
  | Some user_e =>
      assert_ NDEBUG (user_e >? 0) ;;;
      u <~ put_userinfo (ztake user_e s) u ;;
      if negb (user_e + 1 <? zlen s)
      then throw (UrlParseError (str "authority doesn't have host part: " ++ s))
      else val (u, user_e + 1)
  | None => val (u, 0)
  end.

Definition put_host_port (s : list Z) (host_b : Z) (u : Url) : res Url :=
  if default 0 (znth s host_b) =? 91 then
    let u := set_ip_literal true u in
    let host_b := host_b + 1 in
    if negb (host_b <? zlen s)
    then throw (UrlParseError (str "authority incomplete host part, nothing follows '[': " ++ s)) else
    match find_char 93 s host_b with
    | Some host_e => assert_ NDEBUG (host_e - host_b >? 0) ;;; put_host (zseg host_b host_e s) u
    | None => throw (UrlParseError (str "authority incomplete host part, couldn't find closing ']':"
                                    ++ zdrop host_b s ++ str " : " ++ s))
    end
  else
    match find_char 58 s host_b with
    | None => put_host (zdrop host_b s) u
    | Some host_e =>
        if host_e =? host_b
        then throw (UrlParseError (str "authority starts with : without @ part")) else
        assert_ NDEBUG (host_e - host_b >? 0) ;;;
        u <~ put_host (zseg host_b host_e s) u ;;
        if host_e + 1 <? zlen s then put_port (zdrop (host_e + 1) s) u
        else throw (UrlParseError (str "no port number after :"))
    end.

Definition put_authority (s : list Z) (u : Url) : res Url :=
  catch_all (str "authority") s (
    ub <~ put_user_part s u ;;
    let '(u, host_b) := ub in put_host_port s host_b u).

(** [if( match[n].matched ) f(match[n].str())] *)
Definition on_group (n : nat) (g : groups) (f : list Z -> Url -> res Url) (u : Url) : res Url :=
  match group n g with Some s => f s u | None => val u end.

Definition Url_assign (s : list Z) (u : Url) : res Url :=
  let u := Url_clear u in
  match regex_match RE_URL s with
  | None => throw (UrlParseError (str "Url doesn't match primary url regex"))
  | Some g =>
      u <~ on_group 2 g put_scheme u ;;
      u <~ (match group 3 g with
            | Some d => if bool_decide (d = str "//") && negb (bool_decide (m_scheme u = []))
                           && negb (bool_decide (m_scheme u = str "file"))
                        then throw (UrlParseError (str "empty authority part, with // is not allowed for schemes other than 'file'"))
                        else val u
            | None => val u
            end) ;;
      u <~ on_group 4 g put_authority u ;;
      u <~ on_group 5 g put_path u ;;
      u <~ on_group 6 g put_query u ;;
      u <~ on_group 7 g put_fragment u ;;
      ok <~ syntax_ok u ;;
      if negb ok then throw (UrlParseError (str " ! syntax_ok() for this url, sanity checks failed")) else
      v <~ valid_host (m_host u) ;;
      if negb v then throw (UrlParseError (str " ! valid_host() for this url, sanity checks failed"))
      else val u
  end.

(** [Url(s)] *)
Definition Url_of (s : list Z) : res Url := Url_assign s Url_new.

Definition put_fragment_of (r u : Url) : res Url :=
  if has_fragment r then put_fragment (m_fragment r) u else val (clear_fragment u).

(** [Url::merge_ref(r)] *)
Definition merge_ref (this r : Url) : res Url :=
  ok <~ syntax_ok r ;;
  if negb ok then throw (BadUrl (str "supplied url ! syntax_ok")) else
  if Url_absolute this && negb (Url_absolute r) then
    u <~ (if has_scheme r then
            u <~ put_scheme (m_scheme r) (Url_clear this) ;;
            u <~ (if m_has_authority r then put_authority (get_authority r) u else val u) ;;
            u <~ put_path (Path_get (_path r)) u ;;
            put_query (m_query r) u
          else if m_has_authority r then
            u <~ put_authority (get_authority r) this ;;
            u <~ put_path (Path_get (_path r)) u ;;
            if has_query r then put_query (m_query r) u else val u
          else
            u <~ (if Path_empty (_path r) then
                    if has_query r then put_query (m_query r) this else val this
                  else
                    match Path_merge (_path this) (_path r) with
                    | None => abort
                    | Some p =>
                        let u := set_path p this in
                        if has_query r then put_query (m_query r) u else val (clear_query u)
                    end) ;;
            put_fragment_of r u) ;;
    put_fragment_of r u
  else if negb (Url_absolute this) && Url_absolute r
  then throw (runtime_error (str "Can only merge an absolute url with a reference"))
  else if Url_absolute this && Url_absolute r
  then throw (runtime_error (str "Can't merge two absolute urls"))
  else throw (runtime_error (str "Can't merge two relative references")).

Definition normalize_scheme (u : Url) : Url := set_scheme (to_lower (m_scheme u)) u.

Definition normalize_host (u : Url) : Url :=
  set_host ((fun c => if in_range 65 90 c then c + 32 else c) <$> m_host u) u.

Definition normalize_escapes (u : Url) : res Url :=
  s <~ lift_outcome (normalize_escapes_str (Url_get u)) ;;
  try_catch (Url_assign s u) (fun e => match e with
    | UrlParseError w => throw (runtime_error (str "normalize_escapes: " ++ w))
    | _ => throw e
    end).

Definition normalize_path (u : Url) : res Url :=
  match Path_normalize (_path u) with None => abort | Some p => val (set_path p u) end.

Definition Url_normalize (u : Url) : res Url :=
  u <~ normalize_escapes (normalize_host (normalize_scheme u)) ;; normalize_path u.

(** [operator==] *)
Definition Url_eq (this u : Url) : res bool :=
  rhs <~ Url_normalize u ;;
  lhs <~ Url_normalize this ;;
  val (bool_decide (Url_get rhs = Url_get lhs)).

(** [scheme_t] of [utils.hh], which indexes the table. *)
Definition SCHEME_HTTP : Z := 0.
Definition SCHEME_FILE : Z := 1.
Definition SCHEME_FTP : Z := 2.

Definition scheme_defport : list (list Z) := [str "80"; str "21"; str "0"].

Definition defport (scheme : Z) : list Z := default [] (znth scheme_defport scheme).

Definition set_def_port (u : Url) : res Url :=
  if negb (bool_decide (m_scheme u = [])) then
    if bool_decide (m_scheme u = str "http") then put_port (defport SCHEME_HTTP) u
    else if bool_decide (m_scheme u = str "ftp") then put_port (defport SCHEME_FTP) u
    else if bool_decide (m_scheme u = str "file") then val (set_port (defport SCHEME_FILE) u)
    else throw (UrlParseError (str "set_def_port: unknown default port for scheme: " ++ m_scheme u))
  else throw (UrlParseError (str "set_def_port: scheme is empty")).
End Methods.
