(* ===== verification/UrlSplit.v ===== *)
(** * The URL regular expression is the RFC 3986 decomposition

    [RE_URL] ([Url.hh], the expression of RFC 3986 appendix B) matches every
    string, and its groups are the components found by scanning the string
    once from left to right. *)

From S2P Require Import Prelude Regex Utils UrlEsc Path Url.

Record parts := mk_parts {
  p_scheme : option (list Z);
  p_authority : option (list Z);
  p_path : list Z;
  p_query : option (list Z);
  p_fragment : option (list Z)
}.

Definition not_scheme_end := none_of (str ":/?#").
Definition not_auth_end := none_of (str "/?#").
Definition not_path_end := none_of (str "?#").
Definition not_hash := none_of (str "#").

Definition take_scheme (s : list Z) : option (list Z) * list Z :=
  match span not_scheme_end s with
  | (c :: a, d :: r) => if d =? 58 then (Some (c :: a), r) else (None, s)
  | _ => (None, s)
  end.

Definition take_authority (s : list Z) : option (list Z) * list Z :=
  match s with
  | c :: d :: r => if (c =? 47) && (d =? 47) then let '(a, b) := span not_auth_end r in (Some a, b) else (None, s)
  | _ => (None, s)
  end.

(** The query keeps its "?". *)
Definition take_query (s : list Z) : option (list Z) * list Z :=
  match s with
  | c :: r => if c =? 63 then let '(a, b) := span not_hash r in (Some (c :: a), b) else (None, s)
  | [] => (None, s)
  end.

Definition take_fragment (s : list Z) : option (list Z) :=
  match s with [] => None | _ => Some s end.

Definition split_url (s : list Z) : parts :=
  let '(scheme, s) := take_scheme s in
  let '(auth, s) := take_authority s in
  let '(path, s) := span not_path_end s in
  let '(query, s) := take_query s in
  mk_parts scheme auth path query (take_fragment s).

(** ** The groups *)
Lemma consumed_after a b st : rest st = a ++ b -> consumed st (after a b st) = a.
Proof. intros H. apply consumed_app. by rewrite after_rest. Qed.

Definition add_caps (l : groups) (st : mstate) : groups := l ++ caps st.

Lemma scheme_first st :
  let '(sc, r) := take_scheme (rest st) in
  exists st', first_is (matches (Opt (Grp 1 (Seq (Grp 2 (Plus (Set_ not_scheme_end))) (Chr 58)))) st) st'
    /\ rest st' = r
    /\ caps st' = match sc with Some a => [(1%nat, a ++ [58]); (2%nat, a)] ++ caps st | None => caps st end.
Proof.
  assert (forall st c r, rest st = c :: r -> not_scheme_end c = true -> matches (Chr 58) st = []) as HK.
  { intros st1 c r Hr Hc. unfold Chr. cbn [matches]. rewrite Hr. zcase (58 =? c); [by subst c|done]. }
  unfold take_scheme. pose proof (span_app not_scheme_end (rest st)) as Hs.
  pose proof (span_all not_scheme_end (rest st)) as Hall.
  set (inner := Seq (Grp 2 (Plus (Set_ not_scheme_end))) (Chr 58)).
  assert (matches inner st =
    match span not_scheme_end (rest st) with
    | (c :: a, d :: r) => if d =? 58 then [mk_ms r false ((2%nat, c :: a) :: caps st)] else []
    | _ => [] end) as Hin.
  { unfold inner. cbn [matches]. rewrite (plus_set _ st).
    destruct (span not_scheme_end (rest st)) as [a b]. cbn [fst snd] in *.
    destruct a as [|c a]; [done|]. apply Forall_cons_1 in Hall as [Hc Hall].
    rewrite flat_map_concat_map, map_map, <- flat_map_concat_map.
    match goal with |- context [flat_map ?f (shorter a b ?st1)] =>
      rewrite (flat_map_shorter not_scheme_end f a b st1) end;
      [|intros st' c' r' Hr Hc'; by eapply (HK (mk_ms (rest st') (at_start st') _))|done|done].
    set (st1 := after a b _).
    assert (rest st1 = b) as Hb by (unfold st1; by apply after_rest).
    assert (caps st1 = caps st) as Hcp by (unfold st1; by rewrite after_caps).
    rewrite (consumed_app st st1 (c :: a)) by (rewrite Hb; by rewrite <- Hs).
    unfold Chr. cbn [matches rest caps]. rewrite Hb, Hcp. destruct b as [|d r]; [done|].
    rewrite (Z.eqb_sym 58 d). by destruct (d =? 58). }
  destruct (span not_scheme_end (rest st)) as [[|c a] [|d r]]; cbn [fst snd] in *;
    try (exists st; split; [apply opt_none; cbn [matches]; by rewrite Hin|done]).
  zcase (d =? 58).
  2:{ exists st. split; [apply opt_none; cbn [matches]; by rewrite Hin|done]. }
  subst d. eexists. split.
  - apply opt_first; [apply grp_first; rewrite Hin; by eexists|]. cbn [rest]. rewrite <- Hs.
    change ((c :: a) ++ 58 :: r) with (c :: (a ++ 58 :: r)). rewrite zlen_cons, zlen_app, zlen_cons.
    pose proof (zlen_nonneg a). lia.
  - cbn [rest caps]. split; [done|]. rewrite (consumed_app _ _ ((c :: a) ++ [58])); [done|].
    cbn [rest]. rewrite <- Hs. by rewrite <- app_assoc.
Qed.

Lemma authority_first st :
  let '(au, r) := take_authority (rest st) in
  exists st', first_is (matches (Opt (Grp 3 (Alt (Seq (Lit (str "//")) (Grp 4 (Star (Set_ not_auth_end)))) (Lit (str "///"))))) st) st'
    /\ rest st' = r
    /\ caps st' = match au with Some a => [(3%nat, str "//" ++ a); (4%nat, a)] ++ caps st | None => caps st end.
Proof.
  assert ((forall r, rest st <> 47 :: 47 :: r) ->
    matches (Grp 3 (Alt (Seq (Lit (str "//")) (Grp 4 (Star (Set_ not_auth_end)))) (Lit (str "///")))) st = []) as Hno.
  { intros Hr. cbn. destruct (rest st) as [|c [|d r]]; [done|..].
    - by destruct c as [|c|c]; try done; do 6 (destruct c as [c|c|]; try done).
    - zcase (47 =? c); [subst c|].
      + rewrite Z.eqb_refl. cbn. zcase (47 =? d); [subst d; by destruct (Hr r)|].
        by destruct d as [|d|d]; try done; do 6 (destruct d as [d|d|]; try done).
      + by destruct c as [|c|c]; try done; do 6 (destruct c as [c|c|]; try done). }
  unfold take_authority. destruct (rest st) as [|c [|d r]] eqn:Er;
    try (exists st; split; [by apply opt_none, Hno|by rewrite ?Er]).
  zcase ((c =? 47) && (d =? 47)).
  2:{ exists st. split; [|by rewrite Er]. apply opt_none, Hno. intros r' [= -> -> _]. done. }
  subst c d. pose proof (span_app not_auth_end r) as Hs.
  set (st1 := mk_ms r false (caps st)).
  assert (first_is (matches (Lit (str "//")) st) st1) as Hlit.
  { change (Lit (str "//")) with (Seq (Chr 47) (Chr 47)).
    eapply seq_first; [by apply (chr_first 47 st (47 :: r))|].
    by apply (chr_first 47 (mk_ms (47 :: r) false (caps st)) r). }
  pose proof (star_first not_auth_end st1) as Hst. cbn [st1 rest] in Hst.
  destruct (span not_auth_end r) as [a b]. cbn [fst snd] in *.
  eexists. split_and!.
  - apply opt_first.
    + apply grp_first, alt_first. eapply seq_first; [exact Hlit|]. apply grp_first. exact Hst.
    + cbn [rest]. rewrite after_rest by done. rewrite Er, <- Hs, !zlen_cons, zlen_app. pose proof (zlen_nonneg a). lia.
  - cbn [rest]. by apply after_rest.
  - cbn [caps]. rewrite after_caps. cbn [caps app].
    rewrite (consumed_after a b st1) by done.
    rewrite (consumed_app st _ (str "//" ++ a)); [done|]. cbn [rest]. rewrite after_rest by done.
    rewrite Er, <- Hs. done.
Qed.

Lemma path_first st :
  let '(a, b) := span not_path_end (rest st) in
  exists st', first_is (matches (Grp 5 (Star (Set_ not_path_end))) st) st'
    /\ rest st' = b /\ caps st' = (5%nat, a) :: caps st.
Proof.
  pose proof (span_app not_path_end (rest st)) as Hs. pose proof (star_first not_path_end st) as Hst.
  destruct (span not_path_end (rest st)) as [a b]. cbn [fst snd] in *.
  eexists. split_and!; [by apply grp_first| |].
  - cbn [rest]. by apply after_rest.
  - cbn [caps]. by rewrite after_caps, consumed_after.
Qed.

Lemma query_first st :
  let '(q, r) := take_query (rest st) in
  exists st', first_is (matches (Opt (Grp 6 (Seq (Chr 63) (Star (Set_ not_hash))))) st) st'
    /\ rest st' = r /\ caps st' = match q with Some a => (6%nat, a) :: caps st | None => caps st end.
Proof.
  assert ((forall r, rest st <> 63 :: r) -> matches (Grp 6 (Seq (Chr 63) (Star (Set_ not_hash)))) st = []) as Hno.
  { intros Hr. cbn. destruct (rest st) as [|c r]; [done|]. zcase (63 =? c); [subst c; by destruct (Hr r)|].
    by destruct c as [|c|c]; try done; do 6 (destruct c as [c|c|]; try done). }
  unfold take_query. destruct (rest st) as [|c r] eqn:Er.
  { exists st. split; [by apply opt_none, Hno|]. by rewrite Er. }
  zcase (c =? 63).
  2:{ exists st. split; [|by rewrite Er]. apply opt_none, Hno. intros r' [= -> _]. done. }
  subst c. pose proof (span_app not_hash r) as Hs. set (st1 := mk_ms r false (caps st)).
  pose proof (star_first not_hash st1) as Hst. cbn [st1 rest] in Hst.
  destruct (span not_hash r) as [a b]. cbn [fst snd] in *. eexists. split_and!.
  - apply opt_first.
    + apply grp_first. eapply seq_first; [by apply (chr_first 63 st r)|exact Hst].
    + cbn [rest]. rewrite after_rest by done. rewrite Er, <- Hs, zlen_cons, zlen_app. pose proof (zlen_nonneg a). lia.
  - cbn [rest]. by apply after_rest.
  - cbn [caps]. rewrite after_caps. rewrite (consumed_app st _ (63 :: a)); [done|].
    cbn [rest]. rewrite after_rest by done. by rewrite Er, <- Hs.
Qed.

(** After the query the string is empty or starts with the "#". *)
Lemma fragment_first st : (rest st = [] \/ exists r, rest st = 35 :: r) ->
  exists st', first_is (matches (Opt (Grp 7 (Seq (Chr 35) (Star Any)))) st) st'
    /\ rest st' = []
    /\ caps st' = match take_fragment (rest st) with Some a => (7%nat, a) :: caps st | None => caps st end.
Proof.
  intros [Er|[r Er]]; rewrite Er.
  - exists st. split; [|done]. apply opt_none. cbn. by rewrite Er.
  - set (st1 := mk_ms r false (caps st)). pose proof (star_first (fun _ => true) st1) as Hst.
    cbn [st1 rest] in Hst. rewrite any_all in Hst. cbn [fst snd] in Hst. eexists. split_and!.
    + apply opt_first; [apply grp_first; eapply seq_first; [by apply (chr_first 35 st r)|exact Hst]|].
      cbn [rest]. rewrite after_rest by (by rewrite app_nil_r). rewrite Er, zlen_cons.
      pose proof (zlen_nonneg r). change (zlen []) with 0. lia.
    + cbn [rest]. apply after_rest. cbn. by rewrite app_nil_r.
    + cbn [caps take_fragment]. rewrite after_caps. rewrite (consumed_app st _ (35 :: r)); [done|].
      cbn [rest]. rewrite after_rest by (by rewrite app_nil_r). by rewrite Er, app_nil_r.
Qed.

Lemma span_end p s : snd (span p s) = [] \/ exists c r, snd (span p s) = c :: r /\ p c = false.
Proof.
  destruct (snd (span p s)) as [|c r] eqn:E; [by left|right]. exists c, r. split; [done|]. by eapply span_stop.
Qed.

Lemma none_of_path_end c : not_path_end c = false -> c = 63 \/ c = 35.
Proof.
  change (not_path_end c) with (negb ((c =? 63) || ((c =? 35) || false))).
  rewrite negb_false_iff, !orb_true_iff, !Z.eqb_eq. intros [H|[H|H]]; [by left|by right|done].
Qed.

Lemma none_of_hash c : not_hash c = false -> c = 35.
Proof.
  change (not_hash c) with (negb ((c =? 35) || false)).
  rewrite negb_false_iff, !orb_true_iff, !Z.eqb_eq. by intros [H|H].
Qed.

Lemma take_query_end s : s = [] \/ (exists c r, s = c :: r /\ not_path_end c = false) ->
  snd (take_query s) = [] \/ exists r, snd (take_query s) = 35 :: r.
Proof.
  intros He. destruct s as [|c r]; [by left|]. cbn. zcase (c =? 63).
  - pose proof (span_end not_hash r) as Hh. destruct (span not_hash r) as [a b]. cbn [snd] in *.
    destruct Hh as [->|(d & r' & -> & Hd)]; [by left|right]. apply none_of_hash in Hd as ->. eauto.
  - right. destruct He as [?|(d & r' & [= -> ->] & Hd)]; [done|]. apply none_of_path_end in Hd as [->| ->]; [done|].
    cbn. eauto.
Qed.

(** The groups of the match, by their numbers. *)
Definition url_groups (g : groups) (p : parts) : Prop :=
  group 2 g = p_scheme p
  /\ group 3 g = ((str "//" ++.) <$> p_authority p)
  /\ group 4 g = p_authority p
  /\ group 5 g = Some (p_path p)
  /\ group 6 g = p_query p
  /\ group 7 g = p_fragment p.

Lemma url_match s : exists g, perl_match RE_URL s = Some g /\ url_groups g (split_url s).
Proof.
  unfold split_url. pose proof (scheme_first (start s)) as H1. cbn [start rest caps] in H1.
  destruct (take_scheme s) as [sc s1]. destruct H1 as (st1 & F1 & R1 & C1).
  pose proof (authority_first st1) as H2. rewrite R1 in H2.
  destruct (take_authority s1) as [au s2]. destruct H2 as (st2 & F2 & R2 & C2).
  pose proof (path_first st2) as H3. rewrite R2 in H3.
  pose proof (span_end not_path_end s2) as He3.
  destruct (span not_path_end s2) as [pa s3]. cbn [snd] in He3. destruct H3 as (st3 & F3 & R3 & C3).
  pose proof (query_first st3) as H4. rewrite R3 in H4.
  pose proof (take_query_end s3 He3) as He4.
  destruct (take_query s3) as [q s4]. cbn [snd] in He4. destruct H4 as (st4 & F4 & R4 & C4).
  pose proof (fragment_first st4) as H5. rewrite R4 in H5. destruct (H5 He4) as (st5 & F5 & R5 & C5).
  exists (caps st5). split.
  - apply perl_first; [|done]. unfold RE_URL. eapply seq_first; [by eexists|].
    eapply seq_first; [exact F1|]. eapply seq_first; [exact F2|]. eapply seq_first; [exact F3|].
    eapply seq_first; [exact F4|exact F5].
  - rewrite C5, C4, C3, C2, C1. unfold url_groups. cbn [p_scheme p_authority p_path p_query p_fragment].
    destruct sc, au, q, (take_fragment s4); split_and!; reflexivity.
Qed.

Definition join_url (p : parts) : list Z :=
  (match p_scheme p with Some a => a ++ str ":" | None => [] end)
  ++ (match p_authority p with Some a => str "//" ++ a | None => [] end)
  ++ p_path p ++ default [] (p_query p) ++ default [] (p_fragment p).

Lemma split_join s : join_url (split_url s) = s.
Proof.
  symmetry. unfold join_url. unfold split_url.
  assert (let '(sc, r) := take_scheme s in s = match sc with Some a => a ++ str ":" | None => [] end ++ r) as H1.
  { unfold take_scheme. pose proof (span_app not_scheme_end s) as Hs.
    destruct (span not_scheme_end s) as [[|c a] [|d r]]; try done. zcase (d =? 58); [|done]. subst d.
    cbn [fst snd] in Hs. rewrite <- Hs. by rewrite <- app_assoc. }
  destruct (take_scheme s) as [sc s1].
  assert (let '(au, r) := take_authority s1 in s1 = match au with Some a => str "//" ++ a | None => [] end ++ r) as H2.
  { unfold take_authority. destruct s1 as [|c [|d r]]; try done. zcase ((c =? 47) && (d =? 47)); [|done]. subst c d.
    pose proof (span_app not_auth_end r) as Hs. destruct (span not_auth_end r) as [a b]. cbn [fst snd] in Hs.
    by rewrite <- Hs. }
  destruct (take_authority s1) as [au s2].
  pose proof (span_app not_path_end s2) as H3. destruct (span not_path_end s2) as [pa s3]. cbn [fst snd] in H3.
  assert (let '(q, r) := take_query s3 in s3 = default [] q ++ r) as H4.
  { unfold take_query. destruct s3 as [|c r]; [done|]. zcase (c =? 63); [|done].
    pose proof (span_app not_hash r) as Hs. destruct (span not_hash r) as [a b]. cbn [fst snd] in Hs. cbn. by rewrite Hs. }
  destruct (take_query s3) as [q s4]. cbn [p_scheme p_authority p_path p_query p_fragment].
  rewrite H1, H2, <- H3, H4 at 1. by destruct s4.
Qed.

(** The query starts with its "?", the fragment with its "#", the path has
    neither, and a path after nothing is the start of the string. *)
Lemma split_facts s :
  (forall q, p_query (split_url s) = Some q -> head q = Some 63)
  /\ (forall f, p_fragment (split_url s) = Some f -> head f = Some 35)
  /\ Forall (fun c => not_path_end c = true) (p_path (split_url s))
  /\ (p_scheme (split_url s) = None -> fst (take_scheme s) = None).
Proof.
  unfold split_url. destruct (take_scheme s) as [sc s1]. destruct (take_authority s1) as [au s2].
  pose proof (span_all not_path_end s2) as Hall. pose proof (span_end not_path_end s2) as He.
  destruct (span not_path_end s2) as [pa s3]. cbn [fst snd] in *. pose proof (take_query_end s3 He) as He4.
  destruct (take_query s3) as [q s4] eqn:Eq. cbn [snd p_scheme p_query p_fragment p_path] in *. split_and!; try done.
  - intros q' ->. unfold take_query in Eq. destruct s3 as [|c r]; [done|]. zcase (c =? 63); [|done]. subst c.
    destruct (span not_hash r). by injection Eq as <- _.
  - intros f Hf. destruct He4 as [->|[r ->]]; [done|]. by injection Hf as <-.
Qed.

(** ** Claim *)

(** C34: the URL regular expression matches every string, and its groups are
    the decomposition of RFC 3986: the scheme up to the first of ":/?#" when
    that is a ":", the authority after "//" up to the next of "/?#", the path
    up to "?" or "#", the query up to "#", and the fragment; put together
    again they are the string. *)
Theorem url_regex_splits {BR : BoostRegex} s :
  exists g, regex_match RE_URL s = Some g /\ url_groups g (split_url s)
    /\ join_url (split_url s) = s.
Proof.
  destruct (url_match s) as (g & Hg & Hgs). exists g. rewrite regex_match_law. split_and!; [done|done|apply split_join].
Qed.
