(* ===== verification/UrlWf.v ===== *)
(** * The URLs that parsing produces ([src/common/Url.cc], [operator=])

    [url_ok] lists what holds of the components of a URL that was parsed, in
    the form in which parsing the printed URL needs it.  [ensures] is the
    triple used to establish it. *)

From S2P Require Import Prelude Regex Utils UrlEsc Path Url UrlSplit.

Open Scope res_scope.

(** ** Characters of an escaped string *)
Lemma clean_no m c s : url_char_test c m = true -> c <> pct -> clean m s -> c ∉ s.
Proof.
  intros Hc Hp. induction 1 as [|d r Hd _ IH|a b r _ Ha Hb _ IH]; rewrite ?not_elem_of_cons; [apply not_elem_of_nil| |].
  - split; [|done]. by intros ->; rewrite Hc in Hd.
  - split_and!; [done|..|done]; intros ->; by rewrite xdigit_test in Hc.
Qed.

Lemma clean_app m s t : clean m s -> clean m t -> clean m (s ++ t).
Proof. induction 1; intros; cbn; [done|by constructor; auto..]. Qed.

Lemma clean_cons m c s : url_char_test c m = false -> clean m s -> clean m (c :: s).
Proof. intros. by constructor. Qed.

Lemma squeeze_char prev a r : a <> slash -> squeeze prev (a :: r) = a :: squeeze false r.
Proof. intros Ha. cbn [squeeze]. by rewrite (proj2 (Z.eqb_neq _ _) Ha). Qed.

Lemma xdigit_not_slash a : isxdigit a = true -> a <> slash.
Proof. by intros Ha ->. Qed.

Lemma squeeze_clean s : clean URL_CHAR_PATH s -> forall prev, clean URL_CHAR_PATH (squeeze prev s).
Proof.
  induction 1 as [|d r Hd _ IH|a b r Hp Ha Hb _ IH]; intros prev; [constructor| |].
  - cbn [squeeze]. destruct (d =? slash), prev; by auto using clean_cons.
  - rewrite !squeeze_char by (done || by apply xdigit_not_slash). by apply clean_escape.
Qed.

Lemma squeeze_elem c s : forall prev, c ∈ squeeze prev s -> c ∈ s.
Proof.
  induction s as [|d r IH]; intros prev; [done|]. cbn [squeeze].
  destruct (d =? slash), prev; rewrite ?elem_of_cons; naive_solver.
Qed.

Lemma squeeze_len s : forall prev, zlen (squeeze prev s) <= zlen s.
Proof.
  induction s as [|d r IH]; intros prev; [done|]. cbn [squeeze]. pose proof (IH true). pose proof (IH false).
  destruct (d =? slash), prev; rewrite ?zlen_cons; lia.
Qed.

(** The runs of [escape], as a relation. *)
Inductive escaped (m : Z) : list Z -> list Z -> Prop :=
| escaped_nil : escaped m [] []
| escaped_keep c s t : url_char_test c m = false -> escaped m s t -> escaped m (c :: s) (c :: t)
| escaped_pair a b s t : isxdigit a = true -> isxdigit b = true -> escaped m s t ->
    escaped m (pct :: a :: b :: s) (pct :: a :: b :: t)
| escaped_new c a b s t : url_char_test c m = true -> isxdigit a = true -> isxdigit b = true ->
    escaped m s t -> escaped m (c :: s) (pct :: a :: b :: t).

Lemma prepend_value a o t : prepend a o = Value t -> exists r, o = Value r /\ t = a ++ r.
Proof. destruct o; cbn; [intros [= <-]; eauto|done]. Qed.

Lemma escape_escaped m : forall s, bytes_ok s -> forall t, escape s m = Value t -> escaped m s t.
Proof.
  apply (list_len_ind (fun s => bytes_ok s -> forall t, escape s m = Value t -> escaped m s t)).
  intros s IH Hb t He. destruct s as [|d r]; [injection He as <-; constructor|].
  apply Forall_cons_1 in Hb as [Hd Hr]. rewrite escape_cons in He. destruct (url_char_test d m) eqn:Et.
  - destruct (if d =? pct then pair_at r else None) as [[[a b] r']|] eqn:Ep.
    + zcase (d =? pct); [|done]. subst d. apply pair_at_some in Ep as (-> & Ha & Hb'). apply prepend_value in He as (t1 & He & ->).
      apply Forall_cons_1 in Hr as [_ Hr]. apply Forall_cons_1 in Hr as [_ Hr].
      apply escaped_pair; [done..|]. apply IH; [cbn; lia|done..].
    + destruct (escape_char_ok d Hd) as (a & b & Hesc & Ha & Hb & _). rewrite Hesc in He.
      apply prepend_value in He as (t1 & He & ->). apply escaped_new; [done..|]. apply IH; [cbn; lia|done..].
  - apply prepend_value in He as (t1 & He & ->). apply escaped_keep; [done|]. apply IH; [cbn; lia|done..].
Qed.

(** Every character of an escaped string was there before, or belongs to an
    escape. *)
Lemma escaped_elem m c s t : escaped m s t -> c ∉ s -> c <> pct -> isxdigit c = false -> c ∉ t.
Proof.
  intros He Hs Hp Hx. induction He; rewrite ?not_elem_of_cons in *; [done|naive_solver..|];
    destruct_and?; split_and!; try (by auto); intros ->; congruence.
Qed.

(** ** A colon in the first segment *)

(** Whether a ":" comes before every "/", "?" and "#". *)
Fixpoint colon_first (s : list Z) : bool :=
  match s with
  | [] => false
  | c :: r => if c =? 58 then true else if not_auth_end c then colon_first r else false
  end.

Lemma not_scheme_end_eq c : not_scheme_end c = negb (c =? 58) && not_auth_end c.
Proof.
  change (not_scheme_end c) with (negb ((c =? 58) || one_of (str "/?#") c)).
  by rewrite negb_orb.
Qed.

Lemma take_scheme_None s : fst (take_scheme s) = None <-> colon_first s = false \/ head s = Some 58.
Proof.
  unfold take_scheme. destruct s as [|c r]; [naive_solver|]. cbn [span colon_first head].
  rewrite not_scheme_end_eq. zcase (c =? 58); cbn [negb andb].
  { subst c. cbn. naive_solver. }
  destruct (not_auth_end c); [|naive_solver].
  assert (match span not_scheme_end r with (_, d :: _) => d =? 58 | _ => false end = colon_first r) as <-.
  { clear. induction r as [|d r IH]; [done|]. cbn [span colon_first]. rewrite not_scheme_end_eq.
    zcase (d =? 58); cbn [negb andb]; [by apply Z.eqb_eq|]. destruct (not_auth_end d); [|by apply Z.eqb_neq].
    rewrite <- IH. by destruct (span not_scheme_end r). }
  destruct (span not_scheme_end r) as [a [|d r']]; cbn; [naive_solver|]. destruct (d =? 58); cbn; naive_solver.
Qed.

Lemma take_scheme_none s : colon_first s = false \/ head s = Some 58 -> take_scheme s = (None, s).
Proof.
  rewrite <- take_scheme_None. unfold take_scheme. destruct (span not_scheme_end s) as [[|? ?] [|d r]]; try done.
  by destruct (d =? 58).
Qed.

Lemma colon_first_app s t : colon_first s = false -> match t with c :: _ => not_auth_end c = false /\ c <> 58 | [] => True end ->
  colon_first (s ++ t) = false.
Proof.
  intros Hs Ht. induction s as [|c r IH]; cbn [app colon_first] in *.
  - destruct t as [|c t]; [done|]. destruct Ht as [Ht Hc]. cbn. by rewrite (proj2 (Z.eqb_neq _ _) Hc), Ht.
  - destruct (c =? 58); [done|]. destruct (not_auth_end c); auto.
Qed.

Lemma colon_first_squeeze s : forall prev, colon_first s = false -> head s <> Some slash \/ prev = false ->
  colon_first (squeeze prev s) = false.
Proof.
  induction s as [|c r IH]; intros prev Hs Hh; [done|]. cbn [squeeze].
  zcase (c =? slash).
  - subst c. by destruct Hh as [[]| ->].
  - cbn [colon_first] in *. destruct (c =? 58); [done|]. destruct (not_auth_end c); auto.
Qed.

Lemma xdigit_plain a : isxdigit a = true -> (a =? 58) = false /\ not_auth_end a = true.
Proof.
  intros Ha. assert (implb (isxdigit a) (negb (a =? 58) && not_auth_end a) = true) as H.
  { apply (forall_range (fun a => implb (isxdigit a) (negb (a =? 58) && not_auth_end a)) 256); [done|]. by apply xdigit_byte. }
  rewrite Ha in H. cbn in H. apply andb_prop in H as [H1 H2]. by apply negb_true_iff in H1.
Qed.

Lemma colon_first_escaped s t : escaped URL_CHAR_PATH s t -> 63 ∉ s -> 35 ∉ s -> colon_first s = false -> colon_first t = false.
Proof.
  assert (forall a b r, isxdigit a = true -> isxdigit b = true -> colon_first (pct :: a :: b :: r) = colon_first r) as Hxx.
  { intros a b r Ha Hb. cbn. by destruct (xdigit_plain a Ha) as [-> ->], (xdigit_plain b Hb) as [-> ->]. }
  induction 1 as [|c s t Hc _ IH|a b s t Ha Hb _ IH|c a b s t Hc Ha Hb _ IH]; intros H1 H2 Hs;
    rewrite ?not_elem_of_cons in *; [done| | |].
  - cbn in *. destruct (c =? 58); [done|]. destruct (not_auth_end c); naive_solver.
  - rewrite !Hxx in * by done. naive_solver.
  - rewrite Hxx by done. destruct H1 as [H1 H1'], H2 as [H2 H2']. apply IH; [done..|]. cbn in Hs.
    zcase (c =? 58); [done|]. destruct (not_auth_end c) eqn:Ea; [done|]. exfalso.
    change (not_auth_end c) with (negb ((c =? 47) || ((c =? 63) || ((c =? 35) || false)))) in Ea.
    rewrite negb_false_iff, !orb_true_iff, !Z.eqb_eq in Ea. destruct Ea as [->|[->|[->|?]]]; done.
Qed.

(** ** Finding a character *)
Lemma find_char_none c s : forall i, 0 <= i -> c ∉ s -> find_char c s i = None.
Proof.
  intros i Hi Hc. unfold find_char. rewrite fmap_None, list_find_None. apply Forall_forall. intros x Hx ->.
  apply Hc. rewrite <- (ztake_app_zdrop i s). apply elem_of_app. by right.
Qed.

Lemma find_char_app c a b : c ∉ a -> find_char c (a ++ c :: b) 0 = Some (zlen a).
Proof.
  intros Hc. unfold find_char. rewrite zdrop_0.
  assert (list_find (fun x => x = c) (a ++ c :: b) = Some (length a, c)) as ->; [|done].
  apply list_find_Some. split_and!; [|done|].
  - rewrite lookup_app_r by lia. by rewrite Nat.sub_diag.
  - intros j y Hj Hl ->. rewrite lookup_app_l in Hj by done. by apply Hc; eapply list_elem_of_lookup_2.
Qed.

Lemma find_char_from c s i : find_char c s i = Z.add i <$> find_char c (zdrop i s) 0.
Proof. unfold find_char. rewrite zdrop_0. by destruct (list_find _ (zdrop i s)) as [[n x]|]. Qed.

Lemma find_char_Some c s i : find_char c s 0 = Some i ->
  s = ztake i s ++ c :: zdrop (i + 1) s /\ 0 <= i < zlen s /\ c ∉ ztake i s.
Proof.
  unfold find_char. rewrite zdrop_0. destruct (list_find _ s) as [[n x]|] eqn:E; [|done]. intros [= <-].
  apply list_find_Some in E as (Hl & -> & Hb). pose proof (lookup_lt_Some _ _ _ Hl) as Hn.
  unfold ztake, zdrop, zlen. replace (Z.to_nat (0 + Z.of_nat n)) with n by lia.
  replace (Z.to_nat (0 + Z.of_nat n + 1)) with (S n) by lia. split_and!; [|lia..|].
  - by rewrite <- (take_drop_middle s n c) at 1.
  - intros Hc. apply list_elem_of_lookup in Hc as [j Hj]. apply lookup_take_Some in Hj as [Hj Hjn]. by eapply Hb.
Qed.

Lemma find_char_None c s : find_char c s 0 = None -> c ∉ s.
Proof.
  unfold find_char. rewrite zdrop_0, fmap_None, list_find_None. intros Hf Hc.
  apply Forall_forall with (x := c) in Hf; [by apply Hf|done].
Qed.

Lemma find_char_at c s i : 0 <= i ->
  match find_char c s i with
  | Some e => i <= e < zlen s /\ c ∉ zseg i e s
  | None => c ∉ zdrop i s
  end.
Proof.
  intros Hi. rewrite find_char_from. destruct (find_char c (zdrop i s) 0) as [e|] eqn:E; cbn; [|by apply find_char_None].
  apply find_char_Some in E as (_ & He & Hc). unfold zseg. replace (i + e - i) with e by lia. split; [|done].
  destruct (decide (i <= zlen s)); [|by rewrite zdrop_all in He by lia; change (zlen []) with 0 in He; lia].
  rewrite zlen_zdrop in He by lia. lia.
Qed.

(** ** Characters of schemes, hosts and ports *)
Definition scheme_char (c : Z) : bool := is_alnum c || one_of (str "+.-") c.

Lemma all_within (p q : Z -> bool) s : zrange 256 0 (fun c => implb (p c) (q c)) = true -> bytes_ok s ->
  Forall (fun c => p c = true) s -> Forall (fun c => q c = true) s.
Proof.
  intros Hpq Hb Hp. apply Forall_forall. intros c Hc. apply Forall_forall with (x := c) in Hp; [|done].
  apply Forall_forall with (x := c) in Hb; [|done].
  pose proof (forall_range (fun c => implb (p c) (q c)) 256 c Hpq Hb) as H. cbn beta in H. by rewrite Hp in H.
Qed.

Lemma scheme_match s : bytes_ok s ->
  perl_match RE_SCHEME s <> None <-> exists c r, s = c :: r /\ is_alpha c = true /\ Forall (fun c => scheme_char c = true) r.
Proof.
  intros Hb. split.
  - intros Hm. assert (Forall (fun c => scheme_char c = true) s) as Hall.
    { apply (perl_match_within _ RE_SCHEME); [by vm_compute|done|done]. }
    destruct s as [|c r]; [by vm_compute in Hm|]. exists c, r. apply Forall_cons_1 in Hall as [_ Hall].
    split_and!; [done| |done]. destruct (is_alpha c) eqn:E; [done|]. exfalso. apply Hm.
    unfold perl_match, RE_SCHEME, start. cbn [matches at_start flat_map app rest]. by rewrite E.
  - intros (c & r & -> & Hc & Hr).
    set (st1 := mk_ms r false []).
    assert (exists st, first_is (matches RE_SCHEME (start (c :: r))) st /\ rest st = []) as (st & Hf & He).
    { eexists. split.
      - unfold RE_SCHEME. eapply seq_first; [by eexists|]. eapply seq_first.
        { cbn [matches start rest]. rewrite Hc. by exists []. }
        eapply seq_first; [apply (star_first scheme_char)|]. cbn [rest caps start].
        assert (span scheme_char r = (r, [])) as ->.
        { clear -Hr. induction Hr as [|c r Hc _ IH]; [done|]. cbn. by rewrite Hc, IH. }
        cbn [fst snd]. exists []. cbn [matches]. by rewrite after_rest by (by rewrite app_nil_r).
      - cbn [fst snd]. by rewrite after_rest by (by rewrite app_nil_r). }
    by rewrite (perl_first _ _ _ Hf He).
Qed.

Lemma lower_chars (p q : Z -> bool) s : zrange 256 0 (fun c => implb (p c) (q (tolower c))) = true -> bytes_ok s ->
  Forall (fun c => p c = true) s -> Forall (fun c => q c = true) (to_lower s).
Proof. intros Hz Hb Hp. apply Forall_fmap. by apply (all_within p (q ∘ tolower)). Qed.

Lemma tolower_byte c : byte_ok c -> byte_ok (tolower c) /\ tolower (tolower c) = tolower c.
Proof.
  intros Hc. set (ok := fun c => (0 <=? tolower c) && (tolower c <? 256) && (tolower (tolower c) =? tolower c)).
  assert (ok c = true) as H by (by apply (forall_range ok 256)). unfold ok in H. unfold byte_ok. bool_hyps. lia.
Qed.

Lemma to_lower_bytes s : bytes_ok s -> bytes_ok (to_lower s) /\ to_lower (to_lower s) = to_lower s.
Proof.
  intros Hb. split.
  - apply Forall_fmap. eapply Forall_impl; [done|]. intros c Hc. by apply tolower_byte.
  - induction Hb as [|c s Hc _ IH]; [done|]. cbn in *. f_equal; [by apply tolower_byte|done].
Qed.

(** What [put_scheme] stores. *)
Definition scheme_ok (s : list Z) : Prop :=
  s = [] \/ (perl_match RE_SCHEME s <> None /\ to_lower s = s /\ Forall (fun c => not_scheme_end c = true) s /\ s <> []).

Lemma scheme_lower s : bytes_ok s -> perl_match RE_SCHEME s <> None ->
  scheme_ok (to_lower s) /\ to_lower s <> [].
Proof.
  intros Hb Hm. pose proof (to_lower_bytes s Hb) as [Hlb Hll]. apply scheme_match in Hm as (c & r & -> & Hc & Hr); [|done].
  apply Forall_cons_1 in Hb as [Hcb Hb].
  assert (is_alpha (tolower c) = true /\ not_scheme_end (tolower c) = true) as [Hcl Hce].
  { pose proof (lower_chars is_alpha (fun c => is_alpha c && not_scheme_end c) [c]) as H.
    cbn [to_lower fmap list_fmap] in H.
    assert (Forall (fun c => is_alpha c && not_scheme_end c = true) [tolower c]) as Hf.
    { apply H; [by vm_compute|by constructor|by constructor]. }
    apply Forall_cons_1 in Hf as [Hf _]. by apply andb_prop in Hf. }
  split; [|done]. right. split_and!; [|done| |done].
  - apply scheme_match; [done|]. exists (tolower c), (to_lower r). split_and!; [done|done|].
    by apply (lower_chars scheme_char); [vm_compute| |].
  - constructor; [done|]. by apply (lower_chars scheme_char); [vm_compute| |].
Qed.

(** Characters other than escapes stay when escapes are decoded. *)
Lemma unescape_loop_ok sel : forall s, bytes_ok s ->
  exists t, unescape_loop sel s = Value t /\ bytes_ok t
    /\ forall c, c ∈ s -> c <> pct -> isxdigit c = false -> c ∈ t.
Proof.
  apply (list_len_ind (fun s => bytes_ok s -> exists t, unescape_loop sel s = Value t /\ bytes_ok t
    /\ forall c, c ∈ s -> c <> pct -> isxdigit c = false -> c ∈ t)).
  intros s IH Hb. destruct s as [|d r]; [by exists []|]. apply Forall_cons_1 in Hb as [Hd Hr]. rewrite unescape_cons.
  destruct (IH r) as (t & Et & Ht & Hin); [cbn; lia|done|]. rewrite Et.
  assert (exists t', prepend [d] (Value t) = Value t' /\ bytes_ok t'
    /\ forall c, c ∈ d :: r -> c <> pct -> isxdigit c = false -> c ∈ t') as Hkeep.
  { exists (d :: t). split_and!; [done|by constructor|]. intros c Hc Hp Hx. rewrite elem_of_cons in *. naive_solver. }
  destruct (if d =? pct then pair_at r else None) as [[[a b] r']|] eqn:Ep; [|done].
  zcase (d =? pct); [|done]. apply pair_at_some in Ep as (-> & Ha & Hb). destruct (sel (hex2 a b)); [|done].
  apply Forall_cons_1 in Hr as [_ Hr]. apply Forall_cons_1 in Hr as [_ Hr].
  destruct (IH r') as (t1 & -> & Ht1 & Hin1); [cbn; lia|done|]. eexists. split_and!; [done|constructor; [|done]|].
  - pose proof (hexval_range a Ha). pose proof (hexval_range b Hb). unfold byte_ok, hex2. lia.
  - intros c Hc Hp Hx. apply elem_of_cons. right. rewrite !elem_of_cons in Hc.
    destruct Hc as [->|[->|[->|Hc]]]; [done|congruence..|auto].
Qed.

Lemma unescape_safe_total h : bytes_ok h ->
  exists t, unescape_safe h = Value t /\ bytes_ok t /\ forall c, c ∈ h -> c <> pct -> isxdigit c = false -> c ∈ t.
Proof. intros Hb. rewrite unescape_safe_loop. by apply unescape_loop_ok. Qed.

(** ** Outcomes of the parser *)

(** The call returns a value with [P], or throws a [UrlParseError]; it stops
    only at an assertion. *)
Definition ensures {A} (NDEBUG : bool) (m : res A) (P : A -> Prop) : Prop :=
  match m with
  | Some (Value a) => P a
  | Some (Throw (UrlParseError _)) => True
  | Some (Throw _) => False
  | None => NDEBUG = false
  end.

Lemma ensures_bind {A B} nd (m : res A) (k : A -> res B) P Q :
  ensures nd m P -> (forall a, P a -> ensures nd (k a) Q) -> ensures nd (rbind m k) Q.
Proof. destruct m as [[a|e]|]; cbn; auto. Qed.

Lemma ensures_mono {A} nd (m : res A) (P Q : A -> Prop) :
  ensures nd m P -> (forall a, P a -> Q a) -> ensures nd m Q.
Proof. destruct m as [[a|e]|]; cbn; auto. Qed.

Lemma ensures_catch nd who s m P : ensures nd m P -> ensures nd (catch_all who s m) P.
Proof. by destruct m as [[a|[]]|]. Qed.

Lemma ensures_assert nd b : ensures nd (assert_ nd b) (fun _ => True).
Proof. unfold assert_. by destruct nd, b. Qed.

Lemma escape_ensures nd s m : bytes_ok s ->
  ensures nd (lift_outcome (escape s m)) (fun t => clean m t /\ bytes_ok t /\ escaped m s t /\ zlen s <= zlen t <= 3 * zlen s).
Proof.
  intros Hb. destruct (escape_ok m s Hb) as (t & He & Hc & Ht & Hl & _). rewrite He. cbn.
  split_and!; [done|done|by apply escape_escaped|lia..].
Qed.

Section Invariant.
Context {BR : BoostRegex} (NDEBUG : bool) (max_size : Z).

Lemma rx_perl r s : rx r s = bool_decide (perl_match r s <> None).
Proof. unfold rx. by rewrite regex_match_law. Qed.

Lemma rx_within (p : Z -> bool) r s : sets_within p r = true -> bytes_ok s -> rx r s = true ->
  Forall (fun c => p c = true) s.
Proof. intros Hs Hb Hm. rewrite rx_perl in Hm. apply bool_decide_eq_true in Hm. by eapply perl_match_within. Qed.

Definition host_char (c : Z) : bool := none_of (str "@[") c.

Lemma valid_host_ok h : bytes_ok h ->
  exists b, valid_host h = val b /\ (b = true -> 64 ∉ h /\ 91 ∉ h).
Proof.
  intros Hb. unfold valid_host. case_bool_decide as Hh; [subst h; exists true; split; [done|]; split; apply not_elem_of_nil|].
  destruct (unescape_safe_total h Hb) as (t & -> & Ht & Hin). cbn. eexists. split; [done|]. intros Hm.
  assert (Forall (fun c => host_char c = true) t) as Hc.
  { apply orb_prop in Hm as [Hm|Hm]; [apply orb_prop in Hm as [Hm|Hm]; [apply orb_prop in Hm as [Hm|Hm]|]|];
      (eapply rx_within; [|done|exact Hm]; by vm_compute). }
  rewrite Forall_forall in Hc. split; intros Hx; (apply Hin in Hx; [|done|done]); by specialize (Hc _ Hx).
Qed.

Record host_ok (h : list Z) : Prop := {
  host_clean : clean URL_CHAR_AUTH h;
  host_bytes : bytes_ok h;
  host_valid : valid_host h = val true;
  host_no_at : 64 ∉ h;
  host_no_bracket : 91 ∉ h
}.

Lemma put_host_ensures s u : bytes_ok s ->
  ensures NDEBUG (put_host s u) (fun u' => exists h,
    u' = set_has_authority true (set_host h u) /\ host_ok h /\ escaped URL_CHAR_AUTH s h /\ (h = [] -> s = [])).
Proof.
  intros Hb. apply ensures_catch. eapply ensures_bind; [by apply escape_ensures|].
  intros h (Hc & Hhb & He & Hl). destruct (valid_host_ok h Hhb) as ([] & Hv & Hn); rewrite Hv; cbn; [|done].
  destruct (Hn eq_refl) as [H1 H2]. exists h. split_and!; [done|by split|done|]. intros ->.
  destruct s as [|c s]; [done|]. rewrite zlen_cons, zlen_nil in Hl. pose proof (zlen_nonneg s). lia.
Qed.

Lemma put_host_same h u : host_ok h -> put_host h u = val (set_has_authority true (set_host h u)).
Proof. intros [Hc _ Hv _ _]. unfold put_host. rewrite (escape_clean _ _ Hc). cbn. by rewrite Hv. Qed.

Definition port_ok (s : list Z) : Prop :=
  s = [] \/ (Forall (fun c => is_digit c = true) s /\ forall u, put_port s u = val (set_port s u)).

Lemma put_port_ensures s u : bytes_ok s ->
  ensures NDEBUG (put_port s u) (fun u' => u' = set_port s u /\ port_ok s).
Proof.
  intros Hb. unfold put_port at 1. case_bool_decide as Hs; [subst s; by repeat split; left|].
  destruct (rx RE_PORT s) eqn:Er; [|done]. cbn [negb]. destruct (read_int s) as [n|] eqn:En; [|done].
  destruct (negb _) eqn:Eb; [done|]. cbn. split; [done|]. right. split.
  - eapply rx_within; [|done|exact Er]. by vm_compute.
  - intros v. unfold put_port. by rewrite bool_decide_eq_false_2, Er, En, Eb.
Qed.

(** The fields outside the authority are the same. *)
Definition same_rest (u u' : Url) : Prop :=
  _path u' = _path u /\ m_scheme u' = m_scheme u /\ m_query u' = m_query u /\ m_fragment u' = m_fragment u.

Definition no_auth (u : Url) : Prop :=
  m_host_ip_literal u = false /\ m_userinfo u = [] /\ m_host u = [] /\ m_port u = [].

Record auth_ok (u : Url) : Prop := {
  ok_user : clean URL_CHAR_AUTH (m_userinfo u) /\ 64 ∉ m_userinfo u;
  ok_host : host_ok (m_host u);
  ok_literal : if m_host_ip_literal u then 93 ∉ m_host u /\ m_port u = [] else 58 ∉ m_host u;
  ok_port : port_ok (m_port u);
  ok_hostless : m_host u = [] -> m_port u = []
}.

Lemma host_nil_ok : host_ok [].
Proof. split; [constructor|constructor|done|apply not_elem_of_nil..]. Qed.

Lemma no_auth_ok u : no_auth u -> auth_ok u.
Proof.
  intros (H1 & H2 & H3 & H4). split; rewrite ?H1, ?H2, ?H3, ?H4; try done.
  - split; [constructor|apply not_elem_of_nil].
  - apply host_nil_ok.
  - apply not_elem_of_nil.
  - by left.
Qed.

Lemma zdrop_elem {A} (x : A) n s : x ∈ zdrop n s -> x ∈ s.
Proof. intros H. rewrite <- (ztake_app_zdrop n s). apply elem_of_app. by right. Qed.

(** The part before the host. *)
Lemma userinfo_ensures s u : bytes_ok s -> no_auth u ->
  ensures NDEBUG (put_user_part NDEBUG s u)
    (fun '(u', b) => exists w, u' = set_userinfo w u /\ clean URL_CHAR_AUTH w /\ 64 ∉ w /\ 0 <= b).
Proof.
  intros Hb (_ & Hu & _). unfold put_user_part. destruct (find_char 64 s 0) as [e|] eqn:Ef.
  - apply find_char_Some in Ef as (_ & He & Hn). eapply ensures_bind; [apply ensures_assert|]. intros _ _.
    eapply ensures_bind with (P := fun u' => exists w, u' = set_userinfo w u /\ clean URL_CHAR_AUTH w /\ 64 ∉ w).
    + unfold put_userinfo. eapply ensures_bind; [by apply escape_ensures, bytes_ok_ztake|].
      intros w (Hc & _ & Hw & _). cbn. exists w. split_and!; [done|done|]. by eapply escaped_elem.
    + intros u' (w & -> & Hc & Hw). destruct (negb _); [done|]. cbn. exists w. split_and!; [done..|lia].
  - cbn. exists []. split_and!; [by destruct u; cbn in *; subst|constructor|apply not_elem_of_nil|done].
Qed.

Lemma put_authority_ensures s u : bytes_ok s -> no_auth u ->
  ensures NDEBUG (put_authority NDEBUG s u) (fun u' => auth_ok u' /\ m_has_authority u' = true /\ same_rest u u').
Proof.
  intros Hb Hu. apply ensures_catch. eapply ensures_bind; [by apply userinfo_ensures|]. destruct Hu as (Hl & _ & Hh & Hp).
  intros [u1 b] (w & -> & Hc & Hw & H0). unfold put_host_port. zcase (default 0 (znth s b) =? 91).
  - cbv zeta. case_match; [done|]. pose proof (find_char_at 93 s (b + 1) ltac:(lia)) as Hf.
    destruct (find_char 93 s (b + 1)) as [e|]; [|done]. destruct Hf as [_ Hf].
    eapply ensures_bind; [apply ensures_assert|]. intros _ _.
    eapply ensures_mono; [apply put_host_ensures; by apply bytes_ok_ztake, bytes_ok_zdrop|].
    intros u' (h & -> & Hok & He & Hn). split; [|by repeat split]. split; cbn; rewrite ?Hp; try done; [|by left].
    split; [|done]. by eapply escaped_elem.
  - pose proof (find_char_at 58 s b H0) as Hf. destruct (find_char 58 s b) as [e|].
    + destruct Hf as [Hbe Hf]. zcase (e =? b); [done|]. eapply ensures_bind; [apply ensures_assert|]. intros _ _.
      eapply ensures_bind; [apply put_host_ensures; by apply bytes_ok_ztake, bytes_ok_zdrop|].
      intros u' (h & -> & Hok & He & Hn). case_match; [|done].
      eapply ensures_mono; [apply put_port_ensures; by apply bytes_ok_zdrop|].
      intros u' [-> Hpo]. split; [|by repeat split]. split; cbn; rewrite ?Hl; try done.
      * by eapply escaped_elem.
      * intros Hh0. apply Hn in Hh0. apply (f_equal zlen) in Hh0. rewrite zlen_zseg, zlen_nil in Hh0 by lia. lia.
    + eapply ensures_mono; [apply put_host_ensures; by apply bytes_ok_zdrop|].
      intros u' (h & -> & Hok & He & Hn). split; [|by repeat split]. split; cbn; rewrite ?Hp, ?Hl; try done; [|by left].
      by eapply escaped_elem.
Qed.

(** ** Parsing a printed authority *)
Definition user_part (u : Url) : list Z := if bool_decide (m_userinfo u = []) then [] else m_userinfo u ++ str "@".
Definition port_part (u : Url) : list Z := if bool_decide (m_port u = []) then [] else str ":" ++ m_port u.
Definition host_part (u : Url) : list Z := if m_host_ip_literal u then str "[" ++ m_host u ++ str "]" else m_host u.

Definition with_auth (u v : Url) : Url :=
  set_has_authority true
    (if bool_decide (m_host u = []) then v
     else set_port (m_port u) (set_host (m_host u) (set_ip_literal (m_host_ip_literal u) (set_userinfo (m_userinfo u) v)))).

Definition or_else (a b : list Z) : list Z := if bool_decide (a = []) then b else a.

(** The authority of [u] put over that of [v]: what is absent in [u] stays. *)
Definition auth_over (u v : Url) : Url :=
  set_has_authority true
    (if bool_decide (m_host u = []) then set_host [] v
     else set_port (or_else (m_port u) (m_port v)) (set_host (m_host u)
       (set_ip_literal (m_host_ip_literal u || m_host_ip_literal v)
         (set_userinfo (or_else (m_userinfo u) (m_userinfo v)) v)))).

Lemma or_else_nil a : or_else a [] = a.
Proof. unfold or_else. by case_bool_decide. Qed.

Lemma auth_over_no_auth u v : no_auth v -> auth_over u v = with_auth u v.
Proof.
  intros (Hl & Hw & Hh & Hp). unfold auth_over, with_auth. case_bool_decide; destruct v; cbn in *; subst; [done|].
  by rewrite !or_else_nil, orb_false_r.
Qed.

Lemma port_no c u : is_digit c = false -> auth_ok u -> c ∉ m_port u.
Proof.
  intros Hc Hu Hin. destruct (ok_port u Hu) as [Hp|[Hp _]]; [rewrite Hp in Hin; by apply elem_of_nil in Hin|].
  rewrite Forall_forall in Hp. specialize (Hp _ Hin). cbn beta in Hp. congruence.
Qed.

Lemma port_part_no c u : is_digit c = false -> c <> 58 -> auth_ok u -> c ∉ port_part u.
Proof.
  intros Hc Hn Hu. unfold port_part. case_bool_decide; [apply not_elem_of_nil|]. apply not_elem_of_cons.
  split; [done|by apply port_no].
Qed.

Lemma host_part_no_at u : auth_ok u -> 64 ∉ host_part u ++ port_part u.
Proof.
  intros Hu. apply not_elem_of_app. split; [|by apply port_part_no]. unfold host_part.
  pose proof (host_no_at _ (ok_host u Hu)) as Hh. destruct (m_host_ip_literal u); [|done].
  cbn. rewrite not_elem_of_cons, not_elem_of_app. split; [done|]. split; [done|].
  by apply not_elem_of_cons; split; [|apply not_elem_of_nil].
Qed.

Lemma host_part_cons u : auth_ok u -> m_host u <> [] ->
  exists c r, host_part u ++ port_part u = c :: r /\ (c = 91 <-> m_host_ip_literal u = true).
Proof.
  intros Hu Hn. unfold host_part. destruct (m_host_ip_literal u); [by eexists _, _|].
  pose proof (host_no_bracket _ (ok_host u Hu)) as Hb. destruct (m_host u) as [|c h]; [done|].
  eexists _, _. split; [done|]. split; [|done]. intros ->. destruct Hb. apply elem_of_cons. by left.
Qed.

Lemma zdrop_pre {A} (pre s : list A) : zdrop (zlen pre) (pre ++ s) = s.
Proof. pose proof (zlen_nonneg pre). rewrite zdrop_app_r by lia. by rewrite Z.sub_diag, zdrop_0. Qed.

Lemma znth_pre {A} (pre s : list A) : znth (pre ++ s) (zlen pre) = head s.
Proof.
  pose proof (zlen_nonneg pre). rewrite znth_app_r by lia. rewrite Z.sub_diag. by destruct s.
Qed.

Lemma put_host_port_same u v pre : auth_ok u -> m_host u <> [] ->
  put_host_port NDEBUG (pre ++ host_part u ++ port_part u) (zlen pre) v
  = val (set_has_authority true (set_port (or_else (m_port u) (m_port v)) (set_host (m_host u)
      (set_ip_literal (m_host_ip_literal u || m_host_ip_literal v) v)))).
Proof.
  intros Hu Hn. unfold put_host_port. rewrite znth_pre. destruct (host_part_cons u Hu Hn) as (c & r & He & Hc).
  rewrite He. change (default 0 (head (c :: r))) with c. rewrite <- He. pose proof (zlen_nonneg pre) as H0. pose proof (zlen_pos _ Hn) as Hh0.
  pose proof (ok_literal u Hu) as Hlit. destruct (m_host_ip_literal u) eqn:El.
  - rewrite (proj2 Hc eq_refl), Z.eqb_refl. destruct Hlit as [H93 Hp0]. cbv zeta.
    unfold host_part, port_part. rewrite El, Hp0. cbn [bool_decide]. rewrite app_nil_r.
    rewrite (app_assoc pre). set (pre1 := pre ++ str "["). change (str "]") with [93].
    assert (zlen pre + 1 = zlen pre1) as -> by (unfold pre1; by rewrite zlen_app).
    rewrite find_char_from, zdrop_pre, find_char_app by done. cbn [fmap option_fmap option_map].
    assert (zlen pre1 <? zlen (pre1 ++ m_host u ++ [93]) = true) as ->.
    { rewrite !zlen_app. change (zlen [93]) with 1. lia. }
    unfold zseg. rewrite zdrop_pre. replace (zlen pre1 + zlen (m_host u) - zlen pre1) with (zlen (m_host u)) by lia.
    rewrite ztake_app_l, ztake_all by lia. unfold assert_. assert (zlen (m_host u) >? 0 = true) as -> by lia.
    rewrite orb_true_r. cbn [negb rbind val]. by rewrite put_host_same by (by apply ok_host); destruct v.
  - assert ((c =? 91) = false) as ->. { apply Z.eqb_neq. intros ->. by destruct Hc as [Hc _]; specialize (Hc eq_refl). }
    unfold host_part. rewrite El. rewrite find_char_from, zdrop_pre. unfold port_part.
    case_bool_decide as Ep.
    + rewrite app_nil_r, find_char_none by done. cbn [fmap option_fmap option_map]. rewrite Ep.
      rewrite put_host_same by (by apply ok_host). by destruct v.
    + change (str ":" ++ m_port u) with (58 :: m_port u). rewrite find_char_app by done. cbn [fmap option_fmap option_map].
      assert ((zlen pre + zlen (m_host u) =? zlen pre) = false) as -> by lia.
      assert (zlen pre + zlen (m_host u) - zlen pre >? 0 = true) as Hgt by lia. unfold assert_. rewrite Hgt, orb_true_r.
      unfold zseg. rewrite zdrop_pre. replace (zlen pre + zlen (m_host u) - zlen pre) with (zlen (m_host u)) by lia.
      rewrite ztake_app_l, ztake_all by lia. cbn [rbind val]. rewrite put_host_same by (by apply ok_host). cbn [rbind val].
      pose proof (zlen_pos _ Ep). rewrite !zlen_app, zlen_cons.
      assert (zlen pre + zlen (m_host u) + 1 <? zlen pre + (zlen (m_host u) + (1 + zlen (m_port u))) = true) as -> by lia.
      replace (pre ++ m_host u ++ 58 :: m_port u) with ((pre ++ m_host u ++ [58]) ++ m_port u) by (by rewrite <- !app_assoc).
      replace (zlen pre + zlen (m_host u) + 1) with (zlen (pre ++ m_host u ++ [58])) by (rewrite !zlen_app; change (zlen [58]) with 1; lia).
      rewrite zdrop_pre. destruct (ok_port u Hu) as [?|[_ Hpp]]; [done|]. rewrite Hpp. unfold or_else. rewrite bool_decide_eq_false_2 by done. by destruct v.
Qed.

Lemma get_authority_parts u : m_host u <> [] -> get_authority u = user_part u ++ host_part u ++ port_part u.
Proof. intros Hn. unfold get_authority. by rewrite bool_decide_eq_false_2. Qed.

Lemma put_user_part_same u v : auth_ok u -> m_host u <> [] ->
  put_user_part NDEBUG (user_part u ++ host_part u ++ port_part u) v
  = val (set_userinfo (or_else (m_userinfo u) (m_userinfo v)) v, zlen (user_part u)).
Proof.
  intros Hu Hn. unfold put_user_part, user_part. pose proof (host_part_no_at u Hu) as Hat.
  case_bool_decide as Eu.
  - cbn [app]. rewrite find_char_none by done. rewrite Eu. by destruct v.
  - destruct (ok_user u Hu) as [Hc Hw]. rewrite <- app_assoc. change (str "@" ++ ?x) with (64 :: x).
    rewrite find_char_app by done. pose proof (zlen_pos _ Eu). unfold assert_.
    assert (zlen (m_userinfo u) >? 0 = true) as -> by lia. rewrite orb_true_r. cbn [rbind val].
    rewrite ztake_app_l, ztake_all by lia. unfold put_userinfo. rewrite escape_clean by done. cbn [lift_outcome rbind val].
    destruct (host_part_cons u Hu Hn) as (c & r & -> & _). rewrite !zlen_app, !zlen_cons. pose proof (zlen_nonneg r).
    assert (zlen (m_userinfo u) + 1 <? zlen (m_userinfo u) + (1 + (1 + zlen r)) = true) as -> by lia.
    unfold or_else. by rewrite bool_decide_eq_false_2.
Qed.

Lemma put_authority_over u v : auth_ok u -> put_authority NDEBUG (get_authority u) v = val (auth_over u v).
Proof.
  intros Hu. unfold auth_over. case_bool_decide as Hn.
  - unfold get_authority. by rewrite bool_decide_eq_true_2 by done.
  - unfold put_authority. rewrite get_authority_parts, put_user_part_same by done. cbn [rbind val].
    rewrite put_host_port_same by done. by destruct v.
Qed.

Lemma put_authority_same u v : auth_ok u -> no_auth v ->
  put_authority NDEBUG (get_authority u) v = val (with_auth u v).
Proof. intros Hu Hv. by rewrite put_authority_over, auth_over_no_auth. Qed.

(** ** Parsed URLs *)
Record url_ok (u : Url) : Prop := {
  ok_auth : auth_ok u;
  ok_scheme : scheme_ok (m_scheme u);
  ok_scheme_auth : m_scheme u <> [] -> m_has_authority u = true;
  ok_no_auth : m_has_authority u = false -> m_host u = [];
  ok_path_clean : clean URL_CHAR_PATH (Path_get (_path u));
  ok_path_size : zlen (Path_get (_path u)) < max_size;
  ok_path_squeezed : squeeze false (Path_get (_path u)) = Path_get (_path u);
  ok_path_form :
    if m_has_authority u then SLASH_BEGIN (_path u) = true /\ head (Path_get (_path u)) = Some slash
    else colon_first (Path_get (_path u)) = false \/ head (Path_get (_path u)) = Some 58;
  ok_query : m_query u = [] \/ (head (m_query u) = Some 63 /\ clean URL_CHAR_QUERY (m_query u));
  ok_fragment : m_fragment u = [] \/ (head (m_fragment u) = Some 35 /\ clean URL_CHAR_FRAGMENT (m_fragment u))
}.

Lemma has_one_of_none set s : (forall c, c ∈ set -> c ∉ s) -> has_one_of set s = false.
Proof.
  intros H. unfold has_one_of. apply not_true_iff_false. intros (c & Hc & Ho)%existsb_exists.
  apply existsb_exists in Ho as (d & Hd & He). apply Z.eqb_eq in He as <-. apply list_elem_of_In in Hd, Hc. by apply (H c).
Qed.

Lemma path_no u c : url_ok u -> c = 63 \/ c = 35 -> c ∉ Path_get (_path u).
Proof. intros Hu Hc. apply (clean_no URL_CHAR_PATH); [by destruct Hc as [->| ->]..|by apply ok_path_clean]. Qed.

Lemma query_no_hash u : url_ok u -> 35 ∉ m_query u.
Proof.
  intros Hu. destruct (ok_query u Hu) as [->|[_ Hc]]; [apply not_elem_of_nil|]. by apply (clean_no URL_CHAR_QUERY).
Qed.

(** The final checks of the parser never fail. *)
Lemma url_ok_syntax u : url_ok u -> syntax_ok u = val true.
Proof.
  intros Hu. unfold syntax_ok. assert (m_has_authority u && negb (Path_empty (_path u) || Path_absolute (_path u)) = false) as ->.
  { pose proof (ok_path_form u Hu) as H. destruct (m_has_authority u); [|done]. destruct H as [H _].
    unfold Path_absolute. by rewrite H, orb_true_r. }
  pose proof (ok_host _ (ok_auth u Hu)) as Hh.
  rewrite (has_one_of_none (str ":/?#")), (has_one_of_none (str "/?#")), (has_one_of_none (str "?#")), (has_one_of_none (str "#")).
  - by rewrite (host_valid _ Hh).
  - intros c Hc. apply list_elem_of_singleton in Hc as ->. by apply query_no_hash.
  - intros c Hc. apply (path_no u c Hu). change (str "?#") with [63; 35] in Hc. rewrite !elem_of_cons, elem_of_nil in Hc. tauto.
  - intros c Hc. apply (clean_no URL_CHAR_AUTH); [..|apply (host_clean _ Hh)];
      change (str "/?#") with [47; 63; 35] in Hc; rewrite !elem_of_cons, elem_of_nil in Hc;
      by destruct Hc as [->|[->|[->|[]]]].
  - intros c Hc Hin. destruct (ok_scheme u Hu) as [Hs|(_ & _ & Hs & _)]; [rewrite Hs in Hin; by apply elem_of_nil in Hin|].
    rewrite Forall_forall in Hs. specialize (Hs _ Hin).
    change (str ":/?#") with [58; 47; 63; 35] in Hc. rewrite !elem_of_cons, elem_of_nil in Hc.
    by destruct Hc as [->|[->|[->|[->|[]]]]].
Qed.

(** ** Splitting a printed URL *)
Definition opt_of (l : list Z) : option (list Z) := match l with [] => None | _ => Some l end.

Lemma none_of_all set s : (forall c, c ∈ set -> c ∉ s) -> Forall (fun c => none_of set c = true) s.
Proof.
  intros H. apply Forall_forall. intros c Hc. unfold none_of, one_of. apply negb_true_iff, not_true_iff_false.
  intros (d & Hd & He)%existsb_exists. apply Z.eqb_eq in He as <-. apply list_elem_of_In in Hd. by apply (H c).
Qed.

Lemma get_authority_no u c : auth_ok u -> c = 47 \/ c = 63 \/ c = 35 -> c ∉ get_authority u.
Proof.
  intros Hu Hc. destruct (decide (m_host u = [])) as [Hn|Hn].
  { unfold get_authority. rewrite bool_decide_eq_true_2 by done. apply not_elem_of_nil. }
  rewrite get_authority_parts by done.
  assert (c ∉ m_userinfo u /\ c ∉ m_host u /\ c ∉ port_part u) as (H1 & H2 & H3).
  { split_and!.
    - apply (clean_no URL_CHAR_AUTH); [..|apply (ok_user u Hu)]; by destruct Hc as [->|[->| ->]].
    - apply (clean_no URL_CHAR_AUTH); [..|apply (host_clean _ (ok_host u Hu))]; by destruct Hc as [->|[->| ->]].
    - apply port_part_no; [..|done]; by destruct Hc as [->|[->| ->]]. }
  assert (c <> 64 /\ c <> 91 /\ c <> 93) as (? & ? & ?) by (by destruct Hc as [->|[->| ->]]).
  rewrite !not_elem_of_app. split_and!; [| |done].
  - unfold user_part. case_bool_decide; [apply not_elem_of_nil|]. rewrite not_elem_of_app. split; [done|].
    by apply not_elem_of_cons; split; [|apply not_elem_of_nil].
  - unfold host_part. destruct (m_host_ip_literal u); [|done]. cbn. rewrite not_elem_of_cons, not_elem_of_app. split_and!; [done..|].
    by apply not_elem_of_cons; split; [|apply not_elem_of_nil].
Qed.

Lemma tail_head u : url_ok u ->
  match m_query u ++ m_fragment u with c :: _ => c = 63 \/ c = 35 | [] => True end.
Proof.
  intros Hu. destruct (ok_query u Hu) as [->|[Hq _]].
  - destruct (ok_fragment u Hu) as [->|[Hf _]]; [done|]. destruct (m_fragment u) as [|c r]; [done|].
    injection Hf as ->. by right.
  - destruct (m_query u) as [|c r]; [done|]. injection Hq as ->. by left.
Qed.

Lemma split_tail u : url_ok u ->
  span not_path_end (Path_get (_path u) ++ m_query u ++ m_fragment u) = (Path_get (_path u), m_query u ++ m_fragment u)
  /\ take_query (m_query u ++ m_fragment u) = (opt_of (m_query u), m_fragment u).
Proof.
  intros Hu. split.
  - apply span_exact.
    + apply none_of_all. intros c Hc. apply (path_no u c Hu). change (str "?#") with [63; 35] in Hc.
      rewrite !elem_of_cons, elem_of_nil in Hc. tauto.
    + pose proof (tail_head u Hu) as H. destruct (m_query u ++ m_fragment u); [done|]. by destruct H as [->| ->].
  - pose proof (query_no_hash u Hu) as Hh. destruct (ok_query u Hu) as [Hq|[Hq _]].
    + rewrite Hq. cbn [app opt_of]. destruct (ok_fragment u Hu) as [->|[Hf _]]; [done|].
      destruct (m_fragment u) as [|c r]; [done|]. by injection Hf as ->.
    + destruct (m_query u) as [|c r]; [done|]. injection Hq as ->. cbn [app take_query opt_of].
      rewrite Z.eqb_refl, span_exact; [done| |].
      * apply none_of_all. intros c Hc. apply list_elem_of_singleton in Hc as ->. by apply not_elem_of_cons in Hh as [_ Hh].
      * destruct (ok_fragment u Hu) as [->|[Hf _]]; [done|]. destruct (m_fragment u) as [|c r']; [done|].
        by injection Hf as ->.
Qed.

Lemma squeezed_not_double s c r : squeeze false s = c :: r -> c = slash -> head r <> Some slash.
Proof.
  destruct s as [|d s]; cbn [squeeze]; [done|]. zcase (d =? slash); [|by intros [= -> _]].
  intros [= _ <-] _. clear. induction s as [|d s IH]; [done|]. cbn [squeeze]. zcase (d =? slash); [done|].
  cbn. congruence.
Qed.

Lemma split_get u : url_ok u ->
  split_url (Url_get u) =
    mk_parts (opt_of (m_scheme u)) (if m_has_authority u then Some (get_authority u) else None)
      (Path_get (_path u)) (opt_of (m_query u)) (opt_of (m_fragment u)).
Proof.
  intros Hu. destruct (split_tail u Hu) as [Ht Hq]. unfold split_url, Url_get.
  set (tail := Path_get (_path u) ++ m_query u ++ m_fragment u) in *.
  pose proof (ok_path_form u Hu) as Hform.
  assert (take_authority ((if m_has_authority u then str "//" ++ get_authority u else []) ++ tail)
          = (if m_has_authority u then Some (get_authority u) else None, tail)) as Hauth.
  { destruct (m_has_authority u).
    - change (str "//") with [47; 47]. cbn [app take_authority]. rewrite !Z.eqb_refl. cbn [andb].
      rewrite span_exact; [done| |].
      + apply none_of_all. intros c Hc. apply get_authority_no; [by apply ok_auth|].
        change (str "/?#") with [47; 63; 35] in Hc. rewrite !elem_of_cons, elem_of_nil in Hc. tauto.
      + unfold tail. destruct (Path_get (_path u)) as [|c r]; [by destruct Hform|]. by destruct Hform as [_ [= ->]].
    - cbn [app]. unfold take_authority. destruct tail as [|c [|d r]] eqn:Et; [done..|].
      destruct ((c =? 47) && (d =? 47)) eqn:Ecd; [|done]. exfalso. apply andb_prop in Ecd as [Ec Ed].
      apply Z.eqb_eq in Ec as ->. apply Z.eqb_eq in Ed as ->.
      pose proof (tail_head u Hu) as Hth. pose proof (ok_path_squeezed u Hu) as Hs. unfold tail in Et.
      destruct (Path_get (_path u)) as [|c p]; [cbn in Et; by rewrite Et in Hth; destruct Hth|].
      injection Et as -> Et. apply squeezed_not_double in Hs; [|done]. destruct p as [|d p].
      + cbn in Et. rewrite Et in Hth. by destruct Hth.
      + injection Et as -> Et. done. }
  assert (take_scheme ((if bool_decide (m_scheme u = []) then [] else m_scheme u ++ str ":")
           ++ (if m_has_authority u then str "//" ++ get_authority u else []) ++ tail)
          = (opt_of (m_scheme u), (if m_has_authority u then str "//" ++ get_authority u else []) ++ tail)) as Hsch.
  { destruct (ok_scheme u Hu) as [Hs|(_ & _ & Hs & Hn)].
    - rewrite bool_decide_eq_true_2, Hs by done. cbn [app opt_of]. apply take_scheme_none.
      destruct (m_has_authority u); [by left|]. cbn [app]. unfold tail.
      destruct Hform as [Hf|Hf].
      + left. apply colon_first_app; [done|]. pose proof (tail_head u Hu) as H.
        destruct (m_query u ++ m_fragment u); [done|]. by destruct H as [->| ->].
      + right. by destruct (Path_get (_path u)).
    - rewrite bool_decide_eq_false_2, <- app_assoc by done. unfold take_scheme. rewrite span_exact; [|done|done].
      change (str ":") with [58]. cbn [app]. rewrite Z.eqb_refl. by destruct (m_scheme u). }
  rewrite Hsch, Hauth, Ht, Hq. unfold take_fragment, opt_of. by destruct (m_fragment u).
Qed.
End Invariant.
