(* ===== verification/UrlRound.v ===== *)
(** * Parsing and printing URLs

    The parser establishes [url_ok], and a URL with [url_ok] is printed and
    parsed again to the same text. *)

From S2P Require Import Prelude Regex Utils UrlEsc Path Url UrlSplit UrlWf.

Open Scope res_scope.

(** ** Paths *)
Lemma squeeze_head s : head s <> Some slash -> squeeze true s = squeeze false s.
Proof. destruct s as [|c r]; [done|]. cbn. zcase (c =? slash); [by subst c|done]. Qed.

Lemma squeeze_true_head s : head (squeeze true s) <> Some slash.
Proof. induction s as [|c r IH]; [done|]. cbn. zcase (c =? slash); [done|]. cbn. congruence. Qed.

Lemma squeeze_idem s : forall p, squeeze p (squeeze p s) = squeeze p s.
Proof.
  induction s as [|c r IH]; intros p; [done|]. cbn [squeeze]. zcase (c =? slash).
  - destruct p; [by apply IH|]. cbn [squeeze]. subst c. rewrite Z.eqb_refl. f_equal. apply IH.
  - cbn [squeeze]. rewrite (proj2 (Z.eqb_neq _ _) E). f_equal. apply IH.
Qed.

Lemma head_squeeze s : head (squeeze false s) = head s.
Proof. destruct s as [|c r]; [done|]. cbn. by destruct (c =? slash). Qed.

Lemma Path_get_absolute p : path_wf p ->
  Path_get (Path_set_absolute true p) = if SLASH_BEGIN p then Path_get p else slash :: Path_get p.
Proof.
  intros [Hw Hf]. destruct (decide (segmt p = [])) as [Hn|Hn].
  - specialize (Hf Hn). unfold Path_get, Path_empty. cbn. rewrite Hn. cbn.
    rewrite andb_false_r. destruct (SLASH_BEGIN p), (SLASH_END p); try done.
  - unfold Path_set_absolute. rewrite !Path_get_wf by done. cbn. by destruct (SLASH_BEGIN p).
Qed.

(** The text of the path that [put_path] stores. *)
Definition path_text (absolute : bool) (e : list Z) : list Z :=
  if absolute && negb (bool_decide (head e = Some slash)) then slash :: squeeze false e else squeeze false e.

Lemma path_text_facts abs e : clean URL_CHAR_PATH e ->
  clean URL_CHAR_PATH (path_text abs e) /\ squeeze false (path_text abs e) = path_text abs e
  /\ zlen (path_text abs e) <= 1 + zlen e /\ (abs = true -> head (path_text abs e) = Some slash).
Proof.
  intros Hc. pose proof (squeeze_clean e Hc false) as Hs. pose proof (squeeze_len e false) as Hl. unfold path_text.
  destruct abs; cbn [andb]; [|split_and!; [done|apply squeeze_idem|lia|done]].
  case_bool_decide as Hh; cbn [negb].
  - split_and!; [done|apply squeeze_idem|lia|]. intros _. by rewrite head_squeeze.
  - split_and!; [by apply clean_cons| |rewrite zlen_cons; lia|done]. cbn [squeeze]. rewrite Z.eqb_refl.
    rewrite squeeze_head by (by rewrite head_squeeze). by rewrite squeeze_idem.
Qed.

(** A path that is not taken for a scheme when it is printed stays so. *)
Lemma colon_first_prefix s t : colon_first (s ++ t) = false -> colon_first s = false.
Proof.
  induction s as [|c r IH]; [done|]. cbn. destruct (c =? 58); [done|]. destruct (not_auth_end c); auto.
Qed.

Lemma path_form_escaped pa e : Forall (fun c => not_path_end c = true) pa -> escaped URL_CHAR_PATH pa e ->
  colon_first pa = false \/ head pa = Some 58 -> colon_first (squeeze false e) = false \/ head e = Some 58.
Proof.
  intros Hall He [H|H].
  - left. apply colon_first_squeeze; [|by right]. rewrite Forall_forall in Hall.
    eapply colon_first_escaped; [done|..|done]; intros Hx; by specialize (Hall _ Hx).
  - right. destruct He; try done; injection H as ->; done.
Qed.

Lemma split_bytes s : bytes_ok s ->
  (forall a, p_scheme (split_url s) = Some a -> bytes_ok a) /\ (forall a, p_authority (split_url s) = Some a -> bytes_ok a)
  /\ bytes_ok (p_path (split_url s)) /\ (forall a, p_query (split_url s) = Some a -> bytes_ok a)
  /\ (forall a, p_fragment (split_url s) = Some a -> bytes_ok a) /\ zlen (p_path (split_url s)) <= zlen s.
Proof.
  intros Hb. rewrite <- (split_join s) in Hb. unfold join_url in Hb. rewrite !bytes_ok_app in Hb.
  destruct Hb as (H1 & H2 & H3 & H4 & H5). split_and!; [| |done|..].
  - intros a Ha. rewrite Ha, bytes_ok_app in H1. apply H1.
  - intros a Ha. rewrite Ha, bytes_ok_app in H2. apply H2.
  - intros a Ha. by rewrite Ha in H4.
  - intros a Ha. by rewrite Ha in H5.
  - rewrite <- (split_join s) at 2. unfold join_url. rewrite !zlen_app.
    repeat match goal with |- context [zlen ?x] => match x with p_path _ => fail 1 | _ => pose proof (zlen_nonneg x); generalize dependent (zlen x); intros end end. lia.
Qed.

Section Round.
Context {BR : BoostRegex} (NDEBUG : bool) (max_size : Z).

Lemma put_path_clean e u : clean URL_CHAR_PATH e -> zlen e < max_size ->
  exists p, put_path max_size e u = val (set_path p u) /\ Path_get p = path_text (m_has_authority u) e
    /\ (m_has_authority u = true -> SLASH_BEGIN p = true).
Proof.
  intros Hc Hl. unfold put_path. rewrite escape_clean by done. cbn [lift_outcome rbind].
  rewrite Path_assign_ok by done. fold (path_of e). destruct (path_of_get e) as [Hg Hw].
  eexists. split; [done|]. unfold path_text. destruct (m_has_authority u); [|done]. split; [|done].
  rewrite Path_get_absolute, Hg by done. unfold path_of. cbn [SLASH_BEGIN]. by case_bool_decide.
Qed.

Lemma put_path_ensures s u : bytes_ok s -> 3 * zlen s < max_size ->
  ensures NDEBUG (put_path max_size s u) (fun u' => exists p e, u' = set_path p u /\ clean URL_CHAR_PATH e
    /\ escaped URL_CHAR_PATH s e /\ zlen e <= 3 * zlen s /\ Path_get p = path_text (m_has_authority u) e
    /\ (m_has_authority u = true -> SLASH_BEGIN p = true)).
Proof.
  intros Hb Hl. destruct (escape_ok URL_CHAR_PATH s Hb) as (e & He & Hc & _ & Hle & _).
  destruct (put_path_clean e u Hc) as (p & Hp & Hg & Ha); [lia|].
  assert (put_path max_size s u = put_path max_size e u) as ->.
  { unfold put_path. by rewrite He, escape_clean. }
  rewrite Hp. cbn. exists p, e. split_and!; [done|done|by apply escape_escaped|lia|done..].
Qed.

Lemma put_query_ensures s u : bytes_ok s -> head s = Some 63 ->
  ensures NDEBUG (put_query s u) (fun u' => exists q, u' = set_query q u /\ head q = Some 63 /\ clean URL_CHAR_QUERY q).
Proof.
  intros Hb Hh. unfold put_query. eapply ensures_bind; [by apply escape_ensures|]. intros q (Hc & _ & He & _). cbn.
  exists q. split_and!; [done| |done]. destruct He; try done; injection Hh as ->; done.
Qed.

Lemma put_fragment_ensures s u : bytes_ok s -> head s = Some 35 ->
  ensures NDEBUG (put_fragment s u) (fun u' => exists f, u' = set_fragment f u /\ head f = Some 35 /\ clean URL_CHAR_FRAGMENT f).
Proof.
  intros Hb Hh. unfold put_fragment. eapply ensures_bind; [by apply escape_ensures|]. intros f (Hc & _ & He & _). cbn.
  exists f. split_and!; [done| |done]. destruct He; try done; injection Hh as ->; done.
Qed.

Lemma put_scheme_ensures s u : bytes_ok s ->
  ensures NDEBUG (put_scheme s u) (fun u' => exists c, u' = set_has_authority true (set_scheme c u) /\ scheme_ok c /\ c <> []).
Proof.
  intros Hb. unfold put_scheme. rewrite rx_perl. case_bool_decide as Hm; [|done]. cbn. eexists. split; [done|].
  by apply scheme_lower.
Qed.

(** ** The parser on the parts of the string *)
Definition on_opt (o : option (list Z)) (f : list Z -> Url -> res Url) (u : Url) : res Url :=
  match o with Some s => f s u | None => val u end.

(** An authority "//" with nothing behind it. *)
Definition check_authority (o : option (list Z)) (u : Url) : res Url :=
  match o with
  | Some a => if bool_decide (a = []) && negb (bool_decide (m_scheme u = [])) && negb (bool_decide (m_scheme u = str "file"))
              then throw (UrlParseError (str "empty authority part, with // is not allowed for schemes other than 'file'"))
              else val u
  | None => val u
  end.

Lemma Url_of_parts s :
  let p := split_url s in
  Url_of NDEBUG max_size s =
    (u <~ on_opt (p_scheme p) put_scheme Url_new ;;
     u <~ check_authority (p_authority p) u ;;
     u <~ on_opt (p_authority p) (put_authority NDEBUG) u ;;
     u <~ put_path max_size (p_path p) u ;;
     u <~ on_opt (p_query p) put_query u ;;
     u <~ on_opt (p_fragment p) put_fragment u ;;
     ok <~ syntax_ok u ;;
     if negb ok then throw (UrlParseError (str " ! syntax_ok() for this url, sanity checks failed")) else
     v <~ valid_host (m_host u) ;;
     if negb v then throw (UrlParseError (str " ! valid_host() for this url, sanity checks failed"))
     else val u).
Proof.
  destruct (url_match s) as (g & Hg & G2 & G3 & G4 & G5 & G6 & G7). cbv zeta.
  unfold Url_of, Url_assign. rewrite regex_match_law, Hg. unfold on_group. rewrite G2, G3, G4, G5, G6, G7.
  unfold on_opt, check_authority. change (Url_clear Url_new) with Url_new.
  destruct (p_authority (split_url s)) as [a|]; [|done]. cbn [fmap option_fmap option_map].
  by rewrite (bool_decide_ext (str "//" ++ a = str "//") (a = [])) by (by destruct a).
Qed.

Lemma check_authority_ensures o u : ensures NDEBUG (check_authority o u) (fun u' => u' = u).
Proof. destruct o; cbn; [|done]. by case_match. Qed.

Lemma url_ok_query u q : url_ok max_size u -> head q = Some 63 /\ clean URL_CHAR_QUERY q -> url_ok max_size (set_query q u).
Proof. intros [[] ] ?. by split; [split|..]; try done; right. Qed.

Lemma url_ok_fragment u f : url_ok max_size u -> head f = Some 35 /\ clean URL_CHAR_FRAGMENT f -> url_ok max_size (set_fragment f u).
Proof. intros [[] ] ?. by split; [split|..]; try done; right. Qed.

Lemma url_ok_checks u : url_ok max_size u ->
  (ok <~ syntax_ok u ;;
   if negb ok then throw (UrlParseError (str " ! syntax_ok() for this url, sanity checks failed")) else
   v <~ valid_host (m_host u) ;;
   if negb v then throw (UrlParseError (str " ! valid_host() for this url, sanity checks failed"))
   else val u) = val u.
Proof.
  intros Hu. rewrite (url_ok_syntax max_size) by done. cbn. by rewrite (host_valid _ (ok_host _ (ok_auth _ _ Hu))).
Qed.

(** What holds before the path is set. *)
Definition before_path (p : parts) (u : Url) : Prop :=
  auth_ok u /\ scheme_ok (m_scheme u) /\ (m_scheme u <> [] -> m_has_authority u = true)
  /\ (m_has_authority u = false -> p_scheme p = None /\ p_authority p = None /\ m_host u = [])
  /\ m_query u = [] /\ m_fragment u = [].

Lemma before_path_ok s u pth e : before_path (split_url s) u -> escaped URL_CHAR_PATH (p_path (split_url s)) e ->
  clean URL_CHAR_PATH e -> 1 + zlen e < max_size -> Path_get pth = path_text (m_has_authority u) e ->
  (m_has_authority u = true -> SLASH_BEGIN pth = true) -> url_ok max_size (set_path pth u).
Proof.
  intros (Ha & Hs & Hsa & Hno & Hq & Hf) He Hc Hl Hg Hb.
  destruct (path_text_facts (m_has_authority u) e Hc) as (H1 & H2 & H3 & H4). rewrite <- Hg in *.
  split; cbn; [destruct Ha; by split|done|done|naive_solver|done|lia|done| |by left|by left].
  destruct (m_has_authority u) eqn:Eh; [by split; auto|]. destruct (Hno eq_refl) as (N1 & N2 & _).
  pose proof (split_facts s) as (_ & _ & Hall & Hts). specialize (Hts N1). apply take_scheme_None in Hts.
  rewrite <- (split_join s) in Hts. unfold join_url in Hts. rewrite N1, N2 in Hts. cbn [app] in Hts.
  rewrite Hg. unfold path_text. cbn [andb]. rewrite head_squeeze.
  apply path_form_escaped with (p_path (split_url s)); [done..|]. destruct Hts as [Hts|Hts].
  - left. by eapply colon_first_prefix.
  - destruct (p_path (split_url s)); [by left|by right].
Qed.

Lemma Url_of_ensures s : bytes_ok s -> 3 * zlen s + 1 < max_size ->
  ensures NDEBUG (Url_of NDEBUG max_size s) (url_ok max_size).
Proof.
  intros Hb Hm. rewrite Url_of_parts. destruct (split_facts s) as (Hq & Hf & _).
  destruct (split_bytes s Hb) as (B1 & B2 & B3 & B4 & B5 & Hlen).
  eapply ensures_bind with (P := fun u => before_path (mk_parts (p_scheme (split_url s)) None [] None None) u /\ no_auth u).
  { destruct (p_scheme (split_url s)) as [c|] eqn:Es; cbn [on_opt].
    - eapply ensures_mono; [apply put_scheme_ensures; auto|]. intros u (c' & -> & Hc & Hn).
      split; [|done]. split_and!; try done. by apply no_auth_ok.
    - cbn. split; [|done]. split_and!; try done; [by apply no_auth_ok|by left]. }
  intros u1 [Hu1 Hn1]. eapply ensures_bind; [apply check_authority_ensures|]. intros u -> .
  eapply ensures_bind with (P := before_path (split_url s)).
  { destruct Hu1 as (Ha & Hs & Hsa & Hno & Hq0 & Hf0). destruct (p_authority (split_url s)) as [a|] eqn:Ea; cbn [on_opt].
    - eapply ensures_mono; [apply put_authority_ensures; auto|]. intros u (Hau & Hha & Hp' & Hs' & Hq' & Hf').
      split_and!; try congruence.
    - cbn. split_and!; try done. rewrite Ea. intros Hx. by destruct (Hno Hx) as (? & _ & ?). }
  intros u2 Hu2. eapply ensures_bind; [apply put_path_ensures; [done|lia]|].
  intros u3 (p & e & -> & Hc & He & Hle & Hg & Hsb).
  eapply ensures_bind with (P := url_ok max_size).
  { destruct (p_query (split_url s)) as [q|] eqn:Eq; cbn [on_opt].
    - eapply ensures_mono; [apply put_query_ensures; auto|]. intros u (q' & -> & Hq').
      apply url_ok_query; [|done]. eapply before_path_ok; try done. lia.
    - cbn. eapply before_path_ok; try done. lia. }
  intros u4 Hu4. eapply ensures_bind with (P := url_ok max_size).
  { destruct (p_fragment (split_url s)) as [f|] eqn:Ef; cbn [on_opt]; [|done].
    eapply ensures_mono; [apply put_fragment_ensures; auto|]. intros u (f' & -> & Hf'). by apply url_ok_fragment. }
  intros u5 Hu5. by rewrite url_ok_checks.
Qed.

(** ** Parsing what was printed *)
Definition schemed (u : Url) : Url :=
  if bool_decide (m_scheme u = []) then Url_new else set_has_authority true (set_scheme (m_scheme u) Url_new).

Definition reparsed (u : Url) (p : Path) : Url :=
  set_fragment (m_fragment u) (set_query (m_query u) (set_path p
    (if m_has_authority u then with_auth u (schemed u) else schemed u))).

(** Printed with an empty authority, which the parser rejects for this
    scheme. *)
Definition hostless (u : Url) : bool :=
  negb (bool_decide (m_scheme u = [])) && negb (bool_decide (m_scheme u = str "file")) && bool_decide (m_host u = []).

Lemma on_opt_same l f g u : (l <> [] -> f l u = val (g l u)) -> (l = [] -> g l u = u) -> on_opt (opt_of l) f u = val (g l u).
Proof. intros H1 H2. destruct l as [|c l]; cbn; [by rewrite H2|]. by apply H1. Qed.

Lemma put_scheme_same u : scheme_ok (m_scheme u) -> on_opt (opt_of (m_scheme u)) put_scheme Url_new = val (schemed u).
Proof.
  intros Hs. unfold schemed. destruct Hs as [->|(Hm & Hl & _ & Hn)]; [done|].
  rewrite bool_decide_eq_false_2 by done. destruct (m_scheme u) as [|c r] eqn:E; [done|]. cbn [opt_of on_opt].
  unfold put_scheme. by rewrite rx_perl, bool_decide_eq_true_2, Hl.
Qed.

Lemma get_authority_nil u : get_authority u = [] <-> m_host u = [].
Proof.
  unfold get_authority. case_bool_decide as Hh; [done|]. split; [|done]. intros [_ [H _]%app_nil]%app_nil.
  destruct (m_host_ip_literal u); [|done]. done.
Qed.

Lemma schemed_scheme u : m_scheme (schemed u) = m_scheme u.
Proof. unfold schemed. by case_bool_decide. Qed.

Lemma schemed_no_auth u : no_auth (schemed u).
Proof. unfold schemed. by case_bool_decide. Qed.

Lemma reparsed_has u p : (m_scheme u <> [] -> m_has_authority u = true) -> m_has_authority (reparsed u p) = m_has_authority u.
Proof.
  intros H. unfold reparsed, schemed. destruct (m_has_authority u) eqn:E; [done|].
  rewrite bool_decide_eq_true_2; [done|]. destruct (m_scheme u); [done|]. by discriminate H.
Qed.

Lemma reparsed_scheme u p : m_scheme (reparsed u p) = m_scheme u.
Proof.
  trans (m_scheme (schemed u)); [|apply schemed_scheme]. unfold reparsed, with_auth.
  by destruct (m_has_authority u), (bool_decide (m_host u = [])).
Qed.

Lemma reparsed_authority u p : (m_has_authority u = false -> m_host u = []) ->
  get_authority (reparsed u p) = get_authority u.
Proof.
  intros Hn. destruct (decide (m_host u = [])) as [Hh|Hh]; unfold reparsed, with_auth.
  - rewrite (proj2 (get_authority_nil u) Hh). apply get_authority_nil. rewrite bool_decide_eq_true_2 by done.
    destruct (m_has_authority u); apply (schemed_no_auth u).
  - destruct (m_has_authority u); [|by destruct Hh; apply Hn]. by rewrite bool_decide_eq_false_2.
Qed.

Lemma reparsed_get u p : (m_scheme u <> [] -> m_has_authority u = true) -> (m_has_authority u = false -> m_host u = []) ->
  Path_get p = Path_get (_path u) -> Url_get (reparsed u p) = Url_get u.
Proof.
  intros Hs Hn Hp. unfold Url_get. rewrite (reparsed_has u p Hs), reparsed_scheme, (reparsed_authority u p Hn).
  change (_path (reparsed u p)) with p. by rewrite Hp.
Qed.

Lemma reparsed_ok u p : url_ok max_size u -> Path_get p = Path_get (_path u) ->
  (m_has_authority u = true -> SLASH_BEGIN p = true) -> url_ok max_size (reparsed u p).
Proof.
  intros Hu Hp Hb. pose proof (reparsed_has u p (ok_scheme_auth _ u Hu)) as Hhas.
  pose proof (reparsed_scheme u p) as Hsc.
  assert (auth_ok (reparsed u p)) as Ha.
  { unfold reparsed, with_auth. destruct (m_has_authority u); [destruct (decide (m_host u = [])) as [Hh|Hh]|].
    - rewrite bool_decide_eq_true_2 by done. apply no_auth_ok. apply (schemed_no_auth u).
    - rewrite bool_decide_eq_false_2 by done. destruct (ok_auth _ u Hu). by split.
    - apply no_auth_ok. apply (schemed_no_auth u). }
  destruct Hu. split; rewrite ?Hsc, ?Hhas; try done; change (_path (reparsed u p)) with p; rewrite ?Hp; try done.
  - intros E. unfold reparsed, with_auth. rewrite E. apply (schemed_no_auth u).
  - destruct (m_has_authority u); [|done]. naive_solver.
Qed.

Lemma Url_of_get u : url_ok max_size u ->
  if hostless u then exists w, Url_of NDEBUG max_size (Url_get u) = throw (UrlParseError w)
  else exists p, Url_of NDEBUG max_size (Url_get u) = val (reparsed u p) /\ Path_get p = Path_get (_path u).
Proof.
  intros Hu. pose proof (ok_scheme_auth _ u Hu) as Hsa.
  rewrite Url_of_parts, split_get with (max_size := max_size) by done. cbn [p_scheme p_authority p_path p_query p_fragment].
  rewrite put_scheme_same by (by apply (ok_scheme max_size)). cbn [rbind val].
  assert (check_authority (if m_has_authority u then Some (get_authority u) else None) (schemed u)
    = if hostless u then throw (UrlParseError (str "empty authority part, with // is not allowed for schemes other than 'file'"))
      else val (schemed u)) as ->.
  { unfold check_authority, hostless. rewrite schemed_scheme.
    destruct (m_has_authority u).
    { rewrite (bool_decide_ext (get_authority u = []) (m_host u = [])) by apply get_authority_nil.
      by destruct (bool_decide (m_host u = [])), (bool_decide (m_scheme u = [])), (bool_decide (m_scheme u = str "file")). }
    rewrite bool_decide_eq_true_2; [done|]. destruct (m_scheme u); [done|]. by discriminate Hsa. }
  destruct (hostless u); cbn [rbind val throw]; [by eexists|].
  assert (on_opt (if m_has_authority u then Some (get_authority u) else None) (put_authority NDEBUG) (schemed u)
    = val (if m_has_authority u then with_auth u (schemed u) else schemed u)) as ->.
  { destruct (m_has_authority u); [|done]. cbn [on_opt]. apply put_authority_same; [by apply (ok_auth max_size)|apply schemed_no_auth]. }
  cbn [rbind val]. set (u2 := if m_has_authority u then with_auth u (schemed u) else schemed u).
  assert (m_has_authority u2 = m_has_authority u) as Hh2 by (apply (reparsed_has u Path_new Hsa)).
  destruct (put_path_clean (Path_get (_path u)) u2) as (p & Hput & Hg & Hb);
    [by apply (ok_path_clean max_size)|by apply ok_path_size|]. rewrite Hput, Hh2 in *. cbn [rbind val].
  assert (Path_get p = Path_get (_path u)) as Hpp.
  { rewrite Hg. pose proof (ok_path_form _ u Hu) as Hf. pose proof (ok_path_squeezed _ u Hu) as Hs. unfold path_text.
    destruct (m_has_authority u); [destruct Hf as [_ Hf]; rewrite bool_decide_eq_true_2 by done|]; done. }
  exists p. split; [|done].
  rewrite (on_opt_same (m_query u) put_query set_query).
  2:{ intros Hn. destruct (ok_query _ u Hu) as [?|[_ Hc]]; [done|]. unfold put_query. by rewrite escape_clean. }
  2:{ intros ->. unfold u2, with_auth, schemed. by repeat case_bool_decide; destruct (m_has_authority u). }
  cbn [rbind val]. rewrite (on_opt_same (m_fragment u) put_fragment set_fragment).
  2:{ intros Hn. destruct (ok_fragment _ u Hu) as [?|[_ Hc]]; [done|]. unfold put_fragment. by rewrite escape_clean. }
  2:{ intros ->. unfold u2, with_auth, schemed. by repeat case_bool_decide; destruct (m_has_authority u). }
  cbn [rbind val]. apply url_ok_checks. by apply reparsed_ok.
Qed.
End Round.
