(* ===== verification/UrlClaims.v ===== *)
(** * Theorems about class Url ([src/common/Url.cc])

    Parsing ([operator=]), printing ([get]), resolving references
    ([merge_ref]) and ports. *)

From S2P Require Import Prelude Regex Utils UrlEsc Path Url UrlSplit UrlWf UrlRound.

Open Scope res_scope.

Section Lemmas.
Context {BR : BoostRegex} (NDEBUG : bool) (max_size : Z).

Lemma parsed_ok s u : bytes_ok s -> 3 * zlen s + 1 < max_size -> Url_of NDEBUG max_size s = val u -> url_ok max_size u.
Proof. intros Hb Hm Hu. pose proof (Url_of_ensures NDEBUG max_size s Hb Hm) as H. by rewrite Hu in H. Qed.

Lemma put_query_over r v : url_ok max_size r ->
  (if has_query r then put_query (m_query r) v else val v) = val (set_query (or_else (m_query r) (m_query v)) v).
Proof.
  intros Hr. unfold has_query, or_else. case_bool_decide as Hq; cbn [negb]; [by destruct v|].
  destruct (ok_query _ r Hr) as [?|[_ Hc]]; [done|]. unfold put_query. by rewrite escape_clean.
Qed.

Lemma put_fragment_of_same r v : url_ok max_size r -> put_fragment_of r v = val (set_fragment (m_fragment r) v).
Proof.
  intros Hr. unfold put_fragment_of, has_fragment. case_bool_decide as Hq; cbn [negb]; [unfold clear_fragment; by rewrite Hq|].
  destruct (ok_fragment _ r Hr) as [?|[_ Hc]]; [done|]. unfold put_fragment. by rewrite escape_clean.
Qed.

Lemma put_path_same r v : url_ok max_size r -> m_has_authority r = true -> m_has_authority v = true ->
  exists p, put_path max_size (Path_get (_path r)) v = val (set_path p v) /\ Path_get p = Path_get (_path r).
Proof.
  intros Hr Ha Hv. destruct (put_path_clean max_size (Path_get (_path r)) v) as (p & Hp & Hg & _);
    [by apply (ok_path_clean max_size)|by apply ok_path_size|].
  exists p. split; [done|]. rewrite Hg, Hv. pose proof (ok_path_form _ r Hr) as Hf. rewrite Ha in Hf. destruct Hf as [_ Hf].
  unfold path_text. rewrite bool_decide_eq_true_2 by done. by apply ok_path_squeezed with max_size.
Qed.
End Lemmas.

(** ** Parsing and printing *)

(** C27: parsing a string of octets returns a well-formed URL (every component
    escaped for its place, the scheme and the host checked, the path absolute
    when there is an authority) or throws a [UrlParseError], and no other
    exception; the program stops only at an assertion, when these are
    compiled in. *)
Theorem Url_parse_outcome {BR : BoostRegex} NDEBUG max_size s : bytes_ok s -> 3 * zlen s + 1 < max_size ->
  match Url_of NDEBUG max_size s with
  | Some (Value u) => url_ok max_size u /\ syntax_ok u = val true
  | Some (Throw e) => exists w, e = UrlParseError w
  | None => NDEBUG = false
  end.
Proof.
  intros Hb Hm. pose proof (Url_of_ensures NDEBUG max_size s Hb Hm) as H.
  destruct (Url_of NDEBUG max_size s) as [[u|e]|]; [|by destruct e; eauto|done].
  split; [done|]. by apply (url_ok_syntax max_size).
Qed.

Lemma Url_parse_outcome_witness :
  match Url_of (BR := perl_regex) true 1000 (str "http://u@h:80/a?b#c") with
  | Some (Value u) => url_ok (BR := perl_regex) 1000 u /\ syntax_ok (BR := perl_regex) u = val true
  | Some (Throw e) => exists w, e = UrlParseError w
  | None => true = false
  end.
Proof.
  refine (Url_parse_outcome (BR := perl_regex) true 1000 (str "http://u@h:80/a?b#c") _ _);
    [repeat constructor; done|reflexivity].
Defined.

(** C6: printing is stable: the text of a parsed URL parses again, to a URL
    with the same text, scheme, authority, query and fragment.  The exception
    is a URL with a scheme other than "file" and without a host, as
    "mailto:a" gives; it is printed with an empty authority, and its own text
    is rejected. *)
Theorem Url_parse_print {BR : BoostRegex} NDEBUG max_size s u :
  bytes_ok s -> 3 * zlen s + 1 < max_size -> Url_of NDEBUG max_size s = val u ->
  if hostless u then exists w, Url_of NDEBUG max_size (Url_get u) = throw (UrlParseError w)
  else exists u', Url_of NDEBUG max_size (Url_get u) = val u' /\ Url_get u' = Url_get u
    /\ m_scheme u' = m_scheme u /\ get_authority u' = get_authority u
    /\ m_query u' = m_query u /\ m_fragment u' = m_fragment u.
Proof.
  intros Hb Hm Hp. pose proof (parsed_ok NDEBUG max_size s u Hb Hm Hp) as Hu.
  pose proof (Url_of_get NDEBUG max_size u Hu) as H. destruct (hostless u); [done|].
  destruct H as (p & Hr & Hg). exists (reparsed u p). pose proof (ok_scheme_auth _ u Hu) as Hsa.
  pose proof (ok_no_auth _ u Hu) as Hn.
  split_and!; [done|by apply reparsed_get|by apply reparsed_scheme|by apply reparsed_authority|done..].
Qed.

Lemma Url_parse_print_witness :
  exists u', Url_of (BR := perl_regex) true 1000 (str "http://u@h:80/a%20b/c?b#c%25") = val u'
    /\ Url_get u' = str "http://u@h:80/a%20b/c?b#c%25".
Proof.
  destruct (Url_of (BR := perl_regex) true 1000 (str "HTTP://u@h:80/a b//c?b#c%")) as [[u|e]|] eqn:E;
    [|exfalso; vm_compute in E; discriminate..].
  pose proof (Url_parse_print (BR := perl_regex) true 1000 (str "HTTP://u@h:80/a b//c?b#c%") u) as H.
  vm_compute in E. injection E as <-. specialize (H ltac:(repeat constructor; done) eq_refl eq_refl).
  destruct H as (u' & H1 & H2 & _). exists u'. split; [exact H1|exact H2].
Defined.

(** ** Resolving references *)

(** C14: [merge_ref] resolves a parsed reference against a parsed absolute URL
    and never fails: scheme of the base, fragment of the reference; a
    reference with an authority brings its host and path, one with a path has
    it merged, an empty one keeps the path.  The user, the port, the query
    and the mark of an IP literal that such a reference does not have are
    those of the base, so "//g/y" against "http://u@h:8080/x?q" gives
    "http://u@g:8080/y?q". *)
Theorem merge_ref_spec {BR : BoostRegex} NDEBUG max_size sb sr this r :
  bytes_ok sb -> bytes_ok sr -> 3 * zlen sb + 1 < max_size -> 3 * zlen sr + 1 < max_size ->
  Url_of NDEBUG max_size sb = val this -> Url_of NDEBUG max_size sr = val r ->
  m_scheme this <> [] -> m_scheme r = [] ->
  exists u, merge_ref NDEBUG max_size this r = val u
    /\ m_scheme u = m_scheme this /\ m_fragment u = m_fragment r
    /\ if m_has_authority r then
         m_host u = m_host r /\ Path_get (_path u) = Path_get (_path r)
         /\ m_query u = or_else (m_query r) (m_query this)
         /\ (m_host r <> [] -> m_userinfo u = or_else (m_userinfo r) (m_userinfo this)
              /\ m_port u = or_else (m_port r) (m_port this)
              /\ m_host_ip_literal u = m_host_ip_literal r || m_host_ip_literal this)
       else get_authority u = get_authority this
         /\ if Path_empty (_path r) then _path u = _path this /\ m_query u = or_else (m_query r) (m_query this)
            else Path_merge (_path this) (_path r) = Some (_path u) /\ m_query u = m_query r.
Proof.
  intros Hb1 Hb2 Hm1 Hm2 Hp1 Hp2 Hs Hr0. apply parsed_ok in Hp1 as Ht; [|done..]. apply parsed_ok in Hp2 as Hr; [|done..].
  clear Hp1 Hp2. unfold merge_ref. rewrite (url_ok_syntax max_size) by done. cbn [rbind val negb].
  unfold Url_absolute, has_scheme. rewrite bool_decide_eq_false_2 by done. rewrite Hr0. cbn [bool_decide negb andb].
  change (bool_decide ([] = [])) with true. cbn [negb andb].
  pose proof (ok_scheme_auth _ this Ht Hs) as Hta.
  destruct (m_has_authority r) eqn:Ha.
  - rewrite put_authority_over by (by apply (ok_auth max_size)). cbn [rbind val].
    destruct (put_path_same max_size r (auth_over r this) Hr Ha) as (p & -> & Hpg); [done|]. cbn [rbind val].
    rewrite (put_query_over max_size r) by done. cbn [rbind val]. rewrite (put_fragment_of_same max_size) by done.
    eexists. split; [done|]. cbn. unfold auth_over. case_bool_decide as Hh; split_and!; try done; cbn; congruence.
  - destruct (Path_empty (_path r)) eqn:He.
    + rewrite (put_query_over max_size r) by done. cbn [rbind val]. rewrite !(put_fragment_of_same max_size) by done. cbn [rbind val].
      rewrite (put_fragment_of_same max_size) by done. eexists. by split_and!.
    + destruct (Path_merge_total (_path this) (_path r)) as [p Hpm]. rewrite Hpm.
      assert ((if has_query r then put_query (m_query r) (set_path p this) else val (clear_query (set_path p this)))
        = val (set_query (m_query r) (set_path p this))) as ->.
      { pose proof (put_query_over max_size r (set_path p this) Hr) as H. unfold has_query, or_else in *.
        case_bool_decide as Hq; cbn [negb] in *; [unfold clear_query; by rewrite Hq|done]. }
      cbn [rbind val]. rewrite !(put_fragment_of_same max_size) by done. cbn [rbind val].
      rewrite (put_fragment_of_same max_size) by done. eexists. by split_and!.
Qed.

Lemma merge_ref_spec_witness :
  exists this r, Url_of (BR := perl_regex) true 1000 (str "http://u@h:8080/x?q") = val this
    /\ Url_of (BR := perl_regex) true 1000 (str "//g/y") = val r
    /\ exists u, merge_ref (BR := perl_regex) true 1000 this r = val u
      /\ m_host u = str "g" /\ m_userinfo u = str "u" /\ m_port u = str "8080" /\ m_query u = str "?q".
Proof.
  destruct (Url_of (BR := perl_regex) true 1000 (str "http://u@h:8080/x?q")) as [[this|e]|] eqn:E1;
    [|exfalso; vm_compute in E1; discriminate..].
  destruct (Url_of (BR := perl_regex) true 1000 (str "//g/y")) as [[r|e]|] eqn:E2;
    [|exfalso; vm_compute in E2; discriminate..].
  exists this, r. split; [done|]. split; [done|].
  vm_compute in E1. injection E1 as <-. vm_compute in E2. injection E2 as <-.
  destruct (merge_ref_spec (BR := perl_regex) true 1000 (str "http://u@h:8080/x?q") (str "//g/y")
    (mk_Url (mk_Path [str "x"] true false) false (str "http") true false (str "u") (str "h") (str "8080") (str "?q") [])
    (mk_Url (mk_Path [str "y"] true false) false [] true false [] (str "g") [] [] []))
    as (u & H & _ & _ & Hh & _ & Hq & Hrest);
    [repeat constructor; done|repeat constructor; done|reflexivity|reflexivity|vm_compute; reflexivity
    |vm_compute; reflexivity|discriminate|reflexivity|].
  exists u. destruct Hrest as (Hw & Hp & _); [discriminate|]. split_and!; assumption.
Defined.

(** ** Ports *)
Lemma digit_facts c : is_digit c = true -> is_space c = false /\ (c =? 45) = false /\ (c =? 43) = false.
Proof.
  unfold is_digit, is_space, in_range. intros H. bool_hyps. repeat split; [|lia..].
  destruct (c =? 32) eqn:E1; [lia|]. destruct (9 <=? c) eqn:E2; [|done]. cbn. lia.
Qed.

Lemma read_int_digits s : s <> [] -> Forall (fun c => is_digit c = true) s -> read_int s = cint (digits_val s).
Proof.
  intros Hn Hd. unfold read_int. destruct s as [|c r]; [done|]. pose proof (Forall_cons_1 _ _ _ Hd) as [Hc _].
  destruct (digit_facts c Hc) as (Hs & H1 & H2). cbn [span]. rewrite Hs. cbn [snd]. rewrite H1, H2.
  pose proof (span_exact is_digit (c :: r) [] Hd I) as Hx. rewrite app_nil_r in Hx. by rewrite Hx.
Qed.

Lemma cint_Some x n : cint x = Some n -> n = x.
Proof. unfold cint. destruct (INT_MIN <=? x), (x <=? INT_MAX); cbn; congruence. Qed.

(** [port(s)] stores only the empty string or a decimal number between 1
    and 65535, which [port_int()] then returns; everything else is a
    [UrlParseError].  Without a port [port_int()] throws. *)
Theorem put_port_int {BR : BoostRegex} s u : bytes_ok s ->
  match put_port s u with
  | Some (Value u') => u' = set_port s u /\
      if bool_decide (s = []) then port_int u' = throw (BadUrl (str "port is empty"))
      else port_int u' = val (digits_val s) /\ 0 < digits_val s < 2 ^ 16
  | Some (Throw e) => exists w, e = UrlParseError w
  | None => False
  end.
Proof.
  intros Hb. pose proof (put_port_ensures true s u Hb) as H.
  destruct (put_port s u) as [[u'|e]|] eqn:E; [|by destruct e; eauto|done]. destruct H as [-> Hok]. split; [done|].
  case_bool_decide as Hs; [by subst s|]. destruct Hok as [?|[Hd Hput]]; [done|]. unfold put_port in E.
  rewrite bool_decide_eq_false_2 in E by done. destruct (rx RE_PORT s); [|done]. cbn [negb] in E.
  unfold port_int. cbn [m_port set_port]. rewrite bool_decide_eq_false_2 by done. rewrite read_int_digits in * by done.
  destruct (cint (digits_val s)) as [n|] eqn:En; [|done].
  assert (n = digits_val s) as -> by (by apply cint_Some in En).
  destruct (negb _) eqn:Er in E; [done|]. apply negb_false_iff in Er. bool_hyps.
  assert (negb ((digits_val s <? 2 ^ 16) && (digits_val s >=? 0)) = false) as ->; [|split; [done|lia]].
  apply negb_false_iff, andb_true_intro. lia.
Qed.

Lemma put_port_int_witness :
  exists u, put_port (BR := perl_regex) (str "8080") Url_new = val u /\ port_int u = val 8080.
Proof.
  pose proof (put_port_int (BR := perl_regex) (str "8080") Url_new ltac:(repeat constructor; done)) as H.
  destruct (put_port (BR := perl_regex) (str "8080") Url_new) as [[u|e]|] eqn:E;
    [|exfalso; vm_compute in E; discriminate..].
  exists u. split; [done|]. exact (proj1 (proj2 H)).
Defined.

(** the default port: "http" gets "80"; the table of default ports and the
    enumeration of schemes do not agree on their order, so "ftp" looks up "0"
    and throws, and "file" gets "21"; other schemes and an empty one throw. *)
Theorem set_def_port_spec {BR : BoostRegex} u :
  set_def_port u =
    if bool_decide (m_scheme u = str "http") then val (set_port (str "80") u)
    else if bool_decide (m_scheme u = str "ftp") then throw (UrlParseError (str "Url::port(0): out of range (0,2^16)"))
    else if bool_decide (m_scheme u = str "file") then val (set_port (str "21") u)
    else if bool_decide (m_scheme u = []) then throw (UrlParseError (str "set_def_port: scheme is empty"))
    else throw (UrlParseError (str "set_def_port: unknown default port for scheme: " ++ m_scheme u)).
Proof.
  unfold set_def_port. destruct (decide (m_scheme u = [])) as [->|Hs]; [done|].
  rewrite (bool_decide_eq_false_2 (m_scheme u = [])) by done. cbn [negb]. case_bool_decide.
  - change (defport SCHEME_HTTP) with (str "80"). unfold put_port. rewrite rx_perl.
    change (bool_decide (perl_match RE_PORT (str "80") <> None)) with true. done.
  - case_bool_decide; [|done]. change (defport SCHEME_FTP) with (str "0"). unfold put_port. rewrite rx_perl.
    change (bool_decide (perl_match RE_PORT (str "0") <> None)) with true. done.
Qed.
