(* ===== verification/Flex.v ===== *)
(** * Scanners written for flex ([src/crawler/robots.ll])

    A flex scanner looks at each position for the longest text that one of
    its patterns matches, and takes the first of the patterns that match it;
    a pattern that starts with "^" counts only at the start of a line.
    [scan] computes that choice with derivatives; [scan_spec] shows it is the
    longest match, first rule first. *)

From S2P Require Import Prelude Regex Utils.

(** ** Patterns *)
Inductive pat :=
| PNone
| PEps
| PSet (p : Z -> bool)
| PSeq (a b : pat)
| PAlt (a b : pat)
| PStar (a : pat).

Definition POpt (a : pat) : pat := PAlt a PEps.
Definition PPlus (a : pat) : pat := PSeq a (PStar a).
Definition PChr (c : Z) : pat := PSet (Z.eqb c).

(** A literal under [%option case-insensitive]. *)
Fixpoint PLit (s : list Z) : pat :=
  match s with [] => PEps | c :: r => PSeq (PSet (fun x => tolower x =? tolower c)) (PLit r) end.

(** "." matches every character except a line feed. *)
Definition PDot : pat := PSet (fun c => negb (c =? 10)).

(** What a pattern matches. *)
Inductive lang : pat -> list Z -> Prop :=
| L_eps : lang PEps []
| L_set p c : p c = true -> lang (PSet p) [c]
| L_seq a b s t : lang a s -> lang b t -> lang (PSeq a b) (s ++ t)
| L_left a b s : lang a s -> lang (PAlt a b) s
| L_right a b s : lang b s -> lang (PAlt a b) s
| L_stop a : lang (PStar a) []
| L_more a s t : lang a s -> lang (PStar a) t -> lang (PStar a) (s ++ t).

(** ** The automaton: derivatives *)
Fixpoint nullable (r : pat) : bool :=
  match r with
  | PNone | PSet _ => false
  | PEps | PStar _ => true
  | PSeq a b => nullable a && nullable b
  | PAlt a b => nullable a || nullable b
  end.

Fixpoint deriv (c : Z) (r : pat) : pat :=
  match r with
  | PNone | PEps => PNone
  | PSet p => if p c then PEps else PNone
  | PSeq a b => if nullable a then PAlt (PSeq (deriv c a) b) (deriv c b) else PSeq (deriv c a) b
  | PAlt a b => PAlt (deriv c a) (deriv c b)
  | PStar a => PSeq (deriv c a) (PStar a)
  end.

(** The length of the longest match at the front of [s]. *)
Fixpoint longest (r : pat) (s : list Z) : option nat :=
  match s with
  | [] => if nullable r then Some 0%nat else None
  | c :: s' =>
      match longest (deriv c r) s' with
      | Some n => Some (S n)
      | None => if nullable r then Some 0%nat else None
      end
  end.

(** A rule: whether it needs the start of a line, and its pattern. *)
Record rule := mk_rule { r_bol : bool; r_pat : pat }.

Definition rule_longest (bol : bool) (r : rule) (s : list Z) : option nat :=
  if r_bol r && negb bol then None else longest (r_pat r) s.

(** The longest match of all rules; of two equal ones the first. *)
Fixpoint scan (rules : list rule) (bol : bool) (s : list Z) : option (nat * nat) :=
  match rules with
  | [] => None
  | r :: rs =>
      match rule_longest bol r s, scan rs bol s with
      | Some n, Some (i, m) => if (n <? m)%nat then Some (S i, m) else Some (0%nat, n)
      | Some n, None => Some (0%nat, n)
      | None, Some (i, m) => Some (S i, m)
      | None, None => None
      end
  end.

(** ** The automaton accepts the language *)
Lemma lang_none s : ~ lang PNone s.
Proof. inversion 1. Qed.

Lemma lang_eps w : lang PEps w <-> w = [].
Proof. split; [by inversion 1|intros ->; constructor]. Qed.

Lemma lang_set p w : lang (PSet p) w <-> exists c, w = [c] /\ p c = true.
Proof. split; [inversion 1; eauto|]. intros (c & -> & Hc). by constructor. Qed.

Lemma lang_seq a b w : lang (PSeq a b) w <-> exists s t, w = s ++ t /\ lang a s /\ lang b t.
Proof. split; [inversion 1; eauto|]. intros (s & t & -> & Hs & Ht). by constructor. Qed.

Lemma lang_alt a b w : lang (PAlt a b) w <-> lang a w \/ lang b w.
Proof. split; [inversion 1; auto|]. intros [H|H]; [by apply L_left|by apply L_right]. Qed.

Lemma nullable_lang r : nullable r = true <-> lang r [].
Proof.
  induction r as [| |p|a IHa b IHb|a IHa b IHb|a IHa]; cbn.
  - split; [done|]. intros H. by apply lang_none in H.
  - split; [constructor|done].
  - rewrite lang_set. split; [done|]. by intros (c & ? & _).
  - rewrite andb_true_iff, IHa, IHb, lang_seq. split.
    + intros [Ha Hb]. by exists [], [].
    + intros (s & t & Heq & Ha & Hb). symmetry in Heq. by apply app_eq_nil in Heq as [-> ->].
  - by rewrite orb_true_iff, IHa, IHb, lang_alt.
  - split; [constructor|done].
Qed.

(** A sequence starts with a character in its first part, or its first part
    is empty. *)
Lemma lang_seq_cons a b c s : lang (PSeq a b) (c :: s) <->
  (exists x y, s = x ++ y /\ lang a (c :: x) /\ lang b y) \/ (lang a [] /\ lang b (c :: s)).
Proof.
  rewrite lang_seq. split.
  - intros ([|z x] & y & Heq & Ha & Hb); simplify_eq/=; [by right|left; by exists x, y].
  - intros [(x & y & -> & Ha & Hb)|[Ha Hb]]; [by exists (c :: x), y|by exists [], (c :: s)].
Qed.

Lemma lang_star_cons a c s : lang (PStar a) (c :: s) <-> exists x y, s = x ++ y /\ lang a (c :: x) /\ lang (PStar a) y.
Proof.
  split; [|intros (x & y & -> & Hx & Hy); exact (L_more a (c :: x) y Hx Hy)].
  intros H. remember (PStar a) as r eqn:Er. remember (c :: s) as w eqn:Ew. revert s Ew.
  induction H as [| | | | |a'|a' x y Hx _ Hy IHy]; intros s0 Ew; simplify_eq.
  destruct x as [|z x]; [by apply IHy|]. simplify_eq/=. by exists x, y.
Qed.

Lemma deriv_lang c r : forall s, lang (deriv c r) s <-> lang r (c :: s).
Proof.
  induction r as [| |p|a IHa b IHb|a IHa b IHb|a IHa]; intros s; cbn.
  - split; intros H; by apply lang_none in H.
  - rewrite lang_eps. split; [intros H; by apply lang_none in H|done].
  - rewrite lang_set. destruct (p c) eqn:E.
    + rewrite lang_eps. split; [intros ->; eauto|]. by intros (z & [= -> ->] & _).
    + split; [intros H; by apply lang_none in H|]. intros (z & [= -> ->] & ?). congruence.
  - assert (Hseq : lang (PSeq (deriv c a) b) s <-> exists x y, s = x ++ y /\ lang a (c :: x) /\ lang b y)
      by (rewrite lang_seq; by setoid_rewrite IHa).
    rewrite lang_seq_cons, <-nullable_lang, <-Hseq, <-IHb.
    destruct (nullable a); [rewrite lang_alt|]; intuition discriminate.
  - by rewrite !lang_alt, IHa, IHb.
  - rewrite lang_star_cons, lang_seq. by setoid_rewrite IHa.
Qed.

(** ** Longest match *)
Definition matched (r : pat) (n : nat) (s : list Z) : Prop := (n <= length s)%nat /\ lang r (take n s).

Lemma longest_spec s : forall r, match longest r s with
  | Some n => matched r n s /\ forall m, matched r m s -> (m <= n)%nat
  | None => forall m, ~ matched r m s
  end.
Proof.
  induction s as [|c s IH]; intros r; cbn.
  - destruct (nullable r) eqn:E.
    + split; [split; [done|by apply nullable_lang]|]. intros m [Hm _]. cbn in Hm. lia.
    + intros m [Hm Hl]. rewrite take_nil in Hl. apply nullable_lang in Hl. congruence.
  - pose proof (IH (deriv c r)) as H. destruct (longest (deriv c r) s) as [n|].
    + destruct H as [[Hn Hl] Hmax]. split; [split; [cbn; lia|by apply deriv_lang]|].
      intros [|m] [Hm Hl']; [lia|]. enough (m <= n)%nat by lia. apply Hmax. split; [cbn in Hm; lia|by apply deriv_lang].
    + assert (Hs : forall m, ~ matched r (S m) (c :: s)).
      { intros m [Hm Hl]. apply (H m). split; [cbn in Hm; lia|by apply deriv_lang]. }
      destruct (nullable r) eqn:E.
      * split; [split; [cbn; lia|by apply nullable_lang]|]. intros [|m] Hm; [lia|]. by destruct (Hs m).
      * intros [|m] Hm; [|by apply (Hs m)]. destruct Hm as [_ Hl]. apply nullable_lang in Hl. congruence.
Qed.

Definition rule_matched (bol : bool) (r : rule) (n : nat) (s : list Z) : Prop :=
  (r_bol r = true -> bol = true) /\ matched (r_pat r) n s.

Lemma rule_longest_spec bol r s : match rule_longest bol r s with
  | Some n => rule_matched bol r n s /\ forall m, rule_matched bol r m s -> (m <= n)%nat
  | None => forall m, ~ rule_matched bol r m s
  end.
Proof.
  unfold rule_longest, rule_matched. destruct (r_bol r && negb bol) eqn:E.
  { intros m [H _]. destruct (r_bol r), bol; cbn in E; try done. by specialize (H eq_refl). }
  assert (Hb : r_bol r = true -> bol = true) by (destruct (r_bol r), bol; done).
  pose proof (longest_spec s (r_pat r)) as H; destruct (longest (r_pat r) s); intuition eauto.
Qed.

(** The choice of flex: rule [i] matches [n] characters, no rule matches
    more, and none before [i] as many. *)
Definition chosen (rules : list rule) (bol : bool) (s : list Z) (i n : nat) : Prop :=
  (exists r, rules !! i = Some r /\ rule_matched bol r n s)
  /\ forall j r m, rules !! j = Some r -> rule_matched bol r m s -> (m <= n)%nat /\ (m = n -> (i <= j)%nat).

Lemma scan_chosen rules bol s : match scan rules bol s with
  | Some (i, n) => chosen rules bol s i n
  | None => forall j r m, rules !! j = Some r -> ~ rule_matched bol r m s
  end.
Proof.
  induction rules as [|r rs IH]; cbn [scan]; [by intros [|j]|].
  pose proof (rule_longest_spec bol r s) as Hr. unfold chosen in *.
  destruct (rule_longest bol r s) as [n|], (scan rs bol s) as [[i m]|].
  - destruct Hr as [Hn Hmax], IH as [(r' & Hi & Hm) Hall]. destruct (n <? m)%nat eqn:E.
    + apply Nat.ltb_lt in E. split; [by exists r'|]. intros [|j] x k Hj Hk; cbn in Hj; simplify_eq.
      * apply Hmax in Hk. lia.
      * destruct (Hall j x k Hj Hk). lia.
    + apply Nat.ltb_ge in E. split; [by exists r|]. intros [|j] x k Hj Hk; cbn in Hj; simplify_eq.
      * apply Hmax in Hk. lia.
      * destruct (Hall j x k Hj Hk). lia.
  - destruct Hr as [Hn Hmax]. split; [by exists r|]. intros [|j] x k Hj Hk; cbn in Hj; simplify_eq.
    + apply Hmax in Hk. lia.
    + by destruct (IH j x k Hj).
  - destruct IH as [(r' & Hi & Hm) Hall]. split; [by exists r'|]. intros [|j] x k Hj Hk; cbn in Hj; simplify_eq.
    + by destruct (Hr k).
    + destruct (Hall j x k Hj Hk). lia.
  - intros [|j] x k Hj Hk; cbn in Hj; simplify_eq; [by apply (Hr k)|by apply (IH j x k)].
Qed.

Lemma scan_iff rules bol s i n : scan rules bol s = Some (i, n) <-> chosen rules bol s i n.
Proof.
  pose proof (scan_chosen rules bol s) as H. split; [by intros E; rewrite E in H|].
  intros [(r & Hi & Hr) Hall]. destruct (scan rules bol s) as [[j m]|]; [|by destruct (H i r n)].
  destruct H as [(r' & Hj & Hr') Hall']. destruct (Hall j r' m Hj Hr'), (Hall' i r n Hi Hr).
  assert (m = n) by lia. subst m. do 2 f_equal. lia.
Qed.
