(* ===== verification/Robots.v ===== *)
(** * robots.txt ([src/crawler/Robots.hh], [Robots.cc], [robots.ll])

    The scanner of robots.txt files and the question whether a path is
    allowed.  A file is a sequence of records: the user agents, then the
    rules for them. *)

From S2P Require Import Prelude Regex Utils UrlEsc Url Flex.

Open Scope res_scope.

Inductive rule_type_t := DISALLOW | ALLOW | CRAWL_DELAY.

#[export] Instance rule_type_eq_dec : EqDecision rule_type_t.
Proof. solve_decision. Defined.

Record Rule := mk_Rule { type : rule_type_t; rule_str : list Z }.

Record Uas_rules := mk_Uas_rules { ua : list (list Z); ua_rules : list Rule }.

Definition Uas_new : Uas_rules := mk_Uas_rules [] [].
Definition Uas_clear (r : Uas_rules) : Uas_rules := mk_Uas_rules [] [].
Definition Uas_empty (r : Uas_rules) : bool := bool_decide (ua r = []).

Inductive state_t := START | READING_UAS | RULES | STATE_EOF.

#[export] Instance state_eq_dec : EqDecision state_t.
Proof. solve_decision. Defined.

Record Robots := mk_Robots {
  valid : bool;
  errors : list Z;
  state : state_t;
  current : Uas_rules;
  uas_rules_all : list Uas_rules
}.

Definition Robots_new : Robots := mk_Robots false [] START Uas_new [].

(** [clear()] keeps [valid] and [errors]. *)
Definition Robots_clear (r : Robots) : Robots := mk_Robots (valid r) (errors r) START (Uas_clear (current r)) [].

(** ** State changes *)
Definition set_state s r := mk_Robots (valid r) (errors r) s (current r) (uas_rules_all r).
Definition set_errors e r := mk_Robots (valid r) e (state r) (current r) (uas_rules_all r).
Definition set_current c r := mk_Robots (valid r) (errors r) (state r) c (uas_rules_all r).

Definition Robots_start (r : Robots) : Robots := set_state START r.

Definition rules (r : Robots) : Robots := set_state RULES r.

(** [uas_rules_all.push_back(current); current.clear(); valid = true;] *)
Definition push_current (r : Robots) : Robots :=
  mk_Robots true (errors r) (state r) (Uas_clear (current r)) (uas_rules_all r ++ [current r]).

Definition reading_uas (r : Robots) : Robots :=
  set_state READING_UAS (if decide (state r = RULES) then push_current r else r).

Definition eof (r : Robots) : Robots :=
  set_state STATE_EOF (if negb (Uas_empty (current r)) then push_current r else r).

Definition add_ua (name : list Z) (r : Robots) : Robots :=
  set_current (mk_Uas_rules (ua (current r) ++ [name]) (ua_rules (current r))) r.

Definition add_rule (x : Rule) (r : Robots) : Robots :=
  set_current (mk_Uas_rules (ua (current r)) (ua_rules (current r) ++ [x])) r.

(** ** Strings *)

(** [string(yytext)] stops at a NUL. *)
Definition c_str (t : list Z) : list Z := fst (span (fun c => negb (c =? 0)) t).

(** The text before the first "#". *)
Definition before_hash (s : list Z) : list Z := fst (span (fun c => negb (c =? 35)) s).

(** [boost::trim] *)
Definition trim_left (s : list Z) : list Z := snd (span is_space s).
Definition trim (s : list Z) : list Z := reverse (trim_left (reverse (trim_left s))).

(** What follows the first [k] characters of a line, without comment and
    surrounding space. *)
Definition value_of (k : Z) (yytext : list Z) : list Z := trim (before_hash (zdrop k (c_str yytext))).

(** [Url::unescape_not(Url::escape(s, URL_CHAR_PATH), URL_CHAR_PATH)] *)
Definition normal_path (s : list Z) : outcome (list Z) :=
  match escape s URL_CHAR_PATH with
  | Value e => unescape_not e URL_CHAR_PATH
  | Throw e => Throw e
  end.

(** ** The scanner *)
Definition SPACE : pat := PSet (one_of [9; 32]).
Definition NEWLINE : pat := PSeq (POpt (PChr 13)) (PChr 10).
Definition COMMENT : pat := PChr 35.
Definition COMMENTL : pat := PSeq (PStar SPACE) (PSeq COMMENT (PStar PDot)).
Definition not_end : pat := PSet (none_of [35; 10; 13]).

Definition rule_comment : rule := mk_rule false (PSeq COMMENTL (PStar NEWLINE)).

Definition rule_user_agent : rule :=
  mk_rule true (PSeq (PLit (str "User-agent:"))
    (PSeq (PStar SPACE) (PSeq (PPlus not_end) (PSeq (POpt COMMENTL) NEWLINE)))).

(** The line of a rule: its keyword, a value that may be empty, a comment. *)
Definition rule_line (keyword : list Z) : rule :=
  mk_rule true (PSeq (PLit keyword)
    (PSeq (PStar SPACE) (PSeq (PStar not_end) (PSeq (POpt COMMENTL) (POpt NEWLINE))))).

Definition rule_allow : rule := rule_line (str "Allow:").
Definition rule_disallow : rule := rule_line (str "Disallow:").
Definition rule_delay : rule := rule_line (str "Crawl-delay:").
Definition rule_blank : rule := mk_rule false (PSeq (PStar SPACE) NEWLINE).
Definition rule_any : rule := mk_rule false (PPlus PDot).

Definition robots_rules : list rule :=
  [rule_comment; rule_user_agent; rule_allow; rule_disallow; rule_delay; rule_blank; rule_any].

(** [sgml_tag] *)
Definition sgml_tag : re := Seq (Chr 60) (Seq (Plus (Set_ (fun c => negb (c =? 62)))) (Chr 62)).

Section Scanner.
Context {BR : BoostRegex}.

Definition act_user_agent (yytext : list Z) (r : Robots) : Robots :=
  add_ua (value_of 11 yytext) (reading_uas r).

Definition act_allow (yytext : list Z) (r : Robots) : res Robots :=
  rule <~ lift_outcome (normal_path (value_of 6 yytext)) ;;
  val (add_rule (mk_Rule ALLOW rule) (rules r)).

Definition act_disallow (yytext : list Z) (r : Robots) : res Robots :=
  rule <~ lift_outcome (normal_path (value_of 9 yytext)) ;;
  val (add_rule (mk_Rule DISALLOW rule) (rules r)).

Definition act_delay (yytext : list Z) (r : Robots) : Robots :=
  add_rule (mk_Rule CRAWL_DELAY (value_of 12 yytext)) (rules r).

(** The line that no other rule takes; [true] means [return -1]. *)
Definition act_any (yytext : list Z) (r : Robots) : bool * Robots :=
  let r := set_errors (errors r ++ str "unmatched: |" ++ c_str yytext ++ str "|" ++ [10]) r in
  (bool_decide (state r = START) && bool_decide (regex_search sgml_tag (c_str yytext) <> None), r).

(** The action of a rule, and whether it ends the scan with -1. *)
Definition action (i : nat) (yytext : list Z) (r : Robots) : res (bool * Robots) :=
  match i with
  | 0%nat => val (false, r)
  | 1%nat => val (false, act_user_agent yytext r)
  | 2%nat => r <~ act_allow yytext r ;; val (false, r)
  | 3%nat => r <~ act_disallow yytext r ;; val (false, r)
  | 4%nat => val (false, act_delay yytext r)
  | 5%nat => val (false, r)
  | 6%nat => val (act_any yytext r)
  | _ => abort
  end.

(** [yylex]: [bol] says whether the scanner is at the start of a line. *)
Fixpoint yylex_from (fuel : nat) (bol : bool) (input : list Z) (r : Robots) : res (Z * Robots) :=
  match fuel with
  | O => abort
  | S fuel =>
      match input with
      | [] => val (0, Robots_start (eof r))
      | _ =>
          match scan robots_rules bol input with
          | None | Some (_, O) => abort
          | Some (i, n) =>
              let yytext := take n input in
              x <~ action i yytext r ;;
              let '(stop, r) := x in
              if stop : bool then val (-1, r)
              else yylex_from fuel (bool_decide (last yytext = Some 10)) (drop n input) r
          end
      end
  end.

Definition yylex (input : list Z) (r : Robots) : res (Z * Robots) := yylex_from (S (length input)) true input r.
End Scanner.

(** ** The question *)
Fixpoint first_rule (path : list Z) (rs : list Rule) : bool :=
  match rs with
  | [] => true
  | r :: rs => if bool_decide (rule_str r = path) then bool_decide (type r = ALLOW) else first_rule path rs
  end.

(** The loop over the user agents of a record: the answer of the record when
    one of them is meant. *)
Fixpoint ask_uas (user_agent path : list Z) (uas : list (list Z)) (rs : list Rule) : option bool :=
  match uas with
  | [] => None
  | u :: uas =>
      if bool_decide (u = user_agent) || bool_decide (u = str "*") then Some (first_rule path rs)
      else ask_uas user_agent path uas rs
  end.

Fixpoint ask_records (user_agent path : list Z) (all : list Uas_rules) : bool :=
  match all with
  | [] => true
  | x :: all =>
      match ask_uas user_agent path (ua x) (ua_rules x) with
      | Some b => b
      | None => ask_records user_agent path all
      end
  end.

Definition path_allowed (user_agent p : list Z) (r : Robots) : outcome bool :=
  match normal_path p with
  | Value path => Value (ask_records user_agent path (uas_rules_all r))
  | Throw e => Throw e
  end.

(** ** [Robots_entry] *)
Inductive robots_state_t := EMPTY | PRESENT | NOT_AVAILABLE | EPARSE.

#[export] Instance robots_state_eq_dec : EqDecision robots_state_t.
Proof. solve_decision. Defined.

Record Robots_entry := mk_entry { entry_robots : Robots; entry_state : robots_state_t }.

Definition Robots_entry_new : Robots_entry := mk_entry Robots_new EMPTY.
Definition Robots_entry_of (s : robots_state_t) : Robots_entry := mk_entry Robots_new s.

Definition tried_but_failed (e : Robots_entry) : bool :=
  bool_decide (entry_state e = NOT_AVAILABLE) || bool_decide (entry_state e = EPARSE).
