(* ===== verification/RobotsLex.v ===== *)
(** * The scanner of robots.txt

    The scanner always makes progress and ends; what it does with one line of
    a file. *)

From S2P Require Import Prelude Regex Utils UrlEsc Url UrlWf Flex Robots.

(** ** Patterns that cannot match *)

(** The pattern matches nothing at all. *)
Fixpoint void (r : pat) : bool :=
  match r with
  | PNone => true
  | PEps | PSet _ | PStar _ => false
  | PSeq a b => void a || void b
  | PAlt a b => void a && void b
  end.

Lemma void_lang r : void r = true -> forall w, ~ lang r w.
Proof.
  induction r as [| |p|a IHa b IHb|a IHa b IHb|a IHa]; cbn; try done; intros Hv w Hw.
  - by apply lang_none in Hw.
  - apply lang_seq in Hw as (s & t & -> & Hs & Ht). apply orb_true_iff in Hv as [Hv|Hv]; [by eapply IHa|by eapply IHb].
  - apply andb_true_iff in Hv as [? ?]. apply lang_alt in Hw as [?|?]; [by eapply IHa|by eapply IHb].
Qed.

(** A pattern that neither matches the empty text nor one that starts with
    [c]. *)
Definition rejects (c : Z) (r : pat) : bool := negb (nullable r) && void (deriv c r).

Lemma rejects_matched c r s n : rejects c r = true -> ~ matched r n (c :: s).
Proof.
  unfold rejects. rewrite andb_true_iff, negb_true_iff. intros [Hn Hv] [_ Hl]. destruct n as [|n]; cbn in Hl.
  - apply nullable_lang in Hl. congruence.
  - apply deriv_lang in Hl. by apply (void_lang _ Hv) in Hl.
Qed.

(** No set of the pattern contains [c]. *)
Fixpoint avoids (c : Z) (r : pat) : bool :=
  match r with
  | PNone | PEps => true
  | PSet p => negb (p c)
  | PSeq a b | PAlt a b => avoids c a && avoids c b
  | PStar a => avoids c a
  end.

Lemma avoids_lang c r w : avoids c r = true -> lang r w -> c ∉ w.
Proof.
  intros Ha Hl. induction Hl as [|p x Hx|a b s t _ IHs _ IHt|a b s _ IHs|a b s _ IHs|a|a s t _ IHs _ IHt]; cbn in Ha; bool_hyps.
  - by intros ?%elem_of_nil.
  - intros ->%list_elem_of_singleton. congruence.
  - rewrite elem_of_app. intros [?|?]; [by apply IHs|by apply IHt].
  - auto.
  - auto.
  - by intros ?%elem_of_nil.
  - rewrite elem_of_app. intros [?|?]; [by apply IHs|by apply IHt].
Qed.

Lemma lang_star_set p w : lang (PStar (PSet p)) w <-> Forall (fun c => p c = true) w.
Proof.
  induction w as [|c w IH]; [split; constructor|]. rewrite lang_star_cons, Forall_cons, <-IH. split.
  - intros (x & y & -> & (z & [= -> ->] & Hz)%lang_set & Hy). done.
  - intros [Hc Hw]. exists [], w. split_and!; [done|apply lang_set; eauto|done].
Qed.

Lemma lang_lit k : lang (PLit k) k.
Proof. induction k as [|c k IH]; [constructor|]. cbn. apply (L_seq _ _ [c] k); [|done]. constructor. apply Z.eqb_refl. Qed.

Lemma lang_opt a w : lang (POpt a) w <-> lang a w \/ w = [].
Proof. unfold POpt. by rewrite lang_alt, lang_eps. Qed.

Lemma lang_newline w : lang NEWLINE w <-> w = [10] \/ w = [13; 10].
Proof.
  unfold NEWLINE. rewrite lang_seq. setoid_rewrite lang_opt. unfold PChr. setoid_rewrite lang_set. split.
  - intros (s & t & -> & [(c & -> & <-%Z.eqb_eq)| ->] & (d & -> & <-%Z.eqb_eq)); auto.
  - intros [-> | ->]; [exists [], [10]|exists [13], [10]]; naive_solver.
Qed.

(** ** Progress *)
Lemma rules_not_nullable : forallb (fun r => negb (nullable (r_pat r))) robots_rules = true.
Proof. reflexivity. Qed.

Lemma scan_progress bol c s : exists i n, scan robots_rules bol (c :: s) = Some (i, S n) /\ (i < 7)%nat /\ (n <= length s)%nat.
Proof.
  assert (Hsome : exists j r, robots_rules !! j = Some r /\ rule_matched bol r 1 (c :: s)).
  { destruct (decide (c = 10)) as [->|Hc].
    - exists 5%nat, rule_blank. split; [done|]. split; [done|]. split; [cbn; lia|]. cbn.
      apply (L_seq _ _ [] [10]); [constructor|]. apply lang_newline. auto.
    - exists 6%nat, rule_any. split; [done|]. split; [done|]. split; [cbn; lia|]. cbn.
      apply (L_seq _ _ [c] []); [|constructor]. constructor. by apply negb_true_iff, Z.eqb_neq. }
  destruct Hsome as (j & r & Hj & Hr). pose proof (scan_chosen robots_rules bol (c :: s)) as H.
  destruct (scan robots_rules bol (c :: s)) as [[i n]|]; [|by destruct (H j r 1%nat)].
  destruct H as [(x & Hi & _ & Hn & Hl) _]. destruct n as [|n].
  - apply nullable_lang in Hl. apply list_elem_of_lookup_2, list_elem_of_In in Hi.
    pose proof (proj1 (forallb_forall _ _) rules_not_nullable x Hi) as Hx. cbn in Hx. by rewrite Hl in Hx.
  - exists i, n. apply lookup_lt_Some in Hi. cbn in *. split_and!; [done|done|lia].
Qed.

(** ** One line *)

(** A match that ends at a line end goes no further than the first line
    feed. *)
Lemma line_bound (l t x y : list Z) n : 10 ∉ l -> 10 ∉ x -> y = [] \/ lang NEWLINE y ->
  take n (l ++ 10 :: t) = x ++ y -> (length (x ++ y) <= S (length l))%nat.
Proof.
  intros Hl Hx Hy Heq. enough (length x <= length l /\ (length y = 2 -> length x < length l))%nat.
  { rewrite length_app. assert (length y <= 2)%nat by (destruct Hy as [->|[-> | ->]%lang_newline]; cbn; lia).
    assert (length y = 2 \/ length y <= 1)%nat as [?|?] by lia; lia. }
  assert (Hpre : forall i c, (x ++ y) !! i = Some c -> (l ++ 10 :: t) !! i = Some c).
  { intros i c. rewrite <-Heq. intros H%lookup_take_Some. apply H. }
  assert (Hlf : forall i, (i = length l)%nat -> (l ++ 10 :: t) !! i = Some 10) by (intros i ->; by apply list_lookup_middle).
  assert (Hlen : (length x <= length l)%nat).
  { destruct (decide (length x <= length l)%nat); [done|exfalso].
    destruct (lookup_lt_is_Some_2 x (length l)) as [c Hc]; [lia|].
    pose proof (Hpre (length l) c ltac:(by apply lookup_app_l_Some)) as H. rewrite Hlf in H by done. simplify_eq.
    apply Hx. by eapply list_elem_of_lookup_2. }
  split; [done|]. destruct Hy as [->|[-> | ->]%lang_newline]; cbn; try lia. intros _.
  destruct (decide (length x < length l)%nat); [done|exfalso].
  pose proof (Hpre (length l) 13) as H. rewrite Hlf in H by done.
  rewrite lookup_app_r in H by lia. replace (length l - length x)%nat with 0%nat in H by lia. by specialize (H eq_refl).
Qed.

Lemma take_full {A} (a t : list A) : take (length a) (a ++ t) = a.
Proof. by rewrite take_app_length. Qed.

(** A line end, of Unix or of DOS. *)
Definition eol_ok (eol : list Z) : Prop := eol = [10] \/ eol = [13; 10].

(** The rule at [i] takes a whole line when it matches it, its matches end at
    line ends, and the rules except [rule_any] reject its first character. *)
Lemma scan_line i r l eol t c l' : eol_ok eol -> l = c :: l' -> c <> 10 -> 10 ∉ l -> robots_rules !! i = Some r -> (i < 6)%nat ->
  (forall j x, robots_rules !! j = Some x -> j <> i -> (j < 6)%nat -> rejects c (r_pat x) = true) ->
  lang (r_pat r) (l ++ eol) ->
  (forall w, lang (r_pat r) w -> exists x y, w = x ++ y /\ (10 ∉ x) /\ (y = [] \/ lang NEWLINE y)) ->
  scan robots_rules true (l ++ eol ++ t) = Some (i, length (l ++ eol)).
Proof.
  intros Heol Hc Hc10 Hl Hi Hi6 Hrej Hmatch Hend.
  assert (Hlf : exists l1, l ++ eol ++ t = l1 ++ 10 :: t /\ length (l ++ eol) = S (length l1) /\ 10 ∉ l1).
  { destruct Heol as [-> | ->]; [exists l; rewrite length_app; cbn; split_and!; [done|lia|done]|].
    exists (l ++ [13]). rewrite <-(assoc_L (++)), !length_app. cbn. split_and!; [done|lia|].
    rewrite elem_of_app, list_elem_of_singleton. by intros [?|?]. }
  destruct Hlf as (l1 & Heq & Hlen & Hl1). apply scan_iff. split.
  - exists r. split; [done|]. split; [done|]. rewrite (assoc_L (++)). split; [rewrite !length_app; lia|]. by rewrite take_full.
  - intros j x m Hj [_ Hm]. destruct (decide (j = i)) as [->|Hji].
    + simplify_eq. split; [|lia]. destruct Hm as [Hm Hw]. destruct (Hend _ Hw) as (u & v & Huv & Hu & Hv).
      rewrite Heq in Huv, Hm. pose proof (line_bound l1 t u v m Hl1 Hu Hv Huv) as H. rewrite <-Huv, length_take in H. lia.
    + destruct (decide (j < 6)%nat) as [Hj6|Hj6].
      { exfalso. subst l. by apply (rejects_matched c (r_pat x) (l' ++ eol ++ t) m (Hrej j x Hj Hji Hj6)). }
      assert (j = 6)%nat as -> by (apply lookup_lt_Some in Hj; cbn in Hj; lia). cbn in Hj. simplify_eq.
      destruct Hm as [Hm Hw]. pose proof (avoids_lang 10 (r_pat rule_any) _ eq_refl Hw) as H10. rewrite Heq in Hm, H10.
      enough (m <= length l1)%nat by lia. destruct (decide (m <= length l1)%nat); [done|exfalso]. apply H10.
      apply list_elem_of_lookup_2 with (length l1). rewrite lookup_take_lt by lia. by apply list_lookup_middle.
Qed.

(** ** The lines of rules and user agents *)
(** A character is not in a literal. *)
Ltac not_in_lit :=
  let H := fresh in
  intros H; cbv in H; repeat (apply elem_of_cons in H as [H|H]; [discriminate|]); by apply elem_of_nil in H.

Lemma avoid_app (a b : list Z) : 10 ∉ a -> 10 ∉ b -> 10 ∉ a ++ b.
Proof. rewrite elem_of_app. tauto. Qed.

Lemma rule_line_ends kw w : avoids 10 (PLit kw) = true -> lang (r_pat (rule_line kw)) w ->
  exists x y, w = x ++ y /\ (10 ∉ x) /\ (y = [] \/ lang NEWLINE y).
Proof.
  intros Hk H. cbn in H.
  apply lang_seq in H as (s & ? & -> & ? & H). apply lang_seq in H as (s0 & ? & -> & ? & H).
  apply lang_seq in H as (s1 & ? & -> & ? & H). apply lang_seq in H as (s2 & t2 & -> & ? & H). apply lang_opt in H.
  exists (s ++ s0 ++ s1 ++ s2), t2. rewrite <-!(assoc_L (++)). split_and!; [done| |tauto].
  repeat apply avoid_app; (eapply avoids_lang; [|eassumption]); first [assumption|reflexivity].
Qed.

Lemma user_agent_ends w : lang (r_pat rule_user_agent) w ->
  exists x y, w = x ++ y /\ (10 ∉ x) /\ (y = [] \/ lang NEWLINE y).
Proof.
  intros H. cbn in H.
  apply lang_seq in H as (s & ? & -> & ? & H). apply lang_seq in H as (s0 & ? & -> & ? & H).
  apply lang_seq in H as (s1 & ? & -> & ? & H). apply lang_seq in H as (s2 & t2 & -> & ? & H).
  exists (s ++ s0 ++ s1 ++ s2), t2. rewrite <-!(assoc_L (++)). split_and!; [done| |tauto].
  repeat apply avoid_app; (eapply avoids_lang; [|eassumption]); first [assumption|reflexivity].
Qed.

(** A value that can be written in a file: no comment sign, line end or NUL,
    and no space around it. *)
Record value_ok (v : list Z) : Prop := {
  value_chars : Forall (fun c => none_of [0; 10; 13; 35] c = true) v;
  value_head : forall c, head v = Some c -> is_space c = false;
  value_last : forall c, last v = Some c -> is_space c = false
}.

(** The text of a line. *)
Definition line (kw v eol : list Z) : list Z := (kw ++ 32 :: v) ++ eol.

Lemma none_of_neq set c d : none_of set c = true -> d ∈ set -> c <> d.
Proof.
  unfold none_of, one_of. rewrite negb_true_iff. intros H Hd ->. apply not_true_iff_false in H. apply H.
  apply existsb_exists. exists d. split; [by apply list_elem_of_In|apply Z.eqb_refl].
Qed.

Lemma value_no v c : value_ok v -> c ∈ [0; 10; 13; 35] -> c ∉ v.
Proof. intros Hv Hc Hin. pose proof (proj1 (Forall_forall _ _) (value_chars v Hv) c Hin) as H. by apply (none_of_neq _ c c H Hc). Qed.

Lemma span_full p s : Forall (fun c => p c = true) s -> span p s = (s, []).
Proof. induction 1 as [|c s Hc _ IH]; [done|]. cbn. by rewrite Hc, IH. Qed.

Lemma span_pre p a b : Forall (fun c => p c = true) a -> span p (a ++ b) = (a ++ fst (span p b), snd (span p b)).
Proof. induction 1 as [|c a Hc _ IH]; cbn; [by destruct (span p b)|]. by rewrite Hc, IH. Qed.

Lemma trim_left_pre a b : Forall (fun c => is_space c = true) a -> (forall c, head b = Some c -> is_space c = false) ->
  trim_left (a ++ b) = b.
Proof.
  intros Ha Hb. unfold trim_left. rewrite span_pre by done. cbn. destruct b as [|c b]; [done|].
  cbn. by rewrite (Hb c eq_refl).
Qed.

Lemma trim_ok a v b : Forall (fun c => is_space c = true) a -> Forall (fun c => is_space c = true) b ->
  (forall c, head v = Some c -> is_space c = false) -> (forall c, last v = Some c -> is_space c = false) ->
  trim (a ++ v ++ b) = v.
Proof.
  intros Ha Hb Hh Hl. unfold trim. destruct v as [|c v].
  - cbn [app]. rewrite <-(app_nil_r (a ++ b)), (trim_left_pre (a ++ b) []); [done| |done]. by apply Forall_app.
  - rewrite (trim_left_pre a); [|done|intros d [= <-]; by apply Hh].
    rewrite reverse_app, trim_left_pre; [apply reverse_involutive|by apply Forall_reverse|].
    intros d Hd. apply Hl. by rewrite <-head_reverse.
Qed.

Lemma eol_spaces eol : eol_ok eol -> Forall (fun c => is_space c = true) eol.
Proof. intros [-> | ->]; by repeat constructor. Qed.

Lemma value_of_line k kw v eol : k = zlen kw -> value_ok v -> eol_ok eol -> Forall (fun c => none_of [0] c = true) kw ->
  value_of k (line kw v eol) = v.
Proof.
  intros -> Hv Heol Hkw. unfold value_of.
  assert (Hcs : c_str (line kw v eol) = line kw v eol).
  { unfold c_str. rewrite span_full; [done|]. unfold line. repeat (apply Forall_app; split).
    - eapply Forall_impl; [exact Hkw|]. intros c Hc. apply negb_true_iff, Z.eqb_neq. by apply (none_of_neq [0] c 0); [|left].
    - constructor; [done|]. eapply Forall_impl; [exact (value_chars v Hv)|]. intros c Hc.
      apply negb_true_iff, Z.eqb_neq. by apply (none_of_neq _ c 0 Hc); left.
    - destruct Heol as [-> | ->]; by repeat constructor. }
  rewrite Hcs. unfold line. rewrite <-(assoc_L (++)). replace (zdrop (zlen kw) (kw ++ (32 :: v) ++ eol)) with ([32] ++ v ++ eol).
  2: { unfold zdrop, zlen. by rewrite Nat2Z.id, drop_app_length. }
  assert (before_hash ([32] ++ v ++ eol) = [32] ++ v ++ eol) as ->.
  { unfold before_hash. rewrite span_full; [done|]. repeat (apply Forall_app; split).
    - by repeat constructor.
    - eapply Forall_impl; [exact (value_chars v Hv)|]. intros c Hc. apply negb_true_iff, Z.eqb_neq.
      by apply (none_of_neq _ c 35 Hc); do 3 right; left.
    - destruct Heol as [-> | ->]; by repeat constructor. }
  apply trim_ok; [by repeat constructor|by apply eol_spaces|apply Hv|apply Hv].
Qed.

Lemma value_not_end v : value_ok v -> lang (PStar not_end) v.
Proof.
  intros Hv. apply lang_star_set. eapply Forall_impl; [exact (value_chars v Hv)|]. intros c.
  unfold none_of, one_of. cbn. rewrite !negb_true_iff, !orb_false_iff. tauto.
Qed.

Lemma lang_eol eol : eol_ok eol -> lang NEWLINE eol.
Proof. intros H. by apply lang_newline. Qed.

Lemma space_star : lang (PStar SPACE) [32].
Proof. apply lang_star_set. by repeat constructor. Qed.

Lemma rule_line_lang kw v eol : value_ok v -> eol_ok eol -> lang (r_pat (rule_line kw)) (line kw v eol).
Proof.
  intros Hv He. unfold line. rewrite <-(assoc_L (++)). cbn [r_pat rule_line].
  apply L_seq; [apply lang_lit|]. apply (L_seq _ _ [32] (v ++ eol)); [apply space_star|].
  apply L_seq; [by apply value_not_end|]. apply (L_seq _ _ [] eol); [apply lang_opt; by right|].
  apply lang_opt. left. by apply lang_eol.
Qed.

Lemma user_agent_lang v eol : value_ok v -> v <> [] -> eol_ok eol -> lang (r_pat rule_user_agent) (line (str "User-agent:") v eol).
Proof.
  intros Hv Hne He. unfold line. rewrite <-(assoc_L (++)). cbn [r_pat rule_user_agent].
  apply L_seq; [apply lang_lit|]. apply (L_seq _ _ [32] (v ++ eol)); [apply space_star|].
  apply L_seq; [|apply (L_seq _ _ [] eol); [apply lang_opt; by right|by apply lang_eol]].
  pose proof (value_not_end v Hv) as H. destruct v as [|c v]; [done|].
  apply lang_star_cons in H as (x & y & -> & Hx & Hy). exact (L_seq _ _ (c :: x) y Hx Hy).
Qed.

Lemma line_no_lf kw v : 10 ∉ kw -> value_ok v -> 10 ∉ kw ++ 32 :: v.
Proof.
  intros Hk Hv. rewrite elem_of_app, elem_of_cons. pose proof (value_no v 10 Hv ltac:(by right; left)). by intros [?|[?|?]].
Qed.

(** The rules before [rule_any], except [i], reject [c]. *)
Definition others_reject (i : nat) (c : Z) : bool :=
  forallb (fun j => (j =? i)%nat || match robots_rules !! j with Some y => rejects c (r_pat y) | None => false end) (seq 0 6).

Lemma others_reject_spec i c j y : others_reject i c = true -> robots_rules !! j = Some y -> j <> i -> (j < 6)%nat ->
  rejects c (r_pat y) = true.
Proof.
  intros Hall Hj Hji Hj6. unfold others_reject in Hall. rewrite forallb_forall in Hall.
  specialize (Hall j ltac:(apply in_seq; lia)). rewrite Hj in Hall. by rewrite (proj2 (Nat.eqb_neq _ _) Hji) in Hall.
Qed.

(** The four kinds of lines. *)
Lemma scan_user_agent v eol t : value_ok v -> v <> [] -> eol_ok eol ->
  scan robots_rules true (line (str "User-agent:") v eol ++ t) = Some (1%nat, length (line (str "User-agent:") v eol)).
Proof.
  intros Hv Hne He. pose proof (user_agent_lang v eol Hv Hne He) as Hl.
  unfold line in *. rewrite <-(assoc_L (++) _ eol t).
  eapply scan_line with (r := rule_user_agent); [done|reflexivity|done|apply line_no_lf; [|done]|done|lia| |done|apply user_agent_ends].
  - not_in_lit.
  - intros j x. by apply others_reject_spec.
Qed.

Lemma scan_rule_line i kw c kw' v eol t : kw = c :: kw' -> robots_rules !! i = Some (rule_line kw) ->
  (i <? 6)%nat && negb (existsb (Z.eqb 10) kw) && avoids 10 (PLit kw) && others_reject i c = true ->
  value_ok v -> eol_ok eol -> scan robots_rules true (line kw v eol ++ t) = Some (i, length (line kw v eol)).
Proof.
  intros Hkw Hi Hc Hv He. bool_hyps. pose proof (rule_line_lang kw v eol Hv He) as Hl. unfold line in *.
  assert (Hk : 10 ∉ kw).
  { intros Hin%list_elem_of_In. enough (existsb (Z.eqb 10) kw = true) by congruence.
    apply existsb_exists. by exists 10. }
  rewrite <-(assoc_L (++) _ eol t).
  eapply scan_line with (r := rule_line kw); [done|by rewrite Hkw| |by apply line_no_lf|done|by apply Nat.ltb_lt| |done|].
  - intros ->. apply Hk. rewrite Hkw. left.
  - intros j x. by apply others_reject_spec.
  - intros w. by apply rule_line_ends.
Qed.

Lemma scan_blank eol t : eol_ok eol -> scan robots_rules true (eol ++ t) = Some (5%nat, length eol).
Proof.
  intros He. apply scan_iff.
  assert (Hb : forall m, matched (r_pat rule_blank) m (eol ++ t) -> (m <= length eol)%nat).
  { intros m [Hm Hw]. cbn in Hw. apply lang_seq in Hw as (x & y & Hxy & Hx & Hy).
    assert (H10 : 10 ∉ x) by (eapply (avoids_lang 10 (PStar SPACE)); [reflexivity|done]).
    destruct He as [-> | ->].
    - pose proof (line_bound [] t x y m ltac:(by intros ?%elem_of_nil) H10 (or_intror Hy) Hxy) as H.
      rewrite <-Hxy, length_take in H. cbn in *. lia.
    - pose proof (line_bound [13] t x y m ltac:(not_in_lit) H10 (or_intror Hy) Hxy) as H.
      rewrite <-Hxy, length_take in H. cbn in *. lia. }
  split.
  - exists rule_blank. split; [done|]. split; [done|]. split; [rewrite length_app; lia|]. rewrite take_full.
    apply (L_seq _ _ [] eol); [constructor|by apply lang_eol].
  - intros j x m Hj [_ Hm].
    assert (Hrej : forall c s, eol = c :: s -> j <> 5%nat -> (j < 6)%nat -> rejects c (r_pat x) = true).
    { intros c s Hc Hj5 Hj6. apply (others_reject_spec 5 c j x); [by destruct He; simplify_eq|done|done|done]. }
    destruct (decide (j = 5%nat)) as [->|Hj5]; [cbn in Hj; simplify_eq; split; [by apply Hb|lia]|].
    destruct (decide (j < 6)%nat) as [Hj6|Hj6].
    + destruct eol as [|c s]; [by destruct He|]. by destruct (rejects_matched c (r_pat x) (s ++ t) m (Hrej c s eq_refl Hj5 Hj6)).
    + assert (j = 6)%nat as -> by (apply lookup_lt_Some in Hj; cbn in Hj; lia). cbn in Hj. simplify_eq.
      destruct Hm as [Hm Hw]. pose proof (avoids_lang 10 (r_pat rule_any) _ eq_refl Hw) as H10.
      enough (m < length eol)%nat by lia. destruct (decide (m < length eol)%nat); [done|exfalso]. apply H10.
      apply list_elem_of_lookup_2 with (length eol - 1)%nat.
      destruct He as [-> | ->]; cbn in *; rewrite lookup_take_lt by lia; done.
Qed.

(** * Statements about robots.txt

    The scanner ends on every file; it reads back the records that a file was
    written from; what a path is allowed by. *)
Section Lexer.
Context {BR : BoostRegex}.

(** ** The scanner makes progress and ends *)

(** One step of the scanner, with enough fuel. *)
Lemma yylex_fuel f1 : forall f2 bol s r, (length s < f1)%nat -> (length s < f2)%nat ->
  yylex_from f1 bol s r = yylex_from f2 bol s r.
Proof.
  induction f1 as [|f1 IH]; intros [|f2] bol s r H1 H2; try lia. cbn [yylex_from]. destruct s as [|c s]; [done|].
  destruct (scan_progress bol c s) as (i & n & -> & Hi & Hn). cbn in H1, H2.
  destruct (action i (take (S n) (c :: s)) r) as [[[stop r']|e]|]; [|done|done]. cbn -[yylex_from]. destruct stop; [done|].
  apply IH; rewrite length_drop; lia.
Qed.

Lemma yylex_cons fuel bol c s r : yylex_from (S fuel) bol (c :: s) r
  = (match scan robots_rules bol (c :: s) with
     | None | Some (_, O) => abort
     | Some (i, n) =>
         x <~ action i (take n (c :: s)) r ;;
         let '(stop, r) := x in
         if stop : bool then val (-1, r)
         else yylex_from fuel (bool_decide (last (take n (c :: s)) = Some 10)) (drop n (c :: s)) r
     end)%res.
Proof. reflexivity. Qed.

Lemma yylex_step i w t r : w <> [] -> last w = Some 10 -> scan robots_rules true (w ++ t) = Some (i, length w) ->
  yylex_from (S (length (w ++ t))) true (w ++ t) r
  = (x <~ action i w r ;; let '(stop, r) := x in if stop : bool then val (-1, r) else yylex_from (S (length t)) true t r)%res.
Proof.
  intros Hw Hlast Hs. destruct (w ++ t) as [|c s] eqn:E; [by apply app_eq_nil in E as [-> _]|].
  rewrite yylex_cons, Hs. destruct (length w) as [|n] eqn:En; [by apply length_zero_iff_nil in En|]. rewrite <-En, <-E, take_full.
  destruct (action i w r) as [[[stop r']|e]|]; [|done|done]. cbn -[yylex_from]. destruct stop; [done|].
  rewrite drop_app_length, Hlast, bool_decide_true by done. apply yylex_fuel; [|lia].
  rewrite length_app. apply (f_equal length) in E. rewrite length_app in E. cbn in E. lia.
Qed.

Lemma span_bytes p s : bytes_ok s -> bytes_ok (fst (span p s)) /\ bytes_ok (snd (span p s)).
Proof. intros H. rewrite <-(span_app p s) in H. by apply bytes_ok_app in H. Qed.

Lemma value_of_bytes k s : bytes_ok s -> bytes_ok (value_of k s).
Proof.
  intros H. unfold value_of, trim, trim_left, before_hash, c_str.
  apply Forall_reverse, span_bytes, Forall_reverse, span_bytes, span_bytes, bytes_ok_zdrop, span_bytes, H.
Qed.

Lemma unescape_not_total s m : bytes_ok s -> exists t, unescape_not s m = Value t /\ bytes_ok t.
Proof.
  intros Hs. unfold unescape_not. destruct (nothing_to_unescape s); [by exists s|].
  destruct (unescape_loop_ok (fun c => Z.land (char_class c) m =? 0) s Hs) as (t & ? & ? & _). eauto.
Qed.

Lemma normal_path_total s : bytes_ok s -> exists t, normal_path s = Value t /\ bytes_ok t.
Proof.
  intros Hs. unfold normal_path. destruct (escape_ok URL_CHAR_PATH s Hs) as (e & -> & _ & He & _).
  by apply unescape_not_total.
Qed.

(** Every action returns; one that stops the scan is taken in [START] and
    adds no record. *)
Lemma action_total i w r : bytes_ok w -> (i < 7)%nat ->
  exists stop r', action i w r = val (stop, r')
    /\ (state r' = START -> uas_rules_all r' = uas_rules_all r /\ state r = START) /\ (stop = true -> state r' = START).
Proof.
  intros Hw Hi. destruct i as [|[|[|[|[|[|[|i]]]]]]]; try lia; cbn -[value_of normal_path].
  - eexists _, _. done.
  - eexists _, _. split; [done|]. done.
  - destruct (normal_path_total (value_of 6 w) (value_of_bytes 6 w Hw)) as (t & Ht & _). unfold act_allow. rewrite Ht. cbn.
    eexists _, _. done.
  - destruct (normal_path_total (value_of 9 w) (value_of_bytes 9 w Hw)) as (t & Ht & _). unfold act_disallow. rewrite Ht. cbn.
    eexists _, _. done.
  - eexists _, _. done.
  - eexists _, _. done.
  - eexists _, _. split; [done|]. split; [done|]. cbn. rewrite andb_true_iff, bool_decide_eq_true. tauto.
Qed.

Lemma yylex_from_total fuel : forall bol s r, (length s < fuel)%nat -> bytes_ok s ->
  exists ret r', yylex_from fuel bol s r = val (ret, r') /\ state r' = START
    /\ ((ret = 0 /\ ua (current r') = []) \/ (ret = -1 /\ state r = START /\ uas_rules_all r' = uas_rules_all r)).
Proof.
  induction fuel as [|fuel IH]; intros bol s r Hf Hs; [lia|]. cbn [yylex_from]. destruct s as [|c s].
  - eexists _, _. split; [done|]. split; [done|]. left. split; [done|].
    unfold Robots_start, eof, push_current, Uas_empty. case_bool_decide; done.
  - destruct (scan_progress bol c s) as (i & n & -> & Hi & Hn).
    destruct (action_total i (take (S n) (c :: s)) r) as (stop & r1 & -> & Hall & Hstop); [by apply bytes_ok_take|done|].
    cbn -[take drop yylex_from]. destruct stop.
    + eexists _, _. split; [done|]. specialize (Hstop eq_refl). split; [done|]. right. split; [done|]. by destruct (Hall Hstop).
    + destruct (IH (bool_decide (last (take (S n) (c :: s)) = Some 10)) (drop (S n) (c :: s)) r1) as (ret & r2 & -> & Hst & Hcase).
      { rewrite length_drop. cbn in *. lia. }
      { by apply bytes_ok_drop. }
      eexists _, _. split; [done|]. split; [done|]. destruct Hcase as [?|(-> & Hst1 & Hr2)]; [by left|right].
      destruct (Hall Hst1). split_and!; [done|done|congruence].
Qed.
End Lexer.

(** The scanner of robots.txt ends on every file: it returns 0 with the
    last record closed, or -1 for a file that looks like HTML, and then no
    record has been taken from it.  The state is [START] again in both
    cases. *)
Theorem yylex_outcome {BR : BoostRegex} input r : bytes_ok input ->
  exists ret r', yylex input r = val (ret, r') /\ state r' = START
    /\ ((ret = 0 /\ ua (current r') = []) \/ (ret = -1 /\ state r = START /\ uas_rules_all r' = uas_rules_all r)).
Proof. intros Hb. apply yylex_from_total; [lia|done]. Qed.

Lemma yylex_outcome_witness : exists r',
  @yylex perl_regex (str "<html><body>") Robots_new = val (-1, r') /\ uas_rules_all r' = [].
Proof.
  destruct (@yylex_outcome perl_regex (str "<html><body>") Robots_new) as (ret & r' & Hy & _ & Hc).
  - by apply (bool_decide_unpack _).
  - exists r'. assert (ret = -1) as -> by (vm_compute in Hy; congruence). split; [exact Hy|]. clear Hy.
    by destruct Hc as [[? _]|(_ & _ & ?)].
Defined.

(** ** Reading back what was written *)
Definition keyword (t : rule_type_t) : list Z :=
  match t with DISALLOW => str "Disallow:" | ALLOW => str "Allow:" | CRAWL_DELAY => str "Crawl-delay:" end.

Definition print_uas (eol : list Z) (us : list (list Z)) : list Z :=
  concat ((fun u => line (str "User-agent:") u eol) <$> us).

Definition print_rules (eol : list Z) (rs : list Rule) : list Z :=
  concat ((fun x => line (keyword (type x)) (rule_str x) eol) <$> rs).

(** A record, closed by an empty line. *)
Definition print_record (eol : list Z) (x : Uas_rules) : list Z :=
  print_uas eol (ua x) ++ print_rules eol (ua_rules x) ++ eol.

Definition print_robots (eol : list Z) (xs : list Uas_rules) : list Z := concat (print_record eol <$> xs).

Definition rule_ok (x : Rule) : Prop :=
  value_ok (rule_str x) /\ (type x = CRAWL_DELAY \/ normal_path (rule_str x) = Value (rule_str x)).

(** Records that a file can hold: with a user agent and a rule. *)
Definition record_ok (x : Uas_rules) : Prop :=
  ua x <> [] /\ ua_rules x <> [] /\ Forall (fun u => value_ok u /\ u <> []) (ua x) /\ Forall rule_ok (ua_rules x).

Section ReadBack.
Context {BR : BoostRegex} (eol : list Z) (Heol : eol_ok eol).

Definition lex (s : list Z) (r : Robots) : res (Z * Robots) := yylex_from (S (length s)) true s r.

Lemma line_facts kw v : line kw v eol <> [] /\ last (line kw v eol) = Some 10.
Proof using Heol.
  unfold line. split; [destruct kw; done|]. rewrite last_app. destruct Heol as [-> | ->]; done.
Qed.

Lemma lex_user_agent u t r : value_ok u -> u <> [] ->
  lex (line (str "User-agent:") u eol ++ t) r = lex t (add_ua u (reading_uas r)).
Proof using Heol.
  intros Hu Hne. unfold lex. destruct (line_facts (str "User-agent:") u) as [Hl Hlast].
  rewrite (yylex_step 1) by (try done; by apply scan_user_agent). cbn -[yylex_from value_of line].
  unfold act_user_agent. by rewrite (value_of_line _ (str "User-agent:") u eol) by (first [done|by repeat constructor]).
Qed.

Lemma lex_rule x t r : rule_ok x ->
  lex (line (keyword (type x)) (rule_str x) eol ++ t) r = lex t (add_rule x (rules r)).
Proof using Heol.
  intros [Hv Hn]. unfold lex. destruct (line_facts (keyword (type x)) (rule_str x)) as [Hl Hlast].
  destruct x as [ty v]. destruct ty; cbn [keyword type rule_str] in *.
  - rewrite (yylex_step 3) by (try done; by eapply scan_rule_line).
    cbn -[yylex_from value_of line normal_path]. unfold act_disallow.
    rewrite (value_of_line _ (str "Disallow:") v eol) by (first [done|by repeat constructor]).
    destruct Hn as [?|Hn]; [done|]. by rewrite Hn.
  - rewrite (yylex_step 2) by (try done; by eapply scan_rule_line).
    cbn -[yylex_from value_of line normal_path]. unfold act_allow.
    rewrite (value_of_line _ (str "Allow:") v eol) by (first [done|by repeat constructor]).
    destruct Hn as [?|Hn]; [done|]. by rewrite Hn.
  - rewrite (yylex_step 4) by (try done; by eapply scan_rule_line).
    cbn -[yylex_from value_of line]. unfold act_delay.
    by rewrite (value_of_line _ (str "Crawl-delay:") v eol) by (first [done|by repeat constructor]).
Qed.

Lemma lex_blank t r : lex (eol ++ t) r = lex t r.
Proof using Heol.
  unfold lex. rewrite (yylex_step 5); [done|by destruct Heol as [-> | ->]..|by apply scan_blank].
Qed.

Lemma lex_uas us : forall t r, Forall (fun u => value_ok u /\ u <> []) us ->
  lex (print_uas eol us ++ t) r = lex t (foldl (fun r u => add_ua u (reading_uas r)) r us).
Proof using Heol.
  induction us as [|u us IH]; intros t r Hus; [done|]. apply Forall_cons in Hus as [[Hu Hne] Hus].
  unfold print_uas in *. cbn -[lex line]. rewrite <-(assoc_L (++)), lex_user_agent by done. by apply IH.
Qed.

Lemma lex_rules rs : forall t r, Forall rule_ok rs ->
  lex (print_rules eol rs ++ t) r = lex t (foldl (fun r x => add_rule x (rules r)) r rs).
Proof using Heol.
  induction rs as [|x rs IH]; intros t r Hrs; [done|]. apply Forall_cons in Hrs as [Hx Hrs].
  unfold print_rules in *. cbn -[lex line]. rewrite <-(assoc_L (++)), lex_rule by done. by apply IH.
Qed.

(** The state after the user agents and the rules of a record. *)
Lemma after_uas us : forall v e c all,
  foldl (fun r u => add_ua u (reading_uas r)) (mk_Robots v e READING_UAS c all) us
  = mk_Robots v e READING_UAS (mk_Uas_rules (ua c ++ us) (ua_rules c)) all.
Proof.
  induction us as [|u us IH]; intros v e c all; cbn [foldl]; [by rewrite app_nil_r; destruct c|].
  etransitivity; [exact (IH v e (mk_Uas_rules (ua c ++ [u]) (ua_rules c)) all)|]. cbn. by rewrite <-(assoc_L (++)).
Qed.

Lemma after_rules rs : forall v e c all,
  foldl (fun r x => add_rule x (rules r)) (mk_Robots v e RULES c all) rs
  = mk_Robots v e RULES (mk_Uas_rules (ua c) (ua_rules c ++ rs)) all.
Proof.
  induction rs as [|x rs IH]; intros v e c all; cbn [foldl]; [by rewrite app_nil_r; destruct c|].
  etransitivity; [exact (IH v e (mk_Uas_rules (ua c) (ua_rules c ++ [x])) all)|]. cbn. by rewrite <-(assoc_L (++)).
Qed.

(** A record after [r], where [r] has no open record or an open record with
    rules. *)
Lemma lex_record x t r : record_ok x -> (state r = START /\ current r = Uas_new) \/ state r = RULES ->
  lex (print_record eol x ++ t) r
  = lex t (mk_Robots (valid r || bool_decide (state r = RULES)) (errors r) RULES x
             (uas_rules_all r ++ if decide (state r = RULES) then [current r] else [])).
Proof using Heol.
  intros (Hu & Hr & Hus & Hrs) Hst. unfold print_record. rewrite <-!(assoc_L (++)), lex_uas, lex_rules, lex_blank by done.
  destruct x as [us rs]. cbn [ua ua_rules] in *. destruct us as [|u us]; [done|]. destruct rs as [|y rs]; [done|].
  f_equal. cbn [foldl]. destruct r as [v e st c all]. cbn [state current] in Hst.
  assert (Hend : forall v' all', foldl (fun r x => add_rule x (rules r))
    (add_rule y (rules (foldl (fun r u => add_ua u (reading_uas r)) (mk_Robots v' e READING_UAS (mk_Uas_rules [u] []) all') us))) rs
    = mk_Robots v' e RULES (mk_Uas_rules (u :: us) (y :: rs)) all').
  { intros v' all'. rewrite after_uas. exact (after_rules rs v' e (mk_Uas_rules (u :: us) [y]) all'). }
  destruct Hst as [[-> ->]|Hst]; [|subst st].
  - etransitivity; [apply Hend|]. cbn. by rewrite orb_false_r, app_nil_r.
  - etransitivity; [apply Hend|]. cbn. by rewrite orb_true_r.
Qed.

Lemma lex_records xs : forall v e x all, Forall record_ok (x :: xs) ->
  lex (print_robots eol xs) (mk_Robots v e RULES x all) = val (0, mk_Robots true e START Uas_new (all ++ x :: xs)).
Proof using Heol.
  induction xs as [|y xs IH]; intros v e x all Hx; apply Forall_cons in Hx as [Hx Hxs].
  - destruct Hx as (Hu & _). unfold print_robots, lex. cbn. unfold Robots_start, eof, Uas_empty, push_current. cbn.
    by rewrite bool_decide_false.
  - pose proof (Forall_inv Hxs) as Hy. unfold print_robots in *. cbn -[lex print_record].
    rewrite lex_record by (try done; by right). cbn -[lex]. rewrite IH by done. by rewrite <-(assoc_L (++)).
Qed.
End ReadBack.

(** C15: Reading back what was written: a robots.txt file made of records, each
    with user agents and rules, with Unix or DOS line ends, is parsed without
    errors into exactly those records, in their order. *)
Theorem yylex_reads_back {BR : BoostRegex} eol xs : eol_ok eol -> Forall record_ok xs ->
  yylex (print_robots eol xs) Robots_new
  = val (0, mk_Robots (negb (bool_decide (xs = []))) [] START Uas_new xs).
Proof.
  intros He Hxs. destruct xs as [|x xs]; [done|]. unfold yylex. fold (lex (print_robots eol (x :: xs)) Robots_new).
  pose proof (Forall_inv Hxs) as Hx. unfold print_robots. cbn -[lex print_record].
  rewrite (lex_record eol He) by (try done; by left). fold (print_robots eol xs). by rewrite (lex_records eol He).
Qed.

Definition sample_record : Uas_rules :=
  mk_Uas_rules [str "*"; str "bot"] [mk_Rule DISALLOW (str "/tmp"); mk_Rule ALLOW (str "/a~b")].

Lemma yylex_reads_back_witness :
  @yylex perl_regex (print_robots [13; 10] [sample_record]) Robots_new
  = val (0, mk_Robots true [] START Uas_new [sample_record]).
Proof.
  apply (@yylex_reads_back perl_regex [13; 10] [sample_record]); [by right|].
  constructor; [|constructor]. split_and!; [done|done| |].
  - repeat constructor; try done; intros c [= <-]; reflexivity.
  - constructor; [|constructor; [|constructor]]; (split; [split|right; reflexivity]); try (by repeat constructor);
      intros c [= <-]; reflexivity.
Defined.

(** ** What a path is allowed by *)

(** The first record that names the user agent or "*". *)
Definition record_for (user_agent : list Z) (x : Uas_rules) : Prop := user_agent ∈ ua x \/ str "*" ∈ ua x.

#[export] Instance record_for_dec user_agent x : Decision (record_for user_agent x).
Proof. unfold record_for. apply _. Defined.

Lemma ask_uas_spec user_agent path rs us :
  ask_uas user_agent path us rs
  = if decide (user_agent ∈ us \/ str "*" ∈ us) then Some (first_rule path rs) else None.
Proof.
  induction us as [|u us IH]; cbn [ask_uas].
  - rewrite decide_False; [done|]. by intros [?%elem_of_nil|?%elem_of_nil].
  - destruct (bool_decide (u = user_agent) || bool_decide (u = str "*")) eqn:E.
    + rewrite decide_True; [done|]. apply orb_true_iff in E as [E|E]; apply bool_decide_eq_true in E as ->; [left|right]; left.
    + apply orb_false_iff in E as [E1 E2]. apply bool_decide_eq_false in E1, E2. rewrite IH.
      apply decide_ext. rewrite !elem_of_cons. split; [tauto|]. by intros [[<-|?]|[<-|?]]; auto.
Qed.

Lemma first_rule_spec path rs :
  first_rule path rs = match list_find (fun x => rule_str x = path) rs with
                       | Some (_, x) => bool_decide (type x = ALLOW)
                       | None => true
                       end.
Proof.
  induction rs as [|x rs IH]; [done|]. cbn. case_bool_decide as E; [by rewrite decide_True|].
  rewrite decide_False by done. rewrite IH. by destruct (list_find _ rs) as [[i y]|].
Qed.

Lemma ask_records_spec user_agent path all :
  ask_records user_agent path all
  = match list_find (record_for user_agent) all with
    | Some (_, x) => first_rule path (ua_rules x)
    | None => true
    end.
Proof.
  induction all as [|x all IH]; [done|]. cbn [ask_records list_find]. rewrite ask_uas_spec.
  unfold record_for in *. destruct (decide _) as [Hd|Hd]; [done|].
  rewrite IH. by destruct (list_find _ all) as [[i y]|].
Qed.

(** [path_allowed] asks the first record that names the user agent or "*",
    and in it the first rule whose text equals the normalised path; the path is
    refused when that rule is not an Allow rule.  Without such a record or rule
    it is allowed. *)
Theorem path_allowed_spec user_agent p r : bytes_ok p -> exists path, normal_path p = Value path
  /\ path_allowed user_agent p r
     = Value (match list_find (record_for user_agent) (uas_rules_all r) with
              | Some (_, x) =>
                  match list_find (fun y => rule_str y = path) (ua_rules x) with
                  | Some (_, y) => bool_decide (type y = ALLOW)
                  | None => true
                  end
              | None => true
              end).
Proof.
  intros Hp. destruct (normal_path_total p Hp) as (path & Hpath & _). exists path. split; [done|].
  unfold path_allowed. rewrite Hpath, ask_records_spec. do 2 f_equal.
  destruct (list_find _ (uas_rules_all r)) as [[i x]|]; [|done]. apply first_rule_spec.
Qed.

Lemma path_allowed_spec_witness :
  let r := mk_Robots true [] START Uas_new [sample_record] in
  path_allowed (str "bot") (str "/tmp") r = Value false /\ path_allowed (str "bot") (str "/x") r = Value true.
Proof.
  split.
  - destruct (path_allowed_spec (str "bot") (str "/tmp") (mk_Robots true [] START Uas_new [sample_record])) as (path & Hp & ->);
      [by apply (bool_decide_unpack _)|]. by vm_compute in Hp |- *; simplify_eq.
  - destruct (path_allowed_spec (str "bot") (str "/x") (mk_Robots true [] START Uas_new [sample_record])) as (path & Hp & ->);
      [by apply (bool_decide_unpack _)|]. by vm_compute in Hp |- *; simplify_eq.
Defined.

(** A rule has no effect on the longer paths that it is a prefix of, which
    the documentation of [path_allowed] says it refuses: a file with the single
    rule "Disallow: d" for all agents allows every path whose normal form is
    longer than [d]. *)
Theorem path_allowed_no_prefix user_agent p d path : normal_path p = Value path -> d <> path -> d `prefix_of` path ->
  path_allowed user_agent p (mk_Robots true [] START Uas_new [mk_Uas_rules [str "*"] [mk_Rule DISALLOW d]]) = Value true.
Proof.
  intros Hp Hne _. unfold path_allowed. rewrite Hp. cbn. rewrite orb_true_r. cbn. by rewrite bool_decide_false.
Qed.

Lemma path_allowed_no_prefix_witness :
  path_allowed (str "bot") (str "/tmp/a.html")
    (mk_Robots true [] START Uas_new [mk_Uas_rules [str "*"] [mk_Rule DISALLOW (str "/tmp")]]) = Value true.
Proof.
  apply (path_allowed_no_prefix (str "bot") (str "/tmp/a.html") (str "/tmp") (str "/tmp/a.html"));
    [reflexivity|done|by exists (str "/a.html")].
Defined.
