(* ===== verification/Classifier.v ===== *)
(** * The URL classifier ([src/crawler/Url_classifier.hh], [Url_classifier.cc])

    URLs wait in [N] queues, one host per queue, and in a priority queue
    [top_q] of URLs that have no queue yet.  A row of the table holds its
    deque through a shared pointer, and a copied row shares the deque: rows
    hold pointers into a store of deques.  The containers of the libraries
    are interfaces with their documented laws: which of two equal hosts a
    priority queue yields first, and which of two rows with equal hosts an
    ordered index finds, is left open. *)

From stdpp Require Import gmap sorting.
From S2P Require Import Prelude Regex Path Url.

Definition Compare_hostname (left right : Url) : bool := str_lt (m_host left) (m_host right).

(** [std::priority_queue<Url, std::deque<Url>, Compare_hostname>]: the items
    it holds, in no particular order; [top] and [pop] are undefined on an
    empty queue. *)
Class PriorityQueue := {
  pq : Type;
  pq_items : pq -> list Url;
  pq_new : pq;
  pq_push : Url -> pq -> pq;
  pq_top : pq -> option Url;
  pq_pop : pq -> option pq;
  pq_new_items : pq_items pq_new = [];
  pq_push_items u q : pq_items (pq_push u q) ≡ₚ u :: pq_items q;
  pq_top_some q : pq_items q <> [] -> exists u, pq_top q = Some u;
  pq_top_max q u : pq_top q = Some u -> Forall (fun v => Compare_hostname u v = false) (pq_items q);
  pq_pop_items q u : pq_top q = Some u -> exists q', pq_pop q = Some q' /\ pq_items q ≡ₚ u :: pq_items q'
}.

(** A row of the table; [e_queue] points to its deque. *)
Record table_elmt_t := mk_elmt { e_host : list Z; e_queue : nat; e_n : Z }.

#[export] Instance table_elmt_eq_dec : EqDecision table_elmt_t.
Proof. solve_decision. Defined.

(** [find] of the index by host, [ordered_non_unique]. *)
Class HostIndex := {
  find_host : list Z -> list table_elmt_t -> option nat;
  find_host_some h t i : find_host h t = Some i -> exists e, t !! i = Some e /\ e_host e = h;
  find_host_none h t : find_host h t = None -> Forall (fun e => e_host e <> h) t
}.

Section Classifier.
Context {PQ : PriorityQueue} {HI : HostIndex} (NDEBUG : bool).

(** The rows in the order of the sequenced index; [deques] is the store,
    [next_deque] the next pointer that [new] returns. *)
Record Url_classifier := mk_classifier {
  top_q : pq;
  table : list table_elmt_t;
  deques : gmap nat (list Url);
  next_deque : nat
}.

Definition set_top_q q c := mk_classifier q (table c) (deques c) (next_deque c).
Definition set_table t c := mk_classifier (top_q c) t (deques c) (next_deque c).
Definition set_deques d c := mk_classifier (top_q c) (table c) d (next_deque c).

(** [table_elmt_t(n)] *)
Definition new_elmt (n : Z) (c : Url_classifier) : table_elmt_t * Url_classifier :=
  (mk_elmt [] (next_deque c) n,
   mk_classifier (top_q c) (table c) (<[next_deque c := []]> (deques c)) (S (next_deque c))).

(** [insert] of the unique index by number: refused when the number is
    there. *)
Definition table_insert (t : table_elmt_t) (tbl : list table_elmt_t) : bool * list table_elmt_t :=
  if existsb (fun e => e_n e =? e_n t) tbl then (false, tbl) else (true, tbl ++ [t]).

(** [replace]: refused when another row has the number. *)
Definition table_replace (i : nat) (t : table_elmt_t) (tbl : list table_elmt_t) : bool * list table_elmt_t :=
  if existsb (fun e => e_n e =? e_n t) (delete i tbl) then (false, tbl) else (true, <[i := t]> tbl).

(** [find] of the index by number. *)
Definition find_n (num : Z) (tbl : list table_elmt_t) : option (nat * table_elmt_t) :=
  list_find (fun e => e_n e = num) tbl.

(** Constructors. *)
Definition Url_classifier_new : Url_classifier := mk_classifier pq_new [] ∅ 0.

Fixpoint insert_rows (k : nat) (i : Z) (c : Url_classifier) : Url_classifier :=
  match k with
  | O => c
  | S k =>
      let '(t, c) := new_elmt i c in
      insert_rows k (i + 1) (set_table (snd (table_insert t (table c))) c)
  end.

Definition Url_classifier_of (N : nat) : Url_classifier := insert_rows N 0 Url_classifier_new.

Definition top_empty (c : Url_classifier) : bool := bool_decide (pq_items (top_q c) = []).

(** [*e.queue]; a dangling pointer is undefined. *)
Definition deref (c : Url_classifier) (e : table_elmt_t) : option (list Url) := deques c !! e_queue e.

Definition push_back (p : nat) (u : Url) (c : Url_classifier) : option Url_classifier :=
  q ← deques c !! p; Some (set_deques (<[p := q ++ [u]]> (deques c)) c).

Fixpoint rows_empty (c : Url_classifier) (rows : list table_elmt_t) : option bool :=
  match rows with
  | [] => Some true
  | e :: r => q ← deref c e; if bool_decide (q = []) then rows_empty c r else Some false
  end.

Definition ret_opt {A} (o : option A) : res A := match o with Some a => val a | None => abort end.

(** [empty()] *)
Definition empty_all (c : Url_classifier) : res bool :=
  if negb (top_empty c) then val false else ret_opt (rows_empty c (table c)).

Definition q_len (num : Z) (c : Url_classifier) : res Z :=
  match find_n num (table c) with
  | Some (_, e) => ret_opt (q ← deref c e; Some (zlen q))
  | None => throw (runtime_error (str "no such num exist"))
  end.

Definition q_len_top (c : Url_classifier) : Z := zlen (pq_items (top_q c)).

Fixpoint rows_size (c : Url_classifier) (rows : list table_elmt_t) (sum : Z) : option Z :=
  match rows with
  | [] => Some sum
  | e :: r => q ← deref c e; rows_size c r (sum + zlen q)
  end.

(** [size()]; the sum is far below the width of [size_t]. *)
Definition size (c : Url_classifier) : res Z :=
  ret_opt (sum ← rows_size c (table c) 0; Some (sum + zlen (pq_items (top_q c)))).

(** [empty(num)] *)
Definition empty_n (num : Z) (c : Url_classifier) : res bool :=
  match find_n num (table c) with
  | Some (_, e) => ret_opt (q ← deref c e; Some (bool_decide (q = [])))
  | None => throw (runtime_error (str "no such num exist"))
  end.

Definition empty_top (c : Url_classifier) : bool := if negb (top_empty c) then false else true.

(** The loop of [push] over the sequenced index: the first row whose queue is
    empty. *)
Fixpoint first_empty (c : Url_classifier) (rows : list table_elmt_t) (j : nat) : option (option (nat * table_elmt_t)) :=
  match rows with
  | [] => Some None
  | e :: r =>
      q ← deref c e;
      if bool_decide (q = []) then Some (Some (j, e)) else first_empty c r (S j)
  end.

Open Scope res_scope.

Definition replace_row (i : nat) (t : table_elmt_t) (c : Url_classifier) : res Url_classifier :=
  let '(ok, tbl) := table_replace i t (table c) in
  assert_ NDEBUG ok ;;; val (set_table tbl c).

Definition push (u : Url) (c : Url_classifier) : res Url_classifier :=
  match find_host (m_host u) (table c) with
  | Some i => ret_opt (e ← table c !! i; push_back (e_queue e) u c)
  | None =>
      o <~ ret_opt (first_empty c (table c) 0) ;;
      match o with
      | Some (j, e) =>
          let t := mk_elmt (m_host u) (e_queue e) (e_n e) in
          c <~ ret_opt (push_back (e_queue t) u c) ;;
          replace_row j t c
      | None => val (set_top_q (pq_push u (top_q c)) c)
      end
  end.

Definition pop (num : Z) (c : Url_classifier) : res Url_classifier :=
  match find_n num (table c) with
  | Some (_, e) =>
      q <~ ret_opt (deref c e) ;;
      if bool_decide (q = []) && top_empty c then throw (runtime_error (str "empty"))
      else if bool_decide (q = []) then throw (runtime_error (str "empty classifying queue"))
      else val (set_deques (<[e_queue e := tail q]> (deques c)) c)
  | None => throw (runtime_error (str "No such queue"))
  end.

(** The loop of [peek]: the URLs of [host] move from [top_q] to the deque
    [p]. *)
Fixpoint classify_host (fuel : nat) (host : list Z) (p : nat) (c : Url_classifier) : option Url_classifier :=
  match fuel with
  | O => None
  | S n =>
      if top_empty c then Some c else
      u ← pq_top (top_q c);
      if bool_decide (m_host u = host) then
        c ← push_back p u c;
        q ← pq_pop (top_q c);
        classify_host n host p (set_top_q q c)
      else Some c
  end.

Definition from_top (t : table_elmt_t) (c : Url_classifier) : option (table_elmt_t * Url_classifier) :=
  u ← pq_top (top_q c);
  let t := mk_elmt (m_host u) (e_queue t) (e_n t) in
  c ← classify_host (S (length (pq_items (top_q c)))) (e_host t) (e_queue t) c;
  Some (t, c).

(** [front()] of the deque of a row. *)
Definition front (t : table_elmt_t) (c : Url_classifier) : res Url :=
  ret_opt (q ← deref c t; head q).

Definition peek (num : Z) (c : Url_classifier) : res (Url * Url_classifier) :=
  match find_n num (table c) with
  | Some (i, e) =>
      q <~ ret_opt (deref c e) ;;
      if bool_decide (q = []) && top_empty c then throw (runtime_error (str "empty"))
      else if bool_decide (q = []) then
        tc <~ ret_opt (from_top e c) ;;
        let '(t, c) := tc in
        c <~ replace_row i t c ;;
        u <~ front t c ;; val (u, c)
      else u <~ front e c ;; val (u, c)
  | None =>
      if negb (top_empty c) then
        let '(t, c) := new_elmt num c in
        tc <~ ret_opt (from_top t c) ;;
        let '(t, c) := tc in
        let '(ok, tbl) := table_insert t (table c) in
        let c := set_table tbl c in
        assert_ NDEBUG ok ;;;
        u <~ front t c ;; val (u, c)
      else throw (runtime_error (str "empty"))
  end.
End Classifier.

(** ** What the classifier holds *)

(** A sequence with one element replaced, as a permutation. *)
Lemma concat_delete {A} (l : list (list A)) i q : l !! i = Some q -> concat l ≡ₚ q ++ concat (delete i l).
Proof.
  intros H. rewrite (delete_Permutation l i q) at 1 by done. done.
Qed.

Lemma delete_insert_same {A} (l : list A) x : forall i, delete i (<[i := x]> l) = delete i l.
Proof. induction l as [|y l IH]; intros [|i]; try done. cbn. f_equal. apply IH. Qed.

Lemma concat_insert {A} (l : list (list A)) i q : (i < length l)%nat ->
  concat (<[i := q]> l) ≡ₚ q ++ concat (delete i l).
Proof.
  intros H. rewrite (concat_delete (<[i := q]> l) i q) by by apply list_lookup_insert_eq.
  by rewrite delete_insert_same.
Qed.

Section Spec.
Context {PQ : PriorityQueue} {HI : HostIndex} (NDEBUG : bool).
Implicit Types (c : Url_classifier) (e : table_elmt_t) (q : list Url).

Definition queues c : list (list Url) := (fun e => default [] (deref c e)) <$> table c.

(** Every URL in the classifier. *)
Definition contents c : list Url := concat (queues c) ++ pq_items (top_q c).

(** The queue with a number. *)
Definition queue (n : Z) c : option (list Url) := ie ← find_n n (table c); deref c ie.2.

(** Rows have distinct numbers and distinct deques, and a queue holds URLs of
    the host of its row only. *)
Record classifier_ok c : Prop := {
  ok_n : NoDup (e_n <$> table c);
  ok_ptr : NoDup (e_queue <$> table c);
  ok_rows : Forall (fun e => exists q, deref c e = Some q /\ Forall (fun u => m_host u = e_host e) q) (table c);
  ok_store : map_Forall (fun p _ => (p < next_deque c)%nat) (deques c)
}.

Lemma row_ok c i e : classifier_ok c -> table c !! i = Some e ->
  exists q, deref c e = Some q /\ Forall (fun u => m_host u = e_host e) q.
Proof. intros H Hi. exact (Forall_lookup_1 _ _ _ _ (ok_rows _ H) Hi). Qed.

Lemma row_unique {B} (f : table_elmt_t -> B) (t : list table_elmt_t) i j x y : NoDup (f <$> t) ->
  t !! i = Some x -> t !! j = Some y -> f x = f y -> i = j.
Proof.
  intros Hnd Hi Hj Hf. apply (NoDup_lookup (f <$> t) i j (f x)); [done| |].
  - by rewrite list_lookup_fmap, Hi.
  - by rewrite list_lookup_fmap, Hj; cbn; rewrite Hf.
Qed.

Lemma find_n_at c i e : classifier_ok c -> table c !! i = Some e -> find_n (e_n e) (table c) = Some (i, e).
Proof.
  intros H Hi. apply list_find_Some. split_and!; [done|done|]. intros j y Hj Hlt Hy.
  enough (i = j) by lia. by apply (row_unique e_n (table c) i j e y); [apply H| | |].
Qed.

Lemma find_n_in (t : list table_elmt_t) n i e : find_n n t = Some (i, e) -> t !! i = Some e /\ e_n e = n.
Proof. intros (? & ? & ?)%list_find_Some. done. Qed.

Lemma queue_at c i e : classifier_ok c -> table c !! i = Some e -> queue (e_n e) c = deref c e.
Proof. intros H Hi. unfold queue. by rewrite (find_n_at c i e). Qed.

Lemma queue_row n q c : queue n c = Some q ->
  exists i e, find_n n (table c) = Some (i, e) /\ table c !! i = Some e /\ e_n e = n /\ deref c e = Some q.
Proof.
  unfold queue. destruct (find_n n (table c)) as [[i e]|] eqn:Hf; [|done]. cbn. intros Hq.
  exists i, e. by destruct (find_n_in _ _ _ _ Hf).
Qed.

(** Row [i] becomes [e'] and its deque [q']: the shape of every change of the
    table. *)
Definition upd (i : nat) (e' : table_elmt_t) q' (top : pq) c : Url_classifier :=
  mk_classifier top (<[i := e']> (table c)) (<[e_queue e' := q']> (deques c)) (next_deque c).

Section Update.
Context (c : Url_classifier) (i : nat) (e e' : table_elmt_t) (q q' : list Url) (top : pq).
Hypotheses (Hok : classifier_ok c) (Hi : table c !! i = Some e) (Hp : e_queue e' = e_queue e)
  (Hn : e_n e' = e_n e) (Hq : deref c e = Some q).

Lemma deref_other j x : table c !! j = Some x -> j <> i -> deref (upd i e' q' top c) x = deref c x.
Proof using Hok Hi Hp.
  intros Hj Hne. unfold deref. cbn. apply lookup_insert_ne. rewrite Hp. intros Heq.
  apply Hne. by apply (row_unique e_queue (table c) j i x e); [apply Hok| | |].
Qed.

Lemma deref_upd : deref (upd i e' q' top c) e' = Some q'.
Proof using. unfold deref. cbn. apply lookup_insert_eq. Qed.

Lemma fmap_upd {B} (f : table_elmt_t -> B) : f e' = f e -> f <$> <[i := e']> (table c) = f <$> table c.
Proof using Hi. intros Hf. rewrite list_fmap_insert, Hf. apply list_insert_id. by rewrite list_lookup_fmap, Hi. Qed.

Lemma upd_ok : Forall (fun u => m_host u = e_host e') q' -> classifier_ok (upd i e' q' top c).
Proof using Hok Hi Hp Hn Hq.
  intros Hh. split; cbn.
  - rewrite fmap_upd by done. apply Hok.
  - rewrite fmap_upd by done. apply Hok.
  - apply Forall_lookup_2. intros j x [(<- & <- & ?)|[Hne Hj]]%list_lookup_insert_Some.
    + exists q'. split; [apply deref_upd|done].
    + rewrite (deref_other j x) by done. exact (row_ok c j x Hok Hj).
  - apply map_Forall_insert_2; [|apply Hok]. rewrite Hp. exact (ok_store _ Hok _ _ Hq).
Qed.

Lemma queues_upd : queues (upd i e' q' top c) = <[i := q']> (queues c).
Proof using Hok Hi Hp.
  apply list_eq. intros j. unfold queues at 1. cbn. rewrite list_lookup_fmap.
  pose proof (lookup_lt_Some _ _ _ Hi) as Hlt.
  destruct (decide (j = i)) as [->|Hne].
  - rewrite !list_lookup_insert_eq by (unfold queues; rewrite ?length_fmap; done). cbn. by rewrite deref_upd.
  - rewrite !list_lookup_insert_ne by done. unfold queues. rewrite list_lookup_fmap.
    destruct (table c !! j) as [x|] eqn:Hj; [|done]. cbn. by rewrite (deref_other j x).
Qed.

Lemma contents_upd l : q' ++ pq_items top ≡ₚ l ++ q ++ pq_items (top_q c) ->
  contents (upd i e' q' top c) ≡ₚ l ++ contents c.
Proof using Hok Hi Hp Hq.
  intros Hl. unfold contents. rewrite queues_upd. cbn [top_q upd].
  assert (Hi' : queues c !! i = Some q) by (unfold queues; by rewrite list_lookup_fmap, Hi; cbn; rewrite Hq).
  rewrite concat_insert by (by eapply lookup_lt_Some).
  rewrite (concat_delete (queues c) i q) by done.
  rewrite (Permutation_app_comm q'), (Permutation_app_comm q), <-!(assoc_L (++)), Hl.
  apply Permutation_app_swap_app.
Qed.

Lemma queue_upd n : queue n (upd i e' q' top c) = if decide (n = e_n e) then Some q' else queue n c.
Proof using Hok Hi Hp Hn.
  assert (Hok' : NoDup (e_n <$> <[i := e']> (table c))) by (rewrite fmap_upd by done; apply Hok).
  case_decide as Hne.
  - subst n. rewrite <-Hn. unfold queue.
    assert (find_n (e_n e') (table (upd i e' q' top c)) = Some (i, e')) as ->; [|apply deref_upd].
    apply list_find_Some. cbn.
    rewrite list_lookup_insert_eq by (by eapply lookup_lt_Some). split_and!; [done|done|].
    intros j y Hj Hlt Hy. rewrite list_lookup_insert_ne in Hj by lia.
    enough (i = j) by lia. apply (row_unique e_n (table c) i j e y); [apply Hok|done|done|congruence].
  - unfold queue. destruct (find_n n (table c)) as [[j x]|] eqn:Hf.
    + apply list_find_Some in Hf as (Hj & Hx & Hfirst).
      assert (j <> i) by (intros ->; simplify_eq).
      assert (find_n n (table (upd i e' q' top c)) = Some (j, x)) as ->.
      { apply list_find_Some. cbn. rewrite list_lookup_insert_ne by done. split_and!; [done|done|].
        intros k y [(-> & -> & ?)|[? Hk]]%list_lookup_insert_Some Hlt; [congruence|eauto]. }
      cbn. by apply (deref_other j).
    + assert (find_n n (table (upd i e' q' top c)) = None) as ->; [|done].
      apply list_find_None in Hf. apply list_find_None. cbn. apply Forall_insert; [done|congruence].
Qed.
End Update.

(** ** The operations *)

Lemma ret_opt_some {A} (o : option A) a : o = Some a -> ret_opt o = val a.
Proof. by intros ->. Qed.

(** A change of one deque is an update of its row by itself. *)
Lemma set_deques_upd c i e q : table c !! i = Some e ->
  set_deques (<[e_queue e := q]> (deques c)) c = upd i e q (top_q c) c.
Proof. intros Hi. unfold set_deques, upd. by rewrite list_insert_id. Qed.

Lemma replace_row_ok c i e t q top : classifier_ok c -> table c !! i = Some e -> e_queue t = e_queue e -> e_n t = e_n e ->
  replace_row NDEBUG i t (mk_classifier top (table c) (<[e_queue e := q]> (deques c)) (next_deque c))
  = val (upd i t q top c).
Proof.
  intros Hok Hi Hp Hn. unfold replace_row, table_replace. cbn [table].
  assert (existsb (fun e0 => e_n e0 =? e_n t) (delete i (table c)) = false) as ->.
  { apply not_true_is_false. intros (x & Hx & Heq)%existsb_exists. apply Z.eqb_eq in Heq.
    apply list_elem_of_In, list_elem_of_lookup in Hx as [j Hj].
    destruct (decide (j < i)%nat) as [Hlt|Hge].
    - rewrite list_lookup_delete_lt in Hj by done.
      enough (i = j) by lia. apply (row_unique e_n (table c) i j e x); [apply Hok|done|done|congruence].
    - rewrite list_lookup_delete_ge in Hj by lia.
      enough (i = S j) by lia. apply (row_unique e_n (table c) i (S j) e x); [apply Hok|done|done|congruence]. }
  unfold assert_. rewrite orb_true_r. cbn. unfold upd, set_table. cbn. by rewrite Hp.
Qed.

Lemma first_empty_ok c rows : forall j, Forall (fun e => exists q, deref c e = Some q /\ Forall (fun u => m_host u = e_host e) q) rows ->
  (first_empty c rows j = Some None /\ Forall (fun e => deref c e <> Some []) rows)
  \/ exists k e, rows !! k = Some e /\ deref c e = Some [] /\ first_empty c rows j = Some (Some ((j + k)%nat, e)).
Proof.
  induction rows as [|e rows IH]; intros j Hr; [by left|].
  apply Forall_cons in Hr as [(q & Hq & _) Hr]. cbn. rewrite Hq. cbn.
  case_bool_decide as Hnil.
  - right. exists 0%nat, e. rewrite Nat.add_0_r. by subst q.
  - destruct (IH (S j) Hr) as [[-> Hne]|(k & x & ? & ? & ->)].
    + left. split; [done|]. constructor; [|done]. rewrite Hq. congruence.
    + right. exists (S k), x. by rewrite Nat.add_succ_comm.
Qed.

Lemma push_back_ok c i e q u : table c !! i = Some e -> deref c e = Some q ->
  push_back (e_queue e) u c = Some (upd i e (q ++ [u]) (top_q c) c).
Proof.
  intros Hi Hq. unfold push_back. unfold deref in Hq. rewrite Hq. cbn. f_equal. by apply set_deques_upd.
Qed.

(** The queues of [c'] are those of [c], with [u] appended to one at most. *)
Definition appended (u : Url) c c' : Prop := forall n,
  queue n c' = queue n c \/ exists q, queue n c = Some q /\ queue n c' = Some (q ++ [u]).

Lemma push_ok u c : classifier_ok c ->
  exists c', push NDEBUG u c = val c' /\ classifier_ok c' /\ contents c' ≡ₚ u :: contents c /\ appended u c c'.
Proof.
  intros Hok. unfold push.
  destruct (find_host (m_host u) (table c)) as [i|] eqn:Hf.
  - apply find_host_some in Hf as (e & Hi & Hh). destruct (row_ok c i e Hok Hi) as (q & Hq & Hqs).
    exists (upd i e (q ++ [u]) (top_q c) c). rewrite Hi. cbn. rewrite (push_back_ok c i e q) by done.
    split_and!; [done| | |].
    + apply (upd_ok c i e e q); try done. apply Forall_app; split; [done|by repeat constructor].
    + apply (contents_upd c i e e q _ _ Hok Hi eq_refl Hq [u]). rewrite <-(assoc_L (++)). apply Permutation_app_swap_app.
    + intros n. rewrite (queue_upd c i e e) by done. case_decide; [|by left]. subst n. right. exists q.
      by rewrite (queue_at c i e).
  - destruct (first_empty_ok c (table c) 0 (ok_rows c Hok)) as [[-> _]|(j & e & Hj & Hq & ->)]; cbn.
    + eexists. split_and!; [done| | |intros n; by left].
      * destruct Hok. by split.
      * unfold contents. cbn [top_q set_top_q]. rewrite pq_push_items. symmetry. apply Permutation_middle.
    + rewrite (push_back_ok c j e [] u) by done. cbn.
      change (upd j e [u] (top_q c) c) with
        (mk_classifier (top_q c) (<[j := e]> (table c)) (<[e_queue e := [u]]> (deques c)) (next_deque c)).
      rewrite list_insert_id by done.
      set (t := mk_elmt (m_host u) (e_queue e) (e_n e)).
      rewrite (replace_row_ok c j e t [u]) by done.
      eexists. split_and!; [done| | |].
      * apply (upd_ok c j e t []); try done. by repeat constructor.
      * by apply (contents_upd c j e t [] _ _ Hok Hj eq_refl Hq [u]).
      * intros n. rewrite (queue_upd c j e t) by done. case_decide; [|by left]. subst n. right. exists [].
        by rewrite (queue_at c j e).
Qed.

Lemma pop_ok n u q c : classifier_ok c -> queue n c = Some (u :: q) ->
  exists c', pop n c = val c' /\ classifier_ok c' /\ contents c ≡ₚ u :: contents c'
    /\ forall m, queue m c' = if decide (m = n) then Some q else queue m c.
Proof.
  intros Hok (i & e & Hf & Hi & <- & Hq)%queue_row. unfold pop. rewrite Hf, Hq. cbn. rewrite set_deques_upd with (i := i) by done.
  destruct (row_ok c i e Hok Hi) as (? & ? & Hqs). simplify_eq.
  apply Forall_cons in Hqs as [Hu Hqs]. eexists. split_and!; [done| | |].
  - by apply (upd_ok c i e e (u :: q)).
  - assert (Hup : upd i e (u :: q) (top_q c) c = c).
    { destruct c. unfold upd. cbn in *. rewrite list_insert_id by done. by rewrite insert_id. }
    rewrite <-Hup at 1.
    pose proof (upd_ok c i e e (u :: q) q (top_q c) Hok Hi eq_refl eq_refl Hq Hqs) as Hok'.
    assert (upd i e (u :: q) (top_q c) c = upd i e (u :: q) (top_q c) (upd i e q (top_q c) c)) as ->.
    { unfold upd. cbn. by rewrite list_insert_insert_eq, insert_insert_eq. }
    apply (contents_upd (upd i e q (top_q c) c) i e e q _ _ Hok'
             ltac:(cbn; apply list_lookup_insert_eq; by eapply lookup_lt_Some) eq_refl
             ltac:(unfold deref; cbn; apply lookup_insert_eq) [u]). done.
  - intros m. by apply (queue_upd c i e e).
Qed.

(** The loop of [peek] moves every URL of the host with the greatest name. *)
Lemma classify_host_ok h p : forall fuel c q, (length (pq_items (top_q c)) < fuel)%nat -> deques c !! p = Some q ->
  exists moved top, classify_host fuel h p c
      = Some (mk_classifier top (table c) (<[p := q ++ moved]> (deques c)) (next_deque c))
    /\ pq_items (top_q c) ≡ₚ moved ++ pq_items top /\ Forall (fun u => m_host u = h) moved
    /\ (forall u, pq_top (top_q c) = Some u -> m_host u = h -> moved <> [])
    /\ (forall u, pq_top top = Some u -> m_host u <> h).
Proof.
  induction fuel as [|fuel IH]; intros c q Hf Hp; [lia|]. cbn. unfold top_empty.
  assert (Hstay : (forall u, pq_top (top_q c) = Some u -> m_host u <> h) -> exists moved top,
    Some c = Some (mk_classifier top (table c) (<[p := q ++ moved]> (deques c)) (next_deque c))
    /\ pq_items (top_q c) ≡ₚ moved ++ pq_items top /\ Forall (fun u => m_host u = h) moved
    /\ (forall u, pq_top (top_q c) = Some u -> m_host u = h -> moved <> [])
    /\ (forall u, pq_top top = Some u -> m_host u <> h)).
  { intros Hne. exists [], (top_q c). rewrite app_nil_r, insert_id by done.
    split_and!; [by destruct c|done|constructor| |done]. intros u H1 H2. by destruct (Hne u). }
  case_bool_decide as Hnil.
  { apply Hstay. intros u (q' & _ & Hq')%pq_pop_items. rewrite Hnil in Hq'. by apply Permutation_nil_cons in Hq'. }
  destruct (pq_top_some _ Hnil) as [u Hu]. rewrite Hu in Hstay |- *. cbn.
  case_bool_decide as Hh; [|apply Hstay; congruence].
  destruct (pq_pop_items _ _ Hu) as (q' & Hq' & Hitems).
  unfold push_back. rewrite Hp. cbn. rewrite Hq'. cbn.
  destruct (IH (set_top_q q' (set_deques (<[p := q ++ [u]]> (deques c)) c)) (q ++ [u])) as (moved & top & -> & Hm & Hms & _ & Htop).
  { cbn. apply Permutation_length in Hitems. cbn in Hitems. lia. }
  { cbn. apply lookup_insert_eq. }
  cbn in *. exists (u :: moved), top. rewrite insert_insert_eq, <-(assoc_L (++)).
  split_and!; [done| |by constructor|done|done].
  rewrite Hitems, Hm. done.
Qed.

Lemma top_max_gone h u (top : pq) : pq_top top = Some u -> m_host u <> h ->
  Forall (fun v => str_lt h (m_host v) = false) (pq_items top) -> Forall (fun v => m_host v <> h) (pq_items top).
Proof.
  intros Ht Hne Hall. pose proof (pq_top_max _ _ Ht) as Hmax. destruct (pq_pop_items _ _ Ht) as (? & _ & Hitems).
  rewrite Forall_forall in *. intros v Hv Heq. apply Hne. subst h.
  apply str_lt_antisym; [apply (Hmax v Hv)|]. apply (Hall u). rewrite Hitems. left.
Qed.

Lemma top_nonempty c u : pq_top (top_q c) = Some u -> top_empty c = false.
Proof.
  intros (? & _ & Hp)%pq_pop_items. unfold top_empty. rewrite bool_decide_false; [done|].
  intros Hn. rewrite Hn in Hp. by apply Permutation_nil_cons in Hp.
Qed.

(** What [from_top] brings to an empty deque. *)
Lemma from_top_ok t c : deref c t = Some [] -> top_empty c = false ->
  exists u q top, let t' := mk_elmt (m_host u) (e_queue t) (e_n t) in
    from_top t c = Some (t', mk_classifier top (table c) (<[e_queue t := u :: q]> (deques c)) (next_deque c))
    /\ pq_items (top_q c) ≡ₚ u :: q ++ pq_items top /\ Forall (fun v => m_host v = m_host u) (u :: q)
    /\ Forall (fun v => m_host v <> m_host u) (pq_items top).
Proof.
  intros Hd Ht. unfold top_empty in Ht. apply bool_decide_eq_false in Ht.
  destruct (pq_top_some _ Ht) as [w Hw]. unfold from_top. rewrite Hw. cbn -[classify_host].
  destruct (classify_host_ok (m_host w) (e_queue t) (S (length (pq_items (top_q c)))) c [])
    as (moved & top & -> & Hm & Hms & Hne & Htop); [lia|done|].
  destruct moved as [|u q]; [by destruct (Hne w)|]. apply Forall_cons in Hms as [Hu Hms]. cbn.
  exists u, q, top. rewrite Hu. split_and!; [done|done|by constructor|].
  destruct (decide (pq_items top = [])) as [->|Hitems]; [constructor|].
  destruct (pq_top_some _ Hitems) as [v Hv]. apply (top_max_gone _ v); [done|by apply Htop|].
  pose proof (pq_top_max _ _ Hw) as Hall. rewrite Hm in Hall.
  by apply Forall_cons in Hall as [_ [_ ?]%Forall_app].
Qed.

Lemma peek_front n u q c : classifier_ok c -> queue n c = Some (u :: q) -> peek NDEBUG n c = val (u, c).
Proof.
  intros Hok (i & e & Hf & Hi & <- & Hq)%queue_row. unfold peek. rewrite Hf, Hq. cbn.
  unfold front. by rewrite Hq.
Qed.

Lemma peek_empty n c : classifier_ok c -> queue n c = Some [] \/ queue n c = None -> top_empty c = true ->
  peek NDEBUG n c = throw (runtime_error (str "empty")).
Proof.
  intros Hok Hq Ht. unfold peek. destruct (find_n n (table c)) as [[i e]|] eqn:Hf; [|by rewrite Ht].
  apply find_n_in in Hf as [Hi <-]. rewrite (queue_at c i e) in Hq by done.
  destruct (row_ok c i e Hok Hi) as (q & Hq' & _). destruct Hq as [Hq|Hq]; simplify_eq.
  rewrite Hq. cbn. by rewrite Ht.
Qed.

(** A new row at the end, with a new deque. *)
Definition add_row (t : table_elmt_t) q (top : pq) c : Url_classifier :=
  mk_classifier top (table c ++ [t]) (<[e_queue t := q]> (deques c)) (S (next_deque c)).

Section AddRow.
Context (c : Url_classifier) (t : table_elmt_t) (q : list Url) (top : pq).
Hypotheses (Hok : classifier_ok c) (Hp : e_queue t = next_deque c) (Hn : find_n (e_n t) (table c) = None).

Lemma store_fresh p x : deques c !! p = Some x -> p <> e_queue t.
Proof using Hok Hp. intros H%(ok_store c Hok). cbn in H. lia. Qed.

Lemma deref_add j x : table c !! j = Some x -> deref (add_row t q top c) x = deref c x.
Proof using Hok Hp.
  intros Hj. destruct (row_ok c j x Hok Hj) as (qx & Hqx & _). unfold deref. cbn.
  apply lookup_insert_ne. intros Heq. by apply (store_fresh _ _ Hqx).
Qed.

Lemma deref_added : deref (add_row t q top c) t = Some q.
Proof using. unfold deref. cbn. apply lookup_insert_eq. Qed.

Lemma add_row_ok : Forall (fun u => m_host u = e_host t) q -> classifier_ok (add_row t q top c).
Proof using Hok Hp Hn.
  intros Hh. split; cbn.
  - rewrite fmap_app. apply NoDup_app. split_and!; [apply Hok| |apply NoDup_singleton].
    intros n (e & -> & He)%list_elem_of_fmap Hin%list_elem_of_singleton.
    apply list_find_None in Hn. rewrite Forall_forall in Hn. by apply (Hn e).
  - rewrite fmap_app. apply NoDup_app. split_and!; [apply Hok| |apply NoDup_singleton].
    intros p (e & -> & [j Hj]%list_elem_of_lookup)%list_elem_of_fmap Hin%list_elem_of_singleton.
    destruct (row_ok c j e Hok Hj) as (qx & Hqx & _). by apply (store_fresh _ _ Hqx).
  - apply Forall_app. split; [|repeat constructor; exists q; by rewrite deref_added].
    apply Forall_lookup_2. intros j x Hj. rewrite (deref_add j) by done. by apply (row_ok c j).
  - apply map_Forall_insert_2; [lia|]. eapply map_Forall_impl; [apply Hok|]. cbn. lia.
Qed.

Lemma contents_add l : q ++ pq_items top ≡ₚ l ++ pq_items (top_q c) ->
  contents (add_row t q top c) ≡ₚ l ++ contents c.
Proof using Hok Hp.
  intros Hl. unfold contents, queues. cbn -[deref]. rewrite fmap_app, concat_app. cbn -[deref].
  rewrite deref_added. cbn -[deref]. rewrite app_nil_r, <-(assoc_L (++)), Hl, Permutation_app_swap_app.
  do 2 f_equiv. erewrite list_fmap_ext; [done|]. intros j x Hj. cbn. by rewrite (deref_add j).
Qed.

Lemma queue_add n : queue n (add_row t q top c) = if decide (n = e_n t) then Some q else queue n c.
Proof using Hok Hp Hn.
  unfold queue, find_n in *. cbn -[deref]. case_decide as He.
  - subst n. rewrite (list_find_app_r _ _ _ Hn). cbn -[deref]. rewrite decide_True by done. apply deref_added.
  - destruct (list_find (fun e => e_n e = n) (table c)) as [[j x]|] eqn:Hf.
    + rewrite (list_find_app_l _ _ _ _ _ Hf). apply list_find_Some in Hf as (Hj & _). by apply (deref_add j).
    + rewrite (list_find_app_r _ _ _ Hf). cbn -[deref]. by rewrite decide_False by congruence.
Qed.
End AddRow.

Lemma queue_None n c : classifier_ok c -> queue n c = None -> find_n n (table c) = None.
Proof.
  intros Hok. unfold queue. destruct (find_n n (table c)) as [[i e]|] eqn:Hf; [|done].
  apply find_n_in in Hf as [Hi _]. destruct (row_ok c i e Hok Hi) as (q & Hq & _). cbn. congruence.
Qed.

Lemma no_row n (t : list table_elmt_t) : find_n n t = None -> existsb (fun e => e_n e =? n) t = false.
Proof.
  intros Hf%list_find_None. apply not_true_is_false. intros (x & Hx%list_elem_of_In & Heq%Z.eqb_eq)%existsb_exists.
  rewrite Forall_forall in Hf. by apply (Hf x).
Qed.

Lemma peek_moves n c : classifier_ok c -> queue n c = Some [] \/ queue n c = None -> top_empty c = false ->
  exists u q c', peek NDEBUG n c = val (u, c') /\ classifier_ok c' /\ contents c' ≡ₚ contents c
    /\ (forall m, queue m c' = if decide (m = n) then Some (u :: q) else queue m c)
    /\ Forall (fun v => m_host v = m_host u) (u :: q) /\ Forall (fun v => m_host v <> m_host u) (pq_items (top_q c')).
Proof.
  intros Hok [Hq|Hq] Ht.
  - apply queue_row in Hq as (i & e & Hf & Hi & <- & Hq).
    destruct (from_top_ok e c Hq Ht) as (u & q & top & Hfrom & Hitems & Hh & Hgone).
    unfold peek. rewrite Hf, Hq. cbn. rewrite Ht. cbn. rewrite Hfrom. cbn.
    set (t := mk_elmt (m_host u) (e_queue e) (e_n e)). rewrite (replace_row_ok c i e t) by done. cbn.
    exists u, q, (upd i t (u :: q) top c). unfold front. rewrite (deref_upd c i t). cbn. split_and!; [done| | | |done|done].
    + by apply (upd_ok c i e t []).
    + apply (contents_upd c i e t [] _ _ Hok Hi eq_refl Hq []). cbn. by rewrite Hitems.
    + intros m. by apply (queue_upd c i e t).
  - apply queue_None in Hq; [|done].
    set (t0 := mk_elmt [] (next_deque c) n).
    set (c0 := mk_classifier (top_q c) (table c) (<[next_deque c := []]> (deques c)) (S (next_deque c))).
    destruct (from_top_ok t0 c0) as (u & q & top & Hfrom & Hitems & Hh & Hgone); [by apply lookup_insert_eq|done|].
    set (t := mk_elmt (m_host u) (next_deque c) n).
    unfold peek. rewrite Hq, Ht. cbn -[from_top]. fold t0 c0. rewrite Hfrom. unfold table_insert. cbn.
    rewrite no_row by done. unfold assert_. rewrite orb_true_r. cbn. fold t. rewrite insert_insert_eq.
    exists u, q, (add_row t (u :: q) top c). unfold front, deref. cbn. rewrite lookup_insert_eq. cbn. split_and!; [done| | | |done|done].
    + by apply add_row_ok.
    + apply (contents_add c t (u :: q) top Hok eq_refl []). cbn in Hitems |- *. by rewrite Hitems.
    + intros m. by apply (queue_add c t).
Qed.

(** ** Counting *)

Lemma rows_size_ok c rows : forall sum, Forall (fun e => exists q, deref c e = Some q /\ Forall (fun u => m_host u = e_host e) q) rows ->
  rows_size c rows sum = Some (sum + zlen (concat ((fun e => default [] (deref c e)) <$> rows))).
Proof.
  induction rows as [|e rows IH]; intros sum Hr; cbn -[deref]; [by rewrite Z.add_0_r|].
  apply Forall_cons in Hr as [(q & Hq & _) Hr]. rewrite Hq. cbn -[deref]. rewrite (IH _ Hr), zlen_app. f_equal. lia.
Qed.

Lemma size_ok c : classifier_ok c -> size c = val (zlen (contents c)).
Proof.
  intros Hok. unfold size. rewrite (rows_size_ok c (table c) 0 (ok_rows c Hok)). cbn -[deref].
  unfold contents, queues. by rewrite zlen_app.
Qed.

Lemma rows_empty_ok c rows : Forall (fun e => exists q, deref c e = Some q /\ Forall (fun u => m_host u = e_host e) q) rows ->
  rows_empty c rows = Some (bool_decide (concat ((fun e => default [] (deref c e)) <$> rows) = [])).
Proof.
  induction rows as [|e rows IH]; intros Hr; [done|].
  apply Forall_cons in Hr as [(q & Hq & _) Hr]. cbn -[deref]. rewrite Hq. cbn -[deref]. rewrite (IH Hr).
  by destruct q.
Qed.

Lemma empty_all_ok c : classifier_ok c -> empty_all c = val (bool_decide (contents c = [])).
Proof.
  intros Hok. unfold empty_all, top_empty, contents. case_bool_decide as Ht; cbn -[deref].
  - rewrite Ht, app_nil_r, (rows_empty_ok c (table c) (ok_rows c Hok)). done.
  - rewrite bool_decide_false; [done|]. by intros [_ ?]%app_eq_nil.
Qed.

Lemma queue_None_iff n c : classifier_ok c -> queue n c = None <-> find_n n (table c) = None.
Proof. intros Hok. split; [by apply queue_None|]. unfold queue. by intros ->. Qed.

Lemma empty_n_ok n c : classifier_ok c ->
  empty_n n c = match queue n c with
                | Some q => val (bool_decide (q = []))
                | None => throw (runtime_error (str "no such num exist"))
                end.
Proof.
  intros Hok. destruct (queue n c) as [q|] eqn:Hq.
  - apply queue_row in Hq as (i & e & Hf & _ & _ & Hq). unfold empty_n. by rewrite Hf, Hq.
  - unfold empty_n. by rewrite (queue_None n c).
Qed.

Lemma q_len_ok n c : classifier_ok c ->
  q_len n c = match queue n c with
              | Some q => val (zlen q)
              | None => throw (runtime_error (str "no such num exist"))
              end.
Proof.
  intros Hok. destruct (queue n c) as [q|] eqn:Hq.
  - apply queue_row in Hq as (i & e & Hf & _ & _ & Hq). unfold q_len. by rewrite Hf, Hq.
  - unfold q_len. by rewrite (queue_None n c).
Qed.

Lemma pop_error n c : classifier_ok c -> (forall u q, queue n c <> Some (u :: q)) ->
  pop n c = throw (runtime_error (match queue n c with
    | None => str "No such queue"
    | _ => if top_empty c then str "empty" else str "empty classifying queue"
    end)).
Proof.
  intros Hok Hne. destruct (queue n c) as [[|u q]|] eqn:Hq; [|by destruct (Hne u q)|].
  - apply queue_row in Hq as (i & e & Hf & _ & _ & Hq). unfold pop. rewrite Hf, Hq. cbn. by destruct (top_empty c).
  - unfold pop. by rewrite (queue_None n c).
Qed.

(** ** The constructor *)
Lemma insert_rows_ok k : forall i c, classifier_ok c -> (forall m, i <= m -> queue m c = None) ->
  let c' := insert_rows k i c in
  classifier_ok c' /\ contents c' ≡ₚ contents c /\ top_q c' = top_q c
  /\ forall m, queue m c' = if decide (i <= m < i + Z.of_nat k) then Some [] else queue m c.
Proof.
  induction k as [|k IH]; intros i c Hok Hnone.
  { cbn -[queue]. split_and!; [done|done|done|]. intros m. by rewrite decide_False by lia. }
  pose proof (queue_None i c Hok (Hnone i ltac:(lia))) as Hf.
  assert (Heq : insert_rows (S k) i c = insert_rows k (i + 1) (add_row (mk_elmt [] (next_deque c) i) [] (top_q c) c)).
  { cbn. f_equal. unfold set_table, table_insert, add_row. cbn.
    by rewrite no_row. }
  rewrite Heq. cbv zeta. set (t := mk_elmt [] (next_deque c) i). set (c1 := add_row t [] (top_q c) c).
  assert (Hq1 : forall m, queue m c1 = if decide (m = i) then Some [] else queue m c) by (intros m; by apply (queue_add c t)).
  destruct (IH (i + 1) c1) as (H1 & H2 & H3 & H4).
  - apply add_row_ok; [done|done|done|constructor].
  - intros m Hm. rewrite Hq1, decide_False by lia. apply Hnone. lia.
  - split_and!; [done| |done|].
    + rewrite H2. by apply (contents_add c t [] (top_q c) Hok eq_refl []).
    + intros m. rewrite H4, Hq1. repeat case_decide; try done; lia.
Qed.

Lemma Url_classifier_of_ok N : let c := Url_classifier_of N in
  classifier_ok c /\ contents c = [] /\ forall n, queue n c = if decide (0 <= n < Z.of_nat N) then Some [] else None.
Proof.
  destruct (insert_rows_ok N 0 Url_classifier_new) as (H1 & H2 & H3 & H4); [|done|].
  - split; cbn; [constructor|constructor|constructor|apply map_Forall_empty].
  - cbv zeta. split_and!; [done| |exact H4].
    apply Permutation_nil_r. unfold Url_classifier_of. rewrite H2. unfold contents. cbn. by rewrite pq_new_items.
Qed.
End Spec.

(** * Statements about the URL classifier

    Sessions of calls conserve URLs, what [peek] and [pop] do on every branch,
    and a session after which two queues serve the same host. *)
(** ** Sessions *)

(** A call of the classifier. *)
Inductive call := Push (u : Url) | Peek (n : Z) | Pop (n : Z).

Definition pushed (o : call) : list Url := match o with Push u => [u] | _ => [] end.

Section Session.
Context {PQ : PriorityQueue} {HI : HostIndex} (NDEBUG : bool).

(** The state after a call whose caller catches exceptions. *)
Definition after {A} (c : Url_classifier) (f : A -> Url_classifier) (m : res A) : option Url_classifier :=
  match m with
  | Some (Value a) => Some (f a)
  | Some (Throw _) => Some c
  | None => None
  end.

(** One call: the URLs it takes out, and the new state. *)
Definition exec (o : call) (c : Url_classifier) : option (list Url * Url_classifier) :=
  match o with
  | Push u => c' ← after c id (push NDEBUG u c); Some ([], c')
  | Peek n => c' ← after c snd (peek NDEBUG n c); Some ([], c')
  | Pop n =>
      c' ← after c id (pop n c);
      Some (match queue n c with Some (u :: _) => [u] | _ => [] end, c')
  end.

Fixpoint run (os : list call) (c : Url_classifier) : option (list Url * Url_classifier) :=
  match os with
  | [] => Some ([], c)
  | o :: os =>
      '(taken, c) ← exec o c;
      '(taken', c) ← run os c;
      Some (taken ++ taken', c)
  end.

Lemma exec_ok o c : classifier_ok c ->
  exists taken c', exec o c = Some (taken, c') /\ classifier_ok c' /\ pushed o ++ contents c ≡ₚ taken ++ contents c'.
Proof.
  intros Hok. destruct o as [u|n|n]; cbn -[queue].
  - destruct (push_ok NDEBUG u c Hok) as (c' & -> & Hok' & Hc & _). exists [], c'. by rewrite Hc.
  - destruct (queue n c) as [[|u q]|] eqn:Hq.
    2: { exists [], c. by rewrite (peek_front NDEBUG n u q). }
    all: destruct (top_empty c) eqn:Ht;
      [exists [], c; by rewrite peek_empty by auto
      |destruct (peek_moves NDEBUG n c Hok) as (u & q & c' & -> & Hok' & Hc & _); [auto|done|exists [], c'; by rewrite Hc]].
  - destruct (queue n c) as [[|u q]|] eqn:Hq.
    2: { destruct (pop_ok n u q c Hok Hq) as (c' & -> & Hok' & Hc & _). exists [u], c'. by rewrite Hc. }
    all: exists [], c; rewrite pop_error by (try done; congruence); done.
Qed.

Lemma run_ok os : forall c, classifier_ok c ->
  exists taken c', run os c = Some (taken, c') /\ classifier_ok c'
    /\ concat (pushed <$> os) ++ contents c ≡ₚ taken ++ contents c'.
Proof.
  induction os as [|o os IH]; intros c Hok; [by exists [], c|].
  destruct (exec_ok o c Hok) as (t1 & c1 & H1 & Hok1 & Hp1).
  destruct (IH c1 Hok1) as (t2 & c2 & H2 & Hok2 & Hp2).
  exists (t1 ++ t2), c2. cbn [run]. rewrite H1. cbn -[run]. rewrite H2. split_and!; [done|done|].
  cbn. rewrite <-!(assoc_L (++)), <-Hp2, Permutation_app_swap_app, Hp1. apply Permutation_app_swap_app.
Qed.
End Session.

(** C4: Whatever sequence of [push], [peek] and [pop] is run on a new classifier
    with [N] queues, no call is undefined, no URL is lost and none is invented:
    the URLs pushed are those popped and those still held.  The classifier
    stays well-formed (distinct numbers and deques, one host per queue), and
    [size()] and [empty()] report what it holds. *)
Theorem classifier_conserves {PQ : PriorityQueue} {HI : HostIndex} NDEBUG N os :
  exists taken c, run NDEBUG os (Url_classifier_of N) = Some (taken, c) /\ classifier_ok c
    /\ concat (pushed <$> os) ≡ₚ taken ++ contents c
    /\ size c = val (zlen (contents c)) /\ empty_all c = val (bool_decide (contents c = [])).
Proof.
  destruct (Url_classifier_of_ok N) as (Hok & Hc & _). destruct (run_ok NDEBUG os _ Hok) as (taken & c & Hr & Hok' & Hp).
  exists taken, c. rewrite Hc, app_nil_r in Hp. split_and!; auto using size_ok, empty_all_ok.
Qed.

(** [peek] on every branch: it returns the front of a queue with URLs and
    changes nothing; for an empty or unknown queue it throws when nothing waits
    in [top_q], and otherwise moves all the URLs of one host, and no other,
    from [top_q] to that queue, leaving the other queues alone.  After a
    successful [peek], [pop] of the same queue removes the URL peeked. *)
Theorem peek_spec {PQ : PriorityQueue} {HI : HostIndex} NDEBUG n c : classifier_ok c ->
  match queue n c with
  | Some (u :: q) => peek NDEBUG n c = val (u, c) /\ exists c', pop n c = val c' /\ contents c ≡ₚ u :: contents c'
  | _ =>
      if top_empty c then peek NDEBUG n c = throw (runtime_error (str "empty"))
      else exists u q c1 c2, peek NDEBUG n c = val (u, c1) /\ classifier_ok c1 /\ contents c1 ≡ₚ contents c
        /\ (forall m, queue m c1 = if decide (m = n) then Some (u :: q) else queue m c)
        /\ Forall (fun v => m_host v = m_host u) q /\ Forall (fun v => m_host v <> m_host u) (pq_items (top_q c1))
        /\ pop n c1 = val c2 /\ contents c ≡ₚ u :: contents c2
  end.
Proof.
  intros Hok. assert (Hmove : queue n c = Some [] \/ queue n c = None ->
    if top_empty c then peek NDEBUG n c = throw (runtime_error (str "empty"))
    else exists u q c1 c2, peek NDEBUG n c = val (u, c1) /\ classifier_ok c1 /\ contents c1 ≡ₚ contents c
        /\ (forall m, queue m c1 = if decide (m = n) then Some (u :: q) else queue m c)
        /\ Forall (fun v => m_host v = m_host u) q /\ Forall (fun v => m_host v <> m_host u) (pq_items (top_q c1))
        /\ pop n c1 = val c2 /\ contents c ≡ₚ u :: contents c2).
  { intros Hq. destruct (top_empty c) eqn:Ht; [by apply peek_empty|].
    destruct (peek_moves NDEBUG n c Hok Hq Ht) as (u & q & c1 & Hp & Hok1 & Hc1 & Hqs & Hh & Hgone).
    destruct (pop_ok n u q c1 Hok1) as (c2 & Hpop & _ & Hc2 & _); [by rewrite Hqs, decide_True|].
    apply Forall_cons in Hh as [_ Hh]. exists u, q, c1, c2. split_and!; try done. by rewrite <-Hc1. }
  destruct (queue n c) as [[|u q]|] eqn:Hq; [by apply Hmove; left| |by apply Hmove; right].
  split; [by apply (peek_front NDEBUG n u q)|]. destruct (pop_ok n u q c Hok Hq) as (c2 & Hpop & _ & Hc2 & _). eauto.
Qed.

(** ** Concrete containers *)

(** A list searched for its greatest host. *)
Fixpoint extract_max (l : list Url) : option (Url * list Url) :=
  match l with
  | [] => None
  | u :: l =>
      match extract_max l with
      | None => Some (u, [])
      | Some (v, r) => if Compare_hostname u v then Some (v, u :: r) else Some (u, l)
      end
  end.

Lemma extract_max_ok l : match extract_max l with
  | None => l = []
  | Some (u, r) => l ≡ₚ u :: r /\ Forall (fun v => Compare_hostname u v = false) l
  end.
Proof.
  unfold Compare_hostname. induction l as [|u l IH]; [done|]. cbn. destruct (extract_max l) as [[v r]|].
  - destruct IH as [Hp Hm]. unfold Compare_hostname. destruct (str_lt (m_host u) (m_host v)) eqn:E.
    + split; [rewrite Hp; constructor|]. constructor; [by apply str_lt_asym|done].
    + split; [done|]. constructor; [apply str_lt_irrefl|].
      eapply Forall_impl; [exact Hm|]. intros w. by apply str_le_trans.
  - subst l. split; [done|]. repeat constructor. apply str_lt_irrefl.
Qed.

Lemma extract_top q : q <> [] -> exists u, fst <$> extract_max q = Some u.
Proof. intros Hq. pose proof (extract_max_ok q) as H. destruct (extract_max q) as [[u r]|]; [by exists u|done]. Qed.

Lemma extract_greatest q u : fst <$> extract_max q = Some u -> Forall (fun v => Compare_hostname u v = false) q.
Proof.
  intros Hu. pose proof (extract_max_ok q) as H. destruct (extract_max q) as [[v r]|]; [|done]. simplify_eq/=. apply H.
Qed.

Lemma extract_rest q u : fst <$> extract_max q = Some u -> exists q', snd <$> extract_max q = Some q' /\ q ≡ₚ u :: q'.
Proof.
  intros Hu. pose proof (extract_max_ok q) as H. destruct (extract_max q) as [[v r]|]; [|done].
  simplify_eq/=. exists r. by destruct H.
Qed.

#[export] Instance list_pq : PriorityQueue := {|
  pq := list Url; pq_items q := q; pq_new := []; pq_push u q := u :: q;
  pq_top q := fst <$> extract_max q; pq_pop q := snd <$> extract_max q;
  pq_new_items := eq_refl; pq_push_items u q := reflexivity (u :: q);
  pq_top_some := extract_top; pq_top_max := extract_greatest; pq_pop_items := extract_rest
|}.

Definition find_first_host (h : list Z) (t : list table_elmt_t) : option nat := fst <$> list_find (fun e => e_host e = h) t.

Lemma find_first_some h t i : find_first_host h t = Some i -> exists e, t !! i = Some e /\ e_host e = h.
Proof.
  unfold find_first_host. destruct (list_find _ t) as [[j e]|] eqn:H; [|done]. cbn. intros [= ->].
  apply list_find_Some in H as (? & ? & _). by exists e.
Qed.

Lemma find_first_none h t : find_first_host h t = None -> Forall (fun e => e_host e <> h) t.
Proof. unfold find_first_host. destruct (list_find _ t) as [[j e]|] eqn:H; [done|]. intros _. by apply list_find_None in H. Qed.

#[export] Instance first_host : HostIndex := {|
  find_host := find_first_host; find_host_some := find_first_some; find_host_none := find_first_none
|}.

Definition url_on (host path : list Z) : Url :=
  mk_Url (mk_Path [path] true false) false (str "http") true false [] host [] [] [].

Lemma peek_spec_witness :
  let c := Url_classifier_of 1 in
  classifier_ok c /\ peek true 0 c = throw (runtime_error (str "empty")).
Proof.
  split; [apply Url_classifier_of_ok|].
  exact (peek_spec true 0 (Url_classifier_of 1) (proj1 (Url_classifier_of_ok 1))).
Defined.

(** Two queues can serve one host at the same time, although the queues are
    grouped by host: a URL of a host that waits in [top_q] takes a queue that
    has become empty, and a later [peek] of another empty queue gives that
    queue the URLs of the same host from [top_q]. *)
Theorem one_host_two_queues : exists os c u0 u1,
  snd <$> run true os (Url_classifier_of 2) = Some c
  /\ queue 0 c = Some [u0] /\ queue 1 c = Some [u1] /\ u0 <> u1 /\ m_host u0 = m_host u1.
Proof.
  set (a := url_on (str "a.com") (str "x")). set (b := url_on (str "b.com") (str "x")).
  set (c1 := url_on (str "c.com") (str "1")). set (c2 := url_on (str "c.com") (str "2")).
  exists [Push a; Push b; Push c1; Pop 0; Push c2; Pop 1; Peek 1].
  eexists _, c2, c1. split_and!; [vm_compute; reflexivity|reflexivity|reflexivity|done|done].
Qed.
