(* ===== verification/Doc.v ===== *)
(** * Documents ([src/common/Doc.hh], [Doc.cc])

    A crawled URL becomes a document, stored under its normalised URL in a
    MongoDB collection.  The collection is an interface with the documented
    behaviour of [query] and of an upsert with [$set].  The driver stores a
    string whole and hands it out as a C string, so that reading it stops at
    the first NUL; the content of a page is binary data and is read whole.
    Limits of the driver on the size of a document are left out. *)

From stdpp Require Import gmap.
From S2P Require Import Prelude Regex Path Url.

Open Scope res_scope.

(** The fields of a stored document; [None] is a field that is absent. *)
Record bson := mk_bson {
  b_eff_url : option (list Z); b_http_code : option Z; b_curl_code : option Z; b_curl_error : option (list Z);
  b_modified : option Z; b_crawled : option Z; b_content : option (list Z); b_headers : option (list Z);
  b_etag : option (list Z); b_content_type : option Z; b_charset : option (list Z); b_flags : option Z;
  b_title : option (list Z); b_rss2 : option (list Z); b_rss : option (list Z); b_atom : option (list Z)
}.

Definition or_old {A} (new old : option A) : option A := match new with Some _ => new | None => old end.

(** [$set]: the new fields replace the old ones. *)
Definition bson_set (n o : bson) : bson :=
  mk_bson (or_old (b_eff_url n) (b_eff_url o)) (or_old (b_http_code n) (b_http_code o))
    (or_old (b_curl_code n) (b_curl_code o)) (or_old (b_curl_error n) (b_curl_error o))
    (or_old (b_modified n) (b_modified o)) (or_old (b_crawled n) (b_crawled o))
    (or_old (b_content n) (b_content o)) (or_old (b_headers n) (b_headers o))
    (or_old (b_etag n) (b_etag o)) (or_old (b_content_type n) (b_content_type o))
    (or_old (b_charset n) (b_charset o)) (or_old (b_flags n) (b_flags o))
    (or_old (b_title n) (b_title o)) (or_old (b_rss2 n) (b_rss2 o))
    (or_old (b_rss n) (b_rss o)) (or_old (b_atom n) (b_atom o)).

(** A collection: the documents with a URL, and an update that creates the
    document when there is none. *)
Class Mongo := {
  db : Type;
  query : db -> list Z -> list bson;
  upsert : list Z -> bson -> db -> db;
  query_upsert u b d : query (upsert u b d) u = match query d u with [] => [b] | o :: r => bson_set b o :: r end;
  query_upsert_ne u v b d : u <> v -> query (upsert u b d) v = query d v
}.

Section Doc.
Context {BR : BoostRegex} {MG : Mongo} (NDEBUG : bool) (max_size : Z).
(** [content_type::UNSET] of [content_type.hh], a file the build supplies. *)
Context (UNSET : Z).

Record Doc := mk_Doc {
  d_url : Url; d_eff_url : Url; d_http_code : Z; d_curl_code : Z; d_curl_error : list Z;
  d_modified : Z; d_crawled : Z; d_content : list Z; d_headers : list Z; d_etag : list Z;
  d_content_type : Z; d_charset : list Z; d_flags : Z;
  d_title : list Z; d_rss2 : list Z; d_rss : list Z; d_atom : list Z
}.

Definition Doc_new : Doc :=
  mk_Doc Url_new Url_new 0 (-1) [] (-1) (-1) [] [] [] UNSET [] 0 [] [] [] [].

Definition set_d_url u d := mk_Doc u (d_eff_url d) (d_http_code d) (d_curl_code d) (d_curl_error d) (d_modified d) (d_crawled d) (d_content d) (d_headers d) (d_etag d) (d_content_type d) (d_charset d) (d_flags d) (d_title d) (d_rss2 d) (d_rss d) (d_atom d).

(** A field is written only when it differs from its default. *)
Definition unless {A} `{EqDecision A} (x default : A) : option A := if bool_decide (x = default) then None else Some x.

(** The object that [save] builds. *)
Definition bson_of (d : Doc) : bson :=
  mk_bson (if Url_empty (d_eff_url d) then None else Some (Url_get (d_eff_url d)))
    (unless (d_http_code d) 0) (unless (d_curl_code d) (-1)) (unless (d_curl_error d) [])
    (unless (d_modified d) (-1)) (unless (d_crawled d) (-1)) (unless (d_content d) []) (unless (d_headers d) [])
    (unless (d_etag d) []) (unless (d_content_type d) UNSET) (unless (d_charset d) []) (unless (d_flags d) 0)
    (unless (d_title d) []) (unless (d_rss2 d) []) (unless (d_rss d) []) (unless (d_atom d) []).

(** [Doc::save]: the document, whose URL is normalised, and the collection. *)
Definition save (d : Doc) (c : db) : res (Doc * db) :=
  if Url_empty (d_url d) then throw (runtime_error (str "url is empty")) else
  u <~ Url_normalize NDEBUG max_size (d_url d) ;;
  let d := set_d_url u d in
  val (d, upsert (Url_get u) (bson_of d) c).

(** [Val(std::string&)] of the driver: what is in front of the first NUL. *)
Definition Val (s : list Z) : list Z := fst (span (fun c => negb (c =? 0)) s).

Definition Val_or (old : list Z) (f : option (list Z)) : list Z := match f with Some s => Val s | None => old end.

(** The fields of one row of the cursor; [eff_url] is parsed. *)
Definition load_fields (b : bson) (d : Doc) : res Doc :=
  e <~ (match b_eff_url b with
        | Some s => Url_assign NDEBUG max_size (Val s) (d_eff_url d)
        | None => val (d_eff_url d)
        end) ;;
  val (mk_Doc (d_url d) e (default (d_http_code d) (b_http_code b)) (default (d_curl_code d) (b_curl_code b))
    (Val_or (d_curl_error d) (b_curl_error b)) (default (d_modified d) (b_modified b))
    (default (d_crawled d) (b_crawled b)) (default (d_content d) (b_content b)) (Val_or (d_headers d) (b_headers b))
    (Val_or (d_etag d) (b_etag b)) (default (d_content_type d) (b_content_type b))
    (Val_or (d_charset d) (b_charset b)) (match b_flags b with Some f => f mod 2 ^ 6 | None => d_flags d end)
    (Val_or (d_title d) (b_title b)) (Val_or (d_rss2 d) (b_rss2 b)) (Val_or (d_rss d) (b_rss b))
    (Val_or (d_atom d) (b_atom b))).

(** The loop over the cursor; a second row fails an assertion. *)
Fixpoint load_rows (rows : list bson) (gotone : bool) (d : Doc) : res Doc :=
  match rows with
  | [] => val d
  | b :: rows =>
      d <~ load_fields b d ;;
      assert_ NDEBUG (negb gotone) ;;;
      load_rows rows true d
  end.

(** [Doc::load_url]: the value returned is [false] whatever was found. *)
Definition load_url (c : db) (_url : Url) (d : Doc) : res (bool * Doc) :=
  u <~ Url_normalize NDEBUG max_size _url ;;
  let d := set_d_url u d in
  d <~ load_rows (query c (Url_get u)) false d ;;
  val (false, d).

(** ** Saving and loading *)
Lemma default_unless {A} `{EqDecision A} (x dft : A) : default dft (unless x dft) = x.
Proof. unfold unless. by case_bool_decide. Qed.

(** The text in front of the first NUL. *)
Fixpoint before_nul (s : list Z) : list Z :=
  match s with
  | [] => []
  | c :: s => if c =? 0 then [] else c :: before_nul s
  end.

Lemma Val_before_nul s : Val s = before_nul s.
Proof.
  unfold Val. induction s as [|c s IH]; [done|]. cbn [span before_nul].
  destruct (c =? 0); [done|]. cbn [negb]. rewrite <- IH. by destruct (span _ s).
Qed.

Lemma Val_or_unless (x : list Z) : Val_or [] (unless x []) = before_nul x.
Proof. unfold unless. case_bool_decide; subst; [done|apply Val_before_nul]. Qed.

(** The document that loading gives: texts end at their first NUL. *)
Definition as_loaded (e : Url) (d : Doc) : Doc :=
  mk_Doc (d_url d) e (d_http_code d) (d_curl_code d) (before_nul (d_curl_error d)) (d_modified d) (d_crawled d) (d_content d)
    (before_nul (d_headers d)) (before_nul (d_etag d)) (d_content_type d) (before_nul (d_charset d)) (d_flags d)
    (before_nul (d_title d)) (before_nul (d_rss2 d)) (before_nul (d_rss d)) (before_nul (d_atom d)).

Lemma load_saved d e : 0 <= d_flags d < 2 ^ 6 ->
  (if Url_empty (d_eff_url d) then e = Url_new else Url_assign NDEBUG max_size (before_nul (Url_get (d_eff_url d))) Url_new = val e) ->
  load_fields (bson_of d) (set_d_url (d_url d) Doc_new) = val (as_loaded e d).
Proof.
  intros Hf He. unfold load_fields. cbn [b_eff_url bson_of d_eff_url set_d_url Doc_new].
  assert ((match (if Url_empty (d_eff_url d) then None else Some (Url_get (d_eff_url d))) with
           | Some s => Url_assign NDEBUG max_size (Val s) Url_new
           | None => val Url_new
           end) = val e) as -> by (destruct (Url_empty (d_eff_url d)); [by rewrite He|by rewrite Val_before_nul]).
  cbn. rewrite !default_unless, !Val_or_unless. unfold as_loaded.
  replace (match unless (d_flags d) 0 with Some f => f mod 2 ^ 6 | None => 0 end) with (d_flags d); [done|].
  unfold unless. case_bool_decide; [done|]. by rewrite Z.mod_small.
Qed.
End Doc.

(** C39: A document saved for the first time is loaded back: loading its URL
    into a new document gives every number and the content back as they were,
    every other text up to its first NUL (the driver hands out C strings), the
    URL normalised and the effective URL as its text parses; documents of other
    URLs are not touched.  The value that [load_url] returns is [false] all the
    same, so its callers never learn that the document exists. *)
Theorem doc_save_load {BR : BoostRegex} {MG : Mongo} NDEBUG max_size UNSET d u e c :
  Url_empty (d_url d) = false -> Url_normalize NDEBUG max_size (d_url d) = val u -> query c (Url_get u) = [] ->
  0 <= d_flags d < 2 ^ 6 ->
  (if Url_empty (d_eff_url d) then e = Url_new else Url_assign NDEBUG max_size (before_nul (Url_get (d_eff_url d))) Url_new = val e) ->
  exists c', save NDEBUG max_size UNSET d c = val (set_d_url u d, c')
    /\ load_url NDEBUG max_size c' (d_url d) (Doc_new UNSET) = val (false, as_loaded e (set_d_url u d))
    /\ forall v, v <> Url_get u -> query c' v = query c v.
Proof.
  intros Hne Hu Hq Hf He. unfold save. rewrite Hne, Hu. cbn. eexists. split; [done|]. split.
  - unfold load_url. rewrite Hu. cbn -[load_fields bson_of]. rewrite query_upsert, Hq. cbn -[load_fields bson_of].
    rewrite (load_saved NDEBUG max_size UNSET (set_d_url u d) e) by done.
    cbn. unfold assert_. rewrite orb_true_r. done.
  - intros v Hv. by apply query_upsert_ne.
Qed.

(** A collection held in a map. *)
Definition map_query (d : gmap (list Z) (list bson)) (u : list Z) : list bson := default [] (d !! u).

Definition map_upsert (u : list Z) (b : bson) (d : gmap (list Z) (list bson)) : gmap (list Z) (list bson) :=
  <[u := match map_query d u with [] => [b] | o :: r => bson_set b o :: r end]> d.

Lemma map_query_upsert u b d :
  map_query (map_upsert u b d) u = match map_query d u with [] => [b] | o :: r => bson_set b o :: r end.
Proof. unfold map_upsert. unfold map_query at 1. by rewrite lookup_insert_eq. Qed.

Lemma map_query_upsert_ne u v b d : u <> v -> map_query (map_upsert u b d) v = map_query d v.
Proof. intros Huv. unfold map_upsert. unfold map_query at 1. by rewrite lookup_insert_ne. Qed.

#[export] Instance map_mongo : Mongo := {|
  db := gmap (list Z) (list bson); query := map_query; upsert := map_upsert;
  query_upsert := map_query_upsert; query_upsert_ne := map_query_upsert_ne
|}.

Definition page : Url := mk_Url (mk_Path [str "a"] true false) false (str "http") true false [] (str "h") [] [] [].

Definition page_doc : Doc :=
  mk_Doc page Url_new 200 0 [] 5 7 (str "te" ++ [0] ++ str "xt") (str "head") [] 3 [] 9 (str "t" ++ [0] ++ str "u") [] [] [].

Lemma doc_save_load_witness : exists c',
  @save perl_regex map_mongo true 1000 0 page_doc ∅ = val (page_doc, c')
  /\ @load_url perl_regex map_mongo true 1000 c' page (Doc_new 0)
     = val (false, mk_Doc page Url_new 200 0 [] 5 7 (str "te" ++ [0] ++ str "xt") (str "head") [] 3 [] 9 (str "t") [] [] []).
Proof.
  destruct (@doc_save_load perl_regex map_mongo true 1000 0 page_doc page Url_new ∅) as (c' & H1 & H2 & _);
    [reflexivity|vm_compute; reflexivity|reflexivity|done|reflexivity|].
  exists c'. split; [exact H1|exact H2].
Defined.
