(* ===== verification/Crawler.v ===== *)
(** * The crawler ([src/crawler/crawler.cc])

    One handle per queue of the classifier fetches, for each URL, robots.txt,
    the headers (HEAD) and the content (GET).  A handle is a state machine:
    [reschedule] sets up a transfer, [done] runs when it has finished, saves
    the document, moves to the next state and schedules again.  libcurl and
    the clock are the environment: what a transfer brings is an argument of
    [done], whether a transfer can be set up is a parameter.  The state keeps
    beside the fields of the code a record of the transfers set up, of what
    each brought and of its end; no operation reads it. *)

From stdpp Require Import gmap.
From S2P Require Import Prelude Regex Utils Path Url Robots Doc Classifier.

(** ** Control: exceptions and [exit] *)
Inductive ctl (A : Type) :=
| Ret (a : A)
| Exn (e : exn)
| Exit (code : Z).
Arguments Ret {A} a.
Arguments Exn {A} e.
Arguments Exit {A} code.

(** [None] is undefined behaviour or a failed assertion. *)
Definition run_ (A : Type) := option (ctl A).

Definition ret {A} (a : A) : run_ A := Some (Ret a).

Definition cbind {A B} (m : run_ A) (k : A -> run_ B) : run_ B :=
  match m with
  | None => None
  | Some (Ret a) => k a
  | Some (Exn e) => Some (Exn e)
  | Some (Exit c) => Some (Exit c)
  end.

Definition lift {A} (m : res A) : run_ A :=
  match m with
  | None => None
  | Some (Value a) => Some (Ret a)
  | Some (Throw e) => Some (Exn e)
  end.

Declare Scope run_scope.
Notation "x <- m ;; k" := (cbind m (fun x => k))
  (at level 100, m at next level, right associativity) : run_scope.
Open Scope run_scope.

(** ** Error codes of libcurl *)
Definition CURLE_OK : Z := 0.
Definition CURLM_OK : Z := 0.
Definition CURLM_BAD_SOCKET : Z := 5.

(** [mcode_or_die]: [CURLM_BAD_SOCKET] is ignored, other errors end the
    program. *)
Definition mcode_or_die (code : Z) : run_ unit :=
  if code =? CURLM_OK then ret tt
  else if code =? CURLM_BAD_SOCKET then ret tt
  else Some (Exit code).

(** When more than these bytes are transferred, the transfer is cut off. *)
Definition CONTENT_SIZE_LIMIT : Z := 1048576.

Inductive handle_state := IDLE | ROBOTS | NEXT | HEAD | CONTENT.

#[export] Instance handle_state_eq_dec : EqDecision handle_state.
Proof. solve_decision. Defined.

(** Options of a transfer, as [my_curl_easy_setopt] sets them. *)
Inductive curl_option :=
| CURLOPT_URL | CURLOPT_HEADERFUNCTION | CURLOPT_HEADERDATA | CURLOPT_NOBODY | CURLOPT_WRITEFUNCTION | CURLOPT_WRITEDATA
| CURLOPT_VERBOSE | CURLOPT_ERRORBUFFER | CURLOPT_PRIVATE | CURLOPT_NOPROGRESS | CURLOPT_PROGRESSFUNCTION
| CURLOPT_PROGRESSDATA | CURLOPT_FILETIME | CURLOPT_HTTPHEADER | CURLOPT_CONNECTTIMEOUT | CURLOPT_LOW_SPEED_TIME
| CURLOPT_LOW_SPEED_LIMIT | CURLOPT_FOLLOWLOCATION | CURLOPT_MAXREDIRS | CURLOPT_REDIR_PROTOCOLS
| CURLOPT_TIMECONDITION | CURLOPT_TIMEVALUE.

Inductive callback := Header_write_cb | Content_write_cb | Progress_cb.

(** The argument of an option: NULL, a number, a text, the handle, a callback,
    its error buffer, a list of header lines. *)
Inductive option_arg :=
| Null | Long (n : Z) | Text (s : list Z) | This | Callback (f : callback) | Error_buffer | Slist (lines : list (list Z)).

(** A transfer: the options set after [curl_easy_reset]. *)
Definition transfer := list (curl_option * option_arg).

Definition LOW_SPEED_LIMIT : Z := 1024.
Definition LOW_SPEED_TIME : Z := 60.
Definition CONNECTTIMEOUT : Z := 60.
Definition MAXREDIRS : Z := 5.

(** Constants of libcurl. *)
Definition CURLPROTO_HTTP : Z := 1.
Definition CURLPROTO_HTTPS : Z := 2.
Definition CURL_TIMECOND_IFMODSINCE : Z := 1.

(** What a finished transfer reports: the CURLcode, the effective URL, the
    response code, the file time, the error text; and the time of day. *)
Record report := mk_report {
  rp_result : Z;
  rp_eff_url : list Z;
  rp_code : Z;
  rp_filetime : Z;
  rp_error : list Z;
  rp_now : Z
}.

Section Crawler.
Context {BR : BoostRegex} {MG : Mongo} {PQ : PriorityQueue} {HI : HostIndex} (NDEBUG : bool) (max_size : Z).
(** The enumeration of [content_type.hh] and the integers behind it;
    [ctype0] is the indeterminate value of an uninitialised variable. *)
Context (C : content_types) (ct_value : content_type_t C -> Z) (UNSET EMPTY_ : Z) (ctype0 : content_type_t C).
(** libcurl: whether the options of a transfer are accepted, and the code of
    [curl_multi_add_handle]. *)
Context (setopt_ok : transfer -> bool) (add_handle : transfer -> Z).

Record EasyHandle := mk_EasyHandle {
  h_id : Z;
  m_content_dl_bytes : Z;
  h_doc : option Doc;
  m_content_os : list Z;
  m_headers_os : list Z;
  robots_entry : option Robots_entry;
  h_state : handle_state;
  h_headers : option (list Z)
}.

Definition EasyHandle_new (id : Z) : EasyHandle := mk_EasyHandle id 0 None [] [] None IDLE None.

Definition set_h_doc d h := mk_EasyHandle (h_id h) (m_content_dl_bytes h) d (m_content_os h) (m_headers_os h) (robots_entry h) (h_state h) (h_headers h).
Definition set_h_state s h := mk_EasyHandle (h_id h) (m_content_dl_bytes h) (h_doc h) (m_content_os h) (m_headers_os h) (robots_entry h) s (h_headers h).
Definition set_robots_entry e h := mk_EasyHandle (h_id h) (m_content_dl_bytes h) (h_doc h) (m_content_os h) (m_headers_os h) e (h_state h) (h_headers h).
Definition set_h_headers l h := mk_EasyHandle (h_id h) (m_content_dl_bytes h) (h_doc h) (m_content_os h) (m_headers_os h) (robots_entry h) (h_state h) l.

(** What passes between the crawler and libcurl: handle [i] starts a transfer in
    some state, is given headers or content, and a transfer is reported as
    finished. *)
Inductive event :=
| Started (i : nat) (kind : handle_state) (t : transfer)
| Header_data (i : nat) (buff : list Z)
| Content_data (i : nat) (buff : list Z)
| Finished (i : nat) (r : report).

(** [log] records what passed between the handles and libcurl. *)
Record GlobalInfo := mk_GlobalInfo {
  classifier : Url_classifier;
  m_easyHandles : list EasyHandle;
  mongodb : db;
  dl_bytes : Z;
  m_ndocs_saved : Z;
  user_agent : list Z;
  log : list event
}.

Definition record (e : event) g := mk_GlobalInfo (classifier g) (m_easyHandles g) (mongodb g) (dl_bytes g) (m_ndocs_saved g) (user_agent g) (log g ++ [e]).
Definition set_classifier c g := mk_GlobalInfo c (m_easyHandles g) (mongodb g) (dl_bytes g) (m_ndocs_saved g) (user_agent g) (log g).
Definition set_handle (i : nat) h g := mk_GlobalInfo (classifier g) (<[i := h]> (m_easyHandles g)) (mongodb g) (dl_bytes g) (m_ndocs_saved g) (user_agent g) (log g).

Definition GlobalInfo_new (parallel : nat) (c : db) (ua : list Z) : GlobalInfo :=
  mk_GlobalInfo (Url_classifier_of parallel) (EasyHandle_new <$> (Z.of_nat <$> seq 0 parallel)) c 0 0 ua [].

(** ** Setting up transfers *)
Definition start_transfer (i : nat) (t : transfer) (h : EasyHandle) (g : GlobalInfo) : run_ GlobalInfo :=
  if negb (setopt_ok t) then Some (Exn (runtime_error (str "curl_easy_setopt failed"))) else
  _ <- mcode_or_die (add_handle t) ;;
  ret (mk_GlobalInfo (classifier g) (<[i := h]> (m_easyHandles g)) (mongodb g) (dl_bytes g) (m_ndocs_saved g) (user_agent g)
         (log g ++ [Started i (h_state h) t])).

(** The options that every transfer sets in the same order. *)
Definition progress_options : transfer :=
  [(CURLOPT_NOPROGRESS, Long 0); (CURLOPT_PROGRESSFUNCTION, Callback Progress_cb); (CURLOPT_PROGRESSDATA, This)].

Definition timeout_options : transfer :=
  [(CURLOPT_CONNECTTIMEOUT, Long CONNECTTIMEOUT); (CURLOPT_LOW_SPEED_TIME, Long LOW_SPEED_TIME);
   (CURLOPT_LOW_SPEED_LIMIT, Long LOW_SPEED_LIMIT);
   (CURLOPT_FOLLOWLOCATION, Long 1); (CURLOPT_MAXREDIRS, Long MAXREDIRS);
   (CURLOPT_REDIR_PROTOCOLS, Long (Z.lor CURLPROTO_HTTP CURLPROTO_HTTPS))].

Definition get_robots (url : Url) : transfer :=
  [(CURLOPT_URL, Text (Url_get url)); (CURLOPT_HEADERFUNCTION, Null); (CURLOPT_HEADERDATA, Null);
   (CURLOPT_WRITEFUNCTION, Callback Content_write_cb); (CURLOPT_WRITEDATA, This); (CURLOPT_VERBOSE, Long 0);
   (CURLOPT_ERRORBUFFER, Error_buffer); (CURLOPT_PRIVATE, This)]
  ++ progress_options ++ [(CURLOPT_HTTPHEADER, Null)] ++ timeout_options.

Definition head_ (url : Url) : transfer :=
  [(CURLOPT_URL, Text (Url_get url)); (CURLOPT_HEADERFUNCTION, Callback Header_write_cb); (CURLOPT_HEADERDATA, This);
   (CURLOPT_NOBODY, Long 1); (CURLOPT_VERBOSE, Long 0); (CURLOPT_ERRORBUFFER, Error_buffer); (CURLOPT_PRIVATE, This)]
  ++ progress_options ++ [(CURLOPT_FILETIME, Long 1); (CURLOPT_HTTPHEADER, Null)] ++ timeout_options.

(** [get_content]: the header list of the handle changes when the document
    has an entity tag. *)
Definition get_content (url : Url) (preexisting : bool) (d : Doc) (h : EasyHandle) : transfer * EasyHandle :=
  let t :=
    [(CURLOPT_URL, Text (Url_get url)); (CURLOPT_HEADERFUNCTION, Callback Header_write_cb); (CURLOPT_HEADERDATA, This);
     (CURLOPT_WRITEFUNCTION, Callback Content_write_cb); (CURLOPT_WRITEDATA, This); (CURLOPT_VERBOSE, Long 0);
     (CURLOPT_ERRORBUFFER, Error_buffer); (CURLOPT_PRIVATE, This)]
    ++ progress_options ++ [(CURLOPT_FILETIME, Long 1); (CURLOPT_HTTPHEADER, Null)] ++ timeout_options in
  if preexisting then
    if negb (bool_decide (d_etag d = [])) then
      let header := str "If-None-Match: " ++ d_etag d in
      (t ++ [(CURLOPT_HTTPHEADER, Slist [header])], set_h_headers (Some header) h)
    else if d_modified d >? 0 then
      (t ++ [(CURLOPT_TIMECONDITION, Long CURL_TIMECOND_IFMODSINCE); (CURLOPT_TIMEVALUE, Long (d_modified d))], h)
    else (t, h)
  else (t, h).

(** [EasyHandle::reset] *)
Definition reset (h : EasyHandle) : EasyHandle :=
  mk_EasyHandle (h_id h) 0 (Some (Doc_new UNSET)) [] [] (robots_entry h) (h_state h) (h_headers h).

(** The URL of a robots.txt, made from the URL of the page. *)
Definition robots_url (host : list Z) (u : Url) : res Url :=
  (u <~ put_scheme (str "http") u ;;
   u <~ put_host host u ;;
   put_path max_size (str "robots.txt") u)%res.

(** [EasyHandle::reschedule] of handle [i]. *)
Definition reschedule (i : nat) (g : GlobalInfo) : run_ GlobalInfo :=
  match m_easyHandles g !! i with
  | None => None
  | Some h =>
      idle <- (if empty_top (classifier g) then lift (empty_n (h_id h) (classifier g)) else ret false) ;;
      if idle : bool then ret g else
      uc <- lift (peek NDEBUG (h_id h) (classifier g)) ;;
      let '(u, c) := uc in
      let g := set_classifier c g in
      url <- lift (Url_normalize NDEBUG max_size u) ;;
      let h := reset h in
      pd <- lift (load_url NDEBUG max_size (mongodb g) url (Doc_new UNSET)) ;;
      let '(preexisting, d) := pd in
      let h := set_h_doc (Some d) h in
      let h := if preexisting : bool then set_h_state CONTENT h else h in
      match h_state h with
      | IDLE | ROBOTS =>
          ru <- lift (robots_url (m_host url) (d_url d)) ;;
          let h := set_h_doc (Some (set_d_url ru d)) (set_h_state ROBOTS h) in
          start_transfer i (get_robots ru) h g
      | HEAD => start_transfer i (head_ url) h g
      | CONTENT => let '(t, h) := get_content url preexisting d h in start_transfer i t h g
      | NEXT => Some (Exn (runtime_error (str "unknown state in reschedule")))
      end
  end.

(** ** Finished transfers *)
Definition acceptable (ctype : content_type_t C) : bool :=
  (ct_value ctype >? ct_value (UNRECOGNIZED C)) && (ct_value ctype <? EMPTY_).

(** The fields that every finished transfer sets. *)
Definition set_report (r : report) (e : Url) (d : Doc) : Doc :=
  mk_Doc (d_url d) e (rp_code r) (rp_result r) (rp_error r) (rp_filetime r) (rp_now r) (d_content d) (d_headers d)
    (d_etag d) (d_content_type d) (d_charset d) (d_flags d) (d_title d) (d_rss2 d) (d_rss d) (d_atom d).

Definition set_http_code x d := mk_Doc (d_url d) (d_eff_url d) x (d_curl_code d) (d_curl_error d) (d_modified d) (d_crawled d) (d_content d) (d_headers d) (d_etag d) (d_content_type d) (d_charset d) (d_flags d) (d_title d) (d_rss2 d) (d_rss d) (d_atom d).
Definition set_content x d := mk_Doc (d_url d) (d_eff_url d) (d_http_code d) (d_curl_code d) (d_curl_error d) (d_modified d) (d_crawled d) x (d_headers d) (d_etag d) (d_content_type d) (d_charset d) (d_flags d) (d_title d) (d_rss2 d) (d_rss d) (d_atom d).
Definition set_headers_type x t d := mk_Doc (d_url d) (d_eff_url d) (d_http_code d) (d_curl_code d) (d_curl_error d) (d_modified d) (d_crawled d) (d_content d) x (d_etag d) t (d_charset d) (d_flags d) (d_title d) (d_rss2 d) (d_rss d) (d_atom d).

(** The prologue of [done]: effective URL, codes and times. *)
Definition take_report (r : report) (d : Doc) : res Doc :=
  (e <~ Url_of NDEBUG max_size (rp_eff_url r) ;;
   e <~ Url_normalize NDEBUG max_size e ;;
   same <~ Url_eq NDEBUG max_size e (d_url d) ;;
   val (set_report r (if same : bool then d_eff_url d else e) d))%res.

Definition transfer_ok (d : Doc) : bool := (d_curl_code d =? CURLE_OK) && (d_http_code d =? 200).

(** The robots.txt that a transfer brought. *)
Definition parse_robots (content : list Z) : option Robots_entry :=
  match yylex content Robots_new with
  | None => None
  | Some (Value (ret, r)) =>
      Some (if ret <? 0 then mk_entry (Robots_clear r) EPARSE else mk_entry r PRESENT)
  | Some (Throw _) => Some (mk_entry (Robots_clear Robots_new) EPARSE)
  end.

(** [doc->save(...); ++global->m_ndocs_saved; global->classifier.pop(id); state = NEXT;] *)
Definition save_pop (h : EasyHandle) (d : Doc) (g : GlobalInfo) : run_ (EasyHandle * GlobalInfo) :=
  dc <- lift (save NDEBUG max_size UNSET d (mongodb g)) ;;
  c <- lift (pop (h_id h) (classifier g)) ;;
  ret (set_h_state NEXT (set_h_doc (Some (fst dc)) h),
       mk_GlobalInfo c (m_easyHandles g) (snd dc) (dl_bytes g) (wrap64 (m_ndocs_saved g + 1)) (user_agent g) (log g)).

Definition headers_of (h : EasyHandle) : http_headers C :=
  parse_http_headers C (m_headers_os h) (mk_headers C ctype0 [] ∅).

(** The switch of [done]. *)
Definition done_switch (h : EasyHandle) (d : Doc) (g : GlobalInfo) : run_ (EasyHandle * GlobalInfo) :=
  match h_state h with
  | IDLE => Some (Exn (runtime_error (str "done called on IDLE handle")))
  | ROBOTS =>
      entry <- (if transfer_ok d then
                  match parse_robots (m_content_os h) with Some e => ret e | None => None end
                else ret (Robots_entry_of NOT_AVAILABLE)) ;;
      ret (set_h_state NEXT (set_h_doc (Some (set_content [] d)) (set_robots_entry (Some entry) h)), g)
  | HEAD =>
      if transfer_ok d then
        let ctype := content_type C (headers_of h) in
        let d := set_headers_type (m_headers_os h) (ct_value ctype) d in
        if acceptable ctype then ret (set_h_state CONTENT (set_h_doc (Some d) h), g)
        else save_pop h (set_http_code 406 d) g
      else save_pop h d g
  | CONTENT =>
      if transfer_ok d then
        let ctype := content_type C (headers_of h) in
        save_pop h (set_headers_type (m_headers_os h) (ct_value ctype) (set_content (m_content_os h) d)) g
      else save_pop h d g
  | NEXT => ret (set_h_doc (Some d) h, g)
  end.

(** Whether the robots.txt of the handle lets the path of a URL through. *)
Definition robots_allow (ua : list Z) (e : Robots_entry) (url : Url) : outcome bool :=
  if tried_but_failed e then Value true
  else if bool_decide (entry_state e = PRESENT) then path_allowed ua (Path_get (_path url)) (entry_robots e)
  else Value false.

(** A step of a loop: [None] says that the loop has run out of fuel, which is
    not an outcome of the code. *)
Definition and_then {A B} (m : run_ A) (k : A -> option (run_ B)) : option (run_ B) :=
  match m with
  | None => Some None
  | Some (Ret a) => k a
  | Some (Exn e) => Some (Some (Exn e))
  | Some (Exit c) => Some (Some (Exit c))
  end.
Local Notation "x <-- m ;; k" := (and_then m (fun x => k)) (at level 100, m at next level, right associativity).

(** The loop of [done] that looks for the next URL of the queue. *)
Fixpoint next_url (fuel : nat) (h : EasyHandle) (d : Doc) (g : GlobalInfo) : option (run_ (EasyHandle * Doc * GlobalInfo)) :=
  match fuel with
  | O => None
  | S fuel =>
      e <-- lift (empty_n (h_id h) (classifier g)) ;;
      if e : bool then Some (ret (h, d, g)) else
      let h := set_h_state IDLE h in
      uc <-- lift (peek NDEBUG (h_id h) (classifier g)) ;;
      let '(u, c) := uc in
      let g := set_classifier c g in
      url <-- lift (Url_normalize NDEBUG max_size u) ;;
      pd <-- lift (load_url NDEBUG max_size (mongodb g) url d) ;;
      let '(preexisting, d) := pd in
      if preexisting : bool then Some (ret (set_h_state CONTENT h, d, g)) else
      match robots_entry h with
      | None => Some (ret (set_h_state ROBOTS h, d, g))
      | Some entry =>
          if negb (bool_decide (m_host (d_url d) = m_host url)) then Some (ret (set_h_state ROBOTS h, d, g)) else
          ok <-- lift (lift_outcome (robots_allow (user_agent g) entry url)) ;;
          if ok : bool then Some (ret (set_h_state HEAD h, d, g)) else
          c <-- lift (pop (h_id h) (classifier g)) ;;
          next_url fuel h d (set_classifier c g)
      end
  end.

Definition queue_len (n : Z) (c : Url_classifier) : nat := length (default [] (queue n c)).

(** [EasyHandle::done] of handle [i]. *)
Definition done (i : nat) (r : report) (g : GlobalInfo) : run_ GlobalInfo :=
  let g := record (Finished i r) g in
  match m_easyHandles g !! i with
  | None => None
  | Some h =>
      match h_doc h with
      | None => None
      | Some d =>
          d <- lift (take_report r d) ;;
          hg <- done_switch (set_h_headers None h) d g ;;
          let '(h, g) := hg in
          d <- match h_doc h with Some d => ret d | None => None end ;;
          hdg <- (if decide (h_state h = NEXT)
                  then default None (next_url (S (queue_len (h_id h) (classifier g))) (set_h_state IDLE h) d g)
                  else ret (h, d, g)) ;;
          let '(h, d, g) := hdg in
          reschedule i (set_handle i (set_h_doc (Some (set_d_url (Url_clear (d_url d)) d)) h) g)
      end
  end.

(** [GlobalInfo::reschedule]: the handles from [i] on. *)
Fixpoint reschedule_from (n i : nat) (g : GlobalInfo) : run_ GlobalInfo :=
  match n with
  | O => ret g
  | S n =>
      match m_easyHandles g !! i with
      | None => ret g
      | Some h =>
          g <- (if decide (h_state h = IDLE) then reschedule i g else ret g) ;;
          reschedule_from n (S i) g
      end
  end.

Definition reschedule_all (g : GlobalInfo) : run_ GlobalInfo := reschedule_from (length (m_easyHandles g)) 0 g.

(** ** Callbacks for data *)
Definition header_write_cb (i : nat) (buff : list Z) (g : GlobalInfo) : option (Z * GlobalInfo) :=
  h ← m_easyHandles g !! i;
  let realsize := zlen buff in
  let h := mk_EasyHandle (h_id h) (m_content_dl_bytes h) (h_doc h) (m_content_os h) (m_headers_os h ++ buff) (robots_entry h) (h_state h) (h_headers h) in
  Some (realsize, mk_GlobalInfo (classifier g) (<[i := h]> (m_easyHandles g)) (mongodb g)
                    (wrap64 (dl_bytes g + realsize)) (m_ndocs_saved g) (user_agent g) (log g ++ [Header_data i buff])).

Definition content_write_cb (i : nat) (buff : list Z) (g : GlobalInfo) : option (Z * GlobalInfo) :=
  h ← m_easyHandles g !! i;
  let realsize := zlen buff in
  let n := wrap64 (m_content_dl_bytes h + realsize) in
  let h := mk_EasyHandle (h_id h) n (h_doc h) (m_content_os h ++ buff) (m_headers_os h) (robots_entry h) (h_state h) (h_headers h) in
  Some (if n >? CONTENT_SIZE_LIMIT then 0 else realsize,
        mk_GlobalInfo (classifier g) (<[i := h]> (m_easyHandles g)) (mongodb g)
          (wrap64 (dl_bytes g + realsize)) (m_ndocs_saved g) (user_agent g) (log g ++ [Content_data i buff])).
End Crawler.
