(* ===== verification/CrawlerInput.v ===== *)
(** * Input of the crawler ([src/crawler/crawler.cc]: [Connection::process_input_buff],
    [connection_read_cb], [interactive_process], [interactive_cmd])

    URLs arrive over connections in pieces of any size; complete lines are
    parsed and pushed to the classifier, the rest waits for more. *)

From stdpp Require Import gmap.
From S2P Require Import Prelude Regex Utils Path Url UrlWf UrlRound Classifier.

Open Scope res_scope.

(** [find_first_of] of a line feed or a carriage return. *)
Definition is_eol (c : Z) : bool := (c =? 10) || (c =? 13).

Section Input.
Context {BR : BoostRegex} {PQ : PriorityQueue} {HI : HostIndex} (NDEBUG : bool) (max_size : Z).

(** A connection: the buffer and the number of URLs read. *)
Record Connection := mk_Connection { m_input_buff : list Z; m_num_urls : Z }.

Definition Connection_new : Connection := mk_Connection [] 0.

(** [catch(UrlParseError&)] around a line: an error is logged. *)
Definition try_line {A} (line : list Z) (k : Url -> res A) (skip : A) : res A :=
  match Url_of NDEBUG max_size line with
  | Some (Value url) => k url
  | Some (Throw (UrlParseError _)) => val skip
  | Some (Throw e) => throw e
  | None => abort
  end.

(** A complete line: only absolute http URLs are pushed. *)
Definition take_line (line : list Z) (n : Z) (c : Url_classifier) : res (Z * Url_classifier) :=
  try_line line (fun url =>
    if Url_absolute url && bool_decide (m_scheme url = str "http")
    then c <~ push NDEBUG url c ;; val (wrap64 (n + 1), c)
    else val (n, c)) (n, c).

(** The loop over the lines: [cur] are the characters from [tortoise] on; a
    line of one character is skipped with the empty ones. *)
Fixpoint input_loop (cur s : list Z) (n : Z) (c : Url_classifier) : res (list Z * Z * Url_classifier) :=
  match s with
  | [] => val (cur, n, c)
  | x :: s =>
      if is_eol x then
        nc <~ (if 1 <? zlen cur then take_line cur n c else val (n, c)) ;;
        input_loop [] s (fst nc) (snd nc)
      else input_loop (cur ++ [x]) s n c
  end.

(** A last line without its end, at the end of the connection. *)
Definition flush_line (line : list Z) (c : Url_classifier) : res Url_classifier :=
  try_line line (fun url => push NDEBUG url c) c.

Definition process_input_buff (flush : bool) (k : Connection) (c : Url_classifier) : res (Connection * Url_classifier) :=
  if bool_decide (m_input_buff k = []) then val (k, c) else
  x <~ input_loop [] (m_input_buff k) (m_num_urls k) c ;;
  let '(rest, n, c) := x in
  if flush && negb (bool_decide (rest = [])) then
    c <~ flush_line rest c ;; val (mk_Connection [] n, c)
  else val (mk_Connection rest n, c).

(** [connection_read_cb] with the octets read; none is the end of the
    connection. *)
Definition connection_read_cb (b : list Z) (k : Connection) (c : Url_classifier) : res (Connection * Url_classifier) :=
  if bool_decide (b = []) then process_input_buff true k c
  else process_input_buff false (mk_Connection (m_input_buff k ++ b) (m_num_urls k)) c.

(** The pieces of a stream, in order. *)
Fixpoint read_chunks (bs : list (list Z)) (k : Connection) (c : Url_classifier) : res (Connection * Url_classifier) :=
  match bs with
  | [] => val (k, c)
  | b :: bs => kc <~ connection_read_cb b k c ;; read_chunks bs (fst kc) (snd kc)
  end.

(** ** The console *)
Inductive command := Cmd_qlen | Cmd_dumpq | Cmd_quit | Cmd_reschedule | Cmd_status | Cmd_help | Cmd_none.

Definition interactive_cmd (cmd : list Z) : command :=
  if bool_decide (cmd = str "qlen") then Cmd_qlen
  else if bool_decide (cmd = str "dumpq") then Cmd_dumpq
  else if bool_decide (cmd = str "quit") then Cmd_quit
  else if bool_decide (cmd = str "reschedule") then Cmd_reschedule
  else if bool_decide (cmd = str "status") then Cmd_status
  else if bool_decide (cmd = str "help") || bool_decide (cmd = str "h") then Cmd_help
  else Cmd_none.

Fixpoint interactive_loop (cur s : list Z) : list (list Z) * list Z :=
  match s with
  | [] => ([], cur)
  | x :: s =>
      if is_eol x then
        let '(cmds, rest) := interactive_loop [] s in
        (if 1 <? zlen cur then cur :: cmds else cmds, rest)
      else interactive_loop (cur ++ [x]) s
  end.

(** [interactive_process]: the commands run, and the new buffer, which keeps
    a line that was flushed. *)
Definition interactive_process (flush : bool) (interactive_buff : list Z) : list command * list Z :=
  if bool_decide (interactive_buff = []) then ([], []) else
  let '(cmds, rest) := interactive_loop [] interactive_buff in
  (interactive_cmd <$> (cmds ++ if flush && negb (bool_decide (rest = [])) then [rest] else []), rest).
End Input.

(** ** Reference: the lines of a stream *)

(** Complete lines and what follows the last line end. *)
Fixpoint split_lines (cur s : list Z) : list (list Z) * list Z :=
  match s with
  | [] => ([], cur)
  | x :: s =>
      if is_eol x then let '(ls, rest) := split_lines [] s in (cur :: ls, rest)
      else split_lines (cur ++ [x]) s
  end.

Section Spec.
Context {BR : BoostRegex} {PQ : PriorityQueue} {HI : HostIndex} (NDEBUG : bool) (max_size : Z).

Definition parsed (line : list Z) : option Url :=
  match Url_of NDEBUG max_size line with Some (Value u) => Some u | _ => None end.

(** A line that is pushed: of two characters or more, an absolute http URL. *)
Definition accepted (line : list Z) : option Url :=
  if 1 <? zlen line then
    u ← parsed line;
    if Url_absolute u && bool_decide (m_scheme u = str "http") then Some u else None
  else None.

(** ** Pieces *)
Lemma input_loop_app a : forall cur b n c,
  input_loop NDEBUG max_size cur (a ++ b) n c
  = (x <~ input_loop NDEBUG max_size cur a n c ;; let '(r, n, c) := x in input_loop NDEBUG max_size r b n c)%res.
Proof.
  induction a as [|x a IH]; intros cur b n c; [done|]. cbn [app input_loop]. destruct (is_eol x); [|apply IH].
  destruct (if 1 <? zlen cur then _ else _) as [[nc|e]|]; [|done|done]. cbn [rbind]. apply IH.
Qed.

Lemma input_loop_cur a : forall cur b n c, Forall (fun x => is_eol x = false) a ->
  input_loop NDEBUG max_size cur (a ++ b) n c = input_loop NDEBUG max_size (cur ++ a) b n c.
Proof.
  induction a as [|x a IH]; intros cur b n c Ha; [by rewrite app_nil_r|]. apply Forall_cons in Ha as [Hx Ha].
  cbn [app input_loop]. rewrite Hx, IH by done. by rewrite <-(assoc_L (++)).
Qed.

Lemma input_loop_rest s : forall cur n c r n' c', Forall (fun x => is_eol x = false) cur ->
  input_loop NDEBUG max_size cur s n c = val (r, n', c') -> Forall (fun x => is_eol x = false) r.
Proof.
  induction s as [|x s IH]; intros cur n c r n' c' Hc H; cbn [input_loop] in H.
  - by injection H as <- _ _.
  - destruct (is_eol x) eqn:Ex.
    + destruct (if 1 <? zlen cur then _ else _) as [[nc|e]|]; [|done|done]. cbn [rbind] in H. by eapply IH; [|exact H].
    + eapply IH; [|exact H]. apply Forall_app. by repeat constructor.
Qed.

Definition eol_free (k : Connection) : Prop := Forall (fun x => is_eol x = false) (m_input_buff k).

Lemma read_piece b k c : b <> [] -> connection_read_cb NDEBUG max_size b k c
  = (x <~ input_loop NDEBUG max_size [] (m_input_buff k ++ b) (m_num_urls k) c ;;
     let '(r, n, c) := x in val (mk_Connection r n, c))%res.
Proof.
  intros Hb. unfold connection_read_cb, process_input_buff. rewrite bool_decide_false by done. cbn [m_input_buff m_num_urls].
  rewrite bool_decide_false; [done|]. by intros [_ ?]%app_eq_nil.
Qed.

Lemma read_two a b k c : a <> [] -> b <> [] -> eol_free k ->
  (kc <~ connection_read_cb NDEBUG max_size a k c ;; connection_read_cb NDEBUG max_size b (fst kc) (snd kc))%res
  = connection_read_cb NDEBUG max_size (a ++ b) k c.
Proof.
  intros Ha Hb Hk. rewrite !read_piece by (first [done|by intros [? _]%app_eq_nil]). rewrite (assoc_L (++)), (input_loop_app (_ ++ a)).
  destruct (input_loop NDEBUG max_size [] (m_input_buff k ++ a) (m_num_urls k) c) as [[[[r n] c1]|e]|] eqn:E; [|done|done].
  cbn [rbind val fst snd]. rewrite read_piece by done. cbn [m_input_buff m_num_urls].
  rewrite (input_loop_cur r) by (by eapply (input_loop_rest _ [])). done.
Qed.

Lemma read_eol_free b k c k' c' : b <> [] -> connection_read_cb NDEBUG max_size b k c = val (k', c') -> eol_free k'.
Proof.
  intros Hb. rewrite read_piece by done. destruct (input_loop _ _ _ _ _ _) as [[[[r n] c1]|e]|] eqn:E; [|done|done].
  cbn. intros [= <- _]. by eapply (input_loop_rest _ []).
Qed.

Lemma read_chunks_concat bs : forall b k c, b <> [] -> Forall (fun b => b <> []) bs -> eol_free k ->
  read_chunks NDEBUG max_size (b :: bs) k c = connection_read_cb NDEBUG max_size (b ++ concat bs) k c.
Proof.
  induction bs as [|b' bs IH]; intros b k c Hb Hbs Hk.
  - cbn. rewrite app_nil_r. destruct (connection_read_cb _ _ b k c) as [[[]|]|]; done.
  - apply Forall_cons in Hbs as [Hb' Hbs]. cbn [concat]. rewrite (assoc_L (++)), <-(IH (b ++ b')) by (first [done|by intros [? _]%app_eq_nil]).
    cbn [read_chunks]. rewrite <-read_two by done.
    destruct (connection_read_cb NDEBUG max_size b k c) as [[[k1 c1]|e]|]; done.
Qed.

(** ** What is pushed *)
Hypothesis Hnd : NDEBUG = true.

Lemma Url_of_total s : bytes_ok s -> 3 * zlen s + 1 < max_size ->
  (exists u, Url_of NDEBUG max_size s = val u /\ parsed s = Some u)
  \/ (exists w, Url_of NDEBUG max_size s = throw (UrlParseError w) /\ parsed s = None).
Proof using Hnd.
  intros Hb Hm. pose proof (Url_of_ensures NDEBUG max_size s Hb Hm) as H. unfold parsed.
  destruct (Url_of NDEBUG max_size s) as [[u|e]|]; [left; by exists u| |cbn in H; congruence].
  right. destruct e; cbn in H; try done. by eexists.
Qed.

(** [l] are the URLs that a call pushed. *)
Definition pushes (l : list Url) (c c' : Url_classifier) : Prop := classifier_ok c' /\ contents c' ≡ₚ l ++ contents c.

Lemma take_line_ok line n c : bytes_ok line -> 3 * zlen line + 1 < max_size -> 1 < zlen line -> classifier_ok c ->
  exists c', take_line NDEBUG max_size line (wrap64 n) c = val (wrap64 (n + zlen (option_list (accepted line))), c')
    /\ pushes (option_list (accepted line)) c c'.
Proof using Hnd.
  intros Hb Hm Hl Hok. unfold take_line, try_line, accepted. rewrite (proj2 (Z.ltb_lt _ _)) by done.
  destruct (Url_of_total line Hb Hm) as [(u & -> & ->)|(w & -> & ->)]; cbn -[Url_of str].
  - destruct (Url_absolute u && _); cbn.
    + destruct (push_ok NDEBUG u c Hok) as (c' & -> & Hok' & Hc & _). exists c'. cbn. rewrite wrap64_add. by split.
    + exists c. rewrite Z.add_0_r. by split.
  - exists c. rewrite Z.add_0_r. by split.
Qed.

Lemma flush_line_ok line c : bytes_ok line -> 3 * zlen line + 1 < max_size -> classifier_ok c ->
  exists c', flush_line NDEBUG max_size line c = val c' /\ pushes (option_list (parsed line)) c c'.
Proof using Hnd.
  intros Hb Hm Hok. unfold flush_line, try_line.
  destruct (Url_of_total line Hb Hm) as [(u & -> & ->)|(w & -> & ->)]; cbn.
  - destruct (push_ok NDEBUG u c Hok) as (c' & -> & Hok' & Hc & _). exists c'. by split.
  - exists c. by split.
Qed.

Lemma input_loop_ok s : forall cur n c, bytes_ok (cur ++ s) -> 3 * zlen (cur ++ s) + 1 < max_size -> classifier_ok c ->
  let '(ls, r) := split_lines cur s in
  exists c', input_loop NDEBUG max_size cur s (wrap64 n) c = val (r, wrap64 (n + zlen (omap accepted ls)), c')
    /\ pushes (omap accepted ls) c c' /\ bytes_ok r /\ 3 * zlen r + 1 < max_size.
Proof using Hnd.
  induction s as [|x s IH]; intros cur n c Hb Hm Hok; cbn [split_lines input_loop].
  - rewrite app_nil_r in Hb, Hm. exists c. rewrite Z.add_0_r. by split.
  - pose proof Hb as Hb'. apply bytes_ok_app in Hb' as [Hbc Hbs]. apply Forall_cons in Hbs as [_ Hbs].
    rewrite zlen_app, zlen_cons in Hm. pose proof (zlen_nonneg s). pose proof (zlen_nonneg cur). destruct (is_eol x).
    + assert (Hline : exists c1, (if 1 <? zlen cur then take_line NDEBUG max_size cur (wrap64 n) c else val (wrap64 n, c))
        = val (wrap64 (n + zlen (option_list (accepted cur))), c1) /\ pushes (option_list (accepted cur)) c c1).
      { zcase (1 <? zlen cur); [apply take_line_ok; [done|lia|done|done]|].
        exists c. unfold accepted. rewrite (proj2 (Z.ltb_ge _ _)) by done. cbn. rewrite Z.add_0_r. by split. }
      destruct Hline as (c1 & -> & Hok1 & Hc1). cbn [rbind val fst snd].
      specialize (IH [] (n + zlen (option_list (accepted cur))) c1 Hbs ltac:(cbn [app]; lia) Hok1).
      destruct (split_lines [] s) as [ls r]. destruct IH as (c2 & -> & [Hok2 Hc2] & Hbr & Hmr). exists c2.
      assert (Ho : omap accepted (cur :: ls) = option_list (accepted cur) ++ omap accepted ls).
      { cbn. by destruct (accepted cur). }
      rewrite Ho, zlen_app, Z.add_assoc. split_and!; [done| |done|done]. split; [done|].
      rewrite Hc2, Hc1, <-(assoc_L (++)). apply Permutation_app_swap_app.
    + apply IH; [|rewrite !zlen_app, zlen_cons, zlen_nil; lia|done]. by rewrite <-(assoc_L (++)).
Qed.

Lemma stream_ok b k n c : b <> [] -> eol_free k -> m_num_urls k = wrap64 n -> bytes_ok (m_input_buff k ++ b) ->
  3 * zlen (m_input_buff k ++ b) + 1 < max_size -> classifier_ok c ->
  let '(ls, r) := split_lines [] (m_input_buff k ++ b) in
  exists c1 c2, connection_read_cb NDEBUG max_size b k c = val (mk_Connection r (wrap64 (n + zlen (omap accepted ls))), c1)
    /\ pushes (omap accepted ls) c c1
    /\ connection_read_cb NDEBUG max_size [] (mk_Connection r (wrap64 (n + zlen (omap accepted ls)))) c1
       = val (mk_Connection [] (wrap64 (n + zlen (omap accepted ls))), c2)
    /\ pushes (if bool_decide (r = []) then [] else option_list (parsed r)) c1 c2.
Proof using Hnd.
  intros Hb Hk Hn Hbytes Hm Hok.
  pose proof (input_loop_ok (m_input_buff k ++ b) [] n c Hbytes Hm Hok) as H.
  destruct (split_lines [] (m_input_buff k ++ b)) as [ls r]. destruct H as (c1 & Hl & [Hok1 Hc1] & Hbr & Hmr).
  pose proof (input_loop_rest _ [] _ _ _ _ _ ltac:(constructor) Hl) as Hr.
  rewrite read_piece, Hn, Hl by done. cbn [rbind val]. exists c1.
  assert (Hend : exists c2, connection_read_cb NDEBUG max_size [] (mk_Connection r (wrap64 (n + zlen (omap accepted ls)))) c1
       = val (mk_Connection [] (wrap64 (n + zlen (omap accepted ls))), c2)
    /\ pushes (if bool_decide (r = []) then [] else option_list (parsed r)) c1 c2); [|destruct Hend as (c2 & ? & ?); by exists c2].
  unfold connection_read_cb, process_input_buff. rewrite bool_decide_true by done. cbn [m_input_buff m_num_urls].
  case_bool_decide as Hnil; [subst r; exists c1; by split|].
  pose proof (input_loop_cur r [] [] (wrap64 (n + zlen (omap accepted ls))) c1 Hr) as Hcur.
  rewrite app_nil_r in Hcur. rewrite Hcur. cbn [app input_loop val rbind]. rewrite bool_decide_false by done. cbn [negb andb].
  destruct (flush_line_ok r c1 Hbr Hmr Hok1) as (c2 & -> & Hp). by exists c2.
Qed.
End Spec.
