(* ===== verification/CrawlerInv.v ===== *)
(** * Invariants of the crawler

    What holds between two events: every busy handle has its URL at the front
    of its queue, has asked for the robots.txt of the host of that URL, and
    fetches it only if the answer lets it through.  What a handle was told is
    read off the record of what passed between it and libcurl, not off the
    handle. *)

From stdpp Require Import gmap.
From S2P Require Import Prelude Regex Utils UrlEsc Path Url Robots Doc Classifier Crawler.

Lemma cbind_ret {A B} (m : run_ A) (k : A -> run_ B) b : cbind m k = ret b -> exists a, m = ret a /\ k a = ret b.
Proof. destruct m as [[a|e|c]|]; try done. cbn. eauto. Qed.

Lemma lift_ret {A} (m : res A) a : lift m = ret a -> m = val a.
Proof. destruct m as [[x|e]|]; try done. cbn. by intros [= ->]. Qed.

(** Takes a run that returns apart, one call at a time. *)
Ltac run_inv H :=
  repeat (first
    [ let x := fresh "x" in let Hx := fresh "Hx" in
      apply cbind_ret in H as (x & Hx & H); try (apply lift_ret in Hx) ]).

Section Inv.
Context {BR : BoostRegex} {MG : Mongo} {PQ : PriorityQueue} {HI : HostIndex} (NDEBUG : bool) (max_size : Z).
Context (UNSET : Z) (setopt_ok : transfer -> bool) (add_handle : transfer -> Z).

Local Abbreviation reschedule := (reschedule NDEBUG max_size UNSET setopt_ok add_handle).

(** ** The record of transfers *)

(** What a handle has seen: the headers and the content since its last transfer
    was started, and the last transfer for a robots.txt with, once it is
    finished, its report and its content. *)
Record seen := mk_seen {
  in_flight : option (handle_state * transfer);
  heads : list Z;
  body : list Z;
  robots_txt : option (transfer * option (report * list Z))
}.

Definition observe (i : nat) (v : seen) (e : event) : seen :=
  match e with
  | Started j k t =>
      if decide (j = i) then mk_seen (Some (k, t)) [] [] (if decide (k = ROBOTS) then Some (t, None) else robots_txt v) else v
  | Header_data j b => if decide (j = i) then mk_seen (in_flight v) (heads v ++ b) (body v) (robots_txt v) else v
  | Content_data j b => if decide (j = i) then mk_seen (in_flight v) (heads v) (body v ++ b) (robots_txt v) else v
  | Finished j r =>
      if decide (j = i) then
        mk_seen None (heads v) (body v)
          (match in_flight v with Some (ROBOTS, t) => Some (t, Some (r, body v)) | _ => robots_txt v end)
      else v
  end.

Definition seen_by (i : nat) (l : list event) : seen := foldl (observe i) (mk_seen None [] [] None) l.

Lemma seen_by_snoc i l e : seen_by i (l ++ [e]) = observe i (seen_by i l) e.
Proof. unfold seen_by. by rewrite foldl_app. Qed.

(** The address that a transfer asks for. *)
Definition requested (t : transfer) : option (list Z) :=
  last (omap (fun o => match o with (CURLOPT_URL, Text s) => Some s | _ => None end) t).

(** The transfer asks for the robots.txt of the host of [p]. *)
Definition robots_of (p : Url) (t : transfer) : Prop := exists v ru,
  Url_normalize NDEBUG max_size p = val v /\ requested t = Some (Url_get ru)
  /\ m_scheme ru = str "http" /\ escape (m_host v) URL_CHAR_AUTH = Value (m_host ru)
  /\ (10 < max_size -> Path_get (_path ru) = str "/robots.txt").

(** The last robots.txt that handle [i] asked for is that of the host of [u]. *)
Definition robots_for (i : nat) (u : Url) (l : list event) : Prop :=
  exists p t a, robots_txt (seen_by i l) = Some (t, a) /\ robots_of p t /\ m_host p = m_host u.

(** What an answer to a request for robots.txt means for the page [url]: there
    was none, it could not be read, or its rules let the page through. *)
Definition permitted (ua : list Z) (url : Url) (r : report) (content : list Z) : Prop :=
  ~ (rp_result r = 0 /\ rp_code r = 200)
  \/ (exists e, yylex content Robots_new = Some (Throw e))
  \/ (exists n rb, yylex content Robots_new = Some (Value (n, rb))
        /\ (n < 0 \/ path_allowed ua (Path_get (_path url)) rb = Value true)).

(** A page is fetched, by HEAD or GET, only by a handle that asked for the
    robots.txt of its host last, had an answer, and was permitted by it. *)
Definition polite_started (ua : list Z) (v : seen) (k : handle_state) (t : transfer) : Prop :=
  k = HEAD \/ k = CONTENT ->
  exists u url p rt r b, Url_normalize NDEBUG max_size u = val url /\ requested t = Some (Url_get url)
    /\ robots_txt v = Some (rt, Some (r, b)) /\ robots_of p rt /\ m_host p = m_host u /\ permitted ua url r b.

Inductive polite (ua : list Z) : list event -> Prop :=
| polite_nil : polite ua []
| polite_snoc l e : polite ua l ->
    match e with Started i k t => polite_started ua (seen_by i l) k t | _ => True end -> polite ua (l ++ [e]).

Lemma polite_at ua l : polite ua l -> forall l1 i k t l2, l = l1 ++ Started i k t :: l2 -> polite_started ua (seen_by i l1) k t.
Proof.
  induction 1 as [|l x Hp IH Hx]; intros l1 i k t l2 El; [by destruct l1|].
  destruct l2 as [|y l2 _] using rev_ind.
  - by apply app_inj_tail in El as [-> ->].
  - rewrite app_comm_cons, (assoc_L (++)) in El. apply app_inj_tail in El as [-> _]. by eapply IH.
Qed.

(** ** The entry of an answer *)

(** [e] is what [done] makes of an answer. *)
Definition entry_of (r : report) (b : list Z) (e : Robots_entry) : Prop :=
  if (rp_result r =? CURLE_OK) && (rp_code r =? 200) then parse_robots b = Some e else e = Robots_entry_of NOT_AVAILABLE.

(** The entry [e] lets [u] through. *)
Definition allowed (ua : list Z) (e : Robots_entry) (u : Url) : Prop :=
  exists url, Url_normalize NDEBUG max_size u = val url /\ robots_allow ua e url = Value true.

Lemma entry_permits ua r b e url : entry_of r b e -> robots_allow ua e url = Value true -> permitted ua url r b.
Proof.
  unfold entry_of, permitted. destruct ((rp_result r =? CURLE_OK) && (rp_code r =? 200)) eqn:E.
  2: { intros _ _. left. intros [H1 H2]. rewrite H1, H2 in E. discriminate. }
  unfold parse_robots. destruct (yylex b Robots_new) as [[[n rb]|x]|] eqn:Ey; [| |discriminate].
  - intros [= <-] Ha. right. right. exists n, rb. split; [reflexivity|]. zcase (n <? 0); [by left|right]. exact Ha.
  - intros _ _. right. left. by exists x.
Qed.

Lemma robots_url_parts host u ru : robots_url max_size host u = val ru ->
  m_scheme ru = str "http" /\ escape host URL_CHAR_AUTH = Value (m_host ru)
  /\ (10 < max_size -> Path_get (_path ru) = str "/robots.txt").
Proof.
  unfold robots_url, put_scheme. destruct (rx RE_SCHEME (str "http")); [|discriminate]. cbn [rbind val].
  unfold put_host, catch_all, try_catch.
  destruct (escape host URL_CHAR_AUTH) as [norm|x]; cbn [lift_outcome rbind]; [|destruct x; discriminate].
  destruct (valid_host norm) as [[[]|x]|]; cbn [rbind]; try discriminate; [|destruct x; discriminate].
  cbn [val rbind]. unfold put_path.
  assert (escape (str "robots.txt") URL_CHAR_PATH = Value (str "robots.txt")) as -> by reflexivity. cbn [lift_outcome rbind].
  destruct (Path_assign max_size (str "robots.txt")) as [pth|] eqn:Ep; [|discriminate]. cbn [m_has_authority set_has_authority].
  intros [= <-]. cbn. split_and!; [reflexivity|reflexivity|]. intros Hm.
  rewrite Path_assign_ok in Ep by (change (zlen (str "robots.txt")) with 10; lia). by injection Ep as <-.
Qed.

(** ** The invariant of a handle *)

(** The last request for robots.txt of handle [i] was answered, for the host of
    [u], and [e] is the entry made of the answer. *)
Definition answered (i : nat) (u : Url) (e : Robots_entry) (l : list event) : Prop :=
  exists p t r b, robots_txt (seen_by i l) = Some (t, Some (r, b)) /\ robots_of p t /\ m_host p = m_host u /\ entry_of r b e.

(** A document for the URL [u]: its address is normalised by [reschedule] and
    by [load_url]. *)
Definition doc_of (u : Url) (d : Doc) : Prop :=
  exists a, Url_normalize NDEBUG max_size u = val a /\ Url_normalize NDEBUG max_size a = val (d_url d).

(** A request for robots.txt is on its way. *)
Definition asking (i : nat) (u : Url) (l : list event) : Prop :=
  exists p t, in_flight (seen_by i l) = Some (ROBOTS, t) /\ robots_txt (seen_by i l) = Some (t, None)
    /\ robots_of p t /\ m_host p = m_host u.

(** A page is on its way. *)
Definition fetching (ua : list Z) (i : nat) (h : EasyHandle) (u : Url) (l : list event) : Prop :=
  (exists t, in_flight (seen_by i l) = Some (h_state h, t))
  /\ exists e, robots_entry h = Some e /\ answered i u e l /\ allowed ua e u.

(** The handle has a URL in work. *)
Definition working (g : GlobalInfo) (i : nat) (h : EasyHandle) : Prop :=
  exists u q, queue (h_id h) (classifier g) = Some (u :: q)
    /\ (h_state h = ROBOTS -> asking i u (log g))
    /\ (h_state h = HEAD \/ h_state h = CONTENT -> fetching (user_agent g) i h u (log g)
          /\ exists d, h_doc h = Some d /\ doc_of u d).

Record handle_ok (g : GlobalInfo) (i : nat) (h : EasyHandle) : Prop := {
  hk_queue : queue (h_id h) (classifier g) <> None;
  hk_next : h_state h <> NEXT;
  hk_data : m_headers_os h = heads (seen_by i (log g)) /\ m_content_os h = body (seen_by i (log g));
  hk_work : h_state h <> IDLE -> h_doc h <> None /\ working g i h
}.

Record crawler_ok (g : GlobalInfo) : Prop := {
  ck_classifier : classifier_ok (classifier g);
  ck_handles : forall i h, m_easyHandles g !! i = Some h -> h_id h = Z.of_nat i /\ handle_ok g i h;
  ck_polite : polite (user_agent g) (log g)
}.

Lemma working_robots g i h : h_state h <> IDLE -> h_state h <> NEXT -> working g i h ->
  exists u q, queue (h_id h) (classifier g) = Some (u :: q) /\ robots_for i u (log g).
Proof.
  intros Hi Hn (u & q & Hq & Ha & Hf). exists u, q. split; [done|]. destruct (h_state h); [done| |done| |].
  - destruct (Ha eq_refl) as (p & t & _ & H1 & H2 & H3). by exists p, t, None.
  - destruct (Hf ltac:(by left)) as [(_ & e & _ & (p & t & r & b & H1 & H2 & H3 & _) & _) _]. by exists p, t, (Some (r, b)).
  - destruct (Hf ltac:(by right)) as [(_ & e & _ & (p & t & r & b & H1 & H2 & H3 & _) & _) _]. by exists p, t, (Some (r, b)).
Qed.

(** [g'] differs from [g] only in handle [i], its queue and its transfers. *)
Record frame (i : nat) (g g' : GlobalInfo) : Prop := {
  fr_agent : user_agent g' = user_agent g;
  fr_queue : forall n, n <> Z.of_nat i -> queue n (classifier g') = queue n (classifier g);
  fr_handles : forall j, j <> i -> m_easyHandles g' !! j = m_easyHandles g !! j;
  fr_log : forall j, j <> i -> seen_by j (log g') = seen_by j (log g)
}.

Lemma frame_refl i g : frame i g g.
Proof. by split. Qed.

Lemma frame_trans i a b c : frame i a b -> frame i b c -> frame i a c.
Proof.
  intros [A1 A2 A3 A4] [B1 B2 B3 B4]. split.
  - congruence.
  - intros n Hn. by rewrite B2, A2.
  - intros j Hj. by rewrite B3, A3.
  - intros j Hj. by rewrite B4, A4.
Qed.

Definition event_of (e : event) : nat :=
  match e with Started i _ _ | Header_data i _ | Content_data i _ | Finished i _ => i end.

(** An event is seen by its handle only. *)
Lemma seen_by_other j l e : event_of e <> j -> seen_by j (l ++ [e]) = seen_by j l.
Proof. intros Hj. rewrite seen_by_snoc. by destruct e; cbn in *; rewrite decide_False. Qed.

(** What a handle is doing depends on what it has seen only. *)
Lemma working_seen g g' i h : classifier g' = classifier g -> user_agent g' = user_agent g ->
  seen_by i (log g') = seen_by i (log g) -> working g i h -> working g' i h.
Proof. intros Hc Hu Hl. unfold working, asking, fetching, answered. by rewrite Hc, Hu, Hl. Qed.

Lemma frame_other i g g' j h : frame i g g' -> j <> i -> h_id h = Z.of_nat j -> handle_ok g j h -> handle_ok g' j h.
Proof.
  intros F Hj Hid [Hq Hn Hd Hw]. assert (Hq' : queue (h_id h) (classifier g') = queue (h_id h) (classifier g)).
  { apply (fr_queue _ _ _ F). rewrite Hid. lia. }
  pose proof (fr_log _ _ _ F j Hj) as Hl.
  split; [by rewrite Hq'|done|by rewrite Hl|]. intros Hs. destruct (Hw Hs) as [Hdoc Hw']. split; [done|].
  unfold working, asking, fetching, answered in *. by rewrite Hq', (fr_agent _ _ _ F), Hl.
Qed.

(** A step of handle [i] keeps the invariant when it keeps the frame and
    leaves its own handle well. *)
Lemma frame_ok i g g' : crawler_ok g -> frame i g g' -> classifier_ok (classifier g') -> polite (user_agent g') (log g') ->
  (forall h, m_easyHandles g' !! i = Some h -> h_id h = Z.of_nat i /\ handle_ok g' i h) -> crawler_ok g'.
Proof.
  intros [Hc Hh Hp] F Hc' Hp' Hi. split; [done| |done]. intros j h Hj.
  destruct (decide (j = i)) as [->|Hji]; [by apply Hi|]. rewrite (fr_handles _ _ _ F) in Hj by done.
  destruct (Hh j h Hj) as [Hid Hk]. split; [done|]. by apply (frame_other i g g' j h).
Qed.

(** ** Calls of the classifier *)
Lemma queue_same_host c n u q : classifier_ok c -> queue n c = Some (u :: q) -> Forall (fun v => m_host v = m_host u) q.
Proof.
  intros Hok (i & e & _ & Hi & _ & Hq)%queue_row. destruct (row_ok c i e Hok Hi) as (q' & Hq' & Hh).
  assert (q' = u :: q) as -> by congruence. apply Forall_cons in Hh as [Hu Hh].
  eapply Forall_impl; [exact Hh|]. cbn. congruence.
Qed.

(** A [peek] that returns. *)
Lemma peek_returns n c u c' : classifier_ok c -> peek NDEBUG n c = val (u, c') ->
  classifier_ok c' /\ (exists q, queue n c' = Some (u :: q)) /\ (forall m, m <> n -> queue m c' = queue m c)
  /\ (forall v q, queue n c = Some (v :: q) -> u = v /\ c' = c).
Proof.
  intros Hok Hp. destruct (queue n c) as [[|v q]|] eqn:Hq.
  2: { rewrite (peek_front NDEBUG n v q) in Hp by assumption. injection Hp as <- <-. split_and!; eauto.
       intros v' q' [= <- <-]. eauto. }
  all: destruct (top_empty c) eqn:Ht; [rewrite peek_empty in Hp by auto; discriminate|];
    destruct (peek_moves NDEBUG n c Hok) as (u' & q & c1 & Hp' & Hok' & _ & Hqs & _); [auto|assumption|];
    rewrite Hp in Hp'; injection Hp' as <- <-; split_and!; [assumption|exists q; by rewrite Hqs, decide_True| |discriminate];
    intros m Hm; by rewrite Hqs, decide_False.
Qed.

(** A [pop] that returns took the front of the queue. *)
Lemma pop_returns n c c' : classifier_ok c -> pop n c = val c' ->
  exists u q, queue n c = Some (u :: q) /\ classifier_ok c' /\ queue n c' = Some q
    /\ (forall m, m <> n -> queue m c' = queue m c).
Proof.
  intros Hok Hp. destruct (queue n c) as [[|u q]|] eqn:Hq.
  2: { destruct (pop_ok n u q c Hok Hq) as (c1 & Hp' & Hok' & _ & Hqs). rewrite Hp in Hp'. injection Hp' as <-.
       exists u, q. split_and!; [reflexivity|assumption|by rewrite Hqs, decide_True|]. intros m Hm. by rewrite Hqs, decide_False. }
  all: rewrite pop_error in Hp by (try assumption; congruence); discriminate.
Qed.

(** [load_url] never reports a document, and sets the address of [d]. *)
Lemma load_rows_url rows : forall b d d', load_rows NDEBUG max_size rows b d = val d' -> d_url d' = d_url d.
Proof.
  induction rows as [|r rows IH]; intros b d d' H; cbn [load_rows] in H; [by injection H as <-|].
  unfold load_fields in H. destruct (match b_eff_url r with Some _ => _ | None => _ end) as [[e|x]|]; cbn [rbind] in H; try discriminate.
  cbn [val rbind] in H. destruct (assert_ NDEBUG (negb b)) as [[[]|x]|]; cbn [rbind] in H; try discriminate. by apply IH in H.
Qed.

Lemma load_url_false c u d b d' : load_url NDEBUG max_size c u d = val (b, d') ->
  b = false /\ Url_normalize NDEBUG max_size u = val (d_url d').
Proof.
  unfold load_url. destruct (Url_normalize NDEBUG max_size u) as [[x|e]|]; cbn; try discriminate.
  destruct (load_rows _ _ _ _ _) as [[y|e]|] eqn:E; cbn; try discriminate. intros [= <- <-]. apply load_rows_url in E. by rewrite E.
Qed.

(** ** Setting up a transfer *)

(** The handle may be scheduled: a state that goes on with a URL has one, and
    one that goes on with a page was permitted to. *)
Definition ready (g : GlobalInfo) (i : nat) (h : EasyHandle) : Prop :=
  queue (h_id h) (classifier g) <> None /\ h_state h <> NEXT
  /\ (m_headers_os h = heads (seen_by i (log g)) /\ m_content_os h = body (seen_by i (log g)))
  /\ (h_state h = ROBOTS -> exists u q, queue (h_id h) (classifier g) = Some (u :: q))
  /\ (h_state h = HEAD \/ h_state h = CONTENT -> exists u q e, queue (h_id h) (classifier g) = Some (u :: q)
        /\ robots_entry h = Some e /\ answered i u e (log g) /\ allowed (user_agent g) e u).

(** What a step of handle [i] leaves behind. *)
Definition stepped (i : nat) (g g' : GlobalInfo) : Prop :=
  frame i g g' /\ classifier_ok (classifier g') /\ polite (user_agent g') (log g')
  /\ exists h, m_easyHandles g' !! i = Some h /\ h_id h = Z.of_nat i /\ handle_ok g' i h.

Lemma start_transfer_ret i t h g g' : start_transfer setopt_ok add_handle i t h g = ret g' ->
  g' = mk_GlobalInfo (classifier g) (<[i := h]> (m_easyHandles g)) (mongodb g) (dl_bytes g) (m_ndocs_saved g) (user_agent g)
         (log g ++ [Started i (h_state h) t]).
Proof. unfold start_transfer. destruct (setopt_ok t); [|discriminate]. intros H. run_inv H. by injection H. Qed.

Lemma seen_started i k t l : seen_by i (l ++ [Started i k t])
  = mk_seen (Some (k, t)) [] [] (if decide (k = ROBOTS) then Some (t, None) else robots_txt (seen_by i l)).
Proof. rewrite seen_by_snoc. cbn. by rewrite decide_True. Qed.

(** What a transfer of handle [i] in state [k] for the front [u] of its queue
    needs. *)
Definition may_start (g : GlobalInfo) (i : nat) (h : EasyHandle) (u : Url) (t : transfer) : Prop :=
  (h_state h = ROBOTS /\ robots_of u t)
  \/ ((h_state h = HEAD \/ h_state h = CONTENT)
      /\ (exists url, Url_normalize NDEBUG max_size u = val url /\ requested t = Some (Url_get url))
      /\ (exists e, robots_entry h = Some e /\ answered i u e (log g) /\ allowed (user_agent g) e u)
      /\ exists d, h_doc h = Some d /\ doc_of u d).

Lemma started_polite i u t h g : may_start g i h u t -> polite_started (user_agent g) (seen_by i (log g)) (h_state h) t.
Proof.
  intros [[Hst _]|(_ & (url & Hu & Ht) & (e & _ & (p & rt & r & b & H1 & H2 & H3 & H4) & (url' & Hu' & Hal)) & _)] Hk.
  { rewrite Hst in Hk. by destruct Hk. }
  rewrite Hu in Hu'. injection Hu' as <-. exists u, url, p, rt, r, b. split_and!; try assumption. by eapply entry_permits.
Qed.

(** A transfer for the front [u] of the queue of handle [i]. *)
Lemma started_ok i u t h g g' : (i < length (m_easyHandles g))%nat -> h_id h = Z.of_nat i ->
  classifier_ok (classifier g) -> polite (user_agent g) (log g) ->
  (exists q, queue (h_id h) (classifier g) = Some (u :: q)) -> h_doc h <> None ->
  m_headers_os h = [] -> m_content_os h = [] -> may_start g i h u t ->
  start_transfer setopt_ok add_handle i t h g = ret g' -> stepped i g g'.
Proof.
  intros Hi Hid Hc Hp [q Hq] Hd Hh0 Hb0 Hst Hs%start_transfer_ret. pose proof (started_polite i u t h g Hst) as Hpol. subst g'.
  split_and!; cbn.
  - split; cbn; try reflexivity.
    + intros j Hj. by apply list_lookup_insert_ne.
    + intros j Hj. apply seen_by_other. cbn. congruence.
  - assumption.
  - by constructor.
  - exists h. split_and!; [by apply list_lookup_insert_eq|assumption|]. split; cbn -[seen_by]; rewrite ?seen_started; cbn -[seen_by].
    + by rewrite Hq.
    + destruct Hst as [[-> _]|([-> | ->] & _)]; discriminate.
    + by split.
    + intros _. split; [assumption|]. exists u, q. cbn. split_and!; [assumption|..].
      * intros E. destruct Hst as [[_ Hr]|([E'|E'] & _)]; [|congruence..]. exists u, t. rewrite seen_started. cbn.
        rewrite decide_True by assumption. split_and!; [by rewrite E|reflexivity|assumption|reflexivity].
      * intros Hk. destruct Hst as [[E _]|(_ & _ & (e & He & Hans & Hal) & Hdoc)]; [rewrite E in Hk; by destruct Hk|].
        split; [|exact Hdoc]. split; [exists t; by rewrite seen_started|]. exists e. split_and!; [assumption| |assumption].
        unfold answered. rewrite seen_started. cbn. rewrite decide_False by (destruct Hk; congruence). exact Hans.
Qed.

Lemma classifier_frame i g c : (forall n, n <> Z.of_nat i -> queue n c = queue n (classifier g)) -> frame i g (set_classifier c g).
Proof. intros H. by split. Qed.

Lemma stepped_frame i g g1 g2 : frame i g g1 -> stepped i g1 g2 -> stepped i g g2.
Proof. intros F (F' & ?). split; [by eapply frame_trans|assumption]. Qed.

Lemma empty_n_busy n c u q : classifier_ok c -> queue n c = Some (u :: q) -> empty_n n c = val false.
Proof. intros Hok Hq. by rewrite (empty_n_ok n c Hok), Hq. Qed.

Lemma get_content_keeps url pre d h t h' : get_content url pre d h = (t, h') ->
  h_id h' = h_id h /\ h_doc h' = h_doc h /\ h_state h' = h_state h /\ robots_entry h' = robots_entry h
  /\ m_headers_os h' = m_headers_os h /\ m_content_os h' = m_content_os h /\ requested t = Some (Url_get url).
Proof. unfold get_content. repeat case_match; intros [= <- <-]; by split_and!. Qed.

Lemma reschedule_ok i g g' h : classifier_ok (classifier g) -> polite (user_agent g) (log g) ->
  m_easyHandles g !! i = Some h -> h_id h = Z.of_nat i -> ready g i h -> reschedule i g = ret g' -> stepped i g g'.
Proof.
  intros Hc Hp Hi Hid (Hq & Hn & Hdata & Hrob & Hwork) H. unfold Crawler.reschedule in H. rewrite Hi in H.
  apply cbind_ret in H as (idle & Hidle & H). destruct idle.
  { injection H as <-. split_and!; [apply frame_refl|assumption|assumption|]. exists h. split_and!; [assumption|assumption|].
    split; [assumption|assumption|assumption|]. intros Hs. exfalso.
    assert (Hbusy : exists u q, queue (h_id h) (classifier g) = Some (u :: q)).
    { destruct (h_state h) eqn:E; [done|auto|done| |]; destruct Hwork as (u & q & e & Hu & _); eauto. }
    destruct Hbusy as (u & q & Hu). destruct (empty_top _); [|discriminate].
    apply lift_ret in Hidle. rewrite (empty_n_busy _ _ u q) in Hidle by assumption. discriminate. }
  clear Hidle. apply cbind_ret in H as ([u c] & Hpeek%lift_ret & H). apply cbind_ret in H as (url & Hurl%lift_ret & H).
  apply cbind_ret in H as ([pre d] & Hload%lift_ret & H). destruct (load_url_false _ _ _ _ _ Hload) as [-> Hdu].
  destruct (peek_returns _ _ _ _ Hc Hpeek) as (Hc' & [q Hq'] & Hother & Hfront). rewrite Hid in Hother.
  pose proof (classifier_frame i g c Hother) as F. pose proof (lookup_lt_Some _ _ _ Hi) as Hlt.
  apply (stepped_frame i g (set_classifier c g)); [assumption|].
  assert (Hcarry : h_state h = HEAD \/ h_state h = CONTENT ->
    exists e, robots_entry h = Some e /\ answered i u e (log g) /\ allowed (user_agent g) e u).
  { intros Hk. destruct (Hwork Hk) as (v & qv & e & Hv & He). destruct (Hfront v qv Hv) as [-> _]. by exists e. }
  assert (Hdoc : doc_of u d) by (by exists url).
  cbv zeta in H. cbn [h_state set_h_doc reset] in H. clear Hload Hwork Hfront.
  destruct (h_state h) eqn:E; [| |contradiction| |].
  1,2: apply cbind_ret in H as (ru & Hru%lift_ret & H); apply robots_url_parts in Hru as (R1 & R2 & R3);
    (eapply started_ok; [| | | | | | | | |exact H]; cbn [h_id h_doc h_state robots_entry set_h_doc set_h_state reset classifier
      set_classifier m_easyHandles user_agent log m_headers_os m_content_os];
     [assumption|assumption|assumption|assumption|by exists q|discriminate|reflexivity|reflexivity|]);
    left; (split; [reflexivity|]); exists url, ru; by split_and!.
  - eapply started_ok; [| | | | | | | | |exact H]; cbn [h_id h_doc h_state robots_entry set_h_doc reset classifier set_classifier
      m_easyHandles user_agent log m_headers_os m_content_os];
      [assumption|assumption|assumption|assumption|by exists q|discriminate|reflexivity|reflexivity|].
    right. cbn. rewrite E. split_and!; [by left|by exists url|apply Hcarry; by left|by exists d].
  - destruct (get_content url false d _) as [t h1] eqn:Eg. apply get_content_keeps in Eg as (G1 & G2 & G3 & G4 & G5 & G6 & G7).
    cbn in G1, G2, G3, G4, G5, G6.
    eapply started_ok; [| | | | | | | | |exact H]; cbn [classifier set_classifier m_easyHandles user_agent log]; rewrite ?G1, ?G2, ?G5, ?G6;
      [assumption|assumption|assumption|assumption|by exists q|discriminate|reflexivity|reflexivity|].
    right. cbn. rewrite G3, G4, G2, E. split_and!; [by right|by exists url|apply Hcarry; by right|by exists d].
Qed.

(** The transfers that end, in the order of the record. *)
Definition ended (l : list event) : list (nat * report) :=
  omap (fun e => match e with Finished i r => Some (i, r) | _ => None end) l.

Lemma ended_app l1 l2 : ended (l1 ++ l2) = ended l1 ++ ended l2.
Proof. apply omap_app. Qed.

(** Scheduling only starts transfers. *)
Lemma reschedule_log i g g' : reschedule i g = ret g' -> exists l, log g' = log g ++ l /\ ended l = [].
Proof.
  intros H. unfold Crawler.reschedule in H. destruct (m_easyHandles g !! i) as [h|]; [|discriminate].
  apply cbind_ret in H as (idle & _ & H). destruct idle; [injection H as <-; exists []; by rewrite app_nil_r|].
  apply cbind_ret in H as ([u c] & _ & H). apply cbind_ret in H as (url & _ & H). apply cbind_ret in H as ([pre d] & _ & H).
  cbv zeta in H. destruct (h_state _); try discriminate H.
  1,2: apply cbind_ret in H as (ru & _ & H).
  4: destruct (get_content url pre d _) as [t h1].
  all: apply start_transfer_ret in H as ->; cbn; by eexists.
Qed.

(** ** Finished transfers *)

(** [g'] has another classifier, in which only the queue of handle [i]
    differs, and perhaps other documents; handles and transfers are the
    same. *)
Record quiet (i : nat) (g g' : GlobalInfo) : Prop := {
  qt_agent : user_agent g' = user_agent g;
  qt_queue : forall n, n <> Z.of_nat i -> queue n (classifier g') = queue n (classifier g);
  qt_handles : m_easyHandles g' = m_easyHandles g;
  qt_log : log g' = log g;
  qt_classifier : classifier_ok (classifier g')
}.

Lemma quiet_trans i a b c : quiet i a b -> quiet i b c -> quiet i a c.
Proof.
  intros [A1 A2 A3 A4 A5] [B1 B2 B3 B4 B5]. split; [congruence| |congruence|congruence|assumption].
  intros n Hn. by rewrite B2, A2.
Qed.

Lemma quiet_set i g c : classifier_ok c -> (forall n, n <> Z.of_nat i -> queue n c = queue n (classifier g)) ->
  quiet i g (set_classifier c g).
Proof. intros Hc Hq. by split. Qed.

Lemma quiet_frame i g g' h : quiet i g g' -> frame i g (set_handle i h g').
Proof.
  intros [A1 A2 A3 A4 A5]. split; cbn; [assumption|assumption| |by rewrite A4].
  intros j Hj. rewrite list_lookup_insert_ne by congruence. by rewrite A3.
Qed.

(** The robots.txt of the host of the queue was asked for and answered. *)
Definition asked (g : GlobalInfo) (i : nat) (h : EasyHandle) : Prop := forall u q,
  queue (h_id h) (classifier g) = Some (u :: q) -> exists e, robots_entry h = Some e /\ answered i u e (log g).

Lemma answered_host i u v e l : m_host u = m_host v -> answered i u e l -> answered i v e l.
Proof. intros Hh (p & t & r & b & H1 & H2 & H3 & H4). exists p, t, r, b. split_and!; try assumption. congruence. Qed.

(** Popping the front leaves URLs of the same host. *)
Lemma pop_asked i g g' h u q : classifier_ok (classifier g) -> quiet i g g' ->
  queue (h_id h) (classifier g) = Some (u :: q) -> queue (h_id h) (classifier g') = Some q -> asked g i h -> asked g' i h.
Proof.
  intros Hc Q Hq Hq' Ha v qv Hv. rewrite Hq' in Hv. injection Hv as ->. rewrite (qt_log _ _ _ Q).
  pose proof (queue_same_host _ _ _ _ Hc Hq) as Hh. apply Forall_cons in Hh as [Hh _].
  destruct (Ha u (v :: qv) Hq) as (e & He & Hans). exists e. split; [assumption|]. by apply (answered_host i u).
Qed.

(** The texts of a handle are the data it was given. *)
Definition data_of (g : GlobalInfo) (i : nat) (h : EasyHandle) : Prop :=
  m_headers_os h = heads (seen_by i (log g)) /\ m_content_os h = body (seen_by i (log g)).

Lemma and_then_ret {A B} (m : run_ A) (k : A -> option (run_ B)) b : and_then m k = Some (ret b) -> exists a, m = ret a /\ k a = Some (ret b).
Proof. destruct m as [[a|e|c]|]; try discriminate. cbn. eauto. Qed.

Lemma next_url_ok i fuel : forall h d g h' d' g', classifier_ok (classifier g) -> h_id h = Z.of_nat i ->
  queue (h_id h) (classifier g) <> None -> h_state h = IDLE -> asked g i h -> data_of g i h ->
  next_url NDEBUG max_size fuel h d g = Some (ret (h', d', g')) -> quiet i g g' /\ h_id h' = h_id h /\ ready g' i h'.
Proof.
  induction fuel as [|fuel IH]; intros h d g h' d' g' Hc Hid Hq Hs Ha Hd H; [discriminate|]. cbn [next_url] in H.
  apply and_then_ret in H as (e & He%lift_ret & H). destruct e.
  { injection H as <- _ <-. split_and!; [by split|reflexivity|]. split_and!; [assumption|congruence|apply Hd|apply Hd|congruence|].
    intros [?|?]; congruence. }
  apply and_then_ret in H as ([u c] & Hpeek%lift_ret & H). apply and_then_ret in H as (url & Hurl%lift_ret & H).
  apply and_then_ret in H as ([pre d1] & Hload%lift_ret & H). apply load_url_false in Hload as [-> _]. cbv zeta in H.
  cbn [h_id set_h_state] in Hpeek. destruct (peek_returns _ _ _ _ Hc Hpeek) as (Hc' & [q Hq'] & Hother & Hfront).
  rewrite Hid in Hother. assert (Q : quiet i g (set_classifier c g)) by (by apply quiet_set).
  assert (Hrf : exists e, robots_entry h = Some e /\ answered i u e (log g)).
  { rewrite (empty_n_ok _ _ Hc) in He. destruct (queue (h_id h) (classifier g)) as [[|v qv]|] eqn:Ev;
      [discriminate| |discriminate]. destruct (Hfront v qv eq_refl) as [-> _]. by apply (Ha v qv). }
  destruct Hrf as (entry & Ee & Hans). cbn [robots_entry set_h_state] in H. rewrite Ee in H.
  destruct (negb _).
  { injection H as <- _ <-. split_and!; [assumption|reflexivity|].
    split_and!; cbn; [by rewrite Hq'|discriminate|apply Hd|apply Hd|eauto|by intros [?|?]]. }
  apply and_then_ret in H as (ok & Hok%lift_ret & H). destruct ok.
  - injection H as <- _ <-. split_and!; [assumption|reflexivity|].
    split_and!; cbn; [by rewrite Hq'|discriminate|apply Hd|apply Hd|discriminate|].
    intros _. exists u, q, entry. split_and!; [assumption|assumption|assumption|].
    exists url. split; [assumption|]. injection Hok as Hok. exact Hok.
  - apply and_then_ret in H as (c2 & Hpop%lift_ret & H). cbn [h_id set_h_state classifier set_classifier] in Hpop.
    destruct (pop_returns _ _ _ Hc' Hpop) as (v & qv & Hv & Hc2 & Hq2 & Hother2). rewrite Hq' in Hv. injection Hv as <- <-.
    rewrite Hid in Hother2.
    assert (Q2 : quiet i (set_classifier c g) (set_classifier c2 (set_classifier c g))) by (by apply quiet_set).
    destruct (IH (set_h_state IDLE h) d1 (set_classifier c2 (set_classifier c g)) h' d' g') as (Q3 & Hid' & Hr);
      cbn [h_id set_h_state]; [assumption|assumption|cbn; by rewrite Hq2|reflexivity| |exact Hd|exact H|].
    + apply (pop_asked i (set_classifier c g) _ _ u q Hc' Q2); [assumption|assumption|].
      intros x qx Hx. cbn in Hx. rewrite Hq' in Hx. injection Hx as <- <-. by exists entry.
    + split_and!; [|assumption|assumption]. eapply quiet_trans; [exact Q|]. eapply quiet_trans; [exact Q2|exact Q3].
Qed.

Lemma save_pop_ok i h d g h' g' : classifier_ok (classifier g) -> h_id h = Z.of_nat i -> asked g i h -> data_of g i h ->
  save_pop NDEBUG max_size UNSET h d g = ret (h', g') ->
  quiet i g g' /\ h_id h' = h_id h /\ h_state h' = NEXT /\ asked g' i h' /\ data_of g' i h' /\ queue (h_id h) (classifier g') <> None.
Proof.
  intros Hc Hid Ha Hd H. unfold save_pop in H. apply cbind_ret in H as (dc & _ & H). apply cbind_ret in H as (c & Hpop%lift_ret & H).
  destruct (pop_returns _ _ _ Hc Hpop) as (u & q & Hq & Hc' & Hq' & Hother). rewrite Hid in Hother. injection H as <- <-.
  assert (Q : quiet i g (mk_GlobalInfo c (m_easyHandles g) (snd dc) (dl_bytes g) (wrap64 (m_ndocs_saved g + 1)) (user_agent g) (log g)))
    by (by split).
  split_and!; [exact Q|reflexivity|reflexivity|exact (pop_asked i g _ h u q Hc Q Hq Hq' Ha)|exact Hd|]. cbn. by rewrite Hq'.
Qed.

Section Done.
Context (C : content_types) (ct_value : content_type_t C -> Z) (EMPTY_ : Z) (ctype0 : content_type_t C).

Local Abbreviation done := (done NDEBUG max_size C ct_value UNSET EMPTY_ ctype0 setopt_ok add_handle).

(** The state of a handle whose transfer has been reported. *)
Definition reported_to (g : GlobalInfo) (i : nat) (h : EasyHandle) (r : report) (d : Doc) : Prop :=
  exists u q, queue (h_id h) (classifier g) = Some (u :: q)
    /\ (h_state h = ROBOTS -> (rp_result r, rp_code r) = (d_curl_code d, d_http_code d)
          /\ exists p t, robots_txt (seen_by i (log g)) = Some (t, Some (r, body (seen_by i (log g)))) /\ robots_of p t /\ m_host p = m_host u)
    /\ (h_state h = HEAD \/ h_state h = CONTENT ->
          exists e, robots_entry h = Some e /\ answered i u e (log g) /\ allowed (user_agent g) e u).

Lemma seen_finished i r l : seen_by i (l ++ [Finished i r])
  = mk_seen None (heads (seen_by i l)) (body (seen_by i l))
      (match in_flight (seen_by i l) with Some (ROBOTS, t) => Some (t, Some (r, body (seen_by i l))) | _ => robots_txt (seen_by i l) end).
Proof. rewrite seen_by_snoc. cbn. by rewrite decide_True. Qed.

Lemma take_report_codes r d d' : take_report NDEBUG max_size r d = val d' ->
  (rp_result r, rp_code r) = (d_curl_code d', d_http_code d') /\ d_url d' = d_url d.
Proof.
  unfold take_report. destruct (Url_of _ _ _) as [[e|x]|]; cbn [rbind]; try discriminate.
  destruct (Url_normalize _ _ e) as [[e1|x]|]; cbn [rbind]; try discriminate.
  destruct (Url_eq _ _ _ _) as [[b|x]|]; cbn [rbind]; try discriminate. by intros [= <-].
Qed.

Lemma working_reported g i h r d : h_state h <> IDLE -> working g i h ->
  (rp_result r, rp_code r) = (d_curl_code d, d_http_code d) -> reported_to (record (Finished i r) g) i h r d.
Proof.
  intros Hs (u & q & Hq & Hr & Hf) Hrep. exists u, q. cbn [classifier log user_agent record]. split_and!; [assumption|..].
  - intros E. split; [assumption|]. destruct (Hr E) as (p & t & H1 & H2 & H3 & H4). exists p, t. rewrite seen_finished, H1. by split_and!.
  - intros Hk. destruct (Hf Hk) as [([t Ht] & e & He & (p & rt & r' & b & H1 & H2 & H3 & H4) & Hal) _]. exists e.
    split_and!; [assumption| |assumption]. exists p, rt, r', b. rewrite seen_finished, Ht. destruct Hk as [Hk|Hk]; rewrite Hk; by split_and!.
Qed.

Lemma done_switch_ok i h r d g h' g' : classifier_ok (classifier g) -> h_id h = Z.of_nat i -> h_state h <> NEXT ->
  reported_to g i h r d -> data_of g i h ->
  done_switch NDEBUG max_size C ct_value UNSET EMPTY_ ctype0 h d g = ret (h', g') ->
  quiet i g g' /\ h_id h' = h_id h /\ queue (h_id h) (classifier g') <> None /\ data_of g' i h'
  /\ (h_state h' = NEXT /\ asked g' i h'
      \/ h_state h' = CONTENT /\ exists u q e, queue (h_id h) (classifier g') = Some (u :: q)
          /\ robots_entry h' = Some e /\ answered i u e (log g') /\ allowed (user_agent g') e u).
Proof.
  intros Hc Hid Hn (u & q & Hq & Hrob & Hpage) Hd H. unfold done_switch in H.
  assert (Hsave : forall d, h_state h = HEAD \/ h_state h = CONTENT -> save_pop NDEBUG max_size UNSET h d g = ret (h', g') ->
    quiet i g g' /\ h_id h' = h_id h /\ queue (h_id h) (classifier g') <> None /\ data_of g' i h'
    /\ (h_state h' = NEXT /\ asked g' i h'
      \/ h_state h' = CONTENT /\ exists u q e, queue (h_id h) (classifier g') = Some (u :: q)
          /\ robots_entry h' = Some e /\ answered i u e (log g') /\ allowed (user_agent g') e u)).
  { intros d1 Hk H1. destruct (Hpage Hk) as (e & He & Hans & _). apply (save_pop_ok i) in H1 as (? & ? & ? & ? & ? & ?); try assumption.
    - split_and!; try assumption. by left.
    - intros v qv Hv. rewrite Hq in Hv. injection Hv as <- <-. by exists e. }
  destruct (h_state h) eqn:E; [discriminate| |contradiction| |].
  - apply cbind_ret in H as (entry & Hent & H). injection H as <- <-. destruct (Hrob eq_refl) as [Hrep (p & t & H1 & H2 & H3)].
    split_and!; [by split|reflexivity|by rewrite Hq|exact Hd|left]. split; [reflexivity|].
    intros v qv Hv. cbn in Hv. rewrite Hq in Hv. injection Hv as <- <-. exists entry. split; [reflexivity|].
    exists p, t, r, (body (seen_by i (log g))). split_and!; try assumption. unfold entry_of. injection Hrep as -> ->.
    unfold transfer_ok in Hent. destruct Hd as [_ Hbody]. rewrite <-Hbody.
    destruct (_ && _); [|by injection Hent as <-]. destruct (parse_robots _) as [e|]; [|discriminate]. by injection Hent as <-.
  - destruct (transfer_ok d); [|apply (Hsave d); auto]. cbv zeta in H. destruct (acceptable _ _ _ _); [|eapply Hsave; eauto].
    injection H as <- <-. split_and!; [by split|reflexivity|by rewrite Hq|exact Hd|]. right. split; [reflexivity|].
    destruct (Hpage ltac:(by left)) as (e & He & Hans & Hal). exists u, q, e. by split_and!.
  - destruct (transfer_ok d); [eapply Hsave; eauto|apply (Hsave d); auto].
Qed.

(** A report keeps what a handle has been given. *)
Lemma data_finished g i h r : data_of g i h -> data_of (record (Finished i r) g) i h.
Proof. unfold data_of. cbn [log record]. rewrite seen_finished. done. Qed.

Lemma done_stepped i r g g' h : crawler_ok g -> m_easyHandles g !! i = Some h -> h_state h <> IDLE -> done i r g = ret g' ->
  stepped i g g' /\ exists l, log g' = log g ++ l /\ ended l = [(i, r)].
Proof.
  intros Hg Hi Hs H. destruct (ck_handles g Hg i h Hi) as [Hid [Hq Hn Hdata Hwork]]. destruct (Hwork Hs) as [_ Hw].
  pose proof (ck_classifier g Hg) as Hc. pose proof (lookup_lt_Some _ _ _ Hi) as Hlt.
  unfold Crawler.done in H. cbv zeta in H. set (g0 := record (Finished i r) g) in *.
  change (m_easyHandles g0) with (m_easyHandles g) in H. rewrite Hi in H. destruct (h_doc h) as [d|]; [|discriminate].
  apply cbind_ret in H as (d1 & Hrep%lift_ret & H). apply take_report_codes in Hrep as [Hrep _].
  apply cbind_ret in H as ([h1 g1] & Hsw & H).
  apply (done_switch_ok i _ r) in Hsw as (Q1 & Hid1 & Hq1 & Hd1 & Hcase);
    [|exact Hc|exact Hid|exact Hn|exact (working_reported g i h r d1 Hs Hw Hrep)|exact (data_finished g i h r Hdata)].
  cbn [h_id set_h_headers] in *. apply cbind_ret in H as (d2 & _ & H). apply cbind_ret in H as ([[h2 d3] g2] & Hloop & H).
  assert (Hready : quiet i g0 g2 /\ h_id h2 = h_id h /\ ready g2 i h2).
  { destruct (decide (h_state h1 = NEXT)) as [E|E].
    - destruct Hcase as [[_ Ha]|[? _]]; [|congruence]. destruct (next_url _ _ _ _ _ _) as [m|] eqn:Hnu; [|discriminate].
      cbn in Hloop. rewrite Hloop in Hnu.
      apply (next_url_ok i) in Hnu as (Q2 & Hid2 & Hr); cbn [h_id set_h_state];
        [|exact (qt_classifier _ _ _ Q1)|congruence|by rewrite Hid1|reflexivity|exact Ha|exact Hd1].
      split_and!; [by eapply quiet_trans|cbn in Hid2; congruence|assumption].
    - injection Hloop as <- _ <-. destruct Hcase as [[? _]|[Hst Hw1]]; [contradiction|]. split_and!; [assumption|assumption|].
      rewrite <-Hid1 in Hw1, Hq1. split_and!; [assumption|congruence|apply Hd1|apply Hd1|congruence|]. intros _. exact Hw1. }
  destruct Hready as (Q2 & Hid2 & Hr). revert H.
  set (h3 := set_h_doc _ h2). set (g3 := set_handle i h3 g2). intros H.
  assert (F0 : frame i g g0).
  { split; try reflexivity. intros j Hj. apply seen_by_other. cbn. congruence. }
  pose proof (frame_trans i g g0 g3 F0 (quiet_frame i g0 g2 h3 Q2)) as F.
  assert (Hp : polite (user_agent g3) (log g3)).
  { cbn. rewrite (qt_agent _ _ _ Q2), (qt_log _ _ _ Q2). cbn. constructor; [apply Hg|exact I]. }
  destruct (reschedule_ok i g3 g' h3) as (F' & Hc' & Hp' & h4 & Hh4 & Hid4 & Hk4).
  - exact (qt_classifier _ _ _ Q2).
  - exact Hp.
  - cbn. rewrite (qt_handles _ _ _ Q2). by apply list_lookup_insert_eq.
  - cbn. congruence.
  - exact Hr.
  - exact H.
  - split; [split_and!; [by eapply frame_trans|assumption|assumption|by exists h4]|].
    destruct (reschedule_log i g3 g' H) as (l & El & Hl). exists (Finished i r :: l). split; [|change (ended (Finished i r :: l)) with ((i, r) :: ended l); by rewrite Hl].
    rewrite El. cbn. rewrite (qt_log _ _ _ Q2). cbn. by rewrite <-(assoc_L (++)).
Qed.

Lemma done_ok i r g g' h : crawler_ok g -> m_easyHandles g !! i = Some h -> h_state h <> IDLE -> done i r g = ret g' -> crawler_ok g'.
Proof.
  intros Hg Hi Hs H. destruct (done_stepped i r g g' h Hg Hi Hs H) as [(F & Hc & Hp & h4 & Hh4 & Hid4 & Hk4) _].
  apply (frame_ok i g g' Hg F Hc Hp). intros x Hx. rewrite Hh4 in Hx. injection Hx as <-. by split.
Qed.
End Done.
End Inv.
