(* ===== verification/CrawlerClaims.v ===== *)
(** * Statements about the crawler

    The events of the crawler as a step relation, the invariant of the
    reachable states, what happens to URLs, and the input of URLs. *)

From stdpp Require Import gmap.
From S2P Require Import Prelude Regex Utils Path Url UrlEsc UrlWf Robots Doc Classifier Crawler CrawlerInput CrawlerInv.

Section Reach.
Context {BR : BoostRegex} {MG : Mongo} {PQ : PriorityQueue} {HI : HostIndex} (NDEBUG : bool) (max_size : Z).
Context (C : content_types) (ct_value : content_type_t C -> Z) (UNSET EMPTY_ : Z) (ctype0 : content_type_t C).
Context (setopt_ok : transfer -> bool) (add_handle : transfer -> Z).

Local Abbreviation done := (done NDEBUG max_size C ct_value UNSET EMPTY_ ctype0 setopt_ok add_handle).
Local Abbreviation reschedule := (reschedule NDEBUG max_size UNSET setopt_ok add_handle).
Local Abbreviation reschedule_all := (reschedule_all NDEBUG max_size UNSET setopt_ok add_handle).
Local Abbreviation reschedule_from := (reschedule_from NDEBUG max_size UNSET setopt_ok add_handle).

(** ** Events *)

(** Octets read from a connection; the timer of the scheduler; a finished
    transfer; data of a transfer. *)
Inductive step (g : GlobalInfo) : GlobalInfo -> Prop :=
| step_read b k k' c : connection_read_cb NDEBUG max_size b k (classifier g) = val (k', c) -> step g (set_classifier c g)
| step_scheduler g' : reschedule_all g = ret g' -> step g g'
| step_done i h r g' : m_easyHandles g !! i = Some h -> h_state h <> IDLE -> done i r g = ret g' -> step g g'
| step_header i buff n g' : header_write_cb i buff g = Some (n, g') -> step g g'
| step_content i buff n g' : content_write_cb i buff g = Some (n, g') -> step g g'.

Inductive reachable (parallel : nat) (c : db) (ua : list Z) : GlobalInfo -> Prop :=
| reach_start : reachable parallel c ua (GlobalInfo_new parallel c ua)
| reach_step g g' : reachable parallel c ua g -> step g g' -> reachable parallel c ua g'.

(** ** Pushing keeps the fronts of the queues *)
Definition grows (c c' : Url_classifier) : Prop :=
  classifier_ok c' /\ forall n, exists l, queue n c' = (fun q => q ++ l) <$> queue n c.

Lemma grows_refl c : classifier_ok c -> grows c c.
Proof. intros H. split; [assumption|]. intros n. exists []. destruct (queue n c); cbn; by rewrite ?app_nil_r. Qed.

Lemma grows_trans a b c : grows a b -> grows b c -> grows a c.
Proof.
  intros [_ H1] [H2 H3]. split; [assumption|]. intros n. destruct (H1 n) as [l1 E1], (H3 n) as [l2 E2].
  exists (l1 ++ l2). rewrite E2, E1. destruct (queue n a); cbn; [by rewrite (assoc_L (++))|reflexivity].
Qed.

Lemma push_grows u c c' : classifier_ok c -> push NDEBUG u c = val c' -> grows c c'.
Proof.
  intros Hok Hp. destruct (push_ok NDEBUG u c Hok) as (c1 & Hp' & Hok' & _ & Ha). rewrite Hp in Hp'. injection Hp' as <-.
  split; [assumption|]. intros n. destruct (Ha n) as [->|(q & -> & ->)]; [exists []|by exists [u]].
  destruct (queue n c); cbn; by rewrite ?app_nil_r.
Qed.

Lemma take_line_grows line n c n' c' : classifier_ok c -> take_line NDEBUG max_size line n c = val (n', c') -> grows c c'.
Proof.
  intros Hok. unfold take_line, try_line. destruct (Url_of NDEBUG max_size line) as [[u|[]]|]; try discriminate.
  - destruct (_ && _); [|intros [= _ <-]; by apply grows_refl]. destruct (push NDEBUG u c) as [[c1|e]|] eqn:E; try discriminate.
    intros [= _ <-]. by apply (push_grows u).
  - intros [= _ <-]. by apply grows_refl.
Qed.

Lemma input_loop_grows s : forall cur n c r n' c', classifier_ok c ->
  input_loop NDEBUG max_size cur s n c = val (r, n', c') -> grows c c'.
Proof.
  induction s as [|x s IH]; intros cur n c r n' c' Hok H; cbn [input_loop] in H.
  - injection H as _ _ <-. by apply grows_refl.
  - destruct (is_eol x); [|by eapply IH; [|exact H]].
    destruct (1 <? zlen cur).
    + destruct (take_line NDEBUG max_size cur n c) as [[[n1 c1]|e]|] eqn:E; try discriminate.
      cbn [rbind fst snd] in H. apply take_line_grows in E; [|assumption]. eapply grows_trans; [exact E|].
      eapply IH; [apply E|exact H].
    + cbn [rbind val fst snd] in H. by eapply IH; [|exact H].
Qed.

Lemma read_grows b k c k' c' : classifier_ok c -> connection_read_cb NDEBUG max_size b k c = val (k', c') -> grows c c'.
Proof.
  intros Hok. assert (Hp : forall fl k0, process_input_buff NDEBUG max_size fl k0 c = val (k', c') -> grows c c').
  { intros fl k0. unfold process_input_buff. case_bool_decide; [intros [= _ <-]; by apply grows_refl|].
    destruct (input_loop _ _ _ _ _ _) as [[[[r n] c1]|e]|] eqn:E; try discriminate. cbn [rbind].
    apply input_loop_grows in E; [|assumption]. destruct (fl && _); [|by intros [= _ <-]].
    unfold flush_line, try_line. destruct (Url_of NDEBUG max_size r) as [[u|[]]|]; try discriminate.
    - destruct (push NDEBUG u c1) as [[c2|e]|] eqn:E2; try discriminate. intros [= _ <-].
      eapply grows_trans; [exact E|]. by apply (push_grows u); [apply E|].
    - by intros [= _ <-]. }
  unfold connection_read_cb. case_bool_decide; apply Hp.
Qed.

Lemma grows_ok g c : crawler_ok NDEBUG max_size g -> grows (classifier g) c -> crawler_ok NDEBUG max_size (set_classifier c g).
Proof.
  intros [Hc Hh Hp] [Hok Hg]. split; [assumption| |assumption]. intros i h Hi. destruct (Hh i h Hi) as [Hid [Hq Hn Hd Hw]].
  split; [assumption|]. destruct (Hg (h_id h)) as [l Hl]. split; cbn.
  - rewrite Hl. destruct (queue (h_id h) (classifier g)); [discriminate|contradiction].
  - assumption.
  - assumption.
  - intros Hs. destruct (Hw Hs) as [Hdoc (u & q & Hu & Hr)]. split; [assumption|]. exists u, (q ++ l). cbn.
    rewrite Hl, Hu. by split.
Qed.

(** ** The scheduler *)
Lemma reschedule_from_ok n : forall i g g', crawler_ok NDEBUG max_size g -> reschedule_from n i g = ret g' -> crawler_ok NDEBUG max_size g'.
Proof.
  induction n as [|n IH]; intros i g g' Hg H; cbn [Crawler.reschedule_from] in H; [by injection H as <-|].
  destruct (m_easyHandles g !! i) as [h|] eqn:Hi; [|by injection H as <-].
  apply cbind_ret in H as (g1 & H1 & H). eapply IH; [|exact H]. destruct (decide (h_state h = IDLE)) as [E|E]; [|by injection H1 as <-].
  destruct (ck_handles _ _ _ Hg i h Hi) as [Hid [Hq Hn Hd Hw]].
  destruct (reschedule_ok NDEBUG max_size UNSET setopt_ok add_handle i g g1 h) as (F & Hc' & Hp' & h' & Hh' & Hid' & Hk');
    [apply Hg|apply Hg|assumption|assumption| |exact H1|].
  - split_and!; [assumption|assumption|apply Hd|apply Hd|congruence|]. intros [?|?]; congruence.
  - apply (frame_ok NDEBUG max_size i g g1 Hg); [assumption|assumption|assumption|].
    intros x Hx. rewrite Hh' in Hx. injection Hx as <-. by split.
Qed.

(** ** Data *)

(** Data for handle [i] changes what it has seen, and nothing else. *)
Lemma data_ok g i h h' n e : crawler_ok NDEBUG max_size g -> m_easyHandles g !! i = Some h ->
  h_id h' = h_id h -> h_state h' = h_state h -> robots_entry h' = robots_entry h -> h_doc h' = h_doc h ->
  event_of e = i -> (forall j k t, e <> Started j k t) -> (forall j r, e <> Finished j r) ->
  m_headers_os h' = heads (seen_by i (log g ++ [e])) -> m_content_os h' = body (seen_by i (log g ++ [e])) ->
  crawler_ok NDEBUG max_size
    (mk_GlobalInfo (classifier g) (<[i := h']> (m_easyHandles g)) (mongodb g) n (m_ndocs_saved g) (user_agent g) (log g ++ [e])).
Proof.
  intros [Hc Hh Hp] Hi E1 E2 E3 E4 Ee Hns Hnf Hd1 Hd2.
  assert (Hsame : in_flight (seen_by i (log g ++ [e])) = in_flight (seen_by i (log g))
    /\ robots_txt (seen_by i (log g ++ [e])) = robots_txt (seen_by i (log g))).
  { rewrite seen_by_snoc. destruct e; cbn in *; [by destruct (Hns _ _ _ eq_refl)| | |by destruct (Hnf _ _ eq_refl)]; by rewrite decide_True. }
  destruct Hsame as [Hs1 Hs2].
  split; [assumption| |constructor; [assumption|by destruct e; [destruct (Hns _ _ _ eq_refl)|..]]]. cbn.
  intros j x [(-> & <- & _)|[Hne Hj]]%list_lookup_insert_Some.
  - destruct (Hh j h Hi) as [Hid [Hq Hn Hd Hw]]. split; [congruence|]. split; cbn -[seen_by]; rewrite ?E1, ?E2, ?E4; try assumption; [by split|].
    intros Hs. destruct (Hw Hs) as [Hdoc (u & q & Hu & Hr & Hf)]. split; [assumption|].
    exists u, q. cbn -[seen_by]. unfold asking, fetching, answered in *. rewrite E1, E2, E3, E4, Hs1, Hs2. by split_and!.
  - destruct (Hh j x Hj) as [Hid [Hq Hn Hd Hw]]. split; [assumption|].
    assert (Ho : seen_by j (log g ++ [e]) = seen_by j (log g)) by (apply seen_by_other; congruence).
    split; cbn -[seen_by]; rewrite ?Ho; try assumption. intros Hs. destruct (Hw Hs) as [Hdoc Hwork]. split; [assumption|].
    by apply (working_seen NDEBUG max_size g).
Qed.

Lemma step_ok g g' : crawler_ok NDEBUG max_size g -> step g g' -> crawler_ok NDEBUG max_size g'.
Proof.
  intros Hg [b k k' c H|g1 H|i h r g1 Hi Hs H|i buff n g1 H|i buff n g1 H].
  - apply grows_ok; [assumption|]. eapply read_grows; [apply Hg|exact H].
  - by eapply reschedule_from_ok.
  - by eapply (done_ok NDEBUG max_size).
  - unfold header_write_cb in H. destruct (m_easyHandles g !! i) as [h|] eqn:Hi; [|discriminate]. cbn in H.
    injection H as _ <-. destruct (hk_data _ _ _ _ _ (proj2 (ck_handles _ _ _ Hg i h Hi))) as [Hd1 Hd2].
    eapply data_ok; try done; rewrite seen_by_snoc; cbn; rewrite decide_True by done; cbn; [by rewrite Hd1|done].
  - unfold content_write_cb in H. destruct (m_easyHandles g !! i) as [h|] eqn:Hi; [|discriminate]. cbn in H.
    injection H as _ <-. destruct (hk_data _ _ _ _ _ (proj2 (ck_handles _ _ _ Hg i h Hi))) as [Hd1 Hd2].
    eapply data_ok; try done; rewrite seen_by_snoc; cbn; rewrite decide_True by done; cbn; [done|by rewrite Hd2].
Qed.

Lemma start_ok parallel c ua : crawler_ok NDEBUG max_size (GlobalInfo_new parallel c ua).
Proof.
  destruct (Url_classifier_of_ok parallel) as (Hok & _ & Hq). split; [assumption| |constructor]. cbn. intros i h Hi.
  rewrite list_lookup_fmap, list_lookup_fmap in Hi. destruct (seq 0 parallel !! i) as [j|] eqn:Hj; [|discriminate].
  apply lookup_seq in Hj as [-> Hlt]. cbn in Hi. injection Hi as <-. split; [reflexivity|]. split; cbn.
  - rewrite Hq, decide_True by lia. discriminate.
  - discriminate.
  - done.
  - contradiction.
Qed.

Lemma reachable_ok parallel c ua g : reachable parallel c ua g -> crawler_ok NDEBUG max_size g.
Proof. induction 1 as [|g g' _ IH Hs]; [apply start_ok|by eapply step_ok]. Qed.

(** ** What leaves the classifier *)
Lemma peek_contents n c u c' : classifier_ok c -> peek NDEBUG n c = val (u, c') -> classifier_ok c' /\ contents c' ≡ₚ contents c.
Proof.
  intros Hok Hp. destruct (queue n c) as [[|v q]|] eqn:Hq.
  2: { rewrite (peek_front NDEBUG n v q) in Hp by assumption. by injection Hp as _ <-. }
  all: destruct (top_empty c) eqn:Ht; [rewrite peek_empty in Hp by auto; discriminate|];
    destruct (peek_moves NDEBUG n c Hok) as (u' & q & c1 & Hp' & Hok' & Hc & _); [auto|assumption|];
    rewrite Hp in Hp'; injection Hp' as _ <-; by split.
Qed.

Lemma pop_contents n c c' : classifier_ok c -> pop n c = val c' ->
  classifier_ok c' /\ exists u q, queue n c = Some (u :: q) /\ contents c ≡ₚ u :: contents c'.
Proof.
  intros Hok Hp. destruct (pop_returns n c c' Hok Hp) as (u & q & Hq & Hok' & _). split; [assumption|]. exists u, q.
  split; [assumption|]. destruct (pop_ok n u q c Hok Hq) as (c1 & Hp' & _ & Hc & _). rewrite Hp in Hp'. by injection Hp' as <-.
Qed.

(** The robots.txt of the handle refuses [u]. *)
Definition refused_by (ua : list Z) (e : option Robots_entry) (u : Url) : Prop :=
  exists entry url, e = Some entry /\ Url_normalize NDEBUG max_size u = val url /\ robots_allow ua entry url = Value false.

Lemma next_url_drops fuel : forall h d g h' d' g', classifier_ok (classifier g) ->
  next_url NDEBUG max_size fuel h d g = Some (ret (h', d', g')) ->
  classifier_ok (classifier g') /\ robots_entry h' = robots_entry h /\ user_agent g' = user_agent g
  /\ m_ndocs_saved g' = m_ndocs_saved g /\ m_easyHandles g' = m_easyHandles g /\ mongodb g' = mongodb g
  /\ exists refused, contents (classifier g) ≡ₚ refused ++ contents (classifier g')
       /\ Forall (refused_by (user_agent g) (robots_entry h)) refused.
Proof.
  induction fuel as [|fuel IH]; intros h d g h' d' g' Hc H; [discriminate|]. cbn [next_url] in H.
  apply and_then_ret in H as (e & He%lift_ret & H). destruct e.
  { injection H as <- _ <-. split_and!; try reflexivity; [assumption|]. exists []. by split. }
  apply and_then_ret in H as ([u c] & Hpeek%lift_ret & H). apply and_then_ret in H as (url & Hurl%lift_ret & H).
  apply and_then_ret in H as ([pre d1] & _ & H). cbv zeta in H. cbn [h_id set_h_state] in Hpeek.
  destruct (peek_contents _ _ _ _ Hc Hpeek) as (Hc' & Hcont).
  destruct (peek_returns NDEBUG _ _ _ _ Hc Hpeek) as (_ & [q Hq] & _).
  assert (Hstop : forall st, h' = set_h_state st (set_h_state IDLE h) -> g' = set_classifier c g ->
    classifier_ok (classifier g') /\ robots_entry h' = robots_entry h /\ user_agent g' = user_agent g
    /\ m_ndocs_saved g' = m_ndocs_saved g /\ m_easyHandles g' = m_easyHandles g /\ mongodb g' = mongodb g
    /\ exists refused, contents (classifier g) ≡ₚ refused ++ contents (classifier g')
         /\ Forall (refused_by (user_agent g) (robots_entry h)) refused).
  { intros st -> ->. cbn. split_and!; try reflexivity; [assumption|]. exists []. by split. }
  destruct pre; [injection H as <- _ <-; by eapply Hstop|].
  cbn [robots_entry set_h_state] in H. destruct (robots_entry h) as [entry|] eqn:Ee; [|injection H as <- _ <-; by eapply Hstop].
  destruct (negb _); [injection H as <- _ <-; by eapply Hstop|].
  apply and_then_ret in H as (ok & Hok%lift_ret & H). destruct ok; [injection H as <- _ <-; by eapply Hstop|].
  apply and_then_ret in H as (c2 & Hpop%lift_ret & H). cbn [h_id set_h_state classifier set_classifier] in Hpop.
  destruct (pop_contents _ _ _ Hc' Hpop) as (Hc2 & v & qv & Hv & Hcont2). rewrite Hq in Hv. injection Hv as <- _.
  destruct (IH _ _ (set_classifier c2 (set_classifier c g)) _ _ _ Hc2 H) as (R1 & R2 & R3 & R4 & R5 & R8 & refused & R6 & R7).
  cbn in R2, R3, R4, R5, R6, R7, R8. rewrite Ee in R2, R7. split_and!; try assumption. exists (u :: refused). split.
  - by rewrite <-Hcont, Hcont2, R6.
  - constructor; [|assumption]. exists entry, url. split_and!; [reflexivity|assumption|]. injection Hok as Hok. exact Hok.
Qed.

Lemma reschedule_drops i g g' h : classifier_ok (classifier g) -> m_easyHandles g !! i = Some h -> reschedule i g = ret g' ->
  m_ndocs_saved g' = m_ndocs_saved g /\ mongodb g' = mongodb g /\ contents (classifier g') ≡ₚ contents (classifier g)
  /\ exists h', m_easyHandles g' !! i = Some h' /\ robots_entry h' = robots_entry h.
Proof.
  intros Hc Hi H. pose proof (lookup_lt_Some _ _ _ Hi) as Hlt. unfold Crawler.reschedule in H. rewrite Hi in H.
  apply cbind_ret in H as (idle & _ & H). destruct idle; [injection H as <-; by split_and!; [reflexivity|reflexivity|reflexivity|exists h]|].
  apply cbind_ret in H as ([u c] & Hpeek%lift_ret & H). apply cbind_ret in H as (url & _ & H).
  apply cbind_ret in H as ([pre d] & _ & H). destruct (peek_contents _ _ _ _ Hc Hpeek) as (_ & Hcont). cbv zeta in H.
  assert (Hst : forall t h1, robots_entry h1 = robots_entry h -> start_transfer setopt_ok add_handle i t h1 (set_classifier c g) = ret g' ->
    m_ndocs_saved g' = m_ndocs_saved g /\ mongodb g' = mongodb g /\ contents (classifier g') ≡ₚ contents (classifier g)
    /\ exists h', m_easyHandles g' !! i = Some h' /\ robots_entry h' = robots_entry h).
  { intros t h1 Hr ->%start_transfer_ret. cbn. split_and!; [reflexivity|reflexivity|assumption|]. exists h1. split; [|assumption].
    by apply list_lookup_insert_eq. }
  destruct (h_state _).
  1,2: apply cbind_ret in H as (r1 & _ & H);
    eapply Hst; [|exact H]; by destruct pre.
  - discriminate.
  - eapply Hst; [|exact H]; by destruct pre.
  - unfold get_content in H. repeat case_match; simplify_eq; (eapply Hst; [|exact H]; reflexivity).
Qed.

(** The transfer succeeded. *)
Definition ok_report (r : report) : bool := (rp_result r =? 0) && (rp_code r =? 200).

(** The type of a page as its headers give it, and whether it is one that the
    crawler fetches. *)
Definition wanted (headers : list Z) : Prop :=
  let t := content_type C (parse_http_headers C headers (mk_headers C ctype0 [] ∅)) in
  ct_value (UNRECOGNIZED C) < ct_value t < EMPTY_.

(** A document for [u] is stored: under the normalised address, with what the
    report says and the data that came; a page that is not fetched because of
    its type is stored with status 406. *)
Definition stored (u : Url) (st : handle_state) (v : seen) (r : report) (c c' : db) : Prop :=
  exists a b k d, Url_normalize NDEBUG max_size u = val a /\ Url_normalize NDEBUG max_size a = val b
    /\ Url_normalize NDEBUG max_size b = val k /\ c' = upsert (Url_get k) (bson_of UNSET d) c
    /\ (d_curl_code d, d_curl_error d, d_modified d, d_crawled d) = (rp_result r, rp_error r, rp_filetime r, rp_now r)
    /\ d_http_code d = (if ok_report r && bool_decide (st = HEAD) then 406 else rp_code r)
    /\ (ok_report r = true -> d_headers d = heads v /\ (st = CONTENT -> d_content d = body v)).

(** What a finished transfer in state [st] does to the front of the queue and to
    the database. *)
Definition accounted (st : handle_state) (front : option (list Url)) (v : seen) (r : report) (finished : list Url) (c c' : db) : Prop :=
  (finished = [] /\ c' = c /\ (st = ROBOTS \/ st = HEAD /\ ok_report r = true /\ wanted (heads v)))
  \/ (exists u q, front = Some (u :: q) /\ finished = [u] /\ stored u st v r c c'
      /\ (st = CONTENT \/ st = HEAD /\ (ok_report r = true -> ~ wanted (heads v)))).

(** The document of a reported transfer. *)
Definition reports (r : report) (d : Doc) : Prop :=
  (d_curl_code d, d_curl_error d, d_modified d, d_crawled d) = (rp_result r, rp_error r, rp_filetime r, rp_now r)
  /\ d_http_code d = rp_code r.

Lemma take_report_reports r d d' : take_report NDEBUG max_size r d = val d' -> reports r d' /\ d_url d' = d_url d.
Proof.
  unfold take_report. destruct (Url_of _ _ _) as [[e|x]|]; cbn [rbind]; try discriminate.
  destruct (Url_normalize _ _ e) as [[e1|x]|]; cbn [rbind]; try discriminate.
  destruct (Url_eq _ _ _ _) as [[b|x]|]; cbn [rbind]; try discriminate. by intros [= <-].
Qed.

Lemma acceptable_wanted h : acceptable C ct_value EMPTY_ (content_type C (headers_of C ctype0 h)) = true <-> wanted (m_headers_os h).
Proof. unfold acceptable, wanted, headers_of. rewrite andb_true_iff, Z.gtb_lt, Z.ltb_lt. tauto. Qed.

Lemma save_pop_drops i h d g h' g' r u q : classifier_ok (classifier g) -> queue (h_id h) (classifier g) = Some (u :: q) ->
  doc_of NDEBUG max_size u d ->
  (d_curl_code d, d_curl_error d, d_modified d, d_crawled d) = (rp_result r, rp_error r, rp_filetime r, rp_now r) ->
  d_http_code d = (if ok_report r && bool_decide (h_state h = HEAD) then 406 else rp_code r) ->
  (ok_report r = true -> d_headers d = heads (seen_by i (log g)) /\ (h_state h = CONTENT -> d_content d = body (seen_by i (log g)))) ->
  save_pop NDEBUG max_size UNSET h d g = ret (h', g') ->
  classifier_ok (classifier g') /\ user_agent g' = user_agent g /\ m_easyHandles g' = m_easyHandles g
  /\ contents (classifier g) ≡ₚ u :: contents (classifier g') /\ m_ndocs_saved g' = wrap64 (m_ndocs_saved g + 1)
  /\ stored u (h_state h) (seen_by i (log g)) r (mongodb g) (mongodb g').
Proof.
  intros Hc Hq (a & Ha & Hb) H1 H2 H3 H. unfold save_pop in H. apply cbind_ret in H as ([d' c'] & Hsave%lift_ret & H).
  apply cbind_ret in H as (c & Hpop%lift_ret & H). destruct (pop_contents _ _ _ Hc Hpop) as (Hc' & u' & q' & Hq' & Hcont).
  rewrite Hq in Hq'. injection Hq' as <- <-. injection H as _ <-. cbn. split_and!; try reflexivity; try assumption.
  unfold save in Hsave. destruct (Url_empty (d_url d)); [discriminate|].
  destruct (Url_normalize NDEBUG max_size (d_url d)) as [[k|x]|] eqn:Ek; cbn [rbind] in Hsave; try discriminate.
  injection Hsave as <- <-. exists a, (d_url d), k, (set_d_url k d). by split_and!.
Qed.

Lemma done_switch_drops i h d g h' g' r : classifier_ok (classifier g) -> reports r d ->
  m_headers_os h = heads (seen_by i (log g)) -> m_content_os h = body (seen_by i (log g)) ->
  (h_state h = HEAD \/ h_state h = CONTENT -> exists u q, queue (h_id h) (classifier g) = Some (u :: q) /\ doc_of NDEBUG max_size u d) ->
  h_state h <> NEXT ->
  done_switch NDEBUG max_size C ct_value UNSET EMPTY_ ctype0 h d g = ret (h', g') ->
  classifier_ok (classifier g') /\ user_agent g' = user_agent g /\ m_easyHandles g' = m_easyHandles g
  /\ exists finished, contents (classifier g) ≡ₚ finished ++ contents (classifier g')
       /\ (m_ndocs_saved g' = if bool_decide (finished = []) then m_ndocs_saved g else wrap64 (m_ndocs_saved g + 1))
       /\ accounted (h_state h) (queue (h_id h) (classifier g)) (seen_by i (log g)) r finished (mongodb g) (mongodb g').
Proof.
  intros Hc [Hrep Hcode] Hheads Hbody Hdoc Hn H. unfold done_switch in H.
  assert (Hok : transfer_ok d = ok_report r).
  { unfold transfer_ok, ok_report. rewrite Hcode. by injection Hrep as -> _ _ _. }
  assert (Hkeep : g' = g -> (h_state h = ROBOTS \/ h_state h = HEAD /\ ok_report r = true /\ wanted (heads (seen_by i (log g)))) ->
    classifier_ok (classifier g') /\ user_agent g' = user_agent g /\ m_easyHandles g' = m_easyHandles g
    /\ exists finished, contents (classifier g) ≡ₚ finished ++ contents (classifier g')
       /\ (m_ndocs_saved g' = if bool_decide (finished = []) then m_ndocs_saved g else wrap64 (m_ndocs_saved g + 1))
       /\ accounted (h_state h) (queue (h_id h) (classifier g)) (seen_by i (log g)) r finished (mongodb g) (mongodb g')).
  { intros -> Hst. split_and!; try reflexivity; [assumption|]. exists []. split_and!; [reflexivity|reflexivity|by left]. }
  assert (Hsave : forall d1, h_state h = HEAD \/ h_state h = CONTENT -> d_url d1 = d_url d ->
    (d_curl_code d1, d_curl_error d1, d_modified d1, d_crawled d1) = (rp_result r, rp_error r, rp_filetime r, rp_now r) ->
    d_http_code d1 = (if ok_report r && bool_decide (h_state h = HEAD) then 406 else rp_code r) ->
    (ok_report r = true -> d_headers d1 = heads (seen_by i (log g)) /\ (h_state h = CONTENT -> d_content d1 = body (seen_by i (log g)))) ->
    (h_state h = CONTENT \/ h_state h = HEAD /\ (ok_report r = true -> ~ wanted (heads (seen_by i (log g))))) ->
    save_pop NDEBUG max_size UNSET h d1 g = ret (h', g') ->
    classifier_ok (classifier g') /\ user_agent g' = user_agent g /\ m_easyHandles g' = m_easyHandles g
    /\ exists finished, contents (classifier g) ≡ₚ finished ++ contents (classifier g')
       /\ (m_ndocs_saved g' = if bool_decide (finished = []) then m_ndocs_saved g else wrap64 (m_ndocs_saved g + 1))
       /\ accounted (h_state h) (queue (h_id h) (classifier g)) (seen_by i (log g)) r finished (mongodb g) (mongodb g')).
  { intros d1 Hk Hu H1 H2 H3 Hst Hsp. destruct (Hdoc Hk) as (u & q & Hq & Hdu).
    assert (Hd1 : doc_of NDEBUG max_size u d1) by (unfold doc_of in *; by rewrite Hu).
    destruct (save_pop_drops i h d1 g h' g' r u q Hc Hq Hd1 H1 H2 H3 Hsp) as (S1 & S2 & S3 & S4 & S5 & S6).
    split_and!; try assumption. exists [u]. split_and!; [exact S4|exact S5|]. right. exists u, q. split_and!; try assumption. reflexivity. }
  clear Hdoc. rewrite Hok in H. destruct (h_state h) eqn:E; [discriminate| |contradiction| |].
  - apply cbind_ret in H as (entry & _ & H). injection H as _ <-. apply Hkeep; [reflexivity|by left].
  - destruct (ok_report r) eqn:Er.
    + cbv zeta in H. destruct (acceptable _ _ _ _) eqn:Ea.
      * injection H as _ <-. apply Hkeep; [reflexivity|]. right. split_and!; [reflexivity|reflexivity|].
        rewrite <-Hheads. by apply acceptable_wanted.
      * eapply Hsave; [by left| | | | | |exact H]; [reflexivity|exact Hrep|reflexivity|by split; [exact Hheads|]|].
        right. split; [reflexivity|]. intros _ Hw. rewrite <-Hheads in Hw. apply acceptable_wanted in Hw. congruence.
    + eapply Hsave; [by left| | | | | |exact H]; [reflexivity|exact Hrep|exact Hcode|discriminate|]. right. by split.
  - destruct (ok_report r) eqn:Er; cbv zeta in H;
      (eapply Hsave; [by right| | | | | |exact H]; [reflexivity|exact Hrep|exact Hcode| |by left]); [by split|discriminate].
Qed.

Lemma done_drops i r g g' h : crawler_ok NDEBUG max_size g -> m_easyHandles g !! i = Some h -> done i r g = ret g' ->
  exists finished refused h', m_easyHandles g' !! i = Some h'
    /\ contents (classifier g) ≡ₚ finished ++ refused ++ contents (classifier g')
    /\ (m_ndocs_saved g' = if bool_decide (finished = []) then m_ndocs_saved g else wrap64 (m_ndocs_saved g + 1))
    /\ accounted (h_state h) (queue (h_id h) (classifier g)) (seen_by i (log g)) r finished (mongodb g) (mongodb g')
    /\ Forall (refused_by (user_agent g) (robots_entry h')) refused.
Proof.
  intros Hg Hi H. pose proof (ck_classifier _ _ _ Hg) as Hc. pose proof (lookup_lt_Some _ _ _ Hi) as Hlt.
  destruct (ck_handles _ _ _ Hg i h Hi) as [Hid [Hq Hn [Hd1 Hd2] Hwork]].
  unfold Crawler.done in H. cbv zeta in H. set (g0 := record (Finished i r) g) in *.
  assert (Hseen : heads (seen_by i (log g0)) = heads (seen_by i (log g)) /\ body (seen_by i (log g0)) = body (seen_by i (log g))).
  { unfold g0. cbn [log record]. rewrite seen_finished. done. }
  change (m_easyHandles g0) with (m_easyHandles g) in H. rewrite Hi in H. destruct (h_doc h) as [d|] eqn:Ed; [|discriminate].
  apply cbind_ret in H as (d1 & Hrep%lift_ret & H). apply take_report_reports in Hrep as [Hrep Hurl].
  apply cbind_ret in H as ([h1 g1] & Hsw & H).
  apply (done_switch_drops i _ _ _ _ _ r) in Hsw as (Hc1 & Hua & Hh1 & finished & Hf1 & Hf2 & Hf3);
    [|exact Hc|exact Hrep|by rewrite (proj1 Hseen)|by rewrite (proj2 Hseen)| |exact Hn].
  2: { intros Hk. cbn [h_state set_h_headers] in Hk. destruct (Hwork ltac:(destruct Hk; congruence)) as [_ (u & q & Hu & _ & Hf)].
       destruct (Hf Hk) as [_ (d0 & Hd0 & Hdoc)]. rewrite Ed in Hd0. injection Hd0 as <-. exists u, q. split; [exact Hu|].
       unfold doc_of in *. by rewrite Hurl. }
  assert (Hacc : accounted (h_state h) (queue (h_id h) (classifier g)) (seen_by i (log g)) r finished (mongodb g) (mongodb g1)).
  { unfold accounted, stored in *. rewrite (proj1 Hseen), (proj2 Hseen) in Hf3. exact Hf3. }
  clear Hf3. apply cbind_ret in H as (d2 & _ & H). apply cbind_ret in H as ([[h2 d3] g2] & Hloop & H).
  assert (Hnu : classifier_ok (classifier g2) /\ user_agent g2 = user_agent g1 /\ m_ndocs_saved g2 = m_ndocs_saved g1
    /\ m_easyHandles g2 = m_easyHandles g1 /\ mongodb g2 = mongodb g1
    /\ exists refused, contents (classifier g1) ≡ₚ refused ++ contents (classifier g2)
       /\ Forall (refused_by (user_agent g1) (robots_entry h2)) refused).
  { destruct (decide (h_state h1 = NEXT)).
    - destruct (next_url _ _ _ _ _ _) as [m|] eqn:Hm; [|discriminate]. cbn in Hloop. subst m.
      apply next_url_drops in Hm as (? & R2 & ? & ? & ? & ? & refused & ? & ?); [|assumption]. split_and!; try assumption.
      exists refused. by rewrite R2.
    - injection Hloop as <- _ <-. split_and!; try reflexivity; [assumption|]. exists []. by split. }
  destruct Hnu as (Hc2 & Hua2 & Hn2 & Hh2 & Hdb2 & refused & Hr1 & Hr2). revert H. set (h3 := set_h_doc _ h2). intros H.
  destruct (reschedule_drops i (set_handle i h3 g2) g' h3) as (E1 & E5 & E2 & h' & E3 & E4); [assumption| |exact H|].
  - cbn. rewrite Hh2, Hh1. by apply list_lookup_insert_eq.
  - cbn in E1, E2, E5. exists finished, refused, h'. split_and!; [assumption| | | |].
    + change (classifier g0) with (classifier g) in Hf1. by rewrite Hf1, Hr1, E2.
    + rewrite E1, Hn2. exact Hf2.
    + rewrite E5, Hdb2. exact Hacc.
    + rewrite E4. cbn. change (user_agent g) with (user_agent g0). rewrite <-Hua. exact Hr2.
Qed.

(** ** The loop of [done] ends *)
Lemma empty_n_total n c b : classifier_ok c -> empty_n n c = val b -> exists q, queue n c = Some q /\ b = bool_decide (q = []).
Proof.
  intros Hok H. rewrite (empty_n_ok n c Hok) in H. destruct (queue n c) as [q|]; [|discriminate]. injection H as <-. eauto.
Qed.

Lemma next_url_fuel f : forall h d g, classifier_ok (classifier g) -> (queue_len (h_id h) (classifier g) < f)%nat ->
  exists m, forall k, next_url NDEBUG max_size (f + k) h d g = Some m.
Proof.
  induction f as [|f IH]; intros h d g Hc Hl; [lia|]. cbn [Nat.add next_url].
  destruct (empty_n (h_id h) (classifier g)) as [[e|x]|] eqn:He; [|by eexists|by eexists].
  apply empty_n_total in He as (q & Hq & ->); [|assumption]. cbn [lift and_then]. case_bool_decide as Hnil; [by eexists|].
  cbn [h_id set_h_state]. destruct (peek NDEBUG (h_id h) (classifier g)) as [[[u c]|x]|] eqn:Hp; [|by eexists|by eexists].
  cbn [lift and_then]. destruct (lift (Url_normalize NDEBUG max_size u)) as [[url|x|x]|]; try by eexists. cbn [and_then].
  cbv zeta. destruct (lift (load_url NDEBUG max_size _ url d)) as [[[pre d1]|x|x]|]; try by eexists. cbn [and_then].
  destruct pre; [by eexists|]. cbn [robots_entry set_h_state]. destruct (robots_entry h) as [entry|]; [|by eexists].
  destruct (negb _); [by eexists|]. destruct (lift (lift_outcome _)) as [[ok|x|x]|]; try by eexists. cbn [and_then].
  destruct ok; [by eexists|]. cbn [classifier set_classifier]. destruct q as [|v q]; [contradiction|].
  destruct (peek_returns NDEBUG _ _ _ _ Hc Hp) as (_ & _ & _ & Hfront). destruct (Hfront v q Hq) as [-> ->].
  destruct (pop_ok (h_id h) v q (classifier g) Hc Hq) as (c2 & Hpop & Hc2 & _ & Hqs). rewrite Hpop. cbn [lift and_then].
  assert (Hq2 : queue (h_id h) c2 = Some q) by (by rewrite Hqs, decide_True).
  unfold queue_len in Hl. rewrite Hq in Hl. cbn in Hl.
  apply IH; cbn [h_id set_h_state classifier set_classifier]; [assumption|]. unfold queue_len. rewrite Hq2. cbn. lia.
Qed.
End Reach.

(** ** Claims *)


(** C17: In every reachable state a busy handle has work: its state is ROBOTS,
    HEAD or CONTENT, it has a document, and the URL it works on is at the front
    of its queue, where [peek] finds it and [pop] can take it; so the calls of
    the classifier in [done] do not throw. *)
Theorem crawler_busy {BR : BoostRegex} {MG : Mongo} {PQ : PriorityQueue} {HI : HostIndex} NDEBUG max_size
    C ct_value UNSET EMPTY_ ctype0 setopt_ok add_handle parallel c ua g i h :
  reachable NDEBUG max_size C ct_value UNSET EMPTY_ ctype0 setopt_ok add_handle parallel c ua g ->
  m_easyHandles g !! i = Some h -> h_state h <> IDLE ->
  h_state h <> NEXT /\ h_doc h <> None /\ h_id h = Z.of_nat i
  /\ exists u c', peek NDEBUG (h_id h) (classifier g) = val (u, classifier g) /\ pop (h_id h) (classifier g) = val c'
       /\ robots_for NDEBUG max_size i u (log g).
Proof.
  intros Hr Hi Hs. pose proof (reachable_ok _ _ _ _ _ _ _ _ _ _ _ _ _ Hr) as Hg.
  destruct (ck_handles _ _ _ Hg i h Hi) as [Hid [_ Hn _ Hw]]. destruct (Hw Hs) as [Hd Hwork].
  destruct (working_robots _ _ _ _ _ Hs Hn Hwork) as (u & q & Hq & Hrf).
  split_and!; [done|done|done|]. destruct (pop_ok (h_id h) u q _ (ck_classifier _ _ _ Hg) Hq) as (c' & Hp & _).
  exists u, c'. split_and!; [|done|done]. exact (peek_front NDEBUG _ u q _ (ck_classifier _ _ _ Hg) Hq).
Qed.

(** C2: A finished transfer accounts for every URL and every document.  A
    robots.txt, and a HEAD that succeeded for a page of a wanted type, store
    nothing and no URL is finished.  Every other HEAD and every GET finish
    exactly the URL at the front of the queue and store exactly one document,
    under the normalised address of that URL: with the codes, error text and
    times of the report, when the transfer succeeded with the headers that came
    and, after a GET, the content that came, and with status 406 when the type is
    not wanted; the database changes in nothing else, and the counter of
    documents goes up by one (modulo 2^64).  Every other URL that leaves the
    classifier is refused by the robots.txt that the handle holds. *)
Theorem done_accounts {BR : BoostRegex} {MG : Mongo} {PQ : PriorityQueue} {HI : HostIndex} NDEBUG max_size
    C ct_value UNSET EMPTY_ ctype0 setopt_ok add_handle parallel c ua g i h r g' :
  reachable NDEBUG max_size C ct_value UNSET EMPTY_ ctype0 setopt_ok add_handle parallel c ua g ->
  m_easyHandles g !! i = Some h ->
  done NDEBUG max_size C ct_value UNSET EMPTY_ ctype0 setopt_ok add_handle i r g = ret g' ->
  exists finished refused h', m_easyHandles g' !! i = Some h'
    /\ contents (classifier g) ≡ₚ finished ++ refused ++ contents (classifier g')
    /\ (m_ndocs_saved g' = if bool_decide (finished = []) then m_ndocs_saved g else wrap64 (m_ndocs_saved g + 1))
    /\ accounted NDEBUG max_size C ct_value UNSET EMPTY_ ctype0 (h_state h) (queue (h_id h) (classifier g))
         (seen_by i (log g)) r finished (mongodb g) (mongodb g')
    /\ Forall (refused_by NDEBUG max_size (user_agent g) (robots_entry h')) refused.
Proof.
  intros Hr Hi Hd. eapply done_drops; [by eapply reachable_ok|done|exact Hd].
Qed.

(** C40: The loop of [done] that looks for the next URL ends: with more fuel than
    URLs in the queue it never runs out, whatever is in the database and in the
    robots.txt, and it has one outcome, the same for any more fuel. *)
Theorem next_url_terminates {BR : BoostRegex} {MG : Mongo} {PQ : PriorityQueue} NDEBUG max_size h d g :
  classifier_ok (classifier g) ->
  exists m, forall k, next_url NDEBUG max_size (S (queue_len (h_id h) (classifier g)) + k) h d g = Some m.
Proof. intros Hc. apply next_url_fuel; [done|lia]. Qed.

(** C18: A connection pushes the same URLs however its octets are cut into
    pieces: the lines of two characters or more that parse as absolute http
    URLs, each counted (modulo 2^64).  At the end of the connection a last line without its
    end is pushed too, if it parses, whatever its scheme, and is not
    counted. *)
Theorem connection_stream {BR : BoostRegex} {PQ : PriorityQueue} {HI : HostIndex} max_size b bs c :
  b <> [] -> Forall (fun b => b <> []) bs -> bytes_ok (b ++ concat bs) -> 3 * zlen (b ++ concat bs) + 1 < max_size ->
  classifier_ok c ->
  let '(ls, r) := split_lines [] (b ++ concat bs) in
  let urls := omap (accepted true max_size) ls in
  exists c1 c2, read_chunks true max_size (b :: bs) Connection_new c = val (mk_Connection r (wrap64 (zlen urls)), c1)
    /\ classifier_ok c1 /\ contents c1 ≡ₚ urls ++ contents c
    /\ connection_read_cb true max_size [] (mk_Connection r (wrap64 (zlen urls))) c1 = val (mk_Connection [] (wrap64 (zlen urls)), c2)
    /\ classifier_ok c2
    /\ contents c2 ≡ₚ (if bool_decide (r = []) then [] else option_list (parsed true max_size r)) ++ contents c1.
Proof.
  intros Hb Hbs Hbytes Hm Hok. rewrite (read_chunks_concat true max_size bs b Connection_new c Hb Hbs ltac:(constructor)).
  pose proof (stream_ok true max_size eq_refl (b ++ concat bs) Connection_new 0 c) as H.
  cbn [m_input_buff m_num_urls Connection_new app] in H. destruct (split_lines [] (b ++ concat bs)) as [ls r].
  destruct H as (c1 & c2 & H1 & [H2 H3] & H4 & [H5 H6]); [by intros [? _]%app_eq_nil|constructor|done|done|done|done|].
  exists c1, c2. cbn [Z.add] in *. by split_and!.
Qed.

(** The address from which the crawler fetches a robots.txt: the host and
    port of the page and the path "/robots.txt", but also the user, the query
    and the fragment of the page, which are not reset. *)
Theorem robots_url_spec {BR : BoostRegex} max_size host u : 10 < max_size -> host_ok host -> host <> [] ->
  exists ru, robots_url max_size host u = val ru
    /\ Url_get ru = str "http://" ++ get_authority (set_host host u) ++ str "/robots.txt" ++ m_query u ++ m_fragment u.
Proof.
  intros Hm Hh Hne. unfold robots_url, put_scheme. unfold rx at 1. rewrite regex_match_law.
  rewrite bool_decide_true by (vm_compute; discriminate). cbn [rbind val].
  rewrite put_host_same by done. cbn [rbind val]. unfold put_path.
  assert (escape (str "robots.txt") URL_CHAR_PATH = Value (str "robots.txt")) as -> by reflexivity. cbn [lift_outcome rbind].
  rewrite (Path_assign_ok max_size) by (change (zlen (str "robots.txt")) with 10; lia). cbn [m_has_authority set_has_authority].
  eexists. split; [reflexivity|]. unfold Url_get, get_authority. cbn [m_scheme m_has_authority m_host m_userinfo m_host_ip_literal
    m_port m_query m_fragment _path set_path set_host set_has_authority set_scheme].
  rewrite !bool_decide_false by done. reflexivity.
Qed.

Lemma robots_url_spec_witness : exists ru,
  robots_url (BR := perl_regex) 1000 (str "h") (set_query (str "?q=1") page) = val ru
  /\ Url_get ru = str "http://h/robots.txt?q=1".
Proof.
  destruct (robots_url_spec (BR := perl_regex) 1000 (str "h") (set_query (str "?q=1") page)) as (ru & H1 & H2);
    [done| |done|exists ru; split; [exact H1|exact H2]].
  split; [|by apply (bool_decide_unpack _)|vm_compute; reflexivity|by apply (bool_decide_unpack _)|by apply (bool_decide_unpack _)].
  apply (clean_char _ 104 []); [vm_compute; reflexivity|constructor].
Defined.

(** ** A run of the crawler *)
Module Demo.
Existing Instance perl_regex.

Definition C := some_content_types.
Definition input : list Z := str "http://h/a" ++ [10].
Definition g0 : GlobalInfo := GlobalInfo_new 1 ∅ (str "bot").
Definition c1 : Url_classifier := match connection_read_cb true 1000 input Connection_new (classifier g0) with
  | Some (Value (_, c)) => c | _ => classifier g0 end.
Definition g1 : GlobalInfo := set_classifier c1 g0.
Definition get (m : run_ GlobalInfo) : GlobalInfo := match m with Some (Ret g) => g | _ => g0 end.
Definition g2 : GlobalInfo := get (reschedule_all true 1000 0 (fun _ => true) (fun _ => 0) g1).
Definition not_found : report := mk_report 0 (str "http://h/robots.txt") 404 (-1) [] 7.
Definition g3 : GlobalInfo := get (done true 1000 C id 0 9 0 (fun _ => true) (fun _ => 0) 0 not_found g2).

Local Abbreviation reach := (reachable true 1000 C id 0 9 0 (fun _ => true) (fun _ => 0) 1 ∅ (str "bot")).

(** The run is followed by computing whether each part returns, which needs
    no comparison of whole states. *)
Definition returns (m : run_ GlobalInfo) : bool := match m with Some (Ret _) => true | _ => false end.

Lemma returns_get m : returns m = true -> m = ret (get m).
Proof. destruct m as [[]|]; [reflexivity|discriminate..]. Qed.

Lemma reach1 : reach g1.
Proof.
  eapply reach_step; [apply reach_start|]. apply (step_read _ _ _ _ _ _ _ _ _ _ input Connection_new (mk_Connection [] 1)).
  vm_compute. reflexivity.
Qed.

Lemma reach2 : reach g2.
Proof. eapply reach_step; [apply reach1|]. apply step_scheduler, returns_get. vm_cast_no_check (@eq_refl bool true). Qed.

Lemma busy2 : from_option h_state IDLE (m_easyHandles g2 !! 0%nat) = ROBOTS.
Proof. vm_cast_no_check (@eq_refl handle_state ROBOTS). Qed.

Lemma done2 : done true 1000 C id 0 9 0 (fun _ => true) (fun _ => 0) 0 not_found g2 = ret g3.
Proof. apply returns_get. vm_cast_no_check (@eq_refl bool true). Qed.

Lemma reach3 : reach g3.
Proof.
  eapply reach_step; [apply reach2|]. pose proof busy2 as Hb.
  destruct (m_easyHandles g2 !! 0%nat) as [h|] eqn:E; [|discriminate]. cbn [from_option] in Hb.
  eapply (step_done _ _ _ _ _ _ _ _ _ _ 0 h not_found); [exact E|rewrite Hb; discriminate|exact done2].
Qed.



Lemma busy3 : from_option h_state IDLE (m_easyHandles g3 !! 0%nat) = HEAD.
Proof. vm_cast_no_check (@eq_refl handle_state HEAD). Qed.
End Demo.

Import Demo.


Lemma crawler_busy_witness : exists h u c', m_easyHandles g3 !! 0%nat = Some h /\ h_state h = HEAD
  /\ peek true (h_id h) (classifier g3) = val (u, classifier g3) /\ pop (h_id h) (classifier g3) = val c'.
Proof.
  pose proof busy3 as Hs. destruct (m_easyHandles g3 !! 0%nat) as [h|] eqn:E; [|discriminate Hs]. cbn [from_option] in Hs.
  destruct (crawler_busy (BR := perl_regex) true 1000 C id 0 9 0 (fun _ => true) (fun _ => 0) 1 ∅ (str "bot") g3 0 h)
    as (_ & _ & _ & u & c' & H1 & H2 & _); [exact reach3|exact E|rewrite Hs; discriminate|].
  exists h, u, c'. split; [reflexivity|]. split; [exact Hs|]. split; [exact H1|exact H2].
Defined.

Lemma done_accounts_witness : exists refused,
  contents (classifier g2) ≡ₚ refused ++ contents (classifier g3) /\ m_ndocs_saved g3 = m_ndocs_saved g2
  /\ mongodb g3 = mongodb g2.
Proof.
  pose proof busy2 as Hs. destruct (m_easyHandles g2 !! 0%nat) as [h|] eqn:E; [|discriminate Hs]. cbn [from_option] in Hs.
  destruct (done_accounts (BR := perl_regex) true 1000 C id 0 9 0 (fun _ => true) (fun _ => 0) 1 ∅ (str "bot") g2 0 h not_found g3)
    as (f & r & h' & _ & H1 & H2 & H3 & _); [exact reach2|exact E|exact done2|].
  rewrite Hs in H3. destruct H3 as [(-> & H3 & _)|(? & ? & _ & _ & _ & [H3|[H3 _]])]; [|discriminate H3..].
  exists r. split; [exact H1|]. split; [exact H2|exact H3].
Defined.

Lemma next_url_terminates_witness : exists m, forall k,
  next_url (BR := perl_regex) true 1000 (1 + k) (EasyHandle_new 0) (Doc_new 0) g0 = Some m.
Proof. exact (next_url_terminates (BR := perl_regex) true 1000 (EasyHandle_new 0) (Doc_new 0) g0 (proj1 (Url_classifier_of_ok 1))). Defined.

Lemma connection_stream_witness :
  exists c1, read_chunks (BR := perl_regex) true 1000 [str "http://h"; str "/a" ++ [10] ++ str "ftp://h/b"] Connection_new
    (Url_classifier_of 1) = val (mk_Connection (str "ftp://h/b") 1, c1) /\ length (contents c1) = 1%nat.
Proof.
  pose proof (connection_stream (BR := perl_regex) 1000 (str "http://h") [str "/a" ++ [10] ++ str "ftp://h/b"] (Url_classifier_of 1)) as H.
  destruct H as (c1 & c2 & H1 & _ & H2 & _); [done|by constructor|by apply (bool_decide_unpack _)|done|apply Url_classifier_of_ok|].
  exists c1. apply Permutation_length in H2. split; [|rewrite H2; vm_compute; reflexivity].
  etransitivity; [exact H1|]. vm_compute. reflexivity.
Defined.
