(* ===== verification/Iostream.v ===== *)
(** * Formatted streams of the C++ library

    The part of [std::istream] and [std::ostream] that the sources use: the
    state bits, [peek], [get], and the formatted input and output of integers
    with the default flags and the "C" locale.  A stream is the octets that
    are still to be read with its [eofbit] and [failbit]; [badbit] is left out,
    because the stream buffers in use raise no exception. *)
From S2P Require Import Prelude.

Record istream := mk_istream { rest : list Z; eofbit : bool; failbit : bool }.

#[export] Instance istream_eq_dec : EqDecision istream.
Proof. solve_decision. Defined.

(** A stream about to read [s]. *)
Definition stream (s : list Z) : istream := mk_istream s false false.

Definition good (s : istream) : bool := negb (eofbit s || failbit s).
Definition fail (s : istream) : bool := failbit s.
Definition set_fail (s : istream) : istream := mk_istream (rest s) (eofbit s) true.

(** An unformatted operation first makes a sentry, which sets [failbit] on a
    stream that is not good.  [None] is EOF. *)
Definition peek (s : istream) : option Z * istream :=
  if good s then
    match rest s with
    | [] => (None, mk_istream [] true (failbit s))
    | c :: _ => (Some c, s)
    end
  else (None, set_fail s).

Definition get (s : istream) : option Z * istream :=
  if good s then
    match rest s with
    | [] => (None, mk_istream [] true true)
    | c :: r => (Some c, mk_istream r (eofbit s) (failbit s))
    end
  else (None, set_fail s).

Definition isspace (c : Z) : bool := (c =? 32) || ((9 <=? c) && (c <=? 13)).
Definition isdigit (c : Z) : bool := (48 <=? c) && (c <=? 57).

Fixpoint skip_space (s : list Z) : list Z :=
  match s with c :: r => if isspace c then skip_space r else s | [] => [] end.

(** The digits in front of [s], as a number that continues [acc], whether
    there was one, and what follows them. *)
Fixpoint take_digits (s : list Z) (found : bool) (acc : Z) : bool * Z * list Z :=
  match s with
  | c :: r => if isdigit c then take_digits r true (10 * acc + (c - 48)) else (found, acc, s)
  | [] => (found, acc, [])
  end.

(** [s >> v] for a signed integer with the bounds [lo] and [hi]: white space
    is skipped, a sign may precede the digits, and a number that does not fit
    is replaced by the nearest bound and sets [failbit].  The first result is
    the value written to [v], [None] when [v] keeps its old value. *)
Definition extract (lo hi : Z) (s : istream) : option Z * istream :=
  if good s then
    match skip_space (rest s) with
    | [] => (None, mk_istream [] true true)
    | c :: r =>
        let neg := c =? 45 in
        let '(found, n, r) := take_digits (if neg || (c =? 43) then r else c :: r) false 0 in
        let v := if neg then - n else n in
        let eof := match r with [] => true | _ => false end in
        if negb found then (Some 0, mk_istream r eof true)
        else if v <? lo then (Some lo, mk_istream r eof true)
        else if hi <? v then (Some hi, mk_istream r eof true)
        else (Some v, mk_istream r eof false)
    end
  else (None, set_fail s).

(** Output of an integer. *)
Fixpoint put_digits (n : nat) (v : Z) (acc : list Z) : list Z :=
  match n with
  | O => acc
  | S n => if v <? 10 then (48 + v) :: acc else put_digits n (v / 10) ((48 + v mod 10) :: acc)
  end.

Definition put_nat (v : Z) : list Z := put_digits (S (Z.to_nat (Z.log2 v))) v [].
Definition put_int (v : Z) : list Z := if v <? 0 then 45 :: put_nat (- v) else put_nat v.

(** ** What the operations do to a good stream *)
Lemma peek_cons c r : peek (stream (c :: r)) = (Some c, stream (c :: r)).
Proof. done. Qed.

Lemma get_cons c r : get (stream (c :: r)) = (Some c, stream r).
Proof. done. Qed.

(** A good stream is given by what is left of it. *)
Lemma good_stream s : good s = true -> s = stream (rest s).
Proof. destruct s as [r [] []]; done. Qed.

Lemma good_not_fail s : good s = true -> fail s = false.
Proof. by destruct s as [r [] []]. Qed.

(** ** Reading what was written *)
Lemma isdigit_digit v : 0 <= v < 10 -> isdigit (48 + v) = true.
Proof. intros. unfold isdigit. rewrite !(proj2 (Z.leb_le _ _)) by lia. done. Qed.

Lemma div10_small n v : 10 <= v < 2 ^ Z.of_nat (S n) -> 0 <= v / 10 < 2 ^ Z.of_nat n.
Proof.
  intros [H1 H2]. rewrite Nat2Z.inj_succ, Z.pow_succ_r in H2 by lia.
  split; [apply Z.div_pos; lia|]. apply Z.div_lt_upper_bound; [lia|]. assert (0 <= 2 ^ Z.of_nat n) by (apply Z.pow_nonneg; lia). lia.
Qed.

Lemma put_digits_S n v acc : put_digits (S n) v acc
  = if v <? 10 then (48 + v) :: acc else put_digits n (v / 10) ((48 + v mod 10) :: acc).
Proof. done. Qed.

(** Digits are put in front of [acc] and are read back as the number. *)
Lemma put_digits_read n : forall v acc found, 0 <= v < 2 ^ Z.of_nat (S n) ->
  take_digits (put_digits (S n) v acc) found 0 = take_digits acc true v.
Proof.
  induction n as [|n IH]; intros v acc found Hv; rewrite put_digits_S; zcase (v <? 10).
  1, 3: cbn [take_digits]; rewrite isdigit_digit by lia; f_equal; lia.
  - change (2 ^ Z.of_nat 1) with 2 in Hv. lia.
  - rewrite IH by (apply div10_small; lia). cbn [take_digits].
    rewrite isdigit_digit by (apply Z.mod_pos_bound; lia). f_equal. pose proof (Z.div_mod v 10). lia.
Qed.

Lemma put_digits_head n : forall v acc, 0 <= v < 2 ^ Z.of_nat (S n) ->
  exists c r, put_digits (S n) v acc = c :: r /\ isdigit c = true.
Proof.
  induction n as [|n IH]; intros v acc Hv; rewrite put_digits_S; zcase (v <? 10).
  1, 3: do 2 eexists; split; [done|]; apply isdigit_digit; lia.
  - change (2 ^ Z.of_nat 1) with 2 in Hv. lia.
  - apply IH, div10_small; lia.
Qed.

Lemma put_digits_app n : forall v acc r, put_digits n v (acc ++ r) = put_digits n v acc ++ r.
Proof. induction n as [|n IH]; intros v acc r; cbn; [done|]. destruct (v <? 10); [done|]. apply (IH _ (_ :: acc)). Qed.

Lemma log2_fits v : 0 <= v -> 0 <= v < 2 ^ Z.of_nat (S (Z.to_nat (Z.log2 v))).
Proof.
  intros Hv. split; [done|]. rewrite Nat2Z.inj_succ, Z2Nat.id by apply Z.log2_nonneg.
  destruct (decide (v = 0)) as [->|]; [done|]. apply Z.log2_spec. lia.
Qed.

Lemma put_nat_read v r : 0 <= v -> take_digits (put_nat v ++ r) false 0 = take_digits r true v.
Proof. intros. unfold put_nat. rewrite <-put_digits_app. apply put_digits_read. by apply log2_fits. Qed.

Lemma put_nat_head v : 0 <= v -> exists c r, put_nat v = c :: r /\ isdigit c = true.
Proof. intros. apply put_digits_head. by apply log2_fits. Qed.

Lemma isdigit_spec c : isdigit c = true <-> 48 <= c <= 57.
Proof. unfold isdigit. rewrite andb_true_iff, !Z.leb_le. done. Qed.

Lemma not_space c : 32 < c -> isspace c = false.
Proof. intros. unfold isspace. rewrite orb_false_iff, andb_false_iff, Z.eqb_neq, !Z.leb_gt. lia. Qed.

(** An integer that is written in front of a character other than a digit is
    read back, and the stream stays good. *)
Lemma extract_put lo hi v c r : lo <= v <= hi -> isdigit c = false ->
  extract lo hi (stream (put_int v ++ c :: r)) = (Some v, stream (c :: r)).
Proof.
  intros Hv Hc. unfold extract, put_int. cbn [good stream eofbit failbit rest orb negb].
  zcase (v <? 0).
  - cbn [app skip_space]. rewrite not_space, Z.eqb_refl by lia. cbn [orb]. rewrite put_nat_read by lia.
    cbn [take_digits negb]. rewrite Hc. rewrite Z.opp_involutive, !(proj2 (Z.ltb_ge _ _)) by lia. done.
  - destruct (put_nat_head v) as (d & t & Ht & Hd); [lia|]. pose proof (put_nat_read v (c :: r)) as Hr.
    rewrite Ht in *. cbn [app] in *. apply isdigit_spec in Hd. cbn [skip_space]. rewrite not_space by lia.
    rewrite !(proj2 (Z.eqb_neq d _)) by lia. cbn [orb]. rewrite Hr by lia. cbn [take_digits]. rewrite Hc. cbn [negb].
    rewrite !(proj2 (Z.ltb_ge _ _)) by lia. done.
Qed.

(** ** What reading leaves *)
Lemma skip_space_suffix s : skip_space s `suffix_of` s.
Proof. induction s as [|c s IH]; cbn; [done|]. destruct (isspace c); [by apply suffix_cons_r|done]. Qed.

Lemma take_digits_suffix s : forall found a found' a' r,
  take_digits s found a = (found', a', r) -> r `suffix_of` s.
Proof.
  induction s as [|c s IH]; cbn; intros found a found' a' r; [by intros [= _ _ <-]|].
  destruct (isdigit c); [|by intros [= _ _ <-]]. intros H%IH. by apply suffix_cons_r.
Qed.

Lemma take_digits_pos s : forall found a found' a' r,
  Forall (fun c => 0 <= c) s -> 0 <= a -> take_digits s found a = (found', a', r) -> 0 <= a'.
Proof.
  induction s as [|c s IH]; cbn; intros found a found' a' r Hs Ha; [by intros [= _ <- _]|].
  apply Forall_cons in Hs as [Hc Hs]. destruct (isdigit c) eqn:E; [|by intros [= _ <- _]].
  apply isdigit_spec in E. apply IH; [done|lia].
Qed.

(** A successful extraction gives a number in its bounds and a suffix of the
    input. *)
Lemma extract_spec lo hi s v s' : lo <= 0 <= hi -> extract lo hi s = (v, s') ->
  rest s' `suffix_of` rest s
  /\ (fail s' = false -> good s = true /\ exists n, v = Some n /\ lo <= n <= hi).
Proof.
  intros Hb. unfold extract. destruct (good s); [|intros [= <- <-]; split; [done|]; by cbn].
  pose proof (skip_space_suffix (rest s)) as Hs. destruct (skip_space (rest s)) as [|c r].
  { intros [= <- <-]. split; [|done]. apply suffix_nil. }
  destruct (take_digits _ _ _) as [[found n] r'] eqn:E.
  assert (r' `suffix_of` rest s) as Hr.
  { etransitivity; [|exact Hs]. apply take_digits_suffix in E. destruct (_ || _); [by apply suffix_cons_r|done]. }
  destruct found; cbn [negb]; [|intros [= <- <-]; split; [done|]; by cbn].
  zcase ((if c =? 45 then - n else n) <? lo); [intros [= <- <-]; split; [done|]; by cbn|].
  zcase (hi <? (if c =? 45 then - n else n)); intros [= <- <-]; (split; [done|]); cbn; [done|].
  intros _. split; [done|]. by eexists.
Qed.
