(* ===== verification/Bencode.v ===== *)
(** * Bencoded values

    src/src/common/bencode.cc and bencode.hh: class [torrent::Bencode], a tagged
    union of integers, strings, lists and maps, its printer ([operator <<]), its
    reader ([operator >>]) and its accessors.

    A value owns what its pointers lead to, so a value is a tree.  A [std::map]
    keeps its elements ordered by key: it is an association list with strictly
    increasing keys.  The union has no member under [TYPE_NONE]. *)
From S2P Require Import Prelude Iostream.

Local Open Scope res_scope.

Local Unset Elimination Schemes.
Inductive Bencode :=
| TYPE_NONE
| TYPE_VALUE (m_value : Z)
| TYPE_STRING (m_string : list Z)
| TYPE_LIST (m_list : list Bencode)
| TYPE_MAP (m_map : list (list Z * Bencode)).

Local Set Elimination Schemes.

(** Induction that reaches the elements of lists and maps. *)
Section BencodeInd.
Context (P : Bencode -> Prop).
Context (Hnone : P TYPE_NONE) (Hvalue : forall v, P (TYPE_VALUE v)) (Hstring : forall s, P (TYPE_STRING s)).
Context (Hlist : forall xs, Forall P xs -> P (TYPE_LIST xs)).
Context (Hmap : forall m, Forall (fun p => P p.2) m -> P (TYPE_MAP m)).

Fixpoint Bencode_tree_ind (b : Bencode) : P b :=
  match b with
  | TYPE_NONE => Hnone
  | TYPE_VALUE v => Hvalue v
  | TYPE_STRING s => Hstring s
  | TYPE_LIST xs => Hlist xs ((fix go xs : Forall P xs :=
      match xs with [] => Forall_nil_2 _ | x :: r => Forall_cons_2 _ _ _ (Bencode_tree_ind x) (go r) end) xs)
  | TYPE_MAP m => Hmap m ((fix go m : Forall (fun p => P p.2) m :=
      match m with [] => Forall_nil_2 _ | p :: r => Forall_cons_2 _ _ _ (Bencode_tree_ind p.2) (go r) end) m)
  end.
End BencodeInd.

(** ** std::map *)
Section Map.
Context {A : Type}.

Fixpoint map_find (k : list Z) (m : list (list Z * A)) : option A :=
  match m with
  | [] => None
  | (k', v) :: m => if decide (k = k') then Some v else map_find k m
  end.

(** [m[k] = v]: the element of the key, made when there is none, is assigned. *)
Fixpoint map_put (k : list Z) (v : A) (m : list (list Z * A)) : list (list Z * A) :=
  match m with
  | [] => [(k, v)]
  | (k', v') :: r =>
      if str_lt k k' then (k, v) :: m
      else if decide (k = k') then (k, v) :: r
      else (k', v') :: map_put k v r
  end.

Fixpoint map_erase (k : list Z) (m : list (list Z * A)) : list (list Z * A) :=
  match m with
  | [] => []
  | (k', v') :: r => if decide (k = k') then r else (k', v') :: map_erase k r
  end.
End Map.

(** ** Making, copying and destroying values *)
Inductive Type_ := T_NONE | T_VALUE | T_STRING | T_LIST | T_MAP.

Definition get_type (b : Bencode) : Type_ :=
  match b with
  | TYPE_NONE => T_NONE
  | TYPE_VALUE _ => T_VALUE
  | TYPE_STRING _ => T_STRING
  | TYPE_LIST _ => T_LIST
  | TYPE_MAP _ => T_MAP
  end.

(** [Bencode(Type t)] *)
Definition Bencode_of_type (t : Type_) : Bencode :=
  match t with
  | T_VALUE => TYPE_VALUE 0
  | T_STRING => TYPE_STRING []
  | T_LIST => TYPE_LIST []
  | T_MAP => TYPE_MAP []
  | T_NONE => TYPE_NONE
  end.

(** [Bencode(const Bencode& b)]: the list and map copies copy their elements. *)
Fixpoint Bencode_copy (b : Bencode) : Bencode :=
  match b with
  | TYPE_VALUE v => TYPE_VALUE v
  | TYPE_STRING s => TYPE_STRING s
  | TYPE_LIST xs => TYPE_LIST (map Bencode_copy xs)
  | TYPE_MAP m => TYPE_MAP (map (fun p => (p.1, Bencode_copy p.2)) m)
  | TYPE_NONE => TYPE_NONE
  end.

Definition clear (b : Bencode) : Bencode := TYPE_NONE.

(** [this = b].  [same] says that [b] is the object that is assigned to: the
    [clear()] in front of the copy then clears it too. *)
Definition assign (same : bool) (this b : Bencode) : Bencode :=
  let this := clear this in
  let b := if same then this else b in
  Bencode_copy b.

(** ** Accessors *)
Definition is_value (b : Bencode) : bool := match b with TYPE_VALUE _ => true | _ => false end.
Definition is_string (b : Bencode) : bool := match b with TYPE_STRING _ => true | _ => false end.
Definition is_list (b : Bencode) : bool := match b with TYPE_LIST _ => true | _ => false end.
Definition is_map (b : Bencode) : bool := match b with TYPE_MAP _ => true | _ => false end.

Definition as_value (b : Bencode) : res Z :=
  match b with TYPE_VALUE v => val v | _ => throw (bencode_error (str "Bencode is not type value")) end.
Definition as_string (b : Bencode) : res (list Z) :=
  match b with TYPE_STRING s => val s | _ => throw (bencode_error (str "Bencode is not type string")) end.
Definition as_list (b : Bencode) : res (list Bencode) :=
  match b with TYPE_LIST xs => val xs | _ => throw (bencode_error (str "Bencode is not type list")) end.
Definition as_map (b : Bencode) : res (list (list Z * Bencode)) :=
  match b with TYPE_MAP m => val m | _ => throw (bencode_error (str "Bencode is not type map")) end.

Definition at_key (k : list Z) (b : Bencode) : res Bencode :=
  match b with
  | TYPE_MAP m =>
      match map_find k m with
      | Some x => val x
      | None => throw (bencode_error (str "Bencode operator [" ++ k ++ str "] could not find element"))
      end
  | _ => throw (bencode_error (str "Bencode operator [" ++ k ++ str "] called on wrong type"))
  end.

Definition has_key (k : list Z) (b : Bencode) : res bool :=
  match b with
  | TYPE_MAP m => val (bool_decide (is_Some (map_find k m)))
  | _ => throw (bencode_error (str "Bencode::has_key(" ++ k ++ str ") called on wrong type"))
  end.

(** The new state of the map and the element that the reference leads to;
    [x] is another object than the map. *)
Definition insert_key (k : list Z) (x : Bencode) (b : Bencode) : res (Bencode * Bencode) :=
  match b with
  | TYPE_MAP m =>
      let x := assign false (default TYPE_NONE (map_find k m)) x in
      val (TYPE_MAP (map_put k x m), x)
  | _ => throw (bencode_error (str "Bencode::insert_key(" ++ k ++ str ", ...) called on wrong type"))
  end.

Definition erase_key (k : list Z) (b : Bencode) : res Bencode :=
  match b with
  | TYPE_MAP m => val (TYPE_MAP (map_erase k m))
  | _ => throw (bencode_error (str "Bencode::erase_key(" ++ k ++ str ") called on wrong type"))
  end.

(** ** Printing *)
Fixpoint print (b : Bencode) : list Z :=
  match b with
  | TYPE_VALUE v => str "i" ++ put_int v ++ str "e"
  | TYPE_STRING s => put_int (zlen s) ++ str ":" ++ s
  | TYPE_LIST xs => str "l" ++ concat (map print xs) ++ str "e"
  | TYPE_MAP m => str "d" ++ concat (map (fun p => put_int (zlen p.1) ++ str ":" ++ p.1 ++ print p.2) m) ++ str "e"
  | TYPE_NONE => []
  end.

(** ** Reading *)
Definition INT64_MIN : Z := - 2 ^ 63.
Definition INT64_MAX : Z := 2 ^ 63 - 1.

(** [for(itr = begin; itr != end && s.good(); ++itr) *itr = s.get()] over the
    [n] characters that are still to be filled; what EOF writes is not kept,
    as the stream has failed then. *)
Fixpoint fill (n : nat) (s : istream) (acc : list Z) : list Z * istream :=
  match n with
  | O => (acc, s)
  | S n =>
      if good s then
        match get s with
        | (Some c, s) => fill n s (acc ++ [c])
        | (None, s) => (acc, s)
        end
      else (acc, s)
  end.

(** [read_string]: [None] is [false].  [resize] takes a [size_t], so a negative
    size is larger than every string may be. *)
Definition read_string (s : istream) : res (istream * option (list Z)) :=
  match extract INT_MIN INT_MAX s with
  | (size, s) =>
      if fail s then val (s, None) else
      let (c, s) := get s in
      if bool_decide (c <> Some 58) then val (s, None) else
      match size with
      | None => abort
      | Some size =>
          if size <? 0 then throw length_error else
          let (x, s) := fill (Z.to_nat size) s [] in
          val (s, if fail s then None else Some x)
      end
  end.

(** The end of [operator >>] after [break]. *)
Definition broken (s : istream) : res (istream * Bencode) := val (set_fail s, TYPE_NONE).

(** The branch of integers, after its first character. *)
Definition read_int (s : istream) : res (istream * Bencode) :=
  let (v, s) := extract INT64_MIN INT64_MAX s in
  if fail s then broken s else
  let (e, s) := get s in
  if bool_decide (e <> Some 101) then broken s else
  match v with Some v => val (s, TYPE_VALUE v) | None => abort end.

(** The branch of strings, for the next character [c]. *)
Definition read_text (c : option Z) (s : istream) : res (istream * Bencode) :=
  if match c with Some c => isdigit c | None => false end then
    r <~ read_string s ;;
    match r with
    | (s, Some x) => val (s, TYPE_STRING x)
    | (s, None) => broken s
    end
  else broken s.

(** [s >> b]; the old value of [b] is cleared first. *)
Fixpoint read (n : nat) (s : istream) {struct n} : res (istream * Bencode) :=
  match n with
  | O => abort
  | S n =>
      let (c, s) := peek s in
      if bool_decide (c = None) then broken s else
      let (c, s) := peek s in
      if bool_decide (c = Some 105) then
        let (_, s) := get s in read_int s
      else if bool_decide (c = Some 108) then let (_, s) := get s in read_list n s []
      else if bool_decide (c = Some 100) then let (_, s) := get s in read_map n s []
      else if bool_decide (c = Some 117) then
        let (_, s) := get s in
        let (c, s) := peek s in
        if bool_decide (c = None) then broken s else read_text c s
      else read_text c s
  end
with read_list (n : nat) (s : istream) (xs : list Bencode) {struct n} : res (istream * Bencode) :=
  match n with
  | O => abort
  | S n =>
      if good s then
        let (c, s) := peek s in
        if bool_decide (c = Some 101) then let (_, s) := get s in val (s, TYPE_LIST xs)
        else r <~ read n s ;; read_list n r.1 (xs ++ [r.2])
      else broken s
  end
with read_map (n : nat) (s : istream) (m : list (list Z * Bencode)) {struct n} : res (istream * Bencode) :=
  match n with
  | O => abort
  | S n =>
      if good s then
        let (c, s) := peek s in
        if bool_decide (c = Some 101) then let (_, s) := get s in val (s, TYPE_MAP m)
        else
          k <~ read_string s ;;
          match k with
          | (s, None) => broken s
          | (s, Some k) => r <~ read n s ;; read_map n r.1 (map_put k r.2 m)
          end
      else broken s
  end.

(** Each value takes a character and each round of a loop another value or the
    end of the loop: two steps for every character are enough. *)
Definition read_fuel (s : istream) : nat := (2 * length (rest s) + 1)%nat.
Definition read_bencode (s : istream) : res (istream * Bencode) := read (read_fuel s) s.

(** ** Well-formed values

    No element is [TYPE_NONE], integers and sizes fit their types, and the keys
    of a map increase. *)
Fixpoint ordered (ks : list (list Z)) : bool :=
  match ks with [] => true | k :: r => forallb (str_lt k) r && ordered r end.

Definition size_ok (s : list Z) : bool := zlen s <=? INT_MAX.

Fixpoint bencode_ok (b : Bencode) : bool :=
  match b with
  | TYPE_NONE => false
  | TYPE_VALUE v => (INT64_MIN <=? v) && (v <=? INT64_MAX)
  | TYPE_STRING s => size_ok s
  | TYPE_LIST xs => forallb bencode_ok xs
  | TYPE_MAP m => ordered (map fst m) && forallb (fun p => size_ok p.1 && bencode_ok p.2) m
  end.

Example read_ex : read_bencode (stream (str "d3:bari-7e1:fl1:xu2:yzeei0e"))
  = val (stream (str "i0e"), TYPE_MAP [(str "bar", TYPE_VALUE (-7)); (str "f", TYPE_LIST [TYPE_STRING (str "x"); TYPE_STRING (str "yz")])]).
Proof. reflexivity. Qed.

(** ** The map operations *)
Section MapLemmas.
Context {A : Type}.
Implicit Types (m : list (list Z * A)).

Lemma map_find_put k v m k' : map_find k' (map_put k v m) = if decide (k' = k) then Some v else map_find k' m.
Proof.
  induction m as [|[j w] m IH]; cbn [map_put]; [done|].
  destruct (str_lt k j); [done|]. destruct (decide (k = j)) as [->|Hkj].
  - cbn. by destruct (decide (k' = j)).
  - cbn. rewrite IH. destruct (decide (k' = j)) as [->|]; [|done]. by rewrite decide_False.
Qed.

Lemma map_put_keys k v m (f : list Z -> bool) :
  f k = true -> forallb f (map fst m) = true -> forallb f (map fst (map_put k v m)) = true.
Proof.
  intros Hk. induction m as [|[j w] m IH]; cbn; [by rewrite Hk|]. intros [Hj Hm]%andb_prop.
  destruct (str_lt k j); [cbn; by rewrite Hk, Hj|]. destruct (decide (k = j)); cbn; [by rewrite Hk|].
  rewrite Hj. by apply IH.
Qed.

Lemma ordered_put k v m : ordered (map fst m) = true -> ordered (map fst (map_put k v m)) = true.
Proof.
  induction m as [|[j w] m IH]; cbn [map_put map fst ordered]; [done|]. intros [Hj Hm]%andb_prop.
  destruct (str_lt k j) eqn:Hkj; [|destruct (decide (k = j)) as [->|Hne]].
  - cbn. rewrite Hkj, Hj, Hm. rewrite !andb_true_r. cbn. apply forallb_forall. intros x Hx.
    apply (str_lt_trans _ j); [done|]. by apply (proj1 (forallb_forall _ _) Hj).
  - cbn. by rewrite Hj.
  - cbn. rewrite IH by done. rewrite andb_true_r. apply map_put_keys; [|done]. by apply str_lt_total.
Qed.

Lemma forallb_put (f : list Z * A -> bool) k v m :
  f (k, v) = true -> forallb f m = true -> forallb f (map_put k v m) = true.
Proof.
  intros Hk. induction m as [|[j w] m IH]; cbn; [by rewrite Hk|]. intros [Hj Hm]%andb_prop.
  destruct (str_lt k j); [cbn; by rewrite Hk, Hj|]. destruct (decide (k = j)); cbn; [by rewrite Hk|].
  rewrite Hj. by apply IH.
Qed.

Lemma map_find_below k m : forallb (str_lt k) (map fst m) = true -> map_find k m = None.
Proof.
  induction m as [|[j w] m IH]; cbn; [done|]. intros [Hj Hm]%andb_prop. rewrite decide_False; [by apply IH|].
  intros ->. by rewrite str_lt_irrefl in Hj.
Qed.

Lemma map_find_erase k m k' : ordered (map fst m) = true ->
  map_find k' (map_erase k m) = if decide (k' = k) then None else map_find k' m.
Proof.
  induction m as [|[j w] m IH]; cbn; [by destruct (decide _)|]. intros [Hj Hm]%andb_prop.
  destruct (decide (k = j)) as [->|Hkj].
  - destruct (decide (k' = j)) as [->|]; [|done]. by apply map_find_below.
  - cbn. rewrite IH by done. destruct (decide (k' = j)) as [->|]; [|done]. by rewrite decide_False.
Qed.

Lemma map_erase_keys (f : list Z -> bool) k m :
  forallb f (map fst m) = true -> forallb f (map fst (map_erase k m)) = true.
Proof.
  induction m as [|[j w] m IH]; cbn; [done|]. intros [Hj Hm]%andb_prop. destruct (decide _); [done|].
  cbn. rewrite Hj. by apply IH.
Qed.

Lemma ordered_erase k m : ordered (map fst m) = true -> ordered (map fst (map_erase k m)) = true.
Proof.
  induction m as [|[j w] m IH]; cbn; [done|]. intros [Hj Hm]%andb_prop. destruct (decide _); [done|].
  cbn. rewrite IH by done. by rewrite map_erase_keys.
Qed.

(** A key above all others goes to the end. *)
Lemma map_put_last k v m : forallb (fun j => str_lt j k) (map fst m) = true -> map_put k v m = m ++ [(k, v)].
Proof.
  induction m as [|[j w] m IH]; cbn; [done|]. intros [Hj Hm]%andb_prop.
  destruct (str_lt k j) eqn:E.
  { pose proof (str_lt_trans _ _ _ Hj E) as H. by rewrite str_lt_irrefl in H. }
  rewrite decide_False; [by rewrite IH|]. intros ->. by rewrite str_lt_irrefl in Hj.
Qed.
End MapLemmas.

(** A copy is equal to its original. *)
Lemma Bencode_copy_id b : Bencode_copy b = b.
Proof.
  induction b as [|v|s|xs Hxs|m Hm] using Bencode_tree_ind; cbn; [done..| |]; f_equal.
  - induction Hxs as [|x xs Hx _ IH]; cbn; congruence.
  - induction Hm as [|[k x] m Hx _ IH]; cbn in *; congruence.
Qed.

(** ** Reading strings *)
Lemma fill_stream n : forall r acc, fill n (stream r) acc
  = if bool_decide (n <= length r)%nat then (acc ++ take n r, stream (drop n r))
    else (acc ++ r, mk_istream [] true true).
Proof.
  induction n as [|n IH]; intros r acc.
  - rewrite bool_decide_true by lia. cbn. by rewrite app_nil_r.
  - cbn [fill]. destruct r as [|c r]; [rewrite bool_decide_false by (cbn; lia); by rewrite app_nil_r|].
    replace (good (stream (c :: r))) with true by done. rewrite get_cons, IH. cbn [length take drop].
    rewrite <-!(assoc_L (++)). do 2 case_bool_decide; try lia; done.
Qed.

(** What a reader may do to a stream: on success it took at least one
    character of a good stream and leaves it good. *)
Definition took (s s' : istream) : Prop :=
  good s = true /\ good s' = true /\ rest s' `suffix_of` rest s /\ (length (rest s') < length (rest s))%nat.

Lemma took_trans s1 s2 s3 : took s1 s2 -> took s2 s3 -> took s1 s3.
Proof. intros (?&?&Ha&?) (?&?&Hb&?). split_and!; [done|done|exact (transitivity Hb Ha)|lia]. Qed.

Lemma get_took s c s' : get s = (Some c, s') -> took s s' /\ rest s = c :: rest s'.
Proof.
  destruct s as [[|d r] [] []]; try done. intros [= <- <-]. split; [|done].
  split_and!; [done|done|by exists [d]|cbn; lia].
Qed.

Lemma took_extract lo hi s v s1 s2 : lo <= 0 <= hi -> extract lo hi s = (v, s1) -> fail s1 = false -> took s1 s2 ->
  took s s2 /\ exists n, v = Some n /\ lo <= n <= hi.
Proof.
  intros Hb He Hf (H1 & H2 & H3 & H4). apply extract_spec in He as [Hs Hv]; [|done].
  destruct (Hv Hf) as [Hg Hn]. split; [|done]. apply suffix_length in Hs as Hl.
  split_and!; [done|done|exact (transitivity H3 Hs)|lia].
Qed.

Lemma get_suffix s c s' : get s = (c, s') -> rest s' `suffix_of` rest s.
Proof. destruct s as [[|d r] [] []]; intros [= <- <-]; try done. by exists [d]. Qed.

(** The reader of strings throws, or gives a string of a size that [int] can
    hold, or says that there is none. *)
Lemma read_string_spec s : read_string s = throw length_error \/ exists s' x, read_string s = val (s', x)
  /\ match x with Some k => took s s' /\ size_ok k = true | None => rest s' `suffix_of` rest s end.
Proof.
  unfold read_string. destruct (extract INT_MIN INT_MAX s) as [size s1] eqn:He.
  assert (INT_MIN <= 0 <= INT_MAX) as Hb by done.
  pose proof (extract_spec _ _ _ _ _ Hb He) as [Hs _].
  destruct (fail s1) eqn:Hf; [right; by do 2 eexists|]. destruct (get s1) as [c s2] eqn:Hg.
  case_bool_decide as Hc.
  { right. exists s2, None. split; [done|]. exact (transitivity (get_suffix _ _ _ Hg) Hs). }
  destruct c as [c|]; [|discriminate Hc]. apply get_took in Hg as [Ht _].
  destruct (took_extract _ _ _ _ _ _ Hb He Hf Ht) as [Hts (n & -> & Hn)].
  zcase (n <? 0); [by left|right]. pose proof Hts as (Hg1 & Hg2 & Hg3 & Hg4).
  rewrite (good_stream _ Hg2), fill_stream. case_bool_decide as Hl; cbn [fail failbit stream].
  - do 2 eexists. split; [reflexivity|]. cbn [app]. split; [|unfold size_ok, zlen; rewrite length_take; apply Z.leb_le; lia].
    split_and!; [done|done| |].
    + cbn [stream rest]. etransitivity; [|exact Hg3]. apply suffix_drop.
    + cbn [stream rest]. rewrite length_drop. lia.
  - do 2 eexists. split; [reflexivity|]. cbn. apply suffix_nil.
Qed.

(** ** Reading values *)

(** What reading a value does: it throws, or fails and leaves no value, or takes
    a well-formed value from the stream. *)
Definition read_result (s : istream) (r : res (istream * Bencode)) : Prop :=
  r = throw length_error \/ exists s' b, r = val (s', b)
  /\ ((fail s' = true /\ b = TYPE_NONE /\ rest s' `suffix_of` rest s) \/ (took s s' /\ bencode_ok b = true)).

Lemma broken_result s s' : rest s' `suffix_of` rest s -> read_result s (broken s').
Proof. intros. right. do 2 eexists. split; [done|]. by left. Qed.

Lemma read_result_took s s1 r : took s s1 -> read_result s1 r -> read_result s r.
Proof.
  intros Ht [H|(s' & b & H & [(H1 & H2 & H3)|[H1 H2]])]; [by left|right; exists s', b..].
  - split; [done|]. left. split_and!; [done|done|]. destruct Ht as (_ & _ & Hs & _). exact (transitivity H3 Hs).
  - split; [done|]. right. split; [by eapply took_trans|done].
Qed.

Lemma read_text_result c s : read_result s (read_text c s).
Proof.
  unfold read_text. destruct (match c with Some c => _ | None => _ end); [|by apply broken_result].
  destruct (read_string_spec s) as [->|(s' & x & -> & Hx)]; [by left|]. cbn. destruct x as [x|]; [|by apply broken_result].
  destruct Hx as [Ht Hx]. right. do 2 eexists. split; [done|]. by right.
Qed.

Lemma read_int_result s : read_result s (read_int s).
Proof.
  unfold read_int. destruct (extract INT64_MIN INT64_MAX s) as [v s1] eqn:He.
  assert (INT64_MIN <= 0 <= INT64_MAX) as Hb by done.
  pose proof (extract_spec _ _ _ _ _ Hb He) as [Hs _].
  destruct (fail s1) eqn:Hf; [by apply broken_result|]. destruct (get s1) as [c s2] eqn:Hg.
  case_bool_decide as Hc.
  { apply broken_result. exact (transitivity (get_suffix _ _ _ Hg) Hs). }
  destruct c as [c|]; [|discriminate Hc]. apply get_took in Hg as [Ht _].
  destruct (took_extract _ _ _ _ _ _ Hb He Hf Ht) as [Hts (n & -> & Hn)].
  right. do 2 eexists. split; [done|]. right. split; [done|]. cbn. rewrite andb_true_iff, !Z.leb_le. lia.
Qed.

Lemma peek_cases s : (exists s', peek s = (None, s') /\ good s' = false /\ rest s' = rest s)
  \/ exists c r, s = stream (c :: r) /\ peek s = (Some c, s).
Proof. destruct s as [[|c r] [] []]; try (left; by eexists). right. by exists c, r. Qed.

Lemma peek_stream r : exists c s, peek (stream r) = (c, s) /\ rest s = r /\ (good s = true -> s = stream r)
  /\ (forall d, c = Some d -> exists r', r = d :: r' /\ s = stream r).
Proof. destruct r as [|d r]; do 2 eexists; (split; [done|]); [done|]. split_and!; [done..|]. intros e [= <-]. by exists r. Qed.

Lemma stream_took c r : took (stream (c :: r)) (stream r).
Proof. by eapply get_took. Qed.

Lemma read_list_stop n s xs : (0 < n)%nat -> good s = false -> read_list n s xs = broken s.
Proof. destruct n; [lia|]. cbn [read_list]. by intros _ ->. Qed.

Lemma read_map_stop n s m : (0 < n)%nat -> good s = false -> read_map n s m = broken s.
Proof. destruct n; [lia|]. cbn [read_map]. by intros _ ->. Qed.

Lemma fail_not_good s : fail s = true -> good s = false.
Proof. by destruct s as [r [] []]. Qed.

(** A loop reads a value from [s1] and goes on with [k]. *)
Lemma bind_result s0 s1 m k : rest s1 `suffix_of` rest s0 -> (good s1 = true -> took s0 s1) -> read_result s1 m ->
  (forall s', good s' = false -> k (s', TYPE_NONE) = broken s') ->
  (forall r b, took s0 (stream r) -> (length r < length (rest s1))%nat -> bencode_ok b = true -> read_result s0 (k (stream r, b))) ->
  read_result s0 (x <~ m ;; k x).
Proof.
  intros Hs Hg [->|(s' & b & -> & [(Hf & -> & Hs')|[Ht Hb]])] Hfail Hok; cbn [rbind val]; [by left| |].
  - rewrite (Hfail s') by by apply fail_not_good. apply broken_result. exact (transitivity Hs' Hs).
  - pose proof Ht as (Hg1 & Hg2 & _ & Hl). rewrite (good_stream _ Hg2). apply Hok; [|exact Hl|done].
    rewrite <-(good_stream _ Hg2). exact (took_trans _ _ _ (Hg Hg1) Ht).
Qed.

(** With enough fuel every branch of the readers has such a result. *)
Lemma read_results n :
  (forall s, (2 * length (rest s) + 1 <= n)%nat -> read_result s (read n s))
  /\ (forall s r xs, (2 * length r + 2 <= n)%nat -> took s (stream r) -> forallb bencode_ok xs = true ->
       read_result s (read_list n (stream r) xs))
  /\ (forall s r m, (2 * length r + 2 <= n)%nat -> took s (stream r) -> bencode_ok (TYPE_MAP m) = true ->
       read_result s (read_map n (stream r) m)).
Proof.
  induction n as [|n (IHv & IHl & IHm)]; [split_and!; intros; lia|]. split_and!.
  - intros s Hn. cbn [read]. destruct (peek_cases s) as [(s' & -> & _ & Hr)|(c & r & -> & ->)].
    { cbn. apply broken_result. by rewrite Hr. }
    rewrite peek_cons, get_cons. rewrite bool_decide_false by done. cbn [rest stream length] in Hn.
    pose proof (stream_took c r) as Ht.
    case_bool_decide; [|case_bool_decide; [|case_bool_decide; [|case_bool_decide]]].
    + apply (read_result_took _ _ _ Ht), read_int_result.
    + apply IHl; [lia|done..].
    + apply IHm; [lia|done..].
    + destruct (peek_stream r) as ([d|] & s1 & -> & Hr & _ & He); cbn.
      * destruct (He d) as (r' & _ & ->); [done|]. apply (read_result_took _ _ _ Ht), read_text_result.
      * apply broken_result. rewrite Hr. by exists [c].
    + apply read_text_result.
  - intros s r xs Hn Ht Hxs. cbn [read_list]. pose proof Ht as (_ & -> & Hs & _).
    destruct (peek_stream r) as (c & s1 & -> & Hr & Hg & He). case_bool_decide as Hc.
    { destruct (He _ Hc) as (r' & -> & ->). right. do 2 eexists. split; [done|]. right. split; [|done].
      exact (took_trans _ _ _ Ht (stream_took _ _)). }
    apply (bind_result _ s1); [by rewrite Hr|by intros H; rewrite (Hg H)|apply IHv; rewrite Hr; lia| |].
    + intros. apply read_list_stop; [lia|done].
    + intros r' b Ht' Hl Hb. rewrite Hr in Hl. apply IHl; [lia|done|]. rewrite forallb_app, Hxs. cbn. by rewrite Hb.
  - intros s r m Hn Ht Hm. cbn [read_map]. pose proof Ht as (_ & -> & Hs & _).
    destruct (peek_stream r) as (c & s1 & -> & Hr & Hg & He). case_bool_decide as Hc.
    { destruct (He _ Hc) as (r' & -> & ->). right. do 2 eexists. split; [done|]. right. split; [|done].
      exact (took_trans _ _ _ Ht (stream_took _ _)). }
    destruct (read_string_spec s1) as [->|(s2 & [k|] & -> & Hk)]; [by left| |]; cbn [rbind val].
    2: { apply broken_result. rewrite Hr in Hk. exact (transitivity Hk Hs). }
    destruct Hk as [Hk Hkok]. pose proof Hk as (Hg1 & _ & _ & Hl2). rewrite (Hg Hg1) in Hk. rewrite Hr in Hl2.
    pose proof (took_trans _ _ _ Ht Hk) as Ht2.
    apply (bind_result _ s2); [apply Ht2|done|apply IHv; lia| |].
    + intros. apply read_map_stop; [lia|done].
    + intros r' b Ht' Hl Hb. apply IHm; [lia|done|]. cbn in Hm |- *. apply andb_prop in Hm as [Ho Hm].
      rewrite ordered_put by done. cbn. apply forallb_put; [|done]. cbn. by rewrite Hkok, Hb.
Qed.

(** ** Reading what was printed *)
Lemma ordered_below ks k r : ordered (ks ++ k :: r) = true -> forallb (fun j => str_lt j k) ks = true.
Proof.
  induction ks as [|j ks IH]; cbn; [done|]. rewrite forallb_app. cbn.
  rewrite !andb_true_iff. intros [(_ & Hj & _) H]. auto.
Qed.

Lemma read_string_print k r : size_ok k = true ->
  read_string (stream (put_int (zlen k) ++ 58 :: k ++ r)) = val (stream r, Some k).
Proof.
  intros Hk%Z.leb_le. unfold read_string. pose proof (zlen_nonneg k).
  rewrite extract_put by (try done; unfold INT_MIN; lia). cbn [fail stream failbit]. rewrite get_cons.
  rewrite bool_decide_false by (intros Hn; by apply Hn). rewrite (proj2 (Z.ltb_ge _ _)) by lia.
  replace (Z.to_nat (zlen k)) with (length k) by (unfold zlen; lia). rewrite fill_stream, bool_decide_true by (rewrite length_app; lia).
  by rewrite take_app_length, drop_app_length.
Qed.

Lemma put_int_head n : 0 <= n -> exists c r, put_int n = c :: r /\ isdigit c = true.
Proof. intros. unfold put_int. rewrite (proj2 (Z.ltb_ge _ _)) by lia. by apply put_nat_head. Qed.

(** A size shows a digit. *)
Lemma peek_size (k : list Z) r : exists c, peek (stream (put_int (zlen k) ++ r)) = (Some c, stream (put_int (zlen k) ++ r)) /\ isdigit c = true.
Proof. destruct (put_int_head (zlen k)) as (c & t & -> & Hc); [apply zlen_nonneg|]. by exists c. Qed.

(** A printed value starts with a character that ends no list. *)
Lemma peek_print b r : bencode_ok b = true ->
  exists c, peek (stream (print b ++ r)) = (Some c, stream (print b ++ r)) /\ c <> 101.
Proof.
  destruct b as [|v|s|xs|m]; intros H; [done|by eexists| |by eexists..].
  cbn [print]. rewrite <-(assoc_L (++)). destruct (peek_size s ((str ":" ++ s) ++ r)) as (c & -> & Hc%isdigit_spec).
  exists c. split; [done|lia].
Qed.

Lemma print_pos b : bencode_ok b = true -> (0 < length (print b))%nat.
Proof. intros H. destruct (peek_print b [] H) as (c & Hp & _). destruct (print b); [done|cbn; lia]. Qed.

(** The value is read back wherever it was printed. *)
Definition reads_back (b : Bencode) : Prop := bencode_ok b = true -> forall n r,
  (2 * length (print b ++ r) + 1 <= n)%nat -> read n (stream (print b ++ r)) = val (stream r, b).

Lemma reads_back_list xs : Forall reads_back xs -> forallb bencode_ok xs = true -> forall n acc r,
  (2 * length (concat (map print xs) ++ 101%Z :: r) + 2 <= n)%nat ->
  read_list n (stream (concat (map print xs) ++ 101 :: r)) acc = val (stream r, TYPE_LIST (acc ++ xs)).
Proof.
  induction 1 as [|x xs Hx _ IH]; intros Hok n acc r Hn; (destruct n as [|n]; [cbn in Hn; lia|]); cbn [read_list].
  - cbn. by rewrite app_nil_r.
  - cbn in Hok. cbn [map concat] in Hn |- *. apply andb_prop in Hok as [Hxok Hok].
    rewrite <-(assoc_L (++)) in *. replace (good (stream _)) with true by done.
    destruct (peek_print x (concat (map print xs) ++ 101 :: r) Hxok) as (c & -> & Hc).
    rewrite bool_decide_false by congruence. rewrite Hx by (done || lia). cbn [rbind val fst snd].
    rewrite IH; [by rewrite <-(assoc_L (++))|done|]. rewrite length_app in Hn.
    pose proof (print_pos x Hxok). lia.
Qed.

Definition print_pair (p : list Z * Bencode) : list Z := put_int (zlen p.1) ++ str ":" ++ p.1 ++ print p.2.

Lemma reads_back_map m : Forall (fun p => reads_back p.2) m ->
  forallb (fun p => size_ok p.1 && bencode_ok p.2) m = true -> forall n acc r, ordered (map fst (acc ++ m)) = true ->
  (2 * length (concat (map print_pair m) ++ 101%Z :: r) + 2 <= n)%nat ->
  read_map n (stream (concat (map print_pair m) ++ 101 :: r)) acc = val (stream r, TYPE_MAP (acc ++ m)).
Proof.
  induction 1 as [|[k x] m Hx _ IH]; intros Hok n acc r Ho Hn; (destruct n as [|n]; [cbn in Hn; lia|]); cbn [read_map].
  - cbn. by rewrite app_nil_r.
  - cbn in Hok, Hx, Ho. cbn [map concat] in Hn |- *. apply andb_prop in Hok as [[Hk Hxok]%andb_prop Hok].
    replace (good (stream _)) with true by done. set (t := concat (map print_pair m) ++ 101 :: r) in *.
    assert ((print_pair (k, x) ++ concat (map print_pair m)) ++ 101 :: r = put_int (zlen k) ++ 58 :: k ++ print x ++ t) as Ht.
    { unfold print_pair, t. cbn. by rewrite <-!(assoc_L (++)); cbn; rewrite <-!(assoc_L (++)). }
    rewrite Ht in *. destruct (peek_size k (58 :: k ++ print x ++ t)) as (c & -> & Hc%isdigit_spec).
    rewrite bool_decide_false by (intros [= ->]; lia). rewrite read_string_print by done. cbn [rbind val].
    rewrite !length_app in Hn. cbn [length] in Hn. rewrite !length_app in Hn.
    rewrite Hx by (rewrite ?length_app; done || lia). cbn [rbind val fst snd].
    rewrite map_put_last by (rewrite map_app in Ho; by eapply ordered_below).
    subst t. rewrite IH; [by rewrite <-(assoc_L (++))|done|by rewrite <-(assoc_L (++))|]. rewrite length_app in Hn |- *. cbn [length] in *. lia.
Qed.

(** Which branch a character leads to. *)
Lemma read_cons n c r : read (S n) (stream (c :: r)) =
  if bool_decide (c = 105) then read_int (stream r)
  else if bool_decide (c = 108) then read_list n (stream r) []
  else if bool_decide (c = 100) then read_map n (stream r) []
  else if bool_decide (c = 117) then
    let (c, s) := peek (stream r) in if bool_decide (c = None) then broken s else read_text c s
  else read_text (Some c) (stream (c :: r)).
Proof.
  cbn [read]. rewrite !peek_cons, get_cons, bool_decide_false by done.
  repeat case_bool_decide; simplify_eq; done.
Qed.

Lemma read_print b : reads_back b.
Proof.
  induction b as [|v|s|xs Hxs|m Hm] using Bencode_tree_ind; intros Hok n r Hn; (destruct n as [|n]; [lia|]); [done|..];
    cbn [print] in *; rewrite <-!(assoc_L (++)) in *; cbn [str app] in *.
  - rewrite read_cons. cbn. unfold read_int. cbn in Hok. apply andb_prop in Hok as [H1%Z.leb_le H2%Z.leb_le].
    by rewrite extract_put.
  - destruct (put_int_head (zlen s)) as (c & t & Ht & Hc); [apply zlen_nonneg|].
    pose proof (read_string_print s r Hok) as Hr. change (Z.of_nat _) with 58 in *. rewrite Ht in *. cbn [app] in *.
    rewrite read_cons. apply isdigit_spec in Hc as Hd. rewrite !bool_decide_false by lia.
    unfold read_text. rewrite Hc. by rewrite Hr.
  - rewrite read_cons. cbn [bool_decide]. apply (reads_back_list xs Hxs Hok n []).
    cbn [length] in Hn. rewrite length_app in *. cbn [length] in *. lia.
  - cbn in Hok. apply andb_prop in Hok as [Ho Hok]. rewrite read_cons.
    apply (reads_back_map m Hm Hok n [] r Ho).
    change (concat (map _ m)) with (concat (map print_pair m)) in Hn.
    cbn [length] in Hn. rewrite length_app in *. cbn [length] in *. lia.
Qed.

(** ** Claims *)

(** C35: Reading ends for every stream, in one of three ways: it throws
    [length_error]; or it sets [failbit] and leaves the value [TYPE_NONE]; or
    it takes at least one character, leaves the stream good in front of a
    suffix of the input, and the value is well formed (integers of 64 bits, no
    missing elements, keys in strictly increasing order). *)
Theorem read_bencode_outcome s : read_bencode s = throw length_error
  \/ exists s' b, read_bencode s = val (s', b) /\ rest s' `suffix_of` rest s
     /\ if fail s then fail s' = true /\ b = TYPE_NONE
        else (fail s' = true /\ b = TYPE_NONE)
             \/ (good s' = true /\ (length (rest s') < length (rest s))%nat /\ bencode_ok b = true).
Proof.
  destruct (read_results (read_fuel s)) as [H _]. destruct (H s) as [?|(s' & b & He & Hb)]; [done|by left|right].
  exists s', b. split; [done|]. destruct Hb as [(H1 & H2 & H3)|[(Hg & H1 & H2 & H3) H4]].
  - split; [done|]. destruct (fail s); [done|]. by left.
  - split; [done|]. rewrite good_not_fail by done. by right.
Qed.

(** C16: Reading back what was printed: a well-formed value that is printed in
    front of any text is read as the same value, and the stream is left good
    in front of that text. *)
Theorem read_bencode_print b r : bencode_ok b = true ->
  read_bencode (stream (print b ++ r)) = val (stream r, b).
Proof. intros Hb. apply read_print; [done|]. unfold read_fuel. cbn [rest stream]. lia. Qed.

Lemma read_bencode_print_witness :
  let b := TYPE_MAP [(str "a", TYPE_LIST [TYPE_VALUE (-3); TYPE_STRING []]); (str "ab", TYPE_MAP [])] in
  read_bencode (stream (print b ++ str "i")) = val (stream (str "i"), b).
Proof. exact (read_bencode_print (TYPE_MAP [(str "a", TYPE_LIST [TYPE_VALUE (-3); TYPE_STRING []]); (str "ab", TYPE_MAP [])]) (str "i") eq_refl). Defined.

(** The map operations meet the map they keep: after [insert_key] the key
    is there with a copy of the value and every other key as before, after
    [erase_key] the key is gone and the others are as before, and both keep
    the keys in order. *)
Theorem bencode_map_ops m k x k' : ordered (map fst m) = true ->
  exists m1 m2, insert_key k x (TYPE_MAP m) = val (TYPE_MAP m1, x) /\ erase_key k (TYPE_MAP m) = val (TYPE_MAP m2)
  /\ ordered (map fst m1) = true /\ ordered (map fst m2) = true
  /\ at_key k (TYPE_MAP m1) = val x /\ has_key k (TYPE_MAP m2) = val false
  /\ (k' <> k -> at_key k' (TYPE_MAP m1) = at_key k' (TYPE_MAP m) /\ at_key k' (TYPE_MAP m2) = at_key k' (TYPE_MAP m)).
Proof.
  intros Ho. exists (map_put k x m), (map_erase k m). unfold insert_key, assign, at_key, has_key.
  rewrite Bencode_copy_id, ordered_put, ordered_erase, !map_find_put, !map_find_erase, !decide_True by done.
  split_and!; try done. intros Hk. by rewrite !decide_False by done.
Qed.

Lemma bencode_map_ops_witness :
  exists m1 m2, insert_key (str "b") (TYPE_VALUE 2) (TYPE_MAP [(str "a", TYPE_VALUE 1); (str "b", TYPE_NONE)]) = val (TYPE_MAP m1, TYPE_VALUE 2)
  /\ at_key (str "b") (TYPE_MAP m1) = val (TYPE_VALUE 2) /\ has_key (str "b") (TYPE_MAP m2) = val false.
Proof.
  destruct (bencode_map_ops [(str "a", TYPE_VALUE 1); (str "b", TYPE_NONE)] (str "b") (TYPE_VALUE 2) (str "a"))
    as (m1 & m2 & H1 & _ & _ & _ & H2 & H3 & _); [reflexivity|]. exists m1, m2. split; [exact H1|]. split; [exact H2|exact H3].
Defined.

(** Assigning a value to itself loses it: [clear] runs before the copy. *)
Theorem self_assign_clears b : assign true b b = TYPE_NONE /\ assign false TYPE_NONE b = b.
Proof. split; [done|]. apply Bencode_copy_id. Qed.

(** A key with a negative size throws out of the reader instead of setting
    [failbit]. *)
Example negative_key : read_bencode (stream (str "d-1:e")) = throw length_error.
Proof. reflexivity. Qed.
