(* ===== verification/Entity.v ===== *)
(** * HTML character references

    src/src/html_lexer/Entity_handler.cc: the table of character entities, the
    numeric references and the replacement of references in a text; and
    [cp2utf8] of Unicode_wrap.cc, which wraps ICU.

    ICU is outside the repository: [Icu] is the interface, with the documented
    encoding of code points as its law. *)

From S2P Require Import Prelude Iostream Regex Utils.

Local Open Scope res_scope.

(** ** Code points *)
Definition UCHAR_MIN_VALUE : Z := 0.
Definition UCHAR_MAX_VALUE : Z := 1114111.

Definition is_surrogate (c : Z) : bool := in_range 55296 57343 c.

(** [UnicodeString s = c]: the UTF-16 form; a number that is no code point gives
    the empty string. *)
Definition utf16 (c : Z) : list Z :=
  if negb (in_range UCHAR_MIN_VALUE UCHAR_MAX_VALUE c) then []
  else if c <? 65536 then [c]
  else [Z.shiftr c 10 + 55232; Z.lor (Z.land c 1023) 56320].

(** The UTF-8 form of a code point. *)
Definition utf8 (c : Z) : list Z :=
  if c <? 128 then [c]
  else if c <? 2048 then [192 + c / 64; 128 + c mod 64]
  else if c <? 65536 then [224 + c / 4096; 128 + c / 64 mod 64; 128 + c mod 64]
  else [240 + c / 262144; 128 + c / 4096 mod 64; 128 + c / 64 mod 64; 128 + c mod 64].

(** ** ICU

    [ucnv_open] and [ucnv_fromUChars] give a result or the name of an error. *)
Class Icu := {
  u_isdefined : Z -> bool;
  ucnv_open : list Z -> unit + list Z;
  ucnv_fromUChars : list Z -> list Z -> list Z + list Z;
  ucnv_open_law : ucnv_open (str "utf8") = inl tt;
  ucnv_fromUChars_law c : in_range UCHAR_MIN_VALUE UCHAR_MAX_VALUE c = true -> is_surrogate c = false ->
    ucnv_fromUChars (str "utf8") (utf16 c) = inl (utf8 c)
}.

Section Entities.
Context {BR : BoostRegex} {ICU : Icu}.

Definition cp2utf8 (c : Z) : res (list Z) :=
  if negb (u_isdefined c) then val [] else
  match ucnv_open (str "utf8") with
  | inr e => throw (unicode_error (str "Can't open conversion to utf8 reason: " ++ e))
  | inl _ =>
      match ucnv_fromUChars (str "utf8") (utf16 c) with
      | inl s => val s
      | inr e => throw (unicode_error (str "ucnv_fromUChars: " ++ e))
      end
  end.

(** ** The table

    The calls of [charent.insert] in their order. *)
Definition charent_rows1 : list (String.string * Z) :=
  [
   ("quot", 34); ("amp", 38); ("apos", 39); ("lt", 60); ("gt", 62); ("nbsp", 160); ("iexcl", 161);
   ("cent", 162); ("pound", 163); ("curren", 164); ("yen", 165); ("brvbar", 166); ("sect", 167); ("uml", 168);
   ("copy", 169); ("ordf", 170); ("laquo", 171); ("not", 172); ("shy", 173); ("reg", 174); ("macr", 175);
   ("deg", 176); ("plusmn", 177); ("sup2", 178); ("sup3", 179); ("acute", 180); ("micro", 181); ("para", 182);
   ("middot", 183); ("cedil", 184); ("sup1", 185); ("ordm", 186); ("raquo", 187); ("frac14", 188);
   ("frac12", 189); ("frac34", 190); ("iquest", 191); ("Agrave", 192); ("Aacute", 193); ("Acirc", 194);
   ("Atilde", 195); ("Auml", 196); ("Aring", 197); ("AElig", 198); ("Ccedil", 199); ("Egrave", 200);
   ("Eacute", 201); ("Ecirc", 202); ("Euml", 203); ("Igrave", 204); ("Iacute", 205); ("Icirc", 206);
   ("Iuml", 207); ("ETH", 208); ("Ntilde", 209); ("Ograve", 210); ("Oacute", 211); ("Ocirc", 212);
   ("Otilde", 213); ("Ouml", 214); ("times", 215); ("Oslash", 216); ("Ugrave", 217); ("Uacute", 218);
   ("Ucirc", 219); ("Uuml", 220); ("Yacute", 221); ("THORN", 222); ("szlig", 223); ("agrave", 224);
   ("aacute", 225); ("acirc", 226); ("atilde", 227); ("auml", 228); ("aring", 229); ("aelig", 230);
   ("ccedil", 231); ("egrave", 232); ("eacute", 233); ("ecirc", 234); ("euml", 235); ("igrave", 236);
   ("iacute", 237); ("icirc", 238); ("iuml", 239); ("eth", 240); ("ntilde", 241); ("ograve", 242);
   ("oacute", 243); ("ocirc", 244); ("otilde", 245); ("ouml", 246); ("divide", 247); ("oslash", 248);
   ("ugrave", 249); ("uacute", 250); ("ucirc", 251); ("uuml", 252); ("yacute", 253); ("thorn", 254);
   ("yuml", 255); ("OElig", 338); ("oelig", 339); ("Scaron", 352); ("scaron", 353); ("Yuml", 376);
   ("fnof", 402); ("circ", 710); ("tilde", 732); ("Alpha", 913); ("Beta", 914); ("Gamma", 915); ("Delta", 916);
   ("Epsilon", 917); ("Zeta", 918); ("Eta", 919); ("Theta", 920); ("Iota", 921); ("Kappa", 922);
   ("Lambda", 923); ("Mu", 924); ("Nu", 925); ("Xi", 926); ("Omicron", 927); ("Pi", 928); ("Rho", 929);
   ("Sigma", 931); ("Tau", 932); ("Upsilon", 933); ("Phi", 934); ("Chi", 935); ("Psi", 936); ("Omega", 937);
   ("alpha", 945); ("beta", 946); ("gamma", 947); ("delta", 948); ("epsilon", 949); ("zeta", 950); ("eta", 951);
   ("theta", 952); ("iota", 953); ("kappa", 954); ("lambda", 955); ("mu", 956); ("nu", 957); ("xi", 958);
   ("omicron", 959); ("pi", 960); ("rho", 961)
  ]%string.

Definition charent_rows2 : list (String.string * Z) :=
  [
   ("sigmaf", 962); ("sigma", 963); ("tau", 964); ("upsilon", 965); ("phi", 966); ("chi", 967); ("psi", 968);
   ("omega", 969); ("thetasym", 977); ("upsih", 978); ("piv", 982); ("ensp", 8194); ("emsp", 8195);
   ("thinsp", 8201); ("zwnj", 8204); ("zwj", 8205); ("lrm", 8206); ("rlm", 8207); ("ndash", 8211);
   ("mdash", 8212); ("lsquo", 8216); ("rsquo", 8217); ("sbquo", 8218); ("ldquo", 8220); ("rdquo", 8221);
   ("bdquo", 8222); ("dagger", 8224); ("Dagger", 8225); ("bull", 8226); ("hellip", 8230); ("permil", 8240);
   ("prime", 8242); ("Prime", 8243); ("lsaquo", 8249); ("rsaquo", 8250); ("oline", 8254); ("frasl", 8260);
   ("euro", 8364); ("image", 8465); ("weierp", 8472); ("real", 8476); ("trade", 8482); ("alefsym", 8501);
   ("larr", 8592); ("uarr", 8593); ("rarr", 8594); ("darr", 8595); ("harr", 8596); ("crarr", 8629);
   ("lArr", 8656); ("uArr", 8657); ("rArr", 8658); ("dArr", 8659); ("hArr", 8660); ("forall", 8704);
   ("part", 8706); ("exist", 8707); ("empty", 8709); ("nabla", 8711); ("isin", 8712); ("notin", 8713);
   ("ni", 8715); ("prod", 8719); ("sum", 8721); ("minus", 8722); ("lowast", 8727); ("radic", 8730);
   ("prop", 8733); ("infin", 8734); ("ang", 8736); ("and", 8743); ("or", 8744); ("cap", 8745); ("cup", 8746);
   ("int", 8747); ("there4", 8756); ("sim", 8764); ("cong", 8773); ("asymp", 8776); ("ne", 8800);
   ("equiv", 8801); ("le", 8804); ("ge", 8805); ("sub", 8834); ("sup", 8835); ("nsub", 8836); ("sube", 8838);
   ("supe", 8839); ("oplus", 8853); ("otimes", 8855); ("perp", 8869); ("sdot", 8901); ("lceil", 8968);
   ("rceil", 8969); ("lfloor", 8970); ("rfloor", 8971); ("lang", 9001); ("rang", 9002); ("loz", 9674);
   ("spades", 9824); ("clubs", 9827); ("hearts", 9829); ("diams", 9830); ("QUOT", 34); ("AMP", 38);
   ("COPY", 169); ("GT", 62); ("LT", 60); ("REG", 174)
  ]%string.

Definition charent_rows : list (String.string * Z) := charent_rows1 ++ charent_rows2.

(** [std::map] from names to UTF-8; the order of its keys is not observed. *)
Definition charent_t := list (list Z * list Z).

Definition charent_find (k : list Z) (m : charent_t) : option (list Z) :=
  snd <$> find (fun p => bool_decide (p.1 = k)) m.

(** [map::insert] does not replace an element. *)
Definition charent_insert (k v : list Z) (m : charent_t) : charent_t :=
  match charent_find k m with Some _ => m | None => m ++ [(k, v)] end.

(** [Entity_handler()] *)
Fixpoint insert_rows (rows : list (String.string * Z)) (m : charent_t) : res charent_t :=
  match rows with
  | [] => val m
  | (name, c) :: rows => v <~ cp2utf8 c ;; insert_rows rows (charent_insert (str name) v m)
  end.

Definition Entity_handler : res charent_t := insert_rows charent_rows [].

Definition char_entity (charent : charent_t) (s : list Z) : list Z := default [] (charent_find s charent).

(** ** Numeric references

    An [int] that overflows is undefined.  The digits are taken from the last
    one; [Some None] is an early [return result]. *)
Fixpoint times10 (pow : nat) (v : Z) : option Z :=
  match pow with O => Some v | S pow => v ← cint (v * 10); times10 pow v end.

Fixpoint dec_loop (ds : list Z) (pos : nat) (num : Z) : option (option Z) :=
  match ds with
  | [] => Some (Some num)
  | c :: ds =>
      if negb (is_digit c) then Some None else
      v ← times10 pos (c - 48);
      num ← cint (num + v);
      if UCHAR_MAX_VALUE <? num then Some None else dec_loop ds (S pos) num
  end.

(** [catch] of [logic_error], [unicode_error] and [runtime_error]: the result
    is still empty. *)
Definition caught (m : res (list Z)) : option (list Z) :=
  match m with Some (Value s) => Some s | Some (Throw _) => Some [] | None => None end.

(** The range test behind the loops. *)
Definition in_utf8 (num : option Z) : option (list Z) :=
  match num with
  | None => Some []
  | Some num =>
      if (num <=? UCHAR_MAX_VALUE) && (UCHAR_MIN_VALUE <=? num) then caught (cp2utf8 num) else Some []
  end.

Definition dec_numchar_ref (s : list Z) : option (list Z) := num ← dec_loop (rev s) 0 0; in_utf8 num.

(** A [logic_error] of [xdigit_to_num] ends the function like a [return].  The
    promoted digit is shifted as an [int]: by 32 bits or more is undefined, and
    a result above [INT_MAX] wraps. *)
Fixpoint hex_loop (ds : list Z) (pos : Z) (num : Z) : option (option Z) :=
  match ds with
  | [] => Some (Some num)
  | c :: ds =>
      match xdigit_to_num c with
      | Throw _ => Some None
      | Value d =>
          if 32 <=? 4 * pos then None else
          num ← cint (num + cast_int (Z.shiftl d (4 * pos)));
          if UCHAR_MAX_VALUE <? num then Some None else hex_loop ds (pos + 1) num
      end
  end.

Definition hex_numchar_ref (s : list Z) : option (list Z) := num ← hex_loop (rev s) 0 0; in_utf8 num.

(** ** Replacing references in a text *)
Definition is_word (c : Z) : bool := is_alnum c || (c =? 95).
Definition name_first (c : Z) : bool := is_alpha c || one_of (str "_:") c.
Definition name_more (c : Z) : bool := is_word c || one_of (str "._:-") c.

Definition char_entity_re : re :=
  Seq (Lit (str "&")) (Seq (Grp 1 (Seq (Set_ name_first) (Star (Set_ name_more)))) (Chr 59)).
Definition dec_numchar_re : re := Seq (Lit (str "&#")) (Seq (Grp 1 (Plus (Set_ is_digit))) (Chr 59)).
Definition hex_numchar_re : re := Seq (Lit (str "&#x")) (Seq (Grp 1 (Plus (Set_ is_xdigit))) (Chr 59)).

(** [while(regex_search(from, str.end(), m, re)) ...] with the copy of the rest
    behind it.  A match is not empty, so there are at most as many rounds as
    characters, and a last one without a match. *)
Fixpoint replace_loop (n : nat) (r : re) (f : list Z -> option (list Z)) (from result : list Z) : option (list Z) :=
  match n with
  | O => None
  | S n =>
      match regex_find r from with
      | Some (before, m, after) =>
          entity ← group 1 m;
          x ← f entity;
          replace_loop n r f after (result ++ before ++ x)
      | None => Some (result ++ from)
      end
  end.

Definition replace_char_entities (charent : charent_t) (s : list Z) : option (list Z) :=
  replace_loop (S (length s)) char_entity_re (fun e => Some (char_entity charent e)) s [].

Definition replace_dec_numchar_ref (s : list Z) : option (list Z) :=
  replace_loop (S (length s)) dec_numchar_re dec_numchar_ref s [].

Definition replace_hex_numchar_ref (s : list Z) : option (list Z) :=
  replace_loop (S (length s)) hex_numchar_re hex_numchar_ref s [].

Definition replace_all_entities (charent : charent_t) (s : list Z) : option (list Z) :=
  result ← replace_char_entities charent s;
  result ← replace_dec_numchar_ref result;
  replace_hex_numchar_ref result.

(** ** A reference: the text read from left to right

    [ref_at pre first more s]: [s] starts with [pre], a character in [first],
    characters in [more] and a semicolon; the name between and what follows. *)
Definition ref_at (pre : list Z) (first more : Z -> bool) (s : list Z) : option (list Z * list Z) :=
  if bool_decide (pre `prefix_of` s) then
    match drop (length pre) s with
    | c :: t =>
        if first c then
          match span more t with
          | (a, d :: r) => if d =? 59 then Some (c :: a, r) else None
          | (_, []) => None
          end
        else None
    | [] => None
    end
  else None.

(** At each position a reference is replaced and any other character is
    copied. *)
Fixpoint scan (n : nat) (at_ : list Z -> option (list Z * list Z)) (f : list Z -> option (list Z)) (s : list Z)
    : option (list Z) :=
  match n with
  | O => None
  | S n =>
      match at_ s with
      | Some (name, r) => x ← f name; y ← scan n at_ f r; Some (x ++ y)
      | None => match s with [] => Some [] | c :: s => y ← scan n at_ f s; Some (c :: y) end
      end
  end.

Definition replace_refs (at_ : list Z -> option (list Z * list Z)) (f : list Z -> option (list Z)) (s : list Z) :=
  scan (S (length s)) at_ f s.

Definition char_ref := ref_at (str "&") name_first name_more.
Definition dec_ref := ref_at (str "&#") is_digit is_digit.
Definition hex_ref := ref_at (str "&#x") is_xdigit is_xdigit.

(** ** Lemmas: the patterns *)
Lemma matches_lit pre : pre <> [] -> forall st, matches (Lit pre) st
  = if bool_decide (pre `prefix_of` rest st) then [mk_ms (drop (length pre) (rest st)) false (caps st)] else [].
Proof.
  induction pre as [|c pre IH]; [done|intros _ st]. destruct pre as [|d pre].
  - cbn. destruct (rest st) as [|e s]; [done|]. cbn. zcase (c =? e).
    + subst. by rewrite bool_decide_true by (by exists s).
    + rewrite bool_decide_false; [done|]. by intros [? [= -> _]].
  - change (Lit (c :: d :: pre)) with (Seq (Chr c) (Lit (d :: pre))). cbn [matches].
    destruct (rest st) as [|e s] eqn:Er; [cbn; rewrite Er; done|]. unfold Chr. cbn [matches]. rewrite Er.
    zcase (c =? e).
    + subst e. cbn [flat_map]. rewrite app_nil_r, IH by done. cbn [rest caps length drop].
      destruct (decide (d :: pre `prefix_of` s)) as [H|H].
      * rewrite !bool_decide_true; [done| |done]. by apply prefix_cons.
      * rewrite !bool_decide_false; [done| |done]. by intros ?%prefix_cons_inv_2.
    + rewrite bool_decide_false; [done|]. by intros [? [= -> _]].
Qed.

Lemma plus_seq p st : matches (Plus (Set_ p)) st = matches (Seq (Set_ p) (Star (Set_ p))) st.
Proof. done. Qed.

(** A semicolon is not in the repeated set, so the pattern matches in at most
    one way. *)
Lemma matches_ref pre first more g st s : pre <> [] -> more 59 = false ->
  (forall st, matches g st = matches (Seq (Set_ first) (Star (Set_ more))) st) ->
  matches (Seq (Lit pre) (Seq (Grp 1 g) (Chr 59))) (mk_ms s st [])
  = match ref_at pre first more s with Some (name, r) => [mk_ms r false [(1%nat, name)]] | None => [] end.
Proof.
  intros Hp H59 Hg. cbn [matches]. rewrite matches_lit by done. cbn [rest caps]. unfold ref_at.
  case_bool_decide as Hpre; [|done]. cbn [flat_map]. rewrite app_nil_r. rewrite Hg. cbn [matches].
  destruct (drop (length pre) s) as [|c t] eqn:Et; [done|]. cbn [rest caps]. destruct (first c) eqn:Hc; [|done].
  cbn [flat_map]. rewrite app_nil_r, star_set. cbn [rest].
  destruct (span more t) as [a b] eqn:Es. cbn [fst snd].
  assert (a ++ b = t) as Hab by (pose proof (span_app more t) as H; by rewrite Es in H).
  assert (Forall (fun c => more c = true) a) as Ha by (pose proof (span_all more t) as H; by rewrite Es in H).
  rewrite flat_map_concat_map, map_map, <-flat_map_concat_map.
  rewrite (flat_map_shorter more); [| |done|done].
  2: { intros st' e r Hr He. unfold Chr. cbn [matches rest]. rewrite Hr. zcase (59 =? e); [|done]. subst. by rewrite H59 in He. }
  unfold Chr. cbn [matches rest caps]. rewrite after_rest by done. destruct b as [|d r]; [done|]. rewrite (Z.eqb_sym 59 d). destruct (d =? 59); [|done].
  rewrite after_caps. cbn. do 4 f_equal. rewrite (consumed_app _ _ (c :: a)); [done|]. cbn. rewrite after_rest by done. by rewrite Hab.
Qed.

Lemma ref_at_shorter pre first more s name r : ref_at pre first more s = Some (name, r) -> (length r < length s)%nat.
Proof.
  unfold ref_at. case_bool_decide; [|done]. intros He. pose proof (length_drop s (length pre)) as Hl.
  destruct (drop _ s) as [|c t]; [done|]. destruct (first c); [|done]. pose proof (span_app more t) as Ha.
  destruct (span more t) as [a [|d b]]; [done|]. destruct (d =? 59); [|done]. injection He as <- <-.
  cbn in Hl, Ha. rewrite <-Ha, length_app in Hl. cbn in Hl. lia.
Qed.

(** The loop over the matches is the scan. *)
Section Loop.
Context (r : re) (at_ : list Z -> option (list Z * list Z)) (f : list Z -> option (list Z)).
Context (Hr : forall s st, matches r (mk_ms s st [])
  = match at_ s with Some (name, t) => [mk_ms t false [(1%nat, name)]] | None => [] end).
Context (Hshort : forall s name t, at_ s = Some (name, t) -> (length t < length s)%nat).

Lemma find_scan n result m : (forall s k result, (length s < m)%nat -> (length s < k)%nat ->
    replace_loop n r f s result = y ← scan k at_ f s; Some (result ++ y)) ->
  forall s st before k, (length s <= m)%nat -> (length s < k)%nat ->
  match search_pos r s st before with
  | Some (b, g, after) => e ← group 1 g; x ← f e; replace_loop n r f after (result ++ b ++ x)
  | None => Some (result ++ before ++ s)
  end = y ← scan k at_ f s; Some (result ++ before ++ y).
Proof.
  intros IH s. induction s as [|c s IHs]; intros st before k Hm Hk; (destruct k as [|k]; [lia|]);
    cbn [search_pos scan]; rewrite Hr; (destruct (at_ _) as [[name t]|] eqn:Ea).
  - apply Hshort in Ea. cbn in Ea. lia.
  - done.
  - cbn [group find caps rest]. cbn. destruct (f name) as [x|]; [|done]. cbn.
    apply Hshort in Ea. cbn in Ea, Hm, Hk. rewrite (IH t k) by lia.
    destruct (scan k at_ f t) as [y|]; cbn; [|done]. by rewrite <-!(assoc_L (++)).
  - cbn in Hm, Hk. specialize (IHs false (before ++ [c]) k ltac:(lia) ltac:(lia)).
    rewrite <-(assoc_L (++)) in IHs. cbn [app] in IHs. rewrite IHs.
    destruct (scan k at_ f s) as [y|]; cbn; [|done]. by rewrite <-(assoc_L (++)).
Qed.

Lemma replace_loop_scan s : forall n k result, (length s < n)%nat -> (length s < k)%nat ->
  replace_loop n r f s result = y ← scan k at_ f s; Some (result ++ y).
Proof.
  induction s as [s IH] using list_len_ind; intros [|n] k result Hn Hk; [lia|].
  cbn [replace_loop]. rewrite regex_find_law. unfold perl_find.
  apply (find_scan n result (length s)); [|lia|lia]. intros t k' result' Ht Hk'. apply IH; lia.
Qed.
End Loop.

Lemma replace_ref pre first more g f s : pre <> [] -> more 59 = false ->
  (forall st, matches g st = matches (Seq (Set_ first) (Star (Set_ more))) st) ->
  replace_loop (S (length s)) (Seq (Lit pre) (Seq (Grp 1 g) (Chr 59))) f s [] = replace_refs (ref_at pre first more) f s.
Proof.
  intros Hp H59 Hg. rewrite (replace_loop_scan _ (ref_at pre first more) f) with (k := S (length s)); [|..|lia|lia].
  - unfold replace_refs. by destruct (scan _ _ _ _).
  - intros. by apply matches_ref.
  - apply ref_at_shorter.
Qed.

(** ** Lemmas: numbers *)

(** The number whose digits in base [b] are [ds], the lowest first. *)
Fixpoint number (b : Z) (f : Z -> Z) (ds : list Z) : Z :=
  match ds with [] => 0 | c :: ds => f c + b * number b f ds end.

Definition dec_digit (c : Z) : Z := c - 48.
Definition hex_digit (c : Z) : Z := match xdigit_to_num c with Value d => d | Throw _ => 0 end.

Definition dec_number (s : list Z) : Z := number 10 dec_digit (rev s).
Definition hex_number (s : list Z) : Z := number 16 hex_digit (rev s).

Lemma number_nonneg b f ds : 0 <= b -> Forall (fun c => 0 <= f c) ds -> 0 <= number b f ds.
Proof. intros Hb. induction 1; cbn; lia. Qed.

Lemma pow10_pos pos : 1 <= 10 ^ Z.of_nat pos.
Proof. pose proof (Z.pow_pos_nonneg 10 (Z.of_nat pos)). lia. Qed.

Lemma times10_fits pow : forall v, 0 <= v -> v * 10 ^ Z.of_nat pow <= INT_MAX -> times10 pow v = Some (v * 10 ^ Z.of_nat pow).
Proof.
  induction pow as [|pow IH]; intros v Hv Hm; [cbn; f_equal; lia|].
  rewrite Nat2Z.inj_succ, Z.pow_succ_r in * by lia. cbn [times10].
  pose proof (pow10_pos pow).
  rewrite cint_in by (unfold INT_MIN; nia). cbn. rewrite IH by nia. f_equal. lia.
Qed.

(** A number that is a code point is read, however many zeros it has in
    front; one of at most nine digits that is too large is refused. *)
Lemma dec_loop_spec ds : forall pos num, Forall (fun c => is_digit c = true) ds -> 0 <= num <= UCHAR_MAX_VALUE ->
  let v := num + 10 ^ Z.of_nat pos * number 10 dec_digit ds in
  (v <= UCHAR_MAX_VALUE -> dec_loop ds pos num = Some (Some v))
  /\ (UCHAR_MAX_VALUE < v -> (length ds + pos <= 9)%nat -> dec_loop ds pos num = Some None).
Proof.
  induction ds as [|c ds IH]; intros pos num Hds Hnum v; subst v; cbn [number dec_loop].
  - split; [intros; do 2 f_equal; lia|lia].
  - apply Forall_cons in Hds as [Hc Hds]. rewrite Hc. cbn [negb]. apply is_digit_spec in Hc as Hc'.
    assert (0 <= number 10 dec_digit ds).
    { apply number_nonneg; [lia|]. eapply Forall_impl; [exact Hds|]. intros x Hx%is_digit_spec. unfold dec_digit. lia. }
    pose proof (pow10_pos pos).
    change (dec_digit c) with (c - 48). set (p := 10 ^ Z.of_nat pos) in *.
    assert (num + p * (c - 48 + 10 * number 10 dec_digit ds)
      = num + (c - 48) * p + 10 ^ Z.of_nat (S pos) * number 10 dec_digit ds) as ->.
    { rewrite Nat2Z.inj_succ, Z.pow_succ_r by lia. fold p. lia. }
    assert (0 <= 10 ^ Z.of_nat (S pos) * number 10 dec_digit ds).
    { apply Z.mul_nonneg_nonneg; [apply Z.pow_nonneg|]; lia. }
    assert (0 <= (c - 48) * p) by (apply Z.mul_nonneg_nonneg; lia).
    unfold UCHAR_MAX_VALUE in *. split; intros Hv.
    + rewrite times10_fits by (unfold INT_MAX; fold p; lia). cbn -[Z.mul]. fold p.
      rewrite cint_in by (unfold INT_MIN, INT_MAX; lia). cbn -[Z.mul].
      rewrite (proj2 (Z.ltb_ge _ _)) by lia. apply IH; [done|lia|done].
    + intros Hl. cbn in Hl. assert (p <= 10 ^ 8) by (apply Z.pow_le_mono_r; lia).
      rewrite times10_fits by (unfold INT_MAX; fold p; nia). cbn -[Z.mul]. fold p.
      rewrite cint_in by (unfold INT_MIN, INT_MAX; nia). cbn -[Z.mul].
      zcase (1114111 <? num + (c - 48) * p); [done|]. apply IH; [done|lia|done|lia].
Qed.

Lemma hex_digit_spec c : is_xdigit c = true -> xdigit_to_num c = Value (hex_digit c) /\ 0 <= hex_digit c <= 15.
Proof.
  intros Hc. unfold hex_digit. unfold xdigit_to_num, isxdigit. rewrite Hc. cbn [negb]. split; [done|].
  unfold toupper, is_lower. unfold is_xdigit, is_digit, in_range in *.
  zcase (c <? 65); [|zcase ((97 <=? c) && (c <=? 122))]; lia.
Qed.

Lemma shiftl4 d pos : 0 <= pos -> Z.shiftl d (4 * pos) = d * 16 ^ pos.
Proof. intros. rewrite Z.shiftl_mul_pow2, Z.pow_mul_r by lia. done. Qed.

(** The eighth digit from the right may wrap to a negative number. *)
Lemma cast_int_high d : 0 <= d <= 15 -> d * 16 ^ 7 <= INT_MAX /\ cast_int (d * 16 ^ 7) = d * 16 ^ 7
  \/ INT_MAX < d * 16 ^ 7 /\ cast_int (d * 16 ^ 7) <= -16 ^ 7.
Proof.
  intros Hd. assert (forallb (fun d => (d * 16 ^ 7 <=? INT_MAX) && (cast_int (d * 16 ^ 7) =? d * 16 ^ 7)
    || (INT_MAX <? d * 16 ^ 7) && (cast_int (d * 16 ^ 7) <=? -16 ^ 7)) (seqZ 0 16) = true) as H by done.
  rewrite forallb_forall in H. specialize (H d). rewrite <-list_elem_of_In, elem_of_seqZ in H.
  specialize (H ltac:(lia)). apply orb_prop in H as [H|H]; bool_hyps; [by left|by right].
Qed.

Lemma hex_loop_spec ds : forall pos num, Forall (fun c => is_xdigit c = true) ds -> 0 <= pos -> zlen ds + pos <= 8 ->
  0 <= num <= UCHAR_MAX_VALUE ->
  let v := num + 16 ^ pos * number 16 hex_digit ds in
  (v <= UCHAR_MAX_VALUE -> hex_loop ds pos num = Some (Some v))
  /\ (UCHAR_MAX_VALUE < v -> hex_loop ds pos num = Some None \/ exists n, hex_loop ds pos num = Some (Some n) /\ n < 0).
Proof.
  induction ds as [|c ds IH]; intros pos num Hds Hpos Hl Hnum v; subst v; cbn [number hex_loop].
  - split; [intros; do 2 f_equal; lia|lia].
  - apply Forall_cons in Hds as [Hc Hds]. destruct (hex_digit_spec c Hc) as [-> Hd].
    rewrite zlen_cons in Hl. pose proof (zlen_nonneg ds). rewrite (proj2 (Z.leb_gt _ _)) by lia. rewrite shiftl4 by lia.
    set (d := hex_digit c) in *. set (w := number 16 hex_digit ds) in *.
    assert (0 <= w). { apply number_nonneg; [lia|]. eapply Forall_impl; [exact Hds|]. intros x Hx. exact (proj1 (proj2 (hex_digit_spec x Hx))). }
    assert (16 ^ pos * (d + 16 * w) = d * 16 ^ pos + 16 ^ (pos + 1) * w) as -> by (rewrite Z.pow_add_r; lia).
    assert (0 <= 16 ^ (pos + 1) * w) by (apply Z.mul_nonneg_nonneg; [apply Z.pow_nonneg|]; lia).
    assert (0 < 16 ^ pos) by (apply Z.pow_pos_nonneg; lia).
    assert (0 <= d * 16 ^ pos) by (apply Z.mul_nonneg_nonneg; lia).
    unfold UCHAR_MAX_VALUE in *.
    assert (d * 16 ^ pos <= INT_MAX - 2 ^ 24 /\ cast_int (d * 16 ^ pos) = d * 16 ^ pos
      \/ ds = [] /\ cast_int (d * 16 ^ pos) <= -16 ^ 7 /\ INT_MAX < d * 16 ^ pos /\ INT_MIN <= cast_int (d * 16 ^ pos)) as [[Hf Hw]|(-> & Hw & Hbig & Hmin)].
    { destruct (decide (pos = 7)) as [->|].
      - destruct (cast_int_high d Hd) as [[Hc1 Hc2]|[Hc1 Hc2]]; [left; split; [|done]|right].
        + unfold INT_MAX in *. lia.
        + split_and!; [|done|done|]; [destruct ds; [done|]; rewrite zlen_cons in Hl; pose proof (zlen_nonneg ds); lia|].
          unfold cast_int. pose proof (Z.mod_pos_bound (d * 16 ^ 7 - INT_MIN) (2 ^ 32)). lia.
      - left. assert (16 ^ pos <= 16 ^ 6) by (apply Z.pow_le_mono_r; lia).
        assert (d * 16 ^ pos <= 15 * 16 ^ 6) by (apply Z.mul_le_mono_nonneg; lia).
        split; [unfold INT_MAX; lia|]. apply cast_int_in. unfold INT_MAX, INT_MIN. lia. }
    + rewrite Hw, cint_in by (unfold INT_MIN, INT_MAX in *; lia). cbn -[Z.mul].
      zcase (1114111 <? num + d * 16 ^ pos); [split; [lia|by left]|].
      rewrite Z.add_assoc. apply IH; [done|lia..].
    + split; [unfold INT_MAX in *; lia|intros _]. right. rewrite cint_in by (unfold INT_MAX; lia). cbn -[Z.mul cast_int].
      rewrite (proj2 (Z.ltb_ge _ _)) by lia. eexists. split; [done|lia].
Qed.
End Entities.

(** * HTML character references: what the replacement does *)
(** An ICU in which every code point is defined and a surrogate is converted to
    the replacement character. *)
Definition plain_icu_from (enc s : list Z) : list Z + list Z :=
  match s with
  | [c] => if is_surrogate c then inl [239; 191; 189] else inl (utf8 c)
  | [hi; lo] => inl (utf8 (Z.shiftl (hi - 55296) 10 + (lo - 56320) + 65536))
  | _ => inl []
  end.

Lemma utf16_pair c : 65536 <= c <= 1114111 ->
  Z.shiftl (Z.shiftr c 10 + 55232 - 55296) 10 + (Z.lor (Z.land c 1023) 56320 - 56320) + 65536 = c.
Proof.
  intros Hc. rewrite Z.shiftl_mul_pow2, Z.shiftr_div_pow2 by lia.
  change 1023 with (Z.ones 10). rewrite Z.land_ones by lia. change (2 ^ 10) with 1024.
  assert (Z.lor (c mod 1024) 56320 = c mod 1024 + 56320) as ->.
  { pose proof (Z.mod_pos_bound c 1024). 
    assert (zrange 1024 0 (fun x => Z.lor x 56320 =? x + 56320) = true) as Hr by (vm_compute; reflexivity).
    apply Z.eqb_eq, (zrange_spec _ _ _ _ Hr). lia. }
  pose proof (Z.div_mod c 1024). lia.
Qed.

#[refine] Definition plain_icu : Icu :=
  {| u_isdefined := in_range UCHAR_MIN_VALUE UCHAR_MAX_VALUE; ucnv_open := fun _ => inl tt; ucnv_fromUChars := plain_icu_from |}.
Proof.
  - done.
  - intros c Hc Hs. unfold utf16. rewrite Hc. cbn [negb]. unfold in_range in Hc. bool_hyps. zcase (c <? 65536).
    + cbn [plain_icu_from]. by rewrite Hs.
    + cbn [plain_icu_from]. unfold UCHAR_MIN_VALUE, UCHAR_MAX_VALUE in *. by rewrite utf16_pair.
Defined.

Section Claims.
Context {BR : BoostRegex} {ICU : Icu}.

Lemma cp2utf8_defined c : 0 <= c <= UCHAR_MAX_VALUE -> is_surrogate c = false -> u_isdefined c = true ->
  cp2utf8 c = val (utf8 c).
Proof.
  intros Hc Hs Hd. unfold cp2utf8. rewrite Hd, ucnv_open_law, ucnv_fromUChars_law; [done| |done].
  unfold in_range, UCHAR_MIN_VALUE. by rewrite !(proj2 (Z.leb_le _ _)) by lia.
Qed.

(** ** Scanning *)
Lemma scan_fuel pre first more f s : forall n k, (length s < n)%nat -> (length s < k)%nat ->
  scan n (ref_at pre first more) f s = scan k (ref_at pre first more) f s.
Proof.
  induction s as [s IH] using list_len_ind; intros [|n] [|k] Hn Hk; try lia. cbn [scan].
  destruct (ref_at pre first more s) as [[name r]|] eqn:E.
  - apply ref_at_shorter in E. destruct (f name); cbn; [|done]. by rewrite (IH r) with (k := k) by lia.
  - destruct s as [|c s]; [done|]. cbn in Hn, Hk. by rewrite (IH s) with (k := k) by (cbn; lia).
Qed.

(** A character that starts no reference is copied. *)
Lemma replace_copy at_ f c s : at_ (c :: s) = None -> replace_refs at_ f (c :: s) = y ← replace_refs at_ f s; Some (c :: y).
Proof. intros H. unfold replace_refs. cbn [length scan]. by rewrite H. Qed.

(** Text without "&" is copied. *)
Lemma replace_skip pre first more f a s : Forall (fun c => c <> 38) a ->
  replace_refs (ref_at (38 :: pre) first more) f (a ++ s)
  = y ← replace_refs (ref_at (38 :: pre) first more) f s; Some (a ++ y).
Proof.
  induction 1 as [|c a Hc Ha IH]; cbn [app]; [by destruct (replace_refs _ f s)|].
  rewrite replace_copy, IH; [by destruct (replace_refs _ f s)|].
  unfold ref_at. rewrite bool_decide_false; [done|]. by intros [? [= -> _]].
Qed.

(** A reference is replaced by what its name stands for. *)
Lemma replace_hit pre first more f c name b : first c = true -> Forall (fun c => more c = true) name -> more 59 = false ->
  replace_refs (ref_at pre first more) f (pre ++ c :: name ++ 59 :: b)
  = x ← f (c :: name); y ← replace_refs (ref_at pre first more) f b; Some (x ++ y).
Proof.
  intros Hc Hn Hd. assert (ref_at pre first more (pre ++ c :: name ++ 59 :: b) = Some (c :: name, b)) as Hr.
  { unfold ref_at. rewrite bool_decide_true by (by eexists). by rewrite drop_app_length, Hc, span_exact. }
  unfold replace_refs. cbn [scan]. rewrite Hr. destruct (f (c :: name)); cbn; [|done].
  apply ref_at_shorter in Hr. by rewrite (scan_fuel _ _ _ f b) with (k := S (length b)) by lia.
Qed.

(** ** The digits that are printed *)
Lemma number_app b f x y : 0 <= b -> number b f (x ++ y) = number b f x + b ^ zlen x * number b f y.
Proof.
  intros Hb. induction x as [|c x IH]; cbn [app number]; [change (zlen []) with 0; rewrite Z.pow_0_r; lia|].
  rewrite IH, zlen_cons, Z.pow_add_r by (pose proof (zlen_nonneg x); lia). lia.
Qed.

Lemma put_digits_number n : forall v acc, 0 <= v < 2 ^ Z.of_nat (S n) -> Forall (fun c => is_digit c = true) acc ->
  dec_number (put_digits (S n) v acc) = dec_number acc + 10 ^ zlen acc * v
  /\ Forall (fun c => is_digit c = true) (put_digits (S n) v acc).
Proof.
  assert (Hcons : forall d acc, dec_number ((48 + d) :: acc) = dec_number acc + 10 ^ zlen acc * d).
  { intros. unfold dec_number. cbn [rev]. rewrite number_app by lia. cbn [number]. unfold dec_digit at 2, zlen.
    rewrite length_rev. lia. }
  assert (Hd : forall d acc, 0 <= d < 10 -> Forall (fun c => is_digit c = true) acc ->
    Forall (fun c => is_digit c = true) ((48 + d) :: acc)).
  { intros. constructor; [apply is_digit_spec; lia|done]. }
  induction n as [|n IH]; intros v acc Hv Hacc; rewrite put_digits_S; zcase (v <? 10).
  1, 3: split; [apply Hcons|apply Hd; [lia|done]].
  - change (2 ^ Z.of_nat 1) with 2 in Hv. lia.
  - pose proof (Z.mod_pos_bound v 10).
    destruct (IH (v / 10) ((48 + v mod 10) :: acc)) as [-> ?]; [apply div10_small; lia|apply Hd; [lia|done]|].
    split; [|done]. rewrite Hcons, zlen_cons, Z.pow_add_r by (pose proof (zlen_nonneg acc); lia).
    rewrite (Z.div_mod v 10) at 3 by lia. lia.
Qed.

Lemma put_nat_number v : 0 <= v -> dec_number (put_nat v) = v /\ Forall (fun c => is_digit c = true) (put_nat v).
Proof.
  intros Hv. destruct (put_digits_number (Z.to_nat (Z.log2 v)) v []) as [H1 H2]; [by apply log2_fits|done|].
  split; [|done]. unfold put_nat. rewrite H1. change (10 ^ zlen []) with 1. cbn [dec_number rev number]. lia.
Qed.

Lemma dec_in_range s : Forall (fun c => is_digit c = true) s -> dec_number s <= UCHAR_MAX_VALUE ->
  dec_numchar_ref s = caught (cp2utf8 (dec_number s)).
Proof.
  intros Hs Hv. unfold dec_numchar_ref.
  destruct (dec_loop_spec (rev s) 0 0) as [H _]; [by apply Forall_rev|done|]. rewrite Z.add_0_l, Z.mul_1_l in H.
  unfold dec_number in *. rewrite H by done. cbn. rewrite !(proj2 (Z.leb_le _ _)); [done|apply number_nonneg; [lia|]|done].
  apply Forall_rev. eapply Forall_impl; [exact Hs|]. intros c Hc%is_digit_spec. unfold dec_digit. lia.
Qed.

(** ** The table *)
Definition row (p : String.string * Z) : list Z * list Z := (str p.1, utf8 p.2).

Lemma forallb_Forall {A} (f : A -> bool) s : forallb f s = true -> Forall (fun c => f c = true) s.
Proof. induction s as [|c s IH]; cbn; [done|]. intros [? ?]%andb_prop. constructor; auto. Qed.

(** What the theorem needs of a row, checked by evaluation. *)
Definition row_ok (p : String.string * Z) : bool :=
  in_range UCHAR_MIN_VALUE UCHAR_MAX_VALUE p.2 && negb (is_surrogate p.2)
  && match str p.1 with c :: t => name_first c && forallb name_more t | [] => false end.

Lemma rows_ok : forallb row_ok charent_rows = true.
Proof. vm_compute. reflexivity. Qed.

Lemma rows_distinct : NoDup (map (fun p => str p.1) charent_rows).
Proof. apply (bool_decide_unpack _). vm_compute. exact I. Qed.

Lemma charent_find_None k m : k ∉ map fst m -> charent_find k m = None.
Proof.
  unfold charent_find. induction m as [|[j v] m IH]; cbn; [done|]. intros [Hj Hm]%not_elem_of_cons.
  rewrite bool_decide_false by done. by apply IH.
Qed.

Lemma charent_find_Some k v m : NoDup (map fst m) -> (k, v) ∈ m -> charent_find k m = Some v.
Proof.
  unfold charent_find. induction m as [|[j w] m IH]; cbn; [by intros _ ?%elem_of_nil|].
  intros [Hj Hm]%NoDup_cons [[= <- <-]|Hin]%elem_of_cons; [by rewrite bool_decide_true|].
  rewrite bool_decide_false; [by apply IH|]. intros ->. apply Hj. apply list_elem_of_fmap. by exists (k, v).
Qed.

Lemma insert_rows_all rows : forall m, forallb row_ok rows = true -> (forall p, p ∈ rows -> u_isdefined p.2 = true) ->
  NoDup (map fst m ++ map (fun p => str p.1) rows) -> insert_rows rows m = val (m ++ map row rows).
Proof.
  induction rows as [|[name c] rows IH]; cbn; intros m Hok Hdef Hnd; [by rewrite app_nil_r|].
  apply andb_prop in Hok as [[[Hr Hs%negb_true_iff]%andb_prop _]%andb_prop Hok]. cbn [snd] in Hr, Hs.
  unfold in_range in Hr. bool_hyps. rewrite cp2utf8_defined; [|done|done|apply (Hdef (name, c)), elem_of_cons; by left].
  cbn [rbind val]. assert (charent_find (str name) m = None) as Hf.
  { apply charent_find_None. intros Hin. apply NoDup_app in Hnd as (_ & Hd & _). apply (Hd (str name)); [done|].
    apply elem_of_cons. by left. }
  unfold charent_insert. rewrite Hf, IH; [by rewrite <-(assoc_L (++))|done| |].
  - intros p Hp. apply Hdef, elem_of_cons. by right.
  - rewrite map_app, <-(assoc_L (++)). done.
Qed.

Lemma Entity_handler_rows : (forall p, p ∈ charent_rows -> u_isdefined p.2 = true) ->
  Entity_handler = val (map row charent_rows).
Proof. intros H. apply (insert_rows_all _ []); [apply rows_ok|done|apply rows_distinct]. Qed.

Lemma replace_char_scan charent s :
  replace_char_entities charent s = replace_refs char_ref (fun e => Some (char_entity charent e)) s.
Proof. by apply replace_ref. Qed.

Lemma replace_dec_scan s : replace_dec_numchar_ref s = replace_refs dec_ref dec_numchar_ref s.
Proof. by apply replace_ref. Qed.

Lemma replace_hex_scan s : replace_hex_numchar_ref s = replace_refs hex_ref hex_numchar_ref s.
Proof. by apply replace_ref. Qed.

(** ** Claims *)

(** C36: The three loops over regular-expression matches are one pass over the
    text: at each position a reference (an "&", a name or a number, a
    semicolon) is replaced and every other character is copied. *)
Theorem replace_entities_scan charent s :
  replace_char_entities charent s = replace_refs char_ref (fun e => Some (char_entity charent e)) s
  /\ replace_dec_numchar_ref s = replace_refs dec_ref dec_numchar_ref s
  /\ replace_hex_numchar_ref s = replace_refs hex_ref hex_numchar_ref s.
Proof. split_and!; [apply replace_char_scan|apply replace_dec_scan|apply replace_hex_scan]. Qed.

(** Every entity of the table is replaced by the UTF-8 form of its code
    point wherever it stands in a text: what precedes it (up to another "&") is
    copied and what follows it is treated on its own. *)
Theorem entity_replaced name c a b : (forall p, p ∈ charent_rows -> u_isdefined p.2 = true) -> (name, c) ∈ charent_rows ->
  Forall (fun x => x <> 38) a -> exists m, Entity_handler = val m /\
  replace_char_entities m (a ++ str "&" ++ str name ++ str ";" ++ b)
  = y ← replace_char_entities m b; Some (a ++ utf8 c ++ y).
Proof.
  intros Hdef Hin Ha. exists (map row charent_rows). split; [by apply Entity_handler_rows|].
  pose proof rows_ok as Hok. rewrite forallb_forall in Hok. specialize (Hok _ (proj1 (list_elem_of_In _ _) Hin)).
  unfold row_ok in Hok. cbn [fst snd] in Hok. apply andb_prop in Hok as [_ Hn].
  destruct (str name) as [|d t] eqn:Es; [done|]. apply andb_prop in Hn as [Hd Ht%forallb_Forall].
  rewrite !replace_char_scan. unfold char_ref at 1. change (str "&") with [38] at 1. rewrite replace_skip by done.
  cbn [app]. change (str ";" ++ b) with (59 :: b).
  rewrite (replace_hit [38] name_first name_more) by done. cbn -[charent_rows replace_refs ref_at].
  unfold char_entity. rewrite <-Es, (charent_find_Some _ (utf8 c)).
  - by destruct (replace_refs _ _ b).
  - rewrite map_map. exact rows_distinct.
  - apply list_elem_of_fmap. by exists (name, c).
Qed.

(** A decimal reference to a code point is replaced by its UTF-8 form
    wherever it stands: printing a code point as a reference and replacing
    gives the character back. *)
Theorem dec_reference_replaced c a b : 0 <= c <= UCHAR_MAX_VALUE -> is_surrogate c = false -> u_isdefined c = true ->
  Forall (fun x => x <> 38) a ->
  replace_dec_numchar_ref (a ++ str "&#" ++ put_nat c ++ str ";" ++ b)
  = y ← replace_dec_numchar_ref b; Some (a ++ utf8 c ++ y).
Proof.
  intros Hc Hs Hd Ha. rewrite !replace_dec_scan. unfold dec_ref at 1. change (str "&#") with (38 :: [35]). rewrite replace_skip by done.
  destruct (put_nat_number c) as [Hn Hdig]; [lia|]. pose proof (dec_in_range (put_nat c) Hdig) as Hv. rewrite Hn in Hv.
  destruct (put_nat_head c) as (d & t & Ht & _); [lia|]. rewrite Ht in *. apply Forall_cons in Hdig as [H1 H2].
  cbn [app]. change (str ";" ++ b) with (59 :: b). change (38 :: 35 :: ?x) with ([38; 35] ++ x).
  rewrite replace_hit by done. rewrite Hv, cp2utf8_defined by (done || lia). unfold dec_ref.
  set (y := replace_refs _ _ b). by destruct y.
Qed.

(** What a numeric reference stands for.  Decimal digits give the character
    of their number when it is a code point, and nothing when it is larger and
    has at most nine digits; at most eight hexadecimal digits give the
    character of their number, or nothing when it is no code point. *)
Theorem numchar_ref_spec s :
  (Forall (fun c => is_digit c = true) s -> dec_number s <= UCHAR_MAX_VALUE ->
     dec_numchar_ref s = caught (cp2utf8 (dec_number s)))
  /\ (Forall (fun c => is_digit c = true) s -> UCHAR_MAX_VALUE < dec_number s -> zlen s <= 9 -> dec_numchar_ref s = Some [])
  /\ (Forall (fun c => is_xdigit c = true) s -> zlen s <= 8 ->
     hex_numchar_ref s = if hex_number s <=? UCHAR_MAX_VALUE then caught (cp2utf8 (hex_number s)) else Some []).
Proof.
  split_and!; [apply dec_in_range| |].
  - intros Hs Hv Hl. unfold dec_numchar_ref. destruct (dec_loop_spec (rev s) 0 0) as [_ H]; [by apply Forall_rev|done|].
    rewrite Z.add_0_l, Z.mul_1_l in H. rewrite H; [done|done|]. rewrite length_rev. unfold zlen in Hl. lia.
  - intros Hs Hl. unfold hex_numchar_ref. destruct (hex_loop_spec (rev s) 0 0) as [H1 H2]; [by apply Forall_rev|done| |done|].
    { unfold zlen in *. rewrite length_rev. lia. }
    rewrite Z.add_0_l, Z.mul_1_l in H1, H2. fold (hex_number s) in H1, H2. zcase (hex_number s <=? UCHAR_MAX_VALUE).
    + rewrite H1 by done. cbn. rewrite !(proj2 (Z.leb_le _ _)); [done|apply number_nonneg; [lia|]|done].
      apply Forall_rev. eapply Forall_impl; [exact Hs|]. intros c Hc. exact (proj1 (proj2 (hex_digit_spec c Hc))).
    + destruct H2 as [->|(n & -> & Hn)]; [lia|done|]. cbn. rewrite (proj2 (Z.leb_gt UCHAR_MIN_VALUE n)) by done.
      by rewrite andb_false_r.
Qed.

(** More digits than that run into undefined behaviour: an eleven-digit number
    whose low digits are zeros overflows [int], and the ninth hexadecimal digit
    is shifted by 32 bits even when it is a leading zero. *)
Theorem numchar_ref_overflow : dec_numchar_ref (str "10000000000") = None /\ hex_numchar_ref (str "000000041") = None.
Proof. split; reflexivity. Qed.

End Claims.

Lemma plain_defined p : p ∈ charent_rows -> in_range UCHAR_MIN_VALUE UCHAR_MAX_VALUE p.2 = true.
Proof.
  intros Hp. pose proof rows_ok as Hok. rewrite forallb_forall in Hok.
  specialize (Hok _ (proj1 (list_elem_of_In _ _) Hp)). unfold row_ok in Hok. by apply andb_prop in Hok as [[? _]%andb_prop _].
Qed.

Lemma entity_replaced_witness : exists m, Entity_handler (ICU := plain_icu) = val m /\
  replace_char_entities (BR := perl_regex) m (str "a &lt; b") = Some (str "a < b").
Proof.
  destruct (entity_replaced (BR := perl_regex) (ICU := plain_icu) "lt"%string 60 (str "a ") (str " b")) as (m & H1 & H2).
  - exact plain_defined.
  - apply list_elem_of_In. do 3 right. left. reflexivity.
  - apply (bool_decide_unpack _). vm_compute. exact I.
  - exists m. split; [exact H1|]. exact H2.
Defined.

Lemma dec_reference_replaced_witness :
  replace_dec_numchar_ref (BR := perl_regex) (ICU := plain_icu) (str "x&#8364;y") = Some ([120; 226; 130; 172; 121]).
Proof.
  exact (dec_reference_replaced (BR := perl_regex) (ICU := plain_icu) 8364 (str "x") (str "y") ltac:(split; discriminate) eq_refl eq_refl
    ltac:(apply (bool_decide_unpack _); vm_compute; exact I)).
Defined.

Lemma numchar_ref_spec_witness : dec_numchar_ref (ICU := plain_icu) (str "0065") = Some (str "A")
  /\ dec_numchar_ref (ICU := plain_icu) (str "1114112") = Some [] /\ hex_numchar_ref (ICU := plain_icu) (str "ffffffff") = Some [].
Proof.
  pose proof (numchar_ref_spec (ICU := plain_icu) (str "0065")) as (H1 & _).
  pose proof (numchar_ref_spec (ICU := plain_icu) (str "1114112")) as (_ & H2 & _).
  pose proof (numchar_ref_spec (ICU := plain_icu) (str "ffffffff")) as (_ & _ & H3).
  split; [exact (H1 ltac:(apply (bool_decide_unpack _); vm_compute; exact I) ltac:(vm_compute; discriminate))|]. split.
  - exact (H2 ltac:(apply (bool_decide_unpack _); vm_compute; exact I) ltac:(vm_compute; reflexivity) ltac:(vm_compute; discriminate)).
  - exact (H3 ltac:(apply (bool_decide_unpack _); vm_compute; exact I) ltac:(vm_compute; discriminate)).
Defined.

(** The passes run one after the other, so text that a first pass writes can be
    read as a reference by the next one: "&amp;#65;" becomes "A". *)
Example entities_twice :
  replace_all_entities (BR := perl_regex) (ICU := plain_icu) (map row charent_rows) (str "&amp;#65;") = Some (str "A").
Proof. vm_compute. reflexivity. Qed.
