(* ===== verification/Html.v ===== *)
(** * The HTML lexer: tokens and tags

    src/src/html_lexer/HTML_lexer.hh and HTML_lexer.cc: class [HTML_lexer]
    without its scanner: the token stack, the operations of the tags, text,
    links and what is learnt of the document ([Analysis]).

    An output stream given by pointer is [None] (NULL) or a stream with its
    state and what was written; [std::endl] writes a line feed.  Plain [char]
    is signed.  What is printed on [cerr] is left out. *)
From S2P Require Import Prelude Regex Utils Path Url Robots Iostream Entity.

Local Open Scope res_scope.

(** ** Data *)
Record link := mk_link { url : list Z; txt : list Z }.

Definition link_new : link := mk_link [] [].
Definition link_clear (l : link) : link := mk_link [] [].
Definition link_bool (l : link) : bool := negb (bool_decide (url l = [])).

Record Analysis := mk_Analysis {
  title : list Z;
  rss2 : list Z;
  rss : list Z;
  atom : list Z;
  charset : list Z;
  index : bool;
  follow : bool
}.

Definition Analysis_new : Analysis := mk_Analysis [] [] [] [] [] true true.

Inductive SGML_tok_t :=
| SGML_EOF | SGML_DATA | SGML_START | SGML_END | SGML_TAGC
| SGML_ATTRNAME | SGML_NAME | SGML_NUMBER | SGML_NMTOKEN | SGML_LITERAL
| SGML_GEREF | SGML_NUMCHARREF | SGML_REFC | SGML_PI
| SGML_MARKUP_DECL | SGML_COMMENT | SGML_LIMITATION | SGML_ERROR | SGML_WARNING | SGML_MAXTOK.

#[export] Instance SGML_tok_eq_dec : EqDecision SGML_tok_t.
Proof. solve_decision. Defined.

Record Token := mk_Token { tok_type : SGML_tok_t; content : list Z }.

(** [std::ostream]: whether it is good, and what it holds. *)
Record ostream := mk_ostream { os_good : bool; os_text : list Z }.

Definition ostringstream : ostream := mk_ostream true [].

(** [if (p && p->good()) *p << s] *)
Definition write (s : list Z) (o : option ostream) : option ostream :=
  match o with
  | Some o => Some (if os_good o then mk_ostream true (os_text o ++ s) else o)
  | None => None
  end.

Definition writable (o : option ostream) : bool :=
  match o with Some o => os_good o | None => false end.

(** [std::bitset<FLAGSIZE>] by the names of its bits. *)
Record flags_t := mk_flags {
  FLAG_GET_TEXT : bool;
  FLAG_GET_TITLE : bool;
  FLAG_INLINK : bool;
  FLAG_LINK_NOFOLLOW : bool
}.

Definition set_get_text b f := mk_flags b (FLAG_GET_TITLE f) (FLAG_INLINK f) (FLAG_LINK_NOFOLLOW f).
Definition set_get_title b f := mk_flags (FLAG_GET_TEXT f) b (FLAG_INLINK f) (FLAG_LINK_NOFOLLOW f).
Definition set_inlink b f := mk_flags (FLAG_GET_TEXT f) (FLAG_GET_TITLE f) b (FLAG_LINK_NOFOLLOW f).
Definition set_nofollow b f := mk_flags (FLAG_GET_TEXT f) (FLAG_GET_TITLE f) (FLAG_INLINK f) b.

(** [normalize] is true and never changed; the tables of tag operations are
    constants and are defined below. *)
Record HTML_lexer := mk_HTML_lexer {
  tokens : list Token;
  did_word_break : bool;
  txtout : option ostream;
  base_url : Url;
  lnkout : option ostream;
  warnings : option ostream;
  analysis : option Analysis;
  flags : flags_t;
  curlink : link;
  entity_handler : charent_t
}.

Definition set_tokens v l := mk_HTML_lexer v (did_word_break l) (txtout l) (base_url l) (lnkout l) (warnings l) (analysis l) (flags l) (curlink l) (entity_handler l).
Definition set_word_break v l := mk_HTML_lexer (tokens l) v (txtout l) (base_url l) (lnkout l) (warnings l) (analysis l) (flags l) (curlink l) (entity_handler l).
Definition set_txtout v l := mk_HTML_lexer (tokens l) (did_word_break l) v (base_url l) (lnkout l) (warnings l) (analysis l) (flags l) (curlink l) (entity_handler l).
Definition set_lnkout v l := mk_HTML_lexer (tokens l) (did_word_break l) (txtout l) (base_url l) v (warnings l) (analysis l) (flags l) (curlink l) (entity_handler l).
Definition set_warnings v l := mk_HTML_lexer (tokens l) (did_word_break l) (txtout l) (base_url l) (lnkout l) v (analysis l) (flags l) (curlink l) (entity_handler l).
Definition set_analysis v l := mk_HTML_lexer (tokens l) (did_word_break l) (txtout l) (base_url l) (lnkout l) (warnings l) v (flags l) (curlink l) (entity_handler l).
Definition set_flags v l := mk_HTML_lexer (tokens l) (did_word_break l) (txtout l) (base_url l) (lnkout l) (warnings l) (analysis l) v (curlink l) (entity_handler l).
Definition set_curlink v l := mk_HTML_lexer (tokens l) (did_word_break l) (txtout l) (base_url l) (lnkout l) (warnings l) (analysis l) (flags l) v (entity_handler l).

Definition upd_flags (f : flags_t -> flags_t) (l : HTML_lexer) : HTML_lexer := set_flags (f (flags l)) l.
Definition upd_analysis (f : Analysis -> Analysis) (l : HTML_lexer) : HTML_lexer := set_analysis (f <$> analysis l) l.

(** ** Strings *)

(** [boost::iequals] *)
Definition iequals (a b : list Z) : bool := bool_decide (toupper <$> a = toupper <$> b).

(** [boost::tokenizer<char_separator>] with dropped delimiters and no empty
    tokens: the runs of other characters. *)
Fixpoint tokenize_from (seps cur s : list Z) : list (list Z) :=
  match s with
  | [] => match cur with [] => [] | _ => [cur] end
  | c :: r =>
      if one_of seps c then match cur with [] => tokenize_from seps [] r | _ => cur :: tokenize_from seps [] r end
      else tokenize_from seps (cur ++ [c]) r
  end.

Definition tokenize (seps s : list Z) : list (list Z) := tokenize_from seps [] s.

(** What [catch (runtime_error&)] catches. *)
Definition is_runtime_error (e : exn) : bool :=
  match e with logic_error _ | length_error => false | _ => true end.

Definition what (e : exn) : list Z :=
  match e with
  | runtime_error w | logic_error w | BadUrl w | UrlParseError w | bencode_error w | unicode_error w => w
  | length_error => []
  end.

Definition is_BadUrl (e : exn) : bool :=
  match e with BadUrl _ | UrlParseError _ => true | _ => false end.

(** ** Links in the output

    Octets from 128 on are negative as [char]. *)
Definition link_char (c : Z) : bool := (8 <? c) && (c <? 128).

Definition print_link (l : link) : list Z :=
  [1] ++ filter (fun c => link_char c) (url l) ++ [2] ++ filter (fun c => link_char c) (txt l) ++ [3].

(** ** Warnings and text *)
Definition warn (w : list Z) (l : HTML_lexer) : HTML_lexer := set_warnings (write w (warnings l)) l.

Definition warn_text (w yytext : list Z) (l : HTML_lexer) : HTML_lexer :=
  warn (w ++ str ": yytext: " ++ [34] ++ yytext ++ [34] ++ [10]) l.

Definition add_title (text : list Z) (a : Analysis) : Analysis :=
  mk_Analysis (title a ++ text) (rss2 a) (rss a) (atom a) (charset a) (index a) (follow a).

Definition text_add (text : list Z) (l : HTML_lexer) : HTML_lexer :=
  let l := if FLAG_GET_TITLE (flags l) then upd_analysis (add_title text) l else l in
  set_word_break false (set_txtout (write text (txtout l)) l).

Definition text_word_break (l : HTML_lexer) : HTML_lexer :=
  if writable (txtout l) && negb (did_word_break l)
  then set_word_break true (set_txtout (write [10] (txtout l)) l)
  else l.

Definition link_text_add (text : list Z) (l : HTML_lexer) : HTML_lexer :=
  let l := text_add text l in
  set_curlink (mk_link (url (curlink l)) (txt (curlink l) ++ text)) l.

Definition link_text_word_break (l : HTML_lexer) : HTML_lexer :=
  set_curlink (mk_link (url (curlink l)) (txt (curlink l) ++ [32])) l.

Definition submit_link (l : HTML_lexer) : HTML_lexer :=
  let l := if link_bool (curlink l) then set_lnkout (write (print_link (curlink l)) (lnkout l)) l else l in
  set_curlink (link_clear (curlink l)) l.

Definition word_break (l : HTML_lexer) : HTML_lexer :=
  if FLAG_GET_TEXT (flags l) then
    if FLAG_INLINK (flags l) then link_text_word_break l else text_word_break l
  else l.

Section Lexer.
Context {BR : BoostRegex} {ICU : Icu} (NDEBUG : bool) (max_size : Z).

(** [Url url(s); url.normalize()], and its text when it is absolute or
    merged into the base. *)
Definition resolve (base : Url) (s : list Z) : res (list Z) :=
  u <~ Url_of NDEBUG max_size s ;;
  u <~ Url_normalize NDEBUG max_size u ;;
  if Url_absolute u then val (Url_get u)
  else full <~ merge_ref NDEBUG max_size base u ;; val (Url_get full).

Definition set_url (u : list Z) (l : HTML_lexer) : HTML_lexer :=
  set_curlink (mk_link u (txt (curlink l))) l.

Definition link_add (s : list Z) (l : HTML_lexer) : res HTML_lexer :=
  if negb (Url_empty (base_url l)) then
    try_catch (u <~ resolve (base_url l) s ;; val (set_url u l))
      (fun e => if is_runtime_error e then val (set_curlink (link_clear (curlink l)) l) else throw e)
  else val (set_url s l).

(** ** Attributes *)

(** [std::map<string, string>], the newest binding first. *)
Definition tag_t := list (list Z * list Z).

Definition tag_find (k : list Z) (m : tag_t) : option (list Z) :=
  snd <$> find (fun p => bool_decide (p.1 = k)) m.

Fixpoint tag_map_from (tok : list Token) (m : tag_t) : tag_t :=
  match tok with
  | i :: ((n :: _) as rest) =>
      tag_map_from rest
        (if bool_decide (tok_type i = SGML_ATTRNAME) && bool_decide (tok_type n = SGML_LITERAL)
         then (content i, content n) :: m else m)
  | _ => m
  end.

Definition tag_map (tok : list Token) : tag_t := tag_map_from tok [].

(** ** meta *)
Definition set_index b (a : Analysis) := mk_Analysis (title a) (rss2 a) (rss a) (atom a) (charset a) b (follow a).
Definition set_follow b (a : Analysis) := mk_Analysis (title a) (rss2 a) (rss a) (atom a) (charset a) (index a) b.
Definition set_charset c (a : Analysis) := mk_Analysis (title a) (rss2 a) (rss a) (atom a) c (index a) (follow a).

Fixpoint robots_tokens (toks : list (list Z)) (a : Analysis) : Analysis :=
  match toks with
  | [] => a
  | tok :: r =>
      let tok := to_lower tok in
      if bool_decide (tok = str "index") then robots_tokens r (set_index true a)
      else if bool_decide (tok = str "follow") then robots_tokens r (set_follow true a)
      else if bool_decide (tok = str "all") then set_index true (set_follow true a)
      else if bool_decide (tok = str "noindex") then robots_tokens r (set_index false a)
      else if bool_decide (tok = str "nofollow") then robots_tokens r (set_follow false a)
      else if bool_decide (tok = str "none") then set_index false (set_follow false a)
      else robots_tokens r a
  end.

Definition meta_name_robots (s : list Z) (l : HTML_lexer) : HTML_lexer :=
  upd_analysis (robots_tokens (tokenize (str ", ") s)) l.

(** "^\d+; url=(.+)$", [perl | icase] *)
Definition META_REFRESH_RE : re :=
  Seq Bol (Seq (Plus (Set_ is_digit)) (Seq (icase (str "; url=")) (Seq (Grp 1 (Plus Any)) Eol))).

(** [regex_search] of a pattern that starts with "^": it is tried at the start
    and after each line separator, but not between CR and LF. *)
Fixpoint search_lines (r : re) (prev : option Z) (s : list Z) : option groups :=
  let starts := match prev with
    | None => true
    | Some p => one_of [10; 13; 12] p && negb ((p =? 13) && bool_decide (head s = Some 10))
    end in
  match (if starts then regex_search r s else None), s with
  | Some g, _ => Some g
  | None, [] => None
  | None, c :: s => search_lines r (Some c) s
  end.

Definition op_meta (l : HTML_lexer) : res HTML_lexer :=
  match analysis l with
  | None => val l
  | Some _ =>
      let tag := tag_map (tokens l) in
      let l := match tag_find (str "name") tag, tag_find (str "content") tag with
        | Some n, Some c => if iequals n (str "robots") then meta_name_robots c l else l
        | _, _ => l
        end in
      match tag_find (str "http-equiv") tag, tag_find (str "content") tag with
      | Some h, Some c =>
          if iequals h (str "content-type") then
            val (match regex_search Utils.CHARSET_RE c with
                 | Some g => upd_analysis (set_charset (trim (default [] (group 1 g)))) l
                 | None => l
                 end)
          else if iequals h (str "refresh") then
            match search_lines META_REFRESH_RE None c with
            | Some g => l <~ link_add (default [] (group 1 g)) l ;; val (submit_link l)
            | None => val l
            end
          else val l
      | _, _ => val l
      end
  end.

(** ** title, link *)
Definition op_title (l : HTML_lexer) : HTML_lexer := upd_flags (fun f => set_get_title true (set_get_text true f)) l.
Definition op_title_c (l : HTML_lexer) : HTML_lexer := upd_flags (fun f => set_get_text false (set_get_title false f)) l.

Definition set_rss2 v (a : Analysis) := mk_Analysis (title a) v (rss a) (atom a) (charset a) (index a) (follow a).
Definition set_atom v (a : Analysis) := mk_Analysis (title a) (rss2 a) (rss a) v (charset a) (index a) (follow a).
Definition set_rss v (a : Analysis) := mk_Analysis (title a) (rss2 a) v (atom a) (charset a) (index a) (follow a).

(** The address of a feed, resolved against the base; a bad one is kept as it
    is, with a warning. *)
Definition feed_href (href : list Z) (l : HTML_lexer) : res (list Z * HTML_lexer) :=
  if negb (Url_empty (base_url l)) then
    try_catch (u <~ resolve (base_url l) href ;; val (u, l))
      (fun e =>
        if is_runtime_error e then
          val (href, warn ((if is_BadUrl e then str "BadUrl" else str "runtime_error")
                             ++ str " exception (link rel): " ++ what e ++ str " href: " ++ href
                             ++ str " base_url: " ++ Url_get (base_url l)) l)
        else throw e)
  else val (href, l).

Definition op_link (l : HTML_lexer) : res HTML_lexer :=
  match analysis l with
  | None => val l
  | Some _ =>
      let tag := tag_map (tokens l) in
      match tag_find (str "href") tag, tag_find (str "rel") tag, tag_find (str "type") tag with
      | Some href, Some rel, Some type =>
          if iequals rel (str "alternate") then
            x <~ feed_href (trim href) l ;;
            let '(href, l) := x in
            val (if iequals type (str "application/rss+xml") then upd_analysis (set_rss2 href) l
                 else if iequals type (str "application/atom+xml") then upd_analysis (set_atom href) l
                 else if iequals type (str "text/xml") then upd_analysis (set_rss href) l
                 else l)
          else val l
      | _, _, _ => val l
      end
  end.

Definition op_link_c (l : HTML_lexer) : HTML_lexer := l.

(** ** a, frame *)

(** [i->content.compare(0, n, name, 0, n) == 0], where [n] is the length of
    [name]. *)
Definition starts_with (name s : list Z) : bool := bool_decide (take (length name) s = name).

Definition is_attr (name : list Z) (t : Token) : bool :=
  bool_decide (tok_type t = SGML_ATTRNAME) && starts_with name (content t).

(** [(i+1) != tokens.end() && (i+1)->type == SGML_LITERAL] *)
Definition literal_next (rest : list Token) : option (list Z) :=
  match rest with
  | n :: _ => if bool_decide (tok_type n = SGML_LITERAL) then Some (content n) else None
  | [] => None
  end.

Definition rel_nofollow (s : list Z) (l : HTML_lexer) : HTML_lexer :=
  if existsb (fun tok => bool_decide (to_lower tok = str "nofollow")) (tokenize [34; 32] s)
  then upd_flags (set_nofollow true) l else l.

Fixpoint op_a_from (toks : list Token) (l : HTML_lexer) : res HTML_lexer :=
  match toks with
  | [] => val l
  | i :: rest =>
      l <~ (match literal_next rest with
            | Some v =>
                if is_attr (str "href") i then
                  l <~ link_add v l ;; val (upd_flags (set_inlink true) l)
                else if is_attr (str "rel") i then val (rel_nofollow v l)
                else val l
            | None => val l
            end) ;;
      op_a_from rest l
  end.

Definition op_a (l : HTML_lexer) : res HTML_lexer :=
  if FLAG_GET_TEXT (flags l) then op_a_from (tokens l) l else val l.

Definition op_a_c (l : HTML_lexer) : HTML_lexer :=
  if FLAG_LINK_NOFOLLOW (flags l) then upd_flags (fun f => set_nofollow false (set_inlink false f)) l
  else if FLAG_INLINK (flags l) then upd_flags (set_inlink false) (submit_link l)
  else l.

Fixpoint op_frame_from (toks : list Token) (l : HTML_lexer) : res HTML_lexer :=
  match toks with
  | [] => val l
  | i :: rest =>
      l <~ (match literal_next rest with
            | Some v =>
                if is_attr (str "src") i then
                  l <~ link_add v l ;; val (upd_flags (set_inlink true) l)
                else val l
            | None => val l
            end) ;;
      op_frame_from rest l
  end.

Definition op_frame (l : HTML_lexer) : res HTML_lexer :=
  if FLAG_GET_TEXT (flags l) then l <~ op_frame_from (tokens l) l ;; val (word_break l) else val l.

Definition op_frame_c (l : HTML_lexer) : HTML_lexer :=
  word_break (if FLAG_INLINK (flags l) then upd_flags (set_inlink false) (submit_link l) else l).

(** ** body, script, style *)
Definition op_body (l : HTML_lexer) : HTML_lexer := word_break (upd_flags (set_get_text true) l).
Definition op_body_c (l : HTML_lexer) : HTML_lexer := upd_flags (set_get_text false) l.
Definition op_script (l : HTML_lexer) : HTML_lexer := upd_flags (set_get_text false) l.
Definition op_script_c (l : HTML_lexer) : HTML_lexer :=
  if FLAG_GET_TEXT (flags l) then l else upd_flags (set_get_text true) l.
Definition op_style (l : HTML_lexer) : HTML_lexer := upd_flags (set_get_text false) l.
Definition op_style_c (l : HTML_lexer) : HTML_lexer :=
  if FLAG_GET_TEXT (flags l) then l else upd_flags (set_get_text true) l.

(** ** The tables *)
Definition tag_op_t := list (list Z * (HTML_lexer -> res HTML_lexer)).

(** The tags whose two operations are [word_break]. *)
Definition break_tags : list (list Z) :=
  str <$> ["applet"; "base"; "blockquote"; "br"; "button"; "caption"; "dd"; "div"; "dfn"; "dl"; "dt";
    "fieldset"; "form"; "h1"; "head"; "hr"; "img"; "input"; "li"; "map"; "menu"; "noframes"; "object";
    "ol"; "optgroup"; "option"; "p"; "param"; "pre"; "q"; "samp"; "select"; "table"; "tbody"; "td";
    "textarea"; "tfoot"; "th"; "thead"; "tr"; "tt"; "ul"; "xmp"]%string.

Definition breaks : tag_op_t := (fun t => (t, fun l => val (word_break l))) <$> break_tags.

Definition stag_op : tag_op_t :=
  [ (str "body", fun l => val (op_body l)); (str "a", op_a); (str "frame", op_frame); (str "iframe", op_frame);
    (str "script", fun l => val (op_script l)); (str "style", fun l => val (op_style l)); (str "link", op_link);
    (str "meta", op_meta); (str "title", fun l => val (op_title l)) ] ++ breaks.

Definition ctag_op : tag_op_t :=
  [ (str "body", fun l => val (op_body_c l)); (str "a", fun l => val (op_a_c l));
    (str "frame", fun l => val (op_frame_c l)); (str "iframe", fun l => val (op_frame_c l));
    (str "script", fun l => val (op_script_c l)); (str "style", fun l => val (op_style_c l));
    (str "link", fun l => val (op_link_c l)); (str "meta", fun l => val (word_break l));
    (str "title", fun l => val (op_title_c l)) ] ++ breaks.

Definition run_op (ops : tag_op_t) (name : list Z) (l : HTML_lexer) : res HTML_lexer :=
  match find (fun p => bool_decide (p.1 = name)) ops with
  | Some p => p.2 l
  | None => val l
  end.

(** ** Tokens *)
Definition addtoken (toktype : SGML_tok_t) (s : list Z) (case_insensitive : bool) (l : HTML_lexer) : res HTML_lexer :=
  match replace_all_entities (entity_handler l) s with
  | None => abort
  | Some s =>
      let t := mk_Token toktype (if case_insensitive then to_lower s else s) in
      val (set_tokens (tokens l ++ [t]) l)
  end.

(** Only the first of the tokens counts. *)
Definition process (l : HTML_lexer) : res HTML_lexer :=
  match tokens l with
  | [] => val l
  | cur :: _ =>
      l <~ (match tok_type cur with
            | SGML_START => run_op stag_op (content cur) l
            | SGML_END => run_op ctag_op (content cur) l
            | SGML_DATA =>
                val (if FLAG_GET_TEXT (flags l) then
                       if FLAG_INLINK (flags l) then link_text_add (content cur) l else text_add (content cur) l
                     else l)
            | _ => val l
            end) ;;
      val (set_tokens [] l)
  end.

Definition finalize (l : HTML_lexer) : HTML_lexer := l.

(** The constructor. *)
Definition HTML_lexer_new (txt_ : option ostream) (base : option (list Z)) (lnk warn_ : option ostream)
    (analysis_ : option Analysis) (get_text_if_body_tag_only : bool) : res HTML_lexer :=
  ents <~ Entity_handler ;;
  u <~ (match base with
        | None => val Url_new
        | Some b =>
            u <~ Url_assign NDEBUG max_size b Url_new ;;
            if Url_absolute u then val u
            else throw (runtime_error (str "base_url: " ++ b ++ str " is not absolute" ++ [10]))
        end) ;;
  val (mk_HTML_lexer [] false txt_ u lnk warn_ analysis_
         (mk_flags (negb get_text_if_body_tag_only) false false false) link_new ents).

(** [reset]: the tokens, flags and the current link stay. *)
Definition HTML_lexer_reset (txt_ : option ostream) (base : option (list Z)) (lnk warn_ : option ostream)
    (analysis_ : option Analysis) (l : HTML_lexer) : res HTML_lexer :=
  u <~ (match base with None => val (base_url l) | Some b => Url_assign NDEBUG max_size b (base_url l) end) ;;
  val (mk_HTML_lexer (tokens l) (did_word_break l) txt_ u lnk warn_ analysis_ (flags l) (curlink l) (entity_handler l)).

(** [sgml_tok_xlate] *)
Definition sgml_tok_xlate (tok : SGML_tok_t) : list Z :=
  match tok with
  | SGML_EOF => str "SGML_EOF" | SGML_DATA => str "SGML_DATA" | SGML_START => str "SGML_START"
  | SGML_END => str "SGML_END" | SGML_TAGC => str "SGML_TAGC" | SGML_ATTRNAME => str "SGML_ATTRNAME"
  | SGML_NAME => str "SGML_NAME" | SGML_NUMBER => str "SGML_NUMBER" | SGML_NMTOKEN => str "SGML_NMTOKEN"
  | SGML_LITERAL => str "SGML_LITERAL" | SGML_GEREF => str "SGML_GEREF"
  | SGML_NUMCHARREF => str "SGML_NUMCHARREF" | SGML_REFC => str "SGML_REFC" | SGML_PI => str "SGML_PI"
  | SGML_MARKUP_DECL => str "SGML_MARKUP_DECL" | SGML_COMMENT => str "SGML_COMMENT"
  | SGML_LIMITATION => str "SGML_LIMITATION" | SGML_ERROR => str "SGML_ERROR"
  | SGML_WARNING => str "SGML_WARNING" | SGML_MAXTOK => str "SGML_MAXTOK"
  end.

Definition print_token (t : Token) : list Z :=
  str "type: " ++ sgml_tok_xlate (tok_type t) ++ [10] ++ str "content: " ++ content t.
End Lexer.
