(* ===== verification/HtmlLex.v ===== *)
(** * The HTML lexer: the scanner

    src/src/html_lexer/html.ll: the patterns, the start conditions, the rules
    in their order with their actions, the loop [yylex] that flex makes of
    them, and [html_lex] of HTML_lexer.cc. *)
From S2P Require Import Prelude Regex Utils Path Url Robots Iostream Entity Flex Html.

Local Open Scope res_scope.

(** ** Definitions of the first section *)
Definition Digit : pat := PSet is_digit.
Definition COM_ : pat := PLit (str "--").
Definition DSC : pat := PLit (str "]").
Definition DSO : pat := PLit (str "[").
Definition ETAGO : pat := PLit (str "</").
Definition LIT : pat := PChr 34.
Definition LITA : pat := PChr 39.
Definition MDC : pat := PLit (str ">").
Definition MDO : pat := PLit (str "<!").
Definition MSC : pat := PLit (str "]]").
Definition NET : pat := PLit (str "/").
Definition PERO : pat := PLit (str "%").
Definition PIC : pat := PLit (str ">").
Definition PIO : pat := PLit (str "<?").
Definition REFC : pat := PLit (str ";").
Definition STAGO : pat := PLit (str "<").
Definition TAGC : pat := PLit (str ">").
Definition CDATAO : pat := PLit (str "<![CDATA[").
Definition CDATAC : pat := PLit (str "]]>").

Definition is_name_start (c : Z) : bool := is_alpha c || one_of (str "_:") c.
Definition is_name_char (c : Z) : bool := is_name_start c || is_digit c || one_of (str "._:-") c.

Definition name : pat := PSeq (PSet is_name_start) (PStar (PSet is_name_char)).
Definition number : pat := PPlus Digit.
Definition name_token : pat := PPlus (PSet is_name_char).

(** {SPACE}|{RE}|{RS}|{SEPCHAR} *)
Definition is_s (c : Z) : bool := one_of [32; 10; 13; 9] c.
Definition s_ : pat := PSet is_s.
Definition ws : pat := PStar s_.

Definition reference_end : pat := PAlt REFC (PChr 10).

Definition literal : pat :=
  PAlt (PSeq LIT (PSeq (PStar (PSet (none_of [34]))) LIT)) (PSeq LITA (PSeq (PStar (PSet (none_of [39]))) LITA)).

(** ** Start conditions; all but INITIAL are exclusive *)
Inductive start_cond := INITIAL | CDATA | TAG | ATTR | ATTRVAL | SCRIPT | MD | COM | DS.

#[export] Instance start_cond_eq_dec : EqDecision start_cond.
Proof. solve_decision. Defined.

(** ** The rules of the second section, in their order *)
Inductive html_rule :=
| R_end_tag | R_script_end | R_empty_end | R_markup_decl | R_empty_comment | R_comment | R_marked_section
| R_marked_end | R_pi | R_start_tag | R_empty_start | R_cdata_open | R_cdata_data | R_cdata_close | R_data
| R_script_data | R_attr_name | R_name | R_name_token | R_literal | R_unquoted | R_illegal_close
| R_tag_close | R_net_close | R_unclosed | R_bad_char | R_param_ref | R_md_number | R_md_name | R_md_literal
| R_md_close | R_comment_close | R_md_subset | R_comment_char | R_md_char | R_ds_end | R_ds_close | R_ds_skip
| R_cdata_char | R_newlines | R_any.

#[export] Instance html_rule_eq_dec : EqDecision html_rule.
Proof. solve_decision. Defined.

Definition html_rules : list html_rule :=
  [ R_end_tag; R_script_end; R_empty_end; R_markup_decl; R_empty_comment; R_comment; R_marked_section;
    R_marked_end; R_pi; R_start_tag; R_empty_start; R_cdata_open; R_cdata_data; R_cdata_close; R_data;
    R_script_data; R_attr_name; R_name; R_name_token; R_literal; R_unquoted; R_illegal_close;
    R_tag_close; R_net_close; R_unclosed; R_bad_char; R_param_ref; R_md_number; R_md_name; R_md_literal;
    R_md_close; R_comment_close; R_md_subset; R_comment_char; R_md_char; R_ds_end; R_ds_close; R_ds_skip;
    R_cdata_char; R_newlines; R_any ].

(** The start conditions of a rule; a rule without any belongs to INITIAL. *)
Definition active (sc : start_cond) (r : html_rule) : bool :=
  match r with
  | R_end_tag | R_empty_end | R_markup_decl | R_empty_comment | R_comment | R_marked_section
  | R_marked_end | R_pi | R_start_tag | R_empty_start | R_cdata_open | R_data => bool_decide (sc = INITIAL)
  | R_script_end | R_script_data => bool_decide (sc = SCRIPT)
  | R_cdata_data | R_cdata_close | R_cdata_char => bool_decide (sc = CDATA)
  | R_attr_name | R_name => bool_decide (sc = ATTR)
  | R_name_token | R_literal | R_unquoted | R_illegal_close => bool_decide (sc = ATTRVAL)
  | R_tag_close => bool_decide (sc ∈ [ATTR; TAG])
  | R_net_close => bool_decide (sc ∈ [ATTR; ATTRVAL])
  | R_unclosed | R_bad_char => bool_decide (sc ∈ [ATTR; ATTRVAL; TAG])
  | R_param_ref | R_md_number | R_md_name | R_md_literal | R_md_close | R_md_subset | R_md_char =>
      bool_decide (sc = MD)
  | R_comment_close | R_comment_char => bool_decide (sc = COM)
  | R_ds_end | R_ds_close | R_ds_skip => bool_decide (sc = DS)
  | R_newlines | R_any => true
  end.

Definition pattern (r : html_rule) : pat :=
  match r with
  | R_end_tag => PSeq ETAGO (PSeq name ws)
  | R_script_end => PSeq ETAGO (PSeq ws (PSeq (PLit (str "script")) (PSeq ws TAGC)))
  | R_empty_end => PSeq ETAGO TAGC
  | R_markup_decl => PSeq MDO (PSeq name ws)
  | R_empty_comment => PSeq MDO MDC
  | R_comment => PSeq MDO COM_
  | R_marked_section => PSeq MDO (PSeq DSO ws)
  | R_marked_end => PSeq MSC MDC
  | R_pi => PSeq PIO (PSeq (PStar (PSet (none_of [62]))) PIC)
  | R_start_tag => PSeq STAGO (PSeq name ws)
  | R_empty_start => PSeq STAGO TAGC
  | R_cdata_open => CDATAO
  | R_cdata_data => PSeq (PStar PDot) CDATAC
  | R_cdata_close => CDATAC
  | R_data | R_script_data => PAlt (PStar (PSet (none_of [60]))) PDot
  | R_attr_name => PSeq name (PSeq (PStar s_) (PSeq (PChr 61) ws))
  | R_name => PSeq name ws
  | R_name_token => PSeq name_token ws
  | R_literal => PSeq literal ws
  | R_unquoted => PSeq (PPlus (PSet (none_of [32; 39; 34; 9; 10; 62]))) ws
  | R_illegal_close | R_tag_close => TAGC
  | R_net_close => PSeq NET TAGC
  | R_unclosed => STAGO
  | R_bad_char => PDot
  | R_param_ref => PSeq PERO (PSeq name (PSeq (POpt reference_end) ws))
  | R_md_number => PSeq number ws
  | R_md_name => PSeq name ws
  | R_md_literal => PSeq literal ws
  | R_md_close => MDC
  | R_comment_close => PSeq COM_ (PSeq (PStar ws) TAGC)
  | R_md_subset => DSO
  | R_comment_char | R_md_char => PDot
  | R_ds_end => PSeq MSC MDC
  | R_ds_close => DSC
  | R_ds_skip => PPlus (PSet (none_of [93]))
  | R_cdata_char => PDot
  | R_newlines => PPlus (PSet (one_of [10; 13]))
  | R_any => PDot
  end.

(** The length of the trailing context, which is matched and not consumed. *)
Definition trailing (r : html_rule) : nat :=
  match r with R_cdata_data => 3 | _ => 0 end.

Definition rules_of (sc : start_cond) : list html_rule := filter (fun r => active sc r) html_rules.

(** ** Actions *)

(** [while (yyleng && p(yytext[yyleng-1])) --yyleng;] *)
Definition strip_right (p : Z -> bool) (yytext : list Z) : list Z := reverse (snd (span p (reverse yytext))).

(** The "sepchar" of the actions is 0x11. *)
Definition is_blank (c : Z) : bool := one_of [32; 17; 10; 13] c.

(** [strncasecmp(a, b, n) == 0]; a string ends with a zero. *)
Fixpoint strncase_eq (n : nat) (a b : list Z) : bool :=
  match n with
  | O => true
  | S n =>
      let x := tolower (hd 0 a) in
      let y := tolower (hd 0 b) in
      if x =? y then if x =? 0 then true else strncase_eq n (tl a) (tl b) else false
  end.

Definition is_quote (c : Z) : bool := one_of [34; 39] c.

(** The value of a quoted literal: the quotes at both ends are removed. *)
Definition unquote (yytext : list Z) : list Z :=
  let t := strip_right is_blank yytext in
  let t := match last t with Some c => if is_quote c then removelast t else t | None => t end in
  match t with c :: r => if is_quote c then r else t | [] => t end.

Section Scanner.
Context {BR : BoostRegex} {ICU : Icu} (NDEBUG : bool) (max_size : Z).

Abbreviation process := (process NDEBUG max_size).

(** The action of a rule gives the next start condition. *)
Definition action (r : html_rule) (sc : start_cond) (yytext : list Z) (l : HTML_lexer) : res (start_cond * HTML_lexer) :=
  match r with
  | R_end_tag =>
      l <~ addtoken SGML_END (strip_right is_blank (drop 2 yytext)) true l ;;
      val (TAG, l)
  | R_script_end =>
      let t := snd (span (Z.eqb 32) (drop 2 yytext)) in
      l <~ addtoken SGML_END (strip_right (fun c => is_blank c || (c =? 62)) t) true l ;;
      val (INITIAL, l)
  | R_empty_end => val (sc, warn_text (str "empty end tag not supported") yytext l)
  | R_markup_decl => l <~ addtoken SGML_MARKUP_DECL yytext true l ;; val (MD, l)
  | R_empty_comment => l <~ process l ;; val (sc, l)
  | R_comment => val (COM, l)
  | R_marked_section => val (DS, warn_text (str "marked sections not supported") yytext l)
  | R_marked_end => val (sc, warn_text (str "unmatched marked sections end") yytext l)
  | R_pi => l <~ addtoken SGML_PI yytext false l ;; l <~ process l ;; val (sc, l)
  | R_start_tag =>
      let t := strip_right is_blank (drop 1 yytext) in
      l <~ addtoken SGML_START t true l ;;
      if strncase_eq (length t) t (str "script") then l <~ process l ;; val (SCRIPT, l) else val (ATTR, l)
  | R_empty_start => val (sc, warn_text (str "empty start tag not supported") yytext l)
  | R_cdata_open => val (CDATA, warn_text (str "CDATA open: ") yytext l)
  | R_cdata_data =>
      l <~ process (warn_text (str "CDATA close: ") yytext l) ;;
      val (INITIAL, l)
  | R_cdata_close => val (INITIAL, warn_text (str "CDATA small close: ") yytext l)
  | R_data => l <~ addtoken SGML_DATA yytext false l ;; l <~ process l ;; val (sc, l)
  | R_script_data => val (sc, l)
  | R_attr_name =>
      l <~ addtoken SGML_ATTRNAME (strip_right (fun c => (c =? 61) || is_space c) yytext) true l ;;
      val (ATTRVAL, l)
  | R_name => l <~ addtoken SGML_NAME yytext true l ;; val (sc, l)
  | R_name_token => l <~ addtoken SGML_NMTOKEN yytext false l ;; val (ATTR, l)
  | R_literal => l <~ addtoken SGML_LITERAL (unquote yytext) false l ;; val (ATTR, l)
  | R_unquoted => l <~ addtoken SGML_LITERAL (strip_right is_blank yytext) false l ;; val (ATTR, l)
  | R_illegal_close => l <~ process l ;; val (INITIAL, l)
  | R_tag_close | R_net_close =>
      l <~ addtoken SGML_TAGC yytext false l ;; l <~ process l ;; val (INITIAL, l)
  | R_unclosed => l <~ process l ;; val (INITIAL, l)
  | R_bad_char => val (sc, warn_text (str "bad character in tag") yytext l)
  | R_param_ref => val (sc, warn_text (str "parameter entity reference") yytext l)
  | R_md_number => l <~ addtoken SGML_NUMBER yytext false l ;; val (sc, l)
  | R_md_name => l <~ addtoken SGML_NAME yytext true l ;; val (sc, l)
  | R_md_literal => l <~ addtoken SGML_LITERAL yytext false l ;; val (sc, l)
  | R_md_close =>
      l <~ addtoken SGML_TAGC yytext false l ;; l <~ process l ;; val (INITIAL, l)
  | R_comment_close => l <~ process l ;; val (INITIAL, l)
  | R_md_subset => val (DS, l)
  | R_comment_char => val (sc, l)
  | R_md_char => val (sc, warn_text (str "illegal character in markup declaration") yytext l)
  | R_ds_end => val (INITIAL, l)
  | R_ds_close => val (COM, l)
  | R_ds_skip => val (sc, warn_text (str "declaration subset: skipping") yytext l)
  | R_cdata_char => val (sc, warn_text (str "cdata unmatched: ") yytext l)
  | R_newlines => val (sc, l)
  | R_any => val (sc, warn_text (str "unmatched: ") yytext l)
  end.

(** The rule flex takes in a start condition and how much of the input is its
    [yytext]. *)
Definition next_rule (sc : start_cond) (input : list Z) : option (html_rule * nat) :=
  let rs := rules_of sc in
  match Flex.scan ((fun r => mk_rule false (pattern r)) <$> rs) false input with
  | Some (i, n) => r ← rs !! i; Some (r, n - trailing r)%nat
  | None => None
  end.

(** [yylex]; the rule for the end of the file finalizes and returns 0. *)
Fixpoint yylex_from (fuel : nat) (sc : start_cond) (input : list Z) (l : HTML_lexer) : res (Z * HTML_lexer) :=
  match fuel with
  | O => abort
  | S fuel =>
      match input with
      | [] => val (0, finalize l)
      | _ =>
          match next_rule sc input with
          | None => abort
          | Some (r, n) =>
              x <~ action r sc (take n input) l ;;
              let '(sc, l) := x in
              yylex_from fuel sc (drop n input) l
          end
      end
  end.

Definition yylex (input : list Z) (l : HTML_lexer) : res (Z * HTML_lexer) :=
  yylex_from (2 * length input + 2) INITIAL input l.

(** ** [html_lex] *)
Record ProcHTML := mk_ProcHTML {
  proc_base_url : list Z;
  proc_text : list Z;
  proc_links : list Z;
  proc_warnings : list Z;
  proc_analysis : Analysis
}.

Definition written (o : option ostream) : list Z := from_option os_text [] o.

Definition html_lex (html_in base : list Z) : res ProcHTML :=
  l <~ HTML_lexer_new NDEBUG max_size (Some ostringstream) (if bool_decide (base = []) then None else Some base)
         (Some ostringstream) (Some ostringstream) (Some Analysis_new) false ;;
  x <~ yylex html_in l ;;
  let l := x.2 in
  val (mk_ProcHTML base (written (txtout l)) (written (lnkout l)) (written (warnings l))
         (default Analysis_new (analysis l))).
End Scanner.
