(* ===== verification/HtmlScan.v ===== *)
(** * The HTML scanner: progress, and the choice of a rule

    On every input the scanner takes one rule after the other until the input
    is used up; and the tools to say which rule it takes on given text. *)
From S2P Require Import Prelude Regex Utils Path Url UrlWf Robots RobotsLex Iostream Entity Flex Html HtmlLex.

(** ** The rules of a start condition *)

Definition flex_rule (r : html_rule) : rule := mk_rule false (pattern r).

Lemma next_rule_unfold sc input : next_rule sc input =
  match Flex.scan (flex_rule <$> rules_of sc) false input with
  | Some (i, n) => r ← rules_of sc !! i; Some (r, n - trailing r)%nat
  | None => None
  end.
Proof. done. Qed.

(** A rule found in a start condition is active there. *)
Lemma rules_active sc i r : rules_of sc !! i = Some r -> active sc r = true.
Proof. intros Hi%list_elem_of_lookup_2. unfold rules_of in Hi. apply list_elem_of_filter in Hi as [Hi _]. by apply Is_true_true. Qed.

Lemma rule_matched_iff r n s : rule_matched false (flex_rule r) n s <-> matched (pattern r) n s.
Proof. unfold rule_matched. cbn. intuition discriminate. Qed.

Lemma rule_here sc r : r ∈ html_rules -> active sc r = true -> exists i, rules_of sc !! i = Some r.
Proof. intros Hr Ha. apply list_elem_of_lookup. unfold rules_of. apply list_elem_of_filter. split; [by rewrite Ha|done]. Qed.

(** One of the last two rules matches one character, in every start
    condition. *)
Lemma last_rules sc c s : exists r, r ∈ html_rules /\ active sc r = true /\ matched (pattern r) 1 (c :: s).
Proof.
  destruct (decide (c = 10)) as [->|Hc].
  - exists R_newlines. split_and!; [by apply (list_elem_of_lookup_2 _ 39)|done|]. split; [cbn; lia|]. cbn.
    apply (L_seq _ _ [10] []); [by constructor|constructor].
  - exists R_any. split_and!; [by apply (list_elem_of_lookup_2 _ 40)|done|]. split; [cbn; lia|]. cbn. constructor. by apply negb_true_iff, Z.eqb_neq.
Qed.

(** ** Progress *)

(** The condition after the action of a rule. *)
Definition next_cond (r : html_rule) (sc : start_cond) (yytext : list Z) : start_cond :=
  match r with
  | R_end_tag => TAG
  | R_markup_decl => MD
  | R_comment | R_ds_close => COM
  | R_marked_section | R_md_subset => DS
  | R_start_tag =>
      let t := strip_right is_blank (drop 1 yytext) in
      if strncase_eq (length t) t (str "script") then SCRIPT else ATTR
  | R_cdata_open => CDATA
  | R_attr_name => ATTRVAL
  | R_name_token | R_literal | R_unquoted => ATTR
  | R_script_end | R_cdata_data | R_cdata_close | R_illegal_close | R_tag_close | R_net_close | R_unclosed
  | R_md_close | R_comment_close | R_ds_end => INITIAL
  | _ => sc
  end.

(** What is left to scan, weighted: only a scan in CDATA may consume nothing,
    and then it leaves CDATA. *)
Definition weight (sc : start_cond) (input : list Z) : nat :=
  2 * length input + (if decide (sc = CDATA) then 1 else 0).

Lemma lang_lit_length k w : lang (PLit k) w -> length w = length k.
Proof.
  revert w. induction k as [|c k IH]; intros w; cbn.
  - by intros ->%lang_eps.
  - intros (x & y & -> & (d & -> & _)%lang_set & Hy)%lang_seq. cbn. by rewrite (IH y).
Qed.

Lemma next_rule_progress sc c s : exists r n, next_rule sc (c :: s) = Some (r, n)
  /\ active sc r = true /\ (n <= length (c :: s))%nat /\ (r = R_cdata_data \/ (0 < n)%nat).
Proof.
  rewrite next_rule_unfold. destruct (last_rules sc c s) as (r0 & Hr0 & Ha0 & Hm0).
  destruct (rule_here sc r0 Hr0 Ha0) as [i0 Hi0].
  pose proof (scan_chosen (flex_rule <$> rules_of sc) false (c :: s)) as H.
  assert (Hi0' : (flex_rule <$> rules_of sc) !! i0 = Some (flex_rule r0)) by (by rewrite list_lookup_fmap, Hi0).
  destruct (Flex.scan _ false (c :: s)) as [[i n]|].
  - destruct H as [(x & Hi & Hx) Hall]. rewrite list_lookup_fmap in Hi. apply fmap_Some in Hi as (r & Hi & ->).
    destruct (Hall i0 _ 1%nat Hi0') as [Hn _]; [by apply rule_matched_iff|].
    apply rule_matched_iff in Hx. destruct Hx as [Hlen Hl]. exists r, (n - trailing r)%nat.
    rewrite Hi. cbn [mbind option_bind]. split_and!; [done|by eapply rules_active|lia|].
    destruct (decide (trailing r = 0%nat)) as [->|Ht]; [right; lia|left; by destruct r].
  - exfalso. apply (H i0 _ 1%nat Hi0'). by apply rule_matched_iff.
Qed.

Lemma next_rule_lighter sc c s r n : next_rule sc (c :: s) = Some (r, n) ->
  (weight (next_cond r sc (take n (c :: s))) (drop n (c :: s)) < weight sc (c :: s))%nat.
Proof.
  intros Hr. destruct (next_rule_progress sc c s) as (r' & n' & Hr' & Ha & Hn & Hpos). rewrite Hr in Hr'. simplify_eq.
  unfold weight. rewrite length_drop. destruct Hpos as [->|Hpos].
  - cbn in Ha. apply bool_decide_eq_true in Ha as ->. rewrite decide_False by done. rewrite decide_True by done. lia.
  - repeat case_decide; lia.
Qed.

(** ** The steps of a scan *)
Record step := mk_step { st_rule : html_rule; st_cond : start_cond; st_text : list Z }.

(** The steps flex makes from a start condition on an input. *)
Inductive scans : start_cond -> list Z -> list step -> Prop :=
| scans_end sc : scans sc [] []
| scans_step sc c s r n steps : next_rule sc (c :: s) = Some (r, n) ->
    scans (next_cond r sc (take n (c :: s))) (drop n (c :: s)) steps ->
    scans sc (c :: s) (mk_step r sc (take n (c :: s)) :: steps).

Lemma scans_text sc input steps : scans sc input steps -> concat (st_text <$> steps) = input.
Proof. induction 1 as [|sc c s r n steps _ _ IH]; [done|]. cbn [fmap list_fmap concat st_text]. by rewrite IH, take_drop. Qed.

Lemma scans_total input : forall sc, exists steps, scans sc input steps.
Proof.
  intros sc. remember (weight sc input) as k eqn:Hk. revert sc input Hk.
  induction (lt_wf k) as [k _ IH]. intros sc [|c s] ->; [eexists; constructor|].
  destruct (next_rule_progress sc c s) as (r & n & Hr & _).
  destruct (IH _ (next_rule_lighter sc c s r n Hr) _ _ eq_refl) as [steps Hs]. eexists. by econstructor.
Qed.

(** ** yylex runs the steps *)
Section Run.
Context {BR : BoostRegex} {ICU : Icu} (NDEBUG : bool) (max_size : Z).

Local Open Scope res_scope.

(** The condition an action asks for depends on the text only. *)
Lemma action_cond r sc t l sc' l' : action NDEBUG max_size r sc t l = val (sc', l') -> sc' = next_cond r sc t.
Proof.
  unfold action, rbind, val. destruct r; cbn [next_cond]; intros H;
    repeat (case_match; try discriminate); by simplify_eq.
Qed.

Fixpoint run_steps (steps : list step) (l : HTML_lexer) : res HTML_lexer :=
  match steps with
  | [] => val l
  | x :: r =>
      y <~ action NDEBUG max_size (st_rule x) (st_cond x) (st_text x) l ;;
      run_steps r y.2
  end.

Lemma yylex_runs sc input steps : scans sc input steps -> forall fuel l, (weight sc input < fuel)%nat ->
  yylex_from NDEBUG max_size fuel sc input l = (l <~ run_steps steps l ;; val (0, finalize l)).
Proof.
  induction 1 as [sc|sc c s r n steps Hr _ IH]; intros [|fuel] l Hf; [lia|done|lia|].
  cbn [yylex_from run_steps st_rule st_cond st_text]. rewrite Hr.
  pose proof (next_rule_lighter sc c s r n Hr) as Hw.
  destruct (action _ _ r sc _ l) as [[[sc' l']|e]|] eqn:Ha; cbn [rbind]; [|done|done].
  apply action_cond in Ha as Hsc. subst sc'. cbn [snd]. apply IH. lia.
Qed.
End Run.

(** ** Which rule is taken *)

(** The derivative by a text. *)
Fixpoint derivs (pre : list Z) (r : pat) : pat :=
  match pre with [] => r | c :: pre => derivs pre (deriv c r) end.

Lemma derivs_lang pre : forall r w, lang (derivs pre r) w <-> lang r (pre ++ w).
Proof. induction pre as [|c pre IH]; intros r w; cbn; [done|]. by rewrite IH, deriv_lang. Qed.

(** A pattern that dies on [pre] matches less than [pre]. *)
Lemma void_short pre r s m : void (derivs pre r) = true -> matched r m (pre ++ s) -> (m < length pre)%nat.
Proof.
  intros Hv [Hm Hl]. destruct (decide (m < length pre)%nat); [done|exfalso].
  rewrite take_app_ge in Hl by lia. apply derivs_lang in Hl. by apply (void_lang _ Hv) in Hl.
Qed.

(** The length of the longest text of a pattern without repetition. *)
Fixpoint maxlen (r : pat) : option nat :=
  match r with
  | PNone | PEps => Some 0%nat
  | PSet _ => Some 1%nat
  | PSeq a b => x ← maxlen a; y ← maxlen b; Some (x + y)%nat
  | PAlt a b => x ← maxlen a; y ← maxlen b; Some (x `max` y)%nat
  | PStar _ => None
  end.

Lemma maxlen_lang r w : lang r w -> forall k, maxlen r = Some k -> (length w <= k)%nat.
Proof.
  induction 1 as [|p c _|a b s t _ IHs _ IHt|a b s _ IHs|a b s _ IHs|a|a s t]; intros k Hk; cbn in Hk; simplify_option_eq; try done.
  - rewrite length_app. specialize (IHs _ eq_refl). specialize (IHt _ eq_refl). lia.
  - specialize (IHs _ eq_refl). lia.
  - specialize (IHs _ eq_refl). lia.
Qed.

(** A rule whose matches have less than [k] characters on an input that starts
    with [pre], or no more than [pre] and a constant. *)
Definition loses (pre : list Z) (k : nat) (r : html_rule) : bool :=
  void (derivs pre (pattern r)) || match maxlen (pattern r) with Some j => (j <=? k)%nat | None => false end.

Lemma loses_short pre k r s m : loses pre k r = true -> (length pre <= S k)%nat ->
  matched (pattern r) m (pre ++ s) -> (m <= k)%nat.
Proof.
  unfold loses. intros [Hv|Hm]%orb_true_iff Hk Hmt.
  - apply (void_short _ _ _ _ Hv) in Hmt. lia.
  - destruct (maxlen (pattern r)) as [j|] eqn:E; [|done]. apply Nat.leb_le in Hm.
    destruct Hmt as [Hlen Hl]. pose proof (maxlen_lang _ _ Hl _ E) as H. rewrite length_take in H. lia.
Qed.

(** The rule [r] is taken when it matches [n] characters and not more, the
    rules before it match less and those behind it not more. *)
Lemma next_rule_takes sc before r after input n :
  rules_of sc = before ++ r :: after ->
  matched (pattern r) n input ->
  (forall m, matched (pattern r) m input -> (m <= n)%nat) ->
  Forall (fun x => forall m, matched (pattern x) m input -> (m < n)%nat) before ->
  Forall (fun x => forall m, matched (pattern x) m input -> (m <= n)%nat) after ->
  next_rule sc input = Some (r, n - trailing r)%nat.
Proof.
  intros Hrs Hm Hmax Hb Ha. rewrite next_rule_unfold, Hrs.
  assert (Flex.scan (flex_rule <$> before ++ r :: after) false input = Some (length before, n)) as ->.
  { apply scan_iff. split.
    - exists (flex_rule r). split; [|by apply rule_matched_iff]. by rewrite list_lookup_fmap, list_lookup_middle.
    - intros j x m Hj Hx. rewrite list_lookup_fmap in Hj. apply fmap_Some in Hj as (y & Hj & ->).
      apply rule_matched_iff in Hx. destruct (decide (j < length before)%nat) as [Hlt|Hge].
      + rewrite lookup_app_l in Hj by done. rewrite Forall_lookup in Hb. specialize (Hb _ _ Hj _ Hx). lia.
      + rewrite lookup_app_r in Hj by lia. split; [|lia]. destruct (j - length before)%nat as [|i]; cbn in Hj.
        * simplify_eq. by apply Hmax.
        * rewrite Forall_lookup in Ha. by apply (Ha _ _ Hj). }
  by rewrite list_lookup_middle.
Qed.
