(* ===== verification/HtmlMarkup.v ===== *)
(** * The HTML scanner on tags and text

    Which rule is taken, and how far it reaches, on the parts of a page that is
    written in the usual way: text, start tags with quoted attributes, end
    tags. *)
From S2P Require Import Prelude Regex Utils Path Url UrlWf Robots RobotsLex Iostream Entity Flex Html HtmlLex HtmlScan.

(** Lengths of texts that are put together. *)
Ltac len_lia := repeat progress (rewrite ?length_app in *; cbn [length app] in *); lia.

(** ** Runs of characters *)

(** The text does not go on with a character of [p]. *)
Definition stops (p : Z -> bool) (s : list Z) : Prop := match s with [] => True | c :: _ => p c = false end.

Lemma stops_lookup p a s c : stops p s -> (a ++ s) !! length a = Some c -> p c = false.
Proof. rewrite list_lookup_middle_app || rewrite lookup_app_r by lia. rewrite Nat.sub_diag. destruct s; cbn; [done|]. intros ? [= <-]. done. Qed.

Lemma run_bound p q x y a b s m : Forall (fun c => p c = true) x -> Forall (fun c => q c = true) y ->
  stops p (b ++ s) -> stops q s -> take m (a ++ b ++ s) = x ++ y -> (length (x ++ y) <= length a + length b)%nat.
Proof.
  intros Hx Hy Hp Hq Heq. destruct (decide (length (x ++ y) <= length a + length b)%nat); [done|exfalso].
  assert (Hpre : forall i c, (x ++ y) !! i = Some c -> (a ++ b ++ s) !! i = Some c).
  { intros i c. rewrite <-Heq. intros H%lookup_take_Some. apply H. }
  destruct (lookup_lt_is_Some_2 (x ++ y) (length (a ++ b))) as [c Hc]; [rewrite length_app; lia|].
  assert (q c = false) as Hqc.
  { apply (stops_lookup q (a ++ b) s c Hq). rewrite <-(assoc_L (++)). by apply Hpre. }
  rewrite length_app in Hc. destruct (decide (length a + length b < length x)%nat) as [Hlt|Hge].
  - destruct (lookup_lt_is_Some_2 (x ++ y) (length a)) as [d Hd]; [rewrite length_app in *; lia|].
    assert (p d = false) as Hpd by (apply (stops_lookup p a (b ++ s) d Hp); by apply Hpre).
    rewrite lookup_app_l in Hd by lia. rewrite Forall_lookup in Hx. rewrite (Hx _ _ Hd) in Hpd. done.
  - rewrite lookup_app_r in Hc by lia. rewrite Forall_lookup in Hy. rewrite (Hy _ _ Hc) in Hqc. done.
Qed.

Lemma lang_plus_set p w : lang (PPlus (PSet p)) w -> Forall (fun c => p c = true) w.
Proof. unfold PPlus. intros (x & y & -> & (c & -> & Hc)%lang_set & Hy%lang_star_set)%lang_seq. by constructor. Qed.

Lemma lang_plus_set_2 p c w : p c = true -> Forall (fun c => p c = true) w -> lang (PPlus (PSet p)) (c :: w).
Proof. intros Hc Hw. apply (L_seq _ _ [c] w); [by constructor|by apply lang_star_set]. Qed.

Lemma name_start_char c : is_name_start c = true -> is_name_char c = true.
Proof. unfold is_name_char. by intros ->. Qed.

Lemma lang_name w : lang name w -> Forall (fun c => is_name_char c = true) w.
Proof.
  intros (x & y & -> & (c & -> & Hc)%lang_set & Hy%lang_star_set)%lang_seq. constructor; [by apply name_start_char|done].
Qed.

Lemma lang_ws w : lang ws w <-> Forall (fun c => is_s c = true) w.
Proof. apply lang_star_set. Qed.

Lemma lang_chr c w : lang (PChr c) w <-> w = [c].
Proof. unfold PChr. rewrite lang_set. split; [intros (d & -> & <-%Z.eqb_eq); done|intros ->; eexists; by rewrite Z.eqb_refl]. Qed.

(** ** Names as they are usually written *)
Definition plain_char (c : Z) : bool := is_lower c || is_digit c || (c =? 45).

Definition plain_name (n : list Z) : bool :=
  match n with c :: r => is_lower c && forallb plain_char r | [] => false end.

(** A check of every octet up to [n]. *)
Lemma check_octets n (f : Z -> bool) c : forallb f (seqZ 0 n) = true -> 0 <= c < n -> f c = true.
Proof. intros Hf Hc. apply (proj1 (forallb_forall _ _) Hf). apply list_elem_of_In, elem_of_seqZ. lia. Qed.

Lemma plain_char_range c : plain_char c = true -> 0 <= c < 128.
Proof.
  unfold plain_char, is_lower, is_digit, in_range. intros [[H|H]%orb_prop|H]%orb_prop; bool_hyps; lia.
Qed.

Lemma plain_char_facts c : plain_char c = true ->
  is_name_char c = true /\ c <> 61 /\ c <> 38 /\ is_blank c = false /\ is_space c = false /\ tolower c = c.
Proof.
  intros H. pose proof (check_octets 128 (fun c => negb (plain_char c) || (is_name_char c && negb (c =? 61) && negb (c =? 38)
    && negb (is_blank c) && negb (is_space c) && (tolower c =? c))) c eq_refl (plain_char_range c H)) as Hc.
  cbn beta in Hc. rewrite H in Hc. cbn [negb orb] in Hc. bool_hyps. done.
Qed.

Lemma plain_name_cons n : plain_name n = true -> exists c r, n = c :: r /\ is_lower c = true /\ Forall (fun c => plain_char c = true) n.
Proof.
  destruct n as [|c r]; [done|]. cbn. intros [Hc Hr]%andb_prop. exists c, r. split_and!; [done|done|]. constructor.
  - unfold plain_char. by rewrite Hc.
  - by apply Forall_forall; intros x Hx%list_elem_of_In; apply (proj1 (forallb_forall _ _) Hr).
Qed.

Lemma plain_name_lang n : plain_name n = true -> lang name n.
Proof.
  intros (c & r & -> & Hc & [_ Hr]%Forall_cons_1)%plain_name_cons. apply (L_seq _ _ [c] r).
  - constructor. unfold is_name_start, is_alpha. rewrite Hc. by rewrite orb_true_r.
  - apply lang_star_set. eapply Forall_impl; [exact Hr|]. cbn. intros x Hx. by apply plain_char_facts.
Qed.

Lemma lower_check (f : Z -> bool) c : forallb f (seqZ 97 26) = true -> is_lower c = true -> f c = true.
Proof.
  intros Hf Hc. apply (proj1 (forallb_forall _ _) Hf). apply list_elem_of_In, elem_of_seqZ.
  unfold is_lower, in_range in Hc. bool_hyps. lia.
Qed.

(** ** The choice when all other rules lose *)
Lemma losers pre k rs s n : forallb (loses pre k) rs = true -> (length pre <= S k)%nat -> (k <= n)%nat ->
  Forall (fun x => forall m, matched (pattern x) m (pre ++ s) -> (m <= n)%nat) rs.
Proof.
  intros Hl Hk Hn. apply Forall_forall. intros x Hx%list_elem_of_In m Hm.
  apply (loses_short pre k x s m) in Hm; [lia| |done]. by apply (proj1 (forallb_forall _ _) Hl).
Qed.

Lemma next_rule_wins sc i r pre k s n :
  rules_of sc !! i = Some r ->
  forallb (loses pre k) (take i (rules_of sc)) && forallb (loses pre (S k)) (drop (S i) (rules_of sc)) = true ->
  (length pre <= S k)%nat -> (k < n)%nat ->
  matched (pattern r) n (pre ++ s) -> (forall m, matched (pattern r) m (pre ++ s) -> (m <= n)%nat) ->
  next_rule sc (pre ++ s) = Some (r, n - trailing r)%nat.
Proof.
  intros Hr [Hb Ha]%andb_prop Hpre Hk Hm Hmax.
  apply (next_rule_takes sc (take i (rules_of sc)) r (drop (S i) (rules_of sc))); [|done|done| |].
  - symmetry. by apply take_drop_middle.
  - eapply Forall_impl; [by apply (losers pre k _ s k Hb)|]. cbn. intros x Hx m Hxm. specialize (Hx m Hxm). lia.
  - apply (losers pre (S k) _ s n Ha); lia.
Qed.

(** ** Tags *)

(** "<name" with white space behind it. *)
Lemma scan_start_tag n u s : plain_name n = true -> Forall (fun c => is_s c = true) u ->
  stops is_name_char (u ++ s) -> stops is_s s ->
  next_rule INITIAL (60 :: n ++ u ++ s) = Some (R_start_tag, length (60 :: n ++ u)).
Proof.
  intros Hn Hu Hp Hq. destruct (plain_name_cons n Hn) as (c & r & -> & Hc & _).
  rewrite <-(Nat.sub_0_r (length _)). change (60 :: (c :: r) ++ u ++ s) with ([60; c] ++ (r ++ u ++ s)).
  apply (next_rule_wins INITIAL 8 R_start_tag [60; c] 1); [done| |cbn; lia|cbn; lia| |].
  - by apply (lower_check (fun c => forallb (loses [60; c] 1) (take 8 (rules_of INITIAL)) && forallb (loses [60; c] 2) (drop 9 (rules_of INITIAL)))).
  - split; [cbn; rewrite !length_app; lia|].
    replace ([60; c] ++ r ++ u ++ s) with ((60 :: (c :: r) ++ u) ++ s) by (cbn; by rewrite <-(assoc_L (++))).
    rewrite take_app_length. apply (L_seq _ _ [60]); [apply lang_lit|]. constructor; [by apply plain_name_lang|by apply lang_ws].
  - intros m [Hm (x & w & Hw & Hx & (y & z & -> & Hy%lang_name & Hz%lang_ws)%lang_seq)%lang_seq].
    apply lang_lit_length in Hx. destruct x as [|d [|]]; try done. destruct m as [|m]; [done|]. cbn in Hw. injection Hw as <- Hw.
    pose proof (run_bound is_name_char is_s y z (c :: r) u s m Hy Hz Hp Hq Hw) as Hb.
    rewrite <-Hw, length_take in Hb. cbn in *. rewrite !length_app in *. lia.
Qed.

(** "</name" *)
Lemma scan_end_tag n s : plain_name n = true -> stops is_name_char s -> stops is_s s ->
  next_rule INITIAL (60 :: 47 :: n ++ s) = Some (R_end_tag, length (60 :: 47 :: n)).
Proof.
  intros Hn Hp Hq. destruct (plain_name_cons n Hn) as (c & r & -> & Hc & _).
  rewrite <-(Nat.sub_0_r (length _)). change (60 :: 47 :: (c :: r) ++ s) with ([60; 47; c] ++ (r ++ s)).
  apply (next_rule_wins INITIAL 0 R_end_tag [60; 47; c] 2); [done| |cbn; lia|cbn; lia| |].
  - by apply (lower_check (fun c => forallb (loses [60; 47; c] 2) (take 0 (rules_of INITIAL)) && forallb (loses [60; 47; c] 3) (drop 1 (rules_of INITIAL)))).
  - split; [cbn; rewrite !length_app; lia|].
    change ([60; 47; c] ++ r ++ s) with ((60 :: 47 :: c :: r) ++ s). rewrite take_app_length.
    apply (L_seq _ _ [60; 47]); [apply lang_lit|]. rewrite <-(app_nil_r (c :: r)). constructor; [by apply plain_name_lang|constructor].
  - intros m [Hm (x & w & Hw & Hx & (y & z & -> & Hy%lang_name & Hz%lang_ws)%lang_seq)%lang_seq].
    apply lang_lit_length in Hx. destruct x as [|d [|e [|]]]; try done. destruct m as [|[|m]]; [done..|]. cbn in Hw. injection Hw as <- <- Hw.
    pose proof (run_bound is_name_char is_s y z (c :: r) [] s m Hy Hz Hp Hq Hw) as Hb.
    rewrite <-Hw, length_take in Hb. cbn in *. rewrite !length_app in *. lia.
Qed.

(** ">" ends a start tag and an end tag. *)
Lemma scan_tag_close sc s : sc = ATTR \/ sc = TAG -> next_rule sc (62 :: s) = Some (R_tag_close, 1%nat).
Proof.
  intros Hsc. change (62 :: s) with ([62] ++ s). assert (Hone : lang TAGC [62]) by exact (lang_lit [62]).
  assert (Hmax : forall m, matched TAGC m (62 :: s) -> (m <= 1)%nat).
  { intros m [Hm Hl%lang_lit_length]. rewrite length_take in Hl. cbn in *. lia. }
  destruct Hsc as [-> | ->]; [apply (next_rule_wins ATTR 2 R_tag_close [62] 0 s 1)|apply (next_rule_wins TAG 0 R_tag_close [62] 0 s 1)];
    try done; try (cbn; lia); (split; [cbn; lia|done]).
Qed.

(** ** Attributes *)

(** "name=" in front of a quote. *)
Lemma scan_attr_name a s : plain_name a = true -> stops is_s s ->
  next_rule ATTR (a ++ 61 :: s) = Some (R_attr_name, length (a ++ [61])).
Proof.
  intros Ha Hs. destruct (plain_name_cons a Ha) as (c & r & Heq & Hc & Hp).
  assert (Hno : 61 ∉ a).
  { intros Hin. rewrite Forall_forall in Hp. by specialize (Hp _ Hin). }
  assert (Hstop : stops is_name_char (61 :: s)) by done. assert (Hstop' : stops is_s (61 :: s)) by done.
  rewrite <-(Nat.sub_0_r (length _)).
  apply (next_rule_takes ATTR [] R_attr_name (drop 1 (rules_of ATTR))); [done| | |constructor|].
  - split; [rewrite !length_app; cbn; lia|].
    replace (a ++ 61 :: s) with ((a ++ [61]) ++ s) by (by rewrite <-(assoc_L (++))). rewrite take_app_length.
    apply (L_seq _ _ a [61]); [by apply plain_name_lang|]. apply (L_seq _ _ [] [61]); [constructor|].
    apply (L_seq _ _ [61] []); [by apply lang_chr|constructor].
  - intros m [Hm (x & w & Hw & Hx%lang_name & (y & w2 & -> & Hy%lang_star_set & (e & z & -> & ->%lang_chr & Hz%lang_ws)%lang_seq)%lang_seq)%lang_seq].
    assert (Hxy : 61 ∉ x ++ y).
    { rewrite elem_of_app. intros [H|H]; [rewrite Forall_forall in Hx; by specialize (Hx _ H)|rewrite Forall_forall in Hy; by specialize (Hy _ H)]. }
    pose proof (take_drop m (a ++ 61 :: s)) as Htd. rewrite Hw, <-!(assoc_L (++)) in Htd. cbn in Htd. rewrite (assoc_L (++)) in Htd.
    apply not_elem_of_app_cons_inv_l in Htd as (Hxa & _ & Hz0); [|done..].
    destruct z as [|d z].
    + apply (f_equal length) in Hw, Hxa. rewrite length_take in Hw. len_lia.
    + rewrite <-Hz0 in Hs. cbn [stops app] in Hs. apply Forall_cons_1 in Hz as [Hd _]. congruence.
  - assert (rules_of ATTR = R_attr_name :: R_name :: drop 2 (rules_of ATTR)) as Hrs by reflexivity.
    rewrite Hrs. cbn [drop]. constructor.
    + intros m [Hm (x & w & Hw & Hx%lang_name & Hy%lang_ws)%lang_seq].
      pose proof (run_bound is_name_char is_s x w a [] (61 :: s) m Hx Hy Hstop Hstop' Hw) as Hb.
      rewrite <-Hw, length_take in Hb. len_lia.
    + rewrite Heq. change ((c :: r) ++ 61 :: s) with ([c] ++ (r ++ 61 :: s)).
      apply (losers [c] 1); [|cbn; lia|cbn; rewrite length_app; cbn; lia].
      by apply (lower_check (fun c => forallb (loses [c] 1) (drop 2 (rules_of ATTR)))).
Qed.

(** A quoted value, with white space behind it. *)
Lemma scan_literal v u s : 34 ∉ v -> Forall (fun c => is_s c = true) u -> stops is_s s ->
  next_rule ATTRVAL (34 :: v ++ 34 :: u ++ s) = Some (R_literal, length (34 :: v ++ 34 :: u)).
Proof.
  intros Hv Hu Hs. rewrite <-(Nat.sub_0_r (length _)). change (34 :: v ++ 34 :: u ++ s) with ([34] ++ (v ++ 34 :: u ++ s)).
  apply (next_rule_wins ATTRVAL 1 R_literal [34] 1); [done|done|cbn; lia|cbn; rewrite length_app; cbn; lia| |].
  - split; [cbn; rewrite !length_app; cbn; rewrite length_app; lia|].
    replace ([34] ++ v ++ 34 :: u ++ s) with (((34 :: v ++ [34]) ++ u) ++ s) by (cbn; by rewrite <-!(assoc_L (++))).
    replace (34 :: v ++ 34 :: u) with ((34 :: v ++ [34]) ++ u) by (cbn; by rewrite <-!(assoc_L (++))).
    rewrite take_app_length. constructor; [|by apply lang_ws]. apply L_left.
    apply (L_seq _ _ [34]); [by apply lang_chr|]. constructor; [|by apply lang_chr]. apply lang_star_set, Forall_forall.
    intros x Hx. unfold none_of. cbn. rewrite orb_false_r. apply negb_true_iff, Z.eqb_neq. intros ->. done.
  - intros m [Hm (x & z & Hw & Hx & Hz%lang_ws)%lang_seq].
    assert (exists v', x = 34 :: v' ++ [34] /\ 34 ∉ v') as (v' & -> & Hv').
    { apply lang_alt in Hx as [Hx|Hx].
      - apply lang_seq in Hx as (q & x2 & -> & ->%lang_chr & (v' & q & -> & Hv'%lang_star_set & ->%lang_chr)%lang_seq).
        exists v'. split; [done|]. intros Hin. rewrite Forall_forall in Hv'. by specialize (Hv' _ Hin).
      - exfalso. apply lang_seq in Hx as (q & x2 & -> & ->%lang_chr & _). destruct m; cbn in Hw; [done|]. by injection Hw. }
    pose proof (take_drop m ([34] ++ v ++ 34 :: u ++ s)) as Htd. rewrite Hw in Htd. cbn in Htd. injection Htd as Htd.
    rewrite <-!(assoc_L (++)) in Htd. cbn in Htd. apply not_elem_of_app_cons_inv_l in Htd as (-> & _ & Hus); [|done..].
    assert (length z <= length u)%nat as Hlen.
    { pose proof (run_bound (fun _ => false) is_s [] z [] u s (length z)) as Hb. cbn in Hb. apply Hb; try done.
      - destruct (u ++ s); done.
      - rewrite <-Hus. by rewrite take_app_length. }
    apply (f_equal length) in Hw. rewrite length_take in Hw. len_lia.
Qed.

(** ** Text *)

(** The end of the input or the next tag. *)
Definition at_tag (s : list Z) : Prop := s = [] \/ exists s', s = 60 :: s'.

(** A match without "<" stays in the text. *)
Lemma text_bound t s r m : at_tag s -> avoids 60 r = true -> matched r m (t ++ s) -> (m <= length t)%nat.
Proof.
  intros Hs Hr [Hm Hl]. destruct Hs as [->|[s' ->]]; [len_lia|]. apply (avoids_lang 60) in Hl; [|done].
  destruct (decide (m <= length t)%nat); [done|exfalso]. apply Hl. apply (list_elem_of_lookup_2 _ (length t)).
  rewrite lookup_take_lt by lia. by apply list_lookup_middle.
Qed.

Lemma lang_msc w : lang (pattern R_marked_end) w -> w = str "]]>".
Proof.
  assert (Hone : forall c d, (tolower c =? tolower d) = true -> d = 93 \/ d = 62 -> c = d).
  { intros c d Hc%Z.eqb_eq Hd. unfold tolower, is_upper, in_range in Hc.
    destruct Hd as [-> | ->]; cbn in Hc; destruct ((65 <=? c) && (c <=? 90)) eqn:E; bool_hyps; lia. }
  intros (x & y & -> & (a & x2 & -> & (c1 & -> & H1)%lang_set & (b & e & -> & (c2 & -> & H2)%lang_set & ->%lang_eps)%lang_seq)%lang_seq
    & (d & e2 & -> & (c3 & -> & H3)%lang_set & ->%lang_eps)%lang_seq)%lang_seq.
  apply Hone in H1 as ->; [|by left]. apply Hone in H2 as ->; [|by left]. apply Hone in H3 as ->; [|by right]. done.
Qed.

Lemma scan_data t s : t <> [] -> bytes_ok t -> 60 ∉ t -> t <> str "]]>" -> at_tag s ->
  next_rule INITIAL (t ++ s) = Some (R_data, length t).
Proof.
  intros Hne Hb Ht Hm Hs. destruct t as [|c t0] eqn:Et; [done|]. rewrite <-Et in *.
  assert (Hc : byte_ok c /\ c <> 60).
  { rewrite Et in Hb, Ht. split; [by apply Forall_cons_1 in Hb as [? _]|]. intros ->. apply Ht. left. }
  assert (Hdata : forall m, matched (pattern R_data) m (t ++ s) -> (m <= length t)%nat).
  { intros m [Hl [Hx|Hx]%lang_alt]; [by apply (text_bound t s (PStar (PSet (none_of [60]))))|].
    apply lang_set in Hx as (d & Hd & _). apply (f_equal length) in Hd. rewrite length_take in Hd. rewrite Et. len_lia. }
  rewrite <-(Nat.sub_0_r (length t)).
  apply (next_rule_takes INITIAL (take 11 (rules_of INITIAL)) R_data [R_newlines; R_any]); [done| |done| |].
  - split; [len_lia|]. rewrite take_app_length. apply L_left, lang_star_set, Forall_forall. intros x Hx.
    unfold none_of. cbn. rewrite orb_false_r. apply negb_true_iff, Z.eqb_neq. intros ->. done.
  - assert (Hl : forallb (fun x => loses [c] 0 x || bool_decide (x = R_marked_end)) (take 11 (rules_of INITIAL)) = true).
    { pose proof (check_octets 256 (fun c => (c =? 60) || forallb (fun x => loses [c] 0 x || bool_decide (x = R_marked_end)) (take 11 (rules_of INITIAL))) c eq_refl) as Hf.
      cbn beta in Hf. specialize (Hf (proj1 Hc)). by rewrite (proj2 (Z.eqb_neq _ _) (proj2 Hc)) in Hf. }
    apply Forall_forall. intros x Hx%list_elem_of_In m Hmt. pose proof (proj1 (forallb_forall _ _) Hl x Hx) as [Hlx|Hx']%orb_prop.
    + rewrite Et in Hmt. change ((c :: t0) ++ s) with ([c] ++ (t0 ++ s)) in Hmt. apply (loses_short [c] 0) in Hmt; [|done|done]. rewrite Et. cbn. lia.
    + apply bool_decide_eq_true in Hx' as ->. pose proof (text_bound t s (pattern R_marked_end) m Hs eq_refl Hmt) as Hb2.
      assert (m <> length t); [|lia]. intros ->. destruct Hmt as [_ Hl2]. rewrite take_app_length in Hl2. by apply lang_msc in Hl2.
  - repeat constructor; intros m Hmt.
    + by apply (text_bound t s (pattern R_newlines) m Hs eq_refl Hmt).
    + destruct Hmt as [Hlen (d & Hd & _)%lang_set]. apply (f_equal length) in Hd. rewrite length_take in Hd. rewrite Et. len_lia.
Qed.
