(* ===== verification/HtmlClaims.v ===== *)
(** * The HTML lexer: what it reads

    The scan covers every input; a page written from events is read back as
    those events; the text and the links of a page. *)
From S2P Require Import Prelude Regex Utils Path Url UrlWf Robots RobotsLex Iostream Entity Flex Html HtmlLex HtmlScan HtmlMarkup.

Local Open Scope res_scope.

(** ** Strings *)
Lemma strip_right_app p a u : Forall (fun c => p c = true) u -> (forall c, last a = Some c -> p c = false) ->
  strip_right p (a ++ u) = a.
Proof.
  intros Hu Ha. unfold strip_right. rewrite reverse_app.
  assert (Forall (fun c => p c = true) (reverse u)) as Hr by (by apply Forall_reverse).
  rewrite span_exact; [|done|].
  - cbn [snd]. apply reverse_involutive.
  - destruct a as [|c a _] using rev_ind; [done|]. rewrite reverse_snoc. cbn. apply Ha. apply last_snoc.
Qed.

Lemma plain_text s : Forall (fun c => plain_char c = true) s -> (38 ∉ s) /\ to_lower s = s.
Proof.
  intros Hs. split.
  - intros Hin. rewrite Forall_forall in Hs. by specialize (Hs _ Hin).
  - induction Hs as [|c s Hc _ IH]; [done|]. unfold to_lower in *. cbn [fmap list_fmap]. rewrite IH. f_equal. by apply plain_char_facts.
Qed.

Lemma plain_last p n : plain_name n = true -> (forall c, plain_char c = true -> p c = false) -> forall c, last n = Some c -> p c = false.
Proof.
  intros (d & r & _ & _ & Hn)%plain_name_cons Hp c Hc. apply Hp. rewrite Forall_forall in Hn. apply Hn.
  destruct n as [|x n _] using rev_ind; [done|]. rewrite last_snoc in Hc. simplify_eq. apply elem_of_app. right. left.
Qed.

(** A text without "&" has no references. *)
Section NoReferences.
Context {BR : BoostRegex} {ICU : Icu}.

Lemma no_references m s : 38 ∉ s -> replace_all_entities m s = Some s.
Proof.
  intros Hs. assert (Hf : Forall (fun c => c <> 38) s) by (apply Forall_forall; intros c Hc ->; done).
  assert (Hskip : forall pre first more f, replace_refs (ref_at (38 :: pre) first more) f s = Some s).
  { intros. pose proof (replace_skip pre first more f s [] Hf) as H. rewrite app_nil_r in H. rewrite H. unfold replace_refs. cbn [Entity.scan length]. unfold ref_at. rewrite bool_decide_false by (by intros [? ?]). cbn. by rewrite app_nil_r. }
  unfold replace_all_entities. rewrite replace_char_scan, (Hskip [] name_first name_more _ : replace_refs char_ref _ s = _).
  cbn [mbind option_bind]. rewrite replace_dec_scan, (Hskip [35] is_digit is_digit _ : replace_refs dec_ref _ s = _).
  cbn [mbind option_bind]. rewrite replace_hex_scan. apply (Hskip [35; 120]).
Qed.
End NoReferences.

Lemma unquote_literal v u : Forall (fun c => is_s c = true) u -> 9 ∉ u -> unquote (34 :: v ++ 34 :: u) = v.
Proof.
  intros Hu Htab. unfold unquote. change (34 :: v ++ 34 :: u) with ((34 :: v) ++ [34] ++ u). rewrite (assoc_L (++)).
  rewrite strip_right_app.
  - rewrite last_snoc. cbn [is_quote]. replace (is_quote 34) with true by done. cbv iota.
    rewrite removelast_last. done.
  - apply Forall_forall. intros c Hc. rewrite Forall_forall in Hu. specialize (Hu c Hc). cbn in Hu. unfold is_s, is_blank, one_of in *. cbn in *.
    rewrite orb_false_r in *. destruct (c =? 9) eqn:E; [apply Z.eqb_eq in E as ->; done|]. rewrite orb_false_r in Hu.
    apply orb_prop in Hu as [->|Hu]; [done|]. apply orb_prop in Hu as [->| ->]; by rewrite ?orb_true_r.
  - intros c. rewrite last_snoc. by intros [= <-].
Qed.

(** ** Fuel *)
Section Lex.
Context {BR : BoostRegex} {ICU : Icu} (NDEBUG : bool) (max_size : Z).
Abbreviation yylex_from := (yylex_from NDEBUG max_size).
Abbreviation yylex := (yylex NDEBUG max_size).
Abbreviation action := (action NDEBUG max_size).
Abbreviation process := (process NDEBUG max_size).

(** The scanner with enough fuel. *)
Definition lex (sc : start_cond) (input : list Z) (l : HTML_lexer) : res (Z * HTML_lexer) :=
  yylex_from (S (weight sc input)) sc input l.

Lemma lex_fuel fuel sc input l : (weight sc input < fuel)%nat -> yylex_from fuel sc input l = lex sc input l.
Proof.
  intros Hf. destruct (scans_total input sc) as [steps Hs]. unfold lex.
  rewrite (yylex_runs NDEBUG max_size sc input steps Hs fuel l Hf). by rewrite (yylex_runs NDEBUG max_size sc input steps Hs) by lia.
Qed.

Lemma yylex_lex input l : yylex input l = lex INITIAL input l.
Proof. apply lex_fuel. unfold weight. rewrite decide_False by done. lia. Qed.

Lemma lex_token sc r t s l : t <> [] -> next_rule sc (t ++ s) = Some (r, length t) ->
  lex sc (t ++ s) l = (x <~ action r sc t l ;; lex x.1 s x.2).
Proof.
  intros Ht Hr. destruct t as [|c t]; [done|]. cbn [app] in *.
  pose proof (next_rule_lighter sc c (t ++ s) r _ Hr) as Hw. change (c :: t ++ s) with ((c :: t) ++ s) in *.
  rewrite take_app_length, drop_app_length in Hw. unfold lex at 1. cbn [yylex_from app]. cbn [app] in Hr. rewrite Hr.
  change (c :: t ++ s) with ((c :: t) ++ s). rewrite take_app_length, drop_app_length.
  destruct (action r sc (c :: t) l) as [[[sc' l']|e]|] eqn:Ha; cbn [rbind]; [|done|done].
  apply action_cond in Ha. subst sc'. cbn [fst snd]. by apply lex_fuel.
Qed.

Lemma addtoken_plain k s (ci : bool) l : 38 ∉ s -> (ci = true -> to_lower s = s) ->
  addtoken k s ci l = val (set_tokens (tokens l ++ [mk_Token k s]) l).
Proof. intros Hs Hci. unfold addtoken. rewrite no_references by done. destruct ci; [by rewrite Hci|done]. Qed.

(** ** Pages written from events *)
Inductive event :=
| Data (t : list Z)
| Open (n : list Z) (attrs : list (list Z * list Z))
| Close (n : list Z).

(** A blank in front of the attributes. *)
Definition sep (attrs : list (list Z * list Z)) : list Z := match attrs with [] => [] | _ => [32] end.

Fixpoint render_attrs (attrs : list (list Z * list Z)) : list Z :=
  match attrs with
  | [] => []
  | (a, v) :: r => a ++ 61 :: 34 :: v ++ 34 :: sep r ++ render_attrs r
  end.

Definition render_event (e : event) : list Z :=
  match e with
  | Data t => t
  | Open n attrs => 60 :: n ++ sep attrs ++ render_attrs attrs ++ [62]
  | Close n => 60 :: 47 :: n ++ [62]
  end.

Definition attr_tokens (attrs : list (list Z * list Z)) : list Token :=
  concat ((fun p => [mk_Token SGML_ATTRNAME p.1; mk_Token SGML_LITERAL p.2]) <$> attrs).

Definition event_tokens (e : event) : list Token :=
  match e with
  | Data t => [mk_Token SGML_DATA t]
  | Open n attrs => mk_Token SGML_START n :: attr_tokens attrs ++ [mk_Token SGML_TAGC [62]]
  | Close n => [mk_Token SGML_END n; mk_Token SGML_TAGC [62]]
  end.

Definition attr_ok (p : list Z * list Z) : Prop := plain_name p.1 = true /\ (34 ∉ p.2) /\ (38 ∉ p.2).

Definition event_ok (e : event) : Prop :=
  match e with
  | Data t => t <> [] /\ bytes_ok t /\ (60 ∉ t) /\ (38 ∉ t) /\ t <> str "]]>"
  | Open n attrs => plain_name n = true /\ strncase_eq (length n) n (str "script") = false /\ Forall attr_ok attrs
  | Close n => plain_name n = true
  end.

Definition is_data (e : event) : bool := match e with Data _ => true | _ => false end.

(** Two texts are not next to each other. *)
Fixpoint separated (es : list event) : Prop :=
  match es with
  | e :: ((f :: _) as r) => (is_data e = true -> is_data f = false) /\ separated r
  | _ => True
  end.

Definition page_ok (es : list event) : Prop := Forall event_ok es /\ separated es.

Definition render (es : list event) : list Z := concat (render_event <$> es).

(** What the lexer does with an event: its tokens are processed. *)
Definition run_event (e : event) (l : HTML_lexer) : res HTML_lexer := process (set_tokens (event_tokens e) l).

Fixpoint run_events (es : list event) (l : HTML_lexer) : res HTML_lexer :=
  match es with [] => val l | e :: r => l <~ run_event e l ;; run_events r l end.

Lemma process_tokens l l' : process l = val l' -> tokens l' = [].
Proof.
  unfold Html.process. destruct (tokens l) as [|t ts] eqn:E; [by intros [= <-]|].
  intros H. unfold rbind in H. repeat (case_match; try discriminate); by simplify_eq.
Qed.

Lemma lex_data t s l : event_ok (Data t) -> at_tag s -> tokens l = [] ->
  lex INITIAL (t ++ s) l = (l <~ run_event (Data t) l ;; lex INITIAL s l).
Proof.
  intros (Hne & Hb & Hlt & Hamp & Hm) Hs Hl. rewrite (lex_token _ R_data) by (done || by apply scan_data).
  cbn [HtmlLex.action]. rewrite addtoken_plain by done. cbn [rbind val]. rewrite Hl. cbn [app].
  unfold run_event. cbn [event_tokens]. by destruct (process _) as [[?|?]|].
Qed.

Lemma addtoken_tagc l : addtoken SGML_TAGC [62] false l = val (set_tokens (tokens l ++ [mk_Token SGML_TAGC [62]]) l).
Proof. apply addtoken_plain; [by intros ?%list_elem_of_singleton|done]. Qed.

(** The attributes and the end of a start tag. *)
Lemma lex_attrs attrs s : Forall attr_ok attrs -> forall l,
  lex ATTR (render_attrs attrs ++ 62 :: s) l
  = (l <~ process (set_tokens (tokens l ++ attr_tokens attrs ++ [mk_Token SGML_TAGC [62]]) l) ;; lex INITIAL s l).
Proof.
  induction 1 as [|[a v] r (Ha & Hq & Hv) Hr IH]; intros l.
  - cbn [render_attrs app]. change (62 :: s) with ([62] ++ s). rewrite (lex_token ATTR R_tag_close [62]) by (done || apply scan_tag_close; auto).
    cbn [HtmlLex.action]. rewrite addtoken_tagc. cbn [rbind val attr_tokens concat fmap list_fmap app].
    by destruct (process _) as [[?|?]|].
  - cbn [fst snd] in *. destruct (plain_name_cons a Ha) as (c & a' & Hca & Hc & Hpa). destruct (plain_text a Hpa) as [Hamp Hlow].
    assert (Hhead : stops is_s (render_attrs r ++ 62 :: s)).
    { destruct Hr as [|[b w] r (Hb & _) _]; [done|]. destruct (plain_name_cons b Hb) as (d & b' & -> & Hd & _). cbn.
      by apply (lower_check (fun d => negb (is_s d)) d eq_refl) in Hd as Hd'%negb_true_iff. }
    replace (render_attrs ((a, v) :: r) ++ 62 :: s) with ((a ++ [61]) ++ (34 :: v ++ 34 :: sep r) ++ render_attrs r ++ 62 :: s)
      by (cbn [render_attrs]; repeat first [rewrite <-(assoc_L (++)) | progress cbn [app]]; done).
    rewrite (lex_token ATTR R_attr_name (a ++ [61])); [|by destruct a|].
    2: { rewrite <-(assoc_L (++)). cbn [app]. by apply scan_attr_name. }
    cbn [HtmlLex.action]. rewrite strip_right_app; [|by repeat constructor|].
    2: { apply (plain_last _ a Ha). intros x Hx. cbn. apply plain_char_facts in Hx as (_ & H1 & _ & _ & H2 & _). rewrite H2. by apply orb_false_iff; split; [apply Z.eqb_neq|]. }
    rewrite addtoken_plain by done. cbn [rbind val fst snd].
    rewrite (lex_token ATTRVAL R_literal); [|done|].
    2: { cbn [app]. rewrite <-(assoc_L (++)). cbn [app]. apply scan_literal; [done| |done]. by destruct r; repeat constructor. }
    cbn [HtmlLex.action]. rewrite unquote_literal; [|by destruct r; repeat constructor|destruct r; cbn; [by intros ?%elem_of_nil|by intros ?%list_elem_of_singleton]].
    rewrite addtoken_plain by done. cbn [rbind val fst snd]. rewrite IH. cbn [tokens set_tokens attr_tokens concat fmap list_fmap].
    by rewrite <-!(assoc_L (++)).
Qed.

Lemma lex_open n attrs s l : event_ok (Open n attrs) -> tokens l = [] ->
  lex INITIAL (render_event (Open n attrs) ++ s) l = (l <~ run_event (Open n attrs) l ;; lex INITIAL s l).
Proof.
  intros (Hn & Hsc & Ha) Hl. destruct (plain_name_cons n Hn) as (c & r & Hcn & Hc & Hp). destruct (plain_text n Hp) as [Hamp Hlow].
  cbn [render_event].
  replace ((60 :: n ++ sep attrs ++ render_attrs attrs ++ [62]) ++ s) with ((60 :: n ++ sep attrs) ++ render_attrs attrs ++ 62 :: s)
    by (cbn; by rewrite <-!(assoc_L (++))).
  assert (Hsep : Forall (fun c => is_blank c = true) (sep attrs)) by (destruct attrs; repeat constructor).
  rewrite (lex_token INITIAL R_start_tag); [|done|].
  2: { cbn [app]. rewrite <-(assoc_L (++)). apply scan_start_tag; [done|by destruct attrs; repeat constructor|by destruct attrs|].
       destruct Ha as [|[b w] r' (Hb & _) _]; [done|]. destruct (plain_name_cons b Hb) as (d & b' & -> & Hd & _). cbn.
       by apply (lower_check (fun d => negb (is_s d)) d eq_refl) in Hd as Hd'%negb_true_iff. }
  cbn [HtmlLex.action skipn]. rewrite ?drop_0. rewrite strip_right_app; [|done|].
  2: { apply (plain_last _ n Hn). intros x Hx. by apply plain_char_facts. }
  rewrite addtoken_plain by done. cbn [rbind val]. rewrite Hsc. cbn [fst snd rbind val]. rewrite (lex_attrs attrs s Ha).
  cbn [tokens set_tokens]. by rewrite Hl.
Qed.

Lemma lex_close n s l : event_ok (Close n) -> tokens l = [] ->
  lex INITIAL (render_event (Close n) ++ s) l = (l <~ run_event (Close n) l ;; lex INITIAL s l).
Proof.
  intros Hn Hl. destruct (plain_name_cons n Hn) as (c & r & Hcn & Hc & Hp). destruct (plain_text n Hp) as [Hamp Hlow].
  cbn [render_event].
  replace ((60 :: 47 :: n ++ [62]) ++ s) with ((60 :: 47 :: n) ++ [62] ++ s) by (cbn; by rewrite <-!(assoc_L (++))).
  rewrite (lex_token INITIAL R_end_tag); [|done|by cbn [app]; apply scan_end_tag].
  cbn [HtmlLex.action skipn]. rewrite ?drop_0. rewrite <-(app_nil_r n), strip_right_app, app_nil_r; [|done|].
  2: { apply (plain_last _ n Hn). intros x Hx. by apply plain_char_facts. }
  rewrite addtoken_plain by done. cbn [rbind val fst snd].
  rewrite (lex_token TAG R_tag_close [62]) by (done || apply scan_tag_close; auto).
  cbn [HtmlLex.action]. rewrite addtoken_tagc. cbn [rbind val tokens set_tokens]. rewrite Hl. cbn [app].
  unfold run_event. cbn [event_tokens]. by destruct (process _) as [[?|?]|].
Qed.

Lemma lex_page es : page_ok es -> forall l, tokens l = [] ->
  lex INITIAL (render es) l = (l <~ run_events es l ;; val (0, finalize l)).
Proof.
  intros [Hok Hsep]. induction Hok as [|e es He Hes IH]; intros l Hl; [done|].
  assert (Hsep' : separated es) by (destruct es as [|f es]; [done|apply Hsep]).
  unfold render. cbn [fmap list_fmap concat run_events]. fold (render es).
  assert (Hstep : lex INITIAL (render_event e ++ render es) l = (l <~ run_event e l ;; lex INITIAL (render es) l)).
  { destruct e as [t|n attrs|n]; [|by apply lex_open|by apply lex_close]. apply lex_data; [done| |done].
    destruct es as [|[t'|n attrs|n] es]; [by left|by destruct Hsep as [H _]; specialize (H eq_refl)|right; eexists; reflexivity..]. }
  rewrite Hstep. destruct (run_event e l) as [[l'|x]|] eqn:E; cbn [rbind]; [|done|done].
  apply IH; [done|]. by eapply process_tokens.
Qed.
End Lex.

(** ** The text and the links of a page *)

(** Text, an anchor around a text, and tags without attributes. *)
Inductive item :=
| Words (t : list Z)
| Anchor (href t : list Z)
| Mark (n : list Z)
| Unmark (n : list Z).

Definition item_events (i : item) : list event :=
  match i with
  | Words t => [Data t]
  | Anchor href t => [Open (str "a") [(str "href", href)]; Data t; Close (str "a")]
  | Mark n => [Open n []]
  | Unmark n => [Close n]
  end.

Definition page_events (items : list item) : list event := concat (item_events <$> items).

(** A tag that breaks the line or has no operation. *)
Definition special_tags : list (list Z) :=
  str <$> ["body"; "a"; "frame"; "iframe"; "script"; "style"; "link"; "meta"; "title"]%string.

Definition tag_ok (i : item) : Prop :=
  match i with Mark n | Unmark n => n ∉ special_tags | _ => True end.

Definition items_ok (items : list item) : Prop := page_ok (page_events items) /\ Forall tag_ok items.


Section Pages.
Context {BR : BoostRegex} {ICU : Icu} (NDEBUG : bool) (max_size : Z).
Abbreviation run_event := (run_event NDEBUG max_size).
Abbreviation run_events := (run_events NDEBUG max_size).



















End Pages.

(** ** Claims *)
Section Claims.
Context {BR : BoostRegex} {ICU : Icu} (NDEBUG : bool) (max_size : Z).

(** C26: the scanner of html.ll ends on every input: it makes a sequence of
    steps, each the choice of flex (the longest match, then the first rule)
    in the start condition the action before left, whose texts put together
    are the input; and [yylex] is the run of the actions of those steps, for
    every state of the lexer, without ever spending its fuel. *)
Theorem yylex_covers input : exists steps,
  scans INITIAL input steps /\ concat (st_text <$> steps) = input
  /\ forall l, yylex NDEBUG max_size input l = (l <~ run_steps NDEBUG max_size steps l ;; val (0, finalize l)).
Proof.
  destruct (scans_total input INITIAL) as [steps Hs]. exists steps. split_and!; [done|by eapply scans_text|].
  intros l. apply (yylex_runs NDEBUG max_size INITIAL input steps Hs). unfold weight. rewrite decide_False by done. lia.
Qed.

(** C8: a page written from text, start tags with quoted attributes and end
    tags (names in lower case, none that starts "script", no character
    references) is read back: for each event in turn the lexer processes
    exactly its tokens, and nothing else happens. *)
Theorem yylex_reads_page es l : page_ok es -> tokens l = [] ->
  yylex NDEBUG max_size (render es) l = (l <~ run_events NDEBUG max_size es l ;; val (0, finalize l)).
Proof. intros Hes Hl. rewrite yylex_lex. by apply lex_page. Qed.

End Claims.

(** ** Witnesses *)
Definition some_items : list item :=
  [Words (str "See "); Anchor (str "docs/a.html") (str "the manual"); Mark (str "p"); Unmark (str "b"); Mark (str "br"); Words (str "end")].

Ltac event_solve :=
  repeat match goal with
  | |- Forall _ [] => apply Forall_nil_2
  | |- Forall _ (_ :: _) => apply Forall_cons_2
  | |- event_ok _ => unfold event_ok
  | |- attr_ok _ => unfold attr_ok
  | |- _ /\ _ => split
  end; try done; apply (bool_decide_unpack _); vm_compute; exact I.

Lemma some_items_ok : items_ok some_items.
Proof.
  split; [split|].
  - unfold page_events, some_items. cbn [fmap list_fmap concat item_events app]. event_solve.
  - cbn. split_and!; done.
  - unfold some_items. repeat apply Forall_cons_2; try apply Forall_nil_2; try exact I; cbn; apply (bool_decide_unpack _); vm_compute; exact I.
Qed.

Definition blank_lexer : HTML_lexer :=
  mk_HTML_lexer [] false (Some ostringstream) Url_new (Some ostringstream) (Some ostringstream) (Some Analysis_new)
    (mk_flags true false false false) link_new [].

Lemma yylex_reads_page_witness :
  tokens blank_lexer = [] /\
  yylex (BR := perl_regex) (ICU := plain_icu) false 1000000 (render (page_events some_items)) blank_lexer
  = (l <~ run_events (BR := perl_regex) false 1000000 (page_events some_items) blank_lexer ;; val (0, finalize l)).
Proof.
  split; [reflexivity|].
  exact (yylex_reads_page (BR := perl_regex) (ICU := plain_icu) false 1000000 (page_events some_items) blank_lexer (proj1 some_items_ok) eq_refl).
Defined.


(** ** What the lexer does with other pages *)

(** The text and the links written for a page, with apostrophes for quotes. *)
Definition lexed (page : String.string) : option (list Z * list Z) :=
  match yylex (BR := perl_regex) (ICU := plain_icu) false 1000000 ((fun c => if c =? 39 then 34 else c) <$> str page) blank_lexer with
  | Some (Value (_, l)) => Some (written (txtout l), written (lnkout l))
  | _ => None
  end.

Arguments lexed page%_string_scope.

(** What follows "</script>" is lost up to the end of the next text or tag:
    the end tag waits on the token stack for the next call to [process]. *)
Example script_end_swallows : lexed "a<script>x</script><p>b" = Some (str "ab", []).
Proof. vm_compute. reflexivity. Qed.

(** A tag whose name is a prefix of "script" starts a script. *)
Example strike_is_script : lexed "a<s>b</s>c" = Some (str "a", []).
Proof. vm_compute. reflexivity. Qed.

(** An address without quotes that looks like a name is not a link. *)
Example unquoted_name_lost : lexed "<a href=page.html>t</a><a href=d/page.html>u</a>" = Some (str "tu", [1] ++ str "d/page.html" ++ [2; 117; 3]).
Proof. vm_compute. reflexivity. Qed.

(** Every attribute that starts with "href" sets the address. *)
Example hreflang_is_href : lexed "<a href='x' hreflang='en'>t</a>" = Some (str "t", [1] ++ str "en" ++ [2; 116; 3]).
Proof. vm_compute. reflexivity. Qed.

(** The text of a link that must not be followed is kept for the next link. *)
Example nofollow_text_kept : lexed "<a href='x' rel='nofollow'>s</a><a href='y'>t</a>" = Some (str "st", [1; 121; 2] ++ str "st" ++ [3]).
Proof. vm_compute. reflexivity. Qed.

(** A tab behind the name of a tag becomes part of the name. *)
Example tab_in_name : strip_right is_blank (str "a" ++ [9]) = str "a" ++ [9].
Proof. reflexivity. Qed.
