(* ===== verification/BigHash.v ===== *)
(** * The hash table on disk

    src/src/common/bighash.hh and bighash.cc: class [big_hash_bucket], a bucket
    directory found by the SHA-1 of its key, with a lock file, a key file and
    a value file.

    The file system is a finite map from paths to files and directories; the
    calls do what POSIX says and may fail for any other reason, which the
    oracle [fault] decides.  A path is the string that names it: two spellings
    of one file are two names.  SHA-1 is a parameter, and so is the appending of
    paths, with what Boost.Filesystem documents of it.  File descriptors are
    left out: each is closed or leaked, which changes no file.  What is logged
    on [clog] is left out.  A write that fails does so before its first octet, [bfs::remove]
    and [bfs::remove_all] succeed, and [strerror] gives a text.  [key_error]
    is a [std::runtime_error] and is thrown as one. *)
From stdpp Require Import gmap.
From S2P Require Import Prelude Regex Utils Iostream.

Abbreviation path := (list Z).

Inductive node := File (data : list Z) | Dir.

#[export] Instance node_eq_dec : EqDecision node.
Proof. solve_decision. Defined.

(** The files, the names in /proc, and the process that runs. *)
Record os := mk_os { files : gmap path node; proc : list path; pid : Z }.

Definition set_files (m : gmap path node) (s : os) : os := mk_os m (proc s) (pid s).
Definition upd_files (f : gmap path node -> gmap path node) (s : os) : os := set_files (f (files s)) s.

(** ** Effects

    A computation returns a value or throws, and leaves the files behind;
    [None] is a failed assertion, undefined behaviour or a lock that is never
    released. *)
Definition io (A : Type) := os -> option (outcome A * os).

Definition iret {A} (a : A) : io A := fun s => Some (Value a, s).
Definition ithrow {A} (e : exn) : io A := fun s => Some (Throw e, s).
Definition ibind {A B} (m : io A) (k : A -> io B) : io B := fun s =>
  match m s with
  | Some (Value a, s') => k a s'
  | Some (Throw e, s') => Some (Throw e, s')
  | None => None
  end.
Definition stuck {A} : io A := fun _ => None.
Definition ilift {A} (o : option A) : io A := match o with Some a => iret a | None => stuck end.
Definition iget {A} (f : os -> A) : io A := fun s => Some (Value (f s), s).
Definition iput (f : os -> os) : io unit := fun s => Some (Value tt, f s).

Declare Scope io_scope.
Delimit Scope io_scope with io.
Notation "x <- m ;; k" := (ibind m (fun x => k)) (at level 100, m at next level, right associativity) : io_scope.
Notation "m ;; k" := (ibind m (fun _ : unit => k)) (at level 100, right associativity) : io_scope.
Local Open Scope io_scope.

(** ** System calls *)
Definition ENOENT : Z := 2.
Definition EEXIST : Z := 17.
Definition EACCES : Z := 13.
Definition ENOTDIR : Z := 20.
Definition EISDIR : Z := 21.

Inductive sys_call := sys_access | sys_mkdir | sys_open | sys_read | sys_write | sys_unlink | sys_opendir | sys_nanosleep.

Class Posix := {
  fault : sys_call -> path -> option Z;
  strerror : Z -> list Z;
  (** how many of [n] octets one read or write transfers *)
  xfer : Z -> Z;
  xfer_law n : 0 < n -> 0 < xfer n <= n;
  (** what other processes do while this one sleeps *)
  others : os -> os
}.

(** The directories a path goes through. *)
Fixpoint parents_from (done s : path) : list path :=
  match s with
  | [] => []
  | c :: s => if c =? 47 then done :: parents_from (done ++ [c]) s else parents_from (done ++ [c]) s
  end.

Definition parents (p : path) : list path := match p with [] => [] | c :: s => parents_from [c] s end.

(** The error of a path whose directory is missing. *)
Definition no_parent (p : path) (m : gmap path node) : option Z :=
  match last (parents p) with
  | None => None
  | Some q => match m !! q with Some Dir => None | Some (File _) => Some ENOTDIR | None => Some ENOENT end
  end.

Section Calls.
Context `{Posix}.

(** [err_sys(s)] with [errno] = [e] *)
Definition err_sys {A} (s : list Z) (e : Z) : io A :=
  ithrow (runtime_error (s ++ str " error: " ++ strerror e ++ [10])).

(** A call gives its [errno], or nothing. *)
Definition missing (p : path) (m : gmap path node) : Z := default ENOENT (no_parent p m).

(** [access(p, X_OK)]: the files of the table are not executable. *)
Definition access_x (p : path) : io (option Z) :=
  iget (fun s => match fault sys_access p with
    | Some e => Some e
    | None => match files s !! p with Some Dir => None | Some (File _) => Some EACCES | None => Some (missing p (files s)) end
    end).

(** [access(p, R_OK | W_OK)] *)
Definition access_rw (p : path) : io (option Z) :=
  iget (fun s => match fault sys_access p with
    | Some e => Some e
    | None => match files s !! p with Some _ => None | None => Some (missing p (files s)) end
    end).

Definition mkdir (p : path) : io (option Z) := fun s =>
  match fault sys_mkdir p with
  | Some e => Some (Value (Some e), s)
  | None =>
      match files s !! p with
      | Some _ => Some (Value (Some EEXIST), s)
      | None =>
          match no_parent p (files s) with
          | Some e => Some (Value (Some e), s)
          | None => Some (Value None, upd_files <[p := Dir]> s)
          end
      end
  end.

(** [open(p, O_CREAT | O_EXCL | O_RDWR)] *)
Definition open_excl (p : path) : io (option Z) := fun s =>
  match fault sys_open p with
  | Some e => Some (Value (Some e), s)
  | None =>
      match files s !! p with
      | Some _ => Some (Value (Some EEXIST), s)
      | None =>
          match no_parent p (files s) with
          | Some e => Some (Value (Some e), s)
          | None => Some (Value None, upd_files <[p := File []]> s)
          end
      end
  end.

(** [open(p, O_RDWR)] and [open(p, O_RDONLY)]: what there is to read *)
Definition open_read (p : path) : io (list Z + Z) :=
  iget (fun s => match fault sys_open p with
    | Some e => inr e
    | None =>
        match files s !! p with
        | Some (File d) => inl d
        | Some Dir => inr EISDIR
        | None => inr (missing p (files s))
        end
    end).

(** [open(p, O_WRONLY | O_TRUNC | O_CREAT)] *)
Definition open_trunc (p : path) : io (option Z) := fun s =>
  match fault sys_open p with
  | Some e => Some (Value (Some e), s)
  | None =>
      match files s !! p with
      | Some Dir => Some (Value (Some EISDIR), s)
      | Some (File _) => Some (Value None, upd_files <[p := File []]> s)
      | None =>
          match no_parent p (files s) with
          | Some e => Some (Value (Some e), s)
          | None => Some (Value None, upd_files <[p := File []]> s)
          end
      end
  end.

Definition unlink (p : path) : io (option Z) := fun s =>
  match fault sys_unlink p with
  | Some e => Some (Value (Some e), s)
  | None =>
      match files s !! p with
      | None => Some (Value (Some (missing p (files s))), s)
      | Some Dir => Some (Value (Some EISDIR), s)
      | Some (File _) => Some (Value None, upd_files (delete p) s)
      end
  end.

(** [while ((nread = read(fd, buf, BSIZE)) > 0) s.append(buf, nread);] *)
Fixpoint read_loop (fuel : nat) (bsize : Z) (acc rest : list Z) : option (list Z) :=
  match fuel with
  | O => None
  | S fuel =>
      let n := Z.min bsize (zlen rest) in
      if n =? 0 then Some acc
      else read_loop fuel bsize (acc ++ ztake (xfer n) rest) (zdrop (xfer n) rest)
  end.

Definition read_all (bsize : Z) (data : list Z) : option (list Z) := read_loop (S (length data)) bsize [] data.

(** [while (e > b && (nwrite = write(fd, b, e-b > BSIZE ? BSIZE : e-b)) > 0) b += nwrite;] *)
Fixpoint write_loop (fuel : nat) (bsize : Z) (written rest : list Z) : option (list Z) :=
  match fuel with
  | O => None
  | S fuel =>
      let n := if zlen rest >? bsize then bsize else zlen rest in
      if n =? 0 then Some written
      else write_loop fuel bsize (written ++ ztake (xfer n) rest) (zdrop (xfer n) rest)
  end.

Definition write_all (bsize : Z) (data : list Z) : option (list Z) := write_loop (S (length data)) bsize [] data.
End Calls.

(** ** Helpers of bighash.cc *)
Definition KEY_FNAME : list Z := str "__key__".
Definition VALUE_FNAME : list Z := str "__value__".
Definition MAXBUCKETS : nat := 3.
Definition LOCK_EXT : list Z := str ".lock".

(** [atol]: white space, a sign, digits; a value that is no [long] is undefined. *)
Definition atol (s : list Z) : option Z :=
  let t := snd (span (fun c => (c =? 32) || in_range 9 13 c) s) in
  let '(neg, t) := match t with
    | c :: r => if c =? 45 then (true, r) else if c =? 43 then (false, r) else (false, t)
    | [] => (false, t)
    end in
  let v := foldl (fun v d => 10 * v + (d - 48)) 0 (fst (span is_digit t)) in
  if v <? 2 ^ 63 then Some (if neg : bool then - v else v) else None.

(** A C string in a buffer of zeros. *)
Definition c_string (s : list Z) : list Z := fst (span (fun c => negb (c =? 0)) s).

Class BoostPath := {
  path_append : path -> path -> path;
  path_append_law p n : p <> [] -> last p <> Some 47 -> head n <> Some 47 -> path_append p n = p ++ 47 :: n
}.

Class OpenSSL := {
  SHA1 : list Z -> list Z;
  SHA1_law s : length (SHA1 s) = 20%nat /\ bytes_ok (SHA1 s)
}.

(** [sha1_to_hex] of this file: the static buffer up to its terminator. *)
Definition sha1_hex (sha1 : list Z) : option (list Z) :=
  h ← mapM hex_byte (ztake 20 sha1); Some (mjoin h).

Section Helpers.
Context `{Posix}.

Fixpoint mkdirs (ps : list path) : io unit :=
  match ps with
  | [] => iret tt
  | p :: r =>
      e <- mkdir p ;;
      match e with
      | Some e => if e =? EEXIST then mkdirs r else err_sys (str "mkdir " ++ [34] ++ p ++ [34]) e
      | None => mkdirs r
      end
  end.

Definition create_directories (p : path) : io unit :=
  e <- access_x p ;;
  match e with
  | None => iret tt
  | Some _ => mkdirs (parents p ++ [p])
  end.

(** The first character of a name in /proc is a [char] above 0 and up to "9". *)
Fixpoint running_from (names : list path) (p : Z) : io bool :=
  match names with
  | [] => iret false
  | n :: r =>
      match n with
      | c :: _ =>
          if (0 <? c) && (c <=? 57) then
            cur <- ilift (atol n) ;;
            if cast_int cur =? p then iret true else running_from r p
          else running_from r p
      | [] => running_from r p
      end
  end.

Definition running_pid (p : Z) : io bool :=
  match fault sys_opendir (str "/proc") with
  | Some e => err_sys (str "opendir proc") e
  | None => names <- iget proc ;; running_from names p
  end.

(** [lseek], [write] and [ftruncate] leave the decimal pid in the file; a write
    that is cut short keeps the rest of the old text and is an error. *)
Definition write_pid (f : path) (old : list Z) : io unit :=
  me <- iget pid ;;
  let buf := put_int me in
  match fault sys_write f with
  | Some e => err_sys (str "write") e
  | None =>
      let cnt := xfer (zlen buf) in
      if cnt <? zlen buf then iput (upd_files <[f := File (ztake cnt buf ++ zdrop cnt old)]>) ;; err_sys (str "write") 0
      else iput (upd_files <[f := File buf]>)
  end.

(** The key of a bucket directory, or -1. *)
Definition read_key `{BoostPath} (bucket_dir : path) : io (option (list Z)) :=
  let keyf := path_append bucket_dir KEY_FNAME in
  d <- open_read keyf ;;
  match d with
  | inr _ => iret None
  | inl d =>
      match fault sys_read keyf with
      | Some _ => iret None
      | None => k <- ilift (read_all 1024 d) ;; iret (Some k)
      end
  end.
End Helpers.

(** ** The class *)
Record big_hash_bucket := mk_bucket {
  m_lock_file : path;
  m_key : list Z;
  m_bucket_dir : path;
  block : bool;
  erased : bool
}.

Definition set_lock_file v b := mk_bucket v (m_key b) (m_bucket_dir b) (block b) (erased b).
Definition locked (b : big_hash_bucket) : bool := negb (bool_decide (m_lock_file b = [])).
Definition bucket_dir (b : big_hash_bucket) : path := m_bucket_dir b.

Definition key (b : big_hash_bucket) : io (list Z) :=
  if erased b then ithrow (runtime_error (str "big_hash_bucket::key: bucket has been erased")) else iret (m_key b).

Section Bucket.
Context `{Posix} `{BoostPath} `{OpenSSL}.

(** The loop of [get_lockfile]: the file is created, or one without a pid or
    with the pid of a process that is gone is taken over; the lock of a
    running process is waited for.  This is the loop as one process runs it when the
    others act only while it sleeps; the loop one system call at a time, with any
    interleaving, is [lock_call] and [wstep] in BigHashLock. *)
Fixpoint get_lockfile (fuel : nat) (blocking : bool) (f : path) : io unit :=
  match fuel with
  | O => stuck
  | S fuel =>
      e <- open_excl f ;;
      match e with
      | None => write_pid f []
      | Some e =>
          if e =? EEXIST then
            d <- open_read f ;;
            match d with
            | inr e => err_sys (str "open") e
            | inl d =>
                let n := match fault sys_read f with Some _ => 0 | None => Z.min 63 (zlen d) end in
                if n =? 0 then write_pid f d
                else
                  lock_pid <- ilift (atol (c_string (ztake (xfer n) d))) ;;
                  our_pid <- iget pid ;;
                  if cast_int lock_pid =? our_pid then ithrow (runtime_error (str "prevent deadlock"))
                  else
                    running <- running_pid (cast_int lock_pid) ;;
                    if negb running then write_pid f d
                    else if negb blocking then
                      ithrow (runtime_error (str "lock on " ++ f ++ str " would block and block is false"))
                    else
                      match fault sys_nanosleep [] with
                      | Some e => err_sys (str "nanosleep") e
                      | None => iput others ;; get_lockfile fuel blocking f
                      end
            end
          else err_sys f e
      end
  end.

(** How long this process waits for a lock. *)
Context (patience : nat).

Definition lock (b : big_hash_bucket) : io unit :=
  if locked b then get_lockfile patience (block b) (m_lock_file b)
  else ithrow (runtime_error (str "Empty m_lock_file")).

Definition unlock (b : big_hash_bucket) : io big_hash_bucket :=
  if locked b then
    e <- unlink (m_lock_file b) ;;
    match e with
    | Some e => err_sys (str "unlink") e
    | None => iret (set_lock_file [] b)
    end
  else iret b.

(** The file is truncated, then written in pieces. *)
Definition write_key (b : big_hash_bucket) : io unit :=
  let keyf := path_append (m_bucket_dir b) KEY_FNAME in
  e <- open_trunc keyf ;;
  match e with
  | Some e => err_sys (str "open") e
  | None =>
      match fault sys_write keyf with
      | Some e => if bool_decide (m_key b = []) then iret tt else err_sys (str "write") e
      | None => d <- ilift (write_all 8192 (m_key b)) ;; iput (upd_files <[keyf := File d]>)
      end
  end.

Definition set (value : list Z) (b : big_hash_bucket) : io unit :=
  if erased b then ithrow (runtime_error (str "set: bucket has been erased")) else
  (if locked b then iret tt else lock b) ;;
  let valuef := path_append (m_bucket_dir b) VALUE_FNAME in
  e <- open_trunc valuef ;;
  match e with
  | Some _ => ithrow (runtime_error (str "set: open"))
  | None =>
      match fault sys_write valuef with
      | Some e => if bool_decide (value = []) then iret tt else iput (upd_files (delete valuef)) ;; err_sys (str "write") e
      | None => d <- ilift (write_all 8192 value) ;; iput (upd_files <[valuef := File d]>)
      end
  end.

Definition get (b : big_hash_bucket) : io (list Z) :=
  if erased b then ithrow (runtime_error (str "get: bucket has been erased")) else
  let valuef := path_append (m_bucket_dir b) VALUE_FNAME in
  regular <- iget (fun s => match files s !! valuef with Some (File _) => true | _ => false end) ;;
  if negb regular then iret [] else
  d <- open_read valuef ;;
  match d with
  | inr e =>
      if e =? ENOENT then iret []
      else ithrow (runtime_error (str "Can't open value file: " ++ [34] ++ valuef ++ [34] ++ str ": " ++ strerror e))
  | inl d =>
      match fault sys_read valuef with
      | Some e => err_sys (str "read") e
      | None => ilift (read_all 8192 d)
      end
  end.

(** What [bfs::remove_all] removes: the path and what is below it. *)
Definition below (p q : path) : bool := bool_decide (q = p) || bool_decide (p ++ [47] `prefix_of` q).

Definition erase (b : big_hash_bucket) : io big_hash_bucket :=
  (if locked b then iret tt else lock b) ;;
  iput (upd_files (filter (fun x => negb (below (m_bucket_dir b) x.1)))) ;;
  b <- unlock b ;;
  iret (mk_bucket (m_lock_file b) (m_key b) (m_bucket_dir b) (block b) true).

(** ["-%d"] *)
Definition bucket_path (base : path) (i : nat) : path := base ++ str "-" ++ put_int (Z.of_nat i).

(** The loop over the buckets of one hash, from [i] on, [n] of them. *)
Fixpoint try_buckets (n i : nat) (base : path) (k : list Z) : io big_hash_bucket :=
  match n with
  | O => ithrow (runtime_error (str "out of buckets"))
  | S n =>
      let buckdir := bucket_path base i in
      let b := mk_bucket (buckdir ++ LOCK_EXT) k [] true false in
      let found := mk_bucket (buckdir ++ LOCK_EXT) k buckdir true false in
      lock b ;;
      e <- access_x buckdir ;;
      match e with
      | None =>
          buck_key <- read_key buckdir ;;
          match buck_key with
          | Some k' =>
              if bool_decide (k' = k) then iret found
              else _ <- unlock b ;; try_buckets n (S i) base k
          | None => write_key found ;; iret found
          end
      | Some e =>
          if e =? ENOENT then create_directories buckdir ;; write_key found ;; iret found
          else ithrow (runtime_error (str "can't access: " ++ buckdir))
      end
  end.

(** [big_hash_bucket(root_dir, key)] *)
Definition big_hash_bucket_new (root_dir : path) (k : list Z) : io big_hash_bucket :=
  hex <- ilift (sha1_hex (SHA1 k)) ;;
  let base := path_append root_dir (ztake 2 hex) in
  create_directories base ;;
  try_buckets MAXBUCKETS 0 (path_append base (zseg 2 40 hex)) k.

(** [big_hash_bucket(bucket, block)] *)
Definition strip_slashes (p : path) : path := reverse (snd (span (Z.eqb 47) (reverse p))).

Definition big_hash_bucket_open (bucket : path) (blocking : bool) : io big_hash_bucket :=
  let dir := strip_slashes bucket in
  if bool_decide (dir = []) then ithrow (runtime_error (str "empty bucket")) else
  let b := mk_bucket (dir ++ LOCK_EXT) [] dir blocking false in
  e <- access_x dir ;;
  match e with
  | Some e => err_sys (str "access " ++ dir) e
  | None =>
      e <- access_rw (path_append dir KEY_FNAME) ;;
      match e with
      | Some _ => ithrow (runtime_error (str "missing key file" ++ dir))
      | None =>
          lock b ;;
          k <- read_key dir ;;
          match k with
          | None => ithrow (runtime_error (str "can't read key: " ++ dir))
          | Some k => iret (mk_bucket (m_lock_file b) k dir blocking false)
          end
      end
  end.

Definition big_hash_bucket_delete (b : big_hash_bucket) : io unit := _ <- unlock b ;; iret tt.
End Bucket.
