(* ===== verification/BigHashFs.v ===== *)
(** * Paths and system calls of the hash table

    The loops that read and write a file transfer all of it; the directories of
    a path and how they are made; the layout of the table below its root; what
    taking and releasing a lock file does. *)
From stdpp Require Import gmap.
From S2P Require Import Prelude Regex Utils Iostream BigHash.

Local Open Scope io_scope.

(** ** Reading and writing in pieces *)
Section Transfer.
Context `{Posix}.

Lemma xfer_zlen n : 0 < n -> 0 < xfer n <= n.
Proof. apply xfer_law. Qed.

Lemma read_loop_ok bsize : 0 < bsize -> forall fuel acc rest, (length rest < fuel)%nat ->
  read_loop fuel bsize acc rest = Some (acc ++ rest).
Proof.
  intros Hb. induction fuel as [|fuel IH]; intros acc rest Hf; [lia|]. cbn.
  pose proof (zlen_nonneg rest). zcase (Z.min bsize (zlen rest) =? 0).
  - destruct rest; [by rewrite app_nil_r|]. rewrite zlen_cons in *. pose proof (zlen_nonneg rest). lia.
  - pose proof (xfer_zlen (Z.min bsize (zlen rest))). rewrite IH.
    + by rewrite <-app_assoc, ztake_app_zdrop.
    + unfold zdrop, zlen in *. rewrite length_drop. lia.
Qed.

Lemma write_loop_ok bsize : 0 < bsize -> forall fuel acc rest, (length rest < fuel)%nat ->
  write_loop fuel bsize acc rest = Some (acc ++ rest).
Proof.
  intros Hb. induction fuel as [|fuel IH]; intros acc rest Hf; [lia|]. cbn.
  replace (if zlen rest >? bsize then bsize else zlen rest) with (Z.min bsize (zlen rest))
    by (rewrite Z.gtb_ltb; zcase (bsize <? zlen rest); lia).
  pose proof (zlen_nonneg rest). zcase (Z.min bsize (zlen rest) =? 0).
  - destruct rest; [by rewrite app_nil_r|]. rewrite zlen_cons in *. pose proof (zlen_nonneg rest). lia.
  - pose proof (xfer_zlen (Z.min bsize (zlen rest))). rewrite IH.
    + by rewrite <-app_assoc, ztake_app_zdrop.
    + unfold zdrop, zlen in *. rewrite length_drop. lia.
Qed.

Lemma read_all_ok bsize d : 0 < bsize -> read_all bsize d = Some d.
Proof. intros. unfold read_all. by rewrite read_loop_ok by lia. Qed.

Lemma write_all_ok bsize d : 0 < bsize -> write_all bsize d = Some d.
Proof. intros. unfold write_all. by rewrite write_loop_ok by lia. Qed.
End Transfer.

(** ** The directories of a path *)
Lemma parents_from_prefix s : forall d pre q post, parents_from d s = pre ++ q :: post ->
  exists t, q = d ++ t /\ parents_from d t = pre.
Proof.
  induction s as [|c s IH]; cbn; intros d pre q post E; [by destruct pre|].
  zcase (c =? 47); [destruct pre as [|p pre]; injection E as -> E|].
  - exists []. by rewrite app_nil_r.
  - subst c. apply IH in E as (t & -> & <-). exists (47 :: t). rewrite <-app_assoc. done.
  - apply IH in E as (t & -> & <-). exists (c :: t). rewrite <-app_assoc. cbn.
    by rewrite (proj2 (Z.eqb_neq _ _)).
Qed.

(** The directories of a directory of [p] are those of [p] before it. *)
Lemma parents_prefix p pre q post : parents p = pre ++ q :: post -> parents q = pre.
Proof.
  destruct p as [|c p]; [by destruct pre|]. intros (t & -> & <-)%parents_from_prefix. done.
Qed.

Lemma parents_from_app s : forall d n, (47 ∉ n) ->
  parents_from d (s ++ 47 :: n) = parents_from d s ++ [d ++ s].
Proof.
  induction s as [|c s IH]; intros d n Hn.
  - cbn. rewrite app_nil_r.
    assert (forall d0, parents_from d0 n = []) as Hd; [|intros; by rewrite Hd].
    induction n as [|c n IH]; intros d0; cbn; [done|]. apply not_elem_of_cons in Hn as [Hc Hn].
    rewrite (proj2 (Z.eqb_neq _ _)) by done. by apply IH.
  - cbn. rewrite IH by done. rewrite <-app_assoc. by destruct (c =? 47).
Qed.

Lemma parents_app p n : p <> [] -> (47 ∉ n) -> parents (p ++ 47 :: n) = parents p ++ [p].
Proof. destruct p; [done|]. intros _ Hn. cbn. rewrite parents_from_app by done. done. Qed.

Lemma parents_from_len q s : forall d, q ∈ parents_from d s -> (length q < length d + length s)%nat.
Proof.
  induction s as [|c s IH]; intros d; cbn; [by intros []%elem_of_nil|].
  pose proof (IH (d ++ [c])) as IH'. rewrite length_app in IH'. cbn in IH'.
  destruct (c =? 47); [rewrite elem_of_cons; intros [->|]; [lia|]|intros]; specialize (IH' ltac:(done)); lia.
Qed.

Lemma parents_len q p : q ∈ parents p -> (length q < length p)%nat.
Proof. destruct p as [|c p]; [by intros []%elem_of_nil|]. apply parents_from_len. Qed.

Lemma last_in (l : list path) p : p ∈ l ++ [p].
Proof. apply elem_of_app. right. apply list_elem_of_here. Qed.

(** ** Making directories *)
Fixpoint made (ps : list path) (m : gmap path node) : gmap path node :=
  match ps with
  | [] => m
  | p :: r => made r (match m !! p with None => <[p := Dir]> m | Some _ => m end)
  end.

Lemma made_lookup ps : forall m q,
  made ps m !! q = match m !! q with Some n => Some n | None => if bool_decide (q ∈ ps) then Some Dir else None end.
Proof.
  induction ps as [|p r IH]; intros m q; cbn.
  - by destruct (m !! q).
  - rewrite IH. destruct (m !! p) as [n|] eqn:E.
    + destruct (m !! q) eqn:E'; [done|]. destruct (decide (q ∈ r)).
      * rewrite !bool_decide_true; [done|by apply list_elem_of_further|done].
      * rewrite !bool_decide_false; [done| |done]. rewrite elem_of_cons. intros [->|]; congruence.
    + destruct (decide (q = p)) as [->|Hq].
      * rewrite lookup_insert_eq, E. by rewrite bool_decide_true by apply list_elem_of_here.
      * rewrite lookup_insert_ne by done. destruct (m !! q); [done|].
        erewrite bool_decide_ext; [done|]. rewrite elem_of_cons. naive_solver.
Qed.

Lemma upd_files_id f (s : os) : f (files s) = files s -> upd_files f s = s.
Proof. destruct s. unfold upd_files, set_files. cbn. by intros E; rewrite E. Qed.

(** ** Running a computation *)
Lemma ibind_val {A B} (m : io A) (k : A -> io B) s a s' : m s = Some (Value a, s') -> ibind m k s = k a s'.
Proof. intros E. unfold ibind. by rewrite E. Qed.

Lemma ibind_throw {A B} (m : io A) (k : A -> io B) s e s' :
  m s = Some (Throw e, s') -> ibind m k s = Some (Throw e, s').
Proof. intros E. unfold ibind. by rewrite E. Qed.

Definition not_file (s : os) (p : path) : Prop := match files s !! p with Some (File _) => False | _ => True end.

Lemma upd_upd f g s : upd_files f (upd_files g s) = upd_files (fun m => f (g m)) s.
Proof. done. Qed.

(** ** Calls that meet no other error *)
Section Quiet.
Context `{Posix}.
Hypothesis no_fault : forall c p, fault c p = None.

Lemma mkdirs_ok ps : forall s,
  (forall q, q ∈ ps -> not_file s q) ->
  (forall pre q post, ps = pre ++ q :: post -> forall r, last (parents q) = Some r -> r ∈ pre \/ files s !! r = Some Dir) ->
  mkdirs ps s = Some (Value tt, upd_files (made ps) s).
Proof.
  induction ps as [|p ps IH]; intros s Hn Hp; cbn [mkdirs]; [by rewrite upd_files_id|].
  assert (forall m, (forall q, q ∈ ps -> not_file (set_files m s) q) -> m !! p = Some Dir ->
    (forall r, files s !! r = Some Dir -> m !! r = Some Dir) ->
    mkdirs ps (set_files m s) = Some (Value tt, upd_files (made ps) (set_files m s))) as Hrec.
  { intros m Hm Hd Hk. apply IH; [done|]. intros pre q post -> r Hr.
    destruct (Hp (p :: pre) q post eq_refl r Hr) as [[->|]%elem_of_cons|]; auto. }
  unfold ibind at 1, mkdir. rewrite no_fault.
  pose proof (Hn p (list_elem_of_here _ _)) as Hnp. unfold not_file in Hnp.
  destruct (files s !! p) as [[]|] eqn:Ep; [done| |].
  - cbn. rewrite <-(upd_files_id (fun _ => files s) s) at 1 by done. unfold upd_files. cbn. rewrite Hrec.
    + unfold upd_files. cbn. by rewrite Ep.
    + intros q Hq. apply Hn. by apply list_elem_of_further.
    + done.
    + done.
  - assert (no_parent p (files s) = None) as ->.
    { unfold no_parent. destruct (last (parents p)) as [r|] eqn:Er; [|done].
      destruct (Hp [] p ps eq_refl r Er) as [[]%elem_of_nil | ->]. done. }
    unfold upd_files at 1. rewrite Hrec.
    + unfold upd_files. cbn. by rewrite Ep.
    + intros q Hq. unfold not_file. cbn. destruct (decide (q = p)) as [->|]; [by rewrite lookup_insert_eq|].
      rewrite lookup_insert_ne by done. apply (Hn q). by apply list_elem_of_further.
    + apply lookup_insert_eq.
    + intros r Hr. rewrite lookup_insert_ne; [done|]. intros ->. congruence.
Qed.

(** Afterwards the directory is there, and only directories of its path are new. *)
Definition dirs_added (p : path) (s s' : os) : Prop :=
  files s' !! p = Some Dir /\ proc s' = proc s /\ pid s' = pid s
  /\ forall q, files s' !! q = files s !! q
               \/ (files s !! q = None /\ files s' !! q = Some Dir /\ q ∈ parents p ++ [p]).

Lemma create_directories_ok p s : (forall q, q ∈ parents p ++ [p] -> not_file s q) ->
  exists s', create_directories p s = Some (Value tt, s') /\ dirs_added p s s'.
Proof.
  intros Hn. pose proof (Hn p (last_in _ _)) as Hp. unfold not_file in Hp.
  unfold create_directories. erewrite ibind_val by done. rewrite no_fault.
  destruct (files s !! p) as [[]|] eqn:E; [done| |].
  - eexists. split; [done|]. repeat split; [done|]. auto.
  - exists (upd_files (made (parents p ++ [p])) s). split.
    + apply mkdirs_ok; [done|]. intros pre q post Hs r Hr. left. apply last_Some in Hr as [l Hl].
      assert (parents q = pre) as Hq.
      { destruct post as [|x l' _] using rev_ind.
        - apply app_inj_tail in Hs as [Hs <-]. done.
        - rewrite app_comm_cons, app_assoc in Hs. apply app_inj_tail in Hs as [Hs _]. by eapply parents_prefix. }
      rewrite <-Hq, Hl. apply last_in.
    + split; [|split; [done|split; [done|]]].
      * cbn. rewrite made_lookup, E, bool_decide_true; [done|]. apply last_in.
      * intros q. cbn. rewrite made_lookup. destruct (files s !! q); [by left|].
        case_bool_decide; [right|left]; done.
Qed.
End Quiet.
