(* ===== verification/BigHashLock.v ===== *)
(** * The lock file

    A lock file holds the decimal pid of its owner.  What [get_lockfile] does
    with a file that is missing, empty or has a text; and the same loop one system
    call at a time, for several processes that interleave. *)
From stdpp Require Import gmap.
From S2P Require Import Prelude Regex Utils Iostream BigHash BigHashFs.

Local Open Scope io_scope.

(** ** The pid in the file *)
Definition pid_ok (p : Z) : Prop := 0 <= p <= INT_MAX.

Definition digit_step (v d : Z) : Z := 10 * v + (d - 48).

Lemma put_digits_fold n : forall v acc, 0 <= v < 2 ^ Z.of_nat (S n) ->
  foldl digit_step 0 (put_digits (S n) v acc) = foldl digit_step v acc.
Proof.
  induction n as [|n IH]; intros v acc Hv; rewrite put_digits_S; zcase (v <? 10).
  1, 3: cbn [foldl]; unfold digit_step at 2; f_equal; lia.
  - change (2 ^ Z.of_nat 1) with 2 in Hv. lia.
  - rewrite IH by (apply div10_small; lia). cbn [foldl]. unfold digit_step at 2. f_equal.
    pose proof (Z.div_mod v 10). lia.
Qed.

Lemma put_digits_digits n : forall v acc, 0 <= v -> Forall (fun c => is_digit c = true) acc ->
  Forall (fun c => is_digit c = true) (put_digits n v acc).
Proof.
  induction n as [|n IH]; intros v acc Hv Ha; cbn [put_digits]; [done|].
  pose proof (Z.mod_pos_bound v 10). zcase (v <? 10).
  - constructor; [apply is_digit_spec; lia|done].
  - apply IH; [apply Z.div_pos; lia|]. constructor; [apply is_digit_spec; lia|done].
Qed.

Lemma put_digits_len n : forall v acc, (length (put_digits n v acc) <= n + length acc)%nat.
Proof.
  induction n as [|n IH]; intros v acc; cbn [put_digits]; [lia|]. destruct (v <? 10); cbn; [lia|].
  etransitivity; [apply IH|]. cbn. lia.
Qed.

Lemma put_pid p : pid_ok p -> put_int p = put_nat p.
Proof. intros []. unfold put_int. by rewrite (proj2 (Z.ltb_ge _ _)). Qed.

Lemma put_pid_digits p : pid_ok p -> Forall (fun c => is_digit c = true) (put_int p).
Proof. intros Hp. rewrite put_pid by done. apply put_digits_digits; [apply Hp|done]. Qed.

Lemma put_pid_len p : pid_ok p -> 0 < zlen (put_int p) <= 32.
Proof.
  intros Hp. pose proof Hp as [H0 H1]. rewrite put_pid by done. split.
  - destruct (put_nat_head p) as (c & r & -> & _); [done|]. rewrite zlen_cons. pose proof (zlen_nonneg r). lia.
  - pose proof (put_digits_len (S (Z.to_nat (Z.log2 p))) p []) as Hl. unfold zlen, put_nat. cbn [length] in Hl.
    assert (Z.log2 p <= 30) by (change 30 with (Z.log2 INT_MAX); apply Z.log2_le_mono; lia).
    pose proof (Z.log2_nonneg p). lia.
Qed.

Lemma atol_pid p : pid_ok p -> atol (c_string (put_int p)) = Some p.
Proof.
  intros Hp. pose proof (put_pid_digits p Hp) as Hd. unfold c_string.
  assert (span (fun c => negb (c =? 0)) (put_int p) = (put_int p, [])) as ->.
  { pose proof (span_exact (fun c => negb (c =? 0)) (put_int p) []) as Hs. rewrite app_nil_r in Hs. apply Hs; [|done].
    eapply Forall_impl; [exact Hd|]. intros c Hc%is_digit_spec. cbn. by rewrite (proj2 (Z.eqb_neq _ _)) by lia. }
  cbn [fst]. unfold atol. destruct (put_nat_head p) as (c & r & Hcr & _); [apply Hp|].
  rewrite put_pid in * by done. rewrite Hcr in Hd |- *. pose proof Hd as Hd'. apply Forall_cons in Hd' as [Hc _].
  apply is_digit_spec in Hc.
  assert (snd (span (fun c => (c =? 32) || in_range 9 13 c) (c :: r)) = c :: r) as ->.
  { cbn. unfold in_range. by rewrite (proj2 (Z.eqb_neq c 32)), (proj2 (Z.leb_gt c 13)), andb_false_r by lia. }
  rewrite !(proj2 (Z.eqb_neq c _)) by lia.
  pose proof (span_exact is_digit (c :: r) []) as Hs. rewrite app_nil_r in Hs. rewrite Hs by done. cbn [fst].
  rewrite <-Hcr. unfold put_nat.
  change (fun v d => 10 * v + (d - 48)) with digit_step. rewrite put_digits_fold by (apply log2_fits, Hp). cbn.
  destruct Hp as [? Hp]. unfold INT_MAX in Hp. by rewrite (proj2 (Z.ltb_lt _ _)) by lia.
Qed.

(** ** Processes *)

(** The entries of /proc have names that [atol] can read. *)
Definition proc_ok (s : os) : Prop := Forall (fun n => is_Some (atol n)) (proc s).

(** A name that [running_pid] takes for the process [p]. *)
Definition names_pid (p : Z) (n : path) : Prop :=
  exists c r v, n = c :: r /\ 0 < c <= 57 /\ atol n = Some v /\ cast_int v = p.

Lemma names_pid_put p : pid_ok p -> names_pid p (put_int p).
Proof.
  intros Hp. pose proof (atol_pid p Hp) as Ha. pose proof (put_pid_digits p Hp) as Hd.
  destruct (put_nat_head p) as (c & r & Hcr & _); [apply Hp|]. rewrite put_pid in * by done. rewrite Hcr in *.
  exists c, r, p. pose proof Hd as Hc. apply Forall_cons in Hc as [Hc%is_digit_spec _].
  split_and!; [done|lia|lia| |].
  - rewrite <-Ha. f_equal. unfold c_string. pose proof (span_exact (fun c => negb (c =? 0)) (c :: r) []) as Hs.
    rewrite app_nil_r in Hs. rewrite Hs; [done| |done]. eapply Forall_impl; [exact Hd|].
    intros d Hdd%is_digit_spec. by rewrite (proj2 (Z.eqb_neq _ _)) by lia.
  - apply cast_int_in. unfold pid_ok, INT_MIN, INT_MAX in *. lia.
Qed.

Section Locks.
Context `{Posix}.
Hypothesis no_fault : forall c p, fault c p = None.

Lemma running_from_spec p s names : Forall (fun n => is_Some (atol n)) names ->
  exists b, running_from names p s = Some (Value b, s) /\ (b = true <-> Exists (names_pid p) names).
Proof.
  induction 1 as [|n names [v Hv] _ (b & Hb & Hi)]; cbn.
  { exists false. split; [done|]. split; [done|]. intros []%Exists_nil. }
  destruct n as [|c r].
  { exists b. split; [done|]. rewrite Exists_cons, Hi. split; [by right|]. intros [(? & ? & ? & ? & ?)|]; done. }
  rewrite Hv. zcase (0 <? c); [zcase (c <=? 57)|]; cbn [andb].
  - erewrite ibind_val by done. zcase (cast_int v =? p).
    + exists true. split; [done|]. split; [|done]. intros _. left. exists c, r, v. auto.
    + exists b. split; [done|]. rewrite Exists_cons, Hi. split; [by right|].
      intros [(? & ? & v' & ? & ? & Hv' & ?)|]; [|done]. rewrite Hv in Hv'. injection Hv' as <-. lia.
  - exists b. split; [done|]. rewrite Exists_cons, Hi. split; [by right|]. intros [(? & ? & ? & [= <- <-] & ?)|]; [lia|done].
  - exists b. split; [done|]. rewrite Exists_cons, Hi. split; [by right|]. intros [(? & ? & ? & [= <- <-] & ?)|]; [lia|done].
Qed.

Definition running (s : os) (p : Z) : Prop := Exists (names_pid p) (proc s).

Lemma running_pid_spec p s : proc_ok s ->
  exists b, running_pid p s = Some (Value b, s) /\ (b = true <-> running s p).
Proof. intros Hp. unfold running_pid. rewrite no_fault. erewrite ibind_val by done. by apply running_from_spec. Qed.

(** ** Taking a lock *)
Hypothesis whole : forall n, 0 < n <= 64 -> xfer n = n.

Lemma write_pid_ok f old s : pid_ok (pid s) ->
  write_pid f old s = Some (Value tt, upd_files <[f := File (put_int (pid s))]> s).
Proof.
  intros Hp. pose proof (put_pid_len _ Hp). unfold write_pid. erewrite ibind_val by done.
  rewrite no_fault, whole, Z.ltb_irrefl by lia. done.
Qed.

Definition own (f : path) (s : os) : os := upd_files <[f := File (put_int (pid s))]> s.

Lemma get_lockfile_new n bl f s : pid_ok (pid s) -> files s !! f = None -> no_parent f (files s) = None ->
  get_lockfile (S n) bl f s = Some (Value tt, own f s).
Proof.
  intros Hp Hf Hn. cbn [get_lockfile]. unfold ibind at 1, open_excl. rewrite no_fault, Hf, Hn.
  rewrite write_pid_ok by done. do 2 f_equal. unfold own, upd_files, set_files. cbn.
  f_equal. apply insert_insert_eq.
Qed.

(** A file that is there: what its first octets say. *)
Lemma get_lockfile_old n bl f s d : files s !! f = Some (File d) ->
  get_lockfile (S n) bl f s =
  (let k := Z.min 63 (zlen d) in
   if k =? 0 then write_pid f d
   else
     lock_pid <- ilift (atol (c_string (ztake (xfer k) d))) ;;
     our_pid <- iget pid ;;
     if cast_int lock_pid =? our_pid then ithrow (runtime_error (str "prevent deadlock"))
     else
       running <- running_pid (cast_int lock_pid) ;;
       if negb running then write_pid f d
       else if negb bl then
         ithrow (runtime_error (str "lock on " ++ f ++ str " would block and block is false"))
       else iput others ;; get_lockfile n bl f) s.
Proof.
  intros Hf. cbn [get_lockfile]. unfold ibind at 1, open_excl. rewrite no_fault, Hf. cbn [EEXIST Z.eqb Pos.eqb].
  unfold ibind at 1, open_read, iget at 1. rewrite no_fault, Hf, !no_fault. done.
Qed.

Lemma get_lockfile_empty n bl f s : pid_ok (pid s) -> files s !! f = Some (File []) ->
  get_lockfile (S n) bl f s = Some (Value tt, own f s).
Proof. intros Hp Hf. rewrite (get_lockfile_old _ _ _ _ _ Hf). replace (Z.min 63 (zlen (@nil Z)) =? 0) with true by done. by apply write_pid_ok. Qed.

End Locks.

(** ** The loop one system call at a time

    Several processes in [get_lockfile] for the same file, interleaved between any
    two system calls.  An open descriptor refers to a file (a number) and not to
    its name: the name may be unlinked and created anew meanwhile.  The calls
    succeed and transfer all octets; a look at /proc sees one moment. *)
Inductive pc :=
| Begin                        (* in front of [open(f, O_CREAT | O_EXCL | O_RDWR)] *)
| Reopen                       (* in front of [open(f, O_RDWR)] *)
| Reading (i : nat)            (* in front of [read] *)
| Judging (i : nat) (p : Z)    (* in front of [running_pid(p)] *)
| Sleeping                     (* in [nanosleep] *)
| Writing (i : nat)            (* in front of [write] in [write_pid] *)
| Truncating (i : nat)         (* in front of [ftruncate] *)
| Locked                       (* [get_lockfile] has returned *)
| Threw (e : exn).

(** [lockname] is the file that the name of the lock stands for. *)
Record world := mk_world {
  lockname : option nat; texts : gmap nat (list Z); procs : gmap Z pc; alive : gset Z; next : nat
}.

Definition goto (q : Z) (c : pc) (w : world) : world :=
  mk_world (lockname w) (texts w) (<[q := c]> (procs w)) (alive w) (next w).
Definition set_text (i : nat) (d : list Z) (w : world) : world :=
  mk_world (lockname w) (<[i := d]> (texts w)) (procs w) (alive w) (next w).
(** [open] makes a file, [unlink] takes its name away. *)
Definition make (w : world) : world :=
  mk_world (Some (next w)) (<[next w := []]> (texts w)) (procs w) (alive w) (S (next w)).
Definition unlink_name (w : world) : world := mk_world None (texts w) (procs w) (alive w) (next w).
Definition leave (q : Z) (w : world) : world :=
  mk_world (lockname w) (texts w) (delete q (procs w)) (alive w) (next w).
Definition die (q : Z) (w : world) : world :=
  mk_world (lockname w) (texts w) (delete q (procs w)) (alive w ∖ {[q]}) (next w).
Definition born (q : Z) (w : world) : world :=
  mk_world (lockname w) (texts w) (procs w) (alive w ∪ {[q]}) (next w).

(** [ftruncate(fd, n)] *)
Definition truncated (n : Z) (d : list Z) : list Z := ztake n d ++ replicate (Z.to_nat (n - zlen d)) 0.

Section Steps.
Context `{Posix} (blocking : Z -> bool) (f : path).

Definition would_block : exn := runtime_error (str "lock on " ++ f ++ str " would block and block is false").

(** The next system call of process [q] in [get_lockfile], with what follows it
    up to the next one. *)
Definition lock_call (q : Z) (c : pc) (w : world) : option world :=
  match c with
  | Begin =>
      match lockname w with
      | None => Some (goto q (Writing (next w)) (make w))
      | Some _ => Some (goto q Reopen w)
      end
  | Reopen =>
      match lockname w with
      | None => Some (goto q (Threw (runtime_error (str "open" ++ str " error: " ++ strerror ENOENT ++ [10]))) w)
      | Some i => Some (goto q (Reading i) w)
      end
  | Reading i =>
      d ← texts w !! i;
      if bool_decide (d = []) then Some (goto q (Writing i) w) else
      p ← atol (c_string (ztake 63 d));
      if cast_int p =? q then Some (goto q (Threw (runtime_error (str "prevent deadlock"))) w)
      else Some (goto q (Judging i (cast_int p)) w)
  | Judging i p =>
      if bool_decide (p ∈ alive w) then Some (goto q (if blocking q then Sleeping else Threw would_block) w)
      else Some (goto q (Writing i) w)
  | Sleeping => Some (goto q Begin w)
  | Writing i => d ← texts w !! i; Some (goto q (Truncating i) (set_text i (put_int q ++ zdrop (zlen (put_int q)) d) w))
  | Truncating i => d ← texts w !! i; Some (goto q Locked (set_text i (truncated (zlen (put_int q)) d) w))
  | Locked | Threw _ => None
  end.

Definition lock_step (q : Z) (w : world) : option world := c ← procs w !! q; lock_call q c w.

(** A step of process [q]: a call of [get_lockfile]; [unlock] by one that has the
    lock; a process begins to ask for the lock, again after an exception; a process
    ends, wherever it is; a process comes, perhaps with a pid used before. *)
Inductive wstep (q : Z) (w : world) : world -> Prop :=
| w_lock w' : q ∈ alive w -> lock_step q w = Some w' -> wstep q w w'
| w_unlock : q ∈ alive w -> procs w !! q = Some Locked -> wstep q w (leave q (unlink_name w))
| w_start : q ∈ alive w -> (procs w !! q = None \/ exists e, procs w !! q = Some (Threw e)) -> wstep q w (goto q Begin w)
| w_die : wstep q w (die q w)
| w_born : procs w !! q = None -> wstep q w (born q w).

(** Process [q] moves alone. *)
Fixpoint alone (n : nat) (q : Z) (w : world) : option world :=
  match n with
  | O => Some w
  | S n => w ← lock_step q w; alone n q w
  end.

(** ** Exclusion *)

(** A process that can do no harm to the lock of [p] on the file [i]: it has no
    file open but [i], and has read nothing there but the pid of [p]. *)
Definition harmless (p : Z) (i : nat) (c : pc) : Prop :=
  match c with
  | Begin | Reopen | Sleeping | Threw _ => True
  | Reading j => j = i
  | Judging _ x => x = p
  | Writing _ | Truncating _ | Locked => False
  end.

(** [p] has the lock, and everybody else is harmless. *)
Record settled (p : Z) (i : nat) (w : world) : Prop := {
  sd_name : lockname w = Some i;
  sd_text : texts w !! i = Some (put_int p);
  sd_alive : p ∈ alive w;
  sd_locked : procs w !! p = Some Locked;
  sd_others : forall q c, q <> p -> procs w !! q = Some c -> harmless p i c
}.

Lemma text_pid p : pid_ok p -> put_int p <> [] /\ atol (c_string (ztake 63 (put_int p))) = Some p /\ cast_int p = p.
Proof.
  intros Hp. pose proof (put_pid_len _ Hp) as Hl. split_and!.
  - intros E. rewrite E in Hl. change (zlen (@nil Z)) with 0 in Hl. lia.
  - rewrite ztake_all by lia. by apply atol_pid.
  - apply cast_int_in. unfold pid_ok, INT_MIN, INT_MAX in *. lia.
Qed.

(** What a harmless process does next is harmless. *)
Lemma harmless_call p i q c w : pid_ok p -> settled p i w -> q <> p -> harmless p i c ->
  match lock_call q c w with Some w' => exists c', w' = goto q c' w /\ harmless p i c' | None => True end.
Proof.
  intros Hp [Hn Ht Ha _ _] Hq Hc. destruct (text_pid p Hp) as (Hne & Hat & Hci).
  destruct c as [| |j|j x| |j|j| |e]; try contradiction; cbn [lock_call]; rewrite ?Hn; try (by eexists); try done.
  - cbn in Hc. subst j. rewrite Ht. cbn [mbind option_bind]. rewrite bool_decide_eq_false_2 by done. rewrite Hat. cbn [mbind option_bind].
    rewrite Hci, (proj2 (Z.eqb_neq p q)) by congruence. by eexists.
  - cbn in Hc. subst x. rewrite bool_decide_eq_true_2 by done. eexists. split; [done|]. by destruct (blocking q).
Qed.

Lemma settled_goto p i q c w : settled p i w -> q <> p -> harmless p i c -> settled p i (goto q c w).
Proof.
  intros [Hn Ht Ha Hl Ho] Hq Hc. split; cbn; [done..| |].
  - by rewrite lookup_insert_ne.
  - intros q' c' Hq' [[<- <-]|[_ H']]%lookup_insert_Some; [done|by eapply Ho].
Qed.

Lemma settled_step p i q w w' : pid_ok p -> settled p i w -> q <> p -> wstep q w w' -> settled p i w'.
Proof.
  intros Hp Hs Hq Hst. pose proof Hs as [Hn Ht Ha Hl Ho].
  assert (Hdel : forall q' c, q' <> p -> delete q (procs w) !! q' = Some c -> harmless p i c).
  { intros q' c Hq' [_ H']%lookup_delete_Some. by eapply Ho. }
  destruct Hst as [w' _ Hstep|_ Hlock|_ _| |].
  - unfold lock_step in Hstep. destruct (procs w !! q) as [c|] eqn:E; [|discriminate]. cbn in Hstep.
    pose proof (harmless_call p i q c w Hp Hs Hq (Ho q c Hq E)) as Hc. rewrite Hstep in Hc. destruct Hc as (c' & -> & Hc').
    by apply settled_goto.
  - exfalso. exact (Ho q Locked Hq Hlock).
  - by apply settled_goto.
  - split; cbn; [done..|set_solver|by rewrite lookup_delete_ne|done].
  - split; cbn; [done..|set_solver|done|done].
Qed.

Lemma settled_steps p i w w' : pid_ok p -> settled p i w -> rtc (fun a b => exists q, q <> p /\ wstep q a b) w w' -> settled p i w'.
Proof. intros Hp Hs H'. induction H' as [|w w1 w2 (q & Hq & Hst) _ IH]; [done|]. apply IH. by eapply settled_step. Qed.

Lemma alone_call n q c w w' : procs w !! q = Some c -> lock_call q c w = Some w' -> alone (S n) q w = alone n q w'.
Proof. intros Hc Hw. cbn [alone]. unfold lock_step. rewrite Hc. cbn. by rewrite Hw. Qed.

Lemma goto_at q c w : procs (goto q c w) !! q = Some c.
Proof. apply lookup_insert_eq. Qed.

Lemma goto_goto q c c' w : goto q c (goto q c' w) = goto q c w.
Proof. unfold goto. cbn. by rewrite insert_insert_eq. Qed.

(** A look into the file that the lock's name stands for: three calls. *)
Lemma alone_read q i d w : procs w !! q = Some Begin -> lockname w = Some i -> texts w !! i = Some d -> d <> [] ->
  forall x n, atol (c_string (ztake 63 d)) = Some x ->
  alone (3 + n) q w = alone n q (goto q (if cast_int x =? q then Threw (runtime_error (str "prevent deadlock")) else Judging i (cast_int x)) w).
Proof.
  intros Hb Hn Ht Hd x n Hx. cbn [Nat.add].
  rewrite (alone_call _ q Begin w (goto q Reopen w)) by (done || (cbn [lock_call]; by rewrite Hn)).
  rewrite (alone_call _ q Reopen _ (goto q (Reading i) w)).
  2: apply goto_at.
  2: { cbn [lock_call lockname goto]. rewrite Hn. by rewrite goto_goto. }
  apply (alone_call _ q (Reading i)); [apply goto_at|]. cbn [lock_call texts goto]. rewrite Ht. cbn [mbind option_bind].
  rewrite bool_decide_eq_false_2 by done. rewrite Hx. cbn [mbind option_bind]. rewrite !goto_goto. by destruct (cast_int x =? q).
Qed.

(** A process at [running_pid]. *)
Lemma alone_judge q i p w n : alone (S n) q (goto q (Judging i p) w)
  = alone n q (goto q (if bool_decide (p ∈ alive w) then if blocking q then Sleeping else Threw would_block else Writing i) w).
Proof.
  apply (alone_call _ q (Judging i p)); [apply goto_at|]. cbn [lock_call alive goto]. rewrite !goto_goto.
  by destruct (bool_decide (p ∈ alive w)).
Qed.

(** [write_pid] *)
Lemma alone_write q i d w : texts w !! i = Some d -> procs w !! q = Some (Writing i) ->
  alone 2 q w = Some (goto q Locked (set_text i (put_int q) w)).
Proof.
  intros Ht Hq. erewrite (alone_call _ q (Writing i)); [|done|cbn [lock_call]; by rewrite Ht].
  apply (alone_call 0 q (Truncating i)); [apply goto_at|]. cbn [lock_call texts goto set_text]. rewrite lookup_insert_eq. cbn [mbind option_bind].
  f_equal. unfold goto, set_text. cbn. rewrite !insert_insert_eq. repeat f_equal.
  unfold truncated. rewrite ztake_app_l, ztake_all, zlen_app by lia. pose proof (zlen_nonneg (zdrop (zlen (put_int q)) d)).
  by replace (Z.to_nat _) with 0%nat by lia; rewrite app_nil_r.
Qed.

(** Another process that asks for the lock: four calls. *)
Lemma settled_refuses p i q w : pid_ok p -> settled p i w -> q <> p -> procs w !! q = Some Begin ->
  alone 4 q w = Some (goto q (if blocking q then Sleeping else Threw would_block) w).
Proof.
  intros Hp [Hn Ht Ha _ _] Hq Hb. destruct (text_pid p Hp) as (Hne & Hat & Hci).
  change 4%nat with (3 + 1)%nat. rewrite (alone_read q i _ w Hb Hn Ht Hne p 1 Hat), Hci, (proj2 (Z.eqb_neq p q)) by congruence.
  by rewrite alone_judge, bool_decide_eq_true_2.
Qed.

(** ** A round without interference *)

(** The files and processes of [s] are those of [w]. *)
Definition shows (q : Z) (s : os) (w : world) : Prop :=
  pid s = q /\ proc_ok s /\ (forall p, running s p <-> p ∈ alive w)
  /\ match lockname w with
     | None => files s !! f = None /\ no_parent f (files s) = None
     | Some i => exists d, texts w !! i = Some d /\ files s !! f = Some (File d)
     end.

Lemma shows_own q s w i : shows q s w -> lockname w = Some i -> shows q (own f s) (goto q Locked (set_text i (put_int q) w)).
Proof.
  intros (Hp & Hs & Ha & _) Hn. split_and!; [done..|]. cbn. rewrite Hn. exists (put_int q).
  by rewrite !lookup_insert_eq, Hp.
Qed.

Hypothesis no_fault : forall c p, fault c p = None.
Hypothesis whole : forall n, 0 < n <= 64 -> xfer n = n.

(** What a round of the loop ends with. *)
Definition round_ends (n : nat) (q : Z) (s : os) (w' : world) : Prop :=
  match procs w' !! q with
  | Some Locked => get_lockfile (S n) (blocking q) f s = Some (Value tt, own f s) /\ shows q (own f s) w'
  | Some (Threw e) => get_lockfile (S n) (blocking q) f s = Some (Throw e, s) /\ shows q s w'
  | Some Sleeping => get_lockfile (S n) (blocking q) f s = get_lockfile n (blocking q) f (others s) /\ shows q s w'
  | _ => False
  end.

Lemma round_writes n q s w i d : pid_ok q -> shows q s w -> lockname w = Some i -> texts w !! i = Some d ->
  procs w !! q = Some (Writing i) -> get_lockfile (S n) (blocking q) f s = Some (Value tt, own f s) ->
  exists w', alone 2 q w = Some w' /\ round_ends n q s w'.
Proof.
  intros Hq Hs Hn Ht Hw Hg. eexists. split; [by eapply alone_write|]. unfold round_ends. rewrite goto_at.
  split; [done|]. by apply shows_own.
Qed.

Lemma round_alone n q s w : pid_ok q -> shows q s w -> procs w !! q = Some Begin ->
  (forall d, files s !! f = Some (File d) -> d = [] \/ is_Some (atol (c_string (ztake 63 d)))) ->
  exists k w', alone k q w = Some w' /\ round_ends n q s w'.
Proof.
  intros Hq Hs Hb Hd. pose proof Hs as (Hp & Hok & Ha & Hf). destruct (lockname w) as [i|] eqn:Hn.
  2: { destruct Hf as [Hf Hpar]. exists 3%nat. rewrite (alone_call _ q Begin w (goto q (Writing (next w)) (make w))).
    2: done. 2: { cbn [lock_call]. by rewrite Hn. }
    exists (goto q Locked (set_text (next w) (put_int q) (goto q (Writing (next w)) (make w)))). split.
    { eapply alone_write; [cbn; apply lookup_insert_eq|apply goto_at]. }
    unfold round_ends. rewrite goto_at. split; [rewrite get_lockfile_new by (try done; by rewrite Hp); done|].
    split_and!; [done..|]. cbn. exists (put_int q). by rewrite !lookup_insert_eq, Hp. }
  destruct Hf as (d & Ht & Hf). destruct (decide (d = [])) as [->|Hne].
  { destruct (round_writes n q s (goto q (Writing i) w) i [] Hq) as (w' & Hw' & Hr);
      [done|done|done|apply goto_at|by apply get_lockfile_empty; [..|by rewrite Hp|]|].
    exists 5%nat, w'. split; [|done].
    rewrite (alone_call _ q Begin w (goto q Reopen w)) by (done || (cbn [lock_call]; by rewrite Hn)).
    rewrite (alone_call _ q Reopen _ (goto q (Reading i) w)).
    2: apply goto_at. 2: { cbn [lock_call lockname goto]. rewrite Hn. by rewrite goto_goto. }
    rewrite (alone_call _ q (Reading i) _ (goto q (Writing i) w)); [done|apply goto_at|].
    cbn [lock_call texts goto]. rewrite Ht. cbn. by rewrite goto_goto. }
  destruct (Hd d Hf) as [?|[x Hx]]; [done|].
  assert (Hk : 0 < Z.min 63 (zlen d) <= 64).
  { destruct d; [done|]. rewrite zlen_cons. pose proof (zlen_nonneg d). lia. }
  assert (Htake : ztake (xfer (Z.min 63 (zlen d))) d = ztake 63 d).
  { rewrite whole by done. destruct (Z.le_gt_cases (zlen d) 63); [rewrite Z.min_r, !ztake_all by lia|rewrite Z.min_l by lia]; done. }
  pose proof (get_lockfile_old no_fault n (blocking q) f s d Hf) as Hg. cbv zeta in Hg.
  rewrite (proj2 (Z.eqb_neq _ _)), Htake, Hx in Hg by lia. erewrite ibind_val in Hg by done. erewrite ibind_val in Hg by done.
  rewrite Hp in Hg. destruct (cast_int x =? q) eqn:Ex.
  { exists (3 + 0)%nat. eexists. rewrite (alone_read q i d w Hb Hn Ht Hne x 0 Hx), Ex. split; [done|].
    unfold round_ends. by rewrite goto_at. }
  destruct (running_pid_spec no_fault (cast_int x) s Hok) as (b & Hr & Hbr). erewrite ibind_val in Hg by done.
  assert (Eb : bool_decide (cast_int x ∈ alive w) = b).
  { destruct b; [apply bool_decide_eq_true_2, Ha, Hbr; done|apply bool_decide_eq_false_2; intros Hin%Ha%Hbr; done]. }
  assert (Hread : forall m, alone (4 + m) q w
    = alone m q (goto q (if b then if blocking q then Sleeping else Threw would_block else Writing i) w)).
  { intros m. change (4 + m)%nat with (3 + S m)%nat. by rewrite (alone_read q i d w Hb Hn Ht Hne x (S m) Hx), Ex, alone_judge, Eb. }
  destruct b; cbn [negb] in Hg.
  - exists 4%nat. eexists. split; [exact (Hread 0%nat)|]. unfold round_ends. rewrite goto_at. by destruct (blocking q).
  - destruct (round_writes n q s (goto q (Writing i) w) i d Hq) as (w' & Hw' & Hre); [done|done|done|apply goto_at| |].
    { rewrite Hg. by rewrite (write_pid_ok no_fault whole f d s) by (by rewrite Hp). }
    exists (4 + 2)%nat, w'. split; [|done]. by rewrite (Hread 2%nat).
Qed.

(** The others are not touched. *)
Lemma alone_frame k q : forall w w', alone k q w = Some w' ->
  alive w' = alive w /\ forall q', q' <> q -> procs w' !! q' = procs w !! q'.
Proof.
  induction k as [|k IH]; intros w w' Hk; cbn [alone] in Hk; [by injection Hk as <-|].
  destruct (lock_step q w) as [w1|] eqn:E; [|discriminate]. destruct (IH w1 w' Hk) as [-> Hpr].
  assert (H1 : alive w1 = alive w /\ forall q', q' <> q -> procs w1 !! q' = procs w !! q').
  { unfold lock_step in E. destruct (procs w !! q) as [c|]; [|discriminate]. cbn in E. unfold lock_call, mbind, option_bind in E.
    repeat case_match; simplify_eq; (split; [done|]); intros q' Hq'; cbn; by rewrite lookup_insert_ne. }
  destruct H1 as [-> H1]. split; [done|]. intros q' Hq'. by rewrite Hpr, H1.
Qed.

(** Nobody else asks for the lock. *)
Lemma alone_settles k q s w w' : alone k q w = Some w' -> pid s = q -> q ∈ alive w -> (forall q', q' <> q -> procs w !! q' = None) ->
  procs w' !! q = Some Locked -> shows q (own f s) w' -> exists i, settled q i w'.
Proof.
  intros Hk Hp Hal Hno Hl (_ & _ & _ & Hf). destruct (alone_frame k q w w' Hk) as [Ha Hpr]. cbn in Hf. rewrite lookup_insert_eq in Hf.
  destruct (lockname w') as [i|] eqn:Hn; [|by destruct Hf]. destruct Hf as (d & Ht & [= <-]). exists i.
  split; [done|by rewrite <-Hp|by rewrite Ha|done|]. intros q' c Hq' Hc. by rewrite Hpr, Hno in Hc.
Qed.
End Steps.
