(* ===== verification/BigHashTable.v ===== *)
(** * The table below its root

    Where the buckets of a hash are, the invariant of a table that no process
    has locked, and what opening, writing and closing a bucket does to it. *)
From stdpp Require Import gmap.
From S2P Require Import Prelude Regex Utils Iostream BigHash BigHashFs BigHashLock.

Local Open Scope io_scope.

(** ** Layout *)
Definition hex_ok (h : list Z) : Prop := length h = 40%nat /\ (47 ∉ h).
Definition valid (h : list Z) (i : nat) : Prop := hex_ok h /\ (i < MAXBUCKETS)%nat.

Section Layout.
Context (root : path).

Definition top (h : list Z) : path := root ++ 47 :: ztake 2 h.
Definition base (h : list Z) : path := top h ++ 47 :: zseg 2 40 h.
Definition dir (h : list Z) (i : nat) : path := bucket_path (base h) i.
Definition lockf (h : list Z) (i : nat) : path := dir h i ++ LOCK_EXT.
Definition keyf (h : list Z) (i : nat) : path := dir h i ++ 47 :: KEY_FNAME.
Definition valf (h : list Z) (i : nat) : path := dir h i ++ 47 :: VALUE_FNAME.

Lemma put_small i : (i < MAXBUCKETS)%nat -> put_int (Z.of_nat i) = [48 + Z.of_nat i].
Proof. unfold MAXBUCKETS. intros. destruct i as [|[|[|i]]]; [done..|lia]. Qed.

Lemma dir_eq h i : valid h i ->
  dir h i = (root ++ [47]) ++ ztake 2 h ++ [47] ++ zseg 2 40 h ++ [45; 48 + Z.of_nat i].
Proof.
  intros [_ Hi]. unfold dir, bucket_path, base, top. rewrite put_small by done.
  cbn. rewrite <-!app_assoc. cbn. by rewrite <-?app_assoc.
Qed.

Lemma hex_parts h : hex_ok h -> length (ztake 2 h) = 2%nat /\ length (zseg 2 40 h) = 38%nat /\ h = ztake 2 h ++ zseg 2 40 h.
Proof.
  intros [Hl _]. unfold zseg, ztake, zdrop. rewrite !length_take, length_drop, Hl. split_and!; [done..|].
  rewrite (take_ge (drop _ _)) by (rewrite length_drop, Hl; cbn; lia). by rewrite take_drop.
Qed.

Lemma top_len h : hex_ok h -> length (top h) = (length root + 3)%nat.
Proof. intros H. unfold top. rewrite length_app. cbn [length]. destruct (hex_parts h H) as (-> & _). lia. Qed.

Lemma dir_len h i : valid h i -> length (dir h i) = (length root + 44)%nat.
Proof.
  intros H. rewrite dir_eq by done. destruct H as [H _]. destruct (hex_parts h H) as (H2 & H38 & _).
  rewrite !length_app, H2, H38. cbn. lia.
Qed.

Lemma lockf_len h i : valid h i -> length (lockf h i) = (length root + 49)%nat.
Proof. intros. unfold lockf. rewrite length_app, dir_len by done. cbn. lia. Qed.
Lemma keyf_len h i : valid h i -> length (keyf h i) = (length root + 52)%nat.
Proof. intros. unfold keyf. rewrite length_app, dir_len by done. cbn. lia. Qed.
Lemma valf_len h i : valid h i -> length (valf h i) = (length root + 54)%nat.
Proof. intros. unfold valf. rewrite length_app, dir_len by done. cbn. lia. Qed.

Lemma dir_inj h i h' j : valid h i -> valid h' j -> dir h i = dir h' j -> h = h' /\ i = j.
Proof.
  intros H H' E. rewrite !dir_eq in E by done. destruct H as [H _], H' as [H' _].
  destruct (hex_parts h H) as (Ha & Hb & Hc), (hex_parts h' H') as (Ha' & Hb' & Hc').
  apply app_inv_head in E. apply app_inj_1 in E as [E1 E]; [|by rewrite Ha, Ha'].
  apply app_inv_head in E. apply app_inj_1 in E as [E2 E]; [|by rewrite Hb, Hb'].
  split; [by rewrite Hc, Hc', E1, E2|]. injection E as E. lia.
Qed.

Lemma lockf_inj h i h' j : valid h i -> valid h' j -> lockf h i = lockf h' j -> h = h' /\ i = j.
Proof. intros ?? E%app_inv_tail. by apply dir_inj. Qed.
Lemma keyf_inj h i h' j : valid h i -> valid h' j -> keyf h i = keyf h' j -> h = h' /\ i = j.
Proof. intros ?? E%app_inv_tail. by apply dir_inj. Qed.
Lemma valf_inj h i h' j : valid h i -> valid h' j -> valf h i = valf h' j -> h = h' /\ i = j.
Proof. intros ?? E%app_inv_tail. by apply dir_inj. Qed.

(** ** The directories of the files *)
Hypothesis root_ok : root <> [].

Lemma sub_no_slash h : hex_ok h -> (47 ∉ ztake 2 h) /\ (47 ∉ zseg 2 40 h).
Proof.
  intros H. destruct (hex_parts h H) as (_ & _ & E). destruct H as [_ H]. rewrite E in H.
  by apply not_elem_of_app in H.
Qed.

Lemma topdir_nonempty h : top h <> [].
Proof. unfold top. by destruct root. Qed.

Lemma parents_top h : hex_ok h -> parents (top h) = parents root ++ [root].
Proof. intros H. apply parents_app; [done|]. by apply sub_no_slash. Qed.

(** A name in the directory of the hash. *)
Lemma parents_in_top h n : hex_ok h -> (47 ∉ n) -> parents (base h ++ n) = parents (top h) ++ [top h].
Proof.
  intros H Hn. unfold base. rewrite <-app_assoc. cbn [app]. apply parents_app; [apply topdir_nonempty|].
  apply not_elem_of_app. split; [by apply sub_no_slash|done].
Qed.

Lemma ext_no_slash i : (i < MAXBUCKETS)%nat -> (47 ∉ str "-" ++ put_int (Z.of_nat i)).
Proof.
  unfold MAXBUCKETS. intros Hi. destruct i as [|[|[|i]]]; [..|lia]; apply (bool_decide_unpack _); by vm_compute.
Qed.

Lemma parents_dir h i : valid h i -> parents (dir h i) = (parents root ++ [root]) ++ [top h].
Proof.
  intros [H Hi]. unfold dir, bucket_path. rewrite parents_in_top by (done || by apply ext_no_slash).
  by rewrite parents_top.
Qed.

Lemma parents_lockf h i : valid h i -> parents (lockf h i) = (parents root ++ [root]) ++ [top h].
Proof.
  intros [H Hi]. unfold lockf, dir, bucket_path. rewrite <-app_assoc, parents_in_top; [by rewrite parents_top|done|].
  apply not_elem_of_app. split; [by apply ext_no_slash|]. apply (bool_decide_unpack _). by vm_compute.
Qed.

Lemma dir_nonempty h i : dir h i <> [].
Proof. unfold dir, bucket_path. intros E%(f_equal length). rewrite !length_app in E. cbn in E. lia. Qed.

Lemma parents_keyf h i : parents (keyf h i) = parents (dir h i) ++ [dir h i].
Proof. apply parents_app; [apply dir_nonempty|]. apply (bool_decide_unpack _). by vm_compute. Qed.
Lemma parents_valf h i : parents (valf h i) = parents (dir h i) ++ [dir h i].
Proof. apply parents_app; [apply dir_nonempty|]. apply (bool_decide_unpack _). by vm_compute. Qed.

Lemma parents_root_len p : p ∈ parents root ++ [root] -> (length p <= length root)%nat.
Proof. rewrite elem_of_app, list_elem_of_singleton. intros [H%parents_len| ->]; lia. Qed.
End Layout.

#[export] Hint Resolve dir_nonempty topdir_nonempty : core.

(** Paths of different lengths differ. *)
Ltac plen := intros E; apply (f_equal length) in E;
  rewrite ?lockf_len, ?keyf_len, ?valf_len, ?dir_len, ?top_len in E by done; lia.

(** ** What is seen of a bucket *)
Record view := mk_view { v_dir : option node; v_lock : option node; v_key : option node; v_val : option node }.

Definition view_at (root : path) (s : os) (h : list Z) (i : nat) : view :=
  mk_view (files s !! dir root h i) (files s !! lockf root h i) (files s !! keyf root h i) (files s !! valf root h i).

(** The directories above the buckets. *)
Definition upper (root : path) (p : path) : Prop := p ∈ parents root ++ [root] \/ exists h, hex_ok h /\ p = top root h.

Lemma upper_len root p : root <> [] -> upper root p -> (length p <= length root + 3)%nat.
Proof.
  intros Hr [Hp|(h & Hh & ->)].
  - pose proof (parents_root_len root p Hp). lia.
  - by rewrite top_len.
Qed.

(** [s'] is [s] with the bucket [i] of [h] now seen as [w]. *)
Record moves (root : path) (s s' : os) (h : list Z) (i : nat) (w : view) : Prop := {
  mv_pid : pid s' = pid s;
  mv_proc : proc s' = proc s;
  mv_upper : forall p, upper root p -> not_file s p -> not_file s' p;
  mv_here : view_at root s' h i = w;
  mv_else : forall h' j, valid h' j -> (h' <> h \/ j <> i) -> view_at root s' h' j = view_at root s h' j
}.

Lemma other_bucket (h h' : list Z) (i j : nat) : ~ (h' = h /\ j = i) -> h' <> h \/ j <> i.
Proof. intros H. destruct (decide (h' = h)) as [->|]; [right|by left]. intros ->. by apply H. Qed.

Section Moves.
Context (root : path).
Hypothesis root_ne : root <> [].

Lemma moves_id s h i : moves root s s h i (view_at root s h i).
Proof. by constructor. Qed.

Lemma moves_trans s s1 s2 h i w w' : moves root s s1 h i w -> moves root s1 s2 h i w' -> moves root s s2 h i w'.
Proof.
  intros [] []. constructor; [congruence..|auto|done|]. intros h' j Hv Hne. by rewrite mv_else1, mv_else0.
Qed.

(** A change that only touches the files of one bucket. *)
Lemma moves_upd f s h i w : valid h i ->
  (forall q m, q <> lockf root h i -> q <> keyf root h i -> q <> valf root h i -> f m !! q = m !! q) ->
  view_at root (upd_files f s) h i = w -> moves root s (upd_files f s) h i w.
Proof.
  intros Hv Hf Hw. constructor; [done..| |done|].
  - intros p Hp Hn. unfold not_file in *. cbn. rewrite Hf; [done|..]; apply (upper_len root p root_ne) in Hp; intros ->.
    1: rewrite lockf_len in Hp by done; lia.
    1: rewrite keyf_len in Hp by done; lia.
    rewrite valf_len in Hp by done; lia.
  - intros h' j Hj Hne. unfold view_at. cbn. f_equal; apply Hf; try plen;
      intros E; first [apply (lockf_inj root) in E as [-> ->] | apply (keyf_inj root) in E as [-> ->] | apply (valf_inj root) in E as [-> ->]];
      try done; by destruct Hne.
Qed.

Lemma moves_lock n s h i : valid h i ->
  moves root s (upd_files <[lockf root h i := n]> s) h i
    (mk_view (files s !! dir root h i) (Some n) (files s !! keyf root h i) (files s !! valf root h i)).
Proof.
  intros Hv. apply moves_upd; [done| |]; [intros; by rewrite lookup_insert_ne|].
  unfold view_at. cbn. rewrite lookup_insert_eq, !lookup_insert_ne by plen. done.
Qed.

Lemma moves_key n s h i : valid h i ->
  moves root s (upd_files <[keyf root h i := n]> s) h i
    (mk_view (files s !! dir root h i) (files s !! lockf root h i) (Some n) (files s !! valf root h i)).
Proof.
  intros Hv. apply moves_upd; [done| |]; [intros; by rewrite lookup_insert_ne|].
  unfold view_at. cbn. rewrite lookup_insert_eq, !lookup_insert_ne by plen. done.
Qed.

Lemma moves_val n s h i : valid h i ->
  moves root s (upd_files <[valf root h i := n]> s) h i
    (mk_view (files s !! dir root h i) (files s !! lockf root h i) (files s !! keyf root h i) (Some n)).
Proof.
  intros Hv. apply moves_upd; [done| |]; [intros; by rewrite lookup_insert_ne|].
  unfold view_at. cbn. rewrite lookup_insert_eq, !lookup_insert_ne by plen. done.
Qed.

Lemma moves_unlock s h i : valid h i ->
  moves root s (upd_files (delete (lockf root h i)) s) h i
    (mk_view (files s !! dir root h i) None (files s !! keyf root h i) (files s !! valf root h i)).
Proof.
  intros Hv. apply moves_upd; [done| |]; [intros; by rewrite lookup_delete_ne|].
  unfold view_at. cbn. rewrite lookup_delete_eq, !lookup_delete_ne by plen. done.
Qed.

(** New directories. *)
Lemma added_same p s s' q : dirs_added p s s' -> q ∉ parents p ++ [p] -> files s' !! q = files s !! q.
Proof. intros (_ & _ & _ & Ha) Hq. destruct (Ha q) as [|(_ & _ & ?)]; done. Qed.

Lemma added_not_file p s s' q : dirs_added p s s' -> not_file s q -> not_file s' q.
Proof.
  intros (_ & _ & _ & Ha) Hq. unfold not_file in *. destruct (Ha q) as [->|(_ & -> & _)]; done.
Qed.

Lemma in_upper h q : hex_ok h -> q ∈ (parents root ++ [root]) ++ [top root h] -> (length q <= length root + 3)%nat.
Proof.
  intros Hh [Hq| ->%list_elem_of_singleton]%elem_of_app; [|by rewrite top_len].
  pose proof (parents_root_len root q Hq). lia.
Qed.

Lemma moves_top s s' h i : valid h i -> dirs_added (top root h) s s' -> moves root s s' h i (view_at root s h i).
Proof.
  intros [Hh Hi] Ha. assert (forall q, (length root + 3 < length q)%nat -> files s' !! q = files s !! q) as Hs.
  { intros q Hq. apply (added_same _ _ _ _ Ha). rewrite parents_top by done. intros H%in_upper; [lia|done]. }
  assert (forall h' j, valid h' j -> view_at root s' h' j = view_at root s h' j) as Hv.
  { intros h' j Hj. unfold view_at. rewrite !Hs; [done|..];
      rewrite ?lockf_len, ?keyf_len, ?valf_len, ?dir_len by done; lia. }
  pose proof Ha as (_ & Hpr & Hpi & _). constructor; [done..| |by apply Hv|auto].
  intros p _. by eapply added_not_file.
Qed.

Lemma moves_dir s s' h i : valid h i -> dirs_added (dir root h i) s s' ->
  moves root s s' h i (mk_view (Some Dir) (files s !! lockf root h i) (files s !! keyf root h i) (files s !! valf root h i)).
Proof.
  intros Hv Ha. assert (forall q, (length root + 3 < length q)%nat -> q <> dir root h i -> files s' !! q = files s !! q) as Hs.
  { intros q Hq Hne. apply (added_same _ _ _ _ Ha). rewrite parents_dir by done.
    intros [H%in_upper| ->%list_elem_of_singleton]%elem_of_app; [lia|apply Hv|done]. }
  pose proof Ha as (Hd & Hpr & Hpi & _). constructor; [done..| | |].
  - intros p _. by eapply added_not_file.
  - unfold view_at. rewrite Hd, !Hs; [done|try plen..];
      rewrite ?lockf_len, ?keyf_len, ?valf_len by done; lia.
  - intros h' j Hj Hne. unfold view_at.
    rewrite !Hs; [done|try plen..]; rewrite ?lockf_len, ?keyf_len, ?valf_len, ?dir_len by done; try lia.
    intros E. apply dir_inj in E as [-> ->]; [|done..]. by destruct Hne.
Qed.
End Moves.
