(* ===== verification/BigHashClaims.v ===== *)
(** * What the hash table promises

    A table that no process has locked holds, for every hash, up to
    [MAXBUCKETS] buckets.  Opening the bucket of a key, storing and reading
    its value and closing it implement a map from keys to values, whatever
    keys share a hash.  A lock that is settled keeps other processes out, whatever
    they do; one that is being taken does not. *)
From stdpp Require Import gmap.
From S2P Require Import Prelude Regex Utils Iostream BigHash BigHashFs BigHashLock BigHashTable.

Local Open Scope io_scope.

(** ** The hash of a key *)
Lemma hex_byte_no_slash b x y : byte_ok b -> hex_byte b = Some [x; y] -> x <> 47 /\ y <> 47.
Proof.
  intros Hb. set (ok := fun b => match hex_byte b with
    | Some [x; y] => negb (x =? 47) && negb (y =? 47) | _ => false end).
  assert (ok b = true) as Hok by (apply (forall_range ok 256); [vm_compute; reflexivity|exact Hb]).
  unfold ok in Hok. intros E. rewrite E in Hok. apply andb_true_iff in Hok as [Hx Hy].
  by rewrite !negb_true_iff, !Z.eqb_neq in *.
Qed.

Lemma hex_bytes_no_slash bs : bytes_ok bs -> forall h : list (list Z), mapM hex_byte bs = Some h -> (47 ∉ mjoin h).
Proof.
  induction 1 as [|b bs Hb _ IH]; intros h.
  - intros [= <-]. apply not_elem_of_nil.
  - destruct (hex_byte_ok b Hb) as (x & y & Hx & _). cbn [mapM mbind option_bind]. rewrite Hx. cbn.
    destruct (mapM hex_byte bs) as [h'|]; [|done]. intros [= <-].
    change (mjoin ([x; y] :: h')) with (x :: y :: mjoin h'). destruct (hex_byte_no_slash b x y Hb Hx).
    rewrite !not_elem_of_cons. split_and!; [done..|]. by apply IH.
Qed.

Definition hex `{OpenSSL} (k : list Z) : list Z := default [] (sha1_hex (SHA1 k)).

Lemma hex_spec `{OpenSSL} k : sha1_hex (SHA1 k) = Some (hex k) /\ hex_ok (hex k).
Proof.
  unfold hex. destruct (SHA1_law k) as [Hl Hb].
  destruct (hex_bytes_ok _ Hb [] 20%nat (eq_sym Hl) []) as (h & Hm & _ & Hz).
  unfold sha1_hex. rewrite ztake_all by (unfold zlen; lia). rewrite Hm. cbn. split; [done|].
  split; [unfold zlen in Hz; lia|]. by eapply hex_bytes_no_slash.
Qed.

(** ** The abstract table *)
Inductive bucket := Unused | Keyless | Holds (k : list Z) (v : option (list Z)).

Definition tab := list Z -> nat -> bucket.

Definition view_of (b : bucket) : view :=
  match b with
  | Unused => mk_view None None None None
  | Keyless => mk_view (Some Dir) None None None
  | Holds k v => mk_view (Some Dir) None (Some (File k)) (File <$> v)
  end.

Definition lock_view (w : view) (p : Z) : view := mk_view (v_dir w) (Some (File (put_int p))) (v_key w) (v_val w).

(** No lock is held, and the files are those of [t]. *)
Definition represents (root : path) (s : os) (t : tab) : Prop :=
  (forall p, upper root p -> not_file s p)
  /\ forall h i, valid h i -> view_at root s h i = view_of (t h i).

Definition usable (k : list Z) (b : bucket) : bool :=
  match b with Holds k' _ => bool_decide (k' = k) | _ => true end.

Fixpoint slot_from (n i : nat) (k : list Z) (bs : nat -> bucket) : option nat :=
  match n with
  | O => None
  | S n => if usable k (bs i) then Some i else slot_from n (S i) k bs
  end.

(** The bucket that the constructor takes for a key. *)
Definition slot (k : list Z) (bs : nat -> bucket) : option nat := slot_from MAXBUCKETS 0 k bs.

Definition opened (k : list Z) (b : bucket) : bucket := match b with Holds k' v => Holds k' v | _ => Holds k None end.
Definition value_of (b : bucket) : list Z := match b with Holds _ (Some v) => v | _ => [] end.

Definition upd_tab (t : tab) (h : list Z) (i : nat) (b : bucket) : tab :=
  fun h' j => if decide (h' = h /\ j = i) then b else t h' j.

Lemma slot_from_bound n : forall i k bs j, slot_from n i k bs = Some j -> (i <= j < i + n)%nat /\ usable k (bs j) = true.
Proof.
  induction n as [|n IH]; cbn; intros i k bs j; [done|]. destruct (usable k (bs i)) eqn:E.
  - intros [= <-]. split; [lia|done].
  - intros H%IH. destruct H as [H1 H2]. split; [lia|done].
Qed.

Section Session.
Context `{Posix} `{BoostPath} `{OpenSSL}.
Hypothesis no_fault : forall c p, fault c p = None.
Hypothesis whole : forall n, 0 < n <= 64 -> xfer n = n.
Context (root : path).
Hypothesis root_ne : root <> [].
Hypothesis root_dir : last root <> Some 47.
Context (n : nat).

(** *** Names *)
Lemma append_top k : path_append root (ztake 2 (hex k)) = top root (hex k).
Proof.
  destruct (hex_spec k) as [_ Hh]. apply path_append_law; [done..|]. destruct (sub_no_slash _ Hh) as [Hn _].
  intros E%head_Some_elem_of. done.
Qed.

Lemma append_base k : path_append (top root (hex k)) (zseg 2 40 (hex k)) = base root (hex k).
Proof.
  destruct (hex_spec k) as [_ Hh]. destruct (sub_no_slash _ Hh) as [Ht Hn], (hex_parts _ Hh) as (H2 & _).
  apply path_append_law; [by apply topdir_nonempty| |by intros E%head_Some_elem_of].
  unfold top. rewrite last_app_cons. destruct (ztake 2 (hex k)) as [|c r] eqn:E; [done|].
  rewrite last_cons_cons. intros [l El]%last_Some. apply Ht. rewrite El. apply elem_of_app. right. apply list_elem_of_here.
Qed.

Lemma dir_last h i : valid h i -> last (dir root h i) <> Some 47.
Proof.
  intros [_ Hi]. unfold dir, bucket_path. rewrite put_small by done. rewrite app_assoc, last_app. cbn. intros [=]. lia.
Qed.

Lemma append_key h i : valid h i -> path_append (dir root h i) KEY_FNAME = keyf root h i.
Proof. intros Hv. by apply path_append_law; [|apply dir_last|]. Qed.
Lemma append_val h i : valid h i -> path_append (dir root h i) VALUE_FNAME = valf root h i.
Proof. intros Hv. by apply path_append_law; [|apply dir_last|]. Qed.

Definition handle (h : list Z) (i : nat) (k : list Z) (d : path) : big_hash_bucket :=
  mk_bucket (lockf root h i) k d true false.

(** *** The steps of the constructor *)
Lemma locked_handle h i k d : locked (handle h i k d) = true.
Proof.
  unfold locked, handle, lockf. cbn. case_bool_decide as E; [|done]. apply app_eq_nil in E as [E _].
  by apply dir_nonempty in E.
Qed.

Lemma no_parent_lockf m h i : valid h i -> m !! top root h = Some Dir -> no_parent (lockf root h i) m = None.
Proof. intros Hv Ht. unfold no_parent. rewrite parents_lockf, last_snoc, Ht by done. done. Qed.

Lemma lock_ok s h i k d : pid_ok (pid s) -> valid h i -> files s !! top root h = Some Dir ->
  files s !! lockf root h i = None ->
  lock (S n) (handle h i k d) s = Some (Value tt, own (lockf root h i) s).
Proof.
  intros Hp Hv Ht Hl. unfold lock. rewrite locked_handle. apply get_lockfile_new; [done..|].
  by apply no_parent_lockf.
Qed.

Lemma own_lookup s h i q : q <> lockf root h i -> files (own (lockf root h i) s) !! q = files s !! q.
Proof. intros Hq. cbn. by rewrite lookup_insert_ne. Qed.

Lemma unlock_ok s h i k d c : files s !! lockf root h i = Some (File c) ->
  unlock (handle h i k d) s = Some (Value (mk_bucket [] k d true false), upd_files (delete (lockf root h i)) s).
Proof.
  intros Hl. unfold unlock. rewrite locked_handle. unfold ibind, unlink, handle. cbn. by rewrite no_fault, Hl.
Qed.

Lemma unlock_own s h i k d : files s !! lockf root h i = None ->
  unlock (handle h i k d) (own (lockf root h i) s) = Some (Value (mk_bucket [] k d true false), s).
Proof.
  intros Hl. erewrite unlock_ok by (cbn; apply lookup_insert_eq). do 2 f_equal. unfold own. rewrite upd_upd.
  apply upd_files_id. by rewrite delete_insert_id.
Qed.

Lemma read_key_ok s h i k : valid h i -> files s !! keyf root h i = Some (File k) ->
  read_key (dir root h i) s = Some (Value (Some k), s).
Proof.
  intros Hv Hk. unfold read_key. rewrite append_key by done. unfold ibind at 1, open_read, iget at 1.
  rewrite no_fault, Hk, no_fault, read_all_ok by done. done.
Qed.

Lemma read_key_none s h i : valid h i -> files s !! keyf root h i = None ->
  read_key (dir root h i) s = Some (Value None, s).
Proof.
  intros Hv Hk. unfold read_key. rewrite append_key by done. unfold ibind at 1, open_read, iget at 1.
  by rewrite no_fault, Hk.
Qed.

(** Writing a whole file of a bucket. *)
Lemma write_key_ok s h i k : valid h i -> files s !! dir root h i = Some Dir -> files s !! keyf root h i <> Some Dir ->
  write_key (handle h i k (dir root h i)) s = Some (Value tt, upd_files <[keyf root h i := File k]> s).
Proof.
  intros Hv Hd Hk. unfold write_key. cbn [m_bucket_dir m_key handle]. rewrite append_key by done.
  assert (open_trunc (keyf root h i) s = Some (Value None, upd_files <[keyf root h i := File []]> s)) as E.
  { unfold open_trunc. rewrite no_fault. unfold no_parent. rewrite parents_keyf, last_snoc, Hd.
    by destruct (files s !! keyf root h i) as [[]|]. }
  erewrite ibind_val by exact E. rewrite no_fault, write_all_ok by done. erewrite ibind_val by done.
  unfold iput. rewrite upd_upd. do 2 f_equal. unfold upd_files. f_equal. apply insert_insert_eq.
Qed.

Lemma set_ok s h i k v : valid h i -> files s !! dir root h i = Some Dir -> files s !! valf root h i <> Some Dir ->
  set (S n) v (handle h i k (dir root h i)) s = Some (Value tt, upd_files <[valf root h i := File v]> s).
Proof.
  intros Hv Hd Hk. unfold set. rewrite locked_handle. cbn [erased handle]. erewrite ibind_val by done.
  cbn [m_bucket_dir handle]. rewrite append_val by done.
  assert (open_trunc (valf root h i) s = Some (Value None, upd_files <[valf root h i := File []]> s)) as E.
  { unfold open_trunc. rewrite no_fault. unfold no_parent. rewrite parents_valf, last_snoc, Hd.
    by destruct (files s !! valf root h i) as [[]|]. }
  erewrite ibind_val by exact E. rewrite no_fault, write_all_ok by done. erewrite ibind_val by done.
  unfold iput. rewrite upd_upd. do 2 f_equal. unfold upd_files. f_equal. apply insert_insert_eq.
Qed.

Lemma get_ok s h i k : valid h i -> files s !! valf root h i <> Some Dir ->
  get (handle h i k (dir root h i)) s
  = Some (Value (match files s !! valf root h i with Some (File v) => v | _ => [] end), s).
Proof.
  intros Hv Hd. unfold get. cbn [erased handle m_bucket_dir]. rewrite append_val by done.
  erewrite ibind_val by done. destruct (files s !! valf root h i) as [[v|]|] eqn:E; [|done..]. cbn [negb].
  erewrite ibind_val by done. rewrite no_fault, E, no_fault, read_all_ok by done. done.
Qed.

(** The bucket [i] is taken: locked, with its directory and its key. *)
Definition taken (s s' : os) (h : list Z) (i : nat) (k : list Z) (b : bucket) : Prop :=
  moves root s s' h i (lock_view (view_of (opened k b)) (pid s)).

Lemma view_files s h i w : view_at root s h i = w ->
  files s !! dir root h i = v_dir w /\ files s !! lockf root h i = v_lock w
  /\ files s !! keyf root h i = v_key w /\ files s !! valf root h i = v_val w.
Proof. by intros <-. Qed.

(** A bucket that is not in use, or has no key, gets a directory and the key. *)
Lemma fresh_taken s s' h i k w : valid h i -> view_at root s h i = w -> v_val w = None -> v_key w = None ->
  moves root (own (lockf root h i) s) s' h i (mk_view (Some Dir) (Some (File (put_int (pid s)))) None None) ->
  write_key (handle h i k (dir root h i)) s' = Some (Value tt, upd_files <[keyf root h i := File k]> s')
  /\ moves root s (upd_files <[keyf root h i := File k]> s') h i (lock_view (view_of (Holds k None)) (pid s)).
Proof.
  intros Hv Hw Hval Hkey Hm. destruct (view_files _ _ _ _ (mv_here _ _ _ _ _ _ Hm)) as (Hd & Hl & Hk & Hva).
  split; [apply write_key_ok; [done..|]; by rewrite Hk|].
  eapply moves_trans; [apply moves_lock; done|]. eapply moves_trans; [exact Hm|].
  pose proof (moves_key root root_ne (File k) s' h i Hv) as Hmk. rewrite Hd, Hl, Hva in Hmk. exact Hmk.
Qed.

(** One round of the loop, by what the bucket is. *)
Section Round.
Context (s : os) (h : list Z) (i : nat) (k : list Z) (m : nat).
Hypothesis Hp : pid_ok (pid s).
Hypothesis Hv : valid h i.
Hypothesis Htop : files s !! top root h = Some Dir.

Lemma try_access w : view_at root s h i = w -> v_lock w = None -> v_dir w <> None -> not_file s (dir root h i) ->
  try_buckets (S n) (S m) i (base root h) k s
  = (buck_key <- read_key (dir root h i) ;;
     match buck_key with
     | Some k' =>
         if bool_decide (k' = k) then iret (handle h i k (dir root h i))
         else _ <- unlock (handle h i k []) ;; try_buckets (S n) m (S i) (base root h) k
     | None => write_key (handle h i k (dir root h i)) ;; iret (handle h i k (dir root h i))
     end) (own (lockf root h i) s).
Proof.
  intros (Hd & Hl & _)%view_files Hnl Hnd Hf. rewrite Hnl in Hl. cbn [try_buckets].
  erewrite ibind_val by (apply lock_ok; done). erewrite ibind_val by done.
  unfold not_file in Hf. change (bucket_path (base root h) i) with (dir root h i).
  rewrite no_fault, own_lookup by plen. rewrite Hd in Hf |- *. by destruct (v_dir w) as [[]|].
Qed.

Lemma try_holds k' v : view_at root s h i = view_of (Holds k' v) ->
  try_buckets (S n) (S m) i (base root h) k s
  = if bool_decide (k' = k) then Some (Value (handle h i k (dir root h i)), own (lockf root h i) s)
    else try_buckets (S n) m (S i) (base root h) k s.
Proof.
  intros Hw. destruct (view_files _ _ _ _ Hw) as (Hd & Hl & Hk & _).
  rewrite (try_access _ Hw) by first [done | unfold not_file; by rewrite Hd].
  erewrite ibind_val by (apply read_key_ok; [done|]; rewrite own_lookup by plen; exact Hk).
  cbv beta iota. case_bool_decide; [done|]. by erewrite ibind_val by (apply unlock_own; done).
Qed.

Lemma try_keyless : view_at root s h i = view_of Keyless ->
  exists s', try_buckets (S n) (S m) i (base root h) k s = Some (Value (handle h i k (dir root h i)), s')
             /\ taken s s' h i k Keyless.
Proof.
  intros Hw. destruct (view_files _ _ _ _ Hw) as (Hd & Hl & Hk & Hva). cbn in Hd, Hl, Hk, Hva.
  destruct (fresh_taken s (own (lockf root h i) s) h i k _ Hv Hw) as [Hwk Hmv]; [done..| |].
  - pose proof (moves_lock root root_ne (File (put_int (pid s))) s h i Hv) as Hm. rewrite Hd, Hk, Hva in Hm.
    rewrite <-(mv_here _ _ _ _ _ _ Hm). apply moves_id.
  - eexists. split; [|exact Hmv]. rewrite (try_access _ Hw) by first [done | unfold not_file; by rewrite Hd].
    erewrite ibind_val by (apply read_key_none; [done|]; rewrite own_lookup by plen; exact Hk).
    cbv beta iota. by erewrite ibind_val by exact Hwk.
Qed.

Lemma try_unused : (forall p, upper root p -> not_file s p) -> view_at root s h i = view_of Unused ->
  exists s', try_buckets (S n) (S m) i (base root h) k s = Some (Value (handle h i k (dir root h i)), s')
             /\ taken s s' h i k Unused.
Proof.
  intros Hu Hw. destruct (view_files _ _ _ _ Hw) as (Hd & Hl & Hk & Hva). cbn in Hd, Hl, Hk, Hva.
  destruct (create_directories_ok no_fault (dir root h i) (own (lockf root h i) s)) as (s1 & Hc & Ha).
  { intros q [Hq| ->%list_elem_of_singleton]%elem_of_app.
    - apply (mv_upper _ _ _ _ _ _ (moves_lock root root_ne _ s h i Hv)).
      + rewrite parents_dir in Hq by done. apply elem_of_app in Hq as [Hq| ->%list_elem_of_singleton]; [by left|].
        right. exists h. split; [apply Hv|done].
      + apply Hu. rewrite parents_dir in Hq by done. apply elem_of_app in Hq as [Hq| ->%list_elem_of_singleton]; [by left|].
        right. exists h. split; [apply Hv|done].
    - unfold not_file. rewrite own_lookup by plen. by rewrite Hd. }
  pose proof (moves_dir root root_ne _ _ h i Hv Ha) as Hm.
  replace (files (own (lockf root h i) s) !! lockf root h i) with (Some (File (put_int (pid s)))) in Hm
    by (cbn; by rewrite lookup_insert_eq). rewrite !own_lookup, Hk, Hva in Hm by plen.
  destruct (fresh_taken s s1 h i k _ Hv Hw) as [Hwk Hmv]; [done..|].
  eexists. split; [|exact Hmv]. cbn [try_buckets]. erewrite ibind_val by (apply lock_ok; done).
  erewrite ibind_val by done. change (bucket_path (base root h) i) with (dir root h i).
  rewrite no_fault, own_lookup, Hd by plen. unfold missing, no_parent.
  assert (hex_ok h) as Hh by apply Hv. rewrite parents_dir, last_snoc, own_lookup, Htop by first [done | plen]. cbn.
  erewrite ibind_val by exact Hc. by erewrite ibind_val by exact Hwk.
Qed.
End Round.

Lemma try_buckets_spec s t h k : pid_ok (pid s) -> hex_ok h -> represents root s t -> files s !! top root h = Some Dir ->
  forall m i, (i + m = MAXBUCKETS)%nat ->
  match slot_from m i k (t h) with
  | Some j => exists s', try_buckets (S n) m i (base root h) k s = Some (Value (handle h j k (dir root h j)), s')
                         /\ taken s s' h j k (t h j)
  | None => try_buckets (S n) m i (base root h) k s = Some (Throw (runtime_error (str "out of buckets")), s)
  end.
Proof.
  intros Hp Hh [Hu Hr] Ht. induction m as [|m IH]; intros i Hi; [done|]. cbn [slot_from].
  assert (valid h i) as Hv by (split; [done|lia]). pose proof (Hr h i Hv) as Hw.
  destruct (t h i) as [| |k' v] eqn:Eb; cbn [usable].
  - rewrite Eb. by apply try_unused.
  - rewrite Eb. by apply try_keyless.
  - rewrite (try_holds s h i k m Hp Hv Ht k' v Hw). case_bool_decide as Ek; [|apply IH; lia].
    eexists. split; [done|]. rewrite Eb. subst k'. unfold taken.
    pose proof (moves_lock root root_ne (File (put_int (pid s))) s h i Hv) as Hm.
    destruct (view_files _ _ _ _ Hw) as (Hd & Hl & Hk & Hva). rewrite Hd, Hk, Hva in Hm. exact Hm.
Qed.

Lemma finish s s' t h i b : valid h i -> represents root s t -> moves root s s' h i (view_of b) ->
  represents root s' (upd_tab t h i b).
Proof.
  intros Hv [Hu Hr] Hm. split; [intros p Hp; by apply (mv_upper _ _ _ _ _ _ Hm), Hu|].
  intros h' j Hj. unfold upd_tab. destruct (decide (h' = h /\ j = i)) as [[-> ->]|Hne].
  - apply (mv_here _ _ _ _ _ _ Hm).
  - rewrite (mv_else _ _ _ _ _ _ Hm); [by apply Hr|done|by apply other_bucket].
Qed.

Lemma added_represents s s' t h : hex_ok h -> represents root s t -> dirs_added (top root h) s s' ->
  represents root s' t.
Proof.
  intros Hh [Hu Hr] Ha. split; [intros p Hp; by eapply added_not_file; [|apply Hu]|].
  assert (valid h 0) as Hv by (split; [done|unfold MAXBUCKETS; lia]).
  pose proof (moves_top root root_ne _ _ h 0 Hv Ha) as Hm. intros h' j Hj. rewrite <-Hr by done.
  destruct (decide (h' = h /\ j = 0%nat)) as [[-> ->]|Hne]; [apply (mv_here _ _ _ _ _ _ Hm)|].
  apply (mv_else _ _ _ _ _ _ Hm); [done|by apply other_bucket].
Qed.

(** The constructor takes the slot of its key, or throws. *)
Lemma new_spec s t k : pid_ok (pid s) -> represents root s t ->
  match slot k (t (hex k)) with
  | Some i => exists s', big_hash_bucket_new (S n) root k s = Some (Value (handle (hex k) i k (dir root (hex k) i)), s')
                         /\ taken s s' (hex k) i k (t (hex k) i)
  | None => exists s', big_hash_bucket_new (S n) root k s = Some (Throw (runtime_error (str "out of buckets")), s')
                       /\ represents root s' t /\ pid s' = pid s
  end.
Proof.
  intros Hp Hr. destruct (hex_spec k) as [Hs Hh]. pose proof Hr as [Hu _].
  destruct (create_directories_ok no_fault (top root (hex k)) s) as (s1 & Hc & Ha).
  { intros q Hq. apply Hu. rewrite parents_top in Hq by done.
    apply elem_of_app in Hq as [Hq| ->%list_elem_of_singleton]; [by left|]. right. by exists (hex k). }
  pose proof Ha as (Ht & _ & Hpid & _).
  pose proof (try_buckets_spec s1 t (hex k) k) as Htry. rewrite Hpid in Htry.
  specialize (Htry Hp Hh (added_represents _ _ _ _ Hh Hr Ha) Ht MAXBUCKETS 0%nat eq_refl).
  assert (big_hash_bucket_new (S n) root k s = try_buckets (S n) MAXBUCKETS 0 (base root (hex k)) k s1) as Hnew.
  { unfold big_hash_bucket_new. rewrite Hs. erewrite ibind_val by done. rewrite append_top, append_base.
    by erewrite ibind_val by exact Hc. }
  rewrite Hnew. fold (slot k (t (hex k))) in Htry. destruct (slot k (t (hex k))) as [i|] eqn:E.
  - destruct Htry as (s' & -> & Htk). eexists. split; [done|]. unfold taken in *. rewrite Hpid in Htk.
    apply slot_from_bound in E as [Hi _]. eapply moves_trans; [|exact Htk].
    apply moves_top; [done| |exact Ha]. split; [done|unfold MAXBUCKETS in *; lia].
  - eexists. split; [exact Htry|]. split; [by eapply added_represents|done].
Qed.

(** *** Clients: a bucket is opened, used and closed. *)
Definition store (k v : list Z) : io (list Z) :=
  b <- big_hash_bucket_new (S n) root k ;; set (S n) v b ;; big_hash_bucket_delete b ;; iret [].

Definition fetch (k : list Z) : io (list Z) :=
  b <- big_hash_bucket_new (S n) root k ;; v <- get b ;; big_hash_bucket_delete b ;; iret v.

Lemma slot_valid k t i : slot k (t (hex k)) = Some i -> valid (hex k) i.
Proof. intros [Hi _]%slot_from_bound. split; [apply hex_spec|lia]. Qed.

(** Closing the bucket leaves its view without the lock. *)
Lemma delete_ok s s' h i k b : valid h i -> moves root s s' h i (lock_view (view_of b) (pid s)) ->
  exists s'', big_hash_bucket_delete (handle h i k (dir root h i)) s' = Some (Value tt, s'')
              /\ moves root s s'' h i (view_of b).
Proof.
  intros Hv Hm. destruct (view_files _ _ _ _ (mv_here _ _ _ _ _ _ Hm)) as (Hd & Hl & Hk & Hva).
  eexists. split; [unfold big_hash_bucket_delete; by erewrite ibind_val by (eapply unlock_ok; exact Hl)|].
  eapply moves_trans; [exact Hm|]. pose proof (moves_unlock root root_ne s' h i Hv) as Hu.
  rewrite Hd, Hk, Hva in Hu. by destruct b.
Qed.

Lemma opened_holds k b : usable k b = true -> exists v, opened k b = Holds k v /\ value_of b = default [] v.
Proof.
  destruct b as [| |k' v]; cbn; [eauto..|]. intros ->%bool_decide_eq_true. exists v. split; [done|]. by destruct v.
Qed.

Lemma store_spec s t k v : pid_ok (pid s) -> represents root s t ->
  match slot k (t (hex k)) with
  | Some i => exists s', store k v s = Some (Value [], s') /\ pid s' = pid s
                         /\ represents root s' (upd_tab t (hex k) i (Holds k (Some v)))
  | None => exists s', store k v s = Some (Throw (runtime_error (str "out of buckets")), s') /\ pid s' = pid s
                       /\ represents root s' t
  end.
Proof.
  intros Hp Hr. pose proof (new_spec s t k Hp Hr) as Hn. destruct (slot k (t (hex k))) as [i|] eqn:E.
  - destruct Hn as (s1 & Hn & Htk). pose proof (slot_valid k t i E) as Hv. apply slot_from_bound in E as [_ Hus].
    destruct (opened_holds k _ Hus) as (v0 & Ho & _). unfold taken in Htk. rewrite Ho in Htk.
    destruct (view_files _ _ _ _ (mv_here _ _ _ _ _ _ Htk)) as (Hd & Hl & Hk & Hva).
    assert (moves root s (upd_files <[valf root (hex k) i := File v]> s1) (hex k) i
      (lock_view (view_of (Holds k (Some v))) (pid s))) as Hm.
    { eapply moves_trans; [exact Htk|]. pose proof (moves_val root root_ne (File v) s1 (hex k) i Hv) as Hm.
      by rewrite Hd, Hl, Hk in Hm. }
    destruct (delete_ok _ _ _ _ k _ Hv Hm) as (s2 & Hdel & Hm2). exists s2.
    split_and!; [|apply (mv_pid _ _ _ _ _ _ Hm2)|by eapply finish].
    unfold store. erewrite ibind_val by exact Hn.
    erewrite ibind_val by (apply set_ok; [done..|rewrite Hva; by destruct v0]).
    by erewrite ibind_val by exact Hdel.
  - destruct Hn as (s1 & Hn & Hr1 & Hp1). exists s1. split_and!; [|done..].
    unfold store. by erewrite ibind_throw by exact Hn.
Qed.

Lemma fetch_spec s t k : pid_ok (pid s) -> represents root s t ->
  match slot k (t (hex k)) with
  | Some i => exists s', fetch k s = Some (Value (value_of (t (hex k) i)), s') /\ pid s' = pid s
                         /\ represents root s' (upd_tab t (hex k) i (opened k (t (hex k) i)))
  | None => exists s', fetch k s = Some (Throw (runtime_error (str "out of buckets")), s') /\ pid s' = pid s
                       /\ represents root s' t
  end.
Proof.
  intros Hp Hr. pose proof (new_spec s t k Hp Hr) as Hn. destruct (slot k (t (hex k))) as [i|] eqn:E.
  - destruct Hn as (s1 & Hn & Htk). pose proof (slot_valid k t i E) as Hv. apply slot_from_bound in E as [_ Hus].
    destruct (opened_holds k _ Hus) as (v0 & Ho & Hv0). unfold taken in Htk. rewrite Ho in Htk |- *.
    destruct (view_files _ _ _ _ (mv_here _ _ _ _ _ _ Htk)) as (Hd & Hl & Hk & Hva).
    destruct (delete_ok _ _ _ _ k _ Hv Htk) as (s2 & Hdel & Hm2). exists s2.
    split_and!; [|apply (mv_pid _ _ _ _ _ _ Hm2)|by eapply finish].
    unfold fetch. erewrite ibind_val by exact Hn.
    erewrite ibind_val by (apply get_ok; [done..|rewrite Hva; by destruct v0]).
    rewrite Hva, Hv0. erewrite ibind_val by exact Hdel. by destruct v0.
  - destruct Hn as (s1 & Hn & Hr1 & Hp1). exists s1. split_and!; [|done..].
    unfold fetch. by erewrite ibind_throw by exact Hn.
Qed.
End Session.

(** ** The map *)
Section Map.
Context `{OpenSSL}.

(** Buckets are used in order, a key has one bucket, in its hash. *)
Record tab_ok (t : tab) : Prop := {
  tab_order : forall h i, valid h (S i) -> (exists k v, t h (S i) = Holds k v) -> exists k v, t h i = Holds k v;
  tab_once : forall h i j k v v', valid h i -> valid h j -> t h i = Holds k v -> t h j = Holds k v' -> i = j;
  tab_hash : forall h i k v, valid h i -> t h i = Holds k v -> hex k = h
}.

Definition has (t : tab) (k v : list Z) : Prop :=
  exists i o, valid (hex k) i /\ t (hex k) i = Holds k o /\ default [] o = v.

(** The table holds the map. *)
Definition holds_map (t : tab) (m : gmap (list Z) (list Z)) : Prop := forall k v, m !! k = Some v <-> has t k v.

(** Other keys of the same hash. *)
Definition rivals (m : gmap (list Z) (list Z)) (k : list Z) : gmap (list Z) (list Z) :=
  filter (fun x => x.1 <> k /\ hex x.1 = hex k) m.

Definition full (m : gmap (list Z) (list Z)) (k : list Z) : bool := (MAXBUCKETS <=? size (rivals m k))%nat.

Definition rival_at (k : list Z) (b : bucket) : list (list Z) :=
  match b with Holds k' _ => if decide (k' = k) then [] else [k'] | _ => [] end.

Definition rival_list (k : list Z) (bs : nat -> bucket) : list (list Z) :=
  rival_at k (bs 0%nat) ++ rival_at k (bs 1%nat) ++ rival_at k (bs 2%nat).

Lemma rival_at_spec k b k' : k' ∈ rival_at k b <-> k' <> k /\ exists v, b = Holds k' v.
Proof.
  destruct b as [| |x v]; cbn; [rewrite elem_of_nil; naive_solver..|].
  destruct (decide (x = k)) as [->|]; [rewrite elem_of_nil|rewrite list_elem_of_singleton]; naive_solver.
Qed.

Lemma rival_list_spec k (bs : nat -> bucket) k' :
  k' ∈ rival_list k bs <-> k' <> k /\ exists i v, (i < MAXBUCKETS)%nat /\ bs i = Holds k' v.
Proof.
  unfold rival_list, MAXBUCKETS. rewrite !elem_of_app, !rival_at_spec. split.
  - intros [[? [v ?]]|[[? [v ?]]|[? [v ?]]]]; (split; [done|]).
    + exists 0%nat, v. split; [lia|done].
    + exists 1%nat, v. split; [lia|done].
    + exists 2%nat, v. split; [lia|done].
  - intros [? (i & v & Hi & E)]. destruct i as [|[|[|i]]]; [..|lia]; eauto.
Qed.

Lemma rival_list_NoDup t k h : tab_ok t -> hex_ok h -> NoDup (rival_list k (t h)).
Proof.
  intros Ht Hh. unfold rival_list.
  assert (forall i j x, (i < MAXBUCKETS)%nat -> (j < MAXBUCKETS)%nat -> x ∈ rival_at k (t h i) -> x ∈ rival_at k (t h j) -> i = j) as Hd.
  { intros i j x Hi Hj [_ [v Hv]]%rival_at_spec [_ [v' Hv']]%rival_at_spec.
    eapply (tab_once t Ht h i j); [split; done..|done|done]. }
  assert (forall i, NoDup (rival_at k (t h i))) as Hn.
  { intros i. destruct (t h i) as [| |x v]; cbn; [apply NoDup_nil_2..|]. destruct (decide _); [apply NoDup_nil_2|apply NoDup_singleton]. }
  unfold MAXBUCKETS in Hd. rewrite !NoDup_app. split_and!; try apply Hn.
  - intros x Hx [Hy|Hy]%elem_of_app; [specialize (Hd 0%nat 1%nat x)|specialize (Hd 0%nat 2%nat x)]; naive_solver lia.
  - intros x Hx Hy. specialize (Hd 1%nat 2%nat x). naive_solver lia.
Qed.

Lemma slot_full k (bs : nat -> bucket) : slot k bs = None <-> length (rival_list k bs) = 3%nat.
Proof.
  unfold slot, MAXBUCKETS, rival_list. cbn. rewrite !length_app.
  assert (forall b, length (rival_at k b) = if usable k b then 0%nat else 1%nat) as Hl.
  { intros [| |x v]; cbn; [done..|]. case_bool_decide; by destruct (decide _). }
  rewrite !Hl. destruct (usable k (bs 0%nat)), (usable k (bs 1%nat)), (usable k (bs 2%nat)); cbn; split; done || lia.
Qed.

Lemma rivals_size t m k : tab_ok t -> holds_map t m -> size (rivals m k) = length (rival_list k (t (hex k))).
Proof.
  intros Ht Hm. destruct (hex_spec k) as [_ Hh].
  rewrite <-size_dom, <-(size_list_to_set (C := gset (list Z))) by (by apply rival_list_NoDup).
  apply set_size_proper. intros k'. rewrite elem_of_dom, elem_of_list_to_set, rival_list_spec. unfold rivals.
  split.
  - intros [v [Hv [Hne He]]%map_lookup_filter_Some]. cbn in *. apply Hm in Hv as (i & o & [_ Hi] & Hi' & _).
    rewrite He in Hi'. eauto.
  - intros [Hne (i & o & Hi & Hb)]. exists (default [] o). apply map_lookup_filter_Some. cbn.
    assert (hex k' = hex k) as He by (eapply (tab_hash t Ht); [by split|done]).
    split; [|done]. apply Hm. exists i, o. rewrite He. by split_and!.
Qed.

Lemma full_slot t m k : tab_ok t -> holds_map t m -> full m k = true <-> slot k (t (hex k)) = None.
Proof.
  intros Ht Hm. unfold full. rewrite (rivals_size t m k Ht Hm), Nat.leb_le, slot_full.
  unfold rival_list. rewrite !length_app.
  assert (forall b, (length (rival_at k b) <= 1)%nat) as Hl by (intros [| |x v]; cbn; try lia; destruct (decide _); cbn; lia).
  pose proof (Hl (t (hex k) 0%nat)). pose proof (Hl (t (hex k) 1%nat)). pose proof (Hl (t (hex k) 2%nat)).
  unfold MAXBUCKETS. lia.
Qed.

Lemma slot_prev c : forall i k (bs : nat -> bucket) j, slot_from c i k bs = Some j ->
  forall x, (i <= x < j)%nat -> exists k' v, bs x = Holds k' v /\ k' <> k.
Proof.
  induction c as [|c IH]; cbn; intros i k bs j; [done|]. destruct (usable k (bs i)) eqn:E; [intros [= <-]; lia|].
  intros Hs x Hx. destruct (decide (x = i)) as [->|].
  - destruct (bs i) as [| |k' v]; cbn in E; [done..|]. exists k', v. by case_bool_decide.
  - apply (IH _ _ _ _ Hs). lia.
Qed.

Lemma tab_order_down t h j : tab_ok t -> valid h j -> (exists k v, t h j = Holds k v) ->
  forall i, (i <= j)%nat -> exists k v, t h i = Holds k v.
Proof.
  intros Ht. induction j as [|j IH]; intros Hv Hj i Hi; [by replace i with 0%nat by lia|].
  destruct (decide (i = S j)) as [->|]; [done|]. apply IH; [|by apply (tab_order t Ht)|lia].
  destruct Hv. split; [done|lia].
Qed.

Section Slot.
Context (t : tab) (m : gmap (list Z) (list Z)) (k : list Z) (i : nat).
Hypothesis Ht : tab_ok t.
Hypothesis Hm : holds_map t m.
Hypothesis Hs : slot k (t (hex k)) = Some i.

Lemma slot_unique j v : valid (hex k) j -> t (hex k) j = Holds k v -> j = i.
Proof.
  intros Hj Hb. pose proof (slot_from_bound _ _ _ _ _ Hs) as [Hi Hu]. destruct (decide (j < i)%nat) as [Hlt|Hge].
  - destruct (slot_prev _ _ _ _ _ Hs j) as (k' & v' & Hb' & Hne); [lia|]. congruence.
  - destruct (tab_order_down t _ j Ht Hj ltac:(eauto) i) as (k' & v' & Hb'); [lia|].
    rewrite Hb' in Hu. cbn in Hu. apply bool_decide_eq_true in Hu as ->.
    eapply (tab_once t Ht); [done| |done|done]. by apply (slot_valid k t).
Qed.

Lemma slot_value : value_of (t (hex k) i) = default [] (m !! k).
Proof.
  pose proof (slot_valid k t i Hs) as Hv. pose proof (slot_from_bound _ _ _ _ _ Hs) as [_ Hu].
  destruct (m !! k) as [v|] eqn:E.
  - apply Hm in E as (j & o & Hj & Hb & <-). rewrite <-(slot_unique j o Hj Hb), Hb. by destruct o.
  - destruct (t (hex k) i) as [| |k' o] eqn:Eb; [done..|]. cbn in Hu. apply bool_decide_eq_true in Hu as ->.
    assert (m !! k = Some (default [] o)) by (apply Hm; by exists i, o). congruence.
Qed.

Lemma upd_tab_cases o h' j b : upd_tab t (hex k) i (Holds k o) h' j = b ->
  (h' = hex k /\ j = i /\ b = Holds k o) \/ (~ (h' = hex k /\ j = i) /\ t h' j = b).
Proof. unfold upd_tab. destruct (decide _) as [[-> ->]|]; intros <-; [left|right]; done. Qed.

Lemma upd_tab_here o : upd_tab t (hex k) i (Holds k o) (hex k) i = Holds k o.
Proof. unfold upd_tab. by rewrite decide_True. Qed.

Lemma upd_tab_ok o : tab_ok (upd_tab t (hex k) i (Holds k o)).
Proof.
  split.
  - intros h x Hv (k1 & v1 & E). unfold upd_tab at 1. destruct (decide (h = hex k /\ x = i)) as [|Hne]; [eauto|].
    apply upd_tab_cases in E as [(-> & Hi & _)|[_ E]]; [|apply (tab_order t Ht); eauto].
    destruct (slot_prev _ _ _ _ _ Hs x) as (k' & v' & Hb' & _); [lia|eauto].
  - intros h x y k1 v1 v2 Hx Hy E1 E2. apply upd_tab_cases in E1 as [(-> & -> & E1)|[N1 E1]];
      apply upd_tab_cases in E2 as [(E3 & -> & E2)|[N2 E2]]; [done|..].
    + injection E1 as -> ->. symmetry. by eapply slot_unique.
    + injection E2 as -> ->. subst h. by eapply slot_unique.
    + by eapply (tab_once t Ht).
  - intros h x k1 v1 Hx [(-> & -> & [= -> ->])|[_ E]]%upd_tab_cases; [done|]. by eapply (tab_hash t Ht).
Qed.

Lemma upd_tab_map o : holds_map (upd_tab t (hex k) i (Holds k o)) (<[k := default [] o]> m).
Proof.
  intros k1 v1. pose proof (slot_from_bound _ _ _ _ _ Hs) as [_ Hu].
  destruct (decide (k1 = k)) as [->|Hne].
  - rewrite lookup_insert_eq. split.
    + intros [= <-]. exists i, o. split_and!; [by apply (slot_valid k t)|apply upd_tab_here|done].
    + intros (j & o' & Hj & [(_ & _ & [= ->])|[Hn E]]%upd_tab_cases & <-); [done|].
      destruct Hn. split; [done|]. by eapply slot_unique.
  - rewrite lookup_insert_ne by done. rewrite (Hm k1 v1). split; intros (j & o' & Hj & E & <-); exists j, o'; (split; [done|]).
    + unfold upd_tab. destruct (decide _) as [[E1 ->]|]; [|done]. rewrite E1 in E. rewrite E in Hu. cbn in Hu.
      by apply bool_decide_eq_true in Hu.
    + apply upd_tab_cases in E as [(_ & _ & [= ? ?])|[_ E]]; done.
Qed.
End Slot.
End Map.

(** ** Sessions *)
Inductive op := Store (k v : list Z) | Fetch (k : list Z).

Definition op_key (o : op) : list Z := match o with Store k _ => k | Fetch k => k end.

(** What a map with [MAXBUCKETS] keys per hash answers. *)
Definition spec_op `{OpenSSL} (m : gmap (list Z) (list Z)) (o : op) : outcome (list Z) * gmap (list Z) (list Z) :=
  if full m (op_key o) then (Throw (runtime_error (str "out of buckets")), m)
  else match o with
       | Store k v => (Value [], <[k := v]> m)
       | Fetch k => (Value (default [] (m !! k)), <[k := default [] (m !! k)]> m)
       end.

Fixpoint spec_ops `{OpenSSL} (m : gmap (list Z) (list Z)) (os : list op) : list (outcome (list Z)) * gmap (list Z) (list Z) :=
  match os with
  | [] => ([], m)
  | o :: r => let '(a, m1) := spec_op m o in let '(l, m2) := spec_ops m1 r in (a :: l, m2)
  end.

Section Run.
Context `{Posix} `{BoostPath} `{OpenSSL} (root : path) (n : nat).

Definition run_op (o : op) : io (list Z) := match o with Store k v => store root n k v | Fetch k => fetch root n k end.

(** Operations in turn, each in its own scope; an exception ends only its own. *)
Fixpoint run_ops (l : list op) (s : os) : option (list (outcome (list Z)) * os) :=
  match l with
  | [] => Some ([], s)
  | o :: r => '(a, s1) ← run_op o s; '(l, s2) ← run_ops r s1; Some (a :: l, s2)
  end.

(** The files below [root] are those of the map [m], and no bucket is locked. *)
Definition models (s : os) (m : gmap (list Z) (list Z)) : Prop :=
  pid_ok (pid s) /\ exists t, represents root s t /\ tab_ok t /\ holds_map t m.

Hypothesis no_fault : forall c p, fault c p = None.
Hypothesis whole : forall n, 0 < n <= 64 -> xfer n = n.
Hypothesis root_ne : root <> [].
Hypothesis root_dir : last root <> Some 47.

Lemma run_op_spec o s m : models s m ->
  exists s', run_op o s = Some (fst (spec_op m o), s') /\ models s' (snd (spec_op m o)).
Proof.
  intros (Hp & t & Hr & Ht & Hm). pose proof (full_slot t m (op_key o) Ht Hm) as Hf. unfold spec_op.
  destruct o as [k v|k]; cbn [op_key run_op] in *;
    [pose proof (store_spec no_fault whole root root_ne root_dir n s t k v Hp Hr) as Hsp
    |pose proof (fetch_spec no_fault whole root root_ne root_dir n s t k Hp Hr) as Hsp];
    destruct (slot k (t (hex k))) as [i|] eqn:E.
  - replace (full m k) with false by (destruct (full m k); [by pose proof (proj1 Hf eq_refl)|done]).
    destruct Hsp as (s' & -> & Hp' & Hr'). exists s'. split; [done|]. split; [by rewrite Hp'|].
    eexists. split; [exact Hr'|]. split; [by apply upd_tab_ok|exact (upd_tab_map t m k i Ht Hm E (Some v))].
  - rewrite (proj2 Hf) by done. destruct Hsp as (s' & -> & Hp' & Hr'). exists s'. split; [done|].
    split; [by rewrite Hp'|]. by exists t.
  - replace (full m k) with false by (destruct (full m k); [by pose proof (proj1 Hf eq_refl)|done]).
    destruct Hsp as (s' & -> & Hp' & Hr'). exists s'. split; [cbn; by rewrite (slot_value t m)|].
    split; [by rewrite Hp'|]. eexists. split; [exact Hr'|].
    pose proof (slot_from_bound _ _ _ _ _ E) as [_ Hu]. destruct (opened_holds k _ Hu) as (v0 & Ho & Hv0).
    rewrite Ho. split; [by apply upd_tab_ok|]. cbn. rewrite <-(slot_value t m k i) by done. rewrite Hv0. by apply upd_tab_map.
  - rewrite (proj2 Hf) by done. destruct Hsp as (s' & -> & Hp' & Hr'). exists s'. split; [done|].
    split; [by rewrite Hp'|]. by exists t.
Qed.

(** C9: Opening, writing, reading and closing buckets is a map.  Whatever the
    sizes in which the system transfers a file, and however the keys of the
    session share hashes, every [set] and [get] of a sequence of uses of the
    class gives what a map from keys to values gives: the value stored last
    under that very key, the empty string for a new key, and "out of buckets"
    exactly when [MAXBUCKETS] other keys have the hash; the files afterwards
    are those of the map, with no lock left. *)
Theorem table_session l s m : models s m ->
  exists s', run_ops l s = Some (fst (spec_ops m l), s') /\ models s' (snd (spec_ops m l)).
Proof.
  revert s m. induction l as [|o l IH]; intros s m Hs; [by exists s|]. cbn [run_ops spec_ops].
  destruct (run_op_spec o s m Hs) as (s1 & Hr1 & Hs1). rewrite Hr1. cbn [mbind option_bind].
  destruct (spec_op m o) as [a m1]. cbn [fst snd] in *. destruct (IH s1 m1 Hs1) as (s2 & Hr2 & Hs2). rewrite Hr2.
  cbn [mbind option_bind]. destruct (spec_ops m1 l) as [x m2]. by exists s2.
Qed.
End Run.

(** ** Locks *)

(** C23: A lock keeps the others out, once it is settled.  Let the process [p] have
    returned from [get_lockfile] with its pid in the lock file, and let every other
    process that is in [get_lockfile] have no file open but this one and have read
    nothing there but that pid; so it is when nobody else asked while [p] took the
    lock (C24).  Then, as long as [p] neither releases the lock nor ends, and
    however the system calls of the others interleave, with processes that come,
    end and reuse pids, no other process ever holds the lock, the file stays as it
    is, and a process that asks is refused after four calls if its bucket does not
    block, and goes to sleep otherwise.  All system calls succeed.  Without the
    condition two processes may hold the lock at once ([two_owners]). *)
Theorem lock_kept `{Posix} blocking f p i w w' : pid_ok p -> settled p i w ->
  rtc (fun a b => exists q, q <> p /\ wstep blocking f q a b) w w' ->
  lockname w' = Some i /\ texts w' !! i = Some (put_int p) /\ procs w' !! p = Some Locked
  /\ (forall q, procs w' !! q = Some Locked -> q = p)
  /\ (forall q, q <> p -> procs w' !! q = Some Begin ->
        alone blocking f 4 q w'
        = Some (goto q (if blocking q then Sleeping
                        else Threw (runtime_error (str "lock on " ++ f ++ str " would block and block is false"))) w')).
Proof.
  intros Hp Hs Hr. pose proof (settled_steps blocking f p i w w' Hp Hs Hr) as Hs'. split_and!; [apply Hs'..| |].
  - intros q Hq. destruct (decide (q = p)) as [|Hne]; [done|]. by destruct (sd_others _ _ _ Hs' q Locked Hne Hq).
  - intros q Hne Hq. by apply (settled_refuses blocking f p i).
Qed.


(** The lock is not safe while it is being taken: a process that comes between
    the creation of the file and the writing of the pid finds it empty and takes
    it too. *)
Definition asking (l : list Z) : world := mk_world None ∅ (list_to_map ((fun q => (q, Begin)) <$> l)) (list_to_set l) 0.

Fixpoint scheduled `{Posix} (f : path) (l : list Z) (w : world) : option world :=
  match l with [] => Some w | q :: l => w ← lock_step (fun _ => true) f q w; scheduled f l w end.

Lemma two_owners `{Posix} f : exists w', scheduled f [10; 11; 11; 11; 10; 10; 11; 11] (asking [10; 11]) = Some w'
  /\ procs w' !! 10 = Some Locked /\ procs w' !! 11 = Some Locked.
Proof. eexists. split; [vm_compute; reflexivity|]. split; vm_compute; reflexivity. Qed.

(** A process that waits for a lock throws when the lock is released between its
    two calls of [open]. *)
Lemma lock_vanishes `{Posix} f : exists w1 w2 e, scheduled f [10; 10; 10; 11] (asking [10; 11]) = Some w1
  /\ wstep (fun _ => true) f 10 w1 (leave 10 (unlink_name w1))
  /\ lock_step (fun _ => true) f 11 (leave 10 (unlink_name w1)) = Some w2 /\ procs w2 !! 11 = Some (Threw e).
Proof.
  eexists _, _, _. split; [vm_compute; reflexivity|]. split; [apply w_unlock; [by apply (bool_decide_unpack _)|vm_compute; reflexivity]|].
  split; [vm_compute; reflexivity|]. vm_compute. reflexivity.
Qed.

(** ** Erasing *)
Lemma filter_below_lookup (d : path) (m : gmap path node) (q : path) :
  filter (fun x : path * node => negb (below d x.1)) m !! q = if below d q then None else m !! q.
Proof.
  destruct (below d q) eqn:E.
  - apply map_lookup_filter_None. right. intros x _. cbn [fst]. rewrite E. by intros [].
  - rewrite map_lookup_filter. destruct (m !! q); [|done]. cbn. rewrite option_guard_True; [done|]. cbn [fst]. by rewrite E.
Qed.

(** [erase] removes the directory of the bucket with all that is below it
    and its lock, and nothing else; afterwards the bucket is not locked, and
    [key], [get] and [set] refuse to work on it. *)
Lemma erase_spec `{Posix} `{BoostPath} n b c s :
  (forall c p, fault c p = None) -> locked b = true -> files s !! m_lock_file b = Some (File c) ->
  below (m_bucket_dir b) (m_lock_file b) = false ->
  exists b' s', erase n b s = Some (Value b', s') /\ locked b' = false
  /\ (forall q, files s' !! q = if below (m_bucket_dir b) q || bool_decide (q = m_lock_file b) then None else files s !! q)
  /\ key b' s' = Some (Throw (runtime_error (str "big_hash_bucket::key: bucket has been erased")), s')
  /\ get b' s' = Some (Throw (runtime_error (str "get: bucket has been erased")), s')
  /\ (forall v, set n v b' s' = Some (Throw (runtime_error (str "set: bucket has been erased")), s')).
Proof.
  intros Hf Hl Hc Hb. unfold erase. rewrite Hl. erewrite ibind_val by done.
  do 2 eexists. split.
  - erewrite ibind_val by done. unfold ibind, unlock. rewrite Hl. unfold ibind, unlink. rewrite Hf.
    cbn [files upd_files set_files]. rewrite filter_below_lookup, Hb, Hc. done.
  - split; [done|]. split; [|done]. intros q. cbn. destruct (decide (q = m_lock_file b)) as [->|Hq].
    + by rewrite lookup_delete_eq, bool_decide_true, orb_true_r.
    + rewrite lookup_delete_ne, bool_decide_false, orb_false_r by done. apply filter_below_lookup.
Qed.

(** ** Instances

    A system without errors, and a hash that all keys share. *)
Definition quiet_posix : Posix := {|
  fault := fun _ _ => None; strerror := fun _ => []; xfer := fun n => n;
  xfer_law := fun n H => conj H (Z.le_refl n); others := fun s => s |}.

Definition plain_path : BoostPath := {| path_append := fun p n => p ++ 47 :: n; path_append_law := fun p n _ _ _ => eq_refl |}.

Definition flat_sha : OpenSSL.
Proof.
  refine {| SHA1 := fun _ => replicate 20 171; SHA1_law := _ |}. intros _. split; [done|].
  apply Forall_replicate. unfold byte_ok. lia.
Defined.

Definition empty_os : os := mk_os ∅ [str "."; str "1"; str "77"; str "self"] 77.
Definition bh : path := str "/tmp/bh".

Lemma empty_models : @models flat_sha bh empty_os ∅.
Proof.
  split; [unfold pid_ok, INT_MAX; cbn; lia|]. exists (fun _ _ => Unused). split; [|split].
  - split; intros; unfold not_file, view_at; cbn [files empty_os]; by rewrite ?lookup_empty.
  - by split; [intros ??? (? & ? & ?)|..].
  - intros k v. rewrite lookup_empty. split; [done|]. by intros (? & ? & ? & ? & ?).
Qed.

Definition demo : list op :=
  [Store (str "a") (str "x"); Store (str "b") (str "y"); Fetch (str "a"); Fetch (str "c");
   Store (str "d") (str "z"); Store (str "b") (str "w"); Fetch (str "b")].

Lemma table_session_witness :
  exists s', @run_ops quiet_posix plain_path flat_sha bh 0 demo empty_os = Some (fst (@spec_ops flat_sha ∅ demo), s')
  /\ @models flat_sha bh s' (snd (@spec_ops flat_sha ∅ demo)).
Proof. apply (@table_session quiet_posix plain_path flat_sha bh 0); [done..|exact empty_models]. Defined.

Example demo_answers : fst (@spec_ops flat_sha ∅ demo)
  = [Value []; Value []; Value (str "x"); Value []; Throw (runtime_error (str "out of buckets")); Value []; Value (str "w")].
Proof. vm_compute. reflexivity. Qed.

(** A bucket without lock file, as [unlock] leaves it, cannot be locked again. *)
Lemma relock_refused `{Posix} n b s : locked b = false -> lock n b s = Some (Throw (runtime_error (str "Empty m_lock_file")), s).
Proof. intros Hb. unfold lock. by rewrite Hb. Qed.

(** Process 77 has a lock, and process 5 asks for it. *)
Definition held_world : world := mk_world (Some 0%nat) {[0%nat := put_int 77]} {[77 := Locked]} {[77; 5]} 1.

Lemma held_settled : settled 77 0 held_world.
Proof.
  split; [done|done|set_solver|done|]. intros q c Hq Hc. cbn in Hc. by rewrite lookup_singleton_ne in Hc.
Qed.

Lemma lock_kept_witness : exists w', wstep (H := quiet_posix) (fun _ => false) (str "l") 5 held_world w'
  /\ lockname w' = Some 0%nat /\ texts w' !! 0%nat = Some (put_int 77)
  /\ alone (H := quiet_posix) (fun _ => false) (str "l") 4 5 w'
     = Some (goto 5 (Threw (runtime_error (str "lock on " ++ str "l" ++ str " would block and block is false"))) w').
Proof.
  assert (Hst : wstep (H := quiet_posix) (fun _ => false) (str "l") 5 held_world (goto 5 Begin held_world)).
  { apply w_start; [cbn; set_solver|left; reflexivity]. }
  destruct (@lock_kept quiet_posix (fun _ => false) (str "l") 77 0 held_world (goto 5 Begin held_world)) as (H1 & H2 & _ & _ & H3).
  - split; by vm_compute.
  - exact held_settled.
  - apply rtc_once. exists 5. split; [discriminate|exact Hst].
  - exists (goto 5 Begin held_world). split; [exact Hst|]. split; [exact H1|]. split; [exact H2|].
    apply H3; [discriminate|reflexivity].
Defined.





Definition open_demo : big_hash_bucket := mk_bucket (str "/tmp/b.lock") (str "k") (str "/tmp/b") true false.
Definition erase_demo : os :=
  mk_os {[str "/tmp" := Dir; str "/tmp/b" := Dir; str "/tmp/b/__key__" := File (str "k"); str "/tmp/b.lock" := File (str "77")]} [] 77.

Lemma erase_spec_witness : exists b' s',
  @erase quiet_posix 1 open_demo erase_demo = Some (Value b', s') /\ locked b' = false
  /\ (forall q, files s' !! q = if below (str "/tmp/b") q || bool_decide (q = str "/tmp/b.lock") then None else files erase_demo !! q)
  /\ key b' s' = Some (Throw (runtime_error (str "big_hash_bucket::key: bucket has been erased")), s')
  /\ @get quiet_posix plain_path b' s' = Some (Throw (runtime_error (str "get: bucket has been erased")), s')
  /\ (forall v, @set quiet_posix plain_path 1 v b' s' = Some (Throw (runtime_error (str "set: bucket has been erased")), s')).
Proof. apply (@erase_spec quiet_posix plain_path 1 open_demo (str "77")); [done|by vm_compute..]. Defined.

(** ** What the code does not do *)

(** After the first of two keys with one hash is erased, the value of the
    second is out of reach: the first free bucket is taken for it. *)
Definition erase_key `{Posix} `{BoostPath} `{OpenSSL} (k : list Z) : io (list Z) :=
  b <- big_hash_bucket_new 1 bh k ;; _ <- erase 1 b ;; iret [].

Example erase_hides :
  (r ← @run_ops quiet_posix plain_path flat_sha bh 0 [Store (str "a") (str "x"); Store (str "b") (str "y")] empty_os;
   r ← @erase_key quiet_posix plain_path flat_sha (str "a") r.2;
   r ← @run_ops quiet_posix plain_path flat_sha bh 0 [Fetch (str "b")] r.2; Some r.1) = Some [Value []].
Proof. vm_compute. reflexivity. Qed.

(** A lock file whose text is no number is never stale: "." in /proc counts as
    process 0. *)
Example garbage_lock_stays :
  @get_lockfile quiet_posix 1 false (str "/tmp/l")
    (mk_os {[str "/tmp" := Dir; str "/tmp/l" := File (str "?")]} [str "."; str "1"] 77)
  = Some (Throw (runtime_error (str "lock on /tmp/l would block and block is false")),
          mk_os {[str "/tmp" := Dir; str "/tmp/l" := File (str "?")]} [str "."; str "1"] 77).
Proof. vm_compute. reflexivity. Qed.
