(* ===== verification/UnicodeWrap.v ===== *)
(** * Text conversion

    src/src/html_lexer/Unicode_wrap.cc, class [Converter], and
    src/src/html_lexer/Case_folder.cc: loops around the stream converters of
    ICU, which write as much as a buffer takes and are called again with a larger
    one.  ([cp2utf8] is in Entity.)

    ICU is outside the repository: [IcuStream] has its functions, and as laws
    what the documentation says of them.  A converter is a pointer, [None] when
    null.  The member [status] is set before every use of it and is left out,
    and so are the messages for debugging.  [&v[v.size()]] is taken to be the
    end of the vector. *)

From S2P Require Import Prelude Regex.

(** ** ICU *)
Inductive UErrorCode :=
| U_ZERO_ERROR
| U_WARNING (name : list Z)
| U_BUFFER_OVERFLOW_ERROR
| U_ERROR (name : list Z).

Definition U_SUCCESS (e : UErrorCode) : bool :=
  match e with U_ZERO_ERROR | U_WARNING _ => true | _ => false end.

Definition u_errorName (e : UErrorCode) : list Z :=
  match e with
  | U_ZERO_ERROR => str "U_ZERO_ERROR"
  | U_BUFFER_OVERFLOW_ERROR => str "U_BUFFER_OVERFLOW_ERROR"
  | U_WARNING n | U_ERROR n => n
  end.

(** What a call with room for [room] units writes, how much of the source is
    left, its error code and the state of the converter. *)
Record chunk (cnv : Type) := mk_chunk { written : list Z; left : list Z; code : UErrorCode; after : option cnv }.
Arguments mk_chunk {cnv}.
Arguments written {cnv}.
Arguments left {cnv}.
Arguments code {cnv}.
Arguments after {cnv}.

Definition stream_fn (cnv : Type) := option cnv -> Z -> list Z -> chunk cnv.

(** A text that is converted, and the error that ends it. *)
Definition text : Type := list Z * option (list Z).

(** [f] writes the text [t c src] piece by piece: all of it when there is room, and
    otherwise what fits, with the rest kept for the next call. *)
Definition streams {cnv} (f : stream_fn cnv) (t : cnv -> list Z -> text) (enc_of : cnv -> list Z) (fresh : cnv -> Prop) : Prop :=
  forall c room src, 0 <= room ->
  let '(out, e) := t c src in
  let r := f (Some c) room src in
  if zlen out <=? room then
    written r = out
    /\ match e with
       | None => U_SUCCESS (code r) = true /\ exists c', after r = Some c' /\ enc_of c' = enc_of c /\ fresh c'
       | Some n => code r = U_ERROR n
       end
  else written r = ztake room out /\ code r = U_BUFFER_OVERFLOW_ERROR
       /\ exists c', after r = Some c' /\ enc_of c' = enc_of c /\ t c' (left r) = (zdrop room out, e).

Class IcuStream := {
  cnv : Type;
  enc_of : cnv -> list Z;
  (** a converter that has just been opened or has finished a text *)
  fresh : cnv -> Prop;
  to_text : cnv -> list Z -> text;
  from_text : cnv -> list Z -> text;
  decode : list Z -> list Z -> text;
  encode : list Z -> list Z -> text;
  ucnv_open : list Z -> option cnv * UErrorCode;
  ucnv_toUnicode : stream_fn cnv;
  ucnv_fromUnicode : stream_fn cnv;
  ucnv_getMaxCharSize : option cnv -> Z;
  (** the length of the result, what is written of it, and the error code *)
  ucnv_fromUChars : option cnv -> Z -> list Z -> Z * list Z * UErrorCode;
  u_strFoldCase : Z -> list Z -> UErrorCode -> Z * list Z * UErrorCode;
  fold_case : list Z -> list Z;
  open_law e : forall c st, ucnv_open e = (c, st) -> U_SUCCESS st = true -> exists c', c = Some c' /\ enc_of c' = e /\ fresh c';
  fresh_to c s : fresh c -> to_text c s = decode (enc_of c) s;
  fresh_from c s : fresh c -> from_text c s = encode (enc_of c) s;
  toUnicode_law : streams ucnv_toUnicode to_text enc_of fresh;
  fromUnicode_law : streams ucnv_fromUnicode from_text enc_of fresh;
  (** [UCNV_GET_MAX_BYTES_FOR_STRING] is enough *)
  fromUChars_law c s b : fresh c -> encode (enc_of c) s = (b, None) ->
    exists st, ucnv_fromUChars (Some c) ((zlen s + 10) * ucnv_getMaxCharSize (Some c)) s = (zlen b, b, st)
               /\ U_SUCCESS st = true /\ zlen b <= (zlen s + 10) * ucnv_getMaxCharSize (Some c);
  (** a function of ICU does nothing when it is called with an error code *)
  fold_law cap s : 0 <= cap -> zlen (fold_case s) <= cap ->
    exists st, u_strFoldCase cap s U_ZERO_ERROR = (zlen (fold_case s), fold_case s, st) /\ U_SUCCESS st = true;
  fold_overflow cap s : 0 <= cap -> cap < zlen (fold_case s) ->
    exists w, u_strFoldCase cap s U_ZERO_ERROR = (zlen (fold_case s), w, U_BUFFER_OVERFLOW_ERROR) /\ zlen w <= cap;
  fold_failed cap s st : U_SUCCESS st = false -> u_strFoldCase cap s st = (0, [], st)
}.

(** ** Buffers *)

(** [std::copy] of [out] to the position [at] of a vector. *)
Definition overwrite (buf : list Z) (at_ : Z) (out : list Z) : list Z :=
  ztake at_ buf ++ out ++ zdrop (at_ + zlen out) buf.

(** [v.resize(n)] *)
Definition resize (buf : list Z) (n : Z) : list Z := ztake n buf ++ replicate (Z.to_nat (n - zlen buf)) 0.

(** The loop of the conversions: the buffer, the units in it, and the
    converter; [None] is a loop that does not end within its fuel. *)
Fixpoint drain {cnv} (fuel : nat) (f : stream_fn cnv) (c : option cnv) (buf : list Z) (done : Z) (src : list Z)
    : option (outcome Z * list Z * option cnv) :=
  match fuel with
  | O => None
  | S fuel =>
      let r := f c (zlen buf - done) src in
      let buf := overwrite buf done (written r) in
      let done := done + zlen (written r) in
      match code r with
      | U_BUFFER_OVERFLOW_ERROR => drain fuel f (after r) (resize buf ((zlen buf + 1) * 2)) done (left r)
      | st => Some (if U_SUCCESS st then Value done else Throw (unicode_error (u_errorName st)), buf, after r)
      end
  end.

Section Wrap.
Context `{IcuStream}.

Record Converter := mk_Converter {
  in_encoding : list Z;
  out_encoding : list Z;
  in_conv : option cnv;
  out_conv : option cnv;
  u_buff : list Z;
  o_buff : list Z
}.

(** [encoding + '\''] moves the pointer by 39, the code of the quote; the text from there on is read. *)
Definition my_ucnv_open (encoding : list Z) : res (option cnv) :=
  let '(c, st) := ucnv_open encoding in
  if U_SUCCESS st then val c
  else if zlen encoding <? 39 then None
  else throw (unicode_error (str "Can't open conversion: '" ++ zdrop 39 encoding ++ u_errorName st)).

Definition Converter_empty : Converter := mk_Converter [] [] None None [] [].

Definition Converter_new (in_encoding out_encoding : list Z) : res Converter :=
  rbind (my_ucnv_open in_encoding) (fun ic =>
  rbind (my_ucnv_open out_encoding) (fun oc =>
  val (mk_Converter in_encoding out_encoding ic oc [] []))).

(** The names are set and both converters closed before the new ones are
    opened. *)
Definition Converter_open (in_encoding out_encoding : list Z) (c : Converter) : option (outcome unit * Converter) :=
  let c0 := mk_Converter in_encoding out_encoding None None (u_buff c) (o_buff c) in
  match my_ucnv_open in_encoding with
  | None => None
  | Some (Throw e) => Some (Throw e, c0)
  | Some (Value ic) =>
      let c1 := mk_Converter in_encoding out_encoding ic None (u_buff c) (o_buff c) in
      match my_ucnv_open out_encoding with
      | None => None
      | Some (Throw e) => Some (Throw e, c1)
      | Some (Value oc) => Some (Value tt, mk_Converter in_encoding out_encoding ic oc (u_buff c) (o_buff c))
      end
  end.

Definition set_in ic ub c := mk_Converter (in_encoding c) (out_encoding c) ic (out_conv c) ub (o_buff c).
Definition set_out oc ob c := mk_Converter (in_encoding c) (out_encoding c) (in_conv c) oc (u_buff c) ob.

Section Loops.
Context (fuel : nat).

Definition convert (in_content : list Z) (c : Converter) : option (outcome (list Z) * Converter) :=
  '(r, ub, ic) ← drain fuel ucnv_toUnicode (in_conv c) (u_buff c) 0 in_content;
  let c := set_in ic ub c in
  match r with
  | Throw e => Some (Throw e, c)
  | Value done =>
      '(r, ob, oc) ← drain fuel ucnv_fromUnicode (out_conv c) (o_buff c) 0 (ztake done ub);
      let c := set_out oc ob c in
      Some (match r with Throw e => Throw e | Value total => Value (ztake total ob) end, c)
  end.

(** The converter for input is replaced by one for [enc] and closed. *)
Definition convert_to_unicode (enc in_content : list Z) (c : Converter) : option (outcome (list Z) * Converter) :=
  match my_ucnv_open enc with
  | None => None
  | Some (Throw e) => Some (Throw e, set_in None (u_buff c) c)
  | Some (Value ic) =>
      '(r, ub, ic) ← drain fuel ucnv_toUnicode ic (u_buff c) 0 in_content;
      match r with
      | Throw e => Some (Throw e, set_in ic ub c)
      | Value done => Some (Value (ztake done ub), set_in None ub c)
      end
  end.

(** The test of [status] after [my_ucnv_open], which threw when it failed,
    always passes. *)
Definition convert_unicode_to (enc s : list Z) (c : Converter) : option (outcome (list Z) * Converter) :=
  match my_ucnv_open enc with
  | None => None
  | Some (Throw e) => Some (Throw e, set_in None (u_buff c) c)
  | Some (Value ic) =>
      let need := (zlen s + 10) * ucnv_getMaxCharSize ic in
      let '(size, bytes, st) := ucnv_fromUChars ic need s in
      let res := overwrite (replicate (Z.to_nat need) 0) 0 bytes in
      if U_SUCCESS st then Some (Value (resize res size), set_in None (u_buff c) c)
      else Some (Throw (unicode_error (str "ucnv_fromUChars error: " ++ u_errorName st)), set_in ic (u_buff c) c)
  end.

(** ** Case_folder *)

Definition Case_folder_new : res (option cnv) :=
  let '(c, st) := ucnv_open (str "utf-8") in
  if U_SUCCESS st then val c else throw (runtime_error (str "ucnv_open failed")).

(** [n * 1.2] as the nearest [double], cut to an integer; 1.2 is
    5404319552844595 / 2^52. *)
Definition mul12 (n : Z) : Z :=
  let p := n * 5404319552844595 in
  let b := Z.max 0 (Z.log2 p - 52) in
  let q := p / 2 ^ b in
  let r := p mod 2 ^ b in
  let half := 2 ^ b / 2 in
  let q := if (b =? 0) || (r <? half) || ((r =? half) && Z.even q) then q else q + 1 in
  q * 2 ^ b / 2 ^ 52.

(** The loop around [u_strFoldCase]; [status] is kept from one call to the
    next. *)
Fixpoint fold_loop (rounds : nat) (folded s : list Z) (status : UErrorCode) : option (outcome (list Z)) :=
  match rounds with
  | O => None
  | S rounds =>
      let '(len, w, status) := u_strFoldCase (zlen folded) s status in
      let folded := overwrite folded 0 w in
      match status with
      | U_BUFFER_OVERFLOW_ERROR =>
          if len >? zlen folded then fold_loop rounds (resize folded len) s status
          else throw (runtime_error (str "u_strFoldCase error:" ++ u_errorName status))
      | _ =>
          if U_SUCCESS status then val (resize folded len)
          else throw (runtime_error (str "u_strFoldCase error:" ++ u_errorName status))
      end
  end.

Definition fold_case_utf8 (conv : option cnv) (in_ : list Z) : option (outcome (list Z) * option cnv) :=
  if bool_decide (in_ = []) then Some (Value [], conv) else
  '(r, u, conv) ← drain fuel ucnv_toUnicode conv (replicate (length in_) 0) 0 in_;
  match r with
  | Throw e => Some (Throw e, conv)
  | Value done =>
      let u := resize u done in
      o ← fold_loop 3 (replicate (Z.to_nat (mul12 (zlen u))) 0) u U_ZERO_ERROR;
      match o with
      | Throw e => Some (Throw e, conv)
      | Value folded =>
          '(r, b, conv) ← drain fuel ucnv_fromUnicode conv (replicate (length in_) 0) 0 folded;
          Some (match r with Throw e => Throw e | Value total => Value (ztake total b) end, conv)
      end
  end.
End Loops.
End Wrap.

(** * What the text conversions promise

    The loops give the whole text, whatever the sizes of the buffers and what
    earlier conversions left in them; [fold_case_utf8] gives the folded text
    when it fits in its first buffer and otherwise throws. *)
(** ** Buffers *)
Lemma zlen_overwrite buf p out : 0 <= p -> p + zlen out <= zlen buf -> zlen (overwrite buf p out) = zlen buf.
Proof.
  intros Hp Hl. pose proof (zlen_nonneg out). unfold overwrite. rewrite !zlen_app, zlen_ztake, zlen_zdrop by lia. lia.
Qed.

Lemma ztake_overwrite buf p out : 0 <= p -> p + zlen out <= zlen buf ->
  ztake (p + zlen out) (overwrite buf p out) = ztake p buf ++ out.
Proof.
  intros Hp Hl. pose proof (zlen_nonneg out). unfold overwrite. rewrite app_assoc, ztake_app_l.
  - apply ztake_all. rewrite zlen_app, zlen_ztake by lia. lia.
  - rewrite zlen_app, zlen_ztake by lia. lia.
Qed.

Lemma zlen_resize buf n : 0 <= n -> zlen (resize buf n) = n.
Proof.
  intros Hn. unfold resize. rewrite zlen_app. unfold zlen, ztake. rewrite length_take, length_replicate. lia.
Qed.

Lemma ztake_resize buf n k : 0 <= k <= zlen buf -> k <= n -> ztake k (resize buf n) = ztake k buf.
Proof.
  intros Hk Hn. unfold resize. rewrite ztake_app_l.
  - unfold ztake. rewrite take_take. f_equal. lia.
  - unfold zlen, ztake. rewrite length_take. unfold zlen in Hk. lia.
Qed.

(** ** The loop *)
Section Drain.
Context {cnv : Type} (f : stream_fn cnv) (t : cnv -> list Z -> text) (enc_of : cnv -> list Z) (fresh : cnv -> Prop).
Hypothesis Hf : streams f t enc_of fresh.

Definition drained (c : cnv) (buf : list Z) (d : Z) (out : list Z) (e : option (list Z))
    (r : option (outcome Z * list Z * option cnv)) : Prop :=
  exists buf' c', r = Some (match e with None => Value (d + zlen out) | Some n => Throw (unicode_error n) end, buf', c')
  /\ (e = None -> ztake (d + zlen out) buf' = ztake d buf ++ out
      /\ exists c1, c' = Some c1 /\ enc_of c1 = enc_of c /\ fresh c1).

(** One round with too little room takes a step, and leaves some room. *)
Lemma drain_ok fuel : forall c buf d src out e, t c src = (out, e) -> 0 <= d <= zlen buf ->
  (length out + (if (zlen buf =? d)%Z then 2 else 1) <= fuel)%nat ->
  drained c buf d out e (drain fuel f (Some c) buf d src).
Proof.
  induction fuel as [|fuel IH]; intros c buf d src out e Ht Hd Hfu; [destruct (_ =? _); lia|].
  pose proof (Hf c (zlen buf - d) src ltac:(lia)) as Hs. rewrite Ht in Hs. cbn [drain].
  pose proof (zlen_nonneg out). zcase (zlen out <=? zlen buf - d); destruct Hs as [Hw Hs]; rewrite Hw.
  - destruct e as [n|].
    + rewrite Hs. eexists _, _. split; [done|]. done.
    + destruct Hs as [Hc Ha]. exists (overwrite buf d out), (after (f (Some c) (zlen buf - d) src)).
      split; [destruct (code _); try done; by rewrite Hc|]. intros _. split; [apply ztake_overwrite; lia|done].
  - destruct Hs as (-> & c' & -> & He & Ht'). set (room := zlen buf - d) in *.
    assert (zlen (ztake room out) = room) as Hr by (apply zlen_ztake; lia). rewrite Hr.
    assert (zlen (overwrite buf d (ztake room out)) = zlen buf) as Hb by (apply zlen_overwrite; lia). rewrite Hb.
    assert (zlen (zdrop room out) = zlen out - room) as Hz by (apply zlen_zdrop; lia).
    destruct (IH c' (resize (overwrite buf d (ztake room out)) ((zlen buf + 1) * 2)) (d + room) (left (f (Some c) room src))
      (zdrop room out) e Ht') as (buf' & c'' & Hdr & Hok).
    + rewrite zlen_resize by lia. lia.
    + rewrite zlen_resize by lia. rewrite (proj2 (Z.eqb_neq _ _)) by lia. unfold zlen in *. zcase (Z.of_nat (length buf) =? d); lia.
    + exists buf', c''. split; [rewrite Hdr; do 3 f_equal; destruct e; [done|]; f_equal; lia|].
      intros He0. destruct (Hok He0) as [Hbuf (c1 & Hc1 & Henc & Hfr)]. rewrite Hz in Hbuf.
      replace (d + zlen out) with (d + room + (zlen out - room)) by lia. split.
      * rewrite Hbuf, ztake_resize by (rewrite ?Hb; lia).
        rewrite <-Hr at 1. rewrite ztake_overwrite by lia. by rewrite <-app_assoc, ztake_app_zdrop.
      * exists c1. rewrite Henc. done.
Qed.
End Drain.

(** ** Converter *)
Section Converters.
Context `{IcuStream}.

(** What ICU makes of a text from one encoding to another. *)
Definition transcode (ie oe s : list Z) : text :=
  match decode ie s with
  | (t, None) => encode oe t
  | (_, Some e) => ([], Some e)
  end.

Definition answer (t : text) : outcome (list Z) :=
  match t with (b, None) => Value b | (_, Some e) => Throw (unicode_error e) end.

(** Rounds that are enough for a text. *)
Definition enough (fuel : nat) (ie oe s : list Z) : Prop :=
  (length (fst (decode ie s)) + 2 <= fuel)%nat /\ (length (fst (transcode ie oe s)) + 2 <= fuel)%nat.

Definition conv_for (e : list Z) (c : option cnv) : Prop := exists c', c = Some c' /\ enc_of c' = e /\ fresh c'.

Definition ready (ie oe : list Z) (c : Converter) : Prop := conv_for ie (in_conv c) /\ conv_for oe (out_conv c).

Lemma my_ucnv_open_ok e c : my_ucnv_open e = Some (Value c) -> conv_for e c.
Proof.
  unfold my_ucnv_open. destruct (ucnv_open e) as [c' st] eqn:E. destruct (U_SUCCESS st) eqn:Es.
  - intros [= ->]. by eapply open_law.
  - by destruct (zlen e <? 39).
Qed.

Lemma Converter_new_ready ie oe c : Converter_new ie oe = Some (Value c) -> ready ie oe c.
Proof.
  unfold Converter_new. destruct (my_ucnv_open ie) as [[ic|]|] eqn:Ei; cbn; [|done..].
  destruct (my_ucnv_open oe) as [[oc|]|] eqn:Eo; cbn; [|done..]. intros [= <-].
  split; by apply my_ucnv_open_ok.
Qed.

Lemma drain_to fuel e c buf s : conv_for e c -> (length (fst (decode e s)) + 2 <= fuel)%nat ->
  exists buf' c', drain fuel ucnv_toUnicode c buf 0 s
    = Some (match snd (decode e s) with None => Value (zlen (fst (decode e s))) | Some n => Throw (unicode_error n) end, buf', c')
  /\ (snd (decode e s) = None -> ztake (zlen (fst (decode e s))) buf' = fst (decode e s) /\ conv_for e c').
Proof.
  intros (c0 & -> & <- & Hf) Hfu. destruct (decode (enc_of c0) s) as [t er] eqn:E. cbn [fst snd] in *.
  destruct (drain_ok _ _ _ _ toUnicode_law fuel c0 buf 0 s t er) as (buf' & c' & Hd & Hok).
  - by rewrite fresh_to.
  - pose proof (zlen_nonneg buf). lia.
  - destruct (_ =? _); lia.
  - exists buf', c'. split; [exact Hd|]. intros He. destruct (Hok He) as [Hb (c1 & -> & Hc1 & Hf1)].
    rewrite ztake_0 in Hb. split; [exact Hb|]. by exists c1.
Qed.

Lemma drain_from fuel e c buf s : conv_for e c -> (length (fst (encode e s)) + 2 <= fuel)%nat ->
  exists buf' c', drain fuel ucnv_fromUnicode c buf 0 s
    = Some (match snd (encode e s) with None => Value (zlen (fst (encode e s))) | Some n => Throw (unicode_error n) end, buf', c')
  /\ (snd (encode e s) = None -> ztake (zlen (fst (encode e s))) buf' = fst (encode e s) /\ conv_for e c').
Proof.
  intros (c0 & -> & <- & Hf) Hfu. destruct (encode (enc_of c0) s) as [t er] eqn:E. cbn [fst snd] in *.
  destruct (drain_ok _ _ _ _ fromUnicode_law fuel c0 buf 0 s t er) as (buf' & c' & Hd & Hok).
  - by rewrite fresh_from.
  - pose proof (zlen_nonneg buf). lia.
  - destruct (_ =? _); lia.
  - exists buf', c'. split; [exact Hd|]. intros He. destruct (Hok He) as [Hb (c1 & -> & Hc1 & Hf1)].
    rewrite ztake_0 in Hb. split; [exact Hb|]. by exists c1.
Qed.

Lemma convert_spec fuel ie oe s c : ready ie oe c -> enough fuel ie oe s ->
  exists c', convert fuel s c = Some (answer (transcode ie oe s), c') /\ (snd (transcode ie oe s) = None -> ready ie oe c').
Proof.
  intros [Hi Ho] [Hf1 Hf2]. unfold convert, transcode in *.
  destruct (drain_to fuel ie (in_conv c) (u_buff c) s Hi Hf1) as (ub & ic & -> & Hok). cbn [mbind option_bind].
  destruct (decode ie s) as [t [er|]]; cbn [fst snd] in *; [by eexists|]. destruct (Hok eq_refl) as [-> Hi'].
  destruct (drain_from fuel oe (out_conv (set_in ic ub c)) (o_buff (set_in ic ub c)) t Ho Hf2) as (ob & oc & -> & Hok').
  cbn [mbind option_bind]. destruct (encode oe t) as [b [er|]]; cbn [fst snd answer] in *; [by eexists|].
  destruct (Hok' eq_refl) as [-> Ho']. eexists. split; [done|]. by split.
Qed.

(** Conversions with one converter, until one throws. *)
Fixpoint convert_all (fuel : nat) (l : list (list Z)) (c : Converter) : option (list (outcome (list Z)) * Converter) :=
  match l with
  | [] => Some ([], c)
  | s :: r =>
      '(o, c) ← convert fuel s c;
      match o with
      | Throw e => Some ([Throw e], c)
      | Value v => '(os, c) ← convert_all fuel r c; Some (Value v :: os, c)
      end
  end.

Fixpoint answers (ie oe : list Z) (l : list (list Z)) : list (outcome (list Z)) :=
  match l with
  | [] => []
  | s :: r => match answer (transcode ie oe s) with Throw e => [Throw e] | Value v => Value v :: answers ie oe r end
  end.

(** C32: A [Converter] gives what ICU makes of each text.  Whatever the sizes of
    the texts and what earlier conversions left in its buffers, every call
    of [convert] ends and gives the whole text in the other encoding, or
    throws the error of ICU. *)
Theorem converter_session fuel ie oe l c : Converter_new ie oe = Some (Value c) -> Forall (enough fuel ie oe) l ->
  exists c', convert_all fuel l c = Some (answers ie oe l, c').
Proof.
  intros Hn. apply Converter_new_ready in Hn. revert c Hn. induction l as [|s l IH]; intros c Hc Hl; [by exists c|].
  apply Forall_cons in Hl as [Hs Hl]. cbn [convert_all answers].
  destruct (convert_spec fuel ie oe s c Hc Hs) as (c1 & -> & Hok). cbn [mbind option_bind].
  destruct (transcode ie oe s) as [b [e|]]; cbn [answer snd] in *; [by exists c1|].
  destruct (IH c1 (Hok eq_refl) Hl) as (c2 & ->). by exists c2.
Qed.

(** ** Case_folder *)
Lemma mul12_ge n : 0 <= n -> n <= mul12 n.
Proof.
  intros Hn. destruct (decide (n = 0)) as [->|Hn0]; [by vm_compute|]. unfold mul12. set (p := n * 5404319552844595). set (b := Z.max 0 (Z.log2 p - 52)).
  assert (0 < 2 ^ b) as Hb by (apply Z.pow_pos_nonneg; lia).
  assert (n * 2 ^ 52 <= p / 2 ^ b * 2 ^ b) as Hq.
  { pose proof (Z.div_mod p (2 ^ b) ltac:(lia)) as Hdm. pose proof (Z.mod_pos_bound p (2 ^ b) Hb) as Hr.
    destruct (decide (b = 0)) as [E|E].
    - rewrite E in *. change (2 ^ 0) with 1 in *. rewrite Z.div_1_r. unfold p. lia.
    - assert (2 ^ b * 2 ^ 52 <= p) as Hp.
      { rewrite <-Z.pow_add_r by lia. replace (b + 52) with (Z.log2 p) by lia. apply Z.log2_spec.
        unfold p. lia. }
      unfold p in *. lia. }
  apply Z.div_le_lower_bound; [done|]. rewrite Z.mul_comm. etransitivity; [exact Hq|].
  apply Z.mul_le_mono_nonneg_r; [lia|]. destruct (_ || _); lia.
Qed.

Lemma fold_loop_ok s folded : fold_loop 3 folded s U_ZERO_ERROR
  = if zlen (fold_case s) <=? zlen folded then val (fold_case s)
    else throw (runtime_error (str "u_strFoldCase error:U_BUFFER_OVERFLOW_ERROR")).
Proof.
  pose proof (zlen_nonneg folded). pose proof (zlen_nonneg (fold_case s)). cbn [fold_loop].
  zcase (zlen (fold_case s) <=? zlen folded).
  - destruct (fold_law (zlen folded) s) as (st & -> & Hst); [lia..|].
    assert (resize (overwrite folded 0 (fold_case s)) (zlen (fold_case s)) = fold_case s) as Hr.
    { unfold resize. rewrite zlen_overwrite by lia.
      replace (Z.to_nat (zlen (fold_case s) - zlen folded)) with 0%nat by lia. cbn [replicate]. rewrite app_nil_r.
      pose proof (ztake_overwrite folded 0 (fold_case s)) as Ht. rewrite ztake_0 in Ht. apply Ht; lia. }
    rewrite Hr. destruct st; try done; by rewrite Hst.
  - destruct (fold_overflow (zlen folded) s) as (w & -> & Hw); [lia..|]. pose proof (zlen_nonneg w).
    rewrite zlen_overwrite, Z.gtb_ltb, (proj2 (Z.ltb_lt _ _)) by lia. rewrite fold_failed by done. cbn [overwrite].
    replace (0 >? zlen (overwrite (resize (overwrite folded 0 w) (zlen (fold_case s))) 0 [])) with false; [done|].
    symmetry. rewrite Z.gtb_ltb. apply Z.ltb_ge. apply zlen_nonneg.
Qed.

(** C33: [fold_case_utf8] gives the folded text exactly when it fits in the
    first buffer, 1.2 times the text (so always when folding does not
    lengthen it), and otherwise throws, since the error code of the first
    try is not reset before the second. *)
Theorem fold_case_utf8_spec fuel c s t : Case_folder_new = Some (Value c) ->
  s <> [] -> decode (str "utf-8") s = (t, None) -> (length t + 2 <= fuel)%nat ->
  (length (fst (encode (str "utf-8") (fold_case t))) + 2 <= fuel)%nat ->
  zlen t <= mul12 (zlen t)
  /\ fst <$> fold_case_utf8 fuel c s
     = Some (if zlen (fold_case t) <=? mul12 (zlen t) then answer (encode (str "utf-8") (fold_case t))
             else Throw (runtime_error (str "u_strFoldCase error:U_BUFFER_OVERFLOW_ERROR"))).
Proof.
  intros Hnew Hs Ht Hf1 Hf2. pose proof (zlen_nonneg t). pose proof (mul12_ge (zlen t) ltac:(lia)). split; [done|].
  assert (conv_for (str "utf-8") c) as Hc.
  { unfold Case_folder_new in Hnew. destruct (ucnv_open (str "utf-8")) as [c' st] eqn:E.
    destruct (U_SUCCESS st) eqn:Es; [|done]. injection Hnew as ->. by eapply open_law. }
  unfold fold_case_utf8. rewrite bool_decide_false by done.
  destruct (drain_to fuel (str "utf-8") c (replicate (length s) 0) s Hc) as (u & c' & -> & Hok); [by rewrite Ht|].
  rewrite Ht in *. cbn [fst snd mbind option_bind] in *. destruct (Hok eq_refl) as [Hu Hc'].
  assert (resize u (zlen t) = t) as ->.
  { unfold resize. rewrite Hu. replace (Z.to_nat (zlen t - zlen u)) with 0%nat; [apply app_nil_r|].
    apply (f_equal zlen) in Hu. unfold zlen, ztake in *. rewrite length_take in Hu. lia. }
  rewrite fold_loop_ok, zlen_replicate, Z2Nat.id by lia.
  zcase (zlen (fold_case t) <=? mul12 (zlen t)); [|done]. cbn [mbind option_bind val].
  destruct (drain_from fuel (str "utf-8") c' (replicate (length s) 0) (fold_case t) Hc' Hf2) as (b & c'' & -> & Hok').
  cbn [mbind option_bind]. destruct (encode (str "utf-8") (fold_case t)) as [x [e|]]; cbn [fst snd answer] in *; [done|].
  destruct (Hok' eq_refl) as [-> _]. done.
Qed.

(** The two conversions with [UnicodeString] are the halves of [convert]; they
    leave the object without a converter for input. *)
Lemma convert_to_unicode_spec fuel e s c ic : my_ucnv_open e = Some (Value ic) -> (length (fst (decode e s)) + 2 <= fuel)%nat ->
  exists c', convert_to_unicode fuel e s c = Some (answer (decode e s), c') /\ (snd (decode e s) = None -> in_conv c' = None).
Proof.
  intros Ho Hf. unfold convert_to_unicode. rewrite Ho. apply my_ucnv_open_ok in Ho.
  destruct (drain_to fuel e ic (u_buff c) s Ho Hf) as (ub & ic' & -> & Hok). cbn [mbind option_bind].
  destruct (decode e s) as [t [er|]]; cbn [fst snd answer] in *; [by eexists|]. destruct (Hok eq_refl) as [-> _].
  by eexists.
Qed.

Lemma convert_unicode_to_spec e s b c ic : my_ucnv_open e = Some (Value ic) -> encode e s = (b, None) ->
  exists c', convert_unicode_to e s c = Some (Value b, c') /\ in_conv c' = None.
Proof.
  intros Ho He. unfold convert_unicode_to. rewrite Ho. apply my_ucnv_open_ok in Ho as (c0 & -> & <- & Hf).
  destruct (fromUChars_law c0 s b Hf He) as (st & -> & -> & Hl). set (need := (zlen s + 10) * _) in *.
  exists (set_in None (u_buff c) c). split; [|done]. do 3 f_equal. pose proof (zlen_nonneg b).
  assert (zlen (replicate (Z.to_nat need) 0) = need) as Hz by (rewrite zlen_replicate; lia).
  unfold resize. rewrite zlen_overwrite by lia. rewrite Hz.
  replace (Z.to_nat (zlen b - need)) with 0%nat by lia. rewrite app_nil_r.
  pose proof (ztake_overwrite (replicate (Z.to_nat need) 0) 0 b) as Ht. rewrite ztake_0 in Ht. apply Ht; lia.
Qed.
End Converters.

(** ** An instance

    A library with one encoding in which the units are the octets; a
    converter is its encoding and what it has not written yet. *)
Definition byte_chunk (c : option (list Z * list Z)) (room : Z) (src : list Z) : chunk (list Z * list Z) :=
  match c with
  | None => mk_chunk [] src (U_ERROR (str "U_ILLEGAL_ARGUMENT_ERROR")) None
  | Some (e, p) =>
      let t := p ++ src in
      if zlen t <=? room then mk_chunk t [] U_ZERO_ERROR (Some (e, []))
      else mk_chunk (ztake room t) [] U_BUFFER_OVERFLOW_ERROR (Some (e, zdrop room t))
  end.

Lemma byte_streams : streams byte_chunk (fun c s => (c.2 ++ s, None)) fst (fun c => c.2 = []).
Proof.
  intros [e p] room src Hr. cbn. zcase (zlen (p ++ src) <=? room); cbn.
  - split; [done|]. split; [done|]. by exists (e, []).
  - split; [done|]. split; [done|]. eexists. split; [done|]. split; [done|]. cbn. by rewrite app_nil_r.
Qed.

(** Capital letters become small, a sharp s two letters. *)
Definition byte_fold (s : list Z) : list Z := s ≫= fun x => if x =? 223 then [115; 115] else if is_upper x then [x + 32] else [x].

Definition byte_icu : IcuStream.
Proof.
  refine {| cnv := list Z * list Z; enc_of := fst; fresh := fun c => c.2 = [];
    to_text := fun c s => (c.2 ++ s, None); from_text := fun c s => (c.2 ++ s, None);
    decode := fun _ s => (s, None); encode := fun _ s => (s, None);
    ucnv_open := fun e => (Some (e, []), U_ZERO_ERROR);
    ucnv_toUnicode := byte_chunk; ucnv_fromUnicode := byte_chunk;
    ucnv_getMaxCharSize := fun _ => 1; ucnv_fromUChars := fun _ _ s => (zlen s, s, U_ZERO_ERROR);
    u_strFoldCase := fun cap s st => if U_SUCCESS st
      then if zlen (byte_fold s) <=? cap then (zlen (byte_fold s), byte_fold s, U_ZERO_ERROR)
           else (zlen (byte_fold s), [], U_BUFFER_OVERFLOW_ERROR)
      else (0, [], st);
    fold_case := byte_fold; toUnicode_law := byte_streams; fromUnicode_law := byte_streams |}.
  - intros e c st [= <- <-] _. by exists (e, []).
  - by intros [e p] s Hp; cbn in *; subst p.
  - by intros [e p] s Hp; cbn in *; subst p.
  - intros c s b _ [= <-]. exists U_ZERO_ERROR. split; [done|]. split; [done|]. lia.
  - intros cap s _ Hl. exists U_ZERO_ERROR. cbn. by rewrite (proj2 (Z.leb_le _ _)).
  - intros cap s H0 Hl. exists []. cbn. rewrite (proj2 (Z.leb_gt _ _)) by done. split; [done|]. rewrite zlen_nil. lia.
  - intros cap s st ->. done.
Defined.

Definition byte_converter : Converter (H := byte_icu) :=
  mk_Converter (H := byte_icu) (str "x") (str "y") (Some (str "x", [])) (Some (str "y", [])) [] [].

Lemma converter_session_witness : exists c',
  convert_all (H := byte_icu) 7 [str "hello"; []; str "yo"] byte_converter
  = Some ([Value (str "hello"); Value []; Value (str "yo")], c').
Proof.
  apply (converter_session (H := byte_icu) 7 (str "x") (str "y") [str "hello"; []; str "yo"] byte_converter); [done|].
  repeat constructor; cbn; lia.
Defined.

Lemma fold_case_utf8_spec_witness :
  12 <= mul12 12
  /\ fst <$> fold_case_utf8 (H := byte_icu) 20 (Some (str "utf-8", [])) (str "Hello, World")
     = Some (Value (str "hello, world")).
Proof. apply (fold_case_utf8_spec (H := byte_icu) 20 (Some (str "utf-8", [])) (str "Hello, World") (str "Hello, World")); [done|done|done|vm_compute; lia..]. Defined.

(** One letter that folds to two is too much for a short text. *)
Example fold_too_long :
  fst <$> fold_case_utf8 (H := byte_icu) 20 (Some (str "utf-8", [])) [223]
  = Some (Throw (runtime_error (str "u_strFoldCase error:U_BUFFER_OVERFLOW_ERROR"))).
Proof. vm_compute. reflexivity. Qed.

(** After a conversion to [UnicodeString] the converter for input is gone. *)
Example converter_gone :
  (r ← convert_to_unicode (H := byte_icu) 9 (str "x") (str "a") byte_converter; fst <$> convert (H := byte_icu) 9 (str "b") r.2)
  = Some (Throw (unicode_error (str "U_ILLEGAL_ARGUMENT_ERROR"))).
Proof. vm_compute. reflexivity. Qed.
