(* ===== verification/Spawn.v ===== *)
(** * Running other programs

    src/src/common/utils.cc: [system_exec] and [stdout2stream_system_exec],
    which run a program in a child process and wait for it.

    The process has a handler for SIGCHLD, open descriptors, copies made with
    [strdup], output that [cout] and stdio still hold and what was written to
    the standard output.  Which calls fail and what a program does is the class
    [Kernel].  A stream that is written to is a string stream: it stays good.
    A program that was started may go on for ever, and then keeps its end of the
    pipe open; when it ends, no descendant of it holds the pipe.  A read from an
    empty pipe waits as long as anybody has a writing end open, the process itself
    included, and does not fail.  The standard output is open when a program is
    run.  What [perror] writes is left out. *)
From S2P Require Import Prelude.

(** ** The process *)
Inductive sig_handler := SIG_DFL | Handler (n : Z).

#[export] Instance sig_handler_eq_dec : EqDecision sig_handler.
Proof. solve_decision. Defined.

Record process := mk_process {
  sigchld : sig_handler; fds : list Z; copies : list (list Z); unflushed : list Z; out : list Z
}.

Definition set_sigchld v s := mk_process v (fds s) (copies s) (unflushed s) (out s).
Definition set_fds v s := mk_process (sigchld s) v (copies s) (unflushed s) (out s).
Definition set_copies v s := mk_process (sigchld s) (fds s) v (unflushed s) (out s).
Definition add_out v s := mk_process (sigchld s) (fds s) (copies s) (unflushed s) (out s ++ v).
(** [exit] writes what is still held. *)
Definition flush_all s := mk_process (sigchld s) (fds s) (copies s) [] (out s ++ unflushed s).

(** A function returns, throws, ends the process, or waits for ever. *)
Inductive ended (A : Type) :=
| Returns (a : A)
| Throws (e : exn)
| Exits (code : Z)
| Blocks.
Arguments Returns {A} a.
Arguments Throws {A} e.
Arguments Exits {A} code.
Arguments Blocks {A}.

(** [None]: the loop of a definition ran out of fuel. *)
Definition pio (A : Type) := process -> option (ended A * process).

Definition pret {A} (a : A) : pio A := fun s => Some (Returns a, s).
Definition pbind {A B} (m : pio A) (k : A -> pio B) : pio B := fun s =>
  match m s with
  | Some (Returns a, s') => k a s'
  | Some (Throws e, s') => Some (Throws e, s')
  | Some (Exits c, s') => Some (Exits c, s')
  | Some (Blocks, s') => Some (Blocks, s')
  | None => None
  end.
Definition pmod (f : process -> process) : pio unit := fun s => Some (Returns tt, f s).
Definition pblock {A} : pio A := fun s => Some (Blocks, s).
Definition pexit {A} (code : Z) : pio A := fun s => Some (Exits code, flush_all s).

Declare Scope pio_scope.
Delimit Scope pio_scope with pio.
Notation "x <- m ;; k" := (pbind m (fun x => k)) (at level 100, m at next level, right associativity) : pio_scope.
Notation "m ;; k" := (pbind m (fun _ : unit => k)) (at level 100, right associativity) : pio_scope.
Local Open Scope pio_scope.

(** ** The system *)

(** What a program that was started does: its output, and how it ends when its
    output is read to the end, or is not; [None] when it never ends. *)
Record image := mk_image { i_out : list Z; i_status : bool -> option Z }.

Class Kernel := {
  sigaction_fault : nat -> option Z;
  pipe_fault : option Z;
  fork_fault : option Z;
  dup2_fault : option Z;
  waitpid_fault : option Z;
  strerror : Z -> list Z;
  (** the two ends of a pipe *)
  pipe_fds : list Z -> Z * Z;
  pipe_fds_law l : ((pipe_fds l).1 ∉ l) /\ ((pipe_fds l).2 ∉ l) /\ (pipe_fds l).1 <> (pipe_fds l).2;
  execvp : list Z -> list (list Z) -> option image;
  (** the status of a process that writes to a pipe nobody reads *)
  broken_pipe : Z;
  (** how many of the [n] octets in reach one read gives *)
  nread : Z -> Z;
  nread_law n : 0 < n -> 0 < nread n <= n
}.

Definition EXIT_SUCCESS : Z := 0.
Definition EXIT_FAILURE : Z := 1.

(** The wait status of a process that called [exit], and its parts. *)
Definition exit_status (code : Z) : Z := Z.shiftl (Z.land code 255) 8.
Definition WIFEXITED (status : Z) : bool := Z.land status 127 =? 0.
Definition WEXITSTATUS (status : Z) : Z := Z.land (Z.shiftr status 8) 255.

(** A string stream. *)
Record ostream := mk_ostream { got : list Z; good : bool }.

Definition os_write (s : list Z) (o : ostream) : ostream := if good o then mk_ostream (got o ++ s) true else o.

Section Spawn.
Context `{Kernel}.

Definition err_sys {A} (s : list Z) (e : Z) : pio A := fun p =>
  Some (Throws (runtime_error (s ++ str " error: " ++ strerror e ++ [10])), p).

(** [sigaction(SIGCHLD, &act, &old_act)], the [n]-th call. *)
Definition sigaction (n : nat) (h : sig_handler) : pio sig_handler := fun s =>
  match sigaction_fault n with
  | Some e => err_sys (str "sigaction error") e s
  | None => Some (Returns (sigchld s), set_sigchld h s)
  end.

Definition close (fd : Z) : pio unit := pmod (fun s => set_fds (filter (fun x => x <> fd) (fds s)) s).

(** [arglist.push_back(strdup(cur))] for the arguments up to NULL, and
    [free] of all but the first element of the list. *)
Definition collect (args : list (list Z)) : pio unit := pmod (fun s => set_copies (args ++ copies s) s).
Definition free_args (args : list (list Z)) : pio unit := pmod (fun s => set_copies (drop (length args) (copies s)) s).

(** [waitpid], or the end of the process. *)
Definition wait_child (status : option Z) : pio Z :=
  match waitpid_fault, status with
  | Some _, _ => pexit EXIT_FAILURE
  | None, Some status => pret status
  | None, None => pblock
  end.

(** What the child of [system_exec] writes, and its status: without [execvp]
    it calls [exit], which writes what its parent had not written yet. *)
Definition exec_child (cmd : list Z) (args : list (list Z)) (s : process) : list Z * option Z :=
  match execvp cmd (cmd :: args) with
  | Some i => (i_out i, i_status i true)
  | None => (unflushed s, Some (exit_status EXIT_FAILURE))
  end.

Definition system_exec (cmd : list Z) (args : list (list Z)) : pio Z :=
  old_act <- sigaction 0 SIG_DFL ;;
  collect args ;;
  match fork_fault with
  | Some _ => pexit EXIT_FAILURE
  | None =>
      free_args args ;;
      (fun s => let '(text, status) := exec_child cmd args s in
        (pmod (add_out text) ;;
         status <- wait_child status ;;
         _ <- sigaction 1 old_act ;;
         pret status) s)
  end.

(** [while ((nread = read(fd[R], buf, 1024)) > 0 && os.good()) os.write(buf, nread);]
    with whether the output was read to its end.  [rest] is what the child has
    still to write and [ends] whether it ends then; [read] gives 0 once nobody has
    a writing end: the child has ended and this process has closed its own. *)
Fixpoint copy_loop (fuel : nat) (W : Z) (ends : bool) (rest : list Z) (os : ostream) : pio (bool * ostream) :=
  match fuel with
  | O => fun _ => None
  | S fuel => fun s =>
      let n := Z.min 1024 (zlen rest) in
      if n =? 0 then (if ends && bool_decide (W ∉ fds s) then pret (true, os) else pblock) s
      else if good os then copy_loop fuel W ends (zdrop (nread n) rest) (os_write (ztake (nread n) rest) os) s
      else pret (bool_decide (zdrop (nread n) rest = []), os) s
  end.

(** The child of [stdout2stream_system_exec]: what it writes to the pipe and to
    the standard output of its parent, and its status. *)
Definition piped_child (cmd : list Z) (args : list (list Z)) (s : process) : list Z * list Z * (bool -> option Z) :=
  match dup2_fault with
  | Some _ => ([], unflushed s, fun _ => Some (exit_status EXIT_FAILURE))
  | None =>
      match execvp cmd (cmd :: args) with
      | Some i => (i_out i, [], i_status i)
      | None => (unflushed s, [], fun drained => Some (if drained : bool then exit_status EXIT_FAILURE else broken_pipe))
      end
  end.

Definition stdout2stream_system_exec (os : ostream) (cmd : list Z) (args : list (list Z)) : pio (Z * ostream) :=
  old_act <- sigaction 0 SIG_DFL ;;
  collect args ;;
  match pipe_fault with
  | Some e => err_sys (str "pipe failed") e
  | None => fun s =>
      let '(R, W) := pipe_fds (fds s) in
      (pmod (set_fds (R :: W :: fds s)) ;;
       match fork_fault with
       | Some _ => pexit EXIT_FAILURE
       | None =>
           let '(piped, printed, status) := piped_child cmd args s in
           pmod (add_out printed) ;;
           free_args args ;;
           close W ;;
           copied <- copy_loop (S (length piped)) W (bool_decide (is_Some (status true))) piped os ;;
           let '(drained, os) := copied in
           close R ;;
           status <- wait_child (status drained) ;;
           _ <- sigaction 1 old_act ;;
           pret (status, os)
       end) s
  end.

(** ** The stream gets the whole output *)
Lemma copy_loop_good fuel W ends s : (W ∉ fds s) -> forall rest os, good os = true -> (length rest < fuel)%nat ->
  copy_loop fuel W ends rest os s = Some (if ends then Returns (true, mk_ostream (got os ++ rest) true) else Blocks, s).
Proof.
  intros HW. induction fuel as [|fuel IH]; intros rest os Hg Hl; [lia|]. cbn [copy_loop]. zcase (Z.min 1024 (zlen rest) =? 0).
  - destruct rest as [|c rest]; [|rewrite zlen_cons in *; pose proof (zlen_nonneg rest); lia].
    rewrite app_nil_r, bool_decide_eq_true_2, andb_true_r by done. destruct ends; [|done]. by destruct os as [g b]; cbn in *; subst.
  - pose proof (zlen_nonneg rest). pose proof (nread_law (Z.min 1024 (zlen rest)) ltac:(lia)) as Hn. rewrite Hg.
    set (n := nread _) in *. rewrite IH.
    + unfold os_write. rewrite Hg. cbn. by rewrite <- app_assoc, ztake_app_zdrop.
    + unfold os_write. by rewrite Hg.
    + unfold zdrop, zlen in *. rewrite length_drop. lia.
Qed.

Lemma filter_fresh (x : Z) (l : list Z) : (x ∉ l) -> filter (fun y => y <> x) l = l.
Proof.
  intros Hx. induction l as [|y l IH]; [done|]. apply not_elem_of_cons in Hx as [Hy Hl].
  rewrite filter_cons_True by congruence. by rewrite IH.
Qed.

(** Both ends of the pipe are closed again. *)
Lemma close_pipe (l : list Z) R W : pipe_fds l = (R, W) ->
  filter (fun x => x <> R) (filter (fun x => x <> W) (R :: W :: l)) = l.
Proof.
  intros E. destruct (pipe_fds_law l) as (HR & HW & Hne). rewrite E in HR, HW, Hne. cbn in HR, HW, Hne.
  rewrite !filter_cons. destruct (decide (R <> W)); [|done]. destruct (decide (W <> W)); [done|].
  rewrite (filter_fresh W), filter_cons by done. destruct (decide (R <> R)); [done|]. by apply filter_fresh.
Qed.

(** What runs in the child: the text it prints on the standard output of the
    process, the text that reaches the stream, and its status. *)
Definition ran (cmd : list Z) (args : list (list Z)) (s : process) : list Z * list Z * option Z :=
  match dup2_fault, execvp cmd (cmd :: args) with
  | Some _, _ => (unflushed s, [], Some (exit_status EXIT_FAILURE))
  | None, Some i => ([], i_out i, i_status i true)
  | None, None => ([], unflushed s, Some (exit_status EXIT_FAILURE))
  end.

Lemma piped_child_ran cmd args s s' piped printed status : piped_child cmd args s' = (piped, printed, status) ->
  unflushed s' = unflushed s -> ran cmd args s = (printed, piped, status true).
Proof.
  unfold piped_child, ran. intros E Hu. rewrite Hu in E. destruct dup2_fault; [by simplify_eq|].
  destruct (execvp cmd (cmd :: args)); by simplify_eq.
Qed.

(** Every outcome. *)
Lemma stdout2stream_cases os cmd args s : good os = true ->
  exists r s', stdout2stream_system_exec os cmd args s = Some (r, s') /\
  match sigaction_fault 0, pipe_fault, fork_fault with
  | Some e, _, _ => s' = s /\ r = Throws (runtime_error (str "sigaction error error: " ++ strerror e ++ [10]))
  | None, Some e, _ =>
      s' = set_copies (args ++ copies s) (set_sigchld SIG_DFL s)
      /\ r = Throws (runtime_error (str "pipe failed error: " ++ strerror e ++ [10]))
  | None, None, Some _ => r = Exits EXIT_FAILURE /\ unflushed s' = []
  | None, None, None =>
      let '(printed, text, status) := ran cmd args s in
      match status, waitpid_fault, sigaction_fault 1 with
      | None, _, _ => r = Blocks
      | Some _, Some _, _ => r = Exits EXIT_FAILURE /\ unflushed s' = []
      | Some _, None, Some e =>
          s' = add_out printed (set_sigchld SIG_DFL s)
          /\ r = Throws (runtime_error (str "sigaction error error: " ++ strerror e ++ [10]))
      | Some st, None, None => s' = add_out printed s /\ r = Returns (st, mk_ostream (got os ++ text) true)
      end
  end.
Proof.
  intros Hg. unfold stdout2stream_system_exec. unfold pbind at 1. unfold sigaction at 1.
  destruct (sigaction_fault 0) as [e|]; [by eexists _, _|]. unfold collect, pbind at 1, pmod at 1.
  destruct pipe_fault as [e|]; [by eexists _, _|]. cbn [fds set_copies set_sigchld].
  destruct (pipe_fds (fds s)) as [R W] eqn:EP. unfold pbind at 1, pmod at 1.
  destruct fork_fault as [e|]; [by eexists _, _|].
  destruct (piped_child cmd args _) as [[piped printed] status] eqn:EC. apply (piped_child_ran _ _ s) in EC as ->; [|done].
  unfold free_args, close, pbind at 1, pmod at 1, pbind at 1, pmod at 1, pbind at 1, pmod at 1, pbind at 1.
  rewrite copy_loop_good; [|cbn -[filter]; by intros [? _]%list_elem_of_filter|done|lia].
  destruct (status true) as [st|] eqn:Es; [rewrite bool_decide_eq_true_2 by eauto|by rewrite bool_decide_eq_false_2 by (by intros [? ?]); eexists _, _].
  unfold wait_child, pbind, pmod. destruct waitpid_fault as [e|]; [by eexists _, _|]. rewrite Es. unfold pret, sigaction.
  assert (Hs : set_fds (filter (fun x => x <> R) (filter (fun x => x <> W) (R :: W :: fds s)))
      (set_copies (drop (length args) (args ++ copies s)) (add_out printed (set_sigchld SIG_DFL s)))
    = add_out printed (set_sigchld SIG_DFL s)) by (rewrite (close_pipe _ _ _ EP), drop_app_length; by destruct s).
  destruct (sigaction_fault 1) as [e|]; eexists _, _; (split; [done|]); (split; [|done]).
  - exact Hs.
  - transitivity (set_sigchld (sigchld s) (add_out printed (set_sigchld SIG_DFL s))); [by rewrite <-Hs|by destruct s].
Qed.

(** [system_exec]: the program writes to the standard output itself. *)
Lemma system_exec_returns cmd args i s :
  sigaction_fault 0 = None -> sigaction_fault 1 = None -> fork_fault = None -> waitpid_fault = None ->
  execvp cmd (cmd :: args) = Some i ->
  exists s', system_exec cmd args s = Some (from_option Returns Blocks (i_status i true), s')
    /\ (i_status i true <> None -> s' = add_out (i_out i) s).
Proof.
  intros H0 H1 Hf Hw He. unfold system_exec, pbind at 1, sigaction at 1. rewrite H0, Hf.
  unfold pbind, pmod, collect, free_args, exec_child, wait_child, sigaction. rewrite He, Hw. cbn. rewrite H1. cbn.
  rewrite drop_app_length. destruct (i_status i true); (eexists; split; [done|]); by destruct s.
Qed.
End Spawn.

(** C30: [stdout2stream_system_exec] ends in one of these ways and in no other.
    When the program ends and the calls succeed it returns the program's status,
    the stream has got the whole output of the program, the handler of SIGCHLD is
    back and no descriptor or copy of an argument is left.  A program that cannot
    be started gives the status of [exit(EXIT_FAILURE)], and the stream gets the
    text the caller had not flushed (the standard output gets it when [dup2]
    fails).  It waits for ever exactly when the program was started and never
    ends.  When the pipe cannot be made the exception leaves SIGCHLD at its default
    and the copies of the arguments behind; when there is no process, or the
    child cannot be waited for, the whole program ends.  A program that ends is
    taken to leave no other process with its end of the pipe. *)
Theorem stdout2stream_outcome `{Kernel} os cmd args s : good os = true ->
  exists r s', stdout2stream_system_exec os cmd args s = Some (r, s') /\
  match sigaction_fault 0, pipe_fault, fork_fault with
  | Some e, _, _ => s' = s /\ r = Throws (runtime_error (str "sigaction error error: " ++ strerror e ++ [10]))
  | None, Some e, _ =>
      s' = set_copies (args ++ copies s) (set_sigchld SIG_DFL s)
      /\ r = Throws (runtime_error (str "pipe failed error: " ++ strerror e ++ [10]))
  | None, None, Some _ => r = Exits EXIT_FAILURE /\ unflushed s' = []
  | None, None, None =>
      let '(printed, text, status) := ran cmd args s in
      match status, waitpid_fault, sigaction_fault 1 with
      | None, _, _ => r = Blocks
      | Some _, Some _, _ => r = Exits EXIT_FAILURE /\ unflushed s' = []
      | Some _, None, Some e =>
          s' = add_out printed (set_sigchld SIG_DFL s)
          /\ r = Throws (runtime_error (str "sigaction error error: " ++ strerror e ++ [10]))
      | Some st, None, None => s' = add_out printed s /\ r = Returns (st, mk_ostream (got os ++ text) true)
      end
  end.
Proof. apply stdout2stream_cases. Qed.

(** ** A system with one program *)
Definition next_fds (l : list Z) : Z * Z := (1 + foldr Z.max 2 l, 2 + foldr Z.max 2 l).

Lemma next_fds_law l : ((next_fds l).1 ∉ l) /\ ((next_fds l).2 ∉ l) /\ (next_fds l).1 <> (next_fds l).2.
Proof.
  assert (Hm : forall x, x ∈ l -> x <= foldr Z.max 2 l).
  { induction l as [|y l IH]; intros x Hx; [by apply elem_of_nil in Hx|]. cbn.
    apply elem_of_cons in Hx as [->|Hx%IH]; lia. }
  cbn. split_and!; [intros Hx%Hm; lia..|lia].
Qed.

Definition one_program (name text : list Z) (status : Z) (cmd : list Z) (argv : list (list Z)) : option image :=
  if bool_decide (cmd = name) then Some (mk_image text (fun _ => Some status)) else None.

Lemma whole_law n : 0 < n -> 0 < n <= n.
Proof. lia. Qed.

Definition quiet_kernel (name text : list Z) (status : Z) : Kernel := {|
  sigaction_fault := fun _ => None; pipe_fault := None; fork_fault := None; dup2_fault := None; waitpid_fault := None;
  strerror := fun _ => []; pipe_fds := next_fds; pipe_fds_law := next_fds_law; execvp := one_program name text status;
  broken_pipe := 13; nread := fun n => n; nread_law := whole_law |}.

Definition a_process : process := mk_process (Handler 1) [0; 1; 2] [] (str "held") [].

Lemma stdout2stream_outcome_witness :
  @stdout2stream_system_exec (quiet_kernel (str "ls") (str "a b") 0) (mk_ostream [] true) (str "ls") [str "-l"] a_process
  = Some (Returns (0, mk_ostream (str "a b") true), a_process).
Proof.
  destruct (@stdout2stream_outcome (quiet_kernel (str "ls") (str "a b") 0) (mk_ostream [] true) (str "ls") [str "-l"] a_process eq_refl)
    as (r & s' & E & Hs & Hr). rewrite E, Hs, Hr. reflexivity.
Defined.
