(* ===== verification/LocalIndexer.v ===== *)
(** * The local indexer

    src/src/local_indexer/local_indexer.cc: a walk over a directory that starts
    one child process per file, at most as many at a time as there are
    processors; a child turns a PDF file into a document.

    The parent, its children and the delivery of SIGCHLD are steps of one
    relation.  The parent is a stack of calls: each test, [pause], [fork] and
    increment is a step of its own, and the handler may run between any two of
    them.  SIGCHLD is a standard signal: while one is pending further ones are
    lost.  The directories are a finite tree, as the walk meets them (a chain
    of symbolic links ends in an error).  Boost.Filesystem, MongoDB, the
    canonical form of a path and the other programs are parameters.  A child that
    runs is taken to end at some time; what one child does alone is [child], and
    what becomes of the database when several children use the one connection that
    they inherit is not said.  What the parent prints is left out. *)

From stdpp Require Import relations gmap.
From S2P Require Import Prelude Regex Utils Path Url Doc BigHash Spawn.

(** ** Text *)

(** The value of a [char], which is signed. *)
Definition schar (c : Z) : Z := if c <? 128 then c else c - 256.

(** The test of [filter_ascii_control]. *)
Definition filtered (c : Z) : bool :=
  let i := schar c in (i <=? 9) || ((14 <=? i) && (i <=? 31)) || (i =? 127).

(** [filter_ascii_control(in, out)]: [out] is appended to. *)
Fixpoint filter_ascii_control (s out : list Z) : list Z :=
  match s with
  | [] => out
  | c :: s => if filtered c then filter_ascii_control s out else filter_ascii_control s (out ++ [c])
  end.

Definition is_word (c : Z) : bool := is_alnum c || (c =? 95).

(** [ext_re("(.+)\\.(\\w{3})$")] *)
Definition ext_re : re :=
  Seq (Grp 1 (Plus Any)) (Seq (Chr 46) (Seq (Grp 2 (Rep (Set_ is_word) 3 (Some 3%nat))) Eol)).

(** The extension of a file in lower case, when its name has one. *)
Definition extension {BR : BoostRegex} (p : list Z) : option (list Z) :=
  match regex_match ext_re p with
  | Some g => Some (to_lower (default [] (group 2 g)))
  | None => None
  end.

(** ** A file *)
Section Pdf.
Context {BR : BoostRegex} {MG : Mongo} {KE : Kernel} (NDEBUG : bool) (max_size UNSET : Z).
(** [canonicalize_file_name]; NULL when there is no such file. *)
Context (canonicalize_file_name : list Z -> option (list Z)).

Definition FLAG_UTF8_OK : Z := 1.

(** [cout << s << endl] *)
Definition print_endl (t : list Z) (s : process) : process :=
  mk_process (sigchld s) (fds s) (copies s) [] (Spawn.out s ++ unflushed s ++ t ++ [10]).

Definition set_result (content : list Z) (flags code : Z) (d : Doc) : Doc :=
  mk_Doc (d_url d) (d_eff_url d) code (d_curl_code d) (d_curl_error d) (d_modified d) (d_crawled d) content
    (d_headers d) (d_etag d) (d_content_type d) (d_charset d) flags (d_title d) (d_rss2 d) (d_rss d) (d_atom d).

Definition save_doc (d : Doc) (c : db) (s : process) : option (ended db * process) :=
  match save NDEBUG max_size UNSET d c with
  | None => None
  | Some (Throw e) => Some (Throws e, s)
  | Some (Value (_, c)) => Some (Returns c, s)
  end.

Definition index_pdf (p : list Z) (c : db) (s : process) : option (ended db * process) :=
  let s := print_endl p s in
  match canonicalize_file_name p with
  | None => None
  | Some canonical_path =>
      match Url_of NDEBUG max_size (str "file://" ++ canonical_path) with
      | None => None
      | Some (Throw e) => Some (Throws e, s)
      | Some (Value url) =>
          let s := print_endl (Url_get url) s in
          let doc := set_d_url url (Doc_new UNSET) in
          match stdout2stream_system_exec (mk_ostream [] true) (str "pdftotext")
                  [str "-enc"; str "UTF-8"; canonical_path; str "-"] s with
          | None => None
          | Some (Throws e, s) => Some (Throws e, s)
          | Some (Exits code, s) => Some (Exits code, s)
          | Some (Blocks, s) => Some (Blocks, s)
          | Some (Returns (res, contents), s) =>
              if WIFEXITED res && (WEXITSTATUS res =? EXIT_SUCCESS) then
                save_doc (set_result (filter_ascii_control (got contents) (d_content doc))
                            (set_flag (d_flags doc) (Z.shiftl 1 FLAG_UTF8_OK)) 200 doc) c s
              else
                save_doc (set_result (d_content doc) (clear_flag (d_flags doc) (Z.shiftl 1 FLAG_UTF8_OK)) 415 doc) c s
          end
      end
  end.

(** A file and its extension. *)
Definition job : Type := list Z * list Z.

(** The child process: its exit code, or that it waits for ever, and what it
    leaves in the database. *)
Definition child (s : process) (j : job) (c : db) : option (ended unit * db) :=
  if bool_decide (j.2 = str "pdf") then
    match index_pdf j.1 c s with
    | None => None
    | Some (Returns c, _) => Some (Exits EXIT_SUCCESS, c)
    | Some (Throws _, _) => Some (Exits EXIT_FAILURE, c)
    | Some (Exits code, _) => Some (Exits code, c)
    | Some (Blocks, _) => Some (Blocks, c)
    end
  else Some (Exits EXIT_SUCCESS, c).
End Pdf.

(** ** The parent and its children *)

(** What the walk meets at a path. *)
Inductive tree :=
| Missing
| Regular
| Directory (entries : list (list Z * tree))
| Unreadable
| Other.

(** Where [index] is. *)
Inductive call :=
| Index (p : list Z) (t : tree)
| Test (j : job)
| Pausing (j : job)
| Paused (j : job)
| Fork (j : job)
| Count.

Section Indexer.
Context {BR : BoostRegex} {BP : BoostPath}.
(** The number of processors. *)
Context (PARALLELISM : Z).

(** [zombies] have ended and were not waited for; [pending] is SIGCHLD. *)
Record indexer := mk_indexer {
  stack : list call; nchilds : Z; running : list job; zombies : nat; pending : bool;
  forked : list job; finished : list job; skipped : list job; failed : bool
}.

Definition set_stack v s := mk_indexer v (nchilds s) (running s) (zombies s) (pending s) (forked s) (finished s) (skipped s) (failed s).
Definition set_nchilds v s := mk_indexer (stack s) v (running s) (zombies s) (pending s) (forked s) (finished s) (skipped s) (failed s).

(** The handler: [wait] gives a child that has ended, blocks as long as there
    are others, and fails when there is none. *)
Inductive reaped := Reaped (s : indexer) | Waits | WaitError.

Definition chld_reaper (s : indexer) : reaped :=
  match zombies s with
  | S n => Reaped (mk_indexer (stack s) (nchilds s - 1) (running s) n false (forked s) (finished s) (skipped s) (failed s))
  | O => match running s with [] => WaitError | _ => Waits end
  end.

(** [pause] returns once the handler has. *)
Definition wake (s : indexer) : indexer :=
  match stack s with
  | Paused j :: k => set_stack (Test j :: k) s
  | _ => s
  end.

(** One step of [index], but for [fork]. *)
Definition parent (s : indexer) : option indexer :=
  match stack s with
  | Index p t :: k =>
      match t with
      | Missing => Some (set_stack k s)
      | Directory es => Some (set_stack (map (fun e => Index (path_append p e.1) e.2) es ++ k) s)
      | Unreadable => Some (mk_indexer [] (nchilds s) (running s) (zombies s) (pending s) (forked s) (finished s) (skipped s) true)
      | Regular =>
          match extension p with
          | Some ext => Some (set_stack (Test (p, ext) :: k) s)
          | None => Some (set_stack k s)
          end
      | Other => Some (set_stack k s)
      end
  | Test j :: k => if nchilds s >=? PARALLELISM then Some (set_stack (Pausing j :: k) s) else Some (set_stack (Fork j :: k) s)
  | Pausing j :: k => Some (set_stack (Paused j :: k) s)
  | Count :: k => Some (set_nchilds (nchilds s + 1) (set_stack k s))
  | _ => None
  end.

(** [fork] gives a child, or -1, which is counted like one. *)
Inductive step : indexer -> indexer -> Prop :=
| step_parent s s' : parent s = Some s' -> step s s'
| step_fork s j k : stack s = Fork j :: k ->
    step s (mk_indexer (Count :: k) (nchilds s) (running s ++ [j]) (zombies s) (pending s) (forked s ++ [j]) (finished s) (skipped s) (failed s))
| step_no_fork s j k : stack s = Fork j :: k ->
    step s (mk_indexer (Count :: k) (nchilds s) (running s) (zombies s) (pending s) (forked s ++ [j]) (finished s) (skipped s ++ [j]) (failed s))
| step_child s l j r : running s = l ++ j :: r ->
    step s (mk_indexer (stack s) (nchilds s) (l ++ r) (S (zombies s)) true (forked s) (finished s ++ [j]) (skipped s) (failed s))
| step_signal s s' : pending s = true -> chld_reaper s = Reaped s' -> step s (wake s').

(** [index(p)] in a process without children. *)
Definition index_start (p : list Z) (t : tree) : indexer :=
  mk_indexer [Index p t] 0 [] 0 false [] [] [] false.
End Indexer.

(** ** main *)
Inductive connected := Connected | UserException | OtherException.

Section Main.
Context (getenv : list Z -> option (list Z)) (connect : list Z -> connected).

(** [init_mongo]: the server and the collection, or the end of the program. *)
Definition init_mongo : ended (list Z * list Z) :=
  let mongo_server := default (str "localhost") (getenv (str "CRAWLER_DB_HOST")) in
  let mongodb_namespace := default (str "mycelium.crawl") (getenv (str "CRAWLER_DB_NAMESPACE")) in
  match connect mongo_server with
  | Connected => Returns (mongo_server, mongodb_namespace)
  | UserException => Exits EXIT_FAILURE
  | OtherException => Throws (runtime_error [])
  end.

Definition install_sig_handlers `{Kernel} (s : process) : option (ended unit * process) :=
  match sigaction 0 (Handler 1) s with
  | Some (Returns _, s) => Some (Returns tt, s)
  | Some (Throws e, s) => Some (Throws e, s)
  | Some (Exits c, s) => Some (Exits c, s)
  | Some (Blocks, s) => Some (Blocks, s)
  | None => None
  end.

(** [main]: the exit code, or the walk that starts: its number of children, the
    server and the collection that the children write to, and the first state. *)
Definition main `{Kernel} (args : list (list Z)) (tree_of : list Z -> tree) (_SC_NPROCESSORS_ONLN : Z)
    (s : process) : option (Z + Z * (list Z * list Z) * indexer) :=
  match args with
  | [p] =>
      match install_sig_handlers s with
      | None => None
      | Some (Throws _, _) => Some (inl EXIT_FAILURE)
      | Some (Exits c, _) => Some (inl c)
      | Some (Blocks, _) => None
      | Some (Returns _, _) =>
          match init_mongo with
          | Throws _ => Some (inl EXIT_FAILURE)
          | Exits c => Some (inl c)
          | Blocks => None
          | Returns mongo => Some (inr (_SC_NPROCESSORS_ONLN, mongo, index_start p (tree_of p)))
          end
      end
  | _ => Some (inl EXIT_FAILURE)
  end.
End Main.

(** * Statements about the local indexer

    The invariant of the parent and its children, the measure that every step
    lowers, where a run may stop, and what a child stores for a PDF file. *)
(** ** The files of a walk *)
Section Walk.
Context {BR : BoostRegex} {BP : BoostPath}.

(** The files with an extension in the order of the walk, and whether the walk
    meets no directory that it cannot read. *)
Fixpoint walk (p : list Z) (t : tree) {struct t} : list job * bool :=
  match t with
  | Missing | Other => ([], true)
  | Unreadable => ([], false)
  | Regular => (match extension p with Some ext => [(p, ext)] | None => [] end, true)
  | Directory es =>
      (fix go es := match es with
        | [] => ([], true)
        | e :: es =>
            let r := walk (path_append p e.1) e.2 in
            if r.2 then let q := go es in (r.1 ++ q.1, q.2) else r
        end) es
  end.

(** What is left to do for a stack of calls. *)
Fixpoint todo (k : list call) : list job * bool :=
  match k with
  | [] => ([], true)
  | Index p t :: k => let r := walk p t in if r.2 then let q := todo k in (r.1 ++ q.1, q.2) else r
  | (Test j | Pausing j | Paused j | Fork j) :: k => let q := todo k in (j :: q.1, q.2)
  | Count :: k => todo k
  end.

Lemma todo_app k1 k2 : todo (k1 ++ k2) = (if (todo k1).2 then ((todo k1).1 ++ (todo k2).1, (todo k2).2) else todo k1).
Proof.
  induction k1 as [|[p t|j|j|j|j|] k1 IH]; cbn; [by destruct (todo k2)|..|exact IH].
  { destruct (walk p t) as [l []]; cbn; [|done]. rewrite IH. destruct (todo k1) as [l1 []]; cbn; [|done].
    by rewrite app_assoc. }
  all: rewrite IH; by destruct (todo k1) as [l1 []].
Qed.

Lemma todo_directory p es : todo (map (fun e => Index (path_append p e.1) e.2) es) = walk p (Directory es).
Proof.
  induction es as [|e es IH]; [done|]. cbn [map todo]. rewrite IH. cbn [walk].
  by destruct (walk (path_append p e.1) e.2) as [l []].
Qed.
End Walk.

(** ** The measure *)
Fixpoint tree_weight (t : tree) : nat :=
  match t with
  | Regular => 10
  | Directory es => S ((fix go es := match es with [] => 0 | e :: es => tree_weight e.2 + go es end) es)%nat
  | _ => 1
  end.

Definition call_weight (c : call) : nat :=
  match c with
  | Index _ t => tree_weight t
  | Test _ => 9 | Pausing _ => 8 | Paused _ => 7 | Fork _ => 6 | Count => 1
  end.

Definition weight (s : indexer) : nat :=
  sum_list_with call_weight (stack s) + 4 * length (running s) + (if pending s then 3 else 0).

Lemma weight_directory {BP : BoostPath} p es :
  S (sum_list_with call_weight (map (fun e => Index (path_append p e.1) e.2) es)) = tree_weight (Directory es).
Proof. induction es as [|e es IH]; [done|]. cbn in *. lia. Qed.

(** ** The invariant *)
Section Inv.
Context {BR : BoostRegex} {BP : BoostPath}.
Context (P : Z) (p0 : list Z) (t0 : tree).

Definition is_index (c : call) : bool := match c with Index _ _ => true | _ => false end.

(** The calls below the top one are calls of [index]. *)
Definition stack_ok (k : list call) : Prop := Forall (fun c => is_index c = true) (tail k).

Definition counting (k : list call) : Z := match k with Count :: _ => 1 | _ => 0 end.

(** Between the test and the increment there is room for one more child. *)
Definition room (k : list call) (n : Z) : Prop :=
  match k with (Fork _ | Count) :: _ => n < P | _ => n <= P end.

Record inv (s : indexer) : Prop := {
  i_stack : stack_ok (stack s);
  i_count : nchilds s + counting (stack s) = zlen (running s) + Z.of_nat (zombies s) + zlen (skipped s);
  i_room : room (stack s) (nchilds s);
  i_pending : pending s = true -> (0 < zombies s)%nat;
  i_jobs : forked s ≡ₚ running s ++ finished s ++ skipped s;
  i_files : if failed s then stack s = [] /\ (forked s, false) = walk p0 t0
            else (forked s ++ (todo (stack s)).1, (todo (stack s)).2) = walk p0 t0
}.

Lemma inv_start : 0 <= P -> inv (index_start p0 t0).
Proof.
  intros HP. split; cbn; try done; try constructor.
  destruct (walk p0 t0) as [l []]; cbn; by rewrite ?app_nil_r.
Qed.

(** The calls of the entries of a directory. *)
Lemma stack_ok_dir p es k : stack_ok (Index p (Directory es) :: k) ->
  Forall (fun c => is_index c = true) (map (fun e => Index (path_append p e.1) e.2) es ++ k).
Proof. intros H. apply Forall_app. split; [|exact H]. clear H.
  induction es; cbn; [by apply Forall_nil|by apply Forall_cons]. Qed.

Lemma stack_ok_all k : Forall (fun c => is_index c = true) k -> stack_ok k.
Proof. intros H. destruct k; [constructor|]. by apply Forall_cons_1 in H as [_ ?]. Qed.

Lemma index_top k : Forall (fun c => is_index c = true) k -> counting k = 0 /\ forall n, n <= P -> room k n.
Proof. destruct k as [|[] k]; intros H; try done; by apply Forall_cons_1 in H as [[=] _]. Qed.

Lemma inv_nchilds s : inv s -> nchilds s <= P.
Proof. intros [_ _ H _ _ _]. destruct (stack s) as [|[] k]; cbn in H; lia. Qed.

(** A parent's step that replaces the stack by calls of [index] that leave
    the same work. *)
Lemma inv_calls s p t k k' : inv s -> stack s = Index p t :: k -> Forall (fun c => is_index c = true) k' ->
  todo k' = todo (Index p t :: k) -> inv (set_stack k' s).
Proof.
  intros Hi Hs Hk Ht. pose proof (inv_nchilds s Hi). destruct Hi as [H1 H2 H3 H4 H5 H7]. rewrite Hs in *.
  destruct (index_top k' Hk) as [Hc Hr]. split; cbn; try done.
  - by apply stack_ok_all.
  - rewrite Hc. exact H2.
  - by apply Hr.
  - destruct (failed s); [by destruct H7|]. by rewrite Ht.
Qed.

Lemma inv_top s c c' k : inv s -> stack s = c :: k -> counting (c :: k) = counting (c' :: k) ->
  room (c' :: k) (nchilds s) -> todo (c' :: k) = todo (c :: k) -> inv (set_stack (c' :: k) s).
Proof.
  intros [H1 H2 H3 H4 H5 H7] Hs Hc Hr Ht. rewrite Hs in *. split; cbn -[counting room todo]; try done.
  - by rewrite <- Hc.
  - destruct (failed s); [by destruct H7|]. by rewrite Ht.
Qed.

Lemma inv_parent s s' : inv s -> parent P s = Some s' -> inv s'.
Proof.
  intros Hi Hp. unfold parent in Hp. destruct (stack s) as [|[p t|j|j|j|j|] k] eqn:Hs; try discriminate.
  - assert (Hk : Forall (fun c => is_index c = true) k) by (pose proof (i_stack s Hi) as H; by rewrite Hs in H).
    destruct t as [| |es| |]; simplify_eq.
    + eapply (inv_calls s p Missing k); [done..|cbn; by destruct (todo k)].
    + destruct (extension p) as [ext|] eqn:E; simplify_eq; [|eapply (inv_calls s p Regular k k); [done..|cbn; rewrite E; by destruct (todo k)]].
      eapply (inv_top s (Index p Regular)); [done|done|done|by apply inv_nchilds|cbn; by rewrite E].
    + eapply (inv_calls s p (Directory es) k); [done|done|apply (stack_ok_dir p); exact Hk|].
      rewrite todo_app, todo_directory. by cbn [todo]; destruct (walk p (Directory es)) as [l []].
    + destruct Hi as [H1 H2 H3 H4 H5 H7]. rewrite Hs in *. split; cbn in *; try done; try lia.
      { constructor. } destruct (failed s); [by destruct H7|]. by rewrite app_nil_r in H7.
    + eapply (inv_calls s p Other k); [done..|cbn; by destruct (todo k)].
  - destruct (nchilds s >=? P) eqn:E; simplify_eq; bool_hyps.
    + eapply (inv_top s (Test j)); [done|done|done|by apply inv_nchilds|done].
    + eapply (inv_top s (Test j)); [done|done|done|cbn; lia|done].
  - simplify_eq. eapply (inv_top s (Pausing j)); [done|done|done|by apply inv_nchilds|done].
  - simplify_eq. destruct Hi as [H1 H2 H3 H4 H5 H7]. rewrite Hs in *. destruct (index_top k H1) as [Hc Hr].
    split; cbn in *; try done; [apply stack_ok_all; exact H1|lia|apply Hr; lia|destruct (failed s); [by destruct H7|done]].
Qed.

Lemma inv_step s s' : inv s -> step P s s' -> inv s'.
Proof.
  intros Hi Hst. destruct Hst as [s1 s2 Hp|s1 j k Hs|s1 j k Hs|s1 l j r Hr|s1 s2 Hp Hr]; [exact (inv_parent _ _ Hi Hp)|..];
    destruct Hi as [H1 H2 H3 H4 H5 H7].
  - rewrite Hs in *. split; cbn in *; try done.
    + rewrite zlen_app. cbn. unfold zlen at 2. cbn. lia.
    + by rewrite H5, <- !app_assoc, (Permutation_app_comm [j]), <- !app_assoc.
    + destruct (failed s1); [by destruct H7|]. by rewrite <- app_assoc.
  - rewrite Hs in *. split; cbn in *; try done.
    + rewrite zlen_app. unfold zlen at 3. cbn. lia.
    + by rewrite H5, <- !app_assoc.
    + destruct (failed s1); [by destruct H7|]. by rewrite <- app_assoc.
  - rewrite Hr in *. split; cbn in *; try done.
    + rewrite !zlen_app, zlen_cons in *. lia.
    + intros _. lia.
    + rewrite H5, <- !app_assoc. apply Permutation_app_head. cbn. by rewrite !app_assoc, Permutation_middle, <- !app_assoc.
  - unfold chld_reaper in Hr. destruct (zombies s1) as [|n] eqn:Ez; [by destruct (running s1)|]. simplify_eq.
    unfold wake. cbn. destruct (stack s1) as [|[] k] eqn:Hs; split; cbn in *; rewrite ?Hs; cbn; try done; try lia.
    destruct (failed s1); [by destruct H7|done].
Qed.

Lemma inv_reachable s : 0 <= P -> rtc (step P) (index_start p0 t0) s -> inv s.
Proof.
  intros HP H. revert H. apply (rtc_ind_r (fun s => inv s)); [by apply inv_start|]. intros; by eapply inv_step.
Qed.

(** ** Runs are finite *)
Lemma weight_step s s' : step P s s' -> (weight s' < weight s)%nat.
Proof.
  unfold weight. intros [s1 s2 Hp|s1 j k Hs|s1 j k Hs|s1 l j r Hr|s1 s2 Hp Hr].
  - unfold parent in Hp. destruct (stack s1) as [|[p t|j|j|j|j|] k] eqn:Hs; try discriminate.
    + destruct t as [| |es| |]; simplify_eq; cbn; try lia.
      * destruct (extension p); simplify_eq; cbn; lia.
      * rewrite sum_list_with_app. pose proof (weight_directory p es). cbn in *. lia.
    + destruct (nchilds s1 >=? P); simplify_eq; cbn; lia.
    + simplify_eq; cbn; lia.
    + simplify_eq; cbn; lia.
  - rewrite Hs. cbn. rewrite length_app. cbn. lia.
  - rewrite Hs. cbn. lia.
  - rewrite Hr. cbn. rewrite !length_app. cbn. destruct (pending s1); lia.
  - unfold chld_reaper in Hr. destruct (zombies s1); [by destruct (running s1)|]. simplify_eq. unfold wake. cbn. rewrite Hp.
    destruct (stack s1) as [|[] k]; cbn; lia.
Qed.

Lemma run_length n : forall s s', nsteps (step P) n s s' -> (n <= weight s)%nat.
Proof.
  induction n as [|n IH]; intros s s' H; [lia|]. inversion H as [|? ? y ? H1 H2]; subst.
  apply IH in H2. apply weight_step in H1. lia.
Qed.

(** ** Where a run stops *)

(** The parent waits for a signal that will not come. *)
Definition hangs (s : indexer) : Prop := exists j k, stack s = Paused j :: k.

Lemma nf_stops s : inv s -> nf (step P) s ->
  running s = [] /\ pending s = false /\ (stack s = [] \/ hangs s).
Proof.
  intros Hi Hn. assert (Hno : forall s', ~ step P s s') by (intros s' H; apply Hn; by exists s').
  split_and!.
  - destruct (running s) as [|j r] eqn:E; [done|]. exfalso. by eapply Hno, (step_child P s [] j r).
  - destruct (pending s) eqn:E; [|done]. pose proof (i_pending s Hi E). exfalso.
    destruct (zombies s) as [|n] eqn:Ez; [lia|]. eapply Hno, step_signal; [done|]. unfold chld_reaper. by rewrite Ez.
  - destruct (stack s) as [|[p t|j|j|j|j|] k] eqn:E; [by left|..|by right; exists j, k| |];
      exfalso; try (eapply Hno; by eapply (step_fork P)).
    all: assert (Hp : exists s', parent P s = Some s') by (unfold parent; rewrite E; repeat case_match; eauto);
      destruct Hp as [s' Hp]; by eapply Hno, step_parent.
Qed.
End Inv.

(** ** Extensions *)
Lemma elem_shorter a b : forall st st', rest st = a ++ b ->
  st' ∈ shorter a b st <-> st' = st \/ exists x y, x <> [] /\ a = x ++ y /\ st' = mk_ms (y ++ b) false (caps st).
Proof.
  induction a as [|c a IH]; intros st st' Hr; cbn [shorter].
  - rewrite list_elem_of_singleton. split; [by left|]. intros [?|(x & y & Hx & E & _)]; [done|]. by destruct x.
  - rewrite elem_of_app, list_elem_of_singleton, IH by done. cbn [caps]. split.
    + intros [[-> | (x & y & Hx & -> & ->)] | -> ]; [right; by exists [c], a|right; by exists (c :: x), y|by left].
    + intros [-> | (x & y & Hx & E & ->)]; [by right|left]. destruct x as [|d x]; [done|]. injection E as -> ->.
      destruct x as [|d' x]; [by left|right; by exists (d' :: x), y].
Qed.

Lemma plus_any st st' : st' ∈ matches (Plus Any) st <->
  exists x, x <> [] /\ rest st = x ++ rest st' /\ st' = mk_ms (rest st') false (caps st).
Proof.
  unfold Any. rewrite plus_set. assert (span (fun _ => true) (rest st) = (rest st, [])) as ->.
  { induction (rest st) as [|c s IH]; cbn; [done|]. by rewrite IH. }
  cbn [fst snd]. destruct (rest st) as [|c a] eqn:Es.
  - split; [intros H; by apply elem_of_nil in H|]. intros (x & Hx & E & _). by destruct x.
  - rewrite elem_shorter by done. cbn [caps]. rewrite !app_nil_r. split.
    + intros [-> | (x & y & Hx & -> & ->)]; [by exists [c]|exists (c :: x)]. cbn. by rewrite app_nil_r.
    + intros (x & Hx & E & E'). destruct x as [|d x]; [done|]. injection E as -> ->. destruct x as [|d' x]; [by left|].
      right. exists (d' :: x), (rest st'). by rewrite app_nil_r.
Qed.

Lemma word3 st : matches (Rep (Set_ is_word) 3 (Some 3%nat)) st =
  match rest st with
  | a :: b :: c :: r => if is_word a && is_word b && is_word c then [mk_ms r false (caps st)] else []
  | _ => []
  end.
Proof.
  destruct st as [l b0 cs]; destruct l as [|a [|b [|c r]]]; cbn; [done|..]; destruct (is_word a); cbn; try done;
    destruct (is_word b); cbn; try done; by destruct (is_word c).
Qed.

(** The dot, three word characters and the end. *)
Lemma ext_tail st st' : st' ∈ matches (Seq (Chr 46) (Seq (Grp 2 (Rep (Set_ is_word) 3 (Some 3%nat))) Eol)) st /\ rest st' = [] <->
  exists a b c, rest st = [46; a; b; c] /\ is_word a && is_word b && is_word c = true
    /\ st' = mk_ms [] false ((2%nat, [a; b; c]) :: caps st).
Proof.
  cbn [matches Chr]. destruct (rest st) as [|d s] eqn:Es; cbn [flat_map].
  { split; [intros [H _]; by apply elem_of_nil in H|]. intros (a & b & c & E & _). done. }
  destruct (46 =? d) eqn:Ed; cbn [flat_map]; bool_hyps.
  2:{ split; [intros [H _]; by apply elem_of_nil in H|]. intros (a & b & c & E & _). congruence. }
  rewrite app_nil_r. change (exactly _ _ _) with (matches (Rep (Set_ is_word) 3 (Some 3%nat))). rewrite word3. cbn [rest caps].
  split.
  - destruct s as [|a [|b [|c r]]]; try (intros [H _]; by apply elem_of_nil in H).
    destruct (is_word a && is_word b && is_word c) eqn:E; [|intros [H _]; by apply elem_of_nil in H].
    cbn. intros [H Hr]. exists a, b, c. destruct r as [|x r]; cbn in *.
    + apply list_elem_of_singleton in H as ->. by subst d.
    + destruct (x =? 10); [|by apply elem_of_nil in H]. apply list_elem_of_singleton in H as ->. done.
  - intros (a & b & c & [= Hd ->] & E & ->). rewrite E. cbn. by split; [apply list_elem_of_singleton|].
Qed.

Lemma ext_matches s st : st ∈ matches ext_re (start s) /\ rest st = [] <->
  exists stem a b c, stem <> [] /\ s = stem ++ [46; a; b; c] /\ is_word a && is_word b && is_word c = true
    /\ st = mk_ms [] false [(2%nat, [a; b; c]); (1%nat, stem)].
Proof.
  unfold ext_re. cbn [matches]. split.
  - intros [H Hr]. apply list_elem_of_In, in_flat_map in H as (st1 & H1 & H2). apply in_map_iff in H1 as (st0 & <- & H0).
    apply list_elem_of_In in H0, H2. apply plus_any in H0 as (x & Hx & E & E0).
    destruct (proj1 (ext_tail _ st) (conj H2 Hr)) as (a & b & c & E1 & Ew & ->). cbn [rest caps] in *.
    exists x, a, b, c. rewrite E0. cbn [caps start]. rewrite (consumed_app (start s) _ x) by (cbn [rest]; congruence).
    rewrite E1 in E. done.
  - intros (stem & a & b & c & Hs & -> & Ew & ->). split; [|done].
    apply list_elem_of_In, in_flat_map. exists (mk_ms [46; a; b; c] false [(1%nat, stem)]). split.
    + apply in_map_iff. exists (mk_ms [46; a; b; c] false []). split; [by rewrite (consumed_app _ _ stem)|].
      apply list_elem_of_In, plus_any. by exists stem.
    + apply list_elem_of_In. apply (ext_tail _ (mk_ms [] false [(2%nat, [a; b; c]); (1%nat, stem)])). by exists a, b, c.
Qed.

(** The octets that stay: line ends and the printable ASCII characters. *)
Definition plain (c : Z) : Prop := 10 <= c <= 13 \/ 32 <= c <= 126.

#[export] Instance plain_dec c : Decision (plain c).
Proof. unfold plain. apply _. Defined.

Lemma filter_plain s : forall out, bytes_ok s -> filter_ascii_control s out = out ++ filter plain s.
Proof.
  induction s as [|c s IH]; intros out Hb; cbn [filter_ascii_control]; [by rewrite app_nil_r|].
  apply Forall_cons_1 in Hb as [Hc Hb]. rewrite filter_cons.
  assert (filtered c = negb (bool_decide (plain c))) as ->.
  { unfold filtered, schar, byte_ok, plain in *. zcase (c <? 128); case_bool_decide;
      repeat (match goal with |- context [?a <=? ?b] => zcase (a <=? b) end); zcase (c =? 127); zcase (c - 256 =? 127); cbn; lia. }
  case_bool_decide; cbn [negb]; rewrite IH by done; [|by rewrite decide_False].
  by rewrite decide_True, <- app_assoc.
Qed.

(** ** What a child stores *)
Definition pdf_args (path : list Z) : list (list Z) := [str "-enc"; str "UTF-8"; path; str "-"].

(** The document of a file whose text is [text], and of one without text. *)
Definition pdf_doc (UNSET : Z) (u : Url) (text : option (list Z)) : Doc :=
  mk_Doc u Url_new (match text with Some _ => 200 | None => 415 end) (-1) [] (-1) (-1) (default [] (filter plain <$> text))
    [] [] UNSET [] (match text with Some _ => 2 | None => 0 end) [] [] [] [].

(** [pdftotext] ended with success. *)
Definition succeeded (status : Z) : bool := WIFEXITED status && (WEXITSTATUS status =? EXIT_SUCCESS).

(** A call in the parent of the pipe that fails before, or after, the program
    has run. *)
Definition not_begun `{Kernel} : bool :=
  bool_decide (is_Some (sigaction_fault 0)) || bool_decide (is_Some pipe_fault) || bool_decide (is_Some fork_fault).
Definition not_ended `{Kernel} : bool := bool_decide (is_Some waitpid_fault) || bool_decide (is_Some (sigaction_fault 1)).

(** What [$set] of [d] leaves among the documents found under a URL. *)
Definition put (UNSET : Z) (d : Doc) (found : list bson) : list bson :=
  match found with [] => [bson_of UNSET d] | o :: r => bson_set (bson_of UNSET d) o :: r end.

Lemma save_doc_puts {BR : BoostRegex} {MG : Mongo} NDEBUG max_size UNSET d v c s :
  Url_empty (d_url d) = false -> Url_normalize NDEBUG max_size (d_url d) = val v ->
  exists c', save_doc NDEBUG max_size UNSET d c s = Some (Returns c', s)
    /\ query c' (Url_get v) = put UNSET (set_d_url v d) (query c (Url_get v)) /\ forall w, w <> Url_get v -> query c' w = query c w.
Proof.
  intros Hne Hv. unfold save_doc, save. rewrite Hne, Hv. cbn [rbind val]. eexists. split; [done|].
  split; [apply query_upsert|]. intros w Hw. by apply query_upsert_ne.
Qed.

(** What [index_pdf] stores for an image of [pdftotext] and its status. *)
Lemma index_pdf_puts {BR : BoostRegex} {MG : Mongo} NDEBUG max_size UNSET u v st o c s : bytes_ok o ->
  Url_empty u = false -> Url_normalize NDEBUG max_size u = val v ->
  let doc := set_d_url u (Doc_new UNSET) in
  let d := pdf_doc UNSET v (if succeeded st then Some o else None) in
  exists c', (if WIFEXITED st && (WEXITSTATUS st =? EXIT_SUCCESS) then
                save_doc NDEBUG max_size UNSET (set_result (filter_ascii_control o (d_content doc))
                  (set_flag (d_flags doc) (Z.shiftl 1 FLAG_UTF8_OK)) 200 doc) c s
              else
                save_doc NDEBUG max_size UNSET (set_result (d_content doc)
                  (clear_flag (d_flags doc) (Z.shiftl 1 FLAG_UTF8_OK)) 415 doc) c s) = Some (Returns c', s)
    /\ query c' (Url_get v) = put UNSET d (query c (Url_get v)) /\ forall w, w <> Url_get v -> query c' w = query c w.
Proof.
  intros Hb Hne Hv doc d. subst d. unfold succeeded. destruct (WIFEXITED st && (WEXITSTATUS st =? EXIT_SUCCESS)).
  - destruct (save_doc_puts NDEBUG max_size UNSET (set_result (filter_ascii_control o (d_content doc))
      (set_flag (d_flags doc) (Z.shiftl 1 FLAG_UTF8_OK)) 200 doc) v c s Hne Hv) as (c' & -> & Hq & Ho).
    exists c'. split_and!; [done| |done]. rewrite Hq. rewrite filter_plain by done. reflexivity.
  - destruct (save_doc_puts NDEBUG max_size UNSET (set_result (d_content doc)
      (clear_flag (d_flags doc) (Z.shiftl 1 FLAG_UTF8_OK)) 415 doc) v c s Hne Hv) as (c' & -> & Hq & Ho).
    exists c'. by split_and!.
Qed.

(** A document without text leaves the text that is stored. *)
Lemma put_no_text UNSET v o rest : b_content <$> put UNSET (pdf_doc UNSET v None) (o :: rest) = b_content <$> o :: rest.
Proof. reflexivity. Qed.

(** C21: What a child of the local indexer does alone with a PDF file, whatever
    fails.  If [sigaction], [pipe], [fork] or [waitpid] fails the child ends with
    EXIT_FAILURE, if [pdftotext] never ends it waits for ever, and in these cases
    the database is untouched.  Otherwise it ends with EXIT_SUCCESS and stores one
    document, under the normalised [file://] URL of the canonical path, and touches
    no other: with status 200 and the text when [pdftotext] was run and succeeded,
    with status 415 and no text when it failed or could not be run.  Of the text
    only line ends and printable ASCII characters remain: every tab and every octet
    of a character outside ASCII is dropped, although [pdftotext] is asked for
    UTF-8 and the document is marked as such.  A document already stored under the
    URL is changed by [$set], which leaves what the new one does not have: with
    status 415 the old text stays. *)
Theorem index_pdf_stores {BR : BoostRegex} {MG : Mongo} {KE : Kernel} NDEBUG max_size UNSET canonicalize s p path u v c :
  canonicalize p = Some path -> Url_of NDEBUG max_size (str "file://" ++ path) = val u ->
  Url_empty u = false -> Url_normalize NDEBUG max_size u = val v ->
  (forall i, execvp (str "pdftotext") (str "pdftotext" :: pdf_args path) = Some i -> bytes_ok (i_out i)) ->
  let image := match dup2_fault with None => execvp (str "pdftotext") (str "pdftotext" :: pdf_args path) | Some _ => None end in
  let status := match image with Some i => i_status i true | None => Some (exit_status EXIT_FAILURE) end in
  let text := match image, status with Some i, Some st => if succeeded st then Some (i_out i) else None | _, _ => None end in
  let d := pdf_doc UNSET v text in
  exists r c', child NDEBUG max_size UNSET canonicalize s (p, str "pdf") c = Some (r, c')
    /\ (if not_begun then r = Exits EXIT_FAILURE /\ c' = c
        else if bool_decide (status = None) then r = Blocks /\ c' = c
        else if not_ended then r = Exits EXIT_FAILURE /\ c' = c
        else r = Exits EXIT_SUCCESS
             /\ query c' (Url_get v) = put UNSET d (query c (Url_get v))
             /\ forall w, w <> Url_get v -> query c' w = query c w)
    /\ forall o rest, query c (Url_get v) = o :: rest -> text = None ->
         (b_content <$> query c' (Url_get v)) = (b_content <$> query c (Url_get v)).
Proof.
  intros Hp Hu Hne Hv Hb image status text d. unfold child. cbn [fst snd]. rewrite bool_decide_eq_true_2 by done.
  unfold index_pdf. rewrite Hp, Hu. cbn [val]. fold (pdf_args path). set (s1 := print_endl _ _).
  destruct (stdout2stream_cases (mk_ostream [] true) (str "pdftotext") (pdf_args path) s1 eq_refl) as (r & s' & -> & Hr).
  unfold not_begun, not_ended. destruct (sigaction_fault 0) as [e|]; [destruct Hr as [_ ->]; by eexists _, _|].
  destruct pipe_fault as [e|]; [destruct Hr as [_ ->]; by eexists _, _|].
  destruct fork_fault as [e|]; [destruct Hr as [-> _]; by eexists _, _|]. cbn [orb bool_decide].
  destruct (ran _ _ s1) as [[printed o] st0] eqn:Er.
  assert (H : st0 = status /\ bytes_ok o /\ forall st, status = Some st -> text = if succeeded st then Some o else None).
  { unfold ran in Er. subst text status image. destruct dup2_fault as [e|]; [by simplify_eq; split_and!; [|constructor|intros ? [= <-]]|].
    destruct (execvp _ _) as [i|]; simplify_eq; [|by split_and!; [|constructor|intros ? [= <-]]].
    split_and!; [done|by apply Hb|]. by intros st ->. }
  destruct H as (-> & Ho & Ht). clear Er. destruct status as [st|].
  2: { rewrite Hr. by eexists _, _. }
  destruct waitpid_fault as [e|]; [destruct Hr as [-> _]; by eexists _, _|].
  destruct (sigaction_fault 1) as [e|]; [destruct Hr as [_ ->]; by eexists _, _|]. destruct Hr as [_ ->]. cbn [got app].
  destruct (index_pdf_puts NDEBUG max_size UNSET u v st o c s' Ho Hne Hv) as (c' & E & Hq & Hw). cbv zeta in E. rewrite E.
  exists (Exits EXIT_SUCCESS), c'. rewrite <-(Ht st eq_refl) in Hq. split_and!; [done|done|].
  intros x rest Hx Hn. by rewrite Hq, Hx, Hn, put_no_text.
Qed.

Lemma extension_text {BR : BoostRegex} p ext :
  extension p = Some ext <->
  exists stem a b c, stem <> [] /\ p = stem ++ [46; a; b; c] /\ is_word a && is_word b && is_word c = true
    /\ ext = to_lower [a; b; c].
Proof.
  unfold extension. rewrite regex_match_law. unfold perl_match.
  destruct (find _ (matches ext_re (start p))) as [st|] eqn:E; cbn.
  - apply find_some in E as [Hin Hr]. apply bool_decide_eq_true in Hr. apply list_elem_of_In in Hin.
    destruct (proj1 (ext_matches p st) (conj Hin Hr)) as (stem & a & b & c & Hs & -> & Ew & ->). cbn. split.
    + intros [= <-]. by exists stem, a, b, c.
    + intros (stem' & a' & b' & c' & _ & Ep & _ & ->). apply app_inj_2 in Ep as [_ Ep]; [|done]. by injection Ep as -> -> ->.
  - split; [discriminate|]. intros (stem & a & b & c & Hs & Ep & Ew & _). exfalso.
    destruct (proj2 (ext_matches p (mk_ms [] false [(2%nat, [a; b; c]); (1%nat, stem)]))) as [Hin _]; [by exists stem, a, b, c|].
    apply list_elem_of_In in Hin. by apply (find_none _ _ E) in Hin.
Qed.

(** The indexer takes a file name for one with an extension exactly when it
    ends in a dot and three word characters with at least one octet in front,
    and the extension is those three characters in lower case: "a.PDF" is a
    PDF file; "report.djvu", "x.gz" and ".pdf" have no extension and get no
    child. *)
Theorem extension_iff {BR : BoostRegex} p ext :
  extension p = Some ext <->
  exists stem a b c, stem <> [] /\ p = stem ++ [46; a; b; c] /\ is_word a && is_word b && is_word c = true
    /\ ext = to_lower [a; b; c].
Proof. apply extension_text. Qed.

(** C11: The local indexer on a directory tree.  Whatever the order in which
    children end and signals come, a run is finite: its steps are bounded by the
    size of the tree.  When nothing more can happen (a child that runs is taken to
    end at some time, so then none runs) each file was given to at most one child,
    and either the walk is over, with one child or one failed [fork] for every file
    with an extension, in the order of the walk (which stops at a directory that
    cannot be read), or the parent hangs in [pause] in front of one of those
    files.  What the children leave in the database is not part of it. *)
Theorem indexer_outcome {BR : BoostRegex} {BP : BoostPath} P p t n s :
  0 <= P -> nsteps (step P) n (index_start p t) s ->
  (n <= tree_weight t)%nat /\
  (nf (step P) s ->
     running s = [] /\ forked s ≡ₚ finished s ++ skipped s
     /\ ((stack s = [] /\ (forked s, negb (failed s)) = walk p t)
         \/ hangs s /\ exists j rest, (walk p t).1 = forked s ++ j :: rest)).
Proof.
  intros HP Hn. pose proof (run_length _ _ _ _ Hn) as Hl. split; [unfold weight in Hl; cbn in Hl; lia|]. intros Hnf.
  assert (Hi : inv P p t s) by (apply inv_reachable; [done|by eapply rtc_nsteps_2]).
  destruct (nf_stops _ _ _ _ Hi Hnf) as (Hr & Hp & Hs). destruct Hi as [_ _ _ _ Hj Hf]. rewrite Hr in Hj.
  split_and!; [done|done|]. destruct Hs as [Hs|(j & k & Hs)]; rewrite Hs in *.
  - left. split; [done|]. destruct (failed s); [by destruct Hf|]. cbn in Hf. by rewrite app_nil_r in Hf.
  - right. split; [by exists j, k|]. destruct (failed s); [by destruct Hf|]. rewrite <- Hf. by exists j, (todo k).1.
Qed.

(** C12: In every state of the indexer there are at most PARALLELISM children,
    counting those that have ended and were not waited for, and [nchilds] is
    their number plus the failed calls of [fork] (less one between [fork] and
    the increment); whenever SIGCHLD is delivered its handler finds a child
    that has ended, so that [wait] neither blocks nor fails. *)
Theorem indexer_bounded {BR : BoostRegex} {BP : BoostPath} P p t s :
  0 <= P -> rtc (step P) (index_start p t) s ->
  zlen (running s) + Z.of_nat (zombies s) <= P
  /\ zlen (running s) + Z.of_nat (zombies s) + zlen (skipped s) = nchilds s + counting (stack s)
  /\ (pending s = true -> exists s', chld_reaper s = Reaped s').
Proof.
  intros HP Hr. apply (inv_reachable P p t) in Hr; [|done]. destruct Hr as [_ Hc Hm Hp _ _]. split_and!.
  - pose proof (zlen_nonneg (skipped s)). destruct (stack s) as [|[] k]; cbn in *; lia.
  - lia.
  - intros H%Hp. unfold chld_reaper. destruct (zombies s); [lia|]. by eexists.
Qed.

(** ** A signal that comes too early

    One processor and two files: the only child ends after the test and before
    [pause], and the parent waits for ever. *)
Lemma paused_nf {BR : BoostRegex} {BP : BoostPath} P s j k :
  stack s = Paused j :: k -> running s = [] -> pending s = false -> nf (step P) s.
Proof.
  intros Hs Hr Hp [s' H]. destruct H as [s1 s2 H|s1 j' k' H|s1 j' k' H|s1 l j' r H|s1 s2 H Hc]; try congruence.
  - unfold parent in H. by rewrite Hs in H.
  - rewrite Hr in H. by destruct l.
Qed.

Definition joined_path : BoostPath := {| path_append := fun p n => p ++ 47 :: n; path_append_law := fun p n _ _ _ => eq_refl |}.

Definition two_files : tree := Directory [(str "a.txt", Regular); (str "b.txt", Regular)].

Definition stuck_state : indexer :=
  mk_indexer [Paused (str "d/b.txt", str "txt")] 0 [] 0 false [(str "d/a.txt", str "txt")] [(str "d/a.txt", str "txt")] [] false.

Lemma extension_txt stem : stem <> [] -> @extension perl_regex (stem ++ str ".txt") = Some (str "txt").
Proof. intros H. apply extension_text. by exists stem, 116, 120, 116. Qed.

Lemma ext_a : @extension perl_regex (str "d" ++ 47 :: str "a.txt") = Some (str "txt").
Proof. by apply (extension_txt (str "d/a")). Qed.

Lemma ext_b : @extension perl_regex (str "d" ++ 47 :: str "b.txt") = Some (str "txt").
Proof. by apply (extension_txt (str "d/b")). Qed.

Ltac by_parent := eapply nsteps_l; [apply step_parent; unfold parent; cbn -[extension str]; rewrite ?ext_a, ?ext_b; reflexivity|].

Lemma wakeup_lost :
  nsteps (@step perl_regex joined_path 1) 10 (index_start (str "d") two_files) stuck_state
  /\ nf (@step perl_regex joined_path 1) stuck_state.
Proof.
  split; [|by eapply paused_nf].
  do 3 by_parent. eapply nsteps_l; [eapply step_fork; reflexivity|]. do 3 by_parent.
  eapply nsteps_l; [by eapply (step_child _ _ [])|]. eapply nsteps_l; [by eapply step_signal|].
  by_parent. apply nsteps_O.
Qed.

(** Two children end before the first signal is delivered: one of two places
    is lost for the rest of the run. *)
Lemma signals_merge : exists s,
  rtc (@step perl_regex joined_path 2) (index_start (str "d") two_files) s
  /\ stack s = [] /\ running s = [] /\ pending s = false /\ nchilds s = 1.
Proof.
  eexists. split; [eapply (rtc_nsteps_2 12)|].
  - do 3 by_parent. eapply nsteps_l; [eapply step_fork; reflexivity|]. do 3 by_parent.
    eapply nsteps_l; [eapply step_fork; reflexivity|]. by_parent.
    eapply nsteps_l; [by eapply (step_child _ _ [])|]. eapply nsteps_l; [by eapply (step_child _ _ [])|].
    eapply nsteps_l; [by eapply step_signal|]. apply nsteps_O.
  - done.
Qed.

Lemma indexer_outcome_witness :
  (10 <= tree_weight two_files)%nat /\ running stuck_state = [] /\ hangs stuck_state.
Proof.
  destruct wakeup_lost as [Hn Hf].
  destruct (@indexer_outcome perl_regex joined_path 1 (str "d") two_files 10 stuck_state ltac:(lia) Hn) as [Hl H].
  destruct (H Hf) as (Hr & _ & [[Hs _]|[Hh _]]); [discriminate|]. exact (conj Hl (conj Hr Hh)).
Defined.

Lemma indexer_bounded_witness :
  zlen (running stuck_state) + Z.of_nat (zombies stuck_state) <= 1.
Proof.
  destruct (@indexer_bounded perl_regex joined_path 1 (str "d") two_files stuck_state
    ltac:(lia) (rtc_nsteps_2 10 _ _ (proj1 wakeup_lost))) as [H _]. exact H.
Defined.

Definition a_pdf : list Z := str "/d/a.PDF".

Definition pdf_kernel : Kernel := quiet_kernel (str "pdftotext") (str "na" ++ [195; 175] ++ str "ve" ++ [9; 10]) 0.

(** A second run over a file that was indexed before and can no longer be read. *)
Definition failing_kernel : Kernel := quiet_kernel (str "pdftotext") [] 256.

Definition file_url : Url := mk_Url (mk_Path [str "d"; str "a.PDF"] true false) false (str "file") true false [] [] [] [] [].

Lemma index_pdf_stores_witness : exists c1 c2,
  @child perl_regex map_mongo pdf_kernel true 1000 0 (fun _ => Some a_pdf) a_process (str "a.PDF", str "pdf") ∅ = Some (Exits 0, c1)
  /\ b_content <$> query c1 (str "file:///d/a.PDF") = [Some (str "nave" ++ [10])]
  /\ @child perl_regex map_mongo failing_kernel true 1000 0 (fun _ => Some a_pdf) a_process (str "a.PDF", str "pdf") c1 = Some (Exits 0, c2)
  /\ b_content <$> query c2 (str "file:///d/a.PDF") = [Some (str "nave" ++ [10])]
  /\ b_http_code <$> query c2 (str "file:///d/a.PDF") = [Some 415].
Proof.
  destruct (@index_pdf_stores perl_regex map_mongo pdf_kernel true 1000 0 (fun _ => Some a_pdf) a_process (str "a.PDF") a_pdf
    file_url file_url ∅) as (r1 & c1 & H1 & (-> & Q1 & _) & _); [reflexivity|vm_compute; reflexivity|reflexivity|vm_compute; reflexivity|..].
  { intros i [= <-]. repeat constructor; cbn; lia. }
  destruct (@index_pdf_stores perl_regex map_mongo failing_kernel true 1000 0 (fun _ => Some a_pdf) a_process (str "a.PDF") a_pdf
    file_url file_url c1) as (r2 & c2 & H2 & (-> & Q2 & _) & _); [reflexivity|vm_compute; reflexivity|reflexivity|vm_compute; reflexivity|..].
  { intros i [= <-]. constructor. }
  assert (Url_get file_url = str "file:///d/a.PDF") as E by (vm_compute; reflexivity). rewrite E in *. rewrite Q1 in Q2.
  exists c1, c2. split; [exact H1|]. split; [rewrite Q1; vm_compute; reflexivity|]. split; [exact H2|].
  rewrite Q2. split; vm_compute; reflexivity.
Defined.
