(* ===== verification/GzStream.v ===== *)
(** * Compressed streams

    src/src/common/gzstream.hh and gzstream.cc: class [gzstreambuf], a stream
    buffer over zlib, and the classes [gzstreambase], [igzstream] and
    [ogzstream].

    The buffer is the array of 303 octets with the six pointers of
    [std::streambuf] as indices; an access outside of it and a [memcpy]
    between areas that overlap are undefined.  zlib is the class [Zlib] with
    what its manual says: a file of the disk is named by its path and stands for its uncompressed
    contents. *)

From stdpp Require Import gmap.
From S2P Require Import Prelude.

(** ** zlib *)
Abbreviation disk := (gmap (list Z) (list Z)).

(** An open file: what is still to be read, or what was written so far. *)
Record gzFile := mk_gzFile { g_name : list Z; g_write : bool; g_data : list Z }.

(** What the manual of zlib says of a call that is not at fault.  The modes are "rb",
    "wb" and "ab". *)
Definition opened_file (name mode : list Z) (d : disk) : option (gzFile * disk) :=
  if bool_decide (mode = str "rb") then
    match d !! name with Some s => Some (mk_gzFile name false s, d) | None => None end
  else if bool_decide (mode = str "wb") then Some (mk_gzFile name true [], <[name := []]> d)
  else if bool_decide (mode = str "ab") then Some (mk_gzFile name true (default [] (d !! name)), d)
  else None.

(** zlib: its calls, which of them fail, and what they do. *)
Class Zlib := {
  gzopen_fault : list Z -> list Z -> bool;
  gzread_fault : gzFile -> bool;
  gzwrite_fault : gzFile -> list Z -> bool;
  gzclose_fault : gzFile -> bool;
  gzopen : list Z -> list Z -> disk -> option (gzFile * disk);
  gzread : gzFile -> Z -> Z * list Z * gzFile;
  gzwrite : gzFile -> list Z -> Z * gzFile;
  gzclose : gzFile -> disk -> bool * disk;
  gzopen_law name mode d : gzopen name mode d = if gzopen_fault name mode then None else opened_file name mode d;
  (** up to [len] octets, fewer only at the end of the file; -1 is an error *)
  gzread_law f len : gzread f len =
    if g_write f || gzread_fault f then (-1, [], f)
    else (zlen (ztake len (g_data f)), ztake len (g_data f), mk_gzFile (g_name f) false (zdrop len (g_data f)));
  (** all of the octets, or 0 on an error *)
  gzwrite_law f s : gzwrite f s =
    if negb (g_write f) || gzwrite_fault f s then (0, f) else (zlen s, mk_gzFile (g_name f) true (g_data f ++ s));
  (** whether the result is [Z_OK] *)
  gzclose_law f d : gzclose f d =
    if gzclose_fault f then (false, d) else (true, if g_write f then <[g_name f := g_data f]> d else d)
}.

(** ** gzstreambuf *)
Record openmode := mk_openmode { m_in : bool; m_out : bool; m_trunc : bool; m_app : bool }.

Definition bufferSize : Z := 47 + 256.
Definition EOF : Z := -1.

(** [pbase()] is the start of the buffer and [epptr()] its last octet. *)
Record gzstreambuf := mk_gzstreambuf {
  file : option gzFile; buffer : list Z; opened : bool; mode : openmode;
  pptr : Z; eback : Z; gptr : Z; egptr : Z
}.

Definition epptr : Z := bufferSize - 1.

(** The constructor; what the buffer holds and the mode are not set. *)
Definition gzstreambuf_new (junk : list Z) (m : openmode) : gzstreambuf :=
  mk_gzstreambuf None junk false m 0 4 4 4.

Definition set_file v b := mk_gzstreambuf v (buffer b) (opened b) (mode b) (pptr b) (eback b) (gptr b) (egptr b).
Definition set_buffer v b := mk_gzstreambuf (file b) v (opened b) (mode b) (pptr b) (eback b) (gptr b) (egptr b).
Definition set_opened v b := mk_gzstreambuf (file b) (buffer b) v (mode b) (pptr b) (eback b) (gptr b) (egptr b).
Definition set_mode v b := mk_gzstreambuf (file b) (buffer b) (opened b) v (pptr b) (eback b) (gptr b) (egptr b).
Definition pbump n b := mk_gzstreambuf (file b) (buffer b) (opened b) (mode b) (pptr b + n) (eback b) (gptr b) (egptr b).
Definition gbump n b := mk_gzstreambuf (file b) (buffer b) (opened b) (mode b) (pptr b) (eback b) (gptr b + n) (egptr b).
Definition setg x y z b := mk_gzstreambuf (file b) (buffer b) (opened b) (mode b) (pptr b) x y z.

Definition is_open (b : gzstreambuf) : bool := opened b.

(** Octets of the buffer from [i] on are replaced. *)
Definition store (i : Z) (s : list Z) (buf : list Z) : option (list Z) :=
  if (0 <=? i) && (i + zlen s <=? zlen buf) then Some (ztake i buf ++ s ++ zdrop (i + zlen s) buf) else None.

(** [memcpy] within the buffer: the areas must not overlap. *)
Definition memcpy (dst src n : Z) (buf : list Z) : option (list Z) :=
  if (0 <=? src) && (0 <=? n) && (src + n <=? zlen buf) && ((n =? 0) || (dst + n <=? src) || (src + n <=? dst))
  then store dst (zseg src (src + n) buf) buf else None.

Section Gz.
Context `{Zlib}.

(** The mode string for [gzopen]. *)
Definition fmode (m : openmode) : list Z :=
  match m_in m, m_out m, m_trunc m, m_app m with
  | false, true, false, false => str "w"
  | false, true, false, true => str "a"
  | false, true, true, false => str "w"
  | true, false, false, false => str "r"
  | _, _, _, _ => []
  end.

(** [open]: whether it returns [this]. *)
Definition gz_open (name : list Z) (open_mode : openmode) (b : gzstreambuf) (d : disk) : bool * gzstreambuf * disk :=
  if is_open b then (false, b, d) else
  let b := set_mode open_mode b in
  if bool_decide (fmode open_mode = []) then (false, b, d) else
  match gzopen name (fmode open_mode ++ str "b") d with
  | None => (false, set_file None b, d)
  | Some (f, d) => (true, set_opened true (set_file (Some f) b), d)
  end.

(** [flush_buffer]: the number of octets, or EOF. *)
Definition flush_buffer (b : gzstreambuf) : option (Z * gzstreambuf) :=
  let w := pptr b in
  f ← file b;
  let '(n, f) := gzwrite f (ztake w (buffer b)) in
  let b := set_file (Some f) b in
  if n =? w then Some (w, pbump (- w) b) else Some (EOF, b).

Definition overflow (c : Z) (b : gzstreambuf) : option (Z * gzstreambuf) :=
  if negb (m_out (mode b)) || negb (opened b) then Some (EOF, b) else
  b ← (if c =? EOF then Some b else
       buf ← store (pptr b) [c mod 256] (buffer b); Some (pbump 1 (set_buffer buf b)));
  '(r, b) ← flush_buffer b;
  if r =? EOF then Some (EOF, b) else Some (c, b).

Definition sync (b : gzstreambuf) : option (Z * gzstreambuf) :=
  if 0 <? pptr b then
    '(r, b) ← flush_buffer b;
    if r =? EOF then Some (-1, b) else Some (0, b)
  else Some (0, b).

(** [close]: whether it returns [this]. *)
Definition gz_close (b : gzstreambuf) (d : disk) : option (bool * gzstreambuf * disk) :=
  if is_open b then
    '(_, b) ← sync b;
    let b := set_opened false b in
    f ← file b;
    let '(ok, d) := gzclose f d in
    Some (ok, b, d)
  else Some (false, b, d).

Definition underflow (b : gzstreambuf) : option (Z * gzstreambuf) :=
  if gptr b <? egptr b then c ← znth (buffer b) (gptr b); Some (c, b) else
  if negb (m_in (mode b)) || negb (opened b) then Some (EOF, b) else
  let n_putback := if gptr b - eback b >? 4 then 4 else gptr b - eback b in
  buf ← memcpy (4 - n_putback) (gptr b - n_putback) n_putback (buffer b);
  f ← file b;
  let '(num, s, f) := gzread f (bufferSize - 4) in
  buf ← store 4 s buf;
  let b := set_file (Some f) (set_buffer buf b) in
  if num <=? 0 then Some (EOF, b) else
  let b := setg (4 - n_putback) 4 (4 + num) b in
  c ← znth (buffer b) (gptr b); Some (c, b).

(** ** std::streambuf *)

Definition sputc (c : Z) (b : gzstreambuf) : option (Z * gzstreambuf) :=
  if pptr b <? epptr then
    buf ← store (pptr b) [c] (buffer b); Some (c, pbump 1 (set_buffer buf b))
  else overflow c b.

Definition sbumpc (b : gzstreambuf) : option (Z * gzstreambuf) :=
  if gptr b <? egptr b then c ← znth (buffer b) (gptr b); Some (c, gbump 1 b) else
  '(c, b) ← underflow b;
  if c =? EOF then Some (EOF, b) else Some (c, gbump 1 b).

(** One character back, when there is room; [pbackfail] gives EOF. *)
Definition sungetc (b : gzstreambuf) : option (Z * gzstreambuf) :=
  if eback b <? gptr b then let b := gbump (-1) b in c ← znth (buffer b) (gptr b); Some (c, b) else Some (EOF, b).

(** [xsputn]: the number of characters taken. *)
Fixpoint sputn (s : list Z) (n : Z) (b : gzstreambuf) : option (Z * gzstreambuf) :=
  match s with
  | [] => Some (n, b)
  | c :: s => '(r, b) ← sputc c b; if r =? EOF then Some (n, b) else sputn s (n + 1) b
  end.

(** Reading up to the end of the file. *)
Fixpoint read_loop (fuel : nat) (acc : list Z) (b : gzstreambuf) : option (list Z * gzstreambuf) :=
  match fuel with
  | O => None
  | S fuel => '(c, b) ← sbumpc b; if c =? EOF then Some (acc, b) else read_loop fuel (acc ++ [c]) b
  end.

(** ** gzstreambase, igzstream and ogzstream *)
Record gzstreambase := mk_gzstreambase { buf : gzstreambuf; badbit : bool }.

Definition base_open (name : list Z) (m : openmode) (s : gzstreambase) (d : disk) : gzstreambase * disk :=
  let '(ok, b, d) := gz_open name m (buf s) d in (mk_gzstreambase b (badbit s || negb ok), d).

Definition base_close (s : gzstreambase) (d : disk) : option (gzstreambase * disk) :=
  if is_open (buf s) then
    '(ok, b, d) ← gz_close (buf s) d; Some (mk_gzstreambase b (badbit s || negb ok), d)
  else Some (s, d).

(** The destructor. *)
Definition base_delete (s : gzstreambase) (d : disk) : option disk :=
  '(_, d) ← gz_close (buf s) d; Some d.

Definition gzstreambase_new (junk : list Z) (m0 : openmode) : gzstreambase :=
  mk_gzstreambase (gzstreambuf_new junk m0) false.

Definition gzstreambase_named (junk : list Z) (m0 : openmode) (name : list Z) (m : openmode) (d : disk) : gzstreambase * disk :=
  base_open name m (gzstreambase_new junk m0) d.

Definition ios_in : openmode := mk_openmode true false false false.
Definition ios_out : openmode := mk_openmode false true false false.

(** [std::istream(&buf)] and [std::ostream(&buf)] call [init], which clears the
    state that [gzstreambase] has set. *)
Definition init (s : gzstreambase) : gzstreambase := mk_gzstreambase (buf s) false.

Definition igzstream_named (junk : list Z) (m0 : openmode) (name : list Z) (d : disk) : gzstreambase * disk :=
  let '(s, d) := gzstreambase_named junk m0 name ios_in d in (init s, d).

Definition ogzstream_named (junk : list Z) (m0 : openmode) (name : list Z) (d : disk) : gzstreambase * disk :=
  let '(s, d) := gzstreambase_named junk m0 name ios_out d in (init s, d).
End Gz.

(** * Statements about compressed streams

    What the write and read sides of the buffer hold, a file that is written
    and read again, and the lengths for which reading is undefined. *)
(** ** The buffer *)
Lemma store_len i s b b' : store i s b = Some b' -> zlen b' = zlen b.
Proof.
  unfold store. zcase (0 <=? i); [|done]. zcase (i + zlen s <=? zlen b); [|done]. intros [= <-].
  pose proof (zlen_nonneg s). rewrite !zlen_app, zlen_ztake, zlen_zdrop; lia.
Qed.

Lemma store_in i s b : 0 <= i -> i + zlen s <= zlen b -> store i s b = Some (ztake i b ++ s ++ zdrop (i + zlen s) b).
Proof. intros. unfold store. by rewrite !(proj2 (Z.leb_le _ _)). Qed.

(** What was stored at [i] follows the octets in front of it. *)
Lemma ztake_store i (s b : list Z) : 0 <= i -> i + zlen s <= zlen b ->
  ztake (i + zlen s) (ztake i b ++ s ++ zdrop (i + zlen s) b) = ztake i b ++ s.
Proof.
  intros. pose proof (zlen_nonneg s). rewrite app_assoc.
  assert (E : zlen (ztake i b ++ s) = i + zlen s) by (rewrite zlen_app, zlen_ztake; lia).
  rewrite ztake_app_l by lia. apply ztake_all. lia.
Qed.

Lemma zseg_store i (s b : list Z) : 0 <= i -> i + zlen s <= zlen b ->
  zseg i (i + zlen s) (ztake i b ++ s ++ zdrop (i + zlen s) b) = s.
Proof.
  intros. pose proof (zlen_nonneg s). unfold zseg. assert (E : zlen (ztake i b) = i) by (rewrite zlen_ztake; lia).
  rewrite zdrop_app_r by lia. rewrite E. replace (i - i) with 0 by lia. rewrite zdrop_0.
  rewrite ztake_app_l by lia. apply ztake_all. lia.
Qed.

Lemma zseg_cons {A} (x : A) i j (l : list A) : 0 <= i < j -> znth l i = Some x -> zseg i j l = x :: zseg (i + 1) j l.
Proof.
  intros Hi Hx. rewrite znth_lookup in Hx by lia. unfold zseg, ztake, zdrop.
  replace (Z.to_nat (j - i)) with (S (Z.to_nat (j - (i + 1)))) by lia. replace (Z.to_nat (i + 1)) with (S (Z.to_nat i)) by lia.
  by rewrite (drop_S _ _ _ Hx).
Qed.

Lemma memcpy_apart dst src n b : 0 <= dst -> 0 <= src -> 0 <= n -> src + n <= zlen b -> dst + n <= zlen b -> n = 0 \/ dst + n <= src ->
  exists b', memcpy dst src n b = Some b' /\ zlen b' = zlen b.
Proof.
  intros ????? Hn. unfold memcpy. assert (E : zlen (zseg src (src + n) b) = n) by (rewrite zlen_zseg; lia).
  assert ((0 <=? src) && (0 <=? n) && (src + n <=? zlen b) && ((n =? 0) || (dst + n <=? src) || (src + n <=? dst)) = true) as ->.
  { rewrite !(proj2 (Z.leb_le _ _)) by lia. cbn. destruct Hn as [->|Hn]; [done|]. rewrite (proj2 (Z.leb_le _ _) Hn). by destruct (n =? 0). }
  rewrite store_in by lia. eexists. split; [done|]. rewrite !zlen_app, zlen_ztake, zlen_zdrop; lia.
Qed.

Section Gz.
Context `{Zlib}.
Hypothesis no_open_fault : forall n m, gzopen_fault n m = false.
Hypothesis no_read_fault : forall f, gzread_fault f = false.
Hypothesis no_write_fault : forall f s, gzwrite_fault f s = false.
Hypothesis no_close_fault : forall f, gzclose_fault f = false.

(** ** Writing *)

(** The buffer is open for writing [name], and [s] was put into it. *)
Record writing (name s : list Z) (b : gzstreambuf) : Prop := {
  w_opened : opened b = true;
  w_mode : m_out (mode b) = true;
  w_len : zlen (buffer b) = bufferSize;
  w_pptr : 0 <= pptr b <= epptr;
  w_text : exists d, file b = Some (mk_gzFile name true d) /\ s = d ++ ztake (pptr b) (buffer b)
}.

Lemma flush_writing name d b : file b = Some (mk_gzFile name true d) -> 0 <= pptr b <= bufferSize -> zlen (buffer b) = bufferSize ->
  flush_buffer b = Some (pptr b, pbump (- pptr b) (set_file (Some (mk_gzFile name true (d ++ ztake (pptr b) (buffer b)))) b)).
Proof.
  intros Hf Hp Hl. unfold flush_buffer. rewrite Hf. cbn. rewrite gzwrite_law. cbn. rewrite no_write_fault.
  rewrite zlen_ztake by lia. by rewrite Z.eqb_refl.
Qed.

Lemma sputc_writing name s b c : byte_ok c -> writing name s b -> exists b', sputc c b = Some (c, b') /\ writing name (s ++ [c]) b'.
Proof.
  intros Hc [Ho Hm Hl Hp (d & Hf & ->)]. unfold sputc, epptr, bufferSize in *. assert (E1 : zlen [c] = 1) by done.
  pose proof (ztake_store (pptr b) [c] (buffer b) ltac:(lia) ltac:(lia)) as Ht. rewrite E1 in Ht.
  assert (Hst : store (pptr b) [c] (buffer b) = Some (ztake (pptr b) (buffer b) ++ [c] ++ zdrop (pptr b + 1) (buffer b)))
    by (rewrite store_in by lia; by rewrite E1).
  pose proof (store_len _ _ _ _ Hst) as Hsl. zcase (pptr b <? 47 + 256 - 1).
  - rewrite Hst. eexists. split; [reflexivity|]. split; cbn [opened mode buffer pptr file pbump set_buffer]; try done; [unfold bufferSize; lia|unfold epptr, bufferSize; lia|].
    exists d. split; [done|]. by rewrite Ht, app_assoc.
  - unfold overflow. rewrite Hm, Ho. cbn [negb orb]. unfold byte_ok in Hc. rewrite (proj2 (Z.eqb_neq c EOF)) by (unfold EOF; lia).
    rewrite Z.mod_small, Hst by lia. cbn [mbind option_bind].
    rewrite (flush_writing name d) by (cbn [file pbump set_buffer pptr buffer]; first [done|unfold bufferSize; lia]).
    cbn [mbind option_bind pbump set_buffer pptr]. rewrite (proj2 (Z.eqb_neq _ EOF)) by (unfold EOF; lia).
    eexists. split; [reflexivity|]. split; cbn [opened mode buffer pptr file pbump set_buffer set_file]; try done; [unfold bufferSize; lia|unfold epptr, bufferSize; lia|].
    eexists. split; [reflexivity|]. replace (_ + - _) with 0 by lia. by rewrite Ht, app_nil_r, app_assoc.
Qed.

Lemma sputn_writing name t : forall s n b, bytes_ok t -> writing name s b ->
  exists b', sputn t n b = Some (n + zlen t, b') /\ writing name (s ++ t) b'.
Proof.
  induction t as [|c t IH]; intros s n b Hb Hw; cbn [sputn].
  { exists b. rewrite zlen_nil, Z.add_0_r, app_nil_r. done. }
  apply Forall_cons_1 in Hb as [Hc Hb]. destruct (sputc_writing name s b c Hc Hw) as (b1 & -> & Hw1). cbn [mbind option_bind].
  unfold byte_ok in Hc. rewrite (proj2 (Z.eqb_neq c EOF)) by (unfold EOF; lia).
  destruct (IH (s ++ [c]) (n + 1) b1 Hb Hw1) as (b2 & E & Hw2). exists b2. rewrite E, zlen_cons.
  split; [by replace (n + 1 + zlen t) with (n + (1 + zlen t)) by lia|]. by rewrite <- app_assoc in Hw2.
Qed.

Lemma close_writing name s b d : writing name s b -> exists b', gz_close b d = Some (true, b', <[name := s]> d).
Proof.
  intros [Ho Hm Hl Hp (t & Hf & ->)]. unfold gz_close, is_open, sync, epptr in *. rewrite Ho. zcase (0 <? pptr b).
  - rewrite (flush_writing name t) by (done || lia). cbn [mbind option_bind]. rewrite (proj2 (Z.eqb_neq _ EOF)) by (unfold EOF; lia).
    cbn. rewrite gzclose_law. rewrite no_close_fault. cbn. by eexists.
  - replace (pptr b) with 0 by lia. cbn [mbind option_bind]. cbn [set_opened file]. rewrite Hf. cbn. rewrite gzclose_law.
    rewrite no_close_fault. cbn. rewrite app_nil_r. by eexists.
Qed.

(** ** Reading *)
Definition CHUNK : Z := bufferSize - 4.

(** The buffer is open for reading: a chunk of [num] octets of which [i] were
    given, [n] octets in front of it, [rest] still in the file. *)
Record reading (name : list Z) (n num i : Z) (rest : list Z) (b : gzstreambuf) : Prop := {
  r_opened : opened b = true;
  r_mode : m_in (mode b) = true;
  r_file : file b = Some (mk_gzFile name false rest);
  r_len : zlen (buffer b) = bufferSize;
  r_eback : eback b = 4 - n;
  r_gptr : gptr b = 4 + i;
  r_egptr : egptr b = 4 + num;
  r_bounds : 0 <= n <= 4 /\ 0 <= i <= num /\ num <= CHUNK
}.

Definition left_ (num i : Z) (b : gzstreambuf) : list Z := zseg (4 + i) (4 + num) (buffer b).

Lemma sbumpc_pending name n num i rest b : reading name n num i rest b -> i < num ->
  exists c b', sbumpc b = Some (c, b') /\ reading name n num (i + 1) rest b' /\ left_ num i b = c :: left_ num (i + 1) b'.
Proof.
  intros [Ho Hm Hf Hl He Hg Heg (Hn & Hi & Hc)] Hlt. unfold CHUNK, bufferSize in *.
  destruct (znth_is_Some (buffer b) (4 + i) ltac:(lia)) as [c Hx]. exists c, (gbump 1 b). unfold sbumpc.
  rewrite Hg, Heg. rewrite (proj2 (Z.ltb_lt _ _)) by lia. rewrite Hx. split; [done|]. split.
  - split; cbn; try done; unfold CHUNK, bufferSize; lia.
  - unfold left_. cbn [gbump buffer]. rewrite (zseg_cons c) by (done || lia). by replace (4 + i + 1) with (4 + (i + 1)) by lia.
Qed.

(** The copy of the octets in front of the next chunk is defined. *)
Definition apart (n num : Z) : bool := (n + num <=? 0) || (Z.min 4 (n + num) <=? num).

Lemma sbumpc_refill name n num rest b : reading name n num num rest b ->
  if apart n num then
    match rest with
    | [] => exists b', sbumpc b = Some (EOF, b')
    | c :: r => bytes_ok rest -> exists b', sbumpc b = Some (c, b')
        /\ reading name (Z.min 4 (n + num)) (zlen (ztake CHUNK rest)) 1 (zdrop CHUNK rest) b'
        /\ left_ (zlen (ztake CHUNK rest)) 1 b' ++ zdrop CHUNK rest = r
    end
  else sbumpc b = None.
Proof.
  intros [Ho Hm Hf Hl He Hg Heg (Hn & Hi & Hc)]. unfold sbumpc, underflow. rewrite Hg, Heg, Z.ltb_irrefl, Hm, Ho, He. cbn [negb orb].
  replace (if 4 + num - (4 - n) >? 4 then 4 else 4 + num - (4 - n)) with (Z.min 4 (n + num))
    by (zcase (4 + num - (4 - n) >? 4); lia).
  set (np := Z.min 4 (n + num)). assert (Hd : np = Z.min 4 (n + num)) by done. assert (Hnp : 0 <= np <= 4) by lia. unfold apart. fold np.
  destruct ((n + num <=? 0) || (np <=? num)) eqn:Ea.
  2:{ bool_hyps. unfold memcpy.
      assert ((np =? 0) || (4 - np + np <=? 4 + num - np) || (4 + num - np + np <=? 4 - np) = false) as ->.
      { rewrite (proj2 (Z.eqb_neq _ _)), !(proj2 (Z.leb_gt _ _)) by lia. done. }
      by rewrite andb_false_r. }
  unfold CHUNK, bufferSize in *.
  destruct (memcpy_apart (4 - np) (4 + num - np) np (buffer b)) as (b1 & -> & Hl1); try lia.
  rewrite Hf. cbn [mbind option_bind]. rewrite gzread_law. cbn [g_write orb g_data g_name]. rewrite no_read_fault.
  change (47 + 256 - 4) with 299. assert (Hlen : 0 <= zlen (ztake 299 rest) <= 299).
  { pose proof (zlen_nonneg rest). destruct (decide (299 <= zlen rest)); [rewrite zlen_ztake; lia|]. rewrite ztake_all by lia. lia. }
  rewrite store_in by lia. cbn [mbind option_bind]. destruct rest as [|c r].
  { exists (set_file (Some (mk_gzFile name false [])) (set_buffer (ztake 4 b1 ++ [] ++ zdrop (4 + 0) b1) b)). done. }
  intros Hb. set (t := ztake 299 (c :: r)) in *.
  assert (Ht : t = c :: ztake 298 r) by done. assert (Htl : 1 <= zlen t) by (rewrite Ht, zlen_cons; pose proof (zlen_nonneg (ztake 298 r)); lia).
  rewrite (proj2 (Z.leb_gt _ _)) by lia.
  assert (Hs : zseg 4 (4 + zlen t) (ztake 4 b1 ++ t ++ zdrop (4 + zlen t) b1) = t) by (apply zseg_store; lia).
  set (b2 := ztake 4 b1 ++ t ++ zdrop (4 + zlen t) b1) in *. assert (Hl2 : zlen b2 = 303).
  { unfold b2. rewrite !zlen_app, zlen_ztake, zlen_zdrop; lia. }
  destruct (znth_is_Some b2 4 ltac:(lia)) as [x Hx]. pose proof (zseg_cons x 4 (4 + zlen t) b2 ltac:(lia) Hx) as Hcs.
  rewrite Hs, Ht in Hcs. injection Hcs as <- Hrest. cbn [setg buffer gptr set_file set_buffer]. rewrite Hx. cbn [mbind option_bind].
  assert (0 <= c < 256) by (by apply Forall_cons_1 in Hb as [? _]). rewrite (proj2 (Z.eqb_neq c EOF)) by (unfold EOF; lia).
  eexists. split; [reflexivity|]. split.
  - split; cbn [gbump setg set_file set_buffer opened mode file buffer eback gptr egptr]; try done; unfold CHUNK, bufferSize; lia.
  - unfold left_. cbn [gbump setg set_file set_buffer buffer]. change (4 + 1) with (4 + 1)%Z. rewrite Ht, <- Hrest. apply (ztake_app_zdrop 298 r).
Qed.

(** A last chunk of one to three octets is too short for the four octets that
    are kept in front of the next one, unless it is the first chunk. *)
Definition short_tail (fresh : bool) (N : Z) : bool :=
  (0 <? N mod CHUNK) && (N mod CHUNK <? 4) && (negb fresh || (CHUNK <? N)).

Definition readable (n num N : Z) : bool :=
  if N =? 0 then apart n num else negb (short_tail (n + num =? 0) N).

Lemma readable_next n num N : 0 <= n -> 0 < N -> num = CHUNK \/ n + num = 0 ->
  readable (Z.min 4 (n + num)) (Z.min CHUNK N) (N - Z.min CHUNK N) = readable n num N.
Proof.
  intros Hn HN Hs. unfold readable, short_tail, apart, CHUNK, bufferSize in *. change (47 + 256 - 4) with 299 in *.
  rewrite (proj2 (Z.eqb_neq N 0)) by lia. destruct (decide (N <= 299)) as [Hle|Hle].
  - rewrite (Z.min_r 299 N), Z.sub_diag by lia. cbn [Z.eqb]. destruct (decide (N = 299)) as [->|Hne].
    + rewrite Z_mod_same_full. cbn. apply orb_true_iff. right. apply Z.leb_le. lia.
    + rewrite (Z.mod_small N) by lia. destruct (decide (n + num = 0)) as [E|E].
      * rewrite E, (proj2 (Z.ltb_ge 299 N)) by lia. rewrite andb_false_r. cbn. apply orb_true_iff. right. apply Z.leb_le. lia.
      * rewrite (proj2 (Z.eqb_neq (n + num) 0)) by lia. cbn. rewrite andb_true_r.
        zcase (0 <? N); [|lia]. zcase (N <? 4); cbn;
          [apply orb_false_iff; split; apply Z.leb_gt; lia|apply orb_true_iff; right; apply Z.leb_le; lia].
  - rewrite (Z.min_l 299 N) by lia. rewrite (proj2 (Z.eqb_neq (N - 299) 0)) by lia. f_equal.
    rewrite (proj2 (Z.eqb_neq (Z.min 4 (n + num) + 299) 0)), (proj2 (Z.ltb_lt 299 N)) by lia.
    replace ((N - 299) mod 299) with (N mod 299) by (rewrite <- (Z_mod_plus_full (N - 299) 1 299); f_equal; lia).
    by rewrite orb_true_r.
Qed.

Lemma read_loop_reads name fuel : forall n num i rest b acc,
  reading name n num i rest b -> rest = [] \/ num = CHUNK \/ n + num = 0 -> bytes_ok (left_ num i b ++ rest) ->
  if readable n num (zlen rest) then
    (length (left_ num i b ++ rest) < fuel)%nat -> exists b', read_loop fuel acc b = Some (acc ++ left_ num i b ++ rest, b')
  else read_loop fuel acc b = None.
Proof.
  induction fuel as [|fuel IH]; intros n num i rest b acc Hr Hs Hb; [destruct (readable _ _ _); [lia|done]|].
  cbn [read_loop]. pose proof (r_bounds _ _ _ _ _ _ Hr) as (Hn & Hi & Hc). destruct (decide (i < num)) as [Hlt|Hge].
  - destruct (sbumpc_pending _ _ _ _ _ _ Hr Hlt) as (c & b1 & -> & Hr1 & Hl). cbn [mbind option_bind]. rewrite Hl in *.
    cbn [app] in Hb. apply Forall_cons_1 in Hb as [Hcb Hb]. unfold byte_ok in Hcb. rewrite (proj2 (Z.eqb_neq c EOF)) by (unfold EOF; lia).
    specialize (IH _ _ _ _ _ (acc ++ [c]) Hr1 Hs Hb). destruct (readable n num (zlen rest)); [|done].
    intros Hf. destruct IH as [b' ->]; [cbn in Hf; lia|]. exists b'. by rewrite <- app_assoc.
  - replace i with num in * by lia. assert (Hl : left_ num num b = []) by (unfold left_, zseg; by rewrite Z.sub_diag).
    rewrite Hl in *. pose proof (sbumpc_refill _ _ _ _ _ Hr) as Hx. destruct rest as [|c r].
    + change (readable n num (zlen [])) with (apart n num). destruct (apart n num); [|by rewrite Hx].
      intros _. destruct Hx as [b' ->]. exists b'. cbn. by rewrite app_nil_r.
    + destruct Hs as [?|Hs]; [done|]. assert (Hap : apart n num = true).
      { unfold apart, CHUNK, bufferSize in *. apply orb_true_iff. destruct Hs; [right|left]; apply Z.leb_le; lia. }
      rewrite Hap in Hx. destruct (Hx Hb) as (b1 & -> & Hr1 & Hl1). cbn [mbind option_bind].
      assert (HN : 0 < zlen (c :: r)) by (rewrite zlen_cons; pose proof (zlen_nonneg r); lia).
      assert (HC : 0 < CHUNK) by (unfold CHUNK, bufferSize; lia).
      assert (Em : zlen (ztake CHUNK (c :: r)) = Z.min CHUNK (zlen (c :: r))).
      { destruct (decide (CHUNK <= zlen (c :: r))); [rewrite zlen_ztake; lia|]. rewrite ztake_all; lia. }
      assert (Ed : zlen (zdrop CHUNK (c :: r)) = zlen (c :: r) - Z.min CHUNK (zlen (c :: r))).
      { destruct (decide (CHUNK <= zlen (c :: r))); [rewrite zlen_zdrop; lia|]. rewrite zdrop_all by lia. rewrite zlen_nil. lia. }
      rewrite Em in Hr1, Hl1. assert (Hs1 : zdrop CHUNK (c :: r) = [] \/ Z.min CHUNK (zlen (c :: r)) = CHUNK \/ Z.min 4 (n + num) + Z.min CHUNK (zlen (c :: r)) = 0).
      { destruct (decide (CHUNK <= zlen (c :: r))); [right; left; lia|left; apply zdrop_all; lia]. }
      apply Forall_cons_1 in Hb as [Hcb Hb]. rewrite <- Hl1 in Hb. specialize (IH _ _ _ _ _ (acc ++ [c]) Hr1 Hs1 Hb).
      rewrite Ed, readable_next in IH by (lia || done). unfold byte_ok in Hcb. rewrite (proj2 (Z.eqb_neq c EOF)) by (unfold EOF; lia).
      destruct (readable n num (zlen (c :: r))); [|done]. rewrite Hl1 in IH. intros Hf. destruct IH as [b' ->]; [cbn in Hf; lia|].
      exists b'. by rewrite <- app_assoc.
Qed.

Lemma open_out name junk m0 d : zlen junk = bufferSize ->
  exists b, ogzstream_named junk m0 name d = (mk_gzstreambase b false, <[name := []]> d) /\ writing name [] b.
Proof.
  intros Hl. unfold ogzstream_named, gzstreambase_named, base_open, gz_open. cbn. rewrite gzopen_law. rewrite no_open_fault. unfold opened_file. cbn.
  eexists. split; [reflexivity|]. split; cbn; try done. by exists [].
Qed.

Lemma open_in name junk m0 d s : zlen junk = bufferSize -> d !! name = Some s ->
  exists b, igzstream_named junk m0 name d = (mk_gzstreambase b false, d) /\ reading name 0 0 0 s b.
Proof.
  intros Hl Hd. unfold igzstream_named, gzstreambase_named, base_open, gz_open. cbn. rewrite gzopen_law. rewrite no_open_fault. unfold opened_file. cbn. rewrite Hd.
  eexists. split; [reflexivity|]. by split; cbn.
Qed.
End Gz.

(** C13: Octets written to an [ogzstream] are read back from an [igzstream] on
    the same file, whatever their number, when zlib reports no error: every
    character is taken, closing succeeds, the file holds exactly the octets,
    and reading up to the end gives them.  The exception are files of more than
    299 octets whose length is one, two or three more than a multiple of 299:
    the last call of [underflow] copies the four octets of the putback area with
    [memcpy] onto themselves, which is undefined. *)
Theorem gz_roundtrip `{Zlib} name s junk junk' m0 m1 d :
  (forall n m, gzopen_fault n m = false) -> (forall f, gzread_fault f = false) ->
  (forall f t, gzwrite_fault f t = false) -> (forall f, gzclose_fault f = false) ->
  zlen junk = bufferSize -> zlen junk' = bufferSize -> bytes_ok s ->
  let '(o, d1) := ogzstream_named junk m0 name d in
  exists b o2 d2, sputn s 0 (buf o) = Some (zlen s, b)
    /\ base_close (mk_gzstreambase b (badbit o)) d1 = Some (o2, d2) /\ badbit o2 = false /\ d2 = <[name := s]> d
    /\ if short_tail true (zlen s) then forall fuel, read_loop fuel [] (buf (igzstream_named junk' m1 name d2).1) = None
       else exists b', read_loop (S (length s)) [] (buf (igzstream_named junk' m1 name d2).1) = Some (s, b').
Proof.
  intros Ho Hr Hw Hc Hj Hj' Hb. destruct (open_out Ho name junk m0 d Hj) as (b & -> & Hwr). cbn [buf badbit].
  destruct (sputn_writing Hw name s [] 0 b Hb Hwr) as (b1 & Hput & Hw1). cbn [app] in Hw1.
  destruct (close_writing Hw Hc name s b1 (<[name := []]> d) Hw1) as (b2 & Hcl).
  exists b1, (mk_gzstreambase b2 false), (<[name := s]> d). split; [exact Hput|]. split_and!.
  - unfold base_close, is_open. cbn [buf]. rewrite (w_opened _ _ _ Hw1), Hcl. cbn [mbind option_bind orb negb badbit buf]. by rewrite insert_insert_eq.
  - done.
  - done.
  - destruct (open_in Ho name junk' m1 (<[name := s]> d) s Hj' ltac:(by rewrite lookup_insert_eq)) as (bi & -> & Hri). cbn [fst buf].
    pose proof (read_loop_reads Hr name) as Hrd. assert (El : left_ 0 0 bi = []) by done.
    assert (Er : readable 0 0 (zlen s) = negb (short_tail true (zlen s))).
    { unfold readable. zcase (zlen s =? 0); [|done]. rewrite E. done. }
    destruct (short_tail true (zlen s)).
    + intros fuel. specialize (Hrd fuel 0 0 0 s bi [] Hri ltac:(lia) ltac:(by rewrite El)). by rewrite Er in Hrd.
    + specialize (Hrd (S (length s)) 0 0 0 s bi [] Hri ltac:(lia) ltac:(by rewrite El)). rewrite Er in Hrd. cbn [negb] in Hrd.
      rewrite El in Hrd. cbn [app] in Hrd. apply Hrd. lia.
Qed.

(** ** Errors *)
Definition quiet_zlib : Zlib.
Proof.
  refine {| gzopen_fault := fun _ _ => false; gzread_fault := fun _ => false; gzwrite_fault := fun _ _ => false; gzclose_fault := fun _ => false;
    gzopen := opened_file;
    gzread := fun f len => if g_write f then (-1, [], f)
      else (zlen (ztake len (g_data f)), ztake len (g_data f), mk_gzFile (g_name f) false (zdrop len (g_data f)));
    gzwrite := fun f s => if negb (g_write f) then (0, f) else (zlen s, mk_gzFile (g_name f) true (g_data f ++ s));
    gzclose := fun f d => (true, if g_write f then <[g_name f := g_data f]> d else d) |}.
  - done.
  - intros f len. by destruct (g_write f).
  - intros f s. by destruct (g_write f).
  - done.
Defined.

Lemma gz_roundtrip_witness : exists b',
  @read_loop quiet_zlib 6 [] (buf (@igzstream_named quiet_zlib (replicate 303 7) ios_out (str "f") {[str "f" := str "hello"]}).1)
  = Some (str "hello", b').
Proof.
  destruct (@gz_roundtrip quiet_zlib (str "f") (str "hello") (replicate 303 0) (replicate 303 7) ios_in ios_out ∅
    ltac:(done) ltac:(done) ltac:(done) ltac:(done) ltac:(done) ltac:(done)) as (b & o2 & d2 & _ & _ & _ & E & Hl).
  - repeat constructor; cbn; lia.
  - rewrite E in Hl. exact Hl.
Defined.

(** A file that cannot be opened by the constructor leaves the stream good. *)
Lemma constructor_hides_failure `{Zlib} junk m0 name d : d !! name = None ->
  exists b, igzstream_named junk m0 name d = (mk_gzstreambase b false, d) /\ opened b = false.
Proof.
  intros Hd. unfold igzstream_named, gzstreambase_named, base_open, gz_open. cbn. rewrite gzopen_law. unfold opened_file.
  destruct (gzopen_fault name (fmode ios_in ++ str "b")) eqn:E; cbn in E; rewrite E; cbn; rewrite ?Hd; by eexists.
Qed.

(** After a write that failed in [overflow] the next character is stored
    outside the buffer. *)
Lemma overflow_twice `{Zlib} name t b c c' :
  (forall f s, gzwrite_fault f s = true) -> writing name t b -> pptr b = epptr -> byte_ok c -> byte_ok c' ->
  exists b', sputc c b = Some (EOF, b') /\ sputc c' b' = None.
Proof.
  intros Hw [Ho Hm Hl Hp (d & Hf & _)] He Hc Hc'. unfold sputc. rewrite He, Z.ltb_irrefl. unfold overflow. rewrite Hm, Ho. cbn [negb orb].
  unfold byte_ok, epptr, bufferSize in *.
  rewrite (proj2 (Z.eqb_neq c EOF)) by (unfold EOF; lia). rewrite He. rewrite store_in by (rewrite ?zlen_cons, ?zlen_nil; lia). cbn [mbind option_bind].
  unfold flush_buffer. cbn [file pbump set_buffer]. rewrite Hf. cbn [mbind option_bind]. rewrite gzwrite_law. rewrite Hw, orb_true_r.
  cbn [pptr pbump set_buffer]. rewrite He. change (0 =? 47 + 256 - 1 + 1) with false. eexists. split; [done|]. cbn [pptr pbump set_file set_buffer]. rewrite He.
  change (47 + 256 - 1 + 1 <? 47 + 256 - 1) with false. cbn [mode opened pbump set_file set_buffer pptr]. rewrite Hm, Ho. cbn [negb orb].
  rewrite (proj2 (Z.eqb_neq c' EOF)) by (unfold EOF; lia). unfold store. cbn [buffer pbump set_file set_buffer].
  assert (E1 : forall x : Z, zlen [x] = 1) by done. rewrite !E1.
  rewrite (proj2 (Z.leb_gt _ (zlen _))); [by rewrite andb_false_r|]. rewrite !zlen_app, !E1, zlen_ztake, zlen_zdrop; lia.
Qed.

(** Closing and opening again does not empty the get area: the characters that
    were not read from the first file come in front of those of the second. *)
Lemma reopen_keeps_unread `{Zlib} name name2 n num i rest b d d1 ok b1 :
  reading name n num i rest b -> i < num -> pptr b = 0 -> gz_close b d = Some (ok, b1, d1) ->
  exists c b3, sbumpc (gz_open name2 ios_in b1 d1).1.2 = Some (c, b3) /\ left_ num i b = c :: left_ num (i + 1) b.
Proof.
  intros [Ho Hm Hf Hl He Hg Heg (Hn & Hi & Hc)] Hlt Hp Hcl. unfold gz_close, is_open, sync in Hcl. rewrite Ho, Hp in Hcl. cbn in Hcl.
  rewrite Hf in Hcl. cbn in Hcl. destruct (gzclose _ d) as [o d2] in Hcl. injection Hcl as _ <- _.
  destruct (znth_is_Some (buffer b) (4 + i)) as [c Hx]; [unfold CHUNK, bufferSize in *; lia|]. exists c. unfold gz_open. cbn.
  assert (Hcs : left_ num i b = c :: left_ num (i + 1) b)
    by (unfold left_; rewrite (zseg_cons c) by (done || lia); by replace (4 + i + 1) with (4 + (i + 1)) by lia).
  destruct (gzopen _ _ _) as [[f d3]|]; unfold sbumpc; cbn; rewrite Hg, Heg, (proj2 (Z.ltb_lt _ _)), Hx by lia; by eexists.
Qed.
