(* ===== verification/Net.v ===== *)
(** * TCP connections

    src/src/common/utils.cc: [Setsockopt], [Listen], [Tcp_connect],
    [Tcp_connect_retry], [Tcp_listen] and [Accept], the wrappers of the socket
    calls, and [create_directories].

    What the system answers is the class [Sockets]; an answer may differ from
    one round of a loop to the next.  The state is the open sockets, the
    address lists that were not freed, [errno] and the seconds slept.  What is
    logged on [clog] is left out. *)
From S2P Require Import Prelude Regex BigHash.

(** ** State and effects *)
Record net := mk_net { socks : list Z; infos : nat; errno : Z; slept : nat }.

Definition set_socks v s := mk_net v (infos s) (errno s) (slept s).
Definition set_infos v s := mk_net (socks s) v (errno s) (slept s).
Definition set_errno v s := mk_net (socks s) (infos s) v (slept s).
Definition sleep_1 s := mk_net (socks s) (infos s) (errno s) (S (slept s)).

(** [None]: a loop has run out of fuel. *)
Definition nio (A : Type) := net -> option (outcome A * net).

Definition nret {A} (a : A) : nio A := fun s => Some (Value a, s).
Definition nthrow {A} (e : exn) : nio A := fun s => Some (Throw e, s).
Definition nbind {A B} (m : nio A) (k : A -> nio B) : nio B := fun s =>
  match m s with
  | Some (Value a, s') => k a s'
  | Some (Throw e, s') => Some (Throw e, s')
  | None => None
  end.
Definition nmod (f : net -> net) : nio unit := fun s => Some (Value tt, f s).

Declare Scope nio_scope.
Delimit Scope nio_scope with nio.
Notation "x <- m ;; k" := (nbind m (fun x => k)) (at level 100, m at next level, right associativity) : nio_scope.
Notation "m ;; k" := (nbind m (fun _ : unit => k)) (at level 100, right associativity) : nio_scope.
Local Open Scope nio_scope.

(** ** The system *)
Definition EPROTO : Z := 71.
Definition ECONNABORTED : Z := 103.
Definition EAGAIN : Z := 11.
Definition LISTENQ : Z := 1024.

(** An address of the list of [getaddrinfo]: the bytes of the address. *)
Abbreviation addr := (list Z).

(** The first argument of an answer is the round in which it is asked for. *)
Class Sockets := {
  getaddrinfo : nat -> option (list Z) -> option (list Z) -> Z + list addr;
  getaddrinfo_law k h v l : getaddrinfo k h v = inr l -> l <> [];
  gai_strerror : Z -> list Z;
  net_strerror : Z -> list Z;
  (** a descriptor that is not in use, or an error *)
  socket : nat -> addr -> list Z -> Z + Z;
  socket_law k a l fd : socket k a l = inr fd -> 0 <= fd /\ (fd ∉ l);
  connect : nat -> addr -> option Z;
  bind : addr -> option Z;
  setsockopt : Z -> option Z;
  listen : Z -> Z -> option Z;
  accept : nat -> list Z -> Z + Z;
  accept_law k l fd : accept k l = inr fd -> 0 <= fd /\ (fd ∉ l);
  getenv : list Z -> option (list Z)
}.

Section Net.
Context `{Sockets}.

(** [utils::err_sys] with the last error. *)
Definition err_sys {A} (s : list Z) : nio A := fun n =>
  Some (Throw (runtime_error (s ++ str " error: " ++ net_strerror (errno n) ++ [10])), n).

(** A call that fails sets [errno]. *)
Definition fails (e : Z) : nio unit := nmod (set_errno e).

Definition close (fd : Z) : nio unit := nmod (fun s => set_socks (filter (fun x => x <> fd) (socks s)) s).

(** [getaddrinfo] allocates the list; [freeaddrinfo] frees it. *)
Definition lookup_addr (k : nat) (host serv : option (list Z)) : nio (Z + list addr) := fun s =>
  match getaddrinfo k host serv with
  | inl n => Some (Value (inl n), s)
  | inr l => Some (Value (inr l), set_infos (S (infos s)) s)
  end.

Definition freeaddrinfo : nio unit := nmod (fun s => set_infos (pred (infos s)) s).

Definition open_socket (k : nat) (a : addr) : nio (option Z) := fun s =>
  match socket k a (socks s) with
  | inl e => Some (Value None, set_errno e s)
  | inr fd => Some (Value (Some fd), set_socks (fd :: socks s) s)
  end.

Definition Setsockopt (fd : Z) : nio unit :=
  match setsockopt fd with
  | Some e => fails e ;; err_sys (str "setsockopt error")
  | None => nret tt
  end.

(** [atoi], the low 32 bits of [strtol]; a value that is no [long] is undefined. *)
Definition Listen (fd backlog : Z) : nio unit :=
  let backlog := match getenv (str "LISTENQ") with
                 | Some p => cast_int <$> atol (c_string p)
                 | None => Some backlog
                 end in
  match backlog with
  | None => fun _ => None
  | Some backlog =>
      match listen fd backlog with
      | Some e => fails e ;; err_sys (str "listen error")
      | None => nret tt
      end
  end.

(** The host and the service in a message. *)
Definition host_serv (sep : list Z) (host serv : option (list Z)) : list Z :=
  default [] host ++ match serv with Some v => sep ++ v | None => [] end.

(** The loop over the addresses: the socket of the first that connects. *)
Fixpoint connect_loop (k : nat) (res : list addr) : nio (option Z) :=
  match res with
  | [] => nret None
  | a :: res =>
      sockfd <- open_socket k a ;;
      match sockfd with
      | None => connect_loop k res
      | Some fd =>
          match connect k a with
          | None => nret (Some fd)
          | Some e => fails e ;; close fd ;; connect_loop k res
          end
      end
  end.

Definition Tcp_connect (host serv : option (list Z)) : nio Z :=
  res <- lookup_addr 0 host serv ;;
  match res with
  | inl n => err_sys (str "tcp_connect error for" ++ host_serv (str ":") host serv ++ gai_strerror n)
  | inr res =>
      sockfd <- connect_loop 0 res ;;
      match sockfd with
      | None => err_sys (str "tcp_connect error for " ++ host_serv (str ":") host serv)
      | Some fd => freeaddrinfo ;; nret fd
      end
  end.

(** Round [k] of [Tcp_connect_retry]. *)
Fixpoint connect_retry (fuel k : nat) (host serv : option (list Z)) (tries : Z) : nio Z :=
  match fuel with
  | O => fun _ => None
  | S fuel =>
      res <- lookup_addr k host serv ;;
      match res with
      | inl n => err_sys (str "tcp_connect error for" ++ host_serv (str ":") host serv ++ gai_strerror n)
      | inr res =>
          sockfd <- connect_loop k res ;;
          match sockfd with
          | Some fd => freeaddrinfo ;; nret fd
          | None =>
              let error := str "tcp_connect error for " ++ host_serv (str ":") host serv in
              if tries >? 0 then nmod sleep_1 ;; connect_retry fuel (S k) host serv (tries - 1)
              else if tries =? 0 then err_sys error
              else nmod sleep_1 ;; connect_retry fuel (S k) host serv tries
          end
      end
  end.

Definition Tcp_connect_retry (fuel : nat) (host serv : option (list Z)) (tries : Z) : nio Z :=
  connect_retry fuel 0 host serv tries.

(** The loop of [Tcp_listen]: the first address that can be bound. *)
Fixpoint bind_loop (res : list addr) : nio (option (Z * addr)) :=
  match res with
  | [] => nret None
  | a :: res =>
      listenfd <- open_socket 0 a ;;
      match listenfd with
      | None => bind_loop res
      | Some fd =>
          Setsockopt fd ;;
          match bind a with
          | None => nret (Some (fd, a))
          | Some e => fails e ;; close fd ;; bind_loop res
          end
      end
  end.

(** The socket and the length of its address. *)
Definition Tcp_listen (host serv : option (list Z)) : nio (Z * Z) :=
  res <- lookup_addr 0 host serv ;;
  match res with
  | inl n => err_sys (str "tcp_listen error for" ++ host_serv [] host serv ++ gai_strerror n)
  | inr res =>
      r <- bind_loop res ;;
      match r with
      | None => err_sys (str "tcp_listen error for" ++ host_serv [] host serv)
      | Some (fd, a) => Listen fd LISTENQ ;; freeaddrinfo ;; nret (fd, zlen a)
      end
  end.

(** [Accept]: the descriptor, or -1 when there is no connection. *)
Fixpoint accept_from (fuel k : nat) : nio Z :=
  match fuel with
  | O => fun _ => None
  | S fuel => fun s =>
      match accept k (socks s) with
      | inr fd => Some (Value fd, set_socks (fd :: socks s) s)
      | inl e =>
          let s := set_errno e s in
          if (e =? EPROTO) || (e =? ECONNABORTED) then accept_from fuel (S k) s
          else if e =? EAGAIN then Some (Value (-1), s)
          else err_sys (str "accept") s
      end
  end.

Definition Accept (fuel : nat) : nio Z := accept_from fuel 0.
End Net.

(** [utils::create_directories] has the text of the function of bighash.cc. *)
Definition utils_create_directories `{Posix} (p : path) : io unit := create_directories p.

(** ** Which address is taken *)
Section Spec.
Context `{Sockets}.

(** The socket for the first address that can be reached in round [k]. *)
Fixpoint first_reachable (k : nat) (res : list addr) (l : list Z) : option Z :=
  match res with
  | [] => None
  | a :: res =>
      match socket k a l, connect k a with
      | inr fd, None => Some fd
      | _, _ => first_reachable k res l
      end
  end.

(** The first address that can be bound. *)
Fixpoint first_bound (res : list addr) (l : list Z) : option (Z * addr) :=
  match res with
  | [] => None
  | a :: res =>
      match socket 0 a l, bind a with
      | inr fd, None => Some (fd, a)
      | _, _ => first_bound res l
      end
  end.

Lemma filter_new (x : Z) (l : list Z) : (x ∉ l) -> filter (fun y => y <> x) (x :: l) = l.
Proof.
  intros Hx. rewrite filter_cons, decide_False by (intros H1; by apply H1).
  induction l as [|y l IH]; [done|]. apply not_elem_of_cons in Hx as [Hy Hl]. rewrite filter_cons, decide_True by congruence.
  by rewrite IH.
Qed.

(** Same sockets, address lists and sleep; [errno] may differ. *)
Definition same (s s' : net) : Prop := exists e, s' = set_errno e s.

Lemma same_refl s : same s s.
Proof. exists (errno s). by destruct s. Qed.

Lemma same_trans a b c : same a b -> same b c -> same a c.
Proof. intros [e ->] [e' ->]. exists e'. done. Qed.

Lemma connect_loop_spec k res : forall s, exists s', connect_loop k res s = Some (Value (first_reachable k res (socks s)), s')
  /\ match first_reachable k res (socks s) with
     | None => same s s'
     | Some fd => exists s1, same s s1 /\ s' = set_socks (fd :: socks s) s1
     end.
Proof.
  induction res as [|a res IH]; intros s; cbn [connect_loop first_reachable]; [exists s; split; [done|apply same_refl]|].
  unfold nbind at 1, open_socket. destruct (socket k a (socks s)) as [e|fd] eqn:Es.
  - destruct (IH (set_errno e s)) as (s' & -> & H1). cbn [socks set_errno] in *. exists s'. split; [done|].
    destruct (first_reachable k res (socks s)) as [fd|].
    + destruct H1 as (s1 & H1 & ->). exists s1. split; [|done]. apply (same_trans s (set_errno e s)); [by exists e|done].
    + apply (same_trans s (set_errno e s)); [by exists e|done].
  - destruct (connect k a) as [e|]; [|eexists; split; [done|]; exists s; split; [apply same_refl|done]].
    unfold nbind, fails, close, nmod. cbn [socks set_socks set_errno]. apply socket_law in Es as [_ Hn]. rewrite filter_new by done.
    set (s2 := set_socks _ _). assert (E2 : same s s2) by (exists e; by destruct s). assert (E3 : socks s2 = socks s) by done.
    destruct (IH s2) as (s' & -> & H1). rewrite E3 in *. exists s'. split; [done|].
    destruct (first_reachable k res (socks s)) as [fd'|]; [|by apply (same_trans s s2)].
    destruct H1 as (s1 & H1 & ->). exists s1. split; [by apply (same_trans s s2)|done].
Qed.

Lemma lookup_ok k host serv res s : getaddrinfo k host serv = inr res ->
  lookup_addr k host serv s = Some (Value (inr res), set_infos (S (infos s)) s).
Proof. intros E. unfold lookup_addr. by rewrite E. Qed.

(** The state after [n] rounds that failed: a list of addresses is lost in each. *)
Definition after_rounds (n : nat) (s s' : net) : Prop :=
  exists e, s' = mk_net (socks s) (n + infos s) e (n + slept s).

(** Round [i] finds the addresses, and reaches none of them. *)
Definition fruitless (host serv : option (list Z)) (i : nat) (s : net) : Prop :=
  exists res, getaddrinfo i host serv = inr res /\ first_reachable i res (socks s) = None.

Lemma retry_rounds host serv n : forall k tries s fuel,
  (forall i, (k <= i < k + n)%nat -> fruitless host serv i s) -> tries < 0 \/ Z.of_nat n <= tries ->
  exists s', connect_retry (n + fuel) k host serv tries s
             = connect_retry fuel (k + n) host serv (if tries <? 0 then tries else tries - Z.of_nat n) s'
    /\ after_rounds n s s'.
Proof.
  induction n as [|n IH]; intros k tries s fuel Hf Ht.
  { exists s. rewrite Nat.add_0_r, Z.sub_0_r. split; [by destruct (tries <? 0)|]. exists (errno s). by destruct s. }
  destruct (Hf k) as (res & Hres & Hk); [lia|].
  cbn [Nat.add connect_retry]. unfold nbind at 1. rewrite (lookup_ok _ _ _ _ _ Hres). unfold nbind at 1.
  destruct (connect_loop_spec k res (set_infos (S (infos s)) s)) as (s1 & -> & H1). cbn [socks set_infos] in *.
  rewrite Hk in *. destruct H1 as [e ->]. set (s2 := sleep_1 (set_errno e (set_infos (S (infos s)) s))).
  assert (E : exists t', (if tries >? 0 then nmod sleep_1 ;; connect_retry (n + fuel) (S k) host serv (tries - 1)
      else if tries =? 0 then err_sys (str "tcp_connect error for " ++ host_serv (str ":") host serv)
      else nmod sleep_1 ;; connect_retry (n + fuel) (S k) host serv tries) (set_errno e (set_infos (S (infos s)) s))
    = connect_retry (n + fuel) (S k) host serv t' s2 /\ (t' < 0 \/ Z.of_nat n <= t')
      /\ (if t' <? 0 then t' else t' - Z.of_nat n) = (if tries <? 0 then tries else tries - Z.of_nat (S n))).
  { zcase (tries >? 0); [exists (tries - 1)|exists tries]; [|rewrite (proj2 (Z.eqb_neq tries 0)) by lia]; (split; [done|]);
      (split; [lia|]); [rewrite (proj2 (Z.ltb_ge (tries - 1) 0)), (proj2 (Z.ltb_ge tries 0)) by lia; lia|].
    by rewrite (proj2 (Z.ltb_lt tries 0)) by lia. }
  destruct E as (t' & -> & Ht' & Et). assert (Es2 : socks s2 = socks s) by done.
  destruct (IH (S k) t' s2 fuel) as (s' & -> & [e' ->]); [intros i Hi; unfold fruitless; rewrite Es2; apply Hf; lia|done|].
  eexists. split; [rewrite Et; by replace (S k + n)%nat with (k + S n)%nat by lia|]. exists e'. cbn. f_equal; lia.
Qed.

(** A round in which an address can be reached ends the loop. *)
Lemma retry_success host serv res k tries s fuel fd :
  getaddrinfo k host serv = inr res -> first_reachable k res (socks s) = Some fd ->
  exists e, connect_retry (S fuel) k host serv tries s = Some (Value fd, mk_net (fd :: socks s) (infos s) e (slept s)).
Proof.
  intros Hres Hf. cbn [connect_retry]. unfold nbind at 1. rewrite (lookup_ok _ _ _ _ _ Hres). unfold nbind at 1.
  destruct (connect_loop_spec k res (set_infos (S (infos s)) s)) as (s1 & -> & H1). cbn [socks set_infos] in *. rewrite Hf in *.
  destruct H1 as (s2 & [e ->] & ->). unfold nbind, freeaddrinfo, nmod, nret. cbn. by exists e.
Qed.

(** [Tcp_connect] is one round of [Tcp_connect_retry]. *)
Lemma Tcp_connect_one host serv s : Tcp_connect host serv s = Tcp_connect_retry 1 host serv 0 s.
Proof. done. Qed.

Lemma bind_loop_spec res : (forall fd, setsockopt fd = None) -> forall s,
  exists s', bind_loop res s = Some (Value (first_bound res (socks s)), s')
  /\ match first_bound res (socks s) with
     | None => same s s'
     | Some r => exists s1, same s s1 /\ s' = set_socks (r.1 :: socks s) s1
     end.
Proof.
  intros Ho. induction res as [|a res IH]; intros s; cbn [bind_loop first_bound]; [exists s; split; [done|apply same_refl]|].
  unfold nbind at 1, open_socket. destruct (socket 0 a (socks s)) as [e|fd] eqn:Es.
  - destruct (IH (set_errno e s)) as (s' & -> & H1). cbn [socks set_errno] in *. exists s'. split; [done|].
    destruct (first_bound res (socks s)) as [r|].
    + destruct H1 as (s1 & H1 & ->). exists s1. split; [|done]. apply (same_trans s (set_errno e s)); [by exists e|done].
    + apply (same_trans s (set_errno e s)); [by exists e|done].
  - unfold Setsockopt. rewrite Ho. unfold nbind at 1, nret at 1.
    destruct (bind a) as [e|]; [|eexists; split; [done|]; exists s; split; [apply same_refl|done]].
    unfold nbind, fails, close, nmod. cbn [socks set_socks set_errno]. apply socket_law in Es as [_ Hn]. rewrite filter_new by done.
    set (s2 := set_socks _ _). assert (E2 : same s s2) by (exists e; by destruct s). assert (E3 : socks s2 = socks s) by done.
    destruct (IH s2) as (s' & -> & H1). rewrite E3 in *. exists s'. split; [done|].
    destruct (first_bound res (socks s)) as [r|]; [|by apply (same_trans s s2)].
    destruct H1 as (s1 & H1 & ->). exists s1. split; [by apply (same_trans s s2)|done].
Qed.

(** [Tcp_listen] listens on the first address that can be bound and frees the
    list; when [listen] fails the socket stays open and the list is lost. *)
Lemma Tcp_listen_outcome host serv res s fd a : (forall fd, setsockopt fd = None) -> getenv (str "LISTENQ") = None ->
  getaddrinfo 0 host serv = inr res -> first_bound res (socks s) = Some (fd, a) ->
  exists e, Tcp_listen host serv s =
    match listen fd LISTENQ with
    | None => Some (Value (fd, zlen a), mk_net (fd :: socks s) (infos s) e (slept s))
    | Some e' => Some (Throw (runtime_error (str "listen error error: " ++ net_strerror e' ++ [10])),
                       mk_net (fd :: socks s) (S (infos s)) e' (slept s))
    end.
Proof.
  intros Ho Hg Hres Hb. unfold Tcp_listen. unfold nbind at 1. rewrite (lookup_ok _ _ _ _ _ Hres). unfold nbind at 1.
  destruct (bind_loop_spec res Ho (set_infos (S (infos s)) s)) as (s1 & -> & H1). cbn [socks set_infos] in *. rewrite Hb in *.
  destruct H1 as (s2 & [e ->] & ->). exists e. unfold Listen. rewrite Hg. unfold nbind at 1. cbn [fst].
  by destruct (listen fd LISTENQ).
Qed.

(** [Accept] passes over connections that were given up. *)
Lemma accept_outcome n : forall k fuel s,
  (forall i, (k <= i < k + n)%nat -> exists e, accept i (socks s) = inl e /\ (e = EPROTO \/ e = ECONNABORTED)) ->
  (n < fuel)%nat ->
  match accept (k + n) (socks s) with
  | inr fd => exists e, accept_from fuel k s = Some (Value fd, set_socks (fd :: socks s) (set_errno e s))
  | inl e =>
      if (e =? EPROTO) || (e =? ECONNABORTED) then True
      else accept_from fuel k s = Some (if e =? EAGAIN then Value (-1)
             else Throw (runtime_error (str "accept error: " ++ net_strerror e ++ [10])), set_errno e s)
  end.
Proof.
  induction n as [|n IH]; intros k [|fuel] s Hf Hl; try lia; cbn [accept_from].
  - rewrite Nat.add_0_r. destruct (accept k (socks s)) as [e|fd]; [|exists (errno s); by destruct s].
    destruct ((e =? EPROTO) || (e =? ECONNABORTED)); [done|]. by destruct (e =? EAGAIN).
  - destruct (Hf k) as (e & -> & He); [lia|]. replace ((e =? EPROTO) || (e =? ECONNABORTED)) with true by (by destruct He as [-> | ->]).
    specialize (IH (S k) fuel (set_errno e s)). replace (S k + n)%nat with (k + S n)%nat in IH by lia. cbn [socks set_errno] in IH.
    apply IH; [|lia]. intros i Hi. apply Hf. lia.
Qed.
End Spec.

(** C29: [Tcp_connect_retry].  In each round the addresses are looked up and
    tried in their order; the rounds go on while the lookup succeeds, no address
    can be reached and there are tries left (a negative number is not used up).
    If that holds of [n] rounds, then: if the lookup of round [n] fails, the call
    throws at once, whatever is left of the tries; if an address can be reached in
    round [n], it returns the socket for the first such address after [n] seconds;
    if there is none and the number of tries was [n], it throws.  It goes on for
    ever exactly in the remaining case: a negative number of tries, and every
    lookup succeeds and no address is ever reached.  No socket but the one returned
    stays open, while the address list of every round that failed is lost. *)
Theorem connect_retry_outcome `{Sockets} host serv tries s :
  (forall n fuel, (forall i, (i < n)%nat -> fruitless host serv i s) -> tries < 0 \/ Z.of_nat n <= tries -> (n < fuel)%nat ->
     match getaddrinfo n host serv with
     | inl code => exists e, Tcp_connect_retry fuel host serv tries s =
         Some (Throw (runtime_error (str "tcp_connect error for" ++ host_serv (str ":") host serv ++ gai_strerror code
                        ++ str " error: " ++ net_strerror e ++ [10])),
               mk_net (socks s) (n + infos s) e (n + slept s))
     | inr res =>
         match first_reachable n res (socks s) with
         | Some fd => exists e, Tcp_connect_retry fuel host serv tries s =
             Some (Value fd, mk_net (fd :: socks s) (n + infos s) e (n + slept s))
         | None => tries = Z.of_nat n -> exists e, Tcp_connect_retry fuel host serv tries s =
             Some (Throw (runtime_error (str "tcp_connect error for " ++ host_serv (str ":") host serv
                            ++ str " error: " ++ net_strerror e ++ [10])),
                   mk_net (socks s) (S n + infos s) e (n + slept s))
         end
     end)
  /\ (tries < 0 -> (forall i, fruitless host serv i s) -> forall fuel, Tcp_connect_retry fuel host serv tries s = None).
Proof.
  unfold Tcp_connect_retry. split.
  - intros n fuel Hf Ht Hl. replace fuel with (n + S (fuel - S n))%nat by lia.
    destruct (retry_rounds host serv n 0 tries s (S (fuel - S n))) as (s' & -> & [e ->]); [intros; apply Hf; lia|done|].
    cbn [Nat.add]. destruct (getaddrinfo n host serv) as [code|res] eqn:Hres.
    { exists e. cbn [connect_retry]. unfold nbind at 1, lookup_addr. rewrite Hres. unfold err_sys. cbn [errno].
      by rewrite <-!(assoc_L (++)). }
    destruct (first_reachable n res (socks s)) as [fd|] eqn:Hn.
    + destruct (retry_success host serv res n (if tries <? 0 then tries else tries - Z.of_nat n)
        (mk_net (socks s) (n + infos s) e (n + slept s)) (fuel - S n) fd) as [e' ->]; [done|done|]. by exists e'.
    + intros ->. rewrite (proj2 (Z.ltb_ge (Z.of_nat n) 0)), Z.sub_diag by lia. cbn [connect_retry]. unfold nbind at 1.
      rewrite (lookup_ok _ _ _ _ _ Hres). unfold nbind at 1.
      destruct (connect_loop_spec n res (mk_net (socks s) (S (n + infos s)) e (n + slept s))) as (s1 & E & H1).
      unfold set_infos. cbn [socks infos errno slept]. rewrite E. cbn [socks] in *. rewrite Hn in *. destruct H1 as [e' ->].
      exists e'. cbn. unfold err_sys, set_errno. done.
  - intros Ht Hf fuel. destruct (retry_rounds host serv fuel 0 tries s 0) as (s' & E & _); [intros; apply Hf|by left|].
    rewrite Nat.add_0_r in E. by rewrite E.
Qed.

(** A host with two addresses; the second answers from the third round on. *)
Definition demo_socket (k : nat) (a : addr) (l : list Z) : Z + Z := inr (1 + foldr Z.max 2 l).

Lemma demo_socket_law k a l fd : demo_socket k a l = inr fd -> 0 <= fd /\ (fd ∉ l).
Proof.
  assert (Hm : forall x, x ∈ l -> x <= foldr Z.max 2 l).
  { induction l as [|y l IH]; intros x Hx; [by apply elem_of_nil in Hx|]. cbn. apply elem_of_cons in Hx as [->|Hx%IH]; lia. }
  assert (2 <= foldr Z.max 2 l) by (clear Hm; induction l; cbn; lia).
  intros [= <-]. split; [lia|]. intros Hx%Hm. lia.
Qed.

Definition demo_connect (k : nat) (a : addr) : option Z := if bool_decide (a = str "b") && bool_decide (2 <= k)%nat then None else Some 111.

Definition demo_sockets : Sockets.
Proof.
  refine {| getaddrinfo := fun _ _ _ => inr [str "a"; str "b"]; gai_strerror := fun _ => []; net_strerror := fun _ => [];
    socket := demo_socket; socket_law := demo_socket_law; connect := demo_connect; bind := fun _ => None; setsockopt := fun _ => None;
    listen := fun _ _ => None; accept := fun k l => demo_socket k [] l; accept_law := fun k l => demo_socket_law k [] l; getenv := fun _ => None |}.
  intros k h v l [= <-]. done.
Defined.

Lemma connect_retry_outcome_witness : exists e,
  @Tcp_connect_retry demo_sockets 3 (Some (str "h")) (Some (str "80")) 5 (mk_net [0; 1; 2] 0 0 0)
  = Some (Value 3, mk_net [3; 0; 1; 2] 2 e 2).
Proof.
  destruct (@connect_retry_outcome demo_sockets (Some (str "h")) (Some (str "80")) 5 (mk_net [0; 1; 2] 0 0 0)) as (H1 & _).
  apply (H1 2%nat 3%nat); [|lia|lia]. intros [|[|i]] Hi; [eexists; split; reflexivity..|lia].
Defined.
