(* ===== verification/Timer.v ===== *)
(** * Times and amounts

    src/src/common/timer.hh: class [timer], microseconds in an [int64_t], and
    [format_timediff]; of src/src/common/utils.cc and utils.hh:
    [Timestamp::get], [fmt_bytes], [fmt_kbytes_s] and the count of
    [accounting_allocator].

    Signed overflow and a division by zero are undefined ([None]).  A [double]
    is a binary64 number of the Standard Library's [SpecFloat]; a stream with
    precision 2 writes its exact value rounded half to even. *)
From Stdlib Require Import SpecFloat.
From S2P Require Import Prelude Iostream.

(** ** Machine integers *)
Definition INT64_MAX : Z := 9223372036854775807.
Definition INT64_MIN : Z := -9223372036854775808.

Definition int64_ok (x : Z) : Prop := INT64_MIN <= x <= INT64_MAX.

Definition cint64 (x : Z) : option Z := if (INT64_MIN <=? x) && (x <=? INT64_MAX) then Some x else None.
Definition uint32 (x : Z) : Z := x mod 2 ^ 32.

(** ** class timer *)
Record timer := mk_timer { m_time : Z }.
Record timeval := mk_timeval { tv_sec : Z; tv_usec : Z }.

Definition timer_new : timer := mk_timer 0.

(** [(int64_t)(uint32_t)tv.tv_sec * 1000000 + (int64_t)(uint32_t)tv.tv_usec % 1000000] *)
Definition timer_of (tv : timeval) : timer :=
  mk_timer (uint32 (tv_sec tv) * 1000000 + Z.rem (uint32 (tv_usec tv)) 1000000).

(** [seconds()] is an [int32_t]. *)
Definition seconds (t : timer) : Z := cast_int (Z.quot (m_time t) 1000000).
Definition usec (t : timer) : Z := m_time t.
Definition round_seconds (t : timer) : timer := mk_timer (Z.quot (m_time t) 1000000 * 1000000).
Definition tval (t : timer) : timeval := mk_timeval (Z.quot (m_time t) 1000000) (Z.rem (m_time t) 1000000).

(** The arguments are [uint32_t]. *)
Definition from_seconds (seconds : Z) : timer := mk_timer (seconds * 1000000).
Definition from_milliseconds (seconds : Z) : timer := mk_timer (seconds * 1000).
Definition timer_max : timer := mk_timer INT64_MAX.

(** The time of day, which the system gives. *)
Definition current (gettimeofday : timeval) : timer := timer_of gettimeofday.

Definition timer_lt (t u : timer) : bool := m_time t <? m_time u.
Definition timer_le (t u : timer) : bool := m_time t <=? m_time u.
Definition timer_eq (t u : timer) : bool := m_time t =? m_time u.

Definition timer_sub (t u : timer) : option timer := mk_timer <$> cint64 (m_time t - m_time u).
Definition timer_add (t u : timer) : option timer := mk_timer <$> cint64 (m_time t + m_time u).
Definition timer_mul (t : timer) (n : Z) : option timer := mk_timer <$> cint64 (m_time t * n).
Definition timer_div (t : timer) (n : Z) : option timer :=
  if n =? 0 then None else mk_timer <$> cint64 (Z.quot (m_time t) n).

Definition format_timediff (t : timer) : list Z :=
  if seconds t <=? 10 then put_int (seconds t) ++ str " s " ++ put_int (usec t) ++ str " us"
  else if seconds t <? 60 then put_int (seconds t) ++ str " s"
  else
    let min := Z.rem (Z.quot (seconds t) 60) 60 in
    let hour := Z.quot (seconds t) 3600 in
    put_int hour ++ str " h " ++ put_int min ++ str " m".

(** [Timestamp::get] from the broken-down local time. *)
Definition Timestamp_get (tm_hour tm_min tm_sec : Z) : list Z :=
  put_int tm_hour ++ str ":" ++ put_int tm_min ++ str ":" ++ put_int tm_sec.

(** ** Amounts *)
Definition double : Type := spec_float.
Definition of_int (n : Z) : double := binary_normalize 53 1024 n 0 false.
Definition ddiv (x y : double) : double := SFdiv 53 1024 x y.
Definition dgt (x y : double) : bool := SFltb y x.

(** [n / d] rounded to an integer, a tie to the even one. *)
Definition round_even (n d : Z) : Z :=
  let q := n / d in
  match 2 * (n mod d) ?= d with
  | Lt => q
  | Gt => q + 1
  | Eq => if Z.even q then q else q + 1
  end.

(** Two digits after the point. *)
Definition put_fixed2 (x : double) : list Z :=
  let sign (s : bool) := if s then str "-" else [] in
  let digits h := put_int (h / 100) ++ str "." ++ put_int (h mod 100 / 10) ++ put_int (h mod 10) in
  match x with
  | S754_zero s => sign s ++ digits 0
  | S754_infinity s => sign s ++ str "inf"
  | S754_nan => str "nan"
  | S754_finite s m e => sign s ++ digits (round_even (100 * Zpos m * 2 ^ Z.max e 0) (2 ^ Z.max (- e) 0))
  end.

(** [while (res > 1000 && suf_i <= last) { res /= 1000; ++suf_i; }] *)
Fixpoint scale (fuel : nat) (last suf_i : Z) (res : double) : option (Z * double) :=
  match fuel with
  | O => None
  | S fuel => if dgt res (of_int 1000) && (suf_i <=? last) then scale fuel last (suf_i + 1) (ddiv res (of_int 1000)) else Some (suf_i, res)
  end.

Definition format_scaled (last : Z) (SUFFIXES : list (list Z)) (x : double) : option (list Z) :=
  '(suf_i, res) ← scale (S (S (Z.to_nat last))) last 0 x;
  if suf_i <=? last + 1 then suf ← znth SUFFIXES suf_i; Some (put_fixed2 res ++ str " " ++ suf) else None.

Definition fmt_bytes (bytes : Z) : option (list Z) :=
  format_scaled 4 [str "iB"; str "KiB"; str "MiB"; str "GiB"; str "TiB"; str "PiB"] (of_int bytes).

Definition fmt_kbytes_s (kBs : double) : option (list Z) :=
  format_scaled 3 [str "KB/s"; str "MB/s"; str "GB/s"; str "TB/s"; str "PB/s"] kBs.

(** ** accounting_allocator

    [allocated] is a [size_t]; [size] is [sizeof(T)].  [operator new] is asked for
    the product in [size_t]. *)
Definition SIZE_MAX : Z := 2 ^ 64 - 1.

Definition alloc_max_size (size : Z) : Z := SIZE_MAX / size.
Definition allocate (size num allocated : Z) : Z * Z :=
  let bytes := num * size mod 2 ^ 64 in (bytes, (allocated + bytes) mod 2 ^ 64).
Definition deallocate (size num allocated : Z) : Z := (allocated - num * size mod 2 ^ 64) mod 2 ^ 64.

(** Within [max_size] the octets asked for are those of the elements, and giving
    them back restores the count. *)
Lemma allocate_deallocate size num allocated : 0 < size -> 0 <= num <= alloc_max_size size -> 0 <= allocated < 2 ^ 64 ->
  (allocate size num allocated).1 = num * size
  /\ deallocate size num (allocate size num allocated).2 = allocated.
Proof.
  intros Hs Hn Ha. unfold alloc_max_size, SIZE_MAX in Hn. assert (0 <= num * size < 2 ^ 64).
  { pose proof (Z.mul_div_le (2 ^ 64 - 1) size Hs). nia. }
  cbn [allocate fst snd]. unfold deallocate. split; [by apply Z.mod_small|]. rewrite !(Z.mod_small (num * size)) by done.
  rewrite Zminus_mod_idemp_l. replace (allocated + num * size - num * size) with allocated by lia. by apply Z.mod_small.
Qed.

(** ** The loop ends, and within the suffixes *)
Lemma scale_total last : 0 <= last -> forall fuel i x, 0 <= i <= last + 1 -> last + 1 - i < Z.of_nat fuel ->
  exists j y, scale fuel last i x = Some (j, y) /\ i <= j <= last + 1.
Proof.
  intros Hl. induction fuel as [|fuel IH]; intros i x Hi Hf; [lia|]. cbn [scale].
  destruct (dgt x (of_int 1000)); [|by exists i, x; split; [|lia]]. cbn [andb].
  zcase (i <=? last); [|by exists i, x; split; [|lia]].
  destruct (IH (i + 1) (ddiv x (of_int 1000))) as (j & y & -> & Hj); [lia..|]. exists j, y. split; [done|lia].
Qed.

Lemma format_scaled_total last sufs x : 0 <= last -> zlen sufs = last + 2 -> exists t, format_scaled last sufs x = Some t.
Proof.
  intros Hl Hs. unfold format_scaled. destruct (scale_total last Hl (S (S (Z.to_nat last))) 0 x) as (j & y & -> & Hj); [lia..|].
  cbn [mbind option_bind]. rewrite (proj2 (Z.leb_le _ _)) by lia. destruct (znth_is_Some sufs j) as [s ->]; [lia|]. by eexists.
Qed.

Lemma fmt_bytes_total n : exists t, fmt_bytes n = Some t.
Proof. by apply format_scaled_total. Qed.

Lemma fmt_kbytes_s_total x : exists t, fmt_kbytes_s x = Some t.
Proof. by apply format_scaled_total. Qed.

(** The steps are thousands, the names those of the binary units. *)
Example fmt_bytes_1024 : fmt_bytes 1024 = Some (str "1.02 KiB").
Proof. vm_compute. reflexivity. Qed.

Example fmt_bytes_max : fmt_bytes (2 ^ 64 - 1) = Some (str "18446.74 PiB").
Proof. vm_compute. reflexivity. Qed.

(** ** A time and back *)
Lemma timer_of_range tv : 0 <= m_time (timer_of tv) < 2 ^ 32 * 1000000.
Proof.
  cbn. unfold uint32. pose proof (Z.mod_pos_bound (tv_sec tv) (2 ^ 32) ltac:(lia)).
  pose proof (Z.mod_pos_bound (tv_usec tv) (2 ^ 32) ltac:(lia)).
  pose proof (Z.rem_bound_pos (tv_usec tv mod 2 ^ 32) 1000000 ltac:(lia) ltac:(lia)). lia.
Qed.

(** C31: A [timer] survives the conversion to [timeval] and back exactly when it
    is not negative and less than 2^32 seconds; the conversion never overflows,
    and for such times the difference of two timers is defined and recovers
    the elapsed time, while [seconds] is their number of seconds only below
    2^31. *)
Theorem timer_roundtrip t :
  (timer_of (tval t) = t <-> 0 <= m_time t < 2 ^ 32 * 1000000)
  /\ (forall u, 0 <= m_time t < 2 ^ 32 * 1000000 -> 0 <= m_time u < 2 ^ 32 * 1000000 ->
        exists d, timer_sub u t = Some d /\ timer_add t d = Some u)
  /\ (0 <= m_time t < 2 ^ 32 * 1000000 -> (seconds t = m_time t / 1000000 <-> m_time t < 2 ^ 31 * 1000000)).
Proof.
  destruct t as [t]. cbn [m_time]. split_and!.
  - split; [intros E; pose proof (timer_of_range (tval (mk_timer t))) as H; by rewrite E in H|]. intros Ht. unfold timer_of, tval, uint32. cbn [m_time tv_sec tv_usec]. f_equal.
    rewrite (Z.quot_div_nonneg t), (Z.rem_mod_nonneg t) by lia. pose proof (Z.mod_pos_bound t 1000000 ltac:(lia)).
    rewrite (Z.mod_small (t / 1000000)), (Z.mod_small (t mod 1000000)), Z.rem_small by (try split; try apply Z.div_pos; try apply Z.div_lt_upper_bound; lia).
    pose proof (Z.div_mod t 1000000). lia.
  - intros [u] Ht Hu. cbn [m_time] in *. exists (mk_timer (u - t)). unfold timer_sub, timer_add, cint64, INT64_MAX, INT64_MIN. cbn [m_time].
    rewrite !(proj2 (Z.leb_le _ _)) by lia. cbn. split; [done|]. by replace (t + (u - t)) with u by lia.
  - intros Ht. unfold seconds. cbn [m_time]. rewrite Z.quot_div_nonneg by lia.
    pose proof (Z.div_pos t 1000000 ltac:(lia) ltac:(lia)). pose proof (Z.div_mod t 1000000 ltac:(lia)).
    pose proof (Z.mod_pos_bound t 1000000 ltac:(lia)). split.
    + intros E. assert (t / 1000000 <= INT_MAX); [|unfold INT_MAX in *; lia].
      rewrite <- E. unfold cast_int, INT_MIN, INT_MAX. pose proof (Z.mod_pos_bound (t / 1000000 - -2147483648) (2 ^ 32) ltac:(lia)). lia.
    + intros Hlt. apply cast_int_in. unfold INT_MIN, INT_MAX. lia.
Qed.

(** The part of [format_timediff] after the seconds is the whole time again. *)
Example timediff_repeats : format_timediff (mk_timer 2500000) = str "2 s 2500000 us".
Proof. vm_compute. reflexivity. Qed.

Lemma timer_roundtrip_witness : timer_of (tval (mk_timer 1234567)) = mk_timer 1234567.
Proof. apply (proj2 (proj1 (timer_roundtrip (mk_timer 1234567)))). cbn. lia. Defined.
