(* ===== verification/EventLoop.v ===== *)
(** * The event loop of the crawler

    src/src/crawler/crawler.cc: the callbacks that libevent and libcurl run
    (sockets of transfers, the two timers, finished transfers, connections of
    clients, the console, SIGINT), and [main].

    libcurl reports which sockets it wants watched, how many transfers run and
    which have finished; libevent keeps events.  Their answers are arguments.
    A pointer to a [SockInfo] is a number; access to an object that was
    deleted is undefined.  What is printed and logged is left out, and so are
    rates of transfer. *)

From stdpp Require Import gmap.
From S2P Require Import Prelude Regex Utils Path Url UrlWf Robots Classifier Doc Crawler CrawlerInput CrawlerInv CrawlerClaims BigHash Net Timer.

Open Scope run_scope.

(** ** SIGINT *)
Record signals := mk_signals { quit_program : bool; sigint_cnt : Z }.

Definition sigint_handler (s : signals) : run_ signals :=
  if sigint_cnt s + 1 >? 3 then Some (Exit 1) else ret (mk_signals true (sigint_cnt s + 1)).

(** ** Sockets of transfers *)
Definition CURL_POLL_IN : Z := 1.
Definition CURL_POLL_OUT : Z := 2.
Definition CURL_POLL_REMOVE : Z := 4.
Definition EV_READ : Z := 2.
Definition EV_WRITE : Z := 4.
Definition EV_PERSIST : Z := 16.

Record SockInfo := mk_SockInfo { sockfd : Z; easy : Z; action : Z; evset : bool }.

Definition SockInfo_new : SockInfo := mk_SockInfo 0 0 0 false.

(** The objects, the pointer that libcurl keeps for a socket
    ([curl_multi_assign]), and the event of each object: its descriptor and kind. *)
Record polls := mk_polls { heap : gmap nat SockInfo; assigned : gmap Z nat; events : gmap nat (Z * Z); fresh : nat }.

Definition event_kind (action : Z) : Z :=
  Z.lor (Z.lor (if Z.land action CURL_POLL_IN =? 0 then 0 else EV_READ)
               (if Z.land action CURL_POLL_OUT =? 0 then 0 else EV_WRITE)) EV_PERSIST.

(** [event_set] makes an event anew; on an event that is still added it corrupts
    the state of libevent, which is undefined. *)
Definition event_set (p : nat) (ev : gmap nat (Z * Z)) : option (gmap nat (Z * Z)) :=
  if bool_decide (is_Some (ev !! p)) then None else Some ev.

Definition setsock (p : nat) (s e act : Z) (st : polls) : option polls :=
  i ← heap st !! p;
  let ev := if evset i then delete p (events st) else events st in
  ev ← event_set p ev;
  Some (mk_polls (<[p := mk_SockInfo s e act true]> (heap st)) (assigned st) (<[p := (s, event_kind act)]> ev) (fresh st)).

Definition addsock (s e act : Z) (st : polls) : option polls :=
  let p := fresh st in
  st ← setsock p s e act (mk_polls (<[p := SockInfo_new]> (heap st)) (assigned st) (events st) (S p));
  Some (mk_polls (heap st) (<[s := p]> (assigned st)) (events st) (fresh st)).

Definition remsock (sockp : option nat) (st : polls) : option polls :=
  match sockp with
  | None => Some st
  | Some p =>
      i ← heap st !! p;
      Some (mk_polls (delete p (heap st)) (assigned st) (if evset i then delete p (events st) else events st) (fresh st))
  end.

Definition sock_cb (e s what : Z) (sockp : option nat) (st : polls) : option polls :=
  if what =? CURL_POLL_REMOVE then remsock sockp st
  else match sockp with
       | None => addsock s e what st
       | Some p => setsock p s e what st
       end.

(** ** Timers *)

(** [multi_timer_cb]: the timer set for libcurl. *)
Definition multi_timer_cb (timeout_ms : Z) : timeval :=
  mk_timeval (Z.quot timeout_ms 1000) (Z.rem timeout_ms 1000 * 1000).

Definition SCHEDULER_MS : Z := 5000.

(** ** Finished transfers *)

(** A message of [curl_multi_info_read]: a transfer that is done, by its
    handle, or another one. *)
Inductive message := Msg_done (i : nat) (r : report) | Msg_other.

(** The inner loop: the first message about a transfer that is done. *)
Fixpoint info_read (msgs : list message) : option (nat * report) * list message :=
  match msgs with
  | [] => (None, [])
  | Msg_done i r :: msgs => (Some (i, r), msgs)
  | Msg_other :: msgs => info_read msgs
  end.

Definition CURLM_CALL_MULTI_PERFORM : Z := -1.

(** What a call of [curl_multi_socket_action] brings: its code, the number of
    running transfers, data for handles and messages. *)
Inductive data := Header (i : nat) (buff : list Z) | Content (i : nat) (buff : list Z).

Record activity := mk_activity { a_code : Z; a_running : Z; a_data : list data; a_msgs : list message }.

Section Loop.
Context {BR : BoostRegex} {MG : Mongo} {PQ : PriorityQueue} {HI : HostIndex} (NDEBUG : bool) (max_size : Z).
Context (C : content_types) (ct_value : content_type_t C -> Z) (UNSET EMPTY_ : Z) (ctype0 : content_type_t C).
Context (setopt_ok : transfer -> bool) (add_handle : transfer -> Z).

Local Abbreviation done := (done NDEBUG max_size C ct_value UNSET EMPTY_ ctype0 setopt_ok add_handle).
Local Abbreviation reschedule_all := (reschedule_all NDEBUG max_size UNSET setopt_ok add_handle).

(** [multi] is the queue of messages of libcurl; the timers hold their time. *)
Record loop := mk_loop {
  info : GlobalInfo; multi : list message; prev_running : Z; still_running : Z;
  timer_event : option timeval; scheduler_event : option timeval; interactive_event : bool;
  interactive_buff : list Z; sigs : signals; broken : bool
}.

Definition set_info v l := mk_loop v (multi l) (prev_running l) (still_running l) (timer_event l) (scheduler_event l) (interactive_event l) (interactive_buff l) (sigs l) (broken l).
Definition set_multi v l := mk_loop (info l) v (prev_running l) (still_running l) (timer_event l) (scheduler_event l) (interactive_event l) (interactive_buff l) (sigs l) (broken l).
Definition set_prev v l := mk_loop (info l) (multi l) v (still_running l) (timer_event l) (scheduler_event l) (interactive_event l) (interactive_buff l) (sigs l) (broken l).
Definition set_still v l := mk_loop (info l) (multi l) (prev_running l) v (timer_event l) (scheduler_event l) (interactive_event l) (interactive_buff l) (sigs l) (broken l).
Definition set_timer v l := mk_loop (info l) (multi l) (prev_running l) (still_running l) v (scheduler_event l) (interactive_event l) (interactive_buff l) (sigs l) (broken l).
Definition set_scheduler v l := mk_loop (info l) (multi l) (prev_running l) (still_running l) (timer_event l) v (interactive_event l) (interactive_buff l) (sigs l) (broken l).
Definition set_console v b l := mk_loop (info l) (multi l) (prev_running l) (still_running l) (timer_event l) (scheduler_event l) v b (sigs l) (broken l).
Definition set_sigs v l := mk_loop (info l) (multi l) (prev_running l) (still_running l) (timer_event l) (scheduler_event l) (interactive_event l) (interactive_buff l) v (broken l).
Definition set_broken v l := mk_loop (info l) (multi l) (prev_running l) (still_running l) (timer_event l) (scheduler_event l) (interactive_event l) (interactive_buff l) (sigs l) v.

(** The loop over the messages; [curl_multi_remove_handle] takes the handle out
    of libcurl. *)
Fixpoint run_messages (fuel : nat) (msgs : list message) (g : GlobalInfo) : run_ (list message * GlobalInfo) :=
  match fuel with
  | O => None
  | S fuel =>
      match info_read msgs with
      | (None, msgs) => ret (msgs, g)
      | (Some (i, r), msgs) => g <- done i r g ;; run_messages fuel msgs g
      end
  end.

Definition check_run_count (l : loop) : run_ loop :=
  l <- (if prev_running l >? still_running l then
          mg <- run_messages (S (length (multi l))) (multi l) (info l) ;;
          ret (set_info (snd mg) (set_multi (fst mg) l))
        else ret l) ;;
  ret (set_prev (still_running l) l).

Definition deliver (d : data) (g : GlobalInfo) : run_ GlobalInfo :=
  match (match d with Header i b => header_write_cb i b g | Content i b => content_write_cb i b g end) with
  | Some (_, g) => ret g
  | None => None
  end.

Fixpoint deliver_all (ds : list data) (g : GlobalInfo) : run_ GlobalInfo :=
  match ds with
  | [] => ret g
  | d :: ds => g <- deliver d g ;; deliver_all ds g
  end.

(** [do { rc = curl_multi_socket_action(...); } while (rc == CURLM_CALL_MULTI_PERFORM);]
    [None] when libcurl's answers end with such a code. *)
Fixpoint socket_action (acts : list activity) (l : loop) : run_ (Z * loop) :=
  match acts with
  | [] => None
  | a :: acts =>
      g <- deliver_all (a_data a) (info l) ;;
      let l := set_info g (set_still (a_running a) (set_multi (multi l ++ a_msgs a) l)) in
      if a_code a =? CURLM_CALL_MULTI_PERFORM then socket_action acts l else ret (a_code a, l)
  end.

Definition timer_cb (acts : list activity) (l : loop) : run_ loop :=
  rl <- socket_action acts (set_timer None l) ;;
  _ <- mcode_or_die (fst rl) ;;
  check_run_count (snd rl).

Definition multi_cb (acts : list activity) (l : loop) : run_ loop :=
  rl <- socket_action acts l ;;
  _ <- mcode_or_die (fst rl) ;;
  let l := snd rl in
  check_run_count (if still_running l <=? 0 then set_timer None l else l).

Definition scheduler_cb (l : loop) : run_ loop :=
  g <- reschedule_all (info l) ;;
  let l := set_info g (set_scheduler None l) in
  let l := if quit_program (sigs l) then set_broken true l else l in
  ret (set_scheduler (Some (mk_timeval (SCHEDULER_MS / 1000) (SCHEDULER_MS mod 1000 * 1000))) l).

(** ** The console *)
Definition run_command (c : command) (l : loop) : run_ loop :=
  match c with
  | Cmd_quit => ret (set_sigs (mk_signals true (sigint_cnt (sigs l))) l)
  | Cmd_reschedule => g <- reschedule_all (info l) ;; ret (set_info g l)
  | _ => ret l
  end.

Fixpoint run_commands (cs : list command) (l : loop) : run_ loop :=
  match cs with
  | [] => ret l
  | c :: cs => l <- run_command c l ;; run_commands cs l
  end.

(** What [read] gives: octets, none at the end of the input, or an error. *)
Definition on_read_interactive_cb (r : option (list Z)) (l : loop) : run_ loop :=
  match r with
  | None => ret (set_console false (interactive_buff l) l)
  | Some b =>
      let '(cmds, rest) := interactive_process (bool_decide (b = [])) (interactive_buff l ++ b) in
      run_commands cmds (set_console (interactive_event l) rest l)
  end.

(** The state that [GlobalInfo::GlobalInfo] leaves. *)
Definition loop_new (parallel : nat) (c : db) (ua : list Z) : loop :=
  mk_loop (GlobalInfo_new parallel c ua) [] 0 0 None
    (Some (mk_timeval (SCHEDULER_MS / 1000) (SCHEDULER_MS mod 1000 * 1000))) true [] (mk_signals false 0) false.
End Loop.

(** ** Clients *)
Definition FD_SETSIZE : Z := 1024.

(** The connections by their descriptor, the descriptors with a read event, and
    the open sockets. *)
Record server := mk_server { connections : gmap Z Connection; readers : gset Z; sockets : net }.

Section Server.
Context {BR : BoostRegex} {PQ : PriorityQueue} {HI : HostIndex} {SO : Sockets} (NDEBUG : bool) (max_size : Z).

(** [close]: 0, or -1 when the descriptor is not open. *)
Definition close_fd (fd : Z) (n : net) : Z * net :=
  if bool_decide (fd ∈ socks n) then (0, set_socks (filter (fun x => x <> fd) (socks n)) n) else (-1, set_errno 9 n).

(** [~Connection]: the event is removed and the socket closed. *)
Definition Connection_delete (m_fd : Z) (s : server) : run_ server :=
  let rd := readers s ∖ {[m_fd]} in
  if m_fd >? 0 then
    let '(r, n) := close_fd m_fd (sockets s) in
    if r <? 0 then Some (Exn (runtime_error (str "close error: " ++ net_strerror (errno n) ++ [10])))
    else ret (mk_server (connections s) rd n)
  else ret (mk_server (connections s) rd (sockets s)).

(** [connections.erase(key)] *)
Definition erase_connection (fd : Z) (s : server) : run_ server :=
  match connections s !! fd with
  | None => ret s
  | Some _ =>
      s' <- Connection_delete fd s ;;
      ret (mk_server (delete fd (connections s')) (readers s') (sockets s'))
  end.

(** [Connection::accept]: the descriptor and whether the connection is kept;
    [salen] is the length of the address. *)
Definition Connection_accept (fuel : nat) (listen_addrlen salen : Z) (s : server) : run_ (Z * bool * server) :=
  match Accept fuel (sockets s) with
  | None => None
  | Some (Throw e, _) => Some (Exn e)
  | Some (Value fd, n) =>
      let s := mk_server (connections s) (readers s) n in
      if salen >? listen_addrlen then
        Some (Exn (runtime_error (str "accept_cb: accept sockaddr len truncated error: " ++ net_strerror (errno n) ++ [10])))
      else if fd <? 0 then
        if NDEBUG || (errno n =? EAGAIN) then ret (fd, false, s) else None
      else if fd >? FD_SETSIZE then ret (fd, false, mk_server (connections s) (readers s) (snd (close_fd fd n)))
      else ret (fd, true, mk_server (connections s) (readers s ∪ {[fd]}) n)
  end.

Definition accept_cb (fuel : nat) (listen_addrlen salen : Z) (s : server) : run_ server :=
  r <- Connection_accept fuel listen_addrlen salen s ;;
  let '(fd, kept, s) := r in
  if kept : bool then
    s <- erase_connection fd s ;;
    if NDEBUG || bool_decide (connections s !! fd = None) then
      ret (mk_server (<[fd := default Connection_new (connections s !! fd)]> (connections s)) (readers s) (sockets s))
    else None
  else Connection_delete fd s.

(** [connection_read_cb] on a descriptor: octets, none at the end, or an error. *)
Definition client_read_cb (fd : Z) (r : option (list Z)) (c : Url_classifier) (s : server) : run_ (Url_classifier * server) :=
  match connections s !! fd, r with
  | None, _ => None
  | Some _, None =>
      Some (Exn (runtime_error (str "connection_read_cb: read error error: " ++ net_strerror (errno (sockets s)) ++ [10])))
  | Some k, Some b =>
      kc <- lift (connection_read_cb NDEBUG max_size b k c) ;;
      let s := mk_server (<[fd := fst kc]> (connections s)) (readers s) (sockets s) in
      if bool_decide (b = []) then s <- erase_connection fd s ;; ret (snd kc, s) else ret (snd kc, s)
  end.
End Server.

(** ** main *)
Definition PARALLEL_DEFAULT : Z := 20.

Section Main.
Context {MG : Mongo} {PQ : PriorityQueue} {HI : HostIndex} {SO : Sockets}.

(** The number of handles and the port, from the environment. *)
Definition main_config : option (outcome (Z * list Z)) :=
  let parallel := match getenv (str "MYCELIUM_CRAWLER_PARALLEL") with
                  | Some v => cast_int <$> atol (c_string v)
                  | None => Some PARALLEL_DEFAULT
                  end in
  match parallel with
  | None => None
  | Some parallel =>
      if parallel <=? 0 then Some (Throw (runtime_error (str "MYCELIUM_CRAWLER_PARALLEL can't be negative or 0")))
      else Some (Value (parallel, default (str "1024") (getenv (str "CRAWLER_PORT"))))
  end.

(** [main] up to [event_dispatch]: the loop and the listening socket with the
    length of its address. *)
Definition main (c : db) (n : net) : option (outcome (loop * Z * Z * net)) :=
  match main_config with
  | None => None
  | Some (Throw e) => Some (Throw e)
  | Some (Value (parallel, port)) =>
      match Tcp_listen None (Some port) n with
      | None => None
      | Some (Throw e, _) => Some (Throw e)
      | Some (Value (fd, len), n) =>
          Some (Value (loop_new (Z.to_nat parallel) c (str "mycelium web crawler - https://github.com/larroy/mycelium"), fd, len, n))
      end
  end.
End Main.

(** * Statements about the event loop

    The events of libevent follow the wishes of libcurl; the callbacks are runs
    of the steps of the crawler; the table of client connections. *)
(** ** Sockets of transfers *)

(** A call of [sock_cb] by libcurl: handle, socket and wish.  libcurl passes the
    pointer that was assigned to the socket, and forgets it when the
    socket is removed. *)
Definition curl_poll (c : Z * Z * Z) (st : polls) : option polls :=
  let '(e, s, what) := c in
  st ← sock_cb e s what (assigned st !! s) st;
  Some (if what =? CURL_POLL_REMOVE then mk_polls (heap st) (delete s (assigned st)) (events st) (fresh st) else st).

Fixpoint curl_polls (cs : list (Z * Z * Z)) (st : polls) : option polls :=
  match cs with [] => Some st | c :: cs => st ← curl_poll c st; curl_polls cs st end.

(** What libcurl last asked for, for each socket. *)
Definition wish (m : gmap Z Z) (c : Z * Z * Z) : gmap Z Z :=
  let '(_, s, what) := c in if what =? CURL_POLL_REMOVE then delete s m else <[s := what]> m.

Definition no_polls : polls := mk_polls ∅ ∅ ∅ 0.

(** The objects and events are those of the wishes. *)
Record follows (st : polls) (m : gmap Z Z) : Prop := {
  f_assigned : forall s a, m !! s = Some a -> exists p e, assigned st !! s = Some p
    /\ heap st !! p = Some (mk_SockInfo s e a true) /\ events st !! p = Some (s, event_kind a);
  f_wished : forall s p, assigned st !! s = Some p -> is_Some (m !! s);
  f_owned : forall p i, heap st !! p = Some i -> assigned st !! sockfd i = Some p;
  f_events : forall p, is_Some (events st !! p) -> is_Some (heap st !! p);
  f_fresh : forall p, is_Some (heap st !! p) -> (p < fresh st)%nat
}.

Lemma follows_nothing : follows no_polls ∅.
Proof.
  split; cbn; intros *; rewrite ?lookup_empty; try done; by intros [? ?].
Qed.

(** Two sockets have different objects. *)
Lemma follows_inj st m s s' p : follows st m -> assigned st !! s = Some p -> assigned st !! s' = Some p -> s = s'.
Proof.
  intros F H1 H2. destruct (f_wished _ _ F _ _ H1) as [a Ha], (f_wished _ _ F _ _ H2) as [a' Ha'].
  destruct (f_assigned _ _ F _ _ Ha) as (q & e & Hq & Hh & _), (f_assigned _ _ F _ _ Ha') as (q' & e' & Hq' & Hh' & _). congruence.
Qed.

Lemma event_set_free p ev : ev !! p = None -> event_set p ev = Some ev.
Proof. intros H. unfold event_set. by rewrite H, bool_decide_eq_false_2 by (by intros [? ?]). Qed.

(** The kind of an event, in numbers: bit 0 of a wish asks for reading, bit 1
    for writing. *)
Lemma event_kind_bits a : event_kind a = 16 + (if Z.testbit a 0 then 2 else 0) + (if Z.testbit a 1 then 4 else 0).
Proof.
  assert (H : forall n, 0 <= n -> (Z.land a (2 ^ n) =? 0) = negb (Z.testbit a n)).
  { intros n Hn. replace (Z.land a (2 ^ n)) with (if Z.testbit a n then 2 ^ n else 0).
    - destruct (Z.testbit a n); [apply Z.eqb_neq; lia|done].
    - apply Z.bits_inj'. intros k Hk. rewrite Z.land_spec, Z.pow2_bits_eqb by done.
      destruct (Z.eqb_spec n k) as [<-|Hne].
      + destruct (Z.testbit a n); [by rewrite Z.pow2_bits_true|by rewrite Z.bits_0].
      + rewrite andb_false_r. destruct (Z.testbit a n); [by rewrite Z.pow2_bits_false|by rewrite Z.bits_0]. }
  pose proof (H 0 ltac:(lia)) as H0. pose proof (H 1 ltac:(lia)) as H1. change (2 ^ 0) with 1 in H0.
  change (2 ^ 1) with 2 in H1. unfold event_kind, CURL_POLL_IN, CURL_POLL_OUT. rewrite H0, H1.
  by destruct (Z.testbit a 0), (Z.testbit a 1).
Qed.

Lemma follows_remove st m e0 s : follows st m -> exists st',
  curl_poll (e0, s, CURL_POLL_REMOVE) st = Some st' /\ follows st' (delete s m).
Proof.
  intros F. unfold curl_poll, sock_cb. cbn. destruct (assigned st !! s) as [p|] eqn:Ea; cbn.
  - destruct (f_wished _ _ F _ _ Ea) as [a Hm]. destruct (f_assigned _ _ F _ _ Hm) as (q & e & Hq & Hh & He).
    assert (q = p) as -> by congruence. rewrite Hh. cbn. eexists. split; [done|]. split; cbn.
    + intros s' a' [Hne Hs']%lookup_delete_Some. destruct (f_assigned _ _ F _ _ Hs') as (p' & e' & H1 & H2 & H3).
      assert (p' <> p) by (intros ->; apply Hne; by eapply follows_inj). exists p', e'. by rewrite !lookup_delete_ne.
    + intros s' p' [Hne Hs']%lookup_delete_Some. rewrite lookup_delete_ne by done. by apply (f_wished _ _ F _ p').
    + intros p' i [Hne Hi]%lookup_delete_Some. pose proof (f_owned _ _ F _ _ Hi) as Ho. rewrite lookup_delete_ne; [done|].
      intros Hs. rewrite <- Hs, Ea in Ho. congruence.
    + intros p' [x [Hne Hx]%lookup_delete_Some]. rewrite lookup_delete_ne by done. by apply (f_events _ _ F).
    + intros p' [x [Hne Hx]%lookup_delete_Some]. by apply (f_fresh _ _ F).
  - eexists. split; [done|]. assert (m !! s = None) as Hm.
    { destruct (m !! s) as [a|] eqn:E; [|done]. destruct (f_assigned _ _ F _ _ E) as (p & e & H1 & _). congruence. }
    rewrite !delete_id by done. by destruct st.
Qed.

Lemma follows_set st m p e0 e s a act : follows st m -> assigned st !! s = Some p -> m !! s = Some a ->
  heap st !! p = Some (mk_SockInfo s e a true) -> exists st', setsock p s e0 act st = Some st' /\ follows st' (<[s := act]> m).
Proof.
  intros F Ha Hm Hh. unfold setsock. rewrite Hh. cbn. rewrite event_set_free by apply lookup_delete_eq. cbn.
  eexists. split; [done|]. split; cbn.
  - intros s' a' [[<- <-]|[Hne Hs']]%lookup_insert_Some; [exists p, e0; by rewrite !lookup_insert_eq|].
    destruct (f_assigned _ _ F _ _ Hs') as (p' & e' & H1 & H2 & H3). assert (p' <> p) by (intros ->; apply Hne; by eapply follows_inj).
    exists p', e'. by rewrite !lookup_insert_ne, lookup_delete_ne.
  - intros s' p' Hs'. destruct (decide (s' = s)) as [->|Hne]; [rewrite lookup_insert_eq; eauto|]. rewrite lookup_insert_ne by done.
    by apply (f_wished _ _ F _ p').
  - intros p' i [[<- <-]|[Hne Hi]]%lookup_insert_Some; [done|by apply (f_owned _ _ F)].
  - intros p' [x [[<- <-]|[Hne [_ Hx]%lookup_delete_Some]]%lookup_insert_Some]; [rewrite lookup_insert_eq; eauto|].
    rewrite lookup_insert_ne by done. by apply (f_events _ _ F).
  - intros p' [x [[<- <-]|[Hne Hx]]%lookup_insert_Some]; apply (f_fresh _ _ F); eauto.
Qed.

Lemma follows_add st m e0 s act : follows st m -> assigned st !! s = None -> m !! s = None ->
  exists st', addsock s e0 act st = Some st' /\ follows st' (<[s := act]> m).
Proof.
  intros F Ha Hm. assert (Hfr : heap st !! fresh st = None).
  { destruct (heap st !! fresh st) eqn:E; [|done]. pose proof (f_fresh _ _ F (fresh st) ltac:(eauto)). lia. }
  assert (Hev : events st !! fresh st = None).
  { destruct (events st !! fresh st) eqn:E; [|done]. destruct (f_events _ _ F (fresh st) ltac:(eauto)). congruence. }
  unfold addsock, setsock. cbn. rewrite lookup_insert_eq. cbn. rewrite event_set_free by done. cbn. eexists. split; [done|].
  split; cbn.
  - intros s' a' [[<- <-]|[Hne Hs']]%lookup_insert_Some; [exists (fresh st), e0; by rewrite !lookup_insert_eq|].
    destruct (f_assigned _ _ F _ _ Hs') as (p' & e' & H1 & H2 & H3). assert (p' <> fresh st) by congruence.
    exists p', e'. by rewrite !lookup_insert_ne.
  - intros s' p' [[<- <-]|[Hne Hs']]%lookup_insert_Some; [rewrite lookup_insert_eq; eauto|]. rewrite lookup_insert_ne by done.
    by apply (f_wished _ _ F _ p').
  - intros p' i [[<- <-]|[Hne [[? _]|[_ Hi]]%lookup_insert_Some]]%lookup_insert_Some; [by rewrite lookup_insert_eq|done|].
    pose proof (f_owned _ _ F _ _ Hi) as Ho. rewrite lookup_insert_ne by congruence. done.
  - intros p' [x [[<- <-]|[Hne Hx]]%lookup_insert_Some]; [rewrite lookup_insert_eq; eauto|].
    rewrite !lookup_insert_ne by done. by apply (f_events _ _ F).
  - intros p' [x [[<- _]|[Hne [[? _]|[_ Hx]]%lookup_insert_Some]]%lookup_insert_Some]; [lia|done|].
    pose proof (f_fresh _ _ F p' ltac:(eauto)). lia.
Qed.

Lemma curl_poll_follows st m c : follows st m -> exists st', curl_poll c st = Some st' /\ follows st' (wish m c).
Proof.
  intros F. destruct c as [[e s] what]. unfold wish. destruct (what =? CURL_POLL_REMOVE) eqn:Ew.
  { apply Z.eqb_eq in Ew as ->. by apply follows_remove. }
  unfold curl_poll, sock_cb. rewrite Ew. destruct (assigned st !! s) as [p|] eqn:Ea.
  - destruct (f_wished _ _ F _ _ Ea) as [a Hm]. destruct (f_assigned _ _ F _ _ Hm) as (q & e' & Hq & Hh & He).
    assert (q = p) as -> by congruence. destruct (follows_set st m p e e' s a what F Ea Hm Hh) as (st' & -> & F'). by exists st'.
  - assert (m !! s = None) as Hm.
    { destruct (m !! s) as [a|] eqn:E; [|done]. destruct (f_assigned _ _ F _ _ E) as (p & e' & H1 & _). congruence. }
    destruct (follows_add st m e s what F Ea Hm) as (st' & -> & F'). by exists st'.
Qed.

Lemma curl_polls_follow cs : forall st m, follows st m -> exists st', curl_polls cs st = Some st' /\ follows st' (foldl wish m cs).
Proof.
  induction cs as [|c cs IH]; intros st m F; cbn; [by exists st|]. destruct (curl_poll_follows st m c F) as (st1 & -> & F1). by apply IH.
Qed.

(** C20: Whatever sequence of wishes libcurl reports through [sock_cb], the
    callbacks never touch a [SockInfo] that was deleted and never set up an event
    that is still added; afterwards libevent watches exactly the sockets that
    libcurl has not removed, each persistently (16), for reading (2) if bit 0 of
    the wish reported last for it is set and for writing (4) if bit 1 is; and
    every [SockInfo] that exists belongs to one of those sockets, so none is
    leaked. *)
Theorem sockets_follow cs : exists st, curl_polls cs no_polls = Some st
  /\ (forall s k, (exists p, events st !! p = Some (s, k)) <-> exists a, foldl wish ∅ cs !! s = Some a
        /\ k = 16 + (if Z.testbit a 0 then 2 else 0) + (if Z.testbit a 1 then 4 else 0))
  /\ forall p i, heap st !! p = Some i -> is_Some (foldl wish ∅ cs !! sockfd i) /\ assigned st !! sockfd i = Some p.
Proof.
  destruct (curl_polls_follow cs no_polls ∅ follows_nothing) as (st & -> & F). exists st. split; [done|]. split.
  - intros s k. split.
    + intros [p Hp]. destruct (f_events _ _ F p ltac:(eauto)) as [i Hi]. pose proof (f_owned _ _ F _ _ Hi) as Ho.
      destruct (f_wished _ _ F _ _ Ho) as [a Ha]. destruct (f_assigned _ _ F _ _ Ha) as (q & e & Hq & Hh & He).
      assert (q = p) as -> by congruence. rewrite Hp in He. injection He as -> ->. exists a. split; [done|apply event_kind_bits].
    + intros (a & Ha & ->). destruct (f_assigned _ _ F _ _ Ha) as (p & e & _ & _ & He). exists p. by rewrite <-event_kind_bits.
  - intros p i Hi. pose proof (f_owned _ _ F _ _ Hi) as Ho. split; [by apply (f_wished _ _ F _ p)|done].
Qed.

(** libcurl asks with -1 for the timer to be deleted; it is set instead. *)
Example timer_not_deleted : multi_timer_cb (-1) = mk_timeval 0 (-1000).
Proof. reflexivity. Qed.

(** ** The callbacks are runs of the crawler *)
Section Sim.
Context {BR : BoostRegex} {MG : Mongo} {PQ : PriorityQueue} {HI : HostIndex} (NDEBUG : bool) (max_size : Z).
Context (C : content_types) (ct_value : content_type_t C -> Z) (UNSET EMPTY_ : Z) (ctype0 : content_type_t C).
Context (setopt_ok : transfer -> bool) (add_handle : transfer -> Z) (parallel : nat) (c0 : db) (ua : list Z).

Local Abbreviation reachable := (reachable NDEBUG max_size C ct_value UNSET EMPTY_ ctype0 setopt_ok add_handle parallel c0 ua).
Local Abbreviation cstep := (CrawlerClaims.step NDEBUG max_size C ct_value UNSET EMPTY_ ctype0 setopt_ok add_handle).
Local Abbreviation done := (done NDEBUG max_size C ct_value UNSET EMPTY_ ctype0 setopt_ok add_handle).
Local Abbreviation run_messages := (run_messages NDEBUG max_size C ct_value UNSET EMPTY_ ctype0 setopt_ok add_handle).
Local Abbreviation check_run_count := (check_run_count NDEBUG max_size C ct_value UNSET EMPTY_ ctype0 setopt_ok add_handle).
Local Abbreviation timer_cb := (timer_cb NDEBUG max_size C ct_value UNSET EMPTY_ ctype0 setopt_ok add_handle).
Local Abbreviation multi_cb := (multi_cb NDEBUG max_size C ct_value UNSET EMPTY_ ctype0 setopt_ok add_handle).
Local Abbreviation scheduler_cb := (scheduler_cb NDEBUG max_size UNSET setopt_ok add_handle).
Local Abbreviation on_read_interactive_cb := (on_read_interactive_cb NDEBUG max_size UNSET setopt_ok add_handle).

Definition busy (g : GlobalInfo) (i : nat) : Prop := exists h, m_easyHandles g !! i = Some h /\ h_state h <> IDLE.

(** The transfers that the messages report as done. *)
Definition told (msgs : list message) : list (nat * report) :=
  omap (fun m => match m with Msg_done i r => Some (i, r) | Msg_other => None end) msgs.

Definition finished (msgs : list message) : list nat := (told msgs).*1.

(** libcurl reports a transfer that is done once, and only a transfer that was
    started. *)
Definition reported (g : GlobalInfo) (msgs : list message) : Prop := NoDup (finished msgs) /\ Forall (busy g) (finished msgs).

Lemma info_read_spec msgs : match info_read msgs with
  | (None, rest) => rest = [] /\ told msgs = []
  | (Some (i, r), rest) => told msgs = (i, r) :: told rest /\ (length rest < length msgs)%nat
  end.
Proof.
  induction msgs as [|[i r|] msgs IH]; cbn [info_read length]; [done|by split; [|lia]|].
  change (told (Msg_other :: msgs)) with (told msgs). destruct (info_read msgs) as [[[i r]|] rest]; [|done].
  destruct IH as [-> ?]. split; [done|lia].
Qed.

Lemma busy_frame i j g g' : frame i g g' -> j <> i -> busy g j -> busy g' j.
Proof. intros F Hj (h & Hh & Hs). exists h. by rewrite (fr_handles _ _ _ F). Qed.

Lemma run_messages_reach fuel : forall msgs g rest g', (length msgs < fuel)%nat -> reachable g -> reported g msgs ->
  run_messages fuel msgs g = ret (rest, g') ->
  rest = [] /\ reachable g' /\ exists l, log g' = log g ++ l /\ ended l = told msgs.
Proof.
  induction fuel as [|fuel IH]; intros msgs g rest g' Hf Hr [Hn Hb] H; [lia|]. cbn [EventLoop.run_messages] in H.
  pose proof (info_read_spec msgs) as Hi. destruct (info_read msgs) as [[[i r]|] ms].
  - destruct Hi as [Ef Hl]. unfold finished in Hn, Hb. rewrite Ef in Hn, Hb. cbn in Hn, Hb.
    apply NoDup_cons in Hn as [Hni Hn]. apply Forall_cons in Hb as [(h & Hh & Hs) Hb].
    apply cbind_ret in H as (g1 & Hd & H). destruct (done_stepped NDEBUG max_size UNSET setopt_ok add_handle C ct_value EMPTY_ ctype0
      i r g g1 h (reachable_ok _ _ _ _ _ _ _ _ _ _ _ _ _ Hr) Hh Hs Hd) as [(F & _) (l1 & El1 & Hl1)].
    destruct (IH ms g1 rest g') as (-> & Hr' & l2 & El2 & Hl2); [lia| | |exact H|].
    + eapply reach_step; [exact Hr|]. by eapply step_done.
    + split; [done|]. apply Forall_forall. intros j Hj. rewrite Forall_forall in Hb.
      eapply busy_frame; [exact F| |by apply Hb]. by intros ->.
    + split_and!; [done|done|]. exists (l1 ++ l2). rewrite El2, El1, (assoc_L (++)). split; [done|].
      by rewrite ended_app, Hl1, Hl2, Ef.
  - destruct Hi as [-> Et]. injection H as <- <-. split_and!; [done|done|]. exists []. by rewrite app_nil_r, Et.
Qed.

Lemma check_run_count_reach l l' : reachable (info l) -> reported (info l) (multi l) -> check_run_count l = ret l' ->
  reachable (info l') /\ prev_running l' = still_running l /\ still_running l' = still_running l
  /\ (if prev_running l >? still_running l
      then multi l' = [] /\ exists new, log (info l') = log (info l) ++ new /\ ended new = told (multi l)
      else multi l' = multi l /\ info l' = info l).
Proof.
  intros Hr Hm H. unfold EventLoop.check_run_count in H. apply cbind_ret in H as (l1 & H1 & H). injection H as <-. cbn.
  destruct (prev_running l >? still_running l); [|by injection H1 as <-].
  apply cbind_ret in H1 as ([ms g] & Hrun & H1). injection H1 as <-. cbn.
  apply run_messages_reach in Hrun as (-> & ? & ?); [done|lia|done|done].
Qed.

(** Data leaves the state of every handle. *)
Lemma deliver_reach d g g' : deliver d g = ret g' -> reachable g -> reachable g' /\ forall i, busy g i -> busy g' i.
Proof.
  intros H Hr. unfold deliver in H. destruct d as [i b|i b].
  all: match type of H with match ?x with _ => _ end = _ => destruct x as [[n g1]|] eqn:E; [|discriminate] end; injection H as <-.
  all: split; [eapply reach_step; [exact Hr|]; first [by eapply step_header|by eapply step_content]|].
  all: intros j (h & Hj & Hs); unfold header_write_cb, content_write_cb in E; destruct (m_easyHandles g !! i) as [hi|] eqn:Ei; [|discriminate];
    cbn in E; injection E as _ <-; unfold busy; cbn; destruct (decide (j = i)) as [->|Hne];
    [rewrite list_lookup_insert_eq by (by eapply lookup_lt_Some); eexists; split; [done|]; cbn; congruence
    |rewrite list_lookup_insert_ne by done; eauto].
Qed.

Lemma deliver_all_reach ds : forall g g', deliver_all ds g = ret g' -> reachable g -> reachable g' /\ forall i, busy g i -> busy g' i.
Proof.
  induction ds as [|d ds IH]; intros g g' H Hr; cbn in H; [by injection H as <-|]. apply cbind_ret in H as (g1 & H1 & H).
  destruct (deliver_reach d g g1 H1 Hr) as [Hr1 Hb1]. destruct (IH g1 g' H Hr1) as [Hr' Hb']. split; [done|auto].
Qed.

(** All messages that some calls of libcurl bring. *)
Definition brought (acts : list activity) : list message := mjoin (a_msgs <$> acts).

Lemma socket_action_reach acts : forall l n l', socket_action acts l = ret (n, l') -> reachable (info l) ->
  reachable (info l') /\ (forall i, busy (info l) i -> busy (info l') i) /\ prev_running l' = prev_running l
  /\ exists more, multi l ++ brought acts = multi l' ++ more.
Proof.
  induction acts as [|a acts IH]; intros l n l' H Hr; cbn in H; [discriminate|]. apply cbind_ret in H as (g & Hd & H).
  destruct (deliver_all_reach _ _ _ Hd Hr) as [Hg Hb]. cbn [info set_info] in *. destruct (a_code a =? CURLM_CALL_MULTI_PERFORM).
  - destruct (IH _ _ _ H Hg) as (H1 & H2 & H3 & more & H4). cbn in H2, H3, H4. split_and!; [done|auto|done|]. exists more.
    rewrite <- H4. cbn. by rewrite app_assoc.
  - injection H as <- <-. cbn. split_and!; [done|done|done|]. exists (brought acts). by rewrite app_assoc.
Qed.

Lemma reported_app g ms more : reported g (ms ++ more) -> reported g ms.
Proof.
  unfold reported, finished, told. rewrite omap_app, fmap_app, NoDup_app, Forall_app. tauto.
Qed.

Lemma reported_more (g g' : GlobalInfo) ms : (forall i, busy g i -> busy g' i) -> reported g ms -> reported g' ms.
Proof. intros Hb [Hn Hf]. split; [done|]. eapply Forall_impl; [exact Hf|done]. Qed.

Lemma action_then_check acts l n l1 l2 l' : reachable (info l) -> reported (info l) (multi l ++ brought acts) ->
  socket_action acts l = ret (n, l1) -> info l2 = info l1 -> multi l2 = multi l1 -> check_run_count l2 = ret l' -> reachable (info l').
Proof.
  intros Hr Hm Ha Ei Em Hc. destruct (socket_action_reach acts l n l1 Ha Hr) as (H1 & H2 & _ & more & H4). rewrite H4 in Hm.
  apply reported_app in Hm. apply (check_run_count_reach l2 l'); [by rewrite Ei|rewrite Ei, Em; by eapply reported_more|done].
Qed.

Lemma run_commands_reach cs : forall l l', run_commands NDEBUG max_size UNSET setopt_ok add_handle cs l = ret l' ->
  reachable (info l) -> reachable (info l').
Proof.
  induction cs as [|c cs IH]; intros l l' H Hr; cbn in H; [by injection H as <-|]. apply cbind_ret in H as (l1 & H1 & H).
  eapply IH; [exact H|]. destruct c; cbn in H1; try (by injection H1 as <-).
  apply cbind_ret in H1 as (g & Hg & H1). injection H1 as <-. cbn. eapply reach_step; [exact Hr|]. by apply step_scheduler.
Qed.

(** A callback of the loop. *)
Inductive callback_step (l : loop) : loop -> Prop :=
| cb_timer acts l' : reported (info l) (multi l ++ brought acts) -> timer_cb acts l = ret l' -> callback_step l l'
| cb_multi acts l' : reported (info l) (multi l ++ brought acts) -> multi_cb acts l = ret l' -> callback_step l l'
| cb_scheduler l' : scheduler_cb l = ret l' -> callback_step l l'
| cb_console r l' : on_read_interactive_cb r l = ret l' -> callback_step l l'
| cb_client b k k' c : connection_read_cb NDEBUG max_size b k (classifier (info l)) = val (k', c) ->
    callback_step l (set_info (set_classifier c (info l)) l)
| cb_sigint s : sigint_handler (sigs l) = ret s -> callback_step l (set_sigs s l)
| cb_timer_set ms : callback_step l (set_timer (Some (multi_timer_cb ms)) l).

Inductive loop_reachable : loop -> Prop :=
| lr_start : loop_reachable (loop_new parallel c0 ua)
| lr_step l l' : loop_reachable l -> callback_step l l' -> loop_reachable l'.

Lemma callback_reach l l' : callback_step l l' -> reachable (info l) -> reachable (info l').
Proof.
  intros Hs Hr. destruct Hs as [acts l' Hm H|acts l' Hm H|l' H|r l' H|b k k' c H|s H|ms].
  - unfold EventLoop.timer_cb in H. apply cbind_ret in H as ([n l1] & Ha & H). apply cbind_ret in H as (_ & _ & H).
    by eapply (action_then_check acts (set_timer None l) n l1 l1).
  - unfold EventLoop.multi_cb in H. apply cbind_ret in H as ([n l1] & Ha & H). apply cbind_ret in H as (_ & _ & H). cbn [fst snd] in H.
    eapply (action_then_check acts l n l1); [done|done|exact Ha| | |exact H]; by destruct (still_running l1 <=? 0).
  - unfold EventLoop.scheduler_cb in H. apply cbind_ret in H as (g & Hg & H). injection H as <-.
    destruct (quit_program _); cbn; (eapply reach_step; [exact Hr|]; by apply step_scheduler).
  - destruct r as [b|]; cbn [EventLoop.on_read_interactive_cb] in H; [|by injection H as <-].
    destruct (interactive_process _ _) as [cmds rest]. by eapply run_commands_reach.
  - cbn. eapply reach_step; [exact Hr|]. by eapply step_read.
  - done.
  - done.
Qed.
End Sim.

(** C3: The event loop runs the crawler.  Assume that libcurl reports a transfer
    as done at most once and only a transfer that was started and has not been
    reported ([reported]); apart from that, libcurl, libevent, clients, the
    console and SIGINT do what they like.  Then the crawler inside the loop is in a
    state that its own steps reach (so all that holds of those states,
    politeness included, holds here).  And when the number of running transfers
    has gone down, a [check_run_count] that returns has handed every transfer
    reported as done to its handle, each once, with its report and in the order of
    the reports, and leaves no message; when the number has not gone down,
    messages stay unread and nothing else changes. *)
Theorem loop_simulates {BR : BoostRegex} {MG : Mongo} {PQ : PriorityQueue} {HI : HostIndex} NDEBUG max_size
    C ct_value UNSET EMPTY_ ctype0 setopt_ok add_handle parallel c0 ua l :
  loop_reachable NDEBUG max_size C ct_value UNSET EMPTY_ ctype0 setopt_ok add_handle parallel c0 ua l ->
  reachable NDEBUG max_size C ct_value UNSET EMPTY_ ctype0 setopt_ok add_handle parallel c0 ua (info l)
  /\ forall l', reported (info l) (multi l) ->
       check_run_count NDEBUG max_size C ct_value UNSET EMPTY_ ctype0 setopt_ok add_handle l = ret l' ->
       prev_running l' = still_running l
       /\ if prev_running l >? still_running l
          then multi l' = [] /\ exists new, log (info l') = log (info l) ++ new /\ ended new = told (multi l)
          else multi l' = multi l /\ info l' = info l.
Proof.
  intros Hl. assert (Hr : reachable NDEBUG max_size C ct_value UNSET EMPTY_ ctype0 setopt_ok add_handle parallel c0 ua (info l)).
  { induction Hl as [|l l' _ IH Hs]; [apply reach_start|by eapply callback_reach]. }
  split; [exact Hr|]. intros l' Hm Hc. destruct (check_run_count_reach _ _ _ _ _ _ _ _ _ _ _ _ l l' Hr Hm Hc) as (_ & H1 & _ & H2). done.
Qed.

(** ** Clients *)
Section Server.
Context {BR : BoostRegex} {PQ : PriorityQueue} {HI : HostIndex} {SO : Sockets} (NDEBUG : bool) (max_size : Z).

(** Every connection has its read event and an open socket, and no other
    descriptor has an event. *)
Record server_ok (s : server) : Prop := {
  so_readers : forall fd, fd ∈ readers s <-> is_Some (connections s !! fd);
  so_open : forall fd, is_Some (connections s !! fd) -> fd ∈ socks (sockets s) /\ 0 <= fd <= FD_SETSIZE
}.

Lemma close_fd_open fd n : fd ∈ socks n -> close_fd fd n = (0, set_socks (filter (fun x => x <> fd) (socks n)) n).
Proof. intros H. unfold close_fd. by rewrite bool_decide_eq_true_2. Qed.

(** Destroying the connection of [fd]. *)
Lemma erase_ok fd s : server_ok s -> is_Some (connections s !! fd) ->
  exists s', erase_connection fd s = ret s' /\ server_ok s' /\ connections s' = delete fd (connections s)
    /\ (0 < fd -> fd ∉ socks (sockets s')).
Proof.
  intros [Hr Ho] Hfd. pose proof Hfd as [k Hk]. unfold erase_connection, Connection_delete. rewrite Hk.
  assert (Hrd : forall x, x ∈ readers s ∖ {[fd]} <-> is_Some (delete fd (connections s) !! x)).
  { intros x. rewrite elem_of_difference, elem_of_singleton, Hr. destruct (decide (x = fd)) as [->|Hne].
    - rewrite lookup_delete_eq. split; [by intros [_ []]|by intros [? ?]].
    - rewrite lookup_delete_ne by done. tauto. }
  destruct (fd >? 0) eqn:E; bool_hyps.
  - rewrite close_fd_open by (by apply Ho). cbn. eexists. split; [done|]. split; [|split; [done|]].
    + split; cbn; [done|]. intros x [k' [Hne Hx]%lookup_delete_Some]. destruct (Ho x ltac:(eauto)). split; [by apply list_elem_of_filter|done].
    + cbn. intros _ [Hne _]%list_elem_of_filter. done.
  - cbn. eexists. split; [done|]. split; [|split; [done|lia]].
    split; cbn; [done|]. intros x [k' [Hne Hx]%lookup_delete_Some]. apply Ho. eauto.
Qed.

Lemma Accept_fresh fuel : forall k n fd n', accept_from fuel k n = Some (Value fd, n') ->
  fd = -1 /\ socks n' = socks n /\ errno n' = EAGAIN \/ 0 <= fd /\ (fd ∉ socks n) /\ socks n' = fd :: socks n.
Proof.
  induction fuel as [|fuel IH]; intros k n fd n' H; cbn [accept_from] in H; [discriminate|].
  destruct (accept k (socks n)) as [e|x] eqn:E.
  - destruct ((e =? EPROTO) || (e =? ECONNABORTED)); [by apply IH in H|]. destruct (e =? EAGAIN) eqn:Ea; [|discriminate].
    injection H as <- <-. left. by apply Z.eqb_eq in Ea.
  - injection H as <- <-. right. by destruct (accept_law _ _ _ E).
Qed.

(** The entry for the new descriptor is made; there is never a stale one. *)
Lemma accept_cb_ok fuel la sl s s' : server_ok s -> accept_cb NDEBUG fuel la sl s = ret s' ->
  server_ok s' /\ (connections s' = connections s
    \/ exists fd, 0 <= fd <= FD_SETSIZE /\ connections s !! fd = None /\ connections s' = <[fd := Connection_new]> (connections s)).
Proof.
  intros [Hr Ho] H. unfold accept_cb, Connection_accept, Accept in H.
  destruct (accept_from fuel 0 (sockets s)) as [[[fd|e] n]|] eqn:EA; [|discriminate|discriminate].
  apply Accept_fresh in EA. destruct (sl >? la); [discriminate|]. destruct EA as [(-> & Es & Ee)|(H0 & Hn & Es)].
  - cbn in H. rewrite Ee in H. cbn in H. rewrite orb_true_r in H. cbn in H. injection H as <-. split; [|by left].
    split; cbn; [|by rewrite Es]. intros x. rewrite elem_of_difference, elem_of_singleton, Hr. split; [tauto|].
    intros Hx. split; [done|]. destruct (Ho x Hx). lia.
  - rewrite (proj2 (Z.ltb_ge fd 0)) in H by lia. destruct (fd >? FD_SETSIZE) eqn:EF; bool_hyps.
    + rewrite close_fd_open in H by (rewrite Es; apply list_elem_of_here). cbn in H. unfold Connection_delete in H. cbn in H.
      assert ((fd >? 0) = true) as E0 by (apply Z.gtb_lt; unfold FD_SETSIZE in *; lia). rewrite E0 in H. unfold close_fd in H.
      rewrite bool_decide_eq_false_2 in H by (cbn; intros [? _]%list_elem_of_filter; done). discriminate.
    + assert (Hnone : connections s !! fd = None).
      { destruct (connections s !! fd) eqn:E; [|done]. destruct Hn. apply Ho. eauto. }
      cbn [cbind ret] in H. unfold erase_connection in H. cbn [connections] in H. rewrite Hnone in H. cbn [cbind ret connections readers sockets] in H.
      rewrite Hnone, bool_decide_eq_true_2, orb_true_r in H by done. injection H as <-. cbn [default]. split.
      * split; cbn [connections readers sockets].
        -- intros x. rewrite elem_of_union, elem_of_singleton, Hr. destruct (decide (x = fd)) as [->|Hne].
           ++ rewrite lookup_insert_eq. split; [eauto|by right].
           ++ rewrite lookup_insert_ne by done. tauto.
        -- intros x [k [[<- _]|[Hne Hx]]%lookup_insert_Some]; rewrite Es.
           ++ split; [apply list_elem_of_here|lia].
           ++ destruct (Ho x ltac:(eauto)). split; [by apply list_elem_of_further|done].
      * right. exists fd. split_and!; [lia|lia|done|done].
Qed.

(** Octets change one connection; the end of the input removes it. *)
Lemma client_read_ok fd r c s c' s' : server_ok s -> client_read_cb NDEBUG max_size fd r c s = ret (c', s') ->
  server_ok s' /\ exists b k k', r = Some b /\ connections s !! fd = Some k /\ connection_read_cb NDEBUG max_size b k c = val (k', c')
    /\ connections s' = (if bool_decide (b = []) then delete fd (connections s) else <[fd := k']> (connections s))
    /\ (b = [] -> 0 < fd -> fd ∉ socks (sockets s')).
Proof.
  intros [Hr Ho] H. unfold client_read_cb in H. destruct (connections s !! fd) as [k|] eqn:Hk; [|discriminate].
  destruct r as [b|]; [|discriminate]. apply cbind_ret in H as ([k' c1] & Hread%lift_ret & H). cbn [fst snd] in H.
  assert (Hok : server_ok (mk_server (<[fd := k']> (connections s)) (readers s) (sockets s))).
  { split; cbn; intros x; destruct (decide (x = fd)) as [->|Hne].
    - rewrite lookup_insert_eq, Hr, Hk. split; eauto.
    - by rewrite lookup_insert_ne.
    - intros _. apply Ho. eauto.
    - rewrite lookup_insert_ne by done. apply Ho. }
  destruct (bool_decide (b = [])) eqn:Eb.
  - apply cbind_ret in H as (s1 & He & H). injection H as <- <-.
    destruct (erase_ok fd _ Hok) as (s2 & He' & Hok' & Hc & Hn); [cbn; rewrite lookup_insert_eq; eauto|].
    rewrite He in He'. injection He' as <-. split; [done|]. exists b, k, k'. split_and!; [done|done|done| |done].
    rewrite Hc, Eb. cbn. apply delete_insert_eq.
  - injection H as <- <-. split; [done|]. exists b, k, k'. rewrite Eb. split_and!; try done. by intros ->.
Qed.

(** Accepting and reading, in any order. *)
Inductive server_step (s : server) : server -> Prop :=
| sv_accept fuel la sl s' : accept_cb NDEBUG fuel la sl s = ret s' -> server_step s s'
| sv_read fd r c c' s' : client_read_cb NDEBUG max_size fd r c s = ret (c', s') -> server_step s s'.

Inductive server_reachable (n : net) : server -> Prop :=
| sr_start : server_reachable n (mk_server ∅ ∅ n)
| sr_step s s' : server_reachable n s -> server_step s s' -> server_reachable n s'.

Lemma server_reachable_ok n s : server_reachable n s -> server_ok s.
Proof.
  induction 1 as [|s s' _ IH Hs]; [|destruct Hs; [by eapply accept_cb_ok|by eapply client_read_ok]].
  split; cbn; intros fd; rewrite lookup_empty; [split; [set_solver|by intros [? ?]]|by intros [? ?]].
Qed.
End Server.

(** C22: The table of client connections.  After any sequence of accepted
    connections and of reads, the descriptors with a read event are exactly
    those in the table and their sockets are open; a new connection never meets
    a stale entry; a read changes only its own connection, and at the end of
    its input that connection is removed and its socket closed. *)
Theorem clients_consistent {BR : BoostRegex} {PQ : PriorityQueue} {HI : HostIndex} {SO : Sockets} NDEBUG max_size n s :
  server_reachable NDEBUG max_size n s ->
  (forall fd, fd ∈ readers s <-> is_Some (connections s !! fd))
  /\ (forall fd, is_Some (connections s !! fd) -> fd ∈ socks (sockets s) /\ 0 <= fd <= FD_SETSIZE)
  /\ (forall fuel la sl s', accept_cb NDEBUG fuel la sl s = ret s' -> connections s' = connections s
       \/ exists fd, connections s !! fd = None /\ connections s' = <[fd := Connection_new]> (connections s))
  /\ (forall fd r c c' s', client_read_cb NDEBUG max_size fd r c s = ret (c', s') ->
       exists b k k', r = Some b /\ connections s !! fd = Some k /\ connection_read_cb NDEBUG max_size b k c = val (k', c')
         /\ connections s' = (if bool_decide (b = []) then delete fd (connections s) else <[fd := k']> (connections s))
         /\ (b = [] -> 0 < fd -> fd ∉ socks (sockets s'))).
Proof.
  intros Hs%server_reachable_ok. split_and!; [apply Hs|apply Hs|..].
  - intros fuel la sl s' H. destruct (accept_cb_ok NDEBUG fuel la sl s s' Hs H) as (_ & [?|(fd & _ & ? & ?)]); [by left|right; eauto].
  - intros fd r c c' s' H. by destruct (client_read_ok NDEBUG max_size fd r c s c' s' Hs H) as (_ & ?).
Qed.

(** ** A run of the loop

    A client sends a URL, the scheduler starts the request for robots.txt, and
    libcurl reports that it runs and that it is done. *)
Module Run.
Existing Instance perl_regex.
Import Demo.

Definition l0 : loop := loop_new 1 ∅ (str "bot").
Definition l1 : loop := set_info g1 l0.
Definition get (m : run_ loop) : loop := match m with Some (Ret l) => l | _ => l0 end.
Definition l2 : loop := get (scheduler_cb true 1000 0 (fun _ => true) (fun _ => 0) l1).
Definition runs : activity := mk_activity 0 1 [] [].
Definition ends : activity := mk_activity 0 0 [] [Msg_done 0 not_found].
Definition l3 : loop := get (multi_cb true 1000 C id 0 9 0 (fun _ => true) (fun _ => 0) [runs] l2).
Definition l4 : loop := get (multi_cb true 1000 C id 0 9 0 (fun _ => true) (fun _ => 0) [ends] l3).

Local Abbreviation reach := (loop_reachable true 1000 C id 0 9 0 (fun _ => true) (fun _ => 0) 1 ∅ (str "bot")).

Definition returns (m : run_ loop) : bool := match m with Some (Ret _) => true | _ => false end.

Lemma loop_returns m : returns m = true -> m = ret (get m).
Proof. destruct m as [[]|]; [reflexivity|discriminate..]. Qed.

Lemma loop1 : reach l1.
Proof.
  eapply lr_step; [apply lr_start|]. apply (cb_client _ _ _ _ _ _ _ _ _ l0 input Connection_new (mk_Connection [] 1)).
  vm_compute. reflexivity.
Qed.

Lemma loop2 : reach l2.
Proof. eapply lr_step; [apply loop1|]. apply cb_scheduler, loop_returns. vm_cast_no_check (@eq_refl bool true). Qed.

Lemma loop3 : reach l3.
Proof.
  eapply lr_step; [apply loop2|]. eapply (cb_multi _ _ _ _ _ _ _ _ _ l2 [runs]).
  - assert (multi l2 ++ brought [runs] = []) as ->; [vm_cast_no_check (@eq_refl (list message) [])|]. split; constructor.
  - apply loop_returns. vm_cast_no_check (@eq_refl bool true).
Qed.

Lemma busy3' : from_option h_state IDLE (m_easyHandles (info l3) !! 0%nat) = ROBOTS.
Proof. vm_cast_no_check (@eq_refl handle_state ROBOTS). Qed.

Lemma loop4 : reach l4.
Proof.
  eapply lr_step; [apply loop3|]. eapply (cb_multi _ _ _ _ _ _ _ _ _ l3 [ends]).
  - assert (finished (multi l3 ++ brought [ends]) = [0%nat]) as E; [vm_cast_no_check (@eq_refl (list nat) [0%nat])|].
    unfold reported. rewrite E. split; [apply NoDup_singleton|]. constructor; [|constructor]. pose proof busy3' as Hb.
    destruct (m_easyHandles (info l3) !! 0%nat) as [h|] eqn:Eh; [|discriminate]. exists h. split; [exact Eh|]. cbn in Hb. congruence.
  - apply loop_returns. vm_cast_no_check (@eq_refl bool true).
Qed.

Lemma log4 : ended (log (info l4)) = [(0%nat, not_found)].
Proof. vm_cast_no_check (@eq_refl (list (nat * report)) [(0%nat, not_found)]). Qed.
End Run.

Lemma loop_simulates_witness :
  @reachable perl_regex _ _ _ true 1000 Demo.C id 0 9 0 (fun _ => true) (fun _ => 0) 1 ∅ (str "bot") (info Run.l4)
  /\ ended (log (info Run.l4)) = [(0%nat, Demo.not_found)].
Proof.
  split; [|exact Run.log4].
  destruct (@loop_simulates perl_regex _ _ _ true 1000 Demo.C id 0 9 0 (fun _ => true) (fun _ => 0) 1 ∅ (str "bot") Run.l4 Run.loop4) as [H _].
  exact H.
Defined.

(** One client on a system that accepts at once. *)
Definition demo_server : server := mk_server {[3 := Connection_new]} (∅ ∪ {[3]}) (mk_net [3; 0; 1; 2] 0 0 0).

Lemma clients_consistent_witness : 3 ∈ readers demo_server /\ 3 ∈ socks (sockets demo_server).
Proof.
  assert (Hr : @server_reachable perl_regex _ _ demo_sockets true 1000 (mk_net [0; 1; 2] 0 0 0) demo_server).
  { eapply sr_step; [apply sr_start|]. apply (sv_accept _ _ _ 1 16 16). reflexivity. }
  destruct (@clients_consistent perl_regex _ _ demo_sockets true 1000 (mk_net [0; 1; 2] 0 0 0) demo_server Hr) as (H1 & H2 & _).
  assert (is_Some (connections demo_server !! 3)) as Hs by (exists Connection_new; reflexivity).
  split; [apply H1; exact Hs|apply H2; exact Hs].
Defined.
